(* ===== verification/_CoqProject ===== *)
-Q . S2P
Prelude.v
Text.v
Net.v
Utf8.v
Hoare.v
F32.v
Protocol.v
Policy.v
Framing.v
Planner.v
Recognizer.v
Sdr.v
Autonomy.v
Session.v
Numbers.v
TerminalState.v
Execution.v
SweepPlan.v
SweepGrid.v
ConsoleText.v
ConsoleBasis.v
Console.v
ConsoleSamples.v
ConsoleInvariant.v
ConsoleSafety.v
ConsoleFuel.v
ConsoleStop.v
ConsoleIdle.v
ConsoleOrder.v
ConsoleOptions.v
WebConfig.v
WebAgent.v
Files.v
ConsoleMain.v
WebResults.v
WebSession.v
WebFiles.v
WebOutput.v
WebServer.v
WebSafety.v
WebMain.v
SweepCodec.v
Sigmf.v
SweepRun.v
SweepResult.v
Runner.v
RunnerSafety.v
Agent.v
RunnerSurvey.v
Aggregation.v
FftBench.v
SoftwareSweep.v
RadioConfig.v
RadioTest.v
