(* ===== verification/Prelude.v ===== *)
(** * SDR agent: a verification development for the Raspberry Pi controller

    The program is an agent that watches the radio spectrum with an SDR.  It
    observes the radio, shows a summary to an untrusted planner (a language
    model behind a socket), turns the planner's answer into a plan through a
    policy, obtains an authorization, and drives the radio through a line
    protocol (SDRD).  The development models the Rust library crate
    [raspberry-pi/sdr-agent/controller/src], file by file, the interactive
    console [controller/src/bin/sdr-agent.rs] that an operator runs, the web
    console [web-console/src/main.rs] that starts it for a browser, and the
    test program of [raspberry-pi/p201pro-rust/src].  It proves that the
    policy decides what it is meant to decide, that the radio is touched only
    as an authorized plan says and is always given back, and that the data
    that come out are the data that were captured.

    ** Files and the code they model

    Prelude: results, a state-and-error monad, machine integers, the [guards]
    tactics.  Text: Rust strings as UTF-8 bytes.  Utf8: character boundaries,
    white space, [tail_utf8], [head_utf8], [single_line] (end of
    bin/sdr-agent.rs).  Hoare: weakest preconditions for the monad.  F32:
    binary32 and binary64 as [SpecFloat] values with IEEE rounding and Rust's
    comparisons.  Framing: [take(limit).read_until(b'\n')], shared by all three
    socket clients.

    Protocol (protocol.rs): the data exchanged with the planner, one Module per
    struct with its record [t]; [wf] predicates give the widths of the fields.

    Policy (policy.rs): [validate_request], [validate_response],
    [validate_action]; the records [RequestOk], [LimitsOk] and the inductive
    [ActionOk] are the specification in unbounded arithmetic.

    Planner (planner.rs, lib.rs): the class [Planner], the Unix-socket adapter,
    [Controller.decide].

    Recognizer (recognizer.rs): the recognizer client, with the confinement of
    the IQ file to the spool directory.

    Sdr (sdr.rs): the SDRD wire, the read-only observation, the health summary;
    and the vocabulary of sessions ([Session], [Action], [Sent]) that the two
    executors share.

    Autonomy (autonomy.rs): the budgets and stop reasons of unattended runs, a
    state machine [step] with reachability [reach].

    Execution (execution.rs): authorization, the capture session and its
    cleanup, the observation after it, cancellation, the replay executor.

    SweepPlan (sweep.rs, pure half): plans, frequency expansion, point
    validation, noise floor, candidates, planner observations, [SweepEngine].
    SweepCodec: base64, power sum, dBFS.  Sigmf: the data set writer over a map
    of files.  SweepRun: [run_sdrd_points], the session that acquires the points.
    SweepResult: the theorems on it.

    Runner (runner.rs): [run_once], one audited step of the agent, and the audit
    sinks.  RunnerSafety: which calls a step makes, for every world.
    RunnerSurvey: the policy's survey against the sweep engine's plan.
    Agent (main.rs): the options of the agent and its seven modes, over adapters made
    from the options; Numbers: [str::parse] at the number types.

    Session (bin/sdr-agent.rs): [AppError], the cruise command line
    ([parse_auto_start]), the input queue with the priority stop, the entries of
    the conversation history that may be resumed.  TerminalState: the session file, over a map of
    paths to nodes and a log of system calls.  ConsoleText: access to JSON frames, the texts
    sent to the planner, the web search events.  Console: the record [ConsoleApp]
    and every operation of it, from the session client to [run].  ConsoleSamples:
    two evaluated sessions.  ConsoleInvariant, ConsoleSafety: the invariant of the console and
    what it may do to the radio.  ConsoleFuel: the waits.  ConsoleStop: stopping,
    budgets, answered commands.  Net: socket addresses as Rust parses them.  SweepGrid:
    the grid of an initial survey.  ConsoleOptions: the command line of the console.
    ConsoleBasis: what the operator is shown, and the claims in it.
    ConsoleIdle: the operations of a console without a radio, or without an operator.
    ConsoleOrder: how the lines to the planner session are numbered.
    ConsoleMain: the program, from the command line to the end of its log.

    The web console (web-console/src/main.rs).  WebConfig: the settings of the provider
    and of the initial survey, the models.  WebAgent: the arguments the console is started
    with.  Files: the calls of the file system that follow links, on a tree keyed by
    physical paths.  WebResults: the results in the database and the recordings they
    name.  WebSession: a conversation, its events and their compaction.  WebFiles: the
    files of the settings, of the sessions and of the request of a restarted agent.
    WebOutput: the lines in the output of an agent.  WebServer: the whole as one state
    and a [step] per request, move of an actor and line of output.  WebSafety: the
    invariants of its runs.  WebMain: the program, from its environment to its end.

    Aggregation (p201pro-rust/src/aggregation.rs): the spectrum aggregator, its
    windows and its peaks.  SoftwareSweep (software_sweep.rs): the sweep over the IIO
    attributes, its plan and the restoration of the receiver profile.  RadioConfig
    (main.rs): the options of the test program and the plan they stand for.  RadioTest
    (main.rs): its run, the capture and the statistics.  FftBench (bin/fft_bench.rs): the
    benchmark of the transform and its percentiles.

    ** How the code is represented

    A handler that returns [Result] is a function into [result E A]; one that
    also changes state is in the monad [M S E A], which keeps the state when it
    fails, as Rust keeps a mutable borrow.  Integers are [Z] with the checked,
    saturating and wrapping operations of the code written out; the [wf]
    predicates say what the types guarantee.  Traits are type classes
    ([Planner], [SdrEngine], [SdrActionExecutor], [SweepBackend], [AuditSink],
    [LocalRecognizer]), adapters are their instances, and [Runner] is proved
    against the classes only.

    What is not in the repository is a parameter: serde_json (classes [Json],
    [JsonAccess] and [Deserialize], encoders as arguments), the radio daemon and
    the network (the record [Environment], a function of everything done so far),
    the file system ([Disk], [FileSystem], [System]), the IIO device ([Iio],
    [RadioContext]), the adapters and the input of the agent ([Outside]), the FFT
    ([SpectrumMath]), the clock, and [log10]; for the web console also SQLite ([Sqlite]:
    which statements fail, and fresh row numbers), the URL parser ([UriParser]), curl and
    the serde encodings of its files ([FileCodec], [PlotCodec], [ObservationCodec]).  For the console everything outside
    is the class [World], a function of the log of everything the console did:
    what the planner session sends, what the operator types, when a thread is
    finished and what it returns, the radio's health, the clock.  A theorem about
    an adapter or the console therefore holds for every deterministic behaviour
    of the other side, including failures at any call, truncated and malicious
    replies.

    The console starts hardware in threads.  The model logs the start and the
    join of a thread and lets the world answer what it returned: the console
    shares nothing with a thread, so that this is all it can see of it.  That
    the thread itself behaves is what Execution and SweepRun prove.

    The web console serves requests concurrently under one lock and starts one task per
    terminal.  Each section under the lock is one [Event]; [run] takes any list of events,
    so that its theorems hold for every interleaving.  The gate the tasks wait for and the
    channel of a task (with its capacity) are part of the state.

    ** What the theorems show

    Policy: each validation accepts exactly its specification
    ([validate_request_decides], [validate_action_decides],
    [validate_response_decides]); a plan that [decide] issues is an allowed
    action of a valid request ([decide_safe]).

    Wire: a reply is taken only for the line that answers this request
    ([request_correlates]); observing is read-only; the planner and recognizer
    clients send and accept one bounded line ([planner_adapter_frames],
    [recognizer_is_confined]).

    Sessions: for every behaviour of the daemon a capture and a sweep play a
    prefix of their script and then give the radio back
    ([execute_capture_lifecycle], [sweep_is_bracketed]); results satisfy their
    contract and, for a sweep, are computed from the blocks in the daemon's replies, each
    point from the replies to its own two requests, and these blocks are what is on disk; a
    sweep that fails leaves no file behind on a disk where files can be removed and no foreign
    file has the metadata's name ([sweep_outcome]).

    Sweep data: the plan validation, the expansion, the noise floor and the
    candidates are characterised against declarative specifications; base64 and
    the power sum invert and compute what they should; a data set is complete or
    absent.

    Agent: in one step the radio is touched at most once and only after the
    validated plan and the authorization were logged ([hardware_is_justified]),
    the report and the log agree ([report_matches_audit]), an approved survey
    runs within the budgets the policy computed ([approved_survey_runs]), and an
    unattended run stops exactly for its stated reasons and within its budgets
    ([cruise_stops_exactly], [cruise_within_budgets]).  From the command line on, in
    every mode, at most one call changes the radio, and the options and the input
    warrant it ([agent_calls_are_warranted]).

    Console: whatever happens around it, a hardware action follows a plan the
    policy accepted for a request of the current generation and the operator's
    approval or a running cruise ([console_hardware_is_justified]); a new generation
    forgets all plans ([renewal_fences_old_plans]) and ignores late frames
    ([stale_frames_are_ignored]); a cruise's surveys stay in its byte budget
    ([planned_surveys_stay_in_budget]); a command the session answers returns, however the
    lines are cut into reads and whatever other frames come before the answer
    ([command_is_answered]); the saved session is replaced atomically and read back
    ([saving_is_atomic], [saved_session_is_resumed]).  Two theorems record
    what the console does and should not: while the planner is generating, stopping a sweep
    either leaves it running or ends the console ([stop_cannot_end_a_sweep_mid_cycle]), and a
    capture may start beside a sweep ([captures_may_overlap_sweeps]).  Options that are accepted start an acceptable survey
    ([accepted_surveys_start]).  From the command line on, a console that is given no radio
    touches none, and one that is given an instruction starts no capture and no sweep
    ([console_program_is_safe]); commands, generations and requests are numbered in
    order and the saved history stays bounded ([commands_are_numbered]).  What the operator
    reads as the basis of a decision is true ([decision_basis_is_true]).

    Web console: one agent at a time, with a runtime that belongs to the active session
    ([one_agent_at_a_time]); the initial survey of a session is started at most once in all
    lives of the server, as long as its changes are saved
    ([initial_survey_starts_once]); an accepted command is one bounded line at the end of
    the right queue, with the summary that waits to be carried in front, and is shown as entered
    ([accepted_command_is_queued]); a start that failed blocks the
    session ([failed_start_blocks_commands]).  Settings that were accepted are options
    the agent accepts ([agent_accepts_settings]); a key stays with its URL, in a private
    file that is replaced whole and read back ([saved_keys_stay_with_their_url],
    [settings_are_replaced_whole], [saved_settings_are_loaded]); sessions and results are
    read back ([sessions_survive_a_restart], [stored_results_are_read_back]); deleting a
    result removes nothing outside the capture root ([deletion_stays_in_capture_root]);
    lines do not depend on how the output was cut ([chunks_do_not_matter]).  From its
    environment on, the program tells every running agent to stop and quit while it waits to end,
    if the wait leaves time for it ([web_console_stops_its_agents]).

    Local sweep: the aggregator is a windowed transform of the stream whatever
    the size of the blocks ([push_iq_is_windowed]); a sweep measures every center, from the
    samples refilled at that center and no others, and restores the receiver, or says that it could not
    ([sweep_measures_every_center], [sweep_restores_radio]).  Options that are accepted
    for a sweep leave no gap between the points ([accepted_sweep_covers_range]); a
    capture writes its configuration and nothing else ([captures_stay_in_limits]), ends
    ([capture_ends]) and prints the statistics of the samples it received
    ([full_capture_describes_samples]).  The benchmark prints nearest-rank percentiles
    for every size ([percentile_is_nearest_rank], [every_size_is_reported]).

    ** Fuel and bounds

    [expand_loop] gets 769 rounds, one more than the largest vector the code
    builds ([expand_centers_range] shows it never runs out); the retry loop after
    a capture walks the 21 attempts of the code and always answers
    ([observe_after_release_terminates]); [print_digits] gets 40 digits, and a
    [u64] has at most 20.  The refills of a local sweep are bounded and enough
    ([refills_suffice]).  The loop over a range takes one round per point and one more
    ([range_centers_runs]); the loop of a capture follows the clock, and gets as many
    rounds as the fastest radio can fill buffers in that time ([capture_ends]).  The console waits without a bound: its loops get
    [fuel] rounds and end in the error [Blocked], which nothing turns into another
    result; [fuel_decides_nothing] shows that more fuel never changes a run that was
    not cut off.  Request ids are 64-bit; the theorems on sessions use that a
    connection starts at id 1 and sends fewer than 2000 requests.

    ** Where model and code differ

    The code panics at three places where the definitions answer a value: the
    [unreachable!] after the retry loop, the [unreachable!] of [run_once] and the
    indexing in [merge_candidates]; the first is excluded by a theorem, the
    second by [is_executable], the third by [merge_candidates_spec].  Where a
    panic can happen the model answers [None] or [Panicked].  The
    payloads of the audit events are kept as what their [json!] is built from.
    Metadata written with a data set is kept as a record whose encoding is a
    parameter.  Error texts of the console are the fixed texts of the code, without the
    values that are interpolated in some; most of what is only printed is not
    kept.

    In the web console the sections under the lock are atomic and so are the calls on one
    file; between the calls of one operation nothing else changes the tree.

    Not modelled: of the console the thread that reads the terminal (its queue is) and most
    messages that are only printed; in the web console HTTP routing and server-sent events,
    which the server's library does, and the text of the SQL statements; of the tools the
    lines that list the context or repeat the configuration and the formatting of numbers in
    them; the JavaScript and C++ workers and the C daemon, which are other programs.  The
    texts of the errors of [main] are not kept. *)
From Stdlib Require Export ZArith Lia Sorting.Sorted.
From stdpp Require Export base tactics numbers list strings gmap option.
#[global] Open Scope Z_scope.

(** ** Results

    Rust's [Result<A, E>] and its [?] operator.  The error type comes first so
    that [result E] is a monad in stdpp's sense. *)
Inductive result (E A : Type) : Type :=
| Ok (a : A)
| Err (e : E).
Arguments Ok {E A} a.
Arguments Err {E A} e.

#[global] Instance result_ret {E} : MRet (result E) := fun _ a => Ok a.
#[global] Instance result_bind {E} : MBind (result E) := fun _ _ f m =>
  match m with Ok a => f a | Err e => Err e end.
#[global] Instance result_fmap {E} : FMap (result E) := fun _ _ f m =>
  match m with Ok a => Ok (f a) | Err e => Err e end.

Definition is_none {A} (o : option A) : bool := match o with None => true | Some _ => false end.
(** [Vec::is_empty]. *)
Definition null {A} (l : list A) : bool := match l with [] => true | _ => false end.

Definition is_Ok {E A} (r : result E A) : bool :=
  match r with Ok _ => true | Err _ => false end.

(** [Result::map_err]. *)
Definition map_err {E F A} (f : E -> F) (r : result E A) : result F A :=
  match r with Ok a => Ok a | Err e => Err (f e) end.

(** [Option::ok_or_else]. *)
Definition ok_or {E A} (e : E) (o : option A) : result E A :=
  match o with Some a => Ok a | None => Err e end.

(** [if condition { Ok(()) } else { Err(e) }], the shape of every [require]. *)
Definition ensure {E} (condition : bool) (e : E) : result E unit :=
  if condition then Ok tt else Err e.

(** [if condition { return Err(e) }]. *)
Definition reject_if {E} (condition : bool) (e : E) : result E unit :=
  if condition then Err e else Ok tt.

Lemma bind_Ok {E A B} (m : result E A) (f : A -> result E B) b :
  m ≫= f = Ok b <-> exists a, m = Ok a /\ f a = Ok b.
Proof.
  destruct m as [a|e]; cbn; split.
  - intros H; now exists a.
  - now intros (a' & [= <-] & H).
  - discriminate.
  - now intros (a' & ? & _).
Qed.

Lemma bind_Err {E A B} (m : result E A) (f : A -> result E B) e :
  m ≫= f = Err e <-> m = Err e \/ exists a, m = Ok a /\ f a = Err e.
Proof.
  destruct m as [a|e']; cbn; split.
  - intros H; right; eauto.
  - now intros [[=]|(a' & [= <-] & H)].
  - intros [= <-]; now left.
  - intros [[= <-]|(a' & ? & _)]; [reflexivity|discriminate].
Qed.

Lemma ensure_Ok {E} (c : bool) (e : E) u : ensure c e = Ok u <-> c = true.
Proof. destruct u, c; cbn; split; congruence. Qed.

Lemma reject_if_Ok {E} (c : bool) (e : E) u : reject_if c e = Ok u <-> c = false.
Proof. destruct u, c; cbn; split; congruence. Qed.

Lemma ok_or_Ok {E A} (o : option A) (e : E) a : ok_or e o = Ok a <-> o = Some a.
Proof. destruct o; cbn; split; congruence. Qed.

Lemma map_err_Ok {E F A} (f : E -> F) (m : result E A) a : map_err f m = Ok a <-> m = Ok a.
Proof. destruct m; cbn; split; congruence. Qed.

(** A guard in front of a continuation. *)
Lemma ensure_run {E B} (c : bool) (e : E) (k : result E B) :
  (ensure c e ;; k) = if c then k else Err e.
Proof. now destruct c. Qed.

Lemma reject_run {E B} (c : bool) (e : E) (k : result E B) :
  (reject_if c e ;; k) = if c then Err e else k.
Proof. now destruct c. Qed.

Lemma ensure_seq {E B} (c : bool) (e : E) (k : result E B) b :
  (ensure c e ;; k) = Ok b <-> c = true /\ k = Ok b.
Proof. destruct c; cbn; intuition congruence. Qed.

Lemma reject_seq {E B} (c : bool) (e : E) (k : result E B) b :
  (reject_if c e ;; k) = Ok b <-> c = false /\ k = Ok b.
Proof. destruct c; cbn; intuition congruence. Qed.

Lemma unit_seq {E B} (m : result E unit) (k : result E B) b :
  (m ;; k) = Ok b <-> m = Ok tt /\ k = Ok b.
Proof. destruct m as [[]|]; cbn; intuition congruence. Qed.

Lemma is_Ok_spec {E A} (r : result E A) : is_Ok r = true <-> exists a, r = Ok a.
Proof. destruct r; cbn; split; eauto; [now intros [? [=]] || discriminate..|now intros [? ?]]. Qed.

(** ** State and errors

    A computation that reads and writes a state and may fail; the state is kept
    when it fails, as a mutable borrow is after an early return. *)
Definition M (S E A : Type) : Type := S -> result E A * S.

#[global] Instance M_ret {S E} : MRet (M S E) := fun _ a s => (Ok a, s).
#[global] Instance M_bind {S E} : MBind (M S E) := fun _ _ f m s =>
  match m s with
  | (Ok a, s') => f a s'
  | (Err e, s') => (Err e, s')
  end.

Definition lift {S E A} (r : result E A) : M S E A := fun s => (r, s).
Definition gets {S E A} (f : S -> A) : M S E A := fun s => (Ok (f s), s).
Definition modify {S E} (f : S -> S) : M S E unit := fun s => (Ok tt, f s).
(** Keep the [Result] of a computation as a value: [let r = (|| ...)();]. *)
Definition attempt {S E F A} (m : M S E A) : M S F (result E A) := fun s =>
  let (r, s') := m s in (Ok r, s').
(** The [From] conversion of an error at [?]. *)
Definition map_errM {S E F A} (f : E -> F) (m : M S E A) : M S F A := fun s =>
  let (r, s') := m s in (map_err f r, s').

Lemma bind_run {S E A B} (m : M S E A) (f : A -> M S E B) s :
  (m ≫= f) s = match m s with (Ok a, s') => f a s' | (Err e, s') => (Err e, s') end.
Proof. reflexivity. Qed.

Lemma lift_bind_run {S E A B} (r : result E A) (f : A -> M S E B) s :
  (lift r ≫= f) s = match r with Ok a => f a s | Err e => (Err e, s) end.
Proof. unfold lift. rewrite bind_run. now destruct r. Qed.

(** The runs of a sequence that succeed. *)
Lemma bindM_Ok {S E A B} (m : M S E A) (f : A -> M S E B) s b s' :
  (m ≫= f) s = (Ok b, s') <-> exists a s1, m s = (Ok a, s1) /\ f a s1 = (Ok b, s').
Proof.
  rewrite bind_run. destruct (m s) as [[a|e] s1]; split; eauto; [|discriminate|].
  - now intros (a'&s1'&[= <- <-]&Hf).
  - now intros (a'&s1'&[=]&_).
Qed.

Lemma lift_bind_Ok {S E A B} (r : result E A) (f : A -> M S E B) s b s' :
  (lift r ≫= f) s = (Ok b, s') <-> exists a, r = Ok a /\ f a s = (Ok b, s').
Proof.
  rewrite lift_bind_run. destruct r; split; eauto; [|discriminate|].
  - now intros (a'&[= <-]&Hf).
  - now intros (a'&[=]&_).
Qed.

Lemma lift_run {S E A} (r : result E A) (s : S) : lift r s = (r, s).
Proof. reflexivity. Qed.

(** ** Machine integers

    A [u64] (and every other unsigned width) is a [Z] together with the range
    predicate below; the operations write out what Rust does at the bounds. *)
Definition u8_max : Z := 255.
Definition u16_max : Z := 65535.
Definition u32_max : Z := 4294967295.
Definition u64_max : Z := 18446744073709551615.

Definition is_u (max x : Z) : Prop := 0 <= x <= max.
Abbreviation is_u8 := (is_u u8_max).
Abbreviation is_u16 := (is_u u16_max).
Abbreviation is_u32 := (is_u u32_max).
Abbreviation is_u64 := (is_u u64_max).
Definition is_i16 (x : Z) : Prop := -32768 <= x <= 32767.

(** Plain [a - b] and [a + b] on [u64], as compiled in the release profile. *)
Definition sub64 (a b : Z) : Z := (a - b) mod 2 ^ 64.
Definition add64 (a b : Z) : Z := (a + b) mod 2 ^ 64.

Definition checked_add (a b : Z) : option Z :=
  if a + b <=? u64_max then Some (a + b) else None.
Definition checked_mul (a b : Z) : option Z :=
  if a * b <=? u64_max then Some (a * b) else None.
Definition checked_div (a b : Z) : option Z :=
  if b =? 0 then None else Some (a / b).
Definition saturating_add (a b : Z) : Z := Z.min (a + b) u64_max.
Definition saturating_sub (a b : Z) : Z := Z.max (a - b) 0.
Definition saturating_mul (a b : Z) : Z := Z.min (a * b) u64_max.
(** [u64::div_ceil]. *)
Definition div_ceil (a b : Z) : Z := if a mod b =? 0 then a / b else a / b + 1.
Definition abs_diff (a b : Z) : Z := Z.abs (a - b).

(** [(lo..=hi).contains(&x)]. *)
Definition in_range (lo hi x : Z) : bool := (lo <=? x) && (x <=? hi).

(** [Vec::len] as a [usize]. *)
Definition length_z {A} (l : list A) : Z := Z.of_nat (length l).

Lemma in_range_spec lo hi x : in_range lo hi x = true <-> lo <= x <= hi.
Proof. unfold in_range. rewrite andb_true_iff, !Z.leb_le. reflexivity. Qed.

Lemma sub64_small a b : 0 <= b <= a -> a <= u64_max -> sub64 a b = a - b.
Proof. unfold sub64, u64_max; intros; apply Z.mod_small; lia. Qed.

Lemma div_ceil_add a b : 0 < b -> div_ceil a b = (a + (b - 1)) / b.
Proof.
  intros Hb. unfold div_ceil. pose proof (Z.div_mod a b ltac:(lia)).
  pose proof (Z.mod_pos_bound a b Hb). destruct (Z.eqb_spec (a mod b) 0).
  - apply Z.div_unique with (b - 1); lia.
  - apply Z.div_unique with (a mod b - 1); lia.
Qed.

Lemma checked_add_Some a b c :
  checked_add a b = Some c <-> a + b <= u64_max /\ c = a + b.
Proof. unfold checked_add; case_match; split; intros; simplify_eq; try lia; f_equal; lia. Qed.

Lemma checked_mul_Some a b c :
  checked_mul a b = Some c <-> a * b <= u64_max /\ c = a * b.
Proof. unfold checked_mul; case_match; split; intros; simplify_eq; try lia; f_equal; lia. Qed.

Lemma is_none_spec {A} (o : option A) : is_none o = true <-> o = None.
Proof. now destruct o. Qed.

Lemma null_spec {A} (l : list A) : null l = true <-> l = [].
Proof. now destruct l. Qed.

Lemma null_false {A} (l : list A) : null l = false <-> l <> [].
Proof. now destruct l. Qed.

Lemma length_z_nonneg {A} (l : list A) : 0 <= length_z l.
Proof. unfold length_z; lia. Qed.

(** ** Automation

    [guards] turns the success of a chain of guards into the conjunction of
    the conditions as propositions. *)
Create Rewrite HintDb guards.
#[export] Hint Rewrite @ensure_seq @reject_seq @ensure_Ok @reject_if_Ok @ok_or_Ok
  andb_true_iff andb_false_iff orb_true_iff orb_false_iff negb_true_iff negb_false_iff
  Z.leb_le Z.ltb_lt Z.eqb_eq Z.eqb_neq Z.leb_gt Z.ltb_ge in_range_spec
  bool_decide_eq_true bool_decide_eq_false String.eqb_eq String.eqb_neq
  @is_none_spec @null_spec @null_false : guards.

Ltac guards := autorewrite with guards.
Ltac guards_in H := autorewrite with guards in H.

(** Assignment to a field of a record, given [eta], the eta expansion of the record:
    the projection is replaced by the value. *)
Ltac assign_field eta field :=
  let v := fresh "v" in
  let a := fresh "a" in
  intros v a;
  let b := eval unfold eta in (eta a) in
  match b with context C [field a] => let b' := context C [v] in exact b' end.

(** Case analysis on the first condition the goal (or a hypothesis) branches on. *)
Ltac branch :=
  match goal with
  | |- context [if ?c then _ else _] => destruct c eqn:?
  | |- context [match ?c with _ => _ end] => destruct c eqn:?
  end.
Ltac branch_in H :=
  match type of H with
  | context [if ?c then _ else _] => destruct c eqn:?
  | context [match ?c with _ => _ end] => destruct c eqn:?
  end.

(** ** Bytes *)

(** Induction four elements at a time, for [chunks_exact(4)]. *)
Lemma chunks4_ind {A} (P : list A -> Prop) :
  (forall l, (length l < 4)%nat -> P l) ->
  (forall a b c d l, P l -> P (a :: b :: c :: d :: l)) ->
  forall l, P l.
Proof.
  intros Hshort Hstep l. remember (length l) as n eqn:Hn. revert l Hn.
  induction n as [n IH] using lt_wf_ind. intros l ->.
  destruct l as [|a [|b [|c [|d l]]]]; try (apply Hshort; cbn; lia).
  apply Hstep, (IH (length l)); cbn; lia.
Qed.

(** Induction three elements at a time. *)
Lemma chunks3_ind {A} (P : list A -> Prop) :
  P [] -> (forall a, P [a]) -> (forall a b, P [a; b]) ->
  (forall a b c l, P l -> P (a :: b :: c :: l)) -> forall l, P l.
Proof.
  intros H0 H1 H2 H3. fix IH 1.
  intros [|a [|b [|c l]]]; [exact H0|apply H1|apply H2|apply H3, IH].
Qed.

(** Bits that do not overlap add up. *)
Lemma lor_add_disjoint x y n :
  0 <= n -> x mod 2 ^ n = 0 -> 0 <= y < 2 ^ n -> Z.lor x y = x + y.
Proof.
  intros Hn Hx Hy.
  assert (Hland : Z.land x y = 0).
  { apply Z.bits_inj'. intros k Hk. rewrite Z.land_spec, Z.bits_0.
    destruct (Z.lt_ge_cases k n).
    - now rewrite <- (Z.mod_pow2_bits_low x n k), Hx, Z.bits_0 by lia.
    - rewrite <- (Z.mod_small y (2 ^ n)), Z.mod_pow2_bits_high by lia. apply andb_false_r. }
  rewrite <- Z.lxor_lor by exact Hland. symmetry. now apply Z.add_nocarry_lxor.
Qed.

Lemma land_255 x : Z.land x 255 = x mod 256.
Proof. change 255 with (Z.ones 8). apply Z.land_ones. lia. Qed.

(** [lia] with division and remainder by constants. *)
Ltac lia_div := Z.to_euclidean_division_equations; lia.
