(* ===== verification/Text.v ===== *)
(** * Text

    Rust's [String] and [&str] are byte strings holding valid UTF-8.  The
    development represents them by Rocq's [string] (eight-bit characters, the
    bytes of the encoding), so that [len], equality and prefixes are those of
    the bytes, and decodes them where the code asks for [chars]. *)
From S2P Require Import Prelude.
From Stdlib Require Import Ascii.

Definition byte_of (c : ascii) : Z := Z.of_nat (nat_of_ascii c).
Definition char_of (b : Z) : ascii := ascii_of_nat (Z.to_nat b).

Fixpoint bytes (s : string) : list Z :=
  match s with
  | EmptyString => []
  | String c s => byte_of c :: bytes s
  end.

Fixpoint of_bytes (l : list Z) : string :=
  match l with
  | [] => EmptyString
  | b :: l => String (char_of b) (of_bytes l)
  end.

(** [str::len]: the number of bytes. *)
Definition len (s : string) : Z := length_z (bytes s).
(** [str::is_empty]. *)
Definition is_empty (s : string) : bool := match s with EmptyString => true | _ => false end.

(** ** UTF-8 *)
Definition cont_bits (b : Z) : Z := Z.land b 63.

(** [str::chars]: decode the code points of a valid UTF-8 byte sequence; an
    incomplete sequence, which a Rust string never holds, ends the decoding. *)
Fixpoint decode_utf8 (bs : list Z) : list Z :=
  match bs with
  | [] => []
  | b0 :: r0 =>
      if b0 <? 128 then b0 :: decode_utf8 r0 else
      match r0 with
      | [] => []
      | b1 :: r1 =>
          if b0 <? 224 then
            Z.lor (Z.shiftl (Z.land b0 31) 6) (cont_bits b1) :: decode_utf8 r1
          else
            match r1 with
            | [] => []
            | b2 :: r2 =>
                if b0 <? 240 then
                  Z.lor (Z.shiftl (Z.land b0 15) 12)
                    (Z.lor (Z.shiftl (cont_bits b1) 6) (cont_bits b2)) :: decode_utf8 r2
                else
                  match r2 with
                  | [] => []
                  | b3 :: r3 =>
                      Z.lor (Z.shiftl (Z.land b0 7) 18)
                        (Z.lor (Z.shiftl (cont_bits b1) 12)
                           (Z.lor (Z.shiftl (cont_bits b2) 6) (cont_bits b3)))
                        :: decode_utf8 r3
                  end
            end
      end
  end.

Definition chars (s : string) : list Z := decode_utf8 (bytes s).

(** [char::encode_utf8]. *)
Definition encode_char (c : Z) : list Z :=
  if c <? 128 then [c]
  else if c <? 2048 then [Z.lor 192 (Z.shiftr c 6); Z.lor 128 (cont_bits c)]
  else if c <? 65536 then
    [Z.lor 224 (Z.shiftr c 12); Z.lor 128 (cont_bits (Z.shiftr c 6)); Z.lor 128 (cont_bits c)]
  else
    [Z.lor 240 (Z.shiftr c 18); Z.lor 128 (cont_bits (Z.shiftr c 12));
     Z.lor 128 (cont_bits (Z.shiftr c 6)); Z.lor 128 (cont_bits c)].

Definition encode_utf8 (cs : list Z) : list Z := List.concat (map encode_char cs).
Definition of_chars (cs : list Z) : string := of_bytes (encode_utf8 cs).

(** ** Character classes *)

(** [char::is_whitespace]: Unicode's White_Space property. *)
Definition is_whitespace (c : Z) : bool :=
  in_range 9 13 c || (c =? 32) || (c =? 133) || (c =? 160) || (c =? 5760)
  || in_range 8192 8202 c || (c =? 8232) || (c =? 8233) || (c =? 8239)
  || (c =? 8287) || (c =? 12288).

(** [char::is_control]: Unicode's general category Cc. *)
Definition is_control (c : Z) : bool := in_range 0 31 c || in_range 127 159 c.

(** [u8::is_ascii_alphanumeric]. *)
Definition is_ascii_alphanumeric (b : Z) : bool :=
  in_range 48 57 b || in_range 65 90 b || in_range 97 122 b.
Definition is_ascii_hexdigit (b : Z) : bool :=
  in_range 48 57 b || in_range 65 70 b || in_range 97 102 b.

(** ** Trimming *)
Fixpoint drop_while (p : Z -> bool) (l : list Z) : list Z :=
  match l with
  | [] => []
  | c :: l' => if p c then drop_while p l' else l
  end.

Definition trim_chars (cs : list Z) : list Z :=
  rev (drop_while is_whitespace (rev (drop_while is_whitespace cs))).

(** [str::trim]. *)
Definition trim (s : string) : string := of_chars (trim_chars (chars s)).

Lemma is_empty_spec s : is_empty s = true <-> s = EmptyString.
Proof. destruct s; cbn; split; congruence. Qed.

Lemma drop_while_nil p l : drop_while p l = [] <-> forallb p l = true.
Proof.
  induction l as [|c l IH]; cbn; [easy|].
  destruct (p c); cbn; [exact IH|split; discriminate].
Qed.

Lemma drop_while_head p l c r : drop_while p l = c :: r -> p c = false.
Proof.
  induction l as [|d l IH]; cbn; [discriminate|].
  destruct (p d) eqn:E; [exact IH|]. congruence.
Qed.

Lemma trim_chars_nil cs : trim_chars cs = [] <-> forallb is_whitespace cs = true.
Proof.
  unfold trim_chars. rewrite <- drop_while_nil.
  destruct (drop_while is_whitespace cs) as [|c r] eqn:E; [easy|].
  split; [|discriminate]. intros H.
  apply (f_equal (@rev Z)) in H. rewrite rev_involutive in H. cbn in H.
  apply drop_while_nil in H. rewrite forallb_app in H. cbn in H.
  apply drop_while_head in E. rewrite E in H. rewrite andb_false_r in H. discriminate.
Qed.

Lemma encode_char_nonempty c : encode_char c <> [].
Proof. unfold encode_char. repeat case_match; discriminate. Qed.

Lemma of_chars_empty cs : of_chars cs = EmptyString <-> cs = [].
Proof.
  split; [|now intros ->].
  destruct cs as [|c cs]; [easy|]. unfold of_chars, encode_utf8; cbn.
  pose proof (encode_char_nonempty c).
  destruct (encode_char c); [easy|discriminate].
Qed.

(** [s.trim().is_empty()] holds exactly when every character is white space. *)
Lemma trim_is_empty s : is_empty (trim s) = forallb is_whitespace (chars s).
Proof.
  apply eq_iff_eq_true. rewrite is_empty_spec. unfold trim.
  rewrite of_chars_empty. apply trim_chars_nil.
Qed.

(** ** Decimal numbers: [u64::to_string] and [{}] of an integer. *)
Definition digit (d : Z) : ascii := char_of (48 + d).

Fixpoint print_digits (fuel : nat) (n : Z) (acc : string) : string :=
  match fuel with
  | O => acc
  | S fuel =>
      let acc := String (digit (n mod 10)) acc in
      if n / 10 =? 0 then acc else print_digits fuel (n / 10) acc
  end.

(** Twenty digits hold every [u64] (its largest has twenty); forty hold every [u128]. *)
Definition print_u (n : Z) : string := print_digits 40 n EmptyString.
Definition print_i (n : Z) : string :=
  if n <? 0 then String "-" (print_u (- n)) else print_u n.

Example print_u_example : print_u 2400000000 = "2400000000"%string.
Proof. reflexivity. Qed.

(** ** Searching: [str::starts_with] and [str::contains] *)
Definition starts_with (pattern s : string) : bool := String.prefix pattern s.

Fixpoint contains (pattern s : string) : bool :=
  String.prefix pattern s
  || match s with EmptyString => false | String _ s => contains pattern s end.

(** ** Bytes and characters *)
Lemma byte_of_char_of b : 0 <= b <= 255 -> byte_of (char_of b) = b.
Proof.
  intros Hb. unfold byte_of, char_of. rewrite nat_ascii_embedding by lia. lia.
Qed.

Lemma bytes_of_bytes l : Forall (fun b => 0 <= b <= 255) l -> bytes (of_bytes l) = l.
Proof. induction 1 as [|b l Hb Hl IH]; cbn; [reflexivity|]. now rewrite byte_of_char_of, IH. Qed.

Lemma byte_range c : 0 <= byte_of c <= 255.
Proof. unfold byte_of. pose proof (nat_ascii_bounded c). lia. Qed.

Lemma bytes_range s : Forall (fun b => 0 <= b <= 255) (bytes s).
Proof. induction s as [|c s IH]; cbn; constructor; auto. apply byte_range. Qed.

(** ** What a printed number looks like *)
Lemma bytes_app s t : bytes (s +:+ t) = bytes s ++ bytes t.
Proof.
  induction s as [|c s IH]; [reflexivity|].
  change (byte_of c :: bytes (s +:+ t) = byte_of c :: (bytes s ++ bytes t)). now rewrite IH.
Qed.

Lemma len_app s t : len (s +:+ t) = len s + len t.
Proof. unfold len, length_z. rewrite bytes_app, length_app. lia. Qed.

Lemma print_digits_bytes fuel k n acc :
  0 <= n < 10 ^ Z.of_nat (S k) ->
  exists ds, bytes (print_digits fuel n acc) = ds ++ bytes acc
  /\ Forall (fun b => 48 <= b <= 57) ds /\ (length ds <= S k)%nat.
Proof.
  revert k n acc. induction fuel as [|fuel IH]; intros k n acc Hn.
  - exists []. split; [reflexivity|]. split; [constructor|cbn; lia].
  - cbn [print_digits].
    assert (Hd : byte_of (digit (n mod 10)) = 48 + n mod 10).
    { apply byte_of_char_of. pose proof (Z.mod_pos_bound n 10). lia. }
    pose proof (Z.mod_pos_bound n 10 ltac:(lia)) as Hmod.
    destruct (Z.eqb_spec (n / 10) 0) as [Hz|Hz].
    + exists [48 + n mod 10]. cbn. rewrite Hd. split; [reflexivity|].
      split; [repeat constructor; lia|lia].
    + destruct k as [|k].
      { exfalso. change (10 ^ Z.of_nat 1) with 10 in Hn. apply Hz. apply Z.div_small. lia. }
      destruct (IH k (n / 10) (String (digit (n mod 10)) acc)) as (ds&E&Hf&Hl).
      { split; [apply Z.div_pos; lia|]. apply Z.div_lt_upper_bound; [lia|].
        replace (10 * 10 ^ Z.of_nat (S k)) with (10 ^ Z.of_nat (S (S k))); [lia|].
        rewrite (Nat2Z.inj_succ (S k)), Z.pow_succ_r by lia. reflexivity. }
      exists (ds ++ [48 + n mod 10]). rewrite E. cbn [bytes]. rewrite Hd, <- app_assoc.
      split; [reflexivity|]. split; [apply Forall_app; split; [exact Hf|]; repeat constructor; lia|].
      rewrite length_app. cbn. lia.
Qed.

(** A printed [u64] has at most twenty digits and nothing else. *)
Lemma print_u_digits n :
  is_u64 n -> Forall (fun b => 48 <= b <= 57) (bytes (print_u n)) /\ len (print_u n) <= 20.
Proof.
  intros Hn. destruct (print_digits_bytes 40 19 n EmptyString) as (ds&E&Hf&Hl).
  { unfold is_u, u64_max in Hn. change (10 ^ Z.of_nat 20) with 100000000000000000000. lia. }
  cbn [bytes] in E. rewrite app_nil_r in E. unfold print_u, len, length_z.
  rewrite E. split; [exact Hf|lia].
Qed.
