(* ===== verification/Net.v ===== *)
(** * Socket addresses

    What [str::parse::<SocketAddr>] of the Rust standard library accepts: the
    recursive descent of [core::net::parser] over the bytes of the text. *)
From S2P Require Import Prelude Text.

(** An address with its port; the scope of an IPv6 address is a [u32]. *)
Module SocketAddr.
Inductive t :=
| V4 (octets : list Z) (port : Z)
| V6 (groups : list Z) (scope_id port : Z).
#[global] Instance t_eq_dec : EqDecision t.
Proof. solve_decision. Defined.
End SocketAddr.

Section Parser.
Implicit Types bs : list Z.

(** A parser returns what it read and the rest; a failed one reads nothing. *)
Definition given_char (c : Z) bs : option (list Z) :=
  match bs with b :: bs => if b =? c then Some bs else None | [] => None end.

Definition to_digit (radix b : Z) : option Z :=
  let d :=
    if in_range 48 57 b then b - 48
    else if in_range 97 122 b then b - 97 + 10
    else if in_range 65 90 b then b - 65 + 10
    else radix in
  if d <? radix then Some d else None.

(** The digits in front, their number and their value. *)
Fixpoint read_digits (radix : Z) bs (count value : Z) : Z * Z * list Z :=
  match bs with
  | b :: rest =>
      match to_digit radix b with
      | Some d => read_digits radix rest (count + 1) (value * radix + d)
      | None => (count, value, bs)
      end
  | [] => (count, value, [])
  end.

(** [read_number]: at most [max_digits] digits, at most [maximum]. *)
Definition read_number (radix : Z) (max_digits : option Z) (allow_zero_prefix : bool) (maximum : Z) bs
    : option (Z * list Z) :=
  let has_leading_zero := match bs with b :: _ => b =? 48 | [] => false end in
  let '(count, value, rest) := read_digits radix bs 0 0 in
  if match max_digits with Some limit => limit <? count | None => false end then None
  else if maximum <? value then None
  else if count =? 0 then None
  else if negb allow_zero_prefix && has_leading_zero && (1 <? count) then None
  else Some (value, rest).

(** [read_separator]: the separator is read in front of every item but the first. *)
Definition read_separator {A} (separator : Z) (index : nat) (inner : list Z -> option (A * list Z)) bs
    : option (A * list Z) :=
  match index with
  | O => inner bs
  | S _ => bs ← given_char separator bs ; inner bs
  end.

Definition u8_max : Z := 255.
Definition read_octet : list Z -> option (Z * list Z) := read_number 10 (Some 3) false u8_max.
Definition read_ipv4_addr bs : option (list Z * list Z) :=
  '(a, bs) ← read_octet bs ;
  '(b, bs) ← read_separator 46 1 read_octet bs ;
  '(c, bs) ← read_separator 46 2 read_octet bs ;
  '(d, bs) ← read_separator 46 3 read_octet bs ;
  Some ([a; b; c; d], bs).

Definition read_group : list Z -> option (Z * list Z) := read_number 16 (Some 4) true u16_max.

(** [read_groups]: up to [limit] groups from index [i] on; an embedded IPv4
    address stands for the last two of them. *)
Fixpoint read_groups (room i : nat) bs : list Z * bool * list Z :=
  match room with
  | O => ([], false, bs)
  | S room =>
      match (match room with O => None | S _ => read_separator 58 i read_ipv4_addr bs end) with
      | Some ([a; b; c; d], rest) => ([a * 256 + b; c * 256 + d], true, rest)
      | _ =>
          match read_separator 58 i read_group bs with
          | Some (group, rest) =>
              let '(groups, ipv4, rest) := read_groups room (S i) rest in (group :: groups, ipv4, rest)
          | None => ([], false, bs)
          end
      end
  end.

Definition read_ipv6_addr bs : option (list Z * list Z) :=
  let '(head, ipv4, bs) := read_groups 8 0 bs in
  if (length head =? 8)%nat then Some (head, bs)
  else if ipv4 then None
  else
    bs ← given_char 58 bs ;
    bs ← given_char 58 bs ;
    let '(tail, _, bs) := read_groups (8 - (length head + 1)) 0 bs in
    Some (head ++ replicate (8 - length head - length tail) 0 ++ tail, bs).

Definition read_port bs : option (Z * list Z) :=
  bs ← given_char 58 bs ; read_number 10 None true u16_max bs.
Definition read_scope_id bs : option (Z * list Z) :=
  bs ← given_char 37 bs ; read_number 10 None true u32_max bs.

Definition read_socket_addr_v4 bs : option (SocketAddr.t * list Z) :=
  '(octets, bs) ← read_ipv4_addr bs ;
  '(port, bs) ← read_port bs ;
  Some (SocketAddr.V4 octets port, bs).
Definition read_socket_addr_v6 bs : option (SocketAddr.t * list Z) :=
  bs ← given_char 91 bs ;
  '(groups, bs) ← read_ipv6_addr bs ;
  let '(scope_id, bs) := default (0, bs) (read_scope_id bs) in
  bs ← given_char 93 bs ;
  '(port, bs) ← read_port bs ;
  Some (SocketAddr.V6 groups scope_id port, bs).

(** [parse]: the whole text is the address. *)
Definition parse_socket_addr (s : string) : option SocketAddr.t :=
  match
    match read_socket_addr_v4 (bytes s) with
    | Some r => Some r
    | None => read_socket_addr_v6 (bytes s)
    end
  with
  | Some (address, []) => Some address
  | _ => None
  end.
End Parser.

Example parse_v4 : parse_socket_addr "192.168.1.10:43110"
  = Some (SocketAddr.V4 [192; 168; 1; 10] 43110).
Proof. reflexivity. Qed.
Example parse_v6 : parse_socket_addr "[2001:db8::7%2]:080"
  = Some (SocketAddr.V6 [8193; 3512; 0; 0; 0; 0; 0; 7] 2 80).
Proof. reflexivity. Qed.
Example parse_v6_v4 : parse_socket_addr "[::ffff:10.0.0.1]:1"
  = Some (SocketAddr.V6 [0; 0; 0; 0; 0; 65535; 2560; 1] 0 1).
Proof. reflexivity. Qed.
Example parse_refused :
  map parse_socket_addr ["localhost:80"; "1.2.3.4"; "1.2.3.04:5"; "1.2.3.4:65536"; "256.1.1.1:1"; "[::1]"]%string
  = [None; None; None; None; None; None].
Proof. reflexivity. Qed.
