(* ===== verification/Utf8.v ===== *)
(** * UTF-8

    What the terminal does with text: white space is squeezed, control
    characters are replaced and texts are cut to a number of bytes, always at a
    character boundary ([controller/src/bin/sdr-agent.rs], lines 2780 to 2850).
    The lemmas say that decoding inverts encoding, and that the cuts keep whole
    characters. *)
From S2P Require Import Prelude Text.

(** ** Definitions *)

(** The range of a [char] (surrogates, which no Rust string holds, included). *)
Definition is_char (c : Z) : Prop := 0 <= c <= 1114111.
(** A string that holds an encoding of characters, as every Rust string does. *)
Definition utf8 (s : string) : Prop := exists cs, Forall is_char cs /\ s = of_chars cs.

(** A byte that continues a character: [str::is_char_boundary] is false at it. *)
Definition is_continuation (b : Z) : bool := in_range 128 191 b.
Definition is_char_boundary (bs : list Z) (i : nat) : bool :=
  (i =? 0)%nat || match bs !! i with
                  | Some b => negb (is_continuation b)
                  | None => (i =? length bs)%nat
                  end.

(** The loop [while start < len && !is_char_boundary(start) { start += 1 }],
    [fuel] bytes before the end. *)
Fixpoint forward (fuel : nat) (bs : list Z) (start : nat) : nat :=
  match fuel with
  | O => start
  | S fuel =>
      if (start <? length bs)%nat && negb (is_char_boundary bs start)
      then forward fuel bs (S start) else start
  end.

Definition tail_utf8 (value : string) (maximum_bytes : nat) : string :=
  let bs := bytes value in
  if (length bs <=? maximum_bytes)%nat then value
  else of_bytes (drop (forward (length bs) bs (length bs - maximum_bytes)) bs).

(** The loop [while end > 0 && !is_char_boundary(end) { end -= 1 }]. *)
Fixpoint backward (bs : list Z) (end_ : nat) : nat :=
  match end_ with
  | O => O
  | S e => if negb (is_char_boundary bs end_) then backward bs e else end_
  end.

Definition head_utf8 (value : string) (maximum_bytes : nat) : string :=
  let bs := bytes value in
  if (length bs <=? maximum_bytes)%nat then value
  else of_bytes (take (backward bs maximum_bytes) bs).

(** [str::split_whitespace] on characters: the maximal runs of other
    characters; [word] is the one being read, reversed. *)
Fixpoint split_words (cs : list Z) (word : list Z) : list (list Z) :=
  match cs with
  | [] => if null word then [] else [rev word]
  | c :: cs =>
      if is_whitespace c then
        if null word then split_words cs [] else rev word :: split_words cs []
      else split_words cs (c :: word)
  end.

Definition split_whitespace (s : string) : list string :=
  map of_chars (split_words (chars s) []).

(** [[String]::join]. *)
Fixpoint join (separator : string) (parts : list string) : string :=
  match parts with
  | [] => EmptyString
  | [part] => part
  | part :: parts => part +:+ separator +:+ join separator parts
  end.

Definition single_line (value : string) : string := join " " (split_whitespace value).

(** [s.chars().any(char::is_control)]. *)
Definition has_control (s : string) : bool := existsb is_control (chars s).

(** ** Decoding inverts encoding *)
Lemma encode_char_arith c :
  is_char c ->
  encode_char c =
    if c <? 128 then [c]
    else if c <? 2048 then [192 + c / 64; 128 + c mod 64]
    else if c <? 65536 then [224 + c / 4096; 128 + c / 64 mod 64; 128 + c mod 64]
    else [240 + c / 262144; 128 + c / 4096 mod 64; 128 + c / 64 mod 64; 128 + c mod 64].
Proof.
  unfold is_char, encode_char, cont_bits. intros Hc.
  rewrite !Z.shiftr_div_pow2 by lia. change 63 with (Z.ones 6). rewrite !Z.land_ones by lia.
  change (2 ^ 6) with 64. change (2 ^ 12) with 4096. change (2 ^ 18) with 262144.
  rewrite !(lor_add_disjoint 128 _ 6) by (reflexivity || lia || (apply Z.mod_pos_bound; lia)).
  destruct (Z.ltb_spec c 128); [reflexivity|].
  destruct (Z.ltb_spec c 2048).
  { rewrite (lor_add_disjoint 192 _ 6) by (reflexivity || lia || lia_div). reflexivity. }
  destruct (Z.ltb_spec c 65536).
  { rewrite (lor_add_disjoint 224 _ 4) by (reflexivity || lia || lia_div). reflexivity. }
  rewrite (lor_add_disjoint 240 _ 3) by (reflexivity || lia || lia_div). reflexivity.
Qed.

Lemma decode_lead lead x n :
  0 <= x < 2 ^ n -> 0 <= n -> lead mod 2 ^ n = 0 -> Z.land (lead + x) (Z.ones n) = x.
Proof.
  intros Hx Hn Hl. rewrite Z.land_ones by exact Hn.
  rewrite Zplus_mod, Hl, Z.add_0_l, Zmod_mod. now apply Z.mod_small.
Qed.

Lemma cont_bits_add x : cont_bits (128 + x mod 64) = x mod 64.
Proof.
  unfold cont_bits. change 63 with (Z.ones 6).
  apply decode_lead; [apply Z.mod_pos_bound; reflexivity|lia|reflexivity].
Qed.

Lemma glue a b n : 0 <= n -> 0 <= b < 2 ^ n -> Z.lor (Z.shiftl a n) b = a * 2 ^ n + b.
Proof.
  intros Hn Hb. rewrite Z.shiftl_mul_pow2 by exact Hn.
  apply (lor_add_disjoint _ _ n); [exact Hn| |exact Hb]. apply Z.mod_mul. lia.
Qed.

Lemma decode_encode_char c l : is_char c -> decode_utf8 (encode_char c ++ l) = c :: decode_utf8 l.
Proof.
  intros Hc. rewrite encode_char_arith by exact Hc. unfold is_char in Hc.
  destruct (Z.ltb_spec c 128) as [H1|H1].
  { cbn. destruct (Z.ltb_spec c 128); [reflexivity|lia]. }
  destruct (Z.ltb_spec c 2048) as [H2|H2].
  { cbn -[Z.add Z.div Z.modulo Z.lor Z.shiftl Z.land].
    destruct (Z.ltb_spec (192 + c / 64) 128); [lia_div|].
    destruct (Z.ltb_spec (192 + c / 64) 224); [|lia_div].
    rewrite cont_bits_add. change 31 with (Z.ones 5).
    rewrite decode_lead by (reflexivity || lia || lia_div).
    rewrite glue by (lia || (apply Z.mod_pos_bound; lia)). f_equal. lia_div. }
  destruct (Z.ltb_spec c 65536) as [H3|H3].
  { cbn -[Z.add Z.div Z.modulo Z.lor Z.shiftl Z.land].
    destruct (Z.ltb_spec (224 + c / 4096) 128); [lia_div|].
    destruct (Z.ltb_spec (224 + c / 4096) 224); [lia_div|].
    destruct (Z.ltb_spec (224 + c / 4096) 240); [|lia_div].
    rewrite !cont_bits_add. change 15 with (Z.ones 4).
    rewrite decode_lead by (reflexivity || lia || lia_div).
    rewrite (glue (c / 64 mod 64)) by (lia || (apply Z.mod_pos_bound; lia)).
    rewrite glue by (lia || lia_div). f_equal. lia_div. }
  cbn -[Z.add Z.div Z.modulo Z.lor Z.shiftl Z.land].
  destruct (Z.ltb_spec (240 + c / 262144) 128); [lia_div|].
  destruct (Z.ltb_spec (240 + c / 262144) 224); [lia_div|].
  destruct (Z.ltb_spec (240 + c / 262144) 240); [lia_div|].
  rewrite !cont_bits_add. change 7 with (Z.ones 3).
  rewrite decode_lead by (reflexivity || lia || lia_div).
  rewrite (glue (c / 64 mod 64)) by (lia || (apply Z.mod_pos_bound; lia)).
  rewrite (glue (c / 4096 mod 64)) by (lia || lia_div).
  rewrite glue by (lia || lia_div). f_equal. lia_div.
Qed.

Lemma decode_encode cs : Forall is_char cs -> decode_utf8 (encode_utf8 cs) = cs.
Proof.
  induction 1 as [|c cs Hc Hcs IH]; [reflexivity|].
  change (encode_utf8 (c :: cs)) with (encode_char c ++ encode_utf8 cs).
  now rewrite decode_encode_char, IH.
Qed.

Lemma encode_char_range c : is_char c -> Forall (fun b => 0 <= b <= 255) (encode_char c).
Proof.
  intros Hc. rewrite encode_char_arith by exact Hc. unfold is_char in Hc.
  destruct (Z.ltb_spec c 128), (Z.ltb_spec c 2048), (Z.ltb_spec c 65536);
    repeat constructor; lia_div.
Qed.

Lemma encode_range cs : Forall is_char cs -> Forall (fun b => 0 <= b <= 255) (encode_utf8 cs).
Proof.
  induction 1 as [|c cs Hc Hcs IH]; [constructor|].
  apply Forall_app. split; [now apply encode_char_range|exact IH].
Qed.

Lemma bytes_of_chars cs : Forall is_char cs -> bytes (of_chars cs) = encode_utf8 cs.
Proof. intros H. apply bytes_of_bytes, encode_range, H. Qed.

Lemma chars_of_chars cs : Forall is_char cs -> chars (of_chars cs) = cs.
Proof. intros H. unfold chars. rewrite bytes_of_chars by exact H. now apply decode_encode. Qed.

(** ** Strings and their characters *)
Lemma of_bytes_bytes s : of_bytes (bytes s) = s.
Proof.
  induction s as [|c s IH]; [reflexivity|]. cbn. rewrite IH. f_equal.
  unfold char_of, byte_of. rewrite Nat2Z.id. apply Ascii.ascii_nat_embedding.
Qed.

Lemma bytes_inj s t : bytes s = bytes t -> s = t.
Proof. intros H. rewrite <- (of_bytes_bytes s), H. apply of_bytes_bytes. Qed.

Lemma of_bytes_app l1 l2 : of_bytes (l1 ++ l2) = of_bytes l1 +:+ of_bytes l2.
Proof. induction l1 as [|b l1 IH]; [reflexivity|]. cbn. now rewrite IH. Qed.

Lemma encode_utf8_app cs1 cs2 : encode_utf8 (cs1 ++ cs2) = encode_utf8 cs1 ++ encode_utf8 cs2.
Proof. unfold encode_utf8. now rewrite map_app, List.concat_app. Qed.

Lemma of_chars_app cs1 cs2 : of_chars (cs1 ++ cs2) = of_chars cs1 +:+ of_chars cs2.
Proof. unfold of_chars. now rewrite encode_utf8_app, of_bytes_app. Qed.

Lemma utf8_of_chars cs : Forall is_char cs -> utf8 (of_chars cs).
Proof. intros H. now exists cs. Qed.

Lemma utf8_chars s : utf8 s -> s = of_chars (chars s) /\ Forall is_char (chars s).
Proof. intros (cs&H&->). now rewrite chars_of_chars. Qed.

Lemma utf8_app s t : utf8 s -> utf8 t -> utf8 (s +:+ t).
Proof.
  intros (cs&Hcs&->) (ds&Hds&->). exists (cs ++ ds).
  split; [now apply Forall_app|now rewrite of_chars_app].
Qed.

Lemma chars_app s t : utf8 s -> utf8 t -> chars (s +:+ t) = chars s ++ chars t.
Proof.
  intros (cs&Hcs&->) (ds&Hds&->). rewrite <- of_chars_app, !chars_of_chars; auto.
  now apply Forall_app.
Qed.

(** An ASCII string is its own encoding. *)
Lemma ascii_chars bs : Forall (fun b => 0 <= b <= 127) bs -> encode_utf8 bs = bs.
Proof.
  induction 1 as [|b bs Hb Hbs IH]; [reflexivity|].
  change (encode_char b ++ encode_utf8 bs = b :: bs). rewrite IH. unfold encode_char.
  destruct (Z.ltb_spec b 128); [reflexivity|lia].
Qed.

(** ** Cutting at boundaries *)
Lemma encode_char_boundaries c i :
  is_char c -> (0 < i < length (encode_char c))%nat ->
  exists b, encode_char c !! i = Some b /\ is_continuation b = true.
Proof.
  intros Hc. rewrite encode_char_arith by exact Hc. unfold is_char in Hc. unfold is_continuation.
  destruct (Z.ltb_spec c 128), (Z.ltb_spec c 2048), (Z.ltb_spec c 65536);
    cbn [length]; intros Hi; (assert (i = 1 \/ i = 2 \/ i = 3)%nat as [->|[->| ->]] by lia);
    try lia; (eexists; split; [reflexivity|]); apply in_range_spec; lia_div.
Qed.

Lemma boundary_splits cs i :
  Forall is_char cs -> (i <= length (encode_utf8 cs))%nat ->
  is_char_boundary (encode_utf8 cs) i = true ->
  exists k, take i (encode_utf8 cs) = encode_utf8 (take k cs)
            /\ drop i (encode_utf8 cs) = encode_utf8 (drop k cs).
Proof.
  intros Hcs. revert i. induction Hcs as [|c cs Hc Hcs IH]; intros i Hi Hb.
  { exists O. cbn in *. now destruct i. }
  destruct (decide (i = O)) as [->|Hi0]; [now exists O|].
  change (encode_utf8 (c :: cs)) with (encode_char c ++ encode_utf8 cs) in *.
  destruct (decide (i < length (encode_char c))%nat) as [Hin|Hout].
  { exfalso. destruct (encode_char_boundaries c i Hc ltac:(lia)) as (b&Hlook&Hcont).
    unfold is_char_boundary in Hb. rewrite (lookup_app_l_Some _ _ _ _ Hlook), Hcont in Hb.
    cbn in Hb. rewrite orb_false_r in Hb. apply Nat.eqb_eq in Hb. lia. }
  rewrite length_app in Hi.
  destruct (IH (i - length (encode_char c))%nat) as (k&Ht&Hd); [lia| |].
  { unfold is_char_boundary in *. rewrite lookup_app_r in Hb by lia. rewrite length_app in Hb.
    destruct (encode_utf8 cs !! (i - length (encode_char c))%nat).
    - destruct (Nat.eqb_spec i 0); [lia|]. cbn in Hb. rewrite Hb. apply orb_true_r.
    - apply orb_true_iff in Hb as [Hb|Hb]; apply Nat.eqb_eq in Hb; [lia|].
      apply orb_true_iff. right. apply Nat.eqb_eq. lia. }
  exists (S k). cbn [take drop].
  change (encode_utf8 (c :: take k cs)) with (encode_char c ++ encode_utf8 (take k cs)).
  rewrite take_app_ge, drop_app_ge by lia. rewrite Ht, Hd. split; reflexivity.
Qed.

Lemma backward_spec bs e :
  (backward bs e <= e)%nat /\ is_char_boundary bs (backward bs e) = true.
Proof.
  induction e as [|e [IHl IHb]]; [now split|]. cbn [backward].
  destruct (is_char_boundary bs (S e)) eqn:E; cbn [negb]; [split; [lia|exact E]|].
  split; [lia|exact IHb].
Qed.

Lemma forward_spec fuel bs start :
  (start <= length bs)%nat -> (length bs <= start + fuel)%nat ->
  (start <= forward fuel bs start <= length bs)%nat
  /\ is_char_boundary bs (forward fuel bs start) = true.
Proof.
  revert start. induction fuel as [|fuel IH]; intros start Hs Hf; cbn [forward].
  - split; [lia|]. unfold is_char_boundary. rewrite lookup_ge_None_2 by lia.
    apply orb_true_iff. right. apply Nat.eqb_eq. lia.
  - destruct (Nat.ltb_spec start (length bs)) as [Hlt|Hge]; cbn [andb].
    + destruct (is_char_boundary bs start) eqn:E; cbn [negb]; [split; [lia|exact E]|].
      destruct (IH (S start)) as [H1 H2]; [lia|lia|]. split; [lia|exact H2].
    + split; [lia|]. unfold is_char_boundary. rewrite lookup_ge_None_2 by lia.
      apply orb_true_iff. right. apply Nat.eqb_eq. lia.
Qed.

Lemma length_of_bytes l : length (bytes (of_bytes l)) = length l.
Proof. induction l as [|b l IH]; [reflexivity|]. cbn. now rewrite IH. Qed.

Lemma backward_max bs e i :
  (i <= e)%nat -> is_char_boundary bs i = true -> (i <= backward bs e)%nat.
Proof.
  induction e as [|e IH]; intros Hi Hb; [cbn; lia|]. cbn [backward].
  destruct (is_char_boundary bs (S e)) eqn:E; cbn [negb]; [lia|].
  apply IH; [|exact Hb]. destruct (decide (i = S e)) as [->|]; [congruence|lia].
Qed.

Lemma encode_char_head c : is_char c -> exists b l, encode_char c = b :: l /\ is_continuation b = false.
Proof.
  intros Hc. rewrite encode_char_arith by exact Hc. unfold is_char, is_continuation in *.
  destruct (Z.ltb_spec c 128), (Z.ltb_spec c 2048), (Z.ltb_spec c 65536);
    (eexists; eexists; split; [reflexivity|]); apply not_true_is_false; rewrite in_range_spec; lia_div.
Qed.

(** Where a prefix of whole characters ends is a boundary. *)
Lemma prefix_boundary cs j :
  Forall is_char cs -> is_char_boundary (encode_utf8 cs) (length (encode_utf8 (take j cs))) = true.
Proof.
  intros Hcs. rewrite <- (take_drop j cs) at 1. rewrite encode_utf8_app.
  unfold is_char_boundary. apply orb_true_iff. right.
  assert (Hd : Forall is_char (drop j cs)) by now apply Forall_drop.
  destruct Hd as [|c l Hc Hl].
  - cbn. rewrite app_nil_r, lookup_ge_None_2 by lia. apply Nat.eqb_refl.
  - rewrite lookup_app_r, Nat.sub_diag by lia.
    destruct (encode_char_head c Hc) as (b&t&E&Hb).
    change (encode_utf8 (c :: l)) with (encode_char c ++ encode_utf8 l). rewrite E. cbn.
    now rewrite Hb.
Qed.

(** The head is the longest prefix of whole characters within the bound. *)
Lemma head_utf8_prefix cs m :
  Forall is_char cs ->
  exists k, head_utf8 (of_chars cs) m = of_chars (take k cs)
            /\ (length (encode_utf8 (take k cs)) <= m)%nat
            /\ forall j, (length (encode_utf8 (take j cs)) <= m)%nat ->
                 (length (encode_utf8 (take j cs)) <= length (encode_utf8 (take k cs)))%nat.
Proof.
  intros Hcs. unfold head_utf8. rewrite bytes_of_chars by exact Hcs.
  destruct (Nat.leb_spec (length (encode_utf8 cs)) m) as [Hle|Hgt].
  - exists (length cs). rewrite firstn_all. split; [reflexivity|]. split; [exact Hle|].
    intros j _. rewrite <- (take_drop j cs) at 2. rewrite encode_utf8_app, length_app. lia.
  - destruct (backward_spec (encode_utf8 cs) m) as [Hl Hb].
    destruct (boundary_splits cs (backward (encode_utf8 cs) m) Hcs ltac:(lia) Hb) as (k&Ht&_).
    exists k. rewrite Ht. split; [reflexivity|]. rewrite <- Ht, length_take. split; [lia|].
    intros j Hj. pose proof (backward_max _ _ _ Hj (prefix_boundary cs j Hcs)). lia.
Qed.

Lemma forward_min fuel bs start i :
  (start <= i <= length bs)%nat -> is_char_boundary bs i = true -> (forward fuel bs start <= i)%nat.
Proof.
  revert start. induction fuel as [|fuel IH]; intros start Hi Hb; cbn [forward]; [lia|].
  destruct (start <? length bs)%nat; cbn [andb]; [|lia].
  destruct (is_char_boundary bs start) eqn:E; cbn [negb]; [lia|].
  apply IH; [|exact Hb]. destruct (decide (start = i)) as [->|]; [congruence|lia].
Qed.

(** The tail is the longest suffix of whole characters within the bound. *)
Lemma tail_utf8_longest cs m :
  Forall is_char cs ->
  exists k, tail_utf8 (of_chars cs) m = of_chars (drop k cs)
            /\ (length (encode_utf8 (drop k cs)) <= m)%nat
            /\ forall j, (length (encode_utf8 (drop j cs)) <= m)%nat ->
                 (length (encode_utf8 (drop j cs)) <= length (encode_utf8 (drop k cs)))%nat.
Proof.
  intros Hcs. unfold tail_utf8. rewrite bytes_of_chars by exact Hcs.
  assert (Hsplit : forall j, length (encode_utf8 cs)
            = (length (encode_utf8 (take j cs)) + length (encode_utf8 (drop j cs)))%nat).
  { intros j. now rewrite <- length_app, <- encode_utf8_app, take_drop. }
  destruct (Nat.leb_spec (length (encode_utf8 cs)) m) as [Hle|Hgt].
  - exists O. split; [reflexivity|]. split; [exact Hle|]. intros j _. specialize (Hsplit j). rewrite drop_0. lia.
  - set (bs := encode_utf8 cs) in *.
    destruct (forward_spec (length bs) bs (length bs - m)) as [Hl Hb]; [lia..|].
    edestruct (boundary_splits cs) as (k&_&Hd); [exact Hcs| |exact Hb|]; [fold bs; lia|].
    exists k. fold bs in Hd. rewrite Hd. split; [reflexivity|]. rewrite <- Hd, length_drop. split; [lia|].
    intros j Hj. specialize (Hsplit j).
    pose proof (forward_min (length bs) bs (length bs - m) (length (encode_utf8 (take j cs))) ltac:(lia) (prefix_boundary cs j Hcs)). lia.
Qed.
Lemma tail_utf8_suffix cs m :
  Forall is_char cs ->
  exists k, tail_utf8 (of_chars cs) m = of_chars (drop k cs)
            /\ (length (encode_utf8 (drop k cs)) <= m)%nat.
Proof. intros Hcs. destruct (tail_utf8_longest cs m Hcs) as (k&H1&H2&_). eauto. Qed.

(** The length of a tail, for any string. *)
Lemma tail_utf8_len s m : len (tail_utf8 s m) <= Z.of_nat m.
Proof.
  unfold tail_utf8, len, length_z. destruct (Nat.leb_spec (length (bytes s)) m) as [Hle|Hgt]; [lia|].
  rewrite length_of_bytes, length_drop.
  destruct (forward_spec (length (bytes s)) (bytes s) (length (bytes s) - m)) as [Hl _]; [lia..|].
  lia.
Qed.

(** ** Words and lines *)

(** [single_line] on characters. *)
Fixpoint join_chars (parts : list (list Z)) : list Z :=
  match parts with
  | [] => []
  | [part] => part
  | part :: parts => part ++ 32 :: join_chars parts
  end.
Definition line (cs : list Z) : list Z := join_chars (split_words cs []).

Lemma join_of_chars parts : join " " (map of_chars parts) = of_chars (join_chars parts).
Proof.
  induction parts as [|w [|w' ws] IH]; [reflexivity..|].
  change (of_chars w +:+ " " +:+ join " " (map of_chars (w' :: ws))
          = of_chars (w ++ 32 :: join_chars (w' :: ws))).
  rewrite IH, of_chars_app. reflexivity.
Qed.

Lemma single_line_of_chars cs : Forall is_char cs -> single_line (of_chars cs) = of_chars (line cs).
Proof.
  intros H. unfold single_line, split_whitespace. rewrite chars_of_chars by exact H.
  apply join_of_chars.
Qed.

(** Words consist of the characters read, none of them white space. *)
Lemma split_words_Forall (P : Z -> Prop) cs word :
  Forall P cs -> Forall P word -> Forall (Forall P) (split_words cs word).
Proof.
  intros Hcs. revert word. induction Hcs as [|c cs Hc Hcs IH]; intros word Hw; cbn.
  - destruct word; constructor; [|constructor]. now apply Forall_rev.
  - destruct (is_whitespace c); [destruct word; cbn [null]|]; auto.
    constructor; [now apply Forall_rev|auto].
Qed.

Lemma join_chars_Forall (P : Z -> Prop) parts :
  P 32 -> Forall (Forall P) parts -> Forall P (join_chars parts).
Proof.
  intros H32. induction 1 as [|w [|w' ws] Hw Hws IH]; [constructor|exact Hw|].
  cbn. apply Forall_app. split; [exact Hw|]. constructor; [exact H32|exact IH].
Qed.

Lemma line_Forall (P : Z -> Prop) cs : P 32 -> Forall P cs -> Forall P (line cs).
Proof. intros H32 H. apply join_chars_Forall; [exact H32|]. now apply split_words_Forall. Qed.

(** A word in front of a space. *)
Lemma split_words_word w word rest :
  forallb (fun c => negb (is_whitespace c)) w = true -> word ++ w <> [] ->
  split_words (w ++ 32 :: rest) word = (rev word ++ w) :: split_words rest [].
Proof.
  revert word. induction w as [|c w IH]; intros word Hw Hne; cbn.
  - rewrite app_nil_r in Hne. rewrite app_nil_r. now destruct word.
  - cbn in Hw. apply andb_true_iff in Hw as [Hc Hw]. apply negb_true_iff in Hc. rewrite Hc.
    rewrite IH; [|exact Hw|discriminate]. cbn. now rewrite <- app_assoc.
Qed.

(** There is a word exactly when there is something but white space. *)
Lemma split_words_nil cs word :
  split_words cs word = [] <-> word = [] /\ forallb is_whitespace cs = true.
Proof.
  revert word. induction cs as [|c cs IH]; intros word; cbn.
  - destruct word; cbn; split; try easy; now intros [? _].
  - destruct (is_whitespace c); cbn.
    + destruct word; cbn; [rewrite IH; tauto|]. split; [discriminate|now intros [? _]].
    + rewrite IH. split; now intros [? ?].
Qed.

Lemma line_word w rest :
  forallb (fun c => negb (is_whitespace c)) w = true -> w <> [] ->
  line (w ++ 32 :: rest) =
    if forallb is_whitespace rest then w else w ++ 32 :: line rest.
Proof.
  intros Hw Hne. unfold line. rewrite (split_words_word w []) by assumption. cbn [rev app].
  pose proof (split_words_nil rest []) as Hnil.
  destruct (split_words rest []) as [|w' ws].
  - destruct Hnil as [Hnil _]. destruct (Hnil eq_refl) as [_ ->]. reflexivity.
  - destruct (forallb is_whitespace rest); [|reflexivity].
    destruct Hnil as [_ Hnil]. discriminate (Hnil (conj eq_refl eq_refl)).
Qed.

(** ** Prefixes *)
Lemma starts_with_app p s : starts_with p s = true <-> exists t, s = p +:+ t.
Proof.
  unfold starts_with. revert s. induction p as [|a p IH]; intros s.
  - split; [intros _; now exists s|]. intros _. now destruct s.
  - destruct s as [|b s]; cbn.
    + split; [discriminate|]. now intros (t&[=]).
    + destruct (Ascii.ascii_dec a b) as [->|Hne].
      * rewrite IH. split; intros (t&Ht); exists t; [now rewrite Ht|].
        change (String b s = String b (p +:+ t)) in Ht. congruence.
      * split; [discriminate|]. intros (t&Ht).
        change (String b s = String a (p +:+ t)) in Ht. congruence.
Qed.

(** An ASCII byte in front of an encoding is a character of its own. *)
Lemma encode_head_ascii cs b l :
  Forall is_char cs -> encode_utf8 cs = b :: l -> 0 <= b <= 127 ->
  exists cs', cs = b :: cs' /\ l = encode_utf8 cs'.
Proof.
  intros Hcs E Hb. destruct Hcs as [|c cs Hc Hcs]; [discriminate|].
  change (encode_char c ++ encode_utf8 cs = b :: l) in E.
  rewrite encode_char_arith in E by exact Hc. unfold is_char in Hc.
  destruct (Z.ltb_spec c 128), (Z.ltb_spec c 2048), (Z.ltb_spec c 65536);
    cbn -[Z.add Z.div Z.modulo] in E; injection E; intros <- <-; try lia_div; eauto.
  all: exfalso; lia_div.
Qed.

Lemma utf8_ascii_prefix p t :
  Forall (fun b => 0 <= b <= 127) (bytes p) -> utf8 (p +:+ t) -> utf8 t.
Proof.
  intros Hp (cs&Hcs&E). apply (f_equal bytes) in E. rewrite bytes_app, bytes_of_chars in E by exact Hcs.
  revert cs Hcs E. induction Hp as [|b l Hb Hl IH]; intros cs Hcs E.
  - exists cs. split; [exact Hcs|]. apply bytes_inj. now rewrite bytes_of_chars.
  - destruct (encode_head_ascii cs b (l ++ bytes t) Hcs) as (cs'&->&E'); [easy|exact Hb|].
    apply (IH cs'); [now inversion Hcs|exact E'].
Qed.
