(* ===== verification/Hoare.v ===== *)
(** * Weakest preconditions

    Symbolic execution for computations with state and errors: [wp m Q R s] says
    that [m], run from [s], either returns a value and a state in [Q] or fails with
    an error and a state in [R]. *)
From S2P Require Import Prelude.

Definition wp {S E A} (m : M S E A) (Q : A -> S -> Prop) (R : E -> S -> Prop) (s : S) : Prop :=
  match m s with (Ok a, s') => Q a s' | (Err e, s') => R e s' end.

Section Rules.
Context {S E : Type}.
Implicit Types s : S.

Lemma wp_conseq {A} (m : M S E A) (Q Q' : A -> S -> Prop) (R R' : E -> S -> Prop) s :
  wp m Q R s -> (forall a s', Q a s' -> Q' a s') -> (forall e s', R e s' -> R' e s') ->
  wp m Q' R' s.
Proof. unfold wp. destruct (m s) as [[a|e] s']; auto. Qed.

Lemma wp_and {A} (m : M S E A) (Q Q' : A -> S -> Prop) (R R' : E -> S -> Prop) s :
  wp m Q R s -> wp m Q' R' s ->
  wp m (fun a s' => Q a s' /\ Q' a s') (fun e s' => R e s' /\ R' e s') s.
Proof. unfold wp. destruct (m s) as [[a|e] s']; auto. Qed.

Lemma wp_bind {A B} (m : M S E A) (f : A -> M S E B) Q R s :
  wp m (fun a s' => wp (f a) Q R s') R s -> wp (m ≫= f) Q R s.
Proof. unfold wp. rewrite bind_run. now destruct (m s) as [[a|e] s']. Qed.

Lemma wp_ret {A} (a : A) (Q : A -> S -> Prop) (R : E -> S -> Prop) s : Q a s -> wp (mret a) Q R s.
Proof. easy. Qed.

Lemma wp_lift {A} (r : result E A) (Q : A -> S -> Prop) (R : E -> S -> Prop) s :
  (forall a, r = Ok a -> Q a s) -> (forall e, r = Err e -> R e s) -> wp (lift r) Q R s.
Proof. unfold wp, lift. destruct r; auto. Qed.

Lemma wp_gets {A} (f : S -> A) (Q : A -> S -> Prop) (R : E -> S -> Prop) s :
  Q (f s) s -> wp (gets f) Q R s.
Proof. easy. Qed.

Lemma wp_modify (f : S -> S) (Q : unit -> S -> Prop) (R : E -> S -> Prop) s :
  Q tt (f s) -> wp (modify f) Q R s.
Proof. easy. Qed.

Lemma wp_attempt {F A} (m : M S F A) (Q : result F A -> S -> Prop) (R : E -> S -> Prop) s :
  wp m (fun a s' => Q (Ok a) s') (fun e s' => Q (Err e) s') s -> wp (attempt m) Q R s.
Proof. unfold wp, attempt. now destruct (m s) as [[a|e] s']. Qed.

Lemma wp_map_err {F A} (f : E -> F) (m : M S E A) (Q : A -> S -> Prop) (R : F -> S -> Prop) s :
  wp m Q (fun e s' => R (f e) s') s -> wp (map_errM f m) Q R s.
Proof. unfold wp, map_errM. now destruct (m s) as [[a|e] s']. Qed.

(** From the triple back to a run. *)
Lemma wp_run {A} (m : M S E A) Q R s r s' :
  wp m Q R s -> m s = (r, s') -> match r with Ok a => Q a s' | Err e => R e s' end.
Proof. unfold wp. intros H E'. now rewrite E' in H. Qed.

Lemma run_wp {A} (m : M S E A) (Q : A -> S -> Prop) (R : E -> S -> Prop) s :
  (forall r s', m s = (r, s') -> match r with Ok a => Q a s' | Err e => R e s' end) -> wp m Q R s.
Proof. unfold wp. intros H. specialize (H _ _ (surjective_pairing _)). now destruct (m s) as [[a|e] s']. Qed.
End Rules.

(** One step of symbolic execution: the rules above, and case analysis. *)
Ltac wp_case :=
  match goal with
  | |- wp (if ?c then _ else _) _ _ _ => destruct c eqn:?
  | |- wp (match ?c with _ => _ end) _ _ _ => destruct c eqn:?
  end.
Ltac wp_step :=
  lazymatch goal with
  | |- wp (mret _) _ _ _ => apply wp_ret
  | |- wp (mbind _ _) _ _ _ => apply wp_bind
  | |- wp (lift _) _ _ _ => apply wp_lift; intros
  | |- wp (gets _) _ _ _ => apply wp_gets
  | |- wp (modify _) _ _ _ => apply wp_modify
  | |- wp (attempt _) _ _ _ => apply wp_attempt
  | |- wp (if _ then _ else _) _ _ _ => wp_case
  | |- wp (match _ with _ => _ end) _ _ _ => wp_case
  end.
Ltac wp_steps := repeat wp_step.

(** A relation between states that a computation respects however it ends. *)
Definition respects {S E A} (rel : S -> S -> Prop) (m : M S E A) : Prop := forall s, rel s (m s).2.

(** What holds of the last state however a computation ends. *)
Lemma wp_snd {S E A} (m : M S E A) (P : S -> Prop) s :
  wp m (fun _ => P) (fun _ => P) s -> P (m s).2.
Proof. unfold wp. now destruct (m s) as [[a|e] s']. Qed.

Section Respects.
Context {S E : Type} (rel : S -> S -> Prop) `{!PreOrder rel}.

Lemma respects_ret {A} (a : A) : respects rel (mret (M := M S E) a).
Proof. intros s. cbn. reflexivity. Qed.

Lemma respects_lift {A} (r : result E A) : respects rel (lift r).
Proof. intros s. cbn. reflexivity. Qed.

Lemma respects_gets {A} (f : S -> A) : respects rel (gets (E := E) f).
Proof. intros s. cbn. reflexivity. Qed.

Lemma respects_modify (f : S -> S) : (forall s, rel s (f s)) -> respects rel (modify (E := E) f).
Proof. intros H s. apply H. Qed.

Lemma respects_attempt {F A} (m : M S F A) : respects rel m -> respects rel (attempt (F := E) m).
Proof. intros H s. specialize (H s). unfold attempt. now destruct (m s). Qed.

Lemma respects_bind {A B} (m : M S E A) (f : A -> M S E B) :
  respects rel m -> (forall a, respects rel (f a)) -> respects rel (m ≫= f).
Proof.
  intros Hm Hf s. specialize (Hm s). rewrite bind_run. destruct (m s) as [[a|e] s1]; cbn in *; [|exact Hm].
  etrans; [exact Hm|apply Hf].
Qed.

Lemma respects_wp {A} (m : M S E A) s :
  respects rel m -> wp m (fun _ s' => rel s s') (fun _ s' => rel s s') s.
Proof. intros H. specialize (H s). unfold wp. now destruct (m s) as [[a|e] s']. Qed.
End Respects.

(** Only the last part of a computation matters to what holds when it returns. *)
Lemma wp_last {S E A B} (m : M S E A) (f : A -> M S E B) (Q : B -> S -> Prop) s :
  (forall a s', wp (f a) Q (fun _ _ => True) s') -> wp (m ≫= f) Q (fun _ _ => True) s.
Proof. intros H. apply wp_bind. unfold wp at 1. destruct (m s) as [[a|e] s']; [apply H|exact I]. Qed.

Create HintDb respects.
#[export] Hint Resolve respects_ret respects_lift respects_gets respects_attempt respects_bind : respects.

(** The rules one after the other; the hints settle the calls. *)
Ltac respects_steps :=
  lazymatch goal with
  | |- respects _ (mbind _ _) => apply respects_bind; [apply _|respects_steps|intros ?; respects_steps]
  | |- respects _ (lift _) => apply respects_lift, _
  | |- respects _ (mret _) => apply respects_ret, _
  | |- respects _ (gets _) => apply respects_gets, _
  | |- respects _ (if ?c then _ else _) => destruct c; respects_steps
  | |- respects _ (match ?c with _ => _ end) => destruct c; respects_steps
  | |- _ => auto with respects
  end.
