(* ===== verification/F32.v ===== *)
(** * Floating point

    [f32] and [f64] as the IEEE 754 values of the Standard Library's
    specification: binary32 has a 24-bit significand and [emax = 128], binary64
    a 53-bit one and [emax = 1024]; every operation rounds to nearest even, as
    Rust's does.  NaN payloads are not represented. *)
From S2P Require Import Prelude.
From Stdlib Require Export SpecFloat.

Definition float : Type := spec_float.

(** ** Comparisons, the same for both formats *)
Definition f_lt (a b : float) : bool := SFltb a b.
Definition f_le (a b : float) : bool := SFleb a b.
Definition f_ge (a b : float) : bool := SFleb b a.
Definition f_gt (a b : float) : bool := SFltb b a.
Definition f_eq (a b : float) : bool := SFeqb a b.
(** [f32::partial_cmp]. *)
Definition partial_cmp (a b : float) : option comparison := SFcompare a b.

Definition is_nan (a : float) : bool := match a with S754_nan => true | _ => false end.
(** [f32::is_finite]. *)
Definition is_finite (a : float) : bool :=
  match a with S754_nan | S754_infinity _ => false | _ => true end.
(** [f32::max]: the other operand when one is NaN. *)
Definition f_max (a b : float) : float :=
  if is_nan a then b else if is_nan b then a else if f_lt a b then b else a.

(** [(lo..=hi).contains(&x)]. *)
Definition f_in_range (lo hi x : float) : bool := f_le lo x && f_le x hi.

(** ** binary32 *)
Definition f32_add (a b : float) : float := SFadd 24 128 a b.
Definition f32_sub (a b : float) : float := SFsub 24 128 a b.
Definition f32_mul (a b : float) : float := SFmul 24 128 a b.
Definition f32_div (a b : float) : float := SFdiv 24 128 a b.
Definition f32_of_Z (n : Z) : float := binary_normalize 24 128 n 0 false.
(** The literal [n / 2^k], exact for the few that are used. *)
Definition f32_lit (n k : Z) : float := binary_normalize 24 128 n (- k) false.

(** ** binary64 *)
Definition f64_add (a b : float) : float := SFadd 53 1024 a b.
Definition f64_sub (a b : float) : float := SFsub 53 1024 a b.
Definition f64_mul (a b : float) : float := SFmul 53 1024 a b.
Definition f64_div (a b : float) : float := SFdiv 53 1024 a b.
Definition f64_of_Z (n : Z) : float := binary_normalize 53 1024 n 0 false.

(** [f64::from] of an [f32]. *)
Definition f64_of_f32 (x : float) : float :=
  match x with S754_finite s m e => binary_round 53 1024 s m e | _ => x end.

(** [x as f32] for an [f64]. *)
Definition f32_of_f64 (x : float) : float :=
  match x with
  | S754_finite s m e => binary_round 24 128 s m e
  | _ => x
  end.

(** ** Sorting *)

(** [partial_cmp(right).unwrap_or(Ordering::Equal)]. *)
Definition float_cmp (left right : float) : comparison :=
  match partial_cmp left right with Some c => c | None => Eq end.

(** [sort_unstable_by]: the standard library leaves the order of equal elements
    open; any of them gives the same values, up to the sign of zeros and NaNs. *)
Fixpoint insert_by (x : float) (l : list float) : list float :=
  match l with
  | [] => [x]
  | y :: l' =>
      match float_cmp x y with
      | Gt => y :: insert_by x l'
      | _ => x :: l
      end
  end.
Definition sort_floats (l : list float) : list float := foldr insert_by [] l.

(** ** Order lemmas *)

(** Among values that are not NaN the comparison is total. *)
Lemma partial_cmp_total a b :
  is_nan a = false -> is_nan b = false -> exists c, partial_cmp a b = Some c.
Proof.
  unfold partial_cmp, SFcompare.
  destruct a as [| | |sa ma ea], b as [| | |sb mb eb]; cbn; intros; try discriminate; eauto;
    repeat case_match; eauto; discriminate.
Qed.

Lemma is_finite_not_nan a : is_finite a = true -> is_nan a = false.
Proof. now destruct a. Qed.

(** The order as a lexicographic order on integer triples, which makes its
    laws arithmetic. *)
Definition key (a : float) : Z * Z * Z :=
  match a with
  | S754_zero _ => (0, 0, 0)
  | S754_infinity true => (-2, 0, 0)
  | S754_infinity false => (2, 0, 0)
  | S754_nan => (0, 0, 0)
  | S754_finite true m e => (-1, - e, - Z.pos m)
  | S754_finite false m e => (1, e, Z.pos m)
  end.

Definition lex (x y : Z * Z * Z) : comparison :=
  let '(a, b, c) := x in
  let '(a', b', c') := y in
  match a ?= a' with
  | Eq => match b ?= b' with Eq => c ?= c' | r => r end
  | r => r
  end.

Lemma partial_cmp_key a b :
  is_nan a = false -> is_nan b = false -> partial_cmp a b = Some (lex (key a) (key b)).
Proof.
  unfold partial_cmp, SFcompare, lex, key.
  destruct a as [[]|[]| |[] ma ea], b as [[]|[]| |[] mb eb]; cbn; try discriminate;
    try reflexivity; intros _ _.
  - f_equal. destruct (Z.compare_spec ea eb), (Z.compare_spec (- ea) (- eb));
      try lia; try reflexivity.
Qed.

Lemma lex_le x y :
  lex x y <> Gt <->
  let '(a, b, c) := x in
  let '(a', b', c') := y in
  a < a' \/ a = a' /\ (b < b' \/ b = b' /\ c <= c').
Proof.
  destruct x as [[a b] c], y as [[a' b'] c']. unfold lex.
  destruct (Z.compare_spec a a'); [|split; [lia|discriminate]|split; [congruence|lia]].
  destruct (Z.compare_spec b b'); [|split; [lia|discriminate]|split; [congruence|lia]].
  destruct (Z.compare_spec c c'); split; try lia; try discriminate; congruence.
Qed.

Lemma f_le_key a b :
  is_nan a = false -> is_nan b = false -> f_le a b = true <-> lex (key a) (key b) <> Gt.
Proof.
  intros Ha Hb. unfold f_le, SFleb. fold (partial_cmp a b). rewrite partial_cmp_key by assumption.
  destruct (lex (key a) (key b)); split; congruence.
Qed.

Lemma f_le_refl a : is_nan a = false -> f_le a a = true.
Proof.
  intros Ha. apply f_le_key; [assumption..|]. apply lex_le. destruct (key a) as [[??]?]. lia.
Qed.

Lemma f_le_trans a b c :
  is_nan a = false -> is_nan b = false -> is_nan c = false ->
  f_le a b = true -> f_le b c = true -> f_le a c = true.
Proof.
  intros Ha Hb Hc. rewrite !f_le_key, !lex_le by assumption.
  destruct (key a) as [[??]?], (key b) as [[??]?], (key c) as [[??]?]. lia.
Qed.

Lemma f_le_total a b :
  is_nan a = false -> is_nan b = false -> f_le a b = true \/ f_le b a = true.
Proof.
  intros Ha Hb. rewrite !f_le_key, !lex_le by assumption.
  destruct (key a) as [[??]?], (key b) as [[??]?]. lia.
Qed.

(** [partial_cmp] says [Gt] exactly when the order fails. *)
Lemma partial_cmp_Gt a b :
  is_nan a = false -> is_nan b = false -> partial_cmp a b = Some Gt <-> f_le a b = false.
Proof.
  intros Ha Hb. unfold f_le, SFleb. fold (partial_cmp a b). rewrite partial_cmp_key by assumption.
  destruct (lex (key a) (key b)); split; congruence.
Qed.

(** ** Sorting lemmas *)

Lemma insert_by_perm x l : Permutation (insert_by x l) (x :: l).
Proof.
  induction l as [|y l IH]; cbn; [reflexivity|]. destruct (float_cmp x y); try reflexivity.
  rewrite IH. constructor.
Qed.

Lemma sort_floats_perm l : Permutation (sort_floats l) l.
Proof. induction l as [|x l IH]; cbn; [reflexivity|]. now rewrite insert_by_perm, IH. Qed.

Definition f_leq (a b : float) : Prop := f_le a b = true.

Lemma float_cmp_Gt a b :
  is_nan a = false -> is_nan b = false -> float_cmp a b = Gt <-> f_le a b = false.
Proof.
  intros Ha Hb. rewrite <- (partial_cmp_Gt a b Ha Hb). unfold float_cmp.
  destruct (partial_cmp_total a b Ha Hb) as [c ->]. split; congruence.
Qed.

Lemma float_cmp_le a b :
  is_nan a = false -> is_nan b = false -> float_cmp a b <> Gt <-> f_leq a b.
Proof.
  intros Ha Hb. unfold f_leq. rewrite (float_cmp_Gt a b Ha Hb). destruct (f_le a b); split; congruence.
Qed.

Lemma insert_by_sorted x l :
  is_nan x = false -> Forall (fun y => is_nan y = false) l ->
  StronglySorted f_leq l -> StronglySorted f_leq (insert_by x l).
Proof.
  intros Hx. induction l as [|y l IH]; intros Hl Hs; cbn.
  - repeat constructor.
  - apply list.Forall_cons in Hl as [Hy Hl]. apply StronglySorted_inv in Hs as [Hs Hyl].
    assert (Hle : f_leq x y -> StronglySorted f_leq (x :: y :: l)).
    { intros Hxy. constructor; [now constructor|]. constructor; [exact Hxy|].
      rewrite list.Forall_forall in *. intros z Hz. eapply f_le_trans; [..|apply Hyl, Hz]; auto. }
    destruct (float_cmp x y) eqn:E; try (apply Hle, float_cmp_le; congruence).
    constructor; [now apply IH|]. apply float_cmp_Gt in E; [|assumption..].
    rewrite insert_by_perm. constructor; [|exact Hyl]. unfold f_leq.
    destruct (f_le_total x y Hx Hy); congruence.
Qed.

Lemma sort_floats_sorted l :
  Forall (fun y => is_nan y = false) l -> StronglySorted f_leq (sort_floats l).
Proof.
  induction l as [|x l IH]; intros Hl; cbn; [constructor|].
  apply list.Forall_cons in Hl as [Hx Hl]. apply insert_by_sorted; auto.
  now rewrite sort_floats_perm.
Qed.
