(* ===== verification/Protocol.v ===== *)
(** * The planner protocol

    The data of [controller/src/protocol.rs]: what the controller tells the
    planner, what the planner answers and what a validated plan is.  One Module
    per struct, with the source's field names; [wf] states the widths of its
    integer fields, which the Rust types carry. *)
From S2P Require Import Prelude Text F32.

Definition PROTOCOL_VERSION : Z := 1.
Definition MAX_FRAME_BYTES : Z := 32 * 1024.
Definition MAX_INSTRUCTION_BYTES : Z := 1024.
Definition MAX_CANDIDATES : Z := 32.
Definition MAX_SWEEP_POINTS : Z := 768.

Module ControllerState.
Inductive t := Idle | Surveying | Inspecting | Recognizing | Holding | Faulted.
#[global] Instance t_eq_dec : EqDecision t.
Proof. solve_decision. Defined.
End ControllerState.

Module HealthSummary.
Record t := mk {
  sdr_online : bool;
  can_retune : bool;
  can_capture_iq : bool;
  recognizer_available : bool;
  dropped_observations : Z;
}.
Definition wf (h : t) : Prop := is_u64 h.(dropped_observations).
End HealthSummary.

(** The wire form of the health summary, which still carries the retired
    [fpga_available] flag, and its conversion. *)
Module HealthSummaryWire.
Record t := mk {
  sdr_online : bool;
  can_retune : bool;
  can_capture_iq : bool;
  fpga_available : option bool;
  recognizer_available : bool;
  dropped_observations : Z;
}.

Definition into_summary (wire : t) : result string HealthSummary.t :=
  match wire.(fpga_available) with
  | Some true => Err "fpga_available is retired and must be false"%string
  | _ =>
      Ok {| HealthSummary.sdr_online := wire.(sdr_online);
            HealthSummary.can_retune := wire.(can_retune);
            HealthSummary.can_capture_iq := wire.(can_capture_iq);
            HealthSummary.recognizer_available := wire.(recognizer_available);
            HealthSummary.dropped_observations := wire.(dropped_observations) |}
  end.
End HealthSummaryWire.

Module CandidateSummary.
Record t := mk {
  id : string;
  center_hz : Z;
  bandwidth_hz : Z;
  peak_dbfs : float;
  snr_db : float;
  age_ms : Z;
}.
Definition wf (c : t) : Prop :=
  is_u64 c.(center_hz) /\ is_u64 c.(bandwidth_hz) /\ is_u64 c.(age_ms).
End CandidateSummary.

Module SweepObservationSummary.
Record t := mk {
  sweep_id : string;
  sample_rate_hz : Z;
  rf_bandwidth_hz : Z;
  fixed_gain_db : Z;
  noise_floor_dbfs : float;
  points : list (Z * float);
}.
Definition wf (s : t) : Prop :=
  is_u64 s.(sample_rate_hz) /\ is_u64 s.(rf_bandwidth_hz) /\ is_i16 s.(fixed_gain_db)
  /\ Forall (fun p => is_u64 p.1) s.(points).
End SweepObservationSummary.

Module RecognitionSummary.
Record t := mk { candidate_id : string; label : string; confidence : float }.
End RecognitionSummary.

Module ObservationSummary.
Record t := mk {
  age_ms : Z;
  health : HealthSummary.t;
  candidates : list CandidateSummary.t;
  latest_sweep : option SweepObservationSummary.t;
  recognition : option RecognitionSummary.t;
}.
Definition wf (o : t) : Prop :=
  is_u64 o.(age_ms) /\ HealthSummary.wf o.(health)
  /\ Forall CandidateSummary.wf o.(candidates)
  /\ match o.(latest_sweep) with Some s => SweepObservationSummary.wf s | None => True end.
End ObservationSummary.

Module SafetyLimits.
Record t := mk {
  min_freq_hz : Z;
  max_freq_hz : Z;
  max_span_hz : Z;
  max_bandwidth_hz : Z;
  max_dwell_ms : Z;
  max_iq_samples : Z;
  max_iq_bytes : Z;
  auto_approve_iq_bytes : Z;
  max_observation_age_ms : Z;
}.
Definition wf (l : t) : Prop :=
  is_u64 l.(min_freq_hz) /\ is_u64 l.(max_freq_hz) /\ is_u64 l.(max_span_hz)
  /\ is_u64 l.(max_bandwidth_hz) /\ is_u64 l.(max_dwell_ms) /\ is_u64 l.(max_iq_samples)
  /\ is_u64 l.(max_iq_bytes) /\ is_u64 l.(auto_approve_iq_bytes)
  /\ is_u64 l.(max_observation_age_ms).
End SafetyLimits.

Module PlanRequest.
Record t := mk {
  protocol_version : Z;
  request_id : Z;
  session_generation : Z;
  instruction : string;
  state : ControllerState.t;
  observation : ObservationSummary.t;
  limits : SafetyLimits.t;
}.
Definition wf (r : t) : Prop :=
  is_u16 r.(protocol_version) /\ is_u64 r.(request_id) /\ is_u64 r.(session_generation)
  /\ ObservationSummary.wf r.(observation) /\ SafetyLimits.wf r.(limits).
End PlanRequest.

Module PlanStatus.
Inductive t := Ok | Error | Unavailable.
#[global] Instance t_eq_dec : EqDecision t.
Proof. solve_decision. Defined.
End PlanStatus.

Module PlannerMeta.
Record t := mk { provider : string; model : string }.
End PlannerMeta.

Module ProposedAction.
Inductive t :=
| Hold (reason : string)
| SurveyBand (start_hz stop_hz step_hz sample_rate_hz rf_bandwidth_hz dwell_ms : Z)
| InspectCandidate (candidate_id : string)
    (center_hz sample_rate_hz rf_bandwidth_hz dwell_ms : Z)
| CaptureBoundedIq (candidate_id : string)
    (center_hz sample_rate_hz rf_bandwidth_hz samples : Z)
| RunLocalRecognition (candidate_id : string)
| StopSession (reason : string).

Definition wf (a : t) : Prop :=
  match a with
  | Hold _ | StopSession _ | RunLocalRecognition _ => True
  | SurveyBand start stop step rate bw dwell =>
      is_u64 start /\ is_u64 stop /\ is_u64 step /\ is_u64 rate /\ is_u64 bw /\ is_u64 dwell
  | InspectCandidate _ center rate bw x | CaptureBoundedIq _ center rate bw x =>
      is_u64 center /\ is_u64 rate /\ is_u64 bw /\ is_u64 x
  end.
End ProposedAction.

Module PlanResponse.
Record t := mk {
  protocol_version : Z;
  request_id : Z;
  session_generation : Z;
  status : PlanStatus.t;
  action : option ProposedAction.t;
  error : option string;
  planner : PlannerMeta.t;
}.
Definition wf (r : t) : Prop :=
  is_u16 r.(protocol_version) /\ is_u64 r.(request_id) /\ is_u64 r.(session_generation)
  /\ match r.(action) with Some a => ProposedAction.wf a | None => True end.
End PlanResponse.

Module ValidatedPlan.
Record t := mk {
  request_id : Z;
  session_generation : Z;
  approval_required : bool;
  action : ProposedAction.t;
  planner : PlannerMeta.t;
}.
End ValidatedPlan.
