(* ===== verification/Policy.v ===== *)
(** * The controller's policy

    [controller/src/policy.rs]: the checks on a planner request before it is
    sent, on the planner's response, and on the action it proposes.  The
    executable definitions follow the source guard by guard; [LimitsOk],
    [RequestOk] and [ActionOk] say declaratively, in unbounded arithmetic, what
    the guards are meant to establish. *)
From S2P Require Import Prelude Text F32 Protocol.

Definition MAX_SURVEY_POINTS : Z := 768.
Definition MAX_SURVEY_DURATION_MS : Z := 300000.
Definition SURVEY_POINT_TIMEOUT_MS : Z := 250.
Definition SURVEY_FRAME_BYTES : Z := 4096 * 4.
Definition MAX_INSPECTION_DWELL_MS : Z := 1000.

Module PolicyError.
Record t := new { code : string; message : string }.
(** The [Display] of a policy error. *)
Definition display (e : t) : string := (e.(code) ++ ": " ++ e.(message))%string.
End PolicyError.

Definition require (condition : bool) (code message : string) : result PolicyError.t unit :=
  ensure condition (PolicyError.new code message).

Definition valid_label (value : string) (max_bytes : Z) : bool :=
  negb (is_empty (trim value)) && (len value <=? max_bytes)
  && forallb (fun character => negb (is_control character)) (chars value).

Definition validate_reason (reason : string) : result PolicyError.t unit :=
  require (valid_label reason 256) "reason" "reason must contain 1 to 256 printable bytes".

Definition validate_limits (limits : SafetyLimits.t) : result PolicyError.t unit :=
  require ((70000000 <=? limits.(SafetyLimits.min_freq_hz))
           && (limits.(SafetyLimits.min_freq_hz) <? limits.(SafetyLimits.max_freq_hz)))
    "limits_frequency" "invalid minimum or maximum frequency" ;;
  require (limits.(SafetyLimits.max_freq_hz) <=? 6000000000)
    "limits_frequency" "maximum frequency exceeds the AD9361 policy limit" ;;
  require ((0 <? limits.(SafetyLimits.max_span_hz))
           && (limits.(SafetyLimits.max_span_hz)
               <=? sub64 limits.(SafetyLimits.max_freq_hz) limits.(SafetyLimits.min_freq_hz)))
    "limits_span" "invalid maximum scan span" ;;
  require (in_range 200000 56000000 limits.(SafetyLimits.max_bandwidth_hz))
    "limits_bandwidth" "invalid maximum bandwidth" ;;
  require (in_range 1 60000 limits.(SafetyLimits.max_dwell_ms))
    "limits_dwell" "invalid maximum dwell time" ;;
  require ((0 <? limits.(SafetyLimits.max_iq_samples))
           && (0 <? limits.(SafetyLimits.max_iq_bytes))
           && (limits.(SafetyLimits.auto_approve_iq_bytes) <=? limits.(SafetyLimits.max_iq_bytes)))
    "limits_iq" "invalid IQ capture limits" ;;
  require (0 <? limits.(SafetyLimits.max_observation_age_ms))
    "limits_observation_age" "invalid observation age limit".

Definition validate_frequency (frequency_hz : Z) (limits : SafetyLimits.t)
    : result PolicyError.t unit :=
  require (in_range limits.(SafetyLimits.min_freq_hz) limits.(SafetyLimits.max_freq_hz)
             frequency_hz)
    "frequency" "frequency is outside the configured range".

Definition validate_dwell (dwell_ms : Z) (limits : SafetyLimits.t) : result PolicyError.t unit :=
  require ((0 <? dwell_ms) && (dwell_ms <=? limits.(SafetyLimits.max_dwell_ms)))
    "dwell" "dwell time exceeds the configured limit".

Definition validate_radio_profile (sample_rate_hz rf_bandwidth_hz : Z) (limits : SafetyLimits.t)
    : result PolicyError.t unit :=
  require (in_range 2100000 30720000 sample_rate_hz)
    "sample_rate" "sample rate is outside the controlled hardware range" ;;
  require (in_range 200000 limits.(SafetyLimits.max_bandwidth_hz) rf_bandwidth_hz
           && (rf_bandwidth_hz <=? sample_rate_hz))
    "rf_bandwidth" "RF bandwidth is invalid or exceeds the sample rate".

Definition validate_candidate (candidate : CandidateSummary.t) (limits : SafetyLimits.t)
    : result PolicyError.t unit :=
  require (valid_label candidate.(CandidateSummary.id) 64)
    "candidate_id" "candidate id must contain 1 to 64 printable bytes" ;;
  validate_frequency candidate.(CandidateSummary.center_hz) limits ;;
  require ((0 <? candidate.(CandidateSummary.bandwidth_hz))
           && (candidate.(CandidateSummary.bandwidth_hz)
               <=? limits.(SafetyLimits.max_bandwidth_hz)))
    "candidate_bandwidth" "candidate bandwidth exceeds the policy limit" ;;
  require (is_finite candidate.(CandidateSummary.peak_dbfs)
           && is_finite candidate.(CandidateSummary.snr_db))
    "candidate_power" "candidate power values must be finite" ;;
  require (candidate.(CandidateSummary.age_ms) <=? limits.(SafetyLimits.max_observation_age_ms))
    "candidate_stale" "candidate is older than the configured limit".

Definition require_sdr_capability (request : PlanRequest.t) (retune capture : bool)
    : result PolicyError.t unit :=
  let health := request.(PlanRequest.observation).(ObservationSummary.health) in
  require health.(HealthSummary.sdr_online) "sdr_offline" "SDR is offline" ;;
  require (negb retune || health.(HealthSummary.can_retune))
    "retune_unavailable" "the current SDR capability set is read-only" ;;
  require (negb capture || health.(HealthSummary.can_capture_iq))
    "capture_unavailable" "bounded IQ capture is not available".

Definition find_candidate (request : PlanRequest.t) (candidate_id : string)
    : result PolicyError.t CandidateSummary.t :=
  ok_or (PolicyError.new "unknown_candidate" "candidate id is not current")
    (List.find (fun candidate => String.eqb candidate.(CandidateSummary.id) candidate_id)
       request.(PlanRequest.observation).(ObservationSummary.candidates)).

(** The candidate loop of [validate_request]; [ids] is the [HashSet], whose
    [insert] answers whether the value was new. *)
Fixpoint check_candidates (limits : SafetyLimits.t) (candidates : list CandidateSummary.t)
    (ids : gset string) : result PolicyError.t (gset string) :=
  match candidates with
  | [] => Ok ids
  | candidate :: rest =>
      validate_candidate candidate limits ;;
      require (bool_decide (candidate.(CandidateSummary.id) ∉ ids))
        "duplicate_candidate_id" "candidate ids must be unique" ;;
      check_candidates limits rest ({[candidate.(CandidateSummary.id)]} ∪ ids)
  end.

(** The loop over the points of the latest sweep. *)
Fixpoint check_sweep_points (limits : SafetyLimits.t) (points : list (Z * float))
    (previous_hz : option Z) : result PolicyError.t unit :=
  match points with
  | [] => Ok tt
  | (center_hz, power_dbfs) :: rest =>
      validate_frequency center_hz limits ;;
      require (is_finite power_dbfs
               && match previous_hz with
                  | None => true
                  | Some previous => previous <? center_hz
                  end)
        "sweep_point" "latest sweep points must be finite, unique, and ascending" ;;
      check_sweep_points limits rest (Some center_hz)
  end.

Definition check_latest_sweep (limits : SafetyLimits.t) (sweep : SweepObservationSummary.t)
    : result PolicyError.t unit :=
  require (valid_label sweep.(SweepObservationSummary.sweep_id) 64)
    "sweep_id" "latest sweep id is invalid" ;;
  require (negb (null sweep.(SweepObservationSummary.points))
           && (length_z sweep.(SweepObservationSummary.points) <=? MAX_SWEEP_POINTS))
    "sweep_points" "latest sweep must contain between one and 768 points" ;;
  require (in_range 2100000 30720000 sweep.(SweepObservationSummary.sample_rate_hz)
           && in_range 200000 sweep.(SweepObservationSummary.sample_rate_hz)
                sweep.(SweepObservationSummary.rf_bandwidth_hz)
           && in_range 0 60 sweep.(SweepObservationSummary.fixed_gain_db)
           && is_finite sweep.(SweepObservationSummary.noise_floor_dbfs))
    "sweep_profile" "latest sweep radio profile is invalid" ;;
  check_sweep_points limits sweep.(SweepObservationSummary.points) None.

Definition check_recognition (ids : gset string) (recognition : RecognitionSummary.t)
    : result PolicyError.t unit :=
  require (valid_label recognition.(RecognitionSummary.candidate_id) 64)
    "recognition_candidate_id" "invalid candidate id" ;;
  require (valid_label recognition.(RecognitionSummary.label) 128)
    "recognition_label" "invalid recognition label" ;;
  require (is_finite recognition.(RecognitionSummary.confidence)
           && f_in_range (f32_of_Z 0) (f32_of_Z 1) recognition.(RecognitionSummary.confidence))
    "recognition_confidence" "must be finite and between zero and one" ;;
  require (bool_decide (recognition.(RecognitionSummary.candidate_id) ∈ ids))
    "recognition_stale" "recognition does not refer to a current candidate".

Definition validate_request (request : PlanRequest.t) : result PolicyError.t unit :=
  let limits := request.(PlanRequest.limits) in
  let observation := request.(PlanRequest.observation) in
  require (request.(PlanRequest.protocol_version) =? PROTOCOL_VERSION)
    "protocol_version" "unsupported planner protocol version" ;;
  require (0 <? request.(PlanRequest.request_id)) "request_id" "must be non-zero" ;;
  require (negb (is_empty (trim request.(PlanRequest.instruction)))
           && (len request.(PlanRequest.instruction) <=? MAX_INSTRUCTION_BYTES))
    "instruction" "must contain 1 to 1024 bytes" ;;
  validate_limits limits ;;
  require (observation.(ObservationSummary.age_ms) <=? limits.(SafetyLimits.max_observation_age_ms))
    "observation_stale" "observation is older than the configured limit" ;;
  require (length_z observation.(ObservationSummary.candidates) <=? MAX_CANDIDATES)
    "too_many_candidates" "candidate count exceeds the protocol limit" ;;
  candidate_ids ← check_candidates limits observation.(ObservationSummary.candidates) ∅ ;
  match observation.(ObservationSummary.latest_sweep) with
  | Some sweep => check_latest_sweep limits sweep
  | None => Ok tt
  end ;;
  match observation.(ObservationSummary.recognition) with
  | Some recognition => check_recognition candidate_ids recognition
  | None => Ok tt
  end.

Definition validate_survey (request : PlanRequest.t)
    (start_hz stop_hz step_hz sample_rate_hz rf_bandwidth_hz dwell_ms : Z)
    : result PolicyError.t bool :=
  let limits := request.(PlanRequest.limits) in
  require_sdr_capability request true false ;;
  validate_frequency start_hz limits ;;
  validate_frequency stop_hz limits ;;
  require ((start_hz <? stop_hz)
           && (sub64 stop_hz start_hz <=? limits.(SafetyLimits.max_span_hz)))
    "survey_span" "survey span is empty or exceeds the policy limit" ;;
  require ((0 <? step_hz) && (step_hz <=? sub64 stop_hz start_hz))
    "survey_step" "survey step is invalid" ;;
  validate_radio_profile sample_rate_hz rf_bandwidth_hz limits ;;
  require (step_hz <=? saturating_mul rf_bandwidth_hz 4 / 5)
    "survey_coverage" "survey step exceeds 80 percent of RF bandwidth" ;;
  validate_dwell dwell_ms limits ;;
  let span_hz := sub64 stop_hz start_hz in
  point_count ←
    ok_or (PolicyError.new "survey_points" "survey point count overflow")
      (rounded ← checked_add span_hz (saturating_sub step_hz 1) ;
       intervals ← checked_div rounded step_hz ;
       checked_add intervals 1) ;
  require (point_count <=? MAX_SURVEY_POINTS)
    "survey_points" "survey exceeds the 768-point execution limit" ;;
  estimated_duration_ms ←
    ok_or (PolicyError.new "survey_duration" "survey duration overflow")
      (checked_mul point_count (saturating_add dwell_ms SURVEY_POINT_TIMEOUT_MS)) ;
  require (estimated_duration_ms <=? MAX_SURVEY_DURATION_MS)
    "survey_duration" "survey exceeds the 300-second execution limit" ;;
  processed_bytes ←
    ok_or (PolicyError.new "survey_bytes" "survey byte budget overflow")
      (checked_mul point_count SURVEY_FRAME_BYTES) ;
  require (processed_bytes <=? limits.(SafetyLimits.max_iq_bytes))
    "survey_bytes" "survey exceeds the per-action receive-byte limit" ;;
  Ok false.

Definition validate_inspection (request : PlanRequest.t) (candidate_id : string)
    (center_hz sample_rate_hz rf_bandwidth_hz dwell_ms : Z) : result PolicyError.t bool :=
  let limits := request.(PlanRequest.limits) in
  require_sdr_capability request true false ;;
  candidate ← find_candidate request candidate_id ;
  validate_frequency center_hz limits ;;
  validate_radio_profile sample_rate_hz rf_bandwidth_hz limits ;;
  require (abs_diff center_hz candidate.(CandidateSummary.center_hz)
           <=? Z.max candidate.(CandidateSummary.bandwidth_hz) rf_bandwidth_hz)
    "inspect_candidate_mismatch" "inspection frequency does not match the selected candidate" ;;
  validate_dwell dwell_ms limits ;;
  require (dwell_ms <=? MAX_INSPECTION_DWELL_MS)
    "inspect_dwell" "candidate inspection dwell exceeds the one-second execution limit" ;;
  require (SURVEY_FRAME_BYTES <=? limits.(SafetyLimits.max_iq_bytes))
    "inspect_bytes" "candidate inspection exceeds the per-action receive-byte limit" ;;
  Ok false.

Definition validate_capture (request : PlanRequest.t) (candidate_id : string)
    (center_hz sample_rate_hz rf_bandwidth_hz samples : Z) : result PolicyError.t bool :=
  let limits := request.(PlanRequest.limits) in
  require_sdr_capability request false true ;;
  candidate ← find_candidate request candidate_id ;
  validate_frequency center_hz limits ;;
  require (abs_diff center_hz candidate.(CandidateSummary.center_hz)
           <=? candidate.(CandidateSummary.bandwidth_hz))
    "capture_candidate_mismatch" "capture frequency does not match the selected candidate" ;;
  require (in_range 2100000 30720000 sample_rate_hz)
    "capture_sample_rate" "sample rate is outside the supported range" ;;
  require (in_range 200000 limits.(SafetyLimits.max_bandwidth_hz) rf_bandwidth_hz
           && (rf_bandwidth_hz <=? sample_rate_hz))
    "capture_bandwidth" "RF bandwidth is invalid or exceeds the sample rate" ;;
  require ((0 <? samples) && (samples <=? limits.(SafetyLimits.max_iq_samples)))
    "capture_samples" "IQ sample count exceeds the policy limit" ;;
  bytes ←
    ok_or (PolicyError.new "capture_bytes" "IQ byte count overflow") (checked_mul samples 4) ;
  require (bytes <=? limits.(SafetyLimits.max_iq_bytes))
    "capture_bytes" "IQ byte count exceeds the policy limit" ;;
  Ok (limits.(SafetyLimits.auto_approve_iq_bytes) <? bytes).

Definition validate_action (request : PlanRequest.t) (action : ProposedAction.t)
    : result PolicyError.t bool :=
  reject_if
    (bool_decide (request.(PlanRequest.state) = ControllerState.Faulted)
     && negb match action with
             | ProposedAction.Hold _ | ProposedAction.StopSession _ => true
             | _ => false
             end)
    (PolicyError.new "faulted_state"
       "only hold or stop is allowed while the controller is faulted") ;;
  match action with
  | ProposedAction.Hold reason | ProposedAction.StopSession reason =>
      validate_reason reason ;; Ok false
  | ProposedAction.SurveyBand start_hz stop_hz step_hz sample_rate_hz rf_bandwidth_hz dwell_ms =>
      validate_survey request start_hz stop_hz step_hz sample_rate_hz rf_bandwidth_hz dwell_ms
  | ProposedAction.InspectCandidate candidate_id center_hz sample_rate_hz rf_bandwidth_hz
      dwell_ms =>
      validate_inspection request candidate_id center_hz sample_rate_hz rf_bandwidth_hz dwell_ms
  | ProposedAction.CaptureBoundedIq candidate_id center_hz sample_rate_hz rf_bandwidth_hz
      samples =>
      validate_capture request candidate_id center_hz sample_rate_hz rf_bandwidth_hz samples
  | ProposedAction.RunLocalRecognition candidate_id =>
      require
        request.(PlanRequest.observation).(ObservationSummary.health)
          .(HealthSummary.recognizer_available)
        "recognizer_unavailable" "local recognizer is not available" ;;
      _ ← find_candidate request candidate_id ;
      Ok false
  end.

Definition validate_response (request : PlanRequest.t) (response : PlanResponse.t)
    : result PolicyError.t ValidatedPlan.t :=
  require (response.(PlanResponse.protocol_version) =? PROTOCOL_VERSION)
    "response_protocol_version" "planner returned an unsupported protocol version" ;;
  require (response.(PlanResponse.request_id) =? request.(PlanRequest.request_id))
    "response_request_id" "planner response does not match the request" ;;
  require (response.(PlanResponse.session_generation) =? request.(PlanRequest.session_generation))
    "stale_session_generation" "planner response belongs to a stale controller session" ;;
  require (valid_label response.(PlanResponse.planner).(PlannerMeta.provider) 64)
    "planner_provider" "invalid planner provider" ;;
  require (valid_label response.(PlanResponse.planner).(PlannerMeta.model) 128)
    "planner_model" "invalid planner model" ;;
  if negb (bool_decide (response.(PlanResponse.status) = PlanStatus.Ok)) then
    require (is_none response.(PlanResponse.action))
      "planner_error_action" "failed planner response must not contain an action" ;;
    let message :=
      match response.(PlanResponse.error) with
      | Some value =>
          if negb (is_empty (trim value)) && (len value <=? 512) then value
          else "planner failed without a bounded error message"%string
      | None => "planner failed without a bounded error message"%string
      end in
    Err (PolicyError.new "planner_unavailable" message)
  else
    require (is_none response.(PlanResponse.error))
      "planner_ok_error" "successful planner response must not contain an error" ;;
    action ←
      ok_or (PolicyError.new "planner_missing_action" "planner returned no action")
        response.(PlanResponse.action) ;
    approval_required ← validate_action request action ;
    Ok {| ValidatedPlan.request_id := request.(PlanRequest.request_id);
          ValidatedPlan.session_generation := request.(PlanRequest.session_generation);
          ValidatedPlan.approval_required := approval_required;
          ValidatedPlan.action := action;
          ValidatedPlan.planner := response.(PlanResponse.planner) |}.

(** ** What the guards are meant to establish *)

(** A label: not blank, bounded in bytes and without control characters. *)
Definition LabelOk (value : string) (max_bytes : Z) : Prop :=
  (exists c, c ∈ chars value /\ is_whitespace c = false)
  /\ len value <= max_bytes
  /\ forall c, c ∈ chars value -> is_control c = false.

Record LimitsOk (l : SafetyLimits.t) : Prop := {
  lo_min : 70000000 <= l.(SafetyLimits.min_freq_hz);
  lo_order : l.(SafetyLimits.min_freq_hz) < l.(SafetyLimits.max_freq_hz);
  lo_max : l.(SafetyLimits.max_freq_hz) <= 6000000000;
  lo_span : 0 < l.(SafetyLimits.max_span_hz)
            <= l.(SafetyLimits.max_freq_hz) - l.(SafetyLimits.min_freq_hz);
  lo_bandwidth : 200000 <= l.(SafetyLimits.max_bandwidth_hz) <= 56000000;
  lo_dwell : 1 <= l.(SafetyLimits.max_dwell_ms) <= 60000;
  lo_samples : 0 < l.(SafetyLimits.max_iq_samples);
  lo_bytes : 0 < l.(SafetyLimits.max_iq_bytes);
  lo_auto : l.(SafetyLimits.auto_approve_iq_bytes) <= l.(SafetyLimits.max_iq_bytes);
  lo_age : 0 < l.(SafetyLimits.max_observation_age_ms);
}.

Definition in_band (l : SafetyLimits.t) (frequency : Z) : Prop :=
  l.(SafetyLimits.min_freq_hz) <= frequency <= l.(SafetyLimits.max_freq_hz).

Record CandidateOk (l : SafetyLimits.t) (c : CandidateSummary.t) : Prop := {
  co_id : LabelOk c.(CandidateSummary.id) 64;
  co_center : in_band l c.(CandidateSummary.center_hz);
  co_bandwidth : 0 < c.(CandidateSummary.bandwidth_hz) <= l.(SafetyLimits.max_bandwidth_hz);
  co_peak : is_finite c.(CandidateSummary.peak_dbfs) = true;
  co_snr : is_finite c.(CandidateSummary.snr_db) = true;
  co_age : c.(CandidateSummary.age_ms) <= l.(SafetyLimits.max_observation_age_ms);
}.

Record LatestSweepOk (l : SafetyLimits.t) (s : SweepObservationSummary.t) : Prop := {
  ls_id : LabelOk s.(SweepObservationSummary.sweep_id) 64;
  ls_count : 1 <= length_z s.(SweepObservationSummary.points) <= 768;
  ls_rate : 2100000 <= s.(SweepObservationSummary.sample_rate_hz) <= 30720000;
  ls_bandwidth : 200000 <= s.(SweepObservationSummary.rf_bandwidth_hz)
                 <= s.(SweepObservationSummary.sample_rate_hz);
  ls_gain : 0 <= s.(SweepObservationSummary.fixed_gain_db) <= 60;
  ls_floor : is_finite s.(SweepObservationSummary.noise_floor_dbfs) = true;
  ls_points : Forall (fun p => in_band l p.1 /\ is_finite p.2 = true)
                s.(SweepObservationSummary.points);
  ls_ascending : StronglySorted Z.lt (map fst s.(SweepObservationSummary.points));
}.

Record RecognitionOk (ids : list string) (r : RecognitionSummary.t) : Prop := {
  ro_label : LabelOk r.(RecognitionSummary.label) 128;
  ro_id : LabelOk r.(RecognitionSummary.candidate_id) 64;
  ro_confidence : is_finite r.(RecognitionSummary.confidence) = true
                  /\ f_le (f32_of_Z 0) r.(RecognitionSummary.confidence) = true
                  /\ f_le r.(RecognitionSummary.confidence) (f32_of_Z 1) = true;
  ro_current : r.(RecognitionSummary.candidate_id) ∈ ids;
}.

Definition candidate_ids (o : ObservationSummary.t) : list string :=
  map CandidateSummary.id o.(ObservationSummary.candidates).

Record RequestOk (r : PlanRequest.t) : Prop := {
  rq_version : r.(PlanRequest.protocol_version) = 1;
  rq_id : 0 < r.(PlanRequest.request_id);
  rq_instruction : (exists c, c ∈ chars r.(PlanRequest.instruction) /\ is_whitespace c = false)
                   /\ len r.(PlanRequest.instruction) <= 1024;
  rq_limits : LimitsOk r.(PlanRequest.limits);
  rq_fresh : r.(PlanRequest.observation).(ObservationSummary.age_ms)
             <= r.(PlanRequest.limits).(SafetyLimits.max_observation_age_ms);
  rq_count : (length r.(PlanRequest.observation).(ObservationSummary.candidates) <= 32)%nat;
  rq_candidates : Forall (CandidateOk r.(PlanRequest.limits))
                    r.(PlanRequest.observation).(ObservationSummary.candidates);
  rq_unique : NoDup (candidate_ids r.(PlanRequest.observation));
  rq_sweep : forall s, r.(PlanRequest.observation).(ObservationSummary.latest_sweep) = Some s ->
             LatestSweepOk r.(PlanRequest.limits) s;
  rq_recognition :
    forall g, r.(PlanRequest.observation).(ObservationSummary.recognition) = Some g ->
    RecognitionOk (candidate_ids r.(PlanRequest.observation)) g;
}.

(** The receiver profile an action may select. *)
Definition RadioOk (l : SafetyLimits.t) (sample_rate rf_bandwidth : Z) : Prop :=
  2100000 <= sample_rate <= 30720000
  /\ 200000 <= rf_bandwidth <= l.(SafetyLimits.max_bandwidth_hz)
  /\ rf_bandwidth <= sample_rate.

(** [n] points spaced by [step], the last one clamped, are what a span needs. *)
Definition covers (span step n : Z) : Prop := (n - 2) * step < span <= (n - 1) * step.

Definition current (r : PlanRequest.t) (candidate_id : string) (c : CandidateSummary.t) : Prop :=
  c ∈ r.(PlanRequest.observation).(ObservationSummary.candidates)
  /\ c.(CandidateSummary.id) = candidate_id.

Definition health_of (r : PlanRequest.t) : HealthSummary.t :=
  r.(PlanRequest.observation).(ObservationSummary.health).

(** [ActionOk r a approval]: the action is allowed for the request, and needs
    an operator's approval exactly when [approval] holds. *)
Inductive ActionOk (r : PlanRequest.t) : ProposedAction.t -> bool -> Prop :=
| ok_hold reason :
    LabelOk reason 256 -> ActionOk r (ProposedAction.Hold reason) false
| ok_stop reason :
    LabelOk reason 256 -> ActionOk r (ProposedAction.StopSession reason) false
| ok_survey start stop step rate bandwidth dwell n :
    r.(PlanRequest.state) <> ControllerState.Faulted ->
    (health_of r).(HealthSummary.sdr_online) = true ->
    (health_of r).(HealthSummary.can_retune) = true ->
    in_band r.(PlanRequest.limits) start -> in_band r.(PlanRequest.limits) stop ->
    0 < stop - start <= r.(PlanRequest.limits).(SafetyLimits.max_span_hz) ->
    0 < step <= stop - start ->
    RadioOk r.(PlanRequest.limits) rate bandwidth ->
    5 * step <= 4 * bandwidth ->
    0 < dwell <= r.(PlanRequest.limits).(SafetyLimits.max_dwell_ms) ->
    covers (stop - start) step n -> n <= 768 ->
    n * (dwell + 250) <= 300000 ->
    n * 16384 <= r.(PlanRequest.limits).(SafetyLimits.max_iq_bytes) ->
    ActionOk r (ProposedAction.SurveyBand start stop step rate bandwidth dwell) false
| ok_inspect id c center rate bandwidth dwell :
    r.(PlanRequest.state) <> ControllerState.Faulted ->
    (health_of r).(HealthSummary.sdr_online) = true ->
    (health_of r).(HealthSummary.can_retune) = true ->
    current r id c ->
    in_band r.(PlanRequest.limits) center ->
    RadioOk r.(PlanRequest.limits) rate bandwidth ->
    (Z.abs (center - c.(CandidateSummary.center_hz)) <= c.(CandidateSummary.bandwidth_hz)
     \/ Z.abs (center - c.(CandidateSummary.center_hz)) <= bandwidth) ->
    0 < dwell <= r.(PlanRequest.limits).(SafetyLimits.max_dwell_ms) -> dwell <= 1000 ->
    16384 <= r.(PlanRequest.limits).(SafetyLimits.max_iq_bytes) ->
    ActionOk r (ProposedAction.InspectCandidate id center rate bandwidth dwell) false
| ok_capture id c center rate bandwidth samples :
    r.(PlanRequest.state) <> ControllerState.Faulted ->
    (health_of r).(HealthSummary.sdr_online) = true ->
    (health_of r).(HealthSummary.can_capture_iq) = true ->
    current r id c ->
    in_band r.(PlanRequest.limits) center ->
    Z.abs (center - c.(CandidateSummary.center_hz)) <= c.(CandidateSummary.bandwidth_hz) ->
    RadioOk r.(PlanRequest.limits) rate bandwidth ->
    0 < samples <= r.(PlanRequest.limits).(SafetyLimits.max_iq_samples) ->
    4 * samples <= r.(PlanRequest.limits).(SafetyLimits.max_iq_bytes) ->
    ActionOk r (ProposedAction.CaptureBoundedIq id center rate bandwidth samples)
      (bool_decide (r.(PlanRequest.limits).(SafetyLimits.auto_approve_iq_bytes) < 4 * samples))
| ok_recognition id c :
    r.(PlanRequest.state) <> ControllerState.Faulted ->
    (health_of r).(HealthSummary.recognizer_available) = true ->
    current r id c ->
    ActionOk r (ProposedAction.RunLocalRecognition id) false.

(** ** The guards decide their specifications *)

#[local] Ltac unfold_require :=
  unfold require_sdr_capability, validate_frequency, validate_dwell, validate_radio_profile,
    validate_reason, require in *.

Lemma forallb_elem {A} (p : A -> bool) l :
  forallb p l = true <-> forall x, x ∈ l -> p x = true.
Proof. rewrite forallb_forall. split; intros H x Hx; apply H, list_elem_of_In, Hx. Qed.

Lemma forallb_not {A} (p : A -> bool) l :
  forallb p l = false <-> exists x, x ∈ l /\ p x = false.
Proof.
  induction l as [|x l IH]; cbn; [split; [easy|intros (? & H & _); inversion H]|].
  rewrite andb_false_iff, IH. split.
  - intros [H|(y & Hy & H)]; [exists x|exists y]; split; auto; [left|right; exact Hy].
  - intros (y & Hy & H). apply elem_of_cons in Hy as [->|Hy]; eauto.
Qed.

Lemma valid_label_spec value max_bytes :
  valid_label value max_bytes = true <-> LabelOk value max_bytes.
Proof.
  unfold valid_label, LabelOk. guards. rewrite trim_is_empty, forallb_not, forallb_elem.
  setoid_rewrite negb_true_iff. tauto.
Qed.

Lemma validate_limits_spec l u :
  SafetyLimits.wf l -> validate_limits l = Ok u <-> LimitsOk l.
Proof.
  intros Hwf. unfold validate_limits, require. guards. unfold SafetyLimits.wf, is_u in Hwf.
  split.
  - intros ((?&?)&?&(?&Hs)&?&?&((?&?)&?)&?).
    rewrite sub64_small in Hs by (unfold u64_max in *; lia). constructor; lia.
  - intros []. rewrite sub64_small by (unfold u64_max in *; lia). lia.
Qed.

Lemma validate_candidate_spec c l u : validate_candidate c l = Ok u <-> CandidateOk l c.
Proof.
  unfold validate_candidate. unfold_require. guards. rewrite valid_label_spec. unfold in_band.
  split.
  - intros (?&?&(?&?)&(?&?)&?). constructor; auto.
  - intros []; auto 10.
Qed.

Lemma check_candidates_spec l cs ids ids' :
  check_candidates l cs ids = Ok ids' <->
  Forall (CandidateOk l) cs /\ NoDup (map CandidateSummary.id cs)
  /\ (forall i, i ∈ map CandidateSummary.id cs -> i ∉ ids)
  /\ ids' = list_to_set (map CandidateSummary.id cs) ∪ ids.
Proof.
  revert ids. induction cs as [|c cs IH]; intros ids; cbn.
  - rewrite (left_id_L ∅ (∪)). split; [intros [= <-]|intros (?&?&?&->)]; auto.
    repeat split; auto using NoDup_nil_2. intros i Hi; inversion Hi.
  - rewrite unit_seq, validate_candidate_spec. unfold require. guards. rewrite IH.
    rewrite list.Forall_cons, list.NoDup_cons. split.
    + intros (Hc & Hi & Hcs & Hnd & Hdis & ->). split_and!; auto.
      * intros Hin. apply Hdis in Hin. set_solver.
      * intros i [->|Hin]%elem_of_cons; [exact Hi|apply Hdis in Hin; set_solver].
      * set_solver.
    + intros ((Hc & Hcs) & (Hni & Hnd) & Hdis & ->). split_and!; auto.
      * apply Hdis. left.
      * intros i Hin. specialize (Hdis i). set_solver.
      * set_solver.
Qed.

Lemma check_sweep_points_spec l pts prev u :
  check_sweep_points l pts prev = Ok u <->
  Forall (fun p => in_band l p.1 /\ is_finite p.2 = true) pts
  /\ StronglySorted Z.lt (map fst pts)
  /\ match prev with Some p => Forall (Z.lt p) (map fst pts) | None => True end.
Proof.
  destruct u. revert prev. induction pts as [|[c p] pts IH]; intros prev; cbn.
  - split; [|easy]. intros _. repeat split; [auto|constructor|]. destruct prev; auto.
  - unfold_require. guards. rewrite IH. rewrite list.Forall_cons. unfold in_band; cbn. split.
    + intros (Hb & (Hf & Hp) & Hall & Hs & Hlt).
      split; [tauto|]. split; [constructor; auto|].
      destruct prev as [q|]; [|exact I]. guards_in Hp. constructor; [exact Hp|].
      revert Hlt. apply Forall_impl. intros a; lia.
    + intros (((? & ?) & ?) & Hs & Hp). apply StronglySorted_inv in Hs as [Hs Hlt].
      split; [assumption|]. split; [split; [assumption|]|tauto].
      destruct prev; [|reflexivity]. guards. now inversion Hp.
Qed.

Lemma check_latest_sweep_spec l s u : check_latest_sweep l s = Ok u <-> LatestSweepOk l s.
Proof.
  unfold check_latest_sweep, require. guards.
  rewrite valid_label_spec, check_sweep_points_spec. unfold MAX_SWEEP_POINTS, length_z. split.
  - intros (?&(Hne&?)&(((?&?)&?)&?)&?&?&_). constructor; auto.
    destruct (SweepObservationSummary.points s); [easy|]. unfold length_z; cbn [length] in *; lia.
  - intros []. unfold length_z in *. split_and!; auto; try lia.
    intros E. rewrite E in *. cbn in *; lia.
Qed.

Lemma check_recognition_spec ids g u :
  check_recognition (list_to_set ids) g = Ok u <-> RecognitionOk ids g.
Proof.
  unfold check_recognition, require, f_in_range. guards.
  rewrite !valid_label_spec, elem_of_list_to_set.
  split; [intros (?&?&(?&?&?)&?); constructor; auto|intros []; tauto].
Qed.

Lemma find_candidate_spec r id c :
  NoDup (candidate_ids r.(PlanRequest.observation)) ->
  find_candidate r id = Ok c <-> current r id c.
Proof.
  unfold find_candidate, candidate_ids, current. guards.
  induction (ObservationSummary.candidates (PlanRequest.observation r)) as [|d ds IH];
    cbn; intros Hnd.
  - split; [discriminate|intros [H _]; inversion H].
  - apply list.NoDup_cons in Hnd as [Hd Hnd]. rewrite elem_of_cons.
    destruct (String.eqb (CandidateSummary.id d) id) eqn:E; guards_in E.
    + split; [intros [= ->]; auto|]. intros [[->|Hin] Hid]; [reflexivity|].
      exfalso. apply Hd. rewrite E, <- Hid. apply list_elem_of_In, in_map, list_elem_of_In, Hin.
    + rewrite IH by assumption. split; [tauto|]. intros [[->|Hin] Hid]; tauto.
Qed.

Lemma require_sdr_capability_spec r retune capture u :
  require_sdr_capability r retune capture = Ok u <->
  (health_of r).(HealthSummary.sdr_online) = true
  /\ (retune = true -> (health_of r).(HealthSummary.can_retune) = true)
  /\ (capture = true -> (health_of r).(HealthSummary.can_capture_iq) = true).
Proof.
  unfold require_sdr_capability, require, health_of. guards.
  destruct retune, capture; intuition congruence.
Qed.

Lemma validate_frequency_spec f l u : validate_frequency f l = Ok u <-> in_band l f.
Proof. unfold_require. guards. reflexivity. Qed.

Lemma validate_dwell_spec d l u :
  validate_dwell d l = Ok u <-> 0 < d <= l.(SafetyLimits.max_dwell_ms).
Proof. unfold_require. guards. reflexivity. Qed.

Lemma validate_radio_profile_spec rate bandwidth l u :
  validate_radio_profile rate bandwidth l = Ok u <-> RadioOk l rate bandwidth.
Proof. unfold RadioOk. unfold_require. guards. tauto. Qed.

#[export] Hint Rewrite @unit_seq require_sdr_capability_spec validate_frequency_spec
  validate_dwell_spec validate_radio_profile_spec valid_label_spec : guards.

(** Rounding up covers: the number of points the policy computes. *)
Lemma covers_div span step n :
  0 < step -> covers span step n <-> n = (span + (step - 1)) / step + 1.
Proof.
  intros Hs. unfold covers. pose proof (Z.div_mod (span + (step - 1)) step ltac:(lia)).
  pose proof (Z.mod_pos_bound (span + (step - 1)) step Hs).
  set (q := (span + (step - 1)) / step) in *. split; [|intros ->; nia].
  intros [H1 H2]. 
  destruct (Z.le_gt_cases q (n - 2)); [assert (step * q <= step * (n - 2)) by nia; lia|].
  destruct (Z.le_gt_cases n q); [assert (step * n <= step * q) by nia; lia|lia].
Qed.

Lemma survey_point_count span step e n :
  0 < span <= 6000000000 -> 0 < step <= span ->
  ok_or e (rounded ← checked_add span (saturating_sub step 1) ;
           intervals ← checked_div rounded step ;
           checked_add intervals 1) = @Ok PolicyError.t _ n
  <-> covers span step n.
Proof.
  intros Hspan Hstep. rewrite covers_div by lia. guards.
  unfold checked_add, checked_div, saturating_sub, u64_max. rewrite Z.max_l by lia.
  assert (0 <= (span + (step - 1)) / step <= 12000000000).
  { split; [apply Z.div_pos; lia|apply Z.div_le_upper_bound; lia]. }
  rewrite (proj2 (Z.leb_le (span + (step - 1)) _)) by lia. cbn.
  rewrite (proj2 (Z.eqb_neq step 0)) by lia. cbn.
  rewrite (proj2 (Z.leb_le _ 18446744073709551615)) by lia. split; congruence.
Qed.

Lemma checked_mul_ok a b e n :
  a * b <= u64_max -> ok_or e (checked_mul a b) = @Ok PolicyError.t _ n <-> n = a * b.
Proof.
  intros H. guards. unfold checked_mul. rewrite (proj2 (Z.leb_le _ _)) by exact H.
  split; congruence.
Qed.

Lemma coverage_spec step bandwidth :
  0 <= bandwidth <= 1000000000000 ->
  step <= saturating_mul bandwidth 4 / 5 <-> 5 * step <= 4 * bandwidth.
Proof.
  intros H. unfold saturating_mul, u64_max in *.
  rewrite Z.min_l by lia.
  pose proof (Z.div_mod (bandwidth * 4) 5). pose proof (Z.mod_pos_bound (bandwidth * 4) 5). lia.
Qed.

Section Action.
Context (r : PlanRequest.t) (Hwf : PlanRequest.wf r) (Hok : RequestOk r).

#[local] Ltac widths :=
  unfold PlanRequest.wf, SafetyLimits.wf, ProposedAction.wf, is_u, u64_max, u16_max in *.

Lemma wf_candidate c :
  c ∈ r.(PlanRequest.observation).(ObservationSummary.candidates) -> CandidateSummary.wf c.
Proof.
  intros Hin. destruct Hwf as (_&_&_&(_&_&Hc&_)&_).
  rewrite list.Forall_forall in Hc. now apply Hc.
Qed.

Lemma validate_survey_spec start stop step rate bandwidth dwell b :
  ProposedAction.wf (ProposedAction.SurveyBand start stop step rate bandwidth dwell) ->
  r.(PlanRequest.state) <> ControllerState.Faulted ->
  validate_survey r start stop step rate bandwidth dwell = Ok b <->
  ActionOk r (ProposedAction.SurveyBand start stop step rate bandwidth dwell) b.
Proof.
  intros Hw Hst. pose proof (rq_limits _ Hok) as Hl. destruct Hl.
  unfold validate_survey, require. guards.
  unfold MAX_SURVEY_POINTS, MAX_SURVEY_DURATION_MS, SURVEY_POINT_TIMEOUT_MS,
    SURVEY_FRAME_BYTES. split.
  - intros ((Hon&Hre&_)&Hb1&Hb2&(Hlt&Hspan)&(Hs1&Hs2)&Hradio&Hcov&Hdw&Hrest).
    assert (Hsub : sub64 stop start = stop - start) by (apply sub64_small; widths; lia).
    rewrite Hsub in *. destruct Hradio as (?&?&?).
    rewrite coverage_spec in Hcov by lia.
    apply bind_Ok in Hrest as (n & Hn & Hrest).
    rewrite survey_point_count in Hn by lia.
    guards_in Hrest. destruct Hrest as (Hn768 & Hrest).
    apply bind_Ok in Hrest as (d & Hd & Hrest).
    unfold saturating_add in Hd. rewrite Z.min_l in Hd by (unfold u64_max; lia).
    rewrite checked_mul_ok in Hd by (unfold u64_max; nia). subst d.
    guards_in Hrest. destruct Hrest as (Hdur & Hrest).
    apply bind_Ok in Hrest as (p & Hp & Hrest).
    rewrite checked_mul_ok in Hp by (unfold u64_max; lia). subst p.
    guards_in Hrest. destruct Hrest as (Hbytes & [= <-]).
    econstructor; eauto; unfold RadioOk; lia.
  - inversion 1 as [| |? ? ? ? ? ? n ? Hon Hre Hb1 Hb2 Hspan Hstep Hradio Hcov Hdw Hn Hn768 Hdur Hbytes| | |];
      subst.
    assert (Hsub : sub64 stop start = stop - start) by (apply sub64_small; widths; lia).
    rewrite !Hsub. pose proof Hradio as (?&?&?). unfold in_band in *.
    split_and!; auto; try lia.
    { rewrite coverage_spec by lia. lia. }
    apply bind_Ok. exists n. rewrite survey_point_count by lia. split; [exact Hn|].
    guards. split; [exact Hn768|]. apply bind_Ok. exists (n * (dwell + 250)).
    unfold saturating_add. rewrite Z.min_l by (unfold u64_max; lia).
    rewrite checked_mul_ok by (unfold u64_max; nia). split; [reflexivity|].
    guards. split; [exact Hdur|]. apply bind_Ok. exists (n * (4096 * 4)).
    rewrite checked_mul_ok by (unfold u64_max; nia). split; [reflexivity|].
    guards. split; [lia|reflexivity].
Qed.

Lemma validate_inspection_spec id center rate bandwidth dwell b :
  r.(PlanRequest.state) <> ControllerState.Faulted ->
  validate_inspection r id center rate bandwidth dwell = Ok b <->
  ActionOk r (ProposedAction.InspectCandidate id center rate bandwidth dwell) b.
Proof.
  intros Hst. unfold validate_inspection, require, SURVEY_FRAME_BYTES, MAX_INSPECTION_DWELL_MS,
    abs_diff. guards.
  rewrite bind_Ok. setoid_rewrite (find_candidate_spec _ _ _ (rq_unique _ Hok)). split.
  - intros ((?&?&_)&c&?&Hc). guards_in Hc. destruct Hc as (?&?&?&?&?&?&[= <-]).
    econstructor; eauto; lia.
  - inversion 1; subst. split; [intuition congruence|]. eexists; split; [eassumption|]. guards.
    split_and!; try assumption; try lia; reflexivity.
Qed.

Lemma validate_capture_spec id center rate bandwidth samples b :
  ProposedAction.wf (ProposedAction.CaptureBoundedIq id center rate bandwidth samples) ->
  r.(PlanRequest.state) <> ControllerState.Faulted ->
  validate_capture r id center rate bandwidth samples = Ok b <->
  ActionOk r (ProposedAction.CaptureBoundedIq id center rate bandwidth samples) b.
Proof.
  intros Hw Hst. unfold validate_capture, require, abs_diff. guards.
  rewrite bind_Ok. setoid_rewrite (find_candidate_spec _ _ _ (rq_unique _ Hok)).
  assert (Hlt : forall a x : Z, (a <? x) = bool_decide (a < x)).
  { intros a x. apply eq_iff_eq_true. guards. reflexivity. }
  split.
  - intros ((?&_&?)&c&?&Hc). guards_in Hc. destruct Hc as (?&?&?&(?&?)&?&Hb).
    apply bind_Ok in Hb as (bytes & Hbytes & Hb). guards_in Hbytes.
    apply checked_mul_Some in Hbytes as [_ ->]. guards_in Hb.
    destruct Hb as (?&[= <-]). rewrite ?Hlt. replace (samples * 4) with (4 * samples) by lia.
    econstructor; eauto; unfold RadioOk; lia.
  - inversion 1 as [| | | |? ? ? ? ? ? ? ? ? Hcur Hband Hnear (?&?&?)|]; subst.
    split; [intuition congruence|]. eexists; split; [eassumption|]. guards.
    split_and!; try assumption; try lia.
    apply bind_Ok. exists (4 * samples). guards. rewrite checked_mul_Some.
    pose proof Hwf as (_&_&_&_&Hl). unfold SafetyLimits.wf, is_u, u64_max in *.
    rewrite ?Hlt. replace (samples * 4) with (4 * samples) by lia.
    split_and!; try lia. reflexivity.
Qed.
End Action.

Lemma check_optional_spec {A} (o : option A) (f : A -> result PolicyError.t unit) u :
  match o with Some a => f a | None => Ok tt end = Ok u <-> forall a, o = Some a -> f a = Ok tt.
Proof.
  destruct u, o as [a|]; split; try easy; [intros H a' [= <-]; exact H|intros H; now apply H].
Qed.

Lemma validate_request_spec r u :
  PlanRequest.wf r -> validate_request r = Ok u <-> RequestOk r.
Proof.
  intros (_&_&_&_&Hl). unfold validate_request, require. guards.
  rewrite (validate_limits_spec _ _ Hl), trim_is_empty, forallb_not, bind_Ok.
  setoid_rewrite check_candidates_spec. unfold length_z, MAX_CANDIDATES, MAX_INSTRUCTION_BYTES.
  split.
  - intros (?&?&?&?&?&?&ids&(?&?&_&->)&Hrest). rewrite (right_id_L ∅ (∪)) in Hrest.
    guards_in Hrest. rewrite !check_optional_spec in Hrest. destruct Hrest as [Hs Hg].
    constructor; auto; try lia.
    + intros s E. apply check_latest_sweep_spec with tt, Hs, E.
    + intros g E. apply check_recognition_spec with tt, Hg, E.
  - intros []. split_and!; auto; try tauto; try lia.
    eexists; split; [split_and!; auto; intros; set_solver|].
    rewrite (right_id_L ∅ (∪)). guards. rewrite !check_optional_spec.
    split; intros a E; [apply check_latest_sweep_spec|apply check_recognition_spec]; auto.
Qed.

Lemma validate_action_spec r a b :
  PlanRequest.wf r -> RequestOk r -> ProposedAction.wf a ->
  validate_action r a = Ok b <-> ActionOk r a b.
Proof.
  intros Hwf Hok Ha. unfold validate_action.
  destruct a; rewrite reject_seq; guards.
  1,6: unfold validate_reason, require; guards; split; [intros (_&?&[= <-]); now constructor
    |inversion 1; subst; split; [now right|auto]].
  all: destruct (decide (PlanRequest.state r = ControllerState.Faulted)) as [Hf|Hf];
    [split; [intros ([?|[=]]&_); contradiction|inversion 1; contradiction]|].
  - rewrite validate_survey_spec by assumption. tauto.
  - rewrite validate_inspection_spec by assumption. tauto.
  - rewrite validate_capture_spec by assumption. tauto.
  - unfold require. guards. rewrite bind_Ok.
    setoid_rewrite (find_candidate_spec _ _ _ (rq_unique _ Hok)). split.
    + intros (_&?&c&?&[= <-]). econstructor; eauto.
    + inversion 1; subst. split; [now left|]. eauto.
Qed.

(** ** Properties *)

(** C5: for a well-formed request that passed [validate_request] the policy's verdict on an
    action is exactly the declarative one: [validate_action] answers [Ok approval] if and only if
    the action is allowed (faulted state, capabilities, band, span, coverage, the 768-point,
    300-second and byte budgets in unbounded arithmetic, the candidate being current), and
    [approval] is true exactly for a capture of more than [auto_approve_iq_bytes] bytes. *)
Theorem validate_action_decides r a b :
  PlanRequest.wf r -> RequestOk r -> ProposedAction.wf a ->
  validate_action r a = Ok b <-> ActionOk r a b.
Proof. apply validate_action_spec. Qed.

(** [validate_request] accepts exactly the requests that are well formed in the declarative
    sense: right version, a bounded non-blank instruction, limits inside the AD9361 range, a fresh
    observation of at most 32 valid candidates with pairwise distinct ids, a latest sweep whose
    points are finite, in band and strictly ascending, and a recognition of a current candidate. *)
Theorem validate_request_decides r :
  PlanRequest.wf r -> is_Ok (validate_request r) = true <-> RequestOk r.
Proof.
  intros Hwf. rewrite is_Ok_spec. split.
  - intros [u H]. now apply (validate_request_spec r u Hwf).
  - intros H. exists tt. now apply validate_request_spec.
Qed.

Lemma validate_response_Ok r resp plan :
  validate_response r resp = Ok plan <->
  resp.(PlanResponse.protocol_version) = 1
  /\ resp.(PlanResponse.request_id) = r.(PlanRequest.request_id)
  /\ resp.(PlanResponse.session_generation) = r.(PlanRequest.session_generation)
  /\ LabelOk resp.(PlanResponse.planner).(PlannerMeta.provider) 64
  /\ LabelOk resp.(PlanResponse.planner).(PlannerMeta.model) 128
  /\ resp.(PlanResponse.status) = PlanStatus.Ok
  /\ resp.(PlanResponse.error) = None
  /\ resp.(PlanResponse.action) = Some plan.(ValidatedPlan.action)
  /\ validate_action r plan.(ValidatedPlan.action) = Ok plan.(ValidatedPlan.approval_required)
  /\ plan.(ValidatedPlan.request_id) = r.(PlanRequest.request_id)
  /\ plan.(ValidatedPlan.session_generation) = r.(PlanRequest.session_generation)
  /\ plan.(ValidatedPlan.planner) = resp.(PlanResponse.planner).
Proof.
  unfold validate_response, require. guards. unfold PROTOCOL_VERSION.
  destruct (decide (PlanResponse.status resp = PlanStatus.Ok)) as [Hs|Hs].
  - rewrite (bool_decide_eq_true_2 _ Hs). cbn [negb]. guards. split.
    + intros (?&?&?&?&?&?&Hr). apply bind_Ok in Hr as (a & Ha & Hr). apply ok_or_Ok in Ha.
      apply bind_Ok in Hr as (b & Hb & [= <-]). cbn. split_and!; auto.
    + intros (?&?&?&?&?&?&?&?&?&?&?&?). split_and!; auto.
      apply bind_Ok. eexists; split; [apply ok_or_Ok; eassumption|].
      apply bind_Ok. eexists; split; [eassumption|].
      destruct plan; cbn in *. congruence.
  - rewrite (bool_decide_eq_false_2 _ Hs). cbn [negb]. guards.
    split; [intros (?&?&?&?&?&?&[=])|tauto].
Qed.

(** C24: for a valid request, a response becomes a plan exactly when it answers this request in this session: it carries
    the protocol version, the request id and the session generation of the request, valid planner
    labels, status [Ok], no error and an action the policy allows; the plan repeats the ids of the
    request and the action and planner of the response, and marks it for approval exactly when
    the policy says so.  Every other response is an error. *)
Theorem validate_response_decides r resp plan :
  PlanRequest.wf r -> RequestOk r -> PlanResponse.wf resp ->
  validate_response r resp = Ok plan <->
  resp.(PlanResponse.protocol_version) = 1
  /\ resp.(PlanResponse.request_id) = r.(PlanRequest.request_id)
  /\ resp.(PlanResponse.session_generation) = r.(PlanRequest.session_generation)
  /\ LabelOk resp.(PlanResponse.planner).(PlannerMeta.provider) 64
  /\ LabelOk resp.(PlanResponse.planner).(PlannerMeta.model) 128
  /\ resp.(PlanResponse.status) = PlanStatus.Ok
  /\ resp.(PlanResponse.error) = None
  /\ exists a approval, resp.(PlanResponse.action) = Some a /\ ActionOk r a approval
     /\ plan = {| ValidatedPlan.request_id := r.(PlanRequest.request_id);
                  ValidatedPlan.session_generation := r.(PlanRequest.session_generation);
                  ValidatedPlan.approval_required := approval;
                  ValidatedPlan.action := a;
                  ValidatedPlan.planner := resp.(PlanResponse.planner) |}.
Proof.
  intros Hwf Hok (_&_&_&Ha). rewrite validate_response_Ok. split.
  - intros (?&?&?&?&?&?&?&E&Hv&?&?&?). split_and!; auto.
    rewrite E in Ha. apply validate_action_spec in Hv; auto.
    do 2 eexists. split_and!; [exact E|exact Hv|]. destruct plan; cbn in *; congruence.
  - intros (?&?&?&?&?&?&?&a&b&E&Hv&->). rewrite E in Ha. cbn.
    apply validate_action_spec in Hv; auto 15.
Qed.

(** When the planner reports a failure (any status but [Ok]) and the response passes the
    correlation checks, the controller ends with an error whatever else the response holds, and the
    message it reports is bounded and not blank: the planner's own if it is at most 512 bytes and
    not blank, the fixed one otherwise. *)
Theorem failed_planner_is_reported r resp :
  resp.(PlanResponse.status) <> PlanStatus.Ok ->
  exists e, validate_response r resp = Err e
  /\ (e.(PolicyError.code) = "planner_unavailable"%string ->
      is_empty (trim e.(PolicyError.message)) = false
      /\ len e.(PolicyError.message) <= 512
      /\ (forall m, resp.(PlanResponse.error) = Some m -> is_empty (trim m) = false ->
          len m <= 512 -> e.(PolicyError.message) = m)).
Proof.
  intros Hs. unfold validate_response, require.
  rewrite (bool_decide_eq_false_2 _ Hs). cbn [negb].
  match goal with |- context [PolicyError.new "planner_unavailable" ?m] => set (message := m) end.
  do 6 (rewrite ensure_run;
        match goal with |- exists e, (if ?c then _ else _) = _ /\ _ => destruct c end;
        [|eexists; split; [reflexivity|discriminate]]).
  eexists; split; [reflexivity|]. cbn [PolicyError.code PolicyError.message]. intros _.
  subst message.
  destruct (PlanResponse.error resp) as [m|].
  - destruct (is_empty (trim m)) eqn:E1, (len m <=? 512) eqn:E2; cbn [andb negb].
    all: split_and!; try (vm_compute; congruence); try (intros ? [= <-]; congruence).
    + exact E1.
    + now apply Z.leb_le.
    + intros ? [= <-] _. apply Z.leb_gt in E2. lia.
  - split_and!; vm_compute; congruence.
Qed.

(** ** A concrete request *)
Module PolicySamples.
Definition db (n : Z) : float := f32_of_Z n.

Definition limits : SafetyLimits.t :=
  SafetyLimits.mk 70000000 6000000000 1000000000 20000000 1000 65536 16777216 262144 60000.

Definition health : HealthSummary.t := HealthSummary.mk true true true true 0.

Definition candidate : CandidateSummary.t :=
  CandidateSummary.mk "sweep-1-1" 2437000000 10000000 (db (-40)) (db 30) 100.

Definition sweep : SweepObservationSummary.t :=
  SweepObservationSummary.mk "sweep-1" 30720000 20000000 20 (db (-70))
    [(2421000000, db (-70)); (2437000000, db (-40))].

Definition request : PlanRequest.t :=
  PlanRequest.mk 1 7 3 "find the access point" ControllerState.Idle
    (ObservationSummary.mk 100 health [candidate] (Some sweep)
       (Some (RecognitionSummary.mk "sweep-1-1" "wifi" (f32_of_Z 1))))
    limits.

Definition survey : ProposedAction.t :=
  ProposedAction.SurveyBand 2400000000 2500000000 16000000 30720000 20000000 20.
Definition capture : ProposedAction.t :=
  ProposedAction.CaptureBoundedIq "sweep-1-1" 2437000000 30720000 10000000 65536.
Definition large_capture_limits : SafetyLimits.t :=
  SafetyLimits.mk 70000000 6000000000 1000000000 20000000 1000 131072 16777216 262144 60000.

Definition response (a : ProposedAction.t) : PlanResponse.t :=
  PlanResponse.mk 1 7 3 PlanStatus.Ok (Some a) None (PlannerMeta.mk "local" "rules").

Lemma request_wf : PlanRequest.wf request.
Proof.
  repeat (split || apply Forall_cons || apply Forall_nil || exact I); cbn; try lia;
    vm_compute; congruence.
Qed.

Lemma request_ok : RequestOk request.
Proof. apply (validate_request_spec request tt request_wf). vm_compute. reflexivity. Qed.

Lemma survey_wf : ProposedAction.wf survey.
Proof. vm_compute. intuition congruence. Qed.

Lemma survey_ok : ActionOk request survey false.
Proof.
  apply (validate_action_spec request survey false request_wf request_ok survey_wf).
  vm_compute. reflexivity.
Qed.
End PolicySamples.

Lemma validate_action_decides_witness :
  validate_action PolicySamples.request PolicySamples.survey = Ok false.
Proof.
  apply (validate_action_decides PolicySamples.request PolicySamples.survey false
           PolicySamples.request_wf PolicySamples.request_ok PolicySamples.survey_wf).
  exact PolicySamples.survey_ok.
Defined.

Lemma validate_request_decides_witness : is_Ok (validate_request PolicySamples.request) = true.
Proof.
  apply (validate_request_decides PolicySamples.request PolicySamples.request_wf).
  exact PolicySamples.request_ok.
Defined.

Lemma validate_response_decides_witness :
  exists plan, validate_response PolicySamples.request
                 (PolicySamples.response PolicySamples.survey) = Ok plan.
Proof.
  eexists.
  apply (validate_response_decides PolicySamples.request
           (PolicySamples.response PolicySamples.survey) _
           PolicySamples.request_wf PolicySamples.request_ok).
  - split; [|split; [|split]]; try (vm_compute; intuition congruence); exact PolicySamples.survey_wf.
  - repeat (split; [first [reflexivity|apply valid_label_spec; vm_compute; reflexivity]|]).
    exists PolicySamples.survey, false.
    split; [reflexivity|split; [exact PolicySamples.survey_ok|reflexivity]].
Defined.

Lemma failed_planner_is_reported_witness :
  exists e, validate_response PolicySamples.request
    (PlanResponse.mk 1 7 3 PlanStatus.Unavailable None (Some "busy"%string)
       (PlannerMeta.mk "local" "rules")) = Err e.
Proof.
  destruct (failed_planner_is_reported PolicySamples.request
    (PlanResponse.mk 1 7 3 PlanStatus.Unavailable None (Some "busy"%string)
       (PlannerMeta.mk "local" "rules")) ltac:(discriminate)) as (e & He & _).
  exists e. exact He.
Defined.
