(* ===== verification/Framing.v ===== *)
(** * Newline framing

    The bounded line reads the planner and SDRD clients share:
    [reader.take(limit).read_until(b'\n', &mut frame)] over a byte stream of
    which some bytes have arrived and which then ends or fails. *)
From S2P Require Import Prelude.

Definition NEWLINE : Z := 10.

(** What a reader gets from its peer: the bytes that arrive, and then the end
    of the stream ([None]) or a read error such as a timeout. *)
Record Incoming := incoming { arrived : list Z; failure : option string }.

(** [take(limit).read_until(b'\n')] over the arrived bytes: the frame read and
    the bytes left unread. *)
Fixpoint take_line (limit : nat) (stream : list Z) : list Z * list Z :=
  match limit, stream with
  | S limit, b :: stream =>
      if b =? NEWLINE then ([b], stream)
      else let (frame, rest) := take_line limit stream in (b :: frame, rest)
  | _, _ => ([], stream)
  end.

(** [frame.last() == Some(&b'\n')]. *)
Fixpoint ends_with_newline (frame : list Z) : bool :=
  match frame with
  | [] => false
  | [b] => b =? NEWLINE
  | _ :: frame => ends_with_newline frame
  end.

(** The whole read: it fails when the stream fails before a newline arrives or
    the limit is reached. *)
Definition read_line (limit : nat) (stream : list Z) (failure : option string)
    : result string (list Z) * list Z :=
  let (frame, rest) := take_line limit stream in
  match failure with
  | Some error =>
      if ends_with_newline frame || (length_z frame =? Z.of_nat limit) then (Ok frame, rest)
      else (Err error, rest)
  | None => (Ok frame, rest)
  end.

(** [frame.pop()]. *)
Definition pop (frame : list Z) : list Z := removelast frame.

Lemma take_line_app limit stream frame rest :
  take_line limit stream = (frame, rest) -> stream = frame ++ rest.
Proof.
  revert stream frame rest.
  induction limit as [|limit IH]; intros [|b stream] frame rest; cbn; try (intros [= <- <-]; easy).
  destruct (b =? NEWLINE); [now intros [= <- <-]|].
  destruct (take_line limit stream) as [f r] eqn:E. intros [= <- <-].
  cbn. f_equal. now apply IH.
Qed.

Lemma take_line_length limit stream frame rest :
  take_line limit stream = (frame, rest) -> (length frame <= limit)%nat.
Proof.
  revert stream frame rest.
  induction limit as [|limit IH]; intros [|b stream] frame rest; cbn;
    try (intros [= <- <-]; cbn; lia).
  destruct (b =? NEWLINE); [intros [= <- <-]; cbn; lia|].
  destruct (take_line limit stream) as [f r] eqn:E. intros [= <- <-].
  apply IH in E. cbn. lia.
Qed.

(** Only the last byte of a frame can be a newline. *)
Lemma take_line_newline limit stream frame rest :
  take_line limit stream = (frame, rest) -> ends_with_newline frame = true ->
  frame = pop frame ++ [NEWLINE] /\ NEWLINE ∉ pop frame.
Proof.
  revert stream frame rest.
  induction limit as [|limit IH]; intros [|b stream] frame rest; cbn;
    try (intros [= <- <-]; discriminate).
  destruct (b =? NEWLINE) eqn:Eb.
  - apply Z.eqb_eq in Eb as ->. intros [= <- <-] _. cbn.
    split; [reflexivity|intros H; inversion H].
  - destruct (take_line limit stream) as [f r] eqn:E. intros [= <- <-] Hn.
    destruct f as [|c f]; [cbn in Hn; congruence|].
    destruct (IH _ _ _ E Hn) as [H1 H2]. unfold pop in *. rewrite H1 at 1.
    change (removelast (b :: c :: f)) with (b :: removelast (c :: f)).
    split; [reflexivity|]. apply Z.eqb_neq in Eb.
    intros [?|?]%elem_of_cons; [congruence|contradiction].
Qed.

Lemma read_line_Ok limit stream failure frame rest :
  read_line limit stream failure = (Ok frame, rest) -> take_line limit stream = (frame, rest).
Proof.
  unfold read_line. destruct (take_line limit stream) as [f r].
  destruct failure; [case_match|]; congruence.
Qed.

(** The line of a stream that starts with one. *)
Lemma take_line_complete limit line rest :
  NEWLINE ∉ line -> (length line < limit)%nat ->
  take_line limit (line ++ NEWLINE :: rest) = (line ++ [NEWLINE], rest).
Proof.
  revert limit. induction line as [|b line IH]; intros [|limit] Hn Hl; cbn in *; try lia.
  - reflexivity.
  - rewrite not_elem_of_cons in Hn. destruct Hn as [Hb Hn].
    rewrite (proj2 (Z.eqb_neq b NEWLINE)) by congruence. rewrite IH by (auto; lia). reflexivity.
Qed.
