(* ===== verification/Planner.v ===== *)
(** * The planner client and the controller

    [controller/src/planner.rs] and the [Controller] of [controller/src/lib.rs].
    The planner is an interface; its Unix-socket implementation exchanges one
    bounded JSON line per request.  serde_json's encoder and decoder and the
    operating system's socket are parameters. *)
From S2P Require Import Prelude Text F32 Protocol Policy Framing.

Module PlannerError.
Record t := mk { kind : string; message : string }.
Definition transport (operation error : string) : t :=
  mk "transport" (operation +:+ ": " +:+ error).
Definition protocol (message : string) : t := mk "protocol" message.
(** The [Display] of a planner error. *)
Definition display (e : t) : string := e.(kind) +:+ ": " +:+ e.(message).
End PlannerError.

(** The trait [Planner]: a stateful planner whose responses are typed values. *)
Class Planner (P : Type) := {
  plan : PlanRequest.t -> P -> result PlannerError.t PlanResponse.t * P;
  plan_wf request p response p' :
    plan request p = (Ok response, p') -> PlanResponse.wf response;
}.

(** ** The Unix-socket adapter *)
Module UnixPlannerAdapter.
(** What the operating system does with one connection to [socket_path]. *)
Record Socket := socket {
  connect : result string unit;
  set_read_timeout : result string unit;
  set_write_timeout : result string unit;
  write_all : list Z -> result string unit;
  answer : list Z -> Incoming;
}.

(** The effects the adapter had: what it wrote, in order. *)
Record t := mk { peer : Socket; written : list (list Z) }.

Section Adapter.
Context (to_vec : PlanRequest.t -> result string (list Z)).
Context (from_slice : list Z -> result string PlanResponse.t).

Definition exchange (frame : list Z) (self : t) : result PlannerError.t (list Z) * t :=
  let s := self.(peer) in
  match (map_err (PlannerError.transport "connect planner socket") s.(connect) ;;
         map_err (PlannerError.transport "set planner read timeout") s.(set_read_timeout) ;;
         map_err (PlannerError.transport "set planner write timeout") s.(set_write_timeout))
  with
  | Err error => (Err error, self)
  | Ok _ =>
      let self' := mk s (self.(written) ++ [frame]) in
      match map_err (PlannerError.transport "write planner request") (s.(write_all) frame) with
      | Err error => (Err error, self')
      | Ok _ =>
          let received := s.(answer) frame in
          (map_err (PlannerError.transport "read planner response")
             (read_line (Z.to_nat (MAX_FRAME_BYTES + 1)) received.(arrived)
                received.(failure)).1,
           self')
      end
  end.

Definition check_frame (response_frame : list Z) : result PlannerError.t PlanResponse.t :=
  reject_if (MAX_FRAME_BYTES + 1 <? length_z response_frame)
    (PlannerError.protocol "response frame exceeds 32 KiB") ;;
  reject_if (negb (ends_with_newline response_frame))
    (PlannerError.protocol "planner response is not newline framed") ;;
  map_err (fun error => PlannerError.protocol ("decode response: " +:+ error))
    (from_slice (pop response_frame)).

Definition plan (request : PlanRequest.t) (self : t)
    : result PlannerError.t PlanResponse.t * t :=
  match map_err (fun error => PlannerError.protocol ("encode request: " +:+ error))
          (to_vec request) with
  | Err error => (Err error, self)
  | Ok frame =>
      if MAX_FRAME_BYTES <? length_z frame then
        (Err (PlannerError.protocol "request frame exceeds 32 KiB"), self)
      else
        match exchange (frame ++ [NEWLINE]) self with
        | (Err error, self') => (Err error, self')
        | (Ok response_frame, self') => (check_frame response_frame, self')
        end
  end.
End Adapter.

Lemma exchange_written frame self r self' :
  exchange frame self = (r, self') ->
  self'.(written) = self.(written) \/ self'.(written) = self.(written) ++ [frame].
Proof. unfold exchange. intros H. repeat branch_in H; inversion H; subst; cbn; auto. Qed.

Lemma exchange_Ok frame self f self' :
  exchange frame self = (Ok f, self') ->
  self'.(written) = self.(written) ++ [frame]
  /\ exists rest, take_line (Z.to_nat (MAX_FRAME_BYTES + 1))
                    (self.(peer).(answer) frame).(arrived) = (f, rest).
Proof.
  unfold exchange. intros Hx. do 2 (branch_in Hx; [|discriminate]).
  injection Hx as Hr <-. split; [reflexivity|].
  destruct (read_line _ _ _) as [[g|e] rest] eqn:Hl; [|discriminate].
  cbn in Hr. injection Hr as ->. exists rest. eapply read_line_Ok, Hl.
Qed.
End UnixPlannerAdapter.

(** ** The controller *)
Module ControllerError.
Inductive t := Planner (e : PlannerError.t) | Policy (e : PolicyError.t).
Definition display (e : t) : string :=
  match e with
  | Planner error => "planner: " +:+ PlannerError.display error
  | Policy error => "policy: " +:+ PolicyError.display error
  end.
End ControllerError.

Module Controller.
Section Decide.
Context {P : Type} `{Planner P}.

(** [Controller::decide], over the state of the planner it owns. *)
Definition decide (request : PlanRequest.t) (planner : P)
    : result ControllerError.t ValidatedPlan.t * P :=
  match map_err ControllerError.Policy (validate_request request) with
  | Err error => (Err error, planner)
  | Ok _ =>
      match Planner.plan request planner with
      | (Err error, planner') => (Err (ControllerError.Planner error), planner')
      | (Ok response, planner') =>
          (map_err ControllerError.Policy (validate_response request response), planner')
      end
  end.
End Decide.

(** C13: whatever the planner answers, [decide] issues a plan only for a valid request and only
    for an action the policy allows for that request; the plan carries the ids of the request,
    is marked for approval exactly when the policy requires it, and its action is one the
    planner actually proposed for this request.  An invalid request never reaches the planner. *)
Theorem decide_safe {P} `{Planner P} request (planner planner' : P) outcome :
  PlanRequest.wf request ->
  decide request planner = (outcome, planner') ->
  (RequestOk request \/ (planner' = planner /\ exists e, outcome = Err (ControllerError.Policy e)))
  /\ forall p, outcome = Ok p ->
     RequestOk request
     /\ ActionOk request p.(ValidatedPlan.action) p.(ValidatedPlan.approval_required)
     /\ p.(ValidatedPlan.request_id) = request.(PlanRequest.request_id)
     /\ p.(ValidatedPlan.session_generation) = request.(PlanRequest.session_generation)
     /\ exists response,
          Planner.plan request planner = (Ok response, planner')
          /\ response.(PlanResponse.action) = Some p.(ValidatedPlan.action)
          /\ response.(PlanResponse.status) = PlanStatus.Ok.
Proof.
  intros Hwf. unfold decide. destruct (validate_request request) as [u|e] eqn:Hv; cbn.
  - apply validate_request_spec in Hv; [|assumption]. intros Hd. split; [now left|].
    intros p ->. destruct (Planner.plan request planner) as [[response|e] q] eqn:Hp;
      [|discriminate].
    destruct (validate_response request response) as [p'|e'] eqn:Hr; [|discriminate].
    injection Hd as -> ->. apply validate_response_Ok in Hr.
    destruct Hr as (?&?&?&?&?&?&?&Ha&Hact&?&?&?). split_and!; eauto.
    apply validate_action_spec in Hact; auto.
    destruct (plan_wf _ _ _ _ Hp) as (_&_&_&Hw). now rewrite Ha in Hw.
  - intros [= <- <-]. split; [right; eauto|discriminate].
Qed.
End Controller.

(** ** The adapter's frames *)

Lemma check_frame_Ok from_slice frame response :
  UnixPlannerAdapter.check_frame from_slice frame = Ok response <->
  length_z frame <= MAX_FRAME_BYTES + 1 /\ ends_with_newline frame = true
  /\ from_slice (pop frame) = Ok response.
Proof.
  unfold UnixPlannerAdapter.check_frame. guards.
  destruct (from_slice (pop frame)); cbn; intuition congruence.
Qed.

(** The Unix-socket planner writes at most one frame per request, the encoded request and a
    newline, of at most 32 KiB and the newline; it writes nothing when the encoding is larger; and
    a response it returns is the decoding of the first line of the peer's bytes, a line of at most
    32 KiB. *)
Theorem planner_adapter_frames to_vec from_slice request self outcome self' :
  UnixPlannerAdapter.plan to_vec from_slice request self = (outcome, self') ->
  (self'.(UnixPlannerAdapter.written) = self.(UnixPlannerAdapter.written)
   \/ exists json, to_vec request = Ok json /\ length_z json <= 32768
      /\ self'.(UnixPlannerAdapter.written)
         = self.(UnixPlannerAdapter.written) ++ [json ++ [NEWLINE]])
  /\ forall response, outcome = Ok response ->
     exists json line rest,
       to_vec request = Ok json /\ length_z json <= 32768
       /\ self'.(UnixPlannerAdapter.written)
          = self.(UnixPlannerAdapter.written) ++ [json ++ [NEWLINE]]
       /\ arrived (self.(UnixPlannerAdapter.peer).(UnixPlannerAdapter.answer) (json ++ [NEWLINE]))
          = line ++ NEWLINE :: rest
       /\ (NEWLINE ∉ line) /\ length_z line <= 32768
       /\ from_slice line = Ok response.
Proof.
  unfold UnixPlannerAdapter.plan.
  destruct (to_vec request) as [json|e]; cbn; [|intros [= <- <-]; split; [now left|discriminate]].
  destruct (MAX_FRAME_BYTES <? length_z json) eqn:Hlen;
    [intros [= <- <-]; split; [now left|discriminate]|].
  guards_in Hlen. unfold MAX_FRAME_BYTES in Hlen.
  destruct (UnixPlannerAdapter.exchange _ self) as [[frame|e] s'] eqn:Hx; intros [= <- <-].
  - apply UnixPlannerAdapter.exchange_Ok in Hx as (Hw & rest & Hl).
    split; [right; exists json; split_and!; auto; lia|].
    intros response (Hmax & Hnl & Hdec)%check_frame_Ok. unfold MAX_FRAME_BYTES in *.
    exists json, (pop frame), rest.
    pose proof (take_line_newline _ _ _ _ Hl Hnl) as [Hf Hn].
    apply take_line_app in Hl. rewrite Hf, <- app_assoc in Hl.
    split_and!; auto; try lia. rewrite Hf in Hmax. unfold length_z in *.
    rewrite length_app in Hmax. cbn [length] in Hmax. lia.
  - split; [|discriminate].
    apply UnixPlannerAdapter.exchange_written in Hx as [Hw|Hw]; [now left|right].
    exists json. split_and!; auto; lia.
Qed.

(** ** Witnesses *)
Module PlannerSamples.
(** A planner that always proposes the same action. *)
Definition fixed (a : ProposedAction.t) (_ : PlanRequest.t) (p : unit)
    : result PlannerError.t PlanResponse.t * unit :=
  (Ok (PolicySamples.response a), p).

#[local] Instance survey_planner : Planner unit.
Proof.
  refine {| plan := fixed PolicySamples.survey |}.
  intros r [] resp p' [= <- _].
  split; [|split; [|split]]; try (vm_compute; intuition congruence).
Defined.

Definition to_vec (_ : PlanRequest.t) : result string (list Z) := Ok [123; 125].
Definition from_slice (l : list Z) : result string PlanResponse.t :=
  if bool_decide (l = [123; 125]) then Ok (PolicySamples.response PolicySamples.survey)
  else Err "invalid"%string.
Definition echo : UnixPlannerAdapter.Socket :=
  UnixPlannerAdapter.socket (Ok tt) (Ok tt) (Ok tt) (fun _ => Ok tt)
    (fun frame => incoming (frame ++ [0]) None).
End PlannerSamples.
#[local] Existing Instance PlannerSamples.survey_planner.

Lemma decide_safe_witness :
  exists p, Controller.decide PolicySamples.request tt = (Ok p, tt)
  /\ ActionOk PolicySamples.request p.(ValidatedPlan.action) p.(ValidatedPlan.approval_required).
Proof.
  eexists. split; [vm_compute; reflexivity|].
  destruct (Controller.decide_safe PolicySamples.request tt tt
              (Controller.decide PolicySamples.request tt).1 PolicySamples.request_wf) as [_ H];
    [vm_compute; reflexivity|].
  destruct (H _ ltac:(vm_compute; reflexivity)) as (_ & Hact & _). exact Hact.
Defined.

Lemma planner_adapter_frames_witness :
  exists self', 
    UnixPlannerAdapter.plan PlannerSamples.to_vec PlannerSamples.from_slice PolicySamples.request
      (UnixPlannerAdapter.mk PlannerSamples.echo [])
    = (Ok (PolicySamples.response PolicySamples.survey), self')
    /\ exists line, (NEWLINE ∉ line) /\ PlannerSamples.from_slice line
                    = Ok (PolicySamples.response PolicySamples.survey).
Proof.
  eexists. split; [vm_compute; reflexivity|].
  destruct (planner_adapter_frames PlannerSamples.to_vec PlannerSamples.from_slice
              PolicySamples.request (UnixPlannerAdapter.mk PlannerSamples.echo []) _ _ eq_refl)
    as [_ H].
  destruct (H (PolicySamples.response PolicySamples.survey)) as (_&line&_&_&_&_&_&Hn&_&Hd);
    [vm_compute; reflexivity|].
  exists line. split; [exact Hn|exact Hd].
Defined.
