(* ===== verification/Recognizer.v ===== *)
(** * The recognizer client

    [controller/src/recognizer.rs]: the checks on a recognition request, the
    confinement of the IQ file to the spool directory, the exchange of one
    bounded JSON line with the recognizer worker, and the checks on its answer.
    serde_json, the socket and the file system are parameters. *)
From S2P Require Import Prelude Text F32 Protocol Policy Framing Planner.

Definition RECOGNIZER_PROTOCOL_VERSION : Z := 1.
Definition RECOGNIZER_MAX_FRAME_BYTES : Z := 16 * 1024.
Definition RECOGNIZER_MAX_SAMPLES_PER_CHANNEL : Z := 16384.
Definition RECOGNIZER_MAX_ALTERNATIVES : Z := 8.

(** The enums with a single variant. *)
Inductive IqSampleFormat := F32Le.
Inductive IqLayout := PlanarIq.
Inductive IqNormalization := UnitRms.

Module IqFileRef.
Record t := mk { path : string; offset_bytes : Z; length_bytes : Z }.
End IqFileRef.

Module BoundedIqRef.
Record t := mk {
  storage : IqFileRef.t;
  sample_format : IqSampleFormat;
  layout : IqLayout;
  normalization : IqNormalization;
  samples_per_channel : Z;
  sample_rate_hz : Z;
  center_hz : Z;
}.
End BoundedIqRef.

Module RecognitionRequest.
Record t := mk {
  protocol_version : Z;
  request_id : Z;
  session_generation : Z;
  candidate_id : string;
  iq : BoundedIqRef.t;
  max_latency_ms : Z;
}.
Definition wf (r : t) : Prop :=
  let iq := r.(iq) in let storage := iq.(BoundedIqRef.storage) in
  is_u64 r.(request_id) /\ is_u64 r.(session_generation) /\ is_u32 r.(max_latency_ms)
  /\ is_u32 iq.(BoundedIqRef.samples_per_channel) /\ is_u32 iq.(BoundedIqRef.sample_rate_hz)
  /\ is_u64 iq.(BoundedIqRef.center_hz)
  /\ is_u64 storage.(IqFileRef.offset_bytes) /\ is_u64 storage.(IqFileRef.length_bytes).

(** The request with another path. *)
Definition with_path (r : t) (path : string) : t :=
  let iq := r.(iq) in let storage := iq.(BoundedIqRef.storage) in
  mk r.(protocol_version) r.(request_id) r.(session_generation) r.(candidate_id)
    (BoundedIqRef.mk
       (IqFileRef.mk path storage.(IqFileRef.offset_bytes) storage.(IqFileRef.length_bytes))
       iq.(BoundedIqRef.sample_format) iq.(BoundedIqRef.layout) iq.(BoundedIqRef.normalization)
       iq.(BoundedIqRef.samples_per_channel) iq.(BoundedIqRef.sample_rate_hz)
       iq.(BoundedIqRef.center_hz))
    r.(max_latency_ms).
End RecognitionRequest.

Module RecognitionAlternative.
Record t := mk { label : string; confidence : float }.
End RecognitionAlternative.

Module RecognizerBackend.
Record t := mk {
  runtime : string;
  runtime_version : string;
  model_id : string;
  model_sha256 : string;
  threads : Z;
}.
End RecognizerBackend.

Module RecognitionTiming.
Record t := mk { map_us : Z; preprocess_us : Z; inference_us : Z; total_us : Z }.
End RecognitionTiming.

Module RecognitionOutput.
Record t := mk {
  candidate_id : string;
  label : string;
  confidence : float;
  alternatives : list RecognitionAlternative.t;
  backend : RecognizerBackend.t;
  timing : RecognitionTiming.t;
}.
Definition wf (o : t) : Prop :=
  is_u16 o.(backend).(RecognizerBackend.threads)
  /\ is_u64 o.(timing).(RecognitionTiming.map_us)
  /\ is_u64 o.(timing).(RecognitionTiming.preprocess_us)
  /\ is_u64 o.(timing).(RecognitionTiming.inference_us)
  /\ is_u64 o.(timing).(RecognitionTiming.total_us).
End RecognitionOutput.

Module RecognitionStatus.
Inductive t := Ok | Error | Unavailable.
End RecognitionStatus.

Module RecognitionResponse.
Record t := mk {
  protocol_version : Z;
  request_id : Z;
  session_generation : Z;
  status : RecognitionStatus.t;
  output : option RecognitionOutput.t;
  error : option string;
}.
End RecognitionResponse.

Module RecognizerError.
Record t := new { code : string; message : string }.
Definition io (operation error : string) : t := new operation error.
Definition protocol (operation error : string) : t := new operation error.
(** The [Display] of a recognizer error. *)
Definition display (e : t) : string := e.(code) +:+ ": " +:+ e.(message).
End RecognizerError.

Definition require_text (value : string) (max_bytes : Z) (field : string)
    : result RecognizerError.t unit :=
  reject_if
    (is_empty value || (max_bytes <? len value) || existsb is_control (chars value))
    (RecognizerError.new field
       (field +:+ " is empty, too long, or contains control characters")).

Definition require_confidence (value : float) (field : string) : result RecognizerError.t unit :=
  reject_if (negb (is_finite value) || negb (f_in_range (f32_of_Z 0) (f32_of_Z 1) value))
    (RecognizerError.new field (field +:+ " must be finite and between 0 and 1")).

(** [u32::is_power_of_two]. *)
Definition is_power_of_two (n : Z) : bool := (0 <? n) && (Z.land n (n - 1) =? 0).

(** ** The file system *)
Record FileSystem := {
  canonicalize : list Z -> result string (list Z);
  metadata : list Z -> result string (bool * Z);
}.

(** Paths are byte strings; their components as [Path::components] gives them. *)
Definition SLASH : Z := 47.
Definition is_absolute (path : list Z) : bool :=
  match path with b :: _ => b =? SLASH | [] => false end.

Fixpoint split_slash (path : list Z) (part : list Z) : list (list Z) :=
  match path with
  | [] => [part]
  | b :: path =>
      if b =? SLASH then part :: split_slash path [] else split_slash path (part ++ [b])
  end.

(** Repeated separators and [.] are skipped, but for a leading [.]. *)
Definition components (path : list Z) : list (list Z) :=
  let parts := split_slash path [] in
  let named := List.filter (fun part => negb (bool_decide (part = []) || bool_decide (part = [46])))
                 parts in
  if is_absolute path then [SLASH] :: named
  else if bool_decide (head parts = Some [46]) then [46] :: named
  else named.

Fixpoint is_prefix (l1 l2 : list (list Z)) : bool :=
  match l1, l2 with
  | [], _ => true
  | x :: l1, y :: l2 => bool_decide (x = y) && is_prefix l1 l2
  | _ :: _, [] => false
  end.

(** [Path::starts_with]. *)
Definition path_starts_with (path base : list Z) : bool :=
  is_prefix (components base) (components path).

Section Validation.
Context (file_system : FileSystem).

Definition validate_spool_file (request : RecognitionRequest.t) (spool_root : list Z)
    : result RecognizerError.t (list Z) :=
  let storage := request.(RecognitionRequest.iq).(BoundedIqRef.storage) in
  root ← map_err (RecognizerError.io "canonicalize_spool_root")
           (file_system.(canonicalize) spool_root) ;
  let path := bytes storage.(IqFileRef.path) in
  reject_if (negb (is_absolute path))
    (RecognizerError.new "iq_path" "IQ path must be absolute") ;;
  path ← map_err (RecognizerError.io "canonicalize_iq_path") (file_system.(canonicalize) path) ;
  reject_if (negb (path_starts_with path root))
    (RecognizerError.new "iq_path_escape" "IQ path is outside the configured spool root") ;;
  metadata ← map_err (RecognizerError.io "stat_iq") (file_system.(metadata) path) ;
  reject_if (negb metadata.1)
    (RecognizerError.new "iq_not_file" "IQ reference is not a regular file") ;;
  end_ ← ok_or (RecognizerError.new "iq_range" "IQ file range overflow")
           (checked_add storage.(IqFileRef.offset_bytes) storage.(IqFileRef.length_bytes)) ;
  reject_if (metadata.2 <? end_)
    (RecognizerError.new "iq_range" "IQ file range exceeds file length") ;;
  Ok path.

Definition validate_request (request : RecognitionRequest.t) (spool_root : option (list Z))
    : result RecognizerError.t unit :=
  let iq := request.(RecognitionRequest.iq) in
  let storage := iq.(BoundedIqRef.storage) in
  let samples := iq.(BoundedIqRef.samples_per_channel) in
  reject_if (negb (request.(RecognitionRequest.protocol_version) =? RECOGNIZER_PROTOCOL_VERSION))
    (RecognizerError.new "protocol_version" "unsupported recognizer protocol version") ;;
  require_text request.(RecognitionRequest.candidate_id) 64 "candidate_id" ;;
  reject_if ((request.(RecognitionRequest.max_latency_ms) =? 0)
             || (5000 <? request.(RecognitionRequest.max_latency_ms)))
    (RecognizerError.new "max_latency_ms" "max latency must be between 1 and 5000 ms") ;;
  reject_if (negb (in_range 256 RECOGNIZER_MAX_SAMPLES_PER_CHANNEL samples)
             || negb (is_power_of_two samples))
    (RecognizerError.new "samples_per_channel"
       "samples per channel must be a power of two between 256 and 16384") ;;
  reject_if ((iq.(BoundedIqRef.sample_rate_hz) =? 0)
             || (30720000 <? iq.(BoundedIqRef.sample_rate_hz)))
    (RecognizerError.new "sample_rate_hz" "sample rate must be between 1 and 30720000 Hz") ;;
  reject_if (6000000000 <? iq.(BoundedIqRef.center_hz))
    (RecognizerError.new "center_hz" "center frequency exceeds 6 GHz") ;;
  expected_bytes ←
    ok_or (RecognizerError.new "iq_length" "IQ byte length overflow")
      (value ← checked_mul samples 2 ; checked_mul value 4) ;
  reject_if (negb (storage.(IqFileRef.length_bytes) =? expected_bytes))
    (RecognizerError.new "iq_length" "IQ byte length does not match planar float32 shape") ;;
  reject_if (negb (storage.(IqFileRef.offset_bytes) mod 4 =? 0))
    (RecognizerError.new "iq_offset" "IQ byte offset must be float32 aligned") ;;
  reject_if (is_empty storage.(IqFileRef.path) || (1024 <? len storage.(IqFileRef.path)))
    (RecognizerError.new "iq_path" "IQ path must contain between 1 and 1024 bytes") ;;
  match spool_root with
  | Some root => _ ← validate_spool_file request root ; Ok tt
  | None => Ok tt
  end.
End Validation.

(** The loop over the alternatives; [labels] is the [HashSet]. *)
Fixpoint check_alternatives (alternatives : list RecognitionAlternative.t) (labels : gset string)
    : result RecognizerError.t unit :=
  match alternatives with
  | [] => Ok tt
  | alternative :: rest =>
      require_text alternative.(RecognitionAlternative.label) 128 "alternative_label" ;;
      require_confidence alternative.(RecognitionAlternative.confidence)
        "alternative_confidence" ;;
      reject_if (bool_decide (alternative.(RecognitionAlternative.label) ∈ labels))
        (RecognizerError.new "duplicate_label" "recognizer returned a duplicate label") ;;
      check_alternatives rest ({[alternative.(RecognitionAlternative.label)]} ∪ labels)
  end.

Definition validate_output (request : RecognitionRequest.t) (output : RecognitionOutput.t)
    : result RecognizerError.t unit :=
  let backend := output.(RecognitionOutput.backend) in
  let timing := output.(RecognitionOutput.timing) in
  reject_if (negb (String.eqb output.(RecognitionOutput.candidate_id)
                     request.(RecognitionRequest.candidate_id)))
    (RecognizerError.new "candidate_id" "recognizer output refers to a different candidate") ;;
  require_text output.(RecognitionOutput.label) 128 "label" ;;
  require_confidence output.(RecognitionOutput.confidence) "confidence" ;;
  reject_if (RECOGNIZER_MAX_ALTERNATIVES <? length_z output.(RecognitionOutput.alternatives))
    (RecognizerError.new "alternatives" "recognizer returned more than 8 alternatives") ;;
  check_alternatives output.(RecognitionOutput.alternatives)
    {[output.(RecognitionOutput.label)]} ;;
  require_text backend.(RecognizerBackend.runtime) 64 "runtime" ;;
  require_text backend.(RecognizerBackend.runtime_version) 64 "runtime_version" ;;
  require_text backend.(RecognizerBackend.model_id) 128 "model_id" ;;
  reject_if (negb (len backend.(RecognizerBackend.model_sha256) =? 64)
             || negb (forallb is_ascii_hexdigit (bytes backend.(RecognizerBackend.model_sha256))))
    (RecognizerError.new "model_sha256"
       "model SHA-256 must contain exactly 64 hexadecimal characters") ;;
  reject_if ((backend.(RecognizerBackend.threads) =? 0)
             || (4 <? backend.(RecognizerBackend.threads)))
    (RecognizerError.new "threads" "recognizer thread count must be between 1 and 4") ;;
  accounted_us ←
    ok_or (RecognizerError.new "timing" "recognizer timing overflow")
      (value ← checked_add timing.(RecognitionTiming.map_us)
                 timing.(RecognitionTiming.preprocess_us) ;
       checked_add value timing.(RecognitionTiming.inference_us)) ;
  reject_if ((timing.(RecognitionTiming.total_us) <? accounted_us)
             || (request.(RecognitionRequest.max_latency_ms) * 1000
                 <? timing.(RecognitionTiming.total_us)))
    (RecognizerError.new "timing"
       "recognizer timing is inconsistent or exceeds the request deadline").

Definition validate_response (request : RecognitionRequest.t) (response : RecognitionResponse.t)
    : result RecognizerError.t RecognitionOutput.t :=
  reject_if (negb (response.(RecognitionResponse.protocol_version) =? RECOGNIZER_PROTOCOL_VERSION))
    (RecognizerError.new "response_protocol_version"
       "unsupported recognizer response protocol version") ;;
  reject_if
    (negb (response.(RecognitionResponse.request_id) =? request.(RecognitionRequest.request_id))
     || negb (response.(RecognitionResponse.session_generation)
              =? request.(RecognitionRequest.session_generation)))
    (RecognizerError.new "response_correlation"
       "recognizer response does not match the active request") ;;
  match response.(RecognitionResponse.status) with
  | RecognitionStatus.Ok =>
      reject_if (negb (is_none response.(RecognitionResponse.error)))
        (RecognizerError.new "response_shape"
           "successful recognizer response contains an error") ;;
      output ←
        ok_or (RecognizerError.new "response_shape"
                 "successful recognizer response has no output")
          response.(RecognitionResponse.output) ;
      validate_output request output ;;
      Ok output
  | status =>
      reject_if (negb (is_none response.(RecognitionResponse.output)))
        (RecognizerError.new "response_shape"
           "failed recognizer response contains an output") ;;
      Err (RecognizerError.new "remote_error"
             match response.(RecognitionResponse.error) with
             | Some message => message
             | None =>
                 match status with
                 | RecognitionStatus.Unavailable => "recognizer unavailable"
                 | _ => "recognizer failed"
                 end
             end%string)
  end.

(** The trait [LocalRecognizer]. *)
Class LocalRecognizer (R : Type) :=
  classify : RecognitionRequest.t -> R -> result RecognizerError.t RecognitionOutput.t * R.

Module ReplayRecognizerAdapter.
Record t := mk { outputs : list RecognitionOutput.t }.

(** An output is consumed even when it turns out to be invalid. *)
Definition classify (file_system : FileSystem) (request : RecognitionRequest.t) (self : t)
    : result RecognizerError.t RecognitionOutput.t * t :=
  match validate_request file_system request None with
  | Err error => (Err error, self)
  | Ok _ =>
      match self.(outputs) with
      | [] => (Err (RecognizerError.new "replay_exhausted" "no replay outputs remain"), self)
      | output :: rest => (validate_output request output ;; Ok output, mk rest)
      end
  end.
End ReplayRecognizerAdapter.

(** [std::str::from_utf8]: well-formed UTF-8 (no overlong forms, no surrogates). *)
Definition is_cont (b : Z) : bool := in_range 128 191 b.

Fixpoint utf8_valid (l : list Z) : bool :=
  match l with
  | [] => true
  | b0 :: l =>
      if b0 <? 128 then utf8_valid l
      else if in_range 194 223 b0 then
        match l with b1 :: l => is_cont b1 && utf8_valid l | _ => false end
      else if in_range 224 239 b0 then
        match l with
        | b1 :: b2 :: l =>
            in_range (if b0 =? 224 then 160 else 128) (if b0 =? 237 then 159 else 191) b1
            && is_cont b2 && utf8_valid l
        | _ => false
        end
      else if in_range 240 244 b0 then
        match l with
        | b1 :: b2 :: b3 :: l =>
            in_range (if b0 =? 240 then 144 else 128) (if b0 =? 244 then 143 else 191) b1
            && is_cont b2 && is_cont b3 && utf8_valid l
        | _ => false
        end
      else false
  end.

(** ** The Unix-socket adapter *)
Module UnixRecognizerAdapter.
(** The worker at the other end of the socket, and what was written to it. *)
Record t := mk { peer : UnixPlannerAdapter.Socket; written : list (list Z) }.

Section Adapter.
Context (file_system : FileSystem) (spool_root : list Z).
Context (to_vec : RecognitionRequest.t -> result string (list Z)).
Context (from_slice : list Z -> result string RecognitionResponse.t).

(** Everything before the connection: the line to send. *)
Definition request_frame (request : RecognitionRequest.t) : result RecognizerError.t (list Z) :=
  validate_request file_system request None ;;
  canonical_iq_path ← validate_spool_file file_system request spool_root ;
  path ← ok_or (RecognizerError.new "iq_path" "IQ path is not valid UTF-8")
           (if utf8_valid canonical_iq_path then Some (of_bytes canonical_iq_path) else None) ;
  frame ← map_err (RecognizerError.protocol "encode_request")
            (to_vec (RecognitionRequest.with_path request path)) ;
  reject_if (RECOGNIZER_MAX_FRAME_BYTES <? length_z frame)
    (RecognizerError.new "request_too_large" "recognizer request exceeds 16 KiB") ;;
  Ok (frame ++ [NEWLINE]).

Definition exchange (frame : list Z) (self : t) : result RecognizerError.t (list Z) * t :=
  let s := self.(peer) in
  match
    map_err (RecognizerError.io "connect") s.(UnixPlannerAdapter.connect) ;;
    map_err (RecognizerError.io "set_read_timeout") s.(UnixPlannerAdapter.set_read_timeout) ;;
    map_err (RecognizerError.io "set_write_timeout") s.(UnixPlannerAdapter.set_write_timeout)
  with
  | Err error => (Err error, self)
  | Ok _ =>
      let self' := mk s (self.(written) ++ [frame]) in
      match map_err (RecognizerError.io "write_request") (s.(UnixPlannerAdapter.write_all) frame)
      with
      | Err error => (Err error, self')
      | Ok _ =>
          let received := s.(UnixPlannerAdapter.answer) frame in
          (map_err (RecognizerError.io "read_response")
             (read_line (Z.to_nat (RECOGNIZER_MAX_FRAME_BYTES + 1)) received.(arrived)
                received.(failure)).1,
           self')
      end
  end.

Definition check_frame (request : RecognitionRequest.t) (response_frame : list Z)
    : result RecognizerError.t RecognitionOutput.t :=
  reject_if (RECOGNIZER_MAX_FRAME_BYTES + 1 <? length_z response_frame)
    (RecognizerError.new "response_too_large" "recognizer response exceeds 16 KiB") ;;
  reject_if (negb (ends_with_newline response_frame))
    (RecognizerError.new "response_framing" "recognizer response is not newline framed") ;;
  response ← map_err (RecognizerError.protocol "decode_response")
               (from_slice (pop response_frame)) ;
  validate_response request response.

Definition classify (request : RecognitionRequest.t) (self : t)
    : result RecognizerError.t RecognitionOutput.t * t :=
  match request_frame request with
  | Err error => (Err error, self)
  | Ok frame =>
      match exchange frame self with
      | (Err error, self') => (Err error, self')
      | (Ok response_frame, self') => (check_frame request response_frame, self')
      end
  end.

#[global] Instance recognizer : LocalRecognizer t := classify.
End Adapter.
End UnixRecognizerAdapter.

(** ** What the checks are meant to establish *)
Definition TextOk (value : string) (max_bytes : Z) : Prop :=
  value <> EmptyString /\ len value <= max_bytes
  /\ forall c, c ∈ chars value -> is_control c = false.

Definition ConfidenceOk (value : float) : Prop :=
  is_finite value = true /\ f_le (f32_of_Z 0) value = true /\ f_le value (f32_of_Z 1) = true.

Record RecognitionRequestOk (r : RecognitionRequest.t) : Prop := {
  rr_version : r.(RecognitionRequest.protocol_version) = 1;
  rr_candidate : TextOk r.(RecognitionRequest.candidate_id) 64;
  rr_latency : 1 <= r.(RecognitionRequest.max_latency_ms) <= 5000;
  rr_samples : exists k, 8 <= k <= 14
    /\ r.(RecognitionRequest.iq).(BoundedIqRef.samples_per_channel) = 2 ^ k;
  rr_rate : 1 <= r.(RecognitionRequest.iq).(BoundedIqRef.sample_rate_hz) <= 30720000;
  rr_center : r.(RecognitionRequest.iq).(BoundedIqRef.center_hz) <= 6000000000;
  rr_length : r.(RecognitionRequest.iq).(BoundedIqRef.storage).(IqFileRef.length_bytes)
    = 8 * r.(RecognitionRequest.iq).(BoundedIqRef.samples_per_channel);
  rr_aligned : r.(RecognitionRequest.iq).(BoundedIqRef.storage).(IqFileRef.offset_bytes) mod 4 = 0;
  rr_path : 1 <= len r.(RecognitionRequest.iq).(BoundedIqRef.storage).(IqFileRef.path) <= 1024;
}.

Record RecognitionOutputOk (r : RecognitionRequest.t) (o : RecognitionOutput.t) : Prop := {
  oo_candidate : o.(RecognitionOutput.candidate_id) = r.(RecognitionRequest.candidate_id);
  oo_label : TextOk o.(RecognitionOutput.label) 128;
  oo_confidence : ConfidenceOk o.(RecognitionOutput.confidence);
  oo_count : (length o.(RecognitionOutput.alternatives) <= 8)%nat;
  oo_alternatives : Forall (fun a => TextOk a.(RecognitionAlternative.label) 128
                                     /\ ConfidenceOk a.(RecognitionAlternative.confidence))
                      o.(RecognitionOutput.alternatives);
  oo_distinct : NoDup (o.(RecognitionOutput.label)
                       :: map RecognitionAlternative.label o.(RecognitionOutput.alternatives));
  oo_runtime : TextOk o.(RecognitionOutput.backend).(RecognizerBackend.runtime) 64
               /\ TextOk o.(RecognitionOutput.backend).(RecognizerBackend.runtime_version) 64
               /\ TextOk o.(RecognitionOutput.backend).(RecognizerBackend.model_id) 128;
  oo_hash : len o.(RecognitionOutput.backend).(RecognizerBackend.model_sha256) = 64
            /\ forall b, b ∈ bytes o.(RecognitionOutput.backend).(RecognizerBackend.model_sha256) ->
               is_ascii_hexdigit b = true;
  oo_threads : 1 <= o.(RecognitionOutput.backend).(RecognizerBackend.threads) <= 4;
  oo_timing : let t := o.(RecognitionOutput.timing) in
    t.(RecognitionTiming.map_us) + t.(RecognitionTiming.preprocess_us)
      + t.(RecognitionTiming.inference_us)
    <= t.(RecognitionTiming.total_us) <= r.(RecognitionRequest.max_latency_ms) * 1000;
}.

Lemma existsb_not {A} (p : A -> bool) l :
  existsb p l = false <-> forall x, x ∈ l -> p x = false.
Proof.
  induction l as [|x l IH]; cbn; [split; [intros _ y Hy; inversion Hy|auto]|].
  rewrite orb_false_iff, IH. split.
  - intros [Hx Hl] y [->|Hy]%elem_of_cons; auto.
  - intros Hall. split; [apply Hall; left|]. intros y Hy. apply Hall. now right.
Qed.

Lemma require_text_Ok value max field u :
  require_text value max field = Ok u <-> TextOk value max.
Proof.
  unfold require_text, TextOk. guards. rewrite existsb_not, <- not_true_iff_false, is_empty_spec.
  tauto.
Qed.

Lemma require_confidence_Ok value field u :
  require_confidence value field = Ok u <-> ConfidenceOk value.
Proof. unfold require_confidence, ConfidenceOk, f_in_range. guards. tauto. Qed.

(** A number without its lowest bit is zero only for powers of two. *)
Lemma is_power_of_two_spec n : is_power_of_two n = true <-> exists k, 0 <= k /\ n = 2 ^ k.
Proof.
  unfold is_power_of_two. guards. split.
  - intros [Hn Hland]. exists (Z.log2 n). split; [apply Z.log2_nonneg|].
    destruct (Z.log2_spec n Hn) as [Hlow Hhigh].
    destruct (Z.eq_dec n (2 ^ Z.log2 n)) as [|Hne]; [assumption|exfalso].
    assert (Hlog : Z.log2 (n - 1) = Z.log2 n).
    { apply Z.log2_unique; [apply Z.log2_nonneg|lia]. }
    apply (f_equal (fun x => Z.testbit x (Z.log2 n))) in Hland.
    rewrite Z.land_spec, Z.bits_0, Z.bit_log2 in Hland by lia.
    rewrite <- Hlog, Z.bit_log2 in Hland; [discriminate|].
    pose proof (Z.pow_pos_nonneg 2 (Z.log2 n) ltac:(lia) (Z.log2_nonneg n)). lia.
  - intros (k&Hk&->). split; [apply Z.pow_pos_nonneg; lia|].
    replace (2 ^ k - 1) with (Z.ones k) by (rewrite Z.ones_equiv; lia).
    rewrite Z.land_ones by exact Hk. apply Z.mod_same. apply Z.pow_nonzero; lia.
Qed.

Lemma power_of_two_range n :
  256 <= n <= 16384 ->
  is_power_of_two n = true <-> exists k, 8 <= k <= 14 /\ n = 2 ^ k.
Proof.
  intros Hn. rewrite is_power_of_two_spec. split; intros (k&Hk&->); exists k; split; auto; [|lia].
  change 256 with (2 ^ 8) in Hn. change 16384 with (2 ^ 14) in Hn.
  rewrite <- !Z.pow_le_mono_r_iff in Hn by lia. exact Hn.
Qed.

#[export] Hint Rewrite require_text_Ok require_confidence_Ok : guards.

Lemma recognition_request_spec file_system r u :
  RecognitionRequest.wf r ->
  validate_request file_system r None = Ok u <-> RecognitionRequestOk r.
Proof.
  intros (_&_&Hl&Hs&Hr&Hc&Ho&Hb). unfold is_u, u64_max, u32_max in *.
  unfold validate_request, RECOGNIZER_PROTOCOL_VERSION, RECOGNIZER_MAX_SAMPLES_PER_CHANNEL.
  guards. split.
  - intros (Hv&Hid&Hlat&(Hrange&Hp)&Hrate&Hcenter&Hrest).
    apply bind_Ok in Hrest as (expected&He&Hrest). apply ok_or_Ok in He.
    destruct (checked_mul _ 2) as [v|] eqn:E2; [|discriminate]. cbn in He.
    apply checked_mul_Some in E2 as [_ ->]. apply checked_mul_Some in He as [_ ->].
    guards_in Hrest. destruct Hrest as (Hlen&Hoff&(Hne&Hmax)&_).
    rewrite power_of_two_range in Hp by exact Hrange. constructor; auto; try lia.
    split; [|exact Hmax]. destruct (IqFileRef.path _); [discriminate|].
    unfold len, length_z. cbn. lia.
  - intros [Hv Hid Hlat (k&Hk&Hsam) Hrate Hcenter Hlen Hoff Hpath].
    assert (Hrange : 256 <= 2 ^ k <= 16384).
    { split; [change 256 with (2 ^ 8)|change 16384 with (2 ^ 14)]; apply Z.pow_le_mono_r; lia. }
    rewrite Hsam in *. split_and!; auto; try lia.
    { apply power_of_two_range; [exact Hrange|]. eauto. }
    apply bind_Ok. exists (2 ^ k * 2 * 4). split.
    { unfold checked_mul, u64_max. rewrite (proj2 (Z.leb_le _ _)) by lia. cbn.
      rewrite (proj2 (Z.leb_le _ _)) by lia. reflexivity. }
    guards. destruct u. split_and!; try lia; [|reflexivity].
    destruct (IqFileRef.path _); [|reflexivity].
    unfold len, length_z in Hpath. cbn in Hpath. lia.
Qed.

Lemma check_alternatives_spec alternatives labels u :
  check_alternatives alternatives labels = Ok u <->
  Forall (fun a => TextOk a.(RecognitionAlternative.label) 128
                   /\ ConfidenceOk a.(RecognitionAlternative.confidence)) alternatives
  /\ NoDup (map RecognitionAlternative.label alternatives)
  /\ forall l, l ∈ map RecognitionAlternative.label alternatives -> l ∉ labels.
Proof.
  destruct u. revert labels. induction alternatives as [|a rest IH]; intros labels; cbn.
  - split; [|reflexivity]. intros _. split; [constructor|]. split; [constructor|].
    intros l Hl. inversion Hl.
  - rewrite !unit_seq, require_text_Ok, require_confidence_Ok. guards.
    rewrite IH, list.Forall_cons, list.NoDup_cons.
    split.
    + intros (Ht&Hc&Hn&Hf&Hd&Hl). split; [auto|]. split.
      * split; [|exact Hd]. intros Hin. apply Hl in Hin. set_solver.
      * intros l [->|Hin]%elem_of_cons; [exact Hn|]. apply Hl in Hin. set_solver.
    + intros ((Ht&Hf)&(Hni&Hd)&Hl). split_and!; try tauto.
      * apply Hl. left.
      * intros l Hin. specialize (Hl l). set_solver.
Qed.

Lemma recognition_output_spec r o u :
  RecognitionOutput.wf o ->
  validate_output r o = Ok u <-> RecognitionOutputOk r o.
Proof.
  intros (Hth&Hm&Hp&Hi&Ht). unfold is_u, u64_max, u16_max in *.
  unfold validate_output, RECOGNIZER_MAX_ALTERNATIVES. guards.
  rewrite check_alternatives_spec, forallb_elem. unfold length_z. split.
  - intros (Hid&Hlab&Hconf&Hn&(Hall&Hd&Hnew)&?&?&?&Hhash&Hthr&Hrest).
    apply bind_Ok in Hrest as (acc&Ha&Hrest). apply ok_or_Ok in Ha.
    destruct (checked_add _ _) as [v|] eqn:E; [|discriminate]. cbn in Ha.
    apply checked_add_Some in E as [_ ->]. apply checked_add_Some in Ha as [_ ->].
    guards_in Hrest. constructor; auto; try lia.
    constructor; [|exact Hd]. intros Hin. apply Hnew in Hin. set_solver.
  - intros [Hid Hlab Hconf Hn Hall Hd (?&?&?) Hhash Hthr Htime].
    cbv zeta in Htime.
    apply list.NoDup_cons in Hd as [Hni Hd]. split_and!; auto; try lia; try tauto.
    { intros l Hin ->%elem_of_singleton. contradiction. }
    apply bind_Ok. eexists. split.
    { unfold checked_add, u64_max. rewrite (proj2 (Z.leb_le _ _)) by lia. cbn.
      rewrite (proj2 (Z.leb_le _ _)) by lia. reflexivity. }
    guards. lia.
Qed.

Lemma is_prefix_app l1 l2 : is_prefix l1 l2 = true <-> exists rest, l2 = l1 ++ rest.
Proof.
  revert l2. induction l1 as [|x l1 IH]; intros [|y l2]; cbn.
  - split; [eauto|auto].
  - split; [eauto|auto].
  - split; [discriminate|]. intros (rest&[=]).
  - rewrite andb_true_iff, bool_decide_eq_true, IH. split.
    + intros [-> (rest&->)]. eauto.
    + intros (rest&[= -> ->]). eauto.
Qed.

(** The file a request names, once it was found inside the spool directory. *)
Definition InSpool (file_system : FileSystem) (spool_root : list Z) (r : RecognitionRequest.t)
    (path : list Z) : Prop :=
  let storage := r.(RecognitionRequest.iq).(BoundedIqRef.storage) in
  file_system.(canonicalize) (bytes storage.(IqFileRef.path)) = Ok path
  /\ (exists root rest, file_system.(canonicalize) spool_root = Ok root
        /\ components path = components root ++ rest)
  /\ exists size, file_system.(metadata) path = Ok (true, size)
     /\ storage.(IqFileRef.offset_bytes) + storage.(IqFileRef.length_bytes) <= size.

Lemma validate_spool_file_Ok file_system r root path :
  validate_spool_file file_system r root = Ok path -> InSpool file_system root r path.
Proof.
  unfold validate_spool_file, InSpool, path_starts_with. rewrite bind_Ok. intros (root'&Hroot&H).
  guards_in H. destruct H as [Habs H]. apply bind_Ok in H as (path'&Hpath&H).
  guards_in H. destruct H as [Hin H]. apply bind_Ok in H as ([file size]&Hmeta&H).
  guards_in H. destruct H as [Hfile H]. cbn [fst snd] in *. subst file.
  apply bind_Ok in H as (e&He&H). apply ok_or_Ok, checked_add_Some in He as [_ ->].
  guards_in H. destruct H as [Hend [= <-]]. apply is_prefix_app in Hin as [rest Hrest].
  apply map_err_Ok in Hroot, Hpath, Hmeta. split; [exact Hpath|]. split; [eauto|]. eauto.
Qed.

Lemma validate_response_spec r response o :
  validate_response r response = Ok o <->
  response.(RecognitionResponse.protocol_version) = 1
  /\ response.(RecognitionResponse.request_id) = r.(RecognitionRequest.request_id)
  /\ response.(RecognitionResponse.session_generation) = r.(RecognitionRequest.session_generation)
  /\ response.(RecognitionResponse.status) = RecognitionStatus.Ok
  /\ response.(RecognitionResponse.error) = None
  /\ response.(RecognitionResponse.output) = Some o
  /\ validate_output r o = Ok tt.
Proof.
  unfold validate_response, RECOGNIZER_PROTOCOL_VERSION. guards.
  destruct (RecognitionResponse.status response); guards.
  - split.
    + intros (?&(?&?)&?&Hr). apply bind_Ok in Hr as (o'&Ho&Hr). apply ok_or_Ok in Ho.
      apply unit_seq in Hr as [Hv [= <-]]. split_and!; auto.
    + intros (?&?&?&_&?&Ho&Hv). split_and!; auto. apply bind_Ok. exists o.
      rewrite ok_or_Ok, unit_seq. auto.
  - split; [intros (?&?&?&[=])|intros (_&_&_&[=]&_)].
  - split; [intros (?&?&?&[=])|intros (_&_&_&[=]&_)].
Qed.

Section Exchange.
Context (file_system : FileSystem) (spool_root : list Z).
Context (to_vec : RecognitionRequest.t -> result string (list Z)).
Context (from_slice : list Z -> result string RecognitionResponse.t).

Lemma request_frame_Ok r frame :
  RecognitionRequest.wf r ->
  UnixRecognizerAdapter.request_frame file_system spool_root to_vec r = Ok frame ->
  RecognitionRequestOk r
  /\ exists path json, InSpool file_system spool_root r path /\ utf8_valid path = true
     /\ to_vec (RecognitionRequest.with_path r (of_bytes path)) = Ok json
     /\ length_z json <= 16384 /\ frame = json ++ [NEWLINE].
Proof.
  intros Hwf. unfold UnixRecognizerAdapter.request_frame. rewrite unit_seq.
  intros [Hv H]. apply recognition_request_spec in Hv; [|exact Hwf]. split; [exact Hv|].
  apply bind_Ok in H as (path&Hpath&H). apply validate_spool_file_Ok in Hpath.
  apply bind_Ok in H as (text&Htext&H). apply ok_or_Ok in Htext.
  destruct (utf8_valid path) eqn:Hutf; [|discriminate]. injection Htext as <-.
  apply bind_Ok in H as (json&Hjson&H). unfold RECOGNIZER_MAX_FRAME_BYTES in H.
  guards_in H. destruct H as [Hlen [= <-]].
  destruct (to_vec _) as [json'|] eqn:Hto; [|discriminate]. injection Hjson as ->.
  exists path, json. split_and!; auto.
Qed.

Lemma recognizer_exchange_written frame self r self' :
  UnixRecognizerAdapter.exchange frame self = (r, self') ->
  self'.(UnixRecognizerAdapter.written) = self.(UnixRecognizerAdapter.written)
  \/ self'.(UnixRecognizerAdapter.written) = self.(UnixRecognizerAdapter.written) ++ [frame].
Proof. unfold UnixRecognizerAdapter.exchange. intros H. repeat branch_in H; inversion H; subst; cbn; auto. Qed.

Lemma recognizer_exchange_Ok frame self f self' :
  UnixRecognizerAdapter.exchange frame self = (Ok f, self') ->
  self'.(UnixRecognizerAdapter.written) = self.(UnixRecognizerAdapter.written) ++ [frame]
  /\ exists rest, take_line (Z.to_nat (RECOGNIZER_MAX_FRAME_BYTES + 1))
       (self.(UnixRecognizerAdapter.peer).(UnixPlannerAdapter.answer) frame).(arrived) = (f, rest).
Proof.
  unfold UnixRecognizerAdapter.exchange. intros Hx. do 2 (branch_in Hx; [|discriminate]).
  injection Hx as Hr <-. split; [reflexivity|].
  destruct (read_line _ _ _) as [[g|e] rest] eqn:Hl; [|discriminate].
  cbn in Hr. injection Hr as ->. exists rest. eapply read_line_Ok, Hl.
Qed.

End Exchange.

Lemma recognizer_check_frame_Ok from_slice r frame o :
  UnixRecognizerAdapter.check_frame from_slice r frame = Ok o <->
  length_z frame <= 16385 /\ ends_with_newline frame = true
  /\ exists response, from_slice (pop frame) = Ok response /\ validate_response r response = Ok o.
Proof.
  unfold UnixRecognizerAdapter.check_frame, RECOGNIZER_MAX_FRAME_BYTES. guards. rewrite bind_Ok.
  setoid_rewrite (fun a => map_err_Ok (RecognizerError.protocol "decode_response")
                             (from_slice (pop frame)) a). tauto.
Qed.

(** ** Properties *)

(** C35: the recognizer client is confined: it sends the worker at most one line per request, and
    only for a valid request whose file, by its canonical path, lies below the spool directory, is
    a regular file and contains the whole IQ range; the line encodes that request with the
    canonical path in place of the given one, in at most 16 KiB.  A result is returned only for
    the first line of the worker's bytes, of at most 16 KiB, that answers this request in this
    session: in version 1 of the protocol, with the status ok, no error and an output that
    satisfies the contract. *)
Theorem recognizer_is_confined file_system spool_root to_vec from_slice r self outcome self' :
  RecognitionRequest.wf r ->
  (forall line response o, from_slice line = Ok response ->
     response.(RecognitionResponse.output) = Some o -> RecognitionOutput.wf o) ->
  UnixRecognizerAdapter.classify file_system spool_root to_vec from_slice r self
  = (outcome, self') ->
  (self'.(UnixRecognizerAdapter.written) = self.(UnixRecognizerAdapter.written)
   /\ is_Ok outcome = false)
  \/ exists path json,
     RecognitionRequestOk r /\ InSpool file_system spool_root r path
     /\ to_vec (RecognitionRequest.with_path r (of_bytes path)) = Ok json
     /\ length_z json <= 16384
     /\ self'.(UnixRecognizerAdapter.written)
        = self.(UnixRecognizerAdapter.written) ++ [json ++ [NEWLINE]]
     /\ forall o, outcome = Ok o ->
        RecognitionOutputOk r o
        /\ exists line rest response,
           arrived (self.(UnixRecognizerAdapter.peer).(UnixPlannerAdapter.answer)
                      (json ++ [NEWLINE])) = line ++ NEWLINE :: rest
           /\ (NEWLINE ∉ line) /\ length_z line <= 16384
           /\ from_slice line = Ok response
           /\ response.(RecognitionResponse.protocol_version) = 1
           /\ response.(RecognitionResponse.status) = RecognitionStatus.Ok
           /\ response.(RecognitionResponse.error) = None
           /\ response.(RecognitionResponse.request_id) = r.(RecognitionRequest.request_id)
           /\ response.(RecognitionResponse.session_generation)
              = r.(RecognitionRequest.session_generation)
           /\ response.(RecognitionResponse.output) = Some o.
Proof.
  intros Hwf Hout. unfold UnixRecognizerAdapter.classify.
  destruct (UnixRecognizerAdapter.request_frame _ _ _ r) as [frame|e] eqn:Hf.
  2: { intros [= <- <-]. left. auto. }
  apply request_frame_Ok in Hf as (Hok&path&json&Hin&_&Hjson&Hlen&->); [|exact Hwf].
  destruct (UnixRecognizerAdapter.exchange _ self) as [[response_frame|e] s] eqn:Hx.
  2: { intros [= <- <-]. apply recognizer_exchange_written in Hx as [Hw|Hw]; [left; auto|right].
       exists path, json. do 5 (split; [assumption|]). discriminate. }
  intros [= <- <-]. apply recognizer_exchange_Ok in Hx as (Hw&rest&Hl). right.
  exists path, json. do 5 (split; [assumption|]). intros o Hc.
  apply recognizer_check_frame_Ok in Hc as (Hmax&Hnl&response&Hdec&Hresp).
  apply validate_response_spec in Hresp as (Hversion&Hid&Hsg&Hstatus&Herror&Ho&Hv).
  split; [eapply recognition_output_spec, Hv; eapply Hout; eassumption|].
  pose proof (take_line_newline _ _ _ _ Hl Hnl) as [Hfr Hn].
  apply take_line_app in Hl. rewrite Hfr, <- app_assoc in Hl.
  exists (pop response_frame), rest, response. split_and!; auto.
  rewrite Hfr in Hmax. unfold length_z in *. rewrite length_app in Hmax. cbn [length] in Hmax. lia.
Qed.

(** [validate_request] accepts exactly the requests of the recognizer's contract: version 1, a
    printable candidate id, a deadline of at most five seconds, a block of [2 ^ k] samples with
    8 <= k <= 14 and the matching byte length, an aligned offset, a bounded rate, center and
    path. *)
Theorem recognition_request_decides file_system r :
  RecognitionRequest.wf r ->
  is_Ok (validate_request file_system r None) = true <-> RecognitionRequestOk r.
Proof.
  intros Hwf. rewrite is_Ok_spec. setoid_rewrite (recognition_request_spec file_system r _ Hwf).
  split; [intros [_ H]; exact H|]. intros H. now exists tt.
Qed.

(** [validate_output] accepts exactly the outputs of the contract: for the requested candidate,
    with printable bounded texts, confidences between zero and one, at most eight alternatives with
    labels distinct from each other and from the main one, a hexadecimal SHA-256, one to four
    threads, and times that add up within the deadline. *)
Theorem recognition_output_decides r o :
  RecognitionOutput.wf o ->
  is_Ok (validate_output r o) = true <-> RecognitionOutputOk r o.
Proof.
  intros Hwf. rewrite is_Ok_spec. setoid_rewrite (recognition_output_spec r o _ Hwf).
  split; [intros [_ H]; exact H|]. intros H. now exists tt.
Qed.

(** The client and the policy do not agree on labels: a blank one passes here,
    and the planner request that would carry it is refused. *)
Example blank_label_disagrees :
  require_text " " 128 "label" = Ok tt
  /\ is_Ok (Policy.check_recognition {["candidate-1"%string]}
              (RecognitionSummary.mk "candidate-1" " " (f32_of_Z 1))) = false.
Proof. split; vm_compute; reflexivity. Qed.

(** ** A worker that answers *)
Module RecognizerSamples.
Definition request : RecognitionRequest.t :=
  RecognitionRequest.mk 1 7 3 "candidate-1"
    (BoundedIqRef.mk (IqFileRef.mk "/spool/../spool/a" 0 16384) F32Le PlanarIq UnitRms 2048 1000000
       433920000) 500.
Definition output : RecognitionOutput.t :=
  RecognitionOutput.mk "candidate-1" "GFSK" (f32_of_Z 1)
    [RecognitionAlternative.mk "FSK" (f32_of_Z 0)]
    (RecognizerBackend.mk "onnxruntime" "1.18" "model"
       "0123456789abcdef0123456789abcdef0123456789abcdef0123456789abcdef" 2)
    (RecognitionTiming.mk 10 20 30 60).
(** Everything below "/spool/" canonicalizes to the file "/spool/a". *)
Definition file_system : FileSystem :=
  Build_FileSystem
    (fun path => if bool_decide (path = bytes "/spool") then Ok path else Ok (bytes "/spool/a"))
    (fun _ => Ok (true, 20000)).
Definition to_vec (_ : RecognitionRequest.t) : result string (list Z) := Ok [123; 125].
Definition from_slice (line : list Z) : result string RecognitionResponse.t :=
  if bool_decide (line = [123; 125])
  then Ok (RecognitionResponse.mk 1 7 3 RecognitionStatus.Ok (Some output) None)
  else Err "invalid"%string.
Definition self : UnixRecognizerAdapter.t := UnixRecognizerAdapter.mk PlannerSamples.echo [].
Definition run := UnixRecognizerAdapter.classify file_system (bytes "/spool") to_vec from_slice
  request self.

Lemma recognition_request_wf : RecognitionRequest.wf request.
Proof. unfold RecognitionRequest.wf, is_u, u64_max, u32_max. cbn. lia. Qed.

Lemma output_wf : RecognitionOutput.wf output.
Proof. unfold RecognitionOutput.wf, is_u, u64_max, u16_max. cbn. lia. Qed.
End RecognizerSamples.

Lemma recognizer_is_confined_witness :
  RecognizerSamples.run.1 = Ok RecognizerSamples.output
  /\ exists json, RecognizerSamples.run.2.(UnixRecognizerAdapter.written) = [json ++ [NEWLINE]].
Proof.
  split; [vm_compute; reflexivity|].
  destruct (recognizer_is_confined RecognizerSamples.file_system (bytes "/spool")
              RecognizerSamples.to_vec RecognizerSamples.from_slice RecognizerSamples.request
              RecognizerSamples.self RecognizerSamples.run.1 RecognizerSamples.run.2
              RecognizerSamples.recognition_request_wf) as [[_ H]|(path&json&_&_&_&_&Hw&_)].
  - intros line response o. unfold RecognizerSamples.from_slice. case_match; [|discriminate].
    intros [= <-] [= <-]. exact RecognizerSamples.output_wf.
  - apply surjective_pairing.
  - exfalso. vm_compute in H. discriminate.
  - exists json. exact Hw.
Defined.

Lemma recognition_request_decides_witness :
  is_Ok (validate_request RecognizerSamples.file_system RecognizerSamples.request None) = true
  /\ RecognitionRequestOk RecognizerSamples.request.
Proof.
  split; [vm_compute; reflexivity|].
  apply (recognition_request_decides RecognizerSamples.file_system RecognizerSamples.request
           RecognizerSamples.recognition_request_wf). vm_compute. reflexivity.
Defined.

Lemma recognition_output_decides_witness :
  is_Ok (validate_output RecognizerSamples.request RecognizerSamples.output) = true
  /\ RecognitionOutputOk RecognizerSamples.request RecognizerSamples.output.
Proof.
  split; [vm_compute; reflexivity|].
  apply (recognition_output_decides RecognizerSamples.request RecognizerSamples.output
           RecognizerSamples.output_wf). vm_compute. reflexivity.
Defined.
