(* ===== verification/Sdr.v ===== *)
(** * The SDRD client

    [controller/src/sdr.rs]: the line protocol with the radio daemon
    ([SdrdWire]), the snapshot it yields and the health summary the planner is
    shown.  The daemon, the network and serde_json are parameters: the
    environment is a function of everything that happened so far, so that every
    theorem holds for every (deterministic) behaviour of the peer. *)
From S2P Require Import Prelude Text F32 Protocol Policy Framing.

Definition SDRD_SCHEMA_VERSION : Z := 1.
Definition SDRD_MAX_RESPONSE_BYTES : Z := 384 * 1024.

(** serde_json: its [Value] type and [from_slice]; [from_value] at each type the
    code deserializes is an instance of [Deserialize]. *)
Class Json := {
  Value : Type;
  from_slice : list Z -> result string Value;
}.
Class Deserialize `{Json} (T : Type) := from_value : Value -> result string T.

Module SdrError.
Section Json.
Context `{Json}.
Record t := mk { code : string; message : string; details : option Value }.
Definition new (code message : string) : t := mk code message None.
Definition with_details (code message : string) (details : Value) : t :=
  mk code message (Some details).
Definition io (operation error : string) : t := new operation error.
Definition protocol (operation error : string) : t := new operation error.
(** The [Display] of an error; [show] is the one of a JSON value. *)
Definition display (show : Value -> string) (e : t) : string :=
  e.(code) +:+ ": " +:+ e.(message)
  +:+ match e.(details) with Some d => " metadata=" +:+ show d | None => "" end.
End Json.
End SdrError.

Module SdrSnapshot.
Record t := mk {
  online : bool;
  healthy : bool;
  health_flags : Z;
  iio_visible : bool;
  can_retune : bool;
  can_capture_iq : bool;
}.

Definition planner_health (self : t) (recognizer_available : bool) (dropped_observations : Z)
    : HealthSummary.t :=
  {| HealthSummary.sdr_online := self.(online) && self.(healthy);
     HealthSummary.can_retune := self.(online) && self.(healthy) && self.(can_retune);
     HealthSummary.can_capture_iq := self.(online) && self.(healthy) && self.(can_capture_iq);
     HealthSummary.recognizer_available := recognizer_available;
     HealthSummary.dropped_observations := dropped_observations |}.
End SdrSnapshot.

(** ** The replies *)
Module CommonResponse.
Record t := mk { schema_version : Z; request_id : Z; status : string; error : option string }.
End CommonResponse.

Module HelloResponse.
Record t := mk { server : string; protocol : string; mode : string; mutating_commands : bool }.
End HelloResponse.

Module CapabilitiesResponse.
Record t := mk {
  mode : string;
  iio_visible : bool;
  radio_control : bool;
  raw_iq_capture : bool;
  max_capture_bytes : Z;
}.
End CapabilitiesResponse.

Module HealthResponse.
Record t := mk {
  healthy : bool;
  health_flags : Z;
  iio_phy_visible : bool;
  iio_rx_visible : bool;
  session_faulted : bool;
}.
End HealthResponse.

Module QuitResponse.
Record t := mk { closing : bool }.
End QuitResponse.

(** ** The environment *)

(** What the controller does to the outside, in order. *)
Inductive Event :=
| EConnect
| ESend (request_id : Z) (command arguments : string)
| ESleep (milliseconds : Z).

Definition History : Type := list Event.

(** The operating system and the daemon: each call's outcome depends on the
    whole history, the current call included. *)
Record Environment := {
  connect_timeout : History -> result string unit;
  set_read_timeout : History -> result string unit;
  set_write_timeout : History -> result string unit;
  try_clone : History -> result string unit;
  write_all : History -> list Z -> result string unit;
  flush : History -> result string unit;
  answer : History -> Incoming;
}.

(** ** The wire *)
Module SdrdWire.

(** [SdrdWire] together with the history: [unread] is what the buffered reader
    holds beyond the last frame. *)
Record t := mk { next_request_id : Z; unread : list Z; history : History }.

Definition request_line (request_id : Z) (command arguments : string) : string :=
  if is_empty arguments then
    "SDRD/1 " +:+ command +:+ " " +:+ print_u request_id +:+ String (char_of 10) EmptyString
  else
    "SDRD/1 " +:+ command +:+ " " +:+ print_u request_id +:+ " " +:+ arguments
      +:+ String (char_of 10) EmptyString.

Section Wire.
Context `{Json} `{!Deserialize CommonResponse.t} (env : Environment).

Definition connect (h : History) : result SdrError.t unit * History :=
  let h := h ++ [EConnect] in
  (map_err (SdrError.io "connect") (env.(connect_timeout) h) ;;
   map_err (SdrError.io "set_read_timeout") (env.(set_read_timeout) h) ;;
   map_err (SdrError.io "set_write_timeout") (env.(set_write_timeout) h) ;;
   map_err (SdrError.io "clone_stream") (env.(try_clone) h),
   h).

(** The wire of a fresh connection. *)
Definition fresh (h : History) : t := mk 1 [] h.

Definition check_frame (frame : list Z) : result SdrError.t (list Z) :=
  reject_if (SDRD_MAX_RESPONSE_BYTES <? length_z frame)
    (SdrError.new "response_too_large" "SDRD response exceeds 2048 bytes") ;;
  reject_if (negb (ends_with_newline frame))
    (SdrError.new "response_framing" "SDRD response is not newline framed") ;;
  Ok (pop frame).

Definition check_common (request_id : Z) (value : Value) (common : CommonResponse.t)
    : result SdrError.t unit :=
  reject_if (negb (common.(CommonResponse.schema_version) =? SDRD_SCHEMA_VERSION))
    (SdrError.new "schema_version" "unsupported SDRD schema version") ;;
  reject_if (negb (common.(CommonResponse.request_id) =? request_id))
    (SdrError.new "request_id" "SDRD response request id mismatch") ;;
  reject_if (negb (String.eqb common.(CommonResponse.status) "ok"))
    (SdrError.with_details "remote_error"
       match common.(CommonResponse.error) with
       | Some message => message
       | None => "SDRD request failed"%string
       end
       value).

(** The reply to request [request_id], from the frame that was read. *)
Definition decode_reply {T} `{!Deserialize T} (request_id : Z) (frame : list Z)
    : result SdrError.t T :=
  line ← check_frame frame ;
  value ← map_err (SdrError.protocol "response_json") (from_slice line) ;
  common ← map_err (SdrError.protocol "response_common")
             (from_value (T := CommonResponse.t) value) ;
  check_common request_id value common ;;
  map_err (SdrError.protocol "response_shape") (from_value value).

Definition request {T} `{!Deserialize T} (command arguments : string) : M t SdrError.t T :=
  fun self =>
    let request_id := self.(next_request_id) in
    match checked_add request_id 1 with
    | None => (Err (SdrError.new "request_id_exhausted" "SDRD request id exhausted"), self)
    | Some next =>
        let h := self.(history) ++ [ESend request_id command arguments] in
        let self := mk next self.(unread) h in
        match
          map_err (SdrError.io "write_request")
            (env.(write_all) h (bytes (request_line request_id command arguments))) ;;
          map_err (SdrError.io "flush_request") (env.(flush) h)
        with
        | Err e => (Err e, self)
        | Ok _ =>
            let received := env.(answer) h in
            let (read, rest) :=
              read_line (Z.to_nat (SDRD_MAX_RESPONSE_BYTES + 1))
                (self.(unread) ++ received.(arrived)) received.(failure) in
            let self := mk next rest h in
            (frame ← map_err (SdrError.io "read_response") read ;
             decode_reply request_id frame,
             self)
        end
    end.
End Wire.
End SdrdWire.

(** The reply types of this module, as serde_json reads them. *)
Class SdrFormat `{Json} := {
  #[global] common_de :: Deserialize CommonResponse.t;
  #[global] hello_de :: Deserialize HelloResponse.t;
  #[global] capabilities_de :: Deserialize CapabilitiesResponse.t;
  #[global] health_de :: Deserialize HealthResponse.t;
  #[global] quit_de :: Deserialize QuitResponse.t;
}.

(** The trait [SdrEngine]. *)
Class SdrEngine `{Json} (S : Type) := observe : S -> result SdrError.t SdrSnapshot.t * S.

Module ReplaySdrAdapter.
Record t := mk { snapshots : list SdrSnapshot.t }.

Definition observe `{Json} (self : t) : result SdrError.t SdrSnapshot.t * t :=
  match self.(snapshots) with
  | snapshot :: rest => (Ok snapshot, mk rest)
  | [] => (Err (SdrError.new "replay_exhausted" "no replay snapshots remain"), self)
  end.

#[global] Instance engine `{Json} : SdrEngine t := observe.
End ReplaySdrAdapter.

Module SdrdAdapter.
Section Adapter.
Context `{SdrFormat} (env : Environment).

Definition check_hello (hello : HelloResponse.t) : result SdrError.t unit :=
  reject_if
    (negb (String.eqb hello.(HelloResponse.server) "p201-sdrd")
     || negb (String.eqb hello.(HelloResponse.protocol) "SDRD/1")
     || negb (String.eqb hello.(HelloResponse.mode) "shadow"
              || String.eqb hello.(HelloResponse.mode) "controlled")
     || (String.eqb hello.(HelloResponse.mode) "shadow"
         && hello.(HelloResponse.mutating_commands)))
    (SdrError.new "unexpected_server" "SDRD endpoint identity or mode is inconsistent").

Definition snapshot (capabilities : CapabilitiesResponse.t) (health : HealthResponse.t)
    : SdrSnapshot.t :=
  let iio_visible :=
    capabilities.(CapabilitiesResponse.iio_visible) && health.(HealthResponse.iio_phy_visible)
    && health.(HealthResponse.iio_rx_visible) in
  {| SdrSnapshot.online := true;
     SdrSnapshot.healthy :=
       health.(HealthResponse.healthy) && (health.(HealthResponse.health_flags) =? 0)
       && iio_visible && negb health.(HealthResponse.session_faulted);
     SdrSnapshot.health_flags := health.(HealthResponse.health_flags);
     SdrSnapshot.iio_visible := iio_visible;
     SdrSnapshot.can_retune := capabilities.(CapabilitiesResponse.radio_control);
     SdrSnapshot.can_capture_iq :=
       capabilities.(CapabilitiesResponse.raw_iq_capture)
       && (0 <? capabilities.(CapabilitiesResponse.max_capture_bytes)) |}.

Definition observe_on_wire : M SdrdWire.t SdrError.t SdrSnapshot.t :=
  hello ← SdrdWire.request (T := HelloResponse.t) env "HELLO" "" ;
  lift (check_hello hello) ;;
  capabilities ← SdrdWire.request (T := CapabilitiesResponse.t) env "CAPABILITIES" "" ;
  lift (reject_if
          (negb (String.eqb capabilities.(CapabilitiesResponse.mode) hello.(HelloResponse.mode)))
          (SdrError.new "unexpected_mode" "SDRD hello and capability modes do not match")) ;;
  health ← SdrdWire.request (T := HealthResponse.t) env "HEALTH" "" ;
  quit ← SdrdWire.request (T := QuitResponse.t) env "QUIT" "" ;
  lift (reject_if (negb quit.(QuitResponse.closing))
          (SdrError.new "quit_rejected" "SDRD did not acknowledge connection close")) ;;
  lift (Ok (snapshot capabilities health)).

(** [SdrdAdapter::observe], over the history of the outside world. *)
Definition observe (h : History) : result SdrError.t SdrSnapshot.t * History :=
  match SdrdWire.connect env h with
  | (Err e, h) => (Err e, h)
  | (Ok _, h) =>
      let (r, wire) := observe_on_wire (SdrdWire.fresh h) in
      (r, wire.(SdrdWire.history))
  end.

#[global] Instance engine : SdrEngine History := observe.
End Adapter.
End SdrdAdapter.

(** ** Lemmas on the wire *)
Section Wire.
Context `{Json} `{!Deserialize CommonResponse.t} (env : Environment).

Lemma wire_frame_Ok frame line :
  SdrdWire.check_frame frame = Ok line <->
  length_z frame <= SDRD_MAX_RESPONSE_BYTES /\ ends_with_newline frame = true /\ pop frame = line.
Proof.
  unfold SdrdWire.check_frame. guards. split; [intros (?&?&[= ?])|intros (?&?&->)]; auto.
Qed.

Lemma check_common_Ok request_id value common u :
  SdrdWire.check_common request_id value common = Ok u <->
  common.(CommonResponse.schema_version) = 1
  /\ common.(CommonResponse.request_id) = request_id
  /\ common.(CommonResponse.status) = "ok"%string.
Proof. unfold SdrdWire.check_common. guards. reflexivity. Qed.

Lemma decode_reply_Ok {T} `{!Deserialize T} request_id frame (reply : T) :
  SdrdWire.decode_reply request_id frame = Ok reply <->
  exists value common,
    length_z frame <= SDRD_MAX_RESPONSE_BYTES /\ ends_with_newline frame = true
    /\ from_slice (pop frame) = Ok value /\ from_value value = Ok common
    /\ common.(CommonResponse.schema_version) = 1
    /\ common.(CommonResponse.request_id) = request_id
    /\ common.(CommonResponse.status) = "ok"%string
    /\ from_value value = Ok reply.
Proof.
  unfold SdrdWire.decode_reply. rewrite bind_Ok. split.
  - intros (line&Hl&Hr). apply wire_frame_Ok in Hl as (?&?&<-).
    apply bind_Ok in Hr as (value&Hv&Hr). apply map_err_Ok in Hv.
    apply bind_Ok in Hr as (common&Hc&Hr). apply map_err_Ok in Hc.
    apply unit_seq in Hr as [Hk Hr]. apply check_common_Ok in Hk as (?&?&?).
    apply map_err_Ok in Hr. exists value, common. split_and!; assumption.
  - intros (value&common&?&?&Hv&Hc&?&?&?&Hr). eexists. rewrite wire_frame_Ok.
    split; [split_and!; eauto|]. apply bind_Ok. exists value. rewrite map_err_Ok.
    split; [assumption|]. apply bind_Ok. exists common. rewrite map_err_Ok.
    split; [assumption|]. apply unit_seq. rewrite check_common_Ok, map_err_Ok. auto.
Qed.

(** A request appends exactly one event and uses up one id, whatever happens. *)
Lemma request_step {T} `{!Deserialize T} command arguments s (r : result SdrError.t T) s' :
  SdrdWire.next_request_id s < u64_max ->
  SdrdWire.request env command arguments s = (r, s') ->
  SdrdWire.history s'
  = SdrdWire.history s ++ [ESend (SdrdWire.next_request_id s) command arguments]
  /\ SdrdWire.next_request_id s' = SdrdWire.next_request_id s + 1.
Proof.
  intros Hid. unfold SdrdWire.request, checked_add.
  rewrite (proj2 (Z.leb_le _ _)) by lia.
  repeat case_match; intros [= <- <-]; split; reflexivity.
Qed.

Lemma request_Ok {T} `{!Deserialize T} command arguments s (reply : T) s' :
  SdrdWire.request env command arguments s = (Ok reply, s') ->
  exists frame,
    let h := SdrdWire.history s ++ [ESend (SdrdWire.next_request_id s) command arguments] in
    SdrdWire.unread s ++ (env.(answer) h).(arrived) = frame ++ SdrdWire.unread s'
    /\ SdrdWire.decode_reply (SdrdWire.next_request_id s) frame = Ok reply
    /\ frame = pop frame ++ [NEWLINE] /\ (NEWLINE ∉ pop frame).
Proof.
  unfold SdrdWire.request. destruct (checked_add _ _) as [next|] eqn:Hid; [|discriminate].
  case_match; [|discriminate]. destruct (read_line _ _ _) as [read rest] eqn:Hl.
  intros [= Hr <-]. apply bind_Ok in Hr as (frame&Hread&Hd). apply map_err_Ok in Hread as ->.
  apply read_line_Ok in Hl. exists frame. cbn [SdrdWire.unread].
  split_and!; [now apply take_line_app in Hl|exact Hd|..];
    apply decode_reply_Ok in Hd as (?&?&_&Hn&_); now apply (take_line_newline _ _ _ _ Hl).
Qed.
End Wire.

(** Run a chain of requests: one case per reply and per check. *)
Ltac step_request :=
  rewrite ?lift_bind_run, ?bind_run in *;
  match goal with
  | H : context [SdrdWire.request ?env ?c ?a ?s] |- _ =>
      let E := fresh "Hreq" in
      let v := fresh "reply" in
      let e := fresh "error" in
      let w := fresh "wire" in
      destruct (SdrdWire.request env c a s) as [[v|e] w] eqn:E;
      apply request_step in E as [? ?];
      [|cbn [SdrdWire.next_request_id SdrdWire.fresh] in *; unfold u64_max in *; lia
       | |cbn [SdrdWire.next_request_id SdrdWire.fresh] in *; unfold u64_max in *; lia]
  end.

(** The commands of an observation: none of them changes the radio. *)
Definition observe_events : History :=
  [EConnect; ESend 1 "HELLO" ""; ESend 2 "CAPABILITIES" ""; ESend 3 "HEALTH" "";
   ESend 4 "QUIT" ""].

Section Observe.
Context `{SdrFormat} (env : Environment).

Lemma connect_history h r h' : SdrdWire.connect env h = (r, h') -> h' = h ++ [EConnect].
Proof. unfold SdrdWire.connect. now intros [= _ <-]. Qed.

#[local] Ltac finish n Hrun :=
  rewrite ?lift_bind_run, ?lift_run in Hrun; injection Hrun as <- <-; exists n; split; [lia|]; split;
  [repeat match goal with E : SdrdWire.history _ = _ |- _ => rewrite E; clear E end;
   rewrite <- ?app_assoc; cbn; repeat (f_equal; try lia)
  |try discriminate].

Lemma observe_on_wire_run s r s' :
  SdrdWire.next_request_id s = 1 ->
  SdrdAdapter.observe_on_wire env s = (r, s') ->
  exists n, (1 <= n <= 4)%nat
  /\ SdrdWire.history s'
     = SdrdWire.history s ++ take n [ESend 1 "HELLO" ""; ESend 2 "CAPABILITIES" "";
                                     ESend 3 "HEALTH" ""; ESend 4 "QUIT" ""]
  /\ forall snapshot, r = Ok snapshot -> n = 4%nat
     /\ exists capabilities health, snapshot = SdrdAdapter.snapshot capabilities health.
Proof.
  intros Hid Hrun. unfold SdrdAdapter.observe_on_wire in Hrun.
  step_request; [|finish 1%nat Hrun].
  rewrite lift_bind_run in Hrun. destruct (SdrdAdapter.check_hello reply) as [[]|e]; [|finish 1%nat Hrun].
  step_request; [|finish 2%nat Hrun].
  rewrite lift_bind_run in Hrun. destruct (reject_if _ _) as [[]|e]; [|finish 2%nat Hrun].
  step_request; [|finish 3%nat Hrun].
  step_request; [|finish 4%nat Hrun].
  rewrite lift_bind_run in Hrun. destruct (reject_if _ _) as [[]|e]; [|finish 4%nat Hrun].
  finish 4%nat Hrun. intros snapshot [= <-]. eauto.
Qed.
End Observe.

Lemma observe_extends `{SdrFormat} env h r h' :
  SdrdAdapter.observe env h = (r, h') ->
  exists n, h' = h ++ take n observe_events
  /\ forall snapshot, r = Ok snapshot ->
     n = 5%nat
     /\ snapshot.(SdrSnapshot.online) = true
     /\ (snapshot.(SdrSnapshot.healthy) = true ->
         snapshot.(SdrSnapshot.health_flags) = 0 /\ snapshot.(SdrSnapshot.iio_visible) = true).
Proof.
  unfold SdrdAdapter.observe. destruct (SdrdWire.connect env h) as [[u|e] h1] eqn:Hc;
    apply connect_history in Hc as ->.
  - destruct (SdrdAdapter.observe_on_wire env _) as [r1 w] eqn:Ho. intros [= <- <-].
    apply observe_on_wire_run in Ho as (n&Hn&Hh&Hok); [|reflexivity].
    exists (S n). split.
    { rewrite Hh. cbn [SdrdWire.fresh SdrdWire.history]. now rewrite <- app_assoc. }
    intros snapshot Hs. destruct (Hok snapshot Hs) as (->&caps&health&->).
    split; [reflexivity|]. split; [reflexivity|]. cbn. guards. tauto.
  - intros [= <- <-]. exists 1%nat. split; [reflexivity|discriminate].
Qed.

(** ** Properties *)

(** A request sends one line under a fresh id, and a reply is returned only for a line
    of at most 384 KiB from the daemon that decodes as a JSON value with schema version 1, status
    "ok" and the id of this very request; a late reply to another request is never taken for it. *)
Theorem request_correlates `{Json} `{!Deserialize CommonResponse.t} env
    {T} `{!Deserialize T} command arguments s (reply : T) s' :
  SdrdWire.next_request_id s < u64_max ->
  SdrdWire.request env command arguments s = (Ok reply, s') ->
  let id := SdrdWire.next_request_id s in
  SdrdWire.history s' = SdrdWire.history s ++ [ESend id command arguments]
  /\ SdrdWire.next_request_id s' = id + 1
  /\ exists line value common,
       SdrdWire.unread s ++ (env.(answer) (SdrdWire.history s')).(arrived)
       = line ++ NEWLINE :: SdrdWire.unread s'
       /\ (NEWLINE ∉ line) /\ length_z line < 384 * 1024
       /\ from_slice line = Ok value /\ from_value value = Ok common
       /\ common.(CommonResponse.schema_version) = 1
       /\ common.(CommonResponse.request_id) = id
       /\ common.(CommonResponse.status) = "ok"%string
       /\ from_value value = Ok reply.
Proof.
  intros Hid Hreq id. destruct (request_step _ _ _ _ _ _ Hid Hreq) as [Hh Hn].
  split; [exact Hh|]. split; [exact Hn|]. rewrite Hh.
  apply request_Ok in Hreq as (frame&Hs&Hd&Hf&Hnl).
  apply decode_reply_Ok in Hd as (value&common&Hlen&_&Hv&Hc&?&?&?&Hr).
  exists (pop frame), value, common. split_and!; auto.
  - etransitivity; [exact Hs|]. rewrite Hf at 1. now rewrite <- app_assoc.
  - rewrite Hf in Hlen. unfold length_z, SDRD_MAX_RESPONSE_BYTES in *.
    rewrite length_app in Hlen. cbn [length] in Hlen. lia.
Qed.

(** Observing the radio is read-only: whatever the daemon does, the outside sees a
    prefix of connect, HELLO, CAPABILITIES, HEALTH, QUIT with the ids 1 to 4; a snapshot is
    returned only after the whole exchange, and it reports a healthy radio only when the
    daemon said so with zero flags, both IIO paths visible and no faulted session. *)
Theorem observe_is_read_only `{SdrFormat} env h r h' :
  SdrdAdapter.observe env h = (r, h') ->
  exists n, h' = h ++ take n observe_events
  /\ forall snapshot, r = Ok snapshot ->
     n = 5%nat
     /\ snapshot.(SdrSnapshot.online) = true
     /\ (snapshot.(SdrSnapshot.healthy) = true ->
         snapshot.(SdrSnapshot.health_flags) = 0 /\ snapshot.(SdrSnapshot.iio_visible) = true).
Proof. apply observe_extends. Qed.

(** An unhealthy or offline radio is never acted on: with the health summary the agent
    builds from such a snapshot, the policy refuses every survey, inspection and capture. *)
Theorem unhealthy_sdr_executes_nothing snapshot recognizer dropped r a b :
  (snapshot.(SdrSnapshot.online) && snapshot.(SdrSnapshot.healthy)) = false ->
  r.(PlanRequest.observation).(ObservationSummary.health)
  = SdrSnapshot.planner_health snapshot recognizer dropped ->
  validate_action r a = Ok b ->
  match a with
  | ProposedAction.Hold _ | ProposedAction.StopSession _ | ProposedAction.RunLocalRecognition _ =>
      b = false
  | _ => False
  end.
Proof.
  intros Hs Hh Hv. unfold validate_action in Hv. apply reject_seq in Hv as [_ Hv].
  assert (Hcap : forall retune capture, is_Ok (require_sdr_capability r retune capture) = false).
  { intros. unfold require_sdr_capability, require. rewrite Hh. cbn. now rewrite Hs. }
  assert (Hno : forall retune capture (k : result PolicyError.t bool),
             (require_sdr_capability r retune capture ;; k) <> Ok b).
  { intros retune capture k Hk. apply unit_seq in Hk as [Hk _].
    specialize (Hcap retune capture). now rewrite Hk in Hcap. }
  destruct a; try (eapply Hno, Hv).
  - apply unit_seq in Hv as [_ [= <-]]. reflexivity.
  - apply unit_seq in Hv as [_ Hv]. apply bind_Ok in Hv as (c&_&[= <-]). reflexivity.
  - apply unit_seq in Hv as [_ [= <-]]. reflexivity.
Qed.

(** ** A concrete daemon *)
Module SdrSamples.
(** A JSON stand-in: a line holds one byte, the request id plus 64. *)
#[local] Instance json : Json := {|
  Value := Z;
  from_slice := fun l => match l with [b] => Ok (b - 64) | _ => Err "json"%string end;
|}.

#[local] Instance format : SdrFormat :=
  @Build_SdrFormat json
    (fun v => Ok (CommonResponse.mk 1 v "ok" None))
    (fun _ => Ok (HelloResponse.mk "p201-sdrd" "SDRD/1" "controlled" true))
    (fun _ => Ok (CapabilitiesResponse.mk "controlled" true true true 262144))
    (fun _ => Ok (HealthResponse.mk true 0 true true false))
    (fun _ => Ok (QuitResponse.mk true)).

Definition reply_to (h : History) : Incoming :=
  match rev h with
  | ESend id _ _ :: _ => incoming [id + 64; NEWLINE] None
  | _ => incoming [] None
  end.

Definition ok (_ : History) : result string unit := Ok tt.
Definition environment : Environment :=
  Build_Environment ok ok ok ok (fun _ _ => Ok tt) ok reply_to.
Definition observed : result SdrError.t SdrSnapshot.t * History :=
  @SdrdAdapter.observe json format environment [].
End SdrSamples.
#[local] Existing Instances SdrSamples.json SdrSamples.format.

Lemma request_correlates_witness :
  exists s', SdrdWire.request (T := HelloResponse.t) SdrSamples.environment "HELLO" ""
               (SdrdWire.fresh [])
             = (Ok (HelloResponse.mk "p201-sdrd" "SDRD/1" "controlled" true), s')
  /\ SdrdWire.next_request_id s' = 2.
Proof.
  eexists. split; [vm_compute; reflexivity|].
  refine (proj1 (proj2 (request_correlates SdrSamples.environment (T := HelloResponse.t) "HELLO" ""
           (SdrdWire.fresh []) (HelloResponse.mk "p201-sdrd" "SDRD/1" "controlled" true) _ _ _)));
    vm_compute; reflexivity.
Defined.

Lemma observe_is_read_only_witness :
  SdrSamples.observed
  = (Ok (SdrSnapshot.mk true true 0 true true true), take 5 observe_events).
Proof.
  destruct (@observe_is_read_only SdrSamples.json SdrSamples.format SdrSamples.environment []
              SdrSamples.observed.1 SdrSamples.observed.2 ltac:(vm_compute; reflexivity))
    as (n&Hn&Hok).
  destruct (Hok (SdrSnapshot.mk true true 0 true true true) ltac:(vm_compute; reflexivity))
    as [-> _].
  change (SdrSamples.observed
          = (Ok (SdrSnapshot.mk true true 0 true true true), [] ++ take 5 observe_events)).
  rewrite <- Hn. vm_compute. reflexivity.
Defined.

Lemma unhealthy_sdr_executes_nothing_witness :
  let offline := SdrSnapshot.mk true false 4 true true true in
  let o := ObservationSummary.mk 100 (SdrSnapshot.planner_health offline true 0)
             [PolicySamples.candidate] None None in
  let r := PlanRequest.mk 1 7 3 "watch" ControllerState.Idle o PolicySamples.limits in
  validate_action r (ProposedAction.Hold "radio unhealthy") = Ok false /\ false = false.
Proof.
  intros offline o r. split; [vm_compute; reflexivity|].
  exact (unhealthy_sdr_executes_nothing offline true 0 r (ProposedAction.Hold "radio unhealthy")
           false eq_refl eq_refl ltac:(vm_compute; reflexivity)).
Defined.

(** ** Sessions that own the radio

    The execution closures thread the wire and the local flag
    [session_started]; a cleanup request ignores its reply. *)
Module Session.
Record t := mk { wire : SdrdWire.t; session_started : bool }.

Section Session.
Context `{Json} `{!Deserialize CommonResponse.t} (env : Environment).

Definition request {T} `{!Deserialize T} {E} (convert : SdrError.t -> E)
    (command arguments : string) : M t E T := fun s =>
  let (r, w) := SdrdWire.request env command arguments s.(wire) in
  (map_err convert r, mk w s.(session_started)).

Definition set_started {E} (started : bool) : M t E unit := fun s =>
  (Ok tt, mk s.(wire) started).

(** [thread::sleep]. *)
Definition sleep {E} (milliseconds : Z) : M t E unit := fun s =>
  let w := s.(wire) in
  (Ok tt,
   mk (SdrdWire.mk w.(SdrdWire.next_request_id) w.(SdrdWire.unread)
         (w.(SdrdWire.history) ++ [ESleep milliseconds]))
     s.(session_started)).

(** [let _: Result<T, _> = wire.request(command, arguments);]. *)
Definition request_ignored (T : Type) `{!Deserialize T} (command arguments : string) (s : t) : t :=
  mk (SdrdWire.request (T := T) env command arguments s.(wire)).2 s.(session_started).
End Session.
End Session.

(** What a session is scripted to do: send a command or sleep. *)
Inductive Action :=
| Send (command arguments : string)
| Nap (milliseconds : Z).

(** The events of a script whose request ids start at [id]. *)
Fixpoint sends (id : Z) (script : list Action) : History :=
  match script with
  | [] => []
  | Send command arguments :: script => ESend id command arguments :: sends (id + 1) script
  | Nap milliseconds :: script => ESleep milliseconds :: sends id script
  end.

Fixpoint send_count (script : list Action) : Z :=
  match script with
  | [] => 0
  | Send _ _ :: script => 1 + send_count script
  | Nap _ :: script => send_count script
  end.

Lemma send_count_app l1 l2 : send_count (l1 ++ l2) = send_count l1 + send_count l2.
Proof. induction l1 as [|[] l1 IH]; cbn; lia. Qed.

Lemma send_count_bound l : 0 <= send_count l <= length_z l.
Proof. unfold length_z. induction l as [|[] l IH]; cbn [send_count length]; lia. Qed.

Lemma sends_app id l1 l2 : sends id (l1 ++ l2) = sends id l1 ++ sends (id + send_count l1) l2.
Proof.
  revert id. induction l1 as [|[c a|ms] l1 IH]; intros id; cbn.
  - f_equal. lia.
  - rewrite IH. do 3 f_equal. lia.
  - now rewrite IH.
Qed.

Section SessionLemmas.
Context `{Json} `{!Deserialize CommonResponse.t} (env : Environment).

(** [s'] is [s] after playing [script], with the flag [started]. *)
Record Sent (s s' : Session.t) (script : list Action) (started : bool) : Prop := {
  sent_history : SdrdWire.history s'.(Session.wire)
    = SdrdWire.history s.(Session.wire)
      ++ sends (SdrdWire.next_request_id s.(Session.wire)) script;
  sent_id : SdrdWire.next_request_id s'.(Session.wire)
    = SdrdWire.next_request_id s.(Session.wire) + send_count script;
  sent_started : s'.(Session.session_started) = started;
}.

Lemma session_request_sent {T} `{!Deserialize T} {E} (convert : SdrError.t -> E)
    command arguments s (r : result E T) s' :
  SdrdWire.next_request_id s.(Session.wire) < u64_max ->
  Session.request env convert command arguments s = (r, s') ->
  Sent s s' [Send command arguments] s.(Session.session_started).
Proof.
  intros Hid. unfold Session.request.
  destruct (SdrdWire.request _ _ _ _) as [r0 w] eqn:Hreq. intros [= <- <-].
  apply request_step in Hreq as [Hh Hn]; [|exact Hid]. split; cbn; auto.
Qed.

Lemma request_ignored_sent (T : Type) `{!Deserialize T} command arguments s :
  SdrdWire.next_request_id s.(Session.wire) < u64_max ->
  Sent s (Session.request_ignored env T command arguments s) [Send command arguments]
    s.(Session.session_started).
Proof.
  intros Hid. unfold Session.request_ignored.
  destruct (SdrdWire.request _ _ _ _) as [r0 w] eqn:Hreq.
  apply request_step in Hreq as [Hh Hn]; [|exact Hid]. split; cbn; auto.
Qed.

Lemma sent_trans s1 s2 s3 l1 l2 b1 b2 :
  Sent s1 s2 l1 b1 -> Sent s2 s3 l2 b2 -> Sent s1 s3 (l1 ++ l2) b2.
Proof.
  intros [H1 H2 _] [H3 H4 H5]. split; [|rewrite send_count_app; lia|exact H5].
  rewrite H3, H1, H2, sends_app. now rewrite <- app_assoc.
Qed.

Lemma sent_refl s : Sent s s [] s.(Session.session_started).
Proof. split; cbn; rewrite ?app_nil_r; auto; lia. Qed.

(** One more request of a session that has sent [l]. *)
Lemma sent_request {T} `{!Deserialize T} {E} (convert : SdrError.t -> E)
    command arguments s s1 l b (r : result E T) s2 :
  Sent s s1 l b ->
  SdrdWire.next_request_id s.(Session.wire) + send_count l < u64_max ->
  Session.request env convert command arguments s1 = (r, s2) ->
  Sent s s2 (l ++ [Send command arguments]) b.
Proof.
  intros Hs Hid Hr. apply session_request_sent in Hr; [|rewrite (sent_id _ _ _ _ Hs); lia].
  rewrite (sent_started _ _ _ _ Hs) in Hr. eapply sent_trans; eassumption.
Qed.

Lemma sent_ignored (T : Type) `{!Deserialize T} command arguments s s1 l b :
  Sent s s1 l b ->
  SdrdWire.next_request_id s.(Session.wire) + send_count l < u64_max ->
  Sent s (Session.request_ignored env T command arguments s1) (l ++ [Send command arguments]) b.
Proof.
  intros Hs Hid. eapply sent_trans; [exact Hs|].
  rewrite <- (sent_started _ _ _ _ Hs). apply request_ignored_sent.
  rewrite (sent_id _ _ _ _ Hs). lia.
Qed.

Lemma sent_sleep {E} s s1 l b ms :
  Sent s s1 l b ->
  Session.sleep (E := E) ms s1 = (Ok tt, (Session.sleep (E := E) ms s1).2)
  /\ Sent s (Session.sleep (E := E) ms s1).2 (l ++ [Nap ms]) b.
Proof.
  intros [H1 H2 H3]. split; [reflexivity|]. split; cbn.
  - rewrite H1, sends_app, <- app_assoc. reflexivity.
  - rewrite send_count_app. cbn. lia.
  - exact H3.
Qed.

Lemma sent_set_started s s1 l b started :
  Sent s s1 l b -> Sent s (Session.mk s1.(Session.wire) started) l started.
Proof. intros [H1 H2 _]. split; auto. Qed.
End SessionLemmas.
