(* ===== verification/Autonomy.v ===== *)
(** * Bounded autonomous cruise

    [controller/src/autonomy.rs]: the budgets and the phase of automatic
    cruise.  An [Instant] is a number of nanoseconds on the monotonic clock and
    a [Duration] a number of nanoseconds. *)
From S2P Require Import Prelude Text.

Definition AUTO_RETRY_LIMIT : Z := 5.
Definition AUTO_RETRY_DELAY_SECS : Z := 10.
Definition DEFAULT_AUTO_MAX_STEPS : Z := 8.
Definition HARD_AUTO_MAX_STEPS : Z := 128.
Definition DEFAULT_AUTO_DURATION_SECS : Z := 120.
Definition MIN_AUTO_DURATION_SECS : Z := 10.
Definition HARD_AUTO_DURATION_SECS : Z := 1800.

Definition from_secs (secs : Z) : Z := secs * 1000000000.
Definition as_millis (duration : Z) : Z := duration / 1000000.
Definition saturating_duration_since (now started : Z) : Z := Z.max (now - started) 0.
(** [u8::saturating_add]. *)
Definition saturating_add_u8 (a b : Z) : Z := Z.min (a + b) u8_max.

Module InteractionMode.
Inductive t := StepApproval | AutomaticCruise.
Definition label (self : t) : string :=
  match self with
  | StepApproval => "逐步人工批准"
  | AutomaticCruise => "受限自动巡航"
  end.
End InteractionMode.

Module CruisePhase.
Inductive t :=
| Stopped | CheckingSdr | WaitingForPlanner | WaitingForApproval | Executing | WaitingToRetry.
Definition label (self : t) : string :=
  match self with
  | Stopped => "已停止"
  | CheckingSdr => "正在检查 SDR"
  | WaitingForPlanner => "正在等待上游给出下一步"
  | WaitingForApproval => "正在等待人工批准"
  | Executing => "正在执行受限动作"
  | WaitingToRetry => "等待重试"
  end.
End CruisePhase.

Module CruiseStopReason.
Inductive t :=
| OperatorStopped | SdrRetryExhausted | PlannerRetryExhausted | StepBudgetExhausted
| DurationBudgetExhausted | ByteBudgetExhausted | ApprovalRequired | UnsupportedAction
| PlannerRequestedStop | Fault.
Definition label (self : t) : string :=
  match self with
  | OperatorStopped => "操作员已停止"
  | SdrRetryExhausted => "连续 5 次检测不到 SDR"
  | PlannerRetryExhausted => "连续 5 次未收到上游下一步"
  | StepBudgetExhausted => "已用完巡航步数"
  | DurationBudgetExhausted => "已达到巡航时长上限"
  | ByteBudgetExhausted => "已达到 IQ 字节预算"
  | ApprovalRequired => "下一步需要人工批准"
  | UnsupportedAction => "下一步没有生产执行器"
  | PlannerRequestedStop => "上游建议停止或保持"
  | Fault => "控制器检测到故障"
  end.
End CruiseStopReason.

Module CruiseSnapshot.
Record t := mk {
  mode : InteractionMode.t;
  active : bool;
  phase : CruisePhase.t;
  phase_label : string;
  completed_steps : Z;
  max_steps : Z;
  elapsed_ms : Z;
  max_duration_ms : Z;
  used_iq_bytes : Z;
  max_iq_bytes : Z;
  sdr_retry_count : Z;
  planner_retry_count : Z;
  retry_limit : Z;
  stop_reason : option CruiseStopReason.t;
  stop_reason_label : option string;
}.
End CruiseSnapshot.

Module CruiseControl.
Record t := mk {
  mode : InteractionMode.t;
  active : bool;
  phase : CruisePhase.t;
  started_at : option Z;
  completed_steps : Z;
  used_iq_bytes : Z;
  max_iq_bytes : Z;
  max_steps : Z;
  max_duration : Z;
  sdr_retry_count : Z;
  planner_retry_count : Z;
  stop_reason : option CruiseStopReason.t;
}.

Definition default : t :=
  {| mode := InteractionMode.StepApproval;
     active := false;
     phase := CruisePhase.Stopped;
     started_at := None;
     completed_steps := 0;
     used_iq_bytes := 0;
     max_iq_bytes := 0;
     max_steps := DEFAULT_AUTO_MAX_STEPS;
     max_duration := from_secs DEFAULT_AUTO_DURATION_SECS;
     sdr_retry_count := 0;
     planner_retry_count := 0;
     stop_reason := None |}.

Definition is_active (self : t) : bool := self.(active).

Definition start (bytes steps max_duration_secs now : Z) (self : t) : result string unit * t :=
  if bytes =? 0 then
    (Err "automatic cruise IQ byte budget must be a positive finite value"%string, self)
  else if negb (in_range 1 HARD_AUTO_MAX_STEPS steps) then
    (Err "automatic cruise steps must be between 1 and 128"%string, self)
  else if negb (in_range MIN_AUTO_DURATION_SECS HARD_AUTO_DURATION_SECS max_duration_secs) then
    (Err "automatic cruise duration must be between 10 and 1800 seconds"%string, self)
  else
    (Ok tt,
     {| mode := InteractionMode.AutomaticCruise;
        active := true;
        phase := CruisePhase.CheckingSdr;
        started_at := Some now;
        completed_steps := 0;
        used_iq_bytes := 0;
        max_iq_bytes := bytes;
        max_steps := steps;
        max_duration := from_secs max_duration_secs;
        sdr_retry_count := 0;
        planner_retry_count := 0;
        stop_reason := None |}).

Definition with_phase (phase : CruisePhase.t) (self : t) : t :=
  mk self.(mode) self.(active) phase self.(started_at) self.(completed_steps)
    self.(used_iq_bytes) self.(max_iq_bytes) self.(max_steps) self.(max_duration)
    self.(sdr_retry_count) self.(planner_retry_count) self.(stop_reason).

Definition with_retries (sdr planner : Z) (self : t) : t :=
  mk self.(mode) self.(active) self.(phase) self.(started_at) self.(completed_steps)
    self.(used_iq_bytes) self.(max_iq_bytes) self.(max_steps) self.(max_duration)
    sdr planner self.(stop_reason).

Definition stop (reason : CruiseStopReason.t) (self : t) : t :=
  mk self.(mode) false CruisePhase.Stopped self.(started_at) self.(completed_steps)
    self.(used_iq_bytes) self.(max_iq_bytes) self.(max_steps) self.(max_duration)
    self.(sdr_retry_count) self.(planner_retry_count) (Some reason).

Definition switch_to_step_approval (self : t) : t :=
  stop CruiseStopReason.OperatorStopped
    (mk InteractionMode.StepApproval self.(active) self.(phase) self.(started_at)
       self.(completed_steps) self.(used_iq_bytes) self.(max_iq_bytes) self.(max_steps)
       self.(max_duration) self.(sdr_retry_count) self.(planner_retry_count)
       self.(stop_reason)).

Definition set_phase (phase : CruisePhase.t) (self : t) : t :=
  if self.(active) then with_phase phase self else self.

Definition record_sdr_available (self : t) : t :=
  with_retries 0 self.(planner_retry_count) self.

Definition record_sdr_unavailable (self : t) : bool * t :=
  let self :=
    with_retries (saturating_add_u8 self.(sdr_retry_count) 1) self.(planner_retry_count) self in
  let self := with_phase CruisePhase.WaitingToRetry self in
  if AUTO_RETRY_LIMIT <=? self.(sdr_retry_count) then
    (false, stop CruiseStopReason.SdrRetryExhausted self)
  else (true, self).

Definition record_planner_action (self : t) : t := with_retries self.(sdr_retry_count) 0 self.

Definition record_planner_missing (self : t) : bool * t :=
  let self :=
    with_retries self.(sdr_retry_count) (saturating_add_u8 self.(planner_retry_count) 1) self in
  let self := with_phase CruisePhase.WaitingToRetry self in
  if AUTO_RETRY_LIMIT <=? self.(planner_retry_count) then
    (false, stop CruiseStopReason.PlannerRetryExhausted self)
  else (true, self).

Definition record_execution (iq_bytes : Z) (self : t) : t :=
  let self :=
    mk self.(mode) self.(active) self.(phase) self.(started_at)
      (saturating_add_u8 self.(completed_steps) 1)
      (saturating_add self.(used_iq_bytes) iq_bytes)
      self.(max_iq_bytes) self.(max_steps) self.(max_duration)
      self.(sdr_retry_count) self.(planner_retry_count) self.(stop_reason) in
  if self.(max_steps) <=? self.(completed_steps) then
    stop CruiseStopReason.StepBudgetExhausted self
  else if self.(max_iq_bytes) <=? self.(used_iq_bytes) then
    stop CruiseStopReason.ByteBudgetExhausted self
  else with_phase CruisePhase.CheckingSdr self.

Definition remaining_iq_bytes (self : t) : Z :=
  saturating_sub self.(max_iq_bytes) self.(used_iq_bytes).

Definition check_duration (now : Z) (self : t) : bool * t :=
  let self :=
    if self.(active)
       && match self.(started_at) with
          | Some started => self.(max_duration) <=? saturating_duration_since now started
          | None => false
          end
    then stop CruiseStopReason.DurationBudgetExhausted self
    else self in
  (self.(active), self).

Definition snapshot (now : Z) (self : t) : CruiseSnapshot.t :=
  let elapsed :=
    match self.(started_at) with
    | Some started => saturating_duration_since now started
    | None => 0
    end in
  {| CruiseSnapshot.mode := self.(mode);
     CruiseSnapshot.active := self.(active);
     CruiseSnapshot.phase := self.(phase);
     CruiseSnapshot.phase_label := CruisePhase.label self.(phase);
     CruiseSnapshot.completed_steps := self.(completed_steps);
     CruiseSnapshot.max_steps := self.(max_steps);
     CruiseSnapshot.elapsed_ms := Z.min (as_millis elapsed) u64_max;
     CruiseSnapshot.max_duration_ms := as_millis self.(max_duration) mod 2 ^ 64;
     CruiseSnapshot.used_iq_bytes := self.(used_iq_bytes);
     CruiseSnapshot.max_iq_bytes := self.(max_iq_bytes);
     CruiseSnapshot.sdr_retry_count := self.(sdr_retry_count);
     CruiseSnapshot.planner_retry_count := self.(planner_retry_count);
     CruiseSnapshot.retry_limit := AUTO_RETRY_LIMIT;
     CruiseSnapshot.stop_reason := self.(stop_reason);
     CruiseSnapshot.stop_reason_label := option_map CruiseStopReason.label self.(stop_reason) |}.
End CruiseControl.

(** ** Cruises as traces

    What happens to a cruise after [start], newest first.  [start] itself is
    not among the operations: it begins another cruise. *)
Inductive Op :=
| OSwitchToStepApproval
| OSetPhase (phase : CruisePhase.t)
| OSdrAvailable
| OSdrUnavailable
| OPlannerAction
| OPlannerMissing
| OExecution (iq_bytes : Z)
| OCheckDuration (now : Z)
| OStop (reason : CruiseStopReason.t).

Definition step (op : Op) (c : CruiseControl.t) : CruiseControl.t :=
  match op with
  | OSwitchToStepApproval => CruiseControl.switch_to_step_approval c
  | OSetPhase phase => CruiseControl.set_phase phase c
  | OSdrAvailable => CruiseControl.record_sdr_available c
  | OSdrUnavailable => (CruiseControl.record_sdr_unavailable c).2
  | OPlannerAction => CruiseControl.record_planner_action c
  | OPlannerMissing => (CruiseControl.record_planner_missing c).2
  | OExecution iq_bytes => CruiseControl.record_execution iq_bytes c
  | OCheckDuration now => (CruiseControl.check_duration now c).2
  | OStop reason => CruiseControl.stop reason c
  end.

Definition op_wf (op : Op) : Prop :=
  match op with OExecution iq_bytes => is_u64 iq_bytes | _ => True end.

(** The states reachable from [c0], with the operations that led there. *)
Inductive reach (c0 : CruiseControl.t) : list Op -> CruiseControl.t -> Prop :=
| reach_start : reach c0 [] c0
| reach_step ops c op : reach c0 ops c -> op_wf op -> reach c0 (op :: ops) (step op c).

Definition is_execution (op : Op) : Z := match op with OExecution _ => 1 | _ => 0 end.
Definition execution_bytes (op : Op) : Z := match op with OExecution b => b | _ => 0 end.
Fixpoint executions (ops : list Op) : Z :=
  match ops with [] => 0 | op :: ops => is_execution op + executions ops end.
Fixpoint spent_bytes (ops : list Op) : Z :=
  match ops with [] => 0 | op :: ops => execution_bytes op + spent_bytes ops end.
(** Consecutive failures since the last success. *)
Fixpoint sdr_failures (ops : list Op) : Z :=
  match ops with
  | [] => 0
  | OSdrUnavailable :: ops => 1 + sdr_failures ops
  | OSdrAvailable :: _ => 0
  | _ :: ops => sdr_failures ops
  end.
Fixpoint planner_failures (ops : list Op) : Z :=
  match ops with
  | [] => 0
  | OPlannerMissing :: ops => 1 + planner_failures ops
  | OPlannerAction :: _ => 0
  | _ :: ops => planner_failures ops
  end.

Section Budget.
Context (budget_bytes budget_steps budget_secs started : Z).

(** The newest operation exhausts a budget or stops the cruise. *)
Definition halts (op : Op) (ops : list Op) : bool :=
  match op with
  | OSwitchToStepApproval | OStop _ => true
  | OSdrUnavailable => 5 <=? sdr_failures (op :: ops)
  | OPlannerMissing => 5 <=? planner_failures (op :: ops)
  | OExecution _ =>
      (budget_steps <=? executions (op :: ops)) || (budget_bytes <=? spent_bytes (op :: ops))
  | OCheckDuration now => budget_secs * 1000000000 <=? now - started
  | OSetPhase _ | OSdrAvailable | OPlannerAction => false
  end.

Fixpoint halted (ops : list Op) : bool :=
  match ops with [] => false | op :: ops => halted ops || halts op ops end.

(** What the record holds along a trace. *)
Record Tracks (ops : list Op) (c : CruiseControl.t) : Prop := {
  tr_active : c.(CruiseControl.active) = negb (halted ops);
  tr_steps : c.(CruiseControl.completed_steps) = Z.min (executions ops) 255;
  tr_bytes : c.(CruiseControl.used_iq_bytes) = Z.min (spent_bytes ops) u64_max;
  tr_sdr : c.(CruiseControl.sdr_retry_count) = Z.min (sdr_failures ops) 255;
  tr_planner : c.(CruiseControl.planner_retry_count) = Z.min (planner_failures ops) 255;
  tr_max_bytes : c.(CruiseControl.max_iq_bytes) = budget_bytes;
  tr_max_steps : c.(CruiseControl.max_steps) = budget_steps;
  tr_max_duration : c.(CruiseControl.max_duration) = budget_secs * 1000000000;
  tr_started : c.(CruiseControl.started_at) = Some started;
  tr_reason : halted ops = true <-> c.(CruiseControl.stop_reason) <> None;
  tr_mode : halted ops = false ->
            c.(CruiseControl.mode) = InteractionMode.AutomaticCruise;
}.

Lemma executions_nonneg ops : 0 <= executions ops.
Proof. induction ops as [|[] ops IH]; cbn in *; lia. Qed.

Lemma failures_nonneg ops : 0 <= sdr_failures ops /\ 0 <= planner_failures ops.
Proof. induction ops as [|[] ops IH]; cbn in *; lia. Qed.

Context (Hbytes : 0 < budget_bytes <= u64_max) (Hsteps : 1 <= budget_steps <= 128)
  (Hsecs : 10 <= budget_secs <= 1800).

Lemma step_tracks ops c op :
  0 <= spent_bytes ops -> op_wf op -> Tracks ops c -> Tracks (op :: ops) (step op c).
Proof.
  intros Hspent Hop Ht. pose proof (executions_nonneg ops). pose proof (failures_nonneg ops).
  destruct c as [m a p s cs ub mb ms md sr pr r], Ht; cbn in *. subst.
  destruct op; cbn in *;
    unfold CruiseControl.switch_to_step_approval, CruiseControl.set_phase,
      CruiseControl.record_sdr_available, CruiseControl.record_sdr_unavailable,
      CruiseControl.record_planner_action, CruiseControl.record_planner_missing,
      CruiseControl.record_execution, CruiseControl.check_duration, CruiseControl.stop,
      CruiseControl.with_phase, CruiseControl.with_retries, AUTO_RETRY_LIMIT; cbn;
    unfold saturating_add, saturating_add_u8, saturating_duration_since, u8_max, u64_max,
      is_u in *.
  all: destruct (halted ops) eqn:Eh; cbn in *;
    repeat match goal with
      | |- context [if ?b then _ else _] => is_var b; destruct b
      | |- context [?x <=? ?y] => destruct (Z.leb_spec x y)
      end; cbn in *; try (exfalso; lia).
  all: constructor; cbn; rewrite ?Eh; cbn;
    repeat match goal with |- context [?x <=? ?y] => destruct (Z.leb_spec x y) end; cbn;
    unfold u64_max in *; try lia; try tauto; try congruence; try (split; congruence).
Qed.

Lemma spent_nonneg c0 ops c : reach c0 ops c -> 0 <= spent_bytes ops.
Proof.
  induction 1 as [|ops c [] Hr IH Hw]; cbn in *; try lia. unfold is_u in Hw; lia.
Qed.

Lemma started_tracks before c0 ops c :
  CruiseControl.start budget_bytes budget_steps budget_secs started before = (Ok tt, c0) ->
  reach c0 ops c -> Tracks ops c.
Proof.
  intros Hs Hr. induction Hr as [|ops c op Hr IH Hw].
  - unfold CruiseControl.start in Hs. do 3 (case_match; [discriminate|]). injection Hs as <-.
    constructor; cbn; try reflexivity; try (split; congruence); unfold u64_max; lia.
  - apply step_tracks; auto. eapply spent_nonneg, Hr.
Qed.

Lemma reach_wf c0 ops c : reach c0 ops c -> Forall op_wf ops.
Proof. induction 1; constructor; auto. Qed.

(** A trace that has not halted stays below every budget. *)
Lemma not_halted ops :
  halted ops = false ->
  executions ops < budget_steps /\ spent_bytes ops < budget_bytes
  /\ sdr_failures ops < 5 /\ planner_failures ops < 5
  /\ forall now, OCheckDuration now ∈ ops -> now - started < budget_secs * 1000000000.
Proof.
  induction ops as [|op ops IH]; cbn; intros Hh.
  - split_and!; try lia. intros now H; inversion H.
  - apply orb_false_iff in Hh as [Hold Hnew]. destruct (IH Hold) as (?&?&?&?&Hd).
    destruct op; cbn in *; guards_in Hnew; split_and!; try lia;
      intros t [[=]|Hin]%elem_of_cons; subst; try lia; now apply Hd.
Qed.
End Budget.

Lemma start_bounds bytes steps secs now before c0 :
  is_u64 bytes -> CruiseControl.start bytes steps secs now before = (Ok tt, c0) ->
  0 < bytes <= u64_max /\ 1 <= steps <= 128 /\ 10 <= secs <= 1800.
Proof.
  unfold CruiseControl.start, is_u. intros Hb Hs.
  do 3 (branch_in Hs; [discriminate|]).
  repeat match goal with H : _ = false |- _ => guards_in H end.
  unfold HARD_AUTO_MAX_STEPS, MIN_AUTO_DURATION_SECS, HARD_AUTO_DURATION_SECS in *. lia.
Qed.

(** ** Properties *)

(** C36: after an accepted [start], and whatever operations follow, the cruise is active
    exactly when none of them stopped it: no operator stop or mode switch, no fifth consecutive
    radio or planner failure, no execution that used up the step or byte budget and no duration
    check at or past the time limit.  In particular nothing revives a stopped cruise, and a stopped
    one names its reason. *)
Theorem cruise_stops_exactly bytes steps secs now before c0 ops c :
  is_u64 bytes -> CruiseControl.start bytes steps secs now before = (Ok tt, c0) ->
  reach c0 ops c ->
  CruiseControl.is_active c = negb (halted bytes steps secs now ops)
  /\ (CruiseControl.is_active c = false -> c.(CruiseControl.stop_reason) <> None)
  /\ (CruiseControl.is_active c = true ->
      c.(CruiseControl.mode) = InteractionMode.AutomaticCruise
      /\ c.(CruiseControl.stop_reason) = None).
Proof.
  intros Hb Hs Hr. destruct (start_bounds _ _ _ _ _ _ Hb Hs) as (?&?&?).
  assert (Ht : Tracks bytes steps secs now ops c) by (eapply started_tracks; eauto).
  unfold CruiseControl.is_active. rewrite (tr_active _ _ _ _ _ _ Ht).
  pose proof (tr_reason _ _ _ _ _ _ Ht) as Hreason.
  pose proof (tr_mode _ _ _ _ _ _ Ht) as Hmode.
  destruct (halted _ _ _ _ ops); cbn in *; split_and!; try congruence; try tauto.
  intros _. split; [auto|]. destruct (CruiseControl.stop_reason c); [|reflexivity].
  destruct Hreason as [_ Hx]. discriminate Hx. discriminate.
Qed.

(** a cruise never exceeds its budgets: while it is active it has completed fewer
    than [max_steps] executions (so at most 127), its executions spent fewer than [max_iq_bytes]
    bytes, the counters show exactly these numbers, there were fewer than five consecutive failures
    of the radio and of the planner, and every duration check that was made came before the limit
    of at most 1800 seconds. *)
Theorem cruise_within_budgets bytes steps secs now before c0 ops c :
  is_u64 bytes -> CruiseControl.start bytes steps secs now before = (Ok tt, c0) ->
  reach c0 ops c -> CruiseControl.is_active c = true ->
  executions ops < steps <= 128
  /\ c.(CruiseControl.completed_steps) = executions ops
  /\ spent_bytes ops < bytes
  /\ CruiseControl.remaining_iq_bytes c = bytes - spent_bytes ops
  /\ sdr_failures ops < 5 /\ planner_failures ops < 5
  /\ (forall t, OCheckDuration t ∈ ops -> t - now < secs * 1000000000 <= 1800 * 1000000000).
Proof.
  intros Hb Hs Hr Ha. destruct (start_bounds _ _ _ _ _ _ Hb Hs) as (?&?&?).
  assert (Ht : Tracks bytes steps secs now ops c) by (eapply started_tracks; eauto).
  unfold CruiseControl.is_active in Ha. rewrite (tr_active _ _ _ _ _ _ Ht) in Ha.
  apply negb_true_iff in Ha. pose proof (spent_nonneg _ _ _ Hr).
  pose proof (executions_nonneg ops).
  destruct (not_halted bytes steps secs now ltac:(auto) ltac:(auto) ops Ha) as (?&?&?&?&Hd).
  unfold CruiseControl.remaining_iq_bytes, saturating_sub.
  rewrite (tr_steps _ _ _ _ _ _ Ht), (tr_bytes _ _ _ _ _ _ Ht), (tr_max_bytes _ _ _ _ _ _ Ht).
  unfold u64_max in *. split_and!; try lia. intros t Hin. apply Hd in Hin. lia.
Qed.

Module CruiseSamples.
Definition started : CruiseControl.t :=
  (CruiseControl.start 1000000 8 120 0 CruiseControl.default).2.
Definition ops : list Op :=
  [OSdrUnavailable; OCheckDuration 5000000000; OExecution 16384; OPlannerAction; OSdrAvailable].
Definition after : CruiseControl.t := fold_right step started ops.

Lemma reached : reach started ops after.
Proof.
  unfold after, ops; cbn [fold_right].
  repeat (apply reach_step; [|vm_compute; intuition congruence]). apply reach_start.
Qed.
End CruiseSamples.

Lemma cruise_stops_exactly_witness :
  CruiseControl.is_active CruiseSamples.after
  = negb (halted 1000000 8 120 0 CruiseSamples.ops) /\ halted 1000000 8 120 0 CruiseSamples.ops = false.
Proof.
  split; [|vm_compute; reflexivity].
  refine (proj1 (cruise_stops_exactly 1000000 8 120 0 CruiseControl.default CruiseSamples.started
                   CruiseSamples.ops CruiseSamples.after _ eq_refl CruiseSamples.reached)).
  vm_compute; intuition congruence.
Defined.

Lemma cruise_within_budgets_witness :
  CruiseControl.remaining_iq_bytes CruiseSamples.after = 983616.
Proof.
  destruct (cruise_within_budgets 1000000 8 120 0 CruiseControl.default CruiseSamples.started
              CruiseSamples.ops CruiseSamples.after ltac:(vm_compute; intuition congruence)
              eq_refl CruiseSamples.reached ltac:(vm_compute; reflexivity))
    as (_&_&_&H&_).
  etransitivity; [exact H|vm_compute; reflexivity].
Defined.
