(* ===== verification/Session.v ===== *)
(** * The terminal's text and its saved session

    [controller/src/bin/sdr-agent.rs]: the cruise command line, the history
    entries that survive a restart, the private state file they are kept in, and
    the summary that is carried into the first instruction of a resumed session. *)
From S2P Require Import Prelude Text Utf8 Protocol Policy Autonomy.

Definition HISTORY_LIMIT : nat := 32.
Definition TERMINAL_INPUT_QUEUE_LIMIT : nat := 4.
Definition TERMINAL_STATE_SCHEMA_VERSION : Z := 1.
Definition TERMINAL_STATE_MAX_BYTES : Z := 64 * 1024.
Definition TERMINAL_RESUME_MAX_ENTRIES : nat := HISTORY_LIMIT.
Definition TERMINAL_RESUME_ENTRY_MAX_BYTES : nat := Z.to_nat 2048.
Definition TERMINAL_RESUME_SUMMARY_MAX_BYTES : nat := Z.to_nat 6144.
Definition TERMINAL_RESUME_MAX_AGE_MS : Z := 7 * 24 * 60 * 60 * 1000.

(** The errors behind [Box<dyn Error>]; [Unparsable] is a text that [str::parse]
    refused. [Blocked] is none of them: it marks a
    wait that the other side has not ended yet. *)
Inductive AppError :=
| InvalidInput (message : string)
| Io (message : string)
| Serde (message : string)
| PolicyRejected (error : PolicyError.t)
| Failed (code message : string)
| Unparsable
| Panicked
| Blocked.

Definition invalid_input {A} (message : string) : result AppError A := Err (InvalidInput message).

(** ** The cruise command line *)
Module AutoStartCommand.
Record t := mk { mission : string; steps : Z; seconds : Z; iq_bytes : option Z }.
End AutoStartCommand.

(** [str::parse::<u64>]: an optional [+], then digits, within the range. *)
Fixpoint parse_digits (bs : list Z) (acc : Z) : option Z :=
  match bs with
  | [] => Some acc
  | b :: bs =>
      if in_range 48 57 b then
        let acc := acc * 10 + (b - 48) in
        if u64_max <? acc then None else parse_digits bs acc
      else None
  end.
Definition parse_u64 (s : string) : option Z :=
  match bytes s with
  | [] => None
  | b :: bs =>
      if (b =? 43) && negb (null bs) then parse_digits bs 0 else parse_digits (b :: bs) 0
  end.

Definition parse_bounded_auto_value (value label : string) (minimum maximum : Z)
    : result string Z :=
  parsed ←
    ok_or (label +:+ "必须是 " +:+ print_u minimum +:+ "–" +:+ print_u maximum +:+ " 的整数")
      (parse_u64 value) ;
  reject_if (negb (in_range minimum maximum parsed))
    (label +:+ "必须在 " +:+ print_u minimum +:+ "–" +:+ print_u maximum +:+ " 之间") ;;
  Ok parsed.

(** The loop over the tokens. *)
Fixpoint parse_tokens (tokens : list string) (steps seconds mib : option Z)
    (mission : list string) : result string (option Z * option Z * option Z * list string) :=
  match tokens with
  | [] => Ok (steps, seconds, mib, mission)
  | token :: tokens =>
      if String.eqb token "--steps" then
        if is_none steps then
          match tokens with
          | [] => Err "--steps 后缺少步数"%string
          | value :: tokens =>
              parsed ← parse_bounded_auto_value value "步数" 1 HARD_AUTO_MAX_STEPS ;
              parse_tokens tokens (Some (parsed mod 256)) seconds mib mission
          end
        else Err "--steps 只能填写一次"%string
      else if String.eqb token "--seconds" then
        if is_none seconds then
          match tokens with
          | [] => Err "--seconds 后缺少秒数"%string
          | value :: tokens =>
              parsed ← parse_bounded_auto_value value "总时长"
                         MIN_AUTO_DURATION_SECS HARD_AUTO_DURATION_SECS ;
              parse_tokens tokens steps (Some parsed) mib mission
          end
        else Err "--seconds 只能填写一次"%string
      else if String.eqb token "--mib" then
        if is_none mib then
          match tokens with
          | [] => Err "--mib 后缺少累计预算"%string
          | value :: tokens =>
              parsed ← parse_bounded_auto_value value "累计预算" 1 (u64_max / (1024 * 1024)) ;
              parse_tokens tokens steps seconds (Some parsed) mission
          end
        else Err "--mib 只能填写一次"%string
      else if starts_with "--" token then Err ("未知参数 " +:+ token)
      else parse_tokens tokens steps seconds mib (mission ++ [token])
  end.

Definition parse_auto_start (arguments : string) : result string AutoStartCommand.t :=
  '(steps, seconds, mib, mission) ← parse_tokens (split_whitespace arguments) None None None [] ;
  reject_if (null mission) "必须填写巡航任务"%string ;;
  Ok {| AutoStartCommand.mission := join " " mission;
        AutoStartCommand.steps := default DEFAULT_AUTO_MAX_STEPS steps;
        AutoStartCommand.seconds := default DEFAULT_AUTO_DURATION_SECS seconds;
        AutoStartCommand.iq_bytes :=
          option_map (fun value => (value * 1024 * 1024) mod 2 ^ 64) mib |}.

(** ** The input queue *)
Module TerminalEnqueueResult.
Inductive t := Queued | StopRequested | Full | StopInProgress | Disconnected.
End TerminalEnqueueResult.

(** The bounded channel between the thread that reads the terminal and the main
    loop, and the flag both share. *)
Module TerminalInput.
Record t := mk { queue : list string; connected : bool; priority_stop : bool }.
End TerminalInput.

Definition is_stop (line : string) : bool :=
  String.eqb (trim line) "/stop" || String.eqb (trim line) "/停止".

Definition enqueue_terminal_input (line : string) (s : TerminalInput.t)
    : TerminalEnqueueResult.t * TerminalInput.t :=
  if is_stop line then
    (TerminalEnqueueResult.StopRequested,
     TerminalInput.mk s.(TerminalInput.queue) s.(TerminalInput.connected) true)
  else if s.(TerminalInput.priority_stop) then (TerminalEnqueueResult.StopInProgress, s)
  else if negb s.(TerminalInput.connected) then (TerminalEnqueueResult.Disconnected, s)
  else if (TERMINAL_INPUT_QUEUE_LIMIT <=? length s.(TerminalInput.queue))%nat then
    (TerminalEnqueueResult.Full, s)
  else
    (TerminalEnqueueResult.Queued,
     TerminalInput.mk (s.(TerminalInput.queue) ++ [line]) true false).

(** ** History entries *)
Definition is_resumable_history_entry (entry : string) : bool :=
  starts_with "operator: " entry || starts_with "operator steer: " entry
  || starts_with "operator follow_up: " entry || starts_with "agent: " entry.

Definition validate_resumable_history_entry (entry : string) : result AppError unit :=
  reject_if (negb (is_resumable_history_entry entry)
             || (Z.of_nat TERMINAL_RESUME_ENTRY_MAX_BYTES <? len entry)
             || has_control entry)
    (InvalidInput "terminal session history entry is invalid").

Definition printable (cs : list Z) : list Z := map (fun c => if is_control c then 32 else c) cs.

Definition sanitize_resumable_history_entry (entry : string) : option string :=
  if negb (is_resumable_history_entry entry) then None
  else
    let normalized := single_line (of_chars (printable (chars entry))) in
    Some (head_utf8 normalized TERMINAL_RESUME_ENTRY_MAX_BYTES).

Definition bounded_resume_summary (history : list string) : string :=
  let joined := join (String (char_of 10) EmptyString) history in
  if len joined <=? Z.of_nat TERMINAL_RESUME_SUMMARY_MAX_BYTES then joined
  else tail_utf8 joined TERMINAL_RESUME_SUMMARY_MAX_BYTES.

Definition CARRY_PREFIX : string := "前序有限终端摘要（不含任何批准或执行授权）：".
Definition CARRY_CURRENT : string := "；当前指令：".

Definition carry_forward_instruction (summary instruction : string) : string :=
  let summary := single_line summary in
  let instruction := single_line instruction in
  let fixed := len CARRY_PREFIX + len CARRY_CURRENT + len instruction in
  if is_empty summary || (MAX_INSTRUCTION_BYTES <=? fixed) then instruction
  else
    let budget := MAX_INSTRUCTION_BYTES - fixed in
    let summary :=
      if budget <? len summary then tail_utf8 summary (Z.to_nat budget) else summary in
    CARRY_PREFIX +:+ summary +:+ CARRY_CURRENT +:+ instruction.

(** ** What the command line accepts *)
Lemma parse_bounded_Ok value label lo hi v :
  parse_bounded_auto_value value label lo hi = Ok v <-> parse_u64 value = Some v /\ lo <= v <= hi.
Proof.
  unfold parse_bounded_auto_value. rewrite bind_Ok. setoid_rewrite ok_or_Ok.
  setoid_rewrite reject_seq. setoid_rewrite negb_false_iff. setoid_rewrite in_range_spec.
  split; [intros (a&?&?&[= <-])|intros [? ?]]; eauto.
Qed.

Definition option_in (lo hi : Z) (o : option Z) : Prop :=
  match o with Some v => lo <= v <= hi | None => True end.

(** What the loop has read so far, and what it reads from acceptable tokens. *)
Record Parsed (P : string -> Prop) (steps seconds mib : option Z) (mission : list string) : Prop := {
  parsed_steps : option_in 1 HARD_AUTO_MAX_STEPS steps;
  parsed_seconds : option_in MIN_AUTO_DURATION_SECS HARD_AUTO_DURATION_SECS seconds;
  parsed_mib : option_in 1 (u64_max / (1024 * 1024)) mib;
  parsed_mission : Forall P mission;
}.

Lemma parse_tokens_bounds (P : string -> Prop) tokens : forall steps seconds mib mission s' t' m' w',
  Forall P tokens -> Parsed P steps seconds mib mission ->
  parse_tokens tokens steps seconds mib mission = Ok (s', t', m', w') ->
  Parsed P s' t' m' w'.
Proof.
  revert tokens. fix IH 1. intros [|token tokens] steps seconds mib mission s' t' m' w' Hp [Hs Ht Hm Hw] E;
    cbn [parse_tokens] in E.
  { injection E as <- <- <- <-. now constructor. }
  inversion Hp as [|? ? Htoken Htokens]; subst.
  destruct (String.eqb token "--steps"); [|destruct (String.eqb token "--seconds");
    [|destruct (String.eqb token "--mib"); [|destruct (starts_with "--" token); [discriminate|]]]].
  1-3: match type of E with (if ?c then _ else _) = _ => destruct c end; [|discriminate];
    destruct tokens as [|value tokens]; [discriminate|];
    inversion Htokens as [|? ? Hv Hrest]; subst;
    apply bind_Ok in E as (v&Hparse&E); apply parse_bounded_Ok in Hparse as [_ Hv'];
    apply (IH tokens) in E; [exact E|exact Hrest|]; constructor; try assumption; cbn.
  - unfold HARD_AUTO_MAX_STEPS in *. rewrite Z.mod_small by lia. lia.
  - apply (IH tokens) in E; [exact E|exact Htokens|].
    constructor; try assumption. apply Forall_app. split; [exact Hw|]. now repeat constructor.
Qed.

Lemma split_words_nonempty cs word : Forall (fun w => w <> []) (split_words cs word).
Proof.
  revert word. induction cs as [|c cs IH]; intros word; cbn.
  - destruct word as [|d word]; cbn [null]; constructor; [|constructor].
    cbn. intros H. now apply app_eq_nil in H as [_ ?].
  - destruct (is_whitespace c); [|apply IH]. destruct word as [|d word]; cbn [null]; [apply IH|].
    constructor; [|apply IH]. cbn. intros H. now apply app_eq_nil in H as [_ ?].
Qed.

Lemma split_whitespace_nonempty s : Forall (fun w => w <> EmptyString) (split_whitespace s).
Proof.
  unfold split_whitespace. apply Forall_map.
  eapply List.Forall_impl; [|apply split_words_nonempty].
  intros w Hw. unfold compose. now rewrite of_chars_empty.
Qed.

Lemma join_empty sep parts : Forall (fun w => w <> EmptyString) parts ->
  join sep parts = EmptyString -> parts = [].
Proof.
  intros H E. destruct H as [|w [|w' ws] Hw Hws]; [reflexivity|cbn in E; contradiction|].
  destruct w; [contradiction|discriminate].
Qed.

(** The words of a cruise command line that parses: a mission, and budgets
    within the hard limits. *)
Record AutoCommandOk (command : AutoStartCommand.t) : Prop := {
  auto_mission_nonempty : command.(AutoStartCommand.mission) <> EmptyString;
  auto_steps : 1 <= command.(AutoStartCommand.steps) <= HARD_AUTO_MAX_STEPS;
  auto_seconds :
    MIN_AUTO_DURATION_SECS <= command.(AutoStartCommand.seconds) <= HARD_AUTO_DURATION_SECS;
  auto_iq_bytes :
    option_in (1024 * 1024) u64_max command.(AutoStartCommand.iq_bytes);
}.

Lemma parse_auto_start_ok arguments command :
  parse_auto_start arguments = Ok command -> AutoCommandOk command.
Proof.
  unfold parse_auto_start. rewrite bind_Ok. intros ([[[steps seconds] mib] mission]&E&H).
  apply reject_seq in H as [Hne [= <-]]. apply null_false in Hne.
  assert (Hinit : Parsed (fun w => w <> EmptyString) None None None [])
    by (constructor; exact I || constructor).
  destruct (parse_tokens_bounds _ _ _ _ _ _ _ _ _ _
              (split_whitespace_nonempty arguments) Hinit E) as [Hs Ht Hm Hw].
  constructor; cbn.
  - intros Hj. now apply join_empty in Hj.
  - destruct steps as [v|]; cbn; [exact Hs|]. unfold DEFAULT_AUTO_MAX_STEPS, HARD_AUTO_MAX_STEPS. lia.
  - destruct seconds as [v|]; cbn; [exact Ht|].
    unfold DEFAULT_AUTO_DURATION_SECS, MIN_AUTO_DURATION_SECS, HARD_AUTO_DURATION_SECS. lia.
  - destruct mib as [v|]; [|exact I]. unfold option_in, option_map in *.
    change (u64_max / (1024 * 1024)) with 17592186044415 in Hm.
    change (2 ^ 64) with 18446744073709551616. unfold u64_max.
    rewrite Z.mod_small by lia. lia.
Qed.

(** ** Carrying the summary forward *)
Lemma carry_forward_split summary instruction :
  exists context,
    carry_forward_instruction summary instruction = context +:+ single_line instruction
    /\ (context = EmptyString
        \/ len (context +:+ single_line instruction) <= MAX_INSTRUCTION_BYTES).
Proof.
  unfold carry_forward_instruction.
  set (i := single_line instruction). set (s := single_line summary).
  destruct (is_empty s || (MAX_INSTRUCTION_BYTES <=? len CARRY_PREFIX + len CARRY_CURRENT + len i))
    eqn:E; [exists EmptyString; split; [reflexivity|now left]|].
  apply orb_false_iff in E as [_ E]. apply Z.leb_gt in E.
  set (budget := MAX_INSTRUCTION_BYTES - (len CARRY_PREFIX + len CARRY_CURRENT + len i)) in *.
  set (kept := if budget <? len s then tail_utf8 s (Z.to_nat budget) else s).
  assert (Hkept : len kept <= budget).
  { subst kept. destruct (Z.ltb_spec budget (len s)); [|lia].
    pose proof (tail_utf8_len s (Z.to_nat budget)). lia. }
  exists (CARRY_PREFIX +:+ kept +:+ CARRY_CURRENT). split; [|right].
  - apply bytes_inj. now rewrite !bytes_app, <- !app_assoc.
  - rewrite !len_app. lia.
Qed.

(** ** Saved entries *)
Definition RESUMABLE : list string :=
  ["operator: "; "operator steer: "; "operator follow_up: "; "agent: "]%string.

Lemma resumable_spec entry :
  is_resumable_history_entry entry = true <-> exists p rest, p ∈ RESUMABLE /\ entry = p +:+ rest.
Proof.
  unfold is_resumable_history_entry, RESUMABLE. rewrite !orb_true_iff, !starts_with_app. split.
  - intros [[[(t&->)|(t&->)]|(t&->)]|(t&->)]; eexists _, t; (split; [|reflexivity]); set_solver.
  - intros (p&t&Hp&->). set_unfold in Hp.
    destruct Hp as [->|[->|[->|[->|[]]]]]; eauto 10.
Qed.

Lemma resumable_ascii p :
  p ∈ RESUMABLE -> Forall (fun b => 0 <= b <= 127) (bytes p)
                   /\ Forall (fun b => is_control b = false) (bytes p) /\ (length (bytes p) <= 20)%nat.
Proof.
  unfold RESUMABLE. intros Hp. set_unfold in Hp. destruct Hp as [->|[->|[->|[->|[]]]]];
    (split; [|split]); vm_compute; repeat (constructor || discriminate).
Qed.

Lemma printable_keep cs : Forall (fun b => is_control b = false) cs -> printable cs = cs.
Proof.
  intros H. unfold printable. induction H as [|c cs Hc Hcs IH]; [reflexivity|].
  cbn. now rewrite Hc, IH.
Qed.

Lemma printable_clean cs : Forall (fun b => is_control b = false) (printable cs).
Proof.
  unfold printable. apply Forall_map. apply Forall_true. intros c. unfold compose.
  now destruct (is_control c) eqn:E.
Qed.

(** An entry has something to show after its prefix. *)
Definition visible (c : Z) : bool := negb (is_whitespace c) && negb (is_control c).

Lemma printable_blank cs :
  forallb is_whitespace (printable cs) = negb (existsb visible cs).
Proof.
  unfold printable. induction cs as [|c cs IH]; [reflexivity|]. cbn. rewrite IH. unfold visible.
  destruct (is_control c), (is_whitespace c); cbn; try reflexivity; now destruct (existsb _ cs).
Qed.

(** Squeezing an entry keeps its prefix, up to the space it ends in. *)
Lemma line_resumable p R :
  p ∈ RESUMABLE ->
  line (bytes p ++ R) =
    if forallb is_whitespace R then removelast (bytes p) else bytes p ++ line R.
Proof.
  unfold RESUMABLE. intros Hp. set_unfold in Hp. destruct Hp as [->|[->|[->|[->|[]]]]].
  - exact (line_word (bytes "operator:") R eq_refl ltac:(discriminate)).
  - change (bytes "operator steer: " ++ R)
      with (bytes "operator" ++ 32 :: (bytes "steer:" ++ 32 :: R)).
    rewrite line_word, (line_word (bytes "steer:")) by (reflexivity || discriminate).
    now destruct (forallb is_whitespace R).
  - change (bytes "operator follow_up: " ++ R)
      with (bytes "operator" ++ 32 :: (bytes "follow_up:" ++ 32 :: R)).
    rewrite line_word, (line_word (bytes "follow_up:")) by (reflexivity || discriminate).
    now destruct (forallb is_whitespace R).
  - exact (line_word (bytes "agent:") R eq_refl ltac:(discriminate)).
Qed.

Lemma is_control_space : is_control 32 = false.
Proof. reflexivity. Qed.

Lemma printable_chars cs : Forall is_char cs -> Forall is_char (printable cs).
Proof.
  intros H. unfold printable. apply Forall_map. eapply List.Forall_impl; [|exact H].
  intros c Hc. unfold compose. destruct (is_control c); [unfold is_char; lia|exact Hc].
Qed.

(** The text that sanitizing an entry cuts. *)
Lemma sanitize_run p rest :
  p ∈ RESUMABLE -> utf8 rest ->
  sanitize_resumable_history_entry (p +:+ rest) =
    Some (head_utf8 (of_chars (line (bytes p ++ printable (chars rest))))
            TERMINAL_RESUME_ENTRY_MAX_BYTES).
Proof.
  intros Hp Hrest. destruct (resumable_ascii p Hp) as (Ha&Hc&_).
  destruct (utf8_chars rest Hrest) as [Er Hr].
  assert (Hchars : chars (p +:+ rest) = bytes p ++ chars rest).
  { rewrite chars_app; [f_equal|exists (bytes p)|exact Hrest].
    - unfold chars. rewrite <- (ascii_chars (bytes p)) at 1 by exact Ha. apply decode_encode.
      eapply List.Forall_impl; [|exact Ha]. unfold is_char. intros; lia.
    - split; [eapply List.Forall_impl; [|exact Ha]; unfold is_char; intros; lia|].
      apply bytes_inj. rewrite bytes_of_chars, ascii_chars; [reflexivity|exact Ha|].
      eapply List.Forall_impl; [|exact Ha]. unfold is_char. intros; lia. }
  unfold sanitize_resumable_history_entry.
  replace (is_resumable_history_entry (p +:+ rest)) with true
    by (symmetry; apply resumable_spec; eauto).
  cbn [negb]. rewrite Hchars. unfold printable at 1. rewrite map_app.
  fold (printable (bytes p)) (printable (chars rest)). rewrite (printable_keep (bytes p)) by exact Hc.
  rewrite single_line_of_chars; [reflexivity|].
  apply Forall_app. split; [|now apply printable_chars].
  eapply List.Forall_impl; [|exact Ha]. unfold is_char. intros; lia.
Qed.

Lemma of_chars_ascii bs : Forall (fun b => 0 <= b <= 127) bs -> of_chars bs = of_bytes bs.
Proof. intros H. unfold of_chars. now rewrite ascii_chars. Qed.

Lemma ascii_is_char bs : Forall (fun b => 0 <= b <= 127) bs -> Forall is_char bs.
Proof. intros H. eapply List.Forall_impl; [|exact H]. unfold is_char. intros; lia. Qed.

(** Cutting a text that starts with a short ASCII prefix keeps the prefix. *)
Lemma head_keeps_prefix bs cs m :
  Forall (fun b => 0 <= b <= 127) bs -> Forall is_char cs -> (length bs <= m)%nat ->
  exists k, head_utf8 (of_chars (bs ++ cs)) m = of_chars (bs ++ take k cs)
            /\ (length (encode_utf8 (bs ++ take k cs)) <= m)%nat.
Proof.
  intros Hbs Hcs Hm.
  destruct (head_utf8_prefix (bs ++ cs) m) as (k&E&Hk&Hmax).
  { apply Forall_app. split; [now apply ascii_is_char|exact Hcs]. }
  assert (Hlen : (length bs <= k)%nat).
  { specialize (Hmax (length bs)). rewrite take_app_length, ascii_chars in Hmax by exact Hbs.
    specialize (Hmax Hm). destruct (decide (k < length bs)%nat) as [Hlt|]; [|lia].
    rewrite take_app_le, ascii_chars, length_take in Hmax by (lia || now apply Forall_take). lia. }
  rewrite take_app_ge in E, Hk by exact Hlen. now exists (k - length bs)%nat.
Qed.

Lemma validate_entry_Ok e :
  validate_resumable_history_entry e = Ok tt <->
  is_resumable_history_entry e = true /\ len e <= Z.of_nat TERMINAL_RESUME_ENTRY_MAX_BYTES
  /\ has_control e = false.
Proof. unfold validate_resumable_history_entry. guards. tauto. Qed.

Lemma has_control_false cs :
  Forall is_char cs -> Forall (fun c => is_control c = false) cs -> has_control (of_chars cs) = false.
Proof.
  intros Hcs Hc. unfold has_control. rewrite chars_of_chars by exact Hcs.
  induction Hc as [|c l H Hl IH]; [reflexivity|]. cbn. rewrite H. apply IH. now inversion Hcs.
Qed.

Lemma is_char_space : is_char 32.
Proof. unfold is_char. lia. Qed.

Lemma sanitized_valid p rest :
  p ∈ RESUMABLE -> utf8 rest -> existsb visible (chars rest) = true ->
  exists e, sanitize_resumable_history_entry (p +:+ rest) = Some e
            /\ utf8 e /\ validate_resumable_history_entry e = Ok tt.
Proof.
  intros Hp Hrest Hv. rewrite sanitize_run by assumption.
  rewrite line_resumable, printable_blank, Hv by exact Hp. cbn [negb].
  destruct (resumable_ascii p Hp) as (Ha&Hc&Hl). destruct (utf8_chars rest Hrest) as [_ Hr].
  set (cs := line (printable (chars rest))).
  assert (Hcs : Forall is_char cs)
    by (apply line_Forall; [exact is_char_space|now apply printable_chars]).
  assert (Hclean : Forall (fun c => is_control c = false) cs)
    by (apply line_Forall; [reflexivity|apply printable_clean]).
  destruct (head_keeps_prefix (bytes p) cs TERMINAL_RESUME_ENTRY_MAX_BYTES Ha Hcs) as (k&E&Hk).
  { unfold TERMINAL_RESUME_ENTRY_MAX_BYTES. lia. }
  assert (Hall : Forall is_char (bytes p ++ take k cs))
    by (apply Forall_app; split; [now apply ascii_is_char|now apply Forall_take]).
  eexists. split; [rewrite E; reflexivity|]. split; [now apply utf8_of_chars|].
  apply validate_entry_Ok. split; [|split].
  - apply resumable_spec. exists p, (of_chars (take k cs)). split; [exact Hp|].
    rewrite of_chars_app, of_chars_ascii, of_bytes_bytes by exact Ha. reflexivity.
  - unfold len, length_z. rewrite bytes_of_chars by exact Hall. lia.
  - apply has_control_false; [exact Hall|]. apply Forall_app. split; [exact Hc|now apply Forall_take].
Qed.

Lemma sanitized_blank p rest :
  p ∈ RESUMABLE -> utf8 rest -> existsb visible (chars rest) = false ->
  exists e, sanitize_resumable_history_entry (p +:+ rest) = Some e
            /\ validate_resumable_history_entry e <> Ok tt.
Proof.
  intros Hp Hrest Hv. rewrite sanitize_run by assumption.
  rewrite line_resumable, printable_blank, Hv by exact Hp. cbn [negb].
  eexists. split; [reflexivity|].
  unfold RESUMABLE in Hp. set_unfold in Hp. destruct Hp as [->|[->|[->|[->|[]]]]];
    vm_compute; discriminate.
Qed.

(** What is saved of an operator's or agent's line is accepted when the
    session is loaded again exactly when the line shows something, that is, has
    a character that is neither white space nor a control character; other
    history entries are not saved. *)
Theorem saved_entries_are_accepted (p rest : string)
    (Hp : p ∈ RESUMABLE) (Hrest : utf8 rest) :
  exists e, sanitize_resumable_history_entry (p +:+ rest) = Some e
  /\ (validate_resumable_history_entry e = Ok tt <-> existsb visible (chars rest) = true)
  /\ forall entry, sanitize_resumable_history_entry entry = None <->
       ~ exists q t, q ∈ RESUMABLE /\ entry = q +:+ t.
Proof.
  assert (Hnone : forall entry, sanitize_resumable_history_entry entry = None <->
       ~ exists q t, q ∈ RESUMABLE /\ entry = q +:+ t).
  { intros entry. rewrite <- resumable_spec. unfold sanitize_resumable_history_entry.
    destruct (is_resumable_history_entry entry); cbn; split; congruence. }
  destruct (existsb visible (chars rest)) eqn:Hv.
  - destruct (sanitized_valid p rest Hp Hrest Hv) as (e&E&_&Hok). exists e. tauto.
  - destruct (sanitized_blank p rest Hp Hrest Hv) as (e&E&Hno). exists e.
    split; [exact E|]. split; [|exact Hnone]. split; [contradiction|discriminate].
Qed.

(** The operator typed an escape character. *)
Lemma saved_entries_are_accepted_witness :
  exists e, sanitize_resumable_history_entry ("operator: " +:+ of_bytes [27]) = Some e
  /\ (validate_resumable_history_entry e = Ok tt
      <-> existsb visible (chars (of_bytes [27])) = true)
  /\ forall entry, sanitize_resumable_history_entry entry = None <->
       ~ exists q t, q ∈ RESUMABLE /\ entry = q +:+ t.
Proof.
  apply (saved_entries_are_accepted "operator: " (of_bytes [27])).
  - unfold RESUMABLE. set_solver.
  - exists [27]. split; [constructor; [unfold is_char; lia|constructor]|reflexivity].
Defined.
