(* ===== verification/Numbers.v ===== *)
(** * Numbers on a command line

    [str::parse] at the number types the programs read from their arguments:
    integers of every width and [f32]. *)
From S2P Require Import Prelude Text F32 Protocol Session.

(** ** Integers *)

(** The widest magnitude any of the types has is [u64]'s. *)
Definition parse_magnitude (bs : list Z) : option Z :=
  if null bs then None else parse_digits bs 0.

(** A sign where the type has one; a [+] is always read. *)
Definition parse_integer (minimum maximum : Z) (s : string) : option Z :=
  n ← match bytes s with
      | 43 :: bs => parse_magnitude bs
      | 45 :: bs => if minimum <? 0 then n ← parse_magnitude bs ; Some (- n) else None
      | bs => parse_magnitude bs
      end ;
  if in_range minimum maximum n then Some n else None.

Definition i64_min : Z := -9223372036854775808.
Definition i64_max : Z := 9223372036854775807.
Definition parse_i16 : string -> option Z := parse_integer (-32768) 32767.
Definition parse_i64 : string -> option Z := parse_integer i64_min i64_max.
Definition parse_u32 : string -> option Z := parse_integer 0 u32_max.
(** [usize] is 64 bits wide on the targets. *)
Definition parse_usize : string -> option Z := parse_integer 0 u64_max.

Lemma parse_integer_range minimum maximum s n :
  parse_integer minimum maximum s = Some n -> minimum <= n <= maximum.
Proof.
  unfold parse_integer. intros (m & _ & H)%bind_Some.
  destruct (in_range minimum maximum m) eqn:Hr; [|discriminate]. injection H as <-.
  unfold in_range in Hr. lia.
Qed.

Lemma parse_digits_u64 bs acc n : is_u64 acc -> parse_digits bs acc = Some n -> is_u64 n.
Proof.
  revert acc. induction bs as [|b bs IH]; intros acc Hacc; cbn [parse_digits]; [now intros [= <-]|].
  destruct (in_range 48 57 b) eqn:Hb; [|discriminate].
  destruct (Z.ltb_spec u64_max (acc * 10 + (b - 48))); [discriminate|].
  apply IH. unfold in_range in Hb. unfold is_u64 in *. lia.
Qed.

Lemma parse_u64_range s n : parse_u64 s = Some n -> is_u64 n.
Proof.
  unfold parse_u64. destruct (bytes s) as [|b bs]; [discriminate|].
  assert (H0 : is_u64 0) by (unfold is_u64, u64_max; lia).
  destruct (_ && _); now apply parse_digits_u64.
Qed.

(** ** [f32] *)

(** The digits in front, and what follows them. *)
Fixpoint span_digits (bs : list Z) : list Z * list Z :=
  match bs with
  | b :: rest =>
      if in_range 48 57 b then let (digits, rest) := span_digits rest in (b :: digits, rest)
      else ([], bs)
  | [] => ([], [])
  end.
Definition number_of (digits : list Z) : Z := fold_left (fun n b => n * 10 + (b - 48)) digits 0.

(** [e] or [E], a sign, at least one digit. *)
Definition read_exponent (bs : list Z) : option Z :=
  match bs with
  | [] => Some 0
  | b :: bs =>
      if (b =? 101) || (b =? 69) then
        let '(negative, bs) :=
          match bs with 45 :: bs => (true, bs) | 43 :: bs => (false, bs) | _ => (false, bs) end in
        match span_digits bs with
        | ([], _) => None
        | (digits, []) => Some (if negative : bool then - number_of digits else number_of digits)
        | _ => None
        end
      else None
  end.

(** Digits with a dot in between or at either end, then an exponent: the
    mantissa and the power of ten it is scaled by. *)
Definition read_decimal (bs : list Z) : option (Z * Z) :=
  let (whole, bs) := span_digits bs in
  let (fraction, bs) :=
    match bs with 46 :: bs => span_digits bs | _ => ([], bs) end in
  if null whole && null fraction then None
  else
    exponent ← read_exponent bs ;
    Some (number_of (whole ++ fraction), exponent - Z.of_nat (length fraction)).

(** The nearest [f32] to [± mantissa * 10 ^ exponent]. *)
Definition f32_of_decimal (negative : bool) (mantissa exponent : Z) : float :=
  match mantissa with
  | Z.pos m =>
      if 0 <=? exponent then
        match 10 ^ exponent with
        | Z.pos scale => binary_round 24 128 negative (m * scale) 0
        | _ => S754_nan
        end
      else
        match 10 ^ (- exponent) with
        | Z.pos scale => f32_div (S754_finite negative m 0) (S754_finite false scale 0)
        | _ => S754_nan
        end
  | _ => S754_zero negative
  end.

Definition lower (b : Z) : Z := if in_range 65 90 b then b + 32 else b.
Definition parse_f32 (s : string) : option float :=
  let '(negative, bs) :=
    match bytes s with 45 :: bs => (true, bs) | 43 :: bs => (false, bs) | bs => (false, bs) end in
  match read_decimal bs with
  | Some (mantissa, exponent) => Some (f32_of_decimal negative mantissa exponent)
  | None =>
      let word := map lower bs in
      if bool_decide (word = bytes "nan") then Some S754_nan
      else if bool_decide (word = bytes "inf") || bool_decide (word = bytes "infinity")
      then Some (S754_infinity negative)
      else None
  end.

Example parse_f32_examples :
  map parse_f32 ["12"; "0.5"; ".25"; "3."; "1e2"; "25e-1"; "+Inf"; "."; "e5"; "1e"; ""; "-"; "1 "; "0x1"]%string
  = [Some (f32_of_Z 12); Some (f32_lit 1 1); Some (f32_lit 1 2); Some (f32_of_Z 3); Some (f32_of_Z 100);
     Some (f32_lit 5 1); Some (S754_infinity false); None; None; None; None; None; None; None].
Proof. vm_compute. reflexivity. Qed.

(** A third rounds to the nearest of 24 bits; what is too large is infinite. *)
Example parse_f32_rounds :
  parse_f32 "0.1" = Some (f32_div (f32_of_Z 1) (f32_of_Z 10))
  /\ parse_f32 "16777217" = Some (f32_of_Z 16777216)
  /\ parse_f32 "1e39" = Some (S754_infinity false)
  /\ parse_f32 "1e-60" = Some (S754_zero false).
Proof. vm_compute. auto. Qed.

Example parse_integers :
  map parse_i16 ["-5"; "+5"; "32768"; "-32768"; "-"; "+"; ""; "+-5"]%string
  = [Some (-5); Some 5; None; Some (-32768); None; None; None; None]
  /\ parse_u32 "-0" = None /\ parse_i64 "-0" = Some 0.
Proof. vm_compute. auto. Qed.
