(* ===== verification/TerminalState.v ===== *)
(** * The terminal's state file

    [controller/src/bin/sdr-agent.rs], lines 2619 to 2759: saving the history
    to an owner-only file that is replaced atomically, and loading it again.  The
    file system is a map from paths to nodes; which calls fail, and the clock, are
    functions of the calls made so far. *)
From S2P Require Import Prelude Hoare Text Utf8 Protocol Session.

(** An absolute or relative path by its components, as [Path::components] gives them. *)
Module Path.
Record t := mk { absolute : bool; parts : list string }.
#[global] Instance t_eq_dec : EqDecision t.
Proof. solve_decision. Defined.
#[global] Instance t_countable : Countable t.
Proof.
  apply (inj_countable' (fun p => (absolute p, parts p)) (fun q => mk q.1 q.2)). now intros [].
Defined.

Definition parent (p : t) : option t :=
  match p.(parts) with [] => None | _ => Some (mk p.(absolute) (removelast p.(parts))) end.
Definition file_name (p : t) : option string :=
  match List.rev p.(parts) with
  | [] => None
  | name :: _ => if String.eqb name ".." then None else Some name
  end.
Definition join (p : t) (name : string) : t := mk p.(absolute) (p.(parts) ++ [name]).
End Path.

(** ** The file system *)
Inductive Node :=
| Directory (uid mode : Z)
| File (uid mode : Z) (content : list Z)
| Symlink (target : Path.t).

Inductive FsOp :=
| Exists (path : Path.t)
| SymlinkMetadata (path : Path.t)
| CreateDirAll (path : Path.t)
| SetPermissions (path : Path.t) (mode : Z)
| CreateNew (path : Path.t) (mode : Z)
| WriteAll (path : Path.t) (content : list Z)
| SyncAll (path : Path.t)
| Rename (from to : Path.t)
| RemoveFile (path : Path.t)
| Open (path : Path.t)
| Canonicalize (path : Path.t)
| Metadata (path : Path.t)
| ReadToEnd (path : Path.t) (limit : nat)
| Clock.

(** The operating system: which calls fail, how much of a failing write got
    through, the time in milliseconds, and the process. *)
Record System := {
  fault : list FsOp -> option string;
  accepted : list FsOp -> nat;
  unix_time : list FsOp -> result AppError Z;
  geteuid : Z;
  umask : Z;
  process_id : Z;
}.

Module Fs.
Record t := mk { nodes : gmap Path.t Node; ops : list FsOp }.
End Fs.

Module PersistedTerminalSession.
Record t := mk { schema_version : Z; saved_at_ms : Z; history : list string }.
End PersistedTerminalSession.

Module LoadedTerminalSession.
Record t := mk { history : list string; summary : string }.
End LoadedTerminalSession.

(** The last [n] elements: [drain(..len - n)] when there are more. *)
Definition keep_last {A} (n : nat) (l : list A) : list A :=
  if (n <? length l)%nat then drop (length l - n) l else l.

Section State.
Context (os : System).
(** serde_json on [PersistedTerminalSession]. *)
Context (to_vec_pretty : PersistedTerminalSession.t -> result string (list Z)).
Context (from_slice : list Z -> result string PersistedTerminalSession.t).

Abbreviation IO := (M Fs.t AppError).

(** A call: recorded, and failing when the system says so. *)
Definition call (op : FsOp) : IO unit := fun s =>
  let s' := Fs.mk s.(Fs.nodes) (op :: s.(Fs.ops)) in
  match os.(fault) s'.(Fs.ops) with
  | Some error => (Err (Io error), s')
  | None => (Ok tt, s')
  end.

Definition node_at (path : Path.t) : IO (option Node) := gets (fun s => s.(Fs.nodes) !! path).
Definition put (path : Path.t) (node : Node) : IO unit :=
  modify (fun s => Fs.mk (<[path := node]> s.(Fs.nodes)) s.(Fs.ops)).
Definition fail {A} (error : AppError) : IO A := lift (Err error).
Definition unix_time_ms : IO Z := fun s =>
  let s' := Fs.mk s.(Fs.nodes) (Clock :: s.(Fs.ops)) in (os.(unix_time) s'.(Fs.ops), s').

(** [Path::exists]: follows links, at most as many as Linux does. *)
Fixpoint resolves (fuel : nat) (nodes : gmap Path.t Node) (path : Path.t) : bool :=
  match nodes !! path with
  | None => false
  | Some (Symlink target) =>
      match fuel with O => false | S fuel => resolves fuel nodes target end
  | Some _ => true
  end.
Definition exists_ (path : Path.t) : IO bool :=
  r ← attempt (call (Exists path)) ;
  if is_Ok r then gets (fun s => resolves 40 s.(Fs.nodes) path) else mret false.

Definition symlink_metadata (path : Path.t) : IO (option Node) :=
  call (SymlinkMetadata path) ;; node_at path.

(** [fs::create_dir_all]: every missing directory on the way. *)
Fixpoint make_directories (made todo : list string) (absolute : bool)
    (nodes : gmap Path.t Node) : option (gmap Path.t Node) :=
  let here := Path.mk absolute made in
  match nodes !! here with
  | Some (File _ _ _) => None
  | found =>
      let nodes :=
        if is_none found then
          <[here := Directory os.(geteuid) (Z.ldiff 511 os.(umask))]> nodes
        else nodes in
      match todo with
      | [] => Some nodes
      | name :: todo => make_directories (made ++ [name]) todo absolute nodes
      end
  end.
Definition create_dir_all (path : Path.t) : IO unit :=
  call (CreateDirAll path) ;;
  made ← gets (fun s => make_directories [] path.(Path.parts) path.(Path.absolute) s.(Fs.nodes)) ;
  match made with
  | Some nodes => modify (fun s => Fs.mk nodes s.(Fs.ops))
  | None => fail (Io "not a directory")
  end.

Definition set_permissions (path : Path.t) (mode : Z) : IO unit :=
  call (SetPermissions path mode) ;;
  node ← node_at path ;
  match node with
  | Some (Directory uid _) => put path (Directory uid mode)
  | Some (File uid _ content) => put path (File uid mode content)
  | Some (Symlink _) | None => fail (Io "no such file")
  end.

Definition create_new (path : Path.t) (mode : Z) : IO unit :=
  call (CreateNew path mode) ;;
  node ← node_at path ;
  if is_none node then put path (File os.(geteuid) (Z.ldiff mode os.(umask)) [])
  else fail (Io "file exists").

(** A write that fails may have got some bytes through. *)
Definition write_all (path : Path.t) (content : list Z) : IO unit := fun s =>
  let (r, s') := call (WriteAll path content) s in
  let written := if is_Ok r then content else take (os.(accepted) s'.(Fs.ops)) content in
  match s'.(Fs.nodes) !! path with
  | Some (File uid mode old) =>
      (r, Fs.mk (<[path := File uid mode (old ++ written)]> s'.(Fs.nodes)) s'.(Fs.ops))
  | _ => (r, s')
  end.

Definition rename (from to : Path.t) : IO unit :=
  call (Rename from to) ;;
  node ← node_at from ;
  match node with
  | Some node => modify (fun s => Fs.mk (<[to := node]> (delete from s.(Fs.nodes))) s.(Fs.ops))
  | None => fail (Io "no such file")
  end.

Definition remove_file (path : Path.t) : IO unit :=
  call (RemoveFile path) ;;
  modify (fun s => Fs.mk (delete path s.(Fs.nodes)) s.(Fs.ops)).

(** Reading at most [limit] bytes of an opened file. *)
Definition read_up_to (path : Path.t) (limit : nat) : IO (list Z) :=
  call (ReadToEnd path limit) ;;
  node ← node_at path ;
  match node with
  | Some (File _ _ content) => mret (take limit content)
  | _ => fail (Io "not a file")
  end.

(** ** The code *)
Definition PARENT_MESSAGE : string := "terminal session state path has no parent".
Definition parent_of (path : Path.t) : IO Path.t :=
  lift (ok_or (InvalidInput PARENT_MESSAGE) (Path.parent path)).

Definition ensure_private_state_parent (parent : Path.t) : IO unit :=
  there ← exists_ parent ;
  (if negb there then create_dir_all parent ;; set_permissions parent 448 else mret tt) ;;
  metadata ← symlink_metadata parent ;
  match metadata with
  | None => fail (Io "no such file")
  | Some (Directory uid mode) =>
      lift (reject_if (negb (uid =? os.(geteuid)) || negb (Z.land mode 63 =? 0))
              (InvalidInput "terminal session state parent must be owner-only"))
  | Some _ =>
      fail (InvalidInput "terminal session state parent must be a real directory")
  end.

Definition validate_private_state_file (metadata : Node) : result AppError unit :=
  match metadata with
  | File uid mode _ =>
      reject_if (negb (uid =? os.(geteuid)) || negb (Z.land mode 511 =? 384))
        (InvalidInput "terminal session state must be owner mode 0600")
  | _ => invalid_input "terminal session state is not a regular file"
  end.

Definition read_bounded_limit (path : Path.t) (maximum : Z) : IO (list Z) :=
  bytes ← read_up_to path (Z.to_nat (maximum + 1)) ;
  lift (reject_if (maximum <? length_z bytes) (InvalidInput "input exceeds the limit")) ;;
  mret bytes.

Fixpoint validate_entries (entries : list string) : result AppError unit :=
  match entries with
  | [] => Ok tt
  | entry :: entries => validate_resumable_history_entry entry ;; validate_entries entries
  end.

Definition ABSOLUTE_MESSAGE : string := "terminal session state path must be absolute".
Definition SIZE_MESSAGE : string := "terminal session state exceeds 64 KiB".

(** The checks on a decoded file: [None] for one that is too old. *)
Definition accept_session (persisted : PersistedTerminalSession.t) (now : Z)
    : result AppError (option LoadedTerminalSession.t) :=
  let saved_at := persisted.(PersistedTerminalSession.saved_at_ms) in
  let history := persisted.(PersistedTerminalSession.history) in
  reject_if (saturating_add now (5 * 60 * 1000) <? saved_at)
    (InvalidInput "terminal session state timestamp is in the future") ;;
  if TERMINAL_RESUME_MAX_AGE_MS <? saturating_sub now saved_at then Ok None
  else
    reject_if (TERMINAL_RESUME_MAX_ENTRIES <? length history)%nat
      (InvalidInput "terminal session state has too many history entries") ;;
    validate_entries history ;;
    Ok (Some {| LoadedTerminalSession.history := history;
                LoadedTerminalSession.summary := bounded_resume_summary history |}).

Definition load_terminal_session (path : Path.t) : IO (option LoadedTerminalSession.t) :=
  lift (reject_if (negb path.(Path.absolute)) (InvalidInput ABSOLUTE_MESSAGE)) ;;
  metadata ← symlink_metadata path ;
  match metadata with
  | None => mret None
  | Some metadata =>
      parent ← parent_of path ;
      ensure_private_state_parent parent ;;
      lift (validate_private_state_file metadata) ;;
      lift (reject_if (match metadata with
                       | File _ _ content => TERMINAL_STATE_MAX_BYTES <? length_z content
                       | _ => false
                       end) (InvalidInput SIZE_MESSAGE)) ;;
      call (Open path) ;;
      bytes ← read_bounded_limit path TERMINAL_STATE_MAX_BYTES ;
      persisted ← lift (map_err Serde (from_slice bytes)) ;
      lift (reject_if (negb (persisted.(PersistedTerminalSession.schema_version)
                             =? TERMINAL_STATE_SCHEMA_VERSION))
              (InvalidInput "unsupported terminal session state schema")) ;;
      now ← unix_time_ms ;
      lift (accept_session persisted now)
  end.

Definition resumable_entries (history : list string) : list string :=
  keep_last TERMINAL_RESUME_MAX_ENTRIES (omap sanitize_resumable_history_entry history).

(** The closure that writes beside the file and renames. *)
Definition replace_file (parent path temporary : Path.t) (content : list Z) : IO unit :=
  create_new temporary 384 ;;
  write_all temporary content ;;
  call (SyncAll temporary) ;;
  rename temporary path ;;
  set_permissions path 384 ;;
  call (Open parent) ;;
  call (SyncAll parent).

Definition temporary_name (file_name : string) (now : Z) : string :=
  "." +:+ file_name +:+ ".tmp-" +:+ print_u os.(process_id) +:+ "-" +:+ print_u now.

(** The second half of [persist_terminal_session]: encoding and writing. *)
Definition save_entries (path parent : Path.t) (resumable : list string) : IO unit :=
  lift (validate_entries resumable) ;;
  saved_at ← unix_time_ms ;
  content ← lift (map_err Serde
    (to_vec_pretty {| PersistedTerminalSession.schema_version := TERMINAL_STATE_SCHEMA_VERSION;
                      PersistedTerminalSession.saved_at_ms := saved_at;
                      PersistedTerminalSession.history := resumable |})) ;
  lift (reject_if (TERMINAL_STATE_MAX_BYTES <? length_z content) (InvalidInput SIZE_MESSAGE)) ;;
  file_name ← lift (ok_or (InvalidInput "terminal session state filename is invalid")
                      (Path.file_name path)) ;
  now ← unix_time_ms ;
  let temporary := Path.join parent (temporary_name file_name now) in
  r ← attempt (replace_file parent path temporary content) ;
  (if is_Ok r then mret tt else _ ← attempt (F := AppError) (remove_file temporary) ; mret tt) ;;
  lift r.

Definition persist_terminal_session (path : Path.t) (history : list string) : IO unit :=
  lift (reject_if (negb path.(Path.absolute)) (InvalidInput ABSOLUTE_MESSAGE)) ;;
  parent ← parent_of path ;
  ensure_private_state_parent parent ;;
  metadata ← attempt (symlink_metadata path) ;
  lift (match metadata with
        | Ok (Some metadata) => validate_private_state_file metadata
        | _ => Ok tt
        end) ;;
  save_entries path parent (resumable_entries history).
End State.

(** ** Saving is atomic *)

(** Two trees that agree on every path longer than [n]. *)
Definition same_below (n : nat) (s s' : Fs.t) : Prop :=
  forall q, (n < length q.(Path.parts))%nat -> s'.(Fs.nodes) !! q = s.(Fs.nodes) !! q.

#[global] Instance same_below_preorder n : PreOrder (same_below n).
Proof.
  split; [now intros s q _|]. intros s1 s2 s3 H12 H23 q Hq. now rewrite H23, H12.
Qed.

Section Atomic.
Context (os : System).
Context (to_vec_pretty : PersistedTerminalSession.t -> result string (list Z)).

(** A call leaves the tree alone. *)
Lemma wp_call op (Q : unit -> Fs.t -> Prop) (R : AppError -> Fs.t -> Prop) s :
  (forall ops, Q tt (Fs.mk s.(Fs.nodes) ops)) ->
  (forall e ops, R e (Fs.mk s.(Fs.nodes) ops)) -> wp (call os op) Q R s.
Proof. intros HQ HR. unfold wp, call. now destruct (fault os _). Qed.

Section Below.
Context (n : nat).
Abbreviation below := (respects (E := AppError) (same_below n)).

Lemma below_call op : below (call os op).
Proof. intros s q _. unfold call. now destruct (fault os _). Qed.

Lemma below_put path node : (length path.(Path.parts) <= n)%nat -> below (put path node).
Proof.
  intros Hl. apply respects_modify. intros s q Hq. cbn. apply lookup_insert_ne. intros ->. lia.
Qed.

Lemma below_fail A e : below (fail (A := A) e).
Proof. apply respects_lift, _. Qed.

Lemma below_node_at path : below (node_at path).
Proof. apply respects_gets, _. Qed.
#[local] Hint Resolve below_call below_fail below_node_at : respects.

Lemma make_directories_below absolute todo : forall made nodes nodes',
  make_directories os made todo absolute nodes = Some nodes' ->
  forall q, (length made + length todo < length q.(Path.parts))%nat -> nodes' !! q = nodes !! q.
Proof.
  induction todo as [|name todo IH]; intros made nodes nodes' E q Hq; cbn [make_directories] in E.
  - cbn in Hq. destruct (nodes !! _) as [[| |]|]; simplify_eq/=; try reflexivity.
    apply lookup_insert_ne. intros <-. cbn in Hq. lia.
  - assert (Hne : Path.mk absolute made <> q) by (intros <-; cbn in Hq; lia).
    assert (Hlen : (length (made ++ [name]) + length todo < length (Path.parts q))%nat)
      by (rewrite length_app; cbn in *; lia).
    destruct (nodes !! _) as [[| |]|]; try discriminate; apply IH with (q := q) in E;
      try exact Hlen; rewrite E; cbn; try reflexivity.
    now apply lookup_insert_ne.
Qed.

Lemma below_create_dir_all path : (length path.(Path.parts) <= n)%nat -> below (create_dir_all os path).
Proof.
  intros Hl. unfold create_dir_all. apply respects_bind; [apply _|apply below_call|]. intros _ s.
  rewrite bind_run. cbn [gets]. destruct (make_directories os [] _ _ _) as [nodes|] eqn:E; [|now intros q _].
  intros q Hq. cbn. apply (make_directories_below _ _ _ _ _ E). cbn. lia.
Qed.

Lemma below_set_permissions path mode :
  (length path.(Path.parts) <= n)%nat -> below (set_permissions os path mode).
Proof.
  intros Hl. unfold set_permissions. apply respects_bind; [apply _|apply below_call|]. intros _.
  apply respects_bind; [apply _|apply below_node_at|]. intros [[| |]|];
    try apply below_fail; now apply below_put.
Qed.

Lemma below_ensure_parent parent :
  (length parent.(Path.parts) <= n)%nat -> below (ensure_private_state_parent os parent).
Proof.
  intros Hl. unfold ensure_private_state_parent.
  apply respects_bind; [apply _| |intros there; apply respects_bind; [apply _| |intros _]].
  - unfold exists_. apply respects_bind; [apply _|apply respects_attempt, below_call|].
    intros [?|?]; cbn; [apply respects_gets|apply respects_ret]; apply _.
  - destruct there; cbn [negb]; [apply respects_ret, _|].
    apply respects_bind; [apply _|now apply below_create_dir_all|]. intros _.
    now apply below_set_permissions.
  - apply respects_bind; [apply _| |].
    + unfold symlink_metadata. apply respects_bind; [apply _|apply below_call|]. intros _.
      apply below_node_at.
    + intros [[| |]|]; try apply below_fail; apply respects_lift, _.
Qed.
End Below.

(** What the check of the directory accepts. *)
Definition private (node : option Node) : Prop :=
  exists mode, node = Some (Directory os.(geteuid) mode) /\ Z.land mode 63 = 0.

Lemma wp_ensure_parent parent s :
  wp (ensure_private_state_parent os parent)
    (fun _ s' => private (s'.(Fs.nodes) !! parent)) (fun _ _ => True) s.
Proof.
  unfold ensure_private_state_parent. apply wp_last. intros there s1. apply wp_last. intros _ s2.
  unfold symlink_metadata, node_at. wp_step. wp_step. apply wp_call; [|easy]. intros ops.
  wp_step. destruct (Fs.nodes s2 !! parent) as [[uid mode| |]|] eqn:E; cbn; rewrite ?E;
    try (apply wp_lift; easy).
  apply wp_lift; [|easy]. intros [] Hr. guards_in Hr. destruct Hr as [Hu Hm]. subst uid. now exists mode.
Qed.

(** Replacing the file: the target holds its old node or the complete content. *)
Section Replace.
Context (parent path temporary : Path.t) (content : list Z) (Hne : temporary <> path).

Definition others (s s' : Fs.t) : Prop :=
  forall q, q <> path -> q <> temporary -> s'.(Fs.nodes) !! q = s.(Fs.nodes) !! q.

Definition Replaced (s s' : Fs.t) : Prop :=
  (s'.(Fs.nodes) !! path = s.(Fs.nodes) !! path
   \/ exists mode, s'.(Fs.nodes) !! path = Some (File os.(geteuid) mode content))
  /\ others s s'.

Lemma wp_create_new s :
  wp (create_new os temporary 384)
    (fun _ s' => s.(Fs.nodes) !! temporary = None
                 /\ exists mode, s'.(Fs.nodes) = <[temporary := File os.(geteuid) mode []]> s.(Fs.nodes))
    (fun _ s' => s'.(Fs.nodes) = s.(Fs.nodes)) s.
Proof.
  unfold create_new, node_at, put, fail. wp_step. apply wp_call; intros; [|reflexivity].
  wp_steps; [|discriminate|reflexivity].
  cbn in *. apply is_none_spec in Heqb. split; [exact Heqb|]. now eexists.
Qed.

Lemma wp_write_all mode N s :
  s.(Fs.nodes) = <[temporary := File os.(geteuid) mode []]> N ->
  wp (write_all os temporary content)
    (fun _ s' => s'.(Fs.nodes) = <[temporary := File os.(geteuid) mode content]> N)
    (fun _ s' => exists written, s'.(Fs.nodes) = <[temporary := File os.(geteuid) mode written]> N) s.
Proof.
  intros Es. unfold wp, write_all, call. cbn [Fs.ops Fs.nodes].
  destruct (fault os _) as [e|]; cbn [Fs.nodes Fs.ops]; rewrite Es, lookup_insert_eq;
    rewrite insert_insert_eq; cbn; eauto.
Qed.

Lemma wp_replace_file s :
  wp (replace_file os parent path temporary content)
    (fun _ s' => s'.(Fs.nodes) !! path = Some (File os.(geteuid) 384 content)
                 /\ s'.(Fs.nodes) !! temporary = s.(Fs.nodes) !! temporary /\ others s s')
    (fun _ s' => Replaced s s') s.
Proof.
  assert (Hkeep : forall node s', s'.(Fs.nodes) = <[temporary := node]> s.(Fs.nodes) -> Replaced s s').
  { intros node s' E. split; [left|intros q H1 H2]; rewrite E; now apply lookup_insert_ne. }
  unfold replace_file. apply wp_bind.
  eapply wp_conseq; [apply wp_create_new| |].
  2: { intros e s' E. split; [left; now rewrite E|intros q _ _; now rewrite E]. }
  intros [] s1 (Hnone&mode&E1). apply wp_bind.
  eapply wp_conseq; [exact (wp_write_all mode _ s1 E1)| |].
  2: { intros e s' (w&E). now apply (Hkeep _ _ E). }
  intros [] s2 E2. apply wp_bind, wp_call; [|intros; now apply (Hkeep _ _ E2)]. intros ops.
  apply wp_bind. unfold rename, node_at. wp_step.
  apply wp_call; [|intros; now apply (Hkeep _ _ E2)]. intros ops'. wp_step. wp_step.
  cbn [Fs.nodes]. rewrite E2, lookup_insert_eq. wp_step.
  cbn [Fs.nodes Fs.ops]. rewrite delete_insert_eq.
  set (N := <[path := _]> _).
  assert (Hpath : N !! path = Some (File os.(geteuid) mode content)) by apply lookup_insert_eq.
  assert (Hothers : forall q, q <> path -> N !! q = s.(Fs.nodes) !! q).
  { intros q H. subst N. rewrite lookup_insert_ne by congruence.
    destruct (decide (q = temporary)) as [->|Hq]; [now rewrite lookup_delete_eq, Hnone|].
    now rewrite lookup_delete_ne by congruence. }
  assert (Hafter : forall s', s'.(Fs.nodes) = N -> Replaced s s').
  { intros s' E. split; [right; exists mode; now rewrite E|]. intros q H _. rewrite E. now apply Hothers. }
  apply wp_bind. unfold set_permissions, node_at, put. wp_step.
  apply wp_call; [|intros; now apply Hafter]. intros ops''. wp_step. wp_step.
  cbn [Fs.nodes]. rewrite Hpath. wp_step.
  assert (Hdone : forall s', s'.(Fs.nodes) = <[path := File os.(geteuid) 384 content]> N ->
     s'.(Fs.nodes) !! path = Some (File os.(geteuid) 384 content)
     /\ s'.(Fs.nodes) !! temporary = s.(Fs.nodes) !! temporary /\ others s s').
  { intros s' E. rewrite E, lookup_insert_eq. split; [reflexivity|].
    rewrite lookup_insert_ne by congruence. split; [now apply Hothers; congruence|].
    intros q Hq _. rewrite E, lookup_insert_ne by congruence. now apply Hothers. }
  assert (Hlate : forall s', s'.(Fs.nodes) = <[path := File os.(geteuid) 384 content]> N ->
     Replaced s s').
  { intros s' E. destruct (Hdone s' E) as (H&_&Ho). split; eauto. }
  wp_step. apply wp_call; [|intros; now apply Hlate]. intros.
  apply wp_call; intros; [now apply Hdone|now apply Hlate].
Qed.
End Replace.

Lemma parent_spec q parent :
  Path.parent q = Some parent -> exists name, q = Path.join parent name.
Proof.
  destruct q as [abs parts]. unfold Path.parent, Path.join. cbn. intros H.
  destruct (exists_last (l := parts)) as (l&name&->); [now intros ->|].
  exists name. destruct (l ++ [name]) eqn:E; [now apply app_eq_nil in E as [_ ?]|].
  injection H as <-. cbn. rewrite <- E. f_equal.
  change (l ++ [name] = removelast (s :: l0) ++ [name]). now rewrite <- E, removelast_last.
Qed.

Lemma parent_join path parent name :
  Path.parent path = Some parent -> Path.file_name path = Some name -> path = Path.join parent name.
Proof.
  intros Hp Hf. destruct (parent_spec _ _ Hp) as (name'&->). unfold Path.file_name, Path.join in Hf.
  cbn in Hf. rewrite rev_app_distr in Hf. cbn in Hf. destruct (String.eqb name' ".."); congruence.
Qed.

Lemma temporary_differs parent name now :
  Path.join parent (temporary_name os name now) <> Path.join parent name.
Proof.
  unfold Path.join. intros [= E]. apply app_inj_2 in E as [_ [= E]]; [|reflexivity].
  apply (f_equal len) in E. unfold temporary_name in E. rewrite !len_app in E.
  pose proof (length_z_nonneg (bytes (print_u os.(process_id)))).
  pose proof (length_z_nonneg (bytes (print_u now))).
  change (len ".") with 1 in E. change (len ".tmp-") with 5 in E. change (len "-") with 1 in E.
  unfold len in *. lia.
Qed.

(** A file content that encodes the whole of what is to be saved. *)
Definition complete (history : list string) (content : list Z) : Prop :=
  validate_entries (resumable_entries history) = Ok tt
  /\ length_z content <= TERMINAL_STATE_MAX_BYTES
  /\ exists saved_at,
       to_vec_pretty {| PersistedTerminalSession.schema_version := TERMINAL_STATE_SCHEMA_VERSION;
                        PersistedTerminalSession.saved_at_ms := saved_at;
                        PersistedTerminalSession.history := resumable_entries history |} = Ok content.

Lemma wp_unix_time (Q : Z -> Fs.t -> Prop) (R : AppError -> Fs.t -> Prop) s :
  (forall now ops, os.(unix_time) ops = Ok now -> Q now (Fs.mk s.(Fs.nodes) ops)) ->
  (forall e ops, R e (Fs.mk s.(Fs.nodes) ops)) -> wp (unix_time_ms os) Q R s.
Proof. intros HQ HR. unfold wp, unix_time_ms. destruct (unix_time os _) eqn:E; eauto. Qed.

Definition Kept (path : Path.t) (s s' : Fs.t) : Prop := s'.(Fs.nodes) !! path = s.(Fs.nodes) !! path.

Definition Stored (path : Path.t) (history : list string) (mode : Z) (s' : Fs.t) : Prop :=
  exists content, complete history content
                  /\ s'.(Fs.nodes) !! path = Some (File os.(geteuid) mode content).

Lemma wp_save_entries path parent history s :
  Path.parent path = Some parent ->
  wp (save_entries os to_vec_pretty path parent (resumable_entries history))
    (fun _ s' => Stored path history 384 s'
       /\ forall q, q <> path -> s'.(Fs.nodes) !! q = s.(Fs.nodes) !! q)
    (fun _ s' => Kept path s s' \/ exists mode, Stored path history mode s') s.
Proof.
  intros Hparent. unfold save_entries. wp_step. wp_step; [|now left].
  destruct a. rename H into Hvalid. wp_step. apply wp_unix_time; [|intros; now left].
  intros saved_at ops _. wp_step. wp_step; [|now left]. rename a into content.
  apply map_err_Ok in H. rename H into Henc. wp_step. wp_step; [|now left].
  apply reject_if_Ok, Z.ltb_ge in H. rename H into Hsize. wp_step. wp_step; [|now left].
  apply ok_or_Ok in H. rename a0 into name. pose proof (parent_join _ _ _ Hparent H) as Hpath.
  wp_step. apply wp_unix_time; [|intros; now left]. intros now ops' _. wp_step.
  set (temporary := Path.join _ _).
  assert (Hne : temporary <> path) by (rewrite Hpath; apply temporary_differs).
  assert (Hc : complete history content) by (split; [exact Hvalid|split; [exact Hsize|now exists saved_at]]).
  wp_step. eapply wp_conseq; [apply (wp_replace_file parent path temporary content Hne)| |].
  - intros [] s' (Hnew&Htemp&Hothers). cbn [is_Ok]. wp_step. apply wp_ret. wp_step; [|discriminate].
    split; [now exists content|]. intros q Hq.
    destruct (decide (q = temporary)) as [->|Hqt]; [exact Htemp|now apply Hothers].
  - intros e s' [Hpath' _]. cbn [is_Ok]. wp_step. wp_step. wp_step.
    assert (Hgoal : forall s'', s''.(Fs.nodes) !! path = s'.(Fs.nodes) !! path ->
              Kept path s s'' \/ (exists mode, Stored path history mode s'')).
    { intros s'' E. unfold Kept, Stored. rewrite E.
      destruct Hpath' as [->|(mode&->)]; [left; reflexivity|right]. exists mode. now exists content. }
    unfold remove_file. wp_step. apply wp_call; intros; cbn; apply Hgoal; [|reflexivity].
    cbn. now apply lookup_delete_ne.
Qed.

Lemma wp_persist path history s :
  wp (persist_terminal_session os to_vec_pretty path history)
    (fun _ s' => Stored path history 384 s'
       /\ (exists parent, Path.parent path = Some parent /\ private (s'.(Fs.nodes) !! parent))
       /\ forall q, Path.parent q = Path.parent path -> q <> path -> Kept q s s')
    (fun _ s' => Kept path s s' \/ exists mode, Stored path history mode s') s.
Proof.
  unfold persist_terminal_session. wp_step. wp_step; [|left; reflexivity]. wp_step.
  unfold parent_of. wp_step; [|left; reflexivity]. apply ok_or_Ok in H0.
  rename a0 into parent. rename H0 into Hparent. clear H.
  set (n := length parent.(Path.parts)).
  assert (Hsib : forall q, Path.parent q = Some parent -> (n < length q.(Path.parts))%nat).
  { intros q Hq. destruct (parent_spec _ _ Hq) as (name&->). cbn. rewrite length_app. cbn. lia. }
  assert (Hnp : parent <> path) by (intros E; specialize (Hsib path Hparent); subst n; rewrite E in Hsib; lia).
  apply wp_bind. eapply wp_conseq.
  { apply wp_and; [exact (respects_wp _ _ _ (below_ensure_parent n parent ltac:(lia)))|].
    apply wp_ensure_parent. }
  2: { intros e s1 [Hb _]. left. apply (Hb path), Hsib, Hparent. }
  intros [] s1 [Hb Hprivate].
  assert (Hkept : forall q ops, Path.parent q = Some parent -> Kept q s (Fs.mk s1.(Fs.nodes) ops))
    by (intros q ops Hq; apply (Hb q), Hsib, Hq).
  wp_step. wp_step.
  assert (Hrest : forall ops, wp (save_entries os to_vec_pretty path parent (resumable_entries history))
    (fun _ s' => Stored path history 384 s'
       /\ (exists parent, Path.parent path = Some parent /\ private (s'.(Fs.nodes) !! parent))
       /\ forall q, Path.parent q = Path.parent path -> q <> path -> Kept q s s')
    (fun _ s' => Kept path s s' \/ exists mode, Stored path history mode s')
    (Fs.mk s1.(Fs.nodes) ops)).
  { intros ops. eapply wp_conseq; [apply (wp_save_entries path parent history _ Hparent)| |].
    - intros [] s' [Hst Ho]. split; [exact Hst|]. rewrite Hparent. split.
      + exists parent. split; [reflexivity|]. now rewrite Ho.
      + intros q Hq Hne. unfold Kept. rewrite Ho by exact Hne. now apply (Hkept q ops).
    - intros e s' [Hk|Hst]; [left|now right]. unfold Kept in *. rewrite Hk. now apply (Hkept path ops). }
  unfold symlink_metadata, node_at. wp_step. apply wp_call.
  - intros ops. wp_step. wp_step. wp_step; [apply Hrest|left; now apply Hkept].
  - intros e ops. wp_step. wp_step; [apply Hrest|discriminate].
Qed.

End Atomic.

(** C14: saving the session is atomic: whatever fails on the way, the state file is
    the one that was there or holds the complete encoding of the entries to keep;
    when saving succeeds it is a regular file of mode 0600 owned by the process in
    an owner-only directory, and no other file beside it has changed. *)
Theorem saving_is_atomic (os : System)
    (to_vec_pretty : PersistedTerminalSession.t -> result string (list Z))
    (path : Path.t) (history : list string) (s : Fs.t) :
  let (r, s') := persist_terminal_session os to_vec_pretty path history s in
  (s'.(Fs.nodes) !! path = s.(Fs.nodes) !! path
   \/ exists mode, Stored os to_vec_pretty path history mode s')
  /\ (r = Ok tt ->
      Stored os to_vec_pretty path history 384 s'
      /\ (exists parent, Path.parent path = Some parent /\ private os (s'.(Fs.nodes) !! parent))
      /\ forall q, Path.parent q = Path.parent path -> q <> path ->
           s'.(Fs.nodes) !! q = s.(Fs.nodes) !! q).
Proof.
  pose proof (wp_persist os to_vec_pretty path history s) as H. unfold wp in H.
  destruct (persist_terminal_session os to_vec_pretty path history s) as [[[]|e] s'].
  - split; [right; exists 384; apply H|intros _; exact H].
  - split; [exact H|discriminate].
Qed.

(** ** When it was saved *)
Section Timing.
Context (os : System).
Context (to_vec_pretty : PersistedTerminalSession.t -> result string (list Z)).

(** [t] is what the clock said when it was first read after the calls [before]. *)
Definition first_reading (before after : list FsOp) (t : Z) : Prop :=
  exists later earlier, after = later ++ Clock :: earlier ++ before /\ (Clock ∉ earlier)
    /\ os.(unix_time) (Clock :: earlier ++ before) = Ok t.

(** Calls were made, all of the kind [P]. *)
Definition calls (P : FsOp -> Prop) (s s' : Fs.t) : Prop :=
  exists l, s'.(Fs.ops) = l ++ s.(Fs.ops) /\ Forall P l.
#[local] Instance calls_preorder P : PreOrder (calls P).
Proof.
  split; [intros s; now exists []|]. intros s1 s2 s3 (l1&E1&H1) (l2&E2&H2). exists (l2 ++ l1).
  rewrite E2, E1, app_assoc. split; [reflexivity|now apply Forall_app].
Qed.
Section Calls.
Context (P : FsOp -> Prop).
Abbreviation Calls := (respects (E := AppError) (calls P)).
Lemma calls_call op : P op -> Calls (call os op).
Proof. intros H s. unfold call. destruct (fault os _); exists [op]; cbn; auto. Qed.
Lemma calls_fail A e : Calls (fail (A := A) e).
Proof. apply respects_lift, _. Qed.
Lemma calls_bind {A B} (m : M Fs.t AppError A) (k : A -> M Fs.t AppError B) :
  Calls m -> (forall a, Calls (k a)) -> Calls (mbind k m).
Proof. apply respects_bind, _. Qed.
Lemma calls_nodes f : Calls (modify (fun s => Fs.mk (f s) s.(Fs.ops))).
Proof. apply respects_modify. intros s. now exists []. Qed.
Lemma calls_node_at path : Calls (node_at path).
Proof. apply respects_gets, _. Qed.

Ltac calls :=
  repeat match goal with
  | |- respects _ (mbind _ _) => apply calls_bind; [|intros ?]
  | |- respects _ (call _ _) => apply calls_call
  | |- respects _ (fail _) => apply calls_fail
  | |- respects _ (lift _) => apply respects_lift, _
  | |- respects _ (mret _) => apply respects_ret, _
  | |- respects _ (gets _) => apply respects_gets, _
  | |- respects _ (node_at _) => apply calls_node_at
  | |- respects _ (put _ _) => apply (calls_nodes (fun s => _))
  | |- respects _ (modify _) => apply (calls_nodes (fun s => _))
  | |- respects _ (attempt _) => apply respects_attempt
  | |- respects _ (if ?c then _ else _) => destruct c
  | |- respects _ (match ?c with _ => _ end) => destruct c
  end.

Lemma calls_set_permissions path mode : P (SetPermissions path mode) -> Calls (set_permissions os path mode).
Proof. intros H. unfold set_permissions. calls; exact H. Qed.
Lemma calls_symlink_metadata path : P (SymlinkMetadata path) -> Calls (symlink_metadata os path).
Proof. intros H. unfold symlink_metadata. calls; exact H. Qed.
Lemma calls_ensure_parent parent : (forall op, op <> Clock -> P op) -> Calls (ensure_private_state_parent os parent).
Proof.
  intros H. unfold ensure_private_state_parent, exists_, create_dir_all.
  calls; first [apply calls_symlink_metadata|apply calls_set_permissions|idtac]; apply H; discriminate.
Qed.
Lemma calls_replace_file parent path temporary content :
  (forall op, op <> Clock -> P op) -> Calls (replace_file os parent path temporary content).
Proof.
  intros H. unfold replace_file, create_new, rename. calls;
    first [apply calls_set_permissions; apply H; discriminate|apply H; discriminate|idtac].
  intros s. unfold write_all, call. cbn [Fs.ops Fs.nodes].
  destruct (fault os _); cbn [Fs.ops Fs.nodes]; destruct (Fs.nodes s !! temporary) as [[| |]|];
    exists [WriteAll temporary content]; cbn; (split; [reflexivity|]); constructor; auto; apply H; discriminate.
Qed.
End Calls.

(** Saving reads the clock for the time it writes, before anything else does. *)
Lemma wp_saved_at path history s :
  wp (persist_terminal_session os to_vec_pretty path history)
    (fun _ s' => exists saved_at content,
       first_reading s.(Fs.ops) s'.(Fs.ops) saved_at
       /\ to_vec_pretty {| PersistedTerminalSession.schema_version := TERMINAL_STATE_SCHEMA_VERSION;
                           PersistedTerminalSession.saved_at_ms := saved_at;
                           PersistedTerminalSession.history := resumable_entries history |} = Ok content
       /\ s'.(Fs.nodes) !! path = Some (File os.(geteuid) 384 content))
    (fun _ _ => True) s.
Proof.
  unfold persist_terminal_session. wp_step. wp_step; [|easy]. wp_step. unfold parent_of.
  wp_step; [|easy]. apply ok_or_Ok in H0. rename a0 into parent, H0 into Hparent. clear H.
  apply wp_bind. eapply wp_conseq; [apply respects_wp, (calls_ensure_parent (fun op => op <> Clock)); auto| |easy].
  intros [] s1 Hs1. apply wp_bind.
  eapply wp_conseq; [apply respects_wp, respects_attempt, (calls_symlink_metadata (fun op => op <> Clock)); discriminate| |easy].
  intros r s2 Hs2. wp_step. wp_step; [|easy].
  destruct (transitivity Hs1 Hs2) as (l&El&Hl). unfold save_entries. wp_step. wp_step; [|easy]. wp_step.
  unfold wp at 1, unix_time_ms at 1. cbn [Fs.ops].
  destruct (unix_time os (Clock :: Fs.ops s2)) as [saved_at|] eqn:Eclock; [|easy].
  wp_step. wp_step; [|easy]. rename a2 into content. apply map_err_Ok in H1. rename H1 into Henc.
  wp_step. wp_step; [|easy]. wp_step. wp_step; [|easy]. apply ok_or_Ok in H2.
  pose proof (parent_join _ _ _ Hparent H2) as Hpath.
  wp_step. unfold wp at 1, unix_time_ms at 1. cbn [Fs.ops Fs.nodes].
  destruct (unix_time os (Clock :: Clock :: Fs.ops s2)) as [now|]; [|easy]. set (s3 := Fs.mk _ (Clock :: Clock :: _)).
  wp_step. match goal with |- context [replace_file os parent path ?p _] => set (temporary := p) end.
  assert (Hne : temporary <> path) by (rewrite Hpath; apply temporary_differs).
  wp_step. eapply wp_conseq; [apply wp_and;
    [exact (respects_wp _ _ _ (calls_replace_file (fun _ => True) parent path temporary content (fun _ _ => I)))
    |apply (wp_replace_file os parent path temporary content Hne)]| |].
  - intros [] s4 [(l4&E4&_)(Hnew&_&_)]. cbn [is_Ok]. wp_step. apply wp_ret. wp_step; [|discriminate].
    exists saved_at, content. split_and!; [|exact Henc|exact Hnew].
    exists (l4 ++ [Clock]), l. rewrite E4. cbn [Fs.ops s3]. rewrite El in *. rewrite <- app_assoc. split_and!; [reflexivity| |exact Eclock].
    intros Hin. rewrite list.Forall_forall in Hl. now apply (Hl Clock Hin).
  - intros e s4 _. cbn [is_Ok]. apply wp_last. intros ? s5. apply wp_lift; [discriminate|easy].
Qed.
End Timing.

(** ** Loading what was saved *)
Section Resume.
Context (os : System) (Hok : forall ops, os.(fault) ops = None).
Context (Hclock : forall ops, exists now, os.(unix_time) ops = Ok now).
Context (to_vec_pretty : PersistedTerminalSession.t -> result string (list Z)).
Context (from_slice : list Z -> result string PersistedTerminalSession.t).
Context (Hjson : forall state content, to_vec_pretty state = Ok content -> from_slice content = Ok state).

Lemma call_run op s : call os op s = (Ok tt, Fs.mk s.(Fs.nodes) (op :: s.(Fs.ops))).
Proof. unfold call. cbn. now rewrite Hok. Qed.

Lemma ensure_private_run parent s :
  private os (s.(Fs.nodes) !! parent) ->
  exists ops, ensure_private_state_parent os parent s = (Ok tt, Fs.mk s.(Fs.nodes) ops)
    /\ exists l, ops = l ++ s.(Fs.ops) /\ Forall (fun op => op <> Clock) l.
Proof.
  intros Hp. pose proof (calls_ensure_parent os (fun op => op <> Clock) parent ltac:(auto) s) as Hcalls.
  assert (H : exists ops, ensure_private_state_parent os parent s = (Ok tt, Fs.mk s.(Fs.nodes) ops)).
  2: { destruct H as (ops&E). rewrite E in Hcalls. now exists ops. }
  clear Hcalls. revert Hp. intros (mode&E&Hm). unfold ensure_private_state_parent, exists_, symlink_metadata, node_at.
  eexists. rewrite !bind_run. unfold attempt at 1. rewrite call_run. cbn -[mbind call Z.land].
  rewrite E. cbn -[mbind call Z.land].
  rewrite bind_run. cbn [mret M_ret negb]. rewrite !bind_run, call_run. cbn -[Z.land].
  rewrite E. cbn -[Z.land].
  rewrite Z.eqb_refl, Hm. cbn. reflexivity.
Qed.

Lemma length_keep_last {A} n (l : list A) : (length (keep_last n l) <= n)%nat.
Proof. unfold keep_last. destruct (Nat.ltb_spec n (length l)); [rewrite length_drop|]; lia. Qed.

(** What a saved session is worth at a later (or earlier) time. *)
Definition resumed_at (saved_at now : Z) (entries : list string)
    : result AppError (option LoadedTerminalSession.t) :=
  if saturating_add now 300000 <? saved_at then
    Err (InvalidInput "terminal session state timestamp is in the future")
  else if 604800000 <? saturating_sub now saved_at then Ok None
  else Ok (Some (LoadedTerminalSession.mk entries (bounded_resume_summary entries))).

Lemma accept_session_saved version saved_at now entries :
  validate_entries entries = Ok tt -> (length entries <= TERMINAL_RESUME_MAX_ENTRIES)%nat ->
  accept_session (PersistedTerminalSession.mk version saved_at entries) now
  = resumed_at saved_at now entries.
Proof.
  intros Hv Hl. unfold accept_session, resumed_at.
  cbn [PersistedTerminalSession.saved_at_ms PersistedTerminalSession.history].
  rewrite reject_run. change (5 * 60 * 1000) with 300000.
  change TERMINAL_RESUME_MAX_AGE_MS with 604800000.
  destruct (_ <? saved_at); [reflexivity|]. destruct (604800000 <? _); [reflexivity|].
  rewrite reject_run. destruct (Nat.ltb_spec TERMINAL_RESUME_MAX_ENTRIES (length entries)); [lia|].
  now rewrite Hv.
Qed.

Lemma load_stored path history parent saved_at content s :
  path.(Path.absolute) = true -> Path.parent path = Some parent ->
  private os (s.(Fs.nodes) !! parent) ->
  validate_entries (resumable_entries history) = Ok tt /\ length_z content <= TERMINAL_STATE_MAX_BYTES ->
  to_vec_pretty {| PersistedTerminalSession.schema_version := TERMINAL_STATE_SCHEMA_VERSION;
                   PersistedTerminalSession.saved_at_ms := saved_at;
                   PersistedTerminalSession.history := resumable_entries history |} = Ok content ->
  s.(Fs.nodes) !! path = Some (File os.(geteuid) 384 content) ->
  exists now ops,
    first_reading os s.(Fs.ops) ops now
    /\ load_terminal_session os from_slice path s
      = (resumed_at saved_at now (resumable_entries history), Fs.mk s.(Fs.nodes) ops).
Proof.
  intros Habs Hparent Hprivate [Hvalid Hsize] Henc Enode.
  unfold load_terminal_session. rewrite Habs. rewrite lift_bind_run. cbn [negb reject_if].
  unfold symlink_metadata, node_at. rewrite !bind_run, call_run. unfold gets at 1. cbn [Fs.nodes]. rewrite Enode.
  rewrite bind_run. unfold parent_of. rewrite Hparent. cbn [lift ok_or].
  rewrite bind_run. destruct (ensure_private_run parent (Fs.mk s.(Fs.nodes) (SymlinkMetadata path :: s.(Fs.ops))))
    as (ops&->&l&->&Hl); [exact Hprivate|].
  rewrite lift_bind_run. cbn [validate_private_state_file]. rewrite Z.eqb_refl. cbn [negb orb].
  change (Z.land 384 511 =? 384) with true. cbn [negb reject_if].
  rewrite lift_bind_run. destruct (Z.ltb_spec TERMINAL_STATE_MAX_BYTES (length_z content)); [lia|].
  cbn [reject_if]. rewrite bind_run, call_run.
  unfold read_bounded_limit, read_up_to, node_at. rewrite !bind_run, call_run, bind_run. unfold gets at 1. cbn [Fs.nodes].
  rewrite Enode. cbn [mret M_ret]. rewrite take_ge by (unfold length_z, TERMINAL_STATE_MAX_BYTES in *; lia).
  rewrite lift_bind_run. destruct (Z.ltb_spec TERMINAL_STATE_MAX_BYTES (length_z content)); [lia|].
  unfold mret at 1, M_ret at 1. cbn [reject_if]. rewrite lift_bind_run, (Hjson _ _ Henc). cbn [map_err].
  rewrite lift_bind_run. cbn [PersistedTerminalSession.schema_version].
  change (TERMINAL_STATE_SCHEMA_VERSION =? TERMINAL_STATE_SCHEMA_VERSION) with true.
  cbn [negb reject_if]. rewrite bind_run. unfold unix_time_ms.
  destruct (Hclock (Fs.ops (Fs.mk (Fs.nodes s) (Clock :: ReadToEnd path (Z.to_nat (TERMINAL_STATE_MAX_BYTES + 1))
     :: Open path :: l ++ SymlinkMetadata path :: Fs.ops s)))) as (now&Enow). cbn [Fs.ops] in Enow |- *. rewrite Enow.
  exists now. eexists. rewrite lift_run. split.
  - exists [], (ReadToEnd path (Z.to_nat (TERMINAL_STATE_MAX_BYTES + 1)) :: Open path :: l ++ [SymlinkMetadata path]).
    cbn [app]. rewrite <- app_assoc. split_and!; [reflexivity| |exact Enow].
    rewrite !elem_of_cons, elem_of_app, elem_of_cons. intros [[=]|[[=]|[Hc|[[=]|Hc]]]]; [|now apply elem_of_nil in Hc].
    rewrite list.Forall_forall in Hl. now apply (Hl Clock Hc).
  - rewrite accept_session_saved; [reflexivity|exact Hvalid|apply length_keep_last].
Qed.
End Resume.

(** C37: a session that was saved is resumed: when no call fails and serde_json
    reads back what it wrote, loading the file yields the last thirty-two
    sanitized entries and their bounded summary, unless the file is more than
    seven days old (nothing) or more than five minutes in the future (an error).
    The age is from the first reading of the clock while it was saved to the
    first one while it is loaded. *)
Theorem saved_session_is_resumed (os : System)
    (to_vec_pretty : PersistedTerminalSession.t -> result string (list Z))
    (from_slice : list Z -> result string PersistedTerminalSession.t)
    (Hok : forall ops, os.(fault) ops = None)
    (Hclock : forall ops, exists now, os.(unix_time) ops = Ok now)
    (Hjson : forall state content,
       to_vec_pretty state = Ok content -> from_slice content = Ok state)
    (path : Path.t) (history : list string) (s s1 : Fs.t)
    (Hsaved : persist_terminal_session os to_vec_pretty path history s = (Ok tt, s1)) :
  exists saved_at now ops,
    first_reading os s.(Fs.ops) s1.(Fs.ops) saved_at /\ first_reading os s1.(Fs.ops) ops now
    /\ load_terminal_session os from_slice path s1
      = (resumed_at saved_at now (resumable_entries history), Fs.mk s1.(Fs.nodes) ops).
Proof.
  pose proof (wp_run _ _ _ _ _ _ (wp_persist os to_vec_pretty path history s) Hsaved)
    as (Hstored&(parent&Hparent&Hprivate)&_).
  pose proof (wp_run _ _ _ _ _ _ (wp_saved_at os to_vec_pretty path history s) Hsaved)
    as (saved_at&content&Hread&Henc&Hnode). exists saved_at.
  destruct (load_stored os Hok Hclock to_vec_pretty from_slice Hjson path history parent saved_at content s1)
    as (now&ops&Hnow&Hload); [|assumption|assumption| |assumption|assumption|].
  { unfold persist_terminal_session in Hsaved. rewrite lift_bind_run in Hsaved.
    destruct (Path.absolute path); [reflexivity|discriminate]. }
  { destruct Hstored as (content'&(Hvalid&Hsize&_)&Hnode'). rewrite Hnode in Hnode'. injection Hnode' as <-. now split. }
  exists now, ops. now split_and!.
Qed.

(** ** A concrete session *)
Module TerminalStateSamples.
Definition os : System :=
  {| fault := fun _ => None; accepted := fun _ => O;
     unix_time := fun ops => Ok (1700000000000 + length_z ops);
     geteuid := 1000; umask := 18; process_id := 4321 |}.
(** A stand-in for serde_json: one entry a line, none with a line break. *)
Definition encode (state : PersistedTerminalSession.t) : result string (list Z) :=
  let history := state.(PersistedTerminalSession.history) in
  if existsb (fun entry => existsb (Z.eqb 10) (bytes entry)) history then Err "line break"%string
  else
    Ok (state.(PersistedTerminalSession.schema_version)
        :: state.(PersistedTerminalSession.saved_at_ms)
        :: List.concat (map (fun entry => bytes entry ++ [10]) history)).
Fixpoint lines (bs : list Z) (line : list Z) : list string :=
  match bs with
  | [] => []
  | b :: bs =>
      if b =? 10 then of_bytes (rev line) :: lines bs [] else lines bs (b :: line)
  end.
Definition decode (content : list Z) : result string PersistedTerminalSession.t :=
  match content with
  | version :: saved_at :: rest => Ok (PersistedTerminalSession.mk version saved_at (lines rest []))
  | _ => Err "short file"%string
  end.

Lemma lines_entry e rest line :
  existsb (Z.eqb 10) e = false -> lines (e ++ 10 :: rest) line = of_bytes (rev line ++ e) :: lines rest [].
Proof.
  revert line. induction e as [|b e IH]; intros line H; cbn -[Z.eqb] in *; [now rewrite app_nil_r|].
  apply orb_false_iff in H as [Hb H].
  rewrite Z.eqb_sym, Hb, (IH _ H). cbn. now rewrite <- app_assoc.
Qed.

Lemma decode_encode_state state content : encode state = Ok content -> decode content = Ok state.
Proof.
  destruct state as [version saved_at history]. unfold encode. cbn.
  destruct (existsb _ history) eqn:E; [discriminate|]. intros [= <-]. cbn. f_equal. f_equal.
  induction history as [|e history IH]; [reflexivity|]. cbn in *.
  apply orb_false_iff in E as [He E]. rewrite <- app_assoc. cbn.
  rewrite lines_entry, (IH E) by exact He. cbn. now rewrite of_bytes_bytes.
Qed.

Definition path : Path.t := Path.mk true ["home"; "sdr"; ".local"; "state.json"].
Definition home : Fs.t :=
  Fs.mk (list_to_map [(Path.mk true [], Directory 0 493); (Path.mk true ["home"], Directory 0 493);
                      (Path.mk true ["home"; "sdr"], Directory 1000 493)]) [].
Definition history : list string := ["operator: scan the band"; "rejected request 4"; "agent: done"].
End TerminalStateSamples.

(** The sample session is saved and resumed a moment later; the rejection is not kept. *)
Lemma saved_session_is_resumed_witness :
  exists s1,
    persist_terminal_session TerminalStateSamples.os TerminalStateSamples.encode
      TerminalStateSamples.path TerminalStateSamples.history TerminalStateSamples.home = (Ok tt, s1)
    /\ exists saved_at now ops,
         first_reading TerminalStateSamples.os [] s1.(Fs.ops) saved_at
         /\ first_reading TerminalStateSamples.os s1.(Fs.ops) ops now
         /\ load_terminal_session TerminalStateSamples.os TerminalStateSamples.decode
              TerminalStateSamples.path s1
            = (resumed_at saved_at now ["operator: scan the band"; "agent: done"]%string,
               Fs.mk s1.(Fs.nodes) ops).
Proof.
  set (run := persist_terminal_session _ _ _ _ _).
  exists run.2. assert (E : run = (Ok tt, run.2)) by (vm_compute; reflexivity).
  split; [exact E|].
  exact (saved_session_is_resumed TerminalStateSamples.os TerminalStateSamples.encode
           TerminalStateSamples.decode (fun _ => eq_refl) (fun _ => ex_intro _ _ eq_refl)
           TerminalStateSamples.decode_encode_state TerminalStateSamples.path
           TerminalStateSamples.history TerminalStateSamples.home run.2 E).
Defined.
