(* ===== verification/Execution.v ===== *)
(** * Executing a bounded IQ capture

    [controller/src/execution.rs]: the authorization a plan needs, and the SDRD
    session that carries out one capture: own the radio, apply the profile,
    capture, check, stop and restore, and look at the radio again. *)
From S2P Require Import Prelude Text F32 Protocol Framing Sdr.

Module ExecutionAuthorization.
Record t := mk { request_id : Z; session_generation : Z; operator_approved : bool }.

Definition automatic `{Json} (plan : ValidatedPlan.t) : result SdrError.t t :=
  reject_if plan.(ValidatedPlan.approval_required)
    (SdrError.new "approval_required"
       "the validated plan requires explicit operator approval") ;;
  Ok (mk plan.(ValidatedPlan.request_id) plan.(ValidatedPlan.session_generation) false).

Definition by_operator (plan : ValidatedPlan.t) : t :=
  mk plan.(ValidatedPlan.request_id) plan.(ValidatedPlan.session_generation) true.
End ExecutionAuthorization.

Module ExecutionTimeoutMetadata.
Record t := mk { limit_ms : Z; elapsed_us : Z; timed_out : bool }.
End ExecutionTimeoutMetadata.

Module ExecutionHealthMetadata.
Record t := mk { healthy : bool; flags : Z; source : string }.
End ExecutionHealthMetadata.

Module CaptureObservation.
Record t := mk {
  candidate_id : string;
  feature_id : string;
  relative_path : string;
  samples_captured : Z;
  bytes_written : Z;
  sequence : Z;
  dropped_samples : Z;
  overflow : bool;
  timeout : ExecutionTimeoutMetadata.t;
  health : ExecutionHealthMetadata.t;
}.
End CaptureObservation.

Module ExecutionObservation.
Record t := mk {
  request_id : Z;
  session_generation : Z;
  capture : CaptureObservation.t;
  post_execution_sdr : SdrSnapshot.t;
}.
End ExecutionObservation.

Module CancelObservation.
Record t := mk { session_generation : Z; cancel_requested : bool }.
End CancelObservation.

(** The trait [SdrActionExecutor]. *)
Class SdrActionExecutor `{Json} (S : Type) := {
  execute : ValidatedPlan.t -> ExecutionAuthorization.t -> S ->
            result SdrError.t ExecutionObservation.t * S;
  cancel : Z -> S -> result SdrError.t CancelObservation.t * S;
}.

(** ** The replies of an execution *)
Module HelloResponse.
Record t := mk { server : string; protocol : string; mode : string; mutating_commands : bool }.
End HelloResponse.

Module CapabilitiesResponse.
Record t := mk {
  mode : string;
  iio_visible : bool;
  radio_control : bool;
  raw_iq_capture : bool;
  max_capture_bytes : Z;
}.
End CapabilitiesResponse.

Module StartResponse.
Record t := mk {
  generation : Z; session_generation : Z; session_state : string; restore_armed : bool;
}.
End StartResponse.

Module ProfileResponse.
Record t := mk {
  generation : Z;
  session_generation : Z;
  center_hz : Z;
  sample_rate_hz : Z;
  rf_bandwidth_hz : Z;
  gain_mode : string;
  enabled_channels : Z;
}.
End ProfileResponse.

Module CaptureResponse.
Record t := mk {
  generation : Z;
  session_generation : Z;
  feature_id : string;
  samples_captured : Z;
  bytes_written : Z;
  sequence : Z;
  dropped_samples : Z;
  overflow : bool;
  timeout : ExecutionTimeoutMetadata.t;
  health : ExecutionHealthMetadata.t;
  relative_path : string;
}.
End CaptureResponse.

Module StatusResponse.
Record t := mk {
  generation : Z;
  session_generation : Z;
  active : bool;
  profile_applied : bool;
  restore_armed : bool;
  faulted : bool;
}.
End StatusResponse.

Module StopResponse.
Record t := mk { generation : Z; session_generation : Z; stopped : bool; restored : bool }.
End StopResponse.

Module QuitResponse.
Record t := mk { closing : bool }.
End QuitResponse.

Module CancelResponse.
Record t := mk { generation : Z; session_generation : Z; cancel_requested : bool }.
End CancelResponse.

Class ExecutionFormat `{Json} := {
  #[global] execution_sdr_format :: SdrFormat;
  #[global] x_hello_de :: Deserialize HelloResponse.t;
  #[global] x_capabilities_de :: Deserialize CapabilitiesResponse.t;
  #[global] x_start_de :: Deserialize StartResponse.t;
  #[global] x_profile_de :: Deserialize ProfileResponse.t;
  #[global] x_capture_de :: Deserialize CaptureResponse.t;
  #[global] x_status_de :: Deserialize StatusResponse.t;
  #[global] x_stop_de :: Deserialize StopResponse.t;
  #[global] x_quit_de :: Deserialize QuitResponse.t;
  #[global] x_cancel_de :: Deserialize CancelResponse.t;
}.

(** ** Authorization *)
Section Checks.
Context `{Json}.

Definition validate_authorization (plan : ValidatedPlan.t)
    (authorization : ExecutionAuthorization.t) : result SdrError.t unit :=
  reject_if
    (negb (authorization.(ExecutionAuthorization.request_id) =? plan.(ValidatedPlan.request_id))
     || negb (authorization.(ExecutionAuthorization.session_generation)
              =? plan.(ValidatedPlan.session_generation)))
    (SdrError.new "stale_authorization"
       "execution authorization does not match the validated plan") ;;
  reject_if
    (plan.(ValidatedPlan.approval_required)
     && negb authorization.(ExecutionAuthorization.operator_approved))
    (SdrError.new "approval_required" "operator approval is required for this plan").

Definition validate_capture_response (response : CaptureResponse.t)
    (generation samples max_bytes timeout_ms : Z) (feature_id : string)
    : result SdrError.t unit :=
  let expected_prefix := feature_id +:+ "/" in
  shaped_bytes ←
    ok_or (SdrError.new "capture_response" "capture byte count overflow")
      (checked_mul response.(CaptureResponse.samples_captured) 4) ;
  reject_if
    (negb (response.(CaptureResponse.generation) =? generation)
     || negb (response.(CaptureResponse.session_generation) =? generation)
     || negb (String.eqb response.(CaptureResponse.feature_id) feature_id)
     || (samples <? response.(CaptureResponse.samples_captured))
     || (max_bytes <? response.(CaptureResponse.bytes_written))
     || negb (response.(CaptureResponse.bytes_written) =? shaped_bytes)
     || contains ".." response.(CaptureResponse.relative_path)
     || negb (starts_with expected_prefix response.(CaptureResponse.relative_path))
     || response.(CaptureResponse.overflow)
     || negb (response.(CaptureResponse.dropped_samples) =? 0)
     || negb (response.(CaptureResponse.timeout).(ExecutionTimeoutMetadata.limit_ms)
              =? timeout_ms)
     || response.(CaptureResponse.timeout).(ExecutionTimeoutMetadata.timed_out)
     || negb response.(CaptureResponse.health).(ExecutionHealthMetadata.healthy)
     || negb (response.(CaptureResponse.health).(ExecutionHealthMetadata.flags) =? 0)
     || negb (String.eqb response.(CaptureResponse.health).(ExecutionHealthMetadata.source)
                "iio_adapter"))
    (SdrError.new "capture_response" "SDRD capture response violates the execution contract").
End Checks.

(** ** The capture session *)
Module SdrdActionAdapter.
Section Adapter.
Context `{ExecutionFormat} (env : Environment) (timeout_millis : Z).

Definition feature_id (plan : ValidatedPlan.t) : string :=
  "agent-" +:+ print_u plan.(ValidatedPlan.session_generation) +:+ "-"
  +:+ print_u plan.(ValidatedPlan.request_id).

(** [u32::try_from(self.timeout.as_millis().min(5_000)).unwrap_or(5_000)]. *)
Definition timeout_ms : Z := Z.min timeout_millis 5000.

Definition check_hello (hello : HelloResponse.t) : result SdrError.t unit :=
  reject_if
    (negb (String.eqb hello.(HelloResponse.server) "p201-sdrd")
     || negb (String.eqb hello.(HelloResponse.protocol) "SDRD/1")
     || negb (String.eqb hello.(HelloResponse.mode) "controlled")
     || negb hello.(HelloResponse.mutating_commands))
    (SdrError.new "controlled_mode_unavailable" "SDRD is not the expected controlled endpoint").

Definition check_capabilities (capabilities : CapabilitiesResponse.t) (max_bytes : Z)
    : result SdrError.t unit :=
  reject_if
    (negb (String.eqb capabilities.(CapabilitiesResponse.mode) "controlled")
     || negb capabilities.(CapabilitiesResponse.iio_visible)
     || negb capabilities.(CapabilitiesResponse.radio_control)
     || negb capabilities.(CapabilitiesResponse.raw_iq_capture)
     || (capabilities.(CapabilitiesResponse.max_capture_bytes) <? max_bytes))
    (SdrError.new "execution_capability" "SDRD cannot execute the bounded IQ request").

Definition check_start (start : StartResponse.t) (generation : Z) : result SdrError.t unit :=
  reject_if
    (negb (start.(StartResponse.generation) =? generation)
     || negb (start.(StartResponse.session_generation) =? generation)
     || negb (String.eqb start.(StartResponse.session_state) "owned")
     || negb start.(StartResponse.restore_armed))
    (SdrError.new "session_start" "SDRD did not arm state restoration").

Definition check_profile (profile : ProfileResponse.t)
    (generation center_hz sample_rate_hz rf_bandwidth_hz : Z) : result SdrError.t unit :=
  reject_if
    (negb (profile.(ProfileResponse.generation) =? generation)
     || negb (profile.(ProfileResponse.session_generation) =? generation)
     || negb (profile.(ProfileResponse.center_hz) =? center_hz)
     || negb (profile.(ProfileResponse.sample_rate_hz) =? sample_rate_hz)
     || negb (profile.(ProfileResponse.rf_bandwidth_hz) =? rf_bandwidth_hz)
     || negb (String.eqb profile.(ProfileResponse.gain_mode) "slow_attack")
     || negb (profile.(ProfileResponse.enabled_channels) =? 1))
    (SdrError.new "profile_response" "SDRD profile response does not match the request").

Definition check_status (status : StatusResponse.t) (generation : Z) : result SdrError.t unit :=
  reject_if
    (negb (status.(StatusResponse.generation) =? generation)
     || negb (status.(StatusResponse.session_generation) =? generation)
     || negb status.(StatusResponse.active)
     || negb status.(StatusResponse.profile_applied)
     || negb status.(StatusResponse.restore_armed)
     || status.(StatusResponse.faulted))
    (SdrError.new "execution_status" "SDRD execution status is inconsistent").

Definition check_stop (stop : StopResponse.t) (generation : Z) : result SdrError.t unit :=
  reject_if
    (negb (stop.(StopResponse.generation) =? generation)
     || negb (stop.(StopResponse.session_generation) =? generation)
     || negb stop.(StopResponse.stopped)
     || negb stop.(StopResponse.restored))
    (SdrError.new "restore_response" "SDRD did not confirm stop and restoration").

Definition profile_arguments (generation center_hz sample_rate_hz rf_bandwidth_hz : Z) : string :=
  print_u generation +:+ " " +:+ print_u center_hz +:+ " " +:+ print_u sample_rate_hz +:+ " "
  +:+ print_u rf_bandwidth_hz +:+ " slow_attack 1".

Definition capture_arguments (generation samples max_bytes : Z) (feature_id : string) : string :=
  print_u generation +:+ " " +:+ print_u samples +:+ " " +:+ print_u max_bytes +:+ " "
  +:+ feature_id +:+ " " +:+ print_u timeout_ms.

(** [wire.request(...)?] inside the closure. *)
Definition ask {T} `{!Deserialize T} (command arguments : string) : M Session.t SdrError.t T :=
  Session.request env (fun e => e) command arguments.

(** The closure [execution]. *)
Definition execution (plan : ValidatedPlan.t) (candidate_id : string)
    (center_hz sample_rate_hz rf_bandwidth_hz samples max_bytes : Z)
    : M Session.t SdrError.t CaptureObservation.t :=
  let generation := plan.(ValidatedPlan.session_generation) in
  let feature_id := feature_id plan in
  start ← ask (T := StartResponse.t) "START_SESSION" (print_u generation) ;
  lift (check_start start generation) ;;
  Session.set_started true ;;
  profile ← ask (T := ProfileResponse.t) "APPLY_PROFILE"
              (profile_arguments generation center_hz sample_rate_hz rf_bandwidth_hz) ;
  lift (check_profile profile generation center_hz sample_rate_hz rf_bandwidth_hz) ;;
  capture ← ask (T := CaptureResponse.t) "CAPTURE_IQ"
              (capture_arguments generation samples max_bytes feature_id) ;
  lift (validate_capture_response capture generation samples max_bytes timeout_ms feature_id) ;;
  status ← ask (T := StatusResponse.t) "EXECUTION_STATUS" (print_u generation) ;
  lift (check_status status generation) ;;
  stop ← ask (T := StopResponse.t) "STOP_SESSION" (print_u generation) ;
  lift (check_stop stop generation) ;;
  Session.set_started false ;;
  quit ← ask (T := QuitResponse.t) "QUIT" "" ;
  lift (reject_if (negb quit.(QuitResponse.closing))
          (SdrError.new "quit_rejected" "SDRD did not close the session")) ;;
  lift (Ok {| CaptureObservation.candidate_id := candidate_id;
              CaptureObservation.feature_id := feature_id;
              CaptureObservation.relative_path := capture.(CaptureResponse.relative_path);
              CaptureObservation.samples_captured := capture.(CaptureResponse.samples_captured);
              CaptureObservation.bytes_written := capture.(CaptureResponse.bytes_written);
              CaptureObservation.sequence := capture.(CaptureResponse.sequence);
              CaptureObservation.dropped_samples := capture.(CaptureResponse.dropped_samples);
              CaptureObservation.overflow := capture.(CaptureResponse.overflow);
              CaptureObservation.timeout := capture.(CaptureResponse.timeout);
              CaptureObservation.health := capture.(CaptureResponse.health) |}).

(** What follows a failed closure: stop the session if it was started, then quit. *)
Definition cleanup (generation : Z) (s : Session.t) : Session.t :=
  let s :=
    if s.(Session.session_started) then
      Session.request_ignored env StopResponse.t "STOP_SESSION" (print_u generation) s
    else s in
  Session.request_ignored env QuitResponse.t "QUIT" "" s.

(** ** Looking at the radio again *)
Definition MAX_BUSY_RETRIES : Z := 20.

Definition is_busy (error : SdrError.t) : bool :=
  String.eqb error.(SdrError.code) "remote_error"
  && String.eqb error.(SdrError.message) "server_busy".

(** The loop over [attempt in 0..=MAX_BUSY_RETRIES]; [None] when it runs out. *)
Fixpoint observe_loop (attempts : list Z) (h : History)
    : option (result SdrError.t SdrSnapshot.t) * History :=
  match attempts with
  | [] => (None, h)
  | attempt :: attempts =>
      match SdrdAdapter.observe env h with
      | (Ok snapshot, h) => (Some (Ok snapshot), h)
      | (Err error, h) =>
          if is_busy error && (attempt <? MAX_BUSY_RETRIES) then
            observe_loop attempts (h ++ [ESleep 10])
          else (Some (Err error), h)
      end
  end.

(** The code panics ([unreachable!]) where this definition answers the last error. *)
Definition observe_after_worker_release (h : History)
    : result SdrError.t SdrSnapshot.t * History :=
  match observe_loop (seqZ 0 (MAX_BUSY_RETRIES + 1)) h with
  | (Some r, h) => (r, h)
  | (None, h) =>
      (Err (SdrError.new "unreachable" "bounded observe retry loop always returns"), h)
  end.

(** The closure and, when it fails, its cleanup. *)
Definition owned_session (plan : ValidatedPlan.t) (candidate_id : string)
    (center_hz sample_rate_hz rf_bandwidth_hz samples max_bytes : Z)
    : M SdrdWire.t SdrError.t CaptureObservation.t := fun wire =>
  match execution plan candidate_id center_hz sample_rate_hz rf_bandwidth_hz samples max_bytes
          (Session.mk wire false) with
  | (Ok capture, s) => (Ok capture, s.(Session.wire))
  | (Err error, s) =>
      (Err error, (cleanup plan.(ValidatedPlan.session_generation) s).(Session.wire))
  end.

(** What happens once the wire is connected, up to the end of the session. *)
Definition capture_session (plan : ValidatedPlan.t) (candidate_id : string)
    (center_hz sample_rate_hz rf_bandwidth_hz samples max_bytes : Z)
    : M SdrdWire.t SdrError.t CaptureObservation.t :=
  hello ← SdrdWire.request (T := HelloResponse.t) env "HELLO" "" ;
  lift (check_hello hello) ;;
  capabilities ← SdrdWire.request (T := CapabilitiesResponse.t) env "CAPABILITIES" "" ;
  lift (check_capabilities capabilities max_bytes) ;;
  owned_session plan candidate_id center_hz sample_rate_hz rf_bandwidth_hz samples max_bytes.

Definition execute_capture (plan : ValidatedPlan.t) (candidate_id : string)
    (center_hz sample_rate_hz rf_bandwidth_hz samples : Z) (h : History)
    : result SdrError.t ExecutionObservation.t * History :=
  match
    max_bytes ← ok_or (SdrError.new "capture_bytes" "IQ byte count overflow")
                  (checked_mul samples 4) ;
    reject_if (64 <=? len (feature_id plan))
      (SdrError.new "feature_id" "derived execution feature id exceeds the SDRD limit") ;;
    Ok max_bytes
  with
  | Err error => (Err error, h)
  | Ok max_bytes =>
      match SdrdWire.connect env h with
      | (Err error, h) => (Err error, h)
      | (Ok _, h) =>
          match capture_session plan candidate_id center_hz sample_rate_hz rf_bandwidth_hz samples
                  max_bytes (SdrdWire.fresh h) with
          | (Err error, wire) => (Err error, wire.(SdrdWire.history))
          | (Ok capture, wire) =>
              let (r, h) := observe_after_worker_release wire.(SdrdWire.history) in
              (post_execution_sdr ← r ;
               reject_if
                 (negb post_execution_sdr.(SdrSnapshot.online)
                  || negb post_execution_sdr.(SdrSnapshot.healthy))
                 (SdrError.new "post_execution_health"
                    "SDR is not healthy after execution and restoration") ;;
               Ok {| ExecutionObservation.request_id := plan.(ValidatedPlan.request_id);
                     ExecutionObservation.session_generation :=
                       plan.(ValidatedPlan.session_generation);
                     ExecutionObservation.capture := capture;
                     ExecutionObservation.post_execution_sdr := post_execution_sdr |},
               h)
          end
      end
  end.

Definition execute (plan : ValidatedPlan.t) (authorization : ExecutionAuthorization.t)
    (h : History) : result SdrError.t ExecutionObservation.t * History :=
  match validate_authorization plan authorization with
  | Err error => (Err error, h)
  | Ok _ =>
      match plan.(ValidatedPlan.action) with
      | ProposedAction.CaptureBoundedIq candidate_id center_hz sample_rate_hz rf_bandwidth_hz
          samples =>
          execute_capture plan candidate_id center_hz sample_rate_hz rf_bandwidth_hz samples h
      | _ =>
          (Err (SdrError.new "unsupported_action"
                  "this executor slice supports only capture_bounded_iq"), h)
      end
  end.

Definition cancel (session_generation : Z) (h : History)
    : result SdrError.t CancelObservation.t * History :=
  if session_generation =? 0 then
    (Err (SdrError.new "cancel_generation" "cancel generation must be non-zero"), h)
  else
    match SdrdWire.connect env h with
    | (Err error, h) => (Err error, h)
    | (Ok _, h) =>
        let (r, wire) :=
          SdrdWire.request (T := CancelResponse.t) env "CANCEL_SESSION" (print_u session_generation)
            (SdrdWire.fresh h) in
        (response ← r ;
         reject_if
           (negb (response.(CancelResponse.generation) =? session_generation)
            || negb (response.(CancelResponse.session_generation) =? session_generation)
            || negb response.(CancelResponse.cancel_requested))
           (SdrError.new "cancel_response"
              "SDRD did not acknowledge the requested generation cancellation") ;;
         Ok (CancelObservation.mk session_generation true),
         wire.(SdrdWire.history))
    end.

#[global] Instance executor : SdrActionExecutor History :=
  { execute := execute; cancel := cancel }.
End Adapter.
End SdrdActionAdapter.

(** The replay executor of the tests and simulations. *)
Module ReplayActionExecutor.
Record t `{Json} := mk { observations : list (result SdrError.t ExecutionObservation.t) }.

Definition execute `{Json} (plan : ValidatedPlan.t) (authorization : ExecutionAuthorization.t)
    (self : t) : result SdrError.t ExecutionObservation.t * t :=
  match validate_authorization plan authorization with
  | Err error => (Err error, self)
  | Ok _ =>
      match self.(observations) with
      | [] => (Err (SdrError.new "replay_exhausted" "no replay executions remain"), self)
      | r :: rest =>
          (observation ← r ;
           reject_if
             (negb (observation.(ExecutionObservation.request_id)
                    =? plan.(ValidatedPlan.request_id))
              || negb (observation.(ExecutionObservation.session_generation)
                       =? plan.(ValidatedPlan.session_generation)))
             (SdrError.new "replay_correlation"
                "replay observation does not match the validated plan") ;;
           Ok observation,
           mk _ rest)
      end
  end.

Definition cancel `{Json} (session_generation : Z) (self : t)
    : result SdrError.t CancelObservation.t * t :=
  (reject_if (session_generation =? 0)
     (SdrError.new "cancel_generation" "cancel generation must be non-zero") ;;
   Ok (CancelObservation.mk session_generation true),
   self).

#[global] Instance executor `{Json} : SdrActionExecutor t :=
  { execute := execute; cancel := cancel }.
End ReplayActionExecutor.

(** ** What a capture does to the radio *)
Section Lifecycle.
Context `{ExecutionFormat} (env : Environment) (timeout_millis : Z).
Context (plan : ValidatedPlan.t) (candidate_id : string)
  (center_hz sample_rate_hz rf_bandwidth_hz samples max_bytes : Z).
#[local] Abbreviation generation := plan.(ValidatedPlan.session_generation).
#[local] Abbreviation feature_id := (SdrdActionAdapter.feature_id plan).

(** The six commands of a complete session, in order. *)
Definition capture_script : list Action :=
  [Send "START_SESSION" (print_u generation);
   Send "APPLY_PROFILE"
     (SdrdActionAdapter.profile_arguments generation center_hz sample_rate_hz rf_bandwidth_hz);
   Send "CAPTURE_IQ"
     (SdrdActionAdapter.capture_arguments timeout_millis generation samples max_bytes feature_id);
   Send "EXECUTION_STATUS" (print_u generation);
   Send "STOP_SESSION" (print_u generation);
   Send "QUIT" ""].

(** What a returned capture satisfies. *)
Record CaptureContract (c : CaptureObservation.t) : Prop := {
  cc_candidate : c.(CaptureObservation.candidate_id) = candidate_id;
  cc_feature : c.(CaptureObservation.feature_id) = feature_id;
  cc_samples : c.(CaptureObservation.samples_captured) <= samples;
  cc_bytes : c.(CaptureObservation.bytes_written) = 4 * c.(CaptureObservation.samples_captured);
  cc_max : c.(CaptureObservation.bytes_written) <= max_bytes;
  cc_path : starts_with (feature_id +:+ "/") c.(CaptureObservation.relative_path) = true
            /\ contains ".." c.(CaptureObservation.relative_path) = false;
  cc_lossless : c.(CaptureObservation.dropped_samples) = 0
                /\ c.(CaptureObservation.overflow) = false;
  cc_timeout : c.(CaptureObservation.timeout).(ExecutionTimeoutMetadata.timed_out) = false
               /\ c.(CaptureObservation.timeout).(ExecutionTimeoutMetadata.limit_ms)
                  = Z.min timeout_millis 5000;
  cc_health : c.(CaptureObservation.health).(ExecutionHealthMetadata.healthy) = true
              /\ c.(CaptureObservation.health).(ExecutionHealthMetadata.flags) = 0;
}.

(** Run the closure one request further, keeping track of what was sent. *)
#[local] Ltac ask_step Hs Hrun :=
  rewrite bind_run in Hrun; unfold SdrdActionAdapter.ask in Hrun;
  match type of Hrun with
  | context [@Session.request ?J ?D ?e ?T ?DT ?E ?f ?c ?a ?s] =>
      let Eq := fresh "Eq" in
      destruct (@Session.request J D e T DT E f c a s) as [[?reply|?error] ?s'] eqn:Eq;
      eapply (sent_request env) in Eq; [|exact Hs|cbn; unfold u64_max; lia
                                        | |exact Hs|cbn; unfold u64_max; lia];
      clear Hs; rename Eq into Hs; cbn [app] in Hs
  end.
#[local] Ltac stop_at n Hs Hrun :=
  injection Hrun as <- <-; exists n; split; [lia|]; split; [exact Hs|discriminate].
#[local] Ltac guard_step n Hs Hrun :=
  rewrite lift_bind_run in Hrun;
  match type of Hrun with
  | match ?check with _ => _ end = _ => destruct check as [[]|?e] eqn:?; [|stop_at n Hs Hrun]
  end.

Lemma validate_capture_response_contract c u :
  validate_capture_response c generation samples max_bytes
    (SdrdActionAdapter.timeout_ms timeout_millis) feature_id = Ok u ->
  CaptureContract
    {| CaptureObservation.candidate_id := candidate_id;
       CaptureObservation.feature_id := feature_id;
       CaptureObservation.relative_path := c.(CaptureResponse.relative_path);
       CaptureObservation.samples_captured := c.(CaptureResponse.samples_captured);
       CaptureObservation.bytes_written := c.(CaptureResponse.bytes_written);
       CaptureObservation.sequence := c.(CaptureResponse.sequence);
       CaptureObservation.dropped_samples := c.(CaptureResponse.dropped_samples);
       CaptureObservation.overflow := c.(CaptureResponse.overflow);
       CaptureObservation.timeout := c.(CaptureResponse.timeout);
       CaptureObservation.health := c.(CaptureResponse.health) |}.
Proof.
  unfold validate_capture_response. rewrite bind_Ok. intros (shaped&Hs&Hc).
  apply ok_or_Ok, checked_mul_Some in Hs as [_ ->]. guards_in Hc.
  unfold SdrdActionAdapter.timeout_ms in Hc.
  decompose [and] Hc. constructor; cbn; auto; lia.
Qed.

Lemma execution_run s r s' :
  s.(Session.session_started) = false ->
  SdrdWire.next_request_id s.(Session.wire) = 3 ->
  SdrdActionAdapter.execution env timeout_millis plan candidate_id center_hz sample_rate_hz
    rf_bandwidth_hz samples max_bytes s = (r, s') ->
  exists n, (1 <= n <= 6)%nat
  /\ Sent s s' (take n capture_script) (Nat.leb 2 n && Nat.leb n 5)
  /\ forall c, r = Ok c -> n = 6%nat /\ CaptureContract c.
Proof.
  intros Hst Hid Hrun. unfold SdrdActionAdapter.execution in Hrun.
  pose proof (sent_refl s) as Hs. rewrite Hst in Hs.
  ask_step Hs Hrun; [|stop_at 1%nat Hs Hrun]. guard_step 1%nat Hs Hrun.
  rewrite bind_run in Hrun; cbn [Session.set_started] in Hrun.
  apply (sent_set_started _ _ _ _ true) in Hs.
  ask_step Hs Hrun; [|stop_at 2%nat Hs Hrun]. guard_step 2%nat Hs Hrun.
  ask_step Hs Hrun; [|stop_at 3%nat Hs Hrun]. guard_step 3%nat Hs Hrun.
  ask_step Hs Hrun; [|stop_at 4%nat Hs Hrun]. guard_step 4%nat Hs Hrun.
  ask_step Hs Hrun; [|stop_at 5%nat Hs Hrun]. guard_step 5%nat Hs Hrun.
  rewrite bind_run in Hrun; cbn [Session.set_started] in Hrun.
  apply (sent_set_started _ _ _ _ false) in Hs.
  ask_step Hs Hrun; [|stop_at 6%nat Hs Hrun]. guard_step 6%nat Hs Hrun.
  injection Hrun as <- <-. exists 6%nat. split; [lia|]. split; [exact Hs|].
  intros c [= <-]. split; [reflexivity|]. eapply validate_capture_response_contract. eassumption.
Qed.

(** What is sent after the closure failed having sent [n] commands. *)
Definition cleanup_script (n : nat) : list Action :=
  (if Nat.leb 2 n && Nat.leb n 5 then [Send "STOP_SESSION" (print_u generation)] else [])
  ++ [Send "QUIT" ""].

Lemma owned_session_run w r w' :
  SdrdWire.next_request_id w = 3 ->
  SdrdActionAdapter.owned_session env timeout_millis plan candidate_id center_hz sample_rate_hz
    rf_bandwidth_hz samples max_bytes w = (r, w') ->
  exists n, (1 <= n <= 6)%nat
  /\ SdrdWire.history w' = SdrdWire.history w
       ++ sends 3 (take n capture_script ++ if is_Ok r then [] else cleanup_script n)
  /\ forall c, r = Ok c -> n = 6%nat /\ CaptureContract c.
Proof.
  intros Hid. unfold SdrdActionAdapter.owned_session.
  destruct (SdrdActionAdapter.execution _ _ _ _ _ _ _ _ _ _) as [r0 s] eqn:Hx.
  apply execution_run in Hx as (n&Hn&Hs&Hok); [|reflexivity|exact Hid].
  destruct r0 as [c|e]; intros [= <- <-]; exists n; split; [exact Hn| |exact Hn|].
  - split; [|exact Hok]. cbn [is_Ok]. rewrite app_nil_r, (sent_history _ _ _ _ Hs). cbn.
    now rewrite Hid.
  - split; [|discriminate]. unfold SdrdActionAdapter.cleanup, cleanup_script.
    rewrite (sent_started _ _ _ _ Hs). pose proof (send_count_bound (take n capture_script)) as Hlen.
    unfold length_z in Hlen. rewrite length_take in Hlen. cbn [length capture_script] in Hlen.
    destruct (Nat.leb 2 n && Nat.leb n 5) eqn:E; cbn [is_Ok].
    + eapply (sent_ignored env StopResponse.t "STOP_SESSION" (print_u generation)) in Hs;
        [|cbn [Session.wire]; rewrite Hid; unfold u64_max; lia].
      eapply (sent_ignored env QuitResponse.t "QUIT" "") in Hs;
        [|rewrite send_count_app; cbn [Session.wire send_count]; rewrite Hid; unfold u64_max; lia].
      etransitivity; [exact (sent_history _ _ _ _ Hs)|]. cbn [Session.wire]. rewrite Hid.
      now rewrite <- app_assoc.
    + eapply (sent_ignored env QuitResponse.t "QUIT" "") in Hs;
        [|cbn [Session.wire]; rewrite Hid; unfold u64_max; lia].
      etransitivity; [exact (sent_history _ _ _ _ Hs)|]. cbn [Session.wire]. now rewrite Hid.
Qed.

#[local] Ltac refuse m Hrun :=
  left; exists m; split; [lia|]; injection Hrun as <- <-; split; [reflexivity|];
  repeat match goal with E : SdrdWire.history _ = _ |- _ => rewrite E; clear E end;
  rewrite <- ?app_assoc; cbn; repeat (f_equal; try lia).

Lemma capture_session_run w r w' :
  SdrdWire.next_request_id w = 1 ->
  SdrdActionAdapter.capture_session env timeout_millis plan candidate_id center_hz sample_rate_hz
    rf_bandwidth_hz samples max_bytes w = (r, w') ->
  let identify := [Send "HELLO" ""; Send "CAPABILITIES" ""] in
  (exists m, (m <= 2)%nat /\ is_Ok r = false
     /\ SdrdWire.history w' = SdrdWire.history w ++ sends 1 (take m identify))
  \/ exists n, (1 <= n <= 6)%nat
     /\ SdrdWire.history w' = SdrdWire.history w
          ++ sends 1 (identify ++ take n capture_script
                      ++ if is_Ok r then [] else cleanup_script n)
     /\ forall c, r = Ok c -> n = 6%nat /\ CaptureContract c.
Proof.
  intros Hid Hrun identify. unfold SdrdActionAdapter.capture_session in Hrun.
  step_request; [|refuse 1%nat Hrun].
  rewrite lift_bind_run in Hrun.
  destruct (SdrdActionAdapter.check_hello reply) as [[]|e]; [|refuse 1%nat Hrun].
  step_request; [|refuse 2%nat Hrun].
  rewrite lift_bind_run in Hrun.
  destruct (SdrdActionAdapter.check_capabilities _ _) as [[]|e]; [|refuse 2%nat Hrun].
  right. apply owned_session_run in Hrun as (n&Hn&Hh&Hok); [|lia].
  exists n. split; [exact Hn|]. split; [|exact Hok].
  rewrite Hh. repeat match goal with E : SdrdWire.history _ = _ |- _ => rewrite E; clear E end.
  rewrite <- !app_assoc, (sends_app 1 identify). cbn. repeat (f_equal; try lia).
Qed.
End Lifecycle.

(** ** Looking at the radio again *)

Definition read_only (e : Event) : Prop :=
  match e with
  | EConnect | ESleep _ => True
  | ESend _ command _ => command ∈ ["HELLO"; "CAPABILITIES"; "HEALTH"; "QUIT"]%string
  end.

Fixpoint connections (h : History) : nat :=
  match h with
  | [] => 0
  | EConnect :: h => S (connections h)
  | _ :: h => connections h
  end.

Lemma connections_app h1 h2 : connections (h1 ++ h2) = (connections h1 + connections h2)%nat.
Proof. induction h1 as [|[] h1 IH]; cbn; rewrite ?IH; reflexivity. Qed.

Lemma observe_events_read_only n : Forall read_only (take n observe_events).
Proof. apply Forall_take. repeat (apply list.Forall_cons; split); try exact I; [..|constructor]; cbn; set_solver. Qed.

Lemma observe_events_connections n : (connections (take n observe_events) <= 1)%nat.
Proof. do 6 (destruct n as [|n]; [cbn; lia|]). cbn; lia. Qed.

Lemma observe_loop_run `{ExecutionFormat} env attempts h o h' :
  (exists first, attempts = first ++ [SdrdActionAdapter.MAX_BUSY_RETRIES]) ->
  SdrdActionAdapter.observe_loop env attempts h = (o, h') ->
  is_none o = false
  /\ exists after, h' = h ++ after /\ Forall read_only after
     /\ (connections after <= length attempts)%nat.
Proof.
  revert h. induction attempts as [|a attempts IH]; intros h [first Hl]; [now destruct first|].
  cbn [SdrdActionAdapter.observe_loop]. destruct (SdrdAdapter.observe env h) as [[snapshot|e] h1] eqn:Ho.
  all: pose proof (observe_extends _ _ _ _ Ho) as (n&->&_).
  - intros [= <- <-]. split; [reflexivity|]. eexists. split; [reflexivity|].
    split; [apply observe_events_read_only|]. pose proof (observe_events_connections n). cbn [length]. lia.
  - destruct (SdrdActionAdapter.is_busy e && (a <? SdrdActionAdapter.MAX_BUSY_RETRIES)) eqn:E.
    + apply andb_true_iff in E as [_ Ha]. apply Z.ltb_lt in Ha. intros Hrun.
      apply IH in Hrun as (Hs&after&->&Hro&Hc).
      2: { destruct first as [|b first]; inversion Hl as [[Hb Hr]]; [rewrite Hb in Ha; lia|eauto]. }
      split; [exact Hs|]. exists (take n observe_events ++ ESleep 10 :: after).
      rewrite <- !app_assoc. split; [reflexivity|]. split.
      { apply Forall_app. split; [apply observe_events_read_only|]. now constructor. }
      rewrite connections_app. pose proof (observe_events_connections n). cbn. lia.
    + intros [= <- <-]. split; [reflexivity|]. eexists. split; [reflexivity|].
      split; [apply observe_events_read_only|]. pose proof (observe_events_connections n). cbn [length]. lia.
Qed.

Lemma observe_after_run `{ExecutionFormat} env h r h' :
  SdrdActionAdapter.observe_after_worker_release env h = (r, h') ->
  (exists o, SdrdActionAdapter.observe_loop env (seqZ 0 21) h = (Some o, h') /\ r = o)
  /\ exists after, h' = h ++ after /\ Forall read_only after /\ (connections after <= 21)%nat.
Proof.
  unfold SdrdActionAdapter.observe_after_worker_release.
  change (SdrdActionAdapter.MAX_BUSY_RETRIES + 1) with 21.
  destruct (SdrdActionAdapter.observe_loop env (seqZ 0 21) h) as [o h1] eqn:Ho.
  destruct (observe_loop_run env (seqZ 0 21) h o h1) as (Hs&after&->&Hro&Hc); [|exact Ho|].
  { exists (seqZ 0 20). vm_compute. reflexivity. }
  destruct o as [o|]; [|discriminate]. intros [= <- <-].
  split; [exists o; auto|]. exists after. auto.
Qed.

Lemma execute_capture_run `{ExecutionFormat} env timeout plan id center rate bandwidth samples h
    r h' :
  SdrdActionAdapter.execute_capture env timeout plan id center rate bandwidth samples h = (r, h') ->
  let script := capture_script timeout plan center rate bandwidth samples (samples * 4) in
  let identify := [Send "HELLO" ""; Send "CAPABILITIES" ""] in
  (is_Ok r = false /\ exists m, h' = h ++ take m (EConnect :: sends 1 identify))
  \/ (is_Ok r = false /\ exists n, (1 <= n <= 6)%nat
      /\ h' = h ++ EConnect :: sends 1 (identify ++ take n script ++ cleanup_script plan n))
  \/ (exists after, h' = h ++ EConnect :: sends 1 (identify ++ script) ++ after
      /\ Forall read_only after /\ (connections after <= 21)%nat
      /\ forall o, r = Ok o ->
         o.(ExecutionObservation.request_id) = plan.(ValidatedPlan.request_id)
         /\ o.(ExecutionObservation.session_generation) = plan.(ValidatedPlan.session_generation)
         /\ CaptureContract timeout plan id samples (samples * 4)
              o.(ExecutionObservation.capture)
         /\ o.(ExecutionObservation.post_execution_sdr).(SdrSnapshot.online) = true
         /\ o.(ExecutionObservation.post_execution_sdr).(SdrSnapshot.healthy) = true).
Proof.
  intros Hrun script identify. unfold SdrdActionAdapter.execute_capture in Hrun.
  destruct (_ ≫= _) as [max_bytes|e] eqn:Hpre.
  2: { injection Hrun as <- <-. left. split; [reflexivity|]. exists 0%nat. now rewrite app_nil_r. }
  apply bind_Ok in Hpre as (mb&Hmb&Hpre). apply ok_or_Ok, checked_mul_Some in Hmb as [_ ->].
  apply reject_seq in Hpre as [_ [= <-]].
  destruct (SdrdWire.connect env h) as [[u|e] h1] eqn:Hc; apply connect_history in Hc as ->.
  2: { injection Hrun as <- <-. left. split; [reflexivity|]. now exists 1%nat. }
  destruct (SdrdActionAdapter.capture_session _ _ _ _ _ _ _ _ _ _) as [[c|e] w] eqn:Hs;
    apply capture_session_run in Hs as [(m&Hm&Hf&Hh)|(n&Hn&Hh&Hok)]; try reflexivity;
    cbn [SdrdWire.fresh SdrdWire.history is_Ok] in *.
  - discriminate.
  - right. right. destruct (Hok c eq_refl) as [-> Hcc].
    destruct (SdrdActionAdapter.observe_after_worker_release _ _) as [ro h2] eqn:Ho.
    injection Hrun as <- <-. apply observe_after_run in Ho as (_&after&->&Hro&Hcon).
    exists after. rewrite Hh, app_nil_r, <- !app_assoc. split; [reflexivity|].
    split; [exact Hro|]. split; [exact Hcon|]. intros o Hr.
    apply bind_Ok in Hr as (snapshot&_&Hr). guards_in Hr. destruct Hr as ([Hon Hhe]&[= <-]).
    cbn. auto.
  - injection Hrun as <- <-. left. split; [reflexivity|]. exists (S m). rewrite Hh, <- app_assoc.
    do 2 f_equal. cbn. f_equal.
    do 3 (destruct m as [|m]; [reflexivity|]). lia.
  - injection Hrun as <- <-. right. left. split; [reflexivity|]. exists n. split; [exact Hn|].
    now rewrite Hh, <- app_assoc.
Qed.

(** ** Properties *)

(** Nothing reaches the radio without a valid authorization: if [execute] so much as
    opens a connection, the plan is a bounded capture, the authorization names the plan's request
    and session, and a plan that requires approval was approved by an operator. *)
Theorem execute_needs_authorization `{ExecutionFormat} env timeout plan authorization h r h' :
  SdrdActionAdapter.execute env timeout plan authorization h = (r, h') ->
  h' <> h \/ is_Ok r = true ->
  authorization.(ExecutionAuthorization.request_id) = plan.(ValidatedPlan.request_id)
  /\ authorization.(ExecutionAuthorization.session_generation)
     = plan.(ValidatedPlan.session_generation)
  /\ (plan.(ValidatedPlan.approval_required) = true ->
      authorization.(ExecutionAuthorization.operator_approved) = true)
  /\ exists id center rate bandwidth samples,
       plan.(ValidatedPlan.action)
       = ProposedAction.CaptureBoundedIq id center rate bandwidth samples.
Proof.
  unfold SdrdActionAdapter.execute.
  destruct (validate_authorization plan authorization) as [u|e] eqn:Ha.
  - intros Hrun Hdone. unfold validate_authorization in Ha. guards_in Ha.
    destruct Ha as ([? ?]&Ha). split_and!; auto.
    + intros Hr. rewrite Hr in Ha. cbn in Ha. destruct Ha as [[=]|Ha]. exact Ha.
    + destruct (ValidatedPlan.action plan); try (injection Hrun as <- <-; cbn in Hdone;
        destruct Hdone; congruence). eauto 10.
  - intros [= <- <-] [?|[=]]. congruence.
Qed.

(** C12: the life of a capture session, for every behaviour of the daemon and the network:
    either the session is never requested (connect, HELLO, CAPABILITIES or less), or it failed
    after [n] of its commands and was cleaned up, by STOP_SESSION when it had been accepted and not
    yet stopped and by QUIT in any case, or it ran START, APPLY_PROFILE, CAPTURE_IQ,
    EXECUTION_STATUS, STOP and QUIT, after which only read-only observations follow, over at most
    21 connections.  An observation is returned only in the last case, for this plan, of at most
    the requested samples, lossless, in a path below the plan's own directory, with the radio
    healthy afterwards. *)
Theorem execute_capture_lifecycle `{ExecutionFormat} env timeout plan id center rate bandwidth
    samples h r h' :
  SdrdActionAdapter.execute_capture env timeout plan id center rate bandwidth samples h = (r, h') ->
  let script := capture_script timeout plan center rate bandwidth samples (samples * 4) in
  let identify := [Send "HELLO" ""; Send "CAPABILITIES" ""] in
  (is_Ok r = false /\ exists m, h' = h ++ take m (EConnect :: sends 1 identify))
  \/ (is_Ok r = false /\ exists n, (1 <= n <= 6)%nat
      /\ h' = h ++ EConnect :: sends 1 (identify ++ take n script ++ cleanup_script plan n))
  \/ (exists after, h' = h ++ EConnect :: sends 1 (identify ++ script) ++ after
      /\ Forall read_only after /\ (connections after <= 21)%nat
      /\ forall o, r = Ok o ->
         o.(ExecutionObservation.request_id) = plan.(ValidatedPlan.request_id)
         /\ o.(ExecutionObservation.session_generation) = plan.(ValidatedPlan.session_generation)
         /\ CaptureContract timeout plan id samples (samples * 4)
              o.(ExecutionObservation.capture)
         /\ o.(ExecutionObservation.post_execution_sdr).(SdrSnapshot.online) = true
         /\ o.(ExecutionObservation.post_execution_sdr).(SdrSnapshot.healthy) = true).
Proof. apply execute_capture_run. Qed.

(** The observation after a capture always ends and never reaches the panic behind the
    retry loop: it opens at most 21 connections, does nothing but observe and sleep, and its
    answer is the one of the loop. *)
Theorem observe_after_release_terminates `{ExecutionFormat} env h :
  exists o h', SdrdActionAdapter.observe_loop env (seqZ 0 21) h = (Some o, h')
  /\ SdrdActionAdapter.observe_after_worker_release env h = (o, h')
  /\ exists after, h' = h ++ after /\ Forall read_only after /\ (connections after <= 21)%nat.
Proof.
  destruct (SdrdActionAdapter.observe_after_worker_release env h) as [r h'] eqn:Ho.
  destruct (observe_after_run _ _ _ _ Ho) as ((o&Hl&->)&after). eauto.
Qed.

(** ** A daemon that carries the sample capture out *)
Module ExecutionSamples.
Definition timeout_meta : ExecutionTimeoutMetadata.t := ExecutionTimeoutMetadata.mk 2000 900 false.
Definition health_meta : ExecutionHealthMetadata.t :=
  ExecutionHealthMetadata.mk true 0 "iio_adapter".

#[local] Instance format : @ExecutionFormat SdrSamples.json :=
  @Build_ExecutionFormat SdrSamples.json SdrSamples.format
    (fun _ => Ok (HelloResponse.mk "p201-sdrd" "SDRD/1" "controlled" true))
    (fun _ => Ok (CapabilitiesResponse.mk "controlled" true true true 262144))
    (fun _ => Ok (StartResponse.mk 3 3 "owned" true))
    (fun _ => Ok (ProfileResponse.mk 3 3 2437000000 30720000 10000000 "slow_attack" 1))
    (fun _ => Ok (CaptureResponse.mk 3 3 "agent-3-7" 1024 4096 1 0 false timeout_meta health_meta
                    "agent-3-7/iq.bin"))
    (fun _ => Ok (StatusResponse.mk 3 3 true true true false))
    (fun _ => Ok (StopResponse.mk 3 3 true true))
    (fun _ => Ok (QuitResponse.mk true))
    (fun _ => Ok (CancelResponse.mk 3 3 true)).

Definition plan : ValidatedPlan.t :=
  ValidatedPlan.mk 7 3 false
    (ProposedAction.CaptureBoundedIq "sweep-1-1" 2437000000 30720000 10000000 1024)
    (PlannerMeta.mk "local" "rules").
Definition authorization : ExecutionAuthorization.t := ExecutionAuthorization.mk 7 3 false.

Definition run : result SdrError.t ExecutionObservation.t * History :=
  @SdrdActionAdapter.execute SdrSamples.json format SdrSamples.environment 2000 plan authorization [].
Definition run_capture : result SdrError.t ExecutionObservation.t * History :=
  @SdrdActionAdapter.execute_capture SdrSamples.json format SdrSamples.environment 2000 plan
    "sweep-1-1" 2437000000 30720000 10000000 1024 [].
End ExecutionSamples.

Lemma execute_needs_authorization_witness :
  is_Ok ExecutionSamples.run.1 = true
  /\ ExecutionSamples.authorization.(ExecutionAuthorization.request_id) = 7.
Proof.
  split; [vm_compute; reflexivity|].
  destruct (@execute_needs_authorization SdrSamples.json ExecutionSamples.format
              SdrSamples.environment 2000 ExecutionSamples.plan ExecutionSamples.authorization []
              ExecutionSamples.run.1 ExecutionSamples.run.2) as (H&_).
  - vm_compute. reflexivity.
  - right. vm_compute. reflexivity.
  - exact H.
Defined.

Lemma execute_capture_lifecycle_witness :
  exists o, ExecutionSamples.run_capture.1 = Ok o
  /\ CaptureContract 2000 ExecutionSamples.plan "sweep-1-1" 1024 (1024 * 4)
       o.(ExecutionObservation.capture).
Proof.
  destruct (@execute_capture_lifecycle SdrSamples.json ExecutionSamples.format
              SdrSamples.environment 2000 ExecutionSamples.plan "sweep-1-1" 2437000000 30720000
              10000000 1024 [] ExecutionSamples.run_capture.1 ExecutionSamples.run_capture.2)
    as [[Hf _]|[[Hf _]|(after&_&_&_&Hok)]].
  - vm_compute. reflexivity.
  - exfalso. vm_compute in Hf. discriminate.
  - exfalso. vm_compute in Hf. discriminate.
  - eexists. split; [vm_compute; reflexivity|].
    refine (proj1 (proj2 (proj2 (Hok _ _)))). vm_compute. reflexivity.
Defined.
