(* ===== verification/SweepPlan.v ===== *)
(** * Sweep plans and reports

    The pure half of [controller/src/sweep.rs]: expanding and validating a sweep
    plan, checking the points a backend returned, the noise floor, the
    candidates, and the observations handed to the planner.  The SDRD session
    that acquires the points is in [SweepRun]. *)
From S2P Require Import Prelude Text F32 Protocol Policy Sdr Execution.

Definition MAX_POINTS : Z := 768.
Definition MAX_DURATION_MS : Z := 300000.
Definition MAX_PLANNER_CANDIDATE_BANDWIDTH_HZ : Z := 10000000.

Module SweepFrequencies.
Inductive t :=
| Range (start_hz stop_hz step_hz : Z)
| Centers (centers_hz : list Z).

Definition wf (f : t) : Prop :=
  match f with
  | Range start stop step => is_u64 start /\ is_u64 stop /\ is_u64 step
  | Centers centers => Forall (fun c => is_u64 c) centers
  end.
End SweepFrequencies.

Module SweepPlan.
Record t := mk {
  sweep_id : string;
  session_generation : Z;
  frequencies : SweepFrequencies.t;
  sample_rate_hz : Z;
  rf_bandwidth_hz : Z;
  settle_ms : Z;
  frame_samples : Z;
  aggregate_frames : Z;
  point_timeout_ms : Z;
  detection_threshold_db : float;
  gain_db : option Z;
}.

Definition wf (p : t) : Prop :=
  is_u64 p.(session_generation) /\ SweepFrequencies.wf p.(frequencies)
  /\ is_u64 p.(sample_rate_hz) /\ is_u64 p.(rf_bandwidth_hz) /\ is_u64 p.(settle_ms)
  /\ is_u32 p.(frame_samples) /\ is_u32 p.(aggregate_frames) /\ is_u32 p.(point_timeout_ms).
End SweepPlan.

Module ValidatedSweepPlan.
Record t := mk {
  sweep_id : string;
  session_generation : Z;
  centers_hz : list Z;
  sample_rate_hz : Z;
  rf_bandwidth_hz : Z;
  settle_ms : Z;
  frame_samples : Z;
  aggregate_frames : Z;
  point_timeout_ms : Z;
  detection_threshold_db : float;
  gain_db : option Z;
  estimated_duration_ms : Z;
  maximum_summary_bytes : Z;
}.
End ValidatedSweepPlan.

Module SweepPoint.
Record t := mk {
  point_index : Z;
  request_id : Z;
  session_generation : Z;
  requested_center_hz : Z;
  actual_center_hz : Z;
  sample_rate_hz : Z;
  rf_bandwidth_hz : Z;
  sequence : Z;
  dropped_samples : Z;
  overflow : bool;
  captured_samples : Z;
  band_power_dbfs : float;
  clipped_samples : Z;
  status_flags : Z;
  elapsed_us : Z;
  timeout : ExecutionTimeoutMetadata.t;
  health : ExecutionHealthMetadata.t;
}.
End SweepPoint.

Module SweepCandidate.
Record t := mk {
  id : string;
  start_hz : Z;
  stop_hz : Z;
  center_hz : Z;
  bandwidth_hz : Z;
  peak_dbfs : float;
  snr_db : float;
  point_count : Z;
}.
End SweepCandidate.

Module SweepDataset.
Record t := mk {
  format : string; datatype : string; data_path : string; metadata_path : string; bytes : Z;
}.
End SweepDataset.

Module SweepReport.
Record t := mk {
  sweep_id : string;
  session_generation : Z;
  backend : string;
  backend_version : Z;
  estimated_duration_ms : Z;
  elapsed_ms : Z;
  noise_floor_dbfs : float;
  points : list SweepPoint.t;
  candidates : list SweepCandidate.t;
  dataset : option SweepDataset.t;
}.
End SweepReport.

Module BackendSweep.
Record t := mk {
  backend : string;
  backend_version : Z;
  points : list SweepPoint.t;
  dataset : option SweepDataset.t;
}.
End BackendSweep.

(** [SweepError] keeps the JSON details of the [SdrError] it may come from. *)
Module SweepError.
Record t `{Json} := mk { code : string; message : string; details : option Value }.
Definition new `{Json} (code message : string) : t := mk _ code message None.
Definition from_sdr `{Json} (error : SdrError.t) : t :=
  mk _ error.(SdrError.code) error.(SdrError.message) error.(SdrError.details).
(** The [Display] of an error; [show] is the one of a JSON value. *)
Definition display `{Json} (show : Value -> string) (e : t) : string :=
  e.(code) +:+ ": " +:+ e.(message)
  +:+ match e.(details) with Some d => " metadata=" +:+ show d | None => "" end.
End SweepError.

(** ** Lists as the code walks them *)

(** [slice::windows(2)]. *)
Fixpoint windows2 {A} (l : list A) : list (A * A) :=
  match l with
  | x :: ((y :: _) as rest) => (x, y) :: windows2 rest
  | _ => []
  end.

(** [iter().enumerate()]. *)
Definition enumerate {A} (l : list A) : list (nat * A) := imap (fun i x => (i, x)) l.

(** ** Validating a plan *)
Section Plan.
Context `{Json}.

(** The loop of [expand_centers]: [centers] is the vector, [center] the cursor.
    [None] when the fuel runs out, which [expand_loop_total] excludes. *)
Fixpoint expand_loop (fuel : nat) (centers : list Z) (center stop_hz step_hz : Z)
    : option (result SweepError.t (list Z)) :=
  match fuel with
  | O => None
  | S fuel =>
      let centers := centers ++ [center] in
      if center =? stop_hz then Some (Ok centers)
      else
        match checked_add center step_hz with
        | None => Some (Err (SweepError.new "frequency_range" "frequency range overflow"))
        | Some next =>
            let center := Z.min next stop_hz in
            if MAX_POINTS <? length_z centers then
              Some (Err (SweepError.new "frequency_range"
                           "range must contain at most 768 points"))
            else expand_loop fuel centers center stop_hz step_hz
        end
  end.

(** The vector never grows beyond [MAX_POINTS + 1], so 769 rounds are enough. *)
Definition EXPAND_FUEL : nat := 769.

Definition expand_centers (frequencies : SweepFrequencies.t) : result SweepError.t (list Z) :=
  match frequencies with
  | SweepFrequencies.Centers centers_hz => Ok centers_hz
  | SweepFrequencies.Range start_hz stop_hz step_hz =>
      if (stop_hz <? start_hz) || (step_hz =? 0) then
        Err (SweepError.new "frequency_range"
               "range requires start <= stop and a positive step")
      else
        match expand_loop EXPAND_FUEL [] start_hz stop_hz step_hz with
        | Some r => r
        | None => Err (SweepError.new "fuel" "")
        end
  end.

Definition safe_id (sweep_id : string) : bool :=
  negb (is_empty sweep_id) && (len sweep_id <? 64)
  && forallb (fun value => is_ascii_alphanumeric value || (value =? 45) || (value =? 95))
       (bytes sweep_id).

Definition validate_plan (plan : SweepPlan.t) : result SweepError.t ValidatedSweepPlan.t :=
  reject_if (negb (safe_id plan.(SweepPlan.sweep_id)))
    (SweepError.new "sweep_id"
       "sweep id must be a safe non-empty identifier shorter than 64 bytes") ;;
  reject_if (plan.(SweepPlan.session_generation) =? 0)
    (SweepError.new "session_generation" "session generation must be non-zero") ;;
  centers_hz ← expand_centers plan.(SweepPlan.frequencies) ;
  reject_if (null centers_hz || (MAX_POINTS <? length_z centers_hz))
    (SweepError.new "point_count" "sweep must contain between one and 768 points") ;;
  reject_if
    (existsb (fun pair => pair.2 <=? pair.1) (windows2 centers_hz)
     || existsb (fun center => negb (in_range 70000000 6000000000 center)) centers_hz)
    (SweepError.new "frequencies"
       "sweep centers must be unique, ascending, and between 70 MHz and 6 GHz") ;;
  reject_if
    (negb (in_range 2100000 30720000 plan.(SweepPlan.sample_rate_hz))
     || negb (in_range 200000 56000000 plan.(SweepPlan.rf_bandwidth_hz))
     || (plan.(SweepPlan.sample_rate_hz) <? plan.(SweepPlan.rf_bandwidth_hz)))
    (SweepError.new "radio_profile"
       "sample rate or RF bandwidth is outside the controlled profile") ;;
  reject_if
    match plan.(SweepPlan.gain_db) with
    | Some gain_db => negb (in_range 0 60 gain_db)
    | None => false
    end
    (SweepError.new "gain" "manual sweep gain must be between 0 and 60 dB") ;;
  reject_if
    ((1 <? length_z centers_hz)
     && existsb (fun pair => saturating_mul plan.(SweepPlan.rf_bandwidth_hz) 4 / 5
                             <? sub64 pair.2 pair.1)
          (windows2 centers_hz))
    (SweepError.new "coverage_gap" "sweep step exceeds 80 percent of RF bandwidth") ;;
  reject_if
    ((1000 <? plan.(SweepPlan.settle_ms))
     || negb (in_range 64 65535 plan.(SweepPlan.frame_samples))
     || (plan.(SweepPlan.aggregate_frames) =? 0)
     || (65535 <? plan.(SweepPlan.aggregate_frames))
     || negb (in_range 1 5000 plan.(SweepPlan.point_timeout_ms))
     || negb (is_finite plan.(SweepPlan.detection_threshold_db))
     || negb (f_in_range (f32_of_Z 1) (f32_of_Z 60) plan.(SweepPlan.detection_threshold_db)))
    (SweepError.new "summary_profile"
       "settle, frame, aggregate, timeout, or threshold is outside limits") ;;
  point_ms ←
    ok_or (SweepError.new "duration" "sweep duration overflow")
      (checked_add plan.(SweepPlan.settle_ms) plan.(SweepPlan.point_timeout_ms)) ;
  estimated_duration_ms ←
    ok_or (SweepError.new "duration" "sweep duration overflow")
      (checked_mul point_ms (length_z centers_hz)) ;
  reject_if (MAX_DURATION_MS <? estimated_duration_ms)
    (SweepError.new "duration" "estimated sweep duration exceeds 300 seconds") ;;
  Ok {| ValidatedSweepPlan.sweep_id := plan.(SweepPlan.sweep_id);
        ValidatedSweepPlan.session_generation := plan.(SweepPlan.session_generation);
        ValidatedSweepPlan.centers_hz := centers_hz;
        ValidatedSweepPlan.sample_rate_hz := plan.(SweepPlan.sample_rate_hz);
        ValidatedSweepPlan.rf_bandwidth_hz := plan.(SweepPlan.rf_bandwidth_hz);
        ValidatedSweepPlan.settle_ms := plan.(SweepPlan.settle_ms);
        ValidatedSweepPlan.frame_samples := plan.(SweepPlan.frame_samples);
        ValidatedSweepPlan.aggregate_frames := plan.(SweepPlan.aggregate_frames);
        ValidatedSweepPlan.point_timeout_ms := plan.(SweepPlan.point_timeout_ms);
        ValidatedSweepPlan.detection_threshold_db := plan.(SweepPlan.detection_threshold_db);
        ValidatedSweepPlan.gain_db := plan.(SweepPlan.gain_db);
        ValidatedSweepPlan.estimated_duration_ms := estimated_duration_ms;
        ValidatedSweepPlan.maximum_summary_bytes := MAX_POINTS * 256 |}.
End Plan.

(** ** The points a backend returned *)
Section Report.
Context `{Json}.

Definition point_violates (plan : ValidatedSweepPlan.t) (center : Z) (index : Z)
    (previous_sequence : option Z) (point : SweepPoint.t) : bool :=
  negb (point.(SweepPoint.point_index) =? index)
  || (point.(SweepPoint.request_id) =? 0)
  || negb (point.(SweepPoint.session_generation) =? plan.(ValidatedSweepPlan.session_generation))
  || negb (point.(SweepPoint.requested_center_hz) =? center)
  || (2 <? abs_diff point.(SweepPoint.actual_center_hz) center)
  || negb (point.(SweepPoint.sample_rate_hz) =? plan.(ValidatedSweepPlan.sample_rate_hz))
  || negb (point.(SweepPoint.rf_bandwidth_hz) =? plan.(ValidatedSweepPlan.rf_bandwidth_hz))
  || negb (is_finite point.(SweepPoint.band_power_dbfs))
  || negb (point.(SweepPoint.dropped_samples) =? 0)
  || point.(SweepPoint.overflow)
  || negb (point.(SweepPoint.status_flags) =? 0)
  || (point.(SweepPoint.timeout).(ExecutionTimeoutMetadata.limit_ms) =? 0)
  || point.(SweepPoint.timeout).(ExecutionTimeoutMetadata.timed_out)
  || negb (point.(SweepPoint.timeout).(ExecutionTimeoutMetadata.elapsed_us)
           =? point.(SweepPoint.elapsed_us))
  || negb point.(SweepPoint.health).(ExecutionHealthMetadata.healthy)
  || negb (point.(SweepPoint.health).(ExecutionHealthMetadata.flags)
           =? point.(SweepPoint.status_flags))
  || is_empty point.(SweepPoint.health).(ExecutionHealthMetadata.source)
  || match previous_sequence with
     | Some previous => point.(SweepPoint.sequence) <=? previous
     | None => false
     end.

(** The loop over the points; [centers_hz[index]] walks along, the lengths
    having been compared first. *)
Fixpoint check_points (plan : ValidatedSweepPlan.t) (centers : list Z) (index : Z)
    (previous_sequence : option Z) (points : list SweepPoint.t) : result SweepError.t unit :=
  match points, centers with
  | point :: points, center :: centers =>
      reject_if (point_violates plan center index previous_sequence point)
        (SweepError.new "point_contract" "backend point violates the sweep result contract") ;;
      check_points plan centers (index + 1) (Some point.(SweepPoint.sequence)) points
  | _, _ => Ok tt
  end.

Definition validate_points (plan : ValidatedSweepPlan.t) (points : list SweepPoint.t)
    : result SweepError.t unit :=
  reject_if
    (negb (length_z points =? length_z plan.(ValidatedSweepPlan.centers_hz)))
    (SweepError.new "point_count" "backend point count does not match the validated plan") ;;
  check_points plan plan.(ValidatedSweepPlan.centers_hz) 0 None points.

(** ** The noise floor *)

Definition median_power_dbfs (points : list SweepPoint.t) : result SweepError.t float :=
  let powers := sort_floats (map SweepPoint.band_power_dbfs points) in
  ok_or (SweepError.new "noise_floor" "sweep returned no powers")
    (powers !! (length powers / 2)%nat).

(** ** Candidates *)

(** The indices whose power reaches the threshold. *)
Definition active_indices (plan : ValidatedSweepPlan.t) (points : list SweepPoint.t)
    (noise_floor_dbfs : float) : list nat :=
  omap (fun '(index, point) =>
          if f_ge point.(SweepPoint.band_power_dbfs)
               (f32_add noise_floor_dbfs plan.(ValidatedSweepPlan.detection_threshold_db))
          then Some index else None)
    (enumerate points).

(** The loop that joins adjacent indices into ranges. *)
Fixpoint join_ranges (active : list nat) (start stop : nat) (ranges : list (nat * nat))
    : list (nat * nat) :=
  match active with
  | [] => ranges ++ [(start, stop)]
  | index :: active =>
      if Nat.eqb index (stop + 1) then join_ranges active start index ranges
      else join_ranges active index index (ranges ++ [(start, stop)])
  end.

(** [Iterator::max_by]: the later of two equal elements wins. *)
Definition max_by_power (first : SweepPoint.t) (rest : list SweepPoint.t) : SweepPoint.t :=
  foldl (fun best point =>
           match float_cmp best.(SweepPoint.band_power_dbfs)
                   point.(SweepPoint.band_power_dbfs) with
           | Gt => best
           | _ => point
           end) first rest.

(** [points[start..=stop]]; the code panics where this answers [None]. *)
Definition slice {A} (l : list A) (start stop : nat) : list A :=
  take (stop + 1 - start) (drop start l).

Definition candidate_of (plan : ValidatedSweepPlan.t) (points : list SweepPoint.t)
    (noise_floor_dbfs : float) (candidate_index start stop : nat) : option SweepCandidate.t :=
  match slice points start stop, points !! start, points !! stop with
  | first :: rest, Some first_point, Some last_point =>
      let peak := max_by_power first rest in
      let edge := plan.(ValidatedSweepPlan.rf_bandwidth_hz) / 2 in
      let start_hz := saturating_sub first_point.(SweepPoint.actual_center_hz) edge in
      let stop_hz := saturating_add last_point.(SweepPoint.actual_center_hz) edge in
      Some {| SweepCandidate.id :=
                plan.(ValidatedSweepPlan.sweep_id) +:+ "-"
                +:+ print_u (Z.of_nat candidate_index + 1);
              SweepCandidate.start_hz := start_hz;
              SweepCandidate.stop_hz := stop_hz;
              SweepCandidate.center_hz := peak.(SweepPoint.actual_center_hz);
              SweepCandidate.bandwidth_hz := saturating_sub stop_hz start_hz;
              SweepCandidate.peak_dbfs := peak.(SweepPoint.band_power_dbfs);
              SweepCandidate.snr_db :=
                f32_sub peak.(SweepPoint.band_power_dbfs) noise_floor_dbfs;
              SweepCandidate.point_count := Z.of_nat (stop - start + 1) |}
  | _, _, _ => None
  end.

Definition merge_ranges (plan : ValidatedSweepPlan.t) (points : list SweepPoint.t)
    (noise_floor_dbfs : float) : list (nat * nat) :=
  match active_indices plan points noise_floor_dbfs with
  | [] => []
  | first :: rest => join_ranges rest first first []
  end.

(** [omap] stands for [map]: [merge_candidates_spec] shows that no candidate
    is lost. *)
Definition merge_candidates (plan : ValidatedSweepPlan.t) (points : list SweepPoint.t)
    (noise_floor_dbfs : float) : list SweepCandidate.t :=
  omap (fun '(candidate_index, (start, stop)) =>
          candidate_of plan points noise_floor_dbfs candidate_index start stop)
    (enumerate (take (Z.to_nat MAX_CANDIDATES) (merge_ranges plan points noise_floor_dbfs))).

(** ** What the planner is shown *)
Definition planner_observation (self : SweepReport.t) (age_ms : Z) (health : HealthSummary.t)
    (fixed_gain_db : Z) : ObservationSummary.t :=
  {| ObservationSummary.age_ms := age_ms;
     ObservationSummary.health := health;
     ObservationSummary.candidates :=
       map (fun candidate =>
              {| CandidateSummary.id := candidate.(SweepCandidate.id);
                 CandidateSummary.center_hz := candidate.(SweepCandidate.center_hz);
                 CandidateSummary.bandwidth_hz :=
                   Z.min candidate.(SweepCandidate.bandwidth_hz)
                     MAX_PLANNER_CANDIDATE_BANDWIDTH_HZ;
                 CandidateSummary.peak_dbfs := candidate.(SweepCandidate.peak_dbfs);
                 CandidateSummary.snr_db := candidate.(SweepCandidate.snr_db);
                 CandidateSummary.age_ms := age_ms |})
         (take (Z.to_nat MAX_CANDIDATES) self.(SweepReport.candidates));
     ObservationSummary.latest_sweep :=
       match self.(SweepReport.points) with
       | [] => None
       | point :: _ =>
           Some {| SweepObservationSummary.sweep_id := self.(SweepReport.sweep_id);
                   SweepObservationSummary.sample_rate_hz := point.(SweepPoint.sample_rate_hz);
                   SweepObservationSummary.rf_bandwidth_hz := point.(SweepPoint.rf_bandwidth_hz);
                   SweepObservationSummary.fixed_gain_db := fixed_gain_db;
                   SweepObservationSummary.noise_floor_dbfs :=
                     self.(SweepReport.noise_floor_dbfs);
                   SweepObservationSummary.points :=
                     map (fun point => (point.(SweepPoint.actual_center_hz),
                                        point.(SweepPoint.band_power_dbfs)))
                       self.(SweepReport.points) |}
       end;
     ObservationSummary.recognition := None |}.

(** The first candidate with the given id replaced by its inspection. *)
Fixpoint update_candidate (candidate_id : string) (point : SweepPoint.t)
    (candidates : list CandidateSummary.t) : option (list CandidateSummary.t) :=
  match candidates with
  | [] => None
  | candidate :: rest =>
      if String.eqb candidate.(CandidateSummary.id) candidate_id then
        let prior_noise_floor_dbfs :=
          f32_sub candidate.(CandidateSummary.peak_dbfs) candidate.(CandidateSummary.snr_db) in
        Some ({| CandidateSummary.id := candidate.(CandidateSummary.id);
                 CandidateSummary.center_hz := point.(SweepPoint.actual_center_hz);
                 CandidateSummary.bandwidth_hz := point.(SweepPoint.rf_bandwidth_hz);
                 CandidateSummary.peak_dbfs := point.(SweepPoint.band_power_dbfs);
                 CandidateSummary.snr_db :=
                   f_max (f32_sub point.(SweepPoint.band_power_dbfs) prior_noise_floor_dbfs)
                     (f32_of_Z 0);
                 CandidateSummary.age_ms := 0 |} :: rest)
      else
        rest' ← update_candidate candidate_id point rest ;
        Some (candidate :: rest')
  end.

Definition age_candidate (elapsed_ms : Z) (candidate : CandidateSummary.t) : CandidateSummary.t :=
  CandidateSummary.mk candidate.(CandidateSummary.id) candidate.(CandidateSummary.center_hz)
    candidate.(CandidateSummary.bandwidth_hz) candidate.(CandidateSummary.peak_dbfs)
    candidate.(CandidateSummary.snr_db)
    (saturating_add candidate.(CandidateSummary.age_ms) elapsed_ms).

Definition planner_inspection_observation (self : SweepReport.t)
    (previous : ObservationSummary.t) (candidate_id : string) (health : HealthSummary.t)
    : result SweepError.t ObservationSummary.t :=
  match self.(SweepReport.points) with
  | [point] =>
      candidates ←
        ok_or (SweepError.new "inspection_candidate"
                 "inspected candidate is absent from the prior observation")
          (update_candidate candidate_id point
             (map (age_candidate self.(SweepReport.elapsed_ms))
                previous.(ObservationSummary.candidates))) ;
      Ok {| ObservationSummary.age_ms := 0;
            ObservationSummary.health := health;
            ObservationSummary.candidates := candidates;
            ObservationSummary.latest_sweep := previous.(ObservationSummary.latest_sweep);
            ObservationSummary.recognition := None |}
  | _ =>
      Err (SweepError.new "inspection_points"
             "candidate inspection must return exactly one summary point")
  end.
End Report.

(** ** The engine *)

(** The trait [SweepBackend]. *)
Class SweepBackend `{Json} (B : Type) :=
  run_points : ValidatedSweepPlan.t -> B -> result SweepError.t BackendSweep.t * B.

Module SweepEngine.
(** [SweepEngine::run]; [elapsed] is what the monotonic clock shows afterwards,
    in milliseconds. *)
Definition run `{SweepBackend B} (elapsed : B -> Z) (plan : SweepPlan.t) (backend : B)
    : result SweepError.t SweepReport.t * B :=
  match validate_plan plan with
  | Err error => (Err error, backend)
  | Ok validated =>
      let (r, backend') := run_points validated backend in
      (b ← r ;
       validate_points validated b.(BackendSweep.points) ;;
       noise_floor_dbfs ← median_power_dbfs b.(BackendSweep.points) ;
       Ok {| SweepReport.sweep_id := validated.(ValidatedSweepPlan.sweep_id);
             SweepReport.session_generation := validated.(ValidatedSweepPlan.session_generation);
             SweepReport.backend := b.(BackendSweep.backend);
             SweepReport.backend_version := b.(BackendSweep.backend_version);
             SweepReport.estimated_duration_ms :=
               validated.(ValidatedSweepPlan.estimated_duration_ms);
             SweepReport.elapsed_ms := Z.min (elapsed backend') u64_max;
             SweepReport.noise_floor_dbfs := noise_floor_dbfs;
             SweepReport.points := b.(BackendSweep.points);
             SweepReport.candidates :=
               merge_candidates validated b.(BackendSweep.points) noise_floor_dbfs;
             SweepReport.dataset := b.(BackendSweep.dataset) |},
       backend')
  end.
End SweepEngine.

Module ReplaySweepAdapter.
Record t `{Json} := mk { sweeps : list (result SweepError.t BackendSweep.t) }.

Definition run_points `{Json} (_ : ValidatedSweepPlan.t) (self : t)
    : result SweepError.t BackendSweep.t * t :=
  match self.(sweeps) with
  | sweep :: rest => (sweep, mk _ rest)
  | [] => (Err (SweepError.new "replay_exhausted" "no replay sweeps remain"), self)
  end.

#[global] Instance backend `{Json} : SweepBackend t := run_points.
End ReplaySweepAdapter.

(** ** Expanding a range *)
Section Expand.
Context `{Json} (start stop step : Z).

(** The first [k] centers of the range, not yet clamped. *)
Definition grid (k : nat) : list Z := map (fun i => start + Z.of_nat i * step) (seq 0 k).

Lemma grid_S k : grid (S k) = grid k ++ [start + Z.of_nat k * step].
Proof. unfold grid. now rewrite seq_S, map_app. Qed.

Lemma grid_length k : length (grid k) = k.
Proof. unfold grid. now rewrite length_map, length_seq. Qed.

Context (Hstep : 0 < step) (Hrange : 0 <= start <= stop) (Hmax : stop + step <= u64_max).

Lemma expand_loop_grid fuel k n :
  covers (stop - start) step n -> (k <= 768)%nat -> (769 <= fuel + k)%nat ->
  (k = 0%nat \/ start + Z.of_nat (k - 1) * step < stop) ->
  expand_loop fuel (grid k) (Z.min (start + Z.of_nat k * step) stop) stop step
  = Some (if n <=? 769 then Ok (grid (Z.to_nat (n - 1)) ++ [stop])
          else Err (SweepError.new "frequency_range" "range must contain at most 768 points")).
Proof.
  intros [Hn1 Hn2]. revert k. induction fuel as [|fuel IH]; intros k Hk Hf Hprev; [lia|].
  cbn [expand_loop]. destruct (Z.eqb_spec (Z.min (start + Z.of_nat k * step) stop) stop) as [E|E].
  - assert (n = Z.of_nat k + 1) as ->.
    { destruct (Z.lt_trichotomy n (Z.of_nat k + 1)) as [Hc|[Hc|Hc]]; [|exact Hc|].
      - exfalso. destruct Hprev as [->|Hprev]; [cbn in *; nia|].
        assert (Z.of_nat (k - 1) < n - 1) by nia. lia.
      - exfalso. assert (Z.of_nat k * step <= (n - 2) * step) by nia. lia. }
    rewrite E, (proj2 (Z.leb_le _ _)) by lia. do 4 f_equal. lia.
  - assert (Hlt : start + Z.of_nat k * step < stop) by lia.
    rewrite Z.min_l by lia. unfold checked_add.
    rewrite (proj2 (Z.leb_le (start + Z.of_nat k * step + step) u64_max)) by lia. rewrite <- grid_S. unfold length_z, MAX_POINTS.
    rewrite grid_length. destruct (Z.ltb_spec 768 (Z.of_nat (S k))) as [Hl|Hl].
    + assert (Z.of_nat k < n - 1) by nia.
      rewrite (proj2 (Z.leb_gt n 769)) by lia. reflexivity.
    + replace (start + Z.of_nat k * step + step) with (start + Z.of_nat (S k) * step) by lia.
      apply IH; lia.
Qed.
End Expand.

Lemma expand_loop_total `{Json} fuel centers center stop step :
  (length centers <= 768)%nat -> (769 <= fuel + length centers)%nat ->
  is_none (expand_loop fuel centers center stop step) = false.
Proof.
  revert centers center. induction fuel as [|fuel IH]; intros centers center Hc Hf; [lia|].
  cbn [expand_loop]. case_match; [reflexivity|]. case_match; [|reflexivity].
  match goal with |- context [if ?b then _ else _] => destruct b eqn:Hl end; [reflexivity|].
  apply IH; rewrite length_app; cbn;
    guards_in Hl; unfold length_z, MAX_POINTS in Hl; rewrite length_app in Hl; cbn in Hl; lia.
Qed.

Lemma expand_centers_grid `{Json} start stop step n :
  0 < step -> 0 <= start <= stop -> stop + step <= u64_max -> covers (stop - start) step n ->
  expand_centers (SweepFrequencies.Range start stop step)
  = if n <=? 769 then Ok (grid start step (Z.to_nat (n - 1)) ++ [stop])
    else Err (SweepError.new "frequency_range" "range must contain at most 768 points").
Proof.
  intros Hs Hr Hm Hn. unfold expand_centers.
  rewrite (proj2 (Z.ltb_ge stop start)), (proj2 (Z.eqb_neq step 0)) by lia. cbn [orb].
  pose proof (expand_loop_grid start stop step Hs Hr Hm EXPAND_FUEL 0 n Hn
                ltac:(lia) ltac:(unfold EXPAND_FUEL; lia) ltac:(now left)) as E.
  cbn [grid seq map Z.of_nat] in E. rewrite Z.mul_0_l, Z.add_0_r, Z.min_l in E by lia.
  unfold grid in E at 1. cbn [seq map] in E. now rewrite E.
Qed.

(** ** Ascending lists *)
Lemma windows2_sorted (l : list Z) :
  existsb (fun pair => pair.2 <=? pair.1) (windows2 l) = false <-> StronglySorted Z.lt l.
Proof.
  induction l as [|x [|y l] IH]; [split; auto; constructor|split; auto; repeat constructor|].
  change (windows2 (x :: y :: l)) with ((x, y) :: windows2 (y :: l)). cbn [existsb fst snd].
  rewrite orb_false_iff, Z.leb_gt, IH. split.
  - intros [Hxy Hs]. constructor; [exact Hs|]. apply StronglySorted_inv in Hs as [_ Hy].
    constructor; [lia|]. revert Hy. apply Forall_impl. lia.
  - intros Hs. apply StronglySorted_inv in Hs as [Hs Hx]. split; [now inversion Hx|exact Hs].
Qed.

Lemma existsb_false {A} (p : A -> bool) l :
  existsb p l = false <-> Forall (fun x => p x = false) l.
Proof.
  induction l as [|x l IH]; cbn; [split; auto|].
  rewrite orb_false_iff, IH, list.Forall_cons. reflexivity.
Qed.

Lemma windows2_elem {A} (l : list A) p : p ∈ windows2 l -> p.1 ∈ l /\ p.2 ∈ l.
Proof.
  induction l as [|x [|y l] IH]; [intros H; inversion H..|].
  change (windows2 (x :: y :: l)) with ((x, y) :: windows2 (y :: l)).
  intros [->|Hp]%elem_of_cons; cbn; [split; [left|right; left]|].
  destruct (IH Hp). split; now right.
Qed.

(** ** What a valid plan is *)

(** The id is usable as a file name: 1 to 63 letters, digits, '-' or '_'. *)
Definition SafeId (id : string) : Prop :=
  1 <= len id <= 63
  /\ forall b, b ∈ bytes id -> is_ascii_alphanumeric b = true \/ b = 45 \/ b = 95.

Record PlanOk (p : SweepPlan.t) (centers : list Z) : Prop := {
  po_id : SafeId p.(SweepPlan.sweep_id);
  po_generation : p.(SweepPlan.session_generation) <> 0;
  po_count : 1 <= length_z centers <= 768;
  po_ascending : StronglySorted Z.lt centers;
  po_band : Forall (fun c => 70000000 <= c <= 6000000000) centers;
  po_radio : 2100000 <= p.(SweepPlan.sample_rate_hz) <= 30720000
             /\ 200000 <= p.(SweepPlan.rf_bandwidth_hz) <= p.(SweepPlan.sample_rate_hz);
  po_gain : forall g, p.(SweepPlan.gain_db) = Some g -> 0 <= g <= 60;
  po_coverage : Forall (fun w => 5 * (w.2 - w.1) <= 4 * p.(SweepPlan.rf_bandwidth_hz))
                  (windows2 centers);
  po_settle : p.(SweepPlan.settle_ms) <= 1000;
  po_frame : 64 <= p.(SweepPlan.frame_samples) <= 65535;
  po_aggregate : 1 <= p.(SweepPlan.aggregate_frames) <= 65535;
  po_timeout : 1 <= p.(SweepPlan.point_timeout_ms) <= 5000;
  po_threshold : is_finite p.(SweepPlan.detection_threshold_db) = true
                 /\ f_le (f32_of_Z 1) p.(SweepPlan.detection_threshold_db) = true
                 /\ f_le p.(SweepPlan.detection_threshold_db) (f32_of_Z 60) = true;
  po_duration : length_z centers * (p.(SweepPlan.settle_ms) + p.(SweepPlan.point_timeout_ms))
                <= 300000;
}.

(** The validated plan of a plan and its expanded centers. *)
Definition validated_of (p : SweepPlan.t) (centers : list Z) : ValidatedSweepPlan.t :=
  ValidatedSweepPlan.mk p.(SweepPlan.sweep_id) p.(SweepPlan.session_generation) centers
    p.(SweepPlan.sample_rate_hz) p.(SweepPlan.rf_bandwidth_hz) p.(SweepPlan.settle_ms)
    p.(SweepPlan.frame_samples) p.(SweepPlan.aggregate_frames) p.(SweepPlan.point_timeout_ms)
    p.(SweepPlan.detection_threshold_db) p.(SweepPlan.gain_db)
    (length_z centers * (p.(SweepPlan.settle_ms) + p.(SweepPlan.point_timeout_ms))) 196608.

Lemma len_empty s : is_empty s = false <-> 1 <= len s.
Proof. destruct s; unfold len, length_z; cbn; split; try lia; congruence. Qed.

Lemma safe_id_spec id : safe_id id = true <-> SafeId id.
Proof.
  unfold safe_id, SafeId. guards. rewrite len_empty, forallb_elem.
  assert (Hb : forall b, is_ascii_alphanumeric b || (b =? 45) || (b =? 95) = true
                    <-> is_ascii_alphanumeric b = true \/ b = 45 \/ b = 95).
  { intros b. guards. tauto. }
  split.
  - intros [? Hall]. split; [lia|]. intros b Hin. now apply Hb, Hall.
  - intros [? Hall]. split; [lia|]. intros b Hin. now apply Hb, Hall.
Qed.

(** An identifier made of a prefix and a number. *)
Lemma printed_id_safe prefix n :
  SafeId prefix -> len prefix <= 40 -> is_u64 n -> SafeId (prefix +:+ print_u n).
Proof.
  intros [Hlen Hsafe] Hmax Hn. destruct (print_u_digits n Hn) as [Hd Hl].
  split.
  - rewrite len_app. pose proof (length_z_nonneg (bytes (print_u n))). unfold len in *. lia.
  - intros b. rewrite bytes_app, elem_of_app. intros [Hb|Hb]; [auto|].
    rewrite list.Forall_forall in Hd. apply Hd in Hb. left.
    unfold is_ascii_alphanumeric, in_range. rewrite (proj2 (Z.leb_le 48 b)) by lia.
    now rewrite (proj2 (Z.leb_le b 57)) by lia.
Qed.

Lemma windows2_single {A} (l : list A) : length_z l <= 1 -> windows2 l = [].
Proof. destruct l as [|x [|y l]]; unfold length_z; cbn; try reflexivity. lia. Qed.

Lemma coverage_windows bandwidth centers :
  0 <= bandwidth <= 1000000000000 ->
  StronglySorted Z.lt centers -> Forall (fun c => 70000000 <= c <= 6000000000) centers ->
  length_z centers <= 1
  \/ existsb (fun pair => saturating_mul bandwidth 4 / 5 <? sub64 pair.2 pair.1)
       (windows2 centers) = false
  <-> Forall (fun w => 5 * (w.2 - w.1) <= 4 * bandwidth) (windows2 centers).
Proof.
  intros Hbw Hs Hb. rewrite <- windows2_sorted, existsb_false, list.Forall_forall in Hs.
  rewrite list.Forall_forall in Hb.
  assert (Heq : existsb (fun pair => saturating_mul bandwidth 4 / 5 <? sub64 pair.2 pair.1)
                  (windows2 centers) = false
                <-> Forall (fun w => 5 * (w.2 - w.1) <= 4 * bandwidth) (windows2 centers)).
  { rewrite existsb_false, !list.Forall_forall.
    assert (Hone : forall w, w ∈ windows2 centers ->
              (saturating_mul bandwidth 4 / 5 <? sub64 w.2 w.1) = false
              <-> 5 * (w.2 - w.1) <= 4 * bandwidth).
    { intros w Hw. destruct (windows2_elem _ _ Hw) as [H1 H2]. apply Hb in H1, H2.
      specialize (Hs w Hw). cbn in Hs. apply Z.leb_gt in Hs.
      rewrite Z.ltb_ge, sub64_small by (unfold u64_max; lia). apply coverage_spec. lia. }
    split; intros Hall w Hw; apply (Hone w Hw), Hall, Hw. }
  rewrite Heq. split; [intros [Hl|Hw]|auto]; [now rewrite windows2_single|exact Hw].
Qed.

Lemma validate_plan_spec `{Json} p v :
  SweepPlan.wf p ->
  validate_plan p = Ok v <->
  exists centers, expand_centers p.(SweepPlan.frequencies) = Ok centers
  /\ PlanOk p centers /\ v = validated_of p centers.
Proof.
  intros (_&_&Hr&Hb&Hs&Hf&Ha&Ht). unfold is_u, u64_max, u32_max in *.
  unfold validate_plan. guards. rewrite safe_id_spec, bind_Ok. split.
  - intros (Hid&Hg&centers&He&Hrest). guards_in Hrest. unfold MAX_POINTS in Hrest.
    destruct Hrest as ((Hne&Hcount)&(Hasc&Hband)&((?&?)&?)&Hgain&Hcov&(((((?&?)&?)&?)&Hfin)&Hth)&Hrest).
    assert (Hsorted : StronglySorted Z.lt centers) by (now apply windows2_sorted).
    assert (Hin : Forall (fun c => 70000000 <= c <= 6000000000) centers).
    { apply existsb_false in Hband. revert Hband. apply Forall_impl. intros c Hc.
      now guards_in Hc. }
    rewrite coverage_windows in Hcov by (auto; lia).
    apply bind_Ok in Hrest as (pm&Hpm&Hrest). apply ok_or_Ok, checked_add_Some in Hpm as [_ ->].
    apply bind_Ok in Hrest as (d&Hd&Hrest). apply ok_or_Ok, checked_mul_Some in Hd as [_ ->].
    guards_in Hrest. unfold MAX_DURATION_MS in Hrest. destruct Hrest as [Hdur [= <-]].
    exists centers. split; [exact He|]. split.
    + constructor; auto; try lia.
      * destruct centers; [contradiction|]. unfold length_z in *. cbn [length] in *. lia.
      * intros g Hg'. rewrite Hg' in Hgain. now guards_in Hgain.
      * unfold f_in_range in Hth. guards_in Hth. tauto.
    + unfold validated_of. f_equal; lia.
  - intros (centers&He&Hok&->). destruct Hok.
    split; [assumption|]. split; [assumption|]. exists centers. split; [exact He|].
    guards. unfold MAX_POINTS, f_in_range. guards.
    rewrite coverage_windows by (auto; lia).
    rewrite windows2_sorted, existsb_false.
    split; [split; [intros E; rewrite E in *; unfold length_z in *; cbn in *; lia|lia]|].
    split; [split; [assumption|revert po_band0; apply Forall_impl; intros c Hc; now guards]|].
    split; [lia|].
    split; [destruct (SweepPlan.gain_db p); [guards; now apply po_gain0|reflexivity]|].
    split; [assumption|]. split; [split_and!; try tauto; lia|].
    apply bind_Ok. eexists. split; [apply ok_or_Ok, checked_add_Some; split; [|reflexivity];
      unfold u64_max; lia|].
    apply bind_Ok. eexists. split; [apply ok_or_Ok, checked_mul_Some; split; [|reflexivity];
      unfold u64_max; lia|].
    guards. unfold MAX_DURATION_MS. split; [lia|]. unfold validated_of. do 2 f_equal. lia.
Qed.

(** ** What valid points are *)
Record PointOk (v : ValidatedSweepPlan.t) (center index : Z) (p : SweepPoint.t) : Prop := {
  pt_index : p.(SweepPoint.point_index) = index;
  pt_request : p.(SweepPoint.request_id) <> 0;
  pt_generation : p.(SweepPoint.session_generation) = v.(ValidatedSweepPlan.session_generation);
  pt_requested : p.(SweepPoint.requested_center_hz) = center;
  pt_actual : Z.abs (p.(SweepPoint.actual_center_hz) - center) <= 2;
  pt_rate : p.(SweepPoint.sample_rate_hz) = v.(ValidatedSweepPlan.sample_rate_hz);
  pt_bandwidth : p.(SweepPoint.rf_bandwidth_hz) = v.(ValidatedSweepPlan.rf_bandwidth_hz);
  pt_power : is_finite p.(SweepPoint.band_power_dbfs) = true;
  pt_lossless : p.(SweepPoint.dropped_samples) = 0 /\ p.(SweepPoint.overflow) = false;
  pt_flags : p.(SweepPoint.status_flags) = 0
             /\ p.(SweepPoint.health).(ExecutionHealthMetadata.flags) = 0
             /\ p.(SweepPoint.health).(ExecutionHealthMetadata.healthy) = true
             /\ p.(SweepPoint.health).(ExecutionHealthMetadata.source) <> EmptyString;
  pt_timeout : p.(SweepPoint.timeout).(ExecutionTimeoutMetadata.limit_ms) <> 0
               /\ p.(SweepPoint.timeout).(ExecutionTimeoutMetadata.timed_out) = false
               /\ p.(SweepPoint.timeout).(ExecutionTimeoutMetadata.elapsed_us)
                  = p.(SweepPoint.elapsed_us);
}.

Lemma point_violates_spec v center index prev p :
  point_violates v center index prev p = false <->
  PointOk v center index p
  /\ match prev with Some q => q < p.(SweepPoint.sequence) | None => True end.
Proof.
  unfold point_violates, abs_diff. guards.
  assert (Hprev : match prev with Some q => p.(SweepPoint.sequence) <=? q | None => false end
                  = false
                  <-> match prev with Some q => q < p.(SweepPoint.sequence) | None => True end).
  { destruct prev; [apply Z.leb_gt|tauto]. }
  assert (Hsrc : is_empty p.(SweepPoint.health).(ExecutionHealthMetadata.source) = false
                 <-> p.(SweepPoint.health).(ExecutionHealthMetadata.source) <> EmptyString).
  { rewrite <- not_true_iff_false, is_empty_spec. tauto. }
  rewrite Hprev, Hsrc. split.
  - intros H. decompose [and] H. split; [|assumption]. constructor; auto; try lia;
      split_and!; auto; congruence.
  - intros [[] ?]. decompose [and] pt_flags0. decompose [and] pt_timeout0.
    decompose [and] pt_lossless0. split_and!; auto; congruence.
Qed.

Lemma check_points_spec `{Json} v centers index prev points u :
  length points = length centers ->
  check_points v centers index prev points = Ok u <->
  (forall i p c, points !! i = Some p -> centers !! i = Some c ->
     PointOk v c (index + Z.of_nat i) p)
  /\ StronglySorted Z.lt (map SweepPoint.sequence points)
  /\ match prev with
     | Some q => Forall (Z.lt q) (map SweepPoint.sequence points)
     | None => True
     end.
Proof.
  destruct u. revert centers index prev.
  induction points as [|p points IH]; intros [|c centers] index prev Hlen; cbn in Hlen; try lia.
  - cbn. split; [|reflexivity]. intros _. split; [intros [|i]; discriminate|].
    split; [constructor|]. now destruct prev.
  - cbn [check_points map]. rewrite reject_seq, point_violates_spec, IH by lia. split.
    + intros ([Hp Hprev]&Hall&Hs&Hlt). split.
      { intros [|i] p' c'; cbn; [intros [= <-] [= <-]; now rewrite Z.add_0_r|].
        intros H1 H2. replace (index + Z.of_nat (S i)) with (index + 1 + Z.of_nat i) by lia.
        eauto. }
      split; [now constructor|]. destruct prev as [q|]; [|exact I].
      constructor; [exact Hprev|]. revert Hlt. apply Forall_impl. intros a; lia.
    + intros (Hall&Hs&Hprev). apply StronglySorted_inv in Hs as [Hs Hlt].
      split; [split|split].
      * specialize (Hall 0%nat p c eq_refl eq_refl). now rewrite Z.add_0_r in Hall.
      * destruct prev; [now inversion Hprev|exact I].
      * intros i p' c' H1 H2. specialize (Hall (S i) p' c' H1 H2).
        now replace (index + 1 + Z.of_nat i) with (index + Z.of_nat (S i)) by lia.
      * auto.
Qed.

Lemma validate_points_spec `{Json} v points u :
  validate_points v points = Ok u <->
  length points = length v.(ValidatedSweepPlan.centers_hz)
  /\ (forall i p c, points !! i = Some p -> v.(ValidatedSweepPlan.centers_hz) !! i = Some c ->
        PointOk v c (Z.of_nat i) p)
  /\ StronglySorted Z.lt (map SweepPoint.sequence points).
Proof.
  unfold validate_points. rewrite reject_seq. guards. unfold length_z. rewrite Nat2Z.inj_iff.
  split.
  - intros [Hl Hc]. rewrite check_points_spec in Hc by exact Hl. tauto.
  - intros (Hl&?&?). split; [exact Hl|]. rewrite check_points_spec by exact Hl. tauto.
Qed.

(** ** The noise floor *)

(** The element at the middle of the sorted powers splits them. *)
Lemma median_splits `{Json} points m :
  Forall (fun p => is_finite p.(SweepPoint.band_power_dbfs) = true) points ->
  median_power_dbfs points = Ok m ->
  exists below above,
    Permutation (map SweepPoint.band_power_dbfs points) (below ++ m :: above)
    /\ length below = (length points / 2)%nat
    /\ Forall (fun x => f_leq x m) below /\ Forall (f_leq m) above.
Proof.
  intros Hfin Hm. unfold median_power_dbfs in Hm. apply ok_or_Ok in Hm.
  set (powers := map SweepPoint.band_power_dbfs points) in *.
  assert (Hnan : Forall (fun y => is_nan y = false) powers).
  { apply Forall_map. revert Hfin. apply Forall_impl. intros p. apply is_finite_not_nan. }
  pose proof (sort_floats_sorted powers Hnan) as Hs. pose proof (sort_floats_perm powers) as Hp.
  apply list_elem_of_split_length in Hm as (below&above&Hsplit&Hlen).
  exists below, above. rewrite Hsplit in *. split; [now symmetry|]. split.
  - rewrite <- Hlen. f_equal. rewrite (Permutation_length Hp). unfold powers. apply length_map.
  - clear -Hs. induction below as [|x below IH]; cbn in Hs.
    + apply StronglySorted_inv in Hs as [_ Hs]. split; [constructor|exact Hs].
    + apply StronglySorted_inv in Hs as [Hs Hx]. destruct (IH Hs) as [Hb Ha].
      split; [|exact Ha]. constructor; [|exact Hb]. rewrite list.Forall_forall in Hx.
      apply Hx. set_solver.
Qed.

(** ** Candidates *)

(** [ranges] are the maximal runs of consecutive members of [L]. *)
Record MaximalRuns (L : nat -> Prop) (ranges : list (nat * nat)) : Prop := {
  mr_run : forall s e, (s, e) ∈ ranges ->
    (s <= e)%nat /\ (forall i, (s <= i <= e)%nat -> L i)
    /\ ~ L (S e) /\ (forall j, S j = s -> ~ L j);
  mr_all : forall i, L i -> exists s e, (s, e) ∈ ranges /\ (s <= i <= e)%nat;
  mr_order : StronglySorted (fun r1 r2 => (S r1.2 < r2.1)%nat) ranges;
}.

Lemma join_ranges_app active s e ranges :
  join_ranges active s e ranges = ranges ++ join_ranges active s e [].
Proof.
  revert s e ranges. induction active as [|i active IH]; intros s e ranges; cbn; [reflexivity|].
  destruct (Nat.eqb i (e + 1)); [apply IH|].
  rewrite IH, (IH i i [(s, e)]), <- app_assoc. reflexivity.
Qed.

Lemma join_ranges_runs active s e :
  (s <= e)%nat -> StronglySorted lt active -> Forall (fun i => (e < i)%nat) active ->
  MaximalRuns (fun i => (s <= i <= e)%nat \/ i ∈ active) (join_ranges active s e []).
Proof.
  revert s e. induction active as [|i active IH]; intros s e Hse Hs Hall; cbn.
  - split.
    + intros s' e' [[= -> ->]|H]%elem_of_cons; [|inversion H].
      split; [lia|]. split; [auto|]. split; [|intros j <-]; intros [?|H]; try lia; inversion H.
    + intros j [Hj|H]; [|inversion H]. exists s, e. split; [left|exact Hj].
    + repeat constructor.
  - apply StronglySorted_inv in Hs as [Hs Hi]. apply list.Forall_cons in Hall as [Hie Hall].
    destruct (Nat.eqb_spec i (e + 1)) as [->|Hne].
    + assert (Hgt : Forall (fun j => (e + 1 < j)%nat) active) by exact Hi.
      assert (Heq : forall j, (s <= j <= e + 1)%nat \/ j ∈ active
                         <-> (s <= j <= e)%nat \/ j ∈ (e + 1)%nat :: active).
      { intros j. rewrite elem_of_cons. destruct (decide (j = (e + 1)%nat)) as [->|];
          [split; [tauto|left; lia]|].
        split; [intros [?|?]; [left; lia|tauto]|intros [?|[?|?]]; [left; lia|lia|tauto]]. }
      destruct (IH s (e + 1)%nat ltac:(lia) Hs Hgt) as [H1 H2 H3]. split; [..|exact H3].
      * intros s' e' Hin. destruct (H1 _ _ Hin) as (?&?&?&?).
        split; [assumption|]. split; [intros; apply Heq; auto|].
        split; [rewrite <- Heq; assumption|intros j Hj; rewrite <- Heq; auto].
      * intros j Hj. apply H2, Heq, Hj.
    + rewrite join_ranges_app. cbn [app].
      destruct (IH i i ltac:(lia) Hs Hi) as [H1 H2 H3].
      rewrite list.Forall_forall in Hi.
      assert (Hlow : forall j, (i <= j <= i)%nat \/ j ∈ active -> (i <= j)%nat).
      { intros j [?|Hj]; [lia|]. apply Hi in Hj. lia. }
      assert (Heq : forall j, j ∈ i :: active <-> (i <= j <= i)%nat \/ j ∈ active).
      { intros j. rewrite elem_of_cons. split; intros [?|?]; try tauto; left; lia. }
      assert (Hfar : forall s' e', (s', e') ∈ join_ranges active i i [] -> (i <= s')%nat).
      { intros s' e' Hin. destruct (H1 _ _ Hin) as (?&Hr&_). apply Hlow, Hr. lia. }
      split.
      * intros s' e' [[= -> ->]|Hin]%elem_of_cons.
        { split; [lia|]. split; [auto|]. setoid_rewrite Heq.
          split; [intros [?|Hj]; [lia|apply Hlow in Hj; lia]|].
          intros j <- [?|Hj]; [lia|apply Hlow in Hj; lia]. }
        destruct (H1 _ _ Hin) as (?&Hr&He&Hj'). pose proof (Hfar _ _ Hin).
        split; [assumption|]. setoid_rewrite Heq. split; [auto|].
        split; [intros [?|?]; [lia|auto]|intros j <- [?|?]; [lia|eapply Hj'; eauto]].
      * intros j. rewrite Heq. intros [Hj|Hj].
        { exists s, e. split; [left|exact Hj]. }
        destruct (H2 j Hj) as (s'&e'&Hin&?). exists s', e'. split; [now right|assumption].
      * constructor; [exact H3|]. rewrite list.Forall_forall. intros [s' e'] Hin. cbn.
        apply Hfar in Hin. lia.
Qed.

Lemma omap_total {A B} (f : A -> option B) l :
  (forall x, x ∈ l -> exists y, f x = Some y) -> Forall2 (fun x y => f x = Some y) l (omap f l).
Proof.
  induction l as [|x l IH]; intros Hf; cbn; [constructor|].
  destruct (Hf x ltac:(left)) as [y Hy]. rewrite Hy. constructor; [exact Hy|].
  apply IH. intros z Hz. apply Hf. now right.
Qed.

Section Candidates.
Context (v : ValidatedSweepPlan.t) (points : list SweepPoint.t) (noise : float).

(** Point [i] reaches the detection threshold above the noise floor. *)
Definition Active (i : nat) : Prop :=
  exists p, points !! i = Some p
  /\ f_le (f32_add noise v.(ValidatedSweepPlan.detection_threshold_db))
       p.(SweepPoint.band_power_dbfs) = true.

Lemma active_from (k : nat) (l : list SweepPoint.t) :
  let active := omap (fun '(index, point) =>
          if f_ge point.(SweepPoint.band_power_dbfs)
               (f32_add noise v.(ValidatedSweepPlan.detection_threshold_db))
          then Some index else None) (imap (fun i x => ((k + i)%nat, x)) l) in
  StronglySorted lt active
  /\ forall i, i ∈ active <-> exists j p, i = (k + j)%nat /\ l !! j = Some p
       /\ f_le (f32_add noise v.(ValidatedSweepPlan.detection_threshold_db))
            p.(SweepPoint.band_power_dbfs) = true.
Proof.
  revert k. induction l as [|p l IH]; intros k; cbn.
  - split; [constructor|]. intros i. split; [intros H; inversion H|intros (j&?&_&[=]&_)].
  - assert (Hext : imap ((fun i x => ((k + i)%nat, x)) ∘ S) l
                   = imap (fun i x => ((S k + i)%nat, x)) l).
    { apply imap_ext. intros i x _. cbn. f_equal. lia. }
    rewrite Hext. destruct (IH (S k)) as [Hs Hin]. unfold f_ge in *.
    rewrite Nat.add_0_r.
    destruct (SFleb _ _) eqn:Hp.
    + split.
      * constructor; [exact Hs|]. rewrite list.Forall_forall. intros i Hi.
        apply Hin in Hi as (j&q&->&_). lia.
      * intros i. rewrite elem_of_cons, Hin. split.
        { intros [->|(j&q&->&Hq&Ha)]; [exists 0%nat, p|exists (S j), q]; split_and!; auto; lia. }
        intros ([|j]&q&->&Hq&Ha); [left; lia|right; exists j, q; split_and!; auto; lia].
    + split; [exact Hs|]. intros i. rewrite Hin. split.
      * intros (j&q&->&Hq&Ha). exists (S j), q. split_and!; auto; lia.
      * intros ([|j]&q&->&Hq&Ha); [injection Hq as <-; unfold f_le in Ha; congruence|].
        exists j, q. split_and!; auto; lia.
Qed.

Lemma merge_ranges_runs : MaximalRuns Active (merge_ranges v points noise).
Proof.
  unfold merge_ranges, active_indices, enumerate.
  destruct (active_from 0 points) as [Hs Hin]. cbn [Nat.add] in Hs, Hin.
  assert (HA : forall i, Active i <-> i ∈ omap (fun '(index, point) =>
          if f_ge point.(SweepPoint.band_power_dbfs)
               (f32_add noise v.(ValidatedSweepPlan.detection_threshold_db))
          then Some index else None) (imap (fun i x => (i, x)) points)).
  { intros i. rewrite Hin. unfold Active. split; [intros (p&?&?); eauto|intros (j&p&->&?); eauto]. }
  destruct (omap _ _) as [|first rest].
  - split; [intros s e H; inversion H|intros i Hi; apply HA in Hi; inversion Hi|constructor].
  - apply StronglySorted_inv in Hs as [Hs Hf].
    destruct (join_ranges_runs rest first first ltac:(lia) Hs Hf) as [H1 H2 H3].
    assert (Heq : forall i, Active i <-> (first <= i <= first)%nat \/ i ∈ rest).
    { intros i. rewrite HA, elem_of_cons. split; intros [?|?]; try tauto; left; lia. }
    split; [..|exact H3].
    + intros s e Hr. destruct (H1 _ _ Hr) as (?&?&?&?). setoid_rewrite Heq. auto.
    + intros i Hi. apply H2, Heq, Hi.
Qed.
End Candidates.

Definition power (p : SweepPoint.t) : float := p.(SweepPoint.band_power_dbfs).

Lemma max_by_power_spec first rest :
  is_nan (power first) = false -> Forall (fun p => is_nan (power p) = false) rest ->
  max_by_power first rest ∈ first :: rest
  /\ Forall (fun p => f_leq (power p) (power (max_by_power first rest))) (first :: rest).
Proof.
  revert first. induction rest as [|p rest IH]; intros first Hf Hr; cbn.
  - split; [left|]. repeat constructor. now apply f_le_refl.
  - apply list.Forall_cons in Hr as [Hp Hr]. fold (power first) (power p).
    assert (Hstep : forall best, best = first \/ best = p ->
              f_leq (power first) (power best) -> f_leq (power p) (power best) ->
              max_by_power best rest ∈ first :: p :: rest
              /\ Forall (fun q => f_leq (power q) (power (max_by_power best rest)))
                   (first :: p :: rest)).
    { intros best Hb H1 H2. assert (Hbn : is_nan (power best) = false) by (destruct Hb; subst; auto).
      destruct (IH best Hbn Hr) as [Hin Hall]. split; [destruct Hb; subst; set_solver|].
      apply list.Forall_cons in Hall as [Hbest Hall].
      assert (Hm : is_nan (power (max_by_power best rest)) = false).
      { apply elem_of_cons in Hin as [->|Hin]; [exact Hbn|].
        rewrite list.Forall_forall in Hr. auto. }
      do 2 (constructor; [eapply f_le_trans; [..|exact Hbest]; eauto|]). exact Hall. }
    destruct (float_cmp (power first) (power p)) eqn:E.
    1, 2: apply Hstep; [auto|apply float_cmp_le; congruence|now apply f_le_refl].
    apply Hstep; [auto|now apply f_le_refl|].
    apply float_cmp_Gt in E; [|assumption..]. unfold f_leq.
    destruct (f_le_total (power first) (power p)); congruence.
Qed.

Lemma slice_elem {A} (l : list A) s e x :
  x ∈ slice l s e <-> exists i, (s <= i <= e)%nat /\ l !! i = Some x.
Proof.
  unfold slice. rewrite list_elem_of_lookup. setoid_rewrite lookup_take_Some.
  setoid_rewrite lookup_drop. split.
  - intros (i&Hi&Hl). exists (s + i)%nat. split; [lia|exact Hi].
  - intros (i&Hi&Hl). exists (i - s)%nat. rewrite Nat.add_comm, Nat.sub_add by lia.
    split; [exact Hl|lia].
Qed.

Section Merge.
Context (v : ValidatedSweepPlan.t) (points : list SweepPoint.t) (noise : float).
Context (Hfin : Forall (fun p => is_finite (power p) = true) points).

(** [c] is candidate number [k], of the run [s] to [e]. *)
Definition CandidateFor (k s e : nat) (c : SweepCandidate.t) : Prop :=
  exists i peak first last,
    (s <= i <= e)%nat /\ points !! i = Some peak
    /\ points !! s = Some first /\ points !! e = Some last
    /\ (forall j p, (s <= j <= e)%nat -> points !! j = Some p -> f_leq (power p) (power peak))
    /\ c.(SweepCandidate.id)
       = v.(ValidatedSweepPlan.sweep_id) +:+ "-" +:+ print_u (Z.of_nat k + 1)
    /\ c.(SweepCandidate.center_hz) = peak.(SweepPoint.actual_center_hz)
    /\ c.(SweepCandidate.peak_dbfs) = power peak
    /\ c.(SweepCandidate.snr_db) = f32_sub (power peak) noise
    /\ c.(SweepCandidate.point_count) = Z.of_nat (e - s + 1)
    /\ c.(SweepCandidate.start_hz)
       = Z.max (first.(SweepPoint.actual_center_hz)
                - v.(ValidatedSweepPlan.rf_bandwidth_hz) / 2) 0
    /\ c.(SweepCandidate.stop_hz)
       = Z.min (last.(SweepPoint.actual_center_hz)
                + v.(ValidatedSweepPlan.rf_bandwidth_hz) / 2) u64_max
    /\ c.(SweepCandidate.bandwidth_hz)
       = Z.max (c.(SweepCandidate.stop_hz) - c.(SweepCandidate.start_hz)) 0.

Lemma candidate_of_spec k s e :
  (s <= e)%nat -> (forall i, (s <= i <= e)%nat -> Active v points noise i) ->
  exists c, candidate_of v points noise k s e = Some c /\ CandidateFor k s e c.
Proof.
  intros Hse Hact. unfold candidate_of.
  destruct (Hact s ltac:(lia)) as (first&Hfirst&_), (Hact e ltac:(lia)) as (last&Hlast&_).
  assert (Hnan : Forall (fun p => is_nan (power p) = false) (slice points s e)).
  { rewrite list.Forall_forall in *. intros p (i&_&Hi)%slice_elem.
    apply is_finite_not_nan, Hfin. apply list_elem_of_lookup. eauto. }
  destruct (slice points s e) as [|p rest] eqn:Hsl.
  { exfalso. assert (Hin : first ∈ slice points s e) by (apply slice_elem; exists s; auto).
    rewrite Hsl in Hin. inversion Hin. }
  rewrite Hfirst, Hlast. eexists. split; [reflexivity|].
  apply list.Forall_cons in Hnan as [Hp Hnan].
  destruct (max_by_power_spec p rest Hp Hnan) as [Hin Hall].
  rewrite <- Hsl in Hin, Hall. apply slice_elem in Hin as (i&Hi&Hpeak).
  exists i, (max_by_power p rest), first, last. cbn. split_and!; try lia; auto.
  intros j q Hj Hq. rewrite list.Forall_forall in Hall. apply Hall, slice_elem. eauto.
Qed.

Lemma merge_candidates_spec :
  let runs := merge_ranges v points noise in
  MaximalRuns (Active v points noise) runs
  /\ length (merge_candidates v points noise) = Nat.min 32 (length runs)
  /\ forall k c, merge_candidates v points noise !! k = Some c ->
     exists s e, runs !! k = Some (s, e) /\ CandidateFor k s e c.
Proof.
  intros runs. pose proof (merge_ranges_runs v points noise) as Hruns. split; [exact Hruns|].
  unfold merge_candidates. fold runs. change (Z.to_nat MAX_CANDIDATES) with 32%nat.
  assert (Htot : forall x, x ∈ enumerate (take 32 runs) ->
            exists c, (fun '(k, (s, e)) => candidate_of v points noise k s e) x = Some c).
  { intros [k [s e]] Hx. apply list_elem_of_lookup in Hx as [i Hi].
    unfold enumerate in Hi. rewrite list_lookup_imap in Hi.
    apply fmap_Some in Hi as ([s' e']&Hi&[= -> -> ->]). apply lookup_take_Some in Hi as [Hi _].
    destruct (mr_run _ _ Hruns s' e') as (?&?&_); [apply list_elem_of_lookup; eauto|].
    destruct (candidate_of_spec i s' e') as (c&Hc&_); eauto. }
  pose proof (omap_total _ _ Htot) as H2. split.
  - rewrite <- (Forall2_length H2). unfold enumerate. rewrite length_imap, length_take.
    reflexivity.
  - intros k c Hc. destruct (Forall2_lookup_r _ _ _ _ _ H2 Hc) as ([i [s e]]&Hi&Hof).
    unfold enumerate in Hi. rewrite list_lookup_imap in Hi.
    apply fmap_Some in Hi as ([s' e']&Hi&[= -> -> ->]). apply lookup_take_Some in Hi as [Hi _].
    exists s', e'. split; [exact Hi|].
    destruct (mr_run _ _ Hruns s' e') as (?&?&_); [apply list_elem_of_lookup; eauto|].
    destruct (candidate_of_spec k s' e') as (c'&Hc'&Hfor); [eauto..|]. cbn in Hof. congruence.
Qed.
End Merge.

(** ** Properties *)

(** A range expands to the evenly spaced centers from [start_hz] with the last one clamped to
    [stop_hz]: with [n] the number of points that cover the span, the result is exactly
    [start, start + step, ..., stop] when [n <= 769] and the "at most 768 points" error otherwise.
    (A range of exactly 769 points passes here and is refused by [validate_plan].)  The loop always
    ends within the fuel, also when the cursor overflows. *)
Theorem expand_centers_range `{Json} start stop step n :
  0 < step -> 0 <= start <= stop -> stop + step <= u64_max -> covers (stop - start) step n ->
  expand_centers (SweepFrequencies.Range start stop step)
  = (if n <=? 769 then Ok (grid start step (Z.to_nat (n - 1)) ++ [stop])
     else Err (SweepError.new "frequency_range" "range must contain at most 768 points"))
  /\ forall start' stop' step',
       is_none (expand_loop EXPAND_FUEL [] start' stop' step') = false.
Proof.
  intros Hs Hr Hm Hn. split; [now apply expand_centers_grid|].
  intros. apply expand_loop_total; cbn; unfold EXPAND_FUEL; lia.
Qed.

(** C26: [validate_plan] accepts exactly the plans within the sweep's contract: a file-safe id, one
    to 768 strictly ascending centers between 70 MHz and 6 GHz, a controlled radio profile, gaps of
    at most 80 percent of the bandwidth, bounded settle time, frames, timeout and threshold, and at
    most 300 seconds in all; the validated plan repeats the plan's values with the expanded centers
    and their exact duration. *)
Theorem validate_plan_decides `{Json} p v :
  SweepPlan.wf p ->
  validate_plan p = Ok v <->
  exists centers, expand_centers p.(SweepPlan.frequencies) = Ok centers
  /\ PlanOk p centers /\ v = validated_of p centers.
Proof. apply validate_plan_spec. Qed.

(** A backend's points are accepted exactly when there is one per planned center, in order, and
    each one answers its center (within 2 Hz) in this session with the planned profile, a finite
    power, no loss, no flags, no timeout, a healthy source and a strictly increasing sequence
    number. *)
Theorem validate_points_decides `{Json} v points :
  is_Ok (validate_points v points) = true <->
  length points = length v.(ValidatedSweepPlan.centers_hz)
  /\ (forall i p c, points !! i = Some p -> v.(ValidatedSweepPlan.centers_hz) !! i = Some c ->
        PointOk v c (Z.of_nat i) p)
  /\ StronglySorted Z.lt (map SweepPoint.sequence points).
Proof.
  rewrite is_Ok_spec. split.
  - intros [u Hu]. now apply validate_points_spec in Hu.
  - intros Hp. exists tt. now apply validate_points_spec.
Qed.

(** The noise floor is the upper median of the measured powers: it is one of them, and it
    splits the others into [n / 2] powers at or below it and the rest at or above it; it is missing
    only for an empty sweep. *)
Theorem noise_floor_is_median `{Json} points :
  Forall (fun p => is_finite p.(SweepPoint.band_power_dbfs) = true) points ->
  (points = [] <-> is_Ok (median_power_dbfs points) = false)
  /\ forall m, median_power_dbfs points = Ok m ->
     exists below above,
       Permutation (map SweepPoint.band_power_dbfs points) (below ++ m :: above)
       /\ length below = (length points / 2)%nat
       /\ Forall (fun x => f_le x m = true) below /\ Forall (fun x => f_le m x = true) above.
Proof.
  intros Hfin. split; [|intros m; now apply median_splits].
  unfold median_power_dbfs, ok_or.
  pose proof (Permutation_length (sort_floats_perm (map SweepPoint.band_power_dbfs points))) as Hl.
  rewrite length_map in Hl.
  match goal with |- context [?l !! ?i] => destruct (l !! i) eqn:Hm end; cbn.
  - split; [intros ->; discriminate|discriminate].
  - split; [reflexivity|]. intros _. apply lookup_ge_None in Hm. rewrite Hl in Hm.
    destruct points as [|p points]; [reflexivity|].
    pose proof (Nat.div_lt (length (p :: points)) 2). cbn [length] in *. lia.
Qed.

(** C27: the candidates of a sweep are exactly its first 32 maximal runs of points at or above the
    noise floor plus the threshold: the runs are disjoint, separated by a quieter point and in
    ascending order, every loud point lies in one; candidate [k] has id [sweep_id]-[k + 1], reports
    the size of its run, its edges half a bandwidth beyond the run's ends, and the center and power
    of a loudest point of the run. *)
Theorem candidates_are_maximal_runs v points noise :
  Forall (fun p => is_finite p.(SweepPoint.band_power_dbfs) = true) points ->
  exists runs,
    MaximalRuns (Active v points noise) runs
    /\ length (merge_candidates v points noise) = Nat.min 32 (length runs)
    /\ forall k c, merge_candidates v points noise !! k = Some c ->
       exists s e, runs !! k = Some (s, e) /\ CandidateFor v points noise k s e c.
Proof. intros Hfin. eexists. now apply merge_candidates_spec. Qed.

(** ** A small sweep *)
Module SweepSamples.
Definition plan : SweepPlan.t :=
  SweepPlan.mk "request-7" 3 (SweepFrequencies.Range 2400000000 2440000000 16000000)
    30720000 20000000 20 4096 1 250 (f32_of_Z 12) (Some 20).
Definition centers : list Z := [2400000000; 2416000000; 2432000000; 2440000000].
Definition validated : ValidatedSweepPlan.t := validated_of plan centers.

Definition point (index center level : Z) : SweepPoint.t :=
  SweepPoint.mk index (index + 4) 3 center (center + 1) 30720000 20000000 (index + 1) 0 false 4096
    (f32_of_Z level) 0 0 900 (ExecutionTimeoutMetadata.mk 250 900 false)
    (ExecutionHealthMetadata.mk true 0 "iio_adapter").
Definition points : list SweepPoint.t :=
  [point 0 2400000000 (-70); point 1 2416000000 (-71); point 2 2432000000 (-40);
   point 3 2440000000 (-35)].

Lemma plan_wf : SweepPlan.wf plan.
Proof. vm_compute. intuition congruence. Qed.

Lemma points_finite :
  Forall (fun p => is_finite p.(SweepPoint.band_power_dbfs) = true) points.
Proof. repeat constructor. Qed.
End SweepSamples.

Lemma expand_centers_range_witness :
  @expand_centers SdrSamples.json (SweepFrequencies.Range 2400000000 2440000000 16000000)
  = Ok SweepSamples.centers.
Proof.
  destruct (@expand_centers_range SdrSamples.json 2400000000 2440000000 16000000 4
              ltac:(lia) ltac:(lia) ltac:(unfold u64_max; lia) ltac:(unfold covers; lia)) as [H _].
  etransitivity; [exact H|vm_compute; reflexivity].
Defined.

Lemma validate_plan_decides_witness :
  exists v, @validate_plan SdrSamples.json SweepSamples.plan = Ok v
  /\ exists centers, PlanOk SweepSamples.plan centers /\ length centers = 4%nat.
Proof.
  eexists. split; [vm_compute; reflexivity|].
  destruct (proj1 (@validate_plan_decides SdrSamples.json SweepSamples.plan
              SweepSamples.validated SweepSamples.plan_wf) ltac:(vm_compute; reflexivity))
    as (centers&He&Hok&_).
  exists centers. split; [exact Hok|]. vm_compute in He. injection He as <-. reflexivity.
Defined.

Lemma noise_floor_is_median_witness :
  exists m, @median_power_dbfs SdrSamples.json SweepSamples.points = Ok m
  /\ exists below above, length below = 2%nat
     /\ Permutation (map SweepPoint.band_power_dbfs SweepSamples.points) (below ++ m :: above).
Proof.
  eexists. split; [vm_compute; reflexivity|].
  destruct (@noise_floor_is_median SdrSamples.json SweepSamples.points
              SweepSamples.points_finite) as [_ H].
  destruct (H (f32_of_Z (-40)) ltac:(vm_compute; reflexivity)) as (below&above&Hp&Hl&_).
  exists below, above. split; [exact Hl|exact Hp].
Defined.

Lemma candidates_are_maximal_runs_witness :
  length (merge_candidates SweepSamples.validated SweepSamples.points (f32_of_Z (-70))) = 1%nat
  /\ exists runs, MaximalRuns (Active SweepSamples.validated SweepSamples.points (f32_of_Z (-70)))
                    runs /\ Nat.min 32 (length runs) = 1%nat.
Proof.
  split; [vm_compute; reflexivity|].
  destruct (candidates_are_maximal_runs SweepSamples.validated SweepSamples.points
              (f32_of_Z (-70)) SweepSamples.points_finite) as (runs&Hr&Hl&_).
  exists runs. split; [exact Hr|]. rewrite <- Hl. vm_compute. reflexivity.
Defined.
