(* ===== verification/SweepGrid.v ===== *)
(** * Grids of centers

    A range is expanded to a grid with its end clamped ([expand_centers] of
    [SweepPlan]).  What every valid plan over such a range needs: the centers
    ascend, their gaps are at most a step and they stay in the range; used for the
    surveys of the policy, the web console and the operator's options. *)
From S2P Require Import Prelude Text F32 Protocol Policy Framing Sdr SweepPlan.

Lemma windows2_cons {A} (x y : A) l : windows2 (x :: y :: l) = (x, y) :: windows2 (y :: l).
Proof. reflexivity. Qed.

(** The gaps of a clamped grid. *)
Lemma grid_windows start step stop i k :
  (k = 0%nat \/ start + Z.of_nat (i + k - 1) * step < stop) ->
  stop <= start + Z.of_nat (i + k) * step ->
  0 < step ->
  Forall (fun w => 0 < w.2 - w.1 <= step)
    (windows2 (map (fun i => start + Z.of_nat i * step) (seq i k) ++ [stop])).
Proof.
  revert i. induction k as [|k IH]; intros i Hlow Hhigh Hstep; [constructor|].
  destruct k as [|k].
  - cbn [seq map app]. rewrite windows2_cons. constructor; [|constructor]. cbn [fst snd].
    replace (i + 1 - 1)%nat with i in Hlow by lia. replace (i + 1)%nat with (S i) in Hhigh by lia.
    lia.
  - specialize (IH (S i) ltac:(right; replace (S i + S k - 1)%nat with (i + S (S k) - 1)%nat by lia;
      destruct Hlow; [lia|assumption])
      ltac:(replace (S i + S k)%nat with (i + S (S k))%nat by lia; assumption) Hstep).
    cbn [seq map app] in *. rewrite windows2_cons. constructor; [cbn [fst snd]; lia|exact IH].
Qed.

Lemma windows_ascending (l : list Z) step :
  Forall (fun w => 0 < w.2 - w.1 <= step) (windows2 l) -> StronglySorted Z.lt l.
Proof.
  intros Hw. apply windows2_sorted, existsb_false. revert Hw. apply Forall_impl.
  intros w Hw. apply Z.leb_gt. lia.
Qed.

Lemma ascending_last (l : list Z) stop c :
  StronglySorted Z.lt (l ++ [stop]) -> c ∈ l ++ [stop] -> c <= stop.
Proof.
  induction l as [|x l IH]; cbn; intros Hs Hin.
  - apply list_elem_of_singleton in Hin. lia.
  - apply StronglySorted_inv in Hs as [Hs Hx]. apply elem_of_cons in Hin as [->|Hin]; [|auto].
    rewrite list.Forall_forall in Hx. enough (x < stop) by lia. apply Hx.
    apply elem_of_app. right. now apply list_elem_of_singleton.
Qed.

(** The centers of a survey with [n] points. *)
Definition survey_centers (start stop step n : Z) : list Z :=
  grid start step (Z.to_nat (n - 1)) ++ [stop].

Lemma survey_centers_spec start stop step n :
  0 < step -> start <= stop -> covers (stop - start) step n ->
  length_z (survey_centers start stop step n) = n
  /\ 1 <= n
  /\ Forall (fun w => 0 < w.2 - w.1 <= step) (windows2 (survey_centers start stop step n))
  /\ Forall (fun c => start <= c <= stop) (survey_centers start stop step n).
Proof.
  intros Hstep Hlt [Hn1 Hn2]. assert (1 <= n) as Hn by nia.
  assert (Hw : Forall (fun w => 0 < w.2 - w.1 <= step)
                 (windows2 (survey_centers start stop step n))).
  { apply grid_windows; [|rewrite Nat.add_0_l, Z2Nat.id by lia; lia|exact Hstep].
    destruct (Z.eq_dec n 1) as [->|Hne]; [now left|].
    right. rewrite Nat.add_0_l. replace (Z.of_nat (Z.to_nat (n - 1) - 1)) with (n - 2) by lia. lia. }
  split; [|split; [exact Hn|split; [exact Hw|]]].
  - unfold survey_centers, length_z. rewrite length_app, grid_length. cbn [length]. lia.
  - pose proof (windows_ascending _ _ Hw) as Hs. apply list.Forall_forall. intros c Hc.
    split; [|eapply ascending_last; eassumption].
    unfold survey_centers in Hc. apply elem_of_app in Hc as [Hc|Hc].
    + unfold grid in Hc. apply list_elem_of_In, in_map_iff in Hc as (i&<-&_). nia.
    + apply list_elem_of_singleton in Hc. lia.
Qed.

(** The centers of a range that needs [n] points are that grid. *)
Lemma expand_centers_survey `{Json} start stop step n :
  0 < step -> 0 <= start <= stop -> stop + step <= u64_max -> covers (stop - start) step n -> n <= 768 ->
  expand_centers (SweepFrequencies.Range start stop step) = Ok (survey_centers start stop step n).
Proof.
  intros Hs Hr Hm Hn Hmax. rewrite (expand_centers_grid start stop step n) by assumption.
  now rewrite (proj2 (Z.leb_le n 769)) by lia.
Qed.
