(* ===== verification/ConsoleText.v ===== *)
(** * What the console says and reads

    [controller/src/bin/sdr-agent.rs]: the texts that end up in the history or in
    the next instruction of a cruise, and the checks on the web search events of
    the planner session.  JSON values are read through serde_json's accessors. *)
From S2P Require Import Prelude Text Utf8 F32 Protocol Sdr Execution Autonomy SweepPlan Session.

(** The accessors of [serde_json::Value]. *)
Class JsonAccess `{Json} := {
  as_object : Value -> option (gmap string Value);
  as_array : Value -> option (list Value);
  as_str : Value -> option string;
  as_u64 : Value -> option Z;
  as_bool : Value -> option bool;
  quoted : string -> result string string;
}.

(** [Value::get] with a key. *)
Definition get `{JsonAccess} (key : string) (value : Value) : option Value :=
  object ← as_object value ; object !! key.
(** [value.get(key).and_then(as_...)]. *)
Definition get_str `{JsonAccess} (key : string) (value : Value) : option string :=
  get key value ≫= as_str.
Definition get_u64 `{JsonAccess} (key : string) (value : Value) : option Z :=
  get key value ≫= as_u64.
Definition get_bool `{JsonAccess} (key : string) (value : Value) : option bool :=
  get key value ≫= as_bool.
(** [Value::pointer] with two object keys. *)
Definition pointer `{JsonAccess} (first second : string) (value : Value) : option Value :=
  inner ← get first value ; get second inner.

(** [Option<&str> == Some("...")], and the same for numbers and flags. *)
Definition is_str (o : option string) (s : string) : bool :=
  match o with Some t => String.eqb t s | None => false end.
Definition is_u64_of (o : option Z) (n : Z) : bool :=
  match o with Some m => m =? n | None => false end.
Definition is_bool_of (o : option bool) (b : bool) : bool :=
  match o with Some c => Bool.eqb c b | None => false end.

(** ** Numbers *)

(** [{:.1}] of an [f32]: the exact value rounded half to even. *)
Definition tenths (m : positive) (e : Z) : Z :=
  if 0 <=? e then Z.pos m * 2 ^ e * 10
  else
    let d := 2 ^ (- e) in
    let q := Z.pos m * 10 / d in
    let r := (Z.pos m * 10) mod d in
    if (d <? 2 * r) || ((d =? 2 * r) && Z.odd q) then q + 1 else q.
Definition print_1 (x : float) : string :=
  match x with
  | S754_nan => "NaN"
  | S754_infinity s => if s then "-inf" else "inf"
  | S754_zero s => if s then "-0.0" else "0.0"
  | S754_finite s m e =>
      let q := tenths m e in
      (if s then "-" else "") +:+ print_u (q / 10) +:+ "." +:+ print_u (q mod 10)
  end.

Example print_1_examples :
  map print_1 [f32_lit (-853) 3; f32_lit 1 2; f32_lit 3 2; f32_of_Z 12]
  = ["-106.6"; "0.2"; "0.8"; "12.0"]%string.
Proof. reflexivity. Qed.

Definition NEWLINE_TEXT : string := String (char_of 10) EmptyString.

(** ** Plans *)
Definition describe_plan (plan : ValidatedPlan.t) : string :=
  let approval :=
    if plan.(ValidatedPlan.approval_required) then "；必须人工批准"%string
    else "；位于自动安全阈值内"%string in
  match plan.(ValidatedPlan.action) with
  | ProposedAction.Hold reason => "保持当前状态：" +:+ reason
  | ProposedAction.SurveyBand start_hz stop_hz step_hz sample_rate_hz rf_bandwidth_hz dwell_ms =>
      "受限扫频 " +:+ print_u start_hz +:+ "–" +:+ print_u stop_hz +:+ " Hz，步进 "
      +:+ print_u step_hz +:+ " Hz、采样率 " +:+ print_u sample_rate_hz +:+ " Hz、射频带宽 "
      +:+ print_u rf_bandwidth_hz +:+ " Hz，每点停留 " +:+ print_u dwell_ms
      +:+ " ms，执行时采用设置中的固定接收增益" +:+ approval
  | ProposedAction.InspectCandidate candidate_id center_hz sample_rate_hz rf_bandwidth_hz dwell_ms =>
      "受限复查候选 " +:+ candidate_id +:+ "：中心 " +:+ print_u center_hz +:+ " Hz、采样率 "
      +:+ print_u sample_rate_hz +:+ " Hz、射频带宽 " +:+ print_u rf_bandwidth_hz +:+ " Hz、驻留 "
      +:+ print_u dwell_ms +:+ " ms，执行时采用设置中的固定接收增益" +:+ approval
  | ProposedAction.CaptureBoundedIq candidate_id center_hz sample_rate_hz rf_bandwidth_hz samples =>
      "受限采集候选 " +:+ candidate_id +:+ "：中心 " +:+ print_u center_hz +:+ " Hz、采样率 "
      +:+ print_u sample_rate_hz +:+ "、射频带宽 " +:+ print_u rf_bandwidth_hz +:+ "、"
      +:+ print_u samples +:+ " 个复数样本（最多 " +:+ print_u (saturating_mul samples 4)
      +:+ " 字节）" +:+ approval
  | ProposedAction.RunLocalRecognition candidate_id =>
      "建议本地识别候选 " +:+ candidate_id +:+ "；识别后端尚未启用，不会执行"
  | ProposedAction.StopSession reason => "停止本次会话：" +:+ reason
  end.

(** The actions the console has an executor for. *)
Definition is_hardware (action : ProposedAction.t) : bool :=
  match action with
  | ProposedAction.CaptureBoundedIq _ _ _ _ _ | ProposedAction.SurveyBand _ _ _ _ _ _
  | ProposedAction.InspectCandidate _ _ _ _ _ => true
  | _ => false
  end.

Definition describe_agent_reply (plan : ValidatedPlan.t) (mode : InteractionMode.t) : string :=
  match plan.(ValidatedPlan.action) with
  | ProposedAction.Hold reason => reason
  | action =>
      let summary := describe_plan plan in
      if match mode with InteractionMode.StepApproval => is_hardware action | _ => false end then
        "计划已生成：" +:+ summary +:+ "。请点击批准或输入 /approve 执行，也可以拒绝。"
      else "下一步计划：" +:+ summary
  end.

(** ** The instructions of a cruise *)
Definition DEFAULT_MISSION : string := "继续受限巡航".

(** The first one, in [start_auto]. *)
Definition first_instruction (mission : string) (max_steps max_duration_secs max_iq_bytes : Z)
    : string :=
  "自动巡航任务：" +:+ mission +:+ NEWLINE_TEXT +:+ "本巡航最多 " +:+ print_u max_steps
  +:+ " 个已执行步骤、" +:+ print_u max_duration_secs +:+ " 秒、累计 " +:+ print_u max_iq_bytes
  +:+ " 字节 IQ；SDR 不可用或上游未给出下一步各自连续重试 5 次，每次间隔 10 秒。只能提出 Rust Controller 能验证的接收动作，安全边界不变。请给出第一步。".

(** After a survey, in [poll_sweep]. *)
Definition survey_instruction (mission : string) (request_id : Z) (report : SweepReport.t)
    (survey_gain_db maximum_bytes : Z) : string :=
  "自动巡航任务：" +:+ mission +:+ NEWLINE_TEXT +:+ "上一步 survey_band request=" +:+ print_u request_id
  +:+ " 已执行：" +:+ print_u (length_z report.(SweepReport.points)) +:+ " 个频点、固定增益 "
  +:+ print_i survey_gain_db +:+ " dB、噪声基线 " +:+ print_1 report.(SweepReport.noise_floor_dbfs)
  +:+ " dBFS、" +:+ print_u (length_z report.(SweepReport.candidates)) +:+ " 个候选、处理 "
  +:+ print_u maximum_bytes
  +:+ " 字节，零削顶且射频状态已恢复。最新候选已写入 PlanningContext，请根据真实结果只给出下一步。".

(** After an inspection, in [poll_sweep]. *)
Definition inspection_instruction (mission : string) (request_id : Z) (candidate_id : string)
    (candidate : CandidateSummary.t) (survey_gain_db maximum_bytes : Z) : string :=
  "自动巡航任务：" +:+ mission +:+ NEWLINE_TEXT +:+ "上一步 inspect_candidate request="
  +:+ print_u request_id +:+ " 已真实复查候选 " +:+ candidate_id +:+ "：中心 "
  +:+ print_u candidate.(CandidateSummary.center_hz) +:+ " Hz、带宽 "
  +:+ print_u candidate.(CandidateSummary.bandwidth_hz) +:+ " Hz、固定增益 "
  +:+ print_i survey_gain_db +:+ " dB、实测功率 " +:+ print_1 candidate.(CandidateSummary.peak_dbfs)
  +:+ " dBFS、参考信噪比 " +:+ print_1 candidate.(CandidateSummary.snr_db) +:+ " dB、处理 "
  +:+ print_u maximum_bytes +:+ " 字节，零削顶且射频状态已恢复。请根据最新候选只给出下一步。".

(** After a capture, in [poll_execution]. *)
Definition capture_instruction (mission : string) (request_id : Z) (capture : CaptureObservation.t)
    : string :=
  "自动巡航任务：" +:+ mission +:+ NEWLINE_TEXT +:+ "上一步 request=" +:+ print_u request_id
  +:+ " 已完成，采集 " +:+ print_u capture.(CaptureObservation.samples_captured) +:+ " 个样本、"
  +:+ print_u capture.(CaptureObservation.bytes_written) +:+ " 字节、丢样 "
  +:+ print_u capture.(CaptureObservation.dropped_samples) +:+ "、溢出 "
  +:+ (if capture.(CaptureObservation.overflow) then "true" else "false")
  +:+ "，并已恢复射频状态。请根据这个结果和最新健康状态只给出下一步。".

(** When nothing better is known, in [advance_auto]. *)
Definition next_instruction (mission : string) : string :=
  "自动巡航任务：" +:+ mission +:+ NEWLINE_TEXT +:+ "请根据最新状态给出下一步。".

(** ** Web search events *)
Section WebSearch.
Context `{JsonAccess}.

Definition require_web_event_text (data : gmap string Value) (key : string) (maximum_bytes : Z)
    : result AppError string :=
  value ← ok_or (InvalidInput ("web search " +:+ key +:+ " must be text"))
            (v ← data !! key ; as_str v) ;
  reject_if (is_empty value || (maximum_bytes <? len value) || has_control value)
    (InvalidInput ("web search " +:+ key +:+ " is invalid")) ;;
  Ok value.

Definition require_web_event_keys (data : gmap string Value) (expected : list string)
    : result AppError unit :=
  reject_if (negb (size data =? length expected)%nat
             || existsb (fun key => is_none (data !! key)) expected)
    (InvalidInput "web search event contains unexpected fields").

Definition quote (text : string) : result AppError string := map_err Serde (quoted text).

(** The loop over the sources. *)
Fixpoint describe_sources (sources : list Value) : result AppError (list string) :=
  match sources with
  | [] => Ok []
  | source :: sources =>
      source ← ok_or (InvalidInput "web search source must be an object") (as_object source) ;
      require_web_event_keys source ["title"; "url"]%string ;;
      title ← require_web_event_text source "title" 256 ;
      url ← require_web_event_text source "url" 2048 ;
      reject_if (negb (starts_with "http://" url || starts_with "https://" url))
        (InvalidInput "web search source URL must use HTTP(S)") ;;
      title ← quote title ;
      url ← quote url ;
      lines ← describe_sources sources ;
      Ok (("搜索来源> " +:+ title +:+ " — " +:+ url) :: lines)
  end.

Definition describe_search_end (data : gmap string Value) (query : string)
    : result AppError (list string) :=
  require_web_event_keys data
    ["request_id"; "phase"; "query"; "count"; "sources"; "truncated"]%string ;;
  count ← ok_or (InvalidInput "web search result count is missing") (v ← data !! "count"%string ; as_u64 v) ;
  sources ← ok_or (InvalidInput "web search sources are missing")
              (v ← data !! "sources"%string ; as_array v) ;
  reject_if ((8 <? count) || negb (length_z sources =? count))
    (InvalidInput "web search source count is invalid") ;;
  truncated ← ok_or (InvalidInput "web search truncated flag is invalid")
                (v ← data !! "truncated"%string ; as_bool v) ;
  query ← quote query ;
  lines ← describe_sources sources ;
  Ok (("搜索> 查询 " +:+ query +:+ " 返回 " +:+ print_u count +:+ " 个来源"
       +:+ (if truncated : bool then "（结果已截断）" else "") +:+ "。") :: lines).

Definition describe_web_search_event (frame : Value) (requests : gmap Z PlanRequest.t)
    : result AppError (list string) :=
  event ← ok_or (InvalidInput "web search event name is missing") (get_str "event" frame) ;
  data ← ok_or (InvalidInput "web search event data is missing")
           (v ← get "data" frame ; as_object v) ;
  request_id ← ok_or (InvalidInput "web search event is missing request_id")
                 (v ← data !! "request_id"%string ; as_u64 v) ;
  reject_if (is_none (requests !! request_id))
    (InvalidInput "web search event refers to an unknown request") ;;
  reject_if (negb (starts_with "web_search_" event)) (InvalidInput "invalid web search event") ;;
  let phase := String.substring 11 (String.length event - 11) event in
  reject_if (negb (is_str (v ← data !! "phase"%string ; as_str v) phase))
    (InvalidInput "web search event phase does not match its name") ;;
  query ← require_web_event_text data "query" 512 ;
  if String.eqb phase "start" then
    require_web_event_keys data ["request_id"; "phase"; "query"]%string ;;
    query ← quote query ;
    Ok ["搜索> 正在查询 " +:+ query]
  else if String.eqb phase "error" then
    require_web_event_keys data ["request_id"; "phase"; "query"; "error"]%string ;;
    error ← require_web_event_text data "error" 512 ;
    query ← quote query ;
    Ok ["搜索> 查询 " +:+ query +:+ " 失败：" +:+ error]
  else if String.eqb phase "end" then describe_search_end data query
  else Err (InvalidInput "invalid web search event phase").
End WebSearch.
