(* ===== verification/ConsoleBasis.v ===== *)
(** * What the console tells the operator

    [controller/src/bin/sdr-agent.rs]: the texts that are only printed: the basis of a
    decision, the state of the cruise, the help and the history.  The basis of a decision
    makes claims about a plan; they are proved to be true of every plan it is printed for. *)
From S2P Require Import Prelude Text F32 Protocol Policy Autonomy ConsoleText.

Definition print_help : list string :=
  ["查看：/status 当前状态，/history 本次历史";
   "人工模式：/mode manual，/approve 批准当前步骤，/reject 拒绝当前步骤";
   "自动巡航：/auto start [--steps 1–128] [--seconds 10–1800] [--mib 正整数] <任务>";
   "不填 --mib 时，按步数 × 单动作 IQ 上限自动推导有限预算。";
   "默认 8 步、120 秒、累计 64 MiB；两类失败各重试 5 次，每次间隔 10 秒";
   "流式输入：普通文本或 /steer 会立即引导当前轮，/follow-up 在本轮后处理；队列最多 4 条";
   "会话：/pause 暂停，/resume 继续，/stop 始终优先立即停止，/quit 退出"]%string.

Definition controller_state_label (state : ControllerState.t) : string :=
  match state with
  | ControllerState.Idle => "空闲，可以接收新任务"
  | ControllerState.Surveying => "正在扫频"
  | ControllerState.Inspecting => "正在检查候选信号"
  | ControllerState.Recognizing => "正在识别信号"
  | ControllerState.Holding => "已保持，不会继续操作硬件"
  | ControllerState.Faulted => "故障锁定，需要检查后恢复"
  end.

(** The derived [Debug]. *)
Definition debug_state (state : ControllerState.t) : string :=
  match state with
  | ControllerState.Idle => "Idle"
  | ControllerState.Surveying => "Surveying"
  | ControllerState.Inspecting => "Inspecting"
  | ControllerState.Recognizing => "Recognizing"
  | ControllerState.Holding => "Holding"
  | ControllerState.Faulted => "Faulted"
  end.

(** The lines of the history. *)
Definition print_history (history : list string) : list string :=
  match history with [] => ["本次终端没有历史记录。"%string] | _ => history end.

(** ** The state of the cruise *)

(** [bytes as f64 / (1024.0 * 1024.0)] with one decimal. *)
Definition print_mib (bytes : Z) : string :=
  print_1 (f64_div (f64_of_Z bytes) (f64_of_Z 1048576)).

Definition print_cruise_status (now : Z) (cruise : CruiseControl.t) : string :=
  let snapshot := CruiseControl.snapshot now cruise in
  match snapshot.(CruiseSnapshot.mode) with
  | InteractionMode.StepApproval => "巡航状态：未启用；当前每个可执行动作都需要人工批准。"
  | InteractionMode.AutomaticCruise =>
      if snapshot.(CruiseSnapshot.active) then
        "巡航状态：" +:+ snapshot.(CruiseSnapshot.phase_label) +:+ "；已完成 "
        +:+ print_u snapshot.(CruiseSnapshot.completed_steps) +:+ "/"
        +:+ print_u snapshot.(CruiseSnapshot.max_steps) +:+ " 步，累计 "
        +:+ print_mib snapshot.(CruiseSnapshot.used_iq_bytes) +:+ "/"
        +:+ print_mib snapshot.(CruiseSnapshot.max_iq_bytes) +:+ " MiB，SDR 重试 "
        +:+ print_u snapshot.(CruiseSnapshot.sdr_retry_count) +:+ "/"
        +:+ print_u snapshot.(CruiseSnapshot.retry_limit) +:+ "，上游重试 "
        +:+ print_u snapshot.(CruiseSnapshot.planner_retry_count) +:+ "/"
        +:+ print_u snapshot.(CruiseSnapshot.retry_limit) +:+ "。"
      else
        "巡航状态：已退出；原因："
        +:+ default "尚未启动"%string snapshot.(CruiseSnapshot.stop_reason_label) +:+ "。"
  end.

(** ** The basis of a decision *)

(** [None] is a panic, a division by zero; [stop_hz - start_hz] wraps. *)
Definition describe_survey (limits : SafetyLimits.t)
    (start_hz stop_hz step_hz sample_rate_hz rf_bandwidth_hz dwell_ms : Z) : option string :=
  if step_hz =? 0 then None
  else
    let points := saturating_add (div_ceil (sub64 stop_hz start_hz) step_hz) 1 in
    let bytes := saturating_mul points (4096 * 4) in
    Some ("扫频范围位于 " +:+ print_u limits.(SafetyLimits.min_freq_hz) +:+ "–"
          +:+ print_u limits.(SafetyLimits.max_freq_hz) +:+ " Hz，跨度 "
          +:+ print_u (sub64 stop_hz start_hz) +:+ "≤" +:+ print_u limits.(SafetyLimits.max_span_hz)
          +:+ " Hz，点数 " +:+ print_u points +:+ "≤" +:+ "768" +:+ "，步进 "
          +:+ print_u step_hz +:+ "≤射频带宽 " +:+ print_u rf_bandwidth_hz +:+ " 的 80%，采样率 "
          +:+ print_u sample_rate_hz +:+ " Hz，停留 " +:+ print_u dwell_ms +:+ "≤"
          +:+ print_u limits.(SafetyLimits.max_dwell_ms) +:+ " ms，预计处理 "
          +:+ print_u bytes +:+ "≤" +:+ print_u limits.(SafetyLimits.max_iq_bytes)
          +:+ " 字节；SDR 在线且允许调谐").

Definition ABOVE_THRESHOLD : string := "超过自动批准阈值，必须人工批准".
Definition BELOW_THRESHOLD : string := "未超过自动批准阈值".

Definition describe_basis_action (plan : ValidatedPlan.t) (limits : SafetyLimits.t) : option string :=
  match plan.(ValidatedPlan.action) with
  | ProposedAction.Hold _ => Some "保持不触发硬件，原因文本已通过长度和可打印字符校验"%string
  | ProposedAction.StopSession _ => Some "停止会话不触发新的硬件动作，原因文本已通过校验"%string
  | ProposedAction.SurveyBand start_hz stop_hz step_hz sample_rate_hz rf_bandwidth_hz dwell_ms =>
      describe_survey limits start_hz stop_hz step_hz sample_rate_hz rf_bandwidth_hz dwell_ms
  | ProposedAction.InspectCandidate candidate_id center_hz sample_rate_hz rf_bandwidth_hz dwell_ms =>
      Some ("候选 " +:+ candidate_id +:+ " 存在；中心 " +:+ print_u center_hz
            +:+ " Hz 位于安全频段，采样率 " +:+ print_u sample_rate_hz +:+ " Hz，射频带宽 "
            +:+ print_u rf_bandwidth_hz +:+ "≤" +:+ print_u limits.(SafetyLimits.max_bandwidth_hz)
            +:+ " Hz，停留 " +:+ print_u dwell_ms +:+ "≤" +:+ "1000" +:+ " ms；SDR 在线且允许调谐")
  | ProposedAction.CaptureBoundedIq candidate_id center_hz _ rf_bandwidth_hz samples =>
      Some ("候选 " +:+ candidate_id +:+ " 存在；中心 " +:+ print_u center_hz
            +:+ " Hz 与候选匹配，带宽 " +:+ print_u rf_bandwidth_hz +:+ "≤"
            +:+ print_u limits.(SafetyLimits.max_bandwidth_hz) +:+ " Hz，样本 "
            +:+ print_u samples +:+ "≤" +:+ print_u limits.(SafetyLimits.max_iq_samples)
            +:+ "，字节 " +:+ print_u (saturating_mul samples 4) +:+ "≤"
            +:+ print_u limits.(SafetyLimits.max_iq_bytes) +:+ "；"
            +:+ (if plan.(ValidatedPlan.approval_required) then ABOVE_THRESHOLD else BELOW_THRESHOLD))
  | ProposedAction.RunLocalRecognition candidate_id =>
      Some ("候选 " +:+ candidate_id +:+ " 存在，且本地识别能力由运行时探测为可用")
  end.

Definition describe_decision_basis (plan : ValidatedPlan.t) (request : PlanRequest.t) : option string :=
  let correlation :=
    "request=" +:+ print_u plan.(ValidatedPlan.request_id) +:+ "、generation="
    +:+ print_u plan.(ValidatedPlan.session_generation) +:+ " 与当前上下文一致；状态="
    +:+ debug_state request.(PlanRequest.state) in
  action ← describe_basis_action plan request.(PlanRequest.limits) ;
  Some (correlation +:+ "；" +:+ action).

(** ** What the basis claims *)

(** The bounds of the form a≤b, in unbounded arithmetic. *)
Definition bounds_shown (action : ProposedAction.t) (limits : SafetyLimits.t) : list (Z * Z) :=
  match action with
  | ProposedAction.SurveyBand start_hz stop_hz step_hz _ _ dwell_ms =>
      let points := (stop_hz - start_hz + (step_hz - 1)) / step_hz + 1 in
      [(stop_hz - start_hz, limits.(SafetyLimits.max_span_hz)); (points, 768);
       (dwell_ms, limits.(SafetyLimits.max_dwell_ms));
       (points * 16384, limits.(SafetyLimits.max_iq_bytes))]
  | ProposedAction.InspectCandidate _ _ _ rf_bandwidth_hz dwell_ms =>
      [(rf_bandwidth_hz, limits.(SafetyLimits.max_bandwidth_hz)); (dwell_ms, 1000)]
  | ProposedAction.CaptureBoundedIq _ _ _ rf_bandwidth_hz samples =>
      [(rf_bandwidth_hz, limits.(SafetyLimits.max_bandwidth_hz));
       (samples, limits.(SafetyLimits.max_iq_samples));
       (4 * samples, limits.(SafetyLimits.max_iq_bytes))]
  | _ => []
  end.

(** What it says in words. *)
Definition words_hold (request : PlanRequest.t) (action : ProposedAction.t) (approval : bool) : Prop :=
  let limits := request.(PlanRequest.limits) in
  let health := health_of request in
  match action with
  | ProposedAction.Hold reason | ProposedAction.StopSession reason => LabelOk reason 256
  | ProposedAction.SurveyBand start_hz stop_hz step_hz _ rf_bandwidth_hz _ =>
      in_band limits start_hz /\ in_band limits stop_hz /\ 5 * step_hz <= 4 * rf_bandwidth_hz
      /\ health.(HealthSummary.sdr_online) = true /\ health.(HealthSummary.can_retune) = true
  | ProposedAction.InspectCandidate candidate_id center_hz _ _ _ =>
      (exists candidate, current request candidate_id candidate) /\ in_band limits center_hz
      /\ health.(HealthSummary.sdr_online) = true /\ health.(HealthSummary.can_retune) = true
  | ProposedAction.CaptureBoundedIq candidate_id center_hz _ _ samples =>
      (exists candidate, current request candidate_id candidate
         /\ Z.abs (center_hz - candidate.(CandidateSummary.center_hz)) <= candidate.(CandidateSummary.bandwidth_hz))
      /\ (approval = true <-> limits.(SafetyLimits.auto_approve_iq_bytes) < 4 * samples)
  | ProposedAction.RunLocalRecognition candidate_id =>
      (exists candidate, current request candidate_id candidate)
      /\ health.(HealthSummary.recognizer_available) = true
  end.

(** [part] occurs in [text]. *)
Definition shows (text part : string) : Prop := exists before after, text = before +:+ part +:+ after.

Lemma append_assoc (a b c : string) : (a +:+ b) +:+ c = a +:+ b +:+ c.
Proof.
  induction a as [|ch a IH]; [reflexivity|].
  change (String ch ((a +:+ b) +:+ c) = String ch (a +:+ b +:+ c)). now rewrite IH.
Qed.
Lemma append_nil (a : string) : a +:+ EmptyString = a.
Proof.
  induction a as [|ch a IH]; [reflexivity|].
  change (String ch (a +:+ EmptyString) = String ch a). now rewrite IH.
Qed.
Lemma shows_here part after : shows (part +:+ after) part.
Proof. now exists EmptyString, after. Qed.
Lemma shows_whole part : shows part part.
Proof. exists EmptyString, EmptyString. now rewrite append_nil. Qed.
Lemma shows_later text part before : shows text part -> shows (before +:+ text) part.
Proof. intros (b&a&->). exists (before +:+ b), a. now rewrite append_assoc. Qed.
Lemma shows_bound a b after : shows (print_u a +:+ "≤" +:+ print_u b +:+ after) (print_u a +:+ "≤" +:+ print_u b).
Proof.
  exists EmptyString, after. rewrite (append_assoc _ _ after), (append_assoc _ _ after). reflexivity.
Qed.

(** Looking for a part, one piece of the text after the other. *)
Ltac find_part := repeat first [apply shows_bound | apply shows_here | apply shows_whole | apply shows_later].

Section Basis.
Context (request : PlanRequest.t) (Hwf : PlanRequest.wf request) (Hok : RequestOk request).

Lemma action_words action approval : ActionOk request action approval -> words_hold request action approval.
Proof.
  destruct 1; cbn; [assumption|assumption|..]; split_and!; eauto; try lia; apply bool_decide_eq_true.
Qed.

(** For a survey the numbers are printed as they are without bounds. *)
Lemma survey_shown start stop step rate bandwidth dwell approval a b :
  ActionOk request (ProposedAction.SurveyBand start stop step rate bandwidth dwell) approval ->
  (a, b) ∈ bounds_shown (ProposedAction.SurveyBand start stop step rate bandwidth dwell) request.(PlanRequest.limits) ->
  a <= b /\ exists text, describe_survey request.(PlanRequest.limits) start stop step rate bandwidth dwell = Some text
            /\ shows text (print_u a +:+ "≤" +:+ print_u b).
Proof.
  intros Haction Hin. pose proof Hwf as (_&_&_&_&Hl). unfold SafetyLimits.wf, is_u in Hl. destruct (rq_limits _ Hok).
  inversion Haction as [| |? ? ? ? ? ? n| | |]; subst.
  match goal with H : covers _ _ n |- _ => apply covers_div in H as Hcov; [|lia] end. unfold in_band in *.
  unfold describe_survey. destruct (Z.eqb_spec step 0); [lia|].
  rewrite sub64_small by (unfold u64_max; lia). rewrite div_ceil_add by lia.
  cbn [bounds_shown] in Hin. rewrite <- Hcov in Hin.
  replace (saturating_add ((stop - start + (step - 1)) / step) 1) with n by (unfold saturating_add, u64_max; lia).
  replace (saturating_mul n (4096 * 4)) with (n * 16384) by (unfold saturating_mul, u64_max; lia).
  rewrite !elem_of_cons, elem_of_nil in Hin. split; [destruct_or! Hin; simplify_eq; lia|].
  eexists. split; [reflexivity|]. destruct_or! Hin; simplify_eq.
  all: change "768"%string with (print_u 768); find_part.
Qed.

Lemma action_shown plan a b :
  ActionOk request plan.(ValidatedPlan.action) plan.(ValidatedPlan.approval_required) ->
  (a, b) ∈ bounds_shown plan.(ValidatedPlan.action) request.(PlanRequest.limits) ->
  a <= b /\ exists text, describe_basis_action plan request.(PlanRequest.limits) = Some text
            /\ shows text (print_u a +:+ "≤" +:+ print_u b).
Proof.
  intros Haction Hin. pose proof Hwf as (_&_&_&_&Hl). unfold SafetyLimits.wf, is_u in Hl.
  unfold describe_basis_action. destruct (ValidatedPlan.action plan) as [| | | | |] eqn:Eaction.
  1, 5, 6: cbn [bounds_shown] in Hin; now apply elem_of_nil in Hin.
  - eapply survey_shown; eassumption.
  - inversion Haction as [| | |? ? ? ? ? ? ? ? ? ? Hradio| |]; subst; unfold RadioOk in *.
    cbn [bounds_shown] in Hin. rewrite !elem_of_cons, elem_of_nil in Hin.
    split; [destruct_or! Hin; simplify_eq; lia|]. eexists. split; [reflexivity|].
    destruct_or! Hin; simplify_eq; change "1000"%string with (print_u 1000); find_part.
  - inversion Haction as [| | | |? ? ? ? ? ? ? ? ? ? ? Hradio|]; subst; unfold RadioOk in *.
    cbn [bounds_shown] in Hin. rewrite !elem_of_cons, elem_of_nil in Hin.
    replace (saturating_mul samples 4) with (4 * samples) by (unfold saturating_mul, u64_max in *; lia).
    split; [destruct_or! Hin; simplify_eq; lia|]. eexists. split; [reflexivity|].
    destruct_or! Hin; simplify_eq; find_part.
Qed.
End Basis.

Lemma basis_exists request plan :
  ActionOk request plan.(ValidatedPlan.action) plan.(ValidatedPlan.approval_required) ->
  exists text, describe_basis_action plan request.(PlanRequest.limits) = Some text.
Proof.
  intros Haction. unfold describe_basis_action, describe_survey.
  destruct (ValidatedPlan.action plan); eauto. inversion Haction; subst.
  destruct (Z.eqb_spec step_hz 0); [lia|eauto].
Qed.

(** C7: what the operator is told about a plan is true: for every plan the policy accepts, the
    text of its basis is printed (the subtraction and the division in it cannot go wrong), names
    the request and the generation of the request, shows every bound of the action as a≤b with the
    exact numbers (the points and the bytes of a survey without any rounding or saturation), and
    every bound holds; what it says in words holds too: frequencies in band, candidates that are
    current, the step within 80 percent of the bandwidth, capabilities that are there, and for a
    capture whether it is above the limit of automatic approval. *)
Theorem decision_basis_is_true request response plan :
  PlanRequest.wf request -> PlanResponse.wf response ->
  validate_request request = Ok tt -> validate_response request response = Ok plan ->
  exists text, describe_decision_basis plan request = Some text
  /\ shows text ("request=" +:+ print_u request.(PlanRequest.request_id) +:+ "、generation="
                 +:+ print_u request.(PlanRequest.session_generation))
  /\ (forall a b, (a, b) ∈ bounds_shown plan.(ValidatedPlan.action) request.(PlanRequest.limits) ->
        a <= b /\ shows text (print_u a +:+ "≤" +:+ print_u b))
  /\ words_hold request plan.(ValidatedPlan.action) plan.(ValidatedPlan.approval_required)
  /\ match plan.(ValidatedPlan.action) with
     | ProposedAction.CaptureBoundedIq _ _ _ _ samples =>
         shows text (if request.(PlanRequest.limits).(SafetyLimits.auto_approve_iq_bytes) <? 4 * samples
                     then ABOVE_THRESHOLD else BELOW_THRESHOLD)
     | _ => True
     end.
Proof.
  intros Hwf (_&_&_&Hresponse) Hrequest Hplan. apply (validate_request_spec request tt Hwf) in Hrequest as Hok.
  apply validate_response_Ok in Hplan as (_&_&_&_&_&_&_&Ea&Haction&Hid&Hgeneration&_).
  rewrite Ea in Hresponse. apply validate_action_spec in Haction; [|assumption..].
  destruct (basis_exists _ _ Haction) as [text Etext]. unfold describe_decision_basis. rewrite Etext.
  eexists. split; [reflexivity|]. rewrite Hid, Hgeneration. split_and!.
  - eexists EmptyString, _. rewrite !append_assoc. reflexivity.
  - intros a b Hin. destruct (action_shown request Hwf Hok _ _ _ Haction Hin) as (Hle&text'&E&Hshows).
    rewrite Etext in E. injection E as <-. split; [exact Hle|]. do 2 apply shows_later. exact Hshows.
  - apply action_words, Haction.
  - unfold describe_basis_action in Etext. destruct (ValidatedPlan.action plan); try exact I.
    injection Etext as <-.
    replace (_ <? _) with (ValidatedPlan.approval_required plan); [find_part|].
    inversion Haction; subst. apply eq_iff_eq_true. rewrite bool_decide_eq_true, Z.ltb_lt. reflexivity.
Qed.

Lemma decision_basis_is_true_witness :
  exists text plan, validate_response PolicySamples.request (PolicySamples.response PolicySamples.survey) = Ok plan
  /\ describe_decision_basis plan PolicySamples.request = Some text
  /\ shows text (print_u 8 +:+ "≤" +:+ print_u 768).
Proof.
  destruct (validate_response PolicySamples.request (PolicySamples.response PolicySamples.survey)) as [plan|e] eqn:E;
    [|vm_compute in E; discriminate].
  destruct (decision_basis_is_true PolicySamples.request (PolicySamples.response PolicySamples.survey) plan)
    as (text&Etext&_&Hbounds&_).
  - exact PolicySamples.request_wf.
  - split_and!; try exact PolicySamples.survey_wf; vm_compute; intuition congruence.
  - vm_compute. reflexivity.
  - exact E.
  - exists text, plan. split_and!; [reflexivity|exact Etext|]. apply Hbounds.
    apply validate_response_Ok in E as (_&_&_&_&_&_&_&Ea&_). injection Ea as <-.
    cbn [bounds_shown PolicySamples.survey]. right. left.
Defined.
