(* ===== verification/Console.v ===== *)
(** * The interactive console

    [controller/src/bin/sdr-agent.rs]: [ConsoleApp], the state machine between the
    operator's terminal, the planner session, and the threads that drive the radio.
    Every call to the outside is recorded in a log, newest first, and answered by
    the class [World], a function of the log; so the theorems hold for every
    behaviour of the operator, the planner session, the radio and the clock. *)
From S2P Require Import Prelude Hoare Text Utf8 F32 Protocol Policy Sdr Execution Autonomy SweepPlan Session ConsoleText.

Definition CANCEL_START_RETRIES : nat := 50.
Definition AUTO_RETRY_DELAY : Z := from_secs AUTO_RETRY_DELAY_SECS.

(** ** Data *)

(** An [SdrdActionAdapter] is an address and a time limit. *)
Module Adapter.
Record t := mk { address : string; timeout_ms : Z }.
End Adapter.

Module ActiveSweepKind.
Inductive t :=
| Initial
| Planned (request_id maximum_bytes : Z)
| Inspection (request_id : Z) (candidate_id : string) (maximum_bytes : Z).
End ActiveSweepKind.

(** A [JoinHandle] is the number of log entries when the thread was started;
    the thread of a capture owns the executor and gives it back. *)
Module ActiveExecution.
Record t := mk {
  request_id : Z;
  session_generation : Z;
  canceller : Adapter.t;
  worker : nat;
  owned : Adapter.t;
}.
End ActiveExecution.

Module ActiveSweep.
Record t := mk {
  kind : ActiveSweepKind.t;
  session_generation : Z;
  canceller : Adapter.t;
  worker : nat;
}.
End ActiveSweep.

Module SessionQueueKind.
Inductive t := Steer | FollowUp.
Definition command (self : t) : string :=
  match self with Steer => "steer" | FollowUp => "follow_up" end.
Definition label (self : t) : string := match self with Steer => "引导" | FollowUp => "跟进" end.
End SessionQueueKind.

Module PendingSessionCommand.
Inductive t :=
| Prompt (request_id : Z)
| Queue (request_id : Z) (kind : SessionQueueKind.t)
| Abort.
End PendingSessionCommand.

Module InitialSurveyOptions.
Record t := mk { start_hz : Z; stop_hz : Z; step_hz : Z; dwell_ms : Z; gain_db : Z }.
End InitialSurveyOptions.

(** One line to the planner session. *)
Module Command.
Record t := mk {
  command_id : Z;
  session_generation : Z;
  kind : string;
  context : option PlanRequest.t;
}.
End Command.

Module SessionClient.
Record t := mk { pending : list Z; command_id : Z; session_generation : Z }.
End SessionClient.

(** What the console writes for machines to read. *)
Inductive Payload :=
| RequestPayload (request : PlanRequest.t)
| ObservationPayload (observation : ObservationSummary.t)
| SweepPlotPayload (report : SweepReport.t) (kind : string) (gain_db : Z)
| ExecutionPayload (observation : ExecutionObservation.t)
| ThinkingPayload (label : string).

(** ** The outside *)
Inductive Op :=
| Write (command : Command.t)
| Read
| Sleep (milliseconds : Z)
| Clock
| Observe (address : string) (timeout_ms : Z)
| StartCapture (executor : Adapter.t) (plan : ValidatedPlan.t)
    (authorization : ExecutionAuthorization.t)
| StartSweep (address : string) (timeout_ms : Z) (sigmf_directory : option string)
    (plan : SweepPlan.t) (kind : ActiveSweepKind.t)
| IsFinished (worker : nat)
| JoinCapture (worker : nat)
| JoinSweep (worker : nat)
| Cancel (canceller : Adapter.t) (session_generation : Z)
| Emit (payload : Payload)
| Persist (path : string) (history : list string)
| StopFlag
| Receive
| Line (input : string).

Definition Log : Type := list Op.

(** What arrives on the planner socket. *)
Inductive Chunk :=
| Bytes (bytes : list Z)
| WouldBlock
| ReadError (message : string).

(** What the channel from the terminal delivers. *)
Inductive Received :=
| ReceivedLine (line : string)
| Timeout
| Disconnected.

(** The operator, the planner session, the threads, the clock; a panic of a
    thread is [None]. *)
Class World `{Json} := {
  encode_command : Command.t -> result string (list Z);
  write_all : Log -> list Z -> result string unit;
  read_chunk : Log -> Chunk;
  now : Log -> Z;
  observed : Log -> result SdrError.t SdrSnapshot.t;
  is_finished : Log -> bool;
  capture_result : Log -> option (result SdrError.t ExecutionObservation.t);
  sweep_result : Log -> option (result SweepError.t SweepReport.t);
  cancel_result : Log -> result SdrError.t CancelObservation.t;
  encode_payload : Payload -> result string unit;
  stop_requested : Log -> bool;
  received : Log -> Received;
  show : Value -> string;
}.

Module ConsoleApp.
Record t := mk {
  client : SessionClient.t;
  template : PlanRequest.t;
  next_request_id : Z;
  session_generation : Z;
  pending : option ValidatedPlan.t;
  requests : gmap Z PlanRequest.t;
  pending_session_commands : gmap Z PendingSessionCommand.t;
  history : list string;
  agent_cycle_active : bool;
  active_request_id : option Z;
  plan_seen_in_cycle : bool;
  executor : option Adapter.t;
  active_execution : option ActiveExecution.t;
  active_sweep : option ActiveSweep.t;
  sdrd_address : option string;
  sdrd_timeout : Z;
  survey_gain_db : Z;
  sigmf_directory : option string;
  cruise : CruiseControl.t;
  auto_mission : option string;
  auto_next_instruction : option string;
  next_auto_attempt : Z;
  deferred_renew : option (ControllerState.t * string);
  session_state_path : option string;
  resume_summary : option string;
}.

(** Assignment to a field: the eta expansion of the record with one projection
    replaced. *)
Definition eta (a : t) : t :=
  mk a.(client) a.(template) a.(next_request_id) a.(session_generation) a.(pending) a.(requests)
    a.(pending_session_commands) a.(history) a.(agent_cycle_active) a.(active_request_id)
    a.(plan_seen_in_cycle) a.(executor) a.(active_execution) a.(active_sweep) a.(sdrd_address)
    a.(sdrd_timeout) a.(survey_gain_db) a.(sigmf_directory) a.(cruise) a.(auto_mission)
    a.(auto_next_instruction) a.(next_auto_attempt) a.(deferred_renew) a.(session_state_path)
    a.(resume_summary).
Ltac assign field := assign_field eta field.

Definition with_client : SessionClient.t -> t -> t := ltac:(assign client).
Definition with_template : PlanRequest.t -> t -> t := ltac:(assign template).
Definition with_next_request_id : Z -> t -> t := ltac:(assign next_request_id).
Definition with_session_generation : Z -> t -> t := ltac:(assign session_generation).
Definition with_pending : option ValidatedPlan.t -> t -> t := ltac:(assign pending).
Definition with_requests : gmap Z PlanRequest.t -> t -> t := ltac:(assign requests).
Definition with_pending_session_commands : gmap Z PendingSessionCommand.t -> t -> t :=
  ltac:(assign pending_session_commands).
Definition with_history : list string -> t -> t := ltac:(assign history).
Definition with_agent_cycle_active : bool -> t -> t := ltac:(assign agent_cycle_active).
Definition with_active_request_id : option Z -> t -> t := ltac:(assign active_request_id).
Definition with_plan_seen_in_cycle : bool -> t -> t := ltac:(assign plan_seen_in_cycle).
Definition with_executor : option Adapter.t -> t -> t := ltac:(assign executor).
Definition with_active_execution : option ActiveExecution.t -> t -> t :=
  ltac:(assign active_execution).
Definition with_active_sweep : option ActiveSweep.t -> t -> t := ltac:(assign active_sweep).
Definition with_cruise : CruiseControl.t -> t -> t := ltac:(assign cruise).
Definition with_auto_mission : option string -> t -> t := ltac:(assign auto_mission).
Definition with_auto_next_instruction : option string -> t -> t :=
  ltac:(assign auto_next_instruction).
Definition with_next_auto_attempt : Z -> t -> t := ltac:(assign next_auto_attempt).
Definition with_deferred_renew : option (ControllerState.t * string) -> t -> t :=
  ltac:(assign deferred_renew).
Definition with_resume_summary : option string -> t -> t := ltac:(assign resume_summary).

Definition with_state (state : ControllerState.t) (a : t) : t :=
  with_template
    (PlanRequest.mk a.(template).(PlanRequest.protocol_version) a.(template).(PlanRequest.request_id)
       a.(template).(PlanRequest.session_generation) a.(template).(PlanRequest.instruction) state
       a.(template).(PlanRequest.observation) a.(template).(PlanRequest.limits)) a.
Definition with_observation (observation : ObservationSummary.t) (a : t) : t :=
  with_template
    (PlanRequest.mk a.(template).(PlanRequest.protocol_version) a.(template).(PlanRequest.request_id)
       a.(template).(PlanRequest.session_generation) a.(template).(PlanRequest.instruction)
       a.(template).(PlanRequest.state) observation a.(template).(PlanRequest.limits)) a.
(** [age_ms] and [health] of the observation. *)
Definition with_health (age_ms : Z) (health : HealthSummary.t) (a : t) : t :=
  let o := a.(template).(PlanRequest.observation) in
  with_observation
    (ObservationSummary.mk age_ms health o.(ObservationSummary.candidates)
       o.(ObservationSummary.latest_sweep) o.(ObservationSummary.recognition)) a.
(** The request a prompt is sent with. *)
Definition request_for (request_id : Z) (instruction : string) (a : t) : PlanRequest.t :=
  PlanRequest.mk a.(template).(PlanRequest.protocol_version) request_id a.(session_generation)
    instruction a.(template).(PlanRequest.state) a.(template).(PlanRequest.observation)
    a.(template).(PlanRequest.limits).

(** [active_execution.is_some() || active_sweep.is_some()]. *)
Definition hardware_active (a : t) : bool :=
  negb (is_none a.(active_execution)) || negb (is_none a.(active_sweep)).
Definition busy (a : t) : bool := hardware_active a || a.(agent_cycle_active).
End ConsoleApp.

(** The console and the log. *)
Record State := state { app : ConsoleApp.t; log : Log }.

Abbreviation Act := (M State AppError).

Definition this {A} (f : ConsoleApp.t -> A) : Act A := gets (fun s => f s.(app)).
Definition set (f : ConsoleApp.t -> ConsoleApp.t) : Act unit :=
  modify (fun s => state (f s.(app)) s.(log)).
Definition perform (op : Op) : Act unit := modify (fun s => state s.(app) (op :: s.(log))).
(** A call and its answer. *)
Definition ask {A} (op : Op) (answer : Log -> A) : Act A := perform op ;; gets (fun s => answer s.(log)).
Definition fail {A} (error : AppError) : Act A := lift (Err error).
Definition refuse {A} (message : string) : Act A := fail (InvalidInput message).
Definition when (b : bool) (m : Act unit) : Act unit := if b then m else mret tt.

Section Operations.
Context {json : Json} {access : JsonAccess} {world : World} {decode_plan : Deserialize PlanResponse.t}.
(** The rounds a wait is followed for; running out is [Blocked]. *)
Context (fuel : nat).

(** ** The planner session *)

Definition MAX_FRAME_MESSAGE : string := "session response exceeds 32 KiB".

Fixpoint newline_position (bs : list Z) : option nat :=
  match bs with
  | [] => None
  | b :: bs => if b =? 10 then Some O else option_map S (newline_position bs)
  end.

Definition with_received (pending : list Z) (c : SessionClient.t) : SessionClient.t :=
  SessionClient.mk pending c.(SessionClient.command_id) c.(SessionClient.session_generation).

Definition take_frame : Act (option Value) :=
  client ← this ConsoleApp.client ;
  match newline_position client.(SessionClient.pending) with
  | None => mret None
  | Some newline =>
      if MAX_FRAME_BYTES <? Z.of_nat newline then refuse MAX_FRAME_MESSAGE
      else
        let frame := take newline client.(SessionClient.pending) in
        set (ConsoleApp.with_client
               (with_received (drop (S newline) client.(SessionClient.pending)) client)) ;;
        value ← lift (map_err Serde (from_slice frame)) ;
        mret (Some value)
  end.

(** One read of at most 4096 bytes; an empty one is the end of the stream. *)
Definition try_read : Act (option Value) :=
  frame ← take_frame ;
  match frame with
  | Some frame => mret (Some frame)
  | None =>
      chunk ← ask Read read_chunk ;
      match chunk with
      | Bytes [] => fail (Io "planner session socket closed")
      | Bytes bytes =>
          client ← this ConsoleApp.client ;
          let pending := client.(SessionClient.pending) ++ take (Z.to_nat 4096) bytes in
          set (ConsoleApp.with_client (with_received pending client)) ;;
          if (MAX_FRAME_BYTES <? length_z pending) && is_none (newline_position pending)
          then refuse MAX_FRAME_MESSAGE
          else take_frame
      | WouldBlock => mret None
      | ReadError error => fail (Io error)
      end
  end.

(** [SessionClient::read]: wait for a frame. *)
Fixpoint read (rounds : nat) : Act Value :=
  match rounds with
  | O => fail Blocked
  | S rounds =>
      frame ← try_read ;
      match frame with
      | Some frame => mret frame
      | None => perform (Sleep 2) ;; read rounds
      end
  end.

Definition next_command_id : Act Z :=
  client ← this ConsoleApp.client ;
  let id := client.(SessionClient.command_id) in
  set (ConsoleApp.with_client
         (SessionClient.mk client.(SessionClient.pending) (default 1 (checked_add id 1))
            client.(SessionClient.session_generation))) ;;
  mret id.

Definition write (command : Command.t) : Act unit :=
  frame ← lift (map_err Serde (encode_command command)) ;
  if MAX_FRAME_BYTES <? length_z frame then refuse "session command exceeds 32 KiB"
  else
    r ← ask (Write command) (fun log => write_all log (frame ++ [10])) ;
    lift (map_err Io r).

Definition send_session_command (kind : string) (context : option PlanRequest.t) : Act Z :=
  command_id ← next_command_id ;
  generation ← this ConsoleApp.session_generation ;
  write (Command.mk command_id generation kind context) ;;
  mret command_id.

(** ** History and reports *)
Definition push_history (entry : string) (history : list string) : list string :=
  (if (length history =? HISTORY_LIMIT)%nat then tail history else history) ++ [entry].

(** The entry is kept; that saving may fail is only reported. *)
Definition record (entry : string) : Act unit :=
  set (fun a => ConsoleApp.with_history (push_history entry a.(ConsoleApp.history)) a) ;;
  path ← this ConsoleApp.session_state_path ;
  history ← this ConsoleApp.history ;
  match path with
  | Some path => perform (Persist path history)
  | None => mret tt
  end.

Definition emit (payload : Payload) : Act unit :=
  perform (Emit payload) ;; lift (map_err Serde (encode_payload payload)).

Definition emit_observation : Act unit :=
  template ← this ConsoleApp.template ;
  emit (ObservationPayload template.(PlanRequest.observation)).

Definition emit_sweep_plot (report : SweepReport.t) (kind : ActiveSweepKind.t) : Act unit :=
  gain ← this ConsoleApp.survey_gain_db ;
  match kind with
  | ActiveSweepKind.Initial => emit (SweepPlotPayload report "initial" gain)
  | ActiveSweepKind.Planned _ _ => emit (SweepPlotPayload report "planned" gain)
  | ActiveSweepKind.Inspection _ _ _ => mret tt
  end.

(** ** The radio's health *)
Definition refresh_sdr_health : Act bool :=
  address ← this ConsoleApp.sdrd_address ;
  match address with
  | None => mret false
  | Some address =>
      timeout ← this ConsoleApp.sdrd_timeout ;
      observation ← ask (Observe address timeout) observed ;
      template ← this ConsoleApp.template ;
      let health := template.(PlanRequest.observation).(ObservationSummary.health) in
      match observation with
      | Ok snapshot =>
          set (ConsoleApp.with_health 0
                 (SdrSnapshot.planner_health snapshot
                    health.(HealthSummary.recognizer_available)
                    health.(HealthSummary.dropped_observations))) ;;
          mret (snapshot.(SdrSnapshot.online) && snapshot.(SdrSnapshot.healthy))
      | Err _ =>
          set (ConsoleApp.with_health
                 template.(PlanRequest.observation).(ObservationSummary.age_ms)
                 (HealthSummary.mk false false false health.(HealthSummary.recognizer_available)
                    health.(HealthSummary.dropped_observations))) ;;
          mret false
      end
  end.

(** ** The cruise *)
Definition cruise_active : Act bool := this (fun a => CruiseControl.is_active a.(ConsoleApp.cruise)).
Definition set_cruise (f : CruiseControl.t -> CruiseControl.t) : Act unit :=
  set (fun a => ConsoleApp.with_cruise (f a.(ConsoleApp.cruise)) a).
Definition stop_cruise_if_active (reason : CruiseStopReason.t) : Act unit :=
  active ← cruise_active ;
  when active (set_cruise (CruiseControl.stop reason)).
(** [self.next_auto_attempt = Instant::now() + delay]. *)
Definition next_attempt_in (delay : Z) : Act unit :=
  time ← ask Clock now ;
  set (ConsoleApp.with_next_auto_attempt (time + delay)).
(** A cruise that found no radio, or got no next step, tries again later. *)
Definition sdr_unavailable : Act unit :=
  set_cruise (fun c => (CruiseControl.record_sdr_unavailable c).2) ;; next_attempt_in AUTO_RETRY_DELAY.
Definition planner_missing : Act unit :=
  set_cruise (fun c => (CruiseControl.record_planner_missing c).2) ;; next_attempt_in AUTO_RETRY_DELAY.

(** ** Starting a hardware action *)
Definition start_execution (plan : ValidatedPlan.t) (authorization : ExecutionAuthorization.t)
    : Act unit :=
  executor ← this ConsoleApp.executor ;
  match executor with
  | None => stop_cruise_if_active CruiseStopReason.Fault
  | Some executor =>
      set (ConsoleApp.with_executor None) ;;
      worker ← gets (fun s => length s.(log)) ;
      perform (StartCapture executor plan authorization) ;;
      set (ConsoleApp.with_active_execution
             (Some {| ActiveExecution.request_id := plan.(ValidatedPlan.request_id);
                      ActiveExecution.session_generation := plan.(ValidatedPlan.session_generation);
                      ActiveExecution.canceller := executor;
                      ActiveExecution.worker := worker;
                      ActiveExecution.owned := executor |})) ;;
      set_cruise (CruiseControl.set_phase CruisePhase.Executing)
  end.

(** The plan of a sweep the console starts: one 4096-sample frame a point. *)
Definition sweep_plan (sweep_id : string) (generation : Z) (frequencies : SweepFrequencies.t)
    (sample_rate_hz rf_bandwidth_hz dwell_ms gain_db : Z) : SweepPlan.t :=
  {| SweepPlan.sweep_id := sweep_id;
     SweepPlan.session_generation := generation;
     SweepPlan.frequencies := frequencies;
     SweepPlan.sample_rate_hz := sample_rate_hz;
     SweepPlan.rf_bandwidth_hz := rf_bandwidth_hz;
     SweepPlan.settle_ms := dwell_ms;
     SweepPlan.frame_samples := 4096;
     SweepPlan.aggregate_frames := 1;
     SweepPlan.point_timeout_ms := 250;
     SweepPlan.detection_threshold_db := f32_of_Z 12;
     SweepPlan.gain_db := Some gain_db |}.

Definition sweep_failed (error : SweepError.t) : AppError :=
  Failed error.(SweepError.code) error.(SweepError.message).
Definition sdr_failed (error : SdrError.t) : AppError :=
  Failed error.(SdrError.code) error.(SdrError.message).

(** [thread::spawn(move || engine.run(&plan))] and the record of it. *)
Definition start_sweep (address : string) (plan : SweepPlan.t) (kind : ActiveSweepKind.t)
    (generation : Z) : Act unit :=
  sdrd_timeout ← this ConsoleApp.sdrd_timeout ;
  sigmf_directory ← this ConsoleApp.sigmf_directory ;
  let timeout := Z.max sdrd_timeout 500 in
  worker ← gets (fun s => length s.(log)) ;
  perform (StartSweep address timeout sigmf_directory plan kind) ;;
  set (ConsoleApp.with_active_sweep
         (Some {| ActiveSweep.kind := kind;
                  ActiveSweep.session_generation := generation;
                  ActiveSweep.canceller := Adapter.mk address timeout;
                  ActiveSweep.worker := worker |})).

Definition start_initial_survey (options : InitialSurveyOptions.t) : Act unit :=
  busy ← this ConsoleApp.busy ;
  if busy : bool then refuse "cannot start initial survey while another step is active"
  else
    address ← this ConsoleApp.sdrd_address ;
    match address with
    | None => mret tt
    | Some address =>
        healthy ← refresh_sdr_health ;
        if negb healthy then mret tt
        else
          generation ← this ConsoleApp.session_generation ;
          let plan :=
            sweep_plan ("initial-" +:+ print_u generation) generation
              (SweepFrequencies.Range options.(InitialSurveyOptions.start_hz)
                 options.(InitialSurveyOptions.stop_hz) options.(InitialSurveyOptions.step_hz))
              10000000 10000000 options.(InitialSurveyOptions.dwell_ms)
              options.(InitialSurveyOptions.gain_db) in
          _ ← lift (map_err sweep_failed (validate_plan plan)) ;
          start_sweep address plan ActiveSweepKind.Initial generation ;;
          set (ConsoleApp.with_state ControllerState.Surveying)
    end.

(** What a cruise may still receive; a sweep that needs more ends the cruise. *)
Definition over_budget (maximum_bytes : Z) : Act bool :=
  cruise ← this ConsoleApp.cruise ;
  mret (CruiseControl.is_active cruise && (CruiseControl.remaining_iq_bytes cruise <? maximum_bytes)).

(** The common end of [start_planned_survey] and [start_candidate_inspection]. *)
Definition launch_sweep (address : string) (sweep : SweepPlan.t) (kind : ActiveSweepKind.t)
    (generation maximum_bytes : Z) (state : ControllerState.t) : Act unit :=
  over ← over_budget maximum_bytes ;
  if over : bool then set_cruise (CruiseControl.stop CruiseStopReason.ByteBudgetExhausted)
  else
    start_sweep address sweep kind generation ;;
    set (ConsoleApp.with_state state) ;;
    set_cruise (CruiseControl.set_phase CruisePhase.Executing).

(** The radio is looked at first: without an address a cruise ends, without a
    healthy radio it waits. *)
Definition with_healthy_radio (launch : string -> Act unit) : Act unit :=
  address ← this ConsoleApp.sdrd_address ;
  match address with
  | None => stop_cruise_if_active CruiseStopReason.Fault
  | Some address =>
      healthy ← refresh_sdr_health ;
      if negb healthy then
        active ← cruise_active ;
        when active sdr_unavailable
      else launch address
  end.

Definition start_planned_survey (plan : ValidatedPlan.t) : Act unit :=
  active ← this ConsoleApp.hardware_active ;
  if active : bool then refuse "cannot start planned survey while another step is active"
  else
    match plan.(ValidatedPlan.action) with
    | ProposedAction.SurveyBand start_hz stop_hz step_hz sample_rate_hz rf_bandwidth_hz dwell_ms =>
        with_healthy_radio (fun address =>
          gain ← this ConsoleApp.survey_gain_db ;
          let sweep :=
            sweep_plan ("request-" +:+ print_u plan.(ValidatedPlan.request_id))
              plan.(ValidatedPlan.session_generation)
              (SweepFrequencies.Range start_hz stop_hz step_hz)
              sample_rate_hz rf_bandwidth_hz dwell_ms gain in
          validated ← lift (map_err sweep_failed (validate_plan sweep)) ;
          let maximum_bytes := length_z validated.(ValidatedSweepPlan.centers_hz) * 4096 * 4 in
          launch_sweep address sweep
            (ActiveSweepKind.Planned plan.(ValidatedPlan.request_id) maximum_bytes)
            plan.(ValidatedPlan.session_generation) maximum_bytes ControllerState.Surveying)
    | _ => refuse "planned sweep requires survey_band action"
    end.

Definition start_candidate_inspection (plan : ValidatedPlan.t) : Act unit :=
  active ← this ConsoleApp.hardware_active ;
  if active : bool then refuse "cannot inspect a candidate while another step is active"
  else
    match plan.(ValidatedPlan.action) with
    | ProposedAction.InspectCandidate candidate_id center_hz sample_rate_hz rf_bandwidth_hz dwell_ms =>
        with_healthy_radio (fun address =>
          gain ← this ConsoleApp.survey_gain_db ;
          let sweep :=
            sweep_plan ("inspect-" +:+ print_u plan.(ValidatedPlan.request_id))
              plan.(ValidatedPlan.session_generation) (SweepFrequencies.Centers [center_hz])
              sample_rate_hz rf_bandwidth_hz dwell_ms gain in
          _ ← lift (map_err sweep_failed (validate_plan sweep)) ;
          let maximum_bytes := 4096 * 4 in
          launch_sweep address sweep
            (ActiveSweepKind.Inspection plan.(ValidatedPlan.request_id) candidate_id maximum_bytes)
            plan.(ValidatedPlan.session_generation) maximum_bytes ControllerState.Inspecting)
    | _ => refuse "candidate inspection requires inspect_candidate"
    end.

(** ** Frames from the planner session *)
Definition request_agent_abort : Act unit :=
  pending ← this ConsoleApp.pending_session_commands ;
  if existsb (fun p => match p.2 with PendingSessionCommand.Abort => true | _ => false end)
       (map_to_list pending)
  then mret tt
  else
    command_id ← send_session_command "abort" None ;
    set (fun a => ConsoleApp.with_pending_session_commands
                    (<[command_id := PendingSessionCommand.Abort]>
                       a.(ConsoleApp.pending_session_commands)) a).

Definition forget_request (request_id : Z) : Act unit :=
  set (fun a => ConsoleApp.with_requests (delete request_id a.(ConsoleApp.requests)) a).

(** The prompt was not accepted: the cycle it opened is over. *)
Definition prompt_refused (request_id : Z) : Act unit :=
  forget_request request_id ;;
  set (fun a => if is_u64_of a.(ConsoleApp.active_request_id) request_id
                then ConsoleApp.with_active_request_id None a else a) ;;
  set (ConsoleApp.with_agent_cycle_active false) ;;
  set (ConsoleApp.with_plan_seen_in_cycle false) ;;
  active ← cruise_active ;
  when active planner_missing.

Definition handle_session_response (frame : Value) : Act unit :=
  command_id ← lift (ok_or (InvalidInput "session response is missing command_id")
                       (get_u64 "command_id" frame)) ;
  response_generation ←
    lift (ok_or (InvalidInput "session response is missing session_generation")
            (get_u64 "session_generation" frame)) ;
  commands ← this ConsoleApp.pending_session_commands ;
  set (ConsoleApp.with_pending_session_commands (delete command_id commands)) ;;
  generation ← this ConsoleApp.session_generation ;
  match commands !! command_id with
  | None =>
      if negb (response_generation =? generation) then mret tt
      else refuse "session response has no pending command"
  | Some pending =>
      if negb (response_generation =? generation) then
        match pending with
        | PendingSessionCommand.Prompt request_id | PendingSessionCommand.Queue request_id _ =>
            forget_request request_id
        | PendingSessionCommand.Abort => mret tt
        end
      else
        let success := is_bool_of (get_bool "success" frame) true in
        match pending with
        | PendingSessionCommand.Prompt request_id =>
            if negb success then prompt_refused request_id else mret tt
        | PendingSessionCommand.Queue request_id _ =>
            if success then mret tt else forget_request request_id
        | PendingSessionCommand.Abort => mret tt
        end
  end.

Definition thinking_event (frame : Value) (label : string) : Act unit :=
  data ← lift (ok_or (InvalidInput "thinking event is missing data") (get "data" frame)) ;
  request_id ← lift (ok_or (InvalidInput "thinking event is missing request_id")
                       (get_u64 "request_id" data)) ;
  requests ← this ConsoleApp.requests ;
  if is_none (requests !! request_id) then refuse "thinking event refers to an unknown request"
  else if match get "delta" data with Some delta => is_none (as_str delta) | None => false end
  then refuse "thinking delta must be text"
  else emit (ThinkingPayload label).

Definition assistant_message (frame : Value) : Act unit :=
  match pointer "data" "text" frame ≫= as_str with
  | Some text => if negb (is_empty (trim text)) then record ("agent: " +:+ text) else mret tt
  | None => mret tt
  end.

(** What becomes of a plan the policy accepted, by the mode of the console. *)
Definition dispatch_plan (plan : ValidatedPlan.t) : Act unit :=
  cruise ← this ConsoleApp.cruise ;
  match cruise.(CruiseControl.mode) with
  | InteractionMode.StepApproval =>
      if is_hardware plan.(ValidatedPlan.action) then
        pending ← this ConsoleApp.pending ;
        if is_none pending then set (ConsoleApp.with_pending (Some plan))
        else refuse "a validated plan is already pending"
      else mret tt
  | InteractionMode.AutomaticCruise =>
      if negb (CruiseControl.is_active cruise) then mret tt
      else
        match plan.(ValidatedPlan.action) with
        | ProposedAction.CaptureBoundedIq _ _ _ _ _ =>
            if plan.(ValidatedPlan.approval_required) then
              set (ConsoleApp.with_pending (Some plan)) ;;
              set_cruise (CruiseControl.stop CruiseStopReason.ApprovalRequired)
            else
              authorization ← lift (map_err sdr_failed (ExecutionAuthorization.automatic plan)) ;
              start_execution plan authorization
        | ProposedAction.SurveyBand _ _ _ _ _ _ => start_planned_survey plan
        | ProposedAction.InspectCandidate _ _ _ _ _ => start_candidate_inspection plan
        | ProposedAction.Hold _ | ProposedAction.StopSession _ =>
            set_cruise (CruiseControl.stop CruiseStopReason.PlannerRequestedStop)
        | ProposedAction.RunLocalRecognition _ =>
            set_cruise (CruiseControl.stop CruiseStopReason.UnsupportedAction)
        end
  end.

Definition plan_proposed (frame : Value) : Act unit :=
  data ← lift (ok_or (InvalidInput "missing plan") (get "data" frame)) ;
  response ← lift (map_err Serde (from_value data)) ;
  requests ← this ConsoleApp.requests ;
  request ← lift (ok_or (InvalidInput "plan refers to an unknown request")
                    (requests !! response.(PlanResponse.request_id))) ;
  plan ← lift (map_err PolicyRejected (validate_response request response)) ;
  set (ConsoleApp.with_plan_seen_in_cycle true) ;;
  set_cruise CruiseControl.record_planner_action ;;
  mode ← this (fun a => a.(ConsoleApp.cruise).(CruiseControl.mode)) ;
  record ("agent: " +:+ describe_agent_reply plan mode) ;;
  record ("validated request " +:+ print_u plan.(ValidatedPlan.request_id)) ;;
  dispatch_plan plan ;;
  cycle ← this ConsoleApp.agent_cycle_active ;
  when (cycle && is_hardware plan.(ValidatedPlan.action)) request_agent_abort.

Definition agent_error (frame : Value) : Act unit :=
  let error := default "上游暂不可用"%string (pointer "data" "error" frame ≫= as_str) in
  record ("planner error: " +:+ error).

Definition agent_end : Act unit :=
  set (ConsoleApp.with_agent_cycle_active false) ;;
  set (ConsoleApp.with_active_request_id None) ;;
  set (ConsoleApp.with_requests ∅) ;;
  active ← cruise_active ;
  seen ← this ConsoleApp.plan_seen_in_cycle ;
  when (active && negb seen) planner_missing ;;
  set (ConsoleApp.with_plan_seen_in_cycle false).

Definition handle_event (frame : Value) : Act unit :=
  if negb (is_str (get_str "type" frame) "event") then mret tt
  else
    generation ← this ConsoleApp.session_generation ;
    if negb (is_u64_of (get_u64 "session_generation" frame) generation) then mret tt
    else
      let event := default EmptyString (get_str "event" frame) in
      if String.eqb event "thinking_start" then thinking_event frame "ThinkingStart"
      else if String.eqb event "thinking_delta" then thinking_event frame "ThinkingDelta"
      else if String.eqb event "thinking_end" then thinking_event frame "ThinkingEnd"
      else if String.eqb event "web_search_start" || String.eqb event "web_search_end"
              || String.eqb event "web_search_error" then
        requests ← this ConsoleApp.requests ;
        _ ← lift (describe_web_search_event frame requests) ;
        mret tt
      else if String.eqb event "assistant_message" then assistant_message frame
      else if String.eqb event "plan_proposed" then plan_proposed frame
      else if String.eqb event "agent_error" then agent_error frame
      else if String.eqb event "agent_end" then agent_end
      else mret tt.

Definition handle_frame (frame : Value) : Act unit :=
  if is_str (get_str "type" frame) "event" then handle_event frame
  else if is_str (get_str "type" frame) "response" then handle_session_response frame
  else refuse "unknown session frame type".

(** ** Commands that wait for their response *)
Definition SESSION_FAILED : string := "session command failed".

(** The loop of [command]: other frames are handled on the way. *)
Fixpoint await_response (rounds : nat) (command_id : Z) : Act Value :=
  match rounds with
  | O => fail Blocked
  | S rounds =>
      frame ← read fuel ;
      if is_str (get_str "type" frame) "response"
         && is_u64_of (get_u64 "command_id" frame) command_id
      then
        generation ← this ConsoleApp.session_generation ;
        if negb (is_u64_of (get_u64 "session_generation" frame) generation)
        then refuse "stale session response"
        else if negb (is_bool_of (get_bool "success" frame) true)
        then refuse (default SESSION_FAILED (get_str "error" frame))
        else mret frame
      else
        handle_frame frame ;;
        await_response rounds command_id
  end.

Definition command (kind : string) : Act Value :=
  command_id ← send_session_command kind None ;
  await_response fuel command_id.

Definition RENEW_MESSAGE : string :=
  "cannot renew the session while a planning or hardware step is active".

(** Everything that belonged to the old generation is dropped. *)
Definition next_generation (generation : Z) (state : ControllerState.t) (a : ConsoleApp.t)
    : ConsoleApp.t :=
  let template := a.(ConsoleApp.template) in
  let client := a.(ConsoleApp.client) in
  ConsoleApp.with_client
    (SessionClient.mk client.(SessionClient.pending) client.(SessionClient.command_id) generation)
  (ConsoleApp.with_plan_seen_in_cycle false
  (ConsoleApp.with_active_request_id None
  (ConsoleApp.with_pending_session_commands ∅
  (ConsoleApp.with_requests ∅
  (ConsoleApp.with_pending None
  (ConsoleApp.with_template
    (PlanRequest.mk template.(PlanRequest.protocol_version) template.(PlanRequest.request_id)
       generation template.(PlanRequest.instruction) state template.(PlanRequest.observation)
       template.(PlanRequest.limits))
  (ConsoleApp.with_session_generation generation a))))))).

Definition renew (state : ControllerState.t) (message : string) : Act unit :=
  busy ← this ConsoleApp.busy ;
  if busy : bool then refuse RENEW_MESSAGE
  else
    _ ← command "close_session" ;
    generation ← this ConsoleApp.session_generation ;
    generation ← lift (ok_or (InvalidInput "session generation exhausted")
                         (checked_add generation 1)) ;
    set (next_generation generation state) ;;
    _ ← command "open_session" ;
    record message.

Definition status : Act unit := _ ← command "get_state" ; mret tt.

(** ** Instructions to the planner *)
Definition next_request : Act Z :=
  request_id ← this ConsoleApp.next_request_id ;
  next ← lift (ok_or (InvalidInput "request id exhausted") (checked_add request_id 1)) ;
  set (ConsoleApp.with_next_request_id next) ;;
  mret request_id.

Definition remember_request (request : PlanRequest.t) : Act unit :=
  set (fun a => ConsoleApp.with_requests
                  (<[request.(PlanRequest.request_id) := request]> a.(ConsoleApp.requests)) a).
Definition remember_command (command_id : Z) (pending : PendingSessionCommand.t) : Act unit :=
  set (fun a => ConsoleApp.with_pending_session_commands
                  (<[command_id := pending]> a.(ConsoleApp.pending_session_commands)) a).

Definition submit (instruction : string) : Act unit :=
  busy ← this ConsoleApp.busy ;
  if busy : bool then mret tt
  else
    _ ← refresh_sdr_health ;
    request_id ← next_request ;
    resume_summary ← this ConsoleApp.resume_summary ;
    let text :=
      match resume_summary with
      | None => instruction
      | Some summary => carry_forward_instruction summary instruction
      end in
    request ← this (ConsoleApp.request_for request_id text) ;
    lift (map_err PolicyRejected (validate_request request)) ;;
    set (ConsoleApp.with_resume_summary None) ;;
    emit (RequestPayload request) ;;
    record ("operator: " +:+ instruction) ;;
    remember_request request ;;
    set (ConsoleApp.with_agent_cycle_active true) ;;
    set (ConsoleApp.with_active_request_id (Some request_id)) ;;
    set (ConsoleApp.with_plan_seen_in_cycle false) ;;
    command_id ← send_session_command "prompt" (Some request) ;
    remember_command command_id (PendingSessionCommand.Prompt request_id).

Definition queue_model_input (instruction : string) (kind : SessionQueueKind.t) : Act unit :=
  cycle ← this ConsoleApp.agent_cycle_active ;
  deferred ← this ConsoleApp.deferred_renew ;
  hardware ← this ConsoleApp.hardware_active ;
  if is_empty instruction || negb cycle || negb (is_none deferred) || hardware then mret tt
  else
    request_id ← next_request ;
    request ← this (ConsoleApp.request_for request_id instruction) ;
    lift (map_err PolicyRejected (validate_request request)) ;;
    emit (RequestPayload request) ;;
    record ("operator " +:+ SessionQueueKind.command kind +:+ ": " +:+ instruction) ;;
    remember_request request ;;
    command_id ← send_session_command (SessionQueueKind.command kind) (Some request) ;
    remember_command command_id (PendingSessionCommand.Queue request_id kind).

(** ** The operator's decisions *)
Definition approve : Act unit :=
  active ← this ConsoleApp.hardware_active ;
  if active : bool then mret tt
  else
    pending ← this ConsoleApp.pending ;
    match pending with
    | None => mret tt
    | Some plan =>
        set (ConsoleApp.with_pending None) ;;
        record ("approved request " +:+ print_u plan.(ValidatedPlan.request_id)) ;;
        match plan.(ValidatedPlan.action) with
        | ProposedAction.SurveyBand _ _ _ _ _ _ => start_planned_survey plan
        | ProposedAction.InspectCandidate _ _ _ _ _ => start_candidate_inspection plan
        | ProposedAction.CaptureBoundedIq _ _ _ _ _ =>
            start_execution plan (ExecutionAuthorization.by_operator plan)
        | _ => mret tt
        end
    end.

Definition reject : Act unit :=
  pending ← this ConsoleApp.pending ;
  match pending with
  | None => mret tt
  | Some plan =>
      set (ConsoleApp.with_pending None) ;;
      record ("rejected request " +:+ print_u plan.(ValidatedPlan.request_id))
  end.

(** ** Threads that have finished *)

(** A step of a cruise was executed: account for it and prepare the next one. *)
Definition continue_cruise (iq_bytes : Z) (instruction : string -> string) : Act unit :=
  active ← cruise_active ;
  when active (
    set_cruise (CruiseControl.record_execution iq_bytes) ;;
    active ← cruise_active ;
    when active (
      mission ← this ConsoleApp.auto_mission ;
      set (ConsoleApp.with_auto_next_instruction
             (Some (instruction (default DEFAULT_MISSION mission)))) ;;
      next_attempt_in 0)).

Definition candidates_text (report : SweepReport.t) : string :=
  " with " +:+ print_u (length_z report.(SweepReport.candidates)) +:+ " candidates".

(** A sweep that returned a report. *)
Definition survey_finished (report : SweepReport.t) (health : HealthSummary.t) (entry : string)
    : Act unit :=
  gain ← this ConsoleApp.survey_gain_db ;
  set (ConsoleApp.with_observation (planner_observation report 0 health gain)) ;;
  record (entry +:+ candidates_text report).

Definition inspection_finished (report : SweepReport.t) (health : HealthSummary.t)
    (request_id : Z) (candidate_id : string) (maximum_bytes : Z) : Act unit :=
  template ← this ConsoleApp.template ;
  observation ←
    lift (map_err sweep_failed
            (planner_inspection_observation report template.(PlanRequest.observation)
               candidate_id health)) ;
  set (ConsoleApp.with_observation observation) ;;
  candidate ←
    lift (ok_or (InvalidInput "missing inspected candidate")
            (List.find (fun c => String.eqb c.(CandidateSummary.id) candidate_id)
               observation.(ObservationSummary.candidates))) ;
  record ("inspected candidate " +:+ candidate_id +:+ " for request " +:+ print_u request_id) ;;
  gain ← this ConsoleApp.survey_gain_db ;
  continue_cruise maximum_bytes (fun mission =>
    inspection_instruction mission request_id candidate_id candidate gain maximum_bytes).

Definition sweep_succeeded (kind : ActiveSweepKind.t) (report : SweepReport.t) : Act unit :=
  healthy ← refresh_sdr_health ;
  if negb healthy then
    set (ConsoleApp.with_state ControllerState.Faulted) ;;
    stop_cruise_if_active CruiseStopReason.Fault
  else
    template ← this ConsoleApp.template ;
    let health := template.(PlanRequest.observation).(ObservationSummary.health) in
    set (ConsoleApp.with_state ControllerState.Idle) ;;
    emit_sweep_plot report kind ;;
    match kind with
    | ActiveSweepKind.Initial => survey_finished report health "initial survey completed"
    | ActiveSweepKind.Planned request_id maximum_bytes =>
        survey_finished report health ("executed survey request " +:+ print_u request_id) ;;
        gain ← this ConsoleApp.survey_gain_db ;
        continue_cruise maximum_bytes (fun mission =>
          survey_instruction mission request_id report gain maximum_bytes)
    | ActiveSweepKind.Inspection request_id candidate_id maximum_bytes =>
        inspection_finished report health request_id candidate_id maximum_bytes
    end ;;
    emit_observation.

Definition sweep_broke (kind : ActiveSweepKind.t) (error : SweepError.t) : Act unit :=
  set (ConsoleApp.with_state ControllerState.Holding) ;;
  let text := SweepError.display show error in
  match kind with
  | ActiveSweepKind.Initial => record ("initial survey failed: " +:+ text)
  | ActiveSweepKind.Planned request_id _ =>
      record ("survey request " +:+ print_u request_id +:+ " failed: " +:+ text) ;;
      stop_cruise_if_active CruiseStopReason.Fault
  | ActiveSweepKind.Inspection request_id _ _ =>
      record ("candidate inspection request " +:+ print_u request_id +:+ " failed: " +:+ text) ;;
      stop_cruise_if_active CruiseStopReason.Fault
  end.

(** [worker.join()], [None] being a panic. *)
Definition joined {A} (op : Op) (answer : Log -> option A) : Act A :=
  r ← ask op answer ;
  lift (ok_or Panicked r).

Definition poll_sweep : Act unit :=
  active ← this ConsoleApp.active_sweep ;
  match active with
  | None => mret tt
  | Some active =>
      finished ← ask (IsFinished active.(ActiveSweep.worker)) is_finished ;
      if negb finished then mret tt
      else
        set (ConsoleApp.with_active_sweep None) ;;
        result ← joined (JoinSweep active.(ActiveSweep.worker)) sweep_result ;
        match result with
        | Ok report => sweep_succeeded active.(ActiveSweep.kind) report
        | Err error => sweep_broke active.(ActiveSweep.kind) error
        end
  end.

Definition capture_succeeded (request_id : Z) (observation : ExecutionObservation.t) : Act unit :=
  record ("executed request " +:+ print_u request_id) ;;
  template ← this ConsoleApp.template ;
  let health := template.(PlanRequest.observation).(ObservationSummary.health) in
  set (ConsoleApp.with_health 0
         (SdrSnapshot.planner_health observation.(ExecutionObservation.post_execution_sdr)
            health.(HealthSummary.recognizer_available)
            health.(HealthSummary.dropped_observations))) ;;
  emit_observation ;;
  let capture := observation.(ExecutionObservation.capture) in
  continue_cruise capture.(CaptureObservation.bytes_written) (fun mission =>
    capture_instruction mission request_id capture).

Definition capture_broke (request_id : Z) (error : SdrError.t) : Act unit :=
  record ("execution failed request " +:+ print_u request_id +:+ ": "
          +:+ SdrError.display show error) ;;
  active ← cruise_active ;
  unavailable ←
    (if active : bool then healthy ← refresh_sdr_health ; mret (negb healthy) else mret false) ;
  if unavailable : bool then sdr_unavailable
  else
    set_cruise (CruiseControl.stop CruiseStopReason.Fault) ;;
    set (ConsoleApp.with_state ControllerState.Faulted).

Definition poll_execution : Act unit :=
  active ← this ConsoleApp.active_execution ;
  match active with
  | None => mret tt
  | Some active =>
      finished ← ask (IsFinished active.(ActiveExecution.worker)) is_finished ;
      if negb finished then mret tt
      else
        set (ConsoleApp.with_active_execution None) ;;
        result ← joined (JoinCapture active.(ActiveExecution.worker)) capture_result ;
        set (ConsoleApp.with_executor (Some active.(ActiveExecution.owned))) ;;
        match result with
        | Ok observation => capture_succeeded active.(ActiveExecution.request_id) observation
        | Err error => capture_broke active.(ActiveExecution.request_id) error
        end
  end.

(** ** Stopping *)
Definition is_stale (result : result SdrError.t CancelObservation.t) : bool :=
  match result with
  | Err error =>
      String.eqb error.(SdrError.code) "remote_error"
      && String.eqb error.(SdrError.message) "stale_or_missing_session"
  | Ok _ => false
  end.

(** The loop that cancels: a thread that has not opened its session yet is
    waited for, ten milliseconds at a time. *)
Fixpoint cancel_loop (retries : nat) (canceller : Adapter.t) (generation : Z) (worker : nat)
    : Act (result SdrError.t CancelObservation.t) :=
  result ← ask (Cancel canceller generation) cancel_result ;
  retry ←
    (if is_stale result then
       finished ← ask (IsFinished worker) is_finished ; mret (negb finished)
     else mret false) ;
  match retry, retries with
  | false, _ | true, O => mret result
  | true, S retries => perform (Sleep 10) ;; cancel_loop retries canceller generation worker
  end.

Definition stop_sweep (active : ActiveSweep.t) (message : string) : Act unit :=
  cancelled ← cancel_loop CANCEL_START_RETRIES active.(ActiveSweep.canceller)
                active.(ActiveSweep.session_generation) active.(ActiveSweep.worker) ;
  match cancelled with
  | Err _ =>
      finished ← ask (IsFinished active.(ActiveSweep.worker)) is_finished ;
      if finished : bool then poll_sweep ;; renew ControllerState.Holding message else mret tt
  | Ok _ =>
      set (ConsoleApp.with_active_sweep None) ;;
      _ ← joined (JoinSweep active.(ActiveSweep.worker)) sweep_result ;
      renew ControllerState.Holding message
  end.

Definition stop_execution (active : ActiveExecution.t) (message : string) : Act unit :=
  cancelled ← cancel_loop CANCEL_START_RETRIES active.(ActiveExecution.canceller)
                active.(ActiveExecution.session_generation) active.(ActiveExecution.worker) ;
  match cancelled with
  | Err _ =>
      finished ← ask (IsFinished active.(ActiveExecution.worker)) is_finished ;
      if finished : bool then poll_execution ;; renew ControllerState.Holding message else mret tt
  | Ok _ =>
      set (ConsoleApp.with_active_execution None) ;;
      result ← joined (JoinCapture active.(ActiveExecution.worker)) capture_result ;
      set (ConsoleApp.with_executor (Some active.(ActiveExecution.owned))) ;;
      record ("cancelled request " +:+ print_u active.(ActiveExecution.request_id)) ;;
      match result with
      | Ok observation => emit (ExecutionPayload observation)
      | Err _ => mret tt
      end ;;
      cycle ← this ConsoleApp.agent_cycle_active ;
      if cycle : bool then
        set (ConsoleApp.with_deferred_renew (Some (ControllerState.Holding, message)))
      else renew ControllerState.Holding message
  end.

(** The operator's stop ends the cruise first. *)
Definition stop_cruise : Act unit :=
  active ← cruise_active ;
  when active (
    set_cruise (CruiseControl.stop CruiseStopReason.OperatorStopped) ;;
    set (ConsoleApp.with_auto_mission None) ;;
    set (ConsoleApp.with_auto_next_instruction None)).

Definition stop_agent (message : string) : Act unit :=
  cycle ← this ConsoleApp.agent_cycle_active ;
  when cycle (
    request_agent_abort ;;
    cycle ← this ConsoleApp.agent_cycle_active ;
    when cycle (set (ConsoleApp.with_deferred_renew (Some (ControllerState.Holding, message))))).

Definition stop (message : string) : Act unit :=
  stop_cruise ;;
  stop_agent message ;;
  sweep ← this ConsoleApp.active_sweep ;
  match sweep with
  | Some active => stop_sweep active message
  | None =>
      execution ← this ConsoleApp.active_execution ;
      match execution with
      | Some active => stop_execution active message
      | None =>
          cycle ← this ConsoleApp.agent_cycle_active ;
          if cycle : bool then mret tt
          else
            set (ConsoleApp.with_deferred_renew None) ;;
            renew ControllerState.Holding message
      end
  end.

(** ** Modes *)
Definition STEP_MESSAGE : string := "已切换到逐步人工批准模式".

Definition enable_step_approval : Act unit :=
  cruise ← this ConsoleApp.cruise ;
  if match cruise.(CruiseControl.mode) with
     | InteractionMode.StepApproval => negb (CruiseControl.is_active cruise)
     | InteractionMode.AutomaticCruise => false
     end
  then mret tt
  else
    had_active_step ← this ConsoleApp.busy ;
    when had_active_step (stop STEP_MESSAGE) ;;
    set_cruise CruiseControl.switch_to_step_approval ;;
    set (ConsoleApp.with_auto_mission None) ;;
    set (ConsoleApp.with_auto_next_instruction None) ;;
    when (negb had_active_step) (renew ControllerState.Idle STEP_MESSAGE).

Definition start_auto (mission : string) (max_steps max_duration_secs : Z)
    (max_iq_bytes : option Z) : Act unit :=
  if is_empty mission || (700 <? len mission) || has_control mission then
    refuse "自动巡航任务必须为 1–700 字节的单行文本"
  else
    busy ← this ConsoleApp.busy ;
    pending ← this ConsoleApp.pending ;
    if busy || negb (is_none pending) then mret tt
    else
      template ← this ConsoleApp.template ;
      let bytes :=
        default (saturating_mul template.(PlanRequest.limits).(SafetyLimits.max_iq_bytes) max_steps)
          max_iq_bytes in
      if bytes =? 0 then refuse "无法从步骤数推导有限 IQ 预算"
      else
        renew ControllerState.Idle "自动巡航已建立新的安全代次" ;;
        time ← ask Clock now ;
        cruise ← this ConsoleApp.cruise ;
        let (started, cruise) := CruiseControl.start bytes max_steps max_duration_secs time cruise in
        set (ConsoleApp.with_cruise cruise) ;;
        lift (map_err InvalidInput started) ;;
        set (ConsoleApp.with_auto_mission (Some mission)) ;;
        set (ConsoleApp.with_auto_next_instruction
               (Some (first_instruction mission max_steps max_duration_secs bytes))) ;;
        next_attempt_in 0.

(** ** The main loop *)

(** [while let Some(frame) = self.client.try_read()?]. *)
Fixpoint handle_frames (rounds : nat) : Act unit :=
  match rounds with
  | O => fail Blocked
  | S rounds =>
      frame ← try_read ;
      match frame with
      | None => mret tt
      | Some frame => handle_frame frame ;; handle_frames rounds
      end
  end.

Definition poll : Act unit :=
  handle_frames fuel ;;
  poll_execution ;;
  poll_sweep ;;
  busy ← this ConsoleApp.busy ;
  deferred ← this ConsoleApp.deferred_renew ;
  match busy, deferred with
  | false, Some (holding, message) =>
      set (ConsoleApp.with_deferred_renew None) ;;
      renew holding message
  | _, _ => mret tt
  end.

Definition advance_auto : Act unit :=
  cruise ← this ConsoleApp.cruise ;
  if negb (CruiseControl.is_active cruise) then mret tt
  else
    time ← ask Clock now ;
    let (within, cruise) := CruiseControl.check_duration time cruise in
    set (ConsoleApp.with_cruise cruise) ;;
    busy ← this ConsoleApp.busy ;
    if negb within then when busy (stop "自动巡航达到时长上限")
    else
      pending ← this ConsoleApp.pending ;
      if busy || negb (is_none pending) then mret tt
      else
        time ← ask Clock now ;
        attempt ← this ConsoleApp.next_auto_attempt ;
        if time <? attempt then mret tt
        else
          set_cruise (CruiseControl.set_phase CruisePhase.CheckingSdr) ;;
          healthy ← refresh_sdr_health ;
          if negb healthy then sdr_unavailable
          else
            set_cruise CruiseControl.record_sdr_available ;;
            next ← this ConsoleApp.auto_next_instruction ;
            set (ConsoleApp.with_auto_next_instruction None) ;;
            mission ← this ConsoleApp.auto_mission ;
            let instruction :=
              match next with
              | Some instruction => instruction
              | None => next_instruction (default DEFAULT_MISSION mission)
              end in
            set_cruise (CruiseControl.set_phase CruisePhase.WaitingForPlanner) ;;
            submit instruction.

(** The deadline loop of [close]. *)
Fixpoint close_loop (rounds : nat) (deadline : Z) : Act unit :=
  cycle ← this ConsoleApp.agent_cycle_active ;
  if negb cycle then mret tt
  else
    time ← ask Clock now ;
    if deadline <=? time then mret tt
    else
      match rounds with
      | O => fail Blocked
      | S rounds => poll ;; perform (Sleep 10) ;; close_loop rounds deadline
      end.

Definition close : Act unit :=
  busy ← this ConsoleApp.busy ;
  when busy (stop "终端关闭，硬件动作已停止") ;;
  time ← ask Clock now ;
  close_loop fuel (time + from_secs 2) ;;
  cycle ← this ConsoleApp.agent_cycle_active ;
  if negb cycle then
    r ← attempt (F := AppError) (command "close_session") ;
    match r with Err Blocked => fail Blocked | _ => mret tt end
  else mret tt.

(** A command word followed by a space and its arguments: [trim_start_matches]
    removes the word as often as it is repeated. *)
Fixpoint trim_start_matches (rounds : nat) (pattern s : string) : string :=
  match rounds with
  | O => s
  | S rounds =>
      if starts_with pattern s
      then trim_start_matches rounds pattern
             (String.substring (String.length pattern) (String.length s - String.length pattern) s)
      else s
  end.
Definition arguments (word input : string) : string :=
  trim (trim_start_matches (String.length input) word input).

Definition one_of (input : string) (words : list string) : bool := existsb (String.eqb input) words.

(** One line of input; [false] ends the console. *)
Definition handle_input (input : string) : Act bool :=
  if is_empty input then mret true
  else if one_of input ["/quit"; "/exit"; "/退出"]%string then mret false
  else if one_of input ["/help"; "/帮助"]%string then mret true
  else if one_of input ["/status"; "/状态"]%string then status ;; mret true
  else if one_of input ["/history"; "/历史"]%string then mret true
  else if one_of input ["/approve"; "/批准"]%string then approve ;; mret true
  else if one_of input ["/reject"; "/拒绝"]%string then reject ;; mret true
  else if one_of input ["/mode manual"; "/模式 人工"]%string then enable_step_approval ;; mret true
  else if one_of input ["/pause"; "/暂停"]%string then stop "会话已暂停" ;; mret true
  else if one_of input ["/resume"; "/继续"]%string then
    renew ControllerState.Idle "会话已恢复" ;; mret true
  else if one_of input ["/stop"; "/停止"]%string then stop "会话已停止" ;; mret true
  else if one_of input ["/steer"; "/引导"; "/follow-up"; "/followup"; "/跟进"]%string then mret true
  else if starts_with "/steer " input then
    queue_model_input (arguments "/steer " input) SessionQueueKind.Steer ;; mret true
  else if starts_with "/引导 " input then
    queue_model_input (arguments "/引导 " input) SessionQueueKind.Steer ;; mret true
  else if starts_with "/follow-up " input then
    queue_model_input (arguments "/follow-up " input) SessionQueueKind.FollowUp ;; mret true
  else if starts_with "/followup " input then
    queue_model_input (arguments "/followup " input) SessionQueueKind.FollowUp ;; mret true
  else if starts_with "/跟进 " input then
    queue_model_input (arguments "/跟进 " input) SessionQueueKind.FollowUp ;; mret true
  else if one_of input ["/auto"; "/auto start"]%string then mret true
  else if starts_with "/auto start " input then
    match parse_auto_start (arguments "/auto start " input) with
    | Ok command =>
        start_auto command.(AutoStartCommand.mission) command.(AutoStartCommand.steps)
          command.(AutoStartCommand.seconds) command.(AutoStartCommand.iq_bytes) ;; mret true
    | Err _ => mret true
    end
  else if starts_with "/" input then mret true
  else
    cycle ← this ConsoleApp.agent_cycle_active ;
    (if cycle : bool then queue_model_input input SessionQueueKind.Steer else submit input) ;;
    mret true.

(** Handling a priority stop empties the input queue: [try_recv] until it fails. *)
Fixpoint discard_input (rounds : nat) : Act unit :=
  match rounds with
  | O => fail Blocked
  | S rounds =>
      r ← ask Receive received ;
      match r with
      | ReceivedLine _ => discard_input rounds
      | _ => mret tt
      end
  end.

Definition priority_stop : Act unit :=
  requested ← ask StopFlag stop_requested ;
  when requested (
    perform (Line "/stop") ;;
    discard_input fuel ;;
    stop "会话已停止").

Fixpoint main_loop (rounds : nat) : Act unit :=
  match rounds with
  | O => fail Blocked
  | S rounds =>
      priority_stop ;;
      poll ;;
      advance_auto ;;
      r ← ask Receive received ;
      match r with
      | ReceivedLine line =>
          perform (Line (trim line)) ;;
          running ← handle_input (trim line) ;
          if running : bool then main_loop rounds else mret tt
      | Timeout => main_loop rounds
      | Disconnected => mret tt
      end
  end.

(** The loop of [sdr-agent "instruction"]. *)
Fixpoint until_idle (rounds : nat) : Act unit :=
  cycle ← this ConsoleApp.agent_cycle_active ;
  if negb cycle then mret tt
  else
    match rounds with
    | O => fail Blocked
    | S rounds => poll ;; perform (Sleep 50) ;; until_idle rounds
    end.

(** [run] after the options and the request template have been read. *)
Definition run (instruction : option string) (initial_survey : option InitialSurveyOptions.t)
    : Act unit :=
  template ← this ConsoleApp.template ;
  lift (map_err PolicyRejected (validate_request template)) ;;
  _ ← command "open_session" ;
  match instruction with
  | Some instruction => submit instruction ;; until_idle fuel
  | None =>
      match initial_survey with
      | Some options => start_initial_survey options
      | None => mret tt
      end ;;
      main_loop fuel ;;
      close
  end.

(** [ConsoleApp::connect] up to the first command, on a connected socket. *)
Definition connect (template : PlanRequest.t) (executor : option Adapter.t)
    (sdrd_address : option string) (sdrd_timeout survey_gain_db : Z)
    (sigmf_directory session_state_path : option string)
    (loaded : option (list string * string)) (time : Z) : ConsoleApp.t :=
  let generation := template.(PlanRequest.session_generation) in
  {| ConsoleApp.client := SessionClient.mk [] 1 generation;
     ConsoleApp.template := template;
     ConsoleApp.next_request_id := template.(PlanRequest.request_id);
     ConsoleApp.session_generation := generation;
     ConsoleApp.pending := None;
     ConsoleApp.requests := ∅;
     ConsoleApp.pending_session_commands := ∅;
     ConsoleApp.history := default [] (option_map fst loaded);
     ConsoleApp.agent_cycle_active := false;
     ConsoleApp.active_request_id := None;
     ConsoleApp.plan_seen_in_cycle := false;
     ConsoleApp.executor := executor;
     ConsoleApp.active_execution := None;
     ConsoleApp.active_sweep := None;
     ConsoleApp.sdrd_address := sdrd_address;
     ConsoleApp.sdrd_timeout := sdrd_timeout;
     ConsoleApp.survey_gain_db := survey_gain_db;
     ConsoleApp.sigmf_directory := sigmf_directory;
     ConsoleApp.cruise := CruiseControl.default;
     ConsoleApp.auto_mission := None;
     ConsoleApp.auto_next_instruction := None;
     ConsoleApp.next_auto_attempt := time;
     ConsoleApp.deferred_renew := None;
     ConsoleApp.session_state_path := session_state_path;
     ConsoleApp.resume_summary :=
       loaded ≫= fun l => if is_empty l.2 then None else Some l.2 |}.
End Operations.
