(* ===== verification/ConsoleSamples.v ===== *)
(** * Sessions of the console, evaluated

    A concrete world for [Console]: a planner session that answers each line with
    scripted frames, an operator who types scripted lines, a radio that is always
    healthy, and a clock that ticks with the log. *)
From S2P Require Import Prelude Text F32 Protocol Policy Sdr Execution Autonomy SweepPlan Session ConsoleText Console.

(** JSON values; a frame is a few bytes that stand for its text. *)
Inductive Sample :=
| Str (s : string)
| Num (n : Z)
| Flag (b : bool)
| Empty
| Field (name : string) (value rest : Sample)
| PlanValue (response : PlanResponse.t).

Definition Obj (fields : list (string * Sample)) : Sample :=
  foldr (fun field rest => Field field.1 field.2 rest) Empty fields.
Fixpoint fields_of (v : Sample) : option (gmap string Sample) :=
  match v with
  | Empty => Some ∅
  | Field name value rest => fields ← fields_of rest ; Some (<[name := value]> fields)
  | _ => None
  end.

Definition plan_of (action request_id generation : Z) : PlanResponse.t :=
  PlanResponse.mk 1 request_id generation PlanStatus.Ok
    (Some (if action =? 1 then PolicySamples.survey else PolicySamples.capture)) None
    (PlannerMeta.mk "local" "rules").

Definition sample_frame (bs : list Z) : result string Sample :=
  match bs with
  | [1; id; generation] =>
      Ok (Obj [("type", Str "response"); ("command_id", Num id);
               ("session_generation", Num generation); ("success", Flag true)]%string)
  | [2; action; id; generation] =>
      Ok (Obj [("type", Str "event"); ("event", Str "plan_proposed");
               ("session_generation", Num generation);
               ("data", PlanValue (plan_of action id generation))]%string)
  | [3; generation] =>
      Ok (Obj [("type", Str "event"); ("event", Str "agent_end");
               ("session_generation", Num generation)]%string)
  | _ => Err "json"%string
  end.

#[local] Instance sample_json : Json := {| Value := Sample; from_slice := sample_frame |}.
#[local] Instance sample_access : JsonAccess := {|
  as_object := fields_of;
  as_array := fun _ => None;
  as_str := fun v => match v with Str s => Some s | _ => None end;
  as_u64 := fun v => match v with Num n => Some n | _ => None end;
  as_bool := fun v => match v with Flag b => Some b | _ => None end;
  quoted := fun s => Ok s;
|}.
#[local] Instance sample_plan : Deserialize PlanResponse.t :=
  fun v => match v with PlanValue response => Ok response | _ => Err "plan"%string end.

Section Script.
(** The frames a line to the planner session is answered with, and the lines of
    the operator. *)
Context (answers : Command.t -> list (list Z)) (typed : list Received).

(** The frames that have not been read yet, from the oldest entry on. *)
Fixpoint unread (l : Log) : list (list Z) :=
  match l with
  | [] => []
  | Write c :: l => unread l ++ answers c
  | Read :: l => tail (unread l)
  | _ :: l => unread l
  end.
Fixpoint receives (l : Log) : nat :=
  match l with [] => O | Receive :: l => S (receives l) | _ :: l => receives l end.

Definition healthy : SdrSnapshot.t := SdrSnapshot.mk true true 0 true true true.

Definition report : SweepReport.t :=
  SweepReport.mk "request-7" 4 "sdrd" 1 100 120 (f32_of_Z (-70)) [] [] None.

Definition script_world : World := {|
  encode_command := fun _ => Ok [1];
  write_all := fun _ _ => Ok tt;
  read_chunk := fun l =>
    match unread (tail l) with
    | frame :: _ => Bytes (frame ++ [10])
    | [] => WouldBlock
    end;
  now := fun l => length_z l * 1000000;
  observed := fun _ => Ok healthy;
  is_finished := fun _ => false;
  capture_result := fun _ => Some (Err (SdrError.new "cancelled" "cancelled"));
  sweep_result := fun _ => Some (Ok report);
  cancel_result := fun _ => Ok (CancelObservation.mk 4 true);
  encode_payload := fun _ => Ok tt;
  stop_requested := fun _ => false;
  received := fun l => nth (receives (tail l)) typed Disconnected;
  show := fun _ => EmptyString;
|}.
End Script.

(** Sessions are opened and closed; a prompt yields [plans]; an abort is acknowledged
    but the end of the cycle is not announced. *)
Definition answer (plans : list (list Z)) (c : Command.t) : list (list Z) :=
  let id := c.(Command.command_id) in
  let generation := c.(Command.session_generation) in
  if String.eqb c.(Command.kind) "prompt" then [1; id; generation] :: plans
  else [[1; id; generation]].

Definition console : ConsoleApp.t :=
  connect PolicySamples.request (Some (Adapter.mk "radio:43110" 5000)) (Some "radio:43110"%string)
    5000 20 None None None 0.

(** The operator starts a cruise, waits, and stops it. *)
Definition cruise_lines : list Received :=
  [ReceivedLine "/auto start survey the band"; Timeout; Timeout; ReceivedLine "/stop"; Disconnected]%string.

Definition survey_world : World :=
  script_world (answer [[2; 1; 7; 4]]) cruise_lines.
Definition survey_session : result AppError unit * State :=
  @run _ _ survey_world _ 60 None None (state console []).

(** The planner proposes a survey and, in the same cycle, a capture. *)
Definition double_world : World :=
  script_world (answer [[2; 1; 7; 4]; [2; 2; 7; 4]]) cruise_lines.
Definition double_session : result AppError unit * State :=
  @run _ _ double_world _ 60 None None (state console []).
