(* ===== verification/ConsoleInvariant.v ===== *)
(** * The invariant of the console

    What the log of [Console] says about the threads, the planner session and the
    operator, what justifies an entry of it, the invariant that ties the console's
    fields to its log, and the computations that do not touch it. *)
From S2P Require Import Prelude Hoare Text Utf8 F32 Protocol Policy Sdr Execution Autonomy SweepPlan Session ConsoleText Console.

(** ** Reading the log

    The log is newest first: the tail of an entry is what happened before it. *)

(** The capture and the sweep whose threads have not been joined. *)
Fixpoint capturing (l : Log) : option nat :=
  match l with
  | [] => None
  | StartCapture _ _ _ :: l => Some (length l)
  | JoinCapture _ :: _ => None
  | _ :: l => capturing l
  end.
Fixpoint sweeping (l : Log) : option nat :=
  match l with
  | [] => None
  | StartSweep _ _ _ _ _ :: l => Some (length l)
  | JoinSweep _ :: _ => None
  | _ :: l => sweeping l
  end.

(** The generation of the last line to the planner session. *)
Fixpoint announced (l : Log) : option Z :=
  match l with
  | [] => None
  | Write c :: _ => Some c.(Command.session_generation)
  | _ :: l => announced l
  end.

(** The operator's last line. *)
Fixpoint last_line (l : Log) : option string :=
  match l with
  | [] => None
  | Line input :: _ => Some input
  | _ :: l => last_line l
  end.
Definition approving (l : Log) : bool :=
  match last_line l with Some input => one_of input ["/approve"; "/批准"]%string | None => false end.

(** Lines that end a cruise, and the line that may begin one. *)
Definition ends_cruise (input : string) : bool :=
  one_of input ["/stop"; "/停止"; "/pause"; "/暂停"; "/mode manual"; "/模式 人工"]%string.
Definition begins_cruise (input : string) : bool := starts_with "/auto start " input.
Fixpoint cruising (l : Log) : bool :=
  match l with
  | [] => false
  | Line input :: l =>
      if ends_cruise input then false else if begins_cruise input then true else cruising l
  | _ :: l => cruising l
  end.

(** The planner session was sent this request. *)
Definition Sent (request : PlanRequest.t) (l : Log) : Prop :=
  exists command, Write command ∈ l /\ command.(Command.context) = Some request
    /\ command.(Command.session_generation) = request.(PlanRequest.session_generation).

(** The plan is an answer the policy accepts to a valid request that was sent. *)
Definition Checked (plan : ValidatedPlan.t) (l : Log) : Prop :=
  exists request response,
    Sent request l /\ validate_request request = Ok tt
    /\ validate_response request response = Ok plan.

(** The sweep a plan stands for. *)
Definition sweep_for (plan : ValidatedPlan.t) (gain_db : Z) : option SweepPlan.t :=
  match plan.(ValidatedPlan.action) with
  | ProposedAction.SurveyBand start_hz stop_hz step_hz sample_rate_hz rf_bandwidth_hz dwell_ms =>
      Some (sweep_plan ("request-" +:+ print_u plan.(ValidatedPlan.request_id))
              plan.(ValidatedPlan.session_generation)
              (SweepFrequencies.Range start_hz stop_hz step_hz)
              sample_rate_hz rf_bandwidth_hz dwell_ms gain_db)
  | ProposedAction.InspectCandidate _ center_hz sample_rate_hz rf_bandwidth_hz dwell_ms =>
      Some (sweep_plan ("inspect-" +:+ print_u plan.(ValidatedPlan.request_id))
              plan.(ValidatedPlan.session_generation) (SweepFrequencies.Centers [center_hz])
              sample_rate_hz rf_bandwidth_hz dwell_ms gain_db)
  | _ => None
  end.

Definition is_capture (action : ProposedAction.t) : bool :=
  match action with ProposedAction.CaptureBoundedIq _ _ _ _ _ => true | _ => false end.

(** ** What justifies an entry of the log *)
Section Justified.
Context {json : Json}.

Definition Justified (op : Op) (before : Log) : Prop :=
  match op with
  | StartCapture _ plan authorization =>
      capturing before = None
      /\ Checked plan before /\ is_capture plan.(ValidatedPlan.action) = true
      /\ announced before = Some plan.(ValidatedPlan.session_generation)
      /\ (authorization = ExecutionAuthorization.by_operator plan
          /\ approving before = true /\ sweeping before = None
          \/ ExecutionAuthorization.automatic plan = Ok authorization
             /\ cruising before = true)
  | StartSweep _ _ _ sweep kind =>
      capturing before = None /\ sweeping before = None
      /\ announced before = Some sweep.(SweepPlan.session_generation)
      /\ is_Ok (validate_plan sweep) = true
      /\ match kind with
         | ActiveSweepKind.Initial => last_line before = None
         | _ => (exists plan gain_db, Checked plan before /\ sweep_for plan gain_db = Some sweep)
                /\ (approving before || cruising before) = true
         end
  | JoinCapture worker => capturing before = Some worker
  | JoinSweep worker => sweeping before = Some worker
  | _ => True
  end.

Fixpoint Good (l : Log) : Prop :=
  match l with [] => True | op :: before => Justified op before /\ Good before end.

Lemma Good_suffix l before : Good (l ++ before) -> Good before.
Proof. induction l as [|op l IH]; [easy|]. intros [_ H]. exact (IH H). Qed.

(** ** The invariant of the console *)
Definition known (l : Log) (generation id : Z) (request : PlanRequest.t) : Prop :=
  request.(PlanRequest.request_id) = id
  /\ request.(PlanRequest.session_generation) = generation
  /\ Sent request l /\ validate_request request = Ok tt.

Record Hardware (s : State) : Prop := {
  hw_good : Good s.(log);
  hw_capture : capturing s.(log) = option_map ActiveExecution.worker s.(app).(ConsoleApp.active_execution);
  hw_sweep : sweeping s.(log) = option_map ActiveSweep.worker s.(app).(ConsoleApp.active_sweep);
  hw_executor : s.(app).(ConsoleApp.active_execution) = None \/ s.(app).(ConsoleApp.executor) = None;
}.

Record Planning (s : State) : Prop := {
  se_announced : announced s.(log) = Some s.(app).(ConsoleApp.session_generation);
  se_requests : map_Forall (known s.(log) s.(app).(ConsoleApp.session_generation))
                  s.(app).(ConsoleApp.requests);
  se_pending : forall plan, s.(app).(ConsoleApp.pending) = Some plan ->
    Checked plan s.(log)
    /\ plan.(ValidatedPlan.session_generation) = s.(app).(ConsoleApp.session_generation);
}.

Definition Cruise (s : State) : Prop :=
  s.(app).(ConsoleApp.cruise).(CruiseControl.active) = true -> cruising s.(log) = true.

Definition Inv (s : State) : Prop := Hardware s /\ Planning s /\ Cruise s.

(** ** Calm computations

    Most of the code changes nothing the invariant is about: it adds harmless
    entries to the log, drops requests or the pending plan, or ends the cruise. *)
Definition quiet_op (generation : Z) (op : Op) : Prop :=
  match op with
  | Write c => c.(Command.session_generation) = generation
  | StartCapture _ _ _ | StartSweep _ _ _ _ _ | JoinCapture _ | JoinSweep _ | Line _ => False
  | _ => True
  end.

Record tame (a a' : ConsoleApp.t) : Prop := {
  tame_generation : a'.(ConsoleApp.session_generation) = a.(ConsoleApp.session_generation);
  tame_pending : a'.(ConsoleApp.pending) = None \/ a'.(ConsoleApp.pending) = a.(ConsoleApp.pending);
  tame_requests : a'.(ConsoleApp.requests) ⊆ a.(ConsoleApp.requests);
  tame_execution : a'.(ConsoleApp.active_execution) = a.(ConsoleApp.active_execution);
  tame_sweep : a'.(ConsoleApp.active_sweep) = a.(ConsoleApp.active_sweep);
  tame_executor : a'.(ConsoleApp.executor) = a.(ConsoleApp.executor);
  tame_cruise : a'.(ConsoleApp.cruise).(CruiseControl.active) = true ->
                a.(ConsoleApp.cruise).(CruiseControl.active) = true;
}.

Record calm (s s' : State) : Prop := {
  calm_log : exists ops, s'.(log) = ops ++ s.(log)
               /\ Forall (quiet_op s.(app).(ConsoleApp.session_generation)) ops;
  calm_app : tame s.(app) s'.(app);
}.

#[global] Instance tame_preorder : PreOrder tame.
Proof.
  split.
  - intros a. constructor; auto.
  - intros a b c [] []. constructor; try congruence; try (etrans; eassumption); [|auto].
    destruct tame_pending1 as [->| ->]; auto.
Qed.

#[global] Instance calm_preorder : PreOrder calm.
Proof.
  split.
  - intros s. constructor; [now exists []|reflexivity].
  - intros s1 s2 s3 [(l1&E1&H1) A1] [(l2&E2&H2) A2]. constructor; [|etrans; [exact A1|exact A2]].
    exists (l2 ++ l1). rewrite E2, E1, app_assoc. split; [reflexivity|].
    apply Forall_app. rewrite (tame_generation _ _ A1) in H2. now split.
Qed.

Section Quiet.
Context (generation : Z) (ops l : Log) (Hq : Forall (quiet_op generation) ops).

Lemma quiet_capturing : capturing (ops ++ l) = capturing l.
Proof. induction Hq as [|op ops' H Hf IH]; [reflexivity|]. specialize (IH Hf).
  destruct op; exact IH || destruct H. Qed.
Lemma quiet_sweeping : sweeping (ops ++ l) = sweeping l.
Proof. induction Hq as [|op ops' H Hf IH]; [reflexivity|]. specialize (IH Hf).
  destruct op; exact IH || destruct H. Qed.
Lemma quiet_last_line : last_line (ops ++ l) = last_line l.
Proof. induction Hq as [|op ops' H Hf IH]; [reflexivity|]. specialize (IH Hf).
  destruct op; exact IH || destruct H. Qed.
Lemma quiet_cruising : cruising (ops ++ l) = cruising l.
Proof. induction Hq as [|op ops' H Hf IH]; [reflexivity|]. specialize (IH Hf).
  destruct op; exact IH || destruct H. Qed.
Lemma quiet_good : Good l -> Good (ops ++ l).
Proof.
  intros Hl. induction Hq as [|op ops' H Hf IH]; [exact Hl|]. specialize (IH Hf).
  split; [destruct op; exact I || destruct H|exact IH].
Qed.
Lemma quiet_announced : announced l = Some generation -> announced (ops ++ l) = Some generation.
Proof.
  intros Hl. induction Hq as [|op ops' H Hf IH]; [exact Hl|]. specialize (IH Hf).
  destruct op; try exact IH; try destruct H. reflexivity.
Qed.
End Quiet.

Lemma Sent_app request ops l : Sent request l -> Sent request (ops ++ l).
Proof. intros (c&Hc&H). exists c. split; [|exact H]. apply elem_of_app. now right. Qed.

Lemma Checked_app plan ops l : Checked plan l -> Checked plan (ops ++ l).
Proof. intros (r&p&Hs&H). exists r, p. split; [now apply Sent_app|exact H]. Qed.

Lemma calm_good s s' : calm s s' -> Good s.(log) -> Good s'.(log).
Proof. intros [(ops&E&Hq) _] H. rewrite E. eapply quiet_good; eauto. Qed.

Lemma calm_Hardware s s' : calm s s' -> Hardware s -> Hardware s'.
Proof.
  intros Hc [Hg Hcap Hsw Hex]. pose proof (calm_good _ _ Hc Hg).
  destruct Hc as [(ops&E&Hq) []]. constructor; [assumption|..]; rewrite ?E.
  - rewrite (quiet_capturing _ _ _ Hq). congruence.
  - rewrite (quiet_sweeping _ _ _ Hq). congruence.
  - rewrite tame_execution0, tame_executor0. exact Hex.
Qed.

Lemma calm_Cruise s s' : calm s s' -> Cruise s -> Cruise s'.
Proof.
  intros [(ops&E&Hq) []] Hc H. rewrite E, (quiet_cruising _ _ _ Hq). apply Hc, tame_cruise0, H.
Qed.

Lemma calm_Planning s s' : calm s s' -> Planning s -> Planning s'.
Proof.
  intros [(ops&E&Hq) []] [Ha Hr Hp]. constructor; rewrite ?E, ?tame_generation0.
  - exact (quiet_announced _ _ _ Hq Ha).
  - intros id r Hid. eapply lookup_weaken in Hid; [|exact tame_requests0].
    destruct (Hr id r Hid) as (?&?&Hs&?). split_and!; auto. now apply Sent_app.
  - intros plan Hplan. destruct tame_pending0 as [H|H]; rewrite H in Hplan; [discriminate|].
    destruct (Hp plan Hplan) as [Hck Hg]. split; [now apply Checked_app|exact Hg].
Qed.

Lemma calm_Inv s s' : calm s s' -> Inv s -> Inv s'.
Proof.
  intros Hc (Hh&Hs&Hcr). split_and!; [eapply calm_Hardware|eapply calm_Planning|eapply calm_Cruise]; eauto.
Qed.
End Justified.

(** ** The calm operations *)
Create HintDb calm.

Abbreviation Calm := (respects (E := AppError) calm).

Lemma calm_set f : (forall a, tame a (f a)) -> Calm (set f).
Proof. intros H s. constructor; [now exists []|apply H]. Qed.

Lemma calm_perform op : (forall generation, quiet_op generation op) -> Calm (perform op).
Proof. intros H s. constructor; [|reflexivity]. exists [op]. split; [reflexivity|]. repeat constructor; apply H. Qed.

Lemma calm_ask {A} op (answer : Log -> A) :
  (forall generation, quiet_op generation op) -> Calm (ask op answer).
Proof.
  intros H. apply respects_bind; [apply _|now apply calm_perform|]. intros _.
  apply respects_gets, _.
Qed.

Lemma calm_this {A} (f : ConsoleApp.t -> A) : Calm (this f).
Proof. apply respects_gets, _. Qed.
Lemma calm_fail {A} e : Calm (fail (A := A) e).
Proof. apply respects_lift, _. Qed.
Lemma calm_lift {A} (r : result AppError A) : Calm (lift r).
Proof. apply respects_lift, _. Qed.
Lemma calm_ret {A} (a : A) : Calm (mret a).
Proof. apply respects_ret, _. Qed.
Lemma calm_bind {A B} (m : Act A) (f : A -> Act B) : Calm m -> (forall a, Calm (f a)) -> Calm (m ≫= f).
Proof. apply respects_bind, _. Qed.
Lemma calm_when b m : Calm m -> Calm (when b m).
Proof. intros H. destruct b; [exact H|apply calm_ret]. Qed.
Lemma calm_attempt {A} (m : Act A) : Calm m -> Calm (attempt (F := AppError) m).
Proof. apply respects_attempt. Qed.

(** A field the invariant does not look at. *)
Ltac tame :=
  intros; constructor; cbn; try reflexivity; auto; try (now left); try (apply map_empty_subseteq);
  try (apply delete_subseteq).

Ltac calm_step :=
  lazymatch goal with
  | |- respects calm (mbind _ _) => apply calm_bind; [|intros ?]
  | |- respects calm (lift _) => apply calm_lift
  | |- respects calm (mret _) => apply calm_ret
  | |- respects calm (this _) => apply calm_this
  | |- respects calm (gets _) => apply respects_gets, _
  | |- respects calm (set _) => apply calm_set; tame
  | |- respects calm (perform _) => apply calm_perform; exact (fun _ => I)
  | |- respects calm (ask _ _) => apply calm_ask; exact (fun _ => I)
  | |- respects calm (fail _) => apply calm_fail
  | |- respects calm (refuse _) => apply calm_fail
  | |- respects calm (when _ _) => apply calm_when
  | |- respects calm (attempt _) => apply calm_attempt
  | |- respects calm (if ?c then _ else _) => destruct c
  | |- respects calm (match ?c with _ => _ end) => destruct c
  | |- respects calm _ => solve [auto with calm]
  end.
Ltac calm := solve [repeat calm_step].

(** What a computation may do without touching the invariant keeps it. *)
Definition Keeps {json : Json} {A} (m : Act A) : Prop :=
  forall s, Inv s -> wp m (fun _ s' => Inv s') (fun _ s' => Good s'.(log)) s.

Section Calm.
Context {json : Json} {access : JsonAccess} {world : World} {decode_plan : Deserialize PlanResponse.t}.
Context (fuel : nat).

Lemma calm_take_frame : Calm take_frame.
Proof. unfold take_frame. calm. Qed.
#[local] Hint Resolve calm_take_frame : calm.
Lemma calm_try_read : Calm try_read.
Proof. unfold try_read. calm. Qed.
#[local] Hint Resolve calm_try_read : calm.
Lemma calm_read rounds : Calm (read rounds).
Proof. induction rounds as [|rounds IH]; cbn [read]; calm. Qed.
Lemma calm_next_command_id : Calm next_command_id.
Proof. unfold next_command_id. calm. Qed.

(** A line to the planner session carries the generation of the console. *)
Lemma calm_write c s :
  c.(Command.session_generation) = s.(app).(ConsoleApp.session_generation) -> calm s (write c s).2.
Proof.
  intros Hg. unfold write. rewrite lift_bind_run.
  destruct (map_err Serde (encode_command c)) as [frame|e]; [|reflexivity].
  destruct (MAX_FRAME_BYTES <? length_z frame); [reflexivity|].
  unfold ask, perform. rewrite !bind_run.
  cbn. constructor; [|reflexivity]. exists [Write c]. split; [reflexivity|]. now repeat constructor.
Qed.
Lemma calm_send kind context : Calm (send_session_command kind context).
Proof.
  unfold send_session_command. apply calm_bind; [apply calm_next_command_id|]. intros id s.
  rewrite bind_run. unfold this, gets at 1. rewrite bind_run.
  pose proof (calm_write (Command.mk id s.(app).(ConsoleApp.session_generation) kind context) s eq_refl) as H.
  destruct (write _ s) as [[?|?] s']; exact H.
Qed.
#[local] Hint Resolve calm_read calm_next_command_id calm_send : calm.

Lemma calm_record entry : Calm (record entry).
Proof. unfold record. calm. Qed.
Lemma calm_emit payload : Calm (emit payload).
Proof. unfold emit. calm. Qed.
Lemma calm_refresh : Calm refresh_sdr_health.
Proof. unfold refresh_sdr_health. calm. Qed.
#[local] Hint Resolve calm_record calm_emit calm_refresh : calm.

Lemma calm_emit_observation : Calm emit_observation.
Proof. unfold emit_observation. calm. Qed.
Lemma calm_emit_sweep_plot report kind : Calm (emit_sweep_plot report kind).
Proof. unfold emit_sweep_plot. calm. Qed.

(** Operations of the cruise that never start it. *)
Lemma calm_set_cruise f :
  (forall c, (f c).(CruiseControl.active) = true -> c.(CruiseControl.active) = true) ->
  Calm (set_cruise f).
Proof. intros H. apply calm_set. intros a. constructor; cbn; auto. Qed.

Lemma calm_stop_cruise reason : Calm (set_cruise (CruiseControl.stop reason)).
Proof. apply calm_set_cruise. discriminate. Qed.
Lemma calm_set_phase phase : Calm (set_cruise (CruiseControl.set_phase phase)).
Proof.
  apply calm_set_cruise. intros c. unfold CruiseControl.set_phase.
  destruct (CruiseControl.active c) eqn:E; intros H; [reflexivity|congruence].
Qed.
Lemma calm_sdr_available : Calm (set_cruise CruiseControl.record_sdr_available).
Proof. now apply calm_set_cruise. Qed.
Lemma calm_planner_action : Calm (set_cruise CruiseControl.record_planner_action).
Proof. now apply calm_set_cruise. Qed.
Lemma calm_step_approval : Calm (set_cruise CruiseControl.switch_to_step_approval).
Proof. apply calm_set_cruise. discriminate. Qed.
Lemma calm_record_execution bytes : Calm (set_cruise (CruiseControl.record_execution bytes)).
Proof.
  apply calm_set_cruise. intros c. unfold CruiseControl.record_execution.
  destruct (_ <=? _); [discriminate|]. destruct (_ <=? _); [discriminate|exact (fun H => H)].
Qed.
#[local] Hint Resolve calm_emit_observation calm_emit_sweep_plot calm_stop_cruise calm_set_phase
  calm_sdr_available calm_planner_action calm_step_approval calm_record_execution : calm.

Lemma calm_stop_if_active reason : Calm (stop_cruise_if_active reason).
Proof. unfold stop_cruise_if_active, cruise_active. calm. Qed.
Lemma calm_next_attempt delay : Calm (next_attempt_in delay).
Proof. unfold next_attempt_in. calm. Qed.
#[local] Hint Resolve calm_stop_if_active calm_next_attempt : calm.
Lemma calm_sdr_unavailable : Calm sdr_unavailable.
Proof.
  unfold sdr_unavailable. calm_step; [|calm]. apply calm_set_cruise. intros c.
  unfold CruiseControl.record_sdr_unavailable.
  destruct (_ <=? _); [discriminate|exact (fun H => H)].
Qed.
Lemma calm_planner_missing : Calm planner_missing.
Proof.
  unfold planner_missing. calm_step; [|calm]. apply calm_set_cruise. intros c.
  unfold CruiseControl.record_planner_missing.
  destruct (_ <=? _); [discriminate|exact (fun H => H)].
Qed.
#[local] Hint Resolve calm_sdr_unavailable calm_planner_missing : calm.

Lemma calm_abort : Calm request_agent_abort.
Proof. unfold request_agent_abort. calm. Qed.
Lemma calm_forget id : Calm (forget_request id).
Proof. unfold forget_request. calm. Qed.
#[local] Hint Resolve calm_abort calm_forget : calm.
Lemma calm_prompt_refused id : Calm (prompt_refused id).
Proof.
  unfold prompt_refused, cruise_active. repeat calm_step.
  all: destruct (is_u64_of _ _); cbn in *; auto; reflexivity.
Qed.
#[local] Hint Resolve calm_prompt_refused : calm.
Lemma calm_session_response frame : Calm (handle_session_response frame).
Proof. unfold handle_session_response. calm. Qed.
Lemma calm_thinking frame label : Calm (thinking_event frame label).
Proof. unfold thinking_event. calm. Qed.
Lemma calm_assistant frame : Calm (assistant_message frame).
Proof. unfold assistant_message. calm. Qed.
Lemma calm_agent_error frame : Calm (agent_error frame).
Proof. unfold agent_error. calm. Qed.
Lemma calm_agent_end : Calm agent_end.
Proof. unfold agent_end, cruise_active. calm. Qed.
Lemma calm_next_request : Calm next_request.
Proof. unfold next_request. calm. Qed.
Lemma calm_reject : Calm reject.
Proof. unfold reject. calm. Qed.
Lemma calm_continue bytes instruction : Calm (continue_cruise bytes instruction).
Proof. unfold continue_cruise, cruise_active. calm. Qed.
#[local] Hint Resolve calm_continue : calm.

Lemma calm_sweep_succeeded kind report : Calm (sweep_succeeded kind report).
Proof. unfold sweep_succeeded, survey_finished, inspection_finished. calm. Qed.
Lemma calm_sweep_broke kind error : Calm (sweep_broke kind error).
Proof. unfold sweep_broke. calm. Qed.
Lemma calm_capture_succeeded id observation : Calm (capture_succeeded id observation).
Proof. unfold capture_succeeded. calm. Qed.
Lemma calm_capture_broke id error : Calm (capture_broke id error).
Proof. unfold capture_broke, cruise_active. calm. Qed.
Lemma calm_cancel_loop retries canceller generation worker :
  Calm (cancel_loop retries canceller generation worker).
Proof. induction retries as [|retries IH]; cbn [cancel_loop]; calm. Qed.
Lemma calm_operator_stop : Calm stop_cruise.
Proof. unfold stop_cruise, cruise_active. calm. Qed.
Lemma calm_stop_agent message : Calm (stop_agent message).
Proof. unfold stop_agent. calm. Qed.
End Calm.
#[export] Hint Resolve calm_take_frame calm_try_read calm_read calm_next_command_id calm_send
  calm_record calm_emit calm_refresh calm_emit_observation calm_emit_sweep_plot calm_stop_cruise
  calm_set_phase calm_sdr_available calm_planner_action calm_step_approval calm_record_execution
  calm_stop_if_active calm_next_attempt calm_sdr_unavailable calm_planner_missing calm_abort
  calm_forget calm_prompt_refused calm_session_response calm_thinking calm_assistant
  calm_agent_error calm_agent_end calm_next_request calm_reject calm_continue
  calm_sweep_succeeded calm_sweep_broke calm_capture_succeeded calm_capture_broke
  calm_cancel_loop calm_operator_stop calm_stop_agent : calm.

(** ** The operations that keep the invariant *)
Section KeepsRules.
Context {json : Json}.

Lemma keeps_calm {A} (m : Act A) : Calm m -> Keeps m.
Proof.
  intros H s Hs. specialize (H s). unfold wp. destruct (m s) as [[a|e] s']; cbn in H.
  - eapply calm_Inv; eauto.
  - eapply calm_good; [exact H|]. apply Hs.
Qed.

Lemma console_keeps_bind {A B} (m : Act A) (f : A -> Act B) :
  Keeps m -> (forall a, Keeps (f a)) -> Keeps (m ≫= f).
Proof.
  intros Hm Hf s Hs. apply wp_bind. eapply wp_conseq; [exact (Hm s Hs)| |auto].
  intros a s' Hs'. exact (Hf a s' Hs').
Qed.

(** Reading a field, remembered. *)
Lemma keeps_this {A B} (f : ConsoleApp.t -> A) (k : A -> Act B) s :
  wp (k (f s.(app))) (fun _ s' => Inv s') (fun _ s' => Good s'.(log)) s ->
  wp (this f ≫= k) (fun _ s' => Inv s') (fun _ s' => Good s'.(log)) s.
Proof. intros H. apply wp_bind. exact H. Qed.

(** A calm step before something that starts from a state related to this one. *)
Lemma wp_calm {A B} (m : Act A) (k : A -> Act B) (Q : B -> State -> Prop) s :
  Calm m -> Inv s -> (forall a s', calm s s' -> Inv s' -> wp (k a) Q (fun _ s' => Good s'.(log)) s') ->
  wp (m ≫= k) Q (fun _ s' => Good s'.(log)) s.
Proof.
  intros Hm Hs Hk. apply wp_bind. specialize (Hm s). unfold wp at 1.
  destruct (m s) as [[a|e] s']; cbn in Hm.
  - apply Hk; [exact Hm|]. eapply calm_Inv; eauto.
  - eapply calm_good; [exact Hm|apply Hs].
Qed.

(** What a calm step does not take away. *)
Lemma calm_authority s s' :
  calm s s' -> approving s'.(log) = approving s.(log) /\ cruising s'.(log) = cruising s.(log)
               /\ last_line s'.(log) = last_line s.(log).
Proof.
  intros [(ops&E&Hq) _]. rewrite E. unfold approving.
  now rewrite (quiet_last_line _ _ _ Hq), (quiet_cruising _ _ _ Hq).
Qed.
Lemma calm_checked plan s s' : calm s s' -> Checked plan s.(log) -> Checked plan s'.(log).
Proof. intros [(ops&E&_) _] H. rewrite E. now apply Checked_app. Qed.
End KeepsRules.

Ltac keeps_step :=
  lazymatch goal with
  | |- Keeps (mbind _ _) => apply console_keeps_bind; [|intros ?]
  | |- Keeps (if ?c then _ else _) => destruct c
  | |- Keeps (match ?c with _ => _ end) => destruct c
  | |- Keeps (when ?b _) => destruct b; cbn [when]
  | |- Keeps _ => first [solve [auto with keeps] | apply keeps_calm; solve [calm]]
  end.
Ltac keeps := repeat keeps_step.

Create HintDb keeps.

Section Hardware.
Context {json : Json} {access : JsonAccess} {world : World} {decode_plan : Deserialize PlanResponse.t}.
Context (fuel : nat).
Abbreviation good := (fun _ s' => Good s'.(log)).

(** Starting a capture. *)
Lemma wp_start_execution plan authorization s :
  Inv s -> Checked plan s.(log) -> is_capture plan.(ValidatedPlan.action) = true ->
  plan.(ValidatedPlan.session_generation) = s.(app).(ConsoleApp.session_generation) ->
  (authorization = ExecutionAuthorization.by_operator plan
   /\ approving s.(log) = true /\ s.(app).(ConsoleApp.active_sweep) = None
   \/ ExecutionAuthorization.automatic plan = Ok authorization /\ cruising s.(log) = true) ->
  wp (start_execution plan authorization) (fun _ s' => Inv s') good s.
Proof.
  intros Hs Hck Hcap Hgen Hauth. unfold start_execution. apply keeps_this.
  destruct (ConsoleApp.executor (app s)) as [executor|] eqn:Hex; [|apply keeps_calm; [calm|exact Hs]].
  destruct Hs as ([Hg Hc Hsw Hexec]&[Ha Hr Hp]&Hcr).
  destruct Hexec as [Hnone|Hn]; [|congruence]. rewrite Hnone in Hc. cbn in Hc.
  unfold set, perform. wp_steps.
  assert (Hj : Justified (StartCapture executor plan authorization) s.(log)).
  { cbn. split_and!; auto; [congruence|]. destruct Hauth as [(->&?&Hn)|]; [left|now right].
    rewrite Hsw, Hn. auto. }
  apply keeps_calm; [apply calm_set_phase|]. split_and!.
  - constructor; cbn.
    + split; [exact Hj|exact Hg].
    + reflexivity.
    + exact Hsw.
    + now right.
  - constructor; cbn; [exact Ha| |].
    + intros id r Hid. destruct (Hr id r Hid) as (?&?&Hsent&?). split_and!; auto.
      exact (Sent_app r [_] _ Hsent).
    + intros p Hpend. destruct (Hp p Hpend) as [Hk Hgn]. split; [|exact Hgn].
      exact (Checked_app p [_] _ Hk).
  - exact Hcr.
Qed.

(** Starting a sweep. *)
Lemma wp_start_sweep address sweep kind s :
  Inv s -> s.(app).(ConsoleApp.active_execution) = None -> s.(app).(ConsoleApp.active_sweep) = None ->
  sweep.(SweepPlan.session_generation) = s.(app).(ConsoleApp.session_generation) ->
  is_Ok (validate_plan sweep) = true ->
  match kind with
  | ActiveSweepKind.Initial => last_line s.(log) = None
  | _ => (exists plan gain_db, Checked plan s.(log) /\ sweep_for plan gain_db = Some sweep)
         /\ (approving s.(log) || cruising s.(log)) = true
  end ->
  wp (start_sweep address sweep kind sweep.(SweepPlan.session_generation)) (fun _ s' => Inv s') good s.
Proof.
  intros Hs He Hw Hgen Hval Hkind. unfold start_sweep. apply keeps_this, keeps_this.
  destruct Hs as ([Hg Hc Hsw Hexec]&[Ha Hr Hp]&Hcr). rewrite He in Hc. rewrite Hw in Hsw. cbn in *.
  unfold set, perform. wp_steps.
  split_and!.
  - constructor; cbn.
    + split; [|exact Hg]. rewrite Hgen. split_and!; auto.
    + now rewrite He.
    + reflexivity.
    + exact Hexec.
  - constructor; cbn; [exact Ha| |].
    + intros id r Hid. destruct (Hr id r Hid) as (?&?&Hsent&?). split_and!; auto.
      exact (Sent_app r [_] _ Hsent).
    + intros p Hpend. destruct (Hp p Hpend) as [Hk Hgn]. split; [|exact Hgn].
      exact (Checked_app p [_] _ Hk).
  - exact Hcr.
Qed.

(** Joining a thread. *)
Lemma wp_join_sweep {B} active (k : result SweepError.t SweepReport.t -> Act B) Q s :
  Inv s -> s.(app).(ConsoleApp.active_sweep) = Some active ->
  (forall r s', Inv s' -> wp (k r) Q good s') ->
  wp (set (ConsoleApp.with_active_sweep None) ;;
      result ← joined (JoinSweep active.(ActiveSweep.worker)) sweep_result ; k result) Q good s.
Proof.
  intros ([Hg Hc Hsw Hexec]&[Ha Hr Hp]&Hcr) Hactive Hk. rewrite Hactive in Hsw. cbn in Hsw.
  unfold set. wp_step. wp_step. unfold joined, ask, perform. do 4 wp_step.
  assert (Hgood : Good (JoinSweep active.(ActiveSweep.worker) :: s.(log))) by (split; [exact Hsw|exact Hg]).
  do 2 wp_step; [|exact Hgood]. apply Hk. split_and!; [constructor; cbn; auto|constructor; cbn; auto|exact Hcr].
  - intros id r Hid. destruct (Hr id r Hid) as (?&?&Hsent&?). split_and!; auto.
    exact (Sent_app r [_] _ Hsent).
  - intros p Hpend. destruct (Hp p Hpend) as [Hck Hgn]. split; [|exact Hgn].
    exact (Checked_app p [_] _ Hck).
Qed.

Lemma wp_join_capture {B} active (k : result SdrError.t ExecutionObservation.t -> Act B) Q s :
  Inv s -> s.(app).(ConsoleApp.active_execution) = Some active ->
  (forall r s', Inv s' -> wp (k r) Q good s') ->
  wp (set (ConsoleApp.with_active_execution None) ;;
      result ← joined (JoinCapture active.(ActiveExecution.worker)) capture_result ;
      set (ConsoleApp.with_executor (Some active.(ActiveExecution.owned))) ;; k result) Q good s.
Proof.
  intros ([Hg Hc Hsw Hexec]&[Ha Hr Hp]&Hcr) Hactive Hk. rewrite Hactive in Hc. cbn in Hc.
  unfold set. wp_step. wp_step. unfold joined, ask, perform. do 4 wp_step.
  assert (Hgood : Good (JoinCapture active.(ActiveExecution.worker) :: s.(log)))
    by (split; [exact Hc|exact Hg]).
  do 2 wp_step; [|exact Hgood]. do 2 wp_step.
  apply Hk. split_and!; [constructor; cbn; auto|constructor; cbn; auto|exact Hcr].
  - intros id r Hid. destruct (Hr id r Hid) as (?&?&Hsent&?). split_and!; auto.
    exact (Sent_app r [_] _ Hsent).
  - intros p Hpend. destruct (Hp p Hpend) as [Hck Hgn]. split; [|exact Hgn].
    exact (Checked_app p [_] _ Hck).
Qed.
End Hardware.
