(* ===== verification/ConsoleSafety.v ===== *)
(** * What the console may do to the radio

    Theorems on [Console]: for every behaviour of the operator, the planner
    session, the radio and the clock, and however long the console runs, each
    hardware action in its log is justified by what precedes it; and what a renewed
    session forgets. *)
From S2P Require Import Prelude Hoare Text Utf8 F32 Protocol Policy Sdr Execution Autonomy SweepPlan Session ConsoleText Console ConsoleSamples ConsoleInvariant.

Section Keeping.
Context {json : Json} {access : JsonAccess} {world : World} {decode_plan : Deserialize PlanResponse.t}.
Context (fuel : nat).
Abbreviation good := (fun _ s' => Good s'.(log)).
Abbreviation inv := (fun _ s' => Inv s').

(** A plan the console may act on. *)
Record Current (plan : ValidatedPlan.t) (s : State) : Prop := {
  cur_checked : Checked plan s.(log);
  cur_generation : plan.(ValidatedPlan.session_generation) = s.(app).(ConsoleApp.session_generation);
}.

Lemma calm_Current plan s s' : calm s s' -> Current plan s -> Current plan s'.
Proof.
  intros Hc [H1 H2]. constructor; [eapply calm_checked; eauto|].
  destruct Hc as [_ []]. congruence.
Qed.

Lemma hardware_inactive a :
  ConsoleApp.hardware_active a = false ->
  a.(ConsoleApp.active_execution) = None /\ a.(ConsoleApp.active_sweep) = None.
Proof.
  unfold ConsoleApp.hardware_active. rewrite orb_false_iff, !negb_false_iff, !is_none_spec. tauto.
Qed.

Lemma busy_inactive a : ConsoleApp.busy a = false ->
  a.(ConsoleApp.active_execution) = None /\ a.(ConsoleApp.active_sweep) = None.
Proof. unfold ConsoleApp.busy. rewrite orb_false_iff. intros [H _]. now apply hardware_inactive. Qed.

(** No thread appears in a calm step. *)
Lemma calm_idle s s' : calm s s' ->
  s.(app).(ConsoleApp.active_execution) = None /\ s.(app).(ConsoleApp.active_sweep) = None ->
  s'.(app).(ConsoleApp.active_execution) = None /\ s'.(app).(ConsoleApp.active_sweep) = None.
Proof. intros [_ []] []. split; congruence. Qed.

Lemma wp_healthy_radio launch s :
  Inv s ->
  (forall address s', calm s s' -> Inv s' -> wp (launch address) inv good s') ->
  wp (with_healthy_radio launch) inv good s.
Proof.
  intros Hs Hl. unfold with_healthy_radio. apply keeps_this.
  destruct (ConsoleApp.sdrd_address (app s)) as [address|]; [|apply keeps_calm; [calm|exact Hs]].
  apply wp_calm; [calm|exact Hs|]. intros healthy s' Hc Hs'.
  destruct healthy; cbn [negb]; [now apply Hl|]. unfold cruise_active. apply keeps_calm; [calm|exact Hs'].
Qed.

Lemma wp_launch_sweep address sweep kind maximum_bytes st s :
  Inv s -> s.(app).(ConsoleApp.active_execution) = None /\ s.(app).(ConsoleApp.active_sweep) = None ->
  sweep.(SweepPlan.session_generation) = s.(app).(ConsoleApp.session_generation) ->
  is_Ok (validate_plan sweep) = true ->
  match kind with
  | ActiveSweepKind.Initial => last_line s.(log) = None
  | _ => (exists plan gain_db, Checked plan s.(log) /\ sweep_for plan gain_db = Some sweep)
         /\ (approving s.(log) || cruising s.(log)) = true
  end ->
  wp (launch_sweep address sweep kind sweep.(SweepPlan.session_generation) maximum_bytes st) inv good s.
Proof.
  intros Hs [He Hw] Hgen Hval Hkind. unfold launch_sweep, over_budget, this.
  do 4 wp_step. wp_step; [apply keeps_calm; [calm|exact Hs]|].
  apply wp_bind. eapply wp_conseq; [now apply wp_start_sweep| |auto].
  intros [] s' Hs'. apply keeps_calm; [calm|exact Hs'].
Qed.

Lemma keeps_start_planned_survey plan s :
  Inv s -> Current plan s -> (approving s.(log) || cruising s.(log)) = true ->
  wp (start_planned_survey plan) inv good s.
Proof.
  intros Hs Hcur Hauth. unfold start_planned_survey. apply keeps_this.
  destruct (ConsoleApp.hardware_active (app s)) eqn:Hact; [apply keeps_calm; [calm|exact Hs]|].
  apply hardware_inactive in Hact.
  destruct (ValidatedPlan.action plan) eqn:Haction; try (apply keeps_calm; [calm|exact Hs]).
  apply wp_healthy_radio; [exact Hs|]. intros address s1 Hc Hs1. apply keeps_this.
  wp_step. wp_step; [|apply Hs1]. apply map_err_Ok in H.
  destruct (calm_authority _ _ Hc) as (Ea&Ecr&_). destruct (calm_Current _ _ _ Hc Hcur) as [Hck Hg].
  apply (wp_launch_sweep address (sweep_plan _ _ _ _ _ _ _)); auto.
  - eapply calm_idle; eauto.
  - now rewrite H.
  - rewrite Ea, Ecr. split; [|exact Hauth]. exists plan, (ConsoleApp.survey_gain_db (app s1)).
    split; [exact Hck|]. unfold sweep_for. now rewrite Haction.
Qed.

Lemma keeps_start_candidate_inspection plan s :
  Inv s -> Current plan s -> (approving s.(log) || cruising s.(log)) = true ->
  wp (start_candidate_inspection plan) inv good s.
Proof.
  intros Hs Hcur Hauth. unfold start_candidate_inspection. apply keeps_this.
  destruct (ConsoleApp.hardware_active (app s)) eqn:Hact; [apply keeps_calm; [calm|exact Hs]|].
  apply hardware_inactive in Hact.
  destruct (ValidatedPlan.action plan) eqn:Haction; try (apply keeps_calm; [calm|exact Hs]).
  apply wp_healthy_radio; [exact Hs|]. intros address s1 Hc Hs1. apply keeps_this.
  wp_step. wp_step; [|apply Hs1]. apply map_err_Ok in H.
  destruct (calm_authority _ _ Hc) as (Ea&Ecr&_). destruct (calm_Current _ _ _ Hc Hcur) as [Hck Hg].
  apply (wp_launch_sweep address (sweep_plan _ _ _ _ _ _ _)); auto.
  - eapply calm_idle; eauto.
  - now rewrite H.
  - rewrite Ea, Ecr. split; [|exact Hauth]. exists plan, (ConsoleApp.survey_gain_db (app s1)).
    split; [exact Hck|]. unfold sweep_for. now rewrite Haction.
Qed.

Lemma keeps_start_initial_survey options s :
  Inv s -> last_line s.(log) = None -> wp (start_initial_survey options) inv good s.
Proof.
  intros Hs Hline. unfold start_initial_survey. apply keeps_this.
  destruct (ConsoleApp.busy (app s)) eqn:Hact; [apply keeps_calm; [calm|exact Hs]|].
  apply busy_inactive in Hact. apply keeps_this.
  destruct (ConsoleApp.sdrd_address (app s)) as [address|]; [|apply keeps_calm; [calm|exact Hs]].
  apply wp_calm; [calm|exact Hs|]. intros healthy s1 Hc Hs1.
  destruct healthy; cbn [negb]; [|apply keeps_calm; [calm|exact Hs1]]. apply keeps_this.
  wp_step. wp_step; [|apply Hs1]. apply map_err_Ok in H.
  destruct (calm_authority _ _ Hc) as (_&_&El). destruct (calm_idle _ _ Hc Hact) as [He Hw].
  apply wp_bind. eapply wp_conseq.
  - apply (wp_start_sweep address (sweep_plan _ _ _ _ _ _ _)); auto; [now rewrite H|congruence].
  - intros [] s' Hs'. apply keeps_calm; [calm|exact Hs'].
  - auto.
Qed.

(** Keeping a plan for the operator. *)
Lemma wp_set_pending plan s :
  Inv s -> Current plan s -> wp (set (ConsoleApp.with_pending (Some plan))) inv good s.
Proof.
  intros ([Hg Hc Hsw Hexec]&[Ha Hr Hp]&Hcr) [Hck Hgn]. unfold set. wp_step.
  split_and!; [now constructor|constructor; auto|exact Hcr]. cbn. now intros p [= <-].
Qed.

Lemma keeps_dispatch_plan plan s : Inv s -> Current plan s -> wp (dispatch_plan plan) inv good s.
Proof.
  intros Hs Hcur. unfold dispatch_plan. apply keeps_this.
  destruct (CruiseControl.mode _).
  { destruct (is_hardware _); [|apply keeps_calm; [calm|exact Hs]]. apply keeps_this.
    destruct (is_none _); [now apply wp_set_pending|apply keeps_calm; [calm|exact Hs]]. }
  destruct (CruiseControl.is_active _) eqn:Hact; cbn [negb]; [|apply keeps_calm; [calm|exact Hs]].
  assert (Hcru : cruising s.(log) = true) by (apply Hs; exact Hact).
  destruct (ValidatedPlan.action plan) eqn:Haction; try (apply keeps_calm; [calm|exact Hs]).
  - apply keeps_start_planned_survey; [exact Hs|exact Hcur|]. now rewrite Hcru, orb_true_r.
  - apply keeps_start_candidate_inspection; [exact Hs|exact Hcur|]. now rewrite Hcru, orb_true_r.
  - destruct (ValidatedPlan.approval_required plan).
    + apply wp_bind. eapply wp_conseq; [now apply wp_set_pending| |auto].
      intros [] s' Hs'. apply keeps_calm; [calm|exact Hs'].
    + wp_step. wp_step; [|apply Hs]. apply map_err_Ok in H.
      apply wp_start_execution; auto; [apply Hcur|now rewrite Haction|apply Hcur].
Qed.

Lemma keeps_plan_proposed frame : Keeps (plan_proposed frame).
Proof.
  intros s Hs. unfold plan_proposed. wp_step. wp_step; [|apply Hs]. wp_step. wp_step; [|apply Hs].
  apply keeps_this. wp_step. wp_step; [|apply Hs]. wp_step. wp_step; [|apply Hs].
  apply ok_or_Ok in H1. apply map_err_Ok in H2. rename a1 into request, a2 into plan.
  assert (Hcur : Current plan s).
  { destruct Hs as (_&[_ Hr _]&_). destruct (Hr _ _ H1) as (_&Hgen&Hsent&Hval).
    constructor; [now exists request, a0|]. apply validate_response_Ok in H2.
    destruct H2 as (_&_&_&_&_&_&_&_&_&_&->&_). exact Hgen. }
  apply wp_calm; [calm|exact Hs|]. intros _ s1 C1 Hs1.
  apply wp_calm; [calm|exact Hs1|]. intros _ s2 C2 Hs2.
  apply wp_calm; [calm|exact Hs2|]. intros mode s3 C3 Hs3.
  apply wp_calm; [calm|exact Hs3|]. intros _ s4 C4 Hs4.
  apply wp_calm; [calm|exact Hs4|]. intros _ s5 C5 Hs5.
  apply wp_bind. eapply wp_conseq; [apply keeps_dispatch_plan; [exact Hs5|]| |auto].
  - do 5 (eapply calm_Current; [eassumption|]). exact Hcur.
  - intros [] s' Hs'. apply keeps_calm; [calm|exact Hs'].
Qed.

Lemma keeps_handle_event frame : Keeps (handle_event frame).
Proof. pose proof keeps_plan_proposed. unfold handle_event. keeps. Qed.
Lemma keeps_handle_frame frame : Keeps (handle_frame frame).
Proof. pose proof keeps_handle_event. unfold handle_frame. keeps. Qed.
Lemma keeps_await rounds command_id : Keeps (await_response fuel rounds command_id).
Proof.
  pose proof keeps_handle_frame.
  induction rounds as [|rounds IH]; cbn [await_response]; keeps.
Qed.
Lemma keeps_command kind : Keeps (command fuel kind).
Proof. pose proof keeps_await. unfold command. keeps. Qed.
End Keeping.

Section Planner.
Context {json : Json} {access : JsonAccess} {world : World} {decode_plan : Deserialize PlanResponse.t}.
Context (fuel : nat).
Abbreviation good := (fun _ s' => Good s'.(log)).
Abbreviation inv := (fun _ s' => Inv s').

(** Sending a line: the client has counted it, and it is in the log unless it
    could not be encoded. *)
Lemma wp_send kind context (Q : Z -> State -> Prop) (R : AppError -> State -> Prop) s :
  (forall client id,
     let command := Command.mk id s.(app).(ConsoleApp.session_generation) kind context in
     let s' := state (ConsoleApp.with_client client s.(app)) (Write command :: s.(log)) in
     Q id s' /\ forall e, R e s') ->
  (forall client e, R e (state (ConsoleApp.with_client client s.(app)) s.(log))) ->
  wp (send_session_command kind context) Q R s.
Proof.
  intros Hsent Hfail. unfold send_session_command, next_command_id, write, this, set, ask, perform, refuse, fail.
  wp_steps; first [apply Hfail | discriminate | refine (proj1 (Hsent _ _)) | refine (proj2 (Hsent _ _) _)].
Qed.

(** A console whose generation has not been announced yet: it knows no request. *)
Definition Unannounced (s : State) : Prop :=
  Hardware s /\ Cruise s /\ s.(app).(ConsoleApp.requests) = ∅ /\ s.(app).(ConsoleApp.pending) = None.

Lemma wp_open kind s : Unannounced s -> wp (command fuel kind) inv good s.
Proof.
  intros ([Hg Hc Hsw Hexec]&Hcr&Hr&Hp). unfold command. apply wp_bind, wp_send.
  - intros client id command s'.
    assert (Hgood : Good s'.(log)) by (split; [exact I|exact Hg]). split; [|now intros _].
    apply keeps_await. split_and!; [constructor; auto|constructor|exact Hcr]; cbn.
    + reflexivity.
    + rewrite Hr. apply map_Forall_empty.
    + rewrite Hp. discriminate.
  - intros client _. exact Hg.
Qed.

Lemma next_generation_unannounced generation st s :
  Inv s -> Unannounced (state (next_generation generation st s.(app)) s.(log)).
Proof. intros ([Hg Hc Hsw Hexec]&_&Hcr). split_and!; try reflexivity; [now constructor|exact Hcr]. Qed.

Lemma keeps_renew st message : Keeps (renew fuel st message).
Proof.
  intros s Hs. unfold renew. apply keeps_this.
  destruct (ConsoleApp.busy (app s)); [apply keeps_calm; [calm|exact Hs]|].
  apply wp_bind. eapply wp_conseq; [apply keeps_command, Hs| |auto].
  intros ? s1 Hs1. apply keeps_this. wp_step. wp_step; [|apply Hs1].
  unfold set. wp_step. wp_step. apply wp_bind.
  eapply wp_conseq; [apply wp_open, next_generation_unannounced, Hs1| |auto].
  intros frame s2 Hs2. apply keeps_calm; [calm|exact Hs2].
Qed.

(** A request that is remembered is sent at once: [a] is the console before it
    is remembered, up to fields the invariant does not look at. *)
Lemma wp_send_known {B} request kind (k : Z -> Act B) s a :
  Inv s -> tame s.(app) a -> a.(ConsoleApp.requests) = s.(app).(ConsoleApp.requests) ->
  request.(PlanRequest.session_generation) = s.(app).(ConsoleApp.session_generation) ->
  validate_request request = Ok tt -> (forall id, Calm (k id)) ->
  wp (command_id ← send_session_command kind (Some request) ; k command_id) inv good
    (state (ConsoleApp.with_requests
              (<[request.(PlanRequest.request_id) := request]> a.(ConsoleApp.requests)) a) s.(log)).
Proof.
  intros ([Hg Hc Hsw Hexec]&[Ha Hr Hp]&Hcr) [T1 T2 T3 T4 T5 T6 T7] Hreq Hgen Hval Hk.
  wp_step. apply wp_send.
  - intros client id command s'.
    assert (Hgood : Good s'.(log)) by (split; [exact I|exact Hg]). split; [|now intros _].
    apply keeps_calm; [apply Hk|]. unfold s'. split_and!; [constructor|constructor|]; cbn.
    + exact Hgood.
    + rewrite T4. exact Hc.
    + rewrite T5. exact Hsw.
    + rewrite T4, T6. exact Hexec.
    + reflexivity.
    + rewrite Hreq, T1. intros rid r Hr'.
      apply lookup_insert_Some in Hr' as [[<- <-]|[Hne Hr']].
      * split_and!; auto. exists command. split; [now left|]. subst command. cbn. now rewrite T1.
      * destruct (Hr rid r Hr') as (?&?&Hsent&?). split_and!; auto. exact (Sent_app r [_] _ Hsent).
    + intros plan Hplan. rewrite T1. destruct T2 as [E|E]; rewrite E in Hplan; [discriminate|].
      destruct (Hp plan Hplan) as [Hck Hgn]. split; [exact (Checked_app plan [_] _ Hck)|exact Hgn].
    + intros Hact. apply Hcr, T7, Hact.
  - intros client _. exact Hg.
Qed.

Lemma calm_remember_command id pending : Calm (remember_command id pending).
Proof. unfold remember_command. calm. Qed.

Lemma calm_generation s s' :
  calm s s' -> s'.(app).(ConsoleApp.session_generation) = s.(app).(ConsoleApp.session_generation).
Proof. now intros [_ []]. Qed.

Lemma keeps_submit instruction : Keeps (submit instruction).
Proof.
  intros s Hs. unfold submit. apply keeps_this.
  destruct (ConsoleApp.busy (app s)); [apply keeps_calm; [calm|exact Hs]|].
  apply wp_calm; [calm|exact Hs|]. intros _ s1 _ Hs1.
  apply wp_calm; [calm|exact Hs1|]. intros request_id s2 _ Hs2. apply keeps_this, keeps_this.
  set (request := ConsoleApp.request_for _ _ _).
  wp_step. wp_step; [|apply Hs2]. apply map_err_Ok in H. destruct a.
  apply wp_calm; [calm|exact Hs2|]. intros _ s3 C3 Hs3.
  apply wp_calm; [calm|exact Hs3|]. intros _ s4 C4 Hs4.
  apply wp_calm; [calm|exact Hs4|]. intros _ s5 C5 Hs5.
  assert (Hgen : request.(PlanRequest.session_generation) = s5.(app).(ConsoleApp.session_generation)).
  { now rewrite (calm_generation _ _ C5), (calm_generation _ _ C4), (calm_generation _ _ C3). }
  clearbody request. unfold remember_request, set. do 8 wp_step.
  apply (wp_send_known request "prompt" _ s5
           (ConsoleApp.with_plan_seen_in_cycle false
              (ConsoleApp.with_active_request_id (Some request_id)
                 (ConsoleApp.with_agent_cycle_active true s5.(app))))); auto.
  - constructor; cbn; auto.
  - intros id. apply calm_remember_command.
Qed.

Lemma keeps_queue instruction kind : Keeps (queue_model_input instruction kind).
Proof.
  intros s Hs. unfold queue_model_input. do 3 apply keeps_this.
  destruct (_ || _ || _ || _); [apply keeps_calm; [calm|exact Hs]|].
  apply wp_calm; [calm|exact Hs|]. intros request_id s2 _ Hs2. apply keeps_this.
  set (request := ConsoleApp.request_for _ _ _).
  wp_step. wp_step; [|apply Hs2]. apply map_err_Ok in H. destruct a.
  apply wp_calm; [calm|exact Hs2|]. intros _ s3 C3 Hs3.
  apply wp_calm; [calm|exact Hs3|]. intros _ s4 C4 Hs4.
  assert (Hgen : request.(PlanRequest.session_generation) = s4.(app).(ConsoleApp.session_generation)).
  { now rewrite (calm_generation _ _ C4), (calm_generation _ _ C3). }
  clearbody request. unfold remember_request, set. do 2 wp_step.
  apply (wp_send_known request (SessionQueueKind.command kind) _ s4 s4.(app)); auto.
  - reflexivity.
  - intros id. apply calm_remember_command.
Qed.

(** ** The operator and the threads *)
Lemma keeps_approve s : Inv s -> approving s.(log) = true -> wp approve inv good s.
Proof.
  intros Hs Happ. unfold approve. apply keeps_this.
  destruct (ConsoleApp.hardware_active (app s)) eqn:Hact; [apply keeps_calm; [calm|exact Hs]|].
  apply hardware_inactive in Hact. apply keeps_this.
  destruct (ConsoleApp.pending (app s)) as [plan|] eqn:Hpending; [|apply keeps_calm; [calm|exact Hs]].
  assert (Hcur : Current plan s).
  { destruct Hs as (_&[_ _ Hp]&_). destruct (Hp plan Hpending). now constructor. }
  apply wp_calm; [calm|exact Hs|]. intros _ s1 C1 Hs1.
  apply wp_calm; [calm|exact Hs1|]. intros _ s2 C2 Hs2.
  assert (C : calm s s2) by (etrans; eassumption).
  destruct (calm_authority _ _ C) as (Ea&_&_). rewrite Happ in Ea.
  pose proof (calm_Current _ _ _ C Hcur) as Hcur2. pose proof (calm_idle _ _ C Hact) as [_ Hsweep].
  destruct (ValidatedPlan.action plan) eqn:Haction; try (apply keeps_calm; [calm|exact Hs2]).
  - apply keeps_start_planned_survey; [exact Hs2|exact Hcur2|now rewrite Ea].
  - apply keeps_start_candidate_inspection; [exact Hs2|exact Hcur2|now rewrite Ea].
  - apply wp_start_execution; [exact Hs2|apply Hcur2|now rewrite Haction|apply Hcur2|]. left. auto.
Qed.

Lemma keeps_poll_sweep : Keeps poll_sweep.
Proof.
  intros s Hs. unfold poll_sweep. apply keeps_this.
  destruct (ConsoleApp.active_sweep (app s)) as [active|] eqn:Hactive; [|apply keeps_calm; [calm|exact Hs]].
  apply wp_calm; [calm|exact Hs|]. intros finished s1 C1 Hs1.
  destruct finished; cbn [negb]; [|apply keeps_calm; [calm|exact Hs1]].
  apply wp_join_sweep; [exact Hs1|destruct C1 as [_ []]; congruence|].
  intros r s2 Hs2. destruct r; apply keeps_calm; [calm|exact Hs2|calm|exact Hs2].
Qed.

Lemma keeps_poll_execution : Keeps poll_execution.
Proof.
  intros s Hs. unfold poll_execution. apply keeps_this.
  destruct (ConsoleApp.active_execution (app s)) as [active|] eqn:Hactive;
    [|apply keeps_calm; [calm|exact Hs]].
  apply wp_calm; [calm|exact Hs|]. intros finished s1 C1 Hs1.
  destruct finished; cbn [negb]; [|apply keeps_calm; [calm|exact Hs1]].
  apply wp_join_capture; [exact Hs1|destruct C1 as [_ []]; congruence|].
  intros r s2 Hs2. destruct r; apply keeps_calm; [calm|exact Hs2|calm|exact Hs2].
Qed.

Lemma keeps_stop_sweep active message s :
  Inv s -> s.(app).(ConsoleApp.active_sweep) = Some active ->
  wp (stop_sweep fuel active message) inv good s.
Proof.
  intros Hs Hactive. unfold stop_sweep.
  apply wp_calm; [calm|exact Hs|]. intros cancelled s1 C1 Hs1.
  assert (H1 : s1.(app).(ConsoleApp.active_sweep) = Some active) by (destruct C1 as [_ []]; congruence).
  destruct cancelled as [?|?].
  - apply wp_join_sweep; [exact Hs1|exact H1|]. intros _ s2 Hs2. now apply keeps_renew.
  - apply wp_calm; [calm|exact Hs1|]. intros finished s2 C2 Hs2.
    destruct finished; [|apply keeps_calm; [calm|exact Hs2]].
    revert Hs2. apply console_keeps_bind; [apply keeps_poll_sweep|]. intros _. apply keeps_renew.
Qed.

Lemma keeps_stop_execution active message s :
  Inv s -> s.(app).(ConsoleApp.active_execution) = Some active ->
  wp (stop_execution fuel active message) inv good s.
Proof.
  intros Hs Hactive. unfold stop_execution.
  apply wp_calm; [calm|exact Hs|]. intros cancelled s1 C1 Hs1.
  assert (H1 : s1.(app).(ConsoleApp.active_execution) = Some active) by (destruct C1 as [_ []]; congruence).
  destruct cancelled as [?|?].
  - apply wp_join_capture; [exact Hs1|exact H1|]. intros r s2. revert s2.
    change (Keeps (record ("cancelled request " +:+ print_u (ActiveExecution.request_id active)) ;;
      match r with Ok observation => emit (ExecutionPayload observation) | Err _ => mret tt end ;;
      cycle ← this ConsoleApp.agent_cycle_active ;
      if cycle : bool then set (ConsoleApp.with_deferred_renew (Some (ControllerState.Holding, message)))
      else renew fuel ControllerState.Holding message)).
    pose proof keeps_renew. keeps.
  - apply wp_calm; [calm|exact Hs1|]. intros finished s2 C2 Hs2.
    destruct finished; [|apply keeps_calm; [calm|exact Hs2]].
    revert Hs2. apply console_keeps_bind; [apply keeps_poll_execution|]. intros _. apply keeps_renew.
Qed.
End Planner.

(** ** Computations that read no line and stay in their generation *)
Definition no_line (op : Op) : Prop := match op with Line _ => False | _ => True end.
Definition mute (s s' : State) : Prop := exists ops, s'.(log) = ops ++ s.(log) /\ Forall no_line ops.
Definition steady (s s' : State) : Prop :=
  mute s s' /\ s'.(app).(ConsoleApp.session_generation) = s.(app).(ConsoleApp.session_generation).

#[global] Instance mute_preorder : PreOrder mute.
Proof.
  split.
  - intros s. now exists [].
  - intros s1 s2 s3 (l1&E1&H1) (l2&E2&H2). exists (l2 ++ l1). rewrite E2, E1, app_assoc.
    split; [reflexivity|]. apply Forall_app. now split.
Qed.
#[global] Instance steady_preorder : PreOrder steady.
Proof.
  split; [intros s; split; reflexivity|].
  intros s1 s2 s3 [H1 E1] [H2 E2]. split; [etrans; [exact H1|exact H2]|congruence].
Qed.

Lemma mute_lines s s' :
  mute s s' -> last_line s'.(log) = last_line s.(log) /\ cruising s'.(log) = cruising s.(log).
Proof.
  intros (ops&E&Hq). rewrite E. clear E. induction Hq as [|op ops H Hf IH]; [now split|].
  destruct op; exact IH || destruct H.
Qed.

Abbreviation Mute := (respects (E := AppError) mute).
Abbreviation Steady := (respects (E := AppError) steady).

Lemma steady_calm {A} (m : Act A) : Calm m -> Steady m.
Proof.
  intros H s. destruct (H s) as [(ops&E&Hq) Ht]. split; [|apply Ht]. exists ops. split; [exact E|].
  eapply List.Forall_impl; [|exact Hq]. intros op. now destruct op.
Qed.
Lemma steady_mute {A} (m : Act A) : Steady m -> Mute m.
Proof. intros H s. apply H. Qed.
Lemma steady_bind {A B} (m : Act A) (f : A -> Act B) :
  Steady m -> (forall a, Steady (f a)) -> Steady (m ≫= f).
Proof. apply respects_bind, _. Qed.
Lemma steady_set f :
  (forall a, (f a).(ConsoleApp.session_generation) = a.(ConsoleApp.session_generation)) ->
  Steady (set f).
Proof. intros H s. split; [now exists []|apply H]. Qed.
Lemma steady_perform op : no_line op -> Steady (perform op).
Proof. intros H s. split; [|reflexivity]. exists [op]. split; [reflexivity|]. now repeat constructor. Qed.

Ltac steady_step :=
  lazymatch goal with
  | |- respects steady (mbind _ _) => apply steady_bind; [|intros ?]
  | |- respects steady (set _) => apply steady_set; reflexivity
  | |- respects steady (perform _) => apply steady_perform; exact I
  | |- respects steady (if ?c then _ else _) => destruct c
  | |- respects steady (match ?c with _ => _ end) => destruct c
  | |- respects steady (when ?b _) => destruct b; cbn [when]
  | |- respects steady _ => first [solve [auto with steady] | apply steady_calm; solve [calm]]
  end.
Create HintDb steady.
Ltac steady := solve [repeat steady_step].

Section Steady.
Context {json : Json} {access : JsonAccess} {world : World} {decode_plan : Deserialize PlanResponse.t}.
Context (fuel : nat).

Lemma steady_start_execution plan authorization : Steady (start_execution plan authorization).
Proof. unfold start_execution. steady. Qed.
Lemma steady_start_sweep address plan kind generation : Steady (start_sweep address plan kind generation).
Proof. unfold start_sweep. steady. Qed.
#[local] Hint Resolve steady_start_execution steady_start_sweep : steady.
Lemma steady_launch_sweep address sweep kind generation bytes st :
  Steady (launch_sweep address sweep kind generation bytes st).
Proof. unfold launch_sweep, over_budget. steady. Qed.
#[local] Hint Resolve steady_launch_sweep : steady.
Lemma steady_planned_survey plan : Steady (start_planned_survey plan).
Proof. unfold start_planned_survey, with_healthy_radio, cruise_active. steady. Qed.
Lemma steady_inspection plan : Steady (start_candidate_inspection plan).
Proof. unfold start_candidate_inspection, with_healthy_radio, cruise_active. steady. Qed.
#[local] Hint Resolve steady_planned_survey steady_inspection : steady.
Lemma steady_dispatch plan : Steady (dispatch_plan plan).
Proof. unfold dispatch_plan. steady. Qed.
#[local] Hint Resolve steady_dispatch : steady.
Lemma steady_handle_frame frame : Steady (handle_frame frame).
Proof. unfold handle_frame, handle_event, plan_proposed. steady. Qed.
#[local] Hint Resolve steady_handle_frame : steady.
Lemma steady_await rounds command_id : Steady (await_response fuel rounds command_id).
Proof. induction rounds as [|rounds IH]; cbn [await_response]; steady. Qed.
#[local] Hint Resolve steady_await : steady.
Lemma steady_command kind : Steady (command fuel kind).
Proof. unfold command. steady. Qed.

Lemma mute_renew st message : Mute (renew fuel st message).
Proof.
  pose proof steady_command as Hc. unfold renew.
  apply respects_bind; [apply _|apply steady_mute; steady|]. intros busy. destruct busy; [apply steady_mute; steady|].
  apply respects_bind; [apply _|apply steady_mute; steady|]. intros _.
  apply respects_bind; [apply _|apply steady_mute; steady|]. intros generation.
  apply respects_bind; [apply _|apply steady_mute; steady|]. intros next.
  apply respects_bind; [apply _|intros s; now exists []|]. intros _.
  apply steady_mute; steady.
Qed.
End Steady.

(** ** The loops *)
Section Loops.
Context {json : Json} {access : JsonAccess} {world : World} {decode_plan : Deserialize PlanResponse.t}.
Context (fuel : nat).
Abbreviation good := (fun _ s' => Good s'.(log)).
Abbreviation inv := (fun _ s' => Inv s').

(** The invariant but for the cruise, which a stop is about to end. *)
Definition Loose (s : State) : Prop := Hardware s /\ Planning s.

Lemma calm_Loose s s' : calm s s' -> Loose s -> Loose s'.
Proof. intros Hc [Hh Hp]. split; [eapply calm_Hardware|eapply calm_Planning]; eauto. Qed.

Lemma Inv_Loose s : Inv s -> Loose s.
Proof. intros (Hh&Hp&_). now split. Qed.

(** Ending the cruise restores the invariant. *)
Lemma wp_end_cruise (f : CruiseControl.t -> CruiseControl.t) s :
  Loose s -> (forall c, (f c).(CruiseControl.active) = false) ->
  wp (set_cruise f) inv good s.
Proof.
  intros Hs Hf. unfold set_cruise, set. wp_step.
  assert (Hc : calm s (state (ConsoleApp.with_cruise (f (ConsoleApp.cruise (app s))) (app s)) (log s))).
  { constructor; [now exists []|]. constructor; cbn; auto. now rewrite Hf. }
  destruct (calm_Loose _ _ Hc Hs). split_and!; auto. intros Hact. cbn in Hact. now rewrite Hf in Hact.
Qed.

Lemma wp_stop_cruise s : Loose s -> wp stop_cruise inv good s.
Proof.
  intros Hs. unfold stop_cruise. unfold cruise_active, this. wp_step. wp_step.
  destruct (CruiseControl.is_active _) eqn:Hact; cbn [when].
  - apply wp_bind. eapply wp_conseq; [now apply wp_end_cruise| |auto].
    intros ? s1 Hs1. apply keeps_calm; [calm|exact Hs1].
  - wp_step. destruct Hs. split_and!; auto. intros Hb. unfold CruiseControl.is_active in Hact. congruence.
Qed.

Lemma wp_stop message s : Loose s -> wp (stop fuel message) inv good s.
Proof.
  intros Hs. unfold stop. apply wp_bind. eapply wp_conseq; [now apply wp_stop_cruise| |auto].
  intros ? s1 Hs1. apply wp_calm; [calm|exact Hs1|]. intros ? s2 _ Hs2. apply keeps_this.
  destruct (ConsoleApp.active_sweep (app s2)) as [active|] eqn:Hsw; [now apply keeps_stop_sweep|].
  apply keeps_this.
  destruct (ConsoleApp.active_execution (app s2)) as [active|] eqn:Hex; [now apply keeps_stop_execution|].
  apply keeps_this. destruct (ConsoleApp.agent_cycle_active (app s2)); [apply keeps_calm; [calm|exact Hs2]|].
  revert Hs2. pose proof keeps_renew. apply console_keeps_bind; [apply keeps_calm; calm|]. intros _.
  apply keeps_renew.
Qed.

Lemma keeps_stop message : Keeps (stop fuel message).
Proof. intros s Hs. apply wp_stop, Inv_Loose, Hs. Qed.

Lemma wp_enable_step_approval s : Loose s -> wp (enable_step_approval fuel) inv good s.
Proof.
  intros Hs. unfold enable_step_approval. apply keeps_this.
  assert (Hrest : forall b, Keeps (
    set_cruise CruiseControl.switch_to_step_approval ;; set (ConsoleApp.with_auto_mission None) ;;
    set (ConsoleApp.with_auto_next_instruction None) ;;
    when b (renew fuel ControllerState.Idle STEP_MESSAGE))).
  { intros b. pose proof (keeps_renew fuel). keeps. }
  match goal with |- wp (if ?c then _ else _) _ _ _ => destruct c eqn:Hc end.
  { wp_step. destruct Hs. split_and!; auto. intros Hact. exfalso.
    destruct (CruiseControl.mode _); [|discriminate]. apply negb_true_iff in Hc.
    unfold CruiseControl.is_active in Hc. congruence. }
  apply keeps_this. destruct (ConsoleApp.busy (app s)); cbn [when negb].
  - apply wp_bind. eapply wp_conseq; [now apply wp_stop| |auto].
    intros ? s1 Hs1. exact (Hrest false s1 Hs1).
  - apply wp_bind, wp_ret, wp_bind.
    eapply wp_conseq; [apply wp_end_cruise; [exact Hs|reflexivity]| |auto].
    intros ? s1 Hs1. revert s1 Hs1. pose proof (keeps_renew fuel).
    change (Keeps (set (ConsoleApp.with_auto_mission None) ;;
      set (ConsoleApp.with_auto_next_instruction None) ;;
      renew fuel ControllerState.Idle STEP_MESSAGE)).
    keeps.
Qed.
End Loops.

Section Run.
Context {json : Json} {access : JsonAccess} {world : World} {decode_plan : Deserialize PlanResponse.t}.
Context (fuel : nat).
Abbreviation good := (fun _ s' => Good s'.(log)).
Abbreviation inv := (fun _ s' => Inv s').

(** A step that reads no line keeps what the lines say. *)
Lemma wp_mute {A} (m : Act A) s :
  Keeps m -> Mute m -> Inv s ->
  wp m (fun _ s' => Inv s' /\ cruising s'.(log) = cruising s.(log)
                    /\ last_line s'.(log) = last_line s.(log)) good s.
Proof.
  intros Hk Hm Hs. eapply wp_conseq.
  - apply wp_and; [exact (Hk s Hs)|exact (respects_wp _ m s Hm)].
  - intros a s' [Hi Hmu]. destruct (mute_lines _ _ Hmu). auto.
  - intros e s' [Hg _]. exact Hg.
Qed.

Lemma wp_start_auto mission steps seconds bytes s :
  Inv s -> cruising s.(log) = true -> wp (start_auto fuel mission steps seconds bytes) inv good s.
Proof.
  intros Hs Hcru. unfold start_auto. destruct (_ || _ || _); [apply keeps_calm; [calm|exact Hs]|].
  do 2 apply keeps_this. destruct (_ || _); [apply keeps_calm; [calm|exact Hs]|]. apply keeps_this.
  destruct (_ =? 0); [apply keeps_calm; [calm|exact Hs]|].
  apply wp_bind. eapply wp_conseq;
    [apply wp_mute; [apply keeps_renew|apply mute_renew|exact Hs]| |auto].
  intros ? s1 (Hs1&Ec&_). apply wp_calm; [calm|exact Hs1|]. intros time s2 C2 Hs2. apply keeps_this.
  assert (Hc2 : cruising s2.(log) = true) by (destruct (calm_authority _ _ C2) as (_&->&_); congruence).
  destruct (CruiseControl.start _ _ _ _ _) as [started cruise].
  apply wp_bind, wp_modify.
  assert (Hs3 : Inv (state (ConsoleApp.with_cruise cruise (app s2)) (log s2))).
  { destruct Hs2 as ([? ? ? ?]&[? ? ?]&_). split_and!; [now constructor|now constructor|now intros _]. }
  apply keeps_calm; [calm|exact Hs3].
Qed.

Lemma keeps_handle_frames rounds : Keeps (handle_frames rounds).
Proof.
  pose proof keeps_handle_frame. induction rounds as [|rounds IH]; cbn [handle_frames]; keeps.
Qed.

Lemma keeps_poll : Keeps (poll fuel).
Proof.
  pose proof keeps_handle_frames. pose proof keeps_poll_execution. pose proof keeps_poll_sweep.
  pose proof (keeps_renew fuel). unfold poll. keeps.
Qed.

(** Reading the clock can only end the cruise. *)
Lemma keeps_check_duration time c (k : Act unit) s :
  Inv s -> c = s.(app).(ConsoleApp.cruise) -> Keeps k ->
  wp (set (ConsoleApp.with_cruise (CruiseControl.check_duration time c).2) ;; k) inv good s.
Proof.
  intros Hs -> Hk. apply wp_bind.
  assert (Hc : calm s (state (ConsoleApp.with_cruise
     (CruiseControl.check_duration time s.(app).(ConsoleApp.cruise)).2 (app s)) (log s))).
  { constructor; [now exists []|]. constructor; cbn; auto.
    unfold CruiseControl.check_duration. cbn. now destruct (_ && _). }
  unfold set. wp_step. apply Hk. eapply calm_Inv; eauto.
Qed.

Lemma keeps_advance_auto : Keeps (advance_auto fuel).
Proof.
  pose proof (keeps_stop fuel) as Hstop. pose proof keeps_submit as Hsubmit.
  intros s Hs. unfold advance_auto. apply keeps_this.
  destruct (negb _); [apply keeps_calm; [calm|exact Hs]|].
  set (c := ConsoleApp.cruise (app s)).
  apply wp_bind, wp_bind, wp_modify, wp_gets.
  set (s1 := state _ _).
  assert (Hc : calm s s1).
  { constructor; [|reflexivity]. exists [Clock]. split; [reflexivity|]. now repeat constructor. }
  pose proof (calm_Inv _ _ Hc Hs) as Hs1.
  destruct (CruiseControl.check_duration _ c) as [within cruise] eqn:E.
  replace cruise with (CruiseControl.check_duration (now (log s1)) c).2 by (now rewrite E).
  apply keeps_check_duration; [exact Hs1|reflexivity|]. clear E. keeps.
Qed.

Lemma keeps_close_loop rounds deadline : Keeps (close_loop fuel rounds deadline).
Proof.
  pose proof keeps_poll. induction rounds as [|rounds IH]; cbn [close_loop]; keeps.
Qed.

Lemma wp_close s : Inv s -> wp (close fuel) good good s.
Proof.
  intros Hs. assert (Hw : forall b message, Keeps (when b (stop fuel message)))
    by (pose proof (keeps_stop fuel); intros; keeps).
  unfold close. apply wp_bind, wp_gets, wp_bind.
  eapply wp_conseq; [apply Hw, Hs| |auto].
  intros ? s1 Hs1. apply wp_calm; [calm|exact Hs1|]. intros time s2 _ Hs2. apply wp_bind.
  eapply wp_conseq; [apply keeps_close_loop, Hs2| |auto].
  intros ? s3 Hs3. apply wp_bind, wp_gets.
  destruct (ConsoleApp.agent_cycle_active (app s3)); cbn [negb]; [apply wp_ret, Hs3|].
  apply wp_bind, wp_attempt.
  eapply wp_conseq; [apply keeps_command, Hs3| |].
  - intros ? s4 Hs4. apply wp_ret, Hs4.
  - intros e s4 Hs4. destruct e; exact Hs4.
Qed.

(** ** A line of input *)
Definition HandlesLine (input : string) (s : State) : Prop :=
  Loose s /\ last_line s.(log) = Some input
  /\ (ends_cruise input = false -> Inv s)
  /\ (ends_cruise input = false -> begins_cruise input = true -> cruising s.(log) = true).

Lemma one_of_spec input words : one_of input words = true <-> input ∈ words.
Proof.
  unfold one_of. rewrite existsb_exists. split.
  - intros (w&Hw&E). apply String.eqb_eq in E as ->. now apply list_elem_of_In.
  - intros H. exists input. split; [now apply list_elem_of_In|apply String.eqb_refl].
Qed.

Lemma handle_input_ends input :
  ends_cruise input = true ->
  handle_input fuel input
  = ((if one_of input ["/mode manual"; "/模式 人工"]%string then enable_step_approval fuel
      else if one_of input ["/pause"; "/暂停"]%string then stop fuel "会话已暂停"
      else stop fuel "会话已停止") ;; mret true).
Proof.
  intros H. unfold ends_cruise in H. rewrite one_of_spec in H. set_unfold in H.
  destruct H as [->|[->|[->|[->|[->|[->|[]]]]]]]; reflexivity.
Qed.

Lemma wp_true (m : Act unit) s : wp m inv good s -> wp (m ;; mret true) inv good s.
Proof. intros H. apply wp_bind. eapply wp_conseq; [exact H| |auto]. intros ? s1 Hs1. exact Hs1. Qed.

Lemma wp_handle_input input s : HandlesLine input s -> wp (handle_input fuel input) inv good s.
Proof.
  intros (Hl&Hline&Hinv&Hcru). destruct (ends_cruise input) eqn:Hends.
  { rewrite handle_input_ends by exact Hends. apply wp_true.
    destruct (one_of _ _); [now apply wp_enable_step_approval|].
    destruct (one_of _ _); now apply wp_stop. }
  specialize (Hinv eq_refl). specialize (Hcru eq_refl).
  pose proof (keeps_command fuel) as H1. pose proof (keeps_renew fuel) as H2.
  pose proof (keeps_stop fuel) as H3. pose proof keeps_queue as H4. pose proof keeps_submit as H5.
  assert (Hst : Keeps (status fuel)) by (unfold status; keeps).
  assert (Hen : Keeps (enable_step_approval fuel))
    by (intros s' Hs'; apply wp_enable_step_approval, Inv_Loose, Hs').
  unfold handle_input. destruct (is_empty input); [now apply wp_ret|].
  do 4 (match goal with |- wp (if one_of input ?l then _ else _) _ _ _ => destruct (one_of input l) end;
    [first [now apply wp_ret | now apply wp_true, Hst]|]).
  match goal with |- wp (if ?c then _ else _) _ _ _ => destruct c eqn:Happ end.
  { apply wp_true, keeps_approve; [exact Hinv|]. unfold approving. now rewrite Hline. }
  revert s Hinv Hl Hline Hcru.
  (* every other branch but the last cruise command keeps the invariant by itself *)
  assert (Hauto : forall command s, Inv s -> cruising s.(log) = true ->
    wp (start_auto fuel command.(AutoStartCommand.mission) command.(AutoStartCommand.steps)
          command.(AutoStartCommand.seconds) command.(AutoStartCommand.iq_bytes) ;; mret true) inv good s)
    by (intros; now apply wp_true, wp_start_auto).
  intros s Hinv Hl Hline Hcru.
  repeat (match goal with
    | |- wp (if starts_with "/auto start " input then _ else _) _ _ _ => fail 1
    | |- wp (if ?c then _ else _) _ _ _ => destruct c
    end; [revert s Hinv Hl Hline Hcru; intros s Hs _ _ _; revert s Hs;
          match goal with |- forall s, Inv s -> wp ?m _ _ _ => change (Keeps m) end; keeps|]).
  match goal with |- wp (if ?c then _ else _) _ _ _ => destruct c eqn:Hb end.
  { destruct (parse_auto_start _) as [command|]; [|now apply wp_ret].
    apply Hauto; [exact Hinv|]. apply Hcru. exact Hb. }
  match goal with |- wp ?m _ _ _ => enough (Keeps m) as Hk by (apply Hk, Hinv) end. keeps.
Qed.

Lemma HandlesLine_read input s :
  Inv s -> HandlesLine input (state s.(app) (Line input :: s.(log))).
Proof.
  intros ([Hg Hc Hsw Hexec]&[Ha Hr Hp]&Hcr).
  assert (Hloose : Loose (state s.(app) (Line input :: s.(log)))).
  { split; constructor; cbn; auto.
    - intros id r Hid. destruct (Hr id r Hid) as (?&?&Hsent&?). split_and!; auto.
      exact (Sent_app r [_] _ Hsent).
    - intros p Hpend. destruct (Hp p Hpend) as [Hck Hgn]. split; [|exact Hgn].
      exact (Checked_app p [_] _ Hck). }
  split_and!; try apply Hloose; [reflexivity| |].
  - intros Hends. destruct Hloose. split_and!; auto. intros Hact. cbn [log cruising].
    rewrite Hends.
    destruct (begins_cruise input); [reflexivity|]. apply Hcr, Hact.
  - intros Hends Hb. cbn [log cruising]. now rewrite Hends, Hb.
Qed.

Lemma calm_discard rounds : Calm (discard_input rounds).
Proof. induction rounds as [|rounds IH]; cbn [discard_input]; calm. Qed.

Lemma keeps_priority_stop : Keeps (priority_stop fuel).
Proof.
  intros s Hs. unfold priority_stop. apply wp_calm; [calm|exact Hs|]. intros requested s1 _ Hs1.
  destruct requested; cbn [when]; [|now apply wp_ret].
  apply wp_bind, wp_modify.
  destruct (HandlesLine_read "/stop" s1 Hs1) as (Hl&_).
  apply wp_bind. pose proof (calm_discard fuel (state s1.(app) (Line "/stop" :: s1.(log)))) as Hd.
  unfold wp at 1. destruct (discard_input fuel _) as [[a|e] s2]; cbn in Hd.
  - apply wp_stop. eapply calm_Loose; eauto.
  - eapply calm_good; [exact Hd|]. apply Hl.
Qed.

Lemma keeps_main_loop rounds : Keeps (main_loop fuel rounds).
Proof.
  pose proof keeps_priority_stop. pose proof keeps_poll. pose proof keeps_advance_auto.
  induction rounds as [|rounds IH]; cbn [main_loop]; [keeps|].
  do 3 (apply console_keeps_bind; [auto|intros _]). apply console_keeps_bind; [keeps|]. intros [line| |]; [|exact IH|keeps].
  intros s Hs. apply wp_bind, wp_modify, wp_bind.
  eapply wp_conseq; [apply wp_handle_input, HandlesLine_read, Hs| |auto].
  intros running s1 Hs1. destruct running; [now apply IH|now apply wp_ret].
Qed.

Lemma keeps_until_idle rounds : Keeps (until_idle fuel rounds).
Proof. pose proof keeps_poll. induction rounds as [|rounds IH]; cbn [until_idle]; keeps. Qed.

Lemma wp_run_console instruction initial_survey s :
  Unannounced s -> last_line s.(log) = None ->
  wp (run fuel instruction initial_survey) good good s.
Proof.
  intros Hs Hline. unfold run. apply wp_bind, wp_gets.
  assert (Hgood : Good s.(log)) by apply Hs.
  wp_step. wp_step; [|exact Hgood]. apply wp_bind.
  eapply wp_conseq.
  { apply wp_and; [exact (wp_open fuel "open_session" s Hs)|].
    exact (respects_wp _ _ s (steady_mute _ (steady_command fuel "open_session"))). }
  2: { intros e s1 [Hg _]. exact Hg. }
  intros frame s1 [Hs1 Hmu]. destruct (mute_lines _ _ Hmu) as [El _]. rewrite Hline in El.
  assert (Hweak : forall m : Act unit, wp m inv good s1 -> wp m good good s1).
  { intros m Hm. eapply wp_conseq; [exact Hm| |auto]. intros ? s2 Hs2. apply Hs2. }
  destruct instruction as [instruction|].
  - apply Hweak. revert s1 Hs1 Hmu El Hweak. intros s1 Hs1 _ _ _. revert s1 Hs1.
    change (Keeps (submit instruction ;; until_idle fuel fuel)).
    pose proof keeps_submit. pose proof keeps_until_idle. keeps.
  - assert (Hsurvey : wp (match initial_survey with
      | Some options => start_initial_survey options | None => mret tt end) inv good s1)
      by (destruct initial_survey; [now apply keeps_start_initial_survey|now apply wp_ret]).
    apply wp_bind. eapply wp_conseq; [exact Hsurvey| |auto]. intros ? s2 Hs2. apply wp_bind.
    eapply wp_conseq; [apply keeps_main_loop, Hs2| |auto]. intros ? s3 Hs3. now apply wp_close.
Qed.
End Run.

(** ** What a run of the console may do *)

(** The log of a run of a console that was just connected. *)
Lemma connected_run_good
    {json : Json} {access : JsonAccess} {world : World} {decode_plan : Deserialize PlanResponse.t}
    fuel template executor sdrd_address sdrd_timeout survey_gain_db sigmf_directory session_state_path
    loaded time instruction initial_survey :
  Good (run fuel instruction initial_survey
          (state (connect template executor sdrd_address sdrd_timeout survey_gain_db
                    sigmf_directory session_state_path loaded time) [])).2.(log).
Proof.
  set (a := connect _ _ _ _ _ _ _ _ _).
  assert (Hs : Unannounced (state a [])).
  { split; [|split; [|split]]; try reflexivity; [|discriminate].
    constructor; try exact I; try reflexivity. now left. }
  pose proof (wp_run_console fuel instruction initial_survey (state a []) Hs eq_refl) as H.
  unfold wp in H. destruct (run fuel instruction initial_survey (state a [])) as [r s'].
  destruct r; exact H.
Qed.

(** Every hardware action of the console is justified by what happened before
    it, whatever the operator, the planner session, the radio and the clock do: a
    capture is started when no capture runs, for a plan the policy accepted as
    the answer to a valid request that was sent in the current session
    generation, and either the operator's last line approved it, with no sweep
    running, or it needs no approval and a cruise that no later line ended was
    begun; a sweep is started when nothing runs, for such a plan or as the initial
    survey before any line; and a thread is joined only once, while it runs. *)
Theorem console_hardware_is_justified
    {json : Json} {access : JsonAccess} {world : World} {decode_plan : Deserialize PlanResponse.t}
    (fuel : nat) (template : PlanRequest.t) (executor : option Adapter.t)
    (sdrd_address : option string) (sdrd_timeout survey_gain_db : Z)
    (sigmf_directory session_state_path : option string) (loaded : option (list string * string))
    (time : Z) (instruction : option string) (initial_survey : option InitialSurveyOptions.t)
    (after before : Log) (op : Op)
    (Hrun : (run fuel instruction initial_survey
               (state (connect template executor sdrd_address sdrd_timeout survey_gain_db
                         sigmf_directory session_state_path loaded time) [])).2.(log)
            = after ++ op :: before) :
  Justified op before.
Proof.
  pose proof (connected_run_good fuel template executor sdrd_address sdrd_timeout survey_gain_db
                sigmf_directory session_state_path loaded time instruction initial_survey) as Hg.
  rewrite Hrun in Hg. apply Good_suffix in Hg. apply Hg.
Qed.

(** The survey of the sample cruise: it was started on a justified plan. *)
Lemma console_hardware_is_justified_witness :
  exists after before address timeout_ms directory sweep kind,
    survey_session.2.(log) = after ++ StartSweep address timeout_ms directory sweep kind :: before
    /\ @Justified sample_json (StartSweep address timeout_ms directory sweep kind) before.
Proof.
  assert (E : exists n address timeout_ms directory sweep kind,
    drop n survey_session.2.(log)
    = StartSweep address timeout_ms directory sweep kind :: drop (S n) survey_session.2.(log)).
  { exists 15%nat. vm_compute. repeat eexists. }
  destruct E as (n&address&timeout_ms&directory&sweep&kind&E).
  exists (take n survey_session.2.(log)), (drop (S n) survey_session.2.(log)),
    address, timeout_ms, directory, sweep, kind.
  assert (Hlog : survey_session.2.(log)
    = take n survey_session.2.(log) ++ StartSweep address timeout_ms directory sweep kind
        :: drop (S n) survey_session.2.(log)) by (now rewrite <- E, take_drop).
  split; [exact Hlog|].
  exact (@console_hardware_is_justified sample_json sample_access survey_world sample_plan 60%nat
           PolicySamples.request (Some (Adapter.mk "radio:43110" 5000)) (Some "radio:43110"%string)
           5000 20 None None None 0 None None _ _ _ Hlog).
Defined.

(** ** What a new generation forgets *)
Section Fences.
Context {json : Json} {access : JsonAccess} {world : World} {decode_plan : Deserialize PlanResponse.t}.
Context (fuel : nat).

(** Nothing to approve and nothing to answer, in generation [generation]. *)
Record Fresh (generation : Z) (s : State) : Prop := {
  fresh_generation : s.(app).(ConsoleApp.session_generation) = generation;
  fresh_pending : s.(app).(ConsoleApp.pending) = None;
  fresh_requests : s.(app).(ConsoleApp.requests) = ∅;
}.

Lemma calm_Fresh generation s s' : calm s s' -> Fresh generation s -> Fresh generation s'.
Proof.
  intros [_ [T1 T2 T3 _ _ _ _]] [Hg Hp Hr]. constructor; [congruence| |].
  - destruct T2; congruence.
  - apply map_empty. intros i. destruct (_ !! i) as [r|] eqn:E; [|reflexivity].
    eapply lookup_weaken in E; [|exact T3]. rewrite Hr, lookup_empty in E. discriminate.
Qed.

Abbreviation anything := (fun _ _ => True).

Lemma fresh_calm {A} (m : Act A) generation s :
  Calm m -> Fresh generation s -> wp m (fun _ => Fresh generation) anything s.
Proof.
  intros Hm Hs. eapply wp_conseq; [exact (respects_wp _ m s Hm)| |easy].
  intros ? s' Hc. exact (calm_Fresh _ _ _ Hc Hs).
Qed.

(** A plan answers no request that a fresh session knows. *)
Lemma fresh_plan frame generation s :
  Fresh generation s -> wp (plan_proposed frame) (fun _ => Fresh generation) anything s.
Proof.
  intros Hs. unfold plan_proposed. wp_step. wp_step; [|exact I]. wp_step. wp_step; [|exact I].
  apply wp_bind, wp_gets. wp_step. wp_step; [|exact I].
  apply ok_or_Ok in H1. rewrite (fresh_requests _ _ Hs) in H1. discriminate H1.
Qed.

Lemma fresh_frame frame generation s :
  Fresh generation s -> wp (handle_frame frame) (fun _ => Fresh generation) anything s.
Proof.
  intros Hs. unfold handle_frame.
  destruct (is_str _ _); [|destruct (is_str _ _); apply fresh_calm; [calm|exact Hs|calm|exact Hs]].
  unfold handle_event. wp_step; [now apply wp_ret|]. apply wp_bind, wp_gets. wp_step; [now apply wp_ret|].
  repeat (match goal with
          | |- wp (plan_proposed _) _ _ _ => now apply fresh_plan
          | |- wp (if ?c then _ else _) _ _ _ => destruct c
          | |- _ => apply fresh_calm; [calm|exact Hs]
          end).
Qed.

Lemma fresh_await rounds command_id generation s :
  Fresh generation s ->
  wp (await_response fuel rounds command_id) (fun _ => Fresh generation) anything s.
Proof.
  revert s. induction rounds as [|rounds IH]; intros s Hs; cbn [await_response].
  - apply fresh_calm; [calm|exact Hs].
  - apply wp_bind. eapply wp_conseq; [apply fresh_calm; [calm|exact Hs]| |easy].
    intros frame s1 Hs1. wp_step; [apply fresh_calm; [calm|exact Hs1]|].
    apply wp_bind. eapply wp_conseq; [apply fresh_frame, Hs1| |easy].
    intros ? s2 Hs2. now apply IH.
Qed.

Lemma wp_renew st message s :
  wp (renew fuel st message)
    (fun _ s' => exists generation,
       s.(app).(ConsoleApp.session_generation) + 1 = generation /\ generation <= u64_max
       /\ Fresh generation s')
    anything s.
Proof.
  unfold renew. apply wp_bind, wp_gets. wp_step; [easy|]. apply wp_bind.
  eapply wp_conseq; [exact (respects_wp _ _ s (steady_command fuel "close_session"))| |easy].
  intros ? s1 [_ Hgen]. apply wp_bind, wp_gets. wp_step. wp_step; [|exact I].
  apply ok_or_Ok, checked_add_Some in H as [Hmax ->]. apply wp_bind, wp_modify, wp_bind.
  rewrite Hgen in *. set (generation := _ + 1).
  assert (Hs2 : Fresh generation
    (state (next_generation generation st s1.(app)) s1.(log))) by (constructor; reflexivity).
  apply wp_bind. eapply wp_conseq; [apply fresh_calm; [calm|exact Hs2]| |easy].
  intros id s3 Hs3. eapply wp_conseq; [apply fresh_await, Hs3| |easy].
  intros ? s4 Hs4. eapply wp_conseq; [apply fresh_calm; [calm|exact Hs4]| |easy].
  intros ? s5 Hs5. exists generation. auto.
Qed.
End Fences.

(** C6: renewing the session fences off the old one: when it succeeds, the
    generation has grown by one and still is a [u64], no plan waits for the
    operator, and the console knows no request, so that no plan proposed before can
    be accepted. *)
Theorem renewal_fences_old_plans
    {json : Json} {access : JsonAccess} {world : World} {decode_plan : Deserialize PlanResponse.t}
    (fuel : nat) (st : ControllerState.t) (message : string) (s : State) :
  let (r, s') := renew fuel st message s in
  r = Ok tt ->
  s'.(app).(ConsoleApp.session_generation) = s.(app).(ConsoleApp.session_generation) + 1
  /\ s'.(app).(ConsoleApp.session_generation) <= u64_max
  /\ s'.(app).(ConsoleApp.pending) = None /\ s'.(app).(ConsoleApp.requests) = ∅
  /\ forall frame, is_Ok (plan_proposed frame s').1 = false.
Proof.
  pose proof (wp_renew fuel st message s) as H. unfold wp in H.
  destruct (renew fuel st message s) as [[[]|e] s']; [|discriminate].
  destruct H as (generation&<-&Hmax&[Hg Hp Hr]). intros _. split_and!; auto; [lia|].
  intros frame. unfold plan_proposed. rewrite lift_bind_run.
  destruct (ok_or _ (get _ _)); [|reflexivity]. rewrite lift_bind_run.
  destruct (map_err Serde _); [|reflexivity]. rewrite bind_run. unfold this, gets at 1.
  rewrite Hr, lift_bind_run. reflexivity.
Qed.

(** A frame of another generation changes nothing: an event is ignored, and a
    response only closes the command it answers and forgets the request that was
    sent with it. *)
Theorem stale_frames_are_ignored
    {json : Json} {access : JsonAccess} {world : World} {decode_plan : Deserialize PlanResponse.t}
    (frame : Value) (generation command_id : Z) (s : State)
    (Hgeneration : get_u64 "session_generation" frame = Some generation)
    (Hstale : generation <> s.(app).(ConsoleApp.session_generation))
    (Hcommand : get_u64 "command_id" frame = Some command_id) :
  (get_str "type" frame = Some "event"%string -> handle_frame frame s = (Ok tt, s))
  /\ (get_str "type" frame = Some "response"%string ->
      exists requests,
        requests ⊆ s.(app).(ConsoleApp.requests)
        /\ handle_frame frame s
           = (Ok tt, state (ConsoleApp.with_requests requests
                              (ConsoleApp.with_pending_session_commands
                                 (delete command_id s.(app).(ConsoleApp.pending_session_commands))
                                 s.(app))) s.(log))).
Proof.
  assert (Hne : (generation =? s.(app).(ConsoleApp.session_generation)) = false) by lia.
  split; intros Htype; unfold handle_frame; rewrite Htype.
  - change (is_str (Some "event") "event") with true. unfold handle_event. rewrite Htype.
    change (is_str (Some "event") "event") with true. cbn [negb].
    rewrite bind_run. unfold this, gets at 1. rewrite Hgeneration. cbn [is_u64_of]. now rewrite Hne.
  - change (is_str (Some "response") "event") with false.
    change (is_str (Some "response") "response") with true. cbn [negb].
    unfold handle_session_response. rewrite lift_bind_run, Hcommand. cbn [ok_or].
    rewrite lift_bind_run, Hgeneration. cbn [ok_or]. rewrite !bind_run. unfold this, gets at 1.
    unfold set, modify at 1. rewrite bind_run. unfold gets. rewrite bind_run.
    cbn [app log ConsoleApp.session_generation ConsoleApp.with_pending_session_commands].
    destruct (_ !! command_id) as [pending|]; rewrite Hne; cbn [negb].
    + destruct pending as [id|id kind|]; [exists (delete id s.(app).(ConsoleApp.requests))
        |exists (delete id s.(app).(ConsoleApp.requests))|exists s.(app).(ConsoleApp.requests)];
        (split; [try apply delete_subseteq; reflexivity|reflexivity]).
    + exists s.(app).(ConsoleApp.requests). split; reflexivity.
Qed.

#[local] Existing Instances sample_json sample_access sample_plan.
Definition stale : Value (Json := sample_json) :=
  Obj [("type", Str "response"); ("command_id", Num 9); ("session_generation", Num 2)]%string.
Definition waiting : ConsoleApp.t :=
  ConsoleApp.with_requests {[ 7 := PolicySamples.request ]}
    (ConsoleApp.with_pending_session_commands
       {[ 9 := PendingSessionCommand.Prompt 7; 10 := PendingSessionCommand.Abort ]} console).

(** The late answer to a prompt: only the prompt and its request are forgotten. *)
Lemma stale_frames_are_ignored_witness :
  exists requests,
    requests ⊆ waiting.(ConsoleApp.requests)
    /\ @handle_frame _ _ survey_world _ stale (state waiting [])
       = (Ok tt, state (ConsoleApp.with_requests requests
                          (ConsoleApp.with_pending_session_commands
                             (delete 9 waiting.(ConsoleApp.pending_session_commands)) waiting)) []).
Proof.
  assert (Hg : @get_u64 sample_json sample_access "session_generation" stale = Some 2) by reflexivity.
  assert (Hc : @get_u64 sample_json sample_access "command_id" stale = Some 9) by reflexivity.
  destruct (@stale_frames_are_ignored _ _ survey_world _ stale 2 9 (state waiting [])
              Hg ltac:(discriminate) Hc) as [_ H].
  exact (H eq_refl).
Defined.
