(* ===== verification/ConsoleFuel.v ===== *)
(** * Fuel of the console's waiting loops

    The console waits: for a response, for the end of a cycle, for a line. In
    [Console] such a wait is followed for [fuel] rounds and running out is the
    error [Blocked], which no other operation of the console turns into anything
    else. The lemmas here lead to the theorem that the fuel decides nothing: more
    of it changes no run that was not cut off, so that [run] at a sufficient fuel
    is the behaviour of the code. *)
From S2P Require Import Prelude Hoare Text F32 Protocol Policy Sdr Execution Autonomy SweepPlan Session ConsoleText Console ConsoleSamples.

(** [m'] does what [m] does wherever [m] is not cut off. *)
Definition approx {S A} (m m' : M S AppError A) : Prop :=
  forall s, (m s).1 <> Err Blocked -> m' s = m s.

Section Rules.
Context {S : Type}.

#[export] Instance approx_preorder {A} : PreOrder (approx (S := S) (A := A)).
Proof.
  split; [now intros m s H|]. intros m1 m2 m3 H12 H23 s H. specialize (H12 s H).
  rewrite <- H12. apply H23. now rewrite H12.
Qed.

Lemma approx_bind {A B} (m m' : M S AppError A) (f f' : A -> M S AppError B) :
  approx m m' -> (forall a, approx (f a) (f' a)) -> approx (m ≫= f) (m' ≫= f').
Proof.
  intros Hm Hf s. specialize (Hm s). rewrite !bind_run.
  destruct (m s) as [[a|e] s1]; cbn [fst] in Hm |- *; intros H.
  - rewrite Hm by discriminate. now apply Hf.
  - rewrite Hm by congruence. reflexivity.
Qed.

(** Out of fuel, a computation approximates every other one. *)
Lemma approx_blocked {A} (m : M S AppError A) : approx (lift (Err Blocked)) m.
Proof. now intros s H. Qed.

(** An error that is dropped, except that of running out. *)
Lemma approx_attempt {A} (m m' : M S AppError A) :
  approx m m' ->
  approx
    (r ← attempt (F := AppError) m ;
     match r with Err Blocked => lift (Err Blocked) | _ => mret tt end)
    (r ← attempt (F := AppError) m' ;
     match r with Err Blocked => lift (Err Blocked) | _ => mret tt end).
Proof.
  intros Hm s. specialize (Hm s). rewrite !bind_run. unfold attempt.
  destruct (m s) as [[a|e] s1]; cbn [fst] in *; intros H.
  - now rewrite Hm by discriminate.
  - assert (Hne : e <> Blocked) by (intros ->; now apply H).
    rewrite Hm by (intros [=]; now apply Hne). reflexivity.
Qed.
End Rules.

Lemma approx_when b (m m' : Act unit) : approx m m' -> approx (when b m) (when b m').
Proof. now destruct b. Qed.

Create HintDb approx.
#[export] Hint Resolve approx_blocked approx_when approx_attempt : approx.

Ltac approx_step :=
  match goal with
  | |- approx ?m ?m => reflexivity
  | |- approx (fail Blocked) _ => apply approx_blocked
  | |- approx (mbind _ (attempt _)) _ => apply approx_attempt
  | |- approx (mbind _ _) (mbind _ _) => apply approx_bind; [|intros ?]
  | |- approx (if ?c then _ else _) _ => destruct c
  | |- approx (match ?c with _ => _ end) _ => destruct c
  | |- approx (when _ _) (when _ _) => apply approx_when
  | |- _ => solve [auto with approx]
  end.
Ltac approx := solve [repeat approx_step].

Section Fuel.
Context {json : Json} {access : JsonAccess} {world : World} {decode_plan : Deserialize PlanResponse.t}.

(** ** One wait *)
Lemma approx_read n m : (n <= m)%nat -> approx (read n) (read m).
Proof.
  revert m. induction n as [|n IH]; intros m Hle; [apply approx_blocked|].
  destruct m as [|m]; [lia|]. apply le_S_n in Hle. specialize (IH m Hle). cbn [read]. approx.
Qed.

Lemma approx_handle_frames n m : (n <= m)%nat -> approx (handle_frames n) (handle_frames m).
Proof.
  revert m. induction n as [|n IH]; intros m Hle; [apply approx_blocked|].
  destruct m as [|m]; [lia|]. apply le_S_n in Hle. specialize (IH m Hle). cbn [handle_frames]. approx.
Qed.

Lemma approx_discard_input n m : (n <= m)%nat -> approx (discard_input n) (discard_input m).
Proof.
  revert m. induction n as [|n IH]; intros m Hle; [apply approx_blocked|].
  destruct m as [|m]; [lia|]. apply le_S_n in Hle. specialize (IH m Hle). cbn [discard_input]. approx.
Qed.

(** ** The whole console *)
Context (fuel fuel' : nat) (Hfuel : (fuel <= fuel')%nat).
#[local] Hint Resolve approx_read approx_handle_frames approx_discard_input : approx.

Lemma approx_await n m command_id : (n <= m)%nat ->
  approx (await_response fuel n command_id) (await_response fuel' m command_id).
Proof.
  revert m. induction n as [|n IH]; intros m Hle; [apply approx_blocked|].
  destruct m as [|m]; [lia|]. apply le_S_n in Hle. specialize (IH m Hle). cbn [await_response]. approx.
Qed.
#[local] Hint Resolve approx_await : approx.

Lemma approx_command kind : approx (command fuel kind) (command fuel' kind).
Proof. unfold command. approx. Qed.
#[local] Hint Resolve approx_command : approx.

Lemma approx_renew state message : approx (renew fuel state message) (renew fuel' state message).
Proof. unfold renew. approx. Qed.
#[local] Hint Resolve approx_renew : approx.

Lemma approx_stop message : approx (stop fuel message) (stop fuel' message).
Proof. unfold stop, stop_sweep, stop_execution. approx. Qed.
#[local] Hint Resolve approx_stop : approx.

Lemma approx_step_approval : approx (enable_step_approval fuel) (enable_step_approval fuel').
Proof. unfold enable_step_approval. approx. Qed.

Lemma approx_start_auto mission steps seconds bytes :
  approx (start_auto fuel mission steps seconds bytes) (start_auto fuel' mission steps seconds bytes).
Proof. unfold start_auto. approx. Qed.
#[local] Hint Resolve approx_step_approval approx_start_auto : approx.

Lemma approx_poll : approx (poll fuel) (poll fuel').
Proof. unfold poll. approx. Qed.

Lemma approx_advance_auto : approx (advance_auto fuel) (advance_auto fuel').
Proof. unfold advance_auto. approx. Qed.
#[local] Hint Resolve approx_poll approx_advance_auto : approx.

Lemma approx_close_loop n m deadline : (n <= m)%nat ->
  approx (close_loop fuel n deadline) (close_loop fuel' m deadline).
Proof.
  revert m. induction n as [|n IH]; intros m Hle; (destruct m as [|m]; [try lia|]); cbn [close_loop].
  - approx.
  - approx.
  - apply le_S_n in Hle. specialize (IH m Hle). approx.
Qed.
#[local] Hint Resolve approx_close_loop : approx.

Lemma approx_close : approx (close fuel) (close fuel').
Proof. unfold close. approx. Qed.

Lemma approx_input input : approx (handle_input fuel input) (handle_input fuel' input).
Proof. unfold handle_input, status. approx. Qed.

Lemma approx_priority_stop : approx (priority_stop fuel) (priority_stop fuel').
Proof. unfold priority_stop. approx. Qed.
#[local] Hint Resolve approx_close approx_input approx_priority_stop : approx.

Lemma approx_main_loop n m : (n <= m)%nat -> approx (main_loop fuel n) (main_loop fuel' m).
Proof.
  revert m. induction n as [|n IH]; intros m Hle; [apply approx_blocked|].
  destruct m as [|m]; [lia|]. apply le_S_n in Hle. specialize (IH m Hle). cbn [main_loop]. approx.
Qed.

Lemma approx_until_idle n m : (n <= m)%nat -> approx (until_idle fuel n) (until_idle fuel' m).
Proof.
  revert m. induction n as [|n IH]; intros m Hle; (destruct m as [|m]; [try lia|]); cbn [until_idle].
  - approx.
  - approx.
  - apply le_S_n in Hle. specialize (IH m Hle). approx.
Qed.
#[local] Hint Resolve approx_main_loop approx_until_idle : approx.

Lemma approx_run instruction survey :
  approx (run fuel instruction survey) (run fuel' instruction survey).
Proof. unfold run. approx. Qed.
End Fuel.

(** The fuel of the model decides nothing about the console: a run that was not
    cut off at some fuel, whether it returned or failed, is at every larger fuel the
    same run, with the same result, the same final state and the same log of
    everything the console did. *)
Theorem fuel_decides_nothing
    {json : Json} {access : JsonAccess} {world : World} {decode_plan : Deserialize PlanResponse.t}
    (fuel more : nat) (instruction : option string) (survey : option InitialSurveyOptions.t) (s : State)
    (Hdone : (run fuel instruction survey s).1 <> Err Blocked) :
  run (fuel + more) instruction survey s = run fuel instruction survey s.
Proof. apply approx_run; [lia|exact Hdone]. Qed.

Lemma err_is_not_blocked {A} message : @Err AppError A (InvalidInput message) <> Err Blocked.
Proof. discriminate. Qed.

(** The sample cruise is complete with 60 rounds. *)
#[local] Existing Instances sample_json sample_access sample_plan.
Lemma fuel_decides_nothing_witness :
  survey_session.1 = Err (InvalidInput RENEW_MESSAGE)
  /\ @run _ _ survey_world _ (60 + 1000) None None (state console []) = survey_session.
Proof.
  assert (E : survey_session.1 = Err (InvalidInput RENEW_MESSAGE)) by (vm_compute; reflexivity).
  split; [exact E|].
  apply (@fuel_decides_nothing sample_json sample_access survey_world sample_plan 60 1000 None None
           (state console [])).
  exact (fun H => err_is_not_blocked _ (eq_trans (eq_sym E) H)).
Defined.
