(* ===== verification/ConsoleStop.v ===== *)
(** * Stopping, budgets and waiting in the console

    Further theorems on [Console]: what [stop] cannot do while the planner is
    generating, how much IQ a survey a cruise starts may read, that a command the
    planner session answers is answered, and which of the console's own
    limits fit together. *)
From S2P Require Import Prelude Hoare Text Utf8 F32 Protocol Policy Sdr Execution Autonomy SweepPlan Session ConsoleText Console ConsoleSamples ConsoleInvariant.

(** ** Computations that leave a part of the console alone *)
Definition same {X} (part : ConsoleApp.t -> X) (s s' : State) : Prop :=
  part s'.(app) = part s.(app).

#[global] Instance same_preorder {X} (part : ConsoleApp.t -> X) : PreOrder (same part).
Proof. split; [easy|]. intros s1 s2 s3 H1 H2. unfold same in *. congruence. Qed.

Section Same.
Context {X : Type} (part : ConsoleApp.t -> X).
Abbreviation Same := (respects (E := AppError) (same part)).

Lemma same_bind {A B} (m : Act A) (f : A -> Act B) : Same m -> (forall a, Same (f a)) -> Same (m ≫= f).
Proof. apply respects_bind, _. Qed.
Lemma same_set f : (forall a, part (f a) = part a) -> Same (set f).
Proof. intros H s. apply H. Qed.
Lemma same_perform op : Same (perform op).
Proof. now intros s. Qed.
Lemma same_ask {A} op (answer : Log -> A) : Same (ask op answer).
Proof. now intros s. Qed.
Lemma same_this {A} (f : ConsoleApp.t -> A) : Same (this f).
Proof. now intros s. Qed.
Lemma same_lift {A} (r : result AppError A) : Same (lift r).
Proof. now intros s. Qed.
Lemma same_fail {A} e : Same (fail (A := A) e).
Proof. now intros s. Qed.
Lemma same_ret {A} (a : A) : Same (mret a).
Proof. now intros s. Qed.
Lemma same_when b m : Same m -> Same (when b m).
Proof. intros H. now destruct b. Qed.

(** What leaves [part] alone leaves it alone however it ends. *)
Lemma wp_same {A} (m : Act A) s :
  Same m -> wp m (fun _ s' => part s'.(app) = part s.(app)) (fun _ _ => True) s.
Proof. intros H. specialize (H s). unfold wp. destruct (m s) as [[a|e] s']; [exact H|exact I]. Qed.
End Same.

Create HintDb same.
Ltac same_step :=
  lazymatch goal with
  | |- respects (same _) (mbind _ _) => apply same_bind; [|intros ?]
  | |- respects (same _) (set _) => apply same_set; reflexivity
  | |- respects (same _) (perform _) => apply same_perform
  | |- respects (same _) (ask _ _) => apply same_ask
  | |- respects (same _) (this _) => apply same_this
  | |- respects (same _) (gets _) => apply respects_gets, _
  | |- respects (same _) (lift _) => apply same_lift
  | |- respects (same _) (fail _) => apply same_fail
  | |- respects (same _) (refuse _) => apply same_fail
  | |- respects (same _) (mret _) => apply same_ret
  | |- respects (same _) (when _ _) => apply same_when
  | |- respects (same _) (if ?c then _ else _) => destruct c
  | |- respects (same _) (match ?c with _ => _ end) => destruct c
  | |- respects (same _) _ => solve [auto with same]
  end.
Ltac same := solve [repeat same_step].

Section Parts.
Context {json : Json} {access : JsonAccess} {world : World} {decode_plan : Deserialize PlanResponse.t}.
Context (fuel : nat).

(** The cycle of the planner, and the sweep that is running. *)
Abbreviation cycle := ConsoleApp.agent_cycle_active.
Definition work (a : ConsoleApp.t) : bool * option ActiveSweep.t :=
  (a.(ConsoleApp.agent_cycle_active), a.(ConsoleApp.active_sweep)).

Lemma same_write {X} (part : ConsoleApp.t -> X) c : respects (E := AppError) (same part) (write c).
Proof. unfold write. same. Qed.
Lemma same_record {X} (part : ConsoleApp.t -> X) entry :
  (forall h a, part (ConsoleApp.with_history h a) = part a) ->
  respects (E := AppError) (same part) (record entry).
Proof. intros H. unfold record. same_step; [apply same_set; intros a; apply H|same]. Qed.
#[local] Hint Resolve same_write same_record : same.

Lemma work_abort : respects (E := AppError) (same work) request_agent_abort.
Proof. unfold request_agent_abort, send_session_command, next_command_id. same. Qed.
Lemma work_cruise : respects (E := AppError) (same work) stop_cruise.
Proof. unfold stop_cruise, cruise_active, set_cruise. same. Qed.
#[local] Hint Resolve work_abort work_cruise : same.
Lemma work_agent message : respects (E := AppError) (same work) (stop_agent message).
Proof. unfold stop_agent. same. Qed.
Lemma work_cancel retries canceller generation worker :
  respects (E := AppError) (same work) (cancel_loop retries canceller generation worker).
Proof. induction retries as [|retries IH]; cbn [cancel_loop]; same. Qed.

Lemma cycle_refresh : respects (E := AppError) (same cycle) refresh_sdr_health.
Proof. unfold refresh_sdr_health. same. Qed.
#[local] Hint Resolve cycle_refresh : same.
Lemma cycle_continue bytes instruction : respects (E := AppError) (same cycle) (continue_cruise bytes instruction).
Proof. unfold continue_cruise, cruise_active, set_cruise, next_attempt_in. same. Qed.
#[local] Hint Resolve cycle_continue : same.
Lemma cycle_succeeded kind report : respects (E := AppError) (same cycle) (sweep_succeeded kind report).
Proof.
  unfold sweep_succeeded, stop_cruise_if_active, cruise_active, set_cruise, emit_sweep_plot,
    survey_finished, inspection_finished, emit_observation, emit. same.
Qed.
Lemma cycle_broke kind error : respects (E := AppError) (same cycle) (sweep_broke kind error).
Proof. unfold sweep_broke, stop_cruise_if_active, cruise_active, set_cruise. same. Qed.
#[local] Hint Resolve cycle_succeeded cycle_broke : same.
Lemma cycle_poll_sweep : respects (E := AppError) (same cycle) poll_sweep.
Proof. unfold poll_sweep, joined. same. Qed.

(** A session is not renewed while the planner is generating. *)
Lemma renew_busy st message s :
  s.(app).(ConsoleApp.agent_cycle_active) = true ->
  renew fuel st message s = (Err (InvalidInput RENEW_MESSAGE), s).
Proof.
  intros H. unfold renew, this. rewrite bind_run. cbn [gets]. unfold ConsoleApp.busy.
  now rewrite H, orb_true_r.
Qed.

(** How [stop] ends when a sweep is active and the planner is generating. *)
Inductive StopOutcome (message : string) (active : ActiveSweep.t) (s : State)
    : result AppError unit * State -> Prop :=
(** The order to abort the generation could not be sent. *)
| stop_broken e s' :
    (stop_cruise ;; stop_agent message) s = (Err e, s') -> StopOutcome message active s (Err e, s')
(** The radio obeys: the sweep is joined, and the renewal is refused. *)
| stop_obeyed s1 s2 observation s' :
    (stop_cruise ;; stop_agent message) s = (Ok tt, s1) ->
    cancel_loop CANCEL_START_RETRIES active.(ActiveSweep.canceller) active.(ActiveSweep.session_generation)
      active.(ActiveSweep.worker) s1 = (Ok (Ok observation), s2) ->
    s'.(app).(ConsoleApp.active_sweep) = None ->
    s'.(log) = JoinSweep active.(ActiveSweep.worker) :: s2.(log) ->
    StopOutcome message active s
      (Err (if is_none (sweep_result s'.(log)) then Panicked else InvalidInput RENEW_MESSAGE), s')
(** The radio refuses, but the sweep has ended: it is reported, and the renewal is refused. *)
| stop_late s1 s2 error s' e :
    (stop_cruise ;; stop_agent message) s = (Ok tt, s1) ->
    cancel_loop CANCEL_START_RETRIES active.(ActiveSweep.canceller) active.(ActiveSweep.session_generation)
      active.(ActiveSweep.worker) s1 = (Ok (Err error), s2) ->
    is_finished (IsFinished active.(ActiveSweep.worker) :: s2.(log)) = true ->
    poll_sweep (state s2.(app) (IsFinished active.(ActiveSweep.worker) :: s2.(log)))
      = (match e with Some e => Err e | None => Ok tt end, s') ->
    StopOutcome message active s (Err (default (InvalidInput RENEW_MESSAGE) e), s')
(** The radio refuses while the sweep runs: it stays the active one. *)
| stop_refused s1 s2 error s' :
    (stop_cruise ;; stop_agent message) s = (Ok tt, s1) ->
    cancel_loop CANCEL_START_RETRIES active.(ActiveSweep.canceller) active.(ActiveSweep.session_generation)
      active.(ActiveSweep.worker) s1 = (Ok (Err error), s2) ->
    s'.(log) = IsFinished active.(ActiveSweep.worker) :: s2.(log) -> is_finished s'.(log) = false ->
    s'.(app).(ConsoleApp.active_sweep) = Some active ->
    StopOutcome message active s (Ok tt, s').

Lemma wp_run_Ok {A} (m : Act A) Q s a s' : wp m Q (fun _ _ => True) s -> m s = (Ok a, s') -> Q a s'.
Proof. intros H E. exact (wp_run _ _ _ _ _ _ H E). Qed.
Lemma cancel_never_fails retries canceller generation worker s :
  is_Ok (cancel_loop retries canceller generation worker s).1 = true.
Proof.
  revert s. induction retries as [|retries IH]; intros s; cbn [cancel_loop]; unfold ask, perform;
    rewrite !bind_run; cbn [modify gets mret M_ret]; rewrite ?bind_run; cbn [modify gets mret M_ret];
    destruct (is_stale _); rewrite ?bind_run; cbn [modify gets mret M_ret];
    repeat (rewrite ?bind_run; cbn [modify gets mret M_ret log app]);
    try reflexivity; destruct (negb _); try reflexivity.
  rewrite bind_run. cbn [modify]. apply IH.
Qed.

Lemma stop_outcome message active s :
  s.(app).(ConsoleApp.active_sweep) = Some active ->
  s.(app).(ConsoleApp.agent_cycle_active) = true ->
  StopOutcome message active s (stop fuel message s).
Proof.
  intros Hsweep Hcycle.
  assert (Hfirst : stop fuel message s = ((stop_cruise ;; stop_agent message) ;;
    sweep ← this ConsoleApp.active_sweep ;
    match sweep with Some active => stop_sweep fuel active message | None => mret tt end) s
    \/ exists s1, (stop_cruise ;; stop_agent message) s = (Ok tt, s1) /\ s1.(app).(ConsoleApp.active_sweep) = None).
  { unfold stop. rewrite (bind_run stop_cruise), (bind_run (stop_cruise ;; stop_agent message)), (bind_run stop_cruise).
    destruct (stop_cruise s) as [[[]|e] s0]; [|now left].
    rewrite (bind_run (stop_agent message)). destruct (stop_agent message s0) as [[[]|e] s1]; [|now left].
    unfold this. rewrite !bind_run. cbn [gets].
    destruct (ConsoleApp.active_sweep (app s1)) eqn:E; [now left|right; eauto]. }
  assert (Hwork : forall s1, (stop_cruise ;; stop_agent message) s = (Ok tt, s1) -> work s1.(app) = work s.(app)).
  { intros s1 E. refine (wp_run_Ok _ (fun _ s1 => work s1.(app) = work s.(app)) _ _ _ _ E).
    apply (wp_same work). apply same_bind; [apply work_cruise|intros _; apply work_agent]. }
  destruct Hfirst as [->|(s1&E&Hnone)].
  2: { specialize (Hwork s1 E). injection Hwork as _ Hw. rewrite Hnone, Hsweep in Hw. discriminate. }
  rewrite bind_run. destruct ((stop_cruise ;; stop_agent message) s) as [[[]|e] s1] eqn:E; [|now apply stop_broken].
  specialize (Hwork s1 eq_refl). injection Hwork as Hc1 Hs1. rewrite Hsweep in Hs1. rewrite Hcycle in Hc1.
  rewrite bind_run. unfold this at 1. cbn [gets]. rewrite Hs1. unfold stop_sweep. rewrite bind_run.
  pose proof (cancel_never_fails CANCEL_START_RETRIES (ActiveSweep.canceller active)
    (ActiveSweep.session_generation active) (ActiveSweep.worker active) s1) as Hok.
  pose proof (wp_same work _ s1 (work_cancel CANCEL_START_RETRIES (ActiveSweep.canceller active)
    (ActiveSweep.session_generation active) (ActiveSweep.worker active))) as Hw.
  unfold wp in Hw. destruct (cancel_loop _ _ _ _ s1) as [[cancelled|e] s2] eqn:Ecancel; [|discriminate].
  injection Hw as Hc2 Hs2. rewrite Hs1 in Hs2. rewrite Hc1 in Hc2. destruct cancelled as [observation|error].
  - rewrite bind_run. unfold set at 1. cbn [modify]. rewrite bind_run. unfold joined, ask, perform.
    rewrite !bind_run. cbn [modify gets app log]. set (s3 := state _ _).
    replace (match sweep_result (log s3) with _ => _ end) with (match sweep_result (log s3) with Some x => Some x | None => None end) by now destruct (sweep_result _).
    assert (Hend : forall r, r = Err (if is_none (sweep_result s3.(log)) then Panicked else InvalidInput RENEW_MESSAGE) ->
      StopOutcome message active s (r, s3)).
    { intros r ->. now apply (stop_obeyed _ _ _ s1 s2 observation). }
    rewrite lift_run. destruct (sweep_result (log s3)) as [x|] eqn:Ex; cbn [ok_or].
    + rewrite renew_busy by exact Hc2. apply Hend. reflexivity.
    + apply Hend. reflexivity.
  - unfold ask, perform. rewrite bind_run. rewrite bind_run. cbn [modify gets app log].
    set (s3 := state _ _).
    destruct (is_finished (IsFinished (ActiveSweep.worker active) :: log s2)) eqn:Ef.
    + rewrite bind_run. pose proof (wp_same cycle _ s3 cycle_poll_sweep) as Hp. unfold wp in Hp.
      destruct (poll_sweep s3) as [[[]|e] s4] eqn:Ep.
      * rewrite renew_busy by (rewrite Hp; exact Hc2). exact (stop_late _ _ _ s1 s2 error s4 None E Ecancel Ef Ep).
      * exact (stop_late _ _ _ s1 s2 error s4 (Some e) E Ecancel Ef Ep).
    + exact (stop_refused _ _ _ s1 s2 error s3 E Ecancel eq_refl Ef Hs2).
Qed.
End Parts.

(** C38: while the planner is generating, [/stop] cannot end a sweep: once the planner
    was told to abort, it succeeds only when the radio refuses the cancellation and
    the sweep goes on, the active one as before.  When the radio obeys, and when it
    refuses but the sweep has ended by itself, [stop] renews the session although the
    cycle is still open, which is refused; the error ends the main loop of the
    console. *)
Theorem stop_cannot_end_a_sweep_mid_cycle
    {json : Json} {access : JsonAccess} {world : World} {decode_plan : Deserialize PlanResponse.t}
    (fuel : nat) (active : ActiveSweep.t) (s : State)
    (Hsweep : s.(app).(ConsoleApp.active_sweep) = Some active)
    (Hcycle : s.(app).(ConsoleApp.agent_cycle_active) = true) :
  (forall message, StopOutcome message active s (stop fuel message s))
  /\ forall e s' rounds s0,
       stop fuel "会话已停止" s = (Err e, s') ->
       stop_requested (StopFlag :: s0.(log)) = true ->
       discard_input fuel (state s0.(app) (Line "/stop" :: StopFlag :: s0.(log))) = (Ok tt, s) ->
       main_loop fuel (S rounds) s0 = (Err e, s').
Proof.
  split; [intros message; now apply stop_outcome|]. intros e s' rounds s0 Hstop Hflag Hdiscard.
  cbn [main_loop]. rewrite bind_run. unfold priority_stop, ask, perform.
  rewrite !bind_run. cbn [modify gets app log]. rewrite Hflag. cbn [when].
  rewrite !bind_run. cbn [modify gets app log]. now rewrite bind_run, Hdiscard, Hstop.
Qed.

#[local] Existing Instances sample_json sample_access sample_plan.
(** A sweep of the sample plan, with the planner still generating. *)
Definition sample_sweep : ActiveSweep.t :=
  ActiveSweep.mk ActiveSweepKind.Initial 4 (Adapter.mk "radio:43110" 5000) 0.
Definition generating : State :=
  state (ConsoleApp.with_agent_cycle_active true
           (ConsoleApp.with_active_sweep (Some sample_sweep) console)) [].

Lemma stop_cannot_end_a_sweep_mid_cycle_witness :
  (@stop _ _ survey_world _ 60 "stopped" generating).1 = Err (InvalidInput RENEW_MESSAGE)
  /\ @StopOutcome _ survey_world "stopped" sample_sweep generating
       (@stop _ _ survey_world _ 60 "stopped" generating).
Proof.
  split; [vm_compute; reflexivity|].
  exact (proj1 (@stop_cannot_end_a_sweep_mid_cycle _ _ survey_world _ 60 sample_sweep generating
           eq_refl eq_refl) "stopped"%string).
Defined.

(** a capture can be started while a sweep is running: when the planner
    proposes a survey and then a capture in one cycle of a cruise, the capture is
    handed to the radio while the sweep of the survey has not been joined, since
    [start_execution], unlike the starts of sweeps, does not look at what is
    active. *)
Theorem captures_may_overlap_sweeps :
  exists after before executor plan authorization worker,
    double_session.2.(log) = after ++ StartCapture executor plan authorization :: before
    /\ sweeping before = Some worker.
Proof.
  assert (E : exists executor plan authorization worker,
    drop 16 double_session.2.(log)
    = StartCapture executor plan authorization :: drop 17 double_session.2.(log)
    /\ sweeping (drop 17 double_session.2.(log)) = Some worker).
  { vm_compute. repeat eexists. }
  destruct E as (executor&plan&authorization&worker&E&Hw).
  exists (take 16 double_session.2.(log)), (drop 17 double_session.2.(log)),
    executor, plan, authorization, worker.
  split; [|exact Hw]. now rewrite <- E, take_drop.
Qed.

(** ** The byte budget of a cruise *)
Section Budget.
Context {json : Json} {access : JsonAccess} {world : World} {decode_plan : Deserialize PlanResponse.t}.

Definition spending (a : ConsoleApp.t) : CruiseControl.t * option ActiveSweep.t :=
  (a.(ConsoleApp.cruise), a.(ConsoleApp.active_sweep)).

Lemma spending_refresh : respects (E := AppError) (same spending) refresh_sdr_health.
Proof. unfold refresh_sdr_health. same. Qed.

(** The sweep [active] was the last thing that happened, for [plan], and it fits in
    what [cruise] may still receive. *)
Definition Budgeted (plan : ValidatedPlan.t) (cruise : CruiseControl.t) (active : ActiveSweep.t)
    (s : State) : Prop :=
  exists address timeout_ms directory sweep validated before,
    s.(log) = StartSweep address timeout_ms directory sweep active.(ActiveSweep.kind) :: before
    /\ validate_plan sweep = Ok validated
    /\ sweep.(SweepPlan.frame_samples) = 4096 /\ sweep.(SweepPlan.aggregate_frames) = 1
    /\ let bytes := length_z validated.(ValidatedSweepPlan.centers_hz)
                    * (sweep.(SweepPlan.frame_samples) * sweep.(SweepPlan.aggregate_frames) * 4) in
       active.(ActiveSweep.kind)
       = ActiveSweepKind.Planned plan.(ValidatedPlan.request_id) bytes
       /\ (CruiseControl.is_active cruise = true -> bytes <= CruiseControl.remaining_iq_bytes cruise).

Lemma budget_launch_sweep plan address sweep validated s :
  s.(app).(ConsoleApp.active_sweep) = None ->
  validate_plan sweep = Ok validated ->
  sweep.(SweepPlan.frame_samples) = 4096 -> sweep.(SweepPlan.aggregate_frames) = 1 ->
  let bytes := length_z validated.(ValidatedSweepPlan.centers_hz) * 4096 * 4 in
  wp (launch_sweep address sweep (ActiveSweepKind.Planned plan.(ValidatedPlan.request_id) bytes)
        plan.(ValidatedPlan.session_generation) bytes ControllerState.Surveying)
     (fun _ s' => forall active, s'.(app).(ConsoleApp.active_sweep) = Some active ->
        Budgeted plan s.(app).(ConsoleApp.cruise) active s')
     (fun _ s' => s'.(app).(ConsoleApp.active_sweep) = None) s.
Proof.
  intros Hnone Hv Hf Ha bytes. unfold launch_sweep, over_budget. apply wp_bind, wp_bind, wp_gets, wp_ret.
  destruct (_ && _) eqn:Hover.
  - apply wp_modify. cbn. rewrite Hnone. discriminate.
  - unfold start_sweep. apply wp_bind, wp_bind, wp_gets, wp_bind, wp_gets. cbn zeta.
    apply wp_bind, wp_gets, wp_bind, wp_modify, wp_modify, wp_bind, wp_modify, wp_modify.
    cbn. intros active [= <-]. do 6 eexists. split; [reflexivity|].
    split; [exact Hv|]. rewrite Hf, Ha. split; [reflexivity|]. split; [reflexivity|]. split.
    + apply (f_equal (ActiveSweepKind.Planned _)). subst bytes. lia.
    + intros Hactive. rewrite Hactive in Hover. apply Z.ltb_ge in Hover. subst bytes. lia.
Qed.

Lemma wp_planned_survey plan s :
  s.(app).(ConsoleApp.active_sweep) = None ->
  wp (start_planned_survey plan)
     (fun _ s' => forall active, s'.(app).(ConsoleApp.active_sweep) = Some active ->
        Budgeted plan s.(app).(ConsoleApp.cruise) active s')
     (fun _ s' => s'.(app).(ConsoleApp.active_sweep) = None) s.
Proof.
  intros Hnone. unfold start_planned_survey. apply wp_bind, wp_gets.
  destruct (ConsoleApp.hardware_active _); [exact Hnone|].
  destruct (ValidatedPlan.action plan) eqn:Haction; try exact Hnone.
  unfold with_healthy_radio, stop_cruise_if_active, cruise_active, set_cruise, sdr_unavailable,
    next_attempt_in.
  apply wp_bind, wp_gets. destruct (ConsoleApp.sdrd_address _) as [address|].
  2: { apply wp_bind, wp_gets. destruct (CruiseControl.is_active _); [apply wp_modify|apply wp_ret];
         cbn; intros active Hsome; congruence. }
  apply wp_bind. eapply wp_conseq; [apply respects_wp, spending_refresh| |].
  2: { intros ? s1 [= _ Hs1]. congruence. }
  intros healthy s1 [= Hcruise Hs1]. rewrite Hnone in Hs1. destruct healthy; cbn [negb].
  - apply wp_bind, wp_gets. cbn zeta. apply wp_bind, wp_lift; [intros validated Hv|now intros].
    rewrite map_err_Ok in Hv. rewrite <- Hcruise. now apply budget_launch_sweep.
  - apply wp_bind, wp_gets.
    destruct (CruiseControl.is_active _); [|apply wp_ret; intros active Hsome; congruence].
    cbn [when]. wp_step. apply wp_modify, wp_bind, wp_bind, wp_modify, wp_gets, wp_modify.
    cbn. intros active Hsome. congruence.
Qed.
End Budget.

(** C9: a survey that is started reads no more IQ than the cruise may still
    receive: the sweep plan is valid, every center costs one frame of 4096 samples of
    four bytes, the sum over the centers is what the console will account for when
    the sweep has finished, and, while a cruise is active, it is at most what
    remains of its byte budget. *)
Theorem planned_surveys_stay_in_budget
    {json : Json} {world : World} (plan : ValidatedPlan.t) (active : ActiveSweep.t) (s : State)
    (Hnone : s.(app).(ConsoleApp.active_sweep) = None)
    (Hstarted : (start_planned_survey plan s).2.(app).(ConsoleApp.active_sweep) = Some active) :
  Budgeted plan s.(app).(ConsoleApp.cruise) active (start_planned_survey plan s).2.
Proof.
  pose proof (wp_planned_survey plan s Hnone) as H. unfold wp in H.
  destruct (start_planned_survey plan s) as [[?|?] s']; [now apply H|].
  cbn in Hstarted. congruence.
Qed.

(** The survey of the sample plan, in a cruise that may receive one mebibyte. *)
Definition planned : ValidatedPlan.t :=
  ValidatedPlan.mk 7 3 false PolicySamples.survey (PlannerMeta.mk "local" "rules").
Definition thrifty : State :=
  state (ConsoleApp.with_cruise (CruiseControl.start 1048576 4 60 0 CruiseControl.default).2 console) [].

Lemma planned_surveys_stay_in_budget_witness :
  exists active,
    (@start_planned_survey _ survey_world planned thrifty).2.(app).(ConsoleApp.active_sweep) = Some active
    /\ @Budgeted _ planned thrifty.(app).(ConsoleApp.cruise) active
         (@start_planned_survey _ survey_world planned thrifty).2.
Proof.
  assert (E : exists active,
    (@start_planned_survey _ survey_world planned thrifty).2.(app).(ConsoleApp.active_sweep) = Some active)
    by (vm_compute; eexists; reflexivity).
  destruct E as [active E]. exists active. split; [exact E|].
  exact (@planned_surveys_stay_in_budget _ survey_world planned active thrifty eq_refl E).
Defined.

(** ** Waiting for a response *)
Section Waiting.
Context {json : Json} {access : JsonAccess} {world : World} {decode_plan : Deserialize PlanResponse.t}.

(** What a read brings: nothing yet, or the first 4096 of the bytes that are
    there; [None] when the session has closed the socket or the read fails. *)
Definition chunk_bytes (chunk : Chunk) : option (list Z) :=
  match chunk with
  | Bytes [] => None
  | Bytes bytes => Some (take (Z.to_nat 4096) bytes)
  | WouldBlock => Some []
  | ReadError _ => None
  end.

(** The log of a wait in which [n] reads did not complete a line, and what these reads
    brought. *)
Fixpoint waited (n : nat) (l : Log) : Log :=
  match n with O => l | S n => waited n (Sleep 2 :: Read :: l) end.
Fixpoint arrivals (n : nat) (l : Log) : option (list Z) :=
  match n with
  | O => Some []
  | S n =>
      first ← chunk_bytes (read_chunk (Read :: l)) ;
      others ← arrivals n (Sleep 2 :: Read :: l) ;
      Some (first ++ others)
  end.

Definition keep (pending : list Z) (s : State) : State :=
  state (ConsoleApp.with_client (with_received pending s.(app).(ConsoleApp.client)) s.(app)) s.(log).
Definition unread (s : State) : list Z := s.(app).(ConsoleApp.client).(SessionClient.pending).

(** The next line of the session is [frame]: a line of at most [MAX_FRAME_BYTES] that
    is already in the buffer, or that is complete after [n] reads which do not
    complete it, each followed by a sleep of two milliseconds, and one that does.
    What follows the line stays in the buffer. *)
Inductive Received (frame : Value) (s : State) : State -> Prop :=
| received_buffered line rest :
    unread s = line ++ 10 :: rest ->
    10 ∉ line -> length_z line <= MAX_FRAME_BYTES -> from_slice line = Ok frame ->
    Received frame s (keep rest s)
| received_read n before bytes line rest :
    arrivals n s.(log) = Some before -> 10 ∉ unread s ++ before ->
    arrivals (S n) s.(log) = Some bytes -> unread s ++ bytes = line ++ 10 :: rest ->
    10 ∉ line -> length_z line <= MAX_FRAME_BYTES -> from_slice line = Ok frame ->
    Received frame s (keep rest (state s.(app) (Read :: waited n s.(log)))).

(** A frame answers the command [id]. *)
Definition Answers (id : Z) (frame : Value) : Prop :=
  get_str "type" frame = Some "response"%string /\ get_u64 "command_id" frame = Some id.

(** The first frame that answers the command [id] is [frame]: the frames before it are
    events or responses to other commands, which are handled without an error. *)
Inductive Awaited (id : Z) (frame : Value) : State -> State -> Prop :=
| awaited_now s s' : Received frame s s' -> Answers id frame -> Awaited id frame s s'
| awaited_later other s s1 s2 s' :
    Received other s s1 -> ~ Answers id other -> handle_frame other s1 = (Ok tt, s2) ->
    Awaited id frame s2 s' -> Awaited id frame s s'.

Lemma newline_absent line : 10 ∉ line -> newline_position line = None.
Proof.
  induction line as [|b line IH]; intros H; [reflexivity|]. cbn [newline_position].
  apply not_elem_of_cons in H as [Hb H]. rewrite IH by exact H.
  destruct (Z.eqb_spec b 10) as [->|_]; [now destruct Hb|reflexivity].
Qed.
Lemma newline_after line rest : 10 ∉ line -> newline_position (line ++ 10 :: rest) = Some (length line).
Proof.
  induction line as [|b line IH]; intros H; [reflexivity|].
  rewrite <- app_comm_cons. cbn [newline_position length].
  apply not_elem_of_cons in H as [Hb H]. rewrite IH by exact H.
  destruct (Z.eqb_spec b 10) as [->|_]; [now destruct Hb|reflexivity].
Qed.

Lemma keep_keep p q s : keep p (keep q s) = keep p s.
Proof. reflexivity. Qed.
Lemma keep_unread s : keep (unread s) s = s.
Proof. now destruct s as [[] ?]; cbn; destruct client. Qed.

(** Taking a whole line from the buffer. *)
Lemma take_frame_line line rest frame s :
  unread s = line ++ 10 :: rest ->
  10 ∉ line -> length_z line <= MAX_FRAME_BYTES -> from_slice line = Ok frame ->
  take_frame s = (Ok (Some frame), keep rest s).
Proof.
  unfold unread. intros Hp Hline Hlen Hparse. unfold take_frame, this. unfold gets at 1. rewrite bind_run.
  cbv beta zeta iota.
  rewrite Hp, (newline_after _ _ Hline).
  replace (MAX_FRAME_BYTES <? Z.of_nat (length line)) with false
    by (symmetry; apply Z.ltb_ge; unfold length_z in Hlen; lia).
  unfold set. unfold modify at 1. rewrite bind_run. cbv beta iota. rewrite take_app_length, Hparse.
  replace (drop (S (length line)) (line ++ 10 :: rest)) with rest; [reflexivity|].
  change (10 :: rest) with ([10] ++ rest). rewrite app_assoc. symmetry.
  apply drop_app_length'. rewrite length_app. cbn. lia.
Qed.
Lemma take_frame_none s : 10 ∉ unread s -> take_frame s = (Ok None, s).
Proof.
  intros Hp. unfold take_frame, this, gets at 1. rewrite bind_run.
  fold (unread s). now rewrite (newline_absent _ Hp).
Qed.

Lemma ask_run {A} op (answer : Log -> A) s :
  ask op answer s = (Ok (answer (op :: s.(log))), state s.(app) (op :: s.(log))).
Proof. reflexivity. Qed.

(** A read adds its bytes to the buffer, and looks for a line in it. *)
Lemma try_read_run bytes s :
  10 ∉ unread s -> chunk_bytes (read_chunk (Read :: s.(log))) = Some bytes ->
  (10 ∉ unread s ++ bytes -> length_z (unread s ++ bytes) <= MAX_FRAME_BYTES) ->
  try_read s = take_frame (keep (unread s ++ bytes) (state s.(app) (Read :: s.(log)))).
Proof.
  intros Hp Hchunk Hlen. unfold try_read. rewrite bind_run, take_frame_none by exact Hp.
  rewrite bind_run, ask_run. cbv beta iota.
  destruct (read_chunk _) as [[|b bs]| |e]; try discriminate Hchunk.
  - apply (inj Some) in Hchunk as Hbytes. unfold this, gets at 1. rewrite bind_run. cbv beta iota zeta. cbn [app log].
    fold (unread s). rewrite Hbytes.
    unfold set, modify at 1. rewrite bind_run. cbv beta iota. cbn [app log].
    fold (keep (unread s ++ bytes) (state s.(app) (Read :: s.(log)))).
    destruct (decide (10 ∈ unread s ++ bytes)) as [Hin|Hout].
    + apply list_elem_of_split_l in Hin as (l1&l2&Hl&Hl1). rewrite Hl.
      rewrite (newline_after _ _ Hl1). now rewrite andb_false_r.
    + specialize (Hlen Hout). now replace (MAX_FRAME_BYTES <? _) with false by lia.
  - injection Hchunk as <-. rewrite app_nil_r.
    change (unread s) with (unread (state s.(app) (Read :: s.(log)))) at 1.
    now rewrite keep_unread, take_frame_none.
Qed.

(** What holds no newline ends before the first one. *)
Lemma before_newline p bytes line rest :
  10 ∉ p -> p ++ bytes = line ++ 10 :: rest -> (length p <= length line)%nat.
Proof.
  intros Hp Heq. destruct (Nat.le_gt_cases (length p) (length line)) as [|Hlt]; [assumption|].
  destruct Hp. apply list_elem_of_lookup. exists (length line).
  rewrite <- (lookup_app_l p bytes) by exact Hlt. rewrite Heq. now apply list_lookup_middle.
Qed.

Lemma arrivals_more n l bytes :
  arrivals (S n) l = Some bytes ->
  exists first others, chunk_bytes (read_chunk (Read :: l)) = Some first
                       /\ arrivals n (Sleep 2 :: Read :: l) = Some others /\ bytes = first ++ others.
Proof.
  cbn. intros (first&->&(others&->&[= <-])%bind_Some)%bind_Some. eauto.
Qed.

Lemma read_rounds line rest frame n : forall fuel before bytes s,
  arrivals n s.(log) = Some before -> 10 ∉ unread s ++ before ->
  arrivals (S n) s.(log) = Some bytes -> unread s ++ bytes = line ++ 10 :: rest ->
  10 ∉ line -> length_z line <= MAX_FRAME_BYTES -> from_slice line = Ok frame ->
  read (n + S fuel) s = (Ok frame, keep rest (state s.(app) (Read :: waited n s.(log)))).
Proof.
  induction n as [|n IH]; intros fuel before bytes s Hbefore Hnone Hbytes Hfound Hline Hlen Hparse;
    cbn [Nat.add read]; rewrite bind_run; apply arrivals_more in Hbytes as (first&more&Hfirst&Hmore&->).
  - injection Hbefore as <-. injection Hmore as <-. rewrite app_nil_r in Hnone, Hfound.
    rewrite (try_read_run first); [|exact Hnone|exact Hfirst|].
    + erewrite take_frame_line by eassumption. now rewrite keep_keep.
    + intros Hout. destruct Hout. rewrite Hfound. set_solver.
  - apply arrivals_more in Hbefore as (first'&others&Hfirst'&Hothers&->).
    rewrite Hfirst in Hfirst'. injection Hfirst' as <-. rewrite app_assoc in Hnone, Hfound.
    assert (Hpart : 10 ∉ unread s ++ first) by set_solver.
    rewrite (try_read_run first); [|set_solver|exact Hfirst|].
    + rewrite take_frame_none by exact Hpart.
      unfold perform, modify at 1. rewrite bind_run. cbv beta iota.
      erewrite (IH fuel others more); [reflexivity|eassumption..].
    + intros _. pose proof (before_newline _ _ _ _ Hpart Hfound). unfold length_z in *. lia.
Qed.

Lemma received_read_run frame s s' :
  Received frame s s' -> exists enough, forall fuel, (enough <= fuel)%nat -> read fuel s = (Ok frame, s').
Proof.
  intros [line rest Hfound Hline Hlen Hparse|n before bytes line rest Hbefore Hnone Hbytes Hfound Hline Hlen Hparse].
  - exists 1%nat. intros [|fuel] Hfuel; [lia|]. cbn [read]. rewrite bind_run. unfold try_read.
    rewrite bind_run. now erewrite take_frame_line by eassumption.
  - exists (S n). intros fuel Hfuel. replace fuel with (n + S (fuel - S n))%nat by lia. eauto using read_rounds.
Qed.

(** What [command] makes of the frame that answers it, in the console's generation. *)
Definition verdict (generation : Z) (frame : Value) : result AppError Value :=
  if decide (get_u64 "session_generation" frame = Some generation) then
    if decide (get_bool "success" frame = Some true) then Ok frame
    else Err (InvalidInput (default SESSION_FAILED (get_str "error" frame)))
  else Err (InvalidInput "stale session response").

Lemma is_u64_of_true o n : is_u64_of o n = true <-> o = Some n.
Proof. destruct o as [m|]; cbn; [rewrite Z.eqb_eq|]; split; congruence. Qed.
Lemma is_bool_of_true o b : is_bool_of o b = true <-> o = Some b.
Proof. destruct o as [c|]; cbn; [rewrite Bool.eqb_true_iff|]; split; congruence. Qed.
Lemma is_str_true o t : ConsoleText.is_str o t = true <-> o = Some t.
Proof. destruct o as [c|]; cbn; [rewrite String.eqb_eq|]; split; congruence. Qed.

Lemma answers_test id frame :
  is_str (get_str "type" frame) "response" && is_u64_of (get_u64 "command_id" frame) id = true
  <-> Answers id frame.
Proof. rewrite andb_true_iff, is_str_true, is_u64_of_true. reflexivity. Qed.

Lemma await_run id frame s s' :
  Awaited id frame s s' ->
  exists enough, forall fuel rounds, (enough <= fuel)%nat -> (enough <= rounds)%nat ->
    await_response fuel rounds id s = (verdict s'.(app).(ConsoleApp.session_generation) frame, s').
Proof.
  induction 1 as [s s' Hreceived Hanswers|other s s1 s2 s' Hreceived Hother Hhandle _ [enough IH]];
    destruct (received_read_run _ _ _ Hreceived) as [first Hread].
  - exists (S first). intros fuel [|rounds] Hfuel Hrounds; [lia|]. cbn [await_response].
    rewrite bind_run, Hread by lia. cbv beta iota. rewrite (proj2 (answers_test id frame) Hanswers).
    unfold this, gets at 1. rewrite bind_run. cbv beta iota. unfold verdict.
    repeat case_decide; [rewrite (proj2 (is_u64_of_true _ _)), (proj2 (is_bool_of_true _ _)) by assumption; reflexivity|..].
    + rewrite (proj2 (is_u64_of_true _ _)) by assumption.
      destruct (is_bool_of _ _) eqn:E; [now apply is_bool_of_true in E|reflexivity].
    + destruct (is_u64_of _ _) eqn:E; [now apply is_u64_of_true in E|reflexivity].
  - exists (S (max first enough)). intros fuel [|rounds] Hfuel Hrounds; [lia|]. cbn [await_response].
    rewrite bind_run, Hread by lia. cbv beta iota.
    destruct (_ && _) eqn:E; [now apply answers_test in E|].
    rewrite bind_run, Hhandle. apply IH; lia.
Qed.
End Waiting.

(** A command that can be written is one line, with the next identifier. *)
Lemma write_run {json : Json} {world : World} c bytes s :
  encode_command c = Ok bytes -> length_z bytes <= MAX_FRAME_BYTES ->
  write_all (Write c :: s.(log)) (bytes ++ [10]) = Ok tt ->
  write c s = (Ok tt, state s.(app) (Write c :: s.(log))).
Proof.
  intros Hencode Hlen Hwrite. unfold write. rewrite lift_bind_run, Hencode. cbn [map_err].
  replace (MAX_FRAME_BYTES <? length_z bytes) with false by lia.
  rewrite bind_run, ask_run, Hwrite. reflexivity.
Qed.

(** The console when it has written the command [c]: the next identifier is used up. *)
Definition written (c : Command.t) (s : State) : State :=
  let client := s.(app).(ConsoleApp.client) in
  state (ConsoleApp.with_client
           (SessionClient.mk client.(SessionClient.pending)
              (default 1 (checked_add client.(SessionClient.command_id) 1))
              client.(SessionClient.session_generation)) s.(app))
    (Write c :: s.(log)).

Lemma send_run {json : Json} {world : World} kind context bytes s :
  let id := s.(app).(ConsoleApp.client).(SessionClient.command_id) in
  let c := Command.mk id s.(app).(ConsoleApp.session_generation) kind context in
  encode_command c = Ok bytes -> length_z bytes <= MAX_FRAME_BYTES ->
  write_all (Write c :: s.(log)) (bytes ++ [10]) = Ok tt ->
  send_session_command kind context s = (Ok id, written c s).
Proof.
  intros id c Hencode Hlen Hwrite. unfold send_session_command.
  rewrite bind_run. change (next_command_id s) with (@Ok AppError Z id, state (written c s).(app) s.(log)).
  unfold this, gets. rewrite bind_run. cbv beta iota. rewrite bind_run.
  change (Command.mk id _ kind context) with c. now rewrite (write_run c bytes).
Qed.

(** C25: a command the planner session answers is answered to the caller: when the
    command's encoding has at most 32 KiB and is written, and the session's
    answer arrives, [command] does not go on waiting but returns. The answer is the
    first response with the command's identifier; its line, like every line before
    it, has at most 32 KiB and is JSON, and it may be cut into reads in any way, start with bytes that
    were already in the buffer, and come after any number of reads that find nothing,
    two milliseconds apart. The frames before it are events or responses to
    other commands that are handled without an error. When it is a success of the
    current generation [command] returns it; when it is of another generation, or not a
    success, [command] fails with the message for that. The command was written
    first, with the console's generation and the next command identifier, and what follows
    the answer's line stays in the buffer. *)
Theorem command_is_answered
    {json : Json} {access : JsonAccess} {world : World} {decode_plan : Deserialize PlanResponse.t}
    (kind : string) (bytes : list Z) (frame : Value) (s s' : State) :
  let id := s.(app).(ConsoleApp.client).(SessionClient.command_id) in
  let c := Command.mk id s.(app).(ConsoleApp.session_generation) kind None in
  forall (Hencode : encode_command c = Ok bytes)
    (Hbytes : length_z bytes <= MAX_FRAME_BYTES)
    (Hwrite : write_all (Write c :: s.(log)) (bytes ++ [10]) = Ok tt)
    (Hawaited : Awaited id frame (written c s) s'),
  exists enough, forall fuel, (enough <= fuel)%nat ->
    command fuel kind s = (verdict s'.(app).(ConsoleApp.session_generation) frame, s').
Proof.
  intros id c Hencode Hbytes Hwrite Hawaited. destruct (await_run _ _ _ _ Hawaited) as [enough Hrun].
  exists enough. intros fuel Hfuel. unfold command. rewrite bind_run.
  now rewrite (send_run kind None bytes s Hencode Hbytes Hwrite), Hrun.
Qed.

(** A planner session that opens after two reads that find nothing. The line comes in
    two reads, and the event before it is in the same read as its beginning. *)
Definition slow_world : World :=
  {| encode_command := fun _ => Ok [1];
     write_all := fun _ _ => Ok tt;
     read_chunk := fun l => if (length l <? 6)%nat then WouldBlock
                            else if (length l <? 7)%nat then Bytes [3; 2; 10; 1] else Bytes [1; 3; 10; 1];
     now := @now _ survey_world;
     observed := @observed _ survey_world;
     is_finished := @is_finished _ survey_world;
     capture_result := @capture_result _ survey_world;
     sweep_result := @sweep_result _ survey_world;
     cancel_result := @cancel_result _ survey_world;
     encode_payload := @encode_payload _ survey_world;
     stop_requested := @stop_requested _ survey_world;
     received := @received _ survey_world;
     show := @show _ survey_world |}.

Definition opened : Sample :=
  Obj [("type", Str "response"); ("command_id", Num 1); ("session_generation", Num 3);
       ("success", Flag true)]%string.

(** The session answers the opening command after two reads that find nothing. The
    answer's line is cut between two reads, the first of which also holds an event of the
    generation before, and the beginning of the next line follows it. *)
Lemma command_is_answered_witness :
  exists enough, forall fuel, (enough <= fuel)%nat ->
    exists a l, @command _ _ slow_world _ fuel "open_session" (state console [])
                = (Ok opened, state a (Read :: Read :: Sleep 2 :: Read :: Sleep 2 :: Read :: l))
                /\ unread (state a l) = [1].
Proof.
  edestruct (@command_is_answered _ _ slow_world _ "open_session" [1] opened (state console []))
    as [enough Hrun]; [reflexivity|discriminate|reflexivity| |].
  - eapply awaited_later.
    + eapply (received_read _ _ 2%nat [] [3; 2; 10; 1] [3; 2] [1]); try reflexivity; [set_solver|set_solver by lia|discriminate].
    + intros [? _]; discriminate.
    + reflexivity.
    + apply awaited_now; [|split; reflexivity].
      eapply (received_read _ _ O [] [1; 3; 10; 1] [1; 1; 3] [1]); try reflexivity; [set_solver by lia|set_solver by lia|discriminate].
  - exists enough. intros fuel Hfuel. do 2 eexists. rewrite (Hrun fuel Hfuel). split; reflexivity.
Defined.

(** ** Limits that fit together *)

(** What [/auto start] accepts, the cruise accepts: for every accepted line, with
    the byte budget it names or, without one, the number of steps times the capture
    limit of a valid template, [CruiseControl::start] succeeds and the cruise is active with the
    limits of the line. *)
Theorem accepted_auto_commands_start
    (line : string) (command : AutoStartCommand.t) (template : PlanRequest.t) (time : Z)
    (cruise : CruiseControl.t)
    (Hwf : PlanRequest.wf template) (Htemplate : validate_request template = Ok tt)
    (Hline : parse_auto_start line = Ok command) :
  let bytes :=
    default (saturating_mul template.(PlanRequest.limits).(SafetyLimits.max_iq_bytes)
               command.(AutoStartCommand.steps)) command.(AutoStartCommand.iq_bytes) in
  let (started, cruise') :=
    CruiseControl.start bytes command.(AutoStartCommand.steps) command.(AutoStartCommand.seconds)
      time cruise in
  started = Ok tt /\ CruiseControl.is_active cruise' = true
  /\ CruiseControl.remaining_iq_bytes cruise' = bytes /\ 0 < bytes <= u64_max
  /\ cruise'.(CruiseControl.max_steps) = command.(AutoStartCommand.steps).
Proof.
  destruct (parse_auto_start_ok _ _ Hline) as [_ Hsteps Hseconds Hbytes].
  pose proof (lo_bytes _ (rq_limits _ (proj1 (validate_request_spec _ tt Hwf) Htemplate))) as Hlimit.
  intros bytes.
  assert (Hpos : 0 < bytes <= u64_max).
  { subst bytes. destruct (AutoStartCommand.iq_bytes command) as [b|]; unfold option_in in Hbytes; cbn; unfold id; [lia|].
    assert (0 < SafetyLimits.max_iq_bytes (PlanRequest.limits template) * AutoStartCommand.steps command)
      by (apply Z.mul_pos_pos; lia).
    unfold saturating_mul, u64_max. lia. }
  unfold CruiseControl.start, in_range.
  replace (bytes =? 0) with false by lia.
  destruct Hsteps as [Hs1 Hs2], Hseconds as [Ht1 Ht2].
  apply Z.leb_le in Hs1, Hs2, Ht1, Ht2. rewrite Hs1, Hs2, Ht1, Ht2. cbn [andb negb].
  split_and!; try reflexivity; try apply Hpos.
  unfold CruiseControl.remaining_iq_bytes, saturating_sub. cbn. lia.
Qed.

Lemma accepted_auto_commands_start_witness :
  let command := AutoStartCommand.mk "find a station" 4 60 None in
  let (started, cruise') := CruiseControl.start (16777216 * 4) 4 60 0 CruiseControl.default in
  started = Ok tt /\ CruiseControl.is_active cruise' = true
  /\ CruiseControl.remaining_iq_bytes cruise' = 16777216 * 4 /\ 0 < 16777216 * 4 <= u64_max
  /\ cruise'.(CruiseControl.max_steps) = 4.
Proof.
  exact (accepted_auto_commands_start "--steps 4 --seconds 60 find a station"
           (AutoStartCommand.mk "find a station" 4 60 None) PolicySamples.request 0
           CruiseControl.default PolicySamples.request_wf eq_refl eq_refl).
Defined.

(** A resumed conversation never makes an instruction too long: an instruction
    that is within the planner's limit of 1024 bytes, once its white space is
    normalised, still is with what was carried forward from the session
    before, and it is kept in full at the end of the text. *)
Theorem resumed_instructions_fit (summary instruction : string)
    (Hfits : len (single_line instruction) <= MAX_INSTRUCTION_BYTES) :
  let text := carry_forward_instruction summary instruction in
  len text <= MAX_INSTRUCTION_BYTES
  /\ exists context, text = context +:+ single_line instruction.
Proof.
  destruct (carry_forward_split summary instruction) as (context&->&Hcontext). split; [|now exists context].
  destruct Hcontext as [->|H]; [exact Hfits|exact H].
Qed.

Lemma resumed_instructions_fit_witness :
  let text := carry_forward_instruction "operator: scan" "go on" in
  len text <= MAX_INSTRUCTION_BYTES /\ exists context, text = context +:+ single_line "go on".
Proof. apply (resumed_instructions_fit "operator: scan" "go on"). vm_compute. discriminate. Defined.
