(* ===== verification/ConsoleIdle.v ===== *)
(** * A console without a radio

    Without [--sdrd] the console has no executor and no address.  Whatever the
    operator, the planner session and the clock do, it then starts, looks at,
    cancels and joins nothing: its log holds no operation on hardware. *)
From S2P Require Import Prelude Hoare Text Utf8 F32 Protocol Policy Sdr Execution Autonomy SweepPlan Session ConsoleText Console.

(** ** The state and the operations *)
Record Unplugged (a : ConsoleApp.t) : Prop := {
  un_executor : a.(ConsoleApp.executor) = None;
  un_address : a.(ConsoleApp.sdrd_address) = None;
  un_execution : a.(ConsoleApp.active_execution) = None;
  un_sweep : a.(ConsoleApp.active_sweep) = None;
}.

Definition idle_op (op : Op) : Prop :=
  match op with
  | Observe _ _ | StartCapture _ _ _ | StartSweep _ _ _ _ _ | IsFinished _ | JoinCapture _
  | JoinSweep _ | Cancel _ _ => False
  | _ => True
  end.

Definition Ashore (s : State) : Prop := Unplugged s.(app) /\ Forall idle_op s.(log).

(** A computation that stays ashore however it ends. *)
Definition Idle {A} (m : Act A) : Prop := forall s, Ashore s -> Ashore (m s).2.

Lemma idle_bind {A B} (m : Act A) (k : A -> Act B) : Idle m -> (forall a, Idle (k a)) -> Idle (m ≫= k).
Proof.
  intros Hm Hk s Hs. rewrite bind_run. specialize (Hm s Hs). destruct (m s) as [[a|e] s1]; [|exact Hm].
  now apply Hk.
Qed.

(** A field that was read has the value it has ashore. *)
Lemma idle_this {A B} (f : ConsoleApp.t -> A) (k : A -> Act B) :
  (forall a, Unplugged a -> Idle (k (f a))) -> Idle (this f ≫= k).
Proof. intros Hk s Hs. apply (Hk s.(app)); apply Hs. Qed.

Lemma idle_gets {A} (f : State -> A) : Idle (gets f).
Proof. now intros s Hs. Qed.
Lemma idle_lift {A} (r : result AppError A) : Idle (lift r).
Proof. now intros s Hs. Qed.
Lemma idle_ret {A} (a : A) : Idle (mret a).
Proof. now intros s Hs. Qed.
Lemma idle_fail {A} e : Idle (fail (A := A) e).
Proof. now intros s Hs. Qed.
Lemma idle_set f : (forall a, Unplugged a -> Unplugged (f a)) -> Idle (set f).
Proof. intros Hf s [Ha Hl]. split; [now apply Hf|exact Hl]. Qed.
Lemma idle_perform op : idle_op op -> Idle (perform op).
Proof. intros Hop s [Ha Hl]. split; [exact Ha|]. now constructor. Qed.
Lemma idle_ask {A} op (answer : Log -> A) : idle_op op -> Idle (ask op answer).
Proof. intros Hop. apply idle_bind; [now apply idle_perform|intros; apply idle_gets]. Qed.
Lemma idle_attempt {A} (m : Act A) : Idle m -> Idle (attempt (F := AppError) m).
Proof. intros Hm s Hs. specialize (Hm s Hs). unfold attempt. now destruct (m s). Qed.
Lemma idle_when b m : Idle m -> Idle (when b m).
Proof. intros Hm. destruct b; [exact Hm|apply idle_ret]. Qed.

Create HintDb idle.
(** The head of a call, to look into it. *)
Ltac look_into m :=
  lazymatch m with
  | ?f _ => look_into f
  | ?f => unfold f
  end.
Ltac unplug :=
  let a := fresh "a" in let H1 := fresh in let H2 := fresh in let H3 := fresh in let H4 := fresh in
  intros a [H1 H2 H3 H4]; cbv beta; unfold ConsoleApp.busy, ConsoleApp.hardware_active;
  rewrite ?H1, ?H2, ?H3, ?H4; cbn [is_none negb orb].
Ltac idle_step :=
  lazymatch goal with
  | |- Idle (mbind _ (this _)) => apply idle_this; unplug
  | |- Idle (mbind _ _) => apply idle_bind; [|intros ?]
  | |- Idle (mret _) => apply idle_ret
  | |- Idle (lift _) => apply idle_lift
  | |- Idle (gets _) => apply idle_gets
  | |- Idle (this _) => apply idle_gets
  | |- Idle (fail _) => apply idle_fail
  | |- Idle (refuse _) => apply idle_fail
  | |- Idle (set _) => apply idle_set; intros ? []; repeat case_match; constructor; assumption
  | |- Idle (set_cruise _) => apply idle_set; intros ? []; constructor; assumption
  | |- Idle (perform _) => apply idle_perform; exact I
  | |- Idle (ask _ _) => apply idle_ask; exact I
  | |- Idle (when _ _) => apply idle_when
  | |- Idle (attempt _) => apply idle_attempt
  | |- Idle (if ?c then _ else _) => destruct c
  | |- Idle (match ?c with _ => _ end) => destruct c
  | |- Idle ?m => first [solve [auto with idle] | look_into m]
  end.
Ltac idle := repeat idle_step.

(** ** The console *)
Section Console.
Context {json : Json} {access : JsonAccess} {world : World} {decode_plan : Deserialize PlanResponse.t}.
Context (fuel : nat).

Lemma idle_try_read : Idle try_read.
Proof. idle. Qed.
#[local] Hint Resolve idle_try_read : idle.
Lemma idle_read rounds : Idle (read rounds).
Proof. induction rounds; cbn [read]; idle. Qed.
Lemma idle_send kind context : Idle (send_session_command kind context).
Proof. idle. Qed.
Lemma idle_record entry : Idle (record entry).
Proof. idle. Qed.
Lemma idle_refresh : Idle refresh_sdr_health.
Proof. idle. Qed.
#[local] Hint Resolve idle_read idle_send idle_record idle_refresh : idle.
Lemma idle_handle_frame frame : Idle (handle_frame frame).
Proof. idle. Qed.
#[local] Hint Resolve idle_handle_frame : idle.
Lemma idle_await rounds command_id : Idle (await_response fuel rounds command_id).
Proof. induction rounds; cbn [await_response]; idle. Qed.
#[local] Hint Resolve idle_await : idle.
Lemma idle_renew state message : Idle (renew fuel state message).
Proof. idle. Qed.
#[local] Hint Resolve idle_renew : idle.
Lemma idle_stop message : Idle (stop fuel message).
Proof. idle. Qed.
#[local] Hint Resolve idle_stop : idle.
Lemma idle_handle_frames rounds : Idle (handle_frames rounds).
Proof. induction rounds; cbn [handle_frames]; idle. Qed.
#[local] Hint Resolve idle_handle_frames : idle.
Lemma idle_poll : Idle (poll fuel).
Proof. idle. Qed.
Lemma idle_submit instruction : Idle (submit instruction).
Proof. idle. Qed.
#[local] Hint Resolve idle_poll idle_submit : idle.
Lemma idle_advance : Idle (advance_auto fuel).
Proof. idle. Qed.
Lemma idle_close_loop rounds : forall deadline, Idle (close_loop fuel rounds deadline).
Proof. induction rounds; intros deadline; cbn [close_loop]; idle. Qed.
Lemma idle_discard rounds : Idle (discard_input rounds).
Proof. induction rounds; cbn [discard_input]; idle. Qed.
Lemma idle_queue instruction kind : Idle (queue_model_input instruction kind).
Proof. idle. Qed.
#[local] Hint Resolve idle_advance idle_close_loop idle_discard idle_queue : idle.
Lemma idle_handle_input input : Idle (handle_input fuel input).
Proof. unfold handle_input. idle. Qed.
#[local] Hint Resolve idle_handle_input : idle.
Lemma idle_main_loop rounds : Idle (main_loop fuel rounds).
Proof. induction rounds; cbn [main_loop]; idle. Qed.
Lemma idle_until rounds : Idle (until_idle fuel rounds).
Proof. induction rounds; cbn [until_idle]; idle. Qed.
#[local] Hint Resolve idle_main_loop idle_until : idle.
Lemma idle_run instruction survey : Idle (run fuel instruction survey).
Proof. unfold run. idle. Qed.
End Console.

(** ** An instruction on the command line

    Nobody types: no line is logged, and the initial survey is never begun. *)
Definition unattended (op : Op) : Prop :=
  match op with
  | Line _ | StartSweep _ _ _ _ ActiveSweepKind.Initial => False
  | _ => True
  end.
Definition untyped (s s' : State) : Prop :=
  exists ops, s'.(log) = ops ++ s.(log) /\ Forall unattended ops.

#[global] Instance untyped_preorder : PreOrder untyped.
Proof.
  split.
  - intros s. now exists [].
  - intros s1 s2 s3 (l1&E1&H1) (l2&E2&H2). exists (l2 ++ l1). rewrite E2, E1, app_assoc.
    split; [reflexivity|]. apply Forall_app. now split.
Qed.

Abbreviation Untyped := (respects (E := AppError) untyped).
Lemma untyped_bind {A B} (m : Act A) (k : A -> Act B) :
  Untyped m -> (forall a, Untyped (k a)) -> Untyped (m ≫= k).
Proof. apply respects_bind, _. Qed.
Lemma untyped_same {A} (m : Act A) : (forall s, (m s).2.(log) = s.(log)) -> Untyped m.
Proof. intros H s. exists []. split; [apply H|constructor]. Qed.
Lemma untyped_perform op : unattended op -> Untyped (perform op).
Proof. intros H s. exists [op]. split; [reflexivity|]. now repeat constructor. Qed.
Lemma untyped_ask {A} op (answer : Log -> A) : unattended op -> Untyped (ask op answer).
Proof. intros H s. exists [op]. split; [reflexivity|]. now repeat constructor. Qed.
Lemma untyped_attempt {A} (m : Act A) : Untyped m -> Untyped (attempt (F := AppError) m).
Proof. apply respects_attempt. Qed.
Lemma untyped_when b m : Untyped m -> Untyped (when b m).
Proof. intros H. destruct b; [exact H|now apply untyped_same]. Qed.

Create HintDb untyped.
Ltac untyped_step :=
  lazymatch goal with
  | |- Untyped (mbind _ _) => apply untyped_bind; [|intros ?]
  | |- Untyped (mret _) => now apply untyped_same
  | |- Untyped (lift _) => now apply untyped_same
  | |- Untyped (gets _) => now apply untyped_same
  | |- Untyped (this _) => now apply untyped_same
  | |- Untyped (fail _) => now apply untyped_same
  | |- Untyped (refuse _) => now apply untyped_same
  | |- Untyped (set _) => now apply untyped_same
  | |- Untyped (set_cruise _) => now apply untyped_same
  | |- Untyped (perform _) => apply untyped_perform; exact I
  | |- Untyped (ask _ _) => apply untyped_ask; exact I
  | |- Untyped (when _ _) => apply untyped_when
  | |- Untyped (attempt _) => apply untyped_attempt
  | |- Untyped (if ?c then _ else _) => destruct c
  | |- Untyped (match ?c with _ => _ end) => destruct c
  | |- Untyped ?m => first [solve [auto with untyped] | look_into m]
  end.
Ltac untyped := repeat untyped_step.

Section OneShot.
Context {json : Json} {access : JsonAccess} {world : World} {decode_plan : Deserialize PlanResponse.t}.
Context (fuel : nat).

Lemma untyped_read rounds : Untyped (read rounds).
Proof. induction rounds; cbn [read]; untyped. Qed.
Lemma untyped_record entry : Untyped (record entry).
Proof. untyped. Qed.
Lemma untyped_refresh : Untyped refresh_sdr_health.
Proof. untyped. Qed.
#[local] Hint Resolve untyped_read untyped_record untyped_refresh : untyped.
Lemma untyped_survey plan : Untyped (start_planned_survey plan).
Proof. untyped. Qed.
Lemma untyped_inspection plan : Untyped (start_candidate_inspection plan).
Proof. untyped. Qed.
#[local] Hint Resolve untyped_survey untyped_inspection : untyped.
Lemma untyped_handle_frame frame : Untyped (handle_frame frame).
Proof. untyped. Qed.
#[local] Hint Resolve untyped_handle_frame : untyped.
Lemma untyped_await rounds command_id : Untyped (await_response fuel rounds command_id).
Proof. induction rounds; cbn [await_response]; untyped. Qed.
Lemma untyped_handle_frames rounds : Untyped (handle_frames rounds).
Proof. induction rounds; cbn [handle_frames]; untyped. Qed.
#[local] Hint Resolve untyped_await untyped_handle_frames : untyped.
Lemma untyped_poll : Untyped (poll fuel).
Proof. untyped. Qed.
#[local] Hint Resolve untyped_poll : untyped.
Lemma untyped_until rounds : Untyped (until_idle fuel rounds).
Proof. induction rounds; cbn [until_idle]; untyped. Qed.
#[local] Hint Resolve untyped_until : untyped.
Lemma untyped_run instruction survey : Untyped (run fuel (Some instruction) survey).
Proof. unfold run. untyped. Qed.
End OneShot.
