(* ===== verification/ConsoleOrder.v ===== *)
(** * How the console numbers what it sends

    The commands to the planner session carry three numbers: their own, the
    generation of the session and, with an instruction, the request that a plan has
    to answer.  This file proves in which order they appear, and that the history
    that is saved stays bounded. *)
From S2P Require Import Prelude Hoare Text Utf8 F32 Protocol Policy Sdr Execution Autonomy SweepPlan Session ConsoleText Console ConsoleIdle.

(** ** Numbered logs *)

(** The number of the command before which [n] were sent: 1, 2, up to the
    largest [u64], and again 1. *)
Definition command_number (n : nat) : Z := 1 + Z.of_nat n mod u64_max.

(** The commands in a log, the newest first. *)
Fixpoint commands (l : Log) : list Command.t :=
  match l with
  | [] => []
  | Write command :: l => command :: commands l
  | _ :: l => commands l
  end.

(** Numbers in order, below the next request and up to the generation. *)
Fixpoint Numbered (next generation : Z) (cs : list Command.t) : Prop :=
  match cs with
  | [] => True
  | c :: cs =>
      c.(Command.command_id) = command_number (length cs)
      /\ 0 <= c.(Command.session_generation) <= generation
      /\ match c.(Command.context) with
         | Some request =>
             request.(PlanRequest.session_generation) = c.(Command.session_generation)
             /\ 0 <= request.(PlanRequest.request_id) < next
             /\ Numbered request.(PlanRequest.request_id) c.(Command.session_generation) cs
         | None => Numbered next c.(Command.session_generation) cs
         end
  end.

(** What is saved is no longer than the history may be. *)
Definition short (op : Op) : Prop :=
  match op with Persist _ history => (length history <= HISTORY_LIMIT)%nat | _ => True end.

Definition Ordered (l : Log) : Prop := Numbered u64_max u64_max (commands l) /\ Forall short l.

Lemma command_number_next n :
  default 1 (checked_add (command_number n) 1) = command_number (S n).
Proof.
  unfold command_number, checked_add. rewrite Nat2Z.inj_succ.
  assert (Hr : 0 <= Z.of_nat n mod u64_max < u64_max) by (apply Z.mod_pos_bound; reflexivity).
  pose proof (Z.div_mod (Z.of_nat n) u64_max ltac:(discriminate)) as Hn.
  destruct (Z.leb_spec (1 + Z.of_nat n mod u64_max + 1) u64_max) as [Hle|Hgt]; cbn [from_option id].
  - replace (Z.succ (Z.of_nat n) mod u64_max) with (Z.of_nat n mod u64_max + 1); [lia|].
    apply Z.mod_unique with (Z.of_nat n / u64_max); lia.
  - replace (Z.succ (Z.of_nat n) mod u64_max) with 0; [reflexivity|].
    apply Z.mod_unique with (Z.of_nat n / u64_max + 1); lia.
Qed.

Lemma command_number_u64 n : 1 <= command_number n <= u64_max.
Proof.
  unfold command_number. pose proof (Z.mod_pos_bound (Z.of_nat n) u64_max eq_refl). lia.
Qed.

Lemma Numbered_weaken cs : forall next next' generation generation',
  Numbered next generation cs -> next <= next' -> generation <= generation' ->
  Numbered next' generation' cs.
Proof.
  induction cs as [|c cs IH]; intros next next' generation generation' H Hn Hg; [exact I|].
  destruct H as (Hid&Hgen&H). cbn. split; [exact Hid|]. split; [lia|].
  destruct (Command.context c); [|eapply IH; [exact H|lia..]].
  destruct H as (?&?&H). split_and!; auto; lia.
Qed.

(** Everything that was sent before is of an earlier request and not of a later generation. *)
Lemma Numbered_older next generation cs c :
  Numbered next generation cs -> c ∈ cs ->
  c.(Command.session_generation) <= generation
  /\ forall request, c.(Command.context) = Some request -> request.(PlanRequest.request_id) < next.
Proof.
  revert next generation. induction cs as [|c0 cs IH]; intros next generation H Hin; [inversion Hin|].
  destruct H as (_&Hgen&H). apply elem_of_cons in Hin as [<-|Hin].
  - split; [lia|]. intros request E. rewrite E in H. lia.
  - destruct (Command.context c0) as [request0|].
    + destruct H as (_&Hid&H). destruct (IH _ _ H Hin) as [Hc Hr]. split; [lia|].
      intros request E. specialize (Hr request E). lia.
    + destruct (IH _ _ H Hin) as [Hc Hr]. split; [lia|exact Hr].
Qed.

Lemma Numbered_suffix next generation newer older :
  Numbered next generation (newer ++ older) -> exists next' generation',
    next' <= next /\ generation' <= generation /\ Numbered next' generation' older.
Proof.
  revert next generation. induction newer as [|c newer IH]; intros next generation H.
  - exists next, generation. split_and!; [lia..|exact H].
  - destruct H as (_&Hgen&H). destruct (Command.context c).
    + destruct H as (_&Hid&H). destruct (IH _ _ H) as (n&g&?&?&Hold). exists n, g. split_and!; [lia..|exact Hold].
    + destruct (IH _ _ H) as (n&g&?&?&Hold). exists n, g. split_and!; [lia..|exact Hold].
Qed.

(** ** The console in step with its log

    The next request may already be taken, for a command that is still to be sent:
    [next] is the one up to which the log is numbered. *)
Record At (next : Z) (s : State) : Prop := {
  at_next : 0 <= next <= s.(app).(ConsoleApp.next_request_id);
  at_u64 : s.(app).(ConsoleApp.next_request_id) <= u64_max;
  at_generation : 0 <= s.(app).(ConsoleApp.session_generation) <= u64_max;
  at_command : s.(app).(ConsoleApp.client).(SessionClient.command_id)
               = command_number (length (commands s.(log)));
  at_log : Numbered next s.(app).(ConsoleApp.session_generation) (commands s.(log));
  at_history : (length s.(app).(ConsoleApp.history) <= HISTORY_LIMIT)%nat;
  at_short : Forall short s.(log);
}.
Definition InStep (s : State) : Prop := At s.(app).(ConsoleApp.next_request_id) s.

Lemma At_InStep next s : At next s -> InStep s.
Proof.
  intros []. constructor; auto; [lia|]. eapply Numbered_weaken; [eassumption|lia..].
Qed.
Lemma At_Ordered next s : At next s -> Ordered s.(log).
Proof.
  intros []. split; [|assumption]. eapply Numbered_weaken; [eassumption|lia..].
Qed.
#[local] Hint Resolve At_InStep At_Ordered : core.

(** ** Computations that send nothing *)
Definition silent_op (op : Op) : Prop := match op with Write _ => False | _ => short op end.

Record silent (s s' : State) : Prop := {
  si_next : s'.(app).(ConsoleApp.next_request_id) = s.(app).(ConsoleApp.next_request_id);
  si_generation : s'.(app).(ConsoleApp.session_generation) = s.(app).(ConsoleApp.session_generation);
  si_command : s'.(app).(ConsoleApp.client).(SessionClient.command_id)
               = s.(app).(ConsoleApp.client).(SessionClient.command_id);
  si_log : (length s.(app).(ConsoleApp.history) <= HISTORY_LIMIT)%nat ->
    (length s'.(app).(ConsoleApp.history) <= HISTORY_LIMIT)%nat
    /\ exists ops, s'.(log) = ops ++ s.(log) /\ Forall silent_op ops;
}.

#[global] Instance silent_preorder : PreOrder silent.
Proof.
  split.
  - intros s. constructor; try reflexivity. intros H. split; [exact H|]. now exists [].
  - intros s1 s2 s3 [] []. constructor; try congruence.
    intros (H2&l1&E1&F1)%si_log0. destruct (si_log1 H2) as (H3&l2&E2&F2). split; [exact H3|].
    exists (l2 ++ l1). rewrite E2, E1, app_assoc. split; [reflexivity|]. apply Forall_app. now split.
Qed.

Lemma silent_commands ops l : Forall silent_op ops -> commands (ops ++ l) = commands l.
Proof. induction 1 as [|[] ops H Hf IH]; try exact IH; try reflexivity. destruct H. Qed.
Lemma silent_short ops : Forall silent_op ops -> Forall short ops.
Proof. apply Forall_impl. now intros []. Qed.

Lemma silent_At next s s' : silent s s' -> At next s -> At next s'.
Proof.
  intros [] []. destruct si_log0 as (Hh&ops&E&Hf); [assumption|].
  constructor; rewrite ?si_next0, ?si_generation0, ?si_command0, ?E, ?(silent_commands _ _ Hf); auto.
  apply Forall_app. split; [now apply silent_short|assumption].
Qed.

Abbreviation Silent := (respects (E := AppError) silent).
Lemma silent_bind {A B} (m : Act A) (k : A -> Act B) :
  Silent m -> (forall a, Silent (k a)) -> Silent (m ≫= k).
Proof. apply respects_bind, _. Qed.
Lemma silent_same {A} (m : Act A) : (forall s, (m s).2 = s) -> Silent m.
Proof. intros H s. now rewrite H. Qed.
Lemma silent_perform op : silent_op op -> Silent (perform op).
Proof.
  intros H s. constructor; try reflexivity. intros Hh. split; [exact Hh|]. exists [op].
  split; [reflexivity|]. now repeat constructor.
Qed.
Lemma silent_ask {A} op (answer : Log -> A) : silent_op op -> Silent (ask op answer).
Proof. intros H. apply silent_bind; [now apply silent_perform|]. intros _. now apply silent_same. Qed.
Lemma silent_when b m : Silent m -> Silent (when b m).
Proof. intros H. destruct b; [exact H|now apply silent_same]. Qed.

(** Assignments that leave the numbers and the history alone. *)
Definition harmless (a a' : ConsoleApp.t) : Prop :=
  a'.(ConsoleApp.next_request_id) = a.(ConsoleApp.next_request_id)
  /\ a'.(ConsoleApp.session_generation) = a.(ConsoleApp.session_generation)
  /\ a'.(ConsoleApp.client).(SessionClient.command_id) = a.(ConsoleApp.client).(SessionClient.command_id)
  /\ a'.(ConsoleApp.history) = a.(ConsoleApp.history).
Lemma silent_set f : (forall a, harmless a (f a)) -> Silent (set f).
Proof.
  intros H s. destruct (H s.(app)) as (?&?&?&Hh). constructor; cbn; auto.
  rewrite Hh. intros Hs. split; [exact Hs|]. now exists [].
Qed.

Create HintDb silent.
Create HintDb lines.
Ltac silent_step :=
  lazymatch goal with
  | |- Silent (mbind _ _) => apply silent_bind; [|intros ?]
  | |- Silent (mret _) => now apply silent_same
  | |- Silent (lift _) => now apply silent_same
  | |- Silent (gets _) => now apply silent_same
  | |- Silent (this _) => now apply silent_same
  | |- Silent (fail _) => now apply silent_same
  | |- Silent (refuse _) => now apply silent_same
  | |- Silent (set _) => apply silent_set; intros ?; repeat case_match; repeat split; reflexivity
  | |- Silent (set_cruise _) => apply silent_set; intros ?; repeat split; reflexivity
  | |- Silent (perform _) => apply silent_perform; exact I
  | |- Silent (ask _ _) => apply silent_ask; exact I
  | |- Silent (when _ _) => apply silent_when
  | |- Silent (if ?c then _ else _) => destruct c
  | |- Silent (match ?c with _ => _ end) => destruct c
  | |- Silent ?m => first [solve [auto with silent] | look_into m]
  end.
Ltac silent := repeat silent_step.

Section Reading.
Context {json : Json} {access : JsonAccess} {world : World} {decode_plan : Deserialize PlanResponse.t}.

(** The client as it is, with another buffer. *)
Lemma silent_received pending s :
  silent s (state (ConsoleApp.with_client (with_received pending s.(app).(ConsoleApp.client)) s.(app)) s.(log)).
Proof. constructor; try reflexivity. intros H. split; [exact H|now exists []]. Qed.
Lemma silent_then {A} f (m : Act A) s :
  silent s (state (f s.(app)) s.(log)) -> Silent m -> silent s ((set f ;; m) s).2.
Proof. intros H Hm. etrans; [exact H|apply (Hm (state (f s.(app)) s.(log)))]. Qed.

Lemma silent_take_frame : Silent take_frame.
Proof.
  intros s. unfold take_frame, this. rewrite bind_run. unfold gets at 1.
  destruct (newline_position _) as [newline|]; [|reflexivity]. destruct (_ <? _); [reflexivity|].
  apply silent_then; [apply silent_received|silent].
Qed.
#[local] Hint Resolve silent_take_frame : silent.
Lemma silent_try_read : Silent try_read.
Proof.
  unfold try_read. apply silent_bind; [silent|]. intros [frame|]; [silent|].
  apply silent_bind; [silent|]. intros [[|byte bytes]| |error]; [silent| |silent..].
  intros s. unfold this. rewrite bind_run. unfold gets at 1.
  apply silent_then; [apply silent_received|silent].
Qed.
#[local] Hint Resolve silent_try_read : silent.
Lemma silent_read rounds : Silent (read rounds).
Proof. induction rounds; cbn [read]; silent. Qed.

(** An entry is added, the oldest one dropped, and the history saved. *)
Lemma length_push_history entry history :
  (length history <= HISTORY_LIMIT)%nat -> (length (push_history entry history) <= HISTORY_LIMIT)%nat.
Proof.
  unfold push_history. intros H. rewrite length_app. cbn [length].
  destruct (Nat.eqb_spec (length history) HISTORY_LIMIT) as [E|E]; [|lia].
  rewrite length_tl. unfold HISTORY_LIMIT in *. lia.
Qed.
Lemma record_run entry s :
  let history := push_history entry s.(app).(ConsoleApp.history) in
  record entry s = (Ok tt, state (ConsoleApp.with_history history s.(app))
    match s.(app).(ConsoleApp.session_state_path) with
    | Some path => Persist path history :: s.(log)
    | None => s.(log)
    end).
Proof.
  intros history. unfold record, set, this. rewrite bind_run. cbn [modify]. rewrite !bind_run.
  cbn [gets ConsoleApp.session_state_path ConsoleApp.with_history app].
  now destruct (ConsoleApp.session_state_path (app s)).
Qed.
Lemma silent_record entry : Silent (record entry).
Proof.
  intros s. rewrite record_run. constructor; try reflexivity. cbn.
  intros H. apply (length_push_history entry) in H. split; [exact H|].
  destruct (ConsoleApp.session_state_path (app s)) as [path|]; [|now exists []].
  eexists [_]. split; [reflexivity|]. apply Forall_singleton. exact H.
Qed.
Lemma silent_refresh : Silent refresh_sdr_health.
Proof. silent. Qed.
#[local] Hint Resolve silent_read silent_record silent_refresh : silent.
Lemma silent_survey plan : Silent (start_planned_survey plan).
Proof. silent. Qed.
Lemma silent_inspection plan : Silent (start_candidate_inspection plan).
Proof. silent. Qed.
Lemma silent_execution plan authorization : Silent (start_execution plan authorization).
Proof. silent. Qed.
Lemma silent_initial options : Silent (start_initial_survey options).
Proof. silent. Qed.
#[local] Hint Resolve silent_survey silent_inspection silent_execution silent_initial : silent.
Lemma silent_response frame : Silent (handle_session_response frame).
Proof. silent. Qed.
Lemma silent_dispatch plan : Silent (dispatch_plan plan).
Proof. silent. Qed.
Lemma silent_agent_end : Silent agent_end.
Proof. silent. Qed.
Lemma silent_approve : Silent approve.
Proof. silent. Qed.
Lemma silent_poll_sweep : Silent poll_sweep.
Proof. silent. Qed.
Lemma silent_poll_execution : Silent poll_execution.
Proof. silent. Qed.
Lemma silent_cancel retries canceller generation worker :
  Silent (cancel_loop retries canceller generation worker).
Proof. induction retries; cbn [cancel_loop]; silent. Qed.
Lemma silent_discard rounds : Silent (discard_input rounds).
Proof. induction rounds; cbn [discard_input]; silent. Qed.
#[local] Hint Resolve silent_response silent_dispatch silent_agent_end silent_approve
  silent_poll_sweep silent_poll_execution silent_cancel silent_discard : silent.

(** ** Computations that send commands in order

    They may fail in the middle; what was sent is in order even then. *)
Definition Lines {A} (m : Act A) : Prop :=
  forall s, InStep s -> wp m (fun _ => InStep) (fun _ s' => Ordered s'.(log)) s.

Lemma silent_wp {A} (m : Act A) next s :
  Silent m -> At next s -> wp m (fun _ => At next) (fun _ s' => Ordered s'.(log)) s.
Proof.
  intros Hm Hs. eapply wp_conseq; [apply respects_wp, Hm|..]; cbn.
  - intros _ s' H. eapply silent_At; eassumption.
  - intros _ s' H. eapply At_Ordered, silent_At; eassumption.
Qed.
Lemma lines_silent {A} (m : Act A) : Silent m -> Lines m.
Proof.
  intros Hm s Hs. eapply wp_conseq; [apply silent_wp; [exact Hm|exact Hs]| |auto].
  cbn. intros _ s' H. eapply At_InStep, H.
Qed.
Lemma lines_bind {A B} (m : Act A) (k : A -> Act B) :
  Lines m -> (forall a, Lines (k a)) -> Lines (m ≫= k).
Proof.
  intros Hm Hk s Hs. apply wp_bind. eapply wp_conseq; [apply Hm, Hs| |auto]. intros a s'. apply Hk.
Qed.
Lemma lines_when b m : Lines m -> Lines (when b m).
Proof. intros H. destruct b; [exact H|]. now apply lines_silent, silent_same. Qed.

Ltac lines_step :=
  lazymatch goal with
  | |- Lines (mbind _ _) => apply lines_bind; [|intros ?]
  | |- Lines (when _ _) => apply lines_when
  | |- Lines (mret _) => now apply lines_silent, silent_same
  | |- Lines (lift _) => now apply lines_silent, silent_same
  | |- Lines (this _) => now apply lines_silent, silent_same
  | |- Lines (fail _) => now apply lines_silent, silent_same
  | |- Lines (refuse _) => now apply lines_silent, silent_same
  | |- Lines (set _) => apply lines_silent; silent_step
  | |- Lines (set_cruise _) => apply lines_silent; silent_step
  | |- Lines (perform _) => apply lines_silent; silent_step
  | |- Lines (ask _ _) => apply lines_silent; silent_step
  | |- Lines (if ?c then _ else _) => destruct c
  | |- Lines (match ?c with _ => _ end) => destruct c
  | |- Lines ?m => first [solve [auto with lines] | apply lines_silent; solve [auto with silent] | look_into m]
  end.
Ltac lines := repeat lines_step.

(** One command, with the request for which the number was taken. *)
Lemma wp_send_in_order kind context next s :
  At next s ->
  (forall request, context = Some request ->
     request.(PlanRequest.session_generation) = s.(app).(ConsoleApp.session_generation)
     /\ next <= request.(PlanRequest.request_id) < s.(app).(ConsoleApp.next_request_id)) ->
  wp (send_session_command kind context) (fun _ => InStep) (fun _ s' => Ordered s'.(log)) s.
Proof.
  intros Hs Hcontext. pose proof (At_Ordered _ _ Hs) as Hold. destruct Hs.
  set (c := Command.mk s.(app).(ConsoleApp.client).(SessionClient.command_id)
              s.(app).(ConsoleApp.session_generation) kind context).
  set (a := ConsoleApp.with_client (SessionClient.mk s.(app).(ConsoleApp.client).(SessionClient.pending)
              (default 1 (checked_add s.(app).(ConsoleApp.client).(SessionClient.command_id) 1))
              s.(app).(ConsoleApp.client).(SessionClient.session_generation)) s.(app)).
  assert (Hnew : InStep (state a (Write c :: s.(log)))).
  { constructor; cbn; auto; [lia|..].
    - rewrite at_command0. apply command_number_next.
    - split; [exact at_command0|]. split; [lia|]. destruct context as [request|].
      + destruct (Hcontext request eq_refl) as [Hg Hr]. split_and!; [exact Hg|lia..|].
        eapply Numbered_weaken; [eassumption|lia..].
      + eapply Numbered_weaken; [eassumption|lia..].
    - now constructor. }
  unfold send_session_command, next_command_id, write, ask, perform, this, set.
  wp_steps; try exact Hold; try exact Hnew. eapply At_Ordered, Hnew.
Qed.
Lemma lines_send kind : Lines (send_session_command kind None).
Proof. intros s Hs. eapply wp_send_in_order; [exact Hs|]. intros request [=]. Qed.
#[local] Hint Resolve lines_send : lines.

Section Sending.
Context (fuel : nat).

Lemma lines_plan frame : Lines (plan_proposed frame).
Proof. lines. Qed.
#[local] Hint Resolve lines_plan : lines.
Lemma lines_handle_frame frame : Lines (handle_frame frame).
Proof. lines. Qed.
#[local] Hint Resolve lines_handle_frame : lines.
Lemma lines_await rounds command_id : Lines (await_response fuel rounds command_id).
Proof. induction rounds; cbn [await_response]; lines. Qed.
#[local] Hint Resolve lines_await : lines.
Lemma lines_handle_frames rounds : Lines (handle_frames rounds).
Proof. induction rounds; cbn [handle_frames]; lines. Qed.
#[local] Hint Resolve lines_handle_frames : lines.

(** Between closing one session and opening the next the generation grows. *)
Lemma lines_next_generation st : Lines (
  generation ← this ConsoleApp.session_generation ;
  generation ← lift (ok_or (InvalidInput "session generation exhausted") (checked_add generation 1)) ;
  set (next_generation generation st)).
Proof.
  intros s Hs. unfold this, set. wp_steps; [|exact (At_Ordered _ _ Hs)].
  match goal with H : ok_or _ _ = Ok ?g |- _ => rename g into generation; rename H into E end.
  unfold checked_add in E. destruct (Z.leb_spec (s.(app).(ConsoleApp.session_generation) + 1) u64_max); [|discriminate].
  injection E as <-. destruct Hs. constructor; cbn; auto; [lia|].
  eapply Numbered_weaken; [eassumption|lia..].
Qed.
Lemma lines_renew st message : Lines (renew fuel st message).
Proof.
  unfold renew. apply lines_bind; [lines|]. intros []; [lines|]. apply lines_bind; [lines|]. intros _ s Hs.
  pose proof (lines_next_generation st s Hs) as H.
  unfold this, set in *. unfold wp in H |- *. rewrite !bind_run in *. cbn [gets] in *.
  rewrite lift_bind_run in *. destruct (ok_or _ _) as [generation|e]; [|exact H].
  rewrite bind_run. cbn [modify] in *. refine ((_ : Lines (_ ← command fuel "open_session" ; record message)) _ H).
  lines.
Qed.
#[local] Hint Resolve lines_renew : lines.

(** A request has its number and generation, and waits to be sent. *)
Record Ready (request_id generation : Z) (s : State) : Prop := {
  ready_at : At request_id s;
  ready_taken : request_id < s.(app).(ConsoleApp.next_request_id);
  ready_generation : s.(app).(ConsoleApp.session_generation) = generation;
}.
Definition Sends (request_id generation : Z) (m : Act unit) : Prop :=
  forall s, Ready request_id generation s -> wp m (fun _ => InStep) (fun _ s' => Ordered s'.(log)) s.

Lemma sends_bind {A} request_id generation (m : Act A) k :
  Silent m -> (forall a, Sends request_id generation (k a)) -> Sends request_id generation (m ≫= k).
Proof.
  intros Hm Hk s [Ha Ht Hg]. apply wp_bind.
  eapply wp_conseq; [apply wp_and; [apply silent_wp; [exact Hm|exact Ha]|apply respects_wp, Hm]| |]; cbn.
  - intros a s' [Ha' []]. apply Hk. constructor; [exact Ha'|lia|congruence].
  - now intros _ s' [H _].
Qed.
Lemma sends_prompt request kind (k : Z -> Act unit) :
  (forall command_id, Silent (k command_id)) ->
  Sends request.(PlanRequest.request_id) request.(PlanRequest.session_generation)
    (send_session_command kind (Some request) ≫= k).
Proof.
  intros Hk s [Ha Ht Hg]. apply wp_bind. eapply wp_conseq; [eapply wp_send_in_order; [exact Ha|]| |auto].
  - intros ? [= <-]. split; [congruence|lia].
  - intros command_id s' Hs'. apply (lines_silent _ (Hk command_id) s' Hs').
Qed.

Lemma sends_request request_id generation text k :
  (forall request, request.(PlanRequest.request_id) = request_id ->
     request.(PlanRequest.session_generation) = generation -> Sends request_id generation (k request)) ->
  Sends request_id generation (this (ConsoleApp.request_for request_id text) ≫= k).
Proof. intros Hk s Hs. unfold this. do 2 wp_step. apply Hk; [reflexivity|apply Hs|exact Hs]. Qed.
Lemma lines_next_request k :
  (forall request_id generation, Sends request_id generation (k request_id)) -> Lines (next_request ≫= k).
Proof.
  intros Hk s Hs. unfold next_request, this, set. wp_steps; [|exact (At_Ordered _ _ Hs)].
  match goal with H : ok_or _ _ = Ok ?g |- _ => rename g into next; rename H into E end.
  unfold checked_add in E. destruct (Z.leb_spec (s.(app).(ConsoleApp.next_request_id) + 1) u64_max); [|discriminate].
  injection E as <-. apply (Hk _ s.(app).(ConsoleApp.session_generation)).
  constructor; cbn; [|lia|reflexivity]. destruct Hs. constructor; cbn; auto; lia.
Qed.
(** The number is taken, the request made, and the rest sends it. *)
Ltac sends_step :=
  lazymatch goal with
  | |- Sends _ _ (mbind _ (this (ConsoleApp.request_for _ _))) =>
      apply sends_request; intros request <- <-
  | |- Sends _ _ (mbind _ (send_session_command _ _)) => apply sends_prompt; intros ?; silent
  | |- Sends _ _ (mbind _ _) => apply sends_bind; [solve [silent]|intros ?]
  end.

Lemma lines_submit instruction : Lines (submit instruction).
Proof.
  unfold submit. apply lines_bind; [lines|]. intros []; [lines|]. apply lines_bind; [lines|]. intros _.
  apply lines_next_request. intros. repeat sends_step.
Qed.
Lemma lines_queue instruction kind : Lines (queue_model_input instruction kind).
Proof.
  unfold queue_model_input. do 3 (apply lines_bind; [lines|]; intros ?). destruct (_ || _); [lines|].
  apply lines_next_request. intros. repeat sends_step.
Qed.
#[local] Hint Resolve lines_submit lines_queue : lines.
Lemma lines_stop message : Lines (stop fuel message).
Proof. lines. Qed.
#[local] Hint Resolve lines_stop : lines.
Lemma lines_poll : Lines (poll fuel).
Proof. lines. Qed.
#[local] Hint Resolve lines_poll : lines.
Lemma lines_advance : Lines (advance_auto fuel).
Proof. lines. Qed.
Lemma lines_handle_input input : Lines (handle_input fuel input).
Proof. unfold handle_input. lines. Qed.
#[local] Hint Resolve lines_advance lines_handle_input : lines.
Lemma lines_main_loop rounds : Lines (main_loop fuel rounds).
Proof. induction rounds; cbn [main_loop]; lines. Qed.
Lemma lines_until rounds : Lines (until_idle fuel rounds).
Proof. induction rounds; cbn [until_idle]; lines. Qed.
Lemma lines_close_loop rounds : forall deadline, Lines (close_loop fuel rounds deadline).
Proof. induction rounds; intros deadline; cbn [close_loop]; lines. Qed.
#[local] Hint Resolve lines_main_loop lines_until lines_close_loop : lines.

(** The last command may fail, and the console ends. *)
Definition Ends {A} (m : Act A) : Prop :=
  forall s, InStep s -> wp m (fun _ s' => Ordered s'.(log)) (fun _ s' => Ordered s'.(log)) s.
Lemma ends_lines {A} (m : Act A) : Lines m -> Ends m.
Proof. intros Hm s Hs. eapply wp_conseq; [apply Hm, Hs| |auto]. cbn. intros _ s' H. eapply At_Ordered, H. Qed.
Lemma ends_bind {A B} (m : Act A) (k : A -> Act B) : Lines m -> (forall a, Ends (k a)) -> Ends (m ≫= k).
Proof. intros Hm Hk s Hs. apply wp_bind. eapply wp_conseq; [apply Hm, Hs| |auto]. intros a s'. apply Hk. Qed.
Lemma ends_close : Ends (close fuel).
Proof.
  unfold close. do 4 (apply ends_bind; [lines|intros ?]). apply ends_bind; [lines|]. intros []; cbn [negb].
  - apply ends_lines. lines.
  - intros s Hs. apply wp_bind, wp_attempt.
    assert (Hc : Lines (command fuel "close_session")) by lines.
    eapply wp_conseq; [apply Hc, Hs|..]; cbn.
    + intros _ s' H. eapply At_Ordered, H.
    + intros [] s' H; exact H.
Qed.
Lemma ends_run instruction survey : Ends (run fuel instruction survey).
Proof.
  unfold run. do 3 (apply ends_bind; [lines|intros ?]). destruct instruction as [instruction|].
  - apply ends_lines. lines.
  - apply ends_bind; [lines|]. intros _. apply ends_bind; [lines|]. intros _. apply ends_close.
Qed.
End Sending.
End Reading.

(** A console that is connected with a request template of the right width. *)
Lemma connect_InStep template executor address timeout gain directory path loaded time :
  is_u64 template.(PlanRequest.request_id) -> is_u64 template.(PlanRequest.session_generation) ->
  (length (default [] (option_map fst loaded)) <= HISTORY_LIMIT)%nat ->
  InStep (state (connect template executor address timeout gain directory path loaded time) []).
Proof. intros [] [] Hh. constructor; cbn; auto; lia. Qed.

(** What it means for a log to be ordered, without the bounds. *)
Lemma Ordered_commands l newer c older :
  Ordered l -> commands l = newer ++ c :: older ->
  c.(Command.command_id) = command_number (length older)
  /\ is_u64 c.(Command.session_generation)
  /\ (forall c', c' ∈ older -> c'.(Command.session_generation) <= c.(Command.session_generation))
  /\ forall request, c.(Command.context) = Some request ->
      request.(PlanRequest.session_generation) = c.(Command.session_generation)
      /\ is_u64 request.(PlanRequest.request_id)
      /\ forall c' request', c' ∈ older -> c'.(Command.context) = Some request' ->
           request'.(PlanRequest.request_id) < request.(PlanRequest.request_id).
Proof.
  intros [H _] E. rewrite E in H. apply Numbered_suffix in H as (next&generation&?&?&Hid&Hg&H).
  split; [exact Hid|]. split; [split; lia|]. split.
  - intros c' Hc'. destruct (Command.context c) as [request|].
    + destruct H as (_&_&H). apply (Numbered_older _ _ _ _ H Hc').
    + apply (Numbered_older _ _ _ _ H Hc').
  - intros request Er. rewrite Er in H. destruct H as (Hsame&Hr&H). split; [exact Hsame|].
    split; [split; lia|]. intros c' request' Hc'. apply (Numbered_older _ _ _ _ H Hc').
Qed.
