(* ===== verification/ConsoleOptions.v ===== *)
(** * The options of the console

    [controller/src/bin/sdr-agent.rs], lines 2227 to 2426 and 2604 to 2617: the
    command line of [sdr-agent], the place of the session file, and the bounded
    read of the request template. A path is its text. *)
From S2P Require Import Prelude Hoare Text Net Utf8 F32 Protocol Policy Framing Sdr SweepPlan Session Numbers Console ConsoleSamples.

(** [Path::is_absolute] and [Path::join] for a relative second path. *)
Definition is_absolute (path : string) : bool := starts_with "/" path.
Definition join_path (path file : string) : string :=
  match List.rev (bytes path) with
  | [] => file
  | b :: _ => if b =? 47 then path +:+ file else path +:+ "/" +:+ file
  end.

(** Integers of [bits] bits by [str::parse]: a sign where the type has one. *)
Definition parse_unsigned (maximum : Z) (s : string) : result AppError Z :=
  n ← ok_or Unparsable (parse_u64 s) ;
  if maximum <? n then Err Unparsable else Ok n.
Definition parse_number : string -> result AppError Z := parse_unsigned u64_max.

Module Options.
Record t := mk {
  socket_path : string;
  request_path : string;
  instruction : option string;
  sdrd_address : option SocketAddr.t;
  sdrd_timeout_ms : Z;
  survey_gain_db : Z;
  initial_survey : option InitialSurveyOptions.t;
  sigmf_directory : option string;
  session_state_path : option string;
}.
End Options.

(** The variables of [parse] while the arguments are read. *)
Module Arguments.
Record t := mk {
  socket_path : string;
  request_path : string;
  instruction : list string;
  sdrd_address : option SocketAddr.t;
  sdrd_timeout_ms : Z;
  survey_gain_db : Z;
  start_hz : option Z;
  stop_hz : option Z;
  step_hz : option Z;
  dwell_ms : option Z;
  gain_db : option Z;
  sigmf_directory : option string;
  session_state_path : option string;
  session_state_disabled : bool;
}.
Definition default : t :=
  {| socket_path := "/run/sdr-agent/session.sock";
     request_path := "/etc/sdr-agent/request.json";
     instruction := [];
     sdrd_address := None;
     sdrd_timeout_ms := 5000;
     survey_gain_db := 20;
     start_hz := None;
     stop_hz := None;
     step_hz := None;
     dwell_ms := None;
     gain_db := None;
     sigmf_directory := None;
     session_state_path := None;
     session_state_disabled := false |}.

Definition eta (a : t) : t :=
  mk a.(socket_path) a.(request_path) a.(instruction) a.(sdrd_address) a.(sdrd_timeout_ms)
    a.(survey_gain_db) a.(start_hz) a.(stop_hz) a.(step_hz) a.(dwell_ms) a.(gain_db)
    a.(sigmf_directory) a.(session_state_path) a.(session_state_disabled).
Ltac assign field := assign_field eta field.
Definition with_socket_path : string -> t -> t := ltac:(assign socket_path).
Definition with_request_path : string -> t -> t := ltac:(assign request_path).
Definition with_instruction : list string -> t -> t := ltac:(assign instruction).
Definition with_sdrd_address : option SocketAddr.t -> t -> t := ltac:(assign sdrd_address).
Definition with_sdrd_timeout_ms : Z -> t -> t := ltac:(assign sdrd_timeout_ms).
Definition with_survey_gain_db : Z -> t -> t := ltac:(assign survey_gain_db).
Definition with_start_hz : option Z -> t -> t := ltac:(assign start_hz).
Definition with_stop_hz : option Z -> t -> t := ltac:(assign stop_hz).
Definition with_step_hz : option Z -> t -> t := ltac:(assign step_hz).
Definition with_dwell_ms : option Z -> t -> t := ltac:(assign dwell_ms).
Definition with_gain_db : option Z -> t -> t := ltac:(assign gain_db).
Definition with_sigmf_directory : option string -> t -> t := ltac:(assign sigmf_directory).
Definition with_session_state (path : option string) (disabled : bool) (a : t) : t :=
  mk a.(socket_path) a.(request_path) a.(instruction) a.(sdrd_address) a.(sdrd_timeout_ms)
    a.(survey_gain_db) a.(start_hz) a.(stop_hz) a.(step_hz) a.(dwell_ms) a.(gain_db)
    a.(sigmf_directory) path disabled.
End Arguments.

(** What an option with a value does to the variables. *)
Definition set_option (flag value : string) (a : Arguments.t) : result AppError Arguments.t :=
  if String.eqb flag "--socket" then Ok (Arguments.with_socket_path value a)
  else if String.eqb flag "--request" then Ok (Arguments.with_request_path value a)
  else if String.eqb flag "--sdrd" then
    address ← ok_or Unparsable (parse_socket_addr value) ;
    Ok (Arguments.with_sdrd_address (Some address) a)
  else if String.eqb flag "--sdrd-timeout-ms" then
    n ← parse_number value ; Ok (Arguments.with_sdrd_timeout_ms n a)
  else if String.eqb flag "--survey-gain-db" then
    n ← parse_number value ; Ok (Arguments.with_survey_gain_db n a)
  else if String.eqb flag "--sigmf-directory" then
    Ok (Arguments.with_sigmf_directory (Some value) a)
  else if String.eqb flag "--session-state" then
    Ok (if String.eqb value "off" then Arguments.with_session_state None true a
        else Arguments.with_session_state (Some value) false a)
  else if String.eqb flag "--initial-survey-start-hz" then
    n ← parse_number value ; Ok (Arguments.with_start_hz (Some n) a)
  else if String.eqb flag "--initial-survey-stop-hz" then
    n ← parse_number value ; Ok (Arguments.with_stop_hz (Some n) a)
  else if String.eqb flag "--initial-survey-step-hz" then
    n ← parse_number value ; Ok (Arguments.with_step_hz (Some n) a)
  else if String.eqb flag "--initial-survey-dwell-ms" then
    n ← parse_number value ; Ok (Arguments.with_dwell_ms (Some n) a)
  else
    n ← parse_number value ; Ok (Arguments.with_gain_db (Some n) a).

Definition takes_value (arg : string) : bool :=
  one_of arg
    ["--socket"; "--request"; "--sdrd"; "--sdrd-timeout-ms"; "--survey-gain-db"; "--sigmf-directory";
     "--session-state"; "--initial-survey-start-hz"; "--initial-survey-stop-hz";
     "--initial-survey-step-hz"; "--initial-survey-dwell-ms"; "--initial-survey-gain-db"]%string.

(** The loop over the arguments. *)
Fixpoint parse_arguments (args : list string) (a : Arguments.t) : result AppError Arguments.t :=
  match args with
  | [] => Ok a
  | arg :: args =>
      if takes_value arg then
        match args with
        | [] => invalid_input ("missing " +:+ arg +:+ " value")
        | value :: args => a ← set_option arg value a ; parse_arguments args a
        end
      else if starts_with "-" arg then invalid_input ("unknown option " +:+ arg)
      else parse_arguments args (Arguments.with_instruction (a.(Arguments.instruction) ++ [arg]) a)
  end.

(** [default_terminal_state_path], the two environment variables given. *)
Definition default_terminal_state_path (xdg_state_home home : option string) : result AppError string :=
  match (root ← xdg_state_home ; if is_absolute root then Some root else None) with
  | Some root => Ok (join_path root "sdrharness/terminal-session.json")
  | None =>
      home ← ok_or (InvalidInput "HOME or absolute XDG_STATE_HOME is required for session state")
               (path ← home ; if is_absolute path then Some path else None) ;
      Ok (join_path home ".local/state/sdrharness/terminal-session.json")
  end.

Definition GAIN_MESSAGE : string := "survey gain must be between 0 and 60 dB".
Definition INITIAL_GAIN_MESSAGE : string := "initial survey gain must be between 0 and 60 dB".
(** [u64 as i16] with [try_into]. *)
Definition gain_of (message : string) (n : Z) : result AppError Z :=
  if 32767 <? n then invalid_input message
  else if in_range 0 60 n then Ok n else invalid_input message.

Section Parse.
Context {json : Json}.

(** The plan the options of an initial survey are tried with. *)
Definition trial_plan (options : InitialSurveyOptions.t) : SweepPlan.t :=
  sweep_plan "initial-options" 1
    (SweepFrequencies.Range options.(InitialSurveyOptions.start_hz)
       options.(InitialSurveyOptions.stop_hz) options.(InitialSurveyOptions.step_hz))
    10000000 10000000 options.(InitialSurveyOptions.dwell_ms) options.(InitialSurveyOptions.gain_db).

Definition parse_initial_survey (a : Arguments.t) (survey_gain_db : Z)
    : result AppError (option InitialSurveyOptions.t) :=
  match a.(Arguments.start_hz), a.(Arguments.stop_hz), a.(Arguments.step_hz), a.(Arguments.dwell_ms) with
  | None, None, None, None =>
      if is_none a.(Arguments.gain_db) then Ok None
      else invalid_input "initial survey requires start, stop, step, and dwell"
  | Some start_hz, Some stop_hz, Some step_hz, Some dwell_ms =>
      gain_db ← gain_of INITIAL_GAIN_MESSAGE (default survey_gain_db a.(Arguments.gain_db)) ;
      let options := InitialSurveyOptions.mk start_hz stop_hz step_hz dwell_ms gain_db in
      _ ← map_err sweep_failed (validate_plan (trial_plan options)) ;
      Ok (Some options)
  | _, _, _, _ => invalid_input "initial survey requires start, stop, step, and dwell"
  end.

(** [Options::parse], without the name of the program. *)
Definition parse (args : list string) (xdg_state_home home : option string) : result AppError Options.t :=
  a ← parse_arguments args Arguments.default ;
  reject_if (negb (in_range 100 60000 a.(Arguments.sdrd_timeout_ms)))
    (InvalidInput "--sdrd-timeout-ms must be between 100 and 60000") ;;
  survey_gain_db ← gain_of GAIN_MESSAGE a.(Arguments.survey_gain_db) ;
  initial_survey ← parse_initial_survey a survey_gain_db ;
  let instruction :=
    match a.(Arguments.instruction) with [] => None | words => Some (join " " words) end in
  session_state_path ←
    (if is_none instruction && negb a.(Arguments.session_state_disabled)
        && is_none a.(Arguments.session_state_path)
     then path ← default_terminal_state_path xdg_state_home home ; Ok (Some path)
     else Ok a.(Arguments.session_state_path)) ;
  reject_if match session_state_path with Some path => negb (is_absolute path) | None => false end
    (InvalidInput "--session-state must be an absolute path or off") ;;
  Ok {| Options.socket_path := a.(Arguments.socket_path);
        Options.request_path := a.(Arguments.request_path);
        Options.instruction := instruction;
        Options.sdrd_address := a.(Arguments.sdrd_address);
        Options.sdrd_timeout_ms := a.(Arguments.sdrd_timeout_ms);
        Options.survey_gain_db := survey_gain_db;
        Options.initial_survey := initial_survey;
        Options.sigmf_directory := a.(Arguments.sigmf_directory);
        Options.session_state_path := session_state_path |}.

(** [read_bounded], the rest of the template file given. *)
Definition read_bounded (content : result AppError (list Z)) : result AppError (list Z) :=
  content ← content ;
  let bytes := take (Z.to_nat (MAX_FRAME_BYTES + 1)) content in
  if MAX_FRAME_BYTES <? length_z bytes then invalid_input "request template exceeds 32 KiB"
  else Ok bytes.
End Parse.

(** ** What the options guarantee *)
Lemma parse_number_range s n : parse_number s = Ok n -> is_u64 n.
Proof.
  unfold parse_number, parse_unsigned. rewrite bind_Ok. intros (m&Hm&H).
  apply ok_or_Ok, parse_u64_range in Hm. destruct (u64_max <? m); [discriminate|]. now injection H as <-.
Qed.

(** The numbers an initial survey is made of are [u64]. *)
Record Wide (a : Arguments.t) : Prop := {
  wide_start : forall n, a.(Arguments.start_hz) = Some n -> is_u64 n;
  wide_stop : forall n, a.(Arguments.stop_hz) = Some n -> is_u64 n;
  wide_step : forall n, a.(Arguments.step_hz) = Some n -> is_u64 n;
  wide_dwell : forall n, a.(Arguments.dwell_ms) = Some n -> is_u64 n;
}.

Lemma set_option_wide flag value a a' : Wide a -> set_option flag value a = Ok a' -> Wide a'.
Proof.
  intros [H1 H2 H3 H4]. unfold set_option.
  repeat (destruct (String.eqb flag _); [first [intros [= <-]; constructor; assumption
    | rewrite bind_Ok; intros (n&Hn&[= <-]); try apply parse_number_range in Hn;
      constructor; cbn; try assumption; now intros ? [= <-]
    | destruct (String.eqb value _); intros [= <-]; constructor; assumption]|]).
  rewrite bind_Ok. intros (n&Hn&[= <-]). constructor; assumption.
Qed.

Lemma parse_arguments_wide args a a' : Wide a -> parse_arguments args a = Ok a' -> Wide a'.
Proof.
  remember (length args) as n eqn:Hn. revert args a Hn.
  induction (lt_wf n) as [n _ IH]. intros args a -> Ha.
  destruct args as [|arg args]; cbn [parse_arguments]; [now intros [= <-]|].
  destruct (takes_value arg).
  - destruct args as [|value args]; [discriminate|]. rewrite bind_Ok. intros (a1&H1&H).
    eapply (IH (length args)); [cbn; lia|reflexivity| |exact H]. eapply set_option_wide; eauto.
  - destruct (starts_with "-" arg); [discriminate|]. intros H.
    eapply (IH (length args)); [cbn; lia|reflexivity| |exact H].
    destruct Ha. constructor; assumption.
Qed.

Lemma wide_default : Wide Arguments.default.
Proof. constructor; discriminate. Qed.

Lemma gain_of_Ok message n g : gain_of message n = Ok g <-> g = n /\ 0 <= n <= 60.
Proof.
  unfold gain_of, in_range. destruct (Z.ltb_spec 32767 n); [split; [discriminate|lia]|].
  destruct (Z.leb_spec 0 n), (Z.leb_spec n 60); cbn [andb]; split;
    try discriminate; try lia; [now intros [= <-]|now intros [-> _]].
Qed.

Section Accepted.
Context {json : Json}.

Record OptionsOk (o : Options.t) : Prop := {
  oo_timeout : 100 <= o.(Options.sdrd_timeout_ms) <= 60000;
  oo_gain : 0 <= o.(Options.survey_gain_db) <= 60;
  oo_survey : forall survey, o.(Options.initial_survey) = Some survey ->
    is_u64 survey.(InitialSurveyOptions.start_hz) /\ is_u64 survey.(InitialSurveyOptions.stop_hz)
    /\ is_u64 survey.(InitialSurveyOptions.step_hz) /\ is_u64 survey.(InitialSurveyOptions.dwell_ms)
    /\ exists v, validate_plan (trial_plan survey) = Ok v;
  oo_state : forall path, o.(Options.session_state_path) = Some path -> is_absolute path = true;
}.

Lemma parse_initial_survey_Ok a gain survey :
  Wide a -> parse_initial_survey a gain = Ok (Some survey) ->
  is_u64 survey.(InitialSurveyOptions.start_hz) /\ is_u64 survey.(InitialSurveyOptions.stop_hz)
  /\ is_u64 survey.(InitialSurveyOptions.step_hz) /\ is_u64 survey.(InitialSurveyOptions.dwell_ms)
  /\ exists v, validate_plan (trial_plan survey) = Ok v.
Proof.
  intros [H1 H2 H3 H4]. unfold parse_initial_survey.
  destruct (Arguments.start_hz a), (Arguments.stop_hz a), (Arguments.step_hz a), (Arguments.dwell_ms a);
    try discriminate; [|now destruct (is_none _)].
  rewrite bind_Ok. intros (g&_&H). apply bind_Ok in H as (v&Hv&[= <-]).
  rewrite map_err_Ok in Hv. cbn. split_and!; auto. now exists v.
Qed.

Lemma parse_ok args xdg home o : parse args xdg home = Ok o -> OptionsOk o.
Proof.
  unfold parse. rewrite bind_Ok. intros (a&Ha&H).
  pose proof (parse_arguments_wide _ _ _ wide_default Ha) as Hwide.
  apply reject_seq in H as [Htimeout H].
  apply bind_Ok in H as (gain&Hgain&H). apply gain_of_Ok in Hgain as [-> Hgain].
  apply bind_Ok in H as (survey&Hsurvey&H). apply bind_Ok in H as (path&_&H).
  apply reject_seq in H as [Hpath [= <-]]. constructor; cbn.
  - unfold in_range in Htimeout. lia.
  - exact Hgain.
  - intros s Hs. subst survey. eapply parse_initial_survey_Ok; eauto.
  - intros q ->. destruct (is_absolute q); [reflexivity|discriminate].
Qed.
End Accepted.

(** ** An accepted survey starts *)
Section Start.
Context {json : Json}.

(** The plan of the initial survey in session generation [generation]. *)
Definition initial_plan (options : InitialSurveyOptions.t) (generation : Z) : SweepPlan.t :=
  sweep_plan ("initial-" +:+ print_u generation) generation
    (SweepFrequencies.Range options.(InitialSurveyOptions.start_hz)
       options.(InitialSurveyOptions.stop_hz) options.(InitialSurveyOptions.step_hz))
    10000000 10000000 options.(InitialSurveyOptions.dwell_ms) options.(InitialSurveyOptions.gain_db).

Lemma sweep_plan_wf id generation start stop step dwell gain :
  is_u64 generation -> is_u64 start -> is_u64 stop -> is_u64 step -> is_u64 dwell ->
  SweepPlan.wf (sweep_plan id generation (SweepFrequencies.Range start stop step)
                  10000000 10000000 dwell gain).
Proof.
  intros. unfold SweepPlan.wf, sweep_plan. cbn. unfold is_u64, is_u, u64_max, u32_max in *.
  split_and!; lia.
Qed.

(** The identifier and the generation are all the trial plan differs in. *)
Lemma trial_plan_transfers survey generation v :
  is_u64 survey.(InitialSurveyOptions.start_hz) -> is_u64 survey.(InitialSurveyOptions.stop_hz) ->
  is_u64 survey.(InitialSurveyOptions.step_hz) -> is_u64 survey.(InitialSurveyOptions.dwell_ms) ->
  0 < generation <= u64_max ->
  validate_plan (trial_plan survey) = Ok v ->
  exists v', validate_plan (initial_plan survey generation) = Ok v'
  /\ v'.(ValidatedSweepPlan.centers_hz) = v.(ValidatedSweepPlan.centers_hz).
Proof.
  intros Hstart Hstop Hstep Hdwell Hg Hv.
  assert (Hone : is_u64 1) by (unfold is_u64, u64_max; lia).
  assert (Hgen : is_u64 generation) by (unfold is_u64 in *; lia).
  apply validate_plan_spec in Hv as (centers&He&Hok&->); [|now apply sweep_plan_wf].
  exists (validated_of (initial_plan survey generation) centers). split; [|reflexivity].
  apply validate_plan_spec; [now apply sweep_plan_wf|]. exists centers. split; [exact He|].
  split; [|reflexivity]. destruct Hok. constructor; try assumption.
  - apply printed_id_safe; [apply safe_id_spec; reflexivity|vm_compute; discriminate|exact Hgen].
  - cbn. lia.
Qed.

Context {world : World}.

Lemma wp_start_initial_survey survey address v s :
  ConsoleApp.busy s.(app) = false ->
  s.(app).(ConsoleApp.sdrd_address) = Some address ->
  validate_plan (initial_plan survey s.(app).(ConsoleApp.session_generation)) = Ok v ->
  let look := Observe address s.(app).(ConsoleApp.sdrd_timeout) :: s.(log) in
  (exists snapshot, observed look = Ok snapshot
     /\ snapshot.(SdrSnapshot.online) && snapshot.(SdrSnapshot.healthy) = true) ->
  wp (start_initial_survey survey)
    (fun _ s' =>
       s'.(log) = StartSweep address (Z.max s.(app).(ConsoleApp.sdrd_timeout) 500)
                    s.(app).(ConsoleApp.sigmf_directory)
                    (initial_plan survey s.(app).(ConsoleApp.session_generation))
                    ActiveSweepKind.Initial :: look
       /\ s'.(app).(ConsoleApp.template).(PlanRequest.state) = ControllerState.Surveying)
    (fun _ _ => False) s.
Proof.
  intros Hidle Haddress Hv look (snapshot&Hsnap&Hhealthy). unfold start_initial_survey.
  apply wp_bind, wp_gets. rewrite Hidle. apply wp_bind, wp_gets. rewrite Haddress. apply wp_bind.
  unfold refresh_sdr_health. apply wp_bind, wp_gets. rewrite Haddress.
  apply wp_bind, wp_gets, wp_bind, wp_bind, wp_modify, wp_gets, wp_bind, wp_gets.
  cbn [app log]. fold look. rewrite Hsnap.
  apply wp_bind, wp_modify, wp_ret. rewrite Hhealthy. cbn [negb].
  apply wp_bind, wp_gets. cbn [app ConsoleApp.session_generation ConsoleApp.with_health
    ConsoleApp.with_observation ConsoleApp.with_template].
  apply wp_bind, wp_lift.
  - intros v' _. unfold start_sweep. apply wp_bind, wp_bind, wp_gets, wp_bind, wp_gets.
    cbn zeta. apply wp_bind, wp_gets, wp_bind, wp_modify, wp_modify, wp_modify. cbn. now split.
  - intros e He. fold (initial_plan survey (ConsoleApp.session_generation (app s))) in He.
    rewrite Hv in He. discriminate.
Qed.
End Start.

(** C15: the options an operator starts the console with are checked completely at the
    start: when [Options::parse] accepts an initial survey, then in every session
    generation an idle console with a healthy radio starts it without an
    error, over exactly the centers that were checked; so that the survey cannot be
    refused later by its own plan. *)
Theorem accepted_surveys_start
    {json : Json} {world : World} (args : list string) (xdg_state_home home : option string) (options : Options.t)
    (survey : InitialSurveyOptions.t) (address : string) (snapshot : SdrSnapshot.t) (s : State)
    (Hparse : parse args xdg_state_home home = Ok options)
    (Hsurvey : options.(Options.initial_survey) = Some survey)
    (Hidle : ConsoleApp.busy s.(app) = false)
    (Haddress : s.(app).(ConsoleApp.sdrd_address) = Some address)
    (Hgeneration : 0 < s.(app).(ConsoleApp.session_generation) <= u64_max)
    (Hlook : observed (Observe address s.(app).(ConsoleApp.sdrd_timeout) :: s.(log)) = Ok snapshot)
    (Hhealthy : snapshot.(SdrSnapshot.online) && snapshot.(SdrSnapshot.healthy) = true) :
  exists trial sweep validated directory timeout s',
    start_initial_survey survey s = (Ok tt, s')
    /\ s'.(log) = StartSweep address timeout directory sweep ActiveSweepKind.Initial
                  :: Observe address s.(app).(ConsoleApp.sdrd_timeout) :: s.(log)
    /\ validate_plan sweep = Ok validated /\ validate_plan (trial_plan survey) = Ok trial
    /\ validated.(ValidatedSweepPlan.centers_hz) = trial.(ValidatedSweepPlan.centers_hz)
    /\ s'.(app).(ConsoleApp.template).(PlanRequest.state) = ControllerState.Surveying.
Proof.
  destruct (oo_survey _ (parse_ok _ _ _ _ Hparse) _ Hsurvey) as (H1&H2&H3&H4&trial&Htrial).
  destruct (trial_plan_transfers survey _ trial H1 H2 H3 H4 Hgeneration Htrial) as (v&Hv&Hc).
  pose proof (wp_start_initial_survey survey address v s Hidle Haddress Hv
                (ex_intro _ snapshot (conj Hlook Hhealthy))) as H.
  unfold wp in H. destruct (start_initial_survey survey s) as [[[]|e] s']; [|destruct H].
  destruct H as [Hlog Hstate]. do 6 eexists. split; [reflexivity|]. split; [exact Hlog|].
  split; [exact Hv|]. split; [exact Htrial|]. split; [exact Hc|exact Hstate].
Qed.

Definition sample_arguments : list string :=
  ["--sdrd"; "192.168.1.10:43110"; "--initial-survey-start-hz"; "2400000000";
   "--initial-survey-stop-hz"; "2480000000"; "--initial-survey-step-hz"; "8000000";
   "--initial-survey-dwell-ms"; "20"; "--session-state"; "off"]%string.
Definition sample_survey : InitialSurveyOptions.t :=
  InitialSurveyOptions.mk 2400000000 2480000000 8000000 20 20.

#[local] Existing Instances sample_json sample_access sample_plan.
Lemma accepted_surveys_start_witness :
  exists options trial sweep validated directory timeout s',
    @parse sample_json sample_arguments None None = Ok options
    /\ @start_initial_survey _ survey_world sample_survey (state console []) = (Ok tt, s')
    /\ s'.(log) = [StartSweep "radio:43110" timeout directory sweep ActiveSweepKind.Initial;
                   Observe "radio:43110" 5000]
    /\ @validate_plan sample_json sweep = Ok validated
    /\ @validate_plan sample_json (trial_plan sample_survey) = Ok trial
    /\ validated.(ValidatedSweepPlan.centers_hz) = trial.(ValidatedSweepPlan.centers_hz)
    /\ s'.(app).(ConsoleApp.template).(PlanRequest.state) = ControllerState.Surveying.
Proof.
  assert (E : exists options, @parse sample_json sample_arguments None None = Ok options
                /\ options.(Options.initial_survey) = Some sample_survey)
    by (vm_compute; eexists; split; reflexivity).
  destruct E as (options&Hparse&Hsurvey).
  destruct (@accepted_surveys_start _ survey_world sample_arguments None None options sample_survey
              "radio:43110" healthy (state console []) Hparse Hsurvey)
    as (trial&sweep&validated&directory&timeout&s'&H); try reflexivity; [vm_compute; split; congruence|].
  exists options, trial, sweep, validated, directory, timeout, s'. split; [exact Hparse|exact H].
Defined.

(** ** Numbers that were printed are read back *)
Definition value_of (bs : list Z) (acc : Z) : Z := fold_left (fun acc b => acc * 10 + (b - 48)) bs acc.

Lemma print_digits_value fuel k n acc :
  (k < fuel)%nat -> 0 <= n < 10 ^ Z.of_nat (S k) ->
  exists ds, bytes (print_digits fuel n acc) = ds ++ bytes acc /\ ds <> []
  /\ Forall (fun b => in_range 48 57 b = true) ds /\ value_of ds 0 = n.
Proof.
  revert k n acc. induction fuel as [|fuel IH]; intros k n acc Hk Hn; [lia|].
  cbn [print_digits].
  assert (Hd : byte_of (digit (n mod 10)) = 48 + n mod 10).
  { pose proof (Z.mod_pos_bound n 10 ltac:(lia)). unfold digit. apply byte_of_char_of. lia. }
  assert (Hdigit : in_range 48 57 (48 + n mod 10) = true).
  { pose proof (Z.mod_pos_bound n 10 ltac:(lia)). unfold in_range. lia. }
  destruct (Z.eqb_spec (n / 10) 0) as [E|E].
  - exists [48 + n mod 10]. cbn [bytes app]. rewrite Hd. split; [reflexivity|]. split; [discriminate|].
    split; [now repeat constructor|]. cbn. pose proof (Z.div_mod n 10). lia.
  - destruct k as [|k]; [exfalso; apply E, Z.div_small; cbn in Hn; lia|].
    destruct (IH k (n / 10) (String (digit (n mod 10)) acc)) as (ds&Eb&Hne&Hf&Hv).
    { lia. }
    { split; [apply Z.div_pos; lia|]. apply Z.div_lt_upper_bound; [lia|].
      replace (10 * 10 ^ Z.of_nat (S k)) with (10 ^ Z.of_nat (S (S k))); [lia|].
      rewrite (Nat2Z.inj_succ (S k)), Z.pow_succ_r by lia. reflexivity. }
    exists (ds ++ [48 + n mod 10]). rewrite Eb. cbn [bytes]. rewrite Hd, <- app_assoc.
    split; [reflexivity|]. split; [now destruct ds|].
    split; [apply Forall_app; split; [exact Hf|now repeat constructor]|].
    unfold value_of in *. rewrite fold_left_app, Hv. cbn. pose proof (Z.div_mod n 10). lia.
Qed.

Lemma parse_digits_value ds acc :
  Forall (fun b => in_range 48 57 b = true) ds -> 0 <= acc -> value_of ds acc <= u64_max ->
  parse_digits ds acc = Some (value_of ds acc).
Proof.
  intros Hf. revert acc. induction Hf as [|b ds Hb Hf IH]; intros acc Hacc Hv; [reflexivity|].
  cbn [parse_digits]. rewrite Hb. unfold in_range in Hb.
  assert (Hle : acc * 10 + (b - 48) <= value_of ds (acc * 10 + (b - 48))).
  { assert (Hmono : forall l a, Forall (fun b => in_range 48 57 b = true) l -> 0 <= a -> a <= value_of l a).
    { intros l. induction l as [|c l IHl]; intros a Hl Ha; [cbn; lia|].
      apply list.Forall_cons in Hl as [Hc Hl]. unfold in_range in Hc.
      change (value_of (c :: l) a) with (value_of l (a * 10 + (c - 48))).
      specialize (IHl (a * 10 + (c - 48)) Hl). lia. }
    apply Hmono; [exact Hf|lia]. }
  change (value_of (b :: ds) acc) with (value_of ds (acc * 10 + (b - 48))) in *.
  rewrite (proj2 (Z.ltb_ge _ _)) by lia. apply IH; lia.
Qed.

Lemma parse_u64_print_u n : is_u64 n -> parse_u64 (print_u n) = Some n.
Proof.
  intros Hn. destruct (print_digits_value 40 19 n EmptyString) as (ds&E&Hne&Hf&Hv).
  { lia. }
  { unfold is_u64, u64_max in Hn. change (10 ^ Z.of_nat 20) with 100000000000000000000. lia. }
  cbn [bytes] in E. rewrite app_nil_r in E. unfold parse_u64, print_u. rewrite E.
  destruct ds as [|b ds]; [now destruct Hne|].
  assert (Hb : (b =? 43) = false).
  { apply list.Forall_cons in Hf as [Hb _]. unfold in_range in Hb. lia. }
  rewrite Hb. cbn [andb]. rewrite parse_digits_value; [now rewrite Hv|exact Hf|lia|].
  rewrite Hv. apply Hn.
Qed.

Lemma parse_number_print n : is_u64 n -> parse_number (print_u n) = Ok n.
Proof.
  intros Hn. unfold parse_number, parse_unsigned. rewrite parse_u64_print_u by exact Hn. cbn [ok_or].
  change (Ok n ≫= ?f) with (f n). cbv beta.
  now rewrite (proj2 (Z.ltb_ge _ _)) by apply Hn.
Qed.
