(* ===== verification/WebConfig.v ===== *)
(** * Settings of the web console

    [web-console/src/main.rs]: the provider settings and their validation, the
    rule for the saved key, the initial survey, the model list of the provider, and
    the small text functions.  The URL parser of the [http] crate and serde_json
    are parameters. *)
From S2P Require Import Prelude Text Utf8 F32 Protocol Policy Sdr ConsoleText.

Definition MAX_PROVIDER_CONFIG_BYTES : Z := 8 * 1024.
Definition MAX_PROVIDER_MODELS : nat := Z.to_nat 512.
Definition MAX_PROVIDER_MODELS_BYTES : Z := 512 * 1024.
Definition DEFAULT_CONTEXT_WINDOW : Z := 196608.
Definition MIN_CONTEXT_WINDOW : Z := 8192.
Definition MAX_CONTEXT_WINDOW : Z := 1000000.
Definition DEFAULT_COMPRESSION_THRESHOLD_PERCENT : Z := 90.
Definition MIN_COMPRESSION_THRESHOLD_PERCENT : Z := 50.
Definition MAX_COMPRESSION_THRESHOLD_PERCENT : Z := 95.
Definition DEFAULT_SURVEY_START_HZ : Z := 70000000.
Definition DEFAULT_SURVEY_STOP_HZ : Z := 6000000000.
Definition DEFAULT_SURVEY_STEP_HZ : Z := 8000000.
Definition DEFAULT_SURVEY_DWELL_MS : Z := 5.
Definition DEFAULT_SURVEY_GAIN_DB : Z := 20.
Definition MAX_SURVEY_POINTS : Z := 768.

(** The status of a response. *)
Inductive StatusCode :=
| BAD_REQUEST
| NOT_FOUND
| CONFLICT
| TOO_MANY_REQUESTS
| INTERNAL_SERVER_ERROR
| BAD_GATEWAY
| SERVICE_UNAVAILABLE.

Inductive ApiError := Api (status : StatusCode) (message : string).
Abbreviation ApiResult := (result ApiError).
Definition bad_request {A} (message : string) : ApiResult A := Err (Api BAD_REQUEST message).
Definition internal {A} (message : string) : ApiResult A := Err (Api INTERNAL_SERVER_ERROR message).
(** [internal_error]: the error's text with status 500. *)
Definition internal_error (message : string) : ApiError := Api INTERNAL_SERVER_ERROR message.

(** ** Records *)
Module InitialSurveyConfig.
Record t := mk {
  mode : string;
  start_hz : Z;
  stop_hz : Z;
  step_hz : Z;
  dwell_ms : Z;
  gain_db : Z;
}.
Definition wf (s : t) : Prop :=
  is_u64 s.(start_hz) /\ is_u64 s.(stop_hz) /\ is_u64 s.(step_hz) /\ is_u64 s.(dwell_ms)
  /\ -32768 <= s.(gain_db) <= 32767.
End InitialSurveyConfig.

Module ProviderConfigFile.
Record t := mk {
  schema_version : Z;
  api : string;
  base_url : string;
  provider : string;
  model : string;
  api_key : string;
  context_window : Z;
  compression_threshold_percent : Z;
  initial_survey : InitialSurveyConfig.t;
  save_iq : bool;
}.
End ProviderConfigFile.

Module ProviderConfigRequest.
Record t := mk {
  api : string;
  base_url : string;
  provider : string;
  model : string;
  api_key : string;
  context_window : Z;
  compression_threshold_percent : Z;
  initial_survey : InitialSurveyConfig.t;
  save_iq : bool;
}.
Definition with_api_key (key : string) (r : t) : t :=
  mk r.(api) r.(base_url) r.(provider) r.(model) key r.(context_window)
    r.(compression_threshold_percent) r.(initial_survey) r.(save_iq).
End ProviderConfigRequest.

(** What the browser sees: everything but the key. *)
Module ProviderConfigView.
Record t := mk {
  configured : bool;
  api : string;
  base_url : string;
  provider : string;
  model : string;
  context_window : Z;
  compression_threshold_percent : Z;
  initial_survey : InitialSurveyConfig.t;
  save_iq : bool;
}.
End ProviderConfigView.

Definition default_initial_survey : InitialSurveyConfig.t :=
  InitialSurveyConfig.mk "full_band" DEFAULT_SURVEY_START_HZ DEFAULT_SURVEY_STOP_HZ
    DEFAULT_SURVEY_STEP_HZ DEFAULT_SURVEY_DWELL_MS DEFAULT_SURVEY_GAIN_DB.

Definition provider_config_view (config : ProviderConfigFile.t) : ProviderConfigView.t :=
  ProviderConfigView.mk true config.(ProviderConfigFile.api) config.(ProviderConfigFile.base_url)
    config.(ProviderConfigFile.provider) config.(ProviderConfigFile.model)
    config.(ProviderConfigFile.context_window)
    config.(ProviderConfigFile.compression_threshold_percent)
    config.(ProviderConfigFile.initial_survey) config.(ProviderConfigFile.save_iq).
Definition unconfigured : ProviderConfigView.t :=
  ProviderConfigView.mk false EmptyString EmptyString EmptyString EmptyString
    DEFAULT_CONTEXT_WINDOW DEFAULT_COMPRESSION_THRESHOLD_PERCENT default_initial_survey false.

(** ** Texts *)
Definition bounded_printable (value label : string) (maximum_bytes : Z) : ApiResult string :=
  let text := trim value in
  if is_empty text || (maximum_bytes <? len text) || has_control text then
    bad_request (label +:+ " 必须为 1–" +:+ print_u maximum_bytes +:+ " 字节可打印文本")
  else Ok text.

(** [text.bytes().enumerate().all(...)]. *)
Definition provider_id_byte (index : nat) (byte : Z) : bool :=
  is_ascii_alphanumeric byte
  || ((0 <? index)%nat && ((byte =? 46) || (byte =? 95) || (byte =? 45))).
Fixpoint provider_id_bytes (index : nat) (bs : list Z) : bool :=
  match bs with
  | [] => true
  | b :: bs => provider_id_byte index b && provider_id_bytes (S index) bs
  end.
Definition bounded_provider_id (value : string) : ApiResult string :=
  text ← bounded_printable value "Provider ID" 64 ;
  if negb (provider_id_bytes 0 (bytes text)) then
    bad_request "Provider ID 只能包含字母、数字、点、下划线和连字符"
  else Ok text.

(** [trim_end_matches('/')]. *)
Definition trim_end_slashes (s : string) : string :=
  of_bytes (List.rev (drop_while (fun b => b =? 47) (List.rev (bytes s)))).
Definition to_ascii_lowercase (s : string) : string :=
  of_bytes (map (fun b => if in_range 65 90 b then b + 32 else b) (bytes s)).

(** ** The URL of the provider *)
Module Uri.
Record t := mk {
  scheme : option string;
  (** The authority and its host. *)
  authority : option (string * string);
  query : option string;
}.
End Uri.
(** [str::parse::<axum::http::Uri>]. *)
Class UriParser := parse_uri : string -> option Uri.t.

Section Provider.
Context {uris : UriParser}.

Definition validate_provider_url (value : string) : ApiResult string :=
  text ← bounded_printable value "Base URL" 2048 ;
  uri ← ok_or (Api BAD_REQUEST "Base URL 必须是完整的 HTTP(S) URL") (parse_uri text) ;
  scheme ← ok_or (Api BAD_REQUEST "Base URL 缺少协议") uri.(Uri.scheme) ;
  '(authority, host) ← ok_or (Api BAD_REQUEST "Base URL 缺少主机") uri.(Uri.authority) ;
  reject_if (contains "@" authority || negb (is_none uri.(Uri.query)))
    (Api BAD_REQUEST "Base URL 不能包含账号信息或查询参数") ;;
  let host := to_ascii_lowercase host in
  let loopback :=
    String.eqb host "localhost" || String.eqb host "127.0.0.1" || String.eqb host "[::1]" in
  reject_if (negb (String.eqb scheme "https") && negb (String.eqb scheme "http" && loopback))
    (Api BAD_REQUEST "非 loopback 上游必须使用 HTTPS") ;;
  Ok (trim_end_slashes text).

(** ** The initial survey and the context *)
Definition SURVEY_MODE_MESSAGE : string := "首次扫描模式必须为全频段、手动频段或关闭".
Definition SURVEY_RANGE_MESSAGE : string :=
  "首次扫描必须位于 70 MHz–6 GHz，起点不高于终点，步进为 1–8 MHz，每点停留不超过 1000 ms，固定增益为 0–60 dB".
Definition validate_initial_survey (survey : InitialSurveyConfig.t) : ApiResult unit :=
  let mode := survey.(InitialSurveyConfig.mode) in
  let start_hz := survey.(InitialSurveyConfig.start_hz) in
  let stop_hz := survey.(InitialSurveyConfig.stop_hz) in
  let step_hz := survey.(InitialSurveyConfig.step_hz) in
  let dwell_ms := survey.(InitialSurveyConfig.dwell_ms) in
  reject_if (negb (String.eqb mode "full_band" || String.eqb mode "custom_band"
                   || String.eqb mode "disabled"))
    (Api BAD_REQUEST SURVEY_MODE_MESSAGE) ;;
  if String.eqb mode "disabled" then Ok tt
  else
    reject_if
      (negb (in_range DEFAULT_SURVEY_START_HZ DEFAULT_SURVEY_STOP_HZ start_hz)
       || negb (in_range DEFAULT_SURVEY_START_HZ DEFAULT_SURVEY_STOP_HZ stop_hz)
       || (stop_hz <? start_hz) || (step_hz =? 0) || (DEFAULT_SURVEY_STEP_HZ <? step_hz)
       || (1000 <? dwell_ms) || negb (in_range 0 60 survey.(InitialSurveyConfig.gain_db)))
      (Api BAD_REQUEST SURVEY_RANGE_MESSAGE) ;;
    let span := saturating_sub stop_hz start_hz in
    points ←
      ok_or (Api BAD_REQUEST "首次扫描点数溢出")
        (sum ← checked_add span (step_hz - 1) ;
         let value := sum / step_hz in
         checked_add value 1) ;
    duration_ms ←
      ok_or (Api BAD_REQUEST "首次扫描时长溢出")
        (checked_mul points (saturating_add dwell_ms 250)) ;
    reject_if ((MAX_SURVEY_POINTS <? points) || (300000 <? duration_ms))
      (Api BAD_REQUEST "首次扫描不得超过 768 个频点或 300 秒保守时长") ;;
    Ok tt.

Definition validate_context_settings (context_window threshold_percent : Z) : ApiResult unit :=
  reject_if (negb (in_range MIN_CONTEXT_WINDOW MAX_CONTEXT_WINDOW context_window))
    (Api BAD_REQUEST
       ("上下文窗口必须在 " +:+ print_u MIN_CONTEXT_WINDOW +:+ "–" +:+ print_u MAX_CONTEXT_WINDOW
        +:+ " tokens 之间")) ;;
  reject_if (negb (in_range MIN_COMPRESSION_THRESHOLD_PERCENT MAX_COMPRESSION_THRESHOLD_PERCENT
                     threshold_percent))
    (Api BAD_REQUEST
       ("自动压缩阈值必须在 " +:+ print_u MIN_COMPRESSION_THRESHOLD_PERCENT +:+ "%–"
        +:+ print_u MAX_COMPRESSION_THRESHOLD_PERCENT +:+ "% 之间")) ;;
  Ok tt.

(** ** Saving the settings *)
Definition validate_provider_request (request : ProviderConfigRequest.t)
    : ApiResult ProviderConfigFile.t :=
  let api := request.(ProviderConfigRequest.api) in
  reject_if (negb (String.eqb api "openai-completions" || String.eqb api "openai-responses"))
    (Api BAD_REQUEST "API 协议必须为 OpenAI Completions 或 Responses") ;;
  base_url ← validate_provider_url request.(ProviderConfigRequest.base_url) ;
  provider ← bounded_provider_id request.(ProviderConfigRequest.provider) ;
  model ← bounded_printable request.(ProviderConfigRequest.model) "Model ID" 256 ;
  api_key ← bounded_printable request.(ProviderConfigRequest.api_key) "API Key" 4096 ;
  validate_context_settings request.(ProviderConfigRequest.context_window)
    request.(ProviderConfigRequest.compression_threshold_percent) ;;
  validate_initial_survey request.(ProviderConfigRequest.initial_survey) ;;
  Ok (ProviderConfigFile.mk 1 api base_url provider model api_key
        request.(ProviderConfigRequest.context_window)
        request.(ProviderConfigRequest.compression_threshold_percent)
        request.(ProviderConfigRequest.initial_survey) request.(ProviderConfigRequest.save_iq)).

Definition reuse_saved_provider_key (saved : option ProviderConfigFile.t)
    (request : ProviderConfigRequest.t) : ApiResult ProviderConfigRequest.t :=
  saved ← ok_or (Api BAD_REQUEST "首次保存上游配置时必须填写 API Key") saved ;
  requested_base_url ← validate_provider_url request.(ProviderConfigRequest.base_url) ;
  if negb (String.eqb saved.(ProviderConfigFile.base_url) requested_base_url) then
    bad_request "Base URL 已改变，请重新输入 API Key"
  else Ok (ProviderConfigRequest.with_api_key saved.(ProviderConfigFile.api_key) request).

(** [save_provider_config] up to the write; the saved file is read only when no key
    was entered. *)
Definition accept_provider_config (load : ApiResult (option ProviderConfigFile.t))
    (request : ProviderConfigRequest.t) : ApiResult ProviderConfigFile.t :=
  request ←
    (if is_empty (trim request.(ProviderConfigRequest.api_key)) then
       saved ← load ; reuse_saved_provider_key saved request
     else Ok request) ;
  validate_provider_request request.

(** [discover_provider_models] up to the query: the URL and the key it is sent with. *)
Definition query_credentials (load : ApiResult (option ProviderConfigFile.t)) (base_url api_key : string)
    : ApiResult (string * string) :=
  base_url ← validate_provider_url base_url ;
  api_key ←
    (if is_empty (trim api_key) then
       saved ← load ;
       saved ← ok_or (Api BAD_REQUEST "请输入 API Key，或先保存同一 Base URL 的上游配置") saved ;
       if negb (String.eqb saved.(ProviderConfigFile.base_url) base_url) then
         bad_request "当前私密配置属于另一个 Base URL，请重新输入 API Key"
       else Ok saved.(ProviderConfigFile.api_key)
     else bounded_printable api_key "API Key" 4096) ;
  Ok (base_url, api_key).
End Provider.

(** ** The models the provider offers *)
Module ProviderModelView.
Record t := mk { id : string; context_window : option Z }.
End ProviderModelView.

(** The order of strings is that of their bytes. *)
Fixpoint bytes_leb (a b : list Z) : bool :=
  match a, b with
  | [], _ => true
  | _ :: _, [] => false
  | x :: a, y :: b => (x <? y) || ((x =? y) && bytes_leb a b)
  end.
Definition id_le (a b : ProviderModelView.t) : Prop :=
  bytes_leb (bytes a.(ProviderModelView.id)) (bytes b.(ProviderModelView.id)) = true.

(** [sort_unstable_by] on the identifiers: a sorted permutation, with equal
    identifiers in any order. *)
Class SortUnstable := {
  sort_unstable : list ProviderModelView.t -> list ProviderModelView.t;
  sort_permutation : forall l, Permutation (sort_unstable l) l;
  sort_sorted : forall l, StronglySorted id_le (sort_unstable l);
}.

(** [Vec::dedup_by]: the closure sees the next element and the last one kept,
    may change both, and drops the next one when it answers true. *)
Fixpoint dedup_from {A} (same : A -> A -> bool * A * A) (kept : A) (l : list A) : list A :=
  match l with
  | [] => [kept]
  | x :: l =>
      let '(dropped, x, kept) := same x kept in
      if dropped then dedup_from same kept l else kept :: dedup_from same x l
  end.
Definition dedup_by {A} (same : A -> A -> bool * A * A) (l : list A) : list A :=
  match l with [] => [] | x :: l => dedup_from same x l end.

(** The closure of [parse_provider_models]. *)
Definition same_model (left right : ProviderModelView.t)
    : bool * ProviderModelView.t * ProviderModelView.t :=
  if negb (String.eqb left.(ProviderModelView.id) right.(ProviderModelView.id))
  then (false, left, right)
  else if is_none left.(ProviderModelView.context_window)
  then (true, ProviderModelView.mk left.(ProviderModelView.id) right.(ProviderModelView.context_window),
        right)
  else (true, left, right).

Definition valid_remote_model_id (value : string) : option string :=
  let value := trim value in
  if is_empty value || (256 <? len value) || has_control value then None else Some value.

(** [Option::or_else]. *)
Definition or_else {A} (o p : option A) : option A := match o with Some _ => o | None => p end.

Section Models.
Context {json : Json} {access : JsonAccess} {sorting : SortUnstable}.

Definition parse_provider_model (item : Value) : option ProviderModelView.t :=
  id ← (text ← or_else (as_str item) (or_else (get "id" item) (get "model" item) ≫= as_str) ;
        valid_remote_model_id text) ;
  let windows :=
    omap (fun value => value ≫= as_u64)
      [get "context_window" item; get "context_length" item; get "max_context_length" item;
       get "max_model_len" item; pointer "limits" "context_window" item;
       pointer "top_provider" "context_length" item] in
  Some (ProviderModelView.mk id (List.find (in_range MIN_CONTEXT_WINDOW MAX_CONTEXT_WINDOW) windows)).

Definition parse_provider_models (body : list Z) : ApiResult (list ProviderModelView.t) :=
  payload ← map_err (fun _ => Api BAD_GATEWAY "上游模型接口没有返回有效 JSON") (from_slice body) ;
  items ←
    ok_or (Api BAD_GATEWAY "上游模型 JSON 缺少 data 或 models 数组")
      (or_else (get "data" payload ≫= as_array)
         (or_else (get "models" payload ≫= as_array) (as_array payload))) ;
  let models :=
    take MAX_PROVIDER_MODELS (dedup_by same_model (sort_unstable (omap parse_provider_model items))) in
  if null models then Err (Api BAD_GATEWAY "上游没有返回可用的模型 ID") else Ok models.
End Models.

(** The end of [fetch_provider_models]: the output of [curl], whose last line is the
    status that [--write-out] appends. *)
Section Answer.
Context {json : Json} {access : JsonAccess} {sorting : SortUnstable}.

(** [str::parse::<u16>] of three bytes; [from_utf8] only lets text through. *)
Definition parse_status (bs : list Z) : option Z :=
  match bs with
  | [a; b; c] =>
      let digits := if a =? 43 then [b; c] else [a; b; c] in
      if forallb (in_range 48 57) digits
      then Some (fold_left (fun n b => n * 10 + (b - 48)) digits 0)
      else None
  | _ => None
  end.

Definition read_models (stdout : list Z) : ApiResult (list ProviderModelView.t) :=
  let split_at := (length stdout - 4)%nat in
  reject_if ((length stdout <? 4)%nat || negb (nth split_at stdout 0 =? 10))
    (Api BAD_GATEWAY "上游查询缺少 HTTP 状态") ;;
  status ← ok_or (Api BAD_GATEWAY "上游 HTTP 状态无效") (parse_status (drop (S split_at) stdout)) ;
  reject_if ((300 <=? status) && (status <? 400))
    (Api BAD_GATEWAY "上游模型接口返回重定向；请直接填写最终 HTTPS Base URL") ;;
  reject_if (negb ((200 <=? status) && (status <? 300)))
    (Api BAD_GATEWAY ("上游模型接口返回 HTTP " +:+ print_u status)) ;;
  let body := take split_at stdout in
  reject_if (MAX_PROVIDER_MODELS_BYTES <? length_z body)
    (Api BAD_GATEWAY "上游模型列表超过 512 KiB 限制") ;;
  parse_provider_models body.
End Answer.

(** ** The order of identifiers *)
Lemma bytes_leb_trans a b c : bytes_leb a b = true -> bytes_leb b c = true -> bytes_leb a c = true.
Proof.
  revert b c. induction a as [|x a IH]; intros [|y b] [|z c]; try easy. cbn [bytes_leb].
  rewrite !orb_true_iff, !andb_true_iff, !Z.ltb_lt, !Z.eqb_eq. intros [H1|[-> H1]] [H2|[-> H2]]; auto.
  - left. lia.
  - right. split; [reflexivity|]. now apply (IH b).
Qed.
Lemma bytes_leb_antisym a b : bytes_leb a b = true -> bytes_leb b a = true -> a = b.
Proof.
  revert b. induction a as [|x a IH]; intros [|y b]; try easy. cbn [bytes_leb].
  rewrite !orb_true_iff, !andb_true_iff, !Z.ltb_lt, !Z.eqb_eq.
  intros [H1|[-> H1]] [H2|[? H2]]; try lia. f_equal. now apply IH.
Qed.
Lemma bytes_leb_total a b : bytes_leb a b = true \/ bytes_leb b a = true.
Proof.
  revert b. induction a as [|x a IH]; intros [|y b]; auto. cbn [bytes_leb].
  rewrite !orb_true_iff, !andb_true_iff, !Z.ltb_lt, !Z.eqb_eq.
  destruct (Z.lt_trichotomy x y) as [H|[->|H]]; auto. destruct (IH b); auto.
Qed.
#[global] Instance id_le_trans : Transitive id_le.
Proof. intros a b c. apply bytes_leb_trans. Qed.
Lemma id_le_antisym a b : id_le a b -> id_le b a -> a.(ProviderModelView.id) = b.(ProviderModelView.id).
Proof. intros H1 H2. apply bytes_inj. now apply bytes_leb_antisym. Qed.

(** Insertion sort is one such sort. *)
Fixpoint insert_model (m : ProviderModelView.t) (l : list ProviderModelView.t) : list ProviderModelView.t :=
  match l with
  | [] => [m]
  | x :: l' =>
      if bytes_leb (bytes m.(ProviderModelView.id)) (bytes x.(ProviderModelView.id))
      then m :: l else x :: insert_model m l'
  end.
Lemma insert_permutation m l : Permutation (insert_model m l) (m :: l).
Proof.
  induction l as [|x l IH]; cbn [insert_model]; [reflexivity|].
  destruct (bytes_leb _ _); [reflexivity|]. rewrite IH. apply perm_swap.
Qed.
Lemma insert_sorted m l : StronglySorted id_le l -> StronglySorted id_le (insert_model m l).
Proof.
  induction 1 as [|x l Hs IH Hx]; cbn [insert_model]; [now repeat constructor|].
  destruct (bytes_leb _ _) eqn:E.
  - constructor; [now constructor|]. constructor; [exact E|]. revert Hx. apply Forall_impl.
    intros y Hy. now apply (id_le_trans m x y).
  - constructor; [exact IH|]. rewrite insert_permutation. constructor; [|exact Hx].
    destruct (bytes_leb_total (bytes m.(ProviderModelView.id)) (bytes x.(ProviderModelView.id))) as [H|H];
      [congruence|exact H].
Qed.
#[global] Program Instance insertion : SortUnstable := {| sort_unstable := foldr insert_model [] |}.
Next Obligation. induction l as [|m l IH]; cbn; [reflexivity|]. rewrite insert_permutation. now f_equiv. Qed.
Next Obligation. induction l as [|m l IH]; cbn; [constructor|]. now apply insert_sorted. Qed.

(** ** Duplicates *)
Definition first_with (id : string) (l : list ProviderModelView.t) : option ProviderModelView.t :=
  List.find (fun m => String.eqb m.(ProviderModelView.id) id) l.

Lemma dedup_step kept x l :
  dedup_from same_model kept (x :: l)
  = if String.eqb x.(ProviderModelView.id) kept.(ProviderModelView.id)
    then dedup_from same_model kept l else kept :: dedup_from same_model x l.
Proof.
  cbn [dedup_from]. unfold same_model at 1.
  destruct (String.eqb _ _); cbn [negb]; [|reflexivity]. now destruct (is_none _).
Qed.

(** Of the entries with one identifier the first is kept, as it was. *)
Lemma dedup_from_first id kept l :
  first_with id (dedup_from same_model kept l) = first_with id (kept :: l).
Proof.
  revert kept. induction l as [|x l IH]; intros kept; [reflexivity|].
  rewrite dedup_step.
  destruct (String.eqb_spec x.(ProviderModelView.id) kept.(ProviderModelView.id)) as [E|E].
  - assert (H : first_with id (kept :: x :: l) = first_with id (kept :: l)).
    { unfold first_with. cbn [List.find]. rewrite E. now destruct (String.eqb _ id). }
    rewrite H. apply IH.
  - unfold first_with in *. cbn [List.find]. rewrite IH. reflexivity.
Qed.

Lemma dedup_by_first id l : first_with id (dedup_by same_model l) = first_with id l.
Proof. destruct l as [|x l]; [reflexivity|]. apply dedup_from_first. Qed.

Definition id_lt (a b : ProviderModelView.t) : Prop :=
  id_le a b /\ a.(ProviderModelView.id) <> b.(ProviderModelView.id).

Lemma dedup_from_sorted kept l :
  StronglySorted id_le (kept :: l) ->
  StronglySorted id_lt (dedup_from same_model kept l)
  /\ Forall (fun m => m ∈ kept :: l) (dedup_from same_model kept l)
  /\ exists rest, dedup_from same_model kept l = kept :: rest.
Proof.
  revert kept. induction l as [|x l IH]; intros kept Hs.
  { cbn. split; [now repeat constructor|]. split; [|now exists []]. constructor; [left|constructor]. }
  rewrite dedup_step.
  apply StronglySorted_inv in Hs as [Hs Hk]. apply StronglySorted_inv in Hs as [Hs Hx].
  apply list.Forall_cons in Hk as [Hkx Hkl].
  destruct (String.eqb_spec x.(ProviderModelView.id) kept.(ProviderModelView.id)) as [E|E].
  - destruct (IH kept ltac:(now constructor)) as (H1&H2&H3).
    assert (H : Forall (fun m => m ∈ kept :: x :: l) (dedup_from same_model kept l)).
    { revert H2. apply Forall_impl. intros m. rewrite !elem_of_cons. tauto. }
    auto.
  - destruct (IH x ltac:(now constructor)) as (H1&H2&rest&H3). split; [|split; [|now eexists]].
    + constructor; [exact H1|]. rewrite H3 in *. apply list.Forall_cons. split; [split; [exact Hkx|congruence]|].
      apply StronglySorted_inv in H1 as [_ H1]. revert H1. apply Forall_impl. intros m [Hm Hne].
      split; [now apply (id_le_trans kept x m)|]. intros Heq. apply E.
      apply id_le_antisym; [|exact Hkx]. unfold id_le in *. now rewrite Heq.
    + constructor; [left|]. revert H2. apply Forall_impl. intros m. rewrite !elem_of_cons. tauto.
Qed.

Lemma id_lt_nodup l : StronglySorted id_lt l -> NoDup (map ProviderModelView.id l).
Proof.
  induction 1 as [|m l Hs IH Hm]; cbn; constructor; [|exact IH].
  rewrite list_elem_of_fmap. intros (n&E&Hn). rewrite list.Forall_forall in Hm.
  now apply (Hm n Hn).
Qed.

(** ** What the settings guarantee *)
Section Settings.
Context {uris : UriParser}.

(** The URL a setting was accepted with: no account, no query, and encrypted unless
    it stays on the machine. *)
Definition SafeUrl (text : string) : Prop :=
  exists uri scheme authority host,
    parse_uri text = Some uri /\ uri.(Uri.scheme) = Some scheme
    /\ uri.(Uri.authority) = Some (authority, host) /\ uri.(Uri.query) = None
    /\ contains "@" authority = false
    /\ (scheme = "https"
        \/ scheme = "http" /\ to_ascii_lowercase host ∈ ["localhost"; "127.0.0.1"; "[::1]"])%string.

Lemma bounded_printable_Ok value label maximum text :
  bounded_printable value label maximum = Ok text <->
  text = trim value /\ is_empty text = false /\ len text <= maximum /\ has_control text = false.
Proof.
  unfold bounded_printable. destruct (is_empty (trim value)) eqn:E1; cbn [orb].
  { split; [discriminate|]. intros (->&H&_). congruence. }
  destruct (Z.ltb_spec maximum (len (trim value))); cbn [orb].
  { split; [discriminate|]. intros (->&_&H'&_). lia. }
  destruct (has_control (trim value)) eqn:E3.
  { split; [discriminate|]. intros (->&_&_&H'). congruence. }
  split; [intros [= <-]; auto|]. now intros (->&_).
Qed.

Lemma validate_provider_url_Ok value url :
  validate_provider_url value = Ok url ->
  SafeUrl (trim value) /\ url = trim_end_slashes (trim value).
Proof.
  unfold validate_provider_url. rewrite bind_Ok. intros (text&Ht&H).
  apply bounded_printable_Ok in Ht as (->&_).
  apply bind_Ok in H as (uri&Huri&H). apply ok_or_Ok in Huri.
  apply bind_Ok in H as (scheme&Hscheme&H). apply ok_or_Ok in Hscheme.
  apply bind_Ok in H as ([authority host]&Hauthority&H). apply ok_or_Ok in Hauthority.
  apply reject_seq in H as [Hclean H]. apply orb_false_iff in Hclean as [Hat Hquery].
  apply reject_seq in H as [Hscheme' [= <-]]. split; [|reflexivity].
  exists uri, scheme, authority, host. split; [exact Huri|]. split; [exact Hscheme|].
  split; [exact Hauthority|]. split; [now destruct (Uri.query uri)|]. split; [exact Hat|].
  destruct (String.eqb_spec scheme "https"); [now left|]. right.
  destruct (String.eqb_spec scheme "http"); [|discriminate].
  split; [assumption|]. cbn [andb negb] in Hscheme'. apply negb_false_iff in Hscheme'.
  apply orb_true_iff in Hscheme' as [Hh|Hh]; [apply orb_true_iff in Hh as [Hh|Hh]|];
    apply String.eqb_eq in Hh; rewrite Hh; set_solver.
Qed.

Lemma validate_provider_request_Ok request config :
  validate_provider_request request = Ok config ->
  exists url, validate_provider_url request.(ProviderConfigRequest.base_url) = Ok url
  /\ config.(ProviderConfigFile.base_url) = url
  /\ config.(ProviderConfigFile.api_key) = trim request.(ProviderConfigRequest.api_key)
  /\ is_empty config.(ProviderConfigFile.api_key) = false
  /\ config.(ProviderConfigFile.initial_survey) = request.(ProviderConfigRequest.initial_survey)
  /\ validate_initial_survey config.(ProviderConfigFile.initial_survey) = Ok tt.
Proof.
  unfold validate_provider_request. intros H. apply reject_seq in H as [_ H].
  apply bind_Ok in H as (url&Hurl&H). apply bind_Ok in H as (provider&_&H).
  apply bind_Ok in H as (model&_&H). apply bind_Ok in H as (key&Hkey&H).
  apply bounded_printable_Ok in Hkey as (->&Hne&_).
  apply bind_Ok in H as ([]&_&H). apply bind_Ok in H as ([]&Hsurvey&[= <-]).
  exists url. cbn. split_and!; auto.
Qed.

(** What is sent where: the key that is kept for, or sent to, a base URL. *)
Lemma reuse_saved_provider_key_Ok saved request request' :
  reuse_saved_provider_key saved request = Ok request' ->
  exists file, saved = Some file
  /\ validate_provider_url request.(ProviderConfigRequest.base_url)
     = Ok file.(ProviderConfigFile.base_url)
  /\ request' = ProviderConfigRequest.with_api_key file.(ProviderConfigFile.api_key) request.
Proof.
  unfold reuse_saved_provider_key. rewrite bind_Ok. intros (file&Hfile&H).
  apply ok_or_Ok in Hfile as ->. apply bind_Ok in H as (url&Hurl&H).
  destruct (String.eqb_spec file.(ProviderConfigFile.base_url) url); [|discriminate].
  injection H as <-. subst url. now exists file.
Qed.
End Settings.

(** C17: the key of a provider stays with its URL: when the operator saves settings or
    queries models without entering a key, the saved key is used only if the
    requested URL is the one it was saved with; and every URL that is
    accepted, for the settings or for a query, carries no account and no query and
    is encrypted or on the machine itself. *)
Theorem saved_keys_stay_with_their_url {uris : UriParser}
    (load : ApiResult (option ProviderConfigFile.t)) :
  (forall request config,
     accept_provider_config load request = Ok config ->
     SafeUrl (trim request.(ProviderConfigRequest.base_url))
     /\ config.(ProviderConfigFile.base_url)
        = trim_end_slashes (trim request.(ProviderConfigRequest.base_url))
     /\ (config.(ProviderConfigFile.api_key) = trim request.(ProviderConfigRequest.api_key)
         \/ is_empty (trim request.(ProviderConfigRequest.api_key)) = true
            /\ exists saved, load = Ok (Some saved)
               /\ config.(ProviderConfigFile.api_key) = trim saved.(ProviderConfigFile.api_key)
               /\ config.(ProviderConfigFile.base_url) = saved.(ProviderConfigFile.base_url)))
  /\ (forall base_url entered url key,
     query_credentials load base_url entered = Ok (url, key) ->
     SafeUrl (trim base_url) /\ url = trim_end_slashes (trim base_url)
     /\ (key = trim entered
         \/ is_empty (trim entered) = true
            /\ exists saved, load = Ok (Some saved) /\ key = saved.(ProviderConfigFile.api_key)
               /\ url = saved.(ProviderConfigFile.base_url))).
Proof.
  split.
  - intros request config. unfold accept_provider_config. rewrite bind_Ok. intros (request'&Hr&H).
    apply validate_provider_request_Ok in H as (url&Hurl&Hbase&Hkey&_).
    destruct (is_empty (trim (ProviderConfigRequest.api_key request))) eqn:Hempty.
    + apply bind_Ok in Hr as (saved&Hload&Hr).
      apply reuse_saved_provider_key_Ok in Hr as (file&->&Hfile&->). cbn in Hurl, Hkey.
      rewrite Hfile in Hurl. injection Hurl as <-.
      apply validate_provider_url_Ok in Hfile as [Hsafe Htext].
      split; [exact Hsafe|]. split; [congruence|]. right. split; [reflexivity|].
      exists file. now rewrite Hload.
    + injection Hr as <-. apply validate_provider_url_Ok in Hurl as [Hsafe ->]. auto.
  - intros base_url entered url key. unfold query_credentials. rewrite bind_Ok.
    intros (url'&Hurl&H). apply bind_Ok in H as (key'&Hkey&[= <- <-]).
    apply validate_provider_url_Ok in Hurl as [Hsafe ->]. split; [exact Hsafe|]. split; [reflexivity|].
    destruct (is_empty (trim entered)) eqn:Hempty.
    + apply bind_Ok in Hkey as (saved&Hload&Hkey). apply bind_Ok in Hkey as (file&Hfile&Hkey).
      apply ok_or_Ok in Hfile as ->. right. split; [reflexivity|]. exists file.
      destruct (String.eqb_spec file.(ProviderConfigFile.base_url) (trim_end_slashes (trim base_url)));
        [|discriminate]. injection Hkey as <-. now rewrite Hload.
    + apply bounded_printable_Ok in Hkey as (->&_). now left.
Qed.

(** ** Lists of models *)
Lemma elem_of_take_in {A} n (l : list A) x : x ∈ take n l -> x ∈ l.
Proof. intros H. rewrite <- (take_drop n l). apply elem_of_app. now left. Qed.

Lemma sorted_take {A} (R : A -> A -> Prop) n l : StronglySorted R l -> StronglySorted R (take n l).
Proof.
  intros Hs. revert n. induction Hs as [|x l Hs IH Hx]; intros [|n]; cbn; try constructor; [apply IH|].
  rewrite list.Forall_forall in *. intros y Hy. apply Hx. eapply elem_of_take_in, Hy.
Qed.

(** In a list without duplicates an entry is the first with its identifier. *)
Lemma first_with_sorted l l' m :
  StronglySorted id_lt l -> m ∈ l ->
  first_with m.(ProviderModelView.id) l = first_with m.(ProviderModelView.id) l' ->
  first_with m.(ProviderModelView.id) l' = Some m.
Proof.
  intros Hs Hm <-. induction Hs as [|x l Hs IH Hx]; [inversion Hm|].
  unfold first_with. cbn [List.find]. apply elem_of_cons in Hm as [->|Hm]; [now rewrite String.eqb_refl|].
  rewrite list.Forall_forall in Hx. destruct (Hx m Hm) as [_ Hne].
  rewrite (proj2 (String.eqb_neq _ _)) by exact Hne. now apply IH.
Qed.

(** The list of models that is shown is sorted, without duplicates, bounded and not
    empty; every entry was offered by the provider, and for each identifier the list
    keeps the first entry of the sorted offers exactly as it was: the context
    window of a later duplicate is never taken over, although the
    closure of [dedup_by] is written to do so. *)
Theorem models_are_listed_once
    {json : Json} {access : JsonAccess} {sorting : SortUnstable}
    (body : list Z) (models : list ProviderModelView.t)
    (Hmodels : parse_provider_models body = Ok models) :
  exists payload items,
    from_slice body = Ok payload
    /\ (get "data" payload ≫= as_array = Some items \/ get "models" payload ≫= as_array = Some items
        \/ as_array payload = Some items)
    /\ StronglySorted id_lt models /\ NoDup (map ProviderModelView.id models)
    /\ 1 <= length_z models <= 512
    /\ (forall m, m ∈ models -> exists item, item ∈ items /\ parse_provider_model item = Some m)
    /\ forall m, m ∈ models ->
         first_with m.(ProviderModelView.id) (sort_unstable (omap parse_provider_model items)) = Some m.
Proof.
  unfold parse_provider_models in Hmodels. apply bind_Ok in Hmodels as (payload&Hpayload&H).
  apply map_err_Ok in Hpayload. apply bind_Ok in H as (items&Hitems&H). apply ok_or_Ok in Hitems.
  set (offers := sort_unstable (omap parse_provider_model items)) in *.
  assert (Hm : models = take MAX_PROVIDER_MODELS (dedup_by same_model offers) /\ models <> []).
  { destruct (take MAX_PROVIDER_MODELS (dedup_by same_model offers)); [discriminate|].
    injection H as <-. now split. }
  clear H. destruct Hm as [Hm Hne].
  assert (Hs : StronglySorted id_lt (dedup_by same_model offers)
    /\ Forall (fun m => m ∈ offers) (dedup_by same_model offers)).
  { pose proof (sort_sorted (omap parse_provider_model items)) as Hsorted. fold offers in Hsorted.
    destruct offers as [|x l]; [split; constructor|]. cbn [dedup_by].
    destruct (dedup_from_sorted x l Hsorted) as (H1&H2&_). now split. }
  destruct Hs as [Hs Hin]. rewrite list.Forall_forall in Hin.
  assert (Hmodel : forall m, m ∈ models -> m ∈ dedup_by same_model offers).
  { intros m. rewrite Hm. apply elem_of_take_in. }
  assert (Hlt : StronglySorted id_lt models) by (rewrite Hm; now apply sorted_take).
  exists payload, items. split; [exact Hpayload|]. split.
  { unfold or_else in Hitems. destruct (get "data" payload ≫= as_array); [auto|].
    destruct (get "models" payload ≫= as_array); auto. }
  split; [exact Hlt|]. split; [now apply id_lt_nodup|]. split.
  { unfold length_z. split; [destruct models; [now destruct Hne|cbn; lia]|].
    rewrite Hm, length_take. unfold MAX_PROVIDER_MODELS. lia. }
  split.
  - intros m Hm'. specialize (Hin m (Hmodel m Hm')). unfold offers in Hin.
    rewrite sort_permutation in Hin. now apply list_elem_of_omap in Hin.
  - intros m Hm'. apply (first_with_sorted (dedup_by same_model offers)); [exact Hs|now apply Hmodel|]. apply dedup_by_first.
Qed.

(** ** Evaluated samples *)
Module WebConfigSamples.
Inductive Doc := Text (s : string) | Number (n : Z) | Items (l : list Doc)
| Entry (key : string) (value rest : Doc) | Nothing.
Fixpoint fields (d : Doc) : option (gmap string Doc) :=
  match d with
  | Nothing => Some ∅
  | Entry key value rest => m ← fields rest ; Some (<[key := value]> m)
  | _ => None
  end.

(** Two offers of one model: only the second one knows its context window. *)
Definition offers : Doc :=
  Entry "data"
    (Items [Entry "id" (Text "qwen") Nothing; Text "llama";
            Entry "id" (Text "qwen") (Entry "context_length" (Number 32768) Nothing)]) Nothing.

#[local] Instance json : Json := {| Value := Doc; from_slice := fun _ => Ok offers |}.
#[local] Instance access : JsonAccess := {|
  as_object := fields;
  as_array := fun d => match d with Items l => Some l | _ => None end;
  as_str := fun d => match d with Text s => Some s | _ => None end;
  as_u64 := fun d => match d with Number n => Some n | _ => None end;
  as_bool := fun _ => None;
  quoted := fun s => Ok s;
|}.

#[local] Instance uris : UriParser := fun s =>
  if starts_with "https://" s then Some (Uri.mk (Some "https") (Some ("api.example", "api.example")) None)
  else None.

Definition saved : ProviderConfigFile.t :=
  ProviderConfigFile.mk 1 "openai-responses" "https://api.example/v1" "example" "m" "secret"
    DEFAULT_CONTEXT_WINDOW 90 default_initial_survey false.

Definition resave : ProviderConfigRequest.t :=
  ProviderConfigRequest.mk "openai-responses" "https://api.example/v1/" "example" "m" " "
    DEFAULT_CONTEXT_WINDOW 90 default_initial_survey false.
End WebConfigSamples.

(** The window of the second offer is lost. *)
Lemma models_are_listed_once_witness :
  let models := [ProviderModelView.mk "llama" None; ProviderModelView.mk "qwen" None] in
  @parse_provider_models WebConfigSamples.json WebConfigSamples.access insertion [] = Ok models
  /\ NoDup (map ProviderModelView.id models).
Proof.
  intros models.
  assert (E : @parse_provider_models WebConfigSamples.json WebConfigSamples.access insertion [] = Ok models)
    by (vm_compute; reflexivity).
  split; [exact E|].
  destruct (@models_are_listed_once WebConfigSamples.json WebConfigSamples.access insertion [] models E)
    as (payload&items&_&_&_&Hnodup&_). exact Hnodup.
Defined.

(** Saving again without a key keeps the key of the same URL. *)
Lemma saved_keys_stay_with_their_url_witness :
  exists config,
    @accept_provider_config WebConfigSamples.uris (Ok (Some WebConfigSamples.saved))
      WebConfigSamples.resave = Ok config
    /\ config.(ProviderConfigFile.base_url) = "https://api.example/v1"%string.
Proof.
  eexists. split; [vm_compute; reflexivity|].
  destruct (@saved_keys_stay_with_their_url WebConfigSamples.uris (Ok (Some WebConfigSamples.saved)))
    as [H _].
  edestruct (H WebConfigSamples.resave) as (_&Hurl&_); [vm_compute; reflexivity|].
  etransitivity; [exact Hurl|]. vm_compute. reflexivity.
Defined.
