(* ===== verification/WebAgent.v ===== *)
(** * The agent the web console starts

    [web-console/src/main.rs], the command line that [process_actor] builds, against
    [Options::parse] of the console it starts: what the web console accepts as an
    initial survey, the console accepts as options. *)
From S2P Require Import Prelude Text Net Utf8 F32 Protocol Policy Sdr SweepPlan SweepGrid Session Hoare ConsoleText Console ConsoleSamples ConsoleOptions WebConfig.

(** The part of [Config] that is passed on. *)
Module Config.
Record t := mk {
  request_path : string;
  session_socket : string;
  sdrd_address : string;
  capture_root : string;
}.
End Config.

(** [--sigmf-directory] names a directory of the session; an identifier that cannot
    be a file name is refused before the agent is started. *)
Definition valid_session_id (value : string) : bool :=
  negb (is_empty value) && (len value <=? 64)
  && forallb (fun byte => is_ascii_alphanumeric byte || (byte =? 45) || (byte =? 95)) (bytes value).

Definition survey_arguments (survey : InitialSurveyConfig.t) : list string :=
  ["--initial-survey-start-hz"%string; print_u survey.(InitialSurveyConfig.start_hz);
   "--initial-survey-stop-hz"%string; print_u survey.(InitialSurveyConfig.stop_hz);
   "--initial-survey-step-hz"%string; print_u survey.(InitialSurveyConfig.step_hz);
   "--initial-survey-dwell-ms"%string; print_u survey.(InitialSurveyConfig.dwell_ms);
   "--initial-survey-gain-db"%string; print_i survey.(InitialSurveyConfig.gain_db)].

(** The arguments of the child; [None] when nothing is started. *)
Definition agent_arguments (config : Config.t) (session_id request_path : string) (survey_gain_db : Z)
    (save_iq : bool) (initial_survey : option InitialSurveyConfig.t) : option (list string) :=
  directory ←
    (if save_iq then
       if valid_session_id session_id
       then Some ["--sigmf-directory"%string; join_path config.(Config.capture_root) session_id]
       else None
     else Some []) ;
  Some (["--socket"%string; config.(Config.session_socket); "--request"%string; request_path;
         "--session-state"%string; "off"%string; "--sdrd"%string; config.(Config.sdrd_address);
         "--survey-gain-db"%string; print_i survey_gain_db]
        ++ directory ++ match initial_survey with Some survey => survey_arguments survey | None => [] end).

(** ** The survey of the settings is a valid sweep *)

(** The number of points the settings count. *)
Definition survey_points (start stop step : Z) : Z := (stop - start + (step - 1)) / step + 1.

Lemma survey_points_cover start stop step :
  0 < step -> start <= stop -> covers (stop - start) step (survey_points start stop step).
Proof.
  intros Hs Hle. unfold covers, survey_points.
  pose proof (Z.div_mod (stop - start + (step - 1)) step ltac:(lia)) as Hd.
  pose proof (Z.mod_pos_bound (stop - start + (step - 1)) step Hs). nia.
Qed.

Record SurveyOk (s : InitialSurveyConfig.t) : Prop := {
  so_start : DEFAULT_SURVEY_START_HZ <= s.(InitialSurveyConfig.start_hz);
  so_order : s.(InitialSurveyConfig.start_hz) <= s.(InitialSurveyConfig.stop_hz);
  so_stop : s.(InitialSurveyConfig.stop_hz) <= DEFAULT_SURVEY_STOP_HZ;
  so_step : 1 <= s.(InitialSurveyConfig.step_hz) <= DEFAULT_SURVEY_STEP_HZ;
  so_dwell : s.(InitialSurveyConfig.dwell_ms) <= 1000;
  so_gain : 0 <= s.(InitialSurveyConfig.gain_db) <= 60;
  so_points : let n := survey_points s.(InitialSurveyConfig.start_hz) s.(InitialSurveyConfig.stop_hz)
                         s.(InitialSurveyConfig.step_hz) in
              n <= 768 /\ n * (s.(InitialSurveyConfig.dwell_ms) + 250) <= 300000;
}.

Definition enabled (s : InitialSurveyConfig.t) : bool :=
  negb (String.eqb s.(InitialSurveyConfig.mode) "disabled").

Lemma validate_initial_survey_Ok s :
  InitialSurveyConfig.wf s -> validate_initial_survey s = Ok tt -> enabled s = true -> SurveyOk s.
Proof.
  intros (Hstart&Hstop&Hstep&Hdwell&Hgain) H He. unfold validate_initial_survey in H.
  apply reject_seq in H as [_ H]. unfold enabled in He.
  destruct (String.eqb (InitialSurveyConfig.mode s) "disabled"); [discriminate|]. clear He.
  apply reject_seq in H as [Hr H]. apply bind_Ok in H as (points&Hpoints&H).
  apply ok_or_Ok, bind_Some in Hpoints as (sum&Hsum&Hpoints).
  apply bind_Ok in H as (duration&Hduration&H). apply ok_or_Ok, checked_mul_Some in Hduration as [_ ->].
  apply reject_seq in H as [Hlimits _].
  apply checked_add_Some in Hsum as [_ ->]. apply checked_add_Some in Hpoints as [_ ->].
  guards_in Hr. guards_in Hlimits. destruct Hr as ((((((?&?)&?)&?)&?)&?)&?).
  unfold saturating_sub, saturating_add in *. rewrite Z.max_l in * by lia.
  assert (0 < InitialSurveyConfig.step_hz s) by (unfold is_u64 in Hstep; lia).
  rewrite Z.min_l in * by (unfold is_u64, u64_max in *; lia).
  unfold MAX_SURVEY_POINTS in *. constructor; try lia; unfold is_u64, DEFAULT_SURVEY_STEP_HZ in *; try lia.
  cbn zeta. unfold survey_points. lia.
Qed.

(** ** The arguments are accepted *)

Definition survey_options (s : InitialSurveyConfig.t) : InitialSurveyOptions.t :=
  InitialSurveyOptions.mk s.(InitialSurveyConfig.start_hz) s.(InitialSurveyConfig.stop_hz)
    s.(InitialSurveyConfig.step_hz) s.(InitialSurveyConfig.dwell_ms) s.(InitialSurveyConfig.gain_db).

Section Accepted.
Context {json : Json}.

(** The survey the settings accept passes the trial of the console. *)
Lemma trial_plan_accepted s :
  InitialSurveyConfig.wf s -> SurveyOk s -> exists v, validate_plan (trial_plan (survey_options s)) = Ok v.
Proof.
  intros (Hstart&Hstop&Hstep&Hdwell&_) [Hlow Horder Hhigh Hs Hd Hg [Hn Hdur]].
  set (n := survey_points _ _ _) in *.
  unfold DEFAULT_SURVEY_START_HZ, DEFAULT_SURVEY_STOP_HZ, DEFAULT_SURVEY_STEP_HZ, is_u64 in *.
  assert (Hc : covers (InitialSurveyConfig.stop_hz s - InitialSurveyConfig.start_hz s)
                 (InitialSurveyConfig.step_hz s) n) by (apply survey_points_cover; [unfold is_u in *; lia|exact Horder]).
  assert (Hpos : 0 < InitialSurveyConfig.step_hz s) by lia.
  destruct (survey_centers_spec _ _ _ n Hpos Horder Hc) as (Hlen&H1&Hwin&Hin).
  eexists. apply validate_plan_spec; [now apply sweep_plan_wf|].
  eexists. split.
  - cbn [trial_plan sweep_plan SweepPlan.frequencies survey_options InitialSurveyOptions.start_hz
      InitialSurveyOptions.stop_hz InitialSurveyOptions.step_hz].
    apply (expand_centers_survey _ _ _ n); unfold u64_max; try assumption; lia.
  - split; [|reflexivity]. cbn [survey_options InitialSurveyOptions.start_hz
      InitialSurveyOptions.stop_hz InitialSurveyOptions.step_hz].
    constructor; cbn [trial_plan sweep_plan survey_options InitialSurveyOptions.gain_db
      InitialSurveyOptions.dwell_ms SweepPlan.sweep_id
      SweepPlan.session_generation SweepPlan.sample_rate_hz SweepPlan.rf_bandwidth_hz
      SweepPlan.gain_db SweepPlan.settle_ms SweepPlan.frame_samples SweepPlan.aggregate_frames
      SweepPlan.point_timeout_ms SweepPlan.detection_threshold_db]; try lia.
    + now apply safe_id_spec.
    + eapply windows_ascending, Hwin.
    + revert Hin. apply Forall_impl. lia.
    + intros g [= <-]. exact Hg.
    + revert Hwin. apply Forall_impl. lia.
    + vm_compute. auto.
Qed.

(** One option and its value. *)
Lemma parse_arguments_option flag value rest a a' :
  takes_value flag = true -> set_option flag value a = Ok a' ->
  parse_arguments (flag :: value :: rest) a = parse_arguments rest a'.
Proof. intros Hf Hs. cbn [parse_arguments]. now rewrite Hf, Hs. Qed.

Lemma print_i_number n : 0 <= n <= 32767 -> parse_number (print_i n) = Ok n.
Proof.
  intros Hn. unfold print_i. rewrite (proj2 (Z.ltb_ge _ _)) by lia.
  apply parse_number_print. unfold is_u64, u64_max. lia.
Qed.
Lemma print_i_negative n : n < 0 -> parse_number (print_i n) = Err Unparsable.
Proof. intros Hn. unfold print_i. now rewrite (proj2 (Z.ltb_lt _ _) Hn). Qed.
End Accepted.

(** What the agent was started with. *)
Definition accepts (args : list string) (survey : option InitialSurveyConfig.t) (gain_db : Z)
    (address : SocketAddr.t) (directory : option string) `{Json} : Prop :=
  forall xdg_state_home home, exists options,
    ConsoleOptions.parse args xdg_state_home home = Ok options
    /\ options.(Options.initial_survey) = survey_options <$> survey
    /\ options.(Options.survey_gain_db) = gain_db
    /\ options.(Options.sdrd_address) = Some address
    /\ options.(Options.sigmf_directory) = directory
    /\ options.(Options.instruction) = None
    /\ options.(Options.session_state_path) = None.

Section Arguments.
Context {json : Json}.
Context (config : Config.t) (id request : string) (gain : Z) (save_iq : bool).
Context (survey : option InitialSurveyConfig.t) (args : list string) (address : SocketAddr.t).
Hypothesis Hargs : agent_arguments config id request gain save_iq survey = Some args.
Hypothesis Haddress : parse_socket_addr config.(Config.sdrd_address) = Some address.
Hypothesis Hsurvey : forall s, survey = Some s ->
  InitialSurveyConfig.wf s /\ validate_initial_survey s = Ok tt /\ enabled s = true.

(** The variables after the options that are always passed. *)
Definition base_arguments : Arguments.t :=
  Arguments.with_survey_gain_db gain
    (Arguments.with_sdrd_address (Some address)
       (Arguments.with_session_state None true
          (Arguments.with_request_path request
             (Arguments.with_socket_path config.(Config.session_socket) Arguments.default)))).
Definition directory_argument : option string :=
  if save_iq then Some (join_path config.(Config.capture_root) id) else None.
Definition survey_variables (a : Arguments.t) : Arguments.t :=
  match survey with
  | None => a
  | Some s =>
      Arguments.with_gain_db (Some s.(InitialSurveyConfig.gain_db))
        (Arguments.with_dwell_ms (Some s.(InitialSurveyConfig.dwell_ms))
           (Arguments.with_step_hz (Some s.(InitialSurveyConfig.step_hz))
              (Arguments.with_stop_hz (Some s.(InitialSurveyConfig.stop_hz))
                 (Arguments.with_start_hz (Some s.(InitialSurveyConfig.start_hz)) a))))
  end.

Lemma parse_survey_arguments a s :
  InitialSurveyConfig.wf s -> SurveyOk s -> survey = Some s ->
  parse_arguments (survey_arguments s) a = Ok (survey_variables a).
Proof.
  intros (H1&H2&H3&H4&_) Hok Hs. unfold survey_variables. rewrite Hs. unfold survey_arguments.
  pose proof (so_gain _ Hok).
  do 5 (erewrite parse_arguments_option;
    [|reflexivity|
     unfold set_option; cbn [String.eqb Ascii.eqb Bool.eqb];
     first [rewrite parse_number_print by assumption | rewrite print_i_number by lia]; reflexivity]).
  reflexivity.
Qed.

Definition read_arguments : Arguments.t :=
  survey_variables (match directory_argument with
                    | Some d => Arguments.with_sigmf_directory (Some d) base_arguments
                    | None => base_arguments
                    end).

(** The survey options read back; the directory and the survey change nothing else. *)
Lemma agent_arguments_parse :
  0 <= gain <= 32767 -> parse_arguments args Arguments.default = Ok read_arguments.
Proof.
  intros Hgain. unfold agent_arguments in Hargs.
  apply bind_Some in Hargs as (directory&Hdirectory&E). injection E as <-. cbn [Datatypes.app].
  do 3 (erewrite parse_arguments_option; [|reflexivity|reflexivity]).
  erewrite parse_arguments_option;
    [|reflexivity|unfold set_option; cbn [String.eqb Ascii.eqb Bool.eqb]; rewrite Haddress; reflexivity].
  erewrite parse_arguments_option;
    [|reflexivity|unfold set_option; cbn [String.eqb Ascii.eqb Bool.eqb];
      rewrite print_i_number by exact Hgain; reflexivity].
  unfold read_arguments, directory_argument.
  assert (Hs : forall a, parse_arguments
                 match survey with Some survey => survey_arguments survey | None => [] end a
               = Ok (survey_variables a)).
  { intros a. destruct survey as [s|] eqn:E; [|unfold survey_variables; now rewrite E].
    destruct (Hsurvey s eq_refl) as (Hwf&Hv&He).
    apply parse_survey_arguments; auto using validate_initial_survey_Ok. }
  destruct save_iq; [destruct (valid_session_id id); [|discriminate]|]; injection Hdirectory as <-;
    cbn [Datatypes.app].
  - erewrite parse_arguments_option; [|reflexivity|reflexivity]. apply Hs.
  - apply Hs.
Qed.

Lemma agent_arguments_negative :
  gain < 0 -> parse_arguments args Arguments.default = Err Unparsable.
Proof.
  intros Hgain. unfold agent_arguments in Hargs.
  apply bind_Some in Hargs as (directory&Hdirectory&E). injection E as <-. cbn [Datatypes.app].
  do 3 (erewrite parse_arguments_option; [|reflexivity|reflexivity]).
  erewrite parse_arguments_option;
    [|reflexivity|unfold set_option; cbn [String.eqb Ascii.eqb Bool.eqb]; rewrite Haddress; reflexivity].
  cbn [parse_arguments takes_value one_of existsb String.eqb Ascii.eqb Bool.eqb orb].
  unfold set_option. cbn [String.eqb Ascii.eqb Bool.eqb].
  now rewrite print_i_negative.
Qed.

Lemma read_arguments_fields :
  read_arguments.(Arguments.sdrd_timeout_ms) = 5000
  /\ read_arguments.(Arguments.survey_gain_db) = gain
  /\ read_arguments.(Arguments.instruction) = []
  /\ read_arguments.(Arguments.session_state_path) = None
  /\ read_arguments.(Arguments.session_state_disabled) = true
  /\ read_arguments.(Arguments.sdrd_address) = Some address
  /\ read_arguments.(Arguments.sigmf_directory) = directory_argument.
Proof.
  unfold read_arguments, survey_variables, directory_argument. destruct survey, save_iq; now repeat split.
Qed.

Lemma read_initial_survey g :
  parse_initial_survey read_arguments g = Ok (survey_options <$> survey).
Proof.
  unfold parse_initial_survey, read_arguments, survey_variables.
  destruct survey as [s|] eqn:E; [|now destruct directory_argument].
  destruct (Hsurvey s eq_refl) as (Hwf&Hv&He).
  pose proof (validate_initial_survey_Ok _ Hwf Hv He) as Hok.
  destruct (trial_plan_accepted s Hwf Hok) as (v&Htrial).
  assert (Hg : gain_of INITIAL_GAIN_MESSAGE (InitialSurveyConfig.gain_db s)
               = Ok (InitialSurveyConfig.gain_db s)) by (apply gain_of_Ok; split; [reflexivity|apply Hok]).
  destruct directory_argument; cbn -[gain_of validate_plan trial_plan];
    unfold Datatypes.id; rewrite Hg; cbn -[gain_of validate_plan trial_plan]; fold (survey_options s);
    now rewrite Htrial.
Qed.

Lemma agent_starts : 0 <= gain <= 60 -> accepts args survey gain address directory_argument.
Proof.
  intros Hgain xdg home. unfold ConsoleOptions.parse. rewrite agent_arguments_parse by lia.
  destruct read_arguments_fields as (E1&E2&E3&E4&E5&E6&E7).
  change (Ok ?x ≫= ?f) with (f x). cbv beta. rewrite E1, E2.
  change (reject_if (negb (in_range 100 60000 5000)) ?e) with (@Ok AppError _ tt).
  change (Ok ?x ≫= ?f) with (f x). cbv beta.
  rewrite (proj2 (gain_of_Ok GAIN_MESSAGE gain gain)) by auto.
  change (Ok ?x ≫= ?f) with (f x). cbv beta. rewrite read_initial_survey.
  change (Ok ?x ≫= ?f) with (f x). cbv beta. rewrite E3, E4, E5, E6, E7.
  eexists. split; [reflexivity|]. cbn. now repeat split.
Qed.

Lemma agent_refuses : is_i16 gain -> accepts args survey gain address directory_argument -> 0 <= gain <= 60.
Proof.
  intros Hwidth H. destruct (H None None) as (options&Hparse&_&Hgain&_).
  destruct (Z.lt_ge_cases gain 0) as [Hneg|Hpos].
  - unfold ConsoleOptions.parse in Hparse. rewrite agent_arguments_negative in Hparse by exact Hneg.
    discriminate.
  - destruct (parse_ok _ _ _ _ Hparse) as [_ Hok _ _]. now rewrite Hgain in Hok.
Qed.
End Arguments.

(** C16: what the web console accepts as settings, the console it starts accepts as options: every
    validated survey of a session becomes the initial survey of the agent
    number for number, with the session state off and the recordings in the session's own
    directory — if and only if the gain of the session's survey is one the console allows.
    Only an enabled survey has been validated to have one, so a disabled
    survey with another gain leaves a session whose agent never starts. *)
Theorem agent_accepts_settings {json : Json} (config : Config.t) (id request : string) (gain : Z)
    (save_iq : bool) (survey : option InitialSurveyConfig.t) (args : list string) (address : SocketAddr.t)
    (Hargs : agent_arguments config id request gain save_iq survey = Some args)
    (Haddress : parse_socket_addr config.(Config.sdrd_address) = Some address)
    (Hsurvey : forall s, survey = Some s ->
       InitialSurveyConfig.wf s /\ validate_initial_survey s = Ok tt /\ enabled s = true)
    (Hgain : is_i16 gain) :
  accepts args survey gain address (directory_argument config id save_iq) <-> 0 <= gain <= 60.
Proof.
  split; [now apply agent_refuses with (config := config) (id := id) (request := request) (save_iq := save_iq)|].
  now apply agent_starts with (request := request).
Qed.

Module WebAgentSamples.
Definition config : Config.t :=
  Config.mk "/etc/sdr-agent/request.json" "/run/sdr-agent/session.sock" "192.168.40.1:43110" "/data/captures".
Definition survey : InitialSurveyConfig.t :=
  InitialSurveyConfig.mk "custom_band" 2400000000 2480000000 8000000 20 30.
(** Accepted by the settings: the survey is off. *)
Definition disabled : InitialSurveyConfig.t := InitialSurveyConfig.mk "disabled" 0 0 0 0 90.
Definition arguments (gain : Z) (survey : option InitialSurveyConfig.t) : list string :=
  default [] (agent_arguments config "session-1" "/tmp/request.json" gain true survey).
End WebAgentSamples.

Lemma agent_accepts_settings_witness :
  let accepts gain survey :=
    exists address, @accepts (WebAgentSamples.arguments gain survey) survey gain address
                      (Some "/data/captures/session-1"%string) sample_json in
  accepts 30 (Some WebAgentSamples.survey)
  /\ validate_initial_survey WebAgentSamples.disabled = Ok tt
  /\ ~ accepts WebAgentSamples.disabled.(InitialSurveyConfig.gain_db) None.
Proof.
  intros accepts.
  destruct (parse_socket_addr "192.168.40.1:43110") as [address|] eqn:E; [|vm_compute in E; discriminate].
  assert (Hgain : forall n, 0 <= n <= 90 -> is_i16 n) by (unfold is_i16; lia).
  split; [|split; [vm_compute; reflexivity|]].
  - exists address.
    apply (@agent_accepts_settings sample_json WebAgentSamples.config "session-1" "/tmp/request.json" 30 true
             (Some WebAgentSamples.survey) _ address); [reflexivity|exact E| |apply Hgain; lia|lia].
    intros s [= <-]. split; [vm_compute; intuition discriminate|]. split; vm_compute; reflexivity.
  - intros (address'&H).
    assert (E' : address' = address).
    { destruct (H None None) as (o&Ho&_&_&Ha&_). vm_compute in Ho. discriminate. }
    subst address'.
    apply (@agent_accepts_settings sample_json WebAgentSamples.config "session-1" "/tmp/request.json" 90 true
             None _ address) in H; [cbn in H; lia|reflexivity|exact E|discriminate|apply Hgain; lia].
Defined.
