(* ===== verification/Files.v ===== *)
(** * Resolving paths

    The file calls of the web console that follow symbolic links:
    [canonicalize], [exists], [symlink_metadata], [metadata], [read],
    [create_dir_all], [remove_file], [create], [rename] and [set_permissions] on the tree of [TerminalState].  Here the tree is keyed by
    physical paths: a key holds no link in front of its last component.  Nothing
    else changes the tree between two calls. *)
From S2P Require Import Prelude Hoare Text Utf8 Protocol Session TerminalState.

(** ** Paths *)

(** The parts between slashes. *)
Fixpoint split_slashes (bs part : list Z) : list (list Z) :=
  match bs with
  | [] => [List.rev part]
  | b :: bs => if b =? 47 then List.rev part :: split_slashes bs [] else split_slashes bs (b :: part)
  end.
(** [Path::new] by its components; no caller uses a relative path. *)
Definition path_of (s : string) : Path.t :=
  Path.mk (starts_with "/" s)
    (filter (fun part => negb (is_empty part || String.eqb part "."))
       (map of_bytes (split_slashes (bytes s) []))).

Fixpoint take_while (p : Z -> bool) (l : list Z) : list Z :=
  match l with
  | [] => []
  | c :: l => if p c then c :: take_while p l else []
  end.
(** [Path::extension]: what follows the last dot, unless it begins the name. *)
Definition extension_of (name : string) : option string :=
  let backwards := List.rev (bytes name) in
  match drop_while (fun b => negb (b =? 46)) backwards with
  | [] | [_] => None
  | _ => Some (of_bytes (List.rev (take_while (fun b => negb (b =? 46)) backwards)))
  end.
Definition extension (path : Path.t) : option string := Path.file_name path ≫= extension_of.

(** [Path::with_extension] and the stem it keeps. *)
Definition file_stem (name : string) : string :=
  let backwards := List.rev (bytes name) in
  match drop_while (fun b => negb (b =? 46)) backwards with
  | [] | [_] => name
  | _ :: stem => of_bytes (List.rev stem)
  end.
Definition with_extension (path : Path.t) (extension : string) : Path.t :=
  match Path.file_name path, Path.parent path with
  | Some name, Some parent => Path.join parent (file_stem name +:+ "." +:+ extension)
  | _, _ => path
  end.

(** [Path::display]. *)
Definition path_text (path : Path.t) : string :=
  (if path.(Path.absolute) then "/" else EmptyString) +:+ join "/" path.(Path.parts).

(** [Path::starts_with]. *)
Definition starts_with_path (path root : Path.t) : bool :=
  Bool.eqb path.(Path.absolute) root.(Path.absolute)
  && bool_decide (root.(Path.parts) `prefix_of` path.(Path.parts)).

(** ** Resolution *)
Abbreviation Tree := (gmap Path.t Node).
Definition physical (parts : list string) : Path.t := Path.mk true parts.

Section Resolve.
Context (nodes : Tree).

(** One walk down the tree; a link hands over to [follow]. *)
Section Walk.
Context (follow : list string -> list string -> option (list string)).
Fixpoint walk (todo here : list string) : option (list string) :=
  match todo with
  | [] => Some here
  | name :: todo =>
      if String.eqb name ".." then walk todo (removelast here)
      else
        match nodes !! physical (here ++ [name]) with
        | None => None
        | Some (Symlink target) =>
            follow (target.(Path.parts) ++ todo) (if target.(Path.absolute) then [] else here)
        | Some (File _ _ _) => if null todo then Some (here ++ [name]) else None
        | Some (Directory _ _) => walk todo (here ++ [name])
        end
  end.
End Walk.

(** Linux gives up after forty links. *)
Fixpoint resolve_links (links : nat) : list string -> list string -> option (list string) :=
  walk (match links with O => fun _ _ => None | S links => resolve_links links end).
Definition resolve (path : Path.t) : option (list string) :=
  if path.(Path.absolute) then resolve_links 40 path.(Path.parts) [] else None.

(** Where the last component is, itself not followed. *)
Definition entry (path : Path.t) : option (list string) :=
  match List.rev path.(Path.parts) with
  | [] => resolve path
  | name :: _ =>
      if String.eqb name ".." then resolve path
      else parent ← Path.parent path ≫= resolve ; Some (parent ++ [name])
  end.
Definition lstat (path : Path.t) : option Node :=
  here ← entry path ;
  match here with [] => Some (Directory 0 493) | _ => nodes !! physical here end.
Definition stat (path : Path.t) : option Node :=
  here ← resolve path ;
  match here with [] => Some (Directory 0 493) | _ => nodes !! physical here end.
End Resolve.

(** ** Calls *)
Section Calls.
Context (os : System).
Abbreviation IO := (M Fs.t AppError).

Definition tree : IO Tree := gets Fs.nodes.
Definition NO_FILE : AppError := Io "No such file or directory".

Definition path_exists (path : Path.t) : IO bool :=
  r ← attempt (call os (Exists path)) ;
  nodes ← tree ; mret (is_Ok r && negb (is_none (resolve nodes path))).
Definition link_metadata (path : Path.t) : IO Node :=
  call os (SymlinkMetadata path) ;; nodes ← tree ; lift (ok_or NO_FILE (lstat nodes path)).
Definition canonicalize (path : Path.t) : IO Path.t :=
  call os (Canonicalize path) ;;
  nodes ← tree ; here ← lift (ok_or NO_FILE (resolve nodes path)) ; mret (physical here).
Definition file_size (path : Path.t) : IO Z :=
  call os (Metadata path) ;;
  nodes ← tree ; node ← lift (ok_or NO_FILE (stat nodes path)) ;
  mret match node with File _ _ content => length_z content | _ => 4096 end.
Definition read_file (path : Path.t) : IO (list Z) :=
  call os (Open path) ;;
  nodes ← tree ; node ← lift (ok_or NO_FILE (stat nodes path)) ;
  match node with File _ _ content => mret content | _ => lift (Err (Io "Is a directory")) end.

(** Every missing directory on the way, links followed. *)
Fixpoint add_directories (nodes : Tree) (todo here : list string) : option Tree :=
  match todo with
  | [] => Some nodes
  | name :: todo =>
      if String.eqb name ".." then add_directories nodes todo (removelast here)
      else
        match nodes !! physical (here ++ [name]) with
        | None =>
            add_directories
              (<[physical (here ++ [name]) := Directory os.(geteuid) (Z.ldiff 511 os.(umask))]> nodes)
              todo (here ++ [name])
        | Some (Directory _ _) => add_directories nodes todo (here ++ [name])
        | Some (Symlink _) =>
            here ← resolve nodes (physical (here ++ [name])) ; add_directories nodes todo here
        | Some (File _ _ _) => None
        end
  end.
Definition create_directories (path : Path.t) : IO unit :=
  call os (CreateDirAll path) ;;
  nodes ← tree ;
  nodes ← lift (ok_or (Io "Not a directory") (add_directories nodes path.(Path.parts) [])) ;
  modify (fun s => Fs.mk nodes s.(Fs.ops)).

(** Removes a link, not what it points to. *)
Definition unlink (path : Path.t) : IO unit :=
  call os (RemoveFile path) ;;
  nodes ← tree ;
  here ← lift (ok_or NO_FILE (entry nodes path)) ;
  match nodes !! physical here with
  | Some (File _ _ _) | Some (Symlink _) =>
      modify (fun s => Fs.mk (delete (physical here) s.(Fs.nodes)) s.(Fs.ops))
  | Some (Directory _ _) => lift (Err (Io "Is a directory"))
  | None => lift (Err NO_FILE)
  end.
(** The place of a name, taken or not: its directory is there. *)
Definition slot (nodes : Tree) (path : Path.t) : option (list string) :=
  name ← Path.file_name path ;
  here ← Path.parent path ≫= resolve nodes ;
  match here, nodes !! physical here with
  | [], _ | _, Some (Directory _ _) => Some (here ++ [name])
  | _, _ => None
  end.

(** Opening a file to write: the handle is the place of the file. *)
Definition open_new (path : Path.t) (mode : Z) : IO Path.t :=
  call os (CreateNew path mode) ;;
  nodes ← tree ;
  here ← lift (ok_or NO_FILE (slot nodes path)) ;
  (if is_none (nodes !! physical here)
   then put (physical here) (File os.(geteuid) (Z.ldiff mode os.(umask)) [])
   else lift (Err (Io "File exists"))) ;;
  mret (physical here).

(** [File::create]: a link is followed, also to a name that is not there yet. *)
Fixpoint creation_slot (links : nat) (nodes : Tree) (path : Path.t) : option (list string) :=
  here ← slot nodes path ;
  match nodes !! physical here, links with
  | Some (Symlink target), S links =>
      creation_slot links nodes
        (if target.(Path.absolute) then target
         else physical (removelast here ++ target.(Path.parts)))
  | Some (Symlink _), O => None
  | _, _ => Some here
  end.
Definition create_file (path : Path.t) : IO Path.t :=
  call os (Open path) ;;
  nodes ← tree ;
  here ← lift (ok_or NO_FILE (creation_slot 40 nodes path)) ;
  match nodes !! physical here with
  | Some (Directory _ _) => lift (Err (Io "Is a directory"))
  | Some (File uid mode _) => put (physical here) (File uid mode [])
  | _ => put (physical here) (File os.(geteuid) (Z.ldiff 438 os.(umask)) [])
  end ;;
  mret (physical here).

(** Moving a file or a link over another. *)
Definition move_file (from to : Path.t) : IO unit :=
  call os (Rename from to) ;;
  nodes ← tree ;
  source ← lift (ok_or NO_FILE (slot nodes from)) ;
  target ← lift (ok_or NO_FILE (slot nodes to)) ;
  node ← lift (ok_or NO_FILE (nodes !! physical source)) ;
  match node, nodes !! physical target with
  | Directory _ _, _ | _, Some (Directory _ _) => lift (Err (Io "Is a directory"))
  | _, _ =>
      modify (fun s =>
        Fs.mk (<[physical target := node]> (delete (physical source) s.(Fs.nodes))) s.(Fs.ops))
  end.

(** [fs::set_permissions] follows links. *)
Definition set_mode (path : Path.t) (mode : Z) : IO unit :=
  call os (SetPermissions path mode) ;;
  nodes ← tree ;
  here ← lift (ok_or NO_FILE (resolve nodes path)) ;
  match nodes !! physical here with
  | Some (Directory uid _) => put (physical here) (Directory uid mode)
  | Some (File uid _ content) => put (physical here) (File uid mode content)
  | _ => lift (Err NO_FILE)
  end.

(** [SystemTime::now] since the epoch, zero before it. *)
Definition now_ms : IO Z :=
  now ← attempt (unix_time_ms os) ; mret match now with Ok now => now | Err _ => 0 end.
End Calls.

(** ** Growing trees *)
Lemma walk_mono (nodes nodes' : Tree) follow follow' todo here q :
  nodes ⊆ nodes' ->
  (forall todo here q, follow todo here = Some q -> follow' todo here = Some q) ->
  walk nodes follow todo here = Some q -> walk nodes' follow' todo here = Some q.
Proof.
  intros Hsub Hfollow. revert here. induction todo as [|name todo IH]; intros here; cbn [walk]; [easy|].
  destruct (String.eqb name ".."); [apply IH|].
  destruct (nodes !! physical (here ++ [name])) as [node|] eqn:E; [|discriminate].
  rewrite (lookup_weaken _ _ _ _ E Hsub). destruct node; auto.
Qed.

Lemma resolve_links_mono (nodes nodes' : Tree) links todo here q :
  nodes ⊆ nodes' -> resolve_links nodes links todo here = Some q ->
  resolve_links nodes' links todo here = Some q.
Proof.
  intros Hsub. revert todo here q.
  induction links as [|links IH]; intros todo here q; cbn [resolve_links]; apply walk_mono; auto.
Qed.

Lemma resolve_mono nodes nodes' path q :
  nodes ⊆ nodes' -> resolve nodes path = Some q -> resolve nodes' path = Some q.
Proof. unfold resolve. destruct (Path.absolute path); [apply resolve_links_mono|discriminate]. Qed.

Lemma entry_mono nodes nodes' path q :
  nodes ⊆ nodes' -> entry nodes path = Some q -> entry nodes' path = Some q.
Proof.
  intros Hsub. unfold entry. destruct (List.rev _) as [|name r]; [now apply resolve_mono|].
  destruct (String.eqb name ".."); [now apply resolve_mono|].
  rewrite !bind_Some. intros (d&Hd&H). apply bind_Some in Hd as (p&Hp&Hd). exists d.
  split; [|exact H]. apply bind_Some. exists p. split; [exact Hp|]. now apply (resolve_mono nodes).
Qed.

(** ** What resolution yields *)
Section Plain.
Context (nodes : Tree).

(** Directories all the way, and none of them named [..]. *)
Definition plain_dir (here : list string) : Prop :=
  forall d name, (d ++ [name]) `prefix_of` here ->
  name <> ".."%string /\ exists uid mode, nodes !! physical (d ++ [name]) = Some (Directory uid mode).

Definition plain (here : list string) : Prop :=
  here = [] \/ exists d name, here = d ++ [name] /\ plain_dir d /\ name <> ".."%string
    /\ match nodes !! physical here with Some (Symlink _) | None => False | Some _ => True end.

Lemma plain_dir_nil : plain_dir [].
Proof.
  intros d name H%prefix_nil_inv. now destruct d.
Qed.

Lemma plain_dir_prefix d here : d `prefix_of` here -> plain_dir here -> plain_dir d.
Proof. intros Hd H e name He. apply H. now transitivity d. Qed.

Lemma removelast_prefix (here : list string) : removelast here `prefix_of` here.
Proof.
  destruct here as [|x l] using List.rev_ind; [reflexivity|].
  rewrite List.removelast_app by discriminate. cbn. rewrite app_nil_r. now exists [x].
Qed.

Lemma plain_dir_snoc here name uid mode :
  plain_dir here -> name <> ".."%string ->
  nodes !! physical (here ++ [name]) = Some (Directory uid mode) -> plain_dir (here ++ [name]).
Proof.
  intros Hhere Hname Hnode d n [k Hk]. destruct k as [|x k _] using List.rev_ind.
  - rewrite app_nil_r in Hk. apply app_inj_tail in Hk as [-> ->]. eauto.
  - rewrite app_assoc in Hk. apply app_inj_tail in Hk as [-> ->]. apply Hhere. now exists k.
Qed.

Lemma plain_dir_plain here : plain_dir here -> plain here.
Proof.
  intros H. destruct here as [|name d _] using List.rev_ind; [now left|]. right. exists d, name.
  destruct (H d name) as (Hname&uid&mode&Hnode); [reflexivity|]. rewrite Hnode.
  split; [reflexivity|]. split; [|now split]. eapply plain_dir_prefix; [|exact H]. now exists [name].
Qed.

Lemma walk_plain follow todo here q :
  (forall todo here q, plain_dir here -> follow todo here = Some q -> plain q) ->
  plain_dir here -> walk nodes follow todo here = Some q -> plain q.
Proof.
  intros Hfollow. revert here. induction todo as [|name todo IH]; intros here Hhere; cbn [walk].
  { intros [= <-]. now apply plain_dir_plain. }
  destruct (String.eqb_spec name "..") as [_|Hname].
  { apply IH. eapply plain_dir_prefix; [apply removelast_prefix|exact Hhere]. }
  destruct (nodes !! physical (here ++ [name])) as [[uid mode|uid mode content|target]|] eqn:E;
    [| | |discriminate].
  - apply IH. eapply plain_dir_snoc; eauto.
  - destruct (null todo); [|discriminate]. intros [= <-]. right. exists here, name. now rewrite E.
  - apply Hfollow. destruct (Path.absolute target); [apply plain_dir_nil|exact Hhere].
Qed.

Lemma resolve_plain path q : resolve nodes path = Some q -> plain q.
Proof.
  unfold resolve. destruct (Path.absolute path); [|discriminate].
  assert (H : forall links todo here q, plain_dir here ->
            resolve_links nodes links todo here = Some q -> plain q).
  { induction links as [|links IH]; intros todo here p Hhere; cbn [resolve_links];
      apply walk_plain; auto; discriminate. }
  apply H, plain_dir_nil.
Qed.

Lemma walk_dirs follow todo here :
  plain_dir (here ++ todo) -> walk nodes follow todo here = Some (here ++ todo).
Proof.
  revert here. induction todo as [|name todo IH]; intros here H; cbn [walk]; [now rewrite app_nil_r|].
  destruct (H here name) as (Hname&uid&mode&Hnode); [exists todo; now rewrite <- app_assoc|].
  destruct (String.eqb_spec name ".."); [contradiction|]. rewrite Hnode, IH; now rewrite <- app_assoc.
Qed.

(** A resolved path is its own entry. *)
Lemma entry_resolved path q : resolve nodes path = Some q -> q <> [] -> entry nodes (physical q) = Some q.
Proof.
  intros H Hne. destruct (resolve_plain _ _ H) as [->|(d&name&->&Hd&Hname&_)]; [contradiction|].
  unfold entry, Path.parent, physical. cbn [Path.parts Path.absolute]. rewrite List.rev_app_distr. cbn [List.rev app].
  destruct (String.eqb_spec name ".."); [contradiction|].
  destruct (d ++ [name]) eqn:E; [now destruct d|]. rewrite <- E, List.removelast_last.
  apply bind_Some. exists d. split; [|reflexivity]. cbn [mbind option_bind]. unfold resolve.
  cbn [Path.absolute Path.parts resolve_links]. apply (walk_dirs _ _ []). exact Hd.
Qed.

(** The entry of a path that has a file name is in the directory its parent leads to. *)
Lemma entry_inv path name :
  Path.file_name path = Some name ->
  entry nodes path = (d ← Path.parent path ≫= resolve nodes ; Some (d ++ [name])).
Proof.
  unfold Path.file_name, entry. destruct (List.rev (Path.parts path)) as [|n r]; [discriminate|].
  destruct (String.eqb n ".."); [discriminate|]. now intros [= ->].
Qed.
End Plain.

(** A path that leads somewhere leads, when its last component is no link, to its entry. *)
Section Last.
Context (nodes : Tree) (name : string) (Hname : name <> ".."%string).

Definition last_step (d q : list string) : Prop :=
  forall node, nodes !! physical (d ++ [name]) = Some node ->
  match node with Symlink _ => True | _ => q = d ++ [name] end.

Lemma walk_last follow todo here q :
  (forall todo here q, follow (todo ++ [name]) here = Some q ->
     exists d, follow todo here = Some d /\ last_step d q) ->
  walk nodes follow (todo ++ [name]) here = Some q ->
  exists d, walk nodes follow todo here = Some d /\ last_step d q.
Proof.
  intros Hfollow. revert here. induction todo as [|n todo IH]; intros here; cbn [walk app].
  - destruct (String.eqb_spec name ".."); [contradiction|]. intros H. exists here. split; [reflexivity|].
    intros node Hnode. rewrite Hnode in H. destruct node; [now injection H|now injection H|exact I].
  - destruct (String.eqb n ".."); [apply IH|].
    destruct (nodes !! physical (here ++ [n])) as [[uid mode|uid mode content|target]|];
      [apply IH| |rewrite app_assoc; apply Hfollow|discriminate].
    now destruct todo.
Qed.

Lemma resolve_links_last links todo here q :
  resolve_links nodes links (todo ++ [name]) here = Some q ->
  exists d, resolve_links nodes links todo here = Some d /\ last_step d q.
Proof.
  revert todo here q. induction links as [|links IH]; intros todo here q; cbn [resolve_links];
    apply walk_last; [discriminate|exact IH].
Qed.
End Last.

Lemma resolve_entry nodes path name q node :
  Path.file_name path = Some name -> resolve nodes path = Some q -> lstat nodes path = Some node ->
  match node with Symlink _ => True | _ => entry nodes path = Some q end.
Proof.
  intros Hname Hresolve Hlstat. unfold lstat in Hlstat. apply bind_Some in Hlstat as (here&He&Hnode).
  rewrite He. rewrite (entry_inv _ _ _ Hname) in He. apply bind_Some in He as (d&Hd&[= <-]).
  apply bind_Some in Hd as (parent&Hparent&Hd). unfold Path.parent in Hparent.
  unfold Path.file_name in Hname.
  destruct path as [absolute parts]. cbn [Path.parts Path.absolute] in *.
  destruct parts as [|n parts _] using List.rev_ind; [discriminate|].
  rewrite List.rev_app_distr in Hname. cbn [List.rev app] in Hname.
  destruct (String.eqb_spec n ".."); [discriminate|]. injection Hname as ->.
  destruct (parts ++ [name]) eqn:E; [now destruct parts|]. rewrite <- E in *.
  rewrite List.removelast_last in Hparent. injection Hparent as <-.
  unfold resolve in *. cbn [Path.absolute Path.parts] in *. destruct absolute; [|discriminate].
  apply resolve_links_last in Hresolve as (d'&Hd'&Hlast); [|assumption].
  rewrite Hd' in Hd. injection Hd as ->. destruct (d ++ [name]) eqn:E'; [now destruct d|].
  rewrite <- E' in *. specialize (Hlast node Hnode). destruct node; subst; auto.
Qed.

(** ** What the calls do to the tree *)
Section Triples.
Context (os : System).
Implicit Types (s : Fs.t) (path : Path.t).

(** The tree stays as it is. *)
Definition same_tree s s' : Prop := s'.(Fs.nodes) = s.(Fs.nodes).
(** The tree may have gained entries. *)
Definition grown s s' : Prop := s.(Fs.nodes) ⊆ s'.(Fs.nodes).
#[global] Instance grown_preorder : PreOrder grown.
Proof. split; [intros s; unfold grown; reflexivity|]. intros s1 s2 s3. unfold grown. apply transitivity. Qed.

Lemma wp_call_tree op (Q : unit -> Fs.t -> Prop) (R : AppError -> Fs.t -> Prop) s :
  (forall s', same_tree s s' -> Q tt s') -> (forall e s', same_tree s s' -> R e s') ->
  wp (call os op) Q R s.
Proof. intros HQ HR. unfold wp, call. destruct (fault os _); [apply HR|apply HQ]; reflexivity. Qed.

Lemma wp_path_exists path (Q : bool -> Fs.t -> Prop) (R : AppError -> Fs.t -> Prop) s :
  (forall b s', same_tree s s' -> (b = true -> exists q, resolve s.(Fs.nodes) path = Some q) -> Q b s') ->
  wp (path_exists os path) Q R s.
Proof.
  intros H. unfold path_exists. wp_step. wp_step. apply wp_call_tree.
  - intros s' Hs. apply wp_bind, wp_gets, wp_ret. rewrite Hs. apply H; [exact Hs|]. cbn.
    destruct (resolve _ _); [eauto|discriminate].
  - intros e s' Hs. apply wp_bind, wp_gets, wp_ret. apply H; [exact Hs|discriminate].
Qed.

(** A call that reads the tree and answers from it. *)
Lemma wp_query {A} op (f : Tree -> result AppError A) (Q : A -> Fs.t -> Prop) (R : AppError -> Fs.t -> Prop) s :
  (forall a s', same_tree s s' -> f s.(Fs.nodes) = Ok a -> Q a s') ->
  (forall e s', same_tree s s' -> R e s') ->
  wp (call os op ;; nodes ← tree ; lift (f nodes)) Q R s.
Proof.
  intros HQ HR. apply wp_bind, wp_call_tree; [|intros; now apply HR].
  intros s' Hs. apply wp_bind, wp_gets, wp_lift; [|intros; now apply HR].
  intros a Ha. apply HQ; [exact Hs|]. now rewrite <- Hs.
Qed.

Lemma wp_link_metadata path (Q : Node -> Fs.t -> Prop) (R : AppError -> Fs.t -> Prop) s :
  (forall node s', same_tree s s' -> lstat s.(Fs.nodes) path = Some node -> Q node s') ->
  (forall e s', same_tree s s' -> R e s') -> wp (link_metadata os path) Q R s.
Proof.
  intros HQ HR. apply (wp_query _ (fun nodes => ok_or NO_FILE (lstat nodes path))); [|exact HR].
  intros a s' Hs Ha. apply HQ; [exact Hs|]. now apply ok_or_Ok in Ha.
Qed.

Lemma wp_canonicalize path (Q : Path.t -> Fs.t -> Prop) (R : AppError -> Fs.t -> Prop) s :
  (forall q s', same_tree s s' -> resolve s.(Fs.nodes) path = Some q -> Q (physical q) s') ->
  (forall e s', same_tree s s' -> R e s') -> wp (canonicalize os path) Q R s.
Proof.
  intros HQ HR. unfold canonicalize. apply wp_bind, wp_call_tree; [|intros; now apply HR].
  intros s' Hs. apply wp_bind, wp_gets, wp_bind, wp_lift; [|intros; now apply HR].
  intros q Hq. apply ok_or_Ok in Hq. apply wp_ret, HQ; [exact Hs|]. now rewrite <- Hs.
Qed.

Lemma add_directories_grows nodes todo here nodes' :
  add_directories os nodes todo here = Some nodes' ->
  nodes ⊆ nodes' /\ (forall q node, nodes' !! q = Some node -> nodes !! q = None ->
                       exists uid mode, node = Directory uid mode).
Proof.
  revert nodes here. induction todo as [|name todo IH]; intros nodes here; cbn [add_directories].
  { intros [= <-]. split; [reflexivity|]. intros q node -> [=]. }
  destruct (String.eqb name ".."); [apply IH|].
  destruct (nodes !! physical (here ++ [name])) as [[uid mode|uid mode content|target]|] eqn:E;
    [apply IH|discriminate| |].
  - intros H. apply bind_Some in H as (d&_&H). now apply IH in H.
  - intros H. apply IH in H as [Hsub Hnew]. split.
    + etransitivity; [|exact Hsub]. now apply insert_subseteq.
    + intros q node Hq Hnone. destruct (decide (q = physical (here ++ [name]))) as [->|Hne].
      * rewrite (lookup_weaken _ _ _ _ (lookup_insert_eq _ _ _) Hsub) in Hq. injection Hq as <-. eauto.
      * apply (Hnew q node Hq). now rewrite lookup_insert_ne.
Qed.

(** Entries that are new are directories. *)
Definition grown_by_directories s s' : Prop :=
  grown s s' /\ forall q node, s'.(Fs.nodes) !! q = Some node -> s.(Fs.nodes) !! q = None ->
                  exists uid mode, node = Directory uid mode.

Lemma same_tree_grown s s' : same_tree s s' -> grown_by_directories s s'.
Proof.
  unfold same_tree. intros E. split; [unfold grown; now rewrite E|].
  intros q node. rewrite E. intros -> [=].
Qed.

Lemma wp_create_directories path s :
  wp (create_directories os path) (fun _ => grown_by_directories s) (fun _ => same_tree s) s.
Proof.
  unfold create_directories. apply wp_bind, wp_call_tree; [|auto]. intros s' Hs.
  apply wp_bind, wp_gets, wp_bind, wp_lift; [|auto]. intros nodes Hnodes.
  apply ok_or_Ok, add_directories_grows in Hnodes. apply wp_modify. unfold same_tree in Hs.
  unfold grown_by_directories, grown. cbn. now rewrite <- Hs.
Qed.

(** Removing a file takes its entry, a file or a link, and nothing else. *)
Lemma wp_unlink path s :
  wp (unlink os path)
    (fun _ s' => exists here, entry s.(Fs.nodes) path = Some here
       /\ s'.(Fs.nodes) = delete (physical here) s.(Fs.nodes)
       /\ match s.(Fs.nodes) !! physical here with Some (Directory _ _) | None => False | _ => True end)
    (fun _ => same_tree s) s.
Proof.
  unfold unlink. apply wp_bind, wp_call_tree; [|auto]. intros s' Hs. unfold same_tree in Hs.
  apply wp_bind, wp_gets, wp_bind, wp_lift; [|auto]. intros here Hhere. apply ok_or_Ok in Hhere.
  rewrite Hs in Hhere |- *.
  destruct (Fs.nodes s !! physical here) as [[uid mode|uid mode content|target]|] eqn:E;
    [apply wp_lift; [discriminate|auto]|apply wp_modify|apply wp_modify|apply wp_lift; [discriminate|auto]];
    exists here; cbn; rewrite Hs, E; auto.
Qed.

Lemma wp_file_size path s :
  wp (file_size os path) (fun _ => same_tree s) (fun _ => same_tree s) s.
Proof.
  unfold file_size. apply wp_bind, wp_call_tree; [|auto]. intros s' Hs.
  apply wp_bind, wp_gets, wp_bind, wp_lift; [|auto]. intros; now apply wp_ret.
Qed.
End Triples.

(** ** Places in a directory that is reached without links *)
Section Place.
Context (os : System) (parent : list string).
Implicit Types (s : Fs.t) (nodes : Tree) (name : string).

Definition place name : Path.t := physical (parent ++ [name]).

(** On the way there are directories, and names that are not taken. *)
Definition direct nodes (here : list string) : Prop :=
  forall d name, (d ++ [name]) `prefix_of` here ->
  name <> ".."%string
  /\ match nodes !! physical (d ++ [name]) with None | Some (Directory _ _) => True | _ => False end.

Lemma place_inj name name' : place name = place name' -> name = name'.
Proof. unfold place, physical. intros [= H]. now apply app_inj_tail in H. Qed.

Lemma parent_place name : Path.parent (place name) = Some (physical parent).
Proof.
  unfold Path.parent, place, physical. cbn. destruct (parent ++ [name]) eqn:E; [now destruct parent|].
  now rewrite <- E, List.removelast_last.
Qed.

Lemma file_name_place name : name <> ".."%string -> Path.file_name (place name) = Some name.
Proof.
  intros Hname. unfold Path.file_name, place, physical. cbn. rewrite List.rev_app_distr. cbn.
  destruct (String.eqb_spec name ".."); [contradiction|reflexivity].
Qed.

(** Trees that agree up to the directory. *)
Lemma plain_dir_agree nodes nodes' here :
  (forall q, (length q <= length here)%nat -> nodes' !! physical q = nodes !! physical q) ->
  plain_dir nodes here -> plain_dir nodes' here.
Proof.
  intros E H d name Hp. rewrite E; [now apply H|]. destruct Hp as [k ->]. rewrite !length_app. lia.
Qed.

Lemma plain_dir_insert nodes name node : plain_dir nodes parent -> plain_dir (<[place name := node]> nodes) parent.
Proof.
  apply plain_dir_agree. intros q Hq. apply lookup_insert_ne. intros [= <-].
  rewrite length_app in Hq. cbn in Hq. lia.
Qed.
Lemma plain_dir_delete nodes name : plain_dir nodes parent -> plain_dir (delete (place name) nodes) parent.
Proof.
  apply plain_dir_agree. intros q Hq. apply lookup_delete_ne. intros [= <-].
  rewrite length_app in Hq. cbn in Hq. lia.
Qed.

Lemma resolve_parent nodes : plain_dir nodes parent -> resolve nodes (physical parent) = Some parent.
Proof. intros H. unfold resolve. cbn [Path.absolute Path.parts physical resolve_links]. now apply (walk_dirs _ _ _ []). Qed.

Lemma slot_place nodes name :
  plain_dir nodes parent -> name <> ".."%string -> slot nodes (place name) = Some (parent ++ [name]).
Proof.
  intros H Hname. unfold slot. rewrite file_name_place, parent_place by exact Hname. cbn [mbind option_bind].
  rewrite resolve_parent by exact H. cbn. destruct parent as [|n d] eqn:E; [reflexivity|]. rewrite <- E in *.
  destruct (exists_last (l := parent)) as (e&x&Ep); [now rewrite E|].
  destruct (H e x) as (_&uid&mode&Hnode); [now rewrite Ep|]. rewrite <- Ep in Hnode. now rewrite Hnode.
Qed.

Lemma walk_last_file nodes follow todo here name uid mode content :
  plain_dir nodes (here ++ todo) -> name <> ".."%string ->
  nodes !! physical (here ++ todo ++ [name]) = Some (File uid mode content) ->
  walk nodes follow (todo ++ [name]) here = Some (here ++ todo ++ [name]).
Proof.
  intros H Hname Hnode. revert here H Hnode. induction todo as [|n todo IH]; intros here H Hnode; cbn [walk app].
  - destruct (String.eqb_spec name ".."); [contradiction|]. cbn in Hnode. now rewrite Hnode.
  - destruct (H here n) as (Hn&u&m&E); [exists todo; now rewrite <- app_assoc|].
    destruct (String.eqb_spec n ".."); [contradiction|]. rewrite E.
    rewrite IH; rewrite <- app_assoc; auto.
Qed.

Lemma resolve_place nodes name uid mode content :
  plain_dir nodes parent -> name <> ".."%string -> nodes !! place name = Some (File uid mode content) ->
  resolve nodes (place name) = Some (parent ++ [name]).
Proof.
  intros H Hname Hnode. unfold resolve, place. cbn [Path.absolute Path.parts physical resolve_links].
  now apply (walk_last_file _ _ parent [] name uid mode content).
Qed.

(** Making the directory. *)
Lemma add_directories_direct nodes todo here nodes' :
  direct nodes (here ++ todo) -> plain_dir nodes here ->
  add_directories os nodes todo here = Some nodes' ->
  plain_dir nodes' (here ++ todo)
  /\ forall q, (length here + length todo < length q.(Path.parts))%nat -> nodes' !! q = nodes !! q.
Proof.
  revert nodes here. induction todo as [|name todo IH]; intros nodes here Hd Hp; cbn [add_directories].
  { intros [= <-]. rewrite app_nil_r. auto. }
  destruct (Hd here name) as [Hname Hnode]; [exists todo; now rewrite <- app_assoc|].
  destruct (String.eqb_spec name ".."); [contradiction|].
  assert (Happ : here ++ name :: todo = (here ++ [name]) ++ todo) by now rewrite <- app_assoc.
  assert (Hlen : (length (here ++ [name]) + length todo = length here + length (name :: todo))%nat)
    by (rewrite length_app; cbn; lia).
  destruct (nodes !! physical (here ++ [name])) as [[uid mode|uid mode content|target]|] eqn:E; try contradiction.
  - intros H. rewrite Happ, <- Hlen. apply IH; [now rewrite <- Happ| |exact H].
    eapply plain_dir_snoc; eauto.
  - intros H. rewrite Happ, <- Hlen.
    set (made := <[physical (here ++ [name]) := _]> nodes) in *.
    assert (Hother : forall q, length q <> length (here ++ [name]) -> made !! physical q = nodes !! physical q).
    { intros q Hq. apply lookup_insert_ne. now intros [= <-]. }
    destruct (IH made (here ++ [name])) as [H1 H2]; [| |exact H|].
    + rewrite <- Happ. intros d x Hdn. destruct (Hd d x Hdn) as [Hn Hm]. split; [exact Hn|].
      destruct (decide (d ++ [x] = here ++ [name])) as [->|Hne].
      * unfold made. now rewrite lookup_insert_eq.
      * unfold made. rewrite lookup_insert_ne; [exact Hm|]. intros [= Heq]; congruence.
    + eapply plain_dir_snoc; [|exact Hname|apply lookup_insert_eq].
      apply (plain_dir_agree nodes); [|exact Hp]. intros q Hq. apply Hother. rewrite length_app. cbn. lia.
    + split; [exact H1|]. intros q Hq. rewrite H2 by exact Hq. apply lookup_insert_ne. intros <-.
      cbn in Hq. rewrite length_app in Hq. cbn in Hq. lia.
Qed.

(** The tree after making the directory: what was below is as it was. *)
Definition prepared s s' : Prop :=
  grown_by_directories s s' /\ plain_dir s'.(Fs.nodes) parent
  /\ forall name, s'.(Fs.nodes) !! place name = s.(Fs.nodes) !! place name.

Lemma wp_create_parent s :
  direct s.(Fs.nodes) parent ->
  wp (create_directories os (physical parent)) (fun _ => prepared s) (fun _ => same_tree s) s.
Proof.
  intros Hd. unfold create_directories. apply wp_bind, wp_call_tree; [|auto]. intros s' Hs. unfold same_tree in Hs.
  apply wp_bind, wp_gets, wp_bind, wp_lift; [|auto]. intros nodes Hnodes. apply ok_or_Ok in Hnodes.
  apply wp_modify. rewrite Hs in Hnodes. cbn [Path.parts physical] in Hnodes.
  pose proof (add_directories_grows _ _ _ _ _ Hnodes) as Hg.
  destruct (add_directories_direct _ _ [] _ Hd (plain_dir_nil _) Hnodes) as [Hp Hq].
  split; [exact Hg|]. split; [exact Hp|]. intros name. apply Hq. cbn. rewrite length_app. cbn. lia.
Qed.
End Place.
