(* ===== verification/ConsoleMain.v ===== *)
(** * The console from its command line on

    [controller/src/bin/sdr-agent.rs], lines 64 to 105: [main], and [run] up to the
    connected console; then [Console.run].  The request template is a file of which
    the content is given, the saved session lies on the tree of [TerminalState], the
    socket answers whether it could be connected, and [address_text] is what stands
    for an address in [Console], which only passes it on. *)
From S2P Require Import Prelude Hoare Text Net Utf8 F32 Protocol Policy Sdr Execution SweepPlan Session Numbers TerminalState ConsoleText Console ConsoleInvariant ConsoleSafety ConsoleIdle ConsoleOrder ConsoleSamples ConsoleOptions Files.

Section Main.
Context {json : Json} {access : JsonAccess} {world : World} {decode_plan : Deserialize PlanResponse.t}.
Context (os : System) (session_from_slice : list Z -> result string PersistedTerminalSession.t).
Context (template_from_slice : list Z -> result string PlanRequest.t).
Context (open_request : string -> result AppError (list Z)).
Context (connect_socket : string -> result AppError unit).
Context (address_text : SocketAddr.t -> string).
Context (fuel : nat).

(** The saved session, for a console with a terminal. *)
Definition load_session (options : Options.t) : M Fs.t AppError (option LoadedTerminalSession.t) :=
  match options.(Options.instruction), options.(Options.session_state_path) with
  | None, Some path => load_terminal_session os session_from_slice (path_of path)
  | _, _ => mret None
  end.

(** [ConsoleApp::connect] with the fields of [ConsoleConnectionOptions]. *)
Definition connect_console (options : Options.t) (template : PlanRequest.t)
    (loaded : option LoadedTerminalSession.t) : ConsoleApp.t :=
  let address := option_map address_text options.(Options.sdrd_address) in
  connect template
    (option_map (fun address => Adapter.mk address options.(Options.sdrd_timeout_ms)) address)
    address options.(Options.sdrd_timeout_ms) options.(Options.survey_gain_db)
    options.(Options.sigmf_directory)
    (if is_none options.(Options.instruction) then options.(Options.session_state_path) else None)
    (option_map (fun loaded => (loaded.(LoadedTerminalSession.history),
                                loaded.(LoadedTerminalSession.summary))) loaded)
    (now []).

Definition start (args : list string) (xdg_state_home home : option string)
    : M Fs.t AppError (Options.t * ConsoleApp.t) :=
  options ← lift (parse args xdg_state_home home) ;
  bytes ← lift (read_bounded (open_request options.(Options.request_path))) ;
  template ← lift (map_err Serde (template_from_slice bytes)) ;
  lift (map_err PolicyRejected (validate_request template)) ;;
  loaded ← load_session options ;
  lift (connect_socket options.(Options.socket_path)) ;;
  mret (options, connect_console options template loaded).

(** [main]: the exit code, the log of the console, and the files as they are when
    the console starts; what it saves later is in the log. *)
Definition main (args : list string) (xdg_state_home home : option string) (fs : Fs.t)
    : Z * Log * Fs.t :=
  match start args xdg_state_home home fs with
  | (Err _, fs) => (1, [], fs)
  | (Ok (options, console), fs) =>
      let (r, s) :=
        run fuel options.(Options.instruction) options.(Options.initial_survey) (state console []) in
      (if is_Ok r then 0 else 1, s.(log), fs)
  end.

(** ** What the command line decides *)

Lemma set_option_address flag value a a' :
  set_option flag value a = Ok a' -> flag <> "--sdrd"%string ->
  a'.(Arguments.sdrd_address) = a.(Arguments.sdrd_address).
Proof.
  unfold set_option. intros H Hflag.
  destruct (String.eqb_spec flag "--sdrd"); [contradiction|].
  repeat (destruct (String.eqb flag _); [first [injection H as <-; try destruct (String.eqb value _); reflexivity
    | apply bind_Ok in H as (n'&_&[= <-]); reflexivity]|]).
  apply bind_Ok in H as (n'&_&[= <-]). reflexivity.
Qed.

Lemma parse_arguments_address args a a' :
  parse_arguments args a = Ok a' -> "--sdrd"%string ∉ args ->
  a'.(Arguments.sdrd_address) = a.(Arguments.sdrd_address).
Proof.
  remember (length args) as n eqn:Hn. revert args a Hn.
  induction (lt_wf n) as [n _ IH]. intros args a -> Hparse Hnot.
  destruct args as [|arg args]; cbn [parse_arguments] in Hparse; [now injection Hparse as <-|].
  rewrite not_elem_of_cons in Hnot. destruct Hnot as [Harg Hnot].
  destruct (takes_value arg).
  - destruct args as [|value args]; [discriminate|]. apply bind_Ok in Hparse as (a1&H1&Hparse).
    rewrite not_elem_of_cons in Hnot. destruct Hnot as [_ Hnot].
    rewrite (IH (length args) ltac:(cbn; lia) args a1 eq_refl Hparse Hnot).
    eapply set_option_address; [exact H1|congruence].
  - destruct (starts_with "-" arg); [discriminate|].
    now rewrite (IH (length args) ltac:(cbn; lia) args _ eq_refl Hparse Hnot).
Qed.

Lemma parse_address args xdg_state_home home options :
  parse args xdg_state_home home = Ok options -> "--sdrd"%string ∉ args ->
  options.(Options.sdrd_address) = None.
Proof.
  unfold parse. intros Hparse Hnot. apply bind_Ok in Hparse as (a&Ha&Hparse).
  apply parse_arguments_address in Ha; [|exact Hnot]. rewrite reject_seq in Hparse.
  destruct Hparse as [_ Hparse]. apply bind_Ok in Hparse as (g&_&Hparse).
  apply bind_Ok in Hparse as (i&_&Hparse). apply bind_Ok in Hparse as (p&_&Hparse).
  rewrite reject_seq in Hparse. destruct Hparse as [_ [= <-]]. exact Ha.
Qed.

(** ** What a run may do *)
Definition starts_hardware (op : Op) : bool :=
  match op with StartCapture _ _ _ | StartSweep _ _ _ _ _ => true | _ => false end.

Lemma unattended_lines (l : Log) :
  Forall unattended l -> approving l = false /\ cruising l = false.
Proof.
  unfold approving. induction 1 as [|op l Hop Hl IH]; [now split|].
  destruct op; exact IH || destruct Hop.
Qed.

(** Without a line from the operator nothing justifies hardware but the initial survey. *)
Lemma unattended_starts_nothing (l : Log) op :
  Good l -> Forall unattended l -> op ∈ l -> starts_hardware op = false.
Proof.
  intros Hg Hf Hin. apply list_elem_of_split in Hin as (after&before&->).
  apply Good_suffix in Hg as [Hj _]. apply Forall_app in Hf as [_ Hf].
  apply Forall_cons_1 in Hf as [Hop Hf]. apply unattended_lines in Hf as [Ha Hc].
  destruct op; try reflexivity; exfalso.
  - destruct Hj as (_&_&_&_&[(_&H&_)|[_ H]]); congruence.
  - destruct Hj as (_&_&_&_&Hkind). rewrite Ha, Hc in Hkind.
    destruct kind; [exact Hop|destruct Hkind as [_ [=]]..].
Qed.

Lemma connected_unplugged options template loaded :
  options.(Options.sdrd_address) = None -> Unplugged (connect_console options template loaded).
Proof. intros Haddress. unfold connect_console. rewrite Haddress. now constructor. Qed.

(** What [main] does is what the connected console does, or nothing. *)
Lemma main_run args xdg_state_home home fs code l fs' :
  main args xdg_state_home home fs = (code, l, fs') ->
  l = [] \/ exists options template_bytes template loaded,
    parse args xdg_state_home home = Ok options
    /\ template_from_slice template_bytes = Ok template
    /\ (load_session options fs).1 = Ok loaded
    /\ l = (run fuel options.(Options.instruction) options.(Options.initial_survey)
              (state (connect_console options template loaded) [])).2.(Console.log).
Proof.
  unfold main, start. rewrite lift_bind_run.
  destruct (parse args xdg_state_home home) as [options|e] eqn:Hparse; [|intros [= _ <- _]; now left].
  rewrite lift_bind_run. destruct (read_bounded _) as [template_bytes|e]; [|intros [= _ <- _]; now left].
  rewrite lift_bind_run. destruct (template_from_slice template_bytes) as [template|e] eqn:Htemplate; [|intros [= _ <- _]; now left].
  cbn [map_err]. rewrite lift_bind_run. destruct (map_err PolicyRejected _); [|intros [= _ <- _]; now left].
  rewrite bind_run. destruct (load_session options fs) as [[loaded|e] fs1] eqn:Hload; [|intros [= _ <- _]; now left].
  rewrite lift_bind_run. destruct (connect_socket _); [|intros [= _ <- _]; now left].
  cbn [mret M_ret]. destruct (run _ _ _ _) as [r s] eqn:Hrun. intros [= _ <- _]. right.
  exists options, template_bytes, template, loaded. split_and!; try reflexivity; [exact Htemplate|now rewrite Hload|].
  change s with (snd (r, s)). now rewrite <- Hrun.
Qed.

(** A session that is loaded fits into the history. *)
Lemma accept_session_short persisted time loaded :
  accept_session persisted time = Ok (Some loaded) ->
  (length loaded.(LoadedTerminalSession.history) <= HISTORY_LIMIT)%nat.
Proof.
  unfold accept_session. rewrite reject_seq. intros [_ H]. destruct (_ <? _); [discriminate|].
  rewrite reject_seq in H. destruct H as [Hlength H]. apply bind_Ok in H as ([]&_&[= <-]).
  now apply Nat.ltb_ge in Hlength.
Qed.
Lemma load_session_short options fs loaded :
  (load_session options fs).1 = Ok loaded ->
  (length (default [] (option_map LoadedTerminalSession.history loaded)) <= HISTORY_LIMIT)%nat.
Proof.
  set (P (loaded : option LoadedTerminalSession.t) (_ : Fs.t) :=
    (length (default [] (option_map LoadedTerminalSession.history loaded)) <= HISTORY_LIMIT)%nat).
  assert (H : wp (load_session options) P (fun _ _ => True) fs).
  { assert (Hnone : forall s, P None s) by (intros s; apply Nat.le_0_l).
    unfold load_session. destruct (Options.instruction options); [apply wp_ret, Hnone|].
    destruct (Options.session_state_path options) as [path|]; [|apply wp_ret, Hnone].
    unfold load_terminal_session. do 2 (apply wp_last; intros ? ?).
    case_match; [|apply wp_ret, Hnone]. do 9 (apply wp_last; intros ? ?).
    apply wp_lift; [|easy]. intros [accepted|] E; [|apply Hnone].
    exact (accept_session_short _ _ _ E). }
  unfold wp in H. destruct (load_session options fs) as [[?|e] ?]; [|discriminate]. intros [= <-]. exact H.
Qed.
End Main.

(** C2: a run of the console program, from its command line on: every hardware action in its log is
    justified by what came before it; without --sdrd on the command line the log holds no
    operation on hardware at all, not even a look at the radio; and with an instruction on the
    command line, where nobody can approve anything, no capture and no sweep is started. *)
Theorem console_program_is_safe
    {json : Json} {access : JsonAccess} {world : World} {decode_plan : Deserialize PlanResponse.t}
    os session_from_slice template_from_slice open_request connect_socket address_text fuel
    args xdg_state_home home fs code log fs' :
  main os session_from_slice template_from_slice open_request connect_socket address_text fuel
    args xdg_state_home home fs = (code, log, fs') ->
  (forall after op before, log = after ++ op :: before -> Justified op before)
  /\ ("--sdrd"%string ∉ args -> Forall idle_op log)
  /\ (forall options, parse args xdg_state_home home = Ok options ->
      options.(Options.instruction) <> None -> forall op, op ∈ log -> starts_hardware op = false).
Proof.
  intros [->|(options&bytes&template&loaded&Hparse&_&_&->)]%main_run.
  { split_and!; [intros [|] ? ? [=]|constructor|intros ? _ _ op Hin; inversion Hin]. }
  set (s := state (connect_console address_text options template loaded) []).
  assert (Hg : Good (run fuel options.(Options.instruction) options.(Options.initial_survey) s).2.(Console.log))
    by apply connected_run_good.
  split_and!.
  - intros after op before E. rewrite E in Hg. apply Good_suffix in Hg. apply Hg.
  - intros Hnot. apply idle_run. split; [|constructor].
    apply connected_unplugged. eapply parse_address; [exact Hparse|exact Hnot].
  - intros options' Hparse' Hi op Hin. assert (options' = options) as -> by congruence.
    destruct options.(Options.instruction) as [instruction|]; [|congruence].
    destruct (untyped_run fuel instruction options.(Options.initial_survey) s) as (ops&E&Hf).
    eapply unattended_starts_nothing; [exact Hg| |exact Hin]. rewrite E. cbn. now rewrite app_nil_r.
Qed.

(** C8: the lines to the planner session are in order and every number in them is a [u64]: from the
    command line on, for every behaviour of the outside, the commands are numbered 1, 2, 3 and so
    on (after 2^64 - 1 again from 1); no command is of an earlier generation than one before it;
    a request carries the generation of its command and an id above the ids of all requests sent
    before it, so that no two requests of a run can be confused; and no history that is saved
    has more than the 32 entries that can be resumed. *)
Theorem commands_are_numbered
    {json : Json} {access : JsonAccess} {world : World} {decode_plan : Deserialize PlanResponse.t}
    os session_from_slice template_from_slice open_request connect_socket address_text fuel
    args xdg_state_home home fs code log fs' :
  (forall bytes request, template_from_slice bytes = Ok request -> PlanRequest.wf request) ->
  main os session_from_slice template_from_slice open_request connect_socket address_text fuel
    args xdg_state_home home fs = (code, log, fs') ->
  (forall newer c older, commands log = newer ++ c :: older ->
     c.(Command.command_id) = command_number (length older)
     /\ is_u64 c.(Command.command_id) /\ is_u64 c.(Command.session_generation)
     /\ (forall c', c' ∈ older -> c'.(Command.session_generation) <= c.(Command.session_generation))
     /\ forall request, c.(Command.context) = Some request ->
         request.(PlanRequest.session_generation) = c.(Command.session_generation)
         /\ is_u64 request.(PlanRequest.request_id)
         /\ forall c' request', c' ∈ older -> c'.(Command.context) = Some request' ->
              request'.(PlanRequest.request_id) < request.(PlanRequest.request_id))
  /\ (forall path history, Persist path history ∈ log -> (length history <= HISTORY_LIMIT)%nat).
Proof.
  intros Hwf Hmain.
  assert (Ho : Ordered log).
  { apply main_run in Hmain as [->|(options&bytes&template&loaded&_&Htemplate&Hload&->)]; [now split|].
    destruct (Hwf _ _ Htemplate) as (_&Hid&Hgeneration&_).
    eapply wp_snd with (P := fun s => Ordered s.(Console.log)), ends_run. apply connect_InStep; [exact Hid|exact Hgeneration|].
    apply load_session_short in Hload. now destruct loaded. }
  split.
  - intros newer c older E. destruct (Ordered_commands _ _ _ _ Ho E) as (Hn&Hrest).
    split_and!; [exact Hn| |apply Hrest..]. rewrite Hn. pose proof (command_number_u64 (length older)). unfold is_u. lia.
  - intros path history Hin. destruct Ho as [_ Hs]. exact (proj1 (list.Forall_forall _ _) Hs _ Hin).
Qed.

(** *** The sample session from its command line on *)
Module MainSamples.
#[local] Existing Instances sample_json sample_access sample_plan survey_world.
Definition os : System :=
  {| fault _ := None; accepted _ := O; unix_time _ := Ok 0; geteuid := 0; umask := 18;
     process_id := 1 |}.
Definition session (_ : list Z) : result string PersistedTerminalSession.t := Err "unused"%string.
Definition template (_ : list Z) : result string PlanRequest.t := Ok PolicySamples.request.
Definition open_request (path : string) : result AppError (list Z) :=
  if String.eqb path "/etc/sdr-agent/request.json" then Ok (bytes "{}") else Err (Io "No such file").
Definition connected (_ : string) : result AppError unit := Ok tt.
Definition address_text (_ : SocketAddr.t) : string := "radio:43110".
Definition from (args : list string) : Z * Log * Fs.t :=
  main os session template open_request connected address_text 60 args None None (Fs.mk ∅ []).
Definition with_radio : list string := ["--sdrd"; "192.168.1.10:43110"; "--session-state"; "off"].
Definition without_radio : list string := ["--session-state"; "off"].
End MainSamples.
#[local] Existing Instances sample_json sample_access sample_plan survey_world.

(** With a radio the sample session sweeps; without one the same lines end it
    without an operation on hardware. *)
Example a_session_with_and_without_radio :
  length (List.filter starts_hardware (MainSamples.from MainSamples.with_radio).1.2) = 1%nat
  /\ (MainSamples.from MainSamples.without_radio).1.1 = 0
  /\ length (MainSamples.from MainSamples.without_radio).1.2 = 39%nat.
Proof. vm_compute. auto. Qed.

(** Number 15 from the end of the log of the sample session is the survey's sweep. *)
Lemma sample_sweep :
  match (MainSamples.from MainSamples.with_radio).1.2 !! 15%nat with
  | Some op => starts_hardware op | None => false end = true.
Proof. vm_compute. reflexivity. Qed.

Lemma console_program_is_safe_witness :
  Forall idle_op (MainSamples.from MainSamples.without_radio).1.2
  /\ exists op before, starts_hardware op = true /\ Justified op before
     /\ (op :: before) `suffix_of` (MainSamples.from MainSamples.with_radio).1.2.
Proof.
  pose proof sample_sweep as Hn.
  pose proof (fun args code log fs => console_program_is_safe MainSamples.os MainSamples.session
    MainSamples.template MainSamples.open_request MainSamples.connected MainSamples.address_text 60%nat
    args None None (Fs.mk ∅ []) code log fs) as Hsafe.
  change (forall args code log fs, MainSamples.from args = (code, log, fs) ->
    (forall after op before, log = after ++ op :: before -> Justified op before)
    /\ ("--sdrd"%string ∉ args -> Forall idle_op log)
    /\ (forall options, parse args None None = Ok options ->
        options.(Options.instruction) <> None -> forall op, op ∈ log -> starts_hardware op = false)) in Hsafe.
  revert Hn Hsafe. generalize MainSamples.from. intros from Hn Hsafe. split.
  - destruct (from MainSamples.without_radio) as [[code log] fs] eqn:E.
    destruct (Hsafe _ _ _ _ E) as (_&H&_). apply H.
    unfold MainSamples.without_radio. rewrite !not_elem_of_cons. split_and!; try discriminate.
    apply not_elem_of_nil.
  - destruct (from MainSamples.with_radio) as [[code log] fs] eqn:E. cbn [fst snd] in *.
    destruct (Hsafe _ _ _ _ E) as (H&_&_).
    destruct (log !! 15%nat) as [op|] eqn:Hop; [|discriminate]. exists op, (drop 16 log).
    assert (Hlog : log = take 15 log ++ op :: drop 16 log) by (symmetry; apply take_drop_middle, Hop).
    split; [exact Hn|]. split; [exact (H _ _ _ Hlog)|]. exists (take 15 log). exact Hlog.
Defined.

(** The third line from the end is the prompt of the sample session: the fourth
    command, of the generation after the initial one, with the first request. *)
Definition is_first_prompt (c : Command.t) : bool :=
  (c.(Command.command_id) =? 4) && (c.(Command.session_generation) =? 4)
  && match c.(Command.context) with
     | Some request => request.(PlanRequest.request_id) =? 7
     | None => false
     end.
Lemma sample_prompt :
  match commands (MainSamples.from MainSamples.with_radio).1.2 !! 2%nat with
  | Some c => is_first_prompt c | None => false end = true.
Proof. vm_compute. reflexivity. Qed.

Lemma commands_are_numbered_witness :
  exists c newer older,
    commands (MainSamples.from MainSamples.with_radio).1.2 = newer ++ c :: older
    /\ is_first_prompt c = true /\ c.(Command.command_id) = command_number (length older)
    /\ forall c', c' ∈ older -> c'.(Command.session_generation) <= 4.
Proof.
  pose proof sample_prompt as Hn.
  pose proof (fun args code log fs => commands_are_numbered MainSamples.os MainSamples.session
    MainSamples.template MainSamples.open_request MainSamples.connected MainSamples.address_text 60%nat
    args None None (Fs.mk ∅ []) code log fs
    ltac:(intros ? ? [= <-]; exact PolicySamples.request_wf)) as Hnumbered.
  specialize (Hnumbered MainSamples.with_radio).
  revert Hn Hnumbered. change (main _ _ _ _ _ _ _ _ _ _ _) with (MainSamples.from MainSamples.with_radio).
  generalize (MainSamples.from MainSamples.with_radio). intros [[code log] fs] Hn Hnumbered.
  destruct (Hnumbered _ _ _ eq_refl) as [H _]. cbn [fst snd] in *.
  destruct (commands log !! 2%nat) as [c|] eqn:Hc; [|discriminate]. exists c, (take 2 (commands log)), (drop 3 (commands log)).
  assert (E : commands log = take 2 (commands log) ++ c :: drop 3 (commands log))
    by (symmetry; apply take_drop_middle, Hc).
  destruct (H _ _ _ E) as (Hid&_&_&Hgeneration&_). split_and!; [exact E|exact Hn|exact Hid|].
  unfold is_first_prompt in Hn. intros c' Hc'. apply Hgeneration in Hc'. guards_in Hn. lia.
Defined.
