(* ===== verification/WebResults.v ===== *)
(** * Sweep results of the web console

    [web-console/src/main.rs], lines 126 to 188, 470 to 868 and 1723 to 1787: the
    plots and observations an agent prints are validated before they are kept, the plots are rows of a
    database, and a row's recording is deleted with it.  SQLite is its table: the
    statements do what SQL says, and any of them may fail. *)
From S2P Require Import Prelude Hoare Text Utf8 F32 Protocol Policy Sdr Session TerminalState ConsoleText WebConfig Files.

(** ** Records *)
Module SweepDatasetView.
Record t := mk {
  format : string;
  datatype : string;
  data_path : string;
  metadata_path : string;
  bytes : Z;
}.
End SweepDatasetView.

Module SweepPlotCandidate.
Record t := mk {
  id : string;
  start_hz : Z;
  stop_hz : Z;
  center_hz : Z;
  bandwidth_hz : Z;
  peak_dbfs : float;
  snr_db : float;
  point_count : Z;
}.
End SweepPlotCandidate.

Module SweepPlot.
Record t := mk {
  schema_version : Z;
  sweep_id : string;
  kind : string;
  elapsed_ms : Z;
  gain_db : Z;
  noise_floor_dbfs : float;
  points : list (Z * float);
  candidates : list SweepPlotCandidate.t;
  dataset : option SweepDatasetView.t;
}.
End SweepPlot.

Module CaptureResultSummary.
Record t := mk {
  id : Z;
  session_id : string;
  sweep_id : string;
  kind : string;
  created_at_ms : Z;
  point_count : Z;
  candidate_count : Z;
  elapsed_ms : Z;
  gain_db : Z;
  noise_floor_dbfs : float;
  iq_bytes : Z;
}.
End CaptureResultSummary.

Module CaptureResultDetail.
Record t := mk { summary : CaptureResultSummary.t; sweep_plot : SweepPlot.t }.
End CaptureResultDetail.

(** ** Plots *)

(** [-360.0..=6.1] on [f32]: 6.1 is the nearest value, 12792627 / 2^21. *)
Definition valid_dbfs (value : float) : bool :=
  is_finite value && f_in_range (f32_of_Z (-360)) (f32_lit 12792627 21) value.

(** [chars().any(char::is_control)] and the length, for identifiers. *)
Definition bad_id (maximum_bytes : Z) (id : string) : bool :=
  is_empty id || (maximum_bytes <? len id) || has_control id.

Definition bad_header (plot : SweepPlot.t) : bool :=
  negb (plot.(SweepPlot.schema_version) =? 1)
  || negb (String.eqb plot.(SweepPlot.kind) "initial" || String.eqb plot.(SweepPlot.kind) "planned")
  || bad_id 128 plot.(SweepPlot.sweep_id)
  || null plot.(SweepPlot.points)
  || (MAX_SURVEY_POINTS <? length_z plot.(SweepPlot.points))
  || (MAX_CANDIDATES <? length_z plot.(SweepPlot.candidates))
  || (300000 <? plot.(SweepPlot.elapsed_ms))
  || negb (in_range 0 60 plot.(SweepPlot.gain_db))
  || negb (valid_dbfs plot.(SweepPlot.noise_floor_dbfs)).

Definition bad_point (prior_frequency : option Z) (point : Z * float) : bool :=
  negb (in_range DEFAULT_SURVEY_START_HZ DEFAULT_SURVEY_STOP_HZ point.1)
  || match prior_frequency with Some prior => point.1 <=? prior | None => false end
  || negb (valid_dbfs point.2).
Fixpoint check_points (prior_frequency : option Z) (points : list (Z * float)) : ApiResult unit :=
  match points with
  | [] => Ok tt
  | point :: points =>
      reject_if (bad_point prior_frequency point)
        (internal_error "扫频频点必须严格递增，且频率和功率必须有效") ;;
      check_points (Some point.1) points
  end.

Definition bad_candidate (points : Z) (ids : list string) (candidate : SweepPlotCandidate.t) : bool :=
  bad_id 128 candidate.(SweepPlotCandidate.id)
  || bool_decide (candidate.(SweepPlotCandidate.id) ∈ ids)
  || (candidate.(SweepPlotCandidate.center_hz) <? candidate.(SweepPlotCandidate.start_hz))
  || (candidate.(SweepPlotCandidate.stop_hz) <? candidate.(SweepPlotCandidate.center_hz))
  || negb (saturating_sub candidate.(SweepPlotCandidate.stop_hz) candidate.(SweepPlotCandidate.start_hz)
           =? candidate.(SweepPlotCandidate.bandwidth_hz))
  || (saturating_add DEFAULT_SURVEY_STOP_HZ 56000000 <? candidate.(SweepPlotCandidate.stop_hz))
  || (candidate.(SweepPlotCandidate.point_count) =? 0)
  || (points <? candidate.(SweepPlotCandidate.point_count))
  || negb (valid_dbfs candidate.(SweepPlotCandidate.peak_dbfs))
  || negb (is_finite candidate.(SweepPlotCandidate.snr_db))
  || negb (f_in_range (f32_of_Z 0) (f32_of_Z 360) candidate.(SweepPlotCandidate.snr_db)).
Fixpoint check_plot_candidates (points : Z) (ids : list string)
    (candidates : list SweepPlotCandidate.t) : ApiResult unit :=
  match candidates with
  | [] => Ok tt
  | candidate :: candidates =>
      reject_if (bad_candidate points ids candidate) (internal_error "扫频候选边界、标识或数值无效") ;;
      check_plot_candidates points (candidate.(SweepPlotCandidate.id) :: ids) candidates
  end.

(** ** Recordings *)
Section Recordings.
Context {json : Json} {access : JsonAccess}.
Context (os : System).
Abbreviation IO := (M Fs.t ApiError).

(** [map_err(internal_error)]. *)
Definition io_text (error : AppError) : string := match error with Io text => text | _ => EmptyString end.
Definition io {A} (m : M Fs.t AppError A) : IO A := map_errM (fun e => internal_error (io_text e)) m.

Definition is_regular (node : Node) : bool := match node with File _ _ _ => true | _ => false end.
Definition is_directory (node : Node) : bool := match node with Directory _ _ => true | _ => false end.

Definition ensure_real_directory (path : Path.t) : IO unit :=
  there ← io (path_exists os path) ;
  (if negb there then io (create_directories os path) else mret tt) ;;
  metadata ← io (link_metadata os path) ;
  lift (reject_if (negb (is_directory metadata)) (internal_error ("受管目录必须是真实目录：" +:+ path_text path))).

Definition managed_capture_path (capture_root path : Path.t) (extension_ : string)
    (require_file : bool) : IO Path.t :=
  ensure_real_directory capture_root ;;
  lift (reject_if (negb path.(Path.absolute) || negb (is_str (extension path) extension_))
          (internal_error "采集文件路径或扩展名无效")) ;;
  root ← io (canonicalize os capture_root) ;
  there ← io (path_exists os path) ;
  if there : bool then
    metadata ← io (link_metadata os path) ;
    lift (reject_if (negb (is_regular metadata)) (internal_error "采集文件必须是普通文件且不能是符号链接")) ;;
    canonical ← io (canonicalize os path) ;
    lift (reject_if (negb (starts_with_path canonical root)) (internal_error "采集文件不属于 AGX 受管目录")) ;;
    mret canonical
  else if require_file then lift (Err (internal_error "采集文件不存在"))
  else
    parent ← lift (ok_or (internal_error "采集文件路径无父目录") (Path.parent path)) ;
    canonical_parent ← io (canonicalize os parent) ;
    lift (reject_if (negb (starts_with_path canonical_parent root))
            (internal_error "采集文件不属于 AGX 受管目录")) ;;
    mret path.

Definition check_metadata (metadata_bytes : list Z) (expected_captures : Z) : ApiResult unit :=
  reject_if (8 * 1024 * 1024 <? length_z metadata_bytes)
    (internal_error "SigMF 元数据超过 8 MiB 安全边界") ;;
  metadata ← map_err internal_error (from_slice metadata_bytes) ;
  let datatype := pointer "global" "core:datatype" metadata ≫= as_str in
  let captures := get "captures" metadata ≫= as_array in
  reject_if (negb (is_str datatype "ci16_le")
             || negb (is_u64_of (length_z <$> captures) expected_captures))
    (internal_error "SigMF 元数据与扫频窗口数量不一致").

Definition validate_managed_dataset (dataset : SweepDatasetView.t) (capture_root : Path.t)
    (expected_captures : Z) (require_files : bool) : IO (Path.t * Path.t) :=
  lift (reject_if (negb (String.eqb dataset.(SweepDatasetView.format) "sigmf")
                   || negb (String.eqb dataset.(SweepDatasetView.datatype) "ci16_le")
                   || negb (dataset.(SweepDatasetView.bytes) mod 4 =? 0))
          (internal_error "只接受 ci16_le SigMF 扫频数据集")) ;;
  data_path ← managed_capture_path capture_root (path_of dataset.(SweepDatasetView.data_path))
                "sigmf-data" require_files ;
  metadata_path ← managed_capture_path capture_root (path_of dataset.(SweepDatasetView.metadata_path))
                    "sigmf-meta" require_files ;
  lift (reject_if (bool_decide (data_path = metadata_path)
                   || negb (bool_decide (Path.parent data_path = Path.parent metadata_path)))
          (internal_error "SigMF 数据和元数据必须位于同一受管目录")) ;;
  there ← io (path_exists os data_path) ;
  (if there : bool then
     size ← io (file_size os data_path) ;
     lift (reject_if (negb (size =? dataset.(SweepDatasetView.bytes)))
             (internal_error "SigMF 数据文件大小与结果索引不一致"))
   else mret tt) ;;
  (if require_files then
     content ← io (read_file os metadata_path) ;
     lift (check_metadata content expected_captures)
   else mret tt) ;;
  mret (data_path, metadata_path).

Definition validate_sweep_plot (plot : SweepPlot.t) (capture_root : Path.t) : IO unit :=
  lift (reject_if (bad_header plot) (internal_error "扫频结果头部或数量超出受支持范围")) ;;
  lift (check_points None plot.(SweepPlot.points)) ;;
  lift (check_plot_candidates (length_z plot.(SweepPlot.points)) [] plot.(SweepPlot.candidates)) ;;
  match plot.(SweepPlot.dataset) with
  | Some dataset =>
      _ ← validate_managed_dataset dataset capture_root (length_z plot.(SweepPlot.points)) true ;
      mret tt
  | None => mret tt
  end.

(** One round of the loop over the two paths. *)
Definition delete_path (path : Path.t) (deleted : Z * Z) : IO (Z * Z) :=
  there ← io (path_exists os path) ;
  if there : bool then
    size ← io (file_size os path) ;
    io (unlink os path) ;;
    mret (deleted.1 + 1, saturating_add deleted.2 size)
  else mret deleted.
Definition delete_managed_dataset (dataset : SweepDatasetView.t) (capture_root : Path.t) : IO (Z * Z) :=
  '(data_path, metadata_path) ← validate_managed_dataset dataset capture_root 0 false ;
  deleted ← delete_path data_path (0, 0) ;
  delete_path metadata_path deleted.
End Recordings.

(** ** What is deleted *)
Section Deletion.
Context {json : Json} {access : JsonAccess}.
Context (os : System).

(** Where the recordings are. *)
Definition in_root (root : list string) (q : Path.t) : Prop :=
  q.(Path.absolute) = true /\ root `prefix_of` q.(Path.parts).
Definition recording (q : Path.t) : Prop :=
  extension q = Some "sigmf-data"%string \/ extension q = Some "sigmf-meta"%string.

(** Between two trees: files and links of the root with one of the two extensions may be gone,
    directories may be new, and the rest is as it was. *)
Definition confined (root : list string) (s s' : Fs.t) : Prop :=
  forall q,
    s'.(Fs.nodes) !! q = s.(Fs.nodes) !! q
    \/ (s.(Fs.nodes) !! q = None /\ exists uid mode, s'.(Fs.nodes) !! q = Some (Directory uid mode))
    \/ (s'.(Fs.nodes) !! q = None /\ in_root root q /\ recording q
        /\ exists node, s.(Fs.nodes) !! q = Some node /\ is_directory node = false).

Lemma grown_confined root s s' : grown_by_directories s s' -> confined root s s'.
Proof.
  intros [Hgrown Hnew] q. destruct (Fs.nodes s !! q) as [node|] eqn:E.
  - left. eapply lookup_weaken; [exact E|exact Hgrown].
  - destruct (Fs.nodes s' !! q) as [node|] eqn:E'; [|now left].
    right. left. destruct (Hnew _ _ E' E) as (uid&mode&->). eauto.
Qed.

Lemma wp_io {A} (m : M Fs.t AppError A) (Q : A -> Fs.t -> Prop) (R : Fs.t -> Prop) s :
  wp m Q (fun _ s' => R s') s -> wp (io m) Q (fun _ s' => R s') s.
Proof. intros H. now apply wp_map_err. Qed.

#[local] Instance grown_by_directories_preorder : PreOrder grown_by_directories.
Proof.
  split; [intros s; now apply same_tree_grown|].
  intros s1 s2 s3 [H12 N12] [H23 N23]. split; [now transitivity s2|].
  intros q node H3 H1. destruct (Fs.nodes s2 !! q) as [node'|] eqn:E2; [|eauto].
  assert (E3 : Fs.nodes s3 !! q = Some node') by (eapply lookup_weaken; [exact E2|exact H23]).
  rewrite H3 in E3. injection E3 as ->. eauto.
Qed.

Lemma wp_ensure_real_directory path s :
  wp (ensure_real_directory os path) (fun _ => grown_by_directories s) (fun _ => grown_by_directories s) s.
Proof.
  unfold ensure_real_directory. apply wp_bind, wp_io, wp_path_exists. intros there s1 H1 _.
  apply wp_bind.
  assert (Hmade : wp (if negb there then io (create_directories os path) else mret tt)
                    (fun _ => grown_by_directories s1) (fun _ => grown_by_directories s1) s1).
  { destruct there; [apply wp_ret; reflexivity|]. apply wp_io.
    eapply wp_conseq; [apply wp_create_directories|auto|]. intros; now apply same_tree_grown. }
  eapply wp_conseq; [exact Hmade| |].
  - intros [] s2 H2. assert (H02 : grown_by_directories s s2) by (etransitivity; [apply same_tree_grown|]; eauto).
    apply wp_bind, wp_io, wp_link_metadata.
    + intros node s3 H3 _. apply wp_lift; intros; etransitivity; try exact H02; now apply same_tree_grown.
    + intros e s3 H3. etransitivity; [exact H02|]. now apply same_tree_grown.
  - intros e s2 H2. etransitivity; [apply same_tree_grown|]; eauto.
Qed.

Lemma file_name_snoc d name : name <> ".."%string -> Path.file_name (physical (d ++ [name])) = Some name.
Proof.
  intros H. unfold Path.file_name, physical. cbn [Path.parts]. rewrite List.rev_app_distr.
  cbn [List.rev app]. now destruct (String.eqb_spec name "..").
Qed.

Lemma file_name_not_up path name : Path.file_name path = Some name -> name <> ".."%string.
Proof.
  unfold Path.file_name. destruct (List.rev _) as [|n r]; [discriminate|].
  destruct (String.eqb_spec n ".."); [discriminate|]. now intros [= ->].
Qed.

(** A path that is accepted has its entry in the root, whether the file is there or not. *)
Definition managed (root : list string) (extension_ : string) (s : Fs.t) (p : Path.t) : Prop :=
  exists here, entry s.(Fs.nodes) p = Some here /\ root `prefix_of` here
  /\ extension (physical here) = Some extension_.

Lemma managed_missing root ext (s : Fs.t) path parent d :
  is_str (extension path) ext = true ->
  Path.parent path = Some parent -> resolve s.(Fs.nodes) parent = Some d -> root `prefix_of` d ->
  managed root ext s path.
Proof.
  intros Hext Hparent Hd Hroot. unfold extension in Hext.
  destruct (Path.file_name path) as [name|] eqn:Hname; [|discriminate]. cbn in Hext.
  exists (d ++ [name]). split; [|split].
  - rewrite (entry_inv _ _ _ Hname), Hparent. cbn. now rewrite Hd.
  - now apply prefix_app_r.
  - unfold extension. rewrite file_name_snoc by (eapply file_name_not_up; eauto). cbn.
    destruct (extension_of name) as [e|]; [|discriminate]. cbn in Hext.
    apply String.eqb_eq in Hext. now rewrite Hext.
Qed.

Lemma managed_present root ext (s : Fs.t) path node q :
  is_str (extension path) ext = true ->
  lstat s.(Fs.nodes) path = Some node -> is_regular node = true ->
  resolve s.(Fs.nodes) path = Some q -> root `prefix_of` q ->
  managed root ext s (physical q).
Proof.
  intros Hext Hlstat Hregular Hq Hroot. unfold extension in Hext.
  destruct (Path.file_name path) as [name|] eqn:Hname; [|discriminate]. cbn in Hext.
  pose proof (resolve_entry _ _ _ _ _ Hname Hq Hlstat) as He.
  destruct node as [|uid mode content|]; try discriminate.
  pose proof He as Hlast. rewrite (entry_inv _ _ _ Hname) in Hlast.
  apply bind_Some in Hlast as (d&_&[= <-]).
  exists (d ++ [name]). split; [|split; [exact Hroot|]].
  - eapply entry_resolved; [exact Hq|]. now destruct d.
  - unfold extension. rewrite file_name_snoc by (eapply file_name_not_up; eauto). cbn.
    destruct (extension_of name) as [e|]; [|discriminate]. cbn in Hext.
    apply String.eqb_eq in Hext. now rewrite Hext.
Qed.

Lemma starts_with_physical q root : starts_with_path (physical q) (physical root) = true <-> root `prefix_of` q.
Proof.
  unfold starts_with_path. cbn [physical Path.absolute Path.parts]. cbn [Bool.eqb andb].
  now rewrite bool_decide_eq_true.
Qed.

Lemma managed_grown root ext s s' p : grown s s' -> managed root ext s p -> managed root ext s' p.
Proof. intros Hg (here&He&H). exists here. split; [|exact H]. eapply entry_mono; eauto. Qed.

Lemma wp_managed_capture_path capture_root root path ext require_file s :
  resolve s.(Fs.nodes) capture_root = Some root ->
  wp (managed_capture_path os capture_root path ext require_file)
    (fun p s' => grown_by_directories s s' /\ managed root ext s' p)
    (fun _ s' => grown_by_directories s s') s.
Proof.
  intros Hroot. unfold managed_capture_path. apply wp_bind.
  eapply wp_conseq; [apply wp_ensure_real_directory| |intros; assumption].
  intros [] s1 H1. assert (Hroot1 : resolve (Fs.nodes s1) capture_root = Some root)
    by (eapply resolve_mono; [apply H1|exact Hroot]).
  assert (Hend : forall s2, same_tree s1 s2 -> grown_by_directories s s2).
  { intros s2 H2. etransitivity; [exact H1|]. now apply same_tree_grown. }
  apply wp_bind, wp_lift; [|intros; exact H1]. intros [] Hguard. guards_in Hguard.
  destruct Hguard as [_ Hext].
  apply wp_bind, wp_io, wp_canonicalize; [|intros; now apply Hend].
  intros r s2 H2 Hr. rewrite Hroot1 in Hr. injection Hr as <-.
  apply wp_bind, wp_io, wp_path_exists. intros there s3 H3 _.
  unfold same_tree in *. rewrite H2 in H3.
  destruct there; [|destruct require_file; [apply wp_lift; [discriminate|]; intros; now apply Hend|]].
  - apply wp_bind, wp_io, wp_link_metadata; [|intros e s4 H4; apply Hend; unfold same_tree in *; congruence].
    intros node s4 H4 Hlstat. unfold same_tree in H4.
    apply wp_bind, wp_lift; [|intros; apply Hend; congruence]. intros [] Hregular. guards_in Hregular.
    apply wp_bind, wp_io, wp_canonicalize; [|intros e s5 H5; apply Hend; unfold same_tree in *; congruence].
    intros q s5 H5 Hq. unfold same_tree in H5.
    apply wp_bind, wp_lift; [|intros; apply Hend; congruence]. intros [] Hin. guards_in Hin.
    apply starts_with_physical in Hin. apply wp_ret. split; [apply Hend; congruence|].
    rewrite <- H5 in Hq. rewrite <- H4, <- H5 in Hlstat.
    apply (managed_present root ext s5 path node q); [exact Hext|exact Hlstat|exact Hregular|exact Hq|exact Hin].
  - apply wp_bind, wp_lift; [|intros; now apply Hend]. intros parent Hparent. apply ok_or_Ok in Hparent.
    apply wp_bind, wp_io, wp_canonicalize; [|intros e s4 H4; apply Hend; unfold same_tree in *; congruence].
    intros d s4 H4 Hd. unfold same_tree in H4.
    apply wp_bind, wp_lift; [|intros; apply Hend; congruence]. intros [] Hin. guards_in Hin.
    apply starts_with_physical in Hin. apply wp_ret. split; [apply Hend; congruence|].
    apply (managed_missing root ext s4 path parent d); [exact Hext|exact Hparent| |exact Hin].
    rewrite H4. exact Hd.
Qed.

Lemma wp_read_file path s :
  wp (read_file os path) (fun _ => same_tree s) (fun _ => same_tree s) s.
Proof.
  unfold read_file. apply wp_bind, wp_call_tree; [|auto]. intros s' Hs.
  apply wp_bind, wp_gets, wp_bind, wp_lift; [|auto]. intros [] _; try (apply wp_lift; auto); now apply wp_ret.
Qed.

Lemma wp_validate_managed_dataset dataset capture_root root captures require_files s :
  resolve s.(Fs.nodes) capture_root = Some root ->
  wp (validate_managed_dataset os dataset capture_root captures require_files)
    (fun paths s' => grown_by_directories s s'
       /\ managed root "sigmf-data" s' paths.1 /\ managed root "sigmf-meta" s' paths.2)
    (fun _ s' => grown_by_directories s s') s.
Proof.
  intros Hroot. unfold validate_managed_dataset. apply wp_bind, wp_lift; [|reflexivity]. intros [] _.
  apply wp_bind. eapply wp_conseq; [apply (wp_managed_capture_path capture_root root); exact Hroot| |auto].
  intros data s1 [H1 Hdata]. apply wp_bind.
  eapply wp_conseq; [apply (wp_managed_capture_path capture_root root); eapply resolve_mono; [apply H1|exact Hroot]| |].
  2: { intros e s2 H2. now transitivity s1. }
  intros meta s2 [H2 Hmeta].
  assert (H02 : grown_by_directories s s2) by now transitivity s1.
  apply (managed_grown _ _ _ s2) in Hdata; [|apply H2].
  assert (Hend : forall s3, same_tree s2 s3 -> grown_by_directories s s3).
  { intros s3 H3. etransitivity; [exact H02|]. now apply same_tree_grown. }
  apply wp_bind, wp_lift; [|intros; exact H02]. intros [] _.
  apply wp_bind, wp_io, wp_path_exists. intros there s3 H3 _. apply wp_bind.
  eapply wp_conseq with (Q := fun _ => same_tree s2) (R := fun _ => same_tree s2).
  { destruct there; [|now apply wp_ret]. apply wp_bind, wp_io.
    eapply wp_conseq; [apply wp_file_size| |]; cbn beta; unfold same_tree in *.
    - intros n s4 H4. apply wp_lift; intros; congruence.
    - intros e s4 H4. congruence. }
  2: { intros e s4 H4. now apply Hend. }
  intros [] s4 H4. apply wp_bind.
  eapply wp_conseq with (Q := fun _ => same_tree s2) (R := fun _ => same_tree s2).
  { destruct require_files; [|now apply wp_ret]. apply wp_bind, wp_io.
    eapply wp_conseq; [apply wp_read_file| |]; cbn beta; unfold same_tree in *.
    - intros n s5 H5. apply wp_lift; intros; congruence.
    - intros e s5 H5. congruence. }
  2: { intros e s5 H5. now apply Hend. }
  intros [] s5 H5. apply wp_ret. split; [now apply Hend|]. unfold managed in *. now rewrite H5.
Qed.

(** A round of the loop removes at most the entry of its path. *)
Lemma wp_delete_path path deleted s :
  wp (delete_path os path deleted)
    (fun _ s' => same_tree s s' \/ exists here node, entry s.(Fs.nodes) path = Some here
       /\ s'.(Fs.nodes) = delete (physical here) s.(Fs.nodes)
       /\ s.(Fs.nodes) !! physical here = Some node /\ is_directory node = false)
    (fun _ s' => same_tree s s') s.
Proof.
  unfold delete_path. apply wp_bind, wp_io, wp_path_exists. intros there s1 H1 _.
  destruct there; [|apply wp_ret; now left]. apply wp_bind, wp_io.
  eapply wp_conseq; [apply wp_file_size| |]; cbn beta; [|intros; unfold same_tree in *; congruence].
  intros n s2 H2. apply wp_bind, wp_io. eapply wp_conseq; [apply wp_unlink| |]; cbn beta;
    [|intros; unfold same_tree in *; congruence].
  intros [] s3 (here&He&Hdelete&Hnode). apply wp_ret. right.
  assert (E : Fs.nodes s2 = Fs.nodes s) by (unfold same_tree in *; congruence). rewrite E in *.
  destruct (Fs.nodes s !! physical here) as [node|] eqn:Hn; [|destruct Hnode].
  exists here, node. split; [exact He|]. split; [exact Hdelete|]. split; [exact Hn|]. now destruct node.
Qed.

(** Only recordings of the root are gone. *)
Definition deleted (root : list string) (s s' : Fs.t) : Prop :=
  forall q,
    s'.(Fs.nodes) !! q = s.(Fs.nodes) !! q
    \/ (s'.(Fs.nodes) !! q = None /\ in_root root q /\ recording q
        /\ exists node, s.(Fs.nodes) !! q = Some node /\ is_directory node = false).

Lemma deleted_entry root ext s s' here node :
  root `prefix_of` here -> extension (physical here) = Some ext ->
  ext = "sigmf-data"%string \/ ext = "sigmf-meta"%string ->
  s'.(Fs.nodes) = delete (physical here) s.(Fs.nodes) ->
  s.(Fs.nodes) !! physical here = Some node -> is_directory node = false ->
  deleted root s s'.
Proof.
  intros Hroot Hext Hwhich Hdelete Hnode Hdir q.
  destruct (decide (q = physical here)) as [->|Hne].
  - right. rewrite Hdelete, lookup_delete_eq. split; [reflexivity|].
    split; [now split|]. split; [|eauto]. unfold recording. rewrite Hext.
    destruct Hwhich as [->| ->]; auto.
  - left. now rewrite Hdelete, lookup_delete_ne.
Qed.

Lemma same_tree_deleted root s s' : same_tree s s' -> deleted root s s'.
Proof. intros E q. left. now rewrite E. Qed.

Lemma deleted_trans root s1 s2 s3 : deleted root s1 s2 -> deleted root s2 s3 -> deleted root s1 s3.
Proof.
  intros H12 H23 q. destruct (H12 q) as [E1|(N2&H)], (H23 q) as [E2|(N3&In&Rec&node&Hn&Hd)].
  - left. congruence.
  - right. split; [exact N3|]. split; [exact In|]. split; [exact Rec|]. exists node. now rewrite <- E1.
  - right. split; [congruence|exact H].
  - congruence.
Qed.

Lemma deleted_shrinks root s s' : deleted root s s' -> s'.(Fs.nodes) ⊆ s.(Fs.nodes).
Proof.
  intros H. apply map_subseteq_spec. intros q node Hq.
  destruct (H q) as [E|(N&_)]; congruence.
Qed.

Lemma grown_deleted root s s1 s2 : grown_by_directories s s1 -> deleted root s1 s2 -> confined root s s2.
Proof.
  intros Hg Hd q. destruct (grown_confined root _ _ Hg q) as [E1|[(N1&u&m&D1)|(N1&_&_&node&Hn&_)]].
  - destruct (Hd q) as [E2|(N2&In&Rec&node&Hn&Hdir)]; [left; congruence|].
    right. right. split; [exact N2|]. split; [exact In|]. split; [exact Rec|]. exists node. now rewrite <- E1.
  - destruct (Hd q) as [E2|(N2&_&_&node&Hn&Hdir)]; [right; left; eauto using eq_trans|].
    rewrite D1 in Hn. injection Hn as <-. discriminate.
  - destruct Hg as [Hg _]. rewrite (lookup_weaken _ _ _ _ Hn Hg) in N1. discriminate.
Qed.

Lemma wp_delete_managed root ext path count s0 s :
  managed root ext s0 path -> s.(Fs.nodes) ⊆ s0.(Fs.nodes) ->
  ext = "sigmf-data"%string \/ ext = "sigmf-meta"%string ->
  wp (delete_path os path count) (fun _ => deleted root s) (fun _ => deleted root s) s.
Proof.
  intros (here&He&Hroot&Hext) Hsub Hwhich. eapply wp_conseq; [apply wp_delete_path| |].
  - intros a s' [Hs|(here'&node&He'&Hdelete&Hnode&Hdir)]; [now apply same_tree_deleted|].
    apply (entry_mono _ _ _ _ Hsub) in He'. rewrite He in He'. injection He' as <-.
    eapply deleted_entry; eassumption.
  - intros e s'. apply same_tree_deleted.
Qed.

Lemma wp_delete_managed_dataset dataset capture_root root s :
  resolve s.(Fs.nodes) capture_root = Some root ->
  wp (delete_managed_dataset os dataset capture_root)
    (fun _ => confined root s) (fun _ => confined root s) s.
Proof.
  intros Hroot. unfold delete_managed_dataset. apply wp_bind.
  eapply wp_conseq; [apply (wp_validate_managed_dataset _ _ root); exact Hroot| |].
  2: { intros e s1. apply grown_confined. }
  intros [data meta] s1 (H1&Hdata&Hmeta). cbn [fst snd] in *. apply wp_bind.
  eapply wp_conseq; [apply (wp_delete_managed root _ data _ s1 s1 Hdata); [reflexivity|now left]| |].
  2: { intros e s2 H2. now apply (grown_deleted root s s1). }
  intros count s2 H2.
  eapply wp_conseq; [apply (wp_delete_managed root _ meta _ s1 s2 Hmeta); [now apply (deleted_shrinks root)|now right]| |];
    intros ? s3 H3; apply (grown_deleted root s s1); auto; now apply (deleted_trans root s1 s2).
Qed.
End Deletion.

(** ** The table of results *)
Module Row.
Record t := mk {
  id : Z;
  session_id : string;
  sweep_id : string;
  kind : string;
  created_at_ms : Z;
  point_count : Z;
  candidate_count : Z;
  elapsed_ms : Z;
  gain_db : Z;
  noise_floor_dbfs : float;
  iq_bytes : Z;
  payload_json : string;
}.
End Row.

Inductive Statement :=
| OpenDatabase
| CreateTables
| Upsert (row : Row.t)
| SelectAll
| SelectRow (id : Z)
| Begin
| SelectPayload (id : Z)
| DeleteRow (id : Z)
| Commit.

(** SQLite: which statements fail, and the row number of an inserted row. *)
Class Sqlite := {
  sql_fault : list Statement -> option string;
  fresh_id : list Row.t -> Z;
  fresh_id_new : forall rows, Forall (fun row => row.(Row.id) <> fresh_id rows) rows;
}.
(** serde_json on a plot. *)
Class PlotCodec := {
  plot_to_string : SweepPlot.t -> result string string;
  plot_from_str : string -> result string SweepPlot.t;
}.

Module Store.
Record t := mk { files : Fs.t; rows : list Row.t; statements : list Statement }.
End Store.

Definition i64_max : Z := 9223372036854775807.
(** [i64::try_from]. *)
Definition to_i64 (n : Z) : ApiResult Z :=
  if i64_max <? n then Err (internal_error "out of range integral type conversion attempted") else Ok n.

Section Database.
Context {json : Json} {access : JsonAccess} {codec : PlotCodec} {sqlite : Sqlite}.
Context (os : System).
Abbreviation Db := (M Store.t ApiError).

Definition on_files {A} (m : M Fs.t ApiError A) : Db A := fun s =>
  let (r, files) := m s.(Store.files) in (r, Store.mk files s.(Store.rows) s.(Store.statements)).
Definition statement (st : Statement) : Db unit := fun s =>
  let s' := Store.mk s.(Store.files) s.(Store.rows) (st :: s.(Store.statements)) in
  match sql_fault s'.(Store.statements) with
  | Some error => (Err (internal_error error), s')
  | None => (Ok tt, s')
  end.
Definition set_rows (rows : list Row.t) : Db unit :=
  modify (fun s => Store.mk s.(Store.files) rows s.(Store.statements)).

Definition open_result_database (path : Path.t) : Db unit :=
  parent ← lift (ok_or (internal_error "结果数据库路径无父目录") (Path.parent path)) ;
  on_files (ensure_real_directory os parent) ;;
  there ← on_files (io (path_exists os path)) ;
  (if there : bool then
     metadata ← on_files (io (link_metadata os path)) ;
     lift (reject_if (negb (is_regular metadata)) (internal_error "结果数据库必须是普通文件"))
   else mret tt) ;;
  statement OpenDatabase.

Definition capture_result_summary_from_row (row : Row.t) : CaptureResultSummary.t :=
  {| CaptureResultSummary.id := row.(Row.id);
     CaptureResultSummary.session_id := row.(Row.session_id);
     CaptureResultSummary.sweep_id := row.(Row.sweep_id);
     CaptureResultSummary.kind := row.(Row.kind);
     CaptureResultSummary.created_at_ms := Z.max row.(Row.created_at_ms) 0;
     CaptureResultSummary.point_count := Z.max row.(Row.point_count) 0;
     CaptureResultSummary.candidate_count := Z.max row.(Row.candidate_count) 0;
     CaptureResultSummary.elapsed_ms := Z.max row.(Row.elapsed_ms) 0;
     CaptureResultSummary.gain_db := Z.min (Z.max row.(Row.gain_db) (-32768)) 32767;
     CaptureResultSummary.noise_floor_dbfs := f32_of_f64 row.(Row.noise_floor_dbfs);
     CaptureResultSummary.iq_bytes := Z.max row.(Row.iq_bytes) 0 |}.

Definition same_key (a b : Row.t) : bool :=
  String.eqb a.(Row.session_id) b.(Row.session_id) && String.eqb a.(Row.sweep_id) b.(Row.sweep_id).
(** [ON CONFLICT(session_id, sweep_id) DO UPDATE]: the number and the time of the first
    row stay. *)
Definition update_row (new old : Row.t) : Row.t :=
  Row.mk old.(Row.id) old.(Row.session_id) old.(Row.sweep_id) new.(Row.kind) old.(Row.created_at_ms)
    new.(Row.point_count) new.(Row.candidate_count) new.(Row.elapsed_ms) new.(Row.gain_db)
    new.(Row.noise_floor_dbfs) new.(Row.iq_bytes) new.(Row.payload_json).
Definition upsert (row : Row.t) (rows : list Row.t) : list Row.t :=
  if existsb (same_key row) rows
  then map (fun old => if same_key row old then update_row row old else old) rows
  else rows ++ [row].

Definition row_of (id : Z) (session_id : string) (plot : SweepPlot.t) (now : Z) (payload : string)
    : ApiResult Row.t :=
  created_at_ms ← to_i64 now ;
  point_count ← to_i64 (length_z plot.(SweepPlot.points)) ;
  candidate_count ← to_i64 (length_z plot.(SweepPlot.candidates)) ;
  elapsed_ms ← to_i64 plot.(SweepPlot.elapsed_ms) ;
  iq_bytes ← to_i64 match plot.(SweepPlot.dataset) with
                    | Some dataset => dataset.(SweepDatasetView.bytes)
                    | None => 0
                    end ;
  Ok (Row.mk id session_id plot.(SweepPlot.sweep_id) plot.(SweepPlot.kind) created_at_ms point_count
        candidate_count elapsed_ms plot.(SweepPlot.gain_db) (f64_of_f32 plot.(SweepPlot.noise_floor_dbfs))
        iq_bytes payload).

Definition persist_capture_result (path : Path.t) (session_id : string) (plot : SweepPlot.t) (now : Z)
    : Db unit :=
  open_result_database path ;;
  payload ← lift (map_err internal_error (plot_to_string plot)) ;
  rows ← gets Store.rows ;
  row ← lift (row_of (fresh_id rows) session_id plot now payload) ;
  statement (Upsert row) ;;
  set_rows (upsert row rows).

Definition find_row (id : Z) (rows : list Row.t) : option Row.t :=
  List.find (fun row => row.(Row.id) =? id) rows.
Definition load_capture_result (path : Path.t) (id : Z) : Db CaptureResultDetail.t :=
  open_result_database path ;;
  statement (SelectRow id) ;;
  rows ← gets Store.rows ;
  row ← lift (ok_or (Api NOT_FOUND "采集结果不存在") (find_row id rows)) ;
  plot ← lift (map_err internal_error (plot_from_str row.(Row.payload_json))) ;
  mret (CaptureResultDetail.mk (capture_result_summary_from_row row) plot).

(** [ORDER BY created_at_ms DESC, id DESC]. *)
Definition newer (a b : Row.t) : bool :=
  (b.(Row.created_at_ms) <? a.(Row.created_at_ms))
  || ((a.(Row.created_at_ms) =? b.(Row.created_at_ms)) && (b.(Row.id) <? a.(Row.id))).
Fixpoint insert_row (row : Row.t) (rows : list Row.t) : list Row.t :=
  match rows with
  | [] => [row]
  | r :: rest => if newer row r then row :: rows else r :: insert_row row rest
  end.
Definition load_capture_result_summaries (path : Path.t) : Db (list CaptureResultSummary.t) :=
  open_result_database path ;;
  statement SelectAll ;;
  rows ← gets Store.rows ;
  mret (map capture_result_summary_from_row (foldr insert_row [] rows)).

Definition INVALID_ID : ApiError := Api BAD_REQUEST "采集结果 ID 无效".
Definition get_capture_result (path : Path.t) (id : Z) : Db CaptureResultDetail.t :=
  lift (reject_if (id <=? 0) INVALID_ID) ;; load_capture_result path id.

(** The transaction: its changes are kept only when it was committed. *)
Definition transaction {A} (body : Db A) : Db A := fun s =>
  let (r, s') := body s in
  if is_Ok r then (r, s') else (r, Store.mk s'.(Store.files) s.(Store.rows) s'.(Store.statements)).
Definition delete_in_transaction (id : Z) (capture_root : Path.t) : Db (Z * Z) :=
  statement Begin ;;
  statement (SelectPayload id) ;;
  rows ← gets Store.rows ;
  row ← lift (ok_or (Api NOT_FOUND "采集结果不存在") (find_row id rows)) ;
  plot ← lift (map_err internal_error (plot_from_str row.(Row.payload_json))) ;
  deleted ← match plot.(SweepPlot.dataset) with
            | Some dataset => on_files (delete_managed_dataset os dataset capture_root)
            | None => mret (0, 0)
            end ;
  statement (DeleteRow id) ;;
  set_rows (List.filter (fun row => negb (row.(Row.id) =? id)) rows) ;;
  statement Commit ;;
  mret deleted.
Definition delete_capture_result (path capture_root : Path.t) (id : Z) : Db (Z * Z) :=
  lift (reject_if (id <=? 0) INVALID_ID) ;;
  open_result_database path ;;
  transaction (delete_in_transaction id capture_root).
End Database.

(** ** The table keeps one row per session and sweep *)
Definition key (row : Row.t) : string * string := (row.(Row.session_id), row.(Row.sweep_id)).
Record RowsOk (rows : list Row.t) : Prop := {
  ro_ids : NoDup (map Row.id rows);
  ro_keys : NoDup (map key rows);
}.

Lemma same_key_spec a b : same_key a b = true <-> key a = key b.
Proof. unfold same_key, key. rewrite andb_true_iff, !String.eqb_eq. split; [now intros [-> ->]|now intros [= -> ->]]. Qed.

Lemma upsert_map {B} (f : Row.t -> B) row rows :
  (forall old, f (update_row row old) = f old) ->
  map f (upsert row rows) = map f rows ++ (if existsb (same_key row) rows then [] else [f row]).
Proof.
  intros H. unfold upsert. destruct (existsb (same_key row) rows); [|apply map_app].
  rewrite app_nil_r, map_map. apply map_ext. intros old. now destruct (same_key row old).
Qed.

Lemma existsb_key row rows : existsb (same_key row) rows = true <-> key row ∈ map key rows.
Proof.
  rewrite existsb_exists, list_elem_of_In, in_map_iff. split; intros (x&H1&H2); exists x.
  - apply same_key_spec in H2. auto.
  - rewrite same_key_spec. auto.
Qed.

Lemma NoDup_snoc {A} (l : list A) x : NoDup l -> x ∉ l -> NoDup (l ++ [x]).
Proof.
  intros Hl Hx. apply list.NoDup_app. split; [exact Hl|]. split; [|apply NoDup_singleton].
  intros y Hy Hy'. apply list_elem_of_singleton in Hy'. now subst.
Qed.

Lemma upsert_ok row rows :
  RowsOk rows -> Forall (fun old => old.(Row.id) <> row.(Row.id)) rows -> RowsOk (upsert row rows).
Proof.
  intros [Hids Hkeys] Hfresh. constructor; rewrite upsert_map by reflexivity;
    destruct (existsb (same_key row) rows) eqn:E; rewrite ?app_nil_r; auto; apply NoDup_snoc; auto.
  - intros (old&Hid&Hold)%list_elem_of_In%in_map_iff. rewrite list.Forall_forall in Hfresh.
    apply (Hfresh old); [now apply list_elem_of_In|exact Hid].
  - rewrite <- existsb_key. congruence.
Qed.

(** The row of a key after the upsert: the new values under the old number, if there was one. *)
Lemma upsert_stored row rows :
  exists stored, stored ∈ upsert row rows /\ key stored = key row
  /\ stored = match List.find (same_key row) rows with Some old => update_row row old | None => row end.
Proof.
  unfold upsert. destruct (List.find (same_key row) rows) as [old|] eqn:E.
  - apply find_some in E as [Hin Hkey].
    assert (Hex : existsb (same_key row) rows = true) by (apply existsb_exists; eauto).
    rewrite Hex. exists (update_row row old). split; [|split; [|reflexivity]].
    + apply list_elem_of_In, in_map_iff. exists old. now rewrite Hkey.
    + apply same_key_spec in Hkey. now rewrite Hkey.
  - assert (Hex : existsb (same_key row) rows = false).
    { destruct (existsb _ _) eqn:Hex; [|reflexivity]. apply existsb_exists in Hex as (x&Hx&Hk).
      pose proof (find_none _ _ E x Hx). congruence. }
    rewrite Hex. exists row. split; [|now split]. apply elem_of_app. right. now apply list_elem_of_singleton.
Qed.

Lemma upsert_others row rows other :
  key other <> key row -> other ∈ upsert row rows <-> other ∈ rows.
Proof.
  intros Hne. unfold upsert. destruct (existsb (same_key row) rows).
  - rewrite !list_elem_of_In, in_map_iff. split.
    + intros (old&Hold&Hin). destruct (same_key row old) eqn:Hk; [|now subst].
      exfalso. apply Hne. apply same_key_spec in Hk. rewrite <- Hold, Hk. reflexivity.
    + intros Hin. exists other. split; [|exact Hin]. destruct (same_key row other) eqn:Hk; [|reflexivity].
      apply same_key_spec in Hk. congruence.
  - rewrite elem_of_app, list_elem_of_singleton. split; [|auto]. intros [H| ->]; [exact H|congruence].
Qed.

Lemma find_row_in rows row : NoDup (map Row.id rows) -> row ∈ rows -> find_row row.(Row.id) rows = Some row.
Proof.
  unfold find_row. induction rows as [|r rows IH]; intros Hnd Hin; [now apply not_elem_of_nil in Hin|].
  cbn [map] in Hnd. apply list.NoDup_cons in Hnd as [Hr Hnd]. cbn [List.find].
  apply elem_of_cons in Hin as [->|Hin]; [now rewrite Z.eqb_refl|].
  destruct (Z.eqb_spec (Row.id r) (Row.id row)) as [E|]; [|now apply IH].
  exfalso. apply Hr. rewrite E. now apply list_elem_of_fmap_2.
Qed.

Section Table.
Context {json : Json} {access : JsonAccess} {codec : PlotCodec} {sqlite : Sqlite}.
Context (os : System).

(** Files and statements come and go, the table stays. *)
Definition same_rows (s s' : Store.t) : Prop := s'.(Store.rows) = s.(Store.rows).
#[global] Instance same_rows_preorder : PreOrder same_rows.
Proof. split; [now intros s|]. intros s1 s2 s3 H12 H23. unfold same_rows in *. congruence. Qed.

Lemma on_files_same_rows {A} (m : M Fs.t ApiError A) : respects same_rows (on_files m).
Proof. intros s. unfold on_files. now destruct (m _). Qed.
Lemma statement_same_rows st : respects same_rows (statement st).
Proof. intros s. unfold statement. now destruct (sql_fault _). Qed.
#[local] Hint Resolve on_files_same_rows statement_same_rows : respects.

Lemma open_same_rows path : respects same_rows (open_result_database os path).
Proof.
  unfold open_result_database. respects_steps.
Qed.

Lemma row_of_Ok id session_id plot now payload row :
  row_of id session_id plot now payload = Ok row ->
  row = Row.mk id session_id plot.(SweepPlot.sweep_id) plot.(SweepPlot.kind) now
          (length_z plot.(SweepPlot.points)) (length_z plot.(SweepPlot.candidates))
          plot.(SweepPlot.elapsed_ms) plot.(SweepPlot.gain_db) (f64_of_f32 plot.(SweepPlot.noise_floor_dbfs))
          match plot.(SweepPlot.dataset) with Some d => d.(SweepDatasetView.bytes) | None => 0 end payload.
Proof.
  assert (H64 : forall n m, to_i64 n = Ok m -> m = n).
  { unfold to_i64. intros n m. destruct (i64_max <? n); [discriminate|now intros [= ->]]. }
  unfold row_of. intros H.
  do 5 (apply bind_Ok in H as (?n&?Hn&H); apply H64 in Hn as ->). now injection H as <-.
Qed.

(** Storing a plot is one upsert of its row. *)
Lemma persist_runs path session_id plot now s s' :
  persist_capture_result os path session_id plot now s = (Ok tt, s') ->
  exists payload row, plot_to_string plot = Ok payload
  /\ row_of (fresh_id s.(Store.rows)) session_id plot now payload = Ok row
  /\ s'.(Store.rows) = upsert row s.(Store.rows).
Proof.
  unfold persist_capture_result. rewrite bindM_Ok. intros ([]&s1&H1&H).
  pose proof (open_same_rows path s) as E1. rewrite H1 in E1. cbn in E1.
  apply lift_bind_Ok in H as (payload&Hp&H). rewrite map_err_Ok in Hp.
  apply bindM_Ok in H as (rows&s2&[= <- <-]&H). apply lift_bind_Ok in H as (row&Hrow&H).
  apply bindM_Ok in H as ([]&s3&H3&H). pose proof (statement_same_rows (Upsert row) s1) as E3.
  rewrite H3 in E3. cbn in E3. injection H as <-. rewrite E1 in Hrow. unfold same_rows in *.
  exists payload, row. split; [exact Hp|]. split; [exact Hrow|]. cbn. now rewrite E1.
Qed.

(** Reading a row whose payload decodes. *)
Lemma load_runs path row s r s' :
  RowsOk s.(Store.rows) -> row ∈ s.(Store.rows) ->
  load_capture_result os path row.(Row.id) s = (Ok r, s') ->
  r.(CaptureResultDetail.summary) = capture_result_summary_from_row row
  /\ plot_from_str row.(Row.payload_json) = Ok r.(CaptureResultDetail.sweep_plot).
Proof.
  intros [Hids _] Hin. unfold load_capture_result. rewrite bindM_Ok. intros ([]&s1&H1&H).
  pose proof (open_same_rows path s) as E1. rewrite H1 in E1. cbn in E1.
  apply bindM_Ok in H as ([]&s2&H2&H). pose proof (statement_same_rows (SelectRow (Row.id row)) s1) as E2.
  rewrite H2 in E2. cbn in E2. apply bindM_Ok in H as (rows&s3&[= <- <-]&H).
  unfold same_rows in *. rewrite E2, E1 in H.
  rewrite (find_row_in _ _ Hids Hin) in H. cbn [ok_or] in H.
  apply lift_bind_Ok in H as (row'&[= <-]&H). apply lift_bind_Ok in H as (plot&Hplot&[= <- _]).
  rewrite map_err_Ok in Hplot. now split.
Qed.

(** Deleting keeps every other row; when it fails, every row. *)
Lemma delete_rows path capture_root id s :
  let s' := (delete_capture_result os path capture_root id s).2 in
  if is_Ok (delete_capture_result os path capture_root id s).1
  then s'.(Store.rows) = List.filter (fun row => negb (row.(Row.id) =? id)) s.(Store.rows)
  else s'.(Store.rows) = s.(Store.rows).
Proof.
  unfold delete_capture_result. rewrite lift_bind_run. destruct (reject_if _ _); [|reflexivity].
  rewrite bind_run. pose proof (open_same_rows path s) as E.
  destruct (open_result_database os path s) as [[[]|e] s1]; cbn in E; [|exact E].
  unfold transaction. destruct (delete_in_transaction os id capture_root s1) as [[n|e] s2] eqn:H; cbn; [|exact E].
  unfold delete_in_transaction in H. apply bindM_Ok in H as ([]&s3&H3&H).
  apply bindM_Ok in H as ([]&s4&H4&H). apply bindM_Ok in H as (rows&s5&[= <- <-]&H).
  apply lift_bind_Ok in H as (row&_&H). apply lift_bind_Ok in H as (plot&_&H).
  apply bindM_Ok in H as (deleted&s6&_&H). apply bindM_Ok in H as ([]&s7&_&H).
  apply bindM_Ok in H as ([]&s8&[= <-]&H). apply bindM_Ok in H as ([]&s9&H9&[= _ <-]).
  pose proof (statement_same_rows Begin s1) as E3. rewrite H3 in E3.
  pose proof (statement_same_rows (SelectPayload id) s3) as E4. rewrite H4 in E4.
  pose proof (statement_same_rows Commit (Store.mk (Store.files s7)
    (List.filter (fun row => negb (Row.id row =? id)) (Store.rows s4)) (Store.statements s7))) as E9.
  rewrite H9 in E9. unfold same_rows in *. cbn in *. congruence.
Qed.
End Table.

(** ** Deleting stays in the capture root *)
Section DeletionOfResults.
Context {json : Json} {access : JsonAccess} {codec : PlotCodec} {sqlite : Sqlite}.
Context (os : System) (capture_root : Path.t) (root : list string).

Definition files_confined (s s' : Store.t) : Prop := confined root s.(Store.files) s'.(Store.files).

Lemma confined_refl s : confined root s s.
Proof. intros q. now left. Qed.

Lemma wp_on_files {A} (m : M Fs.t ApiError A) (Q : A -> Store.t -> Prop) (R : ApiError -> Store.t -> Prop) s :
  wp m (fun a f => Q a (Store.mk f s.(Store.rows) s.(Store.statements)))
       (fun e f => R e (Store.mk f s.(Store.rows) s.(Store.statements))) s.(Store.files) ->
  wp (on_files m) Q R s.
Proof. unfold wp, on_files. destruct (m _) as [[a|e] f]; auto. Qed.

Lemma wp_statement st (Q : unit -> Store.t -> Prop) (R : ApiError -> Store.t -> Prop) s :
  (forall s', s'.(Store.files) = s.(Store.files) -> Q tt s') ->
  (forall e s', s'.(Store.files) = s.(Store.files) -> R e s') -> wp (statement st) Q R s.
Proof. intros HQ HR. unfold wp, statement. destruct (sql_fault _); [now apply HR|now apply HQ]. Qed.

(** Opening the database creates at most directories. *)
Lemma wp_open_result_database path s :
  wp (open_result_database os path)
    (fun _ s' => grown_by_directories s.(Store.files) s'.(Store.files))
    (fun _ s' => grown_by_directories s.(Store.files) s'.(Store.files)) s.
Proof.
  unfold open_result_database. apply wp_bind, wp_lift; [|intros; now apply same_tree_grown]. intros parent _.
  apply wp_bind, wp_on_files. eapply wp_conseq; [apply wp_ensure_real_directory| |auto].
  intros [] f1 H1. apply wp_bind, wp_on_files, wp_io, wp_path_exists. intros there f2 H2 _.
  assert (H02 : forall f, f.(Fs.nodes) = f1.(Fs.nodes) -> grown_by_directories (Store.files s) f).
  { intros f E. destruct H1 as [Hg Hn]. unfold grown_by_directories, grown in *. now rewrite E. }
  apply wp_bind. eapply wp_conseq with (Q := fun _ s' => s'.(Store.files).(Fs.nodes) = f1.(Fs.nodes))
                                       (R := fun _ s' => s'.(Store.files).(Fs.nodes) = f1.(Fs.nodes)).
  - destruct there; [|now apply wp_ret]. apply wp_bind, wp_on_files, wp_io, wp_link_metadata;
      unfold same_tree in *; cbn [Store.files] in *; [|intros; congruence]. intros node f3 H3 _. apply wp_lift; intros; cbn; congruence.
  - intros [] s1 E1. apply wp_statement; intros; apply H02; congruence.
  - intros e s1 E1. now apply H02.
Qed.

Lemma wp_delete_in_transaction id s :
  resolve s.(Store.files).(Fs.nodes) capture_root = Some root ->
  wp (delete_in_transaction os id capture_root) (fun _ => files_confined s) (fun _ => files_confined s) s.
Proof.
  intros Hroot. assert (Hrefl : forall s', s'.(Store.files) = s.(Store.files) -> files_confined s s').
  { intros s' E. unfold files_confined. rewrite E. apply confined_refl. }
  unfold delete_in_transaction. apply wp_bind, wp_statement; [|auto]. intros s1 E1.
  apply wp_bind, wp_statement; [|intros; apply Hrefl; congruence]. intros s2 E2.
  apply wp_bind, wp_gets, wp_bind, wp_lift; [|intros; apply Hrefl; congruence]. intros row _.
  apply wp_bind, wp_lift; [|intros; apply Hrefl; congruence]. intros plot _. apply wp_bind.
  eapply wp_conseq with (Q := fun _ => files_confined s) (R := fun _ => files_confined s); [| |auto].
  - destruct (SweepPlot.dataset plot); [|apply wp_ret, Hrefl; congruence]. apply wp_on_files.
    eapply wp_conseq; [apply (wp_delete_managed_dataset _ _ _ root)| |]; unfold files_confined; cbn;
      rewrite E2, E1; auto.
  - intros n s3 H3. apply wp_bind, wp_statement; [|intros e s4 E4; unfold files_confined; now rewrite E4].
    intros s4 E4. apply wp_bind, wp_modify, wp_bind, wp_statement; cbn [Store.files].
    + intros s5 E5. apply wp_ret. unfold files_confined. now rewrite E5, E4.
    + intros e s5 E5. unfold files_confined. now rewrite E5, E4.
Qed.

Lemma wp_transaction {A} (body : M Store.t ApiError A) (P : Fs.t -> Prop) s :
  wp body (fun _ s' => P s'.(Store.files)) (fun _ s' => P s'.(Store.files)) s ->
  wp (transaction body) (fun _ s' => P s'.(Store.files)) (fun _ s' => P s'.(Store.files)) s.
Proof. unfold wp, transaction. destruct (body s) as [[a|e] s']; auto. Qed.

Lemma grown_then_confined f f1 f2 : grown_by_directories f f1 -> confined root f1 f2 -> confined root f f2.
Proof.
  intros Hg Hc q. destruct (Hc q) as [E|[(N1&D)|(N2&In&Rec&node&Hn&Hdir)]].
  - rewrite E. apply (grown_confined root _ _ Hg).
  - destruct (grown_confined root _ _ Hg q) as [E1|[(N&_)|(_&_&_&node&Hn&_)]].
    + right. left. split; [congruence|exact D].
    + right. left. now split.
    + destruct Hg as [Hg _]. rewrite (lookup_weaken _ _ _ _ Hn Hg) in N1. discriminate.
  - destruct (grown_confined root _ _ Hg q) as [E1|[(_&u&m&D1)|(N1&_)]].
    + right. right. split; [exact N2|]. split; [exact In|]. split; [exact Rec|]. exists node.
      now rewrite <- E1.
    + rewrite D1 in Hn. injection Hn as <-. discriminate.
    + congruence.
Qed.

Lemma wp_delete_capture_result path id s :
  resolve s.(Store.files).(Fs.nodes) capture_root = Some root ->
  wp (delete_capture_result os path capture_root id) (fun _ => files_confined s) (fun _ => files_confined s) s.
Proof.
  intros Hroot. unfold delete_capture_result. apply wp_bind, wp_lift; [|intros; apply confined_refl].
  intros [] _. apply wp_bind. eapply wp_conseq; [apply wp_open_result_database| |intros e s1; apply grown_confined].
  intros [] s1 H1. apply wp_transaction.
  assert (Hroot1 : resolve (Fs.nodes (Store.files s1)) capture_root = Some root)
    by (eapply resolve_mono; [apply H1|exact Hroot]).
  eapply wp_conseq; [apply (wp_delete_in_transaction id s1 Hroot1)| |]; cbn beta;
    intros ? s2 H2; eapply grown_then_confined; eassumption.
Qed.
End DeletionOfResults.

(** C23: a result is deleted together with its recording and nothing else: whatever
    paths a stored plot names, the only entries of the file system that can disappear are files
    or links inside the capture root with the extension of a recording, through
    symbolic links and [..] included, and whichever calls fail; the only row that
    can disappear is the one asked for, and when the deletion fails the table stays as it was. *)
Theorem deletion_stays_in_capture_root
    {json : Json} {access : JsonAccess} {codec : PlotCodec} {sqlite : Sqlite} (os : System)
    (path capture_root : Path.t) (root : list string) (id : Z) (s s' : Store.t) (r : ApiResult (Z * Z))
    (Hroot : resolve s.(Store.files).(Fs.nodes) capture_root = Some root)
    (Hrun : delete_capture_result os path capture_root id s = (r, s')) :
  confined root s.(Store.files) s'.(Store.files)
  /\ s'.(Store.rows) = (if is_Ok r then List.filter (fun row => negb (row.(Row.id) =? id)) s.(Store.rows)
                        else s.(Store.rows)).
Proof.
  split.
  - pose proof (wp_run _ _ _ _ _ _ (wp_delete_capture_result os capture_root root path id s Hroot) Hrun).
    now destruct r.
  - pose proof (delete_rows os path capture_root id s) as H. rewrite Hrun in H. cbn in H. now destruct (is_Ok r).
Qed.

(** a stored plot is what is read back: once [persist_capture_result] succeeds, reading
    the row of that session and sweep answers the plot itself with the summary of it; the row of an earlier plot of
    the same key is replaced, every other row stays, and no key ever has two rows. *)
Theorem stored_results_are_read_back
    {json : Json} {access : JsonAccess} {codec : PlotCodec} {sqlite : Sqlite} (os : System)
    (path : Path.t) (session_id : string) (plot : SweepPlot.t) (now : Z) (s s' : Store.t)
    (Hcodec : forall text, plot_to_string plot = Ok text -> plot_from_str text = Ok plot)
    (Hrows : RowsOk s.(Store.rows))
    (Hrun : persist_capture_result os path session_id plot now s = (Ok tt, s')) :
  RowsOk s'.(Store.rows)
  /\ (exists stored, stored ∈ s'.(Store.rows) /\ key stored = (session_id, plot.(SweepPlot.sweep_id))
       /\ stored.(Row.iq_bytes) = match plot.(SweepPlot.dataset) with
                                   | Some d => d.(SweepDatasetView.bytes) | None => 0 end
       /\ stored.(Row.point_count) = length_z plot.(SweepPlot.points)
       /\ forall t r t', t.(Store.rows) = s'.(Store.rows) ->
            load_capture_result os path stored.(Row.id) t = (Ok r, t') ->
            r = CaptureResultDetail.mk (capture_result_summary_from_row stored) plot)
  /\ forall other, key other <> (session_id, plot.(SweepPlot.sweep_id)) ->
       other ∈ s'.(Store.rows) <-> other ∈ s.(Store.rows).
Proof.
  destruct (persist_runs os _ _ _ _ _ _ Hrun) as (payload&row&Hp&Hrow&E). apply row_of_Ok in Hrow.
  assert (Hkey : key row = (session_id, plot.(SweepPlot.sweep_id))) by now rewrite Hrow.
  assert (Hok : RowsOk s'.(Store.rows)).
  { rewrite E. apply upsert_ok; [exact Hrows|]. rewrite Hrow. apply fresh_id_new. }
  split; [exact Hok|]. split.
  - destruct (upsert_stored row s.(Store.rows)) as (stored&Hin&Hk&Hstored).
    exists stored. rewrite E in *. split; [exact Hin|]. split; [now rewrite Hk|].
    assert (Hfields : stored.(Row.payload_json) = payload
              /\ stored.(Row.iq_bytes) = row.(Row.iq_bytes) /\ stored.(Row.point_count) = row.(Row.point_count)).
    { rewrite Hstored. destruct (List.find (same_key row) (Store.rows s)); rewrite Hrow; now repeat split. }
    destruct Hfields as (H1&H2&H3). rewrite H2, H3. split; [now rewrite Hrow|]. split; [now rewrite Hrow|].
    intros t r t' Ht Hload. rewrite <- Ht in Hok, Hin.
    destruct (load_runs os path stored t r t' Hok Hin Hload) as [Hs Hplot].
    rewrite H1, (Hcodec _ Hp) in Hplot. injection Hplot as Hplot. destruct r. cbn in *. now subst.
  - intros other Hne. rewrite E. apply upsert_others. now rewrite Hkey.
Qed.

(** ** A result with its recording *)
Module ResultSamples.
Definition system : System := {|
  fault := fun _ => None; accepted := fun _ => 0%nat; unix_time := fun _ => Ok 0;
  geteuid := 1000; umask := 18; process_id := 1;
|}.

Definition plot : SweepPlot.t :=
  SweepPlot.mk 1 "initial-1" "initial" 900 20 (f32_of_Z (-90)) [(2400000000, f32_of_Z (-80))] []
    (Some (SweepDatasetView.mk "sigmf" "ci16_le" "/captures/s/../s/a.sigmf-data" "/link/a.sigmf-meta" 4)).

#[local] Instance json : Json := {| Value := unit; from_slice := fun _ => Ok tt |}.
#[local] Instance access : JsonAccess := {|
  as_object := fun _ => None; as_array := fun _ => None; as_str := fun _ => None;
  as_u64 := fun _ => None; as_bool := fun _ => None; quoted := fun s => Ok s;
|}.
#[local] Instance codec : PlotCodec := {|
  plot_to_string := fun _ => Ok "plot"%string; plot_from_str := fun _ => Ok plot;
|}.
Definition next_id (rows : list Row.t) : Z := 1 + foldr (fun row m => Z.max row.(Row.id) m) 0 rows.
Lemma next_id_new rows : Forall (fun row => row.(Row.id) <> next_id rows) rows.
Proof.
  assert (H : forall rows, Forall (fun row => row.(Row.id) <= foldr (fun row m => Z.max row.(Row.id) m) 0 rows) rows).
  { clear. induction rows as [|r rows IH]; constructor; cbn; [lia|]. revert IH. apply Forall_impl. lia. }
  revert H. intros H. specialize (H rows). revert H. apply Forall_impl. unfold next_id. lia.
Qed.
#[local] Instance sqlite : Sqlite := {|
  sql_fault := fun _ => None; fresh_id := next_id; fresh_id_new := next_id_new;
|}.

(** [/link] leads to the directory of the session. *)
Definition tree : Tree :=
  <[path_of "/db" := Directory 1000 493]>
  (<[path_of "/captures" := Directory 1000 448]>
  (<[path_of "/captures/s" := Directory 1000 448]>
  (<[path_of "/captures/s/a.sigmf-data" := File 1000 384 [1; 2; 3; 4]]>
  (<[path_of "/captures/s/a.sigmf-meta" := File 1000 384 [123; 125]]>
  (<[path_of "/captures/s/b.sigmf-data" := File 1000 384 []]>
  (<[path_of "/link" := Symlink (path_of "/captures/s")]> ∅)))))).
Definition empty_store : Store.t := Store.mk (Fs.mk tree []) [] [].
Definition database : Path.t := path_of "/db/results".
Definition store : Store.t := (persist_capture_result system database "s" plot 1000 empty_store).2.
Definition run : ApiResult (Z * Z) * Store.t :=
  delete_capture_result system database (path_of "/captures") 1 store.
End ResultSamples.

Lemma deletion_stays_in_capture_root_witness :
  ResultSamples.run.1 = Ok (2, 6)
  /\ ResultSamples.run.2.(Store.rows) = []
  /\ ResultSamples.run.2.(Store.files).(Fs.nodes) !! path_of "/captures/s/a.sigmf-data" = None
  /\ confined ["captures"%string] ResultSamples.store.(Store.files) ResultSamples.run.2.(Store.files).
Proof.
  split; [vm_compute; reflexivity|].
  destruct (@deletion_stays_in_capture_root ResultSamples.json ResultSamples.access ResultSamples.codec
              ResultSamples.sqlite ResultSamples.system ResultSamples.database (path_of "/captures")
              ["captures"%string] 1 ResultSamples.store ResultSamples.run.2 ResultSamples.run.1)
    as [Hfiles Hrows]; [vm_compute; reflexivity|apply surjective_pairing|].
  split; [rewrite Hrows; vm_compute; reflexivity|]. split; [vm_compute; reflexivity|exact Hfiles].
Defined.

Lemma stored_results_are_read_back_witness :
  exists stored, stored ∈ ResultSamples.store.(Store.rows)
  /\ key stored = ("s"%string, "initial-1"%string) /\ stored.(Row.iq_bytes) = 4.
Proof.
  destruct (@stored_results_are_read_back ResultSamples.json ResultSamples.access ResultSamples.codec
              ResultSamples.sqlite ResultSamples.system ResultSamples.database "s" ResultSamples.plot 1000
              ResultSamples.empty_store ResultSamples.store) as (_&(stored&Hin&Hkey&Hbytes&_)&_).
  - reflexivity.
  - constructor; constructor.
  - vm_compute. reflexivity.
  - exists stored. split; [exact Hin|]. split; [exact Hkey|exact Hbytes].
Defined.
