(* ===== verification/WebSession.v ===== *)
(** * Sessions of the web console

    [web-console/src/main.rs], lines 84 to 123, 163 to 196, 1142 to 1170 and 1723
    to 1892: the record of a conversation, its bounded list of terminal events, the
    compaction of old events into a summary that is carried into the next
    command, the choice of the session to evict, and the checks on a persisted
    observation. *)
From S2P Require Import Prelude Text Utf8 F32 Protocol Policy Framing Sdr ConsoleText WebConfig WebResults.

Definition MAX_SESSIONS : nat := 2.
Definition MAX_EVENTS : nat := Z.to_nat 240.
Definition COMPACT_AT_EVENTS : Z := 160.
Definition RETAIN_AFTER_COMPACT : nat := 48.
Definition MAX_SUMMARY_BYTES : nat := Z.to_nat 6144.
Definition MAX_COMMAND_BYTES : Z := MAX_INSTRUCTION_BYTES.

Module TerminalEvent.
Record t := mk { id : Z; timestamp_ms : Z; kind : string; text : string }.
End TerminalEvent.

Module ThinkingTrace.
Record t := mk { request_id : Z; active : bool; text : string }.
End ThinkingTrace.

Module Session.
Section Json.
Context {json : Json}.
Record t := mk {
  id : string;
  title : string;
  created_at_ms : Z;
  last_used_at_ms : Z;
  generation : Z;
  compaction_count : Z;
  status : string;
  compacted_summary : string;
  summary_pending : bool;
  events_since_compaction : Z;
  initial_survey : option InitialSurveyConfig.t;
  initial_survey_status : string;
  observation : option ObservationSummary.t;
  sweep_plot : option SweepPlot.t;
  model_input : option Value;
  thinking : option ThinkingTrace.t;
  decision_basis : option string;
  save_iq : bool;
  events : list TerminalEvent.t;
}.
Definition eta (a : t) : t :=
  mk a.(id) a.(title) a.(created_at_ms) a.(last_used_at_ms) a.(generation) a.(compaction_count)
    a.(status) a.(compacted_summary) a.(summary_pending) a.(events_since_compaction)
    a.(initial_survey) a.(initial_survey_status) a.(observation) a.(sweep_plot) a.(model_input)
    a.(thinking) a.(decision_basis) a.(save_iq) a.(events).
Ltac assign field := assign_field eta field.
Definition with_last_used_at_ms : Z -> t -> t := ltac:(assign last_used_at_ms).
Definition with_generation : Z -> t -> t := ltac:(assign generation).
Definition with_compaction_count : Z -> t -> t := ltac:(assign compaction_count).
Definition with_status : string -> t -> t := ltac:(assign status).
Definition with_compacted_summary : string -> t -> t := ltac:(assign compacted_summary).
Definition with_summary_pending : bool -> t -> t := ltac:(assign summary_pending).
Definition with_events_since_compaction : Z -> t -> t := ltac:(assign events_since_compaction).
Definition with_initial_survey_status : string -> t -> t := ltac:(assign initial_survey_status).
Definition with_observation : option ObservationSummary.t -> t -> t := ltac:(assign observation).
Definition with_sweep_plot : option SweepPlot.t -> t -> t := ltac:(assign sweep_plot).
Definition with_model_input : option Value -> t -> t := ltac:(assign model_input).
Definition with_thinking : option ThinkingTrace.t -> t -> t := ltac:(assign thinking).
Definition with_decision_basis : option string -> t -> t := ltac:(assign decision_basis).
Definition with_events : list TerminalEvent.t -> t -> t := ltac:(assign events).
End Json.
End Session.

Module PersistedState.
Record t `{Json} := mk { active_session_id : option string; sessions : list Session.t }.
#[global] Arguments mk {_} _ _.
#[global] Arguments active_session_id {_} _.
#[global] Arguments sessions {_} _.
Definition default `{Json} : t := mk None [].
End PersistedState.

(** ** Texts *)
Definition single_line (value : string) : string := trim (Utf8.single_line value).

(** The cut text is marked by an ellipsis in front. *)
Definition ELLIPSIS : string := "…".
Definition tail_utf8 (value : string) (max_bytes : nat) : string :=
  if (length (bytes value) <=? max_bytes)%nat then value
  else ELLIPSIS +:+ Utf8.tail_utf8 value max_bytes.

Definition PREFIX : string := "前序压缩摘要：".
Definition CURRENT : string := "；当前指令：".
Definition carry_forward_instruction (summary command : string) : string :=
  let summary := single_line summary in
  let command := single_line command in
  let fixed_bytes := len PREFIX + len CURRENT + len command in
  if is_empty summary || (MAX_COMMAND_BYTES <=? fixed_bytes) then command
  else
    let summary_budget := MAX_COMMAND_BYTES - fixed_bytes in
    if summary_budget <=? len ELLIPSIS then command
    else
      let summary :=
        if summary_budget <? len summary
        then tail_utf8 summary (Z.to_nat (summary_budget - len ELLIPSIS)) else summary in
      PREFIX +:+ summary +:+ CURRENT +:+ command.

(** [unwrap_or("").trim()], and at most 40 characters. *)
Definition bounded_title (title : option string) (now : Z) : string :=
  let cleaned := trim (default EmptyString title) in
  if is_empty cleaned then "对话 " +:+ print_u (now mod 100000)
  else of_chars (take 40 (chars cleaned)).

(** [replace('\n', " ")]. *)
Definition replace_newlines (s : string) : string :=
  of_bytes (map (fun b => if b =? 10 then 32 else b) (bytes s)).

(** ** Events *)
Section Events.
Context {json : Json}.

Definition next_event_id (events : list TerminalEvent.t) : Z :=
  match List.rev events with
  | event :: _ => saturating_add event.(TerminalEvent.id) 1
  | [] => 1
  end.

(** [push_event], with the event it made. *)
Definition push_event (session : Session.t) (kind text : string) (now : Z)
    : Session.t * option TerminalEvent.t :=
  if is_empty text then (session, None)
  else
    let event := TerminalEvent.mk (next_event_id session.(Session.events)) now kind text in
    let events :=
      if (length session.(Session.events) =? MAX_EVENTS)%nat
      then drop 1 session.(Session.events) else session.(Session.events) in
    (Session.with_events_since_compaction
       (saturating_add session.(Session.events_since_compaction) 1)
       (Session.with_events (events ++ [event]) session), Some event).

Definition summary_part (event : TerminalEvent.t) : string :=
  "[" +:+ event.(TerminalEvent.kind) +:+ "] " +:+ replace_newlines event.(TerminalEvent.text).
Definition summary_of (session : Session.t) : string :=
  let old := session.(Session.compacted_summary) in
  let parts :=
    map summary_part
      (List.filter (fun event => negb (String.eqb event.(TerminalEvent.kind) "prompt"))
         session.(Session.events)) in
  tail_utf8 (join NEWLINE_TEXT ((if is_empty old then [] else [old]) ++ parts)) MAX_SUMMARY_BYTES.

Definition retain (events : list TerminalEvent.t) : list TerminalEvent.t :=
  drop (length events - RETAIN_AFTER_COMPACT) events.

Definition compact_session (automatic : bool) (session : Session.t) : Session.t :=
  if null session.(Session.events) then session
  else
    let summary := summary_of session in
    (if automatic
     then Session.with_compaction_count (saturating_add session.(Session.compaction_count) 1)
     else fun s => s)
      (Session.with_generation (saturating_add session.(Session.generation) 1)
         (Session.with_summary_pending (negb (is_empty summary))
            (Session.with_events_since_compaction 0
               (Session.with_events (retain session.(Session.events))
                  (Session.with_compacted_summary summary session))))).

(** ** Finding and evicting *)
Definition find_session (sessions : list Session.t) (id : string) : option Session.t :=
  List.find (fun session => String.eqb session.(Session.id) id) sessions.
(** A change through [find_session_mut]: of the first session with the identifier. *)
Fixpoint update_session (id : string) (f : Session.t -> Session.t) (sessions : list Session.t)
    : list Session.t :=
  match sessions with
  | [] => []
  | session :: rest =>
      if String.eqb session.(Session.id) id then f session :: rest
      else session :: update_session id f rest
  end.

(** [min_by_key]: the first of the least. *)
Fixpoint min_by_last_used (sessions : list Session.t) : option Session.t :=
  match sessions with
  | [] => None
  | session :: rest =>
      match min_by_last_used rest with
      | Some least =>
          if least.(Session.last_used_at_ms) <? session.(Session.last_used_at_ms)
          then Some least else Some session
      | None => Some session
      end
  end.
Definition select_evict_id (state : PersistedState.t) : option string :=
  Session.id <$>
    min_by_last_used
      (List.filter
         (fun session => negb (is_str state.(PersistedState.active_session_id) session.(Session.id)))
         state.(PersistedState.sessions)).

Definition update_initial_survey_status (text : string) (session : Session.t) : Session.t :=
  if starts_with "首次扫频完成：" text then Session.with_initial_survey_status "complete" session
  else if starts_with "首次扫频失败：" text || starts_with "首次扫频已取消" text
          || starts_with "取消到达前扫频已完成：" text then
    Session.with_initial_survey_status
      (if starts_with "取消到达前扫频已完成：" text then "complete" else "failed") session
  else session.

(** ** Loading the saved sessions *)
Definition forget_running (session : Session.t) : Session.t :=
  if String.eqb session.(Session.initial_survey_status) "running"
  then Session.with_initial_survey_status "failed" session else session.
(** [sort_by_key], which is stable. *)
Fixpoint insert_session (session : Session.t) (sessions : list Session.t) : list Session.t :=
  match sessions with
  | [] => [session]
  | s :: rest =>
      if session.(Session.last_used_at_ms) <=? s.(Session.last_used_at_ms)
      then session :: sessions else s :: insert_session session rest
  end.
Definition sort_sessions (sessions : list Session.t) : list Session.t :=
  foldr insert_session [] sessions.
(** [load_state] once the file is decoded. *)
Definition load_state (saved : PersistedState.t) : PersistedState.t :=
  let sessions := sort_sessions (map forget_running saved.(PersistedState.sessions)) in
  PersistedState.mk saved.(PersistedState.active_session_id)
    (drop (length sessions - MAX_SESSIONS) sessions).
End Events.

(** ** Persisted observations *)
Definition bad_observed_candidate (ids : list string) (candidate : CandidateSummary.t) : bool :=
  is_empty candidate.(CandidateSummary.id) || (64 <=? len candidate.(CandidateSummary.id))
  || bool_decide (candidate.(CandidateSummary.id) ∈ ids)
  || negb (in_range DEFAULT_SURVEY_START_HZ DEFAULT_SURVEY_STOP_HZ candidate.(CandidateSummary.center_hz))
  || (candidate.(CandidateSummary.bandwidth_hz) =? 0)
  || (56000000 <? candidate.(CandidateSummary.bandwidth_hz))
  || negb (is_finite candidate.(CandidateSummary.peak_dbfs))
  || negb (is_finite candidate.(CandidateSummary.snr_db))
  || f_lt candidate.(CandidateSummary.snr_db) (f32_of_Z 0).
Fixpoint check_observed_candidates (ids : list string) (candidates : list CandidateSummary.t) : ApiResult unit :=
  match candidates with
  | [] => Ok tt
  | candidate :: candidates =>
      reject_if (bad_observed_candidate ids candidate) (internal_error "结构化观测包含无效或重复候选") ;;
      check_observed_candidates (candidate.(CandidateSummary.id) :: ids) candidates
  end.

(** The closure of [any] over the points, with its [previous_center_hz]. *)
Fixpoint any_bad_point (previous_center_hz : option Z) (points : list (Z * float)) : bool :=
  match points with
  | [] => false
  | point :: points =>
      (negb (in_range DEFAULT_SURVEY_START_HZ DEFAULT_SURVEY_STOP_HZ point.1)
       || negb (is_finite point.2)
       || match previous_center_hz with Some previous => point.1 <=? previous | None => false end)
      || any_bad_point (Some point.1) points
  end.
Definition bad_sweep (sweep : SweepObservationSummary.t) : bool :=
  is_empty sweep.(SweepObservationSummary.sweep_id) || (64 <=? len sweep.(SweepObservationSummary.sweep_id))
  || null sweep.(SweepObservationSummary.points)
  || (MAX_SWEEP_POINTS <? length_z sweep.(SweepObservationSummary.points))
  || negb (in_range 2100000 30720000 sweep.(SweepObservationSummary.sample_rate_hz))
  || negb (in_range 200000 sweep.(SweepObservationSummary.sample_rate_hz)
             sweep.(SweepObservationSummary.rf_bandwidth_hz))
  || negb (in_range 0 60 sweep.(SweepObservationSummary.fixed_gain_db))
  || negb (is_finite sweep.(SweepObservationSummary.noise_floor_dbfs))
  || any_bad_point None sweep.(SweepObservationSummary.points).
Definition bad_recognition (recognition : RecognitionSummary.t) : bool :=
  is_empty recognition.(RecognitionSummary.candidate_id)
  || (64 <=? len recognition.(RecognitionSummary.candidate_id))
  || is_empty recognition.(RecognitionSummary.label) || (128 <? len recognition.(RecognitionSummary.label))
  || negb (is_finite recognition.(RecognitionSummary.confidence))
  || negb (f_in_range (f32_of_Z 0) (f32_of_Z 1) recognition.(RecognitionSummary.confidence)).

Definition validate_persisted_observation (observation : ObservationSummary.t) : ApiResult unit :=
  reject_if (MAX_CANDIDATES <? length_z observation.(ObservationSummary.candidates))
    (internal_error "结构化观测候选数量超过 32") ;;
  check_observed_candidates [] observation.(ObservationSummary.candidates) ;;
  reject_if match observation.(ObservationSummary.latest_sweep) with Some s => bad_sweep s | None => false end
    (internal_error "结构化观测包含无效扫频点") ;;
  reject_if match observation.(ObservationSummary.recognition) with Some r => bad_recognition r | None => false end
    (internal_error "结构化观测包含无效识别结果").

(** [runtime_request_bytes]: the template with the observation of the session. *)
Section Request.
Context (from_slice : list Z -> result string PlanRequest.t).
Context (to_vec : PlanRequest.t -> result string (list Z)).

Definition with_observation (request : PlanRequest.t) (observation : ObservationSummary.t) : PlanRequest.t :=
  PlanRequest.mk request.(PlanRequest.protocol_version) request.(PlanRequest.request_id)
    request.(PlanRequest.session_generation) request.(PlanRequest.instruction)
    request.(PlanRequest.state) observation request.(PlanRequest.limits).
Definition runtime_request_bytes (base : list Z) (observation : ObservationSummary.t) : ApiResult (list Z) :=
  validate_persisted_observation observation ;;
  request ← map_err internal_error (from_slice base) ;
  let request := with_observation request observation in
  map_err (fun e => internal_error (PolicyError.display e)) (validate_request request) ;;
  bytes ← map_err internal_error (to_vec request) ;
  reject_if (MAX_FRAME_BYTES <? length_z bytes) (internal_error "恢复后的 PlanningContext 超过 32 KiB") ;;
  Ok bytes.
End Request.

(** ** Lines *)

(** No character that ends a line. *)
Definition line_char (c : Z) : Prop := c = 32 \/ is_whitespace c = false.

Lemma split_words_clean cs word :
  Forall (fun c => is_whitespace c = false) word ->
  Forall (Forall (fun c => is_whitespace c = false)) (split_words cs word).
Proof.
  revert word. induction cs as [|c cs IH]; intros word Hw; cbn.
  - destruct word; constructor; [|constructor]. now apply Forall_rev.
  - destruct (is_whitespace c) eqn:E; [destruct word; cbn [null]|]; auto.
    constructor; [now apply Forall_rev|auto].
Qed.

Lemma line_clean cs : Forall line_char (line cs).
Proof.
  apply join_chars_Forall; [now left|]. apply Forall_impl with (2 := split_words_clean cs [] (Forall_nil _)).
  intros w. apply Forall_impl. now right.
Qed.

Definition encoded (cs : list Z) : nat := length (encode_utf8 cs).
Lemma encoded_app a b : encoded (a ++ b) = (encoded a + encoded b)%nat.
Proof. unfold encoded. now rewrite encode_utf8_app, length_app. Qed.
Lemma encoded_cons c cs : encoded (c :: cs) = (length (encode_char c) + encoded cs)%nat.
Proof. unfold encoded, encode_utf8. cbn [map List.concat]. now rewrite length_app. Qed.
Lemma encoded_rev cs : encoded (rev cs) = encoded cs.
Proof.
  induction cs as [|c cs IH]; [reflexivity|]. cbn [rev]. rewrite encoded_app, !encoded_cons, IH.
  unfold encoded at 2. cbn. lia.
Qed.

Lemma line_length cs word :
  (encoded (join_chars (split_words cs word)) <= encoded word + encoded cs)%nat.
Proof.
  revert word. induction cs as [|c cs IH]; intros word; cbn [split_words].
  { destruct word; cbn [null]; [cbn; lia|]. cbn [join_chars]. rewrite encoded_rev. lia. }
  rewrite encoded_cons. pose proof (encode_char_nonempty c) as Hne.
  assert (1 <= length (encode_char c))%nat by (destruct (encode_char c); [easy|cbn; lia]).
  destruct (is_whitespace c).
  - destruct word as [|w word]; cbn [null]; [specialize (IH []); unfold encoded at 2 in IH; cbn in IH; lia|].
    specialize (IH []). unfold encoded at 2 in IH. cbn [encode_utf8 map List.concat length] in IH.
    destruct (split_words cs []) as [|v vs] eqn:E; cbn [join_chars].
    + rewrite encoded_rev. lia.
    + change (encoded (rev (w :: word) ++ 32%Z :: join_chars (v :: vs))
              <= encoded (w :: word) + (length (encode_char c) + encoded cs))%nat.
      rewrite encoded_app, encoded_rev, (encoded_cons 32). change (length (encode_char 32)) with 1%nat. lia.
  - specialize (IH (c :: word)). rewrite encoded_cons in IH. lia.
Qed.

(** Trimming takes a part of the characters. *)
Lemma drop_while_suffix p l : exists k, l = k ++ drop_while p l.
Proof.
  induction l as [|c l [k IH]]; [now exists []|]. cbn. destruct (p c); [|now exists []].
  exists (c :: k). cbn. now rewrite <- IH.
Qed.
Lemma trim_chars_part cs : exists a b, cs = a ++ trim_chars cs ++ b.
Proof.
  unfold trim_chars. destruct (drop_while_suffix is_whitespace cs) as [a Ha].
  set (l := drop_while is_whitespace cs) in *.
  destruct (drop_while_suffix is_whitespace (rev l)) as [b Hb].
  exists a, (rev b). rewrite Ha at 1. f_equal.
  rewrite <- rev_app_distr, <- Hb. now rewrite rev_involutive.
Qed.

(** A line: its characters, none of which ends a line, and no more bytes than before. *)
Lemma single_line_spec s :
  utf8 s ->
  exists cs, single_line s = of_chars cs /\ Forall is_char cs /\ Forall line_char cs
  /\ (encoded cs <= length (bytes s))%nat.
Proof.
  intros (cs&Hcs&->). unfold single_line. rewrite single_line_of_chars by exact Hcs.
  assert (Hl : Forall is_char (line cs)) by (apply line_Forall; [unfold is_char; lia|exact Hcs]).
  unfold trim. rewrite chars_of_chars by exact Hl.
  destruct (trim_chars_part (line cs)) as (a&b&E).
  exists (trim_chars (line cs)). split; [reflexivity|].
  pose proof (line_clean cs) as Hc. rewrite E in Hl, Hc.
  apply Forall_app in Hl as [_ [Hl _]%Forall_app]. apply Forall_app in Hc as [_ [Hc _]%Forall_app].
  split; [exact Hl|]. split; [exact Hc|]. rewrite bytes_of_chars by exact Hcs.
  pose proof (line_length cs []) as Hlen. fold (line cs) in Hlen. rewrite E, !encoded_app in Hlen.
  unfold encoded at 4 in Hlen. cbn in Hlen. unfold encoded in *. lia.
Qed.

Lemma encode_char_newline c : is_char c -> 10 ∈ encode_char c -> c = 10.
Proof.
  intros Hc. rewrite encode_char_arith by exact Hc. unfold is_char in Hc.
  destruct (Z.ltb_spec c 128), (Z.ltb_spec c 2048), (Z.ltb_spec c 65536);
    rewrite list_elem_of_In; cbn [In]; intuition (try lia); exfalso;
    match goal with H : 128 + ?x mod 64 = 10 |- _ => pose proof (Z.mod_pos_bound x 64 ltac:(lia)); lia
    | H : _ + c / ?d = 10 |- _ => pose proof (Z.div_pos c d ltac:(lia) ltac:(lia)); lia end.
Qed.

Lemma line_chars_one_line cs : Forall is_char cs -> Forall line_char cs -> 10 ∉ bytes (of_chars cs).
Proof.
  intros Hcs Hline. rewrite bytes_of_chars by exact Hcs. unfold encode_utf8. rewrite list_elem_of_In.
  intros H. apply in_concat in H as (l&Hl&H10). apply in_map_iff in Hl as (c&<-&Hc).
  rewrite list.Forall_forall in Hcs, Hline. apply list_elem_of_In in Hc, H10.
  assert (c = 10) as -> by (apply encode_char_newline; auto).
  destruct (Hline _ Hc) as [|Hw]; [lia|discriminate].
Qed.

(** Text that is one line. *)
Definition clean (s : string) : Prop :=
  exists cs, s = of_chars cs /\ Forall is_char cs /\ Forall line_char cs.

Lemma clean_app s t : clean s -> clean t -> clean (s +:+ t).
Proof.
  intros (cs&->&H1&H2) (ds&->&H3&H4). exists (cs ++ ds). rewrite of_chars_app.
  split; [reflexivity|]. split; now apply Forall_app.
Qed.
Lemma clean_one_line s : clean s -> NEWLINE ∉ bytes s.
Proof. intros (cs&->&H1&H2). now apply line_chars_one_line. Qed.
Lemma clean_single_line s : utf8 s -> clean (single_line s) /\ len (single_line s) <= len s.
Proof.
  intros H. destruct (single_line_spec s H) as (cs&->&H1&H2&H3). split; [now exists cs|].
  unfold len, length_z. rewrite bytes_of_chars by exact H1. unfold encoded in H3. lia.
Qed.
Lemma clean_utf8 s : clean s -> utf8 s.
Proof. intros (cs&->&H&_). now exists cs. Qed.
(** A literal, checked by computation. *)
Lemma clean_literal s :
  forallb (fun c => in_range 0 1114111 c && negb (is_whitespace c)) (chars s) = true ->
  of_chars (chars s) = s -> clean s.
Proof.
  intros H E. exists (chars s). split; [now rewrite E|]. rewrite forallb_forall in H.
  split; apply list.Forall_forall; intros c Hc; apply list_elem_of_In in Hc; specialize (H c Hc);
    apply andb_true_iff in H as [H1 H2]; [now apply in_range_spec in H1|]. right. now apply negb_true_iff.
Qed.
Lemma clean_tail s n : clean s -> clean (tail_utf8 s n).
Proof.
  intros Hs. unfold tail_utf8. destruct (_ <=? _)%nat; [exact Hs|]. apply clean_app.
  { now apply clean_literal. }
  destruct Hs as (cs&->&H1&H2). destruct (tail_utf8_suffix cs n H1) as (k&->&_).
  exists (drop k cs). split; [reflexivity|]. split; now apply Forall_drop.
Qed.
Lemma len_append s t : len (s +:+ t) = len s + len t.
Proof. unfold len, length_z. rewrite bytes_app, length_app. lia. Qed.
Lemma tail_len s n : len (tail_utf8 s n) <= Z.of_nat n + len ELLIPSIS.
Proof.
  unfold tail_utf8. destruct (Nat.leb_spec (length (bytes s)) n).
  - unfold len at 1, length_z. change (len ELLIPSIS) with 3. lia.
  - rewrite len_append. pose proof (tail_utf8_len s n). lia.
Qed.

(** What a command becomes that carries the summary in front: nothing is put in front when
    there is nothing to say or no room for it; else the whole summary, or the longest end of it
    that fits, marked by an ellipsis. *)
Definition room (command : string) : Z := MAX_COMMAND_BYTES - len PREFIX - len CURRENT - len command.
Inductive Carried (summary command : string) : string -> Prop :=
| carried_nothing :
    single_line summary = EmptyString \/ room command <= len ELLIPSIS -> Carried summary command command
| carried_whole :
    single_line summary <> EmptyString -> len ELLIPSIS < room command ->
    len (single_line summary) <= room command ->
    Carried summary command (PREFIX +:+ single_line summary +:+ CURRENT +:+ command)
| carried_end cs k :
    len ELLIPSIS < room command < len (single_line summary) ->
    single_line summary = of_chars cs -> Forall is_char cs ->
    len ELLIPSIS + len (of_chars (drop k cs)) <= room command ->
    (forall j, len ELLIPSIS + len (of_chars (drop j cs)) <= room command ->
       len (of_chars (drop j cs)) <= len (of_chars (drop k cs))) ->
    Carried summary command (PREFIX +:+ (ELLIPSIS +:+ of_chars (drop k cs)) +:+ CURRENT +:+ command).

Lemma len_of_chars cs : Forall is_char cs -> len (of_chars cs) = length_z (encode_utf8 cs).
Proof. intros H. unfold len. now rewrite bytes_of_chars. Qed.
Lemma is_empty_true s : is_empty s = true <-> s = EmptyString.
Proof. now destruct s. Qed.

Lemma carry_forward_carried summary command :
  utf8 summary ->
  Carried summary (single_line command) (carry_forward_instruction summary command).
Proof.
  intros Hs. unfold carry_forward_instruction. cbv zeta. set (c := single_line command).
  destruct (is_empty (single_line summary)) eqn:E0; cbn [orb].
  { apply carried_nothing. left. now apply is_empty_true. }
  assert (Hne : single_line summary <> EmptyString) by (rewrite <- is_empty_true; congruence).
  destruct (Z.leb_spec MAX_COMMAND_BYTES (len PREFIX + len CURRENT + len c)) as [H1|H1].
  { apply carried_nothing. right. unfold room. change (len ELLIPSIS) with 3. lia. }
  replace (MAX_COMMAND_BYTES - (len PREFIX + len CURRENT + len c)) with (room c) by (unfold room; lia).
  destruct (Z.leb_spec (room c) (len ELLIPSIS)) as [H2|H2]; [apply carried_nothing; now right|].
  destruct (Z.ltb_spec (room c) (len (single_line summary))) as [H3|H3]; [|now apply carried_whole].
  destruct (single_line_spec summary Hs) as (cs&Hcs&Hchars&_). rewrite Hcs in *.
  unfold tail_utf8. destruct (Nat.leb_spec (length (bytes (of_chars cs))) (Z.to_nat (room c - len ELLIPSIS))) as [H4|H4].
  { change (len ELLIPSIS) with 3 in *. unfold len, length_z in H3. lia. }
  destruct (tail_utf8_longest cs (Z.to_nat (room c - len ELLIPSIS)) Hchars) as (k&->&Hk&Hmax).
  apply (carried_end _ _ cs k); rewrite ?Hcs; auto.
  - rewrite len_of_chars by now apply Forall_drop. unfold length_z. lia.
  - intros j. rewrite !len_of_chars by now apply Forall_drop. unfold length_z. intros Hj.
    specialize (Hmax j). lia.
Qed.

(** One line, within the limit of the agent, that ends with the command. *)
Lemma carried_line summary command text :
  utf8 summary -> clean command -> len command <= MAX_COMMAND_BYTES -> Carried summary command text ->
  len text <= MAX_COMMAND_BYTES /\ (NEWLINE ∉ bytes text)
  /\ exists carried, text = (carried +:+ command).
Proof.
  intros Hs Hc Hlen [_|_ _ Hfit|cs k _ Hcs Hchars Hfit _].
  - split; [exact Hlen|]. split; [now apply clean_one_line|now exists EmptyString].
  - destruct (clean_single_line _ Hs) as [Hsc _]. split; [|split].
    + rewrite !len_append. unfold room in Hfit. lia.
    + apply clean_one_line. repeat apply clean_app; auto; now apply clean_literal.
    + exists (PREFIX +:+ single_line summary +:+ CURRENT). apply bytes_inj. now rewrite !bytes_app, <- !app_assoc.
  - destruct (single_line_spec summary Hs) as (cs'&Hcs'&Hchars'&Hline&_).
    assert (cs' = cs) as ->.
    { rewrite <- (chars_of_chars cs'), <- (chars_of_chars cs) by assumption. congruence. }
    assert (Hd : clean (of_chars (drop k cs))).
    { exists (drop k cs). split; [reflexivity|]. split; now apply Forall_drop. }
    split; [|split].
    + rewrite !len_append. unfold room in Hfit. lia.
    + apply clean_one_line. repeat apply clean_app; auto; now apply clean_literal.
    + exists (PREFIX +:+ (ELLIPSIS +:+ of_chars (drop k cs)) +:+ CURRENT).
      apply bytes_inj. now rewrite !bytes_app, <- !app_assoc.
Qed.

(** A line is a fixed point. *)
Definition is_word (w : list Z) : Prop := w <> [] /\ Forall (fun c => is_whitespace c = false) w.

Lemma split_words_are_words cs word :
  Forall (fun c => is_whitespace c = false) word -> Forall is_word (split_words cs word).
Proof.
  revert word. induction cs as [|c cs IH]; intros word Hw; cbn [split_words].
  - destruct word as [|w word]; cbn [null]; constructor; [|constructor]. split; [|now apply Forall_rev].
    intros E%(f_equal (@length Z)). rewrite length_rev in E. discriminate.
  - destruct (is_whitespace c) eqn:E; [destruct word as [|w word]; cbn [null]|]; auto.
    constructor; [|auto]. split; [|now apply Forall_rev].
    intros E'%(f_equal (@length Z)). rewrite length_rev in E'. discriminate.
Qed.

Lemma split_words_last w word :
  Forall (fun c => is_whitespace c = false) w -> word ++ w <> [] -> split_words w word = [rev word ++ w].
Proof.
  revert word. induction w as [|c w IH]; intros word Hw Hne; cbn [split_words].
  - rewrite app_nil_r in *. now destruct word.
  - apply list.Forall_cons in Hw as [Hc Hw]. rewrite Hc, IH; [|exact Hw|discriminate].
    cbn [rev]. now rewrite <- app_assoc.
Qed.

Lemma split_join ws : Forall is_word ws -> split_words (join_chars ws) [] = ws.
Proof.
  induction 1 as [|w ws [Hne Hw] Hws IH]; [reflexivity|]. destruct ws as [|v ws].
  - cbn [join_chars]. now rewrite split_words_last.
  - cbn [join_chars] in *. rewrite split_words_word; [|apply forallb_forall; intros c Hc|exact Hne].
    + cbn [rev app]. now rewrite IH.
    + rewrite list.Forall_forall in Hw. apply list_elem_of_In in Hc. now rewrite (Hw c Hc).
Qed.

Lemma drop_while_id p l : match l with c :: _ => p c = false | [] => True end -> drop_while p l = l.
Proof. destruct l as [|c l]; [reflexivity|]. cbn. now intros ->. Qed.

Lemma join_ends ws : Forall is_word ws ->
  match rev (join_chars ws) with c :: _ => is_whitespace c = false | [] => True end.
Proof.
  induction 1 as [|w ws [Hne Hw] Hws IH]; [exact I|]. destruct ws as [|v ws].
  - cbn [join_chars]. destruct (rev w) as [|c r] eqn:E; [exact I|]. apply Forall_rev in Hw. rewrite E in Hw.
    now apply list.Forall_cons in Hw as [Hw _].
  - change (join_chars (w :: v :: ws)) with (w ++ 32 :: join_chars (v :: ws)).
    rewrite rev_app_distr. cbn [rev]. destruct (rev (join_chars (v :: ws))) as [|c r] eqn:E; [|exact IH].
    apply (f_equal (@length Z)) in E. rewrite length_rev in E. apply list.Forall_cons in Hws as [[Hv _] _].
    destruct v as [|c v]; [contradiction|]. destruct ws; discriminate.
Qed.

Lemma trim_line cs : trim_chars (line cs) = line cs.
Proof.
  pose proof (split_words_are_words cs [] (Forall_nil _)) as Hws. unfold line, trim_chars.
  rewrite (drop_while_id _ (join_chars _)), drop_while_id, rev_involutive; [reflexivity|now apply join_ends|].
  destruct (split_words cs []) as [|w [|v ws]]; [exact I| |]; apply list.Forall_cons in Hws as [[Hne Hw] _];
    (destruct w as [|c w]; [contradiction|]); now apply list.Forall_cons in Hw as [Hw _].
Qed.

Lemma single_line_idem s : utf8 s -> single_line (single_line s) = single_line s.
Proof.
  assert (H : forall cs, Forall is_char cs -> single_line (of_chars cs) = of_chars (line cs)).
  { intros cs Hcs. unfold single_line. rewrite single_line_of_chars by exact Hcs. unfold trim.
    rewrite chars_of_chars, trim_line; [reflexivity|]. apply line_Forall; [unfold is_char; lia|exact Hcs]. }
  intros (cs&Hcs&->). rewrite H by exact Hcs.
  rewrite H by (apply line_Forall; [unfold is_char; lia|exact Hcs]). unfold line.
  rewrite split_join; [reflexivity|]. now apply split_words_are_words.
Qed.

(** Texts stay UTF-8. *)
Lemma utf8_literal s : forallb (in_range 0 1114111) (chars s) = true -> of_chars (chars s) = s -> utf8 s.
Proof.
  intros H E. exists (chars s). split; [|now rewrite E]. rewrite forallb_forall in H.
  apply list.Forall_forall. intros c Hc. apply list_elem_of_In in Hc. specialize (H c Hc). now apply in_range_spec in H.
Qed.
Lemma utf8_tail s n : utf8 s -> utf8 (tail_utf8 s n).
Proof.
  intros Hs. unfold tail_utf8. destruct (_ <=? _)%nat; [exact Hs|]. apply utf8_app; [now apply utf8_literal|].
  destruct Hs as (cs&Hcs&->). destruct (tail_utf8_suffix cs n Hcs) as (k&->&_).
  exists (drop k cs). split; [now apply Forall_drop|reflexivity].
Qed.
Lemma utf8_join separator parts : utf8 separator -> Forall utf8 parts -> utf8 (join separator parts).
Proof.
  intros Hs. induction 1 as [|part parts Hp _ IH]; [now exists []|]. destruct parts as [|q parts]; [exact Hp|].
  cbn [join] in *. now repeat apply utf8_app.
Qed.
Lemma utf8_replace_newlines s : utf8 s -> utf8 (replace_newlines s).
Proof.
  intros (cs&Hcs&->). exists (map (fun c => if c =? 10 then 32 else c) cs).
  assert (H : Forall is_char (map (fun c => if c =? 10 then 32 else c) cs)).
  { apply list.Forall_forall. intros c Hc. apply list_elem_of_fmap in Hc as (d&->&Hd).
    rewrite list.Forall_forall in Hcs. specialize (Hcs d Hd). unfold is_char in *. destruct (d =? 10); lia. }
  split; [exact H|]. unfold replace_newlines. rewrite bytes_of_chars by exact Hcs. unfold of_chars. f_equal. clear H.
  induction Hcs as [|c cs Hc _ IH]; [reflexivity|]. unfold encode_utf8 in *. cbn [map List.concat].
  rewrite map_app, IH. f_equal. destruct (Z.eqb_spec c 10) as [->|Hne]; [reflexivity|].
  rewrite <- (map_id (encode_char c)) at 2. apply map_ext_in. intros b Hb.
  destruct (Z.eqb_spec b 10) as [->|]; [|reflexivity]. exfalso. apply Hne, encode_char_newline; [exact Hc|].
  now apply list_elem_of_In.
Qed.

(** What every Rust [String] of a session satisfies. *)
Definition readable `{Json} (c : Session.t) : Prop :=
  utf8 c.(Session.compacted_summary)
  /\ Forall (fun e => utf8 e.(TerminalEvent.kind) /\ utf8 e.(TerminalEvent.text)) c.(Session.events).

Lemma utf8_summary `{Json} c : readable c -> utf8 (summary_of c).
Proof.
  intros [Hs He]. unfold summary_of. apply utf8_tail, utf8_join; [now apply utf8_literal|]. apply Forall_app. split.
  - destruct (is_empty _); constructor; [exact Hs|constructor].
  - apply list.Forall_forall. intros part Hp. apply list_elem_of_fmap in Hp as (e&->&Hin).
    apply list_elem_of_In, List.filter_In in Hin as [Hin _]. apply list_elem_of_In in Hin.
    rewrite list.Forall_forall in He. destruct (He e Hin) as [Hk Ht]. unfold summary_part.
    repeat apply utf8_app; auto using utf8_replace_newlines; now apply utf8_literal.
Qed.
Lemma readable_compact `{Json} automatic c : readable c -> readable (compact_session automatic c).
Proof.
  intros Hc. pose proof (utf8_summary c Hc) as Hs. destruct Hc as [Hc He]. unfold compact_session.
  destruct (null _); [now split|]. destruct automatic; (split; [exact Hs|]); now apply Forall_drop.
Qed.

(** The same, decided. *)
Definition is_utf8 (s : string) : bool := forallb (in_range 0 1114111) (chars s) && String.eqb (of_chars (chars s)) s.
Definition is_readable `{Json} (c : Session.t) : bool :=
  is_utf8 c.(Session.compacted_summary)
  && forallb (fun e => is_utf8 e.(TerminalEvent.kind) && is_utf8 e.(TerminalEvent.text)) c.(Session.events).
Lemma is_utf8_utf8 s : is_utf8 s = true -> utf8 s.
Proof. intros [H E%String.eqb_eq]%andb_true_iff. now apply utf8_literal. Qed.
Lemma is_readable_all `{Json} l c : forallb is_readable l = true -> c ∈ l -> readable c.
Proof.
  intros Hall Hin. rewrite forallb_forall in Hall. apply list_elem_of_In in Hin. specialize (Hall c Hin).
  apply andb_true_iff in Hall as [Hs He]. split; [now apply is_utf8_utf8|]. rewrite forallb_forall in He.
  apply list.Forall_forall. intros e Hin'. apply list_elem_of_In in Hin'. specialize (He e Hin').
  apply andb_true_iff in He as [Hk Ht]. split; now apply is_utf8_utf8.
Qed.

(** ** What every session satisfies *)
Section Invariant.
Context {json : Json}.

(** Numbers ascend; only the largest [u64], where the counter stops, may repeat. *)
Definition before (a b : TerminalEvent.t) : Prop :=
  a.(TerminalEvent.id) < b.(TerminalEvent.id)
  \/ a.(TerminalEvent.id) = u64_max /\ b.(TerminalEvent.id) = u64_max.

Definition SURVEY_STATES : list string := ["pending"; "running"; "complete"; "failed"; "skipped"]%string.

Record SessionOk (s : Session.t) : Prop := {
  so_count : (length s.(Session.events) <= MAX_EVENTS)%nat;
  so_ids : Forall (fun e => 1 <= e.(TerminalEvent.id) <= u64_max) s.(Session.events);
  so_ascending : StronglySorted before s.(Session.events);
  so_summary : len s.(Session.compacted_summary) <= 6147;
  so_status : s.(Session.initial_survey_status) ∈ SURVEY_STATES;
}.

Lemma StronglySorted_drop {A} (R : A -> A -> Prop) k l : StronglySorted R l -> StronglySorted R (drop k l).
Proof.
  revert k. induction l as [|x l IH]; intros [|k] H; cbn; auto. inversion H; subst. auto.
Qed.
Lemma StronglySorted_snoc {A} (R : A -> A -> Prop) l x :
  StronglySorted R l -> Forall (fun y => R y x) l -> StronglySorted R (l ++ [x]).
Proof.
  induction 1 as [|y l Hl IH Hy]; intros Hx; [now repeat constructor|].
  apply list.Forall_cons in Hx as [Hyx Hx]. cbn. constructor; [auto|].
  apply Forall_app. split; [exact Hy|now repeat constructor].
Qed.

(** The next number comes after all of them. *)
Lemma next_event_id_after events :
  Forall (fun e => 1 <= e.(TerminalEvent.id) <= u64_max) events -> StronglySorted before events ->
  1 <= next_event_id events <= u64_max
  /\ forall now kind text,
       Forall (fun e => before e (TerminalEvent.mk (next_event_id events) now kind text)) events.
Proof.
  intros Hids Hsorted. unfold next_event_id, saturating_add. destruct events as [|last l _] using List.rev_ind.
  { cbn. split; [unfold u64_max; lia|constructor]. }
  rewrite rev_app_distr. cbn [rev app]. apply Forall_app in Hids as [Hl Hlast].
  apply list.Forall_cons in Hlast as [Hlast _]. split; [unfold u64_max in *; lia|]. intros now kind text.
  apply Forall_app. split; [|constructor; [unfold before; cbn; unfold u64_max in *; lia|constructor]].
  apply list.Forall_forall. intros e He. rewrite list.Forall_forall in Hl. specialize (Hl _ He).
  assert (Hb : before e last).
  { clear -Hsorted He. induction l as [|x l IH]; [now apply not_elem_of_nil in He|].
    cbn in Hsorted. inversion Hsorted as [|? ? Hrest Hall]; subst. apply elem_of_cons in He as [->|He]; [|auto].
    apply Forall_app in Hall as [_ Hall]. now apply list.Forall_cons in Hall as [Hall _]. }
  unfold before in *. cbn. unfold u64_max in *. lia.
Qed.

Lemma push_event_ok session kind text now :
  SessionOk session -> SessionOk (push_event session kind text now).1.
Proof.
  intros [H1 H2 H3 H4 H5]. unfold push_event. destruct (is_empty text); [now constructor|].
  destruct (next_event_id_after _ H2 H3) as [Hid Hafter]. specialize (Hafter now kind text).
  assert (Hdrop : forall k, Forall (fun e => before e (TerminalEvent.mk (next_event_id (Session.events session)) now kind text))
                       (drop k (Session.events session))) by (intros; now apply Forall_drop).
  constructor; cbn.
  - destruct (Nat.eqb_spec (length (Session.events session)) MAX_EVENTS) as [E|E];
      rewrite length_app, ?length_drop; cbn [length]; unfold MAX_EVENTS in *; lia.
  - destruct (_ =? _)%nat; apply Forall_app; (split; [|now repeat constructor]); [now apply Forall_drop|exact H2].
  - destruct (_ =? _)%nat; apply StronglySorted_snoc; [now apply StronglySorted_drop|apply (Hdrop 1%nat)|exact H3|exact Hafter].
  - exact H4.
  - exact H5.
Qed.

Lemma compact_session_ok automatic session : SessionOk session -> SessionOk (compact_session automatic session).
Proof.
  intros [H1 H2 H3 H4 H5]. unfold compact_session. destruct (null _); [now constructor|].
  assert (Hlen : len (summary_of session) <= 6147).
  { unfold summary_of. etransitivity; [apply tail_len|]. vm_compute. discriminate. }
  destruct automatic; constructor; cbn; try assumption; unfold retain;
    try (now apply Forall_drop); try (now apply StronglySorted_drop); rewrite length_drop; lia.
Qed.

Lemma update_initial_survey_status_ok text session :
  SessionOk session -> SessionOk (update_initial_survey_status text session).
Proof.
  intros [H1 H2 H3 H4 H5]. unfold update_initial_survey_status, SURVEY_STATES.
  repeat (match goal with |- context [if ?c then _ else _] => destruct c end); constructor; cbn; auto;
    apply list_elem_of_In; cbn; auto.
Qed.

Lemma retain_spec events :
  (length (retain events) <= RETAIN_AFTER_COMPACT)%nat /\ exists older, events = older ++ retain events.
Proof.
  unfold retain. rewrite length_drop. split; [lia|]. eexists. symmetry. apply take_drop.
Qed.

(** After a compaction a few recent events are left. *)
Lemma compact_session_spec automatic session :
  session.(Session.events) <> [] ->
  let s' := compact_session automatic session in
  (length s'.(Session.events) <= RETAIN_AFTER_COMPACT)%nat
  /\ (exists older, session.(Session.events) = older ++ s'.(Session.events))
  /\ s'.(Session.events_since_compaction) = 0
  /\ s'.(Session.compacted_summary) = summary_of session
  /\ s'.(Session.summary_pending) = negb (is_empty (summary_of session)).
Proof.
  intros Hne. unfold compact_session. destruct (Session.events session) as [|e l] eqn:E; [easy|].
  cbn [null]. rewrite <- E. pose proof (retain_spec (Session.events session)) as [H1 H2].
  destruct automatic; (split; [exact H1|]; split; [exact H2|]; now repeat split).
Qed.
End Invariant.

(** ** The sessions that are loaded *)
Section Loading.
Context {json : Json}.

Definition used_before (a b : Session.t) : Prop :=
  a.(Session.last_used_at_ms) <= b.(Session.last_used_at_ms).

Lemma insert_session_permutation session sessions :
  Permutation (insert_session session sessions) (session :: sessions).
Proof.
  induction sessions as [|s rest IH]; cbn; [reflexivity|]. destruct (_ <=? _); [reflexivity|].
  rewrite IH. apply Permutation_swap.
Qed.
Lemma sort_sessions_permutation sessions : Permutation (sort_sessions sessions) sessions.
Proof. induction sessions as [|s rest IH]; cbn; [reflexivity|]. now rewrite insert_session_permutation, IH. Qed.

Lemma insert_session_sorted session sessions :
  StronglySorted used_before sessions -> StronglySorted used_before (insert_session session sessions).
Proof.
  induction 1 as [|s rest Hs IH Hall]; cbn; [now repeat constructor|].
  destruct (Z.leb_spec (Session.last_used_at_ms session) (Session.last_used_at_ms s)) as [E|E].
  - constructor; [now constructor|]. constructor; [exact E|].
    apply (list.Forall_impl _ _ _ Hall). intros x. unfold used_before. lia.
  - constructor; [exact IH|]. rewrite insert_session_permutation. constructor; [unfold used_before; lia|exact Hall].
Qed.
Lemma sort_sessions_sorted sessions : StronglySorted used_before (sort_sessions sessions).
Proof. induction sessions; cbn; [constructor|now apply insert_session_sorted]. Qed.

(** The most recently used sessions are loaded, as they were saved, except that no survey runs. *)
Lemma load_state_spec saved :
  let loaded := load_state saved in
  loaded.(PersistedState.active_session_id) = saved.(PersistedState.active_session_id)
  /\ (length loaded.(PersistedState.sessions) <= MAX_SESSIONS)%nat
  /\ Forall (fun s => s.(Session.initial_survey_status) <> "running"%string) loaded.(PersistedState.sessions)
  /\ exists older,
       Permutation (map forget_running saved.(PersistedState.sessions)) (older ++ loaded.(PersistedState.sessions))
       /\ length older = (length saved.(PersistedState.sessions) - MAX_SESSIONS)%nat
       /\ Forall (fun o => Forall (used_before o) loaded.(PersistedState.sessions)) older.
Proof.
  unfold load_state. set (sessions := sort_sessions _). cbn [PersistedState.active_session_id PersistedState.sessions].
  assert (Hperm : Permutation sessions (map forget_running (PersistedState.sessions saved))) by apply sort_sessions_permutation.
  assert (Hlen : length sessions = length (PersistedState.sessions saved)) by now rewrite Hperm, length_map.
  split; [reflexivity|]. split; [rewrite length_drop; unfold MAX_SESSIONS; lia|]. split.
  - apply Forall_drop. rewrite Hperm. apply list.Forall_forall. intros s Hs.
    apply list_elem_of_fmap in Hs as (x&->&_). unfold forget_running.
    destruct (String.eqb_spec (Session.initial_survey_status x) "running"); [discriminate|assumption].
  - exists (take (length sessions - MAX_SESSIONS) sessions). split; [now rewrite take_drop|]. split; [rewrite length_take; lia|].
    pose proof (sort_sessions_sorted (map forget_running (PersistedState.sessions saved))) as Hs. fold sessions in Hs.
    clear -Hs. revert Hs. generalize (length sessions - MAX_SESSIONS)%nat as k.
    induction sessions as [|s rest IH]; intros [|k] Hs; cbn; auto. inversion Hs as [|? ? Hrest Hall]; subst.
    constructor; [now apply Forall_drop|auto].
Qed.
End Loading.
