(* ===== verification/WebFiles.v ===== *)
(** * Files of the web console

    [web-console/src/main.rs], lines 870 to 944, 1389 to 1449, 2110 to 2230 and 2338 to
    2404: the settings with the key of the provider, the saved sessions, and the request
    a restarted agent begins with.  A private file is written beside its place, renamed
    over it and closed to everybody else; the theorems say what is on disk however a
    call ends, and that what was saved is read back. *)
From S2P Require Import Prelude Hoare Text Utf8 F32 Protocol Policy Framing Sdr Session TerminalState ConsoleText WebConfig Files WebResults WebSession.

(** serde_json on the files. *)
Class FileCodec `{Json} := {
  settings_from_slice : list Z -> result string ProviderConfigFile.t;
  settings_to_vec : ProviderConfigFile.t -> result string (list Z);
  state_from_slice : list Z -> result string PersistedState.t;
  state_to_vec : PersistedState.t -> result string (list Z);
  request_from_slice : list Z -> result string PlanRequest.t;
  request_to_vec : PlanRequest.t -> result string (list Z);
}.

(** How the [curl] of a query ends. *)
Inductive Curl :=
| NotSpawned
| NoPipe
| NotWritten
| TimedOut
| NotWaited
| Exited (success : bool) (stdout : list Z).

Section Files.
Context {json : Json} {codec : FileCodec}.
Context (os : System).
Abbreviation IO := (M Fs.t ApiError).

(** ** Private files *)

(** The statements [persist_provider_config] and [prepare_runtime_request] share, from the
    opening of the temporary file on. *)
Definition write_private (temporary path : Path.t) (content : list Z) : IO unit :=
  file ← io (open_new os temporary 384) ;
  io (write_all os file content) ;;
  io (call os (SyncAll file)) ;;
  io (move_file os temporary path) ;;
  io (set_mode os path 384).

(** ** The settings *)
Definition PRIVATE_MESSAGE : string := "上游配置权限必须为 0600".
Definition as_internal {A} (r : ApiResult A) : ApiResult A :=
  map_err (fun e => match e with Api _ message => internal_error message end) r.

(** The checks on the metadata. *)
Definition check_settings_file (metadata : Node) : ApiResult unit :=
  match metadata with
  | File _ mode content =>
      reject_if (MAX_PROVIDER_CONFIG_BYTES <? length_z content)
        (internal_error "上游配置必须是不超过 8 KiB 的普通文件") ;;
      reject_if (negb (Z.land mode 63 =? 0)) (internal_error PRIVATE_MESSAGE)
  | _ => internal "上游配置必须是不超过 8 KiB 的普通文件"
  end.
(** The checks on what the file says. *)
Definition check_settings (config : ProviderConfigFile.t) : ApiResult unit :=
  reject_if (negb (config.(ProviderConfigFile.schema_version) =? 1))
    (internal_error "不支持的上游配置版本") ;;
  as_internal (validate_context_settings config.(ProviderConfigFile.context_window)
                 config.(ProviderConfigFile.compression_threshold_percent)) ;;
  as_internal (validate_initial_survey config.(ProviderConfigFile.initial_survey)).

Definition load_provider_config_file (path : Path.t) : IO (option ProviderConfigFile.t) :=
  there ← io (path_exists os path) ;
  if negb there then mret None
  else
    metadata ← io (link_metadata os path) ;
    lift (check_settings_file metadata) ;;
    content ← io (read_file os path) ;
    config ← lift (map_err internal_error (settings_from_slice content)) ;
    lift (check_settings config) ;;
    mret (Some config).

Definition load_provider_config_view (path : Path.t) : IO ProviderConfigView.t :=
  config ← load_provider_config_file path ;
  mret match config with Some config => provider_config_view config | None => unconfigured end.

Definition persist_provider_config (path : Path.t) (config : ProviderConfigFile.t) : IO unit :=
  parent ← lift (ok_or (internal_error "上游配置路径无父目录") (Path.parent path)) ;
  io (create_directories os parent) ;;
  content ← lift (map_err internal_error (settings_to_vec config)) ;
  lift (reject_if (MAX_PROVIDER_CONFIG_BYTES <? length_z content) (Api BAD_REQUEST "上游配置超过 8 KiB")) ;;
  now ← io (now_ms os) ;
  write_private (with_extension path ("json.tmp-" +:+ print_u now)) path content.

Section Provider.
Context {uris : UriParser}.

Definition save_provider_config (path : Path.t) (request : ProviderConfigRequest.t) : IO ProviderConfigView.t :=
  load ←
    (if is_empty (trim request.(ProviderConfigRequest.api_key))
     then attempt (load_provider_config_file path) else mret (Ok None)) ;
  config ← lift (accept_provider_config load request) ;
  persist_provider_config path config ;;
  mret (provider_config_view config).

(** [running]: whether there is a runtime, seen under the lock. *)
Definition delete_provider_config (running : bool) (path : Path.t) : IO ProviderConfigView.t :=
  lift (reject_if running (Api CONFLICT "请先停止当前对话，再清除上游模型配置")) ;;
  there ← io (path_exists os path) ;
  (if there : bool then
     metadata ← io (link_metadata os path) ;
     lift (reject_if (negb (is_regular metadata)) (internal_error "拒绝删除非普通上游配置文件")) ;;
     io (unlink os path)
   else mret tt) ;;
  mret unconfigured.

(** ** The query for the models *)
Section Query.
Context {access : JsonAccess} {sorting : SortUnstable}.

Definition curl_arguments (base_url : string) : list string :=
  ["--silent"; "--show-error"; "--no-progress-meter"; "--connect-timeout"; "4"; "--max-time"; "8";
   "--max-filesize"; "524288"; "--proto"; "=http,https"; "--proto-redir"; "=https";
   "--header"; "Accept: application/json"; "--header"; "@-"; "--write-out"]%string
  ++ [(NEWLINE_TEXT +:+ "%{http_code}"); "--url"; (trim_end_slashes base_url +:+ "/models")]%string.
Definition authorization (api_key : string) : string :=
  "Authorization: Bearer " +:+ api_key +:+ NEWLINE_TEXT.

(** [curl] from its arguments and its standard input. *)
Definition fetch_provider_models (curl : list string -> string -> Curl) (base_url api_key : string)
    : ApiResult (list ProviderModelView.t) :=
  match curl (curl_arguments base_url) (authorization api_key) with
  | NotSpawned => internal "无法启动受限的 curl 上游查询"
  | NoPipe => internal "无法建立上游查询的私密输入管道"
  | NotWritten => internal "无法写入上游认证管道"
  | TimedOut => Err (Api BAD_GATEWAY "连接上游超过 8 秒，请检查 Base URL 和网络")
  | NotWaited => Err (Api BAD_GATEWAY "上游查询进程异常退出")
  | Exited success stdout =>
      reject_if (negb success) (Api BAD_GATEWAY "上游连接失败、超时或响应超过 512 KiB") ;;
      read_models stdout
  end.

(** [busy]: the gate of the queries is taken. *)
Definition discover_provider_models (path : Path.t) (base_url api_key : string) (busy : bool)
    (curl : list string -> string -> Curl) : IO (list ProviderModelView.t) :=
  lift (_ ← validate_provider_url base_url ; Ok tt) ;;
  load ←
    (if is_empty (trim api_key)
     then attempt (load_provider_config_file path) else mret (Ok None)) ;
  credentials ← lift (query_credentials load base_url api_key) ;
  lift (reject_if busy (Api TOO_MANY_REQUESTS "已有一个上游模型查询正在进行")) ;;
  lift (fetch_provider_models curl credentials.1 credentials.2).
End Query.
End Provider.

Definition initialize_capture_root (path : Path.t) : IO unit :=
  ensure_real_directory os path ;; io (set_mode os path 448).

(** ** The sessions *)

(** [fs::write]. *)
Definition write_file (path : Path.t) (content : list Z) : IO unit :=
  file ← io (create_file os path) ; io (write_all os file content).

Definition persist_locked (state_path : Path.t) (state : PersistedState.t) : IO unit :=
  parent ← lift (ok_or (internal_error "状态路径无父目录") (Path.parent state_path)) ;
  io (create_directories os parent) ;;
  let temporary := with_extension state_path "json.tmp" in
  content ← lift (map_err internal_error (state_to_vec state)) ;
  write_file temporary content ;;
  io (move_file os temporary state_path).

(** [load_state], with the error of the start as a text. *)
Definition read_state (path : Path.t) : IO PersistedState.t :=
  there ← io (path_exists os path) ;
  if negb there then mret PersistedState.default
  else
    content ← io (read_file os path) ;
    state ← lift (map_err internal_error (state_from_slice content)) ;
    mret (load_state state).

(** ** The request of a restarted agent *)
Definition prepare_runtime_request (request_path state_path : Path.t)
    (observation : option ObservationSummary.t) : IO (Path.t * option Path.t) :=
  match observation with
  | None => mret (request_path, None)
  | Some observation =>
      base ← io (read_file os request_path) ;
      lift (reject_if (MAX_FRAME_BYTES <? length_z base) (internal_error "基础 PlanningContext 超过 32 KiB")) ;;
      content ← lift (runtime_request_bytes request_from_slice request_to_vec base observation) ;
      parent ← lift (ok_or (internal_error "状态路径无父目录") (Path.parent state_path)) ;
      io (create_directories os parent) ;;
      now ← io (now_ms os) ;
      let path := Path.join parent "runtime-request.json" in
      write_private (Path.join parent ("runtime-request.tmp-" +:+ print_u now)) path content ;;
      mret (path, Some path)
  end.
Definition cleanup_runtime_request (path : option Path.t) : IO unit :=
  match path with
  | Some path => _ ← attempt (F := ApiError) (io (unlink os path)) ; mret tt
  | None => mret tt
  end.
End Files.

(** ** Names of temporary files *)
Lemma stem_split name :
  file_stem name = name
  \/ exists stem ext, (bytes name = bytes (file_stem name) ++ 46 :: ext)
       /\ (46 ∉ ext) /\ file_stem name = of_bytes stem.
Proof.
  unfold file_stem. destruct (drop_while _ (List.rev (bytes name))) as [|dot [|b stem]] eqn:E; auto. right.
  exists (List.rev (b :: stem)).
  assert (H : forall l c r, drop_while (fun b => negb (b =? 46)) l = c :: r ->
            c = 46 /\ exists e, l = e ++ c :: r /\ 46 ∉ e).
  { induction l as [|x l IH]; intros c r H; cbn in H; [discriminate|].
    destruct (Z.eqb_spec x 46); cbn in H.
    - injection H as <- <-. split; [assumption|]. exists []. split; [reflexivity|apply not_elem_of_nil].
    - destruct (IH c r H) as (Hc&e&->&He). split; [exact Hc|]. exists (x :: e). split; [reflexivity|].
      apply not_elem_of_cons. split; congruence. }
  destruct (H _ _ _ E) as (->&e&Hrev&He). exists (List.rev e).
  assert (Hb : bytes name = List.rev (b :: stem) ++ 46 :: List.rev e).
  { rewrite <- (List.rev_involutive (bytes name)), Hrev, List.rev_app_distr.
    change (46 :: b :: stem) with ([46] ++ (b :: stem)). now rewrite List.rev_app_distr, <- app_assoc. }
  split; [|split; [|reflexivity]].
  - rewrite bytes_of_bytes; [exact Hb|]. pose proof (bytes_range name) as Hr. rewrite Hb in Hr.
    now apply Forall_app in Hr as [Hr _].
  - intros Hin. apply He. apply list_elem_of_In in Hin. apply list_elem_of_In. now apply in_rev.
Qed.

Lemma extension_differs name extension :
  46 ∈ bytes extension -> (file_stem name +:+ "." +:+ extension) <> name.
Proof.
  intros Hdot E. apply (f_equal bytes) in E. rewrite !bytes_app in E. change (bytes ".") with [46] in E.
  destruct (stem_split name) as [Hs|(stem&ext&Hb&Hext&_)].
  - rewrite Hs in E. apply (f_equal length) in E. rewrite !length_app in E. cbn in E. lia.
  - rewrite Hb in E. apply app_inv_head in E. cbn in E. injection E as E. subst ext. contradiction.
Qed.

Lemma temporary_name_ok name extension :
  name <> ".."%string -> 2 <= len extension ->
  forall parent, with_extension (place parent name) extension = place parent (file_stem name +:+ "." +:+ extension)
  /\ (file_stem name +:+ "." +:+ extension) <> ".."%string.
Proof.
  intros Hname Hlen parent. unfold with_extension. rewrite file_name_place, parent_place by exact Hname.
  split; [reflexivity|]. intros E. apply (f_equal len) in E. rewrite !len_append in E.
  change (len "..") with 2 in E. change (len ".") with 1 in E. unfold len, length_z in *. lia.
Qed.

(** ** Writing private files *)
Definition is_private (mode : Z) : Prop := Z.land mode 63 = 0.

Lemma created_private umask : is_private (Z.ldiff 384 umask).
Proof.
  apply Z.bits_inj'. intros n Hn. rewrite Z.land_spec, Z.ldiff_spec, Z.bits_0.
  assert (H : Z.testbit (Z.land 384 63) n = false) by (change (Z.land 384 63) with 0; apply Z.bits_0).
  rewrite Z.land_spec in H. destruct (Z.testbit 384 n), (Z.testbit 63 n); now destruct (Z.testbit umask n).
Qed.

Section Writing.
Context (os : System) (parent : list string) (name temporary : string) (content : list Z).
Context (Hname : name <> ".."%string) (Htemp : temporary <> ".."%string) (Hne : temporary <> name).
Abbreviation P := (place parent name).
Abbreviation T := (place parent temporary).
Implicit Types s : Fs.t.

Definition fresh (c : list Z) : Node := File os.(geteuid) (Z.ldiff 384 os.(umask)) c.
(** However a write ends: nothing, a part beside the file, or the whole in its place. *)
Definition Attempted s s' : Prop :=
  s'.(Fs.nodes) = s.(Fs.nodes)
  \/ (exists c, s.(Fs.nodes) !! T = None /\ s'.(Fs.nodes) = <[T := fresh c]> s.(Fs.nodes))
  \/ exists mode, is_private mode
       /\ s'.(Fs.nodes) = <[P := File os.(geteuid) mode content]> s.(Fs.nodes).

Lemma wp_open_new s :
  plain_dir s.(Fs.nodes) parent ->
  wp (open_new os T 384)
    (fun file s' => file = T /\ s.(Fs.nodes) !! T = None /\ s'.(Fs.nodes) = <[T := fresh []]> s.(Fs.nodes))
    (fun _ => same_tree s) s.
Proof.
  intros Hp. unfold open_new. apply wp_bind, wp_call_tree; [|auto]. intros s' Hs. unfold same_tree in Hs.
  apply wp_bind, wp_gets, wp_bind, wp_lift; [|auto]. intros here Hhere. apply ok_or_Ok in Hhere.
  rewrite Hs, (slot_place parent _ _ Hp Htemp) in Hhere. injection Hhere as <-. apply wp_bind.
  change (physical (parent ++ [temporary])) with T. rewrite Hs.
  destruct (Fs.nodes s !! T) eqn:E; cbn [is_none]; [apply wp_lift; [discriminate|auto]|].
  apply wp_modify, wp_ret. cbn. now rewrite Hs.
Qed.

Lemma wp_append N c s :
  s.(Fs.nodes) = <[T := fresh c]> N ->
  wp (write_all os T content)
    (fun _ s' => s'.(Fs.nodes) = <[T := fresh (c ++ content)]> N)
    (fun _ s' => exists c', s'.(Fs.nodes) = <[T := fresh c']> N) s.
Proof.
  intros Es. unfold wp, write_all, call. cbn [Fs.ops Fs.nodes].
  destruct (fault os _) as [e|]; cbn [Fs.nodes Fs.ops]; rewrite Es, lookup_insert_eq; unfold fresh;
    rewrite insert_insert_eq; eauto.
Qed.

(** A move of the temporary file into its place. *)
Lemma wp_move N node s :
  plain_dir N parent -> s.(Fs.nodes) = <[T := node]> N -> is_regular node = true ->
  wp (move_file os T P) (fun _ s' => s'.(Fs.nodes) = <[P := node]> (delete T N))
    (fun _ s' => s'.(Fs.nodes) = s.(Fs.nodes)) s.
Proof.
  intros Hp Es Hnode. unfold move_file. apply wp_bind, wp_call_tree; [|auto].
  intros s' Hs. unfold same_tree in Hs. apply wp_bind, wp_gets.
  assert (Hp' : plain_dir (Fs.nodes s') parent) by (rewrite Hs, Es; now apply plain_dir_insert).
  apply wp_bind, wp_lift; [|auto]. intros source H1. apply ok_or_Ok in H1.
  rewrite (slot_place parent _ _ Hp' Htemp) in H1. injection H1 as <-.
  apply wp_bind, wp_lift; [|auto]. intros target H2. apply ok_or_Ok in H2.
  rewrite (slot_place parent _ _ Hp' Hname) in H2. injection H2 as <-.
  change (physical (parent ++ [temporary])) with T. change (physical (parent ++ [name])) with P.
  rewrite Hs, Es, lookup_insert_eq. apply wp_bind, wp_lift; [|intros; now rewrite Hs]. intros n [= <-].
  destruct node as [|uid mode c|]; try discriminate.
  destruct (_ !! P) as [[| |]|]; try (apply wp_lift; [discriminate|intros; now rewrite Hs]);
    apply wp_modify; cbn [Fs.nodes]; rewrite Hs, Es; now rewrite delete_insert_eq.
Qed.

Lemma wp_set_mode uid mode c s :
  plain_dir s.(Fs.nodes) parent -> s.(Fs.nodes) !! P = Some (File uid mode c) ->
  wp (set_mode os P 384) (fun _ s' => s'.(Fs.nodes) = <[P := File uid 384 c]> s.(Fs.nodes))
    (fun _ => same_tree s) s.
Proof.
  intros Hp HP. unfold set_mode. apply wp_bind, wp_call_tree; [|auto]. intros s' Hs. unfold same_tree in Hs.
  apply wp_bind, wp_gets, wp_bind, wp_lift; [|auto]. intros here Hh. apply ok_or_Ok in Hh.
  rewrite Hs, (resolve_place parent _ _ _ _ _ Hp Hname HP) in Hh. injection Hh as <-.
  change (physical (parent ++ [name])) with P. rewrite Hs, HP. apply wp_modify. cbn. now rewrite Hs.
Qed.

Lemma wp_write_private s :
  plain_dir s.(Fs.nodes) parent ->
  wp (write_private os T P content)
    (fun _ s' => s'.(Fs.nodes) = <[P := File os.(geteuid) 384 content]> s.(Fs.nodes))
    (fun _ => Attempted s) s.
Proof.
  intros Hp. unfold write_private. apply wp_bind, wp_io. eapply wp_conseq; [now apply wp_open_new| |now left].
  intros file s1 (->&HT&E1). apply wp_bind, wp_io. eapply wp_conseq; [now apply (wp_append s.(Fs.nodes) [])| |].
  2: { intros e s' (c&E). right. left. eauto. }
  intros [] s2 E2. apply wp_bind, wp_io, wp_call_tree; [|intros e s' E; unfold same_tree in E; right; left; rewrite E; eauto].
  intros s3 E3. unfold same_tree in E3. rewrite E2 in E3.
  apply wp_bind, wp_io. eapply wp_conseq; [now apply (wp_move s.(Fs.nodes) (fresh content))| |].
  2: { intros e s' E. right. left. rewrite E. eauto. }
  intros [] s4 E4. cbn beta in E4. rewrite delete_id in E4 by exact HT. apply wp_io.
  assert (Hp4 : plain_dir (Fs.nodes s4) parent) by (rewrite E4; now apply plain_dir_insert).
  eapply wp_conseq; [eapply wp_set_mode; [exact Hp4|rewrite E4; apply lookup_insert_eq]| |].
  - intros [] s5 E5. cbn beta in E5. rewrite E5, E4. apply insert_insert_eq.
  - intros e s5 E5. unfold same_tree in E5. right. right. eexists. rewrite E5, E4. split; [|reflexivity].
    apply created_private.
Qed.
End Writing.

(** ** Reading *)
#[local] Instance same_tree_preorder : PreOrder same_tree.
Proof. split; unfold same_tree; [now intros s|]. intros s1 s2 s3 H1 H2. congruence. Qed.

Section Reading.
Context (os : System).

Lemma call_same_tree op : respects same_tree (call os op).
Proof. intros s. unfold call, same_tree. now destruct (fault os _). Qed.
Lemma io_same_tree {A} (m : M Fs.t AppError A) : respects same_tree m -> respects same_tree (io m).
Proof. intros H s. specialize (H s). unfold io, map_errM. now destruct (m s). Qed.
Lemma tree_same_tree : respects same_tree tree.
Proof. now intros s. Qed.
Lemma path_exists_same_tree path : respects same_tree (path_exists os path).
Proof.
  unfold path_exists. apply respects_bind; [apply _|apply respects_attempt, call_same_tree|]. intros r.
  apply respects_bind; [apply _|apply tree_same_tree|]. intros nodes. apply respects_ret, _.
Qed.
Lemma query_same_tree {A} op (f : Tree -> result AppError A) :
  respects same_tree (call os op ;; nodes ← tree ; lift (f nodes)).
Proof.
  apply respects_bind; [apply _|apply call_same_tree|]. intros _.
  apply respects_bind; [apply _|apply tree_same_tree|]. intros nodes. apply respects_lift, _.
Qed.
Lemma link_metadata_same_tree path : respects same_tree (link_metadata os path).
Proof. apply (query_same_tree _ (fun nodes => ok_or NO_FILE (lstat nodes path))). Qed.
Lemma read_file_same_tree path : respects same_tree (read_file os path).
Proof.
  unfold read_file. apply respects_bind; [apply _|apply call_same_tree|]. intros _.
  apply respects_bind; [apply _|apply tree_same_tree|]. intros nodes.
  apply respects_bind; [apply _|apply respects_lift, _|]. intros [| |];
    first [apply respects_ret|apply respects_lift]; apply _.
Qed.
Lemma now_ms_same_tree : respects same_tree (now_ms os).
Proof.
  intros s. unfold now_ms, unix_time_ms, attempt. rewrite bind_run. now destruct (unix_time os _).
Qed.
#[local] Hint Resolve io_same_tree path_exists_same_tree link_metadata_same_tree read_file_same_tree
  now_ms_same_tree : respects.

Lemma load_same_tree {json : Json} {codec : FileCodec} path :
  respects same_tree (load_provider_config_file os path).
Proof. unfold load_provider_config_file. respects_steps. Qed.

(** When no call fails, a regular file is read as it is. *)
Section Calm.
Context (calm : forall ops, fault os ops = None).
Context (parent : list string) (name : string) (Hname : name <> ".."%string).
Context (uid mode : Z) (content : list Z).
Abbreviation P := (place parent name).

Definition holds (s : Fs.t) : Prop :=
  plain_dir s.(Fs.nodes) parent /\ s.(Fs.nodes) !! P = Some (File uid mode content).

Lemma holds_same s s' : same_tree s s' -> holds s -> holds s'.
Proof. unfold same_tree, holds. now intros ->. Qed.

Lemma calm_call op (Q : unit -> Fs.t -> Prop) (R : AppError -> Fs.t -> Prop) s :
  (forall s', same_tree s s' -> Q tt s') -> wp (call os op) Q R s.
Proof. intros H. unfold wp, call. rewrite calm. now apply H. Qed.

Lemma holds_resolve s : holds s -> resolve s.(Fs.nodes) P = Some (parent ++ [name]).
Proof. intros [H1 H2]. now apply (resolve_place parent _ _ _ _ _ H1 Hname H2). Qed.
Lemma holds_lstat s : holds s -> lstat s.(Fs.nodes) P = Some (File uid mode content).
Proof.
  intros [H1 H2]. unfold lstat. rewrite (entry_inv _ _ _ (file_name_place parent _ Hname)), parent_place.
  cbn [mbind option_bind]. rewrite (resolve_parent parent _ H1). cbn [mbind option_bind].
  destruct (parent ++ [name]) eqn:E; [now destruct parent|]. now rewrite <- E.
Qed.

Lemma calm_exists (Q : bool -> Fs.t -> Prop) (R : AppError -> Fs.t -> Prop) s :
  holds s -> (forall s', same_tree s s' -> Q true s') -> wp (path_exists os P) Q R s.
Proof.
  intros Hs H. unfold path_exists. wp_step. wp_step. apply calm_call. intros s' Hs'.
  apply wp_bind, wp_gets, wp_ret. rewrite (holds_resolve s' (holds_same _ _ Hs' Hs)). now apply H.
Qed.
Lemma calm_metadata (Q : Node -> Fs.t -> Prop) (R : AppError -> Fs.t -> Prop) s :
  holds s -> (forall s', same_tree s s' -> Q (File uid mode content) s') -> wp (link_metadata os P) Q R s.
Proof.
  intros Hs H. unfold link_metadata. apply wp_bind, calm_call. intros s' Hs'.
  apply wp_bind, wp_gets. rewrite (holds_lstat s' (holds_same _ _ Hs' Hs)). now apply H.
Qed.
Lemma calm_read_file (Q : list Z -> Fs.t -> Prop) (R : AppError -> Fs.t -> Prop) s :
  holds s -> (forall s', same_tree s s' -> Q content s') -> wp (read_file os P) Q R s.
Proof.
  intros Hs H. unfold read_file. apply wp_bind, calm_call. intros s' Hs'.
  pose proof (holds_same _ _ Hs' Hs) as Hh. apply wp_bind, wp_gets. unfold stat.
  rewrite (holds_resolve s' Hh). cbn [mbind option_bind].
  destruct Hh as [_ Hh]. unfold place in Hh. destruct (parent ++ [name]) eqn:E; [now destruct parent|].
  rewrite <- E in *. rewrite Hh. cbn. now apply H.
Qed.
End Calm.
End Reading.
#[export] Hint Resolve io_same_tree path_exists_same_tree link_metadata_same_tree read_file_same_tree
  now_ms_same_tree load_same_tree : respects.

(** ** What is on disk *)
Section OnDisk.
Context (os : System) (parent : list string) (name : string) (Hname : name <> ".."%string).
Abbreviation P := (place parent name).
Implicit Types s : Fs.t.

(** Every entry is as it was, a directory that was made, or a file of the owner alone. *)
Definition changed_privately s s' : Prop :=
  forall q, s'.(Fs.nodes) !! q = s.(Fs.nodes) !! q
  \/ (s.(Fs.nodes) !! q = None /\ exists uid mode, s'.(Fs.nodes) !! q = Some (Directory uid mode))
  \/ exists mode content, is_private mode /\ s'.(Fs.nodes) !! q = Some (File os.(geteuid) mode content).

Definition kept s s' : Prop := s'.(Fs.nodes) !! P = s.(Fs.nodes) !! P.
Definition replaced (content : list Z) s' : Prop :=
  exists mode, is_private mode /\ s'.(Fs.nodes) !! P = Some (File os.(geteuid) mode content).

Lemma grown_changed s s' : grown_by_directories s s' -> changed_privately s s'.
Proof.
  intros [Hg Hd] q. destruct (s.(Fs.nodes) !! q) as [node|] eqn:E.
  - left. now apply (lookup_weaken _ _ _ _ E Hg).
  - destruct (s'.(Fs.nodes) !! q) as [node|] eqn:E'; [|now left]. right. left. split; [reflexivity|].
    destruct (Hd q node E' E) as (uid&mode&->). eauto.
Qed.
Lemma changed_insert s s1 s' q mode content :
  changed_privately s s1 -> is_private mode ->
  s'.(Fs.nodes) = <[q := File os.(geteuid) mode content]> s1.(Fs.nodes) -> changed_privately s s'.
Proof.
  intros H Hm E p. rewrite E. destruct (decide (p = q)) as [->|Hne].
  - right. right. rewrite lookup_insert_eq. eauto.
  - rewrite lookup_insert_ne by congruence. apply H.
Qed.

Lemma attempted_outcome temporary content s s1 s' :
  temporary <> name -> prepared parent s s1 -> Attempted os parent name temporary content s1 s' ->
  (kept s s' \/ replaced content s') /\ changed_privately s s'.
Proof.
  intros Hne (Hg&_&Hbelow) H. apply grown_changed in Hg.
  assert (HP : place parent temporary <> P) by (intros E; now apply place_inj in E).
  destruct H as [E|[(c&_&E)|(mode&Hm&E)]].
  - split; [left; unfold kept; now rewrite E|]. intros q. rewrite E. apply Hg.
  - split; [left; unfold kept; rewrite E, lookup_insert_ne by exact HP; apply Hbelow|].
    eapply changed_insert; [exact Hg|apply created_private|exact E].
  - split; [right; exists mode; split; [exact Hm|rewrite E; apply lookup_insert_eq]|].
    eapply changed_insert; eauto.
Qed.

Section Settings.
Context {json : Json} {codec : FileCodec}.

Definition encodes (config : ProviderConfigFile.t) (content : list Z) : Prop :=
  settings_to_vec config = Ok content /\ length_z content <= MAX_PROVIDER_CONFIG_BYTES.

Lemma wp_persist_provider_config config s :
  direct s.(Fs.nodes) parent ->
  wp (persist_provider_config os P config)
    (fun _ s' => changed_privately s s' /\ plain_dir s'.(Fs.nodes) parent
       /\ exists content, encodes config content
          /\ s'.(Fs.nodes) !! P = Some (File os.(geteuid) 384 content))
    (fun _ s' => changed_privately s s' /\ (kept s s' \/ exists content, encodes config content /\ replaced content s')) s.
Proof.
  intros Hd. assert (Hsame : forall s1 s', prepared parent s s1 -> same_tree s1 s' ->
    changed_privately s s' /\ (kept s s' \/ exists content, encodes config content /\ replaced content s')).
  { intros s1 s' (Hg&_&Hb) E. unfold same_tree, kept, changed_privately in *. rewrite E.
    split; [now apply grown_changed|left; apply Hb]. }
  unfold persist_provider_config. rewrite parent_place. wp_step. wp_step; [|discriminate]. injection H as <-.
  apply wp_bind, wp_io. eapply wp_conseq; [now apply wp_create_parent| |].
  2: { intros e s' E. unfold same_tree, kept, changed_privately in *. rewrite E. auto. }
  intros [] s1 H1. cbn beta in H1. wp_step. wp_step; [|now apply (Hsame s1)].
  apply map_err_Ok in H. rename a into content. wp_step. wp_step; [|now apply (Hsame s1)].
  apply reject_if_Ok, Z.ltb_ge in H0. assert (Hc : encodes config content) by now split.
  apply wp_bind, wp_io. eapply wp_conseq; [apply respects_wp, now_ms_same_tree| |].
  2: { intros e s' E. now apply (Hsame s1). }
  intros now s2 E2. cbn beta in E2.
  set (extension := "json.tmp-" +:+ print_u now).
  assert (Hdot : 46 ∈ bytes extension).
  { unfold extension. rewrite bytes_app. apply elem_of_app. left. apply list_elem_of_In. cbn. auto 10. }
  assert (Hlen : 2 <= len extension).
  { unfold extension. rewrite len_append. change (len "json.tmp-") with 9. unfold len, length_z. lia. }
  destruct (temporary_name_ok name extension Hname Hlen parent) as [-> Htemp].
  assert (H2 : prepared parent s s2).
  { unfold prepared, grown_by_directories, grown, same_tree in *. now rewrite E2. }
  pose proof H2 as (Hg&Hp&Hb). pose proof (extension_differs name extension Hdot) as Hne.
  eapply wp_conseq; [now apply wp_write_private| |].
  - intros [] s' E. cbn beta in E. split; [|split].
    + eapply changed_insert; [apply grown_changed, Hg| |exact E]. reflexivity.
    + rewrite E. now apply plain_dir_insert.
    + exists content. split; [exact Hc|]. rewrite E. apply lookup_insert_eq.
  - intros e s' Ha. destruct (attempted_outcome _ _ _ _ _ Hne H2 Ha) as [[Hk|Hr] Hchanged]; eauto.
Qed.
End Settings.
End OnDisk.

(** ** The settings *)
Section Saving.
Context {json : Json} {codec : FileCodec} {uris : UriParser}.
Context (os : System) (parent : list string) (name : string) (Hname : name <> ".."%string).
Abbreviation P := (place parent name).

Lemma wp_save_provider_config request s :
  direct s.(Fs.nodes) parent ->
  wp (save_provider_config os P request)
    (fun view s' => changed_privately os s s' /\ plain_dir s'.(Fs.nodes) parent
       /\ exists load config content, accept_provider_config load request = Ok config
          /\ view = provider_config_view config /\ encodes config content
          /\ s'.(Fs.nodes) !! P = Some (File os.(geteuid) 384 content))
    (fun _ s' => changed_privately os s s'
       /\ (kept parent name s s' \/ exists load config content, accept_provider_config load request = Ok config
             /\ encodes config content /\ replaced os parent name content s')) s.
Proof.
  intros Hd. unfold save_provider_config. apply wp_bind.
  apply (wp_conseq _ (fun _ => same_tree s) _ (fun _ => same_tree s)).
  { apply respects_wp. destruct (is_empty _); [|apply respects_ret, _]. apply respects_attempt, load_same_tree. }
  2: { intros e s' E. unfold same_tree, kept, changed_privately in *. rewrite E. auto. }
  intros load s1 E1. unfold same_tree in E1. wp_step. wp_step.
  2: { unfold kept, changed_privately. rewrite E1. auto. }
  wp_step. eapply wp_conseq; [apply wp_persist_provider_config; [exact Hname|now rewrite E1]| |].
  - intros [] s' (Hc&Hp&content&Henc&HP). apply wp_ret.
    unfold changed_privately in *. rewrite E1 in Hc. split; [exact Hc|]. split; [exact Hp|].
    now exists load, a, content.
  - intros e s' [Hc Hk]. unfold changed_privately, kept in *. rewrite E1 in Hc, Hk. split; [exact Hc|].
    destruct Hk as [Hk|(content&Henc&Hr)]; [now left|]. right. now exists load, a, content.
Qed.

Lemma accepted_settings_load load request config :
  accept_provider_config load request = Ok config -> check_settings config = Ok tt.
Proof.
  unfold accept_provider_config. rewrite bind_Ok. intros (request'&_&H). revert H.
  unfold validate_provider_request. intros H. apply reject_seq in H as [_ H].
  apply bind_Ok in H as (url&_&H). apply bind_Ok in H as (provider&_&H).
  apply bind_Ok in H as (model&_&H). apply bind_Ok in H as (key&_&H).
  apply bind_Ok in H as ([]&Hcontext&H). apply bind_Ok in H as ([]&Hsurvey&[= <-]).
  unfold check_settings. cbn -[validate_context_settings validate_initial_survey].
  rewrite Hcontext, Hsurvey. reflexivity.
Qed.

(** Loading what was saved, when no call fails. *)
Lemma wp_load_saved os' config content s :
  (forall config content, settings_to_vec config = Ok content -> settings_from_slice content = Ok config) ->
  (forall ops, fault os' ops = None) -> check_settings config = Ok tt -> encodes config content ->
  holds parent name os.(geteuid) 384 content s ->
  wp (load_provider_config_file os' P) (fun loaded s' => loaded = Some config /\ same_tree s s')
    (fun _ _ => False) s.
Proof.
  intros Hcodec Hcalm Hcheck [Henc Hlen] Hs. unfold load_provider_config_file.
  apply wp_bind, wp_io. eapply calm_exists; eauto. intros s1 E1. cbn [negb].
  apply wp_bind, wp_io. eapply calm_metadata; eauto; [eapply holds_same; eauto|]. intros s2 E2.
  wp_step. unfold check_settings_file. rewrite (proj2 (Z.ltb_ge _ _) Hlen). cbn [reject_if mbind].
  apply wp_lift; [|now cbn]. intros [] _.
  apply wp_bind, wp_io. eapply (calm_read_file os' Hcalm parent name Hname); [eapply holds_same; [exact E2|]; eapply holds_same; eauto|]. intros s3 E3.
  rewrite (Hcodec _ _ Henc). wp_step. apply wp_lift; [|discriminate]. intros c [= <-].
  wp_step. rewrite Hcheck. apply wp_lift; [|discriminate]. intros [] _. apply wp_ret.
  split; [reflexivity|]. unfold same_tree in *. congruence.
Qed.
End Saving.

(** C22: saving the settings, which hold the key of the provider: when the answer is a view,
    the file is in place, complete, readable by its owner alone, and holds the settings that
    were accepted from the request; when it is an error the file is as it was or as complete
    as after a success.  However it ends, every entry of the tree is as it was, a directory on
    the way, or a file of the console that nobody else may open: a part of a key is never
    exposed. *)
Theorem settings_are_replaced_whole {json : Json} {codec : FileCodec} {uris : UriParser}
    (os : System) (parent : list string) (name : string) (request : ProviderConfigRequest.t)
    (s s' : Fs.t) r :
  name <> ".."%string -> direct s.(Fs.nodes) parent ->
  save_provider_config os (place parent name) request s = (r, s') ->
  changed_privately os s s'
  /\ match r with
     | Ok view =>
         exists load config content, accept_provider_config load request = Ok config
         /\ view = provider_config_view config /\ encodes config content
         /\ s'.(Fs.nodes) !! place parent name = Some (File os.(geteuid) 384 content)
     | Err _ =>
         s'.(Fs.nodes) !! place parent name = s.(Fs.nodes) !! place parent name
         \/ exists load config content, accept_provider_config load request = Ok config
            /\ encodes config content /\ replaced os parent name content s'
     end.
Proof.
  intros Hname Hd Hrun. pose proof (wp_run _ _ _ _ _ _ (wp_save_provider_config os parent name Hname request s Hd) Hrun) as H.
  destruct r as [view|e]; [|exact H]. destruct H as (Hc&_&H). now split.
Qed.

(** the settings that were saved are the settings that are loaded: after a save, a load
    whose calls succeed reads the accepted settings back, key included, passes every check of
    its own on them (mode, size, version, ranges), and shows the view the save answered with;
    and a query for the models of the same provider that enters no key finds the saved one. *)
Theorem saved_settings_are_loaded {json : Json} {codec : FileCodec} {uris : UriParser}
    (os os' : System) (parent : list string) (name : string) (request : ProviderConfigRequest.t)
    (s s' : Fs.t) (view : ProviderConfigView.t) :
  (forall config content, settings_to_vec config = Ok content -> settings_from_slice content = Ok config) ->
  (forall ops, fault os' ops = None) ->
  name <> ".."%string -> direct s.(Fs.nodes) parent ->
  save_provider_config os (place parent name) request s = (Ok view, s') ->
  exists load config s'', accept_provider_config load request = Ok config
  /\ load_provider_config_file os' (place parent name) s' = (Ok (Some config), s'')
  /\ (exists s3, load_provider_config_view os' (place parent name) s' = (Ok view, s3))
  /\ forall base_url entered, validate_provider_url base_url = Ok config.(ProviderConfigFile.base_url) ->
       is_empty (trim entered) = true ->
       query_credentials (Ok (Some config)) base_url entered
       = Ok (config.(ProviderConfigFile.base_url), config.(ProviderConfigFile.api_key)).
Proof.
  intros Hcodec Hcalm Hname Hd Hrun.
  pose proof (wp_run _ _ _ _ _ _ (wp_save_provider_config os parent name Hname request s Hd) Hrun) as H.
  destruct H as (_&Hp&load&config&content&Haccept&->&Henc&HP).
  pose proof (wp_load_saved os parent name Hname os' config content s' Hcodec Hcalm
                (accepted_settings_load _ _ _ Haccept) Henc (conj Hp HP)) as Hload. unfold wp in Hload.
  destruct (load_provider_config_file os' (place parent name) s') as [[c|e] s2] eqn:E; [|contradiction].
  destruct Hload as [-> _]. exists load, config, s2. split; [exact Haccept|]. split; [reflexivity|]. split.
  - exists s2. unfold load_provider_config_view. now rewrite bind_run, E.
  - intros base_url entered Hurl Hentered. unfold query_credentials. rewrite Hurl, Hentered. cbn.
    now rewrite String.eqb_refl.
Qed.

(** ** The sessions *)
Section Sessions.
Context {json : Json} {codec : FileCodec}.
Context (os : System) (parent : list string) (name : string) (Hname : name <> ".."%string).
Abbreviation P := (place parent name).
Implicit Types s : Fs.t.

Definition no_link (node : option Node) : Prop :=
  match node with Some (Symlink _) | Some (Directory _ _) => False | _ => True end.

Lemma wp_create_file temporary s :
  plain_dir s.(Fs.nodes) parent -> temporary <> ".."%string ->
  no_link (s.(Fs.nodes) !! place parent temporary) ->
  wp (create_file os (place parent temporary))
    (fun file s' => file = place parent temporary
       /\ exists uid mode, s'.(Fs.nodes) = <[place parent temporary := File uid mode []]> s.(Fs.nodes))
    (fun _ => same_tree s) s.
Proof.
  intros Hp Ht Hlink. unfold create_file. apply wp_bind, wp_call_tree; [|auto]. intros s' Hs. unfold same_tree in Hs.
  apply wp_bind, wp_gets, wp_bind, wp_lift; [|auto]. intros here Hh. apply ok_or_Ok in Hh. rewrite Hs in Hh |- *.
  cbn [creation_slot] in Hh. rewrite (slot_place parent _ _ Hp Ht) in Hh. cbn [mbind option_bind] in Hh.
  change (physical (parent ++ [temporary])) with (place parent temporary) in Hh. unfold no_link in Hlink.
  destruct (Fs.nodes s !! place parent temporary) as [[| |]|] eqn:E; try contradiction; injection Hh as <-;
    change (physical (parent ++ [temporary])) with (place parent temporary); rewrite E;
    apply wp_bind, wp_modify, wp_ret; cbn; rewrite Hs; eauto.
Qed.

Lemma wp_write_content temporary uid mode content N s :
  s.(Fs.nodes) = <[place parent temporary := File uid mode []]> N ->
  wp (write_all os (place parent temporary) content)
    (fun _ s' => s'.(Fs.nodes) = <[place parent temporary := File uid mode content]> N)
    (fun _ s' => exists c, s'.(Fs.nodes) = <[place parent temporary := File uid mode c]> N) s.
Proof.
  intros Es. unfold wp, write_all, call. cbn [Fs.ops Fs.nodes].
  destruct (fault os _) as [e|]; cbn [Fs.nodes Fs.ops]; rewrite Es, lookup_insert_eq;
    rewrite insert_insert_eq; cbn; eauto.
Qed.
End Sessions.

Section Persisting.
Context {json : Json} {codec : FileCodec}.
Context (os : System) (parent : list string) (name : string) (Hname : name <> ".."%string).
Abbreviation P := (place parent name).
Abbreviation temporary := (file_stem name +:+ "." +:+ "json.tmp").

Lemma wp_persist_locked state s :
  direct s.(Fs.nodes) parent -> no_link (s.(Fs.nodes) !! place parent temporary) ->
  wp (persist_locked os P state)
    (fun _ s' => exists content uid mode, state_to_vec state = Ok content
       /\ holds parent name uid mode content s')
    (fun _ s' => kept parent name s s') s.
Proof.
  intros Hd Hlink. unfold persist_locked. rewrite parent_place. wp_step. wp_step; [|discriminate]. injection H as <-.
  destruct (temporary_name_ok name "json.tmp" Hname ltac:(now vm_compute) parent) as [E Htemp]. rewrite E. clear E.
  assert (Hne : place parent temporary <> P).
  { intros E. apply place_inj in E. revert E. apply extension_differs. apply list_elem_of_In. cbn. auto 10. }
  apply wp_bind, wp_io. eapply wp_conseq; [now apply wp_create_parent| |].
  2: { intros e s' E. unfold same_tree, kept in *. now rewrite E. }
  intros [] s1 (_&Hp&Hb). cbn zeta. wp_step. wp_step; [|apply Hb]. apply map_err_Ok in H. rename a into content.
  assert (Hkeep : forall s' node, s'.(Fs.nodes) = <[place parent temporary := node]> s1.(Fs.nodes) -> kept parent name s s').
  { intros s' node E. unfold kept. now rewrite E, lookup_insert_ne. }
  apply wp_bind. unfold write_file. apply wp_bind, wp_io.
  eapply wp_conseq; [apply (wp_create_file os parent temporary s1 Hp Htemp); now rewrite Hb| |].
  2: { intros e s' E. unfold same_tree, kept in *. rewrite E. apply Hb. }
  intros file s2 (->&uid&mode&E2). apply wp_io.
  eapply wp_conseq; [now apply (wp_write_content os parent temporary uid mode content s1.(Fs.nodes))| |].
  2: { intros e s' (c&E). now apply (Hkeep s' (File uid mode c)). }
  intros [] s3 E3. cbn beta in E3. apply wp_io.
  eapply wp_conseq; [apply (wp_move os parent name temporary Hname Htemp s1.(Fs.nodes) (File uid mode content)); auto| |].
  - intros [] s4 E4. cbn beta in E4. exists content, uid, mode. split; [exact H|]. unfold holds. rewrite E4. split.
    + now apply plain_dir_insert, plain_dir_delete.
    + apply lookup_insert_eq.
  - intros e s4 E4. cbn beta in E4. rewrite E3 in E4. now apply (Hkeep s4 (File uid mode content)).
Qed.

Lemma wp_read_saved os' uid mode content state s :
  (forall ops, fault os' ops = None) -> state_from_slice content = Ok state ->
  holds parent name uid mode content s ->
  wp (read_state os' P) (fun loaded _ => loaded = load_state state) (fun _ _ => False) s.
Proof.
  intros Hcalm Hdec Hs. unfold read_state.
  apply wp_bind, wp_io. eapply calm_exists; eauto. intros s1 E1. cbn [negb].
  apply wp_bind, wp_io. eapply (calm_read_file os' Hcalm parent name Hname); [eapply holds_same; eauto|].
  intros s2 E2. rewrite Hdec. wp_step. apply wp_lift; [|discriminate]. intros c [= <-]. now apply wp_ret.
Qed.
End Persisting.

(** The sessions survive a restart: once [persist_locked] has succeeded, a start whose
    calls succeed loads the sessions as they were, the most recently used ones when there are
    too many, except that a survey that was running counts as failed and is not repeated; and
    a save that fails leaves the file of the last good save in place. *)
Theorem sessions_survive_a_restart {json : Json} {codec : FileCodec}
    (os os' : System) (parent : list string) (name : string) (state : PersistedState.t) (s s' : Fs.t) r :
  (forall state content, state_to_vec state = Ok content -> state_from_slice content = Ok state) ->
  (forall ops, fault os' ops = None) ->
  name <> ".."%string -> direct s.(Fs.nodes) parent ->
  no_link (s.(Fs.nodes) !! place parent (file_stem name +:+ "." +:+ "json.tmp")) ->
  persist_locked os (place parent name) state s = (r, s') ->
  match r with
  | Ok _ =>
      exists loaded s'', read_state os' (place parent name) s' = (Ok loaded, s'')
      /\ loaded.(PersistedState.active_session_id) = state.(PersistedState.active_session_id)
      /\ (length loaded.(PersistedState.sessions) <= MAX_SESSIONS)%nat
      /\ Forall (fun s => s.(WebSession.Session.initial_survey_status) <> "running"%string)
           loaded.(PersistedState.sessions)
      /\ exists older,
           Permutation (map forget_running state.(PersistedState.sessions))
             (older ++ loaded.(PersistedState.sessions))
           /\ length older = (length state.(PersistedState.sessions) - MAX_SESSIONS)%nat
           /\ Forall (fun o => Forall (used_before o) loaded.(PersistedState.sessions)) older
  | Err _ => s'.(Fs.nodes) !! place parent name = s.(Fs.nodes) !! place parent name
  end.
Proof.
  intros Hcodec Hcalm Hname Hd Hlink Hrun.
  pose proof (wp_run _ _ _ _ _ _ (wp_persist_locked os parent name Hname state s Hd Hlink) Hrun) as H.
  destruct r as [u|e]; [|exact H]. destruct H as (content&uid&mode&Henc&Hholds).
  pose proof (wp_read_saved parent name Hname os' uid mode content state s' Hcalm (Hcodec _ _ Henc) Hholds) as Hread.
  unfold wp in Hread. destruct (read_state os' (place parent name) s') as [[loaded|e] s2] eqn:E; [|contradiction].
  exists loaded, s2. split; [reflexivity|]. subst loaded. apply load_state_spec.
Qed.

(** ** Evaluated samples *)
Module WebFilesSamples.
#[local] Existing Instance WebConfigSamples.uris.
#[local] Instance json : Json := {| Value := unit; from_slice := fun _ => Ok tt |}.
#[local] Instance survey_eq_dec : EqDecision InitialSurveyConfig.t.
Proof. solve_decision. Defined.
#[local] Instance settings_eq_dec : EqDecision ProviderConfigFile.t.
Proof. solve_decision. Defined.

Definition config : ProviderConfigFile.t :=
  ProviderConfigFile.mk 1 "openai-responses" "https://api.example/v1" "example" "m" "secret"
    DEFAULT_CONTEXT_WINDOW 90 default_initial_survey true.
Definition request : ProviderConfigRequest.t :=
  ProviderConfigRequest.mk "openai-responses" "https://api.example/v1/" "example" "m" " secret "
    DEFAULT_CONTEXT_WINDOW 90 default_initial_survey true.

(** A session whose survey was running. *)
Definition session (status : string) : WebSession.Session.t :=
  WebSession.Session.mk "session-1" "t" 1 1 1 0 "connected" EmptyString false 0 None status
    None None None None None false [].
Definition state : PersistedState.t := PersistedState.mk (Some "session-1"%string) [session "running"].

(** An encoder that knows one value of each kind. *)
Definition encode_state (s : PersistedState.t) : result string (list Z) :=
  match s with
  | PersistedState.mk (Some active)
      [WebSession.Session.mk id title created used generation compactions status summary pending events None
         survey None None None None None save_iq []] =>
      if bool_decide ((active, id, title, created, used, generation, compactions)
                      = ("session-1", "session-1", "t", 1, 1, 1, 0)%string)
         && bool_decide ((status, summary, pending, events, survey, save_iq)
                         = ("connected", EmptyString, false, 0, "running", false)%string)
      then Ok [123; 125] else Err "unknown"%string
  | _ => Err "unknown"%string
  end.
Lemma encode_state_known s content : encode_state s = Ok content -> s = state.
Proof.
  destruct s as [[active|] [|[id title created used generation compactions status summary pending events
    [|] survey [|] [|] [|] [|] [|] save_iq [|]] [|]]]; try discriminate.
  unfold encode_state. destruct (bool_decide _ && bool_decide _) eqn:E; [|discriminate]. intros _.
  apply andb_true_iff in E as [E1 E2]. apply bool_decide_eq_true_1 in E1, E2.
  injection E1 as -> -> -> -> -> -> ->. injection E2 as -> -> -> -> -> ->. reflexivity.
Qed.
#[local] Instance codec : FileCodec := {|
  settings_from_slice := fun _ => Ok config;
  settings_to_vec := fun c => if decide (c = config) then Ok [123; 125] else Err "unknown"%string;
  state_from_slice := fun _ => Ok state;
  state_to_vec := encode_state;
  request_from_slice := fun _ => Err "unknown"%string;
  request_to_vec := fun _ => Err "unknown"%string;
|}.

Definition os : System :=
  {| fault := fun _ => None; accepted := fun _ => O; unix_time := fun _ => Ok 1700000000000;
     geteuid := 1000; umask := 18; process_id := 1 |}.
(** The system where the rename fails. *)
Definition failing : System :=
  {| fault := fun ops => match ops with Rename _ _ :: _ => Some "EIO"%string | _ => None end;
     accepted := fun _ => O; unix_time := fun _ => Ok 1700000000000;
     geteuid := 1000; umask := 18; process_id := 1 |}.
Definition parent : list string := ["var"; "lib"]%string.
Definition tree : Tree :=
  <[physical ["var"%string] := Directory 0 493]>
  (<[place parent "settings.json" := File 1000 384 [49]]> ∅).
Definition start : Fs.t := Fs.mk tree [].
Lemma start_direct : direct start.(Fs.nodes) parent.
Proof.
  intros d name [k Hk]. destruct d as [|a [|b [|c d]]]; cbn in Hk; injection Hk; intros; subst;
    try discriminate; (split; [discriminate|vm_compute; exact I]).
Qed.
End WebFilesSamples.

(** The rename fails: the old file is there, and the key is beside it in a file of the owner. *)
Lemma settings_are_replaced_whole_witness :
  let run := @save_provider_config WebFilesSamples.json WebFilesSamples.codec WebFilesSamples.failing WebConfigSamples.uris
               (place WebFilesSamples.parent "settings.json") WebFilesSamples.request WebFilesSamples.start in
  is_Ok run.1 = false
  /\ run.2.(Fs.nodes) !! place WebFilesSamples.parent "settings.json" = Some (File 1000 384 [49])
  /\ run.2.(Fs.nodes) !! place WebFilesSamples.parent "settings.json.tmp-1700000000000" = Some (File 1000 384 [123; 125])
  /\ changed_privately WebFilesSamples.failing WebFilesSamples.start run.2.
Proof.
  intros run. split; [vm_compute; reflexivity|]. split; [vm_compute; reflexivity|]. split; [vm_compute; reflexivity|].
  destruct (@settings_are_replaced_whole WebFilesSamples.json WebFilesSamples.codec WebConfigSamples.uris
              WebFilesSamples.failing WebFilesSamples.parent "settings.json" WebFilesSamples.request
              WebFilesSamples.start run.2 run.1) as [H _]; [discriminate|exact WebFilesSamples.start_direct|
    apply surjective_pairing|exact H].
Defined.

Lemma saved_settings_are_loaded_witness :
  let save := @save_provider_config WebFilesSamples.json WebFilesSamples.codec WebFilesSamples.os WebConfigSamples.uris
               (place WebFilesSamples.parent "settings.json") WebFilesSamples.request WebFilesSamples.start in
  exists s3, @load_provider_config_view WebFilesSamples.json WebFilesSamples.codec WebFilesSamples.os
               (place WebFilesSamples.parent "settings.json") save.2
             = (Ok (provider_config_view WebFilesSamples.config), s3).
Proof.
  intros save.
  destruct (@saved_settings_are_loaded WebFilesSamples.json WebFilesSamples.codec WebConfigSamples.uris
              WebFilesSamples.os WebFilesSamples.os WebFilesSamples.parent "settings.json" WebFilesSamples.request
              WebFilesSamples.start save.2 (provider_config_view WebFilesSamples.config))
    as (load&config&s2&_&_&H&_).
  - intros config content. cbn. destruct (decide _) as [->|]; [reflexivity|discriminate].
  - reflexivity.
  - discriminate.
  - exact WebFilesSamples.start_direct.
  - vm_compute. reflexivity.
  - exact H.
Defined.

Lemma sessions_survive_a_restart_witness :
  let save := @persist_locked WebFilesSamples.json WebFilesSamples.codec WebFilesSamples.os
               (place WebFilesSamples.parent "state.json") WebFilesSamples.state WebFilesSamples.start in
  exists loaded s3, @read_state WebFilesSamples.json WebFilesSamples.codec WebFilesSamples.os
               (place WebFilesSamples.parent "state.json") save.2 = (Ok loaded, s3)
  /\ Forall (fun s => s.(WebSession.Session.initial_survey_status) <> "running"%string)
       loaded.(PersistedState.sessions).
Proof.
  intros save.
  pose proof (@sessions_survive_a_restart WebFilesSamples.json WebFilesSamples.codec
              WebFilesSamples.os WebFilesSamples.os WebFilesSamples.parent "state.json" WebFilesSamples.state
              WebFilesSamples.start save.2 (Ok tt)) as H.
  destruct H as (loaded&s3&H1&_&_&H2&_).
  - intros state content Hs. now rewrite (WebFilesSamples.encode_state_known state content Hs).
  - reflexivity.
  - discriminate.
  - exact WebFilesSamples.start_direct.
  - vm_compute. exact I.
  - vm_compute. reflexivity.
  - exists loaded, s3. now split.
Defined.
