(* ===== verification/WebOutput.v ===== *)
(** * The output of the agent

    [web-console/src/main.rs], lines 1479 to 1556: the bytes the child process prints are read in
    chunks, decoded, split into lines and prompts and classified. *)
From S2P Require Import Prelude Text Utf8 Framing WebConfig.

(** ** [String::from_utf8_lossy] *)

(** Each maximal part that begins no character becomes U+FFFD. *)
Definition REPLACEMENT : list Z := [239; 191; 189].
(** The second byte a lead byte of three or four bytes allows. *)
Definition second_of_three (lead byte : Z) : bool :=
  if lead =? 224 then in_range 160 191 byte
  else if lead =? 237 then in_range 128 159 byte
  else in_range 128 191 byte.
Definition second_of_four (lead byte : Z) : bool :=
  if lead =? 240 then in_range 144 191 byte
  else if lead =? 244 then in_range 128 143 byte
  else in_range 128 191 byte.
Fixpoint from_utf8_lossy (bs : list Z) : list Z :=
  match bs with
  | [] => []
  | a :: bs1 =>
      if a <? 128 then a :: from_utf8_lossy bs1
      else if in_range 194 223 a then
        match bs1 with
        | b :: bs2 =>
            if is_continuation b then a :: b :: from_utf8_lossy bs2
            else REPLACEMENT ++ from_utf8_lossy bs1
        | [] => REPLACEMENT
        end
      else if in_range 224 239 a then
        match bs1 with
        | b :: bs2 =>
            if second_of_three a b then
              match bs2 with
              | c :: bs3 =>
                  if is_continuation c then a :: b :: c :: from_utf8_lossy bs3
                  else REPLACEMENT ++ from_utf8_lossy bs2
              | [] => REPLACEMENT
              end
            else REPLACEMENT ++ from_utf8_lossy bs1
        | [] => REPLACEMENT
        end
      else if in_range 240 244 a then
        match bs1 with
        | b :: bs2 =>
            if second_of_four a b then
              match bs2 with
              | c :: bs3 =>
                  if is_continuation c then
                    match bs3 with
                    | d :: bs4 =>
                        if is_continuation d then a :: b :: c :: d :: from_utf8_lossy bs4
                        else REPLACEMENT ++ from_utf8_lossy bs3
                    | [] => REPLACEMENT
                    end
                  else REPLACEMENT ++ from_utf8_lossy bs2
              | [] => REPLACEMENT
              end
            else REPLACEMENT ++ from_utf8_lossy bs1
        | [] => REPLACEMENT
        end
      else REPLACEMENT ++ from_utf8_lossy bs1
  end.

(** ** Lines *)
Definition PROMPT : string := "SDR Agent> ".

(** [strip_prefix("Agent>").is_some_and(|text| text.trim().is_empty())]. *)
Definition is_empty_agent_line (line : string) : bool :=
  starts_with "Agent>" line && is_empty (trim (of_bytes (drop 6 (bytes line)))).

Definition starts_with_any (prefixes : list string) (line : string) : bool :=
  existsb (fun prefix => starts_with prefix line) prefixes.
Definition contains_any (parts : list string) (line : string) : bool :=
  existsb (fun part => contains part line) parts.

Definition classify_output (line : string) (stderr : bool) : string :=
  if stderr then "error"
  else if starts_with "Agent>" line then "qwen"
  else if starts_with_any ["Validated plan>"; "已验证计划："]%string line then "plan"
  else if starts_with "决策依据> " line then "decision"
  else if starts_with_any ["搜索> "; "搜索来源> "]%string line then "search"
  else if starts_with_any ["巡航状态："; "SDR 连通性重试："; "上游下一步重试："]%string line then "cruise"
  else if starts_with_any ["Execution>"; "执行结果："; "候选复查"]%string line
          || contains_any ["硬件动作"; "执行失败"]%string line then "execution"
  else if contains "扫频" line || contains "sweep" (to_ascii_lowercase line) then "sweep"
  else "system".

(** [trim_end_matches('\r')]. *)
Definition trim_end_returns (line : list Z) : list Z :=
  List.rev (drop_while (fun b => b =? 13) (List.rev line)).

(** A record is the kind and the text of [record_process_output]. *)
Definition record_line (stderr : bool) (line : list Z) : option (string * string) :=
  let line := of_bytes (trim_end_returns line) in
  if negb (is_empty line) && negb (is_empty_agent_line line)
  then Some (classify_output line stderr, line) else None.

(** The lines in front of the last newline, and what follows it. *)
Fixpoint split_lines (pending line : list Z) : list (list Z) * list Z :=
  match pending with
  | [] => ([], List.rev line)
  | b :: pending =>
      if b =? NEWLINE then
        let '(lines, rest) := split_lines pending [] in (List.rev line :: lines, rest)
      else split_lines pending (b :: line)
  end.

Definition ends_with (suffix l : list Z) : bool :=
  bool_decide (drop (length l - length suffix) l = suffix).

(** What one chunk adds. *)
Definition feed (stderr : bool) (pending chunk : list Z) : list (string * string) * list Z :=
  let '(lines, rest) := split_lines (pending ++ from_utf8_lossy chunk) [] in
  let records := omap (record_line stderr) lines in
  if ends_with (bytes PROMPT) rest then (records ++ [("prompt", of_bytes rest)]%string, [])
  else (records, rest).
(** What is left when the stream ends. *)
Definition flush (stderr : bool) (pending : list Z) : list (string * string) :=
  let text := of_bytes pending in
  if negb (is_empty (trim text)) && negb (is_empty_agent_line text)
  then [(classify_output text stderr, text)] else [].

(** [chunks] are what the reads return that find something; the empty read, or [error], ends
    them. *)
Fixpoint read_process_stream (stderr : bool) (pending : list Z) (chunks : list (list Z))
    (error : option string) : list (string * string) :=
  match chunks with
  | [] =>
      match error with
      | Some error => [("system"%string, "读取终端输出失败：" +:+ error)]
      | None => []
      end ++ flush stderr pending
  | chunk :: chunks =>
      let '(records, pending) := feed stderr pending chunk in
      records ++ read_process_stream stderr pending chunks error
  end.

(** ** Decoding *)

(** A character that UTF-8 encodes: no surrogate. *)
Definition is_scalar (c : Z) : Prop := is_char c /\ ~ 55296 <= c <= 57343.

Lemma in_range_false lo hi x : in_range lo hi x = false <-> x < lo \/ hi < x.
Proof. rewrite <- not_true_iff_false, in_range_spec. lia. Qed.

Lemma lossy_char_spec c l : is_scalar c -> from_utf8_lossy (encode_char c ++ l) = encode_char c ++ from_utf8_lossy l.
Proof.
  intros [Hc Hs]. rewrite encode_char_arith by exact Hc. unfold is_char in Hc.
  assert (Hin : forall lo hi x, lo <= x <= hi -> in_range lo hi x = true) by (intros; now apply in_range_spec).
  assert (Hout : forall lo hi x, x < lo \/ hi < x -> in_range lo hi x = false) by (intros; now apply in_range_false).
  assert (Hcont : forall x, 0 <= x < 64 -> is_continuation (128 + x) = true)
    by (intros; apply in_range_spec; lia).
  destruct (Z.ltb_spec c 128) as [H1|H1].
  { cbn. now rewrite (proj2 (Z.ltb_lt c 128)). }
  destruct (Z.ltb_spec c 2048) as [H2|H2].
  { cbn -[Z.add Z.div Z.modulo in_range is_continuation].
    rewrite (proj2 (Z.ltb_ge _ _)) by lia_div. rewrite (Hin 194 223) by lia_div.
    now rewrite Hcont by lia_div. }
  destruct (Z.ltb_spec c 65536) as [H3|H3].
  { cbn -[Z.add Z.div Z.modulo in_range is_continuation second_of_three].
    rewrite (proj2 (Z.ltb_ge _ _)) by lia_div. rewrite (Hout 194 223), (Hin 224 239) by lia_div.
    assert (E : second_of_three (224 + c / 4096) (128 + c / 64 mod 64) = true).
    { unfold second_of_three. destruct (Z.eqb_spec (224 + c / 4096) 224); [apply Hin; lia_div|].
      destruct (Z.eqb_spec (224 + c / 4096) 237); apply Hin; lia_div. }
    rewrite E. now rewrite Hcont by lia_div. }
  cbn -[Z.add Z.div Z.modulo in_range is_continuation second_of_four].
  rewrite (proj2 (Z.ltb_ge _ _)) by lia_div. rewrite (Hout 194 223), (Hout 224 239), (Hin 240 244) by lia_div.
  assert (E : second_of_four (240 + c / 262144) (128 + c / 4096 mod 64) = true).
  { unfold second_of_four. destruct (Z.eqb_spec (240 + c / 262144) 240); [apply Hin; lia_div|].
    destruct (Z.eqb_spec (240 + c / 262144) 244); apply Hin; lia_div. }
  rewrite E. now rewrite !Hcont by lia_div.
Qed.

Lemma lossy_exact cs l : Forall is_scalar cs -> from_utf8_lossy (encode_utf8 cs ++ l) = encode_utf8 cs ++ from_utf8_lossy l.
Proof.
  induction 1 as [|c cs Hc Hcs IH]; [reflexivity|].
  change (encode_utf8 (c :: cs)) with (encode_char c ++ encode_utf8 cs).
  now rewrite <- !app_assoc, lossy_char_spec, IH.
Qed.

(** ** Splitting a stream in any chunks *)
Lemma split_lines_rest a line ls r :
  split_lines a line = (ls, r) -> NEWLINE ∉ line ->
  (NEWLINE ∉ r) /\ exists x, List.rev line ++ a = x ++ r.
Proof.
  revert line ls r. induction a as [|b a IH]; intros line ls r; cbn [split_lines].
  - intros [= <- <-] H. rewrite app_nil_r. split; [|now exists []].
    rewrite list_elem_of_In in *. now rewrite <- in_rev.
  - destruct (Z.eqb_spec b NEWLINE) as [->|Hb]; intros H Hline.
    + destruct (split_lines a []) as [ls' r'] eqn:E. injection H as <- <-.
      destruct (IH _ _ _ E) as (Hr&x&Hx); [apply not_elem_of_nil|]. split; [exact Hr|].
      exists (List.rev line ++ NEWLINE :: x). cbn in Hx. rewrite Hx, <- app_assoc. reflexivity.
    + destruct (IH _ _ _ H) as (Hr&x&Hx); [now apply not_elem_of_cons|]. split; [exact Hr|].
      exists x. rewrite <- Hx. cbn. now rewrite <- app_assoc.
Qed.

Lemma split_lines_no_newline a line : NEWLINE ∉ a -> forall b, split_lines (a ++ b) line = split_lines b (List.rev a ++ line).
Proof.
  revert line. induction a as [|c a IH]; intros line Ha b; [reflexivity|].
  apply not_elem_of_cons in Ha as [Hc Ha]. cbn [app split_lines].
  destruct (Z.eqb_spec c NEWLINE); [congruence|]. rewrite IH by exact Ha. cbn. now rewrite <- app_assoc.
Qed.

Lemma split_lines_app a line ls r b :
  split_lines a line = (ls, r) -> NEWLINE ∉ line ->
  split_lines (a ++ b) line = (ls ++ (split_lines (r ++ b) []).1, (split_lines (r ++ b) []).2).
Proof.
  revert line ls r. induction a as [|c a IH]; intros line ls r; cbn [app split_lines].
  - intros [= <- <-] H. rewrite split_lines_no_newline, rev_involutive, app_nil_r.
    + now destruct (split_lines b line).
    + rewrite list_elem_of_In in *. now rewrite <- in_rev.
  - destruct (Z.eqb_spec c NEWLINE) as [->|Hc]; intros H Hline.
    + destruct (split_lines a []) as [ls' r'] eqn:E. injection H as <- <-.
      rewrite (IH _ _ _ E) by apply not_elem_of_nil. reflexivity.
    + apply IH; [exact H|]. now apply not_elem_of_cons.
Qed.

Lemma ends_with_spec suffix l : ends_with suffix l = true -> exists x, l = x ++ suffix.
Proof.
  unfold ends_with. rewrite bool_decide_eq_true. intros H.
  exists (take (length l - length suffix) l). rewrite <- H at 2. symmetry. apply take_drop.
Qed.

(** The whole stream at once. *)
Definition lines_of (stderr : bool) (text : list Z) : list (string * string) :=
  omap (record_line stderr) (split_lines text []).1 ++ flush stderr (split_lines text []).2.
Definition decoded (chunks : list (list Z)) : list Z := List.concat (map from_utf8_lossy chunks).

Lemma omap_app' {A B} (f : A -> option B) l k : omap f (l ++ k) = omap f l ++ omap f k.
Proof. induction l as [|x l IH]; [reflexivity|]. cbn. rewrite IH. now destruct (f x). Qed.

Lemma read_process_stream_lines stderr pending chunks :
  NEWLINE ∉ pending ->
  (forall before after, pending ++ decoded chunks <> before ++ bytes PROMPT ++ after) ->
  read_process_stream stderr pending chunks None = lines_of stderr (pending ++ decoded chunks).
Proof.
  unfold lines_of, decoded. revert pending. induction chunks as [|chunk chunks IH]; intros pending Hp Hprompt.
  - cbn [read_process_stream map List.concat app]. rewrite split_lines_no_newline by exact Hp.
    cbn [split_lines]. now rewrite app_nil_r, rev_involutive.
  - cbn [read_process_stream map List.concat] in *. unfold feed.
    destruct (split_lines (pending ++ from_utf8_lossy chunk) []) as [ls r] eqn:E.
    destruct (split_lines_rest _ _ _ _ E (not_elem_of_nil _)) as (Hr&x&Hx). cbn [List.rev app] in Hx.
    destruct (ends_with (bytes PROMPT) r) eqn:Hend.
    { exfalso. apply ends_with_spec in Hend as [y ->].
      apply (Hprompt (x ++ y) (List.concat (map from_utf8_lossy chunks))).
      now rewrite app_assoc, Hx, <- !app_assoc. }
    rewrite IH; [|exact Hr|].
    + rewrite (app_assoc pending), (split_lines_app _ _ _ _ _ E (not_elem_of_nil _)).
      cbn [fst snd]. now rewrite omap_app', <- app_assoc.
    + intros before after H. apply (Hprompt (x ++ before) after).
      now rewrite app_assoc, Hx, <- !app_assoc, H.
Qed.

Lemma decoded_exact parts : Forall (Forall is_scalar) parts -> decoded (map encode_utf8 parts) = encode_utf8 (List.concat parts).
Proof.
  unfold decoded. induction 1 as [|cs parts Hcs Hparts IH]; [reflexivity|].
  cbn [map List.concat]. rewrite encode_utf8_app, IH. f_equal.
  pose proof (lossy_exact cs [] Hcs) as H. now rewrite !app_nil_r in H.
Qed.

(** Whether a list occurs in another, by trying every place. *)
Definition occurs (part l : list Z) : bool :=
  existsb (fun i => bool_decide (take (length part) (drop i l) = part)) (seq 0 (S (length l))).
Lemma occurs_spec part l before after : occurs part l = false -> l <> before ++ part ++ after.
Proof.
  intros H ->. apply not_true_iff_false in H. apply H. apply existsb_exists. exists (length before).
  split; [apply in_seq; rewrite length_app; lia|]. apply bool_decide_eq_true.
  now rewrite drop_app_length, take_app_length.
Qed.

(** C39: how the output of the agent arrives does not matter: when every chunk that is read holds
    whole characters, and the output holds no prompt, the recorded lines are those of the
    whole output, whatever the chunks; so two readings of one output agree. *)
Theorem chunks_do_not_matter (stderr : bool) (parts : list (list Z))
    (Hchars : Forall (Forall is_scalar) parts)
    (Hprompt : forall before after,
       encode_utf8 (List.concat parts) <> before ++ bytes PROMPT ++ after) :
  read_process_stream stderr [] (map encode_utf8 parts) None
  = lines_of stderr (encode_utf8 (List.concat parts)).
Proof.
  rewrite read_process_stream_lines; [|apply not_elem_of_nil|];
    cbn [app]; now rewrite decoded_exact.
Qed.

(** A chunk that ends inside a character loses it: both halves are replaced. *)
Example split_character :
  let text := bytes "频" ++ [NEWLINE] in
  read_process_stream false [] [take 1 text; drop 1 text] None
  = [("system"%string, of_bytes (REPLACEMENT ++ REPLACEMENT ++ REPLACEMENT))]
  /\ read_process_stream false [] [text] None = [("system", "频")]%string.
Proof. vm_compute. split; reflexivity. Qed.

Lemma scalar_literal cs :
  forallb (fun c => in_range 0 1114111 c && negb (in_range 55296 57343 c)) cs = true -> Forall is_scalar cs.
Proof.
  rewrite forallb_forall. intros H. apply list.Forall_forall. intros c Hc. apply list_elem_of_In in Hc.
  specialize (H c Hc). apply andb_true_iff in H as [H1 H2]. split; [now apply in_range_spec in H1|].
  apply negb_true_iff, in_range_false in H2. lia.
Qed.

Lemma chunks_do_not_matter_witness :
  read_process_stream false [] [bytes "Agent> 扫"; bytes "频"; NEWLINE :: bytes "done"] None
  = [("qwen", "Agent> 扫频"); ("system", "done")]%string.
Proof.
  change (read_process_stream false []
            (map encode_utf8 [chars "Agent> 扫"; chars "频"; NEWLINE :: chars "done"]) None
          = [("qwen", "Agent> 扫频"); ("system", "done")]%string).
  rewrite chunks_do_not_matter.
  - vm_compute. reflexivity.
  - do 3 (constructor; [apply scalar_literal; vm_compute; reflexivity|]). constructor.
  - intros before after. apply occurs_spec. vm_compute. reflexivity.
Defined.
