(* ===== verification/WebServer.v ===== *)
(** * The web console as a server

    [web-console/src/main.rs], lines 72 to 90, 973 to 1140, 1172 to 1387, 1451 to 1477,
    1558 to 1721 and 2390 to 2465.  Every function that takes the lock of [Inner] is one
    operation on the state; an actor per started terminal goes through its phases; a run is
    any interleaving of requests, actors and outputs.  The sessions, the request of a
    restarted agent and the recordings are files of one tree ([WebFiles], [WebResults]). *)
From S2P Require Import Prelude Hoare Text Net Utf8 F32 Protocol Policy Framing Sdr Session TerminalState ConsoleText WebConfig Files WebResults WebSession WebFiles WebOutput WebAgent.

Abbreviation Conversation := WebSession.Session.t.

(** ** State *)
Module RuntimeHandle.
(** [actor] stands for the receiver of the handle's channel. *)
Record t := mk { session_id : string; actor : nat }.
End RuntimeHandle.

Inductive ProcessCommand := Input (text : string) | Shutdown.

Module UiUpdate.
Record t := mk { update_type : string; session_id : option string; event : option TerminalEvent.t }.
End UiUpdate.

(** Where the task of an actor is; the gate is held from [Starting] to [Running]. *)
Inductive Phase :=
| Waiting
| Starting (gain_db : Z) (observation : option ObservationSummary.t) (save_iq : bool)
| Claimed (gain_db : Z) (observation : option ObservationSummary.t) (save_iq : bool)
    (survey : option InitialSurveyConfig.t)
| Running (temporary : option Path.t)
| Done.

Module Actor.
Record t := mk { session_id : string; queue : list ProcessCommand; phase : Phase }.
Definition with_queue (queue : list ProcessCommand) (a : t) : t := mk a.(session_id) queue a.(phase).
Definition with_phase (phase : Phase) (a : t) : t := mk a.(session_id) a.(queue) phase.
End Actor.

(** An agent that was started: by which actor, with which arguments. *)
Module Child.
Record t := mk { actor : nat; session_id : string; survey : option InitialSurveyConfig.t; arguments : list string }.
End Child.

(** [mpsc::channel(16)]. *)
Definition CHANNEL_CAPACITY : nat := 16.

(** serde_json on the observations the agent prints. *)
Class ObservationCodec := observation_from_str : string -> result string ObservationSummary.t.

Module Server.
Section Json.
Context {json : Json}.
Record t := mk {
  persisted : PersistedState.t;
  runtime : option RuntimeHandle.t;
  actors : list Actor.t;
  gate : option nat;
  (** What was started, and what was written to whose standard input; newest first. *)
  children : list Child.t;
  typed : list (nat * string);
  store : Store.t;
  updates : list UiUpdate.t;
}.
Definition eta (a : t) : t :=
  mk a.(persisted) a.(runtime) a.(actors) a.(gate) a.(children) a.(typed) a.(store) a.(updates).
Ltac assign field := assign_field eta field.
Definition with_persisted : PersistedState.t -> t -> t := ltac:(assign persisted).
Definition with_runtime : option RuntimeHandle.t -> t -> t := ltac:(assign runtime).
Definition with_actors : list Actor.t -> t -> t := ltac:(assign actors).
Definition with_gate : option nat -> t -> t := ltac:(assign gate).
Definition with_children : list Child.t -> t -> t := ltac:(assign children).
Definition with_typed : list (nat * string) -> t -> t := ltac:(assign typed).
Definition with_store : Store.t -> t -> t := ltac:(assign store).
Definition with_updates : list UiUpdate.t -> t -> t := ltac:(assign updates).
Definition sessions (s : t) : list Conversation := s.(persisted).(PersistedState.sessions).
Definition active (s : t) : option string := s.(persisted).(PersistedState.active_session_id).
End Json.
End Server.

Module Settings.
Record t := mk {
  listen : SocketAddr.t;
  agent : Config.t;
  agent_binary : Path.t;
  state_path : Path.t;
  provider_config_path : Path.t;
  result_db_path : Path.t;
  capture_root : Path.t;
}.

(** [Config::from_env]; [None] is an address that cannot be parsed. *)
Section Env.
Context (env : string -> option string).
Definition env_or (name fallback : string) : string := default fallback (env name).
Definition from_env : option t :=
  let host := env_or "SDR_WEB_LISTEN_HOST" "100.102.130.52" in
  let port := env_or "SDR_WEB_LISTEN_PORT" "8787" in
  listen ← parse_socket_addr (host +:+ ":" +:+ port) ;
  let captures := env_or "SDR_WEB_CAPTURE_ROOT" "/var/lib/sdrharness/web-console/captures" in
  Some (mk listen
    (Config.mk (env_or "SDR_WEB_REQUEST_PATH" "/etc/sdr-agent/request.json")
       (env_or "SDR_WEB_SESSION_SOCKET" "/run/sdr-agent/session.sock")
       (env_or "SDR_WEB_SDRD_ADDRESS" "192.168.1.10:43110") captures)
    (path_of (env_or "SDR_WEB_AGENT_BINARY" "/opt/sdr-agent/current/bin/sdr-agent"))
    (path_of (env_or "SDR_WEB_STATE_PATH" "/var/lib/sdr-agent/web-console/state.json"))
    (path_of (env_or "SDR_WEB_PROVIDER_CONFIG_PATH" "/var/lib/sdrharness/web-console/provider.json"))
    (path_of (env_or "SDR_WEB_RESULT_DB_PATH" "/var/lib/sdrharness/web-console/capture-results.sqlite3"))
    (path_of captures)).
End Env.
End Settings.

Section Server.
Context {json : Json} {access : JsonAccess} {codec : PlotCodec} {sqlite : Sqlite}.
Context {files : FileCodec} {observations : ObservationCodec} {uris : UriParser}.
Context (os : System) (config : Settings.t).
Abbreviation Act := (M Server.t ApiError).
Implicit Types s : Server.t.

(** ** Parts *)
Definition set_sessions (sessions : list Conversation) (s : Server.t) : Server.t :=
  Server.with_persisted
    (PersistedState.mk s.(Server.persisted).(PersistedState.active_session_id) sessions) s.
Definition set_active (id : string) (s : Server.t) : Server.t :=
  Server.with_persisted (PersistedState.mk (Some id) s.(Server.persisted).(PersistedState.sessions)) s.
Definition change_session (id : string) (f : Conversation -> Conversation) (s : Server.t) : Server.t :=
  set_sessions (update_session id f (Server.sessions s)) s.
Definition change_actor (i : nat) (f : Actor.t -> Actor.t) (s : Server.t) : Server.t :=
  Server.with_actors (alter f i s.(Server.actors)) s.

Definition publish (update : UiUpdate.t) (s : Server.t) : Server.t :=
  Server.with_updates (update :: s.(Server.updates)) s.
Definition publish_state : Server.t -> Server.t := publish (UiUpdate.mk "state" None None).
Definition publish_event (session_id : string) (event : option TerminalEvent.t) (s : Server.t) : Server.t :=
  match event with
  | Some event => publish (UiUpdate.mk "terminal" (Some session_id) (Some event)) s
  | None => s
  end.

Definition on_store {A} (m : M Store.t ApiError A) : Act A := fun s =>
  let (r, store) := m s.(Server.store) in (r, Server.with_store store s).
(** [persist_locked(&state.config, &inner.persisted)]. *)
Definition persist : Act unit := fun s =>
  on_store (on_files (persist_locked os config.(Settings.state_path) s.(Server.persisted))) s.
(** [let _ = persist_locked(...)]. *)
Definition try_persist (s : Server.t) : Server.t := (persist s).2.

(** [spawn_agent_process], the handle kept as the runtime. *)
Definition spawn_agent_process (session_id : string) (s : Server.t) : Server.t :=
  Server.with_runtime (Some (RuntimeHandle.mk session_id (length s.(Server.actors))))
    (Server.with_actors (s.(Server.actors) ++ [Actor.mk session_id [] Waiting]) s).

(** [Sender::try_send]: there must be a receiver and room. *)
Definition is_done (phase : Phase) : bool := match phase with Done => true | _ => false end.
Definition accepts (a : Actor.t) : bool :=
  negb (is_done a.(Actor.phase)) && (length a.(Actor.queue) <? CHANNEL_CAPACITY)%nat.
Definition try_send (i : nat) (command : ProcessCommand) (s : Server.t) : bool * Server.t :=
  match s.(Server.actors) !! i with
  | Some a =>
      if accepts a
      then (true, change_actor i (Actor.with_queue (a.(Actor.queue) ++ [command])) s)
      else (false, s)
  | None => (false, s)
  end.

(** [inner.runtime.take()] with the order to stop; the sender is dropped with the handle. *)
Definition stop_runtime (s : Server.t) : Server.t :=
  match s.(Server.runtime) with
  | Some runtime => (try_send runtime.(RuntimeHandle.actor) Shutdown (Server.with_runtime None s)).2
  | None => s
  end.

Definition deactivate_current (s : Server.t) : Server.t :=
  let s :=
    match Server.active s with
    | Some active_id =>
        change_session active_id
          (fun session => WebSession.Session.with_status "stored" (compact_session false session)) s
    | None => s
    end in
  stop_runtime s.

(** ** Requests *)
Definition new_session (id title : string) (now : Z) (survey : InitialSurveyConfig.t) (save_iq : bool)
    : Conversation :=
  WebSession.Session.mk id title now now 1 0 "starting" EmptyString false 0 (Some survey)
    (if String.eqb survey.(InitialSurveyConfig.mode) "disabled" then "skipped" else "pending")
    None None None None None save_iq [].

(** [load] is the answer of [load_provider_config_file]. *)
Definition create_session (title : option string) (now : Z) (load : ApiResult (option ProviderConfigFile.t))
    : Act PersistedState.t :=
  let id := "session-" +:+ print_u now in
  saved_config ← lift load ;
  let initial_survey :=
    default default_initial_survey (ProviderConfigFile.initial_survey <$> saved_config) in
  let save_iq :=
    match saved_config with Some c => c.(ProviderConfigFile.save_iq) | None => false end in
  full ← gets (fun s => MAX_SESSIONS <=? length (Server.sessions s))%nat ;
  (if full : bool then
     evict ← gets (fun s => select_evict_id s.(Server.persisted)) ;
     evict ← lift (ok_or (Api CONFLICT "没有可丢弃的非活动对话") evict) ;
     modify (fun s =>
       set_sessions
         (List.filter (fun session => negb (String.eqb session.(WebSession.Session.id) evict))
            (Server.sessions s)) s)
   else mret tt) ;;
  modify deactivate_current ;;
  modify (fun s =>
    set_sessions
      (Server.sessions s ++ [new_session id (bounded_title title now) now initial_survey save_iq]) s) ;;
  modify (set_active id) ;;
  modify (spawn_agent_process id) ;;
  persist ;;
  snapshot ← gets Server.persisted ;
  modify publish_state ;;
  mret snapshot.

Definition activate_session (id : string) (now : Z) : Act PersistedState.t :=
  known ← gets (fun s => negb (is_none (find_session (Server.sessions s) id))) ;
  lift (reject_if (negb known) (Api NOT_FOUND "对话不存在")) ;;
  active ← gets Server.active ;
  (if negb (is_str active id) then
     modify deactivate_current ;;
     modify (set_active id) ;;
     modify (change_session id (fun session =>
       WebSession.Session.with_last_used_at_ms now (WebSession.Session.with_status "starting" session))) ;;
     modify (spawn_agent_process id) ;;
     persist
   else mret tt) ;;
  snapshot ← gets Server.persisted ;
  modify publish_state ;;
  mret snapshot.

(** The block that records the command and decides what is sent. *)
Definition outgoing_text (session : Conversation) (command : string) : string * Conversation :=
  if negb (starts_with "/" command) && session.(WebSession.Session.summary_pending)
     && negb (is_empty session.(WebSession.Session.compacted_summary))
  then (carry_forward_instruction session.(WebSession.Session.compacted_summary) command,
        WebSession.Session.with_summary_pending false session)
  else (command, session).

Definition runs_session (s : Server.t) (id : string) : bool :=
  match s.(Server.runtime) with
  | Some runtime => String.eqb runtime.(RuntimeHandle.session_id) id
  | None => false
  end.

(** There is an actor for the session; one with too many events is compacted and gets a new
    one. *)
Definition should_compact (s : Server.t) (id : string) : bool :=
  match find_session (Server.sessions s) id with
  | Some session => COMPACT_AT_EVENTS <=? session.(WebSession.Session.events_since_compaction)
  | None => false
  end.
Definition ensure_runtime (id : string) (s : Server.t) : Server.t :=
  let s := if runs_session s id then s else spawn_agent_process id s in
  if should_compact s id
  then spawn_agent_process id (stop_runtime (change_session id (compact_session true) s))
  else s.

(** The command recorded, and handed to the actor. *)
Definition transmit (id command : string) (now now' : Z) : Act PersistedState.t :=
  session ← gets (fun s => find_session (Server.sessions s) id) ;
  session ← lift (ok_or (Api NOT_FOUND "对话不存在") session) ;
  let '(text, session) := outgoing_text (WebSession.Session.with_last_used_at_ms now session) command in
  let '(session, event) := push_event session "operator" ("Operator> " +:+ command) now' in
  modify (change_session id (fun _ => session)) ;;
  modify (publish_event id event) ;;
  runtime ← gets Server.runtime ;
  sent ← (fun s =>
    match runtime with
    | Some runtime => let (sent, s') := try_send runtime.(RuntimeHandle.actor) (Input text) s in (Ok sent, s')
    | None => (Ok false, s)
    end) ;
  lift (reject_if (negb sent) (Api SERVICE_UNAVAILABLE "终端进程暂不可写，请稍后重试")) ;;
  persist ;;
  gets Server.persisted.

Definition send_command (id raw : string) (now now' : Z) : Act PersistedState.t :=
  let command := single_line raw in
  lift (reject_if (is_empty command || (MAX_COMMAND_BYTES <? len command))
          (Api BAD_REQUEST "输入必须为 1–1024 字节")) ;;
  active ← gets Server.active ;
  lift (reject_if (negb (is_str active id)) (Api CONFLICT "只有当前活动对话可以输入")) ;;
  modify (ensure_runtime id) ;;
  transmit id command now now'.

(** ** What the agent prints *)
Definition strip_prefix (prefix s : string) : option string :=
  if starts_with prefix s then Some (of_bytes (drop (length (bytes prefix)) (bytes s))) else None.

(** An event pushed and published, when the session is still there. *)
Definition record_event (id kind text : string) (now : Z) (s : Server.t) : Server.t :=
  match find_session (Server.sessions s) id with
  | Some session =>
      let '(session, event) := push_event session kind text now in
      publish_event id event (change_session id (fun _ => session) s)
  | None => s
  end.

Definition store_plot (id payload : string) (now : Z) : M Store.t ApiError SweepPlot.t :=
  plot ← lift (map_err internal_error (plot_from_str payload)) ;
  on_files (validate_sweep_plot os plot config.(Settings.capture_root)) ;;
  persist_capture_result os config.(Settings.result_db_path) id plot now ;;
  mret plot.
Definition record_plot (id payload : string) (now now' : Z) (s : Server.t) : Server.t :=
  let '(r, store) := store_plot id payload now s.(Server.store) in
  let s := Server.with_store store s in
  match r with
  | Ok plot =>
      publish_state (try_persist
        (change_session id (WebSession.Session.with_sweep_plot (Some plot)) s))
  | Err (Api _ message) =>
      try_persist (record_event id "error" ("拒绝保存无效的扫频结果：" +:+ message) now' s)
  end.

Definition parse_value (payload : string) : option Value :=
  match from_slice (bytes payload) with Ok value => Some value | Err _ => None end.
Definition record_model_input (id payload : string) (now : Z) (s : Server.t) : Server.t :=
  publish_state (try_persist
    match (value ← parse_value payload ; if is_none (as_object value) then None else Some value) with
    | Some value => change_session id (WebSession.Session.with_model_input (Some value)) s
    | None => record_event id "error" "拒绝无效的模型输入记录" now s
    end).

Definition thinking_start (payload : string) (session : Conversation) : Conversation :=
  match parse_value payload ≫= get_u64 "request_id" with
  | Some request_id =>
      WebSession.Session.with_thinking (Some (ThinkingTrace.mk request_id true EmptyString)) session
  | None => session
  end.
Definition thinking_delta (payload : string) (session : Conversation) : Conversation :=
  match parse_value payload with
  | Some value =>
      match get_u64 "request_id" value, get_str "delta" value, session.(WebSession.Session.thinking) with
      | Some request_id, Some delta, Some thinking =>
          if thinking.(ThinkingTrace.request_id) =? request_id
          then WebSession.Session.with_thinking
                 (Some (ThinkingTrace.mk thinking.(ThinkingTrace.request_id)
                          thinking.(ThinkingTrace.active) (thinking.(ThinkingTrace.text) +:+ delta))) session
          else session
      | _, _, _ => session
      end
  | None => session
  end.
Definition thinking_end (payload : string) (session : Conversation) : Conversation :=
  match parse_value payload, session.(WebSession.Session.thinking) with
  | Some value, Some thinking =>
      if is_u64_of (get_u64 "request_id" value) thinking.(ThinkingTrace.request_id) then
        WebSession.Session.with_thinking
          (if is_empty thinking.(ThinkingTrace.text) then None
           else Some (ThinkingTrace.mk thinking.(ThinkingTrace.request_id) false
                        thinking.(ThinkingTrace.text))) session
      else session
  | _, _ => session
  end.
Definition record_thinking (id : string) (f : Conversation -> Conversation) (s : Server.t) : Server.t :=
  publish_state (try_persist (change_session id f s)).

Definition record_observation (id payload : string) (now : Z) (s : Server.t) : Server.t :=
  try_persist
    match (observation ← map_err internal_error (observation_from_str payload) ;
           validate_persisted_observation observation ;;
           Ok observation) with
    | Ok observation =>
        change_session id (WebSession.Session.with_observation (Some observation)) s
    | Err (Api _ message) =>
        record_event id "error" ("拒绝持久化无效的结构化 SDR 观测：" +:+ message) now s
    end.

(** Any other line. *)
Definition after_line (is_current : bool) (kind text : string) (session : Conversation) : Conversation :=
  update_initial_survey_status text
    (match strip_prefix "决策依据> " text with
     | Some basis => WebSession.Session.with_decision_basis (Some basis)
     | None => fun session => session
     end
       (if is_current
        then WebSession.Session.with_status
               (if String.eqb kind "error" then "error" else "connected") session
        else session)).
Definition record_line (id kind text : string) (now : Z) (s : Server.t) : Server.t :=
  try_persist
    (record_event id kind text now (change_session id (after_line (runs_session s id) kind text) s)).

Definition record_process_output (id kind text : string) (now now' : Z) (s : Server.t) : Server.t :=
  if is_none (find_session (Server.sessions s) id) then s
  else
    match strip_prefix "SweepPlot> " text with
    | Some payload => record_plot id payload now now' s
    | None =>
    match strip_prefix "模型输入> " text with
    | Some payload => record_model_input id payload now s
    | None =>
    match strip_prefix "ThinkingStart> " text with
    | Some payload => record_thinking id (thinking_start payload) s
    | None =>
    match strip_prefix "ThinkingDelta> " text with
    | Some payload => record_thinking id (thinking_delta payload) s
    | None =>
    match strip_prefix "ThinkingEnd> " text with
    | Some payload => record_thinking id (thinking_end payload) s
    | None =>
    match strip_prefix "Observation> " text with
    | Some payload => record_observation id payload now s
    | None => record_line id kind text now s
    end end end end end end.

Definition after_exit (is_current : bool) (session : Conversation) : Conversation :=
  let session :=
    if is_current then WebSession.Session.with_status "exited" session else session in
  if String.eqb session.(WebSession.Session.initial_survey_status) "running"
  then WebSession.Session.with_initial_survey_status "failed" session else session.
Definition record_runtime_exit (id text : string) (now : Z) (s : Server.t) : Server.t :=
  let is_current := runs_session s id in
  let s := record_event id "system" text now (change_session id (after_exit is_current) s) in
  try_persist (if is_current then Server.with_runtime None s else s).

(** ** The actor of a terminal *)

Definition claim_initial_survey (id : string) (s : Server.t) : option InitialSurveyConfig.t * Server.t :=
  match find_session (Server.sessions s) id with
  | Some session =>
      if negb (String.eqb session.(WebSession.Session.initial_survey_status) "pending") then (None, s)
      else
        match session.(WebSession.Session.initial_survey) with
        | None => (None, s)
        | Some survey =>
            if String.eqb survey.(InitialSurveyConfig.mode) "disabled"
            then (None, change_session id (WebSession.Session.with_initial_survey_status "skipped") s)
            else
              (Some survey,
               publish_state (try_persist
                 (change_session id (WebSession.Session.with_initial_survey_status "running") s)))
        end
  | None => (None, s)
  end.

(** The task ends: the receiver is dropped and the gate is free. *)
Definition finish (i : nat) (s : Server.t) : Server.t :=
  Server.with_gate None (change_actor i (fun a => Actor.mk a.(Actor.session_id) [] Done) s).
Definition abandon (i : nat) (id text : string) (now : Z) (s : Server.t) : Server.t :=
  finish i (record_process_output id "system" text now now s).
(** [cleanup_runtime_request]. *)
Definition cleanup (temporary : option Path.t) (s : Server.t) : Server.t :=
  (on_store (on_files (cleanup_runtime_request os temporary)) s).2.

(** How the write of a command to the child ends. *)
Inductive Write := Written | WriteFailed (error : string) | FlushFailed (error : string).

(** What can happen next: a request, a move of an actor, a line of output, or the signal
    to stop. *)
Inductive Event :=
| Create (title : option string) (now : Z) (load : ApiResult (option ProviderConfigFile.t))
| Activate (id : string) (now : Z)
| SendCommand (id raw : string) (now now' : Z)
| Acquire (i : nat)
| Claim (i : nat)
| Start (i : nat) (socket_ready : bool) (spawned : option string) (now : Z)
| Deliver (i : nat) (write : Write) (now : Z)
| Exit (i : nat) (text : string) (now : Z)
| Output (i : nat) (kind text : string) (now now' : Z)
| SaveSettings (request : ProviderConfigRequest.t)
| DeleteSettings
| DeleteResult (id : Z)
| Terminate.

Definition closed (s : Server.t) (i : nat) : bool :=
  match s.(Server.runtime) with
  | Some runtime => negb (runtime.(RuntimeHandle.actor) =? i)%nat
  | None => true
  end.

(** From the test of the socket to the start of the child. *)
Definition start_agent (i : nat) (a : Actor.t) (gain_db : Z) (observation : option ObservationSummary.t)
    (save_iq : bool) (survey : option InitialSurveyConfig.t) (socket_ready : bool)
    (spawned : option string) (now : Z) (s : Server.t) : Server.t :=
  let id := a.(Actor.session_id) in
  if negb socket_ready then abandon i id "Planner 会话 socket 在 5 秒内未就绪，终端没有启动。" now s
  else
    let (prepared, s) :=
      on_store (on_files (prepare_runtime_request os (path_of config.(Settings.agent).(Config.request_path))
                            config.(Settings.state_path) observation)) s in
    match prepared with
    | Err (Api _ message) => abandon i id ("无法恢复结构化 SDR 观测：" +:+ message) now s
    | Ok (path, temporary) =>
        let request_path :=
          if is_none temporary then config.(Settings.agent).(Config.request_path) else path_text path in
        match agent_arguments config.(Settings.agent) id request_path gain_db save_iq survey with
        | None => abandon i id "对话 ID 无法安全映射到采集目录，终端没有启动。" now (cleanup temporary s)
        | Some arguments =>
            match spawned with
            | Some error => abandon i id ("无法启动 sdr-agent：" +:+ error) now (cleanup temporary s)
            | None =>
                record_process_output id "system" "终端进程已启动，等待控制器提示。" now now
                  (Server.with_children (Child.mk i id survey arguments :: s.(Server.children))
                     (change_actor i (Actor.with_phase (Running temporary)) s))
            end
        end
    end.

(** One command to the child. *)
Definition type_command (i : nat) (id text : string) (write : Write) (now : Z) (s : Server.t) : Server.t :=
  let typed := Server.with_typed ((i, text) :: s.(Server.typed)) s in
  match write with
  | Written => typed
  | WriteFailed error => record_process_output id "system" ("写入终端失败：" +:+ error) now now s
  | FlushFailed error => record_process_output id "system" ("刷新终端输入失败：" +:+ error) now now typed
  end.
(** The order to stop, written to the standard input of the child. *)
Definition stop_child (i : nat) (temporary : option Path.t) (s : Server.t) : Server.t :=
  finish i (cleanup temporary
    (Server.with_typed ((i, "/quit"%string) :: (i, "/stop"%string) :: s.(Server.typed)) s)).
(** [begin_runtime_shutdown] waits for room in the channel. *)
Definition begin_runtime_shutdown (s : Server.t) : Server.t :=
  match s.(Server.runtime) with
  | Some runtime =>
      change_actor runtime.(RuntimeHandle.actor)
        (fun a => if is_done a.(Actor.phase) then a
                  else Actor.with_queue (a.(Actor.queue) ++ [Shutdown]) a)
        (Server.with_runtime None s)
  | None => s
  end.

Definition step (e : Event) (s : Server.t) : option Server.t :=
  match e with
  | Create title now load => Some (create_session title now load s).2
  | Activate id now => Some (activate_session id now s).2
  | SendCommand id raw now now' => Some (send_command id raw now now' s).2
  | Acquire i =>
      a ← s.(Server.actors) !! i ;
      match a.(Actor.phase), s.(Server.gate) with
      | Waiting, None =>
          let session := find_session (Server.sessions s) a.(Actor.session_id) in
          let gain_db :=
            default DEFAULT_SURVEY_GAIN_DB
              (InitialSurveyConfig.gain_db <$> (session ≫= WebSession.Session.initial_survey)) in
          let observation := session ≫= WebSession.Session.observation in
          let save_iq := match session with Some s => s.(WebSession.Session.save_iq) | None => false end in
          Some (Server.with_gate (Some i)
                  (change_actor i (Actor.with_phase (Starting gain_db observation save_iq)) s))
      | _, _ => None
      end
  | Claim i =>
      a ← s.(Server.actors) !! i ;
      match a.(Actor.phase) with
      | Starting gain_db observation save_iq =>
          let (survey, s) := claim_initial_survey a.(Actor.session_id) s in
          Some (change_actor i (Actor.with_phase (Claimed gain_db observation save_iq survey)) s)
      | _ => None
      end
  | Start i socket_ready spawned now =>
      a ← s.(Server.actors) !! i ;
      match a.(Actor.phase) with
      | Claimed gain_db observation save_iq survey =>
          Some (start_agent i a gain_db observation save_iq survey socket_ready spawned now s)
      | _ => None
      end
  | Deliver i write now =>
      a ← s.(Server.actors) !! i ;
      match a.(Actor.phase), a.(Actor.queue) with
      | Running _, Input text :: queue =>
          Some (type_command i a.(Actor.session_id) text write now (change_actor i (Actor.with_queue queue) s))
      | Running temporary, Shutdown :: _ => Some (stop_child i temporary s)
      | Running temporary, [] => if closed s i then Some (stop_child i temporary s) else None
      | _, _ => None
      end
  | Exit i text now =>
      a ← s.(Server.actors) !! i ;
      match a.(Actor.phase) with
      | Running temporary =>
          Some (finish i (cleanup temporary (record_runtime_exit a.(Actor.session_id) text now s)))
      | _ => None
      end
  | Output i kind text now now' =>
      a ← s.(Server.actors) !! i ;
      if existsb (fun child => (child.(Child.actor) =? i)%nat) s.(Server.children)
      then Some (record_process_output a.(Actor.session_id) kind text now now' s) else None
  | SaveSettings request =>
      Some (on_store (on_files (save_provider_config os config.(Settings.provider_config_path) request)) s).2
  | DeleteSettings =>
      Some (on_store (on_files (delete_provider_config os (negb (is_none s.(Server.runtime)))
                                  config.(Settings.provider_config_path))) s).2
  | DeleteResult id =>
      Some (on_store (delete_capture_result os config.(Settings.result_db_path)
                        config.(Settings.capture_root) id) s).2
  | Terminate => Some (begin_runtime_shutdown s)
  end.

Fixpoint run (events : list Event) (s : Server.t) : option Server.t :=
  match events with
  | [] => Some s
  | e :: events => s ← step e s ; run events s
  end.

(** ** The start of the server *)
Definition init (saved : PersistedState.t) (store : Store.t) : Server.t :=
  Server.mk (load_state saved) None [] None [] [] store [].
Definition restore_active_runtime (s : Server.t) : Server.t :=
  match Server.active s with
  | Some id =>
      if is_none (find_session (Server.sessions s) id) then s
      else
        spawn_agent_process id
          (change_session id (fun session =>
             WebSession.Session.with_status "starting" (compact_session false session)) s)
  | None => s
  end.
Definition boot (saved : PersistedState.t) (store : Store.t) : Server.t :=
  restore_active_runtime (init saved store).
End Server.
