(* ===== verification/WebSafety.v ===== *)
(** * What the web console guarantees

    Invariants of every interleaving of requests, actors and outputs: one agent at a time, a
    survey that is started at most once per session, and what an accepted command does. *)
From S2P Require Import Prelude Hoare Text Net Utf8 F32 Protocol Policy Framing Sdr Session TerminalState ConsoleText WebConfig Files WebResults WebSession WebFiles WebOutput WebAgent WebServer.

(** ** What only changes sessions *)
Section Quiet.
Context {json : Json}.
Implicit Types (s : Server.t) (c : Conversation).

Definition is_pending c : Prop := c.(WebSession.Session.initial_survey_status) = "pending"%string.

(** A change of a session that keeps its identity and cannot make its survey pending. *)
Record milder c c' : Prop := {
  mi_id : c'.(WebSession.Session.id) = c.(WebSession.Session.id);
  mi_ok : SessionOk c -> SessionOk c';
  mi_pending : is_pending c' -> is_pending c;
}.
#[global] Instance milder_preorder : PreOrder milder.
Proof.
  split; [now split|]. intros a b c [H1 H2 H3] [H4 H5 H6]. split; [congruence|auto|auto].
Qed.

(** Fields that the invariant of a session does not speak of. *)
Lemma milder_other c c' :
  c'.(WebSession.Session.id) = c.(WebSession.Session.id) ->
  c'.(WebSession.Session.events) = c.(WebSession.Session.events) ->
  c'.(WebSession.Session.compacted_summary) = c.(WebSession.Session.compacted_summary) ->
  c'.(WebSession.Session.initial_survey_status) = c.(WebSession.Session.initial_survey_status) ->
  milder c c'.
Proof.
  intros H1 H2 H3 H4. split; [exact H1| |unfold is_pending; now rewrite H4].
  intros [A B C D E]. constructor; rewrite ?H2, ?H3, ?H4; assumption.
Qed.
Lemma milder_status status c :
  status ∈ SURVEY_STATES -> status <> "pending"%string ->
  milder c (WebSession.Session.with_initial_survey_status status c).
Proof. intros Hin Hne. split; [reflexivity| |now intros H]. intros [A B C D E]. now constructor. Qed.
Lemma milder_push_event c kind text now : milder c (push_event c kind text now).1.
Proof.
  split; [| |].
  - unfold push_event. now destruct (is_empty text).
  - apply push_event_ok.
  - unfold push_event. now destruct (is_empty text).
Qed.
Lemma milder_compact automatic c : milder c (compact_session automatic c).
Proof.
  split; [|apply compact_session_ok|]; unfold compact_session, is_pending;
    destruct (null _), automatic; auto.
Qed.
Lemma milder_survey_text text c : milder c (update_initial_survey_status text c).
Proof.
  unfold update_initial_survey_status.
  repeat (match goal with |- context [if ?x then _ else _] => destruct x end); try reflexivity;
    (apply milder_status; [apply list_elem_of_In; cbn; auto 10|discriminate]).
Qed.

(** The rest of the server is as it was. *)
Record quiet s s' : Prop := {
  qu_active : Server.active s' = Server.active s;
  qu_runtime : s'.(Server.runtime) = s.(Server.runtime);
  qu_actors : s'.(Server.actors) = s.(Server.actors);
  qu_gate : s'.(Server.gate) = s.(Server.gate);
  qu_children : s'.(Server.children) = s.(Server.children);
  qu_typed : s'.(Server.typed) = s.(Server.typed);
  qu_sessions : Forall2 milder (Server.sessions s) (Server.sessions s');
}.
#[global] Instance quiet_preorder : PreOrder quiet.
Proof.
  split; [intros s; split; reflexivity|]. intros s1 s2 s3 [? ? ? ? ? ? ?] [? ? ? ? ? ? ?].
  split; try congruence. etransitivity; eassumption.
Qed.

Lemma update_session_milder id f l :
  (forall c, milder c (f c)) -> Forall2 milder l (update_session id f l).
Proof.
  intros H. induction l as [|c l IH]; cbn; [constructor|]. destruct (String.eqb _ _); constructor; auto; reflexivity.
Qed.
Lemma update_found_milder id c' l c :
  find_session l id = Some c -> milder c c' -> Forall2 milder l (update_session id (fun _ => c') l).
Proof.
  unfold find_session. induction l as [|d l IH]; cbn; [discriminate|]. destruct (String.eqb _ _); intros H Hm.
  - injection H as ->. constructor; [exact Hm|reflexivity].
  - constructor; [reflexivity|auto].
Qed.

Lemma quiet_change id f s : (forall c, milder c (f c)) -> quiet s (change_session id f s).
Proof. intros H. split; try reflexivity. now apply update_session_milder. Qed.
Lemma quiet_set id c c' s :
  find_session (Server.sessions s) id = Some c -> milder c c' -> quiet s (change_session id (fun _ => c') s).
Proof. intros Hf H. split; try reflexivity. now apply (update_found_milder _ _ _ c). Qed.
Lemma quiet_publish update s : quiet s (publish update s).
Proof. now split. Qed.
Lemma quiet_publish_state s : quiet s (publish_state s).
Proof. apply quiet_publish. Qed.
Lemma quiet_publish_event id event s : quiet s (publish_event id event s).
Proof. destruct event; [apply quiet_publish|reflexivity]. Qed.
Lemma quiet_store store s : quiet s (Server.with_store store s).
Proof. now split. Qed.
Lemma quiet_record_event id kind text now s : quiet s (record_event id kind text now s).
Proof.
  unfold record_event. destruct (find_session (Server.sessions s) id) as [c|] eqn:E; [|reflexivity].
  pose proof (milder_push_event c kind text now) as Hm. destruct (push_event c kind text now) as [c' event].
  etransitivity; [now apply (quiet_set id c c')|apply quiet_publish_event].
Qed.
End Quiet.

Section Operations.
Context {json : Json} {access : JsonAccess} {codec : PlotCodec} {sqlite : Sqlite}.
Context {files : FileCodec} {observations : ObservationCodec} {uris : UriParser}.
Context (os : System) (config : Settings.t).
Implicit Types (s : Server.t) (c : Conversation).

Lemma quiet_on_store {A} (m : M Store.t ApiError A) s : quiet s (on_store m s).2.
Proof. unfold on_store. destruct (m _) as [r store]. apply quiet_store. Qed.
Lemma quiet_try_persist s : quiet s (try_persist os config s).
Proof.
  unfold try_persist, persist. apply quiet_on_store.
Qed.
Lemma quiet_persist s : quiet s (persist os config s).2.
Proof. apply quiet_try_persist. Qed.
Lemma quiet_cleanup temporary s : quiet s (cleanup os temporary s).
Proof. apply quiet_on_store. Qed.

(** Saving after a quiet change, and telling the browsers. *)
Lemma quiet_saved s s' : quiet s s' -> quiet s (try_persist os config s').
Proof. intros H. etransitivity; [exact H|apply quiet_try_persist]. Qed.
Lemma quiet_shown s s' : quiet s s' -> quiet s (publish_state s').
Proof. intros H. etransitivity; [exact H|apply quiet_publish_state]. Qed.
#[local] Hint Resolve quiet_saved quiet_shown quiet_record_event : core.

Lemma quiet_record_plot id payload now now' s : quiet s (record_plot os config id payload now now' s).
Proof.
  unfold record_plot. destruct (store_plot os config id payload now (Server.store s)) as [r store].
  pose proof (quiet_store store s) as H0. destruct r as [plot|[status message]].
  - apply quiet_shown, quiet_saved. etransitivity; [exact H0|]. apply quiet_change. intros c. now apply milder_other.
  - apply quiet_saved. etransitivity; [exact H0|auto].
Qed.
Lemma quiet_record_model_input id payload now s : quiet s (record_model_input os config id payload now s).
Proof.
  unfold record_model_input. apply quiet_shown, quiet_saved.
  destruct (value ← parse_value payload; _); [|auto]. apply quiet_change. intros c. now apply milder_other.
Qed.
Lemma quiet_record_thinking id f s : (forall c, milder c (f c)) -> quiet s (record_thinking os config id f s).
Proof. intros H. unfold record_thinking. apply quiet_shown, quiet_saved. now apply quiet_change. Qed.
Lemma milder_thinking_start payload c : milder c (thinking_start payload c).
Proof. unfold thinking_start. destruct (_ ≫= _); [now apply milder_other|reflexivity]. Qed.
Lemma milder_thinking_delta payload c : milder c (thinking_delta payload c).
Proof.
  unfold thinking_delta.
  repeat (match goal with
          | |- milder _ (match ?x with _ => _ end) => destruct x
          end); try reflexivity; now apply milder_other.
Qed.
Lemma milder_thinking_end payload c : milder c (thinking_end payload c).
Proof.
  unfold thinking_end.
  repeat (match goal with
          | |- milder _ (match ?x with _ => _ end) => destruct x
          end); try reflexivity; now apply milder_other.
Qed.
Lemma quiet_record_observation id payload now s : quiet s (record_observation os config id payload now s).
Proof.
  unfold record_observation. apply quiet_saved. destruct (observation ← _; _) as [o|[status message]]; [|auto].
  apply quiet_change. intros c. now apply milder_other.
Qed.
Lemma milder_after_line is_current kind text c : milder c (after_line is_current kind text c).
Proof.
  unfold after_line. etransitivity; [|apply milder_survey_text].
  destruct is_current, (strip_prefix _ text); now apply milder_other.
Qed.
Lemma quiet_record_line id kind text now s : quiet s (record_line os config id kind text now s).
Proof.
  unfold record_line. apply quiet_saved. etransitivity; [|apply quiet_record_event].
  apply quiet_change, milder_after_line.
Qed.

Lemma quiet_record_process_output id kind text now now' s :
  quiet s (record_process_output os config id kind text now now' s).
Proof.
  unfold record_process_output.
  repeat (match goal with |- quiet _ (match ?x with _ => _ end) => destruct x end);
    first [reflexivity|apply quiet_record_plot|apply quiet_record_model_input|apply quiet_record_observation
          |apply quiet_record_line|apply quiet_record_thinking];
    auto using milder_thinking_start, milder_thinking_delta, milder_thinking_end.
Qed.

Lemma milder_after_exit is_current c : milder c (after_exit is_current c).
Proof.
  unfold after_exit.
  assert (H : milder c (if is_current then WebSession.Session.with_status "exited" c else c))
    by (destruct is_current; now apply milder_other).
  etransitivity; [exact H|]. destruct (String.eqb _ _); [|reflexivity].
  apply milder_status; [apply list_elem_of_In; cbn; auto 10|discriminate].
Qed.
Lemma quiet_claim id s : quiet s (claim_initial_survey os config id s).2.
Proof.
  unfold claim_initial_survey.
  repeat (match goal with |- quiet _ (match ?x with _ => _ end).2 => destruct x end); cbn [snd]; try reflexivity.
  - apply quiet_change. intros c. apply milder_status; [apply list_elem_of_In; cbn; auto 10|discriminate].
  - apply quiet_shown, quiet_saved, quiet_change. intros c.
    apply milder_status; [apply list_elem_of_In; cbn; auto 10|discriminate].
Qed.
End Operations.

(** ** The invariant *)

(** Whether the sessions the server started with were within the bounds of a session.  Nothing
    but the bounds of the sessions depends on it. *)
Class Loaded := within_bounds : Prop.

Section Invariant.
Context {json : Json} {loaded : Loaded}.
Implicit Types (s : Server.t) (c : Conversation) (a : Actor.t).

(** The gate is held from [Starting] to [Running]. *)
Definition holding (phase : Phase) : bool := match phase with Waiting | Done => false | _ => true end.
Definition started (phase : Phase) : bool := match phase with Running _ | Done => true | _ => false end.
Definition is_running (phase : Phase) : bool := match phase with Running _ => true | _ => false end.

Record ServerOk s : Prop := {
  sv_sessions : within_bounds -> Forall SessionOk (Server.sessions s);
  sv_count : (length (Server.sessions s) <= MAX_SESSIONS)%nat;
  sv_gate : forall i, s.(Server.gate) = Some i
              <-> exists a, s.(Server.actors) !! i = Some a /\ holding a.(Actor.phase) = true;
  sv_runtime : forall h, s.(Server.runtime) = Some h ->
    Server.active s = Some h.(RuntimeHandle.session_id)
    /\ exists a, s.(Server.actors) !! h.(RuntimeHandle.actor) = Some a
                 /\ a.(Actor.session_id) = h.(RuntimeHandle.session_id);
  sv_children : Forall (fun child => exists a, s.(Server.actors) !! child.(Child.actor) = Some a
                  /\ a.(Actor.session_id) = child.(Child.session_id) /\ started a.(Actor.phase) = true)
                s.(Server.children);
  sv_once : NoDup (map Child.actor s.(Server.children));
  sv_parent : forall i a, s.(Server.actors) !! i = Some a -> is_running a.(Actor.phase) = true ->
    i ∈ map Child.actor s.(Server.children);
  sv_typed : Forall (fun t => t.1 ∈ map Child.actor s.(Server.children)) s.(Server.typed);
}.

Lemma one_holder s : ServerOk s -> forall i j a b,
  s.(Server.actors) !! i = Some a -> s.(Server.actors) !! j = Some b ->
  holding a.(Actor.phase) = true -> holding b.(Actor.phase) = true -> i = j.
Proof.
  intros Hs i j a b Ha Hb Hha Hhb. assert (Hi : Server.gate s = Some i) by (apply (sv_gate _ Hs); eauto).
  assert (Hj : Server.gate s = Some j) by (apply (sv_gate _ Hs); eauto). congruence.
Qed.

(** How often the survey of [id] has been, or can still be, started. *)
Definition session_weight (id : string) c : nat :=
  if bool_decide (c.(WebSession.Session.id) = id)
     && String.eqb c.(WebSession.Session.initial_survey_status) "pending" then 1 else 0.
Definition actor_weight (id : string) a : nat :=
  match a.(Actor.phase) with
  | Claimed _ _ _ (Some _) => if bool_decide (a.(Actor.session_id) = id) then 1 else 0
  | _ => 0
  end.
Definition surveys (id : string) (child : Child.t) : bool :=
  bool_decide (child.(Child.session_id) = id) && negb (is_none child.(Child.survey)).
Definition pending (id : string) (sessions : list Conversation) : nat := list_sum (map (session_weight id) sessions).
Definition total (id : string) s : nat :=
  pending id (Server.sessions s) + list_sum (map (actor_weight id) s.(Server.actors))
  + length (List.filter (surveys id) s.(Server.children)).

(** What every event but the creation of a session does. *)
Definition safe s s' : Prop := (ServerOk s -> ServerOk s') /\ forall id, (total id s' <= total id s)%nat.
#[global] Instance safe_preorder : PreOrder safe.
Proof.
  split; [now split|]. intros s1 s2 s3 [H1 H2] [H3 H4]. split; [auto|]. intros id.
  specialize (H2 id). specialize (H4 id). lia.
Qed.

Lemma milder_weight id c c' : milder c c' -> (session_weight id c' <= session_weight id c)%nat.
Proof.
  intros [H1 _ H3]. unfold session_weight, is_pending in *. rewrite H1.
  destruct (bool_decide _); cbn [andb]; [|lia].
  destruct (String.eqb_spec (WebSession.Session.initial_survey_status c') "pending") as [E|]; [|lia].
  apply H3, String.eqb_eq in E. rewrite E. lia.
Qed.
Lemma milder_pending id l l' : Forall2 milder l l' -> (pending id l' <= pending id l)%nat.
Proof.
  unfold pending, list_sum. induction 1 as [|c c' l l' Hc _ IH]; cbn in *; [lia|].
  pose proof (milder_weight id c c' Hc). lia.
Qed.

Lemma quiet_safe s s' : quiet s s' -> safe s s'.
Proof.
  intros [H1 H2 H3 H4 H5 H6 H7]. split.
  - intros [A B C D E F P G]. constructor; rewrite ?H2, ?H3, ?H4, ?H5, ?H6; try assumption.
    + intros Hw. specialize (A Hw). clear -A H7. induction H7 as [|c c' l l' Hc _ IH]; [constructor|].
      apply list.Forall_cons in A as [A1 A2]. constructor; [now apply (mi_ok _ _ Hc)|auto].
    + now rewrite <- (Forall2_length H7).
    + intros h Hh. rewrite H1. now apply D.
  - intros id. unfold total. rewrite H3, H5. pose proof (milder_pending id _ _ H7). lia.
Qed.

(** Sums under a change of one element. *)
Lemma sum_alter {A} (w : A -> nat) (f : A -> A) i (l : list A) x :
  l !! i = Some x -> (list_sum (map w (alter f i l)) + w x = list_sum (map w l) + w (f x))%nat.
Proof.
  unfold list_sum. revert i. induction l as [|y l IH]; intros [|i] H; cbn in H; try discriminate.
  - injection H as ->. cbn. lia.
  - specialize (IH i H). change (alter f (S i) (y :: l)) with (y :: alter f i l). cbn in IH |- *. lia.
Qed.
Lemma lookup_alter_Some_inv {A} (f : A -> A) i j (l : list A) x :
  alter f i l !! j = Some x -> exists b, l !! j = Some b /\ x = if decide (i = j) then f b else b.
Proof.
  rewrite list_lookup_alter. destruct (decide (i = j)) as [->|]; [|intros H; now exists x].
  intros H. apply fmap_Some in H as (b&Hb&->). eauto.
Qed.
Lemma lookup_alter_Some {A} (f : A -> A) i j (l : list A) b :
  l !! j = Some b -> alter f i l !! j = Some (if decide (i = j) then f b else b).
Proof.
  intros H. rewrite list_lookup_alter. destruct (decide (i = j)) as [->|]; [now rewrite H|exact H].
Qed.
Lemma alter_none {A} (f : A -> A) i (l : list A) : l !! i = None -> alter f i l = l.
Proof.
  revert i. induction l as [|x l IH]; intros [|i] H; cbn in *; try discriminate; [reflexivity|reflexivity|].
  f_equal. now apply IH.
Qed.

Lemma total_change id i f s a :
  s.(Server.actors) !! i = Some a ->
  (total id (change_actor i f s) + actor_weight id a = total id s + actor_weight id (f a))%nat.
Proof.
  intros Ha. pose proof (sum_alter (actor_weight id) f i _ a Ha) as Hsum. unfold total.
  change (Server.actors (change_actor i f s)) with (alter f i (Server.actors s)).
  change (Server.sessions (change_actor i f s)) with (Server.sessions s).
  change (Server.children (change_actor i f s)) with (Server.children s). lia.
Qed.

(** A change of an actor that is no change of what it is and where it is. *)
Lemma requeue_safe i f s :
  (forall a, (f a).(Actor.session_id) = a.(Actor.session_id)) ->
  (forall a, (f a).(Actor.phase) = a.(Actor.phase)) -> safe s (change_actor i f s).
Proof.
  intros Hid Hphase.
  assert (Hto : forall j a, Server.actors s !! j = Some a -> exists b, Server.actors (change_actor i f s) !! j = Some b
            /\ b.(Actor.session_id) = a.(Actor.session_id) /\ b.(Actor.phase) = a.(Actor.phase)).
  { intros j a H. exists (if decide (i = j) then f a else a).
    split; [exact (lookup_alter_Some f i j _ a H)|destruct (decide _); auto]. }
  split.
  - intros [A B C D E F P G]. constructor; try assumption; cbn.
    + intros j. rewrite C. split.
      * intros (a&Ha&Hh). destruct (Hto j a Ha) as (b&Hb&_&Hp). exists b. now rewrite Hp.
      * intros (a&Ha&Hh). apply lookup_alter_Some_inv in Ha as (b&Hb&->). exists b. split; [exact Hb|].
        destruct (decide _); [now rewrite Hphase in Hh|exact Hh].
    + intros h Hh. destruct (D h Hh) as (Hactive&a&Ha&Hs). split; [exact Hactive|].
      destruct (Hto _ a Ha) as (b&Hb&Hi&_). exists b. split; [exact Hb|congruence].
    + apply (list.Forall_impl _ _ _ E). intros c (a&Ha&Hs&Hp). destruct (Hto _ a Ha) as (b&Hb&Hi&Hq).
      exists b. split; [exact Hb|]. split; congruence.
    + intros j a Ha Hr. apply lookup_alter_Some_inv in Ha as (b&Hb&->). apply (P j b Hb).
      destruct (decide _); [now rewrite Hphase in Hr|exact Hr].
  - intros id. destruct (Server.actors s !! i) as [a|] eqn:Ea.
    + pose proof (total_change id i f s a Ea) as Hsum.
      assert (Hw : actor_weight id (f a) = actor_weight id a) by (unfold actor_weight; now rewrite Hid, Hphase).
      lia.
    + unfold change_actor. rewrite alter_none by exact Ea. now destruct s.
Qed.

Lemma forget_runtime_safe s : safe s (Server.with_runtime None s).
Proof. split; [|intros id; reflexivity]. intros [A B C D E F P G]. constructor; try assumption. intros h [=]. Qed.

Lemma try_send_safe i command s : safe s (try_send i command s).2.
Proof.
  unfold try_send. destruct (Server.actors s !! i) as [a|]; [|reflexivity]. destruct (accepts a); [|reflexivity].
  cbn [snd]. now apply requeue_safe.
Qed.
Lemma stop_runtime_safe s : safe s (stop_runtime s) /\ Server.runtime (stop_runtime s) = None.
Proof.
  unfold stop_runtime. destruct (Server.runtime s) as [h|] eqn:E; [|split; [reflexivity|exact E]]. split.
  - etransitivity; [apply forget_runtime_safe|apply try_send_safe].
  - unfold try_send. destruct (_ !! _) as [a|]; [|reflexivity]. now destruct (accepts a).
Qed.
Lemma stop_runtime_sessions s : Server.sessions (stop_runtime s) = Server.sessions s.
Proof.
  unfold stop_runtime. destruct (Server.runtime s) as [h|]; [|reflexivity].
  unfold try_send. destruct (_ !! _) as [a|]; [|reflexivity]. now destruct (accepts a).
Qed.

Lemma deactivate_quiet s :
  exists s', deactivate_current s = stop_runtime s' /\ quiet s s'.
Proof.
  unfold deactivate_current. destruct (Server.active s) as [id|]; eexists; (split; [reflexivity|]); [|reflexivity].
  apply quiet_change. intros c. etransitivity; [apply (milder_compact false)|]. now apply milder_other.
Qed.
Lemma deactivate_safe s :
  safe s (deactivate_current s) /\ Server.runtime (deactivate_current s) = None
  /\ length (Server.sessions (deactivate_current s)) = length (Server.sessions s).
Proof.
  destruct (deactivate_quiet s) as (s'&->&H). pose proof (stop_runtime_safe s') as [H1 H2].
  split; [etransitivity; [exact (quiet_safe _ _ H)|exact H1]|]. split; [exact H2|].
  rewrite stop_runtime_sessions. symmetry. exact (Forall2_length (qu_sessions _ _ H)).
Qed.

(** A new actor for the active session. *)
Lemma spawn_safe id s : Server.active s = Some id -> safe s (spawn_agent_process id s).
Proof.
  intros Hactive. set (new := Actor.mk id [] Waiting).
  assert (Hold : forall j a, Server.actors s !! j = Some a -> (Server.actors s ++ [new]) !! j = Some a)
    by (intros; now apply lookup_app_l_Some).
  split.
  - intros [A B C D E F P G]. constructor; try assumption; cbn.
    + intros j. rewrite C. split; intros (a&Ha&Hh).
      * exists a. split; [now apply Hold|exact Hh].
      * apply lookup_app_Some in Ha as [Ha|[_ Ha]]; [eauto|].
        destruct (j - length (Server.actors s))%nat; cbn in Ha; [injection Ha as <-|]; discriminate.
    + intros h [= <-]. split; [exact Hactive|]. exists new. split; [|reflexivity]. cbn.
      apply list_lookup_middle. reflexivity.
    + apply (list.Forall_impl _ _ _ E). intros child (a&Ha&H). exists a. split; [now apply Hold|exact H].
    + intros j a Ha Hr. apply lookup_app_Some in Ha as [Ha|[_ Ha]]; [eauto|].
      destruct (j - length (Server.actors s))%nat; cbn in Ha; [injection Ha as <-|]; discriminate.
  - intros i. unfold total.
    change (Server.actors (spawn_agent_process id s)) with (Server.actors s ++ [new]).
    rewrite map_app, list_sum_app. cbn [map list_sum foldr actor_weight]. 
    change (Server.sessions (spawn_agent_process id s)) with (Server.sessions s).
    change (Server.children (spawn_agent_process id s)) with (Server.children s). cbn. lia.
Qed.

(** Another session becomes the active one while there is no runtime. *)
Lemma switch_safe id s : Server.runtime s = None -> safe s (set_active id s).
Proof.
  intros Hr. split; [|intros i; reflexivity]. intros [A B C D E F P G]. constructor; try assumption.
  intros h Hh. cbn in Hh. congruence.
Qed.

(** Sessions are dropped. *)
Lemma filter_safe p s : safe s (set_sessions (List.filter p (Server.sessions s)) s).
Proof.
  split.
  - intros [A B C D E F P G]. constructor; try assumption; cbn.
    + intros Hw. specialize (A Hw). apply list.Forall_forall. intros c Hc.
      apply list_elem_of_In, List.filter_In in Hc as [Hc _].
      rewrite list.Forall_forall in A. apply A. now apply list_elem_of_In.
    + etransitivity; [apply List.filter_length_le|exact B].
  - intros id. unfold total. cbn [Server.sessions set_sessions].
    assert (H : (pending id (List.filter p (Server.sessions s)) <= pending id (Server.sessions s))%nat).
    { unfold pending, list_sum. induction (Server.sessions s) as [|c l IH]; cbn; [lia|]. destruct (p c); cbn; lia. }
    change (Server.actors (set_sessions _ s)) with (Server.actors s).
    change (Server.children (set_sessions _ s)) with (Server.children s).
    change (Server.sessions (set_sessions ?l s)) with l. lia.
Qed.

(** A session is added. *)
Lemma new_session_ok id title now survey save_iq : SessionOk (new_session id title now survey save_iq).
Proof.
  constructor; cbn; [unfold MAX_EVENTS; lia|constructor|constructor|now vm_compute|].
  apply list_elem_of_In. destruct (String.eqb _ _); cbn; auto 10.
Qed.
Lemma append_ok c s :
  ServerOk s -> SessionOk c -> (length (Server.sessions s) < MAX_SESSIONS)%nat ->
  ServerOk (set_sessions (Server.sessions s ++ [c]) s).
Proof.
  intros [A B C D E F G] Hc Hl. constructor; try assumption; cbn.
  - intros Hw. apply Forall_app. split; [exact (A Hw)|now constructor].
  - rewrite length_app. cbn. lia.
Qed.
Lemma append_total id c s :
  total id (set_sessions (Server.sessions s ++ [c]) s) = (total id s + session_weight id c)%nat.
Proof.
  unfold total, pending. change (Server.sessions (set_sessions ?l s)) with l.
  change (Server.actors (set_sessions _ s)) with (Server.actors s).
  change (Server.children (set_sessions _ s)) with (Server.children s).
  rewrite map_app, list_sum_app. cbn. lia.
Qed.
End Invariant.

(** ** Requests *)
Section Requests.
Context {json : Json} {loaded : Loaded} {access : JsonAccess} {codec : PlotCodec} {sqlite : Sqlite}.
Context {files : FileCodec} {observations : ObservationCodec} {uris : UriParser}.
Context (os : System) (config : Settings.t).
Implicit Types (s : Server.t) (c : Conversation).

Lemma min_by_last_used_in l c : min_by_last_used l = Some c -> c ∈ l.
Proof.
  revert c. induction l as [|d l IH]; intros c; cbn; [discriminate|].
  destruct (min_by_last_used l) as [e|]; [destruct (_ <? _)|]; intros [= <-];
    rewrite elem_of_cons; auto.
Qed.
Lemma select_evict_in p id :
  select_evict_id p = Some id ->
  exists c, c ∈ p.(PersistedState.sessions) /\ c.(WebSession.Session.id) = id
            /\ p.(PersistedState.active_session_id) <> Some id.
Proof.
  unfold select_evict_id. intros H. apply fmap_Some in H as (c&Hc&->).
  apply min_by_last_used_in, list_elem_of_In, List.filter_In in Hc as [Hin Hne].
  exists c. split; [now apply list_elem_of_In|]. split; [reflexivity|]. intros E. rewrite E in Hne. cbn in Hne.
  now rewrite String.eqb_refl in Hne.
Qed.
Lemma filter_shorter {A} (p : A -> bool) l x :
  x ∈ l -> p x = false -> (length (List.filter p l) < length l)%nat.
Proof.
  intros Hx Hp. induction l as [|y l IH]; cbn; [now apply not_elem_of_nil in Hx|].
  apply elem_of_cons in Hx as [->|Hx]; [rewrite Hp; pose proof (List.filter_length_le p l); lia|].
  specialize (IH Hx). destruct (p y); cbn; lia.
Qed.

(** The survey a creation makes possible. *)
Definition session_of (now : Z) : string := "session-" +:+ print_u now.
Definition adds (now : Z) (id : string) : nat := if bool_decide (session_of now = id) then 1 else 0.

Lemma new_session_weight id title now survey save_iq :
  (session_weight id (new_session (session_of now) title now survey save_iq) <= adds now id)%nat.
Proof.
  unfold session_weight, adds. cbn [WebSession.Session.id new_session].
  destruct (bool_decide _); [|cbn; lia]. destruct (_ && _); lia.
Qed.

Definition good (extra : string -> nat) s s' : Prop :=
  ServerOk s' /\ forall id, (total id s' <= total id s + extra id)%nat.
Lemma safe_good extra s s' : ServerOk s -> safe s s' -> good extra s s'.
Proof. intros Hs [H1 H2]. split; [auto|]. intros id. specialize (H2 id). lia. Qed.
Lemma good_safe extra s s1 s' : good extra s s1 -> safe s1 s' -> good extra s s'.
Proof.
  intros [H1 H2] [H3 H4]. split; [auto|]. intros id. specialize (H2 id). specialize (H4 id). lia.
Qed.

Lemma create_session_good title now load s :
  ServerOk s -> good (adds now) s (create_session os config title now load s).2.
Proof.
  intros Hs. apply (wp_snd _ (good (adds now) s)). unfold create_session. cbv zeta.
  wp_step. wp_step; [|now apply safe_good]. wp_step. wp_step.
  wp_step. assert (Hroom : forall s1, safe s s1 -> (length (Server.sessions s1) < MAX_SESSIONS)%nat ->
    wp (modify deactivate_current ;;
        modify (fun s => set_sessions (Server.sessions s ++
          [new_session ("session-" +:+ print_u now) (bounded_title title now) now
             (default default_initial_survey (ProviderConfigFile.initial_survey <$> a))
             match a with Some c => c.(ProviderConfigFile.save_iq) | None => false end]) s) ;;
        modify (set_active ("session-" +:+ print_u now)) ;;
        modify (spawn_agent_process ("session-" +:+ print_u now)) ;;
        persist os config ;;
        snapshot ← gets Server.persisted ;
        modify publish_state ;;
        mret snapshot) (fun _ => good (adds now) s) (fun _ => good (adds now) s) s1).
  { intros s1 H1 Hlen. wp_step. wp_step. destruct (deactivate_safe s1) as (H2&Hr&Hl).
    set (s2 := deactivate_current s1) in *. assert (Hs2 : ServerOk s2) by (apply H2, H1, Hs).
    assert (Ht2 : safe s s2) by (etransitivity; eassumption).
    wp_step. wp_step. set (c := new_session _ _ _ _ _). set (s3 := set_sessions _ s2).
    assert (H3 : good (adds now) s s3).
    { split.
      - apply append_ok; [exact Hs2|apply new_session_ok|now rewrite Hl].
      - intros id. unfold s3. rewrite append_total. pose proof (proj2 Ht2 id).
        assert (Hw : (session_weight id c <= adds now id)%nat) by apply new_session_weight. lia. }
    wp_step. wp_step. assert (H4 : good (adds now) s (set_active ("session-" +:+ print_u now) s3)).
    { eapply good_safe; [exact H3|]. now apply switch_safe. }
    wp_step. wp_step. set (s4 := set_active _ s3) in *.
    assert (H5 : good (adds now) s (spawn_agent_process ("session-" +:+ print_u now) s4)).
    { eapply good_safe; [exact H4|]. now apply spawn_safe. }
    set (s5 := spawn_agent_process _ s4) in *.
    pose proof (good_safe _ _ _ _ H5 (quiet_safe _ _ (quiet_persist os config s5))) as H6.
    wp_step. unfold wp at 1. destruct (persist os config s5) as [[[]|e] s6]; [|exact H6]. cbn [snd] in H6.
    wp_step. wp_step. wp_step. wp_step. apply wp_ret. eapply good_safe; [exact H6|].
    apply quiet_safe, quiet_publish_state. }
  destruct (MAX_SESSIONS <=? length (Server.sessions s))%nat eqn:E.
  - wp_step. wp_step. wp_step. wp_step; [|now apply safe_good]. wp_step. apply ok_or_Ok in H0.
    destruct (select_evict_in _ _ H0) as (c&Hin&Hid&_). apply Hroom; [apply filter_safe|].
    apply (Nat.lt_le_trans _ (length (Server.sessions s))); [|apply Hs]. apply (filter_shorter _ _ c); [exact Hin|].
    now rewrite Hid, String.eqb_refl.
  - wp_step. apply Hroom; [reflexivity|]. now apply Nat.leb_gt in E.
Qed.

Lemma activate_session_good id now s :
  ServerOk s -> safe s (activate_session os config id now s).2.
Proof.
  intros Hs. apply (wp_snd _ (safe s)). unfold activate_session.
  wp_step. wp_step. wp_step. wp_step; [|reflexivity]. wp_step. wp_step. wp_step.
  assert (Hend : forall s1, safe s s1 ->
    wp (E := ApiError) (snapshot ← gets Server.persisted ; modify publish_state ;; mret snapshot) (fun _ => safe s) (fun _ => safe s) s1).
  { intros s1 H1. wp_step. wp_step. wp_step. wp_step. apply wp_ret. etransitivity; [exact H1|].
    apply quiet_safe, quiet_publish_state. }
  wp_step. 2: { wp_step. now apply Hend. }
  wp_step. wp_step. destruct (deactivate_safe s) as (H2&Hr&_). set (s2 := deactivate_current s) in *.
  wp_step. wp_step. wp_step. wp_step. wp_step. wp_step.
  set (s3 := change_session _ _ _).
  assert (H3 : safe s s3).
  { etransitivity; [exact H2|]. etransitivity; [now apply (switch_safe id)|]. apply quiet_safe, quiet_change.
    intros c. now apply milder_other. }
  assert (H4 : safe s (spawn_agent_process id s3)) by (etransitivity; [exact H3|now apply spawn_safe]).
  unfold wp at 1. set (s4 := spawn_agent_process id s3) in *.
  pose proof (quiet_safe _ _ (quiet_persist os config s4)) as H5.
  assert (H6 : safe s (persist os config s4).2) by (etransitivity; eassumption).
  destruct (persist os config s4) as [[[]|e] s5]; [now apply Hend|exact H6].
Qed.

Lemma milder_outgoing c command : milder c (outgoing_text c command).2.
Proof. unfold outgoing_text. destruct (_ && _); [now apply milder_other|reflexivity]. Qed.

(** The session after the command was recorded. *)
Lemma recorded_milder c now now' command text c1 c2 event :
  outgoing_text (WebSession.Session.with_last_used_at_ms now c) command = (text, c1) ->
  push_event c1 "operator" ("Operator> " +:+ command) now' = (c2, event) -> milder c c2.
Proof.
  intros H1 H2. pose proof (milder_outgoing (WebSession.Session.with_last_used_at_ms now c) command) as H3.
  rewrite H1 in H3. pose proof (milder_push_event c1 "operator" ("Operator> " +:+ command) now') as H4. rewrite H2 in H4.
  etransitivity; [|etransitivity; [exact H3|exact H4]]. now apply milder_other.
Qed.

Lemma is_str_Some o id : is_str o id = true -> o = Some id.
Proof. destruct o; cbn; [|discriminate]. now intros ->%String.eqb_eq. Qed.
Lemma stop_runtime_active s : Server.active (stop_runtime s) = Server.active s.
Proof.
  unfold stop_runtime. destruct (Server.runtime s) as [h|]; [|reflexivity].
  unfold try_send. destruct (_ !! _) as [a|]; [|reflexivity]. now destruct (accepts a).
Qed.
Lemma ensure_runtime_safe id s : Server.active s = Some id ->
  safe s (ensure_runtime id s) /\ Server.active (ensure_runtime id s) = Some id
  /\ exists h, Server.runtime (ensure_runtime id s) = Some h /\ h.(RuntimeHandle.session_id) = id.
Proof.
  intros Hactive. unfold ensure_runtime.
  set (s1 := if runs_session s id then s else spawn_agent_process id s).
  assert (H1 : safe s s1 /\ Server.active s1 = Some id
            /\ exists h, Server.runtime s1 = Some h /\ h.(RuntimeHandle.session_id) = id).
  { unfold s1. destruct (runs_session s id) eqn:E.
    - split; [reflexivity|]. split; [exact Hactive|]. unfold runs_session in E.
      destruct (Server.runtime s) as [h|]; [|discriminate]. apply String.eqb_eq in E. eauto.
    - split; [now apply spawn_safe|]. split; [exact Hactive|]. now eexists. }
  destruct (should_compact s1 id); [|exact H1].
  destruct H1 as (H1&Ha&_). set (s2 := change_session id (compact_session true) s1).
  assert (H2 : safe s s2).
  { etransitivity; [exact H1|]. apply quiet_safe, quiet_change, milder_compact. }
  destruct (stop_runtime_safe s2) as [H3 _].
  assert (H4 : Server.active (stop_runtime s2) = Some id) by now rewrite stop_runtime_active.
  split; [etransitivity; [exact H2|etransitivity; [exact H3|now apply spawn_safe]]|]. split; [exact H4|now eexists].
Qed.

Lemma transmit_quiet id command now now' s : safe s (transmit os config id command now now' s).2.
Proof.
  apply (wp_snd _ (safe s)). unfold transmit. wp_step. wp_step. wp_step. wp_step; [|reflexivity].
  apply ok_or_Ok in H. rename a into c.
  destruct (outgoing_text _ command) as [text c1] eqn:E1. destruct (push_event c1 _ _ now') as [c2 event] eqn:E2.
  pose proof (recorded_milder _ _ _ _ _ _ _ _ E1 E2) as Hm.
  wp_step. wp_step. wp_step. wp_step. set (s1 := publish_event id event _).
  assert (H1 : safe s s1).
  { apply quiet_safe. etransitivity; [now apply (quiet_set id c c2)|apply quiet_publish_event]. }
  wp_step. wp_step. wp_step.
  assert (Hend : forall s2, safe s s2 ->
    wp (persist os config ;; gets Server.persisted) (fun _ => safe s) (fun _ => safe s) s2).
  { intros s2 H2. wp_step. unfold wp at 1. pose proof (quiet_safe _ _ (quiet_persist os config s2)) as H3.
    destruct (persist os config s2) as [[u|e] s3]; [apply wp_gets|]; (etransitivity; [exact H2|exact H3]). }
  unfold wp at 1. destruct (Server.runtime s1) as [h|].
  - pose proof (try_send_safe (RuntimeHandle.actor h) (Input text) s1) as H2.
    destruct (try_send _ _ s1) as [sent s2]. cbn [snd] in H2.
    assert (H3 : safe s s2) by (etransitivity; eassumption).
    wp_step. wp_step; [now apply Hend|exact H3].
  - wp_step. wp_step; [now apply Hend|exact H1].
Qed.

Lemma send_command_good id raw now now' s : ServerOk s -> safe s (send_command os config id raw now now' s).2.
Proof.
  intros Hs. apply (wp_snd _ (safe s)). unfold send_command. cbv zeta.
  wp_step. wp_step; [|reflexivity]. wp_step. wp_step. wp_step. wp_step; [|reflexivity].
  apply reject_if_Ok, negb_false_iff, is_str_Some in H0.
  destruct (ensure_runtime_safe id s H0) as (H1&_). wp_step. wp_step.
  pose proof (transmit_quiet id (single_line raw) now now' (ensure_runtime id s)) as H2. unfold wp.
  assert (H3 : safe s (transmit os config id (single_line raw) now now' (ensure_runtime id s)).2)
    by (etransitivity; eassumption).
  now destruct (transmit _ _ _ _ _ _ _) as [[u|e] s'].
Qed.
End Requests.

(** ** The moves of an actor *)
Section Moves.
Context {json : Json} {loaded : Loaded}.
Implicit Types (s : Server.t) (c : Conversation) (a : Actor.t).

(** The phase of one actor changes, and the gate with it. *)
Lemma phase_ok i a f s s' :
  ServerOk s -> s.(Server.actors) !! i = Some a ->
  holding a.(Actor.phase) = true \/ s.(Server.gate) = None ->
  (f a).(Actor.session_id) = a.(Actor.session_id) ->
  (started a.(Actor.phase) = true -> started (f a).(Actor.phase) = true) ->
  (is_running (f a).(Actor.phase) = true -> i ∈ map Child.actor s.(Server.children)) ->
  s'.(Server.actors) = alter f i s.(Server.actors) ->
  s'.(Server.gate) = (if holding (f a).(Actor.phase) then Some i else None) ->
  s'.(Server.persisted) = s.(Server.persisted) -> s'.(Server.runtime) = s.(Server.runtime) ->
  s'.(Server.children) = s.(Server.children) -> s'.(Server.typed) = s.(Server.typed) -> ServerOk s'.
Proof.
  intros [A B C D E F P G] Ha Hgate Hid Hstarted Hrun Hact Hg Hpers Hrt Hch Hty.
  assert (Hto : forall j b, Server.actors s !! j = Some b -> exists b', Server.actors s' !! j = Some b'
            /\ b'.(Actor.session_id) = b.(Actor.session_id)
            /\ (started b.(Actor.phase) = true -> started b'.(Actor.phase) = true)).
  { intros j b Hb. rewrite Hact. exists (if decide (i = j) then f b else b).
    split; [now apply lookup_alter_Some|]. destruct (decide (i = j)) as [<-|]; [|auto].
    rewrite Ha in Hb. now injection Hb as <-. }
  assert (Honly : forall j, s.(Server.gate) = Some j -> j = i).
  { intros j Hj. destruct Hgate as [Hh|Hn]; [|congruence].
    assert (Hi : s.(Server.gate) = Some i) by (apply C; eauto). congruence. }
  unfold Server.sessions, Server.active in *. constructor; unfold Server.sessions, Server.active; rewrite ?Hpers, ?Hch, ?Hty; auto.
  - intros j. rewrite Hg, Hact. split.
    + destruct (holding (Actor.phase (f a))) eqn:Hh; [|discriminate]. intros [= <-]. exists (f a).
      split; [|exact Hh]. rewrite (lookup_alter_Some f i i _ a Ha). now rewrite decide_True.
    + intros (b&Hb&Hh). apply lookup_alter_Some_inv in Hb as (b'&Hb&->). revert Hh.
      destruct (decide (i = j)) as [<-|Hne]; intros Hh.
      * rewrite Ha in Hb. injection Hb as <-. now rewrite Hh.
      * assert (Hj : s.(Server.gate) = Some j) by (apply C; eauto). apply Honly in Hj; congruence.
  - intros h. rewrite Hrt. intros Hh. destruct (D h Hh) as (H1&b&Hb&H2). split; [exact H1|].
    destruct (Hto _ b Hb) as (b'&Hb'&H3&_). exists b'. split; [exact Hb'|congruence].
  - apply (list.Forall_impl _ _ _ E). intros child (b&Hb&H1&H2). destruct (Hto _ b Hb) as (b'&Hb'&H3&H4).
    exists b'. split; [exact Hb'|]. split; [congruence|auto].
  - intros j b Hb Hr. rewrite Hact in Hb. apply lookup_alter_Some_inv in Hb as (b'&Hb&->). revert Hr.
    destruct (decide (i = j)) as [<-|]; [|now apply (P j b')]. rewrite Ha in Hb. injection Hb as <-. auto.
Qed.

(** The actor that holds the gate ends. *)
Lemma finish_safe i a s :
  ServerOk s -> s.(Server.actors) !! i = Some a -> holding a.(Actor.phase) = true -> safe s (finish i s).
Proof.
  intros Hs Ha Hh. split.
  - intros _. apply (phase_ok i a (fun a => Actor.mk a.(Actor.session_id) [] Done) s); auto; try reflexivity; discriminate.
  - intros id. pose proof (total_change id i (fun a => Actor.mk a.(Actor.session_id) [] Done) s a Ha) as H.
    unfold actor_weight at 2 in H. cbn [Actor.phase] in H.
    change (total id (finish i s)) with (total id (change_actor i (fun a => Actor.mk a.(Actor.session_id) [] Done) s)). lia.
Qed.
(** The same after output was recorded. *)
Lemma finish_quiet i a s s' :
  ServerOk s -> s.(Server.actors) !! i = Some a -> holding a.(Actor.phase) = true -> quiet s s' ->
  safe s (finish i s').
Proof.
  intros Hs Ha Hh Hq. pose proof (quiet_safe _ _ Hq) as H1. etransitivity; [exact H1|].
  apply (finish_safe i a); [now apply H1|now rewrite (qu_actors _ _ Hq)|exact Hh].
Qed.

(** A child of an actor that had none. *)
Lemma child_ok i a child s :
  ServerOk s -> s.(Server.actors) !! i = Some a -> started a.(Actor.phase) = true ->
  child.(Child.actor) = i -> child.(Child.session_id) = a.(Actor.session_id) ->
  (i ∉ map Child.actor s.(Server.children)) ->
  ServerOk (Server.with_children (child :: s.(Server.children)) s).
Proof.
  intros [A B C D E F P G] Ha Hst Hi Hid Hnew. constructor; try assumption; cbn.
  - constructor; [|exact E]. exists a. rewrite Hi. auto.
  - constructor; [now rewrite Hi|exact F].
  - intros j b Hb Hr. apply elem_of_cons. right. now apply (P j b).
  - apply (list.Forall_impl _ _ _ G). intros t Ht. apply elem_of_cons. now right.
Qed.

(** Text for the child of an actor. *)
Lemma typed_safe i text s :
  i ∈ map Child.actor s.(Server.children) -> safe s (Server.with_typed ((i, text) :: s.(Server.typed)) s).
Proof.
  intros Hi. split; [|intros id; reflexivity]. intros [A B C D E F P G]. constructor; try assumption.
  cbn. now constructor.
Qed.

(** The claim takes the survey from the session. *)
Lemma claimed_pending id c f l :
  find_session l id = Some c -> is_pending c -> (f c).(WebSession.Session.id) = c.(WebSession.Session.id) ->
  ~ is_pending (f c) ->
  forall id', (pending id' (update_session id f l) + (if bool_decide (id = id') then 1 else 0) <= pending id' l)%nat.
Proof.
  intros Hfind Hp Hid Hnp id'. unfold pending, list_sum, find_session in *.
  induction l as [|d l IH]; cbn in *; [discriminate|].
  destruct (String.eqb_spec (WebSession.Session.id d) id) as [Hd|Hd].
  - injection Hfind as ->. cbn. unfold session_weight at 1 3. rewrite Hid, Hd.
    unfold is_pending in *. rewrite Hp, String.eqb_refl.
    destruct (String.eqb_spec (WebSession.Session.initial_survey_status (f c)) "pending"); [contradiction|].
    rewrite andb_false_r. destruct (bool_decide _); cbn; lia.
  - specialize (IH Hfind). cbn. lia.
Qed.
End Moves.

(** ** Every event *)
Section Events.
Context {json : Json} {loaded : Loaded} {access : JsonAccess} {codec : PlotCodec} {sqlite : Sqlite}.
Context {files : FileCodec} {observations : ObservationCodec} {uris : UriParser}.
Context (os : System) (config : Settings.t).
Implicit Types (s : Server.t) (a : Actor.t).

Definition is_claim (survey : option InitialSurveyConfig.t) (id id' : string) : nat :=
  match survey with Some _ => if bool_decide (id = id') then 1 else 0 | None => 0 end.

Lemma claim_total id s id' :
  let claim := claim_initial_survey os config id s in
  (total id' claim.2 + is_claim claim.1 id id' <= total id' s)%nat.
Proof.
  cbv zeta. pose proof (proj2 (quiet_safe _ _ (quiet_claim os config id s)) id') as Hq. revert Hq.
  unfold claim_initial_survey. destruct (find_session (Server.sessions s) id) as [c|] eqn:Hfind; [|cbn; lia].
  destruct (String.eqb_spec (WebSession.Session.initial_survey_status c) "pending") as [Hp|]; cbn [negb]; [|cbn; lia].
  destruct (WebSession.Session.initial_survey c) as [survey|]; [|cbn; lia].
  destruct (String.eqb (InitialSurveyConfig.mode survey) "disabled"); [cbn [fst snd is_claim]; lia|].
  intros _. cbn [fst snd]. set (s1 := change_session id _ s).
  pose proof (proj2 (quiet_safe _ _ (quiet_shown _ _ (quiet_try_persist os config s1))) id') as H1.
  pose proof (claimed_pending id c (WebSession.Session.with_initial_survey_status "running") _ Hfind Hp eq_refl) as H2.
  assert (Hnot : ~ is_pending (WebSession.Session.with_initial_survey_status "running" c)) by discriminate.
  specialize (H2 Hnot id'). unfold is_claim.
  assert (H3 : (total id' s1 + (if bool_decide (id = id') then 1 else 0) <= total id' s)%nat).
  { unfold total, s1. change (Server.sessions (change_session id ?f s)) with (update_session id f (Server.sessions s)).
    change (Server.actors (change_session _ _ s)) with (Server.actors s).
    change (Server.children (change_session _ _ s)) with (Server.children s). lia. }
  lia.
Qed.

(** What a move of actor [i], in phase [phase], has to establish. *)
Lemma acquire_good i a gain observation save_iq s :
  ServerOk s -> s.(Server.actors) !! i = Some a -> a.(Actor.phase) = Waiting -> s.(Server.gate) = None ->
  safe s (Server.with_gate (Some i) (change_actor i (Actor.with_phase (Starting gain observation save_iq)) s)).
Proof.
  intros Hs Ha Hp Hg. split.
  - intros _. apply (phase_ok i a (Actor.with_phase (Starting gain observation save_iq)) s); auto;
      try reflexivity; try discriminate. now rewrite Hp.
  - intros id. pose proof (total_change id i (Actor.with_phase (Starting gain observation save_iq)) s a Ha) as H.
    unfold actor_weight in H. rewrite Hp in H. cbn [Actor.phase Actor.with_phase] in H.
    change (total id (Server.with_gate _ ?t)) with (total id t). lia.
Qed.

Lemma claim_good i a gain observation save_iq s :
  ServerOk s -> s.(Server.actors) !! i = Some a -> a.(Actor.phase) = Starting gain observation save_iq ->
  let claim := claim_initial_survey os config a.(Actor.session_id) s in
  safe s (change_actor i (Actor.with_phase (Claimed gain observation save_iq claim.1)) claim.2).
Proof.
  intros Hs Ha Hp claim. pose proof (quiet_claim os config a.(Actor.session_id) s) as Hq. fold claim in Hq.
  assert (Ha2 : Server.actors claim.2 !! i = Some a) by now rewrite (qu_actors _ _ Hq).
  assert (Hgate : Server.gate s = Some i) by (apply Hs; exists a; split; [exact Ha|now rewrite Hp]). split.
  - intros _. apply (phase_ok i a (Actor.with_phase (Claimed gain observation save_iq claim.1)) claim.2); auto;
      try reflexivity; try discriminate.
    + now apply (quiet_safe _ _ Hq).
    + left. now rewrite Hp.
    + now rewrite Hp.
    + cbn. now rewrite (qu_gate _ _ Hq).
  - intros id. pose proof (total_change id i (Actor.with_phase (Claimed gain observation save_iq claim.1)) claim.2 a Ha2) as H.
    pose proof (claim_total a.(Actor.session_id) s id) as Hc. fold claim in Hc. cbv zeta in Hc.
    unfold actor_weight in H. rewrite Hp in H. cbn [Actor.phase Actor.with_phase Actor.session_id] in H.
    unfold is_claim in Hc. destruct claim.1; lia.
Qed.

(** The child of an actor that claimed. *)
Lemma child_good i a gain observation save_iq survey temporary arguments s :
  ServerOk s -> s.(Server.actors) !! i = Some a -> a.(Actor.phase) = Claimed gain observation save_iq survey ->
  safe s (Server.with_children (Child.mk i a.(Actor.session_id) survey arguments :: s.(Server.children))
            (change_actor i (Actor.with_phase (Running temporary)) s)).
Proof.
  intros Hs Ha Hp. set (f := Actor.with_phase (Running temporary)).
  set (child := Child.mk i a.(Actor.session_id) survey arguments).
  assert (Hnew : i ∉ map Child.actor s.(Server.children)).
  { intros Hin. apply list_elem_of_fmap in Hin as (d&Hd&Hin). pose proof (sv_children _ Hs) as Hc.
    rewrite list.Forall_forall in Hc. destruct (Hc d Hin) as (b&Hb&_&Hst). rewrite <- Hd in Hb.
    rewrite Ha in Hb. injection Hb as <-. now rewrite Hp in Hst. }
  assert (Hgate : Server.gate s = Some i) by (apply Hs; exists a; split; [exact Ha|now rewrite Hp]).
  assert (Hf : Server.actors (change_actor i f s) !! i = Some (f a)).
  { unfold change_actor. cbn. rewrite (lookup_alter_Some f i i _ a Ha). now rewrite decide_True. }
  split.
  - intros _. destruct Hs as [A B C D E F P G]. constructor; try assumption; cbn.
    + intros j. fold f. split.
      * rewrite Hgate. intros [= <-]. exists (f a). now split.
      * intros (b&Hb&Hh). apply lookup_alter_Some_inv in Hb as (b'&Hb&->). revert Hh.
        destruct (decide (i = j)) as [<-|]; intros Hh; [exact Hgate|]. apply C. eauto.
    + intros h Hh. destruct (D h Hh) as (H1&b&Hb&H2). split; [exact H1|].
      exists (if decide (i = RuntimeHandle.actor h) then f b else b).
      split; [now apply lookup_alter_Some|]. now destruct (decide _).
    + constructor.
      * exists (f a). now split.
      * apply (list.Forall_impl _ _ _ E). intros d (b&Hb&H1&H2).
        exists (if decide (i = Child.actor d) then f b else b).
        split; [now apply lookup_alter_Some|]. now destruct (decide _).
    + constructor; assumption.
    + intros j b Hb Hr. apply lookup_alter_Some_inv in Hb as (b'&Hb&->). revert Hr.
      destruct (decide (i = j)) as [<-|]; intros Hr; apply elem_of_cons; [now left|right]. now apply (P j b').
    + apply (list.Forall_impl _ _ _ G). intros t Ht. apply elem_of_cons. now right.
  - intros id. pose proof (total_change id i f s a Ha) as H.
    unfold actor_weight in H. rewrite Hp in H. cbn [Actor.phase f Actor.with_phase] in H. unfold total in *.
    change (Server.sessions (Server.with_children _ ?t)) with (Server.sessions t).
    change (Server.actors (Server.with_children _ ?t)) with (Server.actors t).
    change (Server.children (Server.with_children ?l _)) with l.
    change (Server.children (change_actor i f s)) with (Server.children s) in H.
    cbn [List.filter]. unfold surveys at 1. cbn [Child.session_id Child.survey child].
    destruct survey; cbn [is_none negb]; rewrite ?andb_true_r, ?andb_false_r; [|lia].
    destruct (bool_decide (Actor.session_id a = id)); cbn [length]; lia.
Qed.

Abbreviation record_output := (record_process_output os config).

Lemma abandon_safe i a text now s s' :
  ServerOk s -> s.(Server.actors) !! i = Some a -> holding a.(Actor.phase) = true -> quiet s s' ->
  safe s (abandon os config i a.(Actor.session_id) text now s').
Proof.
  intros Hs Ha Hh Hq. unfold abandon. apply (finish_quiet i a); auto.
  etransitivity; [exact Hq|apply quiet_record_process_output].
Qed.

Lemma start_good i a gain observation save_iq survey socket_ready spawned now s :
  ServerOk s -> s.(Server.actors) !! i = Some a -> a.(Actor.phase) = Claimed gain observation save_iq survey ->
  safe s (start_agent os config i a gain observation save_iq survey socket_ready spawned now s).
Proof.
  intros Hs Ha Hp. assert (Hh : holding a.(Actor.phase) = true) by now rewrite Hp.
  unfold start_agent. cbv zeta. destruct socket_ready; cbn [negb]; [|now apply abandon_safe].
  unfold on_store. destruct (on_files _ _) as [prepared store]. set (s1 := Server.with_store store s).
  assert (Hq : quiet s s1) by apply quiet_store. pose proof (quiet_safe _ _ Hq) as H1.
  assert (Hc : forall temporary, quiet s (cleanup os temporary s1)).
  { intros temporary. etransitivity; [exact Hq|apply quiet_cleanup]. }
  destruct prepared as [[path temporary]|[status message]]; [|now apply abandon_safe].
  destruct (agent_arguments _ _ _ _ _ _) as [arguments|]; [|now apply abandon_safe].
  destruct spawned; [now apply abandon_safe|].
  etransitivity; [exact H1|]. etransitivity; [|apply quiet_safe, quiet_record_process_output].
  apply (child_good i a gain observation save_iq); [now apply H1|exact Ha|exact Hp].
Qed.

Lemma stop_child_good i a temporary s :
  ServerOk s -> s.(Server.actors) !! i = Some a -> is_running a.(Actor.phase) = true ->
  safe s (stop_child os i temporary s).
Proof.
  intros Hs Ha Hr. assert (Hi : i ∈ map Child.actor s.(Server.children)) by now apply (sv_parent _ Hs i a).
  assert (Hh : holding a.(Actor.phase) = true) by now destruct a.(Actor.phase).
  unfold stop_child. set (s1 := Server.with_typed _ s).
  assert (H1 : safe s s1).
  { etransitivity; [exact (typed_safe i "/stop" s Hi)|].
    exact (typed_safe i "/quit" (Server.with_typed ((i, "/stop"%string) :: s.(Server.typed)) s) Hi). }
  etransitivity; [exact H1|]. apply (finish_quiet i a); [now apply H1|exact Ha|exact Hh|apply quiet_cleanup].
Qed.

Lemma type_good i a id text write now s :
  ServerOk s -> s.(Server.actors) !! i = Some a -> is_running a.(Actor.phase) = true ->
  safe s (type_command os config i id text write now s).
Proof.
  intros Hs Ha Hr. pose proof (typed_safe i text s (sv_parent _ Hs i a Ha Hr)) as Ht. unfold type_command.
  destruct write; [exact Ht|apply quiet_safe, quiet_record_process_output|].
  etransitivity; [exact Ht|apply quiet_safe, quiet_record_process_output].
Qed.

Lemma exit_quiet id text now s :
  exists s1, quiet s s1 /\ (record_runtime_exit os config id text now s = try_persist os config s1
    \/ record_runtime_exit os config id text now s = try_persist os config (Server.with_runtime None s1)).
Proof.
  unfold record_runtime_exit. cbv zeta.
  exists (record_event id "system" text now (change_session id (after_exit (runs_session s id)) s)).
  split; [|destruct (runs_session s id); [right|left]; reflexivity].
  etransitivity; [|apply quiet_record_event]. apply quiet_change, milder_after_exit.
Qed.
Lemma exit_good i a temporary text now s :
  ServerOk s -> s.(Server.actors) !! i = Some a -> is_running a.(Actor.phase) = true ->
  safe s (finish i (cleanup os temporary (record_runtime_exit os config a.(Actor.session_id) text now s))).
Proof.
  intros Hs Ha Hr. assert (Hh : holding a.(Actor.phase) = true) by now destruct a.(Actor.phase).
  destruct (exit_quiet a.(Actor.session_id) text now s) as (s1&Hq&[->| ->]).
  - apply (finish_quiet i a); auto. etransitivity; [exact Hq|]. etransitivity; [apply quiet_try_persist|apply quiet_cleanup].
  - pose proof (quiet_safe _ _ Hq) as H1. etransitivity; [exact H1|].
    etransitivity; [apply forget_runtime_safe|].
    apply (finish_quiet i a); [now apply forget_runtime_safe, H1|now rewrite <- (qu_actors _ _ Hq) in Ha|exact Hh|].
    etransitivity; [apply quiet_try_persist|apply quiet_cleanup].
Qed.

Lemma terminate_safe s : safe s (begin_runtime_shutdown s).
Proof.
  unfold begin_runtime_shutdown. destruct (Server.runtime s) as [h|]; [|reflexivity].
  etransitivity; [apply forget_runtime_safe|]. apply requeue_safe; intros a; now destruct (is_done _).
Qed.

Definition created (e : Event) (id : string) : nat := match e with Create _ now _ => adds now id | _ => 0 end.

Lemma step_good e s s' : ServerOk s -> step os config e s = Some s' -> good (created e) s s'.
Proof.
  intros Hs. destruct e as [title now load|id now|id raw now now'|i|i|i ready spawned now|i write now|i text now
    |i kind text now now'|request| |id|]; cbn [step]; intros H.
  - injection H as <-. now apply create_session_good.
  - injection H as <-. now apply safe_good, activate_session_good.
  - injection H as <-. now apply safe_good, send_command_good.
  - apply bind_Some in H as (a&Ha&H). destruct (Actor.phase a) eqn:Hp; try discriminate.
    destruct (Server.gate s) eqn:Hg; [discriminate|]. injection H as <-. now apply safe_good, (acquire_good i a).
  - apply bind_Some in H as (a&Ha&H). destruct (Actor.phase a) eqn:Hp; try discriminate.
    pose proof (claim_good i a _ _ _ s Hs Ha Hp) as Hc. cbv zeta in Hc.
    destruct (claim_initial_survey _ _ _ _) as [survey s2]. injection H as <-. now apply safe_good.
  - apply bind_Some in H as (a&Ha&H). destruct (Actor.phase a) eqn:Hp; try discriminate.
    injection H as <-. now apply safe_good, start_good.
  - apply bind_Some in H as (a&Ha&H). destruct (Actor.phase a) eqn:Hp; try discriminate.
    assert (Hr : is_running a.(Actor.phase) = true) by now rewrite Hp.
    destruct (Actor.queue a) as [|[text|] queue].
    + destruct (closed s i); [|discriminate]. injection H as <-. now apply safe_good, (stop_child_good i a).
    + injection H as <-. apply safe_good; [exact Hs|].
      assert (H1 : safe s (change_actor i (Actor.with_queue queue) s)) by now apply requeue_safe.
      etransitivity; [exact H1|]. apply (type_good i (Actor.with_queue queue a)); [now apply H1| |exact Hr].
      unfold change_actor. cbn. rewrite (lookup_alter_Some _ i i _ a Ha). now rewrite decide_True.
    + injection H as <-. now apply safe_good, (stop_child_good i a).
  - apply bind_Some in H as (a&Ha&H). destruct (Actor.phase a) eqn:Hp; try discriminate.
    injection H as <-. apply safe_good, exit_good; auto. now rewrite Hp.
  - apply bind_Some in H as (a&Ha&H). destruct (existsb _ _); [|discriminate]. injection H as <-.
    now apply safe_good, quiet_safe, quiet_record_process_output.
  - injection H as <-. now apply safe_good, quiet_safe, quiet_on_store.
  - injection H as <-. now apply safe_good, quiet_safe, quiet_on_store.
  - injection H as <-. now apply safe_good, quiet_safe, quiet_on_store.
  - injection H as <-. now apply safe_good, terminate_safe.
Qed.

(** How many sessions with the identifier are created. *)
Definition creations (id : string) (events : list Event) : nat :=
  list_sum (map (fun e => created e id) events).

Lemma run_good events s s' : ServerOk s -> run os config events s = Some s' ->
  good (fun id => creations id events) s s'.
Proof.
  unfold creations, list_sum. revert s. induction events as [|e events IH]; intros s Hs; cbn [run].
  { intros [= <-]. split; [exact Hs|]. intros id. cbn. lia. }
  intros H. apply bind_Some in H as (s1&H1&H2). destruct (step_good e s s1 Hs H1) as [Hs1 Ht1].
  destruct (IH s1 Hs1 H2) as [Hs' Ht']. split; [exact Hs'|]. intros id. specialize (Ht1 id). specialize (Ht' id).
  cbn in *. lia.
Qed.

(** The server starts within the invariant. *)
Lemma forget_running_ok c : SessionOk c -> SessionOk (forget_running c).
Proof.
  unfold forget_running. destruct (String.eqb _ _); [|easy]. apply milder_status; [|discriminate].
  apply list_elem_of_In. cbn. auto 10.
Qed.
Lemma init_ok saved store :
  (within_bounds -> Forall SessionOk saved.(PersistedState.sessions)) -> ServerOk (init saved store).
Proof.
  intros Hs. pose proof (load_state_spec saved) as (_&Hlen&_&older&Hperm&_). split.
  - intros Hw. specialize (Hs Hw). change (Server.sessions (init saved store)) with (load_state saved).(PersistedState.sessions).
    assert (H : Forall SessionOk (map forget_running (PersistedState.sessions saved))).
    { apply list.Forall_forall. intros c Hc. apply list_elem_of_fmap in Hc as (d&->&Hd).
      rewrite list.Forall_forall in Hs. now apply forget_running_ok, Hs. }
    rewrite Hperm in H. now apply Forall_app in H as [_ H].
  - exact Hlen.
  - intros i. split; [discriminate|]. now intros (a&[=]&_).
  - discriminate.
  - constructor.
  - constructor.
  - discriminate.
  - constructor.
Qed.
Lemma boot_safe saved store : safe (init saved store) (boot saved store).
Proof.
  unfold boot, restore_active_runtime. destruct (Server.active _) as [id|] eqn:Hactive; [|reflexivity].
  destruct (is_none _); [reflexivity|]. set (s1 := change_session id _ _).
  assert (Hq : quiet (init saved store) s1).
  { apply quiet_change. intros c. etransitivity; [apply (milder_compact false)|]. now apply milder_other. }
  etransitivity; [apply quiet_safe, Hq|]. apply spawn_safe. now rewrite (qu_active _ _ Hq).
Qed.
Lemma boot_ok saved store :
  (within_bounds -> Forall SessionOk saved.(PersistedState.sessions)) -> ServerOk (boot saved store).
Proof. intros Hs. apply boot_safe. now apply init_ok. Qed.
End Events.

(** ** Commands *)
Section Commands.
Context {json : Json} {access : JsonAccess} {codec : PlotCodec} {sqlite : Sqlite}.
Context {files : FileCodec} {observations : ObservationCodec} {uris : UriParser}.
Context (os : System) (config : Settings.t).
Implicit Types (s : Server.t) (c : Conversation).

Lemma find_session_id l id c : find_session l id = Some c -> c.(WebSession.Session.id) = id /\ c ∈ l.
Proof.
  intros H. apply List.find_some in H as [Hin Heq]. split; [now apply String.eqb_eq|now apply list_elem_of_In].
Qed.
Lemma find_update l id f c :
  find_session l id = Some c -> (f c).(WebSession.Session.id) = id ->
  find_session (update_session id f l) id = Some (f c).
Proof.
  unfold find_session. intros H Hid. induction l as [|d l IH]; cbn in *; [discriminate|].
  destruct (String.eqb (WebSession.Session.id d) id) eqn:E; cbn.
  - injection H as ->. now rewrite Hid, String.eqb_refl.
  - rewrite E. auto.
Qed.





(** The event that shows a command, and the events of the session with it. *)
Definition command_event c (command : string) (now : Z) : TerminalEvent.t :=
  TerminalEvent.mk (next_event_id c.(WebSession.Session.events)) now "operator" ("Operator> " +:+ command).
Definition events_with c (event : TerminalEvent.t) : list TerminalEvent.t :=
  (if (length c.(WebSession.Session.events) =? MAX_EVENTS)%nat
   then drop 1 c.(WebSession.Session.events) else c.(WebSession.Session.events)) ++ [event].

(** The recorded session, in the server that goes on to send. *)
Lemma transmit_recorded id command now now' s c :
  find_session (Server.sessions s) id = Some c ->
  let outgoing := outgoing_text (WebSession.Session.with_last_used_at_ms now c) command in
  exists c2 s2,
    find_session (Server.sessions s2) id = Some c2
    /\ c2.(WebSession.Session.events) = events_with c (command_event c command now')
    /\ c2.(WebSession.Session.summary_pending) = outgoing.2.(WebSession.Session.summary_pending)
    /\ c2.(WebSession.Session.events_since_compaction)
       = saturating_add c.(WebSession.Session.events_since_compaction) 1
    /\ s2 = publish (UiUpdate.mk "terminal" (Some id) (Some (command_event c command now')))
              (change_session id (fun _ => c2) s)
    /\ transmit os config id command now now' s
       = (sent ← (fun s =>
            match Server.runtime s2 with
            | Some runtime =>
                let (sent, s') := try_send runtime.(RuntimeHandle.actor) (Input outgoing.1) s in (Ok sent, s')
            | None => (Ok false, s)
            end) ;
          lift (reject_if (negb sent) (Api SERVICE_UNAVAILABLE "终端进程暂不可写，请稍后重试")) ;;
          persist os config ;;
          gets Server.persisted) s2.
Proof.
  intros Hfind outgoing. unfold transmit. rewrite bind_run. cbn [gets]. rewrite lift_bind_run, Hfind. cbn [ok_or].
  fold outgoing. assert (Ho : outgoing.2.(WebSession.Session.events) = c.(WebSession.Session.events)
    /\ outgoing.2.(WebSession.Session.events_since_compaction) = c.(WebSession.Session.events_since_compaction)).
  { unfold outgoing, outgoing_text. now destruct (_ && _). }
  destruct outgoing as [text c1] eqn:E1. cbn [fst snd] in *. unfold outgoing in E1. clear outgoing.
  destruct (push_event c1 "operator" ("Operator> " +:+ command) now') as [c2 event] eqn:E2.
  pose proof (recorded_milder _ _ _ _ _ _ _ _ E1 E2) as Hm. unfold push_event in E2.
  cbn [is_empty String.append] in E2. injection E2 as <- <-. destruct Ho as [He Hn].
  rewrite He, Hn in *. set (c2 := WebSession.Session.with_events_since_compaction _ _) in *.
  destruct (find_session_id _ _ _ Hfind) as [Hcid _].
  exists c2, (publish_event id (Some (command_event c command now')) (change_session id (fun _ => c2) s)).
  split; [|repeat split].
  apply (find_update _ _ (fun _ => c2) c Hfind). rewrite (mi_id _ _ Hm). exact Hcid.
Qed.
End Commands.

(** ** The lives of a server *)
Section Lives.
Context {json : Json} {access : JsonAccess} {codec : PlotCodec} {sqlite : Sqlite}.
Context {files : FileCodec} {observations : ObservationCodec} {uris : UriParser}.
Context (os : System) (config : Settings.t).

(** The server started again and again, each time with the sessions and files it had at the end
    of the life before: the agents that were started, and the sessions of the last life. *)
Fixpoint lives (saved : PersistedState.t) (store : Store.t) (runs : list (list Event))
    : option (list Child.t * PersistedState.t) :=
  match runs with
  | [] => Some ([], saved)
  | events :: runs =>
      s ← run os config events (boot saved store) ;
      '(children, last) ← lives s.(Server.persisted) s.(Server.store) runs ;
      Some (s.(Server.children) ++ children, last)
  end.

Lemma pending_perm id l l' : Permutation l l' -> pending id l = pending id l'.
Proof. unfold pending, list_sum. induction 1; cbn in *; lia. Qed.
Lemma pending_loaded id saved :
  (pending id (load_state saved).(PersistedState.sessions) <= pending id saved.(PersistedState.sessions))%nat.
Proof.
  destruct (load_state_spec saved) as (_&_&_&older&Hperm&_).
  assert (H : (pending id (map forget_running saved.(PersistedState.sessions))
            <= pending id saved.(PersistedState.sessions))%nat).
  { apply milder_pending. clear Hperm.
    induction (PersistedState.sessions saved) as [|c l IH]; [constructor|]. constructor; [|exact IH].
    unfold forget_running. destruct (String.eqb _ _); [|reflexivity]. apply milder_status; [|discriminate].
    apply list_elem_of_In. cbn. auto 10. }
  rewrite (pending_perm id _ _ Hperm) in H. unfold pending, list_sum in *. rewrite map_app, foldr_app in H.
  revert H. generalize (map (session_weight id) (PersistedState.sessions (load_state saved))).
  intros l. induction (map _ older) as [|w ws IH]; cbn; lia.
Qed.

(** One life. *)
Lemma life_surveys saved store events s id :
  run os config events (boot saved store) = Some s ->
  (length (List.filter (surveys id) s.(Server.children)) + pending id (Server.sessions s)
   <= creations id events + pending id saved.(PersistedState.sessions))%nat.
Proof.
  intros Hrun. pose (loaded := False : Loaded).
  assert (Hboot : ServerOk (boot saved store)) by (apply boot_ok; now intros []).
  destruct (run_good os config events _ s Hboot Hrun) as [_ H]. specialize (H id).
  pose proof (proj2 (boot_safe saved store) id) as H0. pose proof (pending_loaded id saved) as H1.
  assert (Hinit : total id (init saved store) = pending id (load_state saved).(PersistedState.sessions)).
  { unfold total. cbn. change (Server.sessions (init saved store)) with (load_state saved).(PersistedState.sessions). lia. }
  unfold total at 1 in H. lia.
Qed.
End Lives.


(** C18: at most one agent at a time: after any interleaving of requests, actors and outputs, at
    most one actor is past the gate, so at most one agent has the socket of the planner and the
    radio; every actor starts at most one agent, only agents that were started are written to, the
    runtime belongs to the active session, and there are at most two sessions.  When each of the
    saved sessions had at most 240 numbered events and a bounded summary, each session has. *)
Theorem one_agent_at_a_time {json : Json} {access : JsonAccess} {codec : PlotCodec} {sqlite : Sqlite}
    {files : FileCodec} {observations : ObservationCodec} {uris : UriParser} (os : System) (config : Settings.t)
    (saved : PersistedState.t) (store : Store.t) (events : list Event) (s : Server.t) :
  run os config events (boot saved store) = Some s ->
  (forall i j a b, s.(Server.actors) !! i = Some a -> s.(Server.actors) !! j = Some b ->
     holding a.(Actor.phase) = true -> holding b.(Actor.phase) = true -> i = j)
  /\ NoDup (map Child.actor s.(Server.children))
  /\ (forall i text, (i, text) ∈ s.(Server.typed) -> i ∈ map Child.actor s.(Server.children))
  /\ (forall h, s.(Server.runtime) = Some h ->
        Server.active s = Some h.(RuntimeHandle.session_id)
        /\ exists a, s.(Server.actors) !! h.(RuntimeHandle.actor) = Some a
             /\ a.(Actor.session_id) = h.(RuntimeHandle.session_id))
  /\ (length (Server.sessions s) <= MAX_SESSIONS)%nat
  /\ (Forall SessionOk saved.(PersistedState.sessions) -> Forall SessionOk (Server.sessions s)).
Proof.
  intros Hrun. pose (loaded := Forall SessionOk saved.(PersistedState.sessions) : Loaded).
  destruct (run_good os config events _ s (boot_ok saved store (fun H : loaded => H)) Hrun) as [Hs _].
  pose proof (one_holder s Hs) as Hone. destruct Hs as [A B C D E F P G].
  split; [exact Hone|split; [exact F|split; [|split; [exact D|split; [exact B|exact A]]]]].
  - intros i text Hin. rewrite list.Forall_forall in G. exact (G _ Hin).
Qed.

(** C20: no creation of a session lets two of its agents survey: however sessions are activated
    and agents restarted, and in all lives of the server together, the agents of a session that
    were told to survey first, and the sessions whose survey is still pending, are no more than
    the sessions with that identifier that were created and the ones that were pending in the
    first place.  It is assumed that each life starts with the sessions as the one before held them
    at its end, that is, that their last change was saved: the server goes on when a save fails,
    and a survey that was started after the last good save is started again in the next life. *)
Theorem initial_survey_starts_once {json : Json} {access : JsonAccess} {codec : PlotCodec} {sqlite : Sqlite}
    {files : FileCodec} {observations : ObservationCodec} {uris : UriParser} (os : System) (config : Settings.t)
    (saved last : PersistedState.t) (store : Store.t) (runs : list (list Event)) (children : list Child.t)
    (id : string) :
  lives os config saved store runs = Some (children, last) ->
  (length (List.filter (surveys id) children) + pending id last.(PersistedState.sessions)
   <= list_sum (map (creations id) runs) + pending id saved.(PersistedState.sessions))%nat.
Proof.
  revert saved store children. induction runs as [|events runs IH]; intros saved store children; cbn [lives].
  { intros [= <- <-]. cbn. lia. }
  intros H. apply bind_Some in H as (s&Hrun&H). apply bind_Some in H as ([later rest]&Hlives&[= <- <-]).
  specialize (IH _ _ _ Hlives). pose proof (life_surveys os config saved store events s id Hrun) as Hlife.
  change (PersistedState.sessions (Server.persisted s)) with (Server.sessions s) in IH.
  rewrite List.filter_app, length_app. cbn [map]. unfold list_sum in *. cbn [foldr]. lia.
Qed.

(** C40: a start that failed is not retried: when the agent of the active session could not be
    started, a command for that session is answered with "try again later" although it is shown
    as entered, as the last event of the session and to the browsers; the dead actor stays the
    runtime and no new one is started: trying again fails in the same way until the events of the
    session reach the limit of the compaction. *)
Theorem failed_start_blocks_commands {json : Json} {files : FileCodec} (os : System) (config : Settings.t)
    (id raw : string) (now now' : Z) (s : Server.t) (h : RuntimeHandle.t) (a : Actor.t) (c : Conversation) :
  Server.active s = Some id -> s.(Server.runtime) = Some h -> h.(RuntimeHandle.session_id) = id ->
  s.(Server.actors) !! h.(RuntimeHandle.actor) = Some a -> a.(Actor.phase) = Done ->
  find_session (Server.sessions s) id = Some c ->
  c.(WebSession.Session.events_since_compaction) < COMPACT_AT_EVENTS ->
  1 <= len (single_line raw) <= MAX_COMMAND_BYTES ->
  let shown := command_event c (single_line raw) now' in
  exists s' c',
    send_command os config id raw now now' s
      = (Err (Api SERVICE_UNAVAILABLE "终端进程暂不可写，请稍后重试"), s')
    /\ Server.active s' = Some id /\ s'.(Server.runtime) = Some h /\ s'.(Server.actors) = s.(Server.actors)
    /\ s'.(Server.children) = s.(Server.children) /\ s'.(Server.typed) = s.(Server.typed)
    /\ find_session (Server.sessions s') id = Some c'
    /\ c'.(WebSession.Session.events) = events_with c shown
    /\ s'.(Server.updates) = UiUpdate.mk "terminal" (Some id) (Some shown) :: s.(Server.updates)
    /\ c'.(WebSession.Session.events_since_compaction)
       = saturating_add c.(WebSession.Session.events_since_compaction) 1.
Proof.
  intros Hactive Hrt Hhid Ha Hdone Hfind Hfew Hlen.
  assert (E : ensure_runtime id s = s).
  { unfold ensure_runtime, runs_session. rewrite Hrt, Hhid, String.eqb_refl. unfold should_compact.
    rewrite Hfind. now rewrite (proj2 (Z.leb_gt _ _) Hfew). }
  destruct (transmit_recorded os config id (single_line raw) now now' s c Hfind)
    as (c2&s2&Hfind2&Hevents&_&Hcount&Hs2&Ht).
  assert (Hq : Server.active s2 = Some id /\ Server.runtime s2 = Some h /\ Server.actors s2 = Server.actors s)
    by now rewrite Hs2.
  destruct Hq as (Hactive2&Hrt2&Hact2). exists s2, c2. split; [|rewrite Hs2 in *; now repeat split].
  unfold send_command. cbv zeta. rewrite lift_bind_run.
  assert (Hne : is_empty (single_line raw) = false).
  { destruct (single_line raw); [unfold len, length_z in Hlen; cbn in Hlen; lia|reflexivity]. }
  rewrite Hne, (proj2 (Z.ltb_ge _ _) (proj2 Hlen)). cbn [orb reject_if]. rewrite bind_run. cbn [gets].
  rewrite lift_bind_run, Hactive. cbn [is_str]. rewrite String.eqb_refl. cbn [negb reject_if].
  rewrite bind_run. cbn [modify]. rewrite E, Ht, bind_run, Hrt2. unfold try_send. rewrite Hact2, Ha.
  unfold accepts. now rewrite Hdone.
Qed.

(** ** Evaluated samples *)
Module WebSafetySamples.
#[local] Existing Instances ResultSamples.json ResultSamples.access ResultSamples.codec ResultSamples.sqlite WebConfigSamples.uris.
#[local] Instance files : FileCodec := {|
  settings_from_slice := fun _ => Err "unknown"%string; settings_to_vec := fun _ => Err "unknown"%string;
  state_from_slice := fun _ => Err "unknown"%string; state_to_vec := fun _ => Ok [123; 125];
  request_from_slice := fun _ => Err "unknown"%string; request_to_vec := fun _ => Err "unknown"%string;
|}.
#[local] Instance observations : ObservationCodec := fun _ => Err "unknown"%string.

Definition config : Settings.t :=
  Settings.mk (SocketAddr.V4 [127; 0; 0; 1] 8787)
    (Config.mk "/etc/request.json" "/run/session.sock" "127.0.0.1:7000" "/captures")
    (path_of "/bin/sdr-agent") (path_of "/var/state.json") (path_of "/var/provider.json")
    (path_of "/db/results") (path_of "/captures").
Definition id : string := "session-1000".

(** The session is created and its agent surveys; a command; another session takes over
    while the first agent is still there, and the first one is activated again. *)
Definition events : list Event :=
  [Create None 1000 (Ok None); Acquire 0; Claim 0; Start 0 true None 1001;
   Output 0 "system" "首次扫频完成：768 点" 1002 1002;
   SendCommand id "  scan   the band " 1003 1003; Deliver 0 Written 1004;
   Create None 2000 (Ok None); Deliver 0 Written 2001; Acquire 1; Activate id 2002; Claim 1;
   Start 1 false None 2003; Acquire 2; Claim 2; Start 2 true None 2004].
Definition run_events (events : list Event) : option Server.t :=
  run ResultSamples.system config events (boot PersistedState.default ResultSamples.empty_store).

Definition state_after (events : list Event) : Server.t :=
  default (init PersistedState.default ResultSamples.empty_store) (run_events events).
(** The socket of the planner was not there: the actor has ended. *)
Definition failed : Server.t := state_after [Create None 1000 (Ok None); Acquire 0; Claim 0; Start 0 false None 1001].
Definition failed_session : Conversation :=
  default (new_session EmptyString EmptyString 0 default_initial_survey false)
    (find_session (Server.sessions failed) id).
(** An instruction at the end of these events, and what becomes of it. *)
Definition sent : result ApiError PersistedState.t * Server.t :=
  send_command ResultSamples.system config id " go  on" 2005 2005 (state_after events).
End WebSafetySamples.

(** One agent surveys, the other one, of the same session, does not; nor does one of the next
    life of the server, in which the session is restored. *)
Lemma initial_survey_starts_once_witness :
  let runs := [WebSafetySamples.events; [Acquire 0; Claim 0; Start 0 true None 3000]] in
  exists children last,
    @lives ResultSamples.json ResultSamples.access ResultSamples.codec ResultSamples.sqlite WebSafetySamples.files
      WebSafetySamples.observations WebConfigSamples.uris ResultSamples.system WebSafetySamples.config
      PersistedState.default ResultSamples.empty_store runs = Some (children, last)
    /\ map (surveys WebSafetySamples.id) children = [false; true; false]
    /\ (length (List.filter (surveys WebSafetySamples.id) children)
        + pending WebSafetySamples.id last.(PersistedState.sessions) <= 1)%nat.
Proof.
  intros runs. set (outcome := lives _ _ _ _ _).
  exists (default ([], PersistedState.default) outcome).1, (default ([], PersistedState.default) outcome).2.
  assert (E : outcome = Some ((default ([], PersistedState.default) outcome).1,
                              (default ([], PersistedState.default) outcome).2)) by (vm_compute; reflexivity).
  split; [exact E|]. split; [vm_compute; reflexivity|].
  etransitivity; [exact (@initial_survey_starts_once ResultSamples.json ResultSamples.access ResultSamples.codec
    ResultSamples.sqlite WebSafetySamples.files WebSafetySamples.observations WebConfigSamples.uris
    ResultSamples.system WebSafetySamples.config PersistedState.default _ ResultSamples.empty_store runs _
    WebSafetySamples.id E)|vm_compute; lia].
Defined.

Lemma one_agent_at_a_time_witness :
  let s := WebSafetySamples.state_after WebSafetySamples.events in
  map Actor.phase s.(Server.actors) = [Done; Done; Running None]
  /\ s.(Server.typed) = [(0%nat, "/quit"); (0%nat, "/stop"); (0%nat, "scan the band")]%string
  /\ NoDup (map Child.actor s.(Server.children)).
Proof.
  intros s. split; [vm_compute; reflexivity|]. split; [vm_compute; reflexivity|].
  apply (@one_agent_at_a_time ResultSamples.json ResultSamples.access ResultSamples.codec
    ResultSamples.sqlite WebSafetySamples.files WebSafetySamples.observations WebConfigSamples.uris ResultSamples.system
    WebSafetySamples.config PersistedState.default ResultSamples.empty_store WebSafetySamples.events s);
    vm_compute; reflexivity.
Defined.

(** Trying again does not help. *)
Lemma failed_start_blocks_commands_witness :
  exists s', @send_command ResultSamples.json WebSafetySamples.files ResultSamples.system WebSafetySamples.config
       WebSafetySamples.id "again" 1005 1005 WebSafetySamples.failed
     = (Err (Api SERVICE_UNAVAILABLE "终端进程暂不可写，请稍后重试"), s')
  /\ s'.(Server.actors) = WebSafetySamples.failed.(Server.actors).
Proof.
  edestruct (@failed_start_blocks_commands ResultSamples.json WebSafetySamples.files ResultSamples.system
    WebSafetySamples.config WebSafetySamples.id "again" 1005 1005 WebSafetySamples.failed
    (RuntimeHandle.mk WebSafetySamples.id 0) (Actor.mk WebSafetySamples.id [] Done)
    WebSafetySamples.failed_session) as (s'&c'&H1&_&_&H2&_).
  - vm_compute. reflexivity.
  - vm_compute. reflexivity.
  - reflexivity.
  - vm_compute. reflexivity.
  - reflexivity.
  - vm_compute. reflexivity.
  - vm_compute. reflexivity.
  - split; vm_compute; discriminate.
  - exists s'. split; [exact H1|exact H2].
Defined.


(** Two sessions created within one millisecond have one identifier, and neither can be
    evicted: every later creation is refused. *)
Example same_millisecond :
  fst (@create_session ResultSamples.json WebSafetySamples.files ResultSamples.system WebSafetySamples.config None 3000 (Ok None)
     (WebSafetySamples.state_after [Create None 1000 (Ok None); Create None 1000 (Ok None)]))
  = Err (Api CONFLICT "没有可丢弃的非活动对话").
Proof. vm_compute. reflexivity. Qed.

(** The exit of an old agent takes the runtime of the new one of the same session away. *)
Example old_agent_exits :
  let s := WebSafetySamples.state_after
    [Create None 1000 (Ok None); Acquire 0; Claim 0; Start 0 true None 1001; Create None 2000 (Ok None);
     Activate WebSafetySamples.id 2001; Exit 0 "终端进程已退出" 2002] in
  Server.active s = Some WebSafetySamples.id /\ s.(Server.runtime) = None
  /\ map Actor.phase s.(Server.actors) = [Done; Waiting; Waiting].
Proof. vm_compute. auto. Qed.

(** A terminal that is left before its agent starts: the agent is started with the survey, told
    to stop at once, and the survey counts as running. *)
Example survey_is_lost :
  let s := WebSafetySamples.state_after
    [Create None 1000 (Ok None); Create None 2000 (Ok None); Acquire 0; Claim 0; Start 0 true None 2001;
     Deliver 0 Written 2002] in
  s.(Server.typed) = [(0%nat, "/quit"); (0%nat, "/stop")]%string
  /\ map WebSession.Session.initial_survey_status (Server.sessions s) = ["running"; "pending"]%string.
Proof. vm_compute. auto. Qed.
