(* ===== verification/WebMain.v ===== *)
(** * The web console from its start to its end

    [web-console/src/main.rs], lines 330 to 424 and 2443 to 2465: [main] and [run].  What
    is prepared before the server listens, the requests and actors while it serves, and
    what happens when it is told to stop.  The address is bound by the operating system and
    the database file is made by SQLite: both are arguments.  The state that [main] ends with
    is the one after the wait of at most five seconds; then the process exits, nothing of it
    moves any more, and an agent that still runs is killed with it ([kill_on_drop]). *)
From S2P Require Import Prelude Hoare Text Net Utf8 F32 Protocol Policy Framing Sdr Session TerminalState ConsoleText WebConfig Files WebResults WebSession WebFiles WebOutput WebAgent WebServer WebSafety.

Section Main.
Context {json : Json} {access : JsonAccess} {codec : PlotCodec} {sqlite : Sqlite}.
Context {files : FileCodec} {observations : ObservationCodec} {uris : UriParser}.
Context (os : System).
(** What opening the database does to the files, and the address. *)
Context (database_file : Path.t -> M Fs.t ApiError unit).
Context (bind : SocketAddr.t -> result string unit).

Definition initialize_result_database (path : Path.t) : M Store.t ApiError unit :=
  open_result_database os path ;;
  on_files (database_file path) ;;
  statement CreateTables ;;
  on_files (io (set_mode os path 384)).

(** Everything before the state of the server is made. *)
Definition prepare (env : string -> option string) : M Store.t ApiError (Settings.t * PersistedState.t) :=
  config ← lift (ok_or (internal_error "invalid socket address syntax") (Settings.from_env env)) ;
  initialize_result_database config.(Settings.result_db_path) ;;
  on_files (initialize_capture_root os config.(Settings.capture_root)) ;;
  persisted ← on_files (read_state os config.(Settings.state_path)) ;
  mret (config, persisted).

Definition start (env : string -> option string) : M Store.t ApiError (Settings.t * Server.t) :=
  '(config, persisted) ← prepare env ;
  store ← gets (fun store => store) ;
  mret (config, restore_active_runtime (Server.mk persisted None [] None [] [] store [])).

(** A request over HTTP, or the signal; the rest are moves of actors and their output. *)
Definition from_outside (e : Event) : bool :=
  match e with
  | Acquire _ | Claim _ | Start _ _ _ _ | Deliver _ _ _ | Exit _ _ _ | Output _ _ _ _ _ => false
  | _ => true
  end.

(** Requests are served until the signal; while the server drains, those that are there;
    then the actors have five seconds more, and no requests. *)
Definition serve (config : Settings.t) (serving draining closing : list Event) (s : Server.t) : option Server.t :=
  s ← run os config serving s ;
  s ← run os config draining (begin_runtime_shutdown s) ;
  if existsb from_outside closing then None else run os config closing (begin_runtime_shutdown s).

(** The exit code, and the server as it is at the end if it listened; [None] for events
    that cannot happen. *)
Definition main (env : string -> option string) (serving draining closing : list Event) (store : Store.t)
    : option (Z * option Server.t) :=
  match start env store with
  | (Err _, _) => Some (1, None)
  | (Ok (config, s), _) =>
      match bind config.(Settings.listen) with
      | Err _ => Some (1, None)
      | Ok _ => s ← serve config serving draining closing s ; Some (0, Some s)
      end
  end.

(** ** The start *)
Lemma wp_read_state path s :
  wp (read_state os path)
    (fun persisted _ => exists saved, persisted = load_state saved
       /\ (saved = PersistedState.default \/ exists content, state_from_slice content = Ok saved))
    (fun _ _ => True) s.
Proof.
  unfold read_state. apply wp_last. intros there s1. destruct there; cbn [negb].
  - apply wp_last. intros content s2. apply wp_bind, wp_lift; [|easy]. intros saved Hsaved. apply wp_ret.
    exists saved. split; [reflexivity|]. right. exists content.
    destruct (state_from_slice content); [|discriminate]. now injection Hsaved as <-.
  - apply wp_ret. exists PersistedState.default. split; [reflexivity|now left].
Qed.

Lemma start_boots env store config s store' :
  start env store = (Ok (config, s), store') ->
  Settings.from_env env = Some config
  /\ exists saved, s = boot saved store'.
Proof.
  unfold start, prepare. rewrite bind_run, lift_bind_run.
  destruct (Settings.from_env env) as [config0|]; [|discriminate]. cbn [ok_or]. rewrite bind_run.
  destruct (initialize_result_database _ store) as [[[]|e] store1]; [|discriminate]. rewrite bind_run.
  destruct (on_files _ store1) as [[[]|e] store2]; [|discriminate]. rewrite bind_run.
  unfold on_files at 1. pose proof (wp_read_state (Settings.state_path config0) store2.(Store.files)) as H.
  unfold wp in H. destruct (read_state os _ _) as [[persisted|e] files3]; [|discriminate].
  destruct H as (saved&->&_). cbn [mret M_ret]. intros [= <- <- <-]. split; [reflexivity|]. now exists saved.
Qed.

(** ** The end *)

(** A change of what belongs to actor [i]: the other actors are as they were, what was written
    stays written, and a server without a runtime gets none. *)
Record beside (i : nat) s s' : Prop := {
  be_runtime : Server.runtime s = None -> Server.runtime s' = None;
  be_typed : exists later, s'.(Server.typed) = later ++ s.(Server.typed);
  be_actors : forall j, j <> i -> s'.(Server.actors) !! j = s.(Server.actors) !! j;
}.
#[local] Instance beside_preorder i : PreOrder (beside i).
Proof.
  split; [intros s; split; [auto|now exists []|auto]|]. intros s1 s2 s3 [H1 [l1 H2] H3] [H4 [l2 H5] H6].
  split; [auto|exists (l2 ++ l1); now rewrite H5, H2, app_assoc|]. intros j Hj. now rewrite H6, H3.
Qed.

Lemma quiet_beside i s s' : quiet s s' -> beside i s s'.
Proof.
  intros Hq. split; [now rewrite (qu_runtime _ _ Hq)|exists []; now rewrite (qu_typed _ _ Hq)|].
  intros j _. now rewrite (qu_actors _ _ Hq).
Qed.
Lemma change_beside i f s : beside i s (change_actor i f s).
Proof. split; [easy|now exists []|]. intros j Hj. apply list_lookup_alter_ne. congruence. Qed.
Lemma typed_beside i entries s : beside i s (Server.with_typed (entries ++ s.(Server.typed)) s).
Proof. split; [easy|now exists entries|easy]. Qed.
Lemma gate_beside i gate s : beside i s (Server.with_gate gate s).
Proof. split; [easy|now exists []|easy]. Qed.
Lemma finish_beside i s : beside i s (finish i s).
Proof. unfold finish. etransitivity; [|apply gate_beside]. apply change_beside. Qed.
#[local] Hint Resolve change_beside finish_beside : core.
Lemma quiet_then i s s1 s2 : quiet s s1 -> beside i s1 s2 -> beside i s s2.
Proof. intros H1 H2. transitivity s1; [now apply quiet_beside|exact H2]. Qed.

Lemma abandon_beside config i id text now s : beside i s (abandon os config i id text now s).
Proof. unfold abandon. eapply quiet_then; [apply quiet_record_process_output|auto]. Qed.
Lemma stop_child_beside i temporary s : beside i s (stop_child os i temporary s).
Proof.
  unfold stop_child. etransitivity; [apply (typed_beside i [(i, "/quit"); (i, "/stop")]%string)|].
  eapply quiet_then; [apply quiet_cleanup|auto].
Qed.
Lemma start_agent_beside config i a gain observation save_iq survey ready spawned now s :
  beside i s (start_agent os config i a gain observation save_iq survey ready spawned now s).
Proof.
  unfold start_agent. cbv zeta. destruct ready; cbn [negb]; [|apply abandon_beside].
  unfold on_store. destruct (on_files _ _) as [prepared store]. eapply quiet_then; [apply (quiet_store store)|].
  destruct prepared as [[path temporary]|[status message]]; [|apply abandon_beside].
  destruct (agent_arguments _ _ _ _ _ _); [destruct spawned|];
    [eapply quiet_then; [apply quiet_cleanup|apply abandon_beside]| |
     eapply quiet_then; [apply quiet_cleanup|apply abandon_beside]].
  etransitivity; [apply (change_beside i (Actor.with_phase (Running temporary)))|].
  etransitivity; [|apply quiet_beside, quiet_record_process_output]. split; [easy|now exists []|easy].
Qed.
Lemma type_command_beside config i id text write now s :
  beside i s (type_command os config i id text write now s).
Proof.
  destruct write; cbn [type_command].
  - apply (typed_beside i [(i, text)]).
  - apply quiet_beside, quiet_record_process_output.
  - etransitivity; [apply (typed_beside i [(i, text)])|]. apply quiet_beside, quiet_record_process_output.
Qed.

(** The actor a move is of. *)
Definition actor_of (e : Event) : nat :=
  match e with
  | Acquire i | Claim i | Start i _ _ _ | Deliver i _ _ | Exit i _ _ | Output i _ _ _ _ => i
  | _ => 0
  end.
Lemma move_beside config e s s' :
  from_outside e = false -> step os config e s = Some s' -> beside (actor_of e) s s'.
Proof.
  intros He H. destruct e as [| | |i|i|i ready spawned now|i write now|i text now|i kind text now now'| | | |];
    try discriminate; cbn [step] in H; apply bind_Some in H as (a&Ha&H); cbn [actor_of].
  - destruct (Actor.phase a), (Server.gate s); try discriminate. injection H as <-.
    etransitivity; [|apply gate_beside]. apply change_beside.
  - destruct (Actor.phase a); try discriminate. pose proof (quiet_claim os config (Actor.session_id a) s) as Hq.
    destruct (claim_initial_survey _ _ _ _) as [survey s1]. injection H as <-.
    cbn [snd] in Hq. eapply quiet_then; [exact Hq|apply change_beside].
  - destruct (Actor.phase a); try discriminate. injection H as <-. apply start_agent_beside.
  - destruct (Actor.phase a); try discriminate. destruct (Actor.queue a) as [|[text|] queue].
    + destruct (closed s i); [|discriminate]. injection H as <-. apply stop_child_beside.
    + injection H as <-. etransitivity; [apply (change_beside i)|apply type_command_beside].
    + injection H as <-. apply stop_child_beside.
  - destruct (Actor.phase a); try discriminate. injection H as <-.
    etransitivity; [|apply finish_beside]. etransitivity; [|apply quiet_beside, quiet_cleanup].
    destruct (exit_quiet os config (Actor.session_id a) text now s) as (s1&Hq&[->| ->]).
    + apply quiet_beside. now apply quiet_saved.
    + eapply quiet_then; [exact Hq|]. etransitivity; [|apply quiet_beside, quiet_try_persist].
      split; [easy|now exists []|easy].
  - destruct (existsb _ _); [|discriminate]. injection H as <-. apply quiet_beside, quiet_record_process_output.
Qed.
Lemma shutdown_runtime s : Server.runtime (begin_runtime_shutdown s) = None.
Proof. unfold begin_runtime_shutdown. now destruct (Server.runtime s) eqn:E. Qed.

(** The agent of actor [i] was told to stop and to quit. *)
Definition Told (i : nat) s : Prop :=
  exists later earlier, s.(Server.typed) = later ++ (i, "/quit"%string) :: (i, "/stop"%string) :: earlier.
Lemma told_beside i j s s' : beside j s s' -> Told i s -> Told i s'.
Proof.
  intros [_ [l H] _] (later&earlier&E). exists (l ++ later), earlier. now rewrite H, E, app_assoc.
Qed.

(** The next move of an actor whose agent runs: a queued command is delivered, or the agent is
    told to stop. *)
Lemma deliver_one config i a write now s :
  Server.runtime s = None -> s.(Server.actors) !! i = Some a -> is_running a.(Actor.phase) = true ->
  exists s', step os config (Deliver i write now) s = Some s'
  /\ match a.(Actor.queue) with
     | Input text :: queue => s'.(Server.actors) !! i = Some (Actor.with_queue queue a)
     | _ => (exists b, s'.(Server.actors) !! i = Some b /\ b.(Actor.phase) = Done) /\ Told i s'
     end.
Proof.
  intros Hrt Ha Hr. destruct (Actor.phase a) as [| | |temporary|] eqn:Hp; try discriminate.
  assert (Hstop : (exists b, Server.actors (stop_child os i temporary s) !! i = Some b /\ b.(Actor.phase) = Done)
    /\ Told i (stop_child os i temporary s)).
  { unfold stop_child. set (s1 := Server.with_typed _ s). pose proof (quiet_cleanup os temporary s1) as Hq. split.
    - exists (Actor.mk a.(Actor.session_id) [] Done). split; [|reflexivity].
      change (alter (fun a => Actor.mk a.(Actor.session_id) [] Done) i (Server.actors (cleanup os temporary s1)) !! i
              = Some (Actor.mk a.(Actor.session_id) [] Done)).
      rewrite (qu_actors _ _ Hq), (lookup_alter_Some _ i i _ a Ha). now rewrite decide_True.
    - exists [], s.(Server.typed). exact (qu_typed _ _ Hq). }
  cbn [step]. rewrite Ha. cbn [mbind option_bind]. rewrite Hp. destruct (Actor.queue a) as [|[text|] queue].
  - unfold closed. rewrite Hrt. eexists. split; [reflexivity|exact Hstop].
  - eexists. split; [reflexivity|].
    set (s1 := change_actor i (Actor.with_queue queue) s).
    assert (Ha1 : Server.actors s1 !! i = Some (Actor.with_queue queue a)).
    { change (alter (Actor.with_queue queue) i (Server.actors s) !! i = Some (Actor.with_queue queue a)).
      rewrite (lookup_alter_Some _ i i _ a Ha). now rewrite decide_True. }
    destruct write; cbn [type_command]; [exact Ha1| |];
      rewrite (qu_actors _ _ (quiet_record_process_output os config _ _ _ _ _ _)); exact Ha1.
  - eexists. split; [reflexivity|exact Hstop].
Qed.

(** How many moves an actor needs to tell its agent to stop: one for each command in front of
    the order to stop, and one for that order or for the end of the channel. *)
Fixpoint needed (queue : list ProcessCommand) : nat :=
  match queue with Input _ :: queue => S (needed queue) | _ => 1 end.
Definition delivers (i : nat) (e : Event) : bool :=
  match e with Deliver j _ _ => (j =? i)%nat | _ => false end.
Definition exits (i : nat) (e : Event) : bool := match e with Exit j _ _ => (j =? i)%nat | _ => false end.
Definition deliveries (i : nat) (events : list Event) : nat := length (List.filter (delivers i) events).

(** An actor that has ended stays ended. *)
Lemma done_move config i a e s s' :
  from_outside e = false -> step os config e s = Some s' ->
  s.(Server.actors) !! i = Some a -> a.(Actor.phase) = Done -> s'.(Server.actors) !! i = Some a.
Proof.
  intros He H Ha Hp. pose proof (move_beside config e s s' He H) as Hb.
  destruct (decide (i = actor_of e)) as [->|Hne]; [|now rewrite (be_actors _ _ _ Hb)].
  destruct e; try discriminate; cbn [step actor_of] in *; rewrite Ha in H; cbn [mbind option_bind] in H;
    try (rewrite Hp in H; discriminate).
  destruct (existsb _ _); [|discriminate]. injection H as <-.
  now rewrite (qu_actors _ _ (quiet_record_process_output os config _ _ _ _ _ _)).
Qed.
(** What a move leaves of an actor whose agent runs. *)
Lemma running_move config i a e s s' :
  from_outside e = false -> step os config e s = Some s' -> Server.runtime s = None ->
  s.(Server.actors) !! i = Some a -> is_running a.(Actor.phase) = true ->
  if exits i e then exists b, s'.(Server.actors) !! i = Some b /\ b.(Actor.phase) = Done
  else if delivers i e then
    match a.(Actor.queue) with
    | Input text :: queue => s'.(Server.actors) !! i = Some (Actor.with_queue queue a)
    | _ => (exists b, s'.(Server.actors) !! i = Some b /\ b.(Actor.phase) = Done) /\ Told i s'
    end
  else s'.(Server.actors) !! i = Some a.
Proof.
  intros He H Hrt Ha Hr. pose proof (move_beside config e s s' He H) as Hb.
  destruct (decide (i = actor_of e)) as [->|Hne].
  2: { rewrite (be_actors _ _ _ Hb) by exact Hne.
       destruct e; cbn [exits delivers actor_of] in *; try rewrite (proj2 (Nat.eqb_neq _ _)) by congruence; exact Ha. }
  destruct e as [| | |i|i|i ready spawned now|i write now|i text now|i kind text now now'| | | |];
    try discriminate; cbn [exits delivers actor_of] in *; rewrite ?Nat.eqb_refl.
  - cbn [step] in H. rewrite Ha in H. cbn [mbind option_bind] in H. now destruct (Actor.phase a).
  - cbn [step] in H. rewrite Ha in H. cbn [mbind option_bind] in H. now destruct (Actor.phase a).
  - cbn [step] in H. rewrite Ha in H. cbn [mbind option_bind] in H. now destruct (Actor.phase a).
  - destruct (deliver_one config i a write now s Hrt Ha Hr) as (s1&H1&Hend). rewrite H in H1.
    injection H1 as <-. exact Hend.
  - cbn [step] in H. rewrite Ha in H. cbn [mbind option_bind] in H. destruct (Actor.phase a) as [| | |temporary|]; try discriminate.
    injection H as <-. exists (Actor.mk a.(Actor.session_id) [] Done). split; [|reflexivity].
    set (s1 := cleanup os temporary _).
    assert (Hacts : Server.actors s1 = Server.actors s).
    { unfold s1. rewrite (qu_actors _ _ (quiet_cleanup os temporary _)).
      destruct (exit_quiet os config (Actor.session_id a) text now s) as (s2&Hq&[->| ->]);
        rewrite (qu_actors _ _ (quiet_try_persist os config _)); exact (qu_actors _ _ Hq). }
    change (alter (fun a => Actor.mk a.(Actor.session_id) [] Done) i (Server.actors s1) !! i
            = Some (Actor.mk a.(Actor.session_id) [] Done)).
    rewrite Hacts, (lookup_alter_Some _ i i _ a Ha). now rewrite decide_True.
  - cbn [step] in H. rewrite Ha in H. cbn [mbind option_bind] in H. destruct (existsb _ _); [|discriminate].
    injection H as <-. now rewrite (qu_actors _ _ (quiet_record_process_output os config _ _ _ _ _ _)).
Qed.

Lemma done_stays config i events : forall s s' a,
  existsb from_outside events = false -> run os config events s = Some s' ->
  s.(Server.actors) !! i = Some a -> a.(Actor.phase) = Done ->
  s'.(Server.actors) !! i = Some a /\ (Told i s -> Told i s').
Proof.
  induction events as [|e events IH]; intros s s' a He H Ha Hp; cbn [run] in H; [now injection H as <-|].
  cbn [existsb] in He. apply orb_false_iff in He as [He Hes]. apply bind_Some in H as (s1&H1&H2).
  destruct (IH s1 s' a Hes H2 (done_move config i a e s s1 He H1 Ha Hp) Hp) as [H3 H4]. split; [exact H3|].
  intros Ht. apply H4. exact (told_beside i _ s s1 (move_beside config e s s1 He H1) Ht).
Qed.

(** The end of an actor, or of the wait. *)
Lemma running_ends config i events : forall s s' a,
  existsb from_outside events = false -> run os config events s = Some s' -> Server.runtime s = None ->
  s.(Server.actors) !! i = Some a -> is_running a.(Actor.phase) = true ->
  (exists b, s'.(Server.actors) !! i = Some b /\ b.(Actor.phase) = Done
     /\ (Told i s' \/ existsb (exits i) events = true))
  \/ (deliveries i events < needed a.(Actor.queue))%nat.
Proof.
  induction events as [|e events IH]; intros s s' a He H Hrt Ha Hr; cbn [run] in H.
  { right. cbn. destruct (Actor.queue a) as [|[]]; cbn; lia. }
  cbn [existsb] in He |- *. apply orb_false_iff in He as [He Hes]. apply bind_Some in H as (s1&H1&H2).
  pose proof (move_beside config e s s1 He H1) as Hb. pose proof (be_runtime _ _ _ Hb Hrt) as Hrt1.
  pose proof (running_move config i a e s s1 He H1 Hrt Ha Hr) as Hm. unfold deliveries. cbn [List.filter].
  destruct (exits i e) eqn:Hx.
  { destruct Hm as (b&Hb1&Hp). left. exists b. destruct (done_stays config i events s1 s' b Hes H2 Hb1 Hp) as [H3 _]. auto. }
  destruct (delivers i e) eqn:Hd.
  2: { destruct (IH s1 s' a Hes H2 Hrt1 Hm Hr) as [(b&H3&H4&H5)|H3]; [left; exists b; auto|right; exact H3]. }
  assert (Hstop : (exists b, s1.(Server.actors) !! i = Some b /\ b.(Actor.phase) = Done) /\ Told i s1 ->
    exists b, s'.(Server.actors) !! i = Some b /\ b.(Actor.phase) = Done /\ (Told i s' \/ false || existsb (exits i) events = true)).
  { intros [(b&Hb1&Hp) Ht]. exists b. destruct (done_stays config i events s1 s' b Hes H2 Hb1 Hp) as [H3 H4]. auto. }
  destruct (Actor.queue a) as [|[text|] queue]; [left; now apply Hstop| |left; now apply Hstop].
  destruct (IH s1 s' (Actor.with_queue queue a) Hes H2 Hrt1 Hm Hr) as [(b&H3&H4&H5)|H3]; [left; exists b; auto|right].
  cbn [length needed Actor.with_queue Actor.queue] in *. unfold deliveries in H3. lia.
Qed.
Lemma closing_runtime config events : forall s s',
  existsb from_outside events = false -> run os config events s = Some s' ->
  Server.runtime s = None -> Server.runtime s' = None.
Proof.
  induction events as [|e events IH]; intros s s' He H Hrt; cbn [run] in H; [now injection H as <-|].
  cbn [existsb] in He. apply orb_false_iff in He as [He Hes]. apply bind_Some in H as (s1&H1&H2).
  exact (IH s1 s' Hes H2 (be_runtime _ _ _ (move_beside config e s s1 He H1) Hrt)).
Qed.
Lemma run_app config before after s :
  run os config (before ++ after) s = (s ← run os config before s ; run os config after s).
Proof.
  revert s. induction before as [|e before IH]; intros s; [reflexivity|]. cbn [app run].
  destruct (step os config e s); [apply IH|reflexivity].
Qed.
End Main.

(** C19: the web console stops what it started: whatever the environment, the requests, the
    signal and the moves of the actors, a run of the program either ends with code 1 before it
    serves anything, or with code 0 after the wait that follows the signal.  At every moment of
    the wait the server has no runtime, at most one actor is past the gate, no actor has started
    two agents, and an actor whose agent runs can move; at the end of the wait it has ended, and
    its agent was told /stop and then /quit or had exited by itself, unless the wait ended before
    the actor had one move for each command in front of the order to stop and one more. *)
Theorem web_console_stops_its_agents
    {json : Json} {access : JsonAccess} {codec : PlotCodec} {sqlite : Sqlite} {files : FileCodec}
    {observations : ObservationCodec} {uris : UriParser} (os : System)
    database_file bind env serving draining closing store code ended :
  main os database_file bind env serving draining closing store = Some (code, ended) ->
  match ended with
  | None => code = 1
  | Some s =>
      code = 0 /\ exists config started store' served drained,
        start os database_file env store = (Ok (config, started), store')
        /\ bind config.(Settings.listen) = Ok tt
        /\ run os config serving started = Some served
        /\ run os config draining (begin_runtime_shutdown served) = Some drained
        /\ forall before after w, closing = before ++ after ->
             run os config before (begin_runtime_shutdown drained) = Some w ->
             run os config after w = Some s
             /\ Server.runtime w = None /\ NoDup (map Child.actor w.(Server.children))
             /\ (forall i j a b, w.(Server.actors) !! i = Some a -> w.(Server.actors) !! j = Some b ->
                 holding a.(Actor.phase) = true -> holding b.(Actor.phase) = true -> i = j)
             /\ forall i a, w.(Server.actors) !! i = Some a -> is_running a.(Actor.phase) = true ->
                  (forall write now, exists w', step os config (Deliver i write now) w = Some w')
                  /\ ((exists b, s.(Server.actors) !! i = Some b /\ b.(Actor.phase) = Done
                         /\ (Told i s \/ existsb (exits i) after = true))
                      \/ (deliveries i after < needed a.(Actor.queue))%nat)
  end.
Proof.
  unfold main. destruct (start os database_file env store) as [[[config s0]|e] store'] eqn:Hstart;
    [|now intros [= <- <-]].
  destruct (start_boots os database_file env store config s0 store' Hstart) as (_&saved&->).
  destruct (bind (Settings.listen config)) as [[]|e] eqn:Hbind; [|now intros [= <- <-]].
  intros H. apply bind_Some in H as (s&Hserve&[= <- <-]). unfold serve in Hserve.
  apply bind_Some in Hserve as (s1&H1&Hserve). apply bind_Some in Hserve as (s2&H2&Hserve).
  destruct (existsb from_outside closing) eqn:Hclosing; [discriminate|].
  split; [reflexivity|]. exists config, (boot saved store'), store', s1, s2. split_and!; [reflexivity|exact Hbind|exact H1|exact H2|].
  intros before after w -> Hw. rewrite run_app, Hw in Hserve. cbn [mbind option_bind] in Hserve.
  rewrite existsb_app in Hclosing. apply orb_false_iff in Hclosing as [Hbefore Hafter].
  pose proof (closing_runtime os config before _ w Hbefore Hw (shutdown_runtime s2)) as Hrt.
  pose (loaded := False : Loaded).
  assert (Hboot : ServerOk (boot saved store')) by (apply boot_ok; now intros []).
  destruct (run_good os config _ _ _ Hboot H1) as [Hs1 _].
  destruct (run_good os config _ _ _ (proj1 (terminate_safe s1) Hs1) H2) as [Hs2 _].
  destruct (run_good os config _ _ _ (proj1 (terminate_safe s2) Hs2) Hw) as [Hs _].
  split; [exact Hserve|]. split; [exact Hrt|]. split; [exact (sv_once _ Hs)|]. split; [exact (one_holder w Hs)|].
  intros i a Ha Hr. split.
  - intros write now. destruct (deliver_one os config i a write now w Hrt Ha Hr) as (w'&Hstep&_). eauto.
  - exact (running_ends os config i after w s a Hafter Hserve Hrt Ha Hr).
Qed.

(** *** A sample run *)
Module WebMainSamples.
#[local] Existing Instances ResultSamples.json ResultSamples.access ResultSamples.codec ResultSamples.sqlite WebConfigSamples.uris WebSafetySamples.files WebSafetySamples.observations.
Definition database_file (path : Path.t) : M Fs.t ApiError unit :=
  _ ← io (create_file ResultSamples.system path) ; mret tt.
Definition bind (_ : SocketAddr.t) : result string unit := Ok tt.
Definition env (name : string) : option string :=
  if String.eqb name "SDR_WEB_LISTEN_HOST" then Some "127.0.0.1"%string else None.
Definition store : Store.t := Store.mk (Fs.mk ∅ []) [] [].
(** A session is created and its agent started; a command is queued when the signal arrives. *)
Definition serving : list Event :=
  [Create None 1000 (Ok None); Acquire 0; Claim 0; Start 0 true None 1001;
   SendCommand "session-1000" "scan the band" 1002 1002].
(** In the wait its actor delivers the command, and then tells the agent to stop. *)
Definition closing : list Event := [Deliver 0 Written 1003; Deliver 0 Written 1004].
Definition outcome : option (Z * option Server.t) :=
  main ResultSamples.system database_file bind env serving [] closing store.
Definition last : Server.t :=
  match outcome with Some (_, Some s) => s | _ => init PersistedState.default store end.
Definition prepared : result ApiError (Settings.t * Server.t) * Store.t :=
  start ResultSamples.system database_file env store.
Definition gone : Actor.t := Actor.mk EmptyString [] Done.
(** The settings, and the server at the start of the wait. *)
Definition waiting : Settings.t * Server.t :=
  match prepared.1 with
  | Ok (config, started) =>
      match run ResultSamples.system config serving started with
      | Some served =>
          match run ResultSamples.system config [] (begin_runtime_shutdown served) with
          | Some drained => (config, begin_runtime_shutdown drained)
          | None => (config, started)
          end
      | None => (config, started)
      end
  | Err _ => (WebSafetySamples.config, last)
  end.
Definition node (path : string) : option Node := prepared.2.(Store.files).(Fs.nodes) !! path_of path.
End WebMainSamples.

(** The files that are prepared: the database for the owner only, and the capture root. *)
Example prepared_files :
  is_Ok WebMainSamples.prepared.1 = true
  /\ WebMainSamples.node "/var/lib/sdrharness/web-console/capture-results.sqlite3" = Some (File 1000 384 [])
  /\ WebMainSamples.node "/var/lib/sdrharness/web-console/captures" = Some (Directory 1000 448).
Proof. vm_compute. auto. Qed.

Lemma sample_outcome :
  @main ResultSamples.json ResultSamples.access ResultSamples.codec ResultSamples.sqlite WebSafetySamples.files
    WebSafetySamples.observations WebConfigSamples.uris ResultSamples.system WebMainSamples.database_file
    WebMainSamples.bind WebMainSamples.env WebMainSamples.serving [] WebMainSamples.closing WebMainSamples.store
  = Some (0, Some WebMainSamples.last).
Proof. vm_compute. reflexivity. Qed.

(** The agent of the sample has a command queued in front of the order to stop; the wait is long
    enough for both, and it is told to stop. *)
Lemma web_console_stops_its_agents_witness :
  exists b, WebMainSamples.last.(Server.actors) !! 0%nat = Some b /\ b.(Actor.phase) = Done
    /\ Told 0 WebMainSamples.last.
Proof.
  destruct (@web_console_stops_its_agents ResultSamples.json ResultSamples.access ResultSamples.codec
    ResultSamples.sqlite WebSafetySamples.files WebSafetySamples.observations WebConfigSamples.uris
    ResultSamples.system WebMainSamples.database_file WebMainSamples.bind WebMainSamples.env
    WebMainSamples.serving [] WebMainSamples.closing WebMainSamples.store 0 (Some WebMainSamples.last)
    sample_outcome) as (_&config&started&store'&served&drained&Hstart&_&Hserved&Hdrained&Hwait).
  assert (E : (config, begin_runtime_shutdown drained) = WebMainSamples.waiting).
  { unfold WebMainSamples.waiting, WebMainSamples.prepared. rewrite Hstart. cbn [fst].
    rewrite Hserved, Hdrained. reflexivity. }
  apply (f_equal snd) in E as E'. cbn [snd] in E'.
  destruct (Hwait [] _ _ eq_refl eq_refl) as (_&_&_&_&H). rewrite E' in H.
  destruct (H 0%nat (default WebMainSamples.gone (WebMainSamples.waiting.2.(Server.actors) !! 0%nat))) as [_ [H0|H0]].
  - vm_compute. reflexivity.
  - vm_compute. reflexivity.
  - destruct H0 as (b&Hb&Hp&[Ht|Ht]); [eauto|]. vm_compute in Ht. discriminate.
  - exfalso. vm_compute in H0. lia.
Defined.
