(* ===== verification/SweepCodec.v ===== *)
(** * IQ blocks: base64, power and SigMF files

    The data path of a sweep point in [controller/src/sweep.rs]: decoding the
    inline base64 block, summing its power, converting the sum to dBFS, and
    recording the block in a SigMF data set on disk. *)
From S2P Require Import Prelude Text F32 Protocol Sdr Execution SweepPlan.

(** ** base64 *)
Section Base64.
Context `{Json}.

Definition invalid_base64 (message : string) : SweepError.t :=
  SweepError.new "agx_iq_base64" message.

Definition base64_value (value : Z) : result SweepError.t Z :=
  if in_range 65 90 value then Ok (value - 65)
  else if in_range 97 122 value then Ok (value - 97 + 26)
  else if in_range 48 57 value then Ok (value - 48 + 52)
  else if value =? 43 then Ok 62
  else if value =? 47 then Ok 63
  else Err (invalid_base64 "invalid IQ base64 character").

(** The byte ['=']. *)
Definition PAD : Z := 61.

(** One block of four characters; [last] says that it is the final one. *)
Definition decode_block (last : bool) (b0 b1 b2 b3 : Z) : result SweepError.t (list Z) :=
  a ← base64_value b0 ;
  b ← base64_value b1 ;
  let c_padding := b2 =? PAD in
  let d_padding := b3 =? PAD in
  reject_if ((c_padding && negb d_padding) || (negb last && (c_padding || d_padding)))
    (invalid_base64 "invalid IQ base64 padding") ;;
  c ← (if c_padding then Ok 0 else base64_value b2) ;
  d ← (if d_padding then Ok 0 else base64_value b3) ;
  let packed :=
    Z.lor (Z.lor (Z.lor (Z.shiftl a 18) (Z.shiftl b 12)) (Z.shiftl c 6)) d in
  Ok (Z.land (Z.shiftr packed 16) 255
        :: (if c_padding then [] else [Z.land (Z.shiftr packed 8) 255])
        ++ (if d_padding then [] else [Z.land packed 255])).

(** The loop over [chunks_exact(4)] with its index. *)
Fixpoint decode_blocks (count block_index : Z) (input : list Z) : result SweepError.t (list Z) :=
  match input with
  | b0 :: b1 :: b2 :: b3 :: rest =>
      block ← decode_block (block_index + 1 =? count) b0 b1 b2 b3 ;
      output ← decode_blocks count (block_index + 1) rest ;
      Ok (block ++ output)
  | _ => Ok []
  end.

Definition decode_base64 (input : string) : result SweepError.t (list Z) :=
  reject_if (is_empty input || negb (len input mod 4 =? 0))
    (invalid_base64 "invalid IQ base64 length") ;;
  decode_blocks (len input / 4) 0 (bytes input).

(** ** Power *)

(** [i16::from_le_bytes]. *)
Definition i16_from_le (low high : Z) : Z :=
  let value := low + 256 * high in
  if value <? 32768 then value else value - 65536.

Definition is_clipped (i q : Z) : bool :=
  (i <=? -2048) || (2047 <=? i) || (q <=? -2048) || (2047 <=? q).

(** The loop over the samples: the power sum and the number of clipped ones. *)
Fixpoint aggregate_loop (iq : list Z) (power clipped : Z) : result SweepError.t (Z * Z) :=
  match iq with
  | b0 :: b1 :: b2 :: b3 :: rest =>
      let i := i16_from_le b0 b1 in
      let q := i16_from_le b2 b3 in
      power ← ok_or (SweepError.new "agx_power_overflow" "AGX IQ power sum overflow")
                (checked_add power (i * i + q * q)) ;
      aggregate_loop rest power
        (if is_clipped i q then saturating_add clipped 1 else clipped)
  | _ => Ok (power, clipped)
  end.

Definition aggregate_ci16_power (iq : list Z) (samples : Z) : result SweepError.t (Z * Z) :=
  expected ← ok_or (SweepError.new "agx_iq_shape" "IQ byte count overflow")
               (checked_mul samples 4) ;
  reject_if (negb (length_z iq =? expected))
    (SweepError.new "agx_iq_shape"
       "decoded IQ length does not match the capture sample count") ;;
  aggregate_loop iq 0 0.

(** [ADC_FULL_SCALE] and [MIN_POWER] as binary64 values. *)
Definition ADC_FULL_SCALE : float := f64_of_Z 2048.
Definition MIN_POWER : float := binary_normalize 53 1024 6646139978924579 (-119) false.

(** [u96_power_dbfs]; [log10] is the platform's, whose rounding Rust leaves open. *)
Definition u96_power_dbfs (log10 : float -> float) (lo mid hi samples : Z)
    : result SweepError.t float :=
  reject_if (samples =? 0) (SweepError.new "summary_shape" "summary has zero samples") ;;
  let sum :=
    f64_add
      (f64_add (f64_mul (f64_of_Z hi) (f64_of_Z (2 ^ 64)))
         (f64_mul (f64_of_Z mid) (f64_of_Z (2 ^ 32))))
      (f64_of_Z lo) in
  let normalized :=
    f64_div sum (f64_mul (f64_mul (f64_of_Z samples) ADC_FULL_SCALE) ADC_FULL_SCALE) in
  Ok (f32_of_f64 (f64_mul (f64_of_Z 10) (log10 (f_max normalized MIN_POWER)))).
End Base64.

(** ** The encodings these routines invert *)

(** The base64 alphabet. *)
Definition base64_char (value : Z) : Z :=
  if value <? 26 then value + 65
  else if value <? 52 then value - 26 + 97
  else if value <? 62 then value - 52 + 48
  else if value =? 62 then 43
  else 47.

(** RFC 4648 base64 with padding. *)
Fixpoint encode_base64 (data : list Z) : list Z :=
  match data with
  | [] => []
  | [x] => [base64_char (x / 4); base64_char (x mod 4 * 16); PAD; PAD]
  | [x; y] =>
      [base64_char (x / 4); base64_char (x mod 4 * 16 + y / 16);
       base64_char (y mod 16 * 4); PAD]
  | x :: y :: z :: rest =>
      base64_char (x / 4) :: base64_char (x mod 4 * 16 + y / 16)
        :: base64_char (y mod 16 * 4 + z / 64) :: base64_char (z mod 64)
        :: encode_base64 rest
  end.

(** A sample as four little-endian bytes. *)
Definition i16_to_le (value : Z) : list Z := [value mod 256; (value / 256) mod 256].
Definition encode_ci16 (samples : list (Z * Z)) : list Z :=
  flat_map (fun s => i16_to_le s.1 ++ i16_to_le s.2) samples.

Lemma base64_alphabet `{Json} v :
  0 <= v < 64 ->
  base64_value (base64_char v) = Ok v
  /\ 0 <= base64_char v <= 255 /\ base64_char v <> PAD.
Proof.
  intros Hv. unfold base64_value, base64_char, PAD, in_range.
  repeat match goal with
         | |- context [?a <=? ?b] => destruct (Z.leb_spec a b); try lia
         | |- context [?a <? ?b] => destruct (Z.ltb_spec a b); try lia
         | |- context [?a =? ?b] => destruct (Z.eqb_spec a b); try lia
         end; cbn; (split; [f_equal|]); lia.
Qed.

Lemma packed_sum a b c d :
  0 <= a < 64 -> 0 <= b < 64 -> 0 <= c < 64 -> 0 <= d < 64 ->
  Z.lor (Z.lor (Z.lor (Z.shiftl a 18) (Z.shiftl b 12)) (Z.shiftl c 6)) d
  = a * 262144 + b * 4096 + c * 64 + d.
Proof.
  intros. rewrite !Z.shiftl_mul_pow2 by lia. cbn [Z.pow Z.pow_pos Pos.iter Z.mul].
  change (2 ^ 18) with 262144. change (2 ^ 12) with 4096. change (2 ^ 6) with 64.
  rewrite (lor_add_disjoint (a * 262144) (b * 4096) 18) by (cbn; lia_div).
  rewrite (lor_add_disjoint (a * 262144 + b * 4096) (c * 64) 12) by (cbn; lia_div).
  rewrite (lor_add_disjoint _ d 6) by (cbn; lia_div). reflexivity.
Qed.

Section RoundTrip.
Context `{Json}.

Definition is_byte (b : Z) : Prop := 0 <= b <= 255.

(** A block of three encoded bytes. *)
Lemma decode_block_full last x y z :
  is_byte x -> is_byte y -> is_byte z ->
  decode_block last (base64_char (x / 4)) (base64_char (x mod 4 * 16 + y / 16))
    (base64_char (y mod 16 * 4 + z / 64)) (base64_char (z mod 64)) = Ok [x; y; z].
Proof.
  unfold is_byte. intros Hx Hy Hz. unfold decode_block.
  destruct (base64_alphabet (x / 4) ltac:(lia_div)) as (-> & _ & _).
  destruct (base64_alphabet (x mod 4 * 16 + y / 16) ltac:(lia_div)) as (-> & _ & _).
  destruct (base64_alphabet (y mod 16 * 4 + z / 64) ltac:(lia_div)) as (Ec & _ & Hc).
  destruct (base64_alphabet (z mod 64) ltac:(lia_div)) as (Ed & _ & Hd).
  rewrite (proj2 (Z.eqb_neq _ PAD) Hc), (proj2 (Z.eqb_neq _ PAD) Hd), Ec, Ed.
  cbn [orb andb negb mbind result_bind]. rewrite andb_false_r.
  cbn [reject_if mbind result_bind app]. rewrite packed_sum by lia_div.
  rewrite !land_255, !Z.shiftr_div_pow2 by lia. do 2 f_equal; [|f_equal; [|f_equal]].
  all: change (2 ^ 16) with 65536; change (2 ^ 8) with 256; lia_div.
Qed.

Lemma decode_block_two x y :
  is_byte x -> is_byte y ->
  decode_block true (base64_char (x / 4)) (base64_char (x mod 4 * 16 + y / 16))
    (base64_char (y mod 16 * 4)) PAD = Ok [x; y].
Proof.
  unfold is_byte. intros Hx Hy. unfold decode_block.
  destruct (base64_alphabet (x / 4) ltac:(lia_div)) as (-> & _ & _).
  destruct (base64_alphabet (x mod 4 * 16 + y / 16) ltac:(lia_div)) as (-> & _ & _).
  destruct (base64_alphabet (y mod 16 * 4) ltac:(lia_div)) as (Ec & _ & Hc).
  rewrite (proj2 (Z.eqb_neq _ PAD) Hc), Ec.
  cbn [orb andb negb mbind result_bind reject_if Z.eqb PAD Pos.eqb app].
  rewrite packed_sum by lia_div.
  rewrite !land_255, !Z.shiftr_div_pow2 by lia. do 2 f_equal; [|f_equal].
  all: change (2 ^ 16) with 65536; change (2 ^ 8) with 256; lia_div.
Qed.

Lemma decode_block_one x :
  is_byte x ->
  decode_block true (base64_char (x / 4)) (base64_char (x mod 4 * 16)) PAD PAD = Ok [x].
Proof.
  unfold is_byte. intros Hx. unfold decode_block.
  destruct (base64_alphabet (x / 4) ltac:(lia_div)) as (-> & _ & _).
  destruct (base64_alphabet (x mod 4 * 16) ltac:(lia_div)) as (-> & _ & _).
  cbn [orb andb negb mbind result_bind reject_if Z.eqb PAD Pos.eqb app].
  rewrite packed_sum by lia_div.
  rewrite !land_255, !Z.shiftr_div_pow2 by lia. do 2 f_equal.
  change (2 ^ 16) with 65536; lia_div.
Qed.

Lemma encode_base64_length data : exists n, length (encode_base64 data) = (4 * n)%nat.
Proof.
  induction data as [|a|a b|a b c l [n IH]] using chunks3_ind;
    [now exists 0%nat|now exists 1%nat|now exists 1%nat|].
  exists (S n). cbn. lia.
Qed.

Lemma encode_base64_range data :
  Forall is_byte data -> Forall (fun b => 0 <= b <= 255) (encode_base64 data).
Proof.
  assert (Hc : forall v, 0 <= v < 64 -> 0 <= base64_char v <= 255)
    by (intros v Hv; now destruct (base64_alphabet v Hv) as (_&?&_)).
  assert (Hp : 0 <= PAD <= 255) by (unfold PAD; lia).
  induction data as [|a|a b|a b c l IH] using chunks3_ind; intros Hd; cbn [encode_base64];
    repeat match goal with H : Forall _ (_ :: _) |- _ => apply list.Forall_cons in H as [? H] end;
    unfold is_byte in *; repeat (apply list.Forall_cons; split); auto; try constructor;
    apply Hc; lia_div.
Qed.

Lemma decode_blocks_encode count index data :
  Forall is_byte data ->
  count = index + length_z (encode_base64 data) / 4 ->
  decode_blocks count index (encode_base64 data) = Ok data.
Proof.
  revert index. induction data as [|a|a b|a b c l IH] using chunks3_ind; intros index Hd Hn;
    repeat match goal with H : Forall _ (_ :: _) |- _ => apply list.Forall_cons in H as [? H] end.
  - reflexivity.
  - cbn [encode_base64 decode_blocks]. change (length_z _ / 4) with 1 in Hn.
    rewrite (proj2 (Z.eqb_eq (index + 1) count)) by lia.
    now rewrite decode_block_one.
  - cbn [encode_base64 decode_blocks]. change (length_z _ / 4) with 1 in Hn.
    rewrite (proj2 (Z.eqb_eq (index + 1) count)) by lia.
    now rewrite decode_block_two.
  - cbn [encode_base64 decode_blocks]. rewrite decode_block_full by assumption.
    cbn [mbind result_bind]. rewrite IH; [reflexivity|assumption|].
    unfold length_z in *. destruct (encode_base64_length l) as [n E].
    cbn [encode_base64 length] in Hn. rewrite E in *. lia_div.
Qed.
End RoundTrip.

(** The base64 decoder inverts RFC 4648: every non-empty byte block is recovered from its
    padded encoding. *)
Theorem decode_base64_encode `{Json} data :
  Forall is_byte data -> data <> [] ->
  decode_base64 (of_bytes (encode_base64 data)) = Ok data.
Proof.
  intros Hd Hne. unfold decode_base64.
  pose proof (bytes_of_bytes _ (encode_base64_range data Hd)) as Hb.
  destruct (encode_base64_length data) as [n E].
  assert (Hlen : len (of_bytes (encode_base64 data)) = 4 * Z.of_nat n).
  { unfold len, length_z. rewrite Hb, E. lia. }
  assert (Hn : (n <> 0)%nat).
  { intros ->. destruct data as [|x [|y [|z l]]]; [contradiction|discriminate..]. }
  assert (Hemp : is_empty (of_bytes (encode_base64 data)) = false) by (apply len_empty; lia).
  rewrite Hemp, Hlen, Hb. rewrite (proj2 (Z.eqb_eq (4 * Z.of_nat n mod 4) 0)) by lia_div.
  cbn [orb negb reject_if mbind result_bind]. apply decode_blocks_encode; [exact Hd|].
  unfold length_z. rewrite E. f_equal. lia.
Qed.

(** ** The power of a block of samples *)
Definition sample_energy (s : Z * Z) : Z := s.1 * s.1 + s.2 * s.2.
Definition energy (samples : list (Z * Z)) : Z := foldr (fun s e => sample_energy s + e) 0 samples.
Definition clipped_samples (samples : list (Z * Z)) : Z :=
  foldr (fun s n => (if is_clipped s.1 s.2 then 1 else 0) + n) 0 samples.

Lemma i16_round_trip v : is_i16 v -> i16_from_le (v mod 256) ((v / 256) mod 256) = v.
Proof.
  unfold is_i16, i16_from_le. intros Hv.
  destruct (Z.ltb_spec (v mod 256 + 256 * ((v / 256) mod 256)) 32768); lia_div.
Qed.

Lemma sample_energy_bound s : is_i16 s.1 -> is_i16 s.2 -> 0 <= sample_energy s <= 2147483648.
Proof. unfold is_i16, sample_energy. nia. Qed.

Lemma energy_bound samples :
  Forall (fun s => is_i16 s.1 /\ is_i16 s.2) samples ->
  0 <= energy samples <= 2147483648 * length_z samples.
Proof.
  unfold length_z. induction 1 as [|s l [H1 H2] Hl IH]; cbn [energy foldr length]; [lia|].
  fold (energy l). pose proof (sample_energy_bound s H1 H2). lia.
Qed.

Lemma clipped_bound samples : 0 <= clipped_samples samples <= length_z samples.
Proof.
  unfold length_z. induction samples as [|s l IH]; cbn [clipped_samples foldr length]; [lia|].
  fold (clipped_samples l). destruct (is_clipped s.1 s.2); lia.
Qed.

Lemma encode_ci16_length samples : length_z (encode_ci16 samples) = 4 * length_z samples.
Proof.
  unfold length_z. induction samples as [|s l IH]; [reflexivity|].
  change (encode_ci16 (s :: l)) with ((i16_to_le s.1 ++ i16_to_le s.2) ++ encode_ci16 l).
  rewrite length_app. cbn [length i16_to_le app] in *. lia.
Qed.

Lemma aggregate_loop_samples `{Json} samples power clipped :
  Forall (fun s => is_i16 s.1 /\ is_i16 s.2) samples ->
  0 <= power -> power + energy samples <= u64_max ->
  0 <= clipped -> clipped + clipped_samples samples <= u64_max ->
  aggregate_loop (encode_ci16 samples) power clipped
  = Ok (power + energy samples, clipped + clipped_samples samples).
Proof.
  intros Hs. revert power clipped.
  induction Hs as [|s l [H1 H2] Hl IH]; intros power clipped Hp0 Hp Hc0 Hc.
  - cbn. do 2 f_equal; lia.
  - change (encode_ci16 (s :: l)) with ((i16_to_le s.1 ++ i16_to_le s.2) ++ encode_ci16 l).
    cbn [i16_to_le app aggregate_loop]. rewrite !i16_round_trip by assumption.
    change (energy (s :: l)) with (sample_energy s + energy l) in *.
    change (clipped_samples (s :: l))
      with ((if is_clipped s.1 s.2 then 1 else 0) + clipped_samples l) in *.
    pose proof (sample_energy_bound s H1 H2). pose proof (energy_bound l Hl).
    pose proof (clipped_bound l). unfold sample_energy in *. unfold checked_add.
    rewrite (proj2 (Z.leb_le (power + (s.1 * s.1 + s.2 * s.2)) u64_max)) by lia.
    cbn [ok_or mbind result_bind].
    unfold saturating_add. destruct (is_clipped s.1 s.2).
    + rewrite Z.min_l by lia. rewrite IH by lia. do 2 f_equal; lia.
    + rewrite IH by lia. do 2 f_equal; lia.
Qed.

(** For any block of at most 2^32 samples (a capture holds at most 65536) the aggregation of
    its little-endian bytes is exact: the power is the sum of [i*i + q*q] over the signed samples
    and the clip count the number of samples at a 12-bit rail; nothing overflows.  A block of
    another size is refused. *)
Theorem aggregate_power_exact `{Json} samples :
  Forall (fun s => is_i16 s.1 /\ is_i16 s.2) samples -> length_z samples <= 2 ^ 32 ->
  aggregate_ci16_power (encode_ci16 samples) (length_z samples)
  = Ok (energy samples, clipped_samples samples)
  /\ forall n, 0 <= n -> n <> length_z samples ->
     is_Ok (aggregate_ci16_power (encode_ci16 samples) n) = false.
Proof.
  intros Hs Hn. pose proof (energy_bound samples Hs). pose proof (clipped_bound samples).
  change (2 ^ 32) with 4294967296 in Hn. unfold aggregate_ci16_power. split.
  - unfold checked_mul. rewrite (proj2 (Z.leb_le (length_z samples * 4) u64_max))
      by (unfold u64_max; lia). cbn [ok_or mbind result_bind].
    rewrite encode_ci16_length, (proj2 (Z.eqb_eq _ _)) by lia. cbn [negb reject_if].
    cbn [mbind result_bind]. rewrite aggregate_loop_samples; auto; unfold u64_max; lia.
  - intros n Hpos Hne. destruct (checked_mul n 4) as [e|] eqn:E; [|reflexivity].
    apply checked_mul_Some in E as [_ ->]. cbn [ok_or mbind result_bind].
    rewrite encode_ci16_length, (proj2 (Z.eqb_neq _ _)) by lia. reflexivity.
Qed.

Lemma decode_base64_encode_witness :
  @decode_base64 SdrSamples.json (of_bytes (encode_base64 [77; 97; 110; 255])) = Ok [77; 97; 110; 255]
  /\ of_bytes (encode_base64 [77; 97; 110]) = "TWFu"%string.
Proof.
  split; [|reflexivity].
  apply (@decode_base64_encode SdrSamples.json [77; 97; 110; 255]); [|discriminate].
  repeat constructor; vm_compute; congruence.
Defined.

Lemma aggregate_power_exact_witness :
  @aggregate_ci16_power SdrSamples.json (encode_ci16 [(3, -4); (2047, 0)]) 2 = Ok (4190234, 1).
Proof.
  etransitivity;
    [refine (proj1 (@aggregate_power_exact SdrSamples.json [(3, -4); (2047, 0)] _ _))|].
  - repeat constructor; vm_compute; congruence.
  - vm_compute. congruence.
  - vm_compute. reflexivity.
Defined.
