(* ===== verification/Sigmf.v ===== *)
(** * SigMF data sets on disk

    The [SigmfWriter] of [controller/src/sweep.rs]: the data file that grows with
    every IQ block, the metadata written at the end, and the removal of both
    when a sweep fails.  Files are byte lists by path; what else the operating
    system answers (permissions, free space, time, I/O errors) is a parameter. *)
From S2P Require Import Prelude Text F32 Protocol Sdr Execution SweepPlan.

(** The files that exist, with their contents. *)
Abbreviation Fs := (gmap string (list Z)).

(** The operating system's answers, which may depend on the state of the disk. *)
Record Disk := {
  path_exists : Fs -> string -> bool;
  symlink_metadata : Fs -> string -> result string (bool * bool);
  create_dir_all : Fs -> string -> result string unit;
  set_permissions : Fs -> string -> result string unit;
  statvfs : Fs -> string -> result string (Z * Z);
  unix_nanos : Fs -> Z;
  open_error : Fs -> string -> option string;
  write_error : Fs -> string -> list Z -> option (nat * string);
  sync_all : Fs -> string -> result string unit;
  remove_error : Fs -> string -> option string;
}.

(** One entry of the "captures" array, and the metadata object. *)
Module SigmfCapture.
Record t := mk {
  sample_start : Z;
  frequency : Z;
  point_index : Z;
  rf_bandwidth_hz : Z;
  gain_db : option Z;
}.
End SigmfCapture.

Module SigmfMetadata.
Record t := mk {
  datatype : string;
  sample_rate : Z;
  version : string;
  recorder : string;
  created_at_unix_ms : Z;
  sample_layout : string;
  captures : list SigmfCapture.t;
}.
End SigmfMetadata.

(** [Path::join] of a plain file name. *)
Definition path_join (directory name : string) : string :=
  if is_empty directory then name
  else if String.eqb (String.substring (String.length directory - 1) 1 directory) "/"
       then directory +:+ name
       else directory +:+ "/" +:+ name.

Section Files.
Context `{Json} (disk : Disk).

(** [OpenOptions::new().write(true).create_new(true).mode(0o600).open(path)]. *)
Definition create_new (code path : string) : M Fs SweepError.t unit := fun fs =>
  match fs !! path, disk.(open_error) fs path with
  | Some _, _ => (Err (SweepError.new code "File exists (os error 17)"), fs)
  | None, Some error => (Err (SweepError.new code error), fs)
  | None, None => (Ok tt, <[path := []]> fs)
  end.

(** [File::write_all]: an error may leave a part of the data behind. *)
Definition write_file (code path : string) (data : list Z) : M Fs SweepError.t unit := fun fs =>
  let old := default [] (fs !! path) in
  match disk.(write_error) fs path data with
  | None => (Ok tt, <[path := old ++ data]> fs)
  | Some (written, error) =>
      (Err (SweepError.new code error), <[path := old ++ take written data]> fs)
  end.

(** [let _ = fs::remove_file(path);]. *)
Definition remove_file (path : string) (fs : Fs) : Fs :=
  match disk.(remove_error) fs path with
  | None => delete path fs
  | Some _ => fs
  end.

(** [File::sync_all]. *)
Definition sync_file (code path : string) : M Fs SweepError.t unit := fun fs =>
  (map_err (SweepError.new code) (disk.(sync_all) fs path), fs).

Definition available_storage_bytes (path : string) : M Fs SweepError.t Z := fun fs =>
  (if existsb (fun b => b =? 0) (bytes path) then
     Err (SweepError.new "sigmf_space" "capture directory contains a NUL byte")
   else
     stat ← map_err (SweepError.new "sigmf_space") (disk.(statvfs) fs path) ;
     Ok (Z.min (stat.1 * stat.2) u64_max),
   fs).
End Files.

Module SigmfWriter.
Record t := mk {
  data_path : string;
  metadata_path : string;
  captures : list SigmfCapture.t;
  samples_written : Z;
  sample_rate_hz : Z;
  rf_bandwidth_hz : Z;
  gain_db : option Z;
  created_at_ms : Z;
  committed : bool;
}.

Section Writer.
Context `{Json} (disk : Disk) (to_writer_pretty : SigmfMetadata.t -> list Z).

Definition prepare_directory (directory : string) : M Fs SweepError.t unit := fun fs =>
  ((if disk.(path_exists) fs directory then
      metadata ← map_err (SweepError.new "sigmf_directory")
                   (disk.(symlink_metadata) fs directory) ;
      reject_if (negb metadata.1 || metadata.2)
        (SweepError.new "sigmf_directory" "SigMF output path must be a real directory")
    else
      map_err (SweepError.new "sigmf_directory") (disk.(create_dir_all) fs directory)) ;;
   map_err (SweepError.new "sigmf_directory") (disk.(set_permissions) fs directory),
   fs).

(** The bytes a complete sweep needs, metadata included. *)
Definition required_bytes (plan : ValidatedSweepPlan.t) : result SweepError.t Z :=
  required_data_bytes ←
    ok_or (SweepError.new "sigmf_size" "SigMF byte count overflow")
      (a ← checked_mul (length_z plan.(ValidatedSweepPlan.centers_hz))
             plan.(ValidatedSweepPlan.frame_samples) ;
       b ← checked_mul a plan.(ValidatedSweepPlan.aggregate_frames) ;
       checked_mul b 4) ;
  ok_or (SweepError.new "sigmf_size" "SigMF space check overflow")
    (checked_add required_data_bytes (1024 * 1024)).

Definition create (directory : string) (plan : ValidatedSweepPlan.t) : M Fs SweepError.t t :=
  prepare_directory directory ;;
  required_with_metadata ← lift (required_bytes plan) ;
  available ← available_storage_bytes disk directory ;
  lift (reject_if (available <? required_with_metadata)
          (SweepError.new "sigmf_space"
             ("AGX capture directory has " +:+ print_u available
              +:+ " free bytes but this finite scan requires "
              +:+ print_u required_with_metadata +:+ " bytes"))) ;;
  nonce ← gets disk.(unix_nanos) ;
  let stem := plan.(ValidatedSweepPlan.sweep_id) +:+ "-"
              +:+ print_u plan.(ValidatedSweepPlan.session_generation) +:+ "-"
              +:+ print_u nonce in
  let data_path := path_join directory (stem +:+ ".sigmf-data") in
  let metadata_path := path_join directory (stem +:+ ".sigmf-meta") in
  create_new disk "sigmf_create" data_path ;;
  created ← gets disk.(unix_nanos) ;
  lift (Ok {| data_path := data_path;
              metadata_path := metadata_path;
              captures := [];
              samples_written := 0;
              sample_rate_hz := plan.(ValidatedSweepPlan.sample_rate_hz);
              rf_bandwidth_hz := plan.(ValidatedSweepPlan.rf_bandwidth_hz);
              gain_db := plan.(ValidatedSweepPlan.gain_db);
              created_at_ms := Z.min (created / 1000000) u64_max;
              committed := false |}).

Definition with_progress (self : t) (captures : list SigmfCapture.t) (samples : Z) : t :=
  mk self.(data_path) self.(metadata_path) captures samples self.(sample_rate_hz)
    self.(rf_bandwidth_hz) self.(gain_db) self.(created_at_ms) self.(committed).

(** [append]: the capture entry is recorded before the block is written. *)
Definition append (point_index center_hz : Z) (iq : list Z) : M (t * Fs) SweepError.t unit :=
  fun '(self, fs) =>
    if null iq || negb (length_z iq mod 4 =? 0) then
      (Err (SweepError.new "sigmf_iq_shape"
              "SigMF IQ block must contain complete complex-int16 samples"), (self, fs))
    else
      let self :=
        with_progress self
          (self.(captures)
           ++ [{| SigmfCapture.sample_start := self.(samples_written);
                  SigmfCapture.frequency := center_hz;
                  SigmfCapture.point_index := point_index;
                  SigmfCapture.rf_bandwidth_hz := self.(rf_bandwidth_hz);
                  SigmfCapture.gain_db := self.(gain_db) |}])
          self.(samples_written) in
      match write_file disk "sigmf_write" self.(data_path) iq fs with
      | (Err error, fs) => (Err error, (self, fs))
      | (Ok _, fs) =>
          match checked_add self.(samples_written) (length_z iq / 4) with
          | None =>
              (Err (SweepError.new "sigmf_size" "SigMF sample count overflow"), (self, fs))
          | Some samples => (Ok tt, (with_progress self self.(captures) samples, fs))
          end
      end.

(** [Drop::drop]: an uncommitted data set is removed. *)
Definition drop (self : t) (fs : Fs) : Fs :=
  if self.(committed) then fs
  else remove_file disk self.(metadata_path) (remove_file disk self.(data_path) fs).

Definition commit (self : t) : t :=
  mk self.(data_path) self.(metadata_path) self.(captures) self.(samples_written)
    self.(sample_rate_hz) self.(rf_bandwidth_hz) self.(gain_db) self.(created_at_ms) true.

(** The body of [finish] up to the commit. *)
Definition write_metadata (self : t) : M Fs SweepError.t unit :=
  sync_file disk "sigmf_sync" self.(data_path) ;;
  create_new disk "sigmf_meta_create" self.(metadata_path) ;;
  write_file disk "sigmf_meta_write" self.(metadata_path)
    (to_writer_pretty
       {| SigmfMetadata.datatype := "ci16_le";
          SigmfMetadata.sample_rate := self.(sample_rate_hz);
          SigmfMetadata.version := "1.2.5";
          SigmfMetadata.recorder := "sdrharness-agx";
          SigmfMetadata.created_at_unix_ms := self.(created_at_ms);
          SigmfMetadata.sample_layout := "interleaved_iq";
          SigmfMetadata.captures := self.(captures) |}) ;;
  write_file disk "sigmf_meta_sync" self.(metadata_path) [10] ;;
  sync_file disk "sigmf_meta_sync" self.(metadata_path).

(** [finish] consumes the writer, which is dropped at its end in every case. *)
Definition finish (self : t) : M Fs SweepError.t SweepDataset.t := fun fs =>
  match write_metadata self fs with
  | (Err error, fs) => (Err error, drop self fs)
  | (Ok _, fs) =>
      let self := commit self in
      (Ok {| SweepDataset.format := "sigmf";
             SweepDataset.datatype := "ci16_le";
             SweepDataset.data_path := self.(data_path);
             SweepDataset.metadata_path := self.(metadata_path);
             SweepDataset.bytes := saturating_mul self.(samples_written) 4 |},
       drop self fs)
  end.
End Writer.
End SigmfWriter.

(** ** What ends up on disk *)
Section Facts.
Context `{Json} (disk : Disk) (to_writer_pretty : SigmfMetadata.t -> list Z).

(** A recorded block: point index, center and IQ bytes. *)
Record Block := block { blk_index : Z; blk_center : Z; blk_iq : list Z }.

(** The appends of a sweep, in order. *)
Fixpoint append_all (blocks : list Block)
    : M (SigmfWriter.t * Fs) SweepError.t unit :=
  match blocks with
  | [] => mret tt
  | b :: blocks =>
      SigmfWriter.append disk (blk_index b) (blk_center b) (blk_iq b) ;;
      append_all blocks
  end.

Definition data_of (blocks : list Block) : list Z := flat_map blk_iq blocks.

(** The capture entries the blocks give rise to, the first one at [start]. *)
Fixpoint captures_of (bandwidth : Z) (gain : option Z) (start : Z) (blocks : list Block)
    : list SigmfCapture.t :=
  match blocks with
  | [] => []
  | b :: blocks =>
      SigmfCapture.mk start (blk_center b) (blk_index b) bandwidth gain
        :: captures_of bandwidth gain (start + length_z (blk_iq b) / 4) blocks
  end.

Definition with_data (fs0 : Fs) (path : string) (data : list Z) : Fs := <[path := data]> fs0.

(** [w] has recorded [blocks] on top of the disk [fs0]. *)
Record Records (fs0 : Fs) (plan : ValidatedSweepPlan.t) (blocks : list Block)
    (w : SigmfWriter.t) (fs : Fs) : Prop := {
  rec_fs : fs = with_data fs0 w.(SigmfWriter.data_path) (data_of blocks);
  rec_new : fs0 !! w.(SigmfWriter.data_path) = None;
  rec_paths : w.(SigmfWriter.data_path) <> w.(SigmfWriter.metadata_path);
  rec_samples : 4 * w.(SigmfWriter.samples_written) = length_z (data_of blocks);
  rec_captures : w.(SigmfWriter.captures)
    = captures_of plan.(ValidatedSweepPlan.rf_bandwidth_hz) plan.(ValidatedSweepPlan.gain_db) 0
        blocks;
  rec_profile : w.(SigmfWriter.sample_rate_hz) = plan.(ValidatedSweepPlan.sample_rate_hz)
    /\ w.(SigmfWriter.rf_bandwidth_hz) = plan.(ValidatedSweepPlan.rf_bandwidth_hz)
    /\ w.(SigmfWriter.gain_db) = plan.(ValidatedSweepPlan.gain_db);
  rec_committed : w.(SigmfWriter.committed) = false;
}.

Lemma captures_of_app bandwidth gain start b1 b2 :
  Forall (fun b => length_z (blk_iq b) mod 4 = 0) b1 ->
  captures_of bandwidth gain start (b1 ++ b2)
  = captures_of bandwidth gain start b1
    ++ captures_of bandwidth gain (start + length_z (data_of b1) / 4) b2.
Proof.
  intros Hb. revert start. induction Hb as [|b l Hm Hl IH]; intros start; cbn [captures_of app].
  - change (length_z (data_of []) / 4) with 0. now rewrite Z.add_0_r.
  - rewrite IH. cbn [data_of flat_map]. fold (data_of l). do 3 f_equal. unfold length_z in *.
    rewrite length_app. lia_div.
Qed.

Lemma path_join_suffix directory stem x y :
  path_join directory (stem +:+ x) = path_join directory (stem +:+ y) -> x = y.
Proof.
  unfold path_join. repeat case_match; intros E; repeat apply (inj (String.append _)) in E; exact E.
Qed.

Lemma create_records directory plan fs w fs' :
  SigmfWriter.create disk directory plan fs = (Ok w, fs') -> Records fs plan [] w fs'.
Proof.
  unfold SigmfWriter.create. rewrite !bind_run.
  destruct (SigmfWriter.prepare_directory disk directory fs) as [[u|e] fs1] eqn:Hp; [|discriminate].
  assert (fs1 = fs) as -> by (unfold SigmfWriter.prepare_directory in Hp; congruence).
  rewrite lift_bind_run. destruct (SigmfWriter.required_bytes plan); [|discriminate].
  rewrite bind_run. unfold available_storage_bytes at 1.
  destruct (if existsb _ _ then _ else _) as [available|]; [|discriminate].
  rewrite lift_bind_run. destruct (reject_if _ _); [|discriminate].
  rewrite bind_run. cbn [gets]. rewrite bind_run. unfold create_new at 1.
  destruct (fs !! _) as [old|] eqn:Hnew; [discriminate|].
  destruct (open_error _ _ _); [discriminate|]. rewrite bind_run. cbn [gets]. rewrite lift_run.
  intros [= <- <-]. split; cbn; auto.
  intros Heq. apply path_join_suffix in Heq. discriminate.
Qed.

(** [w] owns the data file it opened on top of [fs0], whatever it holds. *)
Record Opened (fs0 : Fs) (w : SigmfWriter.t) (fs : Fs) : Prop := {
  op_fs : exists data, fs = with_data fs0 w.(SigmfWriter.data_path) data;
  op_new : fs0 !! w.(SigmfWriter.data_path) = None;
  op_paths : w.(SigmfWriter.data_path) <> w.(SigmfWriter.metadata_path);
  op_committed : w.(SigmfWriter.committed) = false;
}.

Lemma records_opened fs0 plan blocks w fs : Records fs0 plan blocks w fs -> Opened fs0 w fs.
Proof. intros []. split; eauto. Qed.

Lemma append_opened fs0 index center iq w fs r w' fs' :
  Opened fs0 w fs -> SigmfWriter.append disk index center iq (w, fs) = (r, (w', fs')) ->
  Opened fs0 w' fs' /\ w'.(SigmfWriter.data_path) = w.(SigmfWriter.data_path)
  /\ w'.(SigmfWriter.metadata_path) = w.(SigmfWriter.metadata_path).
Proof.
  intros [[data ->] Hnew Hp Hc]. unfold SigmfWriter.append, write_file, with_data.
  destruct (null iq || _); [intros [= <- <- <-]; cbn; split; [split; eauto|auto]|].
  cbn [SigmfWriter.data_path SigmfWriter.with_progress]. rewrite lookup_insert_eq. cbn [default].
  destruct (write_error _ _ _ _) as [[n e]|]; cbn;
    [|destruct (checked_add _ _)]; intros [= <- <- <-]; cbn;
    rewrite insert_insert_eq; (split; [split; cbn; eauto|auto]).
Qed.

Lemma append_records fs0 plan blocks b w fs w' fs' :
  Records fs0 plan blocks w fs ->
  Forall (fun b => length_z (blk_iq b) mod 4 = 0) blocks ->
  SigmfWriter.append disk (blk_index b) (blk_center b) (blk_iq b) (w, fs) = (Ok tt, (w', fs')) ->
  Records fs0 plan (blocks ++ [b]) w' fs'
  /\ Forall (fun b => length_z (blk_iq b) mod 4 = 0) (blocks ++ [b]).
Proof.
  intros [-> Hnew Hp Hs Hcap (H1&H2&H3) Hcom] Hb.
  unfold SigmfWriter.append, write_file, with_data.
  destruct (null (blk_iq b) || negb (length_z (blk_iq b) mod 4 =? 0)) eqn:Eshape; [discriminate|].
  guards_in Eshape. destruct Eshape as [_ Hmod].
  cbn [SigmfWriter.data_path SigmfWriter.with_progress]. rewrite lookup_insert_eq. cbn [default].
  destruct (write_error _ _ _ _) as [[n e]|]; [discriminate|]. cbn.
  destruct (checked_add _ _) as [samples|] eqn:Hadd; [|discriminate].
  apply checked_add_Some in Hadd as [_ ->]. intros [= <- <-].
  assert (Hdata : data_of (blocks ++ [b]) = data_of blocks ++ blk_iq b).
  { unfold data_of. rewrite flat_map_app. cbn. now rewrite app_nil_r. }
  split; [|apply Forall_app; auto].
  split; cbn; auto.
  - unfold with_data. now rewrite insert_insert_eq, Hdata.
  - rewrite Hdata. unfold length_z in *. rewrite length_app. lia_div.
  - rewrite Hcap, captures_of_app by exact Hb. cbn [captures_of]. do 2 f_equal.
    rewrite H2, H3. f_equal. lia_div.
Qed.

Lemma append_all_records fs0 plan done blocks w fs w' fs' :
  Records fs0 plan done w fs ->
  Forall (fun b => length_z (blk_iq b) mod 4 = 0) done ->
  append_all blocks (w, fs) = (Ok tt, (w', fs')) ->
  Records fs0 plan (done ++ blocks) w' fs'.
Proof.
  revert done w fs. induction blocks as [|b blocks IH]; intros done w fs Hr Hd; cbn.
  - intros [= <- <-]. now rewrite app_nil_r.
  - rewrite bind_run.
    destruct (SigmfWriter.append _ _ _ _ _) as [[[]|e] [w1 fs1]] eqn:Ha; [|discriminate].
    destruct (append_records _ _ _ _ _ _ _ _ Hr Hd Ha) as [Hr1 Hd1].
    intros Hrun. replace (done ++ b :: blocks) with ((done ++ [b]) ++ blocks) by (now rewrite <- app_assoc). eapply IH; eauto.
Qed.

Lemma append_all_opened fs0 blocks w fs r w' fs' :
  Opened fs0 w fs -> append_all blocks (w, fs) = (r, (w', fs')) ->
  Opened fs0 w' fs' /\ w'.(SigmfWriter.metadata_path) = w.(SigmfWriter.metadata_path).
Proof.
  revert w fs. induction blocks as [|b blocks IH]; intros w fs Ho; cbn.
  - intros [= <- <- <-]. auto.
  - rewrite bind_run. destruct (SigmfWriter.append _ _ _ _ _) as [[[]|e] [w1 fs1]] eqn:Ha;
      apply append_opened with (1 := Ho) in Ha as (Ho1&_&Hm).
    + intros Hrun. apply IH in Hrun as [? ?]; [|exact Ho1]. split; [assumption|congruence].
    + intros [= <- <- <-]. auto.
Qed.

Context (Hremove : forall fs path, disk.(remove_error) fs path = None).

(** Dropping an uncommitted writer undoes it. *)
Lemma drop_opened fs0 w fs :
  Opened fs0 w fs -> fs0 !! w.(SigmfWriter.metadata_path) = None ->
  SigmfWriter.drop disk w fs = fs0.
Proof.
  intros [[data ->] Hnew Hp Hc] Hmeta. unfold SigmfWriter.drop, remove_file, with_data.
  rewrite Hc, !Hremove, delete_insert_id by exact Hnew. now apply delete_id.
Qed.

Lemma write_metadata_run fs0 w fs r fs' :
  Opened fs0 w fs -> fs0 !! w.(SigmfWriter.metadata_path) = None ->
  SigmfWriter.write_metadata disk to_writer_pretty w fs = (r, fs') ->
  (fs' = fs \/ exists m, fs' = <[w.(SigmfWriter.metadata_path) := m]> fs)
  /\ (is_Ok r = true ->
      fs' = <[w.(SigmfWriter.metadata_path) :=
                to_writer_pretty
                  (SigmfMetadata.mk "ci16_le" w.(SigmfWriter.sample_rate_hz) "1.2.5"
                     "sdrharness-agx" w.(SigmfWriter.created_at_ms) "interleaved_iq"
                     w.(SigmfWriter.captures)) ++ [10]]> fs).
Proof.
  intros [[data ->] Hnew Hp Hc] Hmeta. unfold SigmfWriter.write_metadata, with_data.
  rewrite bind_run. unfold sync_file at 1.
  destruct (map_err _ _) as [[]|e]; [|intros [= <- <-]; split; [auto|discriminate]].
  rewrite bind_run. unfold create_new at 1.
  rewrite lookup_insert_ne, Hmeta by exact Hp.
  destruct (open_error _ _ _); [intros [= <- <-]; split; [auto|discriminate]|].
  rewrite bind_run. unfold write_file at 1. rewrite lookup_insert_eq. cbn [default].
  destruct (write_error _ _ _ _) as [[n e]|];
    [intros [= <- <-]; split; [right; rewrite insert_insert_eq; eauto|discriminate]|].
  rewrite insert_insert_eq, bind_run. unfold write_file at 1. rewrite lookup_insert_eq.
  cbn [default app]. destruct (write_error _ _ _ _) as [[n e]|]; rewrite insert_insert_eq;
    [intros [= <- <-]; split; [right; eauto|discriminate]|].
  unfold sync_file. intros [= <- <-]. split; [right; eauto|auto].
Qed.

Lemma finish_run fs0 w fs r fs' :
  Opened fs0 w fs -> fs0 !! w.(SigmfWriter.metadata_path) = None ->
  SigmfWriter.finish disk to_writer_pretty w fs = (r, fs') ->
  match r with
  | Err _ => fs' = fs0
  | Ok ds =>
      fs' = <[w.(SigmfWriter.metadata_path) :=
                to_writer_pretty
                  (SigmfMetadata.mk "ci16_le" w.(SigmfWriter.sample_rate_hz) "1.2.5"
                     "sdrharness-agx" w.(SigmfWriter.created_at_ms) "interleaved_iq"
                     w.(SigmfWriter.captures)) ++ [10]]> fs
      /\ ds = SweepDataset.mk "sigmf" "ci16_le" w.(SigmfWriter.data_path)
               w.(SigmfWriter.metadata_path) (saturating_mul w.(SigmfWriter.samples_written) 4)
  end.
Proof.
  intros Ho Hmeta. unfold SigmfWriter.finish.
  destruct (SigmfWriter.write_metadata _ _ _ _) as [[[]|e] fs1] eqn:Hw.
  all: apply write_metadata_run with (1 := Ho) (2 := Hmeta) in Hw as [Hfs Hok].
  - intros [= <- <-]. cbn. split; [now apply Hok|reflexivity].
  - intros [= <- <-]. destruct Hfs as [->|[m ->]]; [now apply drop_opened|].
    destruct Ho as [[data ->] Hnew Hp Hc]. unfold SigmfWriter.drop, remove_file, with_data.
    rewrite Hc, !Hremove. rewrite delete_insert_ne by congruence.
    rewrite delete_insert_id
      by (rewrite lookup_delete_ne, lookup_insert_ne by congruence; exact Hmeta).
    now apply delete_insert_id.
Qed.
End Facts.

(** ** Properties *)

(** A recording that finishes left exactly two new files, and nothing else changed: the data
    file holds the IQ blocks in order, its size is the reported number of bytes, and the metadata
    lists one capture per block whose [core:sample_start] is the number of samples recorded
    before it, with the block's center and point index. *)
Theorem sigmf_recording_complete `{Json} disk to_writer_pretty directory plan blocks
    fs0 w fs1 w2 fs2 ds fs3 :
  SigmfWriter.create disk directory plan fs0 = (Ok w, fs1) ->
  append_all disk blocks (w, fs1) = (Ok tt, (w2, fs2)) ->
  (forall fs path, disk.(remove_error) fs path = None) ->
  fs0 !! w2.(SigmfWriter.metadata_path) = None ->
  SigmfWriter.finish disk to_writer_pretty w2 fs2 = (Ok ds, fs3) ->
  length_z (data_of blocks) <= u64_max ->
  ds.(SweepDataset.bytes) = length_z (data_of blocks)
  /\ fs3 = <[ds.(SweepDataset.metadata_path) :=
              to_writer_pretty
                (SigmfMetadata.mk "ci16_le" plan.(ValidatedSweepPlan.sample_rate_hz) "1.2.5"
                   "sdrharness-agx" w2.(SigmfWriter.created_at_ms) "interleaved_iq"
                   (captures_of plan.(ValidatedSweepPlan.rf_bandwidth_hz)
                      plan.(ValidatedSweepPlan.gain_db) 0 blocks)) ++ [10]]>
            (<[ds.(SweepDataset.data_path) := data_of blocks]> fs0)
  /\ fs0 !! ds.(SweepDataset.data_path) = None
  /\ fs0 !! ds.(SweepDataset.metadata_path) = None.
Proof.
  intros Hc Ha Hrem Hmeta Hf Hmax. apply create_records in Hc.
  apply append_all_records with (1 := Hc) in Ha; [|constructor]. cbn [app] in Ha.
  apply finish_run with (fs0 := fs0) in Hf as [-> ->];
    [|exact Hrem|eapply records_opened, Ha|exact Hmeta].
  destruct Ha as [-> Hnew Hp Hs Hcap (H1&H2&H3) Hcom]. cbn.
  unfold saturating_mul, with_data. rewrite Hcap, H1. split_and!; auto. lia.
Qed.

(** A recording that fails, at its first block or at the very end, leaves the disk as it was
    (as long as files can be removed and no foreign metadata file had the fresh name). *)
Theorem sigmf_failure_leaves_nothing `{Json} disk to_writer_pretty directory plan blocks
    fs0 w fs1 r w2 fs2 :
  SigmfWriter.create disk directory plan fs0 = (Ok w, fs1) ->
  append_all disk blocks (w, fs1) = (r, (w2, fs2)) ->
  (forall fs path, disk.(remove_error) fs path = None) ->
  fs0 !! w.(SigmfWriter.metadata_path) = None ->
  SigmfWriter.drop disk w2 fs2 = fs0
  /\ forall e fs3, SigmfWriter.finish disk to_writer_pretty w2 fs2 = (Err e, fs3) -> fs3 = fs0.
Proof.
  intros Hc Ha Hrem Hmeta. apply create_records, records_opened in Hc.
  apply append_all_opened with (1 := Hc) in Ha as [Ho Hpath]. rewrite <- Hpath in Hmeta.
  split; [now apply drop_opened|].
  intros e fs3 Hf. now apply finish_run with (fs0 := fs0) in Hf.
Qed.

(** The hypothesis on the metadata file is needed: when a file with the metadata name already
    exists, [create_new] refuses it, and the cleanup of the failed recording then deletes that
    foreign file. *)
Theorem sigmf_drop_deletes_foreign_metadata `{Json} disk to_writer_pretty w fs :
  w.(SigmfWriter.committed) = false ->
  is_none (fs !! w.(SigmfWriter.metadata_path)) = false ->
  (forall fs path, disk.(remove_error) fs path = None) ->
  is_Ok (SigmfWriter.finish disk to_writer_pretty w fs).1 = false
  /\ (SigmfWriter.finish disk to_writer_pretty w fs).2 !! w.(SigmfWriter.metadata_path) = None.
Proof.
  intros Hc Hm Hrem.
  assert (Hfail : exists e fs', SigmfWriter.write_metadata disk to_writer_pretty w fs = (Err e, fs')).
  { unfold SigmfWriter.write_metadata. rewrite bind_run. unfold sync_file at 1.
    destruct (map_err _ _) as [[]|e]; [|eauto].
    rewrite bind_run. unfold create_new at 1. destruct (fs !! _); [eauto|discriminate]. }
  destruct Hfail as (e&fs'&E). unfold SigmfWriter.finish. rewrite E. split; [reflexivity|].
  cbn. unfold SigmfWriter.drop, remove_file. rewrite Hc, !Hrem. apply lookup_delete_eq.
Qed.

(** ** A disk without faults *)
Module SigmfSamples.
Definition disk : Disk :=
  Build_Disk (fun _ _ => true) (fun _ _ => Ok (true, false)) (fun _ _ => Ok tt)
    (fun _ _ => Ok tt) (fun _ _ => Ok (1000000, 4096)) (fun _ => 1700000000000000000)
    (fun _ _ => None) (fun _ _ _ => None) (fun _ _ => Ok tt) (fun _ _ => None).
Definition full_disk : Disk :=
  Build_Disk (fun _ _ => true) (fun _ _ => Ok (true, false)) (fun _ _ => Ok tt)
    (fun _ _ => Ok tt) (fun _ _ => Ok (1000000, 4096)) (fun _ => 1700000000000000000)
    (fun _ _ => None) (fun _ _ _ => Some (2%nat, "No space left on device"%string))
    (fun _ _ => Ok tt) (fun _ _ => None).
Definition to_writer_pretty (_ : SigmfMetadata.t) : list Z := [123; 125].
Definition blocks : list Block := [block 0 2400000000 [1; 0; 2; 0]; block 1 2416000000 [3; 0; 4; 0]].

Definition created (d : Disk) : result (@SweepError.t SdrSamples.json) SigmfWriter.t * Fs :=
  @SigmfWriter.create SdrSamples.json d "/c" SweepSamples.validated ∅.
Definition writer : SigmfWriter.t :=
  SigmfWriter.mk "/c/request-7-3-1700000000000000000.sigmf-data"
    "/c/request-7-3-1700000000000000000.sigmf-meta" [] 0 30720000 20000000 (Some 20)
    1700000000000 false.
Definition appended (d : Disk) :=
  @append_all SdrSamples.json d blocks (writer, (created d).2).
Definition finished :=
  @SigmfWriter.finish SdrSamples.json disk to_writer_pretty (appended disk).2.1
    (appended disk).2.2.
Definition dataset : SweepDataset.t :=
  SweepDataset.mk "sigmf" "ci16_le" writer.(SigmfWriter.data_path)
    writer.(SigmfWriter.metadata_path) 8.
End SigmfSamples.

Lemma sigmf_recording_complete_witness :
  SigmfSamples.finished.1 = Ok SigmfSamples.dataset
  /\ SigmfSamples.dataset.(SweepDataset.bytes) = length_z (data_of SigmfSamples.blocks).
Proof.
  split; [vm_compute; reflexivity|].
  refine (proj1 (@sigmf_recording_complete SdrSamples.json SigmfSamples.disk
    SigmfSamples.to_writer_pretty "/c" SweepSamples.validated SigmfSamples.blocks ∅
    SigmfSamples.writer (SigmfSamples.created SigmfSamples.disk).2
    (SigmfSamples.appended SigmfSamples.disk).2.1 (SigmfSamples.appended SigmfSamples.disk).2.2
    SigmfSamples.dataset SigmfSamples.finished.2
    _ _ (fun _ _ => eq_refl) _ _ _)); vm_compute; reflexivity || congruence.
Defined.

Lemma sigmf_failure_leaves_nothing_witness :
  is_Ok (SigmfSamples.appended SigmfSamples.full_disk).1 = false
  /\ SigmfWriter.drop SigmfSamples.full_disk (SigmfSamples.appended SigmfSamples.full_disk).2.1
       (SigmfSamples.appended SigmfSamples.full_disk).2.2 = ∅.
Proof.
  split; [vm_compute; reflexivity|].
  refine (proj1 (@sigmf_failure_leaves_nothing SdrSamples.json SigmfSamples.full_disk
    SigmfSamples.to_writer_pretty "/c" SweepSamples.validated SigmfSamples.blocks ∅
    SigmfSamples.writer (SigmfSamples.created SigmfSamples.full_disk).2
    (SigmfSamples.appended SigmfSamples.full_disk).1
    (SigmfSamples.appended SigmfSamples.full_disk).2.1
    (SigmfSamples.appended SigmfSamples.full_disk).2.2 _ _ (fun _ _ => eq_refl) _));
    vm_compute; reflexivity.
Defined.

Lemma sigmf_drop_deletes_foreign_metadata_witness :
  (@SigmfWriter.finish SdrSamples.json SigmfSamples.disk SigmfSamples.to_writer_pretty
     SigmfSamples.writer (<[SigmfSamples.writer.(SigmfWriter.metadata_path) := [1]]> ∅)).2
    !! SigmfSamples.writer.(SigmfWriter.metadata_path) = None.
Proof.
  refine (proj2 (@sigmf_drop_deletes_foreign_metadata SdrSamples.json SigmfSamples.disk
    SigmfSamples.to_writer_pretty SigmfSamples.writer
    (<[SigmfSamples.writer.(SigmfWriter.metadata_path) := [1]]> ∅) eq_refl _
    (fun _ _ => eq_refl))); vm_compute; reflexivity.
Defined.
