(* ===== verification/SweepRun.v ===== *)
(** * The software sweep over SDRD

    [run_sdrd_points] of [controller/src/sweep.rs]: the SDRD session that owns
    the radio, tunes it to every center of a validated plan, captures one IQ
    block per center, records it, measures its power, and gives the radio back.
    It composes the wire ([Sdr]), the data set writer ([Sigmf]) and the IQ
    routines ([SweepCodec]). *)
From S2P Require Import Prelude Text F32 Protocol Sdr Execution SweepPlan SweepCodec Sigmf.

(** ** The replies of a sweep *)
Module HelloResponse.
Record t := mk { server : string; protocol : string; mode : string; mutating_commands : bool }.
End HelloResponse.

Module CapabilitiesResponse.
Record t := mk { iio_visible : bool; radio_control : bool; raw_iq_capture : bool }.
End CapabilitiesResponse.

Module StartResponse.
Record t := mk { generation : Z; session_generation : Z; restore_armed : bool }.
End StartResponse.

Module ProfileResponse.
Record t := mk {
  generation : Z;
  session_generation : Z;
  center_hz : Z;
  sample_rate_hz : Z;
  rf_bandwidth_hz : Z;
  gain_mode : string;
  hardware_gain_db : option Z;
}.
End ProfileResponse.

Module InlineCaptureResponse.
Record t := mk {
  request_id : Z;
  generation : Z;
  session_generation : Z;
  samples_captured : Z;
  bytes_transferred : Z;
  sequence : Z;
  dropped_samples : Z;
  overflow : bool;
  timeout : ExecutionTimeoutMetadata.t;
  health : ExecutionHealthMetadata.t;
  iq_base64 : string;
}.
End InlineCaptureResponse.

Module StopResponse.
Record t := mk { generation : Z; session_generation : Z; stopped : bool; restored : bool }.
End StopResponse.

Module QuitResponse.
Record t := mk { closing : bool }.
End QuitResponse.

Class SweepFormat `{Json} := {
  #[global] s_common_de :: Deserialize CommonResponse.t;
  #[global] s_hello_de :: Deserialize HelloResponse.t;
  #[global] s_capabilities_de :: Deserialize CapabilitiesResponse.t;
  #[global] s_start_de :: Deserialize StartResponse.t;
  #[global] s_profile_de :: Deserialize ProfileResponse.t;
  #[global] s_capture_de :: Deserialize InlineCaptureResponse.t;
  #[global] s_stop_de :: Deserialize StopResponse.t;
  #[global] s_quit_de :: Deserialize QuitResponse.t;
}.

(** What the sweep closure works on: the session, the local writer and the disk. *)
Module SweepState.
Record t := mk { session : Session.t; sigmf : option SigmfWriter.t; fs : Fs }.
End SweepState.

Module SdrdSoftwareSweepAdapter.
Section Checks.
Context `{Json}.

Definition check_hello (hello : HelloResponse.t) : result SweepError.t unit :=
  reject_if
    (negb (String.eqb hello.(HelloResponse.server) "p201-sdrd")
     || negb (String.eqb hello.(HelloResponse.protocol) "SDRD/1")
     || negb (String.eqb hello.(HelloResponse.mode) "controlled")
     || negb hello.(HelloResponse.mutating_commands))
    (SweepError.new "controlled_mode_unavailable"
       "SDRD is not the expected controlled endpoint").

Definition check_capabilities (capabilities : CapabilitiesResponse.t)
    : result SweepError.t unit :=
  reject_if
    (negb capabilities.(CapabilitiesResponse.iio_visible)
     || negb capabilities.(CapabilitiesResponse.radio_control))
    (SweepError.new "radio_capability" "SDRD cannot own and retune the receive path").

Definition check_start (start : StartResponse.t) (generation : Z) : result SweepError.t unit :=
  reject_if
    (negb (start.(StartResponse.generation) =? generation)
     || negb (start.(StartResponse.session_generation) =? generation)
     || negb start.(StartResponse.restore_armed))
    (SweepError.new "session_start" "SDRD did not arm sweep restoration").

Definition gain_mode (plan : ValidatedSweepPlan.t) : string :=
  match plan.(ValidatedSweepPlan.gain_db) with Some _ => "manual" | None => "slow_attack" end.

Definition profile_args (plan : ValidatedSweepPlan.t) (center_hz : Z) : string :=
  let generation := plan.(ValidatedSweepPlan.session_generation) in
  let profile :=
    print_u generation +:+ " " +:+ print_u center_hz +:+ " "
    +:+ print_u plan.(ValidatedSweepPlan.sample_rate_hz) +:+ " "
    +:+ print_u plan.(ValidatedSweepPlan.rf_bandwidth_hz) in
  match plan.(ValidatedSweepPlan.gain_db) with
  | Some gain_db => profile +:+ " manual " +:+ print_i gain_db +:+ " 1"
  | None => profile +:+ " slow_attack 1"
  end.

Definition check_profile (plan : ValidatedSweepPlan.t) (center_hz : Z)
    (profile : ProfileResponse.t) : result SweepError.t unit :=
  let generation := plan.(ValidatedSweepPlan.session_generation) in
  reject_if
    (negb (profile.(ProfileResponse.generation) =? generation)
     || negb (profile.(ProfileResponse.session_generation) =? generation)
     || (2 <? abs_diff profile.(ProfileResponse.center_hz) center_hz)
     || negb (profile.(ProfileResponse.sample_rate_hz)
              =? plan.(ValidatedSweepPlan.sample_rate_hz))
     || negb (profile.(ProfileResponse.rf_bandwidth_hz)
              =? plan.(ValidatedSweepPlan.rf_bandwidth_hz))
     || negb (String.eqb profile.(ProfileResponse.gain_mode) (gain_mode plan))
     || negb (bool_decide (profile.(ProfileResponse.hardware_gain_db)
                           = plan.(ValidatedSweepPlan.gain_db))))
    (SweepError.new "profile_response" "SDRD sweep profile readback is inconsistent").

(** The number of samples and bytes of one block. *)
Definition block_size (plan : ValidatedSweepPlan.t) : result SweepError.t (Z * Z) :=
  captured_samples ←
    ok_or (SweepError.new "sample_count" "sample count overflow")
      (checked_mul plan.(ValidatedSweepPlan.frame_samples)
         plan.(ValidatedSweepPlan.aggregate_frames)) ;
  bytes ←
    ok_or (SweepError.new "sample_count" "IQ byte count overflow")
      (checked_mul captured_samples 4) ;
  reject_if (256 * 1024 <? bytes)
    (SweepError.new "agx_capture_size"
       "one AGX software-aggregate point exceeds the 256 KiB transport frame") ;;
  Ok (captured_samples, bytes).

Definition feature_id (plan : ValidatedSweepPlan.t) (point_index : Z) : string :=
  "agx-sweep-" +:+ print_u plan.(ValidatedSweepPlan.session_generation) +:+ "-"
  +:+ print_u point_index.

Definition capture_args (plan : ValidatedSweepPlan.t) (point_index captured_samples bytes : Z)
    : string :=
  print_u plan.(ValidatedSweepPlan.session_generation) +:+ " " +:+ print_u captured_samples
  +:+ " " +:+ print_u bytes +:+ " " +:+ feature_id plan point_index +:+ " "
  +:+ print_u plan.(ValidatedSweepPlan.point_timeout_ms).

Definition check_capture (plan : ValidatedSweepPlan.t) (captured_samples bytes : Z)
    (capture : InlineCaptureResponse.t) : result SweepError.t unit :=
  let generation := plan.(ValidatedSweepPlan.session_generation) in
  let timeout := capture.(InlineCaptureResponse.timeout) in
  let health := capture.(InlineCaptureResponse.health) in
  reject_if
    (negb (capture.(InlineCaptureResponse.generation) =? generation)
     || negb (capture.(InlineCaptureResponse.session_generation) =? generation)
     || negb (capture.(InlineCaptureResponse.samples_captured) =? captured_samples)
     || negb (capture.(InlineCaptureResponse.bytes_transferred) =? bytes)
     || negb (capture.(InlineCaptureResponse.dropped_samples) =? 0)
     || capture.(InlineCaptureResponse.overflow)
     || negb (timeout.(ExecutionTimeoutMetadata.limit_ms)
              =? plan.(ValidatedSweepPlan.point_timeout_ms))
     || timeout.(ExecutionTimeoutMetadata.timed_out)
     || negb health.(ExecutionHealthMetadata.healthy)
     || negb (health.(ExecutionHealthMetadata.flags) =? 0)
     || negb (String.eqb health.(ExecutionHealthMetadata.source) "iio_adapter"))
    (SweepError.new "agx_capture_shape"
       "inline IQ response does not match the validated AGX aggregation plan").

Definition check_stop (stop : StopResponse.t) (generation : Z) : result SweepError.t unit :=
  reject_if
    (negb (stop.(StopResponse.generation) =? generation)
     || negb (stop.(StopResponse.session_generation) =? generation)
     || negb stop.(StopResponse.stopped)
     || negb stop.(StopResponse.restored))
    (SweepError.new "restore_response" "SDRD did not confirm sweep restoration").

(** From the decoded block to the reported point: [power as u32] and
    [(power >> 32) as u32] are the halves of the sum. *)
Definition measure (log10 : float -> float) (plan : ValidatedSweepPlan.t)
    (point_index center_hz captured_samples : Z) (profile : ProfileResponse.t)
    (capture : InlineCaptureResponse.t) (iq : list Z) : result SweepError.t SweepPoint.t :=
  aggregate ← aggregate_ci16_power iq captured_samples ;
  let (power, clipped) := aggregate : Z * Z in
  let aggregate_samples := captured_samples in
  let status_flags := capture.(InlineCaptureResponse.health).(ExecutionHealthMetadata.flags) in
  reject_if
    (negb (capture.(InlineCaptureResponse.generation)
           =? plan.(ValidatedSweepPlan.session_generation))
     || negb (status_flags =? 0))
    (SweepError.new "summary_quality"
       "SDR summary reported invalid, stale, overflow, or shape flags") ;;
  reject_if (negb (clipped =? 0))
    (SweepError.new "summary_clipped"
       "SDR summary clipped at the configured fixed gain; lower survey gain and retry") ;;
  reject_if (negb (aggregate_samples =? captured_samples))
    (SweepError.new "summary_shape" "aggregate sample count does not match the plan") ;;
  band_power_dbfs ←
    u96_power_dbfs log10 (power mod 2 ^ 32) (Z.shiftr power 32 mod 2 ^ 32) 0 captured_samples ;
  Ok {| SweepPoint.point_index := point_index;
        SweepPoint.request_id := capture.(InlineCaptureResponse.request_id);
        SweepPoint.session_generation := capture.(InlineCaptureResponse.session_generation);
        SweepPoint.requested_center_hz := center_hz;
        SweepPoint.actual_center_hz := profile.(ProfileResponse.center_hz);
        SweepPoint.sample_rate_hz := profile.(ProfileResponse.sample_rate_hz);
        SweepPoint.rf_bandwidth_hz := profile.(ProfileResponse.rf_bandwidth_hz);
        SweepPoint.sequence := capture.(InlineCaptureResponse.sequence);
        SweepPoint.dropped_samples := capture.(InlineCaptureResponse.dropped_samples);
        SweepPoint.overflow := capture.(InlineCaptureResponse.overflow);
        SweepPoint.captured_samples := captured_samples;
        SweepPoint.band_power_dbfs := band_power_dbfs;
        SweepPoint.clipped_samples := clipped;
        SweepPoint.status_flags := status_flags;
        SweepPoint.elapsed_us :=
          capture.(InlineCaptureResponse.timeout).(ExecutionTimeoutMetadata.elapsed_us);
        SweepPoint.timeout := capture.(InlineCaptureResponse.timeout);
        SweepPoint.health := capture.(InlineCaptureResponse.health) |}.
End Checks.

Section Adapter.
Context `{SweepFormat} (env : Environment) (disk : Disk).
Context (to_writer_pretty : SigmfMetadata.t -> list Z) (log10 : float -> float).
Context (sigmf_directory : option string).

(** [wire.request(...)?], with the conversion from [SdrError]. *)
Definition ask {T} `{!Deserialize T} (command arguments : string)
    : M SweepState.t SweepError.t T := fun s =>
  let (r, session) :=
    Session.request env SweepError.from_sdr command arguments s.(SweepState.session) in
  (r, SweepState.mk session s.(SweepState.sigmf) s.(SweepState.fs)).

(** [let _: Result<T, _> = wire.request(...);]. *)
Definition ignore (T : Type) `{!Deserialize T} (command arguments : string) (s : SweepState.t)
    : SweepState.t :=
  SweepState.mk (Session.request_ignored env T command arguments s.(SweepState.session))
    s.(SweepState.sigmf) s.(SweepState.fs).

Definition set_started (started : bool) : M SweepState.t SweepError.t unit := fun s =>
  let (r, session) := Session.set_started started s.(SweepState.session) in
  (r, SweepState.mk session s.(SweepState.sigmf) s.(SweepState.fs)).

Definition sleep (milliseconds : Z) : M SweepState.t SweepError.t unit := fun s =>
  let (r, session) := Session.sleep milliseconds s.(SweepState.session) in
  (r, SweepState.mk session s.(SweepState.sigmf) s.(SweepState.fs)).

(** [sigmf_directory.map(|directory| SigmfWriter::create(..)).transpose()?]. *)
Definition create_sigmf (plan : ValidatedSweepPlan.t) : M SweepState.t SweepError.t unit :=
  fun s =>
    match sigmf_directory with
    | None => (Ok tt, SweepState.mk s.(SweepState.session) None s.(SweepState.fs))
    | Some directory =>
        let (r, fs) := SigmfWriter.create disk directory plan s.(SweepState.fs) in
        match r with
        | Ok writer => (Ok tt, SweepState.mk s.(SweepState.session) (Some writer) fs)
        | Err error => (Err error, SweepState.mk s.(SweepState.session) None fs)
        end
    end.

Definition append_sigmf (point_index center_hz : Z) (iq : list Z)
    : M SweepState.t SweepError.t unit := fun s =>
  match s.(SweepState.sigmf) with
  | None => (Ok tt, s)
  | Some writer =>
      let '(r, (writer, fs)) :=
        SigmfWriter.append disk point_index center_hz iq (writer, s.(SweepState.fs)) in
      (r, SweepState.mk s.(SweepState.session) (Some writer) fs)
  end.

(** [sigmf.map(|writer| writer.finish()).transpose()?]: the writer is moved out. *)
Definition finish_sigmf : M SweepState.t SweepError.t (option SweepDataset.t) := fun s =>
  match s.(SweepState.sigmf) with
  | None => (Ok None, s)
  | Some writer =>
      let (r, fs) := SigmfWriter.finish disk to_writer_pretty writer s.(SweepState.fs) in
      (Some <$> r, SweepState.mk s.(SweepState.session) None fs)
  end.

(** The local writer goes out of scope. *)
Definition drop_sigmf (s : SweepState.t) : SweepState.t :=
  SweepState.mk s.(SweepState.session) None
    match s.(SweepState.sigmf) with
    | None => s.(SweepState.fs)
    | Some writer => SigmfWriter.drop disk writer s.(SweepState.fs)
    end.

(** The body of the loop over the centers. *)
Definition acquire_point (plan : ValidatedSweepPlan.t) (point_index center_hz : Z)
    : M SweepState.t SweepError.t SweepPoint.t :=
  profile ← ask (T := ProfileResponse.t) "APPLY_PROFILE" (profile_args plan center_hz) ;
  lift (check_profile plan center_hz profile) ;;
  sleep plan.(ValidatedSweepPlan.settle_ms) ;;
  size ← lift (block_size plan) ;
  let (captured_samples, bytes) := size : Z * Z in
  capture ← ask (T := InlineCaptureResponse.t) "CAPTURE_IQ_INLINE"
              (capture_args plan point_index captured_samples bytes) ;
  lift (check_capture plan captured_samples bytes capture) ;;
  iq ← lift (decode_base64 capture.(InlineCaptureResponse.iq_base64)) ;
  append_sigmf point_index center_hz iq ;;
  lift (measure log10 plan point_index center_hz captured_samples profile capture iq).

(** The loop, with the vector [points] so far. *)
Fixpoint acquire_points (plan : ValidatedSweepPlan.t) (point_index : Z) (centers : list Z)
    (points : list SweepPoint.t) : M SweepState.t SweepError.t (list SweepPoint.t) :=
  match centers with
  | [] => mret points
  | center_hz :: centers =>
      point ← acquire_point plan point_index center_hz ;
      acquire_points plan (point_index + 1) centers (points ++ [point])
  end.

(** The closure [execution]. *)
Definition execution (plan : ValidatedSweepPlan.t) : M SweepState.t SweepError.t BackendSweep.t :=
  let generation := plan.(ValidatedSweepPlan.session_generation) in
  start ← ask (T := StartResponse.t) "START_SESSION" (print_u generation) ;
  lift (check_start start generation) ;;
  set_started true ;;
  create_sigmf plan ;;
  points ← acquire_points plan 0 plan.(ValidatedSweepPlan.centers_hz) [] ;
  stop ← ask (T := StopResponse.t) "STOP_SESSION" (print_u generation) ;
  lift (check_stop stop generation) ;;
  set_started false ;;
  quit ← ask (T := QuitResponse.t) "QUIT" "" ;
  lift (reject_if (negb quit.(QuitResponse.closing))
          (SweepError.new "quit_rejected" "SDRD did not close")) ;;
  dataset ← finish_sigmf ;
  lift (Ok {| BackendSweep.backend := "agx_iq_software_aggregate";
              BackendSweep.backend_version := 1;
              BackendSweep.points := points;
              BackendSweep.dataset := dataset |}).

(** What follows a failed closure. *)
Definition cleanup (generation : Z) (s : SweepState.t) : SweepState.t :=
  let s :=
    if s.(SweepState.session).(Session.session_started) then
      ignore StopResponse.t "STOP_SESSION" (print_u generation) s
    else s in
  ignore QuitResponse.t "QUIT" "" s.

(** The closure, the end of its locals, and the cleanup. *)
Definition owned_sweep (plan : ValidatedSweepPlan.t)
    : M SweepState.t SweepError.t BackendSweep.t := fun s =>
  let (r, s) := execution plan s in
  let s := drop_sigmf s in
  match r with
  | Ok backend => (Ok backend, s)
  | Err error => (Err error, cleanup plan.(ValidatedSweepPlan.session_generation) s)
  end.

Definition sweep_session (plan : ValidatedSweepPlan.t)
    : M SweepState.t SweepError.t BackendSweep.t :=
  hello ← ask (T := HelloResponse.t) "HELLO" "" ;
  lift (check_hello hello) ;;
  capabilities ← ask (T := CapabilitiesResponse.t) "CAPABILITIES" "" ;
  lift (check_capabilities capabilities) ;;
  if negb capabilities.(CapabilitiesResponse.raw_iq_capture) then
    modify (ignore QuitResponse.t "QUIT" "") ;;
    lift (Err (SweepError.new "raw_iq_transport_unavailable"
                 "SDRD does not expose bounded raw-IQ acquisition for AGX aggregation"))
  else owned_sweep plan.

(** [run_sdrd_points], over the history of the outside world and the disk. *)
Definition run_sdrd_points (plan : ValidatedSweepPlan.t) (outside : History * Fs)
    : result SweepError.t BackendSweep.t * (History * Fs) :=
  let (h, fs) := outside in
  match SdrdWire.connect env h with
  | (Err error, h) => (Err (SweepError.from_sdr error), (h, fs))
  | (Ok _, h) =>
      let (r, s) := sweep_session plan
        (SweepState.mk (Session.mk (SdrdWire.fresh h) false) None fs) in
      (r, (s.(SweepState.session).(Session.wire).(SdrdWire.history), s.(SweepState.fs)))
  end.

#[global] Instance backend : SweepBackend (History * Fs) := run_sdrd_points.
End Adapter.
End SdrdSoftwareSweepAdapter.

(** ** What a sweep sends

    [Plays m script]: [m] sends a prefix of [script], all of it if it succeeds,
    and leaves the flag [session_started] alone.  The lemmas compose. *)
Section Plays.
Context `{SweepFormat} (env : Environment).

#[local] Abbreviation next s := (SdrdWire.next_request_id s.(SweepState.session).(Session.wire)).

Definition Plays {A} (m : M SweepState.t SweepError.t A) (script : list Action) : Prop :=
  forall s r s', m s = (r, s') -> next s + send_count script < u64_max ->
  exists n,
    Sent s.(SweepState.session) s'.(SweepState.session) (take n script)
      s.(SweepState.session).(Session.session_started)
    /\ (is_Ok r = true -> take n script = script).

(** A step that does not touch the session. *)
Lemma plays_silent {A} (m : M SweepState.t SweepError.t A) :
  (forall s r s', m s = (r, s') -> s'.(SweepState.session) = s.(SweepState.session)) ->
  Plays m [].
Proof.
  intros Hm s r s' Hrun _. exists 0%nat. rewrite (Hm _ _ _ Hrun).
  split; [apply sent_refl|reflexivity].
Qed.

Lemma plays_lift {A} (r : result SweepError.t A) : Plays (lift r) [].
Proof. apply plays_silent. intros s r' s'. rewrite lift_run. now intros [= _ <-]. Qed.

Lemma plays_ret {A} (a : A) : Plays (mret a) [].
Proof. apply (plays_lift (Ok a)). Qed.

Lemma plays_bind {A B} (m : M SweepState.t SweepError.t A) (k : A -> M SweepState.t SweepError.t B)
    l1 l2 :
  Plays m l1 -> (forall a, Plays (k a) l2) -> Plays (m ≫= k) (l1 ++ l2).
Proof.
  intros Hm Hk s r s'. rewrite bind_run. destruct (m s) as [[a|e] s1] eqn:Em.
  - intros Hrun Hid. rewrite send_count_app in Hid.
    pose proof (send_count_bound l2) as Hl2.
    destruct (Hm _ _ _ Em ltac:(lia)) as (n1&Hs1&Hok). specialize (Hok eq_refl).
    rewrite Hok in Hs1.
    destruct (Hk a _ _ _ Hrun) as (n2&Hs2&Hok2).
    { rewrite (sent_id _ _ _ _ Hs1). lia. }
    exists (length l1 + n2)%nat. rewrite take_app_add.
    rewrite (sent_started _ _ _ _ Hs1) in Hs2.
    split; [eapply sent_trans; eassumption|]. intros Hr. now rewrite Hok2.
  - intros [= <- <-] Hid. rewrite send_count_app in Hid.
    pose proof (send_count_bound l2) as Hl2.
    destruct (Hm _ _ _ Em ltac:(lia)) as (n1&Hs1&_).
    exists (Nat.min n1 (length l1)). rewrite take_app_le by lia.
    replace (take (Nat.min n1 (length l1)) l1) with (take n1 l1); [split; [exact Hs1|discriminate]|].
    destruct (Nat.le_ge_cases n1 (length l1)).
    + now rewrite Nat.min_l.
    + now rewrite Nat.min_r, !firstn_all2 by lia.
Qed.

Lemma plays_check {A B} (r : result SweepError.t A) (k : A -> M SweepState.t SweepError.t B) l :
  (forall a, r = Ok a -> Plays (k a) l) -> Plays (lift r ≫= k) l.
Proof.
  intros Hk s r' s'. rewrite lift_bind_run. destruct r as [a|e]; [now apply Hk|].
  intros [= <- <-] _. exists 0%nat. split; [apply sent_refl|discriminate].
Qed.

(** A request is sent whatever its outcome. *)
Lemma ask_sent {T} `{!Deserialize T} command arguments s (r : result SweepError.t T) s' :
  next s < u64_max ->
  SdrdSoftwareSweepAdapter.ask env command arguments s = (r, s') ->
  Sent s.(SweepState.session) s'.(SweepState.session) [Send command arguments]
    s.(SweepState.session).(Session.session_started)
  /\ s'.(SweepState.sigmf) = s.(SweepState.sigmf) /\ s'.(SweepState.fs) = s.(SweepState.fs).
Proof.
  intros Hid. unfold SdrdSoftwareSweepAdapter.ask.
  destruct (Session.request _ _ _ _ _) as [r1 session] eqn:Hreq. intros [= <- <-].
  split; [|split; reflexivity]. eapply session_request_sent; [exact Hid|exact Hreq].
Qed.

Lemma plays_ask {T} `{!Deserialize T} command arguments :
  Plays (SdrdSoftwareSweepAdapter.ask env (T := T) command arguments) [Send command arguments].
Proof.
  intros s r s' Hrun Hid. cbn in Hid. exists 1%nat. split; [|reflexivity].
  eapply ask_sent; [lia|exact Hrun].
Qed.

Lemma plays_sleep ms : Plays (SdrdSoftwareSweepAdapter.sleep ms) [Nap ms].
Proof.
  intros s r s' [= <- <-] _. exists 1%nat. split; [|reflexivity].
  destruct (sent_sleep (E := SweepError.t) _ _ _ _ ms (sent_refl s.(SweepState.session)))
    as [_ Hs]. exact Hs.
Qed.
End Plays.

Section Session.
Context `{SweepFormat} (env : Environment) (disk : Disk).
Context (to_writer_pretty : SigmfMetadata.t -> list Z) (log10 : float -> float).
Context (sigmf_directory : option string) (plan : ValidatedSweepPlan.t).
#[local] Abbreviation generation := plan.(ValidatedSweepPlan.session_generation).

(** The size of a block once it was accepted. *)
Definition block_samples : Z :=
  plan.(ValidatedSweepPlan.frame_samples) * plan.(ValidatedSweepPlan.aggregate_frames).

Lemma block_size_Ok size :
  SdrdSoftwareSweepAdapter.block_size plan = Ok size <->
  size = (block_samples, 4 * block_samples)
  /\ block_samples <= u64_max /\ 4 * block_samples <= 256 * 1024.
Proof.
  unfold SdrdSoftwareSweepAdapter.block_size, block_samples. rewrite bind_Ok. split.
  - intros (n&Hn&Hs). apply ok_or_Ok, checked_mul_Some in Hn as [Hm ->].
    apply bind_Ok in Hs as (b&Hb&Hs). apply ok_or_Ok, checked_mul_Some in Hb as [_ ->].
    apply reject_seq in Hs as [Hmax [= <-]]. guards_in Hmax.
    split; [f_equal; lia|]. split; lia.
  - intros (->&Hm&Hb). eexists. rewrite ok_or_Ok, checked_mul_Some. split; [eauto|].
    apply bind_Ok. eexists. rewrite ok_or_Ok, checked_mul_Some. split; [split; [|reflexivity]|].
    { unfold u64_max. lia. }
    apply reject_seq. guards. split; [lia|]. do 2 f_equal. lia.
Qed.

(** What one point and a whole sweep send. *)
Definition point_script (point_index center_hz : Z) : list Action :=
  [Send "APPLY_PROFILE" (SdrdSoftwareSweepAdapter.profile_args plan center_hz);
   Nap plan.(ValidatedSweepPlan.settle_ms);
   Send "CAPTURE_IQ_INLINE"
     (SdrdSoftwareSweepAdapter.capture_args plan point_index block_samples (4 * block_samples))].

Fixpoint points_script (point_index : Z) (centers : list Z) : list Action :=
  match centers with
  | [] => []
  | center_hz :: centers =>
      point_script point_index center_hz ++ points_script (point_index + 1) centers
  end.

Definition sweep_script : list Action :=
  Send "START_SESSION" (print_u generation)
    :: points_script 0 plan.(ValidatedSweepPlan.centers_hz)
    ++ [Send "STOP_SESSION" (print_u generation); Send "QUIT" ""].

Lemma plays_append point_index center_hz iq :
  Plays (SdrdSoftwareSweepAdapter.append_sigmf disk point_index center_hz iq) [].
Proof.
  apply plays_silent. intros s r s'. unfold SdrdSoftwareSweepAdapter.append_sigmf.
  destruct (SweepState.sigmf s); [|now intros [= _ <-]].
  destruct (SigmfWriter.append _ _ _ _ _) as [? [? ?]]. now intros [= _ <-].
Qed.

Lemma plays_create :
  Plays (SdrdSoftwareSweepAdapter.create_sigmf disk sigmf_directory plan) [].
Proof.
  apply plays_silent. intros s r s'. unfold SdrdSoftwareSweepAdapter.create_sigmf.
  destruct sigmf_directory; [|now intros [= _ <-]].
  destruct (SigmfWriter.create _ _ _ _) as [[]]; now intros [= _ <-].
Qed.

(** When the block is too large, only the first half of the point is played. *)
Lemma plays_point point_index center_hz :
  Plays (SdrdSoftwareSweepAdapter.acquire_point env disk log10 plan point_index center_hz)
    (point_script point_index center_hz).
Proof.
  unfold SdrdSoftwareSweepAdapter.acquire_point, point_script.
  apply (plays_bind _ _ [_] _ (plays_ask env _ _)). intros profile.
  apply plays_check. intros [] _.
  apply (plays_bind _ _ [_] _ (plays_sleep _)). intros _.
  apply plays_check. intros size Hsize. apply block_size_Ok in Hsize as (->&_&_).
  apply (plays_bind _ _ [_] [] (plays_ask env _ _)). intros capture.
  apply plays_check. intros [] _. apply plays_check. intros iq _.
  apply (plays_bind _ _ [] [] (plays_append _ _ _)). intros _. apply plays_lift.
Qed.

Lemma plays_points point_index centers points :
  Plays (SdrdSoftwareSweepAdapter.acquire_points env disk log10 plan point_index centers points)
    (points_script point_index centers).
Proof.
  revert point_index points. induction centers as [|c centers IH]; intros index points.
  - apply plays_ret.
  - apply (plays_bind _ _ _ _ (plays_point _ _)). intros p. apply IH.
Qed.

(** The part of the closure during which the session counts as started. *)
Definition started_part : M SweepState.t SweepError.t (list SweepPoint.t) :=
  SdrdSoftwareSweepAdapter.create_sigmf disk sigmf_directory plan ;;
  points ← SdrdSoftwareSweepAdapter.acquire_points env disk log10 plan 0
             plan.(ValidatedSweepPlan.centers_hz) [] ;
  stop ← SdrdSoftwareSweepAdapter.ask env (T := StopResponse.t) "STOP_SESSION"
           (print_u generation) ;
  lift (SdrdSoftwareSweepAdapter.check_stop stop generation) ;;
  mret points.

(** The rest of the closure, after the radio was given back. *)
Definition closing_part (points : list SweepPoint.t)
    : M SweepState.t SweepError.t BackendSweep.t :=
  quit ← SdrdSoftwareSweepAdapter.ask env (T := QuitResponse.t) "QUIT" "" ;
  lift (reject_if (negb quit.(QuitResponse.closing))
          (SweepError.new "quit_rejected" "SDRD did not close")) ;;
  dataset ← SdrdSoftwareSweepAdapter.finish_sigmf disk to_writer_pretty ;
  lift (Ok {| BackendSweep.backend := "agx_iq_software_aggregate";
              BackendSweep.backend_version := 1;
              BackendSweep.points := points;
              BackendSweep.dataset := dataset |}).

Lemma plays_started :
  Plays started_part
    (points_script 0 plan.(ValidatedSweepPlan.centers_hz)
     ++ [Send "STOP_SESSION" (print_u generation)]).
Proof.
  unfold started_part. apply (plays_bind _ _ [] _ plays_create). intros _.
  apply (plays_bind _ _ _ _ (plays_points _ _ _)). intros points.
  apply (plays_bind _ _ [_] [] (plays_ask env _ _)). intros stop.
  apply plays_check. intros [] _. apply plays_ret.
Qed.

Lemma closing_sent points s r s' :
  SdrdWire.next_request_id s.(SweepState.session).(Session.wire) < u64_max ->
  closing_part points s = (r, s') ->
  Sent s.(SweepState.session) s'.(SweepState.session) [Send "QUIT" ""]
    s.(SweepState.session).(Session.session_started).
Proof.
  intros Hid. unfold closing_part. rewrite bind_run.
  destruct (SdrdSoftwareSweepAdapter.ask _ _ _ _) as [[quit|e] s1] eqn:Hq;
    apply ask_sent in Hq as (Hs&_&_); [|exact Hid| |exact Hid].
  2: { now intros [= <- <-]. }
  rewrite lift_bind_run. destruct (reject_if _ _); [|now intros [= <- <-]].
  rewrite bind_run. destruct (SdrdSoftwareSweepAdapter.finish_sigmf _ _ _) as [r2 s2] eqn:Hf.
  assert (s2.(SweepState.session) = s1.(SweepState.session)) as Heq.
  { revert Hf. unfold SdrdSoftwareSweepAdapter.finish_sigmf.
    destruct (SweepState.sigmf s1); [|now intros [= _ <-]].
    destruct (SigmfWriter.finish _ _ _ _) as [? ?]. now intros [= _ <-]. }
  destruct r2; [rewrite lift_run|]; intros [= _ <-]; now rewrite Heq.
Qed.

(** The closure, cut at the changes of the flag. *)
Lemma execution_parts s :
  SdrdSoftwareSweepAdapter.execution env disk to_writer_pretty log10 sigmf_directory plan s
  = (start ← SdrdSoftwareSweepAdapter.ask env (T := StartResponse.t) "START_SESSION"
               (print_u generation) ;
     lift (SdrdSoftwareSweepAdapter.check_start start generation) ;;
     SdrdSoftwareSweepAdapter.set_started true ;;
     points ← started_part ;
     SdrdSoftwareSweepAdapter.set_started false ;;
     closing_part points) s.
Proof.
  unfold SdrdSoftwareSweepAdapter.execution, started_part, closing_part.
  rewrite !bind_run. destruct (SdrdSoftwareSweepAdapter.ask _ _ _ _) as [[start|e] s1]; [|reflexivity].
  rewrite !lift_bind_run. destruct (SdrdSoftwareSweepAdapter.check_start _ _); [|reflexivity].
  rewrite !bind_run. destruct (SdrdSoftwareSweepAdapter.set_started _ _) as [[u|e] s2]; [|reflexivity].
  rewrite !bind_run. destruct (SdrdSoftwareSweepAdapter.create_sigmf _ _ _ _) as [[u'|e] s3]; [|reflexivity].
  rewrite !bind_run. destruct (SdrdSoftwareSweepAdapter.acquire_points _ _ _ _ _ _ _ _) as [[ps|e] s4]; [|reflexivity].
  rewrite !bind_run. destruct (SdrdSoftwareSweepAdapter.ask _ _ _ _) as [[stop|e] s5]; [|reflexivity].
  rewrite !lift_bind_run. destruct (SdrdSoftwareSweepAdapter.check_stop _ _); reflexivity.
Qed.

(** How the closure ends: [n] actions of the script were played; the flag is up
    exactly when START was accepted and STOP was not yet. *)
Record Played (s s' : SweepState.t) (r : result SweepError.t BackendSweep.t)
    (n : nat) (started : bool) : Prop := {
  pl_sent : Sent s.(SweepState.session) s'.(SweepState.session) (take n sweep_script) started;
  pl_range : (1 <= n <= length sweep_script)%nat;
  pl_started : if started then (n < length sweep_script)%nat
               else n = 1%nat \/ n = length sweep_script;
  pl_Ok : is_Ok r = true -> n = length sweep_script /\ started = false;
}.

Lemma execution_played s r s' :
  s.(SweepState.session).(Session.session_started) = false ->
  SdrdWire.next_request_id s.(SweepState.session).(Session.wire) + send_count sweep_script
  < u64_max ->
  SdrdSoftwareSweepAdapter.execution env disk to_writer_pretty log10 sigmf_directory plan s
  = (r, s') ->
  exists n started, Played s s' r n started.
Proof.
  intros Hst Hid. rewrite execution_parts, bind_run.
  set (middle := points_script 0 plan.(ValidatedSweepPlan.centers_hz)
                 ++ [Send "STOP_SESSION" (print_u generation)]).
  assert (Hscript : sweep_script = Send "START_SESSION" (print_u generation) :: middle
                                     ++ [Send "QUIT" ""]).
  { unfold sweep_script, middle. now rewrite <- app_assoc. }
  assert (Hlen : length sweep_script = S (S (length middle))).
  { rewrite Hscript. cbn. rewrite length_app. cbn. lia. }
  rewrite Hscript in Hid. cbn [send_count] in Hid. rewrite send_count_app in Hid.
  cbn [send_count] in Hid. pose proof (send_count_bound middle) as Hmid.
  assert (Hfirst : forall e s1,
    Sent s.(SweepState.session) s1.(SweepState.session)
      [Send "START_SESSION" (print_u generation)] false ->
    exists n started, Played s s1 (Err e) n started).
  { intros e s1 Hs. exists 1%nat, false.
    split; [now rewrite Hscript|rewrite Hlen; lia|now left|discriminate]. }
  destruct (SdrdSoftwareSweepAdapter.ask _ _ _ _) as [[start|e] s1] eqn:Hstart;
    apply ask_sent in Hstart as (Hs&_&_); [|lia| |lia]; rewrite Hst in Hs.
  2: { intros [= <- <-]. now apply Hfirst. }
  rewrite lift_bind_run. destruct (SdrdSoftwareSweepAdapter.check_start _ _).
  2: { intros [= <- <-]. now apply Hfirst. }
  rewrite bind_run. cbn [SdrdSoftwareSweepAdapter.set_started Session.set_started].
  apply (sent_set_started _ _ _ _ true) in Hs. rewrite bind_run.
  pose proof (sent_id _ _ _ _ Hs) as Hid1. cbn in Hid1.
  destruct (started_part _) as [r2 s2] eqn:Hmiddle.
  destruct (plays_started _ _ _ Hmiddle) as (n&Hs2&Hok).
  { fold middle. cbn. lia. }
  fold middle in Hs2, Hok.
  cbn [SweepState.session Session.session_started] in Hs2.
  pose proof (sent_trans _ _ _ _ _ _ _ Hs Hs2) as Hs3. clear Hs2. rename Hs3 into Hs2.
  destruct r2 as [points|e].
  - rewrite (Hok eq_refl) in Hs2. rewrite bind_run.
    cbn [SdrdSoftwareSweepAdapter.set_started Session.set_started].
    apply (sent_set_started _ _ _ _ false) in Hs2.
    pose proof (sent_id _ _ _ _ Hs2) as Hid2. cbn in Hid2.
    intros Hrun. apply closing_sent in Hrun; [|cbn; lia].
    eapply sent_trans in Hrun; [|exact Hs2]. cbn [SweepState.session Session.session_started] in Hrun.
    exists (length sweep_script), false. split; [|rewrite Hlen; lia|now right|auto].
    rewrite firstn_all, Hscript. exact Hrun.
  - intros [= <- <-]. exists (S (Nat.min n (length middle))), true.
    split; [|rewrite Hlen; lia|rewrite Hlen; lia|discriminate].
    rewrite Hscript. cbn [take app]. rewrite take_app_le by lia.
    rewrite <- firstn_firstn, (firstn_all2 (n := length middle)) by lia. exact Hs2.
Qed.

Lemma points_script_count point_index centers :
  send_count (points_script point_index centers) = 2 * length_z centers.
Proof.
  revert point_index. induction centers as [|c centers IH]; intros index; [reflexivity|].
  cbn [points_script]. rewrite send_count_app, IH. unfold length_z. cbn. lia.
Qed.

Lemma sweep_script_count :
  send_count sweep_script = 3 + 2 * length_z plan.(ValidatedSweepPlan.centers_hz).
Proof.
  unfold sweep_script. cbn [send_count]. rewrite send_count_app, points_script_count. cbn. lia.
Qed.

(** The requests that give the radio back after a failure. *)
Definition release_script (started : bool) : list Action :=
  (if started then [Send "STOP_SESSION" (print_u generation)] else []) ++ [Send "QUIT" ""].

Lemma cleanup_sent s s1 l started :
  Sent s s1.(SweepState.session) l started ->
  SdrdWire.next_request_id s.(Session.wire) + send_count l + 1 < u64_max ->
  Sent s (SdrdSoftwareSweepAdapter.cleanup env generation s1).(SweepState.session)
    (l ++ release_script started) started.
Proof.
  intros Hs Hid. unfold SdrdSoftwareSweepAdapter.cleanup, release_script.
  rewrite (sent_started _ _ _ _ Hs). destruct started; cbn [app].
  - change (l ++ [?a; ?b]) with (l ++ [a] ++ [b]). rewrite app_assoc. cbn.
    apply sent_ignored; [apply sent_ignored; [exact Hs|lia]|].
    rewrite send_count_app. cbn. lia.
  - cbn. apply sent_ignored; [exact Hs|lia].
Qed.

Lemma drop_sigmf_session s :
  (SdrdSoftwareSweepAdapter.drop_sigmf disk s).(SweepState.session) = s.(SweepState.session).
Proof. reflexivity. Qed.

(** The history of a sweep that took the radio: see [sweep_is_bracketed]. *)
Definition Bracketed {A} (r : result SweepError.t A) (sent : list Action) : Prop :=
  exists n started,
    sent = take n sweep_script ++ (if is_Ok r then [] else release_script started)
    /\ (1 <= n <= length sweep_script)%nat
    /\ (if started then (n < length sweep_script)%nat else n = 1%nat \/ n = length sweep_script)
    /\ (is_Ok r = true -> n = length sweep_script).

Lemma owned_sweep_sent s r s' :
  s.(SweepState.session).(Session.session_started) = false ->
  SdrdWire.next_request_id s.(SweepState.session).(Session.wire) <= 3 ->
  length_z plan.(ValidatedSweepPlan.centers_hz) <= MAX_POINTS ->
  SdrdSoftwareSweepAdapter.owned_sweep env disk to_writer_pretty log10 sigmf_directory plan s
  = (r, s') ->
  exists sent started, Sent s.(SweepState.session) s'.(SweepState.session) sent started
  /\ Bracketed r sent.
Proof.
  intros Hst Hid Hlen. unfold SdrdSoftwareSweepAdapter.owned_sweep.
  destruct (SdrdSoftwareSweepAdapter.execution _ _ _ _ _ _ _) as [r1 s1] eqn:Hx.
  pose proof sweep_script_count as Hcount. unfold MAX_POINTS in Hlen.
  apply execution_played in Hx as (n&started&[Hs Hr Hst' Hok]);
    [|exact Hst|unfold u64_max; lia].
  assert (Hn : send_count (take n sweep_script) <= 2000).
  { pose proof (take_drop n sweep_script) as Hsplit. apply (f_equal send_count) in Hsplit.
    rewrite send_count_app in Hsplit. pose proof (send_count_bound (drop n sweep_script)). lia. }
  destruct r1 as [b|e]; intros [= <- <-].
  - destruct (Hok eq_refl) as [-> ->]. do 2 eexists. split; [exact Hs|].
    exists (length sweep_script), false. cbn [is_Ok]. rewrite app_nil_r. auto.
  - do 2 eexists. split; [eapply cleanup_sent; [exact Hs|unfold u64_max; lia]|].
    exists n, started. cbn [is_Ok]. split; [reflexivity|]. split; [exact Hr|].
    split; [exact Hst'|discriminate].
Qed.
End Session.
