(* ===== verification/SweepResult.v ===== *)
(** * What a sweep over SDRD achieves

    The theorems on [run_sdrd_points] ([SweepRun]): the requests it makes, the
    points it returns, the files it leaves, for every behaviour of the daemon,
    the network and the disk; and a daemon that completes a sweep. *)
From S2P Require Import Prelude Text F32 Protocol Framing Sdr Execution SweepPlan SweepCodec Sigmf SweepRun.

(** ** What the daemon replied *)

(** A line, with its newline. *)
Definition IsLine (frame : list Z) : Prop := exists line, frame = line ++ [NEWLINE] /\ NEWLINE ∉ line.

Section Replies.
Context `{Json} `{!Deserialize CommonResponse.t} (env : Environment).

(** What the daemon sent in answer to the requests among [events], in order. *)
Fixpoint delivered (before events : History) : list Z :=
  match events with
  | [] => []
  | event :: events =>
      (match event with ESend _ _ _ => (env.(answer) (before ++ [event])).(arrived) | _ => [] end)
      ++ delivered (before ++ [event]) events
  end.

Lemma delivered_app before events1 events2 :
  delivered before (events1 ++ events2) = delivered before events1 ++ delivered (before ++ events1) events2.
Proof.
  revert before. induction events1 as [|event events1 IH]; intros before; cbn.
  - now rewrite app_nil_r.
  - now rewrite IH, <- !app_assoc.
Qed.

(** The bytes the daemon sent between the histories [h] and [h'] are [lines], and then
    [rest]. *)
Definition Answered (h h' : History) (lines : list (list Z)) (rest : list Z) : Prop :=
  exists events, h' = h ++ events /\ delivered h events = concat lines ++ rest /\ Forall IsLine lines.

(** Every request so far was answered by its own line. *)
Definition Synced (h : History) (lines : list (list Z)) (w : SdrdWire.t) : Prop :=
  Answered h (SdrdWire.history w) lines (SdrdWire.unread w)
  /\ SdrdWire.next_request_id w = 1 + length_z lines.

Lemma synced_request {T} `{!Deserialize T} command arguments w (reply : T) w' h lines :
  SdrdWire.request env command arguments w = (Ok reply, w') -> Synced h lines w ->
  exists frame, Synced h (lines ++ [frame]) w'
                /\ SdrdWire.decode_reply (1 + length_z lines) frame = Ok reply.
Proof.
  intros Hreq [(events&Hh&Hd&Hl) Hid].
  assert (Hmax : SdrdWire.next_request_id w < u64_max).
  { unfold SdrdWire.request, checked_add in Hreq. destruct (_ <=? _) eqn:E in Hreq; [lia|discriminate]. }
  pose proof (request_step env command arguments w (Ok reply) w' Hmax Hreq) as [Hh' Hid'].
  apply request_Ok in Hreq as (frame&Hs&Hdecode&Hf&Hnl). rewrite Hid in Hdecode.
  exists frame. split; [|exact Hdecode]. split; [|unfold length_z in *; rewrite length_app; cbn; lia].
  exists (events ++ [ESend (SdrdWire.next_request_id w) command arguments]).
  split; [rewrite Hh', Hh; now rewrite app_assoc|]. split.
  - rewrite delivered_app, Hd, <- Hh. cbn [delivered]. rewrite app_nil_r, <- app_assoc.
    rewrite concat_app, <- app_assoc. f_equal. cbn [concat]. now rewrite app_nil_r.
  - apply Forall_app. split; [exact Hl|]. constructor; [|constructor]. exists (pop frame). auto.
Qed.

Lemma synced_sleep ms w h lines :
  Synced h lines w ->
  Synced h lines (SdrdWire.mk (SdrdWire.next_request_id w) (SdrdWire.unread w)
                    (SdrdWire.history w ++ [ESleep ms])).
Proof.
  intros [(events&Hh&Hd&Hl) Hid]. split; [|exact Hid]. exists (events ++ [ESleep ms]). cbn.
  split; [rewrite Hh; now rewrite app_assoc|]. split; [|exact Hl].
  rewrite delivered_app, Hd. cbn. now rewrite app_nil_r.
Qed.
End Replies.

(** ** What an acquired point says *)
Section Acquired.
Context `{SweepFormat} (env : Environment) (disk : Disk).
Context (log10 : float -> float) (sigmf_directory : option string).
Context (plan : ValidatedSweepPlan.t).
#[local] Abbreviation samples := (block_samples plan).

(** The point [p] reports the block [iq] captured at [center]. *)
Record PointFrom (index center : Z) (iq : list Z) (p : SweepPoint.t) : Prop := {
  pf_index : p.(SweepPoint.point_index) = index;
  pf_generation : p.(SweepPoint.session_generation) = plan.(ValidatedSweepPlan.session_generation);
  pf_requested : p.(SweepPoint.requested_center_hz) = center;
  pf_actual : Z.abs (p.(SweepPoint.actual_center_hz) - center) <= 2;
  pf_profile : p.(SweepPoint.sample_rate_hz) = plan.(ValidatedSweepPlan.sample_rate_hz)
               /\ p.(SweepPoint.rf_bandwidth_hz) = plan.(ValidatedSweepPlan.rf_bandwidth_hz);
  pf_lossless : p.(SweepPoint.dropped_samples) = 0 /\ p.(SweepPoint.overflow) = false;
  pf_health : p.(SweepPoint.status_flags) = 0
              /\ p.(SweepPoint.health) = ExecutionHealthMetadata.mk true 0 "iio_adapter";
  pf_timeout : p.(SweepPoint.timeout)
               = ExecutionTimeoutMetadata.mk plan.(ValidatedSweepPlan.point_timeout_ms)
                   p.(SweepPoint.elapsed_us) false;
  pf_samples : p.(SweepPoint.captured_samples) = samples
               /\ length_z iq = 4 * samples /\ 4 * samples <= 256 * 1024;
  pf_power : p.(SweepPoint.clipped_samples) = 0
             /\ exists power, aggregate_ci16_power iq samples = Ok (power, 0)
                /\ u96_power_dbfs log10 (power mod 2 ^ 32) (Z.shiftr power 32 mod 2 ^ 32) 0 samples
                   = Ok p.(SweepPoint.band_power_dbfs);
}.

Lemma check_profile_Ok center profile u :
  SdrdSoftwareSweepAdapter.check_profile plan center profile = Ok u ->
  Z.abs (profile.(ProfileResponse.center_hz) - center) <= 2
  /\ profile.(ProfileResponse.sample_rate_hz) = plan.(ValidatedSweepPlan.sample_rate_hz)
  /\ profile.(ProfileResponse.rf_bandwidth_hz) = plan.(ValidatedSweepPlan.rf_bandwidth_hz).
Proof.
  unfold SdrdSoftwareSweepAdapter.check_profile, abs_diff. guards.
  intros Hp. decompose [and] Hp. auto.
Qed.

Lemma aggregate_length iq n power clipped :
  aggregate_ci16_power iq n = Ok (power, clipped) -> length_z iq = 4 * n.
Proof.
  unfold aggregate_ci16_power. rewrite bind_Ok. intros (expected&He&Ha).
  apply ok_or_Ok, checked_mul_Some in He as [_ ->]. guards_in Ha. lia.
Qed.

Lemma measure_point index center profile capture iq p :
  4 * samples <= 256 * 1024 ->
  SdrdSoftwareSweepAdapter.check_profile plan center profile = Ok tt ->
  SdrdSoftwareSweepAdapter.check_capture plan samples (4 * samples) capture = Ok tt ->
  SdrdSoftwareSweepAdapter.measure log10 plan index center samples profile capture iq = Ok p ->
  PointFrom index center iq p.
Proof.
  intros Hmax Hp Hc Hm. apply check_profile_Ok in Hp as (?&?&?).
  unfold SdrdSoftwareSweepAdapter.check_capture in Hc. guards_in Hc. decompose [and] Hc.
  unfold SdrdSoftwareSweepAdapter.measure in Hm.
  apply bind_Ok in Hm as ([power clipped]&Ha&Hm). guards_in Hm.
  destruct Hm as (_&Hclip&_&Hm). apply bind_Ok in Hm as (dbfs&Hd&[= <-]).
  pose proof (aggregate_length _ _ _ _ Ha) as Hlen. rewrite Hclip in Ha.
  constructor; cbn; auto.
  - destruct (InlineCaptureResponse.health capture); cbn in *. subst. auto.
  - destruct (InlineCaptureResponse.timeout capture); cbn in *. subst. reflexivity.
  - split; [exact Hclip|]. eauto.
Qed.

(** The point reports the replies [applied] and [captured], to the requests [id] and
    [id + 1], and [iq] is the block in the second one. *)
Definition PointReplied (id : Z) (applied captured : list Z) (iq : list Z) (p : SweepPoint.t) : Prop :=
  exists profile capture,
    SdrdWire.decode_reply (T := ProfileResponse.t) id applied = Ok profile
    /\ SdrdWire.decode_reply (T := InlineCaptureResponse.t) (id + 1) captured = Ok capture
    /\ decode_base64 capture.(InlineCaptureResponse.iq_base64) = Ok iq
    /\ p.(SweepPoint.actual_center_hz) = profile.(ProfileResponse.center_hz)
    /\ p.(SweepPoint.request_id) = capture.(InlineCaptureResponse.request_id)
    /\ p.(SweepPoint.sequence) = capture.(InlineCaptureResponse.sequence)
    /\ p.(SweepPoint.timeout) = capture.(InlineCaptureResponse.timeout)
    /\ p.(SweepPoint.health) = capture.(InlineCaptureResponse.health).

Lemma measure_replies index center n profile capture iq p :
  SdrdSoftwareSweepAdapter.measure log10 plan index center n profile capture iq = Ok p ->
  p.(SweepPoint.actual_center_hz) = profile.(ProfileResponse.center_hz)
  /\ p.(SweepPoint.request_id) = capture.(InlineCaptureResponse.request_id)
  /\ p.(SweepPoint.sequence) = capture.(InlineCaptureResponse.sequence)
  /\ p.(SweepPoint.timeout) = capture.(InlineCaptureResponse.timeout)
  /\ p.(SweepPoint.health) = capture.(InlineCaptureResponse.health).
Proof.
  unfold SdrdSoftwareSweepAdapter.measure. intros Hm.
  apply bind_Ok in Hm as ([power clipped]&_&Hm). guards_in Hm.
  destruct Hm as (_&_&_&Hm). apply bind_Ok in Hm as (dbfs&_&[= <-]). auto 6.
Qed.

#[local] Abbreviation wire s := (s.(SweepState.session).(Session.wire)).

Lemma ask_synced {T} `{!Deserialize T} command arguments s (reply : T) s' h lines :
  SdrdSoftwareSweepAdapter.ask env command arguments s = (Ok reply, s') ->
  Synced env h lines (wire s) ->
  exists frame, Synced env h (lines ++ [frame]) (wire s')
                /\ SdrdWire.decode_reply (1 + length_z lines) frame = Ok reply.
Proof.
  unfold SdrdSoftwareSweepAdapter.ask, Session.request.
  destruct (SdrdWire.request _ _ _ _) as [r w] eqn:Hreq. intros [= Hr <-]. apply map_err_Ok in Hr as ->.
  intros Hsynced. eapply synced_request; [exact Hreq|exact Hsynced].
Qed.

Lemma append_session index center iq s r s' :
  SdrdSoftwareSweepAdapter.append_sigmf disk index center iq s = (r, s') ->
  s'.(SweepState.session) = s.(SweepState.session).
Proof.
  unfold SdrdSoftwareSweepAdapter.append_sigmf. destruct (SweepState.sigmf s); [|now intros [= _ <-]].
  destruct (SigmfWriter.append _ _ _ _ _) as [? [? ?]]. now intros [= _ <-].
Qed.

Lemma ask_disk {T} `{!Deserialize T} command arguments s (r : result SweepError.t T) s' :
  SdrdSoftwareSweepAdapter.ask env command arguments s = (r, s') ->
  s'.(SweepState.sigmf) = s.(SweepState.sigmf) /\ s'.(SweepState.fs) = s.(SweepState.fs).
Proof.
  unfold SdrdSoftwareSweepAdapter.ask. destruct (Session.request _ _ _ _ _). now intros [= _ <-].
Qed.

(** The disk a state refers to, without the session. *)
Definition SameDisk (s s' : SweepState.t) : Prop :=
  s'.(SweepState.sigmf) = s.(SweepState.sigmf) /\ s'.(SweepState.fs) = s.(SweepState.fs).

Lemma acquire_point_Ok index center s p s' :
  SdrdSoftwareSweepAdapter.acquire_point env disk log10 plan index center s = (Ok p, s') ->
  exists iq s1, PointFrom index center iq p /\ SameDisk s s1
  /\ SdrdSoftwareSweepAdapter.append_sigmf disk index center iq s1 = (Ok tt, s')
  /\ forall h lines, Synced env h lines (wire s) ->
     exists applied captured, Synced env h (lines ++ [applied; captured]) (wire s')
                              /\ PointReplied (1 + length_z lines) applied captured iq p.
Proof.
  unfold SdrdSoftwareSweepAdapter.acquire_point. intros Hrun.
  apply bindM_Ok in Hrun as (profile&s1&Hp&Hrun). pose proof Hp as Hasked. apply ask_disk in Hp as [Hw1 Hf1].
  apply lift_bind_Ok in Hrun as ([]&Hcp&Hrun).
  apply bindM_Ok in Hrun as ([]&s2&Hsleep&Hrun). injection Hsleep as <-.
  apply lift_bind_Ok in Hrun as (size&Hsize&Hrun). apply block_size_Ok in Hsize as (->&_&Hmax).
  apply bindM_Ok in Hrun as (capture&s3&Hc&Hrun). pose proof Hc as Hasked2. apply ask_disk in Hc as [Hw3 Hf3].
  apply lift_bind_Ok in Hrun as ([]&Hcc&Hrun).
  apply lift_bind_Ok in Hrun as (iq&Hiq&Hrun).
  apply bindM_Ok in Hrun as ([]&s4&Happ&Hrun). rewrite lift_run in Hrun.
  injection Hrun as Hm <-. exists iq, s3.
  split; [eapply measure_point; eassumption|].
  split; [split; [now rewrite Hw3|now rewrite Hf3]|]. split; [exact Happ|].
  intros h lines Hsynced. apply (ask_synced _ _ _ _ _ _ _ Hasked) in Hsynced as (applied&Hsynced&Happlied).
  apply (synced_sleep env plan.(ValidatedSweepPlan.settle_ms)) in Hsynced.
  apply (ask_synced _ _ _ _ _ _ _ Hasked2) in Hsynced as (captured&Hsynced&Hcaptured).
  exists applied, captured. rewrite <- app_assoc in Hsynced.
  split; [now rewrite (append_session _ _ _ _ _ _ Happ)|].
  replace (1 + length_z (lines ++ [applied])) with (1 + length_z lines + 1) in Hcaptured
    by (unfold length_z; rewrite length_app; cbn; lia).
  exists profile, capture. split; [exact Happlied|]. split; [exact Hcaptured|]. split; [exact Hiq|].
  exact (measure_replies _ _ _ _ _ _ _ Hm).
Qed.
End Acquired.

(** ** What a sweep leaves on disk *)
Section Recording.
Context `{SweepFormat} (env : Environment) (disk : Disk).
Context (to_writer_pretty : SigmfMetadata.t -> list Z) (log10 : float -> float).
Context (sigmf_directory : option string) (plan : ValidatedSweepPlan.t).

(** The points and blocks of the centers from [index] on. *)
Definition AllPoints (index : Z) (centers : list Z) (iqs : list (list Z))
    (points : list SweepPoint.t) : Prop :=
  length iqs = length centers /\ length points = length centers
  /\ forall i c iq p, centers !! i = Some c -> iqs !! i = Some iq -> points !! i = Some p ->
     PointFrom log10 plan (index + Z.of_nat i) c iq p.

(** Two replies for each point, to the requests from [id] on. *)
Fixpoint AllReplied (id : Z) (replies : list (list Z)) (iqs : list (list Z))
    (points : list SweepPoint.t) : Prop :=
  match replies, iqs, points with
  | [], [], [] => True
  | applied :: captured :: replies, iq :: iqs, p :: points =>
      PointReplied id applied captured iq p /\ AllReplied (id + 2) replies iqs points
  | _, _, _ => False
  end.

#[local] Abbreviation wire s := (s.(SweepState.session).(Session.wire)).

Fixpoint blocks_of (index : Z) (centers : list Z) (iqs : list (list Z)) : list Block :=
  match centers, iqs with
  | c :: centers, iq :: iqs => block index c iq :: blocks_of (index + 1) centers iqs
  | _, _ => []
  end.

Lemma data_of_blocks index centers iqs :
  length iqs = length centers -> data_of (blocks_of index centers iqs) = concat iqs.
Proof.
  revert index iqs. induction centers as [|c centers IH]; intros index [|iq iqs]; cbn; try lia.
  - reflexivity.
  - intros Hlen. f_equal. apply IH. lia.
Qed.

(** The local writer has recorded [blocks] on top of [fs0]. *)
Definition Recorded (fs0 : Fs) (blocks : list Block) (s : SweepState.t) : Prop :=
  match s.(SweepState.sigmf) with
  | None => s.(SweepState.fs) = fs0
  | Some w => Records fs0 plan blocks w s.(SweepState.fs)
              /\ Forall (fun b => length_z (blk_iq b) mod 4 = 0) blocks
  end.

Lemma recorded_same fs0 blocks s s' : SameDisk s s' -> Recorded fs0 blocks s -> Recorded fs0 blocks s'.
Proof. intros [Hw Hf]. unfold Recorded. now rewrite Hw, Hf. Qed.

Lemma append_sigmf_recorded fs0 blocks index center iq s s' :
  Recorded fs0 blocks s ->
  SdrdSoftwareSweepAdapter.append_sigmf disk index center iq s = (Ok tt, s') ->
  Recorded fs0 (blocks ++ [block index center iq]) s'
  /\ is_none s'.(SweepState.sigmf) = is_none s.(SweepState.sigmf).
Proof.
  unfold Recorded, SdrdSoftwareSweepAdapter.append_sigmf.
  destruct (SweepState.sigmf s) as [w|] eqn:Hw.
  - intros [Hr Hb]. destruct (SigmfWriter.append _ _ _ _ _) as [r [w' fs']] eqn:Ha.
    intros [= -> <-]. split; [|reflexivity].
    exact (append_records disk fs0 plan blocks (block index center iq) _ _ _ _ Hr Hb Ha).
  - intros Hf [= <-]. rewrite Hw. auto.
Qed.

Lemma acquire_points_Ok index centers points s ps s' :
  SdrdSoftwareSweepAdapter.acquire_points env disk log10 plan index centers points s
  = (Ok ps, s') ->
  exists iqs new, ps = points ++ new /\ AllPoints index centers iqs new
  /\ is_none s'.(SweepState.sigmf) = is_none s.(SweepState.sigmf)
  /\ (forall fs0 done, Recorded fs0 done s ->
      Recorded fs0 (done ++ blocks_of index centers iqs) s')
  /\ forall h lines, Synced env h lines (wire s) ->
     exists replies, Synced env h (lines ++ replies) (wire s')
                     /\ AllReplied (1 + length_z lines) replies iqs new.
Proof.
  revert index points s. induction centers as [|c centers IH]; intros index points s Hrun.
  - injection Hrun as <- <-. exists [], []. rewrite app_nil_r. split; [reflexivity|].
    split; [split; [reflexivity|split; [reflexivity|discriminate]]|]. split; [reflexivity|].
    split; [intros fs0 done; cbn; now rewrite app_nil_r|].
    intros h lines Hsynced. exists []. now rewrite app_nil_r.
  - cbn [SdrdSoftwareSweepAdapter.acquire_points] in Hrun.
    apply bindM_Ok in Hrun as (p&s1&Hp&Hrun).
    apply acquire_point_Ok in Hp as (iq&s0&Hfrom&Hsame&Happ&Hreply).
    apply IH in Hrun as (iqs&new&->&(Hl1&Hl2&Hall)&Hnone&Hrec&Hreplies).
    exists (iq :: iqs), (p :: new). rewrite <- app_assoc. split; [reflexivity|].
    split; [|split; [|split]].
    + split; [cbn; lia|]. split; [cbn; lia|]. intros [|i] c' iq' p'; cbn.
      * intros [= <-] [= <-] [= <-]. now rewrite Z.add_0_r.
      * intros. replace (index + Z.of_nat (S i)) with (index + 1 + Z.of_nat i) by lia. eauto.
    + rewrite Hnone. transitivity (is_none s0.(SweepState.sigmf)).
      * unfold SdrdSoftwareSweepAdapter.append_sigmf in Happ.
        destruct (SweepState.sigmf s0) eqn:E; [|injection Happ as <-; now rewrite E].
        destruct (SigmfWriter.append _ _ _ _ _) as [? [? ?]]. now injection Happ as _ <-.
      * now destruct Hsame as [-> _].
    + intros fs0 done Hd. cbn [blocks_of].
      replace (done ++ block index c iq :: blocks_of (index + 1) centers iqs)
        with ((done ++ [block index c iq]) ++ blocks_of (index + 1) centers iqs)
        by now rewrite <- app_assoc.
      apply Hrec. eapply append_sigmf_recorded; [eapply recorded_same; eassumption|exact Happ].
    + intros h lines Hsynced. apply Hreply in Hsynced as (applied&captured&Hsynced&Hpoint).
      apply Hreplies in Hsynced as (replies&Hsynced&Hothers).
      exists (applied :: captured :: replies). rewrite <- app_assoc in Hsynced. split; [exact Hsynced|].
      split; [exact Hpoint|].
      replace (1 + length_z lines + 2) with (1 + length_z (lines ++ [applied; captured]))
        by (unfold length_z; rewrite length_app; cbn; lia). exact Hothers.
Qed.
End Recording.

(** The other half: a sweep that fails takes its files with it. *)
Section Failure.
Context `{SweepFormat} (env : Environment) (disk : Disk).
Context (to_writer_pretty : SigmfMetadata.t -> list Z) (log10 : float -> float).
Context (sigmf_directory : option string) (plan : ValidatedSweepPlan.t) (fs0 : Fs).

(** Files can be removed, and no foreign file has the name of the new metadata. *)
Record DiskAssumptions : Prop := {
  da_remove : forall fs path, disk.(remove_error) fs path = None;
  da_fresh : forall directory w fs1,
    sigmf_directory = Some directory ->
    SigmfWriter.create disk directory plan fs0 = (Ok w, fs1) ->
    fs0 !! w.(SigmfWriter.metadata_path) = None;
}.
Context (assumptions : DiskAssumptions).

(** The only difference to [fs0] is the data file the local writer opened. *)
Definition Owned (s : SweepState.t) : Prop :=
  match s.(SweepState.sigmf) with
  | None => s.(SweepState.fs) = fs0
  | Some w => Opened fs0 w s.(SweepState.fs) /\ fs0 !! w.(SigmfWriter.metadata_path) = None
  end.

Definition Keeps {A} (m : M SweepState.t SweepError.t A) : Prop :=
  forall s r s', Owned s -> m s = (r, s') -> Owned s'.

Lemma keeps_same {A} (m : M SweepState.t SweepError.t A) :
  (forall s r s', m s = (r, s') -> SameDisk s s') -> Keeps m.
Proof. intros Hm s r s' Ho Hrun. destruct (Hm _ _ _ Hrun) as [Hw Hf]. unfold Owned. now rewrite Hw, Hf. Qed.

Lemma keeps_lift {A} (r : result SweepError.t A) : Keeps (lift r).
Proof. apply keeps_same. intros s r' s'. rewrite lift_run. now intros [= _ <-]. Qed.

Lemma keeps_bind {A B} (m : M SweepState.t SweepError.t A)
    (k : A -> M SweepState.t SweepError.t B) :
  Keeps m -> (forall a, Keeps (k a)) -> Keeps (m ≫= k).
Proof.
  intros Hm Hk s r s' Ho. rewrite bind_run.
  destruct (m s) as [[a|e] s1] eqn:E; apply Hm in E; auto; [|now intros [= _ <-]].
  intros Hrun. eapply Hk; eassumption.
Qed.

Lemma keeps_check {A B} (r : result SweepError.t A) (k : A -> M SweepState.t SweepError.t B) :
  (forall a, Keeps (k a)) -> Keeps (lift r ≫= k).
Proof. intros Hk. apply keeps_bind; [apply keeps_lift|exact Hk]. Qed.

Lemma keeps_ask {T} `{!Deserialize T} command arguments :
  Keeps (SdrdSoftwareSweepAdapter.ask env (T := T) command arguments).
Proof. apply keeps_same. intros s r s'. apply ask_disk. Qed.

Lemma keeps_append index center iq :
  Keeps (SdrdSoftwareSweepAdapter.append_sigmf disk index center iq).
Proof.
  intros s r s'. unfold Owned, SdrdSoftwareSweepAdapter.append_sigmf.
  destruct (SweepState.sigmf s) as [w|] eqn:Hw.
  - intros [Ho Hm]. destruct (SigmfWriter.append _ _ _ _ _) as [r1 [w' fs']] eqn:Ha.
    intros [= <- <-]. cbn. apply append_opened with (1 := Ho) in Ha as (?&_&->). auto.
  - intros Hf [= _ <-]. now rewrite Hw.
Qed.

Lemma keeps_point index center :
  Keeps (SdrdSoftwareSweepAdapter.acquire_point env disk log10 plan index center).
Proof.
  unfold SdrdSoftwareSweepAdapter.acquire_point.
  apply keeps_bind; [apply keeps_ask|intros profile]. apply keeps_check. intros _.
  apply keeps_bind; [apply keeps_same; now intros s r s' [= _ <-]|intros _].
  apply keeps_check. intros [captured bytes].
  apply keeps_bind; [apply keeps_ask|intros capture]. apply keeps_check. intros _.
  apply keeps_check. intros iq. apply keeps_bind; [apply keeps_append|intros _].
  apply keeps_lift.
Qed.

Lemma keeps_points index centers points :
  Keeps (SdrdSoftwareSweepAdapter.acquire_points env disk log10 plan index centers points).
Proof.
  revert index points. induction centers as [|c centers IH]; intros index points.
  - apply (keeps_lift (Ok points)).
  - apply keeps_bind; [apply keeps_point|intros p; apply IH].
Qed.

Lemma create_fails directory fs e fs' :
  SigmfWriter.create disk directory plan fs = (Err e, fs') -> fs' = fs.
Proof.
  unfold SigmfWriter.create. rewrite bind_run. unfold SigmfWriter.prepare_directory.
  destruct (_ ;; _) as [u|]; [|congruence].
  rewrite lift_bind_run. destruct (SigmfWriter.required_bytes plan); [|congruence].
  rewrite bind_run. unfold available_storage_bytes.
  destruct (if existsb _ _ then _ else _); [|congruence].
  rewrite lift_bind_run. destruct (reject_if _ _); [|congruence].
  rewrite bind_run. cbn [gets]. rewrite bind_run. unfold create_new.
  destruct (fs !! _); [congruence|]. destruct (open_error _ _ _); [congruence|].
  rewrite bind_run. cbn [gets]. rewrite lift_run. discriminate.
Qed.

Lemma create_sigmf_owned s r s' :
  s.(SweepState.sigmf) = None -> s.(SweepState.fs) = fs0 ->
  SdrdSoftwareSweepAdapter.create_sigmf disk sigmf_directory plan s = (r, s') ->
  Owned s'
  /\ (is_Ok r = true ->
      Recorded plan fs0 [] s' /\ is_none s'.(SweepState.sigmf) = is_none sigmf_directory).
Proof.
  intros Hw Hf. unfold SdrdSoftwareSweepAdapter.create_sigmf, Owned, Recorded.
  destruct assumptions as [Hrem Hfresh].
  destruct sigmf_directory as [d|]; [|intros [= <- <-]; cbn; auto].
  rewrite Hf. destruct (SigmfWriter.create _ _ _ _) as [[w|e] fs1] eqn:Hc; intros [= <- <-].
  - cbn. pose proof (create_records _ _ _ _ _ _ Hc) as Hr.
    split; [split; [eapply records_opened, Hr|eapply Hfresh; [reflexivity|exact Hc]]|auto].
  - cbn. split; [|discriminate]. now apply create_fails in Hc.
Qed.

(** The end of a closure: what dropping the local writer leaves behind. *)
Lemma drop_owned s : Owned s -> (SdrdSoftwareSweepAdapter.drop_sigmf disk s).(SweepState.fs) = fs0.
Proof.
  unfold Owned, SdrdSoftwareSweepAdapter.drop_sigmf. cbn.
  destruct (SweepState.sigmf s); [|auto]. intros [Ho Hm].
  apply drop_opened; auto. apply assumptions.
Qed.

(** The files of a complete sweep over the blocks [iqs]. *)
Definition RecordedSweep (iqs : list (list Z)) (dataset : option SweepDataset.t) (fs : Fs) : Prop :=
  match sigmf_directory, dataset with
  | None, None => fs = fs0
  | Some _, Some ds =>
      exists created,
        fs = <[ds.(SweepDataset.metadata_path) :=
                to_writer_pretty
                  (SigmfMetadata.mk "ci16_le" plan.(ValidatedSweepPlan.sample_rate_hz) "1.2.5"
                     "sdrharness-agx" created "interleaved_iq"
                     (captures_of plan.(ValidatedSweepPlan.rf_bandwidth_hz)
                        plan.(ValidatedSweepPlan.gain_db) 0
                        (blocks_of 0 plan.(ValidatedSweepPlan.centers_hz) iqs))) ++ [10]]>
              (<[ds.(SweepDataset.data_path) := concat iqs]> fs0)
        /\ fs0 !! ds.(SweepDataset.data_path) = None
        /\ fs0 !! ds.(SweepDataset.metadata_path) = None
        /\ ds.(SweepDataset.data_path) <> ds.(SweepDataset.metadata_path)
  | _, _ => False
  end.

Lemma finish_sigmf_run iqs s r s' :
  length iqs = length plan.(ValidatedSweepPlan.centers_hz) ->
  is_none s.(SweepState.sigmf) = is_none sigmf_directory ->
  Owned s ->
  Recorded plan fs0 (blocks_of 0 plan.(ValidatedSweepPlan.centers_hz) iqs) s ->
  SdrdSoftwareSweepAdapter.finish_sigmf disk to_writer_pretty s = (r, s') ->
  s'.(SweepState.sigmf) = None
  /\ match r with
     | Err _ => s'.(SweepState.fs) = fs0
     | Ok dataset => RecordedSweep iqs dataset s'.(SweepState.fs)
     end.
Proof.
  intros Hlen Hnone. unfold Owned, Recorded, SdrdSoftwareSweepAdapter.finish_sigmf, RecordedSweep.
  destruct (SweepState.sigmf s) as [w|] eqn:Hw; destruct sigmf_directory; try discriminate.
  - intros [Ho Hm] [[Hfs Hnew Hp Hs Hcap (H1&H2&H3) Hcom] _].
    destruct (SigmfWriter.finish _ _ _ _) as [rf fs'] eqn:Hfin.
    apply finish_run with (fs0 := fs0) in Hfin; auto; [|apply assumptions].
    intros [= <- <-]. cbn. split; [reflexivity|]. destruct rf as [ds|e]; cbn; [|exact Hfin].
    destruct Hfin as [-> ->]. cbn. exists w.(SigmfWriter.created_at_ms).
    rewrite Hfs, H1, Hcap, data_of_blocks by exact Hlen. auto.
  - intros _ Hf [= <- <-]. auto.
Qed.

(** The daemon answered every request between [h] and [h'] with a line of its own, and the
    points and the blocks are what the replies to the requests 4, 5, 6, ... say. *)
Definition Conversation (h h' : History) (iqs : list (list Z)) (points : list SweepPoint.t) : Prop :=
  exists hello capabilities start replies stop quit rest,
    Answered env h h' ([hello; capabilities; start] ++ replies ++ [stop; quit]) rest
    /\ AllReplied 4 replies iqs points.

(** What a returned sweep consists of, and what is on disk then. *)
Definition SweepOutcome (h h' : History) (r : result SweepError.t BackendSweep.t) (fs : Fs) : Prop :=
  match r with
  | Err _ => fs = fs0
  | Ok b =>
      b.(BackendSweep.backend) = "agx_iq_software_aggregate"%string
      /\ b.(BackendSweep.backend_version) = 1
      /\ exists iqs, AllPoints log10 plan 0 plan.(ValidatedSweepPlan.centers_hz) iqs
                       b.(BackendSweep.points)
         /\ RecordedSweep iqs b.(BackendSweep.dataset) fs
         /\ Conversation h h' iqs b.(BackendSweep.points)
  end.

#[local] Abbreviation wire s := (s.(SweepState.session).(Session.wire)).

Lemma create_session s r s' :
  SdrdSoftwareSweepAdapter.create_sigmf disk sigmf_directory plan s = (r, s') ->
  s'.(SweepState.session) = s.(SweepState.session).
Proof.
  unfold SdrdSoftwareSweepAdapter.create_sigmf. destruct sigmf_directory; [|now intros [= _ <-]].
  destruct (SigmfWriter.create _ _ _ _) as [[]]; now intros [= _ <-].
Qed.
Lemma finish_session s r s' :
  SdrdSoftwareSweepAdapter.finish_sigmf disk to_writer_pretty s = (r, s') ->
  s'.(SweepState.session) = s.(SweepState.session).
Proof.
  unfold SdrdSoftwareSweepAdapter.finish_sigmf. destruct (SweepState.sigmf s); [|now intros [= _ <-]].
  destruct (SigmfWriter.finish _ _ _ _). now intros [= _ <-].
Qed.

Lemma started_part_disk s r s' :
  s.(SweepState.sigmf) = None -> s.(SweepState.fs) = fs0 ->
  started_part env disk log10 sigmf_directory plan s = (r, s') ->
  Owned s'
  /\ forall points, r = Ok points ->
     is_none s'.(SweepState.sigmf) = is_none sigmf_directory
     /\ exists iqs, AllPoints log10 plan 0 plan.(ValidatedSweepPlan.centers_hz) iqs points
        /\ Recorded plan fs0 (blocks_of 0 plan.(ValidatedSweepPlan.centers_hz) iqs) s'
        /\ forall h lines, Synced env h lines (wire s) ->
           exists replies stop, Synced env h (lines ++ replies ++ [stop]) (wire s')
                                /\ AllReplied (1 + length_z lines) replies iqs points.
Proof.
  intros Hw Hf. unfold started_part. rewrite bind_run.
  destruct (SdrdSoftwareSweepAdapter.create_sigmf _ _ _ _) as [rc s1] eqn:Hc.
  pose proof (create_session _ _ _ Hc) as Hsession.
  apply create_sigmf_owned in Hc as [Ho Hrec]; [|exact Hw|exact Hf].
  destruct rc as [u|e]; [|intros [= <- <-]; split; [exact Ho|discriminate]].
  destruct (Hrec eq_refl) as [Hr Hnone]. intros Hrun. split.
  - eapply keeps_bind in Hrun; [exact Hrun|apply keeps_points| |exact Ho]. intros points.
    apply keeps_bind; [apply keeps_ask|intros stop]. apply keeps_check. intros _.
    apply (keeps_lift (Ok points)).
  - intros points ->. apply bindM_Ok in Hrun as (ps&s2&Hps&Hrun).
    apply bindM_Ok in Hrun as (stop&s3&Hstop&Hrun). pose proof Hstop as Hasked.
    apply ask_disk in Hstop as [Hw3 Hf3].
    apply lift_bind_Ok in Hrun as (u'&_&Hrun). injection Hrun as <- <-.
    apply acquire_points_Ok in Hps as (iqs&new&->&Hall&Hn&Hdone&Hreplies).
    split; [now rewrite Hw3, Hn|]. exists iqs. split; [exact Hall|]. split.
    { apply (recorded_same plan fs0 _ s2 s3); [now split|]. now apply (Hdone fs0 []). }
    intros h lines Hsynced. rewrite <- Hsession in Hsynced.
    apply Hreplies in Hsynced as (replies&Hsynced&Hreplied).
    apply (ask_synced _ _ _ _ _ _ _ _ Hasked) in Hsynced as (frame&Hsynced&_).
    exists replies, frame. now rewrite app_assoc.
Qed.

Lemma closing_part_disk iqs points s r s' h hello capabilities start replies stop :
  Synced env h ([hello; capabilities; start] ++ replies ++ [stop]) (wire s) ->
  AllReplied 4 replies iqs points ->
  AllPoints log10 plan 0 plan.(ValidatedSweepPlan.centers_hz) iqs points ->
  is_none s.(SweepState.sigmf) = is_none sigmf_directory ->
  Owned s ->
  Recorded plan fs0 (blocks_of 0 plan.(ValidatedSweepPlan.centers_hz) iqs) s ->
  closing_part env disk to_writer_pretty points s = (r, s') ->
  SweepOutcome h (SdrdWire.history (wire s')) r (SdrdSoftwareSweepAdapter.drop_sigmf disk s').(SweepState.fs).
Proof.
  intros Hsynced Hreplied Hall Hnone Ho Hrec. unfold closing_part. rewrite bind_run.
  destruct (SdrdSoftwareSweepAdapter.ask _ _ _ _) as [rq s1] eqn:Hq.
  pose proof (keeps_ask _ _ _ _ _ Ho Hq) as Ho1. pose proof Hq as Hasked. apply ask_disk in Hq as [Hw1 Hf1].
  destruct rq as [quit|e]; [|intros [= <- <-]; now apply drop_owned].
  rewrite lift_bind_run. destruct (reject_if _ _); [|intros [= <- <-]; now apply drop_owned].
  rewrite bind_run. destruct (SdrdSoftwareSweepAdapter.finish_sigmf _ _ _) as [rf s2] eqn:Hfin.
  pose proof (finish_session _ _ _ Hfin) as Hsession.
  apply finish_sigmf_run with (iqs := iqs) in Hfin as [Hnone2 Hout].
  - assert (Hdrop : (SdrdSoftwareSweepAdapter.drop_sigmf disk s2).(SweepState.fs)
                    = s2.(SweepState.fs)).
    { unfold SdrdSoftwareSweepAdapter.drop_sigmf. cbn. now rewrite Hnone2. }
    destruct rf as [dataset|e]; [rewrite lift_run|]; intros [= <- <-]; rewrite Hdrop.
    + split; [reflexivity|]. split; [reflexivity|]. exists iqs. split; [exact Hall|]. split; [exact Hout|].
      apply (ask_synced _ _ _ _ _ _ _ _ Hasked) in Hsynced as (bye&[Hanswered _]&_).
      exists hello, capabilities, start, replies, stop, bye, (SdrdWire.unread (wire s2)).
      rewrite Hsession in *. split; [|exact Hreplied]. rewrite <- !app_assoc in Hanswered. exact Hanswered.
    + exact Hout.
  - apply Hall.
  - now rewrite Hw1.
  - exact Ho1.
  - eapply recorded_same; [split; [exact Hw1|exact Hf1]|exact Hrec].
Qed.

Lemma owned_sweep_disk s r s' h hello capabilities :
  s.(SweepState.sigmf) = None -> s.(SweepState.fs) = fs0 ->
  Synced env h [hello; capabilities] (wire s) ->
  SdrdSoftwareSweepAdapter.owned_sweep env disk to_writer_pretty log10 sigmf_directory plan s
  = (r, s') ->
  SweepOutcome h (SdrdWire.history (wire s')) r s'.(SweepState.fs).
Proof.
  intros Hw Hf Hsynced Hrun.
  assert (exists r1 s1,
    SdrdSoftwareSweepAdapter.execution env disk to_writer_pretty log10 sigmf_directory plan s
    = (r1, s1) /\ r = r1
    /\ s'.(SweepState.fs) = (SdrdSoftwareSweepAdapter.drop_sigmf disk s1).(SweepState.fs)
    /\ (is_Ok r1 = true -> wire s' = wire s1))
    as (r1&s1&Hx&->&->&Hwire).
  { unfold SdrdSoftwareSweepAdapter.owned_sweep in Hrun.
    destruct (SdrdSoftwareSweepAdapter.execution _ _ _ _ _ _ _) as [r1 s1].
    exists r1, s1. split; [reflexivity|]. destruct r1 as [b|e]; injection Hrun as <- <-; [auto|].
    split; [reflexivity|]. split; [|discriminate]. unfold SdrdSoftwareSweepAdapter.cleanup. now destruct (Session.session_started _). }
  clear Hrun. enough (Hout : SweepOutcome h (SdrdWire.history (wire s1)) r1
                              (SdrdSoftwareSweepAdapter.drop_sigmf disk s1).(SweepState.fs)).
  { destruct r1 as [b|e]; [now rewrite Hwire|exact Hout]. }
  clear Hwire. rewrite execution_parts, bind_run in Hx.
  destruct (SdrdSoftwareSweepAdapter.ask _ _ _ _) as [[start|e] s2] eqn:Hs;
    pose proof Hs as Hasked; apply ask_disk in Hs as [Hw2 Hf2]; rewrite Hw in Hw2; rewrite Hf in Hf2;
    (assert (Ho2 : Owned s2) by (unfold Owned; now rewrite Hw2)).
  2: { injection Hx as <- <-. now apply drop_owned. }
  apply (ask_synced _ _ _ _ _ _ _ _ Hasked) in Hsynced as (started&Hsynced&_).
  rewrite lift_bind_run in Hx. destruct (SdrdSoftwareSweepAdapter.check_start _ _).
  2: { injection Hx as <- <-. now apply drop_owned. }
  rewrite bind_run in Hx. cbn [SdrdSoftwareSweepAdapter.set_started Session.set_started] in Hx.
  rewrite bind_run in Hx. destruct (started_part _ _ _ _ _ _) as [rm s3] eqn:Hm.
  apply started_part_disk in Hm as [Ho3 Hm]; [|exact Hw2|exact Hf2].
  destruct rm as [points|e]; [|injection Hx as <- <-; now apply drop_owned].
  destruct (Hm points eq_refl) as (Hnone&iqs&Hall&Hrec&Hreplies).
  apply (Hreplies h ([hello; capabilities] ++ [started])) in Hsynced as (replies&stop&Hsynced&Hreplied).
  rewrite bind_run in Hx. cbn [SdrdSoftwareSweepAdapter.set_started Session.set_started] in Hx.
  eapply (closing_part_disk iqs points _ _ _ h hello capabilities started replies stop);
    [..|exact Hx]; [exact Hsynced|exact Hreplied|exact Hall|exact Hnone|exact Ho3|exact Hrec].
Qed.
End Failure.

(** ** A sweep seen from outside *)
Section Outside.
Context `{SweepFormat} (env : Environment) (disk : Disk).
Context (to_writer_pretty : SigmfMetadata.t -> list Z) (log10 : float -> float).
Context (sigmf_directory : option string) (plan : ValidatedSweepPlan.t).

#[local] Abbreviation identify := [Send "HELLO" ""; Send "CAPABILITIES" ""].
#[local] Abbreviation sweep_session :=
  (SdrdSoftwareSweepAdapter.sweep_session env disk to_writer_pretty log10 sigmf_directory plan).
#[local] Abbreviation owned_sweep :=
  (SdrdSoftwareSweepAdapter.owned_sweep env disk to_writer_pretty log10 sigmf_directory plan).

(** Either the radio was refused, and the disk is untouched, or the session was
    owned from the state after the identification. *)
Lemma sweep_session_cases h fs r s' :
  let s := SweepState.mk (Session.mk (SdrdWire.fresh h) false) None fs in
  sweep_session s = (r, s') ->
  (is_Ok r = false /\ s'.(SweepState.fs) = fs
   /\ exists m, Sent s.(SweepState.session) s'.(SweepState.session)
                  (take m (identify ++ [Send "QUIT" ""])) false)
  \/ exists s1, Sent s.(SweepState.session) s1.(SweepState.session) identify false
     /\ s1.(SweepState.fs) = fs /\ s1.(SweepState.sigmf) = None /\ owned_sweep s1 = (r, s')
     /\ forall h0, Synced env h0 [] s.(SweepState.session).(Session.wire) ->
        exists hello capabilities,
          Synced env h0 [hello; capabilities] s1.(SweepState.session).(Session.wire).
Proof.
  intros s. unfold SdrdSoftwareSweepAdapter.sweep_session. rewrite bind_run.
  destruct (SdrdSoftwareSweepAdapter.ask _ _ _ _) as [[hello|e] s1] eqn:Hh;
    pose proof Hh as Hasked1; apply ask_sent in Hh as (Hs&Hw&Hf); try (cbn; unfold u64_max; lia).
  2: { intros [= <- <-]. left. split; [reflexivity|]. split; [exact Hf|]. now exists 1%nat. }
  rewrite lift_bind_run. destruct (SdrdSoftwareSweepAdapter.check_hello hello).
  2: { intros [= <- <-]. left. split; [reflexivity|]. split; [exact Hf|]. now exists 1%nat. }
  pose proof (sent_id _ _ _ _ Hs) as Hid. cbn in Hid.
  rewrite bind_run.
  destruct (SdrdSoftwareSweepAdapter.ask _ _ _ s1) as [[caps|e] s2] eqn:Hc;
    pose proof Hc as Hasked2; apply ask_sent in Hc as (Hs2&Hw2&Hf2); try (rewrite Hid; unfold u64_max; lia);
    rewrite Hf in Hf2; rewrite Hw in Hw2; rewrite (sent_started _ _ _ _ Hs) in Hs2;
    eapply sent_trans in Hs2; try exact Hs; cbn [app] in Hs2.
  2: { intros [= <- <-]. left. split; [reflexivity|]. split; [exact Hf2|]. now exists 2%nat. }
  rewrite lift_bind_run. destruct (SdrdSoftwareSweepAdapter.check_capabilities caps).
  2: { intros [= <- <-]. left. split; [reflexivity|]. split; [exact Hf2|]. now exists 2%nat. }
  destruct (negb _).
  - rewrite bind_run. cbn [modify]. rewrite lift_run. intros [= <- <-]. left.
    split; [reflexivity|]. split; [exact Hf2|]. exists 3%nat.
    apply (sent_ignored env QuitResponse.t "QUIT" "" _ _ _ _ Hs2). cbn. unfold u64_max. lia.
  - intros Hrun. right. exists s2. split; [exact Hs2|]. split; [exact Hf2|]. split; [exact Hw2|].
    split; [exact Hrun|]. intros h0 Hsynced.
    apply (ask_synced _ _ _ _ _ _ _ _ Hasked1) in Hsynced as (frame1&Hsynced&_).
    apply (ask_synced _ _ _ _ _ _ _ _ Hasked2) in Hsynced as (frame2&Hsynced&_).
    exists frame1, frame2. exact Hsynced.
Qed.

Lemma run_sdrd_points_cases h fs r h' fs' :
  SdrdSoftwareSweepAdapter.run_sdrd_points env disk to_writer_pretty log10 sigmf_directory plan
    (h, fs) = (r, (h', fs')) ->
  (is_Ok r = false /\ fs' = fs
   /\ exists m, h' = h ++ take m (EConnect :: sends 1 (identify ++ [Send "QUIT" ""])))
  \/ exists s1 s', 
     Sent (Session.mk (SdrdWire.fresh (h ++ [EConnect])) false) s1.(SweepState.session) identify
       false
     /\ s1.(SweepState.fs) = fs /\ s1.(SweepState.sigmf) = None /\ owned_sweep s1 = (r, s')
     /\ (exists hello capabilities,
           Synced env h [hello; capabilities] s1.(SweepState.session).(Session.wire))
     /\ h' = s'.(SweepState.session).(Session.wire).(SdrdWire.history)
     /\ fs' = s'.(SweepState.fs).
Proof.
  unfold SdrdSoftwareSweepAdapter.run_sdrd_points.
  destruct (SdrdWire.connect env h) as [[u|e] h1] eqn:Hc; apply connect_history in Hc as ->.
  2: { intros [= <- <- <-]. left. split; [reflexivity|]. split; [reflexivity|]. now exists 1%nat. }
  destruct (sweep_session _) as [r1 s'] eqn:Hs. intros [= <- <- <-].
  apply sweep_session_cases in Hs as [(Hr&Hf&m&Hs)|(s1&Hs&Hf&Hw&Hrun&Hsynced)].
  - left. split; [exact Hr|]. split; [exact Hf|]. exists (S m).
    rewrite (sent_history _ _ _ _ Hs). cbn [SweepState.session Session.wire SdrdWire.fresh
      SdrdWire.history SdrdWire.next_request_id take]. rewrite <- app_assoc. cbn [app].
    do 2 f_equal. do 4 (destruct m as [|m]; [reflexivity|]). now destruct m.
  - right. exists s1, s'. do 4 (split; [assumption|]). split; [|split; reflexivity].
    apply Hsynced. split; [|reflexivity]. exists [EConnect]. cbn. auto.
Qed.

Lemma owned_sweep_points s b s' :
  owned_sweep s = (Ok b, s') ->
  exists iqs, AllPoints log10 plan 0 plan.(ValidatedSweepPlan.centers_hz) iqs
                b.(BackendSweep.points).
Proof.
  unfold SdrdSoftwareSweepAdapter.owned_sweep.
  destruct (SdrdSoftwareSweepAdapter.execution _ _ _ _ _ _ _) as [[b'|e] s1] eqn:Hx;
    intros [= <- <-]. rewrite execution_parts in Hx.
  apply bindM_Ok in Hx as (start&s2&_&Hx). apply lift_bind_Ok in Hx as (u&_&Hx).
  apply bindM_Ok in Hx as (u'&s3&_&Hx). apply bindM_Ok in Hx as (points&s4&Hm&Hx).
  apply bindM_Ok in Hx as (u''&s5&_&Hx).
  apply bindM_Ok in Hx as (quit&s6&_&Hx). apply lift_bind_Ok in Hx as (q&_&Hx).
  apply bindM_Ok in Hx as (dataset&s7&_&Hx). rewrite lift_run in Hx. injection Hx as <- <-.
  apply bindM_Ok in Hm as (c&s8&_&Hm). apply bindM_Ok in Hm as (ps&s9&Hps&Hm).
  apply bindM_Ok in Hm as (stop&s10&_&Hm). apply lift_bind_Ok in Hm as (k&_&Hm).
  injection Hm as -> _.
  apply acquire_points_Ok in Hps as (iqs&new&->&Hall&_). cbn. eauto.
Qed.
End Outside.

(** Points built from checked replies satisfy everything [validate_points] asks
    for but what it alone looks at. *)
Lemma points_validated `{Json} log10 plan iqs points :
  plan.(ValidatedSweepPlan.point_timeout_ms) <> 0 ->
  AllPoints log10 plan 0 plan.(ValidatedSweepPlan.centers_hz) iqs points ->
  validate_points plan points = Ok tt <->
  Forall (fun p => p.(SweepPoint.request_id) <> 0
                   /\ is_finite p.(SweepPoint.band_power_dbfs) = true) points
  /\ StronglySorted Z.lt (map SweepPoint.sequence points).
Proof.
  intros Htimeout (Hl1&Hl2&Hall). rewrite validate_points_spec. split.
  - intros (_&Hok&Hs). split; [|exact Hs]. apply list.Forall_forall. intros p Hp.
    apply list_elem_of_lookup in Hp as [i Hi].
    destruct (lookup_lt_is_Some_2 plan.(ValidatedSweepPlan.centers_hz) i) as [c Hc].
    { apply lookup_lt_Some in Hi. lia. }
    destruct (Hok i p c Hi Hc). auto.
  - intros (Hf&Hs). split; [exact Hl2|]. split; [|exact Hs]. intros i p c Hi Hc.
    destruct (lookup_lt_is_Some_2 iqs i) as [iq Hiq]. { apply lookup_lt_Some in Hi. lia. }
    destruct (Hall i c iq p Hc Hiq Hi) as [? ? ? ? [? ?] [? ?] [? Hhealth] Htime _ _].
    apply (list.Forall_lookup_1 _ _ _ _ Hf) in Hi as [? ?].
    constructor; auto; rewrite ?Hhealth, ?Htime; cbn; auto.
Qed.

(** ** Properties *)

(** C10: a sweep always gives the radio back.  For every behaviour of the daemon, the network and
    the disk, the outside sees one of two things: the radio is refused, and nothing but HELLO,
    CAPABILITIES and QUIT was sent; or the session START, (APPLY_PROFILE, settle,
    CAPTURE_IQ_INLINE) for each center in order, STOP, QUIT is played up to some point, and a
    failure is followed by STOP (if START was accepted and STOP not yet) and by QUIT.  A result is
    returned only after the whole script. *)
Theorem sweep_is_bracketed `{SweepFormat} env disk to_writer_pretty log10 sigmf_directory plan
    h fs r h' fs' :
  length_z plan.(ValidatedSweepPlan.centers_hz) <= MAX_POINTS ->
  SdrdSoftwareSweepAdapter.run_sdrd_points env disk to_writer_pretty log10 sigmf_directory plan
    (h, fs) = (r, (h', fs')) ->
  let identify := [Send "HELLO" ""; Send "CAPABILITIES" ""] in
  (is_Ok r = false
   /\ exists m, h' = h ++ take m (EConnect :: sends 1 (identify ++ [Send "QUIT" ""])))
  \/ exists n started,
     h' = h ++ EConnect :: sends 1 (identify ++ take n (sweep_script plan)
                                    ++ if is_Ok r then [] else release_script plan started)
     /\ (1 <= n <= length (sweep_script plan))%nat
     /\ (if started then (n < length (sweep_script plan))%nat
         else n = 1%nat \/ n = length (sweep_script plan))
     /\ (is_Ok r = true -> n = length (sweep_script plan)).
Proof.
  intros Hlen Hrun identify.
  apply run_sdrd_points_cases in Hrun as [(Hr&_&Hm)|(s1&s'&Hs&_&_&Ho&_&->&_)]; [now left|right].
  apply owned_sweep_sent in Ho as (sent&started'&Hsent&n&started&->&Hn&Hst&Hok);
    [|exact (sent_started _ _ _ _ Hs)|rewrite (sent_id _ _ _ _ Hs); reflexivity|exact Hlen].
  exists n, started. split; [|auto]. pose proof (sent_trans _ _ _ _ _ _ _ Hs Hsent) as Hall.
  rewrite (sent_history _ _ _ _ Hall). cbn [Session.wire SdrdWire.fresh SdrdWire.history
    SdrdWire.next_request_id]. now rewrite <- app_assoc.
Qed.

(** C11: a returned sweep is what was captured, on the wire and on disk. The daemon answered each
    request with one line, in order; point [i] reports the replies to its own two requests, number
    [4 + 2i] (the profile) and [5 + 2i] (the capture), and its block is the one in that capture's
    reply, of the requested size, captured within 2 Hz of center [i], lossless, healthy and
    without a clipped sample; the point's power is computed from that block. With a SigMF directory the
    disk gained exactly the data file, holding these very blocks in order, and its metadata. A
    sweep that fails leaves the disk as it was. All this is for a disk on which files can be
    removed and no file of the new metadata's name exists before: without that a failing sweep
    may leave its data file, or delete a metadata file that is not its own. *)
Theorem sweep_outcome `{SweepFormat} env disk to_writer_pretty log10 sigmf_directory plan
    h fs r h' fs' :
  DiskAssumptions disk sigmf_directory plan fs ->
  SdrdSoftwareSweepAdapter.run_sdrd_points env disk to_writer_pretty log10 sigmf_directory plan
    (h, fs) = (r, (h', fs')) ->
  SweepOutcome env to_writer_pretty log10 sigmf_directory plan fs h h' r fs'.
Proof.
  intros Hdisk Hrun.
  apply run_sdrd_points_cases in Hrun as [(Hr&->&_)|(s1&s'&_&Hf&Hw&Ho&(hello&capabilities&Hsynced)&->&->)].
  - destruct r; [discriminate|reflexivity].
  - eapply owned_sweep_disk; eassumption.
Qed.

(** What the acquisition leaves to the report's validation: the points of a returned sweep
    are rejected by [validate_points] exactly when a reply carried request id 0, a power is not
    finite, or the daemon's sequence numbers do not increase. *)
Theorem sdrd_points_validated `{SweepFormat} env disk to_writer_pretty log10 sigmf_directory plan
    outside b outside' :
  plan.(ValidatedSweepPlan.point_timeout_ms) <> 0 ->
  SdrdSoftwareSweepAdapter.run_sdrd_points env disk to_writer_pretty log10 sigmf_directory plan
    outside = (Ok b, outside') ->
  validate_points plan b.(BackendSweep.points) = Ok tt <->
  Forall (fun p => p.(SweepPoint.request_id) <> 0
                   /\ is_finite p.(SweepPoint.band_power_dbfs) = true) b.(BackendSweep.points)
  /\ StronglySorted Z.lt (map SweepPoint.sequence b.(BackendSweep.points)).
Proof.
  destruct outside as [h fs], outside' as [h' fs']. intros Htimeout Hrun.
  apply run_sdrd_points_cases in Hrun as [(Hr&_)|(s1&s'&_&_&_&Ho&_)]; [discriminate|].
  apply owned_sweep_points in Ho as [iqs Hall]. now apply points_validated with (iqs := iqs) (log10 := log10).
Qed.

(** ** A daemon that completes a sweep *)
Module SweepRunSamples.
(** 64 silent samples: 256 zero bytes in base64. *)
Definition silence : string := of_bytes (repeat 65 342 ++ [61; 61]).

#[local] Instance format : @SweepFormat SdrSamples.json :=
  @Build_SweepFormat SdrSamples.json
    (fun v => Ok (CommonResponse.mk 1 v "ok" None))
    (fun _ => Ok (HelloResponse.mk "p201-sdrd" "SDRD/1" "controlled" true))
    (fun _ => Ok (CapabilitiesResponse.mk true true true))
    (fun _ => Ok (StartResponse.mk 3 3 true))
    (fun _ => Ok (ProfileResponse.mk 3 3 2400000001 30720000 20000000 "manual" (Some 20)))
    (fun v => Ok (InlineCaptureResponse.mk v 3 3 64 256 1 0 false
                    (ExecutionTimeoutMetadata.mk 250 900 false)
                    (ExecutionHealthMetadata.mk true 0 "iio_adapter") silence))
    (fun _ => Ok (StopResponse.mk 3 3 true true))
    (fun _ => Ok (QuitResponse.mk true)).

Definition plan : ValidatedSweepPlan.t :=
  ValidatedSweepPlan.mk "request-7" 3 [2400000000] 30720000 20000000 20 64 1 250 (f32_of_Z 12)
    (Some 20) 270 (MAX_POINTS * 256).

Definition log10 (_ : float) : float := f64_of_Z (-7).

Definition run (directory : option string) :=
  @SdrdSoftwareSweepAdapter.run_sdrd_points SdrSamples.json format SdrSamples.environment
    SigmfSamples.disk SigmfSamples.to_writer_pretty log10 directory plan ([], ∅).
Definition run_plain := run None.
Definition run_recorded := run (Some "/c"%string).
End SweepRunSamples.
#[local] Existing Instance SdrSamples.json.

(** What that sweep sends. *)
Example sweep_run_commands :
  SweepRunSamples.run_plain.2.1
  = EConnect :: sends 1
      (Send "HELLO" "" :: Send "CAPABILITIES" "" :: sweep_script SweepRunSamples.plan).
Proof. vm_compute. reflexivity. Qed.

Lemma sweep_is_bracketed_witness :
  is_Ok SweepRunSamples.run_plain.1 = true
  /\ exists n started,
     SweepRunSamples.run_plain.2.1
     = EConnect :: sends 1 ([Send "HELLO" ""; Send "CAPABILITIES" ""]
                            ++ take n (sweep_script SweepRunSamples.plan)
                            ++ if is_Ok SweepRunSamples.run_plain.1 then []
                               else release_script SweepRunSamples.plan started).
Proof.
  split; [vm_compute; reflexivity|].
  destruct (@sweep_is_bracketed SdrSamples.json SweepRunSamples.format SdrSamples.environment
    SigmfSamples.disk SigmfSamples.to_writer_pretty SweepRunSamples.log10 None
    SweepRunSamples.plan [] ∅ SweepRunSamples.run_plain.1 SweepRunSamples.run_plain.2.1
    SweepRunSamples.run_plain.2.2) as [[Hr _]|(n&started&Hh&_)].
  - vm_compute. congruence.
  - unfold SweepRunSamples.run_plain, SweepRunSamples.run.
    destruct (SdrdSoftwareSweepAdapter.run_sdrd_points _ _ _ _ _ _ _) as [r [h' fs']]. reflexivity.
  - exfalso. vm_compute in Hr. discriminate.
  - exists n, started. exact Hh.
Defined.

Lemma sweep_outcome_witness :
  is_Ok SweepRunSamples.run_recorded.1 = true
  /\ SweepOutcome (H0 := SweepRunSamples.format) SdrSamples.environment SigmfSamples.to_writer_pretty
       SweepRunSamples.log10 (Some "/c"%string)
       SweepRunSamples.plan ∅ [] SweepRunSamples.run_recorded.2.1 SweepRunSamples.run_recorded.1 SweepRunSamples.run_recorded.2.2.
Proof.
  split; [vm_compute; reflexivity|].
  apply (@sweep_outcome SdrSamples.json SweepRunSamples.format SdrSamples.environment
    SigmfSamples.disk SigmfSamples.to_writer_pretty SweepRunSamples.log10 (Some "/c"%string)
    SweepRunSamples.plan [] ∅ SweepRunSamples.run_recorded.1 SweepRunSamples.run_recorded.2.1
    SweepRunSamples.run_recorded.2.2).
  - split; [reflexivity|]. intros. apply lookup_empty.
  - unfold SweepRunSamples.run_recorded, SweepRunSamples.run.
    destruct (SdrdSoftwareSweepAdapter.run_sdrd_points _ _ _ _ _ _ _) as [r [h' fs']]. reflexivity.
Defined.

Lemma sdrd_points_validated_witness :
  exists b, SweepRunSamples.run_plain.1 = Ok b
  /\ validate_points SweepRunSamples.plan b.(BackendSweep.points) = Ok tt.
Proof.
  destruct SweepRunSamples.run_plain.1 as [b|e] eqn:Hb; [|vm_compute in Hb; discriminate].
  exists b. split; [reflexivity|].
  apply (@sdrd_points_validated SdrSamples.json SweepRunSamples.format SdrSamples.environment
    SigmfSamples.disk SigmfSamples.to_writer_pretty SweepRunSamples.log10 None
    SweepRunSamples.plan ([], ∅) b SweepRunSamples.run_plain.2).
  - discriminate.
  - rewrite <- Hb. unfold SweepRunSamples.run_plain, SweepRunSamples.run.
    now destruct (SdrdSoftwareSweepAdapter.run_sdrd_points _ _ _ _ _ _ _).
  - vm_compute in Hb. injection Hb as <-. split.
    + repeat constructor; cbn; congruence.
    + repeat constructor.
Defined.
