(* ===== verification/Runner.v ===== *)
(** * One agent step, audited

    [controller/src/runner.rs]: observe the radio, validate the request, ask the
    planner, validate its answer, obtain the authorization, execute, observe
    again, with an audit event at every stage.  The observer, the planner, the
    executor, the sweep backend and the audit sink are interfaces; they act on
    one outside world [W]. *)
From S2P Require Import Prelude Text F32 Protocol Policy Framing Planner Sdr Execution SweepPlan.

Definition AUDIT_SCHEMA_VERSION : Z := 1.
Definition MAX_AUDIT_EVENT_BYTES : Z := 32 * 1024.

Module ApprovalMode.
Inductive t := Pending | Automatic | Operator.
#[global] Instance t_eq_dec : EqDecision t.
Proof. solve_decision. Defined.
Definition as_str (self : t) : string :=
  match self with Pending => "pending" | Automatic => "automatic" | Operator => "operator" end.
End ApprovalMode.

Module RunStatus.
Inductive t := AwaitingApproval | PlannedOnly | Executed.
End RunStatus.

Module RunReport.
Record t := mk {
  status : RunStatus.t;
  plan : ValidatedPlan.t;
  execution : option ExecutionObservation.t;
  sweep : option SweepReport.t;
  next_observation : ObservationSummary.t;
}.
End RunReport.

(** What the [json!] of each audit call is built from. *)
Module AuditPayload.
Inductive t `{Json} :=
| Observation (observation : ObservationSummary.t)
| Failure (code message : string) (metadata : option Value)
| Rejection (code message : string)
| Message (message : string)
| Proposal (response : PlanResponse.t)
| Plan (plan : ValidatedPlan.t)
| ApprovalRequired
| Reason (reason : string)
| Mode (mode : string)
| Execution (execution : ExecutionObservation.t)
| Sweep (sweep_id backend : string) (backend_version elapsed_ms point_count candidate_count : Z)
    (post_execution_sdr : SdrSnapshot.t) (next_observation : ObservationSummary.t).
End AuditPayload.

Module AuditEvent.
Record t `{Json} := mk {
  schema_version : Z;
  timestamp_unix_ms : Z;
  phase : string;
  request_id : Z;
  session_generation : Z;
  payload : AuditPayload.t;
}.
Arguments mk {_}.
End AuditEvent.

(** The trait [AuditSink]. *)
Class AuditSink `{Json} (A : Type) := append : AuditEvent.t -> A -> result string unit * A.

(** ** The sinks *)
Module JsonlAuditAdapter.
Section Adapter.
Context `{Json} (to_vec : AuditEvent.t -> result string (list Z)).
(** [write_all] may fail after some of the bytes; so may [flush]. *)
Context (write_error : list Z -> list Z -> option (nat * string)).
Context (flush : list Z -> result string unit).

(** [append], over the contents of the file. *)
Definition append (event : AuditEvent.t) (file : list Z) : result string unit * list Z :=
  match to_vec event with
  | Err error => (Err error, file)
  | Ok frame =>
      if MAX_AUDIT_EVENT_BYTES <? length_z frame then
        (Err "audit event exceeds 32 KiB"%string, file)
      else
        let frame := frame ++ [NEWLINE] in
        match write_error file frame with
        | Some (written, error) => (Err error, file ++ take written frame)
        | None => (flush (file ++ frame), file ++ frame)
        end
  end.

#[global] Instance sink : AuditSink (list Z) := append.
End Adapter.
End JsonlAuditAdapter.

Module MemoryAuditAdapter.
Record t `{Json} := mk { events : list AuditEvent.t }.
Definition append `{Json} (event : AuditEvent.t) (self : t) : result string unit * t :=
  (Ok tt, mk _ (self.(events) ++ [event])).
#[global] Instance sink `{Json} : AuditSink t := append.
End MemoryAuditAdapter.

Module RunnerError.
Inductive t `{Json} :=
| Controller (error : ControllerError.t)
| Sdr (error : SdrError.t)
| Sweep (error : SweepError.t)
| Audit (error : string).

(** The [Display] of an error; [show] is the one of a JSON value. *)
Definition display `{Json} (show : Value -> string) (self : t) : string :=
  match self with
  | Controller error => "controller: " +:+ ControllerError.display error
  | Sdr error => "sdr: " +:+ SdrError.display show error
  | Sweep error => "sweep: " +:+ SweepError.display show error
  | Audit error => "audit: " +:+ error
  end.
End RunnerError.

(** ** The runner *)
Module Runner.
Section Runner.
Context `{Json} {W : Type}.
Context `{!SdrEngine W} `{!Planner W} `{!SdrActionExecutor W} `{!SweepBackend W} `{!AuditSink W}.
(** [SystemTime::now().duration_since(UNIX_EPOCH)], in milliseconds, and the
    time a sweep took. *)
Context (now : W -> result string Z) (elapsed : W -> Z).
Context (survey_gain_db sweep_point_timeout_ms : Z).

#[local] Abbreviation M := (M W RunnerError.t).

Definition audit (phase : string) (request : PlanRequest.t) (payload : AuditPayload.t) : M unit :=
  fun world =>
    match now world with
    | Err error => (Err (RunnerError.Audit error), world)
    | Ok timestamp_unix_ms =>
        let (r, world) :=
          append (AuditEvent.mk AUDIT_SCHEMA_VERSION timestamp_unix_ms phase
                    request.(PlanRequest.request_id) request.(PlanRequest.session_generation)
                    payload) world in
        (map_err RunnerError.Audit r, world)
    end.

Definition audit_sdr_failure (request : PlanRequest.t) (error : SdrError.t) : M unit :=
  audit "execution_failed" request
    (AuditPayload.Failure error.(SdrError.code) error.(SdrError.message)
       error.(SdrError.details)).

Definition audit_sweep_failure (request : PlanRequest.t) (error : SweepError.t) : M unit :=
  audit "execution_failed" request
    (AuditPayload.Failure error.(SweepError.code) error.(SweepError.message)
       error.(SweepError.details)).

(** [match call { Ok(value) => value, Err(error) => { report?; return Err(..) } }]. *)
Definition or_report {E A} (call : Prelude.M W E A) (report : E -> M unit)
    (convert : E -> RunnerError.t) : M A :=
  r ← attempt call ;
  match r with
  | Ok value => lift (Ok value)
  | Err error => report error ;; lift (Err (convert error))
  end.

(** The plans handed to the sweep engine. *)
Definition sweep_plan (sweep_id : string) (plan : ValidatedPlan.t)
    (frequencies : SweepFrequencies.t) (sample_rate_hz rf_bandwidth_hz dwell_ms : Z)
    : SweepPlan.t :=
  {| SweepPlan.sweep_id := sweep_id;
     SweepPlan.session_generation := plan.(ValidatedPlan.session_generation);
     SweepPlan.frequencies := frequencies;
     SweepPlan.sample_rate_hz := sample_rate_hz;
     SweepPlan.rf_bandwidth_hz := rf_bandwidth_hz;
     SweepPlan.settle_ms := dwell_ms;
     SweepPlan.frame_samples := 4096;
     SweepPlan.aggregate_frames := 1;
     SweepPlan.point_timeout_ms := sweep_point_timeout_ms;
     SweepPlan.detection_threshold_db := f32_of_Z 12;
     SweepPlan.gain_db := Some survey_gain_db |}.

Definition survey_plan (plan : ValidatedPlan.t)
    (start_hz stop_hz step_hz sample_rate_hz rf_bandwidth_hz dwell_ms : Z) : SweepPlan.t :=
  sweep_plan ("request-" +:+ print_u plan.(ValidatedPlan.request_id)) plan
    (SweepFrequencies.Range start_hz stop_hz step_hz) sample_rate_hz rf_bandwidth_hz dwell_ms.

Definition inspection_plan (plan : ValidatedPlan.t)
    (center_hz sample_rate_hz rf_bandwidth_hz dwell_ms : Z) : SweepPlan.t :=
  sweep_plan ("inspect-" +:+ print_u plan.(ValidatedPlan.request_id)) plan
    (SweepFrequencies.Centers [center_hz]) sample_rate_hz rf_bandwidth_hz dwell_ms.

Definition execute_sweep (request : PlanRequest.t) (plan : ValidatedPlan.t)
    (sweep : SweepPlan.t) (candidate_id : option string) : M RunReport.t :=
  report ← or_report (SweepEngine.run elapsed sweep) (audit_sweep_failure request)
             RunnerError.Sweep ;
  post_execution_sdr ← or_report Sdr.observe (audit_sdr_failure request) RunnerError.Sdr ;
  (if negb post_execution_sdr.(SdrSnapshot.online)
      || negb post_execution_sdr.(SdrSnapshot.healthy) then
     let error :=
       SdrError.new "post_execution_health"
         "SDR is not healthy after sweep execution and restoration" in
     audit_sdr_failure request error ;;
     lift (Err (RunnerError.Sdr error))
   else lift (Ok tt)) ;;
  let prior := request.(PlanRequest.observation).(ObservationSummary.health) in
  let health :=
    SdrSnapshot.planner_health post_execution_sdr prior.(HealthSummary.recognizer_available)
      prior.(HealthSummary.dropped_observations) in
  next_observation ←
    match candidate_id with
    | Some candidate_id =>
        or_report
          (lift (planner_inspection_observation report request.(PlanRequest.observation)
                   candidate_id health))
          (audit_sweep_failure request) RunnerError.Sweep
    | None => lift (Ok (planner_observation report 0 health survey_gain_db))
    end ;
  audit "execution_observation" request
    (AuditPayload.Sweep report.(SweepReport.sweep_id) report.(SweepReport.backend)
       report.(SweepReport.backend_version) report.(SweepReport.elapsed_ms)
       (length_z report.(SweepReport.points)) (length_z report.(SweepReport.candidates))
       post_execution_sdr next_observation) ;;
  lift (Ok {| RunReport.status := RunStatus.Executed;
              RunReport.plan := plan;
              RunReport.execution := None;
              RunReport.sweep := Some report;
              RunReport.next_observation := next_observation |}).

(** The request with the live health. *)
Definition with_live (request : PlanRequest.t) (live : SdrSnapshot.t) : PlanRequest.t :=
  let o := request.(PlanRequest.observation) in
  let prior := o.(ObservationSummary.health) in
  PlanRequest.mk request.(PlanRequest.protocol_version) request.(PlanRequest.request_id)
    request.(PlanRequest.session_generation) request.(PlanRequest.instruction)
    request.(PlanRequest.state)
    (ObservationSummary.mk 0
       (SdrSnapshot.planner_health live prior.(HealthSummary.recognizer_available)
          prior.(HealthSummary.dropped_observations))
       o.(ObservationSummary.candidates) o.(ObservationSummary.latest_sweep)
       o.(ObservationSummary.recognition))
    request.(PlanRequest.limits).

(** From the request to the validated plan. *)
Definition obtain_plan (request : PlanRequest.t) : M ValidatedPlan.t :=
  audit "input_observation" request
    (AuditPayload.Observation request.(PlanRequest.observation)) ;;
  or_report (lift (validate_request request))
    (fun error => audit "request_rejected" request
       (AuditPayload.Rejection error.(PolicyError.code) error.(PolicyError.message)))
    (fun error => RunnerError.Controller (ControllerError.Policy error)) ;;
  response ←
    or_report (Planner.plan request)
      (fun error => audit "planning_failed" request
         (AuditPayload.Message (PlannerError.display error)))
      (fun error => RunnerError.Controller (ControllerError.Planner error)) ;
  audit "planner_proposal" request (AuditPayload.Proposal response) ;;
  plan ←
    or_report (lift (validate_response request response))
      (fun error => audit "validation_failed" request
         (AuditPayload.Rejection error.(PolicyError.code) error.(PolicyError.message)))
      (fun error => RunnerError.Controller (ControllerError.Policy error)) ;
  audit "validated_plan" request (AuditPayload.Plan plan) ;;
  lift (Ok plan).

(** The audit of a refused authorization is best effort ([let _ = ...]). *)
Definition authorize (request : PlanRequest.t) (plan : ValidatedPlan.t)
    (approval : ApprovalMode.t) : M ExecutionAuthorization.t :=
  match approval with
  | ApprovalMode.Operator => lift (Ok (ExecutionAuthorization.by_operator plan))
  | ApprovalMode.Automatic | ApprovalMode.Pending =>
      match ExecutionAuthorization.automatic plan with
      | Ok authorization => lift (Ok authorization)
      | Err error =>
          _ ← attempt (audit "authorization_rejected" request
                         (AuditPayload.Rejection error.(SdrError.code)
                            error.(SdrError.message))) ;
          lift (Err (RunnerError.Sdr error))
      end
  end.

Definition execute_capture (request : PlanRequest.t) (plan : ValidatedPlan.t)
    (authorization : ExecutionAuthorization.t) : M RunReport.t :=
  execution ← or_report (execute plan authorization) (audit_sdr_failure request)
                RunnerError.Sdr ;
  let o := request.(PlanRequest.observation) in
  let prior := o.(ObservationSummary.health) in
  let next_observation :=
    ObservationSummary.mk 0
      (SdrSnapshot.planner_health execution.(ExecutionObservation.post_execution_sdr)
         prior.(HealthSummary.recognizer_available) prior.(HealthSummary.dropped_observations))
      o.(ObservationSummary.candidates) o.(ObservationSummary.latest_sweep)
      o.(ObservationSummary.recognition) in
  audit "execution_observation" request (AuditPayload.Execution execution) ;;
  lift (Ok {| RunReport.status := RunStatus.Executed;
              RunReport.plan := plan;
              RunReport.execution := Some execution;
              RunReport.sweep := None;
              RunReport.next_observation := next_observation |}).

(** The report of a step that executes nothing. *)
Definition not_executed (status : RunStatus.t) (request : PlanRequest.t)
    (plan : ValidatedPlan.t) : RunReport.t :=
  {| RunReport.status := status;
     RunReport.plan := plan;
     RunReport.execution := None;
     RunReport.sweep := None;
     RunReport.next_observation := request.(PlanRequest.observation) |}.

(** The last [match]; the other actions returned before ([unreachable!]). *)
Definition execute_plan (request : PlanRequest.t) (plan : ValidatedPlan.t)
    (authorization : ExecutionAuthorization.t) : M RunReport.t :=
  match plan.(ValidatedPlan.action) with
  | ProposedAction.CaptureBoundedIq _ _ _ _ _ => execute_capture request plan authorization
  | ProposedAction.SurveyBand start_hz stop_hz step_hz sample_rate_hz rf_bandwidth_hz dwell_ms =>
      execute_sweep request plan
        (survey_plan plan start_hz stop_hz step_hz sample_rate_hz rf_bandwidth_hz dwell_ms) None
  | ProposedAction.InspectCandidate candidate_id center_hz sample_rate_hz rf_bandwidth_hz
      dwell_ms =>
      execute_sweep request plan
        (inspection_plan plan center_hz sample_rate_hz rf_bandwidth_hz dwell_ms)
        (Some candidate_id)
  | _ => lift (Ok (not_executed RunStatus.PlannedOnly request plan))
  end.

Definition is_executable (action : ProposedAction.t) : bool :=
  match action with
  | ProposedAction.CaptureBoundedIq _ _ _ _ _ | ProposedAction.SurveyBand _ _ _ _ _ _
  | ProposedAction.InspectCandidate _ _ _ _ _ => true
  | _ => false
  end.

(** Everything after the validated plan. *)
Definition carry_out (request : PlanRequest.t) (plan : ValidatedPlan.t)
    (approval : ApprovalMode.t) : M RunReport.t :=
  if plan.(ValidatedPlan.approval_required) && bool_decide (approval = ApprovalMode.Pending) then
    audit "awaiting_approval" request AuditPayload.ApprovalRequired ;;
    lift (Ok (not_executed RunStatus.AwaitingApproval request plan))
  else if negb (is_executable plan.(ValidatedPlan.action)) then
    audit "planned_only" request
      (AuditPayload.Reason "no production executor for this action") ;;
    lift (Ok (not_executed RunStatus.PlannedOnly request plan))
  else
    authorization ← authorize request plan approval ;
    audit "authorized" request (AuditPayload.Mode (ApprovalMode.as_str approval)) ;;
    execute_plan request plan authorization.

Definition run_once (request : PlanRequest.t) (approval : ApprovalMode.t) : M RunReport.t :=
  live ← or_report Sdr.observe
           (fun error => audit "observation_failed" request
              (AuditPayload.Failure error.(SdrError.code) error.(SdrError.message)
                 error.(SdrError.details)))
           RunnerError.Sdr ;
  let request := with_live request live in
  plan ← obtain_plan request ;
  carry_out request plan approval.
End Runner.
End Runner.
