(* ===== verification/RunnerSafety.v ===== *)
(** * What one agent step may do

    The theorems on [Runner.run_once]: the radio is touched only after the
    validated plan and its authorization are in the audit log, and only as the
    plan says.  The calls are observed by wrapping the outside world in a
    recorder, so the theorems hold for every observer, planner, executor, sweep
    backend and audit sink. *)
From S2P Require Import Prelude Text F32 Protocol Policy Framing Planner Sdr Execution SweepPlan.
From S2P Require Import Runner.

(** ** Recording the calls *)
Section Calls.
Context `{Json}.

Inductive Call :=
| CObserve (r : result SdrError.t SdrSnapshot.t)
| CPlan (request : PlanRequest.t) (r : result PlannerError.t PlanResponse.t)
| CExecute (plan : ValidatedPlan.t) (authorization : ExecutionAuthorization.t)
| CCancel (session_generation : Z)
| CSweep (plan : ValidatedSweepPlan.t)
| CAudit (event : AuditEvent.t) (written : bool).

(** The calls that can change the radio. *)
Definition is_hardware (c : Call) : bool :=
  match c with CExecute _ _ | CCancel _ | CSweep _ => true | _ => false end.
Definition Harmless (c : Call) : Prop := is_hardware c = false.
End Calls.

Module Traced.
Record t `{Json} (W : Type) := mk { inner : W; calls : list Call }.
Arguments mk {_ _}.
Arguments inner {_ _}.
Arguments calls {_ _}.

Section Traced.
Context `{Json} {W : Type}.

(** Perform a call on the inner world and record it. *)
Definition record {A} (f : W -> A * W) (call : A -> Call) (s : t W) : A * t W :=
  let (a, w) := f s.(inner) in (a, mk w (s.(calls) ++ [call a])).

#[global] Instance engine `{!SdrEngine W} : SdrEngine (t W) := record Sdr.observe CObserve.
#[global] Instance executor `{!SdrActionExecutor W} : SdrActionExecutor (t W) := {
  execute plan authorization :=
    record (execute plan authorization) (fun _ => CExecute plan authorization);
  cancel generation := record (cancel generation) (fun _ => CCancel generation);
}.
#[global] Instance backend `{!SweepBackend W} : SweepBackend (t W) :=
  fun plan => record (run_points plan) (fun _ => CSweep plan).
#[global] Instance sink `{!AuditSink W} : AuditSink (t W) :=
  fun event => record (append event) (fun r => CAudit event (is_Ok r)).

#[global, refine] Instance planner `{!Planner W} : Planner (t W) := {
  plan request := record (Planner.plan request) (CPlan request);
}.
Proof.
  abstract (unfold record; intros request s response s'; destruct (Planner.plan _ _) eqn:E;
            intros [= -> _]; eapply plan_wf, E).
Defined.
End Traced.
End Traced.

(** ** What the recorded calls are *)
Section Trace.
Context `{Json} {W : Type}.
Context `{!SdrEngine W} `{!Planner W} `{!SdrActionExecutor W} `{!SweepBackend W} `{!AuditSink W}.
Context (now : W -> result string Z) (elapsed : W -> Z).
Context (survey_gain_db sweep_point_timeout_ms : Z).

#[local] Abbreviation T := (Traced.t W).
#[local] Abbreviation now' := (fun s : T => now s.(Traced.inner)).
#[local] Abbreviation elapsed' := (fun s : T => elapsed s.(Traced.inner)).
#[local] Abbreviation M := (M T RunnerError.t).

(** [s'] is reached from [s] by the calls [tail]. *)
Definition Calls (s s' : T) (tail : list Call) : Prop :=
  s'.(Traced.calls) = s.(Traced.calls) ++ tail.

(** A computation that leaves the radio alone. *)
Definition Quiet {E A} (m : Prelude.M T E A) : Prop :=
  forall s r s', m s = (r, s') -> exists tail, Calls s s' tail /\ Forall Harmless tail.

Lemma calls_refl s : Calls s s [].
Proof. unfold Calls. now rewrite app_nil_r. Qed.

Lemma calls_trans s1 s2 s3 l1 l2 : Calls s1 s2 l1 -> Calls s2 s3 l2 -> Calls s1 s3 (l1 ++ l2).
Proof. unfold Calls. intros H1 H2. now rewrite H2, H1, app_assoc. Qed.

Lemma quiet_lift {E A} (r : result E A) : Quiet (lift r).
Proof. intros s r' s'. rewrite lift_run. intros [= _ <-]. exists []. auto using calls_refl. Qed.

Lemma quiet_bind {E A B} (m : Prelude.M T E A) (k : A -> Prelude.M T E B) :
  Quiet m -> (forall a, Quiet (k a)) -> Quiet (m ≫= k).
Proof.
  intros Hm Hk s r s'. rewrite bind_run. destruct (m s) as [[a|e] s1] eqn:Em.
  - intros Hrun. apply Hm in Em as (l1&Hl1&Hf1). apply Hk in Hrun as (l2&Hl2&Hf2).
    exists (l1 ++ l2). split; [eapply calls_trans; eassumption|]. now apply Forall_app.
  - intros [= _ <-]. now apply Hm in Em.
Qed.

Lemma quiet_attempt {E F A} (m : Prelude.M T E A) : Quiet m -> Quiet (attempt (F := F) m).
Proof.
  intros Hm s r s'. unfold attempt. destruct (m s) eqn:Em. intros [= _ <-]. eapply Hm, Em.
Qed.

Lemma quiet_record {E A} (f : W -> result E A * W) (call : result E A -> Call) :
  (forall r, Harmless (call r)) -> Quiet (Traced.record f call).
Proof.
  intros Hc s r s'. unfold Traced.record. destruct (f _) as [r1 w]. intros [= <- <-].
  exists [call r1]. split; [reflexivity|]. auto.
Qed.

Lemma quiet_audit phase request payload : Quiet (Runner.audit now' phase request payload).
Proof.
  intros s r s'. unfold Runner.audit.
  destruct (now _); [|intros [= _ <-]; exists []; auto using calls_refl].
  destruct (append _ s) as [r1 s1] eqn:Ha. intros [= _ <-].
  eapply quiet_record, Ha. reflexivity.
Qed.

Lemma quiet_or_report {E A} (call : Prelude.M T E A) (report : E -> M unit)
    (convert : E -> RunnerError.t) :
  Quiet call -> (forall e, Quiet (report e)) -> Quiet (Runner.or_report call report convert).
Proof.
  intros Hc Hr. unfold Runner.or_report. apply quiet_bind; [now apply quiet_attempt|].
  intros [a|e]; [apply quiet_lift|]. apply quiet_bind; [apply Hr|intros _; apply quiet_lift].
Qed.

(** The branch a successful [or_report] took. *)
Lemma or_report_Ok {E A} (call : Prelude.M T E A) (report : E -> M unit)
    (convert : E -> RunnerError.t) s a s' :
  Runner.or_report call report convert s = (Ok a, s') <-> call s = (Ok a, s').
Proof.
  unfold Runner.or_report, attempt. rewrite bind_run. destruct (call s) as [[b|e] s1].
  - rewrite lift_run. split; congruence.
  - split; [|discriminate]. intros Hrun. apply bindM_Ok in Hrun as (u&s2&_&[=]).
Qed.

Lemma audit_Ok phase request payload s u s' :
  Runner.audit now' phase request payload s = (Ok u, s') ->
  exists t, Calls s s' [CAudit (AuditEvent.mk AUDIT_SCHEMA_VERSION t phase
                                  request.(PlanRequest.request_id)
                                  request.(PlanRequest.session_generation) payload) true].
Proof.
  unfold Runner.audit. destruct (now _) as [t|]; [|discriminate].
  unfold append, Traced.sink, Traced.record.
  destruct (append _ (Traced.inner s)) as [[[]|e] w] eqn:Ha; cbn; [|discriminate].
  intros [= <- <-]. exists t. reflexivity.
Qed.
(** An audit event that was written. *)
Definition Audited (request : PlanRequest.t) (phase : string) (payload : AuditPayload.t)
    (timestamp : Z) : Call :=
  CAudit (AuditEvent.mk AUDIT_SCHEMA_VERSION timestamp phase request.(PlanRequest.request_id)
            request.(PlanRequest.session_generation) payload) true.

Lemma quiet_observe : Quiet (Sdr.observe (S := T)).
Proof. now apply quiet_record. Qed.

Lemma quiet_obtain_plan request : Quiet (Runner.obtain_plan now' request).
Proof.
  unfold Runner.obtain_plan. apply quiet_bind; [apply quiet_audit|intros _].
  apply quiet_bind; [apply quiet_or_report; [apply quiet_lift|intros; apply quiet_audit]|intros _].
  apply quiet_bind.
  { apply quiet_or_report; [|intros; apply quiet_audit]. now apply quiet_record. }
  intros response. apply quiet_bind; [apply quiet_audit|intros _].
  apply quiet_bind; [apply quiet_or_report; [apply quiet_lift|intros; apply quiet_audit]|].
  intros plan. apply quiet_bind; [apply quiet_audit|intros _; apply quiet_lift].
Qed.

Lemma record_Ok {E A} (f : W -> result E A * W) (call : result E A -> Call) s a s' :
  Traced.record f call s = (Ok a, s') -> Calls s s' [call (Ok a)].
Proof. unfold Traced.record. destruct (f _) as [r w]. now intros [= -> <-]. Qed.

Lemma obtain_plan_Ok request s plan s' :
  Runner.obtain_plan now' request s = (Ok plan, s') ->
  exists response t1 t2 t3,
    Calls s s'
      [Audited request "input_observation"
         (AuditPayload.Observation request.(PlanRequest.observation)) t1;
       CPlan request (Ok response);
       Audited request "planner_proposal" (AuditPayload.Proposal response) t2;
       Audited request "validated_plan" (AuditPayload.Plan plan) t3]
    /\ validate_request request = Ok tt /\ validate_response request response = Ok plan.
Proof.
  unfold Runner.obtain_plan. intros Hrun.
  apply bindM_Ok in Hrun as (u1&s1&H1&Hrun). apply audit_Ok in H1 as [t1 H1].
  apply bindM_Ok in Hrun as ([]&s2&H2&Hrun). apply or_report_Ok in H2.
  rewrite lift_run in H2. injection H2 as H2 <-.
  apply bindM_Ok in Hrun as (response&s3&H3&Hrun). apply or_report_Ok in H3.
  apply record_Ok in H3.
  apply bindM_Ok in Hrun as (u4&s4&H4&Hrun). apply audit_Ok in H4 as [t2 H4].
  apply bindM_Ok in Hrun as (plan'&s5&H5&Hrun). apply or_report_Ok in H5.
  rewrite lift_run in H5. injection H5 as H5 <-.
  apply bindM_Ok in Hrun as (u6&s6&H6&Hrun). apply audit_Ok in H6 as [t3 H6].
  rewrite lift_run in Hrun. injection Hrun as <- <-.
  exists response, t1, t2, t3. split; [|auto].
  exact (calls_trans _ _ _ _ _ H1 (calls_trans _ _ _ _ _ H3 (calls_trans _ _ _ _ _ H4 H6))).
Qed.

(** The hardware call that carries a plan out. *)
Definition Performs (plan : ValidatedPlan.t) (authorization : ExecutionAuthorization.t)
    (c : Call) : Prop :=
  match plan.(ValidatedPlan.action), c with
  | ProposedAction.CaptureBoundedIq _ _ _ _ _, CExecute plan' authorization' =>
      plan' = plan /\ authorization' = authorization
  | ProposedAction.SurveyBand start_hz stop_hz step_hz rate bandwidth dwell_ms, CSweep v =>
      validate_plan (Runner.survey_plan survey_gain_db sweep_point_timeout_ms plan start_hz
                       stop_hz step_hz rate bandwidth dwell_ms) = Ok v
  | ProposedAction.InspectCandidate _ center_hz rate bandwidth dwell_ms, CSweep v =>
      validate_plan (Runner.inspection_plan survey_gain_db sweep_point_timeout_ms plan center_hz
                       rate bandwidth dwell_ms) = Ok v
  | _, _ => False
  end.

(** A computation whose only hardware call, if any, is its first and satisfies [P]. *)
Definition OneCall (P : Call -> Prop) {E A} (m : Prelude.M T E A) : Prop :=
  forall s r s', m s = (r, s') ->
  exists tail, Forall Harmless tail
  /\ (Calls s s' tail \/ exists c, P c /\ is_hardware c = true /\ Calls s s' (c :: tail)).

Lemma one_call_quiet P {E A} (m : Prelude.M T E A) : Quiet m -> OneCall P m.
Proof. intros Hm s r s' Hrun. destruct (Hm _ _ _ Hrun) as (tail&?&?). eauto. Qed.

Lemma one_call_bind P {E A B} (m : Prelude.M T E A) (k : A -> Prelude.M T E B) :
  OneCall P m -> (forall a, Quiet (k a)) -> OneCall P (m ≫= k).
Proof.
  intros Hm Hk s r s'. rewrite bind_run. destruct (m s) as [[a|e] s1] eqn:Em.
  2: { intros [= _ <-]. eapply Hm, Em. }
  intros Hrun. apply Hm in Em as (l1&Hl1&Hc). apply Hk in Hrun as (l2&Hl2&Hf2).
  exists (l1 ++ l2). split; [now apply Forall_app|].
  destruct Hc as [Hc|(c&Hp&Hh&Hc)]; [left|right; exists c]; [eapply calls_trans; eassumption|].
  split; [exact Hp|]. split; [exact Hh|]. exact (calls_trans _ _ _ _ _ Hc Hl2).
Qed.

Lemma one_call_attempt P {E F A} (m : Prelude.M T E A) :
  OneCall P m -> OneCall P (attempt (F := F) m).
Proof.
  intros Hm s r s'. unfold attempt. destruct (m s) eqn:Em. intros [= _ <-]. eapply Hm, Em.
Qed.

Lemma one_call_or_report P {E A} (call : Prelude.M T E A) (report : E -> M unit)
    (convert : E -> RunnerError.t) :
  OneCall P call -> (forall e, Quiet (report e)) ->
  OneCall P (Runner.or_report call report convert).
Proof.
  intros Hc Hr. unfold Runner.or_report. apply one_call_bind; [now apply one_call_attempt|].
  intros [a|e]; [apply quiet_lift|]. apply quiet_bind; [apply Hr|intros _; apply quiet_lift].
Qed.

Lemma one_call_record P {E A} (f : W -> result E A * W) c :
  P c -> is_hardware c = true -> OneCall P (Traced.record f (fun _ => c)).
Proof.
  intros Hp Hh s r s'. unfold Traced.record. destruct (f _) as [r1 w]. intros [= <- <-].
  exists []. split; [constructor|]. right. exists c. split; [exact Hp|]. now split.
Qed.

Lemma one_call_sweep P (sweep : SweepPlan.t) :
  (forall v, validate_plan sweep = Ok v -> P (CSweep v)) ->
  OneCall P (SweepEngine.run elapsed' sweep).
Proof.
  intros Hp s r s'. unfold SweepEngine.run. destruct (validate_plan sweep) as [v|e] eqn:Hv.
  - destruct (run_points v s) as [rb s1] eqn:Hb. intros [= _ <-].
    eapply (one_call_record P) in Hb; [exact Hb|now apply Hp|reflexivity].
  - intros [= _ <-]. exists []. split; [constructor|]. left. apply calls_refl.
Qed.

Lemma execute_sweep_one_call P request plan sweep id :
  (forall v, validate_plan sweep = Ok v -> P (CSweep v)) ->
  OneCall P (Runner.execute_sweep now' elapsed' survey_gain_db request plan sweep id).
Proof.
  intros Hp. unfold Runner.execute_sweep.
  apply one_call_bind.
  { apply one_call_or_report; [now apply one_call_sweep|intros; apply quiet_audit]. }
  intros report. apply quiet_bind.
  { apply quiet_or_report; [apply quiet_observe|intros; apply quiet_audit]. }
  intros post. apply quiet_bind.
  { destruct (_ || _); [|apply quiet_lift].
    apply quiet_bind; [apply quiet_audit|intros _; apply quiet_lift]. }
  intros _. apply quiet_bind.
  { destruct id; [|apply quiet_lift].
    apply quiet_or_report; [apply quiet_lift|intros; apply quiet_audit]. }
  intros next. apply quiet_bind; [apply quiet_audit|intros _; apply quiet_lift].
Qed.

Lemma execute_plan_one_call request plan authorization :
  OneCall (Performs plan authorization)
    (Runner.execute_plan now' elapsed' survey_gain_db sweep_point_timeout_ms request plan
       authorization).
Proof.
  unfold Runner.execute_plan, Performs. destruct (ValidatedPlan.action plan).
  1, 5, 6: apply one_call_quiet, quiet_lift.
  1, 2: apply execute_sweep_one_call; auto.
  unfold Runner.execute_capture. apply one_call_bind.
  - apply one_call_or_report; [|intros; apply quiet_audit]. now apply one_call_record.
  - intros o. apply quiet_bind; [apply quiet_audit|intros _; apply quiet_lift].
Qed.

(** What precedes a hardware call: the live health, the valid request, the
    planner's answer, the plan the policy made of it, the authorization. *)
Record Justified (request : PlanRequest.t) (approval : ApprovalMode.t) (pre : list Call)
    (plan : ValidatedPlan.t) (authorization : ExecutionAuthorization.t) : Prop := {
  ju_trail : exists live response t1 t2 t3 t4,
    let request := Runner.with_live request live in
    pre = [CObserve (Ok live);
           Audited request "input_observation"
             (AuditPayload.Observation request.(PlanRequest.observation)) t1;
           CPlan request (Ok response);
           Audited request "planner_proposal" (AuditPayload.Proposal response) t2;
           Audited request "validated_plan" (AuditPayload.Plan plan) t3;
           Audited request "authorized" (AuditPayload.Mode (ApprovalMode.as_str approval)) t4]
    /\ validate_request request = Ok tt
    /\ validate_response request response = Ok plan;
  ju_authorization : authorization
    = ExecutionAuthorization.mk plan.(ValidatedPlan.request_id)
        plan.(ValidatedPlan.session_generation)
        (bool_decide (approval = ApprovalMode.Operator));
  ju_approval : plan.(ValidatedPlan.approval_required) = true -> approval = ApprovalMode.Operator;
}.

Lemma authorize_cases request plan approval s r s' :
  Runner.authorize now' request plan approval s = (r, s') ->
  (exists e tail, r = Err e /\ Calls s s' tail /\ Forall Harmless tail)
  \/ s' = s
     /\ r = Ok (ExecutionAuthorization.mk plan.(ValidatedPlan.request_id)
                  plan.(ValidatedPlan.session_generation)
                  (bool_decide (approval = ApprovalMode.Operator)))
     /\ (plan.(ValidatedPlan.approval_required) = true -> approval = ApprovalMode.Operator).
Proof.
  unfold Runner.authorize, ExecutionAuthorization.automatic.
  assert (Hauto : approval <> ApprovalMode.Operator ->
    match reject_if plan.(ValidatedPlan.approval_required)
            (SdrError.new "approval_required"
               "the validated plan requires explicit operator approval") ;;
          Ok (ExecutionAuthorization.mk plan.(ValidatedPlan.request_id)
                plan.(ValidatedPlan.session_generation) false) with
    | Ok authorization => lift (Ok authorization)
    | Err error =>
        _ ← attempt (Runner.audit now' "authorization_rejected" request
                       (AuditPayload.Rejection error.(SdrError.code) error.(SdrError.message))) ;
        lift (Err (RunnerError.Sdr error))
    end s = (r, s') ->
    (exists e tail, r = Err e /\ Calls s s' tail /\ Forall Harmless tail)
    \/ s' = s
       /\ r = Ok (ExecutionAuthorization.mk plan.(ValidatedPlan.request_id)
                    plan.(ValidatedPlan.session_generation) false)
       /\ (plan.(ValidatedPlan.approval_required) = true -> approval = ApprovalMode.Operator)).
  { intros Hne. destruct plan.(ValidatedPlan.approval_required); cbn [reject_if mbind result_bind].
    - intros Hrun. left. unfold attempt in Hrun. rewrite bind_run in Hrun.
      destruct (Runner.audit _ _ _ _ _) as [ra s1] eqn:Ha. rewrite lift_run in Hrun.
      injection Hrun as <- <-. apply quiet_audit in Ha as (tail&?&?). eauto.
    - rewrite lift_run. intros [= <- <-]. right. split; [reflexivity|]. split; [reflexivity|discriminate]. }
  destruct approval; [now apply Hauto|now apply Hauto|].
  rewrite lift_run. intros [= <- <-]. right. auto.
Qed.

Lemma run_once_calls request approval s r s' :
  Runner.run_once now' elapsed' survey_gain_db sweep_point_timeout_ms request approval s
  = (r, s') ->
  exists tail, Forall Harmless tail
  /\ (Calls s s' tail
      \/ exists pre c plan authorization,
         Calls s s' (pre ++ c :: tail)
         /\ Justified request approval pre plan authorization
         /\ Performs plan authorization c /\ is_hardware c = true).
Proof.
  unfold Runner.run_once. rewrite bind_run.
  destruct (Runner.or_report _ _ _ _) as [[live|e] s1] eqn:Hlive.
  2: { intros [= _ <-]. apply quiet_or_report in Hlive as (tail&?&?);
         [eauto|apply quiet_observe|intros; apply quiet_audit]. }
  apply or_report_Ok, record_Ok in Hlive. set (request' := Runner.with_live request live).
  rewrite bind_run. destruct (Runner.obtain_plan _ _ _) as [[plan|e] s2] eqn:Hplan.
  2: { intros [= _ <-]. apply quiet_obtain_plan in Hplan as (tail&Ht&Hf).
       exists (CObserve (Ok live) :: tail). split; [now constructor|].
       left. exact (calls_trans _ _ _ _ _ Hlive Ht). }
  apply obtain_plan_Ok in Hplan as (response&t1&t2&t3&Hcalls&Hreq&Hresp).
  pose proof (calls_trans _ _ _ _ _ Hlive Hcalls) as Hpre. cbn [app] in Hpre.
  assert (Hstop : forall tail s3, Calls s2 s3 tail -> Forall Harmless tail ->
    exists tail, Forall Harmless tail /\ Calls s s3 tail).
  { intros tail s3 Ht Hf. eexists. split; [|exact (calls_trans _ _ _ _ _ Hpre Ht)].
    apply Forall_app. split; [|exact Hf]. repeat constructor. }
  assert (Hquiet : forall E A (m : Prelude.M T E A) (ra : result E A) s3,
    Quiet m -> m s2 = (ra, s3) -> exists tail, Forall Harmless tail /\ Calls s s3 tail).
  { intros E A m ra s3 Hm Hrun. destruct (Hm _ _ _ Hrun) as (tail&?&?). eauto. }
  unfold Runner.carry_out. destruct (_ && _).
  { intros Hrun. eapply Hquiet in Hrun as (tail&?&?); [eauto|].
    apply quiet_bind; [apply quiet_audit|intros _; apply quiet_lift]. }
  destruct (negb _).
  { intros Hrun. eapply Hquiet in Hrun as (tail&?&?); [eauto|].
    apply quiet_bind; [apply quiet_audit|intros _; apply quiet_lift]. }
  rewrite bind_run. destruct (Runner.authorize _ _ _ _ _) as [ra s3] eqn:Ha.
  apply authorize_cases in Ha as [(e&tail&->&Ht&Hf)|(->&->&Happroval)].
  { intros [= _ <-]. destruct (Hstop _ _ Ht Hf) as (tail'&?&?). eauto. }
  rewrite bind_run. destruct (Runner.audit _ _ _ _ _) as [[u|e] s4] eqn:Haudit.
  2: { intros [= _ <-]. eapply Hquiet in Haudit as (tail&?&?); [eauto|apply quiet_audit]. }
  apply audit_Ok in Haudit as [t4 Haudit]. intros Hrun.
  pose proof (calls_trans _ _ _ _ _ Hpre Haudit) as Hpre4. cbn [app] in Hpre4.
  apply execute_plan_one_call in Hrun as (tail&Hf&[Ht|(c&Hp&Hh&Ht)]).
  - eexists. split; [|left; exact (calls_trans _ _ _ _ _ Hpre4 Ht)].
    apply Forall_app. split; [|exact Hf]. repeat constructor.
  - exists tail. split; [exact Hf|]. right. do 4 eexists.
    split; [exact (calls_trans _ _ _ _ _ Hpre4 Ht)|].
    split; [|split; [exact Hp|exact Hh]].
    constructor; [|reflexivity|exact Happroval].
    exists live, response, t1, t2, t3, t4. auto.
Qed.

(** The phases of the events that were written. *)
Definition phases (l : list Call) : list string :=
  omap (fun c => match c with CAudit e true => Some e.(AuditEvent.phase) | _ => None end) l.

Lemma engine_run_Ok sweep s report s' :
  SweepEngine.run elapsed' sweep s = (Ok report, s') -> exists v, Calls s s' [CSweep v].
Proof.
  unfold SweepEngine.run. destruct (validate_plan sweep) as [v|e]; [|discriminate].
  destruct (run_points v s) as [rb s1] eqn:Hb. intros [= _ <-]. exists v.
  unfold run_points at 1, Traced.backend, Traced.record in Hb. destruct (run_points v (Traced.inner s)).
  now injection Hb as _ <-.
Qed.

(** A step that executed: one hardware call, and its observation in the log. *)
Definition ExecutedBy (plan : ValidatedPlan.t) (report : RunReport.t) (l : list Call) : Prop :=
  report.(RunReport.status) = RunStatus.Executed /\ report.(RunReport.plan) = plan
  /\ phases l = ["execution_observation"%string]
  /\ (exists c, c ∈ l /\ is_hardware c = true)
  /\ is_none report.(RunReport.execution) = negb (is_none report.(RunReport.sweep)).

Lemma execute_sweep_Ok request plan sweep id s report s' :
  Runner.execute_sweep now' elapsed' survey_gain_db request plan sweep id s = (Ok report, s') ->
  exists l, Calls s s' l /\ ExecutedBy plan report l.
Proof.
  unfold Runner.execute_sweep. intros Hrun.
  apply bindM_Ok in Hrun as (rep&s1&H1&Hrun). apply or_report_Ok, engine_run_Ok in H1 as [v H1].
  apply bindM_Ok in Hrun as (post&s2&H2&Hrun). apply or_report_Ok, record_Ok in H2.
  apply bindM_Ok in Hrun as (u&s3&H3&Hrun).
  assert (s3 = s2) as ->.
  { destruct (_ || _); [|now injection H3]. apply bindM_Ok in H3 as (?&?&_&[=]). }
  apply bindM_Ok in Hrun as (next&s4&H4&Hrun).
  assert (s4 = s2) as ->.
  { destruct id; [apply or_report_Ok in H4|]; rewrite lift_run in H4; now injection H4. }
  apply bindM_Ok in Hrun as (u5&s5&H5&Hrun). apply audit_Ok in H5 as [t H5].
  rewrite lift_run in Hrun. injection Hrun as <- <-. eexists.
  split; [exact (calls_trans _ _ _ _ _ H1 (calls_trans _ _ _ _ _ H2 H5))|].
  split; [reflexivity|]. split; [reflexivity|]. split; [reflexivity|].
  split; [|reflexivity]. exists (CSweep v). split; [apply elem_of_cons; now left|reflexivity].
Qed.

Lemma execute_capture_Ok request plan authorization s report s' :
  Runner.execute_capture now' request plan authorization s = (Ok report, s') ->
  exists l, Calls s s' l /\ ExecutedBy plan report l.
Proof.
  unfold Runner.execute_capture. intros Hrun.
  apply bindM_Ok in Hrun as (o&s1&H1&Hrun). apply or_report_Ok, record_Ok in H1.
  apply bindM_Ok in Hrun as (u2&s2&H2&Hrun). apply audit_Ok in H2 as [t H2].
  rewrite lift_run in Hrun. injection Hrun as <- <-. eexists.
  split; [exact (calls_trans _ _ _ _ _ H1 H2)|].
  split; [reflexivity|]. split; [reflexivity|]. split; [reflexivity|].
  split; [|reflexivity]. exists (CExecute plan authorization).
  split; [apply elem_of_cons; now left|reflexivity].
Qed.

Lemma execute_plan_Ok request plan authorization s report s' :
  Runner.is_executable plan.(ValidatedPlan.action) = true ->
  Runner.execute_plan now' elapsed' survey_gain_db sweep_point_timeout_ms request plan
    authorization s = (Ok report, s') ->
  exists l, Calls s s' l /\ ExecutedBy plan report l.
Proof.
  unfold Runner.execute_plan. destruct (ValidatedPlan.action plan); try discriminate; intros _.
  - apply execute_sweep_Ok.
  - apply execute_sweep_Ok.
  - apply execute_capture_Ok.
Qed.

(** What the status of a report says about the plan, the approval and the log. *)
Definition StatusTells (approval : ApprovalMode.t) (report : RunReport.t) (l : list Call) : Prop :=
  let plan := report.(RunReport.plan) in
  match report.(RunReport.status) with
  | RunStatus.AwaitingApproval =>
      phases l = ["awaiting_approval"%string] /\ Forall Harmless l
      /\ plan.(ValidatedPlan.approval_required) = true /\ approval = ApprovalMode.Pending
  | RunStatus.PlannedOnly =>
      phases l = ["planned_only"%string] /\ Forall Harmless l
      /\ Runner.is_executable plan.(ValidatedPlan.action) = false
  | RunStatus.Executed =>
      phases l = ["authorized"%string; "execution_observation"%string]
      /\ (exists c, c ∈ l /\ is_hardware c = true)
      /\ Runner.is_executable plan.(ValidatedPlan.action) = true
      /\ (plan.(ValidatedPlan.approval_required) = true -> approval = ApprovalMode.Operator)
  end.

Lemma carry_out_Ok request plan approval s report s' :
  Runner.carry_out now' elapsed' survey_gain_db sweep_point_timeout_ms request plan approval s
  = (Ok report, s') ->
  exists l, Calls s s' l /\ report.(RunReport.plan) = plan /\ StatusTells approval report l.
Proof.
  unfold Runner.carry_out. destruct (_ && _) eqn:Hwait.
  { guards_in Hwait. intros Hrun. apply bindM_Ok in Hrun as (u&s1&H1&Hrun).
    apply audit_Ok in H1 as [t H1]. rewrite lift_run in Hrun. injection Hrun as <- <-.
    eexists. split; [exact H1|]. split; [reflexivity|]. split; [reflexivity|].
    split; [repeat constructor|exact Hwait]. }
  destruct (negb _) eqn:Hexec; guards_in Hexec.
  { intros Hrun. apply bindM_Ok in Hrun as (u&s1&H1&Hrun).
    apply audit_Ok in H1 as [t H1]. rewrite lift_run in Hrun. injection Hrun as <- <-.
    eexists. split; [exact H1|]. split; [reflexivity|]. split; [reflexivity|].
    split; [repeat constructor|exact Hexec]. }
  intros Hrun. apply bindM_Ok in Hrun as (authorization&s1&Ha&Hrun).
  apply authorize_cases in Ha as [(e&tail&[=]&_)|(->&_&Happroval)].
  apply bindM_Ok in Hrun as (u&s2&H2&Hrun). apply audit_Ok in H2 as [t H2].
  apply execute_plan_Ok in Hrun as (l&Hl&Hst&Hplan&Hph&(c&Hin&Hc)&_); [|exact Hexec].
  eexists. split; [exact (calls_trans _ _ _ _ _ H2 Hl)|]. split; [exact Hplan|].
  unfold StatusTells. rewrite Hst, Hplan. cbn [app phases omap list_omap]. fold (phases l).
  split; [now rewrite Hph|]. split; [|auto].
  exists c. split; [apply elem_of_cons; now right|exact Hc].
Qed.
End Trace.

(** ** Properties *)

(** C1: the radio is touched at most once per step, and only justified: if [run_once] starts a
    capture or a sweep, it has before, in this order, read the live health, put it into the
    request, logged the observation, had the planner answer the valid request, logged the proposal,
    had the policy turn the answer into the plan, logged the plan and logged the authorization; the
    capture or sweep is the one the plan's action describes; and a plan that requires approval had
    the operator's.  Everything after it leaves the radio alone.  This holds for every observer,
    planner, executor, sweep backend and audit sink, failing ones included. *)
Theorem hardware_is_justified `{Json} {W}
    `{!SdrEngine W} `{!Planner W} `{!SdrActionExecutor W} `{!SweepBackend W} `{!AuditSink W}
    now elapsed gain timeout request approval (w : W) r s' :
  Runner.run_once (W := Traced.t W) (fun s => now s.(Traced.inner))
    (fun s => elapsed s.(Traced.inner)) gain timeout request approval (Traced.mk w []) = (r, s') ->
  forall c, c ∈ s'.(Traced.calls) -> is_hardware c = true ->
  exists pre tail plan authorization,
    s'.(Traced.calls) = pre ++ c :: tail
    /\ Forall Harmless tail
    /\ Justified request approval pre plan authorization
    /\ Performs gain timeout plan authorization c.
Proof.
  intros Hrun c Hin Hc. apply run_once_calls in Hrun as (tail&Hf&Hcases).
  destruct Hcases as [Hcalls|(pre&c'&plan&authorization&Hcalls&Hj&Hp&Hh)];
    unfold Calls in Hcalls; cbn [app Traced.calls] in Hcalls; rewrite Hcalls in Hin.
  - rewrite list.Forall_forall in Hf. specialize (Hf _ Hin). unfold Harmless in Hf. congruence.
  - assert (c = c') as ->.
    { apply elem_of_app in Hin as [Hin|[->|Hin]%elem_of_cons]; [|reflexivity|].
      - destruct Hj as [(live&response&t1&t2&t3&t4&->&_) _ _].
        repeat (apply elem_of_cons in Hin as [->|Hin]; [discriminate|]). inversion Hin.
      - rewrite list.Forall_forall in Hf. specialize (Hf _ Hin). unfold Harmless in Hf. congruence. }
    exists pre, tail, plan, authorization. auto.
Qed.

(** C28: the report and the log agree: a step that returns a report has written exactly the phases
    of its status, in order; it acted on the radio if and only if the status is Executed; it
    awaits approval only for a plan that needs it and has not been decided on; and what needs
    approval is executed only with the operator's. *)
Theorem report_matches_audit `{Json} {W}
    `{!SdrEngine W} `{!Planner W} `{!SdrActionExecutor W} `{!SweepBackend W} `{!AuditSink W}
    now elapsed gain timeout request approval (w : W) report s' :
  Runner.run_once (W := Traced.t W) (fun s => now s.(Traced.inner))
    (fun s => elapsed s.(Traced.inner)) gain timeout request approval (Traced.mk w [])
  = (Ok report, s') ->
  exists pre l,
    s'.(Traced.calls) = pre ++ l
    /\ phases pre = ["input_observation"; "planner_proposal"; "validated_plan"]%string
    /\ Forall Harmless pre
    /\ StatusTells approval report l.
Proof.
  unfold Runner.run_once. intros Hrun. apply bindM_Ok in Hrun as (live&s1&H1&Hrun).
  apply or_report_Ok, record_Ok in H1.
  apply bindM_Ok in Hrun as (plan&s2&H2&Hrun).
  apply obtain_plan_Ok in H2 as (response&t1&t2&t3&H2&_).
  apply carry_out_Ok in Hrun as (l&H3&_&Hst).
  eexists _, l. split; [exact (calls_trans _ _ _ _ _ (calls_trans _ _ _ _ _ H1 H2) H3)|].
  split; [reflexivity|]. split; [repeat constructor|exact Hst].
Qed.

(** ** A world that carries the sample survey out *)
Module RunnerSamples.
#[local] Instance observer : @SdrEngine SdrSamples.json unit :=
  fun w => (Ok (SdrSnapshot.mk true true 0 true true true), w).

#[global, refine] Instance planner : Planner unit := {
  plan request w := (Ok (PolicySamples.response PolicySamples.survey), w);
}.
Proof.
  - intros request w response w' [= <- _]. unfold PlanResponse.wf. cbn -[u64_max u16_max].
    unfold is_u, u64_max, u16_max. lia.
Defined.

#[local] Instance executor : @SdrActionExecutor SdrSamples.json unit := {
  execute plan authorization w := (Err (SdrError.new "unused" ""), w);
  cancel generation w := (Err (SdrError.new "unused" ""), w);
}.

#[local] Instance backend : @SweepBackend SdrSamples.json unit := fun plan w =>
  (Ok (BackendSweep.mk "replay" 1
         (imap (fun i c => SweepSamples.point (Z.of_nat i) c (-70))
            plan.(ValidatedSweepPlan.centers_hz)) None), w).

#[local] Instance sink : @AuditSink SdrSamples.json unit := fun event w => (Ok tt, w).

Definition run : result (@RunnerError.t SdrSamples.json) RunReport.t * @Traced.t SdrSamples.json unit :=
  Runner.run_once (W := Traced.t unit) (fun _ => Ok 1700000000000) (fun _ => 200) 20 250
    PolicySamples.request ApprovalMode.Automatic (Traced.mk tt []).
Definition calls : list (@Call SdrSamples.json) := run.2.(Traced.calls).
Definition hardware : @Call SdrSamples.json := default (CCancel 0) (calls !! 6%nat).
End RunnerSamples.
#[local] Existing Instances SdrSamples.json RunnerSamples.observer RunnerSamples.executor RunnerSamples.backend RunnerSamples.sink.

Lemma hardware_is_justified_witness :
  RunnerSamples.calls !! 6%nat = Some RunnerSamples.hardware
  /\ exists pre tail plan authorization,
    RunnerSamples.calls = pre ++ RunnerSamples.hardware :: tail
    /\ Performs 20 250 plan authorization RunnerSamples.hardware.
Proof.
  assert (Hc : RunnerSamples.calls !! 6%nat = Some RunnerSamples.hardware) by (vm_compute; reflexivity).
  split; [exact Hc|].
  destruct (hardware_is_justified (W := unit) (fun _ => Ok 1700000000000) (fun _ => 200) 20 250
              PolicySamples.request ApprovalMode.Automatic tt RunnerSamples.run.1
              RunnerSamples.run.2 (surjective_pairing _) RunnerSamples.hardware)
    as (pre&tail&plan&authorization&Hcalls&_&_&Hp).
  - eapply list_elem_of_lookup_2, Hc.
  - vm_compute. reflexivity.
  - exists pre, tail, plan, authorization. auto.
Defined.

Lemma report_matches_audit_witness :
  exists report, RunnerSamples.run.1 = Ok report
  /\ exists pre l, RunnerSamples.calls = pre ++ l
     /\ StatusTells ApprovalMode.Automatic report l.
Proof.
  destruct RunnerSamples.run.1 as [report|e] eqn:Hr; [|vm_compute in Hr; discriminate].
  exists report. split; [reflexivity|].
  destruct (report_matches_audit (W := unit) (fun _ => Ok 1700000000000) (fun _ => 200) 20 250
              PolicySamples.request ApprovalMode.Automatic tt report RunnerSamples.run.2)
    as (pre&l&Hl&_&_&Hst).
  - rewrite <- Hr. apply surjective_pairing.
  - exists pre, l. auto.
Defined.
