(* ===== verification/Agent.v ===== *)
(** * The agent command line

    [controller/src/main.rs]: the options of [sdr-agent-controller], its seven
    modes, and what each of them does with the adapters.  An adapter is one of
    the traits, made from the address or the path the options give; all act on
    one outside world [W].  [from_slice] at each type that is read and
    [to_string] of what is printed are serde_json's. *)
From S2P Require Import Prelude Text Net F32 Protocol Policy Framing Planner Recognizer Sdr Session Numbers Execution SweepPlan Runner RunnerSafety.

(** ** The options *)

(** The errors behind [Box<dyn Error>]. *)
Module AgentError.
Inductive t `{Json} :=
| InvalidInput (message : string)
| Unparsable
| Io (message : string)
| Serde (message : string)
| Policy (error : PolicyError.t)
| Controller (error : ControllerError.t)
| Recognizer (error : RecognizerError.t)
| Sdr (error : SdrError.t)
| Sweep (error : SweepError.t)
| Runner (error : RunnerError.t).
End AgentError.

(** The variables of [run]. *)
Module AgentOptions.
Record t := mk {
  socket : string;
  request_path : string;
  instruction : option string;
  mode : string;
  sdrd_address : option SocketAddr.t;
  recognizer_socket : string;
  recognizer_spool_root : string;
  timeout_ms : Z;
  sdrd_timeout_ms : Z;
  recognizer_timeout_ms : Z;
  execution_approval : option string;
  audit_log : string;
  session_generation : option Z;
  survey_gain_db : Z;
  sweep_point_timeout_ms : Z;
}.
Definition default : t :=
  {| socket := "/run/sdr-agent/planner.sock";
     request_path := "-";
     instruction := None;
     mode := "plan";
     sdrd_address := None;
     recognizer_socket := "/run/sdr-agent/recognizer.sock";
     recognizer_spool_root := "/run/sdr-agent/iq";
     timeout_ms := 30000;
     sdrd_timeout_ms := 5000;
     recognizer_timeout_ms := 5000;
     execution_approval := None;
     audit_log := "/var/lib/sdr-agent/audit.jsonl";
     session_generation := None;
     survey_gain_db := 20;
     sweep_point_timeout_ms := 250 |}.

Definition eta (o : t) : t :=
  mk o.(socket) o.(request_path) o.(instruction) o.(mode) o.(sdrd_address) o.(recognizer_socket)
    o.(recognizer_spool_root) o.(timeout_ms) o.(sdrd_timeout_ms) o.(recognizer_timeout_ms)
    o.(execution_approval) o.(audit_log) o.(session_generation) o.(survey_gain_db)
    o.(sweep_point_timeout_ms).
Ltac assign field := assign_field eta field.
Definition with_socket : string -> t -> t := ltac:(assign socket).
Definition with_request_path : string -> t -> t := ltac:(assign request_path).
Definition with_instruction : option string -> t -> t := ltac:(assign instruction).
Definition with_mode : string -> t -> t := ltac:(assign mode).
Definition with_sdrd_address : option SocketAddr.t -> t -> t := ltac:(assign sdrd_address).
Definition with_recognizer_socket : string -> t -> t := ltac:(assign recognizer_socket).
Definition with_recognizer_spool_root : string -> t -> t := ltac:(assign recognizer_spool_root).
Definition with_timeout_ms : Z -> t -> t := ltac:(assign timeout_ms).
Definition with_sdrd_timeout_ms : Z -> t -> t := ltac:(assign sdrd_timeout_ms).
Definition with_recognizer_timeout_ms : Z -> t -> t := ltac:(assign recognizer_timeout_ms).
Definition with_execution_approval : option string -> t -> t := ltac:(assign execution_approval).
Definition with_audit_log : string -> t -> t := ltac:(assign audit_log).
Definition with_session_generation : option Z -> t -> t := ltac:(assign session_generation).
Definition with_survey_gain_db : Z -> t -> t := ltac:(assign survey_gain_db).
Definition with_sweep_point_timeout_ms : Z -> t -> t := ltac:(assign sweep_point_timeout_ms).
End AgentOptions.

Section Options.
Context `{Json}.

#[local] Abbreviation invalid_input := (fun message => Err (AgentError.InvalidInput message)).
#[local] Abbreviation number := (fun o => ok_or AgentError.Unparsable o).

(** The [match] on the flag; the value is there. *)
Definition set_option (flag value : string) (o : AgentOptions.t) : result AgentError.t AgentOptions.t :=
  if String.eqb flag "--socket" then Ok (AgentOptions.with_socket value o)
  else if String.eqb flag "--request" then Ok (AgentOptions.with_request_path value o)
  else if String.eqb flag "--instruction" then Ok (AgentOptions.with_instruction (Some value) o)
  else if String.eqb flag "--mode" then Ok (AgentOptions.with_mode value o)
  else if String.eqb flag "--sdrd" then
    address ← number (parse_socket_addr value) ; Ok (AgentOptions.with_sdrd_address (Some address) o)
  else if String.eqb flag "--recognizer-socket" then Ok (AgentOptions.with_recognizer_socket value o)
  else if String.eqb flag "--recognizer-spool-root" then
    Ok (AgentOptions.with_recognizer_spool_root value o)
  else if String.eqb flag "--timeout-ms" then
    n ← number (parse_u64 value) ; Ok (AgentOptions.with_timeout_ms n o)
  else if String.eqb flag "--sdrd-timeout-ms" then
    n ← number (parse_u64 value) ; Ok (AgentOptions.with_sdrd_timeout_ms n o)
  else if String.eqb flag "--recognizer-timeout-ms" then
    n ← number (parse_u64 value) ; Ok (AgentOptions.with_recognizer_timeout_ms n o)
  else if String.eqb flag "--approval" then Ok (AgentOptions.with_execution_approval (Some value) o)
  else if String.eqb flag "--audit-log" then Ok (AgentOptions.with_audit_log value o)
  else if String.eqb flag "--session-generation" then
    n ← number (parse_u64 value) ; Ok (AgentOptions.with_session_generation (Some n) o)
  else if String.eqb flag "--survey-gain-db" then
    n ← number (parse_i16 value) ; Ok (AgentOptions.with_survey_gain_db n o)
  else if String.eqb flag "--sweep-point-timeout-ms" then
    n ← number (parse_u32 value) ; Ok (AgentOptions.with_sweep_point_timeout_ms n o)
  else invalid_input ("unknown option " +:+ flag).

Fixpoint parse_arguments (args : list string) (o : AgentOptions.t) : result AgentError.t AgentOptions.t :=
  match args with
  | [] => Ok o
  | [flag] => invalid_input ("missing value for " +:+ flag)
  | flag :: value :: args => o ← set_option flag value o ; parse_arguments args o
  end.

Definition MODES : list string :=
  ["plan"; "observe"; "recognize"; "execute"; "cancel"; "sweep"; "run-once"]%string.
Definition check_options (o : AgentOptions.t) : result AgentError.t unit :=
  reject_if (negb (in_range 100 120000 o.(AgentOptions.timeout_ms)))
    (AgentError.InvalidInput "--timeout-ms must be between 100 and 120000") ;;
  reject_if (negb (in_range 100 60000 o.(AgentOptions.sdrd_timeout_ms)))
    (AgentError.InvalidInput "--sdrd-timeout-ms must be between 100 and 60000") ;;
  reject_if (negb (in_range 1 5000 o.(AgentOptions.recognizer_timeout_ms)))
    (AgentError.InvalidInput "--recognizer-timeout-ms must be between 1 and 5000") ;;
  reject_if (negb (in_range 0 60 o.(AgentOptions.survey_gain_db)))
    (AgentError.InvalidInput "--survey-gain-db must be between 0 and 60") ;;
  reject_if (negb (in_range 1 5000 o.(AgentOptions.sweep_point_timeout_ms)))
    (AgentError.InvalidInput "--sweep-point-timeout-ms must be between 1 and 5000") ;;
  reject_if (negb (existsb (String.eqb o.(AgentOptions.mode)) MODES))
    (AgentError.InvalidInput "--mode must be plan, observe, recognize, execute, cancel, sweep, or run-once").

(** The options of a command line without the name of the program. *)
Definition parse_options (args : list string) : result AgentError.t AgentOptions.t :=
  o ← parse_arguments args AgentOptions.default ; check_options o ;; Ok o.
End Options.

(** ** The modes *)
Module ExecutionInput.
Record t := mk { request : PlanRequest.t; response : PlanResponse.t }.
End ExecutionInput.

(** What a mode prints. *)
Module AgentOutput.
Inductive t :=
| Report (report : RunReport.t)
| Sweep (report : SweepReport.t)
| Cancel (observation : CancelObservation.t)
| Snapshot (snapshot : SdrSnapshot.t)
| Recognition (output : RecognitionOutput.t)
| Execution (observation : ExecutionObservation.t)
| Plan (plan : ValidatedPlan.t).
End AgentOutput.

Class AgentCodec := {
  plan_request_from_slice : list Z -> result string PlanRequest.t;
  sweep_plan_from_slice : list Z -> result string SweepPlan.t;
  recognition_request_from_slice : list Z -> result string RecognitionRequest.t;
  execution_input_from_slice : list Z -> result string ExecutionInput.t;
  to_string : AgentOutput.t -> result string string;
}.

(** The constructors of the adapters, the input, and the clocks. *)
Class Outside `{Json} (W : Type) := {
  sdrd_adapter : SocketAddr.t -> Z -> SdrEngine W;
  planner_adapter : string -> Z -> Planner W;
  action_adapter : SocketAddr.t -> Z -> SdrActionExecutor W;
  sweep_adapter : SocketAddr.t -> Z -> SweepBackend W;
  recognizer_adapter : string -> string -> Z -> LocalRecognizer W;
  audit_adapter : string -> AuditSink W;
  open_audit : string -> W -> result string unit * W;
  stdin : W -> result string Incoming * W;
  open_file : string -> W -> result string Incoming * W;
  unix_ms : W -> result string Z;
  elapsed_ms : W -> Z;
}.

Section Modes.
Context `{Json} `{AgentCodec} {W : Type} `{!Outside W}.

#[local] Abbreviation App := (M W AgentError.t).
#[local] Abbreviation refuse message := (lift (Err (AgentError.InvalidInput message))).

(** [take(max_bytes + 1).read_to_end]: a reader that fails after that many
    bytes is not asked again. *)
Definition read_bounded (reader : Incoming) (max_bytes : Z) : result AgentError.t (list Z) :=
  let bytes := take (Z.to_nat (max_bytes + 1)) reader.(arrived) in
  bytes ←
    match reader.(failure) with
    | Some error => if max_bytes <? length_z bytes then Ok bytes else Err (AgentError.Io error)
    | None => Ok bytes
    end ;
  reject_if (max_bytes <? length_z bytes)
    (AgentError.InvalidInput ("request exceeds " +:+ print_u max_bytes +:+ " bytes")) ;;
  Ok bytes.

Definition read_request (path : string) (max_bytes : Z) : App (list Z) :=
  reader ← map_errM AgentError.Io (if String.eqb path "-" then stdin else open_file path) ;
  lift (read_bounded reader max_bytes).

Definition decode {T} (from_slice : list Z -> result string T) (bytes : list Z) : App T :=
  lift (map_err AgentError.Serde (from_slice bytes)).

(** [--sdrd] in the modes that need it. *)
Definition require_sdrd (mode : string) (o : AgentOptions.t) : App SocketAddr.t :=
  lift (ok_or (AgentError.InvalidInput ("--mode " +:+ mode +:+ " requires --sdrd HOST:PORT"))
          o.(AgentOptions.sdrd_address)).
Definition refuse_instruction (o : AgentOptions.t) : App unit :=
  if is_none o.(AgentOptions.instruction) then mret tt
  else refuse "--instruction is valid only in plan mode".

Definition with_instruction (instruction : option string) (request : PlanRequest.t) : PlanRequest.t :=
  match instruction with
  | Some instruction =>
      PlanRequest.mk request.(PlanRequest.protocol_version) request.(PlanRequest.request_id)
        request.(PlanRequest.session_generation) instruction request.(PlanRequest.state)
        request.(PlanRequest.observation) request.(PlanRequest.limits)
  | None => request
  end.

Definition approval_mode (value : string) : result AgentError.t ApprovalMode.t :=
  if String.eqb value "pending" then Ok ApprovalMode.Pending
  else if String.eqb value "automatic" then Ok ApprovalMode.Automatic
  else if String.eqb value "operator" then Ok ApprovalMode.Operator
  else Err (AgentError.InvalidInput
              ("--approval must be pending, automatic, or operator; got " +:+ value)).

(** [Runner::new] with its adapters, then one step. *)
Definition run_runner (o : AgentOptions.t) (address : SocketAddr.t) (request : PlanRequest.t)
    (approval : ApprovalMode.t) : M W RunnerError.t RunReport.t :=
  let observer : SdrEngine W := sdrd_adapter address o.(AgentOptions.sdrd_timeout_ms) in
  let planner : Planner W := planner_adapter o.(AgentOptions.socket) o.(AgentOptions.timeout_ms) in
  let executor : SdrActionExecutor W := action_adapter address o.(AgentOptions.sdrd_timeout_ms) in
  let sweep_backend : SweepBackend W := sweep_adapter address o.(AgentOptions.sdrd_timeout_ms) in
  let audit : AuditSink W := audit_adapter o.(AgentOptions.audit_log) in
  Runner.run_once unix_ms elapsed_ms o.(AgentOptions.survey_gain_db)
    o.(AgentOptions.sweep_point_timeout_ms) request approval.

Definition run_once_mode (o : AgentOptions.t) : App AgentOutput.t :=
  address ← require_sdrd "run-once" o ;
  bytes ← read_request o.(AgentOptions.request_path) MAX_FRAME_BYTES ;
  request ← decode plan_request_from_slice bytes ;
  let request := with_instruction o.(AgentOptions.instruction) request in
  approval ← lift (approval_mode (default "pending"%string o.(AgentOptions.execution_approval))) ;
  map_errM AgentError.Io (open_audit o.(AgentOptions.audit_log)) ;;
  report ← map_errM AgentError.Runner (run_runner o address request approval) ;
  mret (AgentOutput.Report report).

Definition sweep_mode (o : AgentOptions.t) : App AgentOutput.t :=
  refuse_instruction o ;;
  address ← require_sdrd "sweep" o ;
  bytes ← read_request o.(AgentOptions.request_path) MAX_FRAME_BYTES ;
  plan ← decode sweep_plan_from_slice bytes ;
  let adapter : SweepBackend W := sweep_adapter address o.(AgentOptions.sdrd_timeout_ms) in
  report ← map_errM AgentError.Sweep (SweepEngine.run elapsed_ms plan) ;
  mret (AgentOutput.Sweep report).

Definition cancel_mode (o : AgentOptions.t) : App AgentOutput.t :=
  address ← require_sdrd "cancel" o ;
  generation ←
    lift (ok_or (AgentError.InvalidInput "--mode cancel requires --session-generation N")
            o.(AgentOptions.session_generation)) ;
  let executor : SdrActionExecutor W := action_adapter address o.(AgentOptions.sdrd_timeout_ms) in
  observation ← map_errM AgentError.Sdr (Execution.cancel generation) ;
  mret (AgentOutput.Cancel observation).

Definition observe_mode (o : AgentOptions.t) : App AgentOutput.t :=
  address ← require_sdrd "observe" o ;
  let sdr : SdrEngine W := sdrd_adapter address o.(AgentOptions.sdrd_timeout_ms) in
  snapshot ← map_errM AgentError.Sdr Sdr.observe ;
  mret (AgentOutput.Snapshot snapshot).

Definition recognize_mode (o : AgentOptions.t) : App AgentOutput.t :=
  refuse_instruction o ;;
  bytes ← read_request o.(AgentOptions.request_path) RECOGNIZER_MAX_FRAME_BYTES ;
  request ← decode recognition_request_from_slice bytes ;
  let recognizer : LocalRecognizer W :=
    recognizer_adapter o.(AgentOptions.recognizer_socket) o.(AgentOptions.recognizer_spool_root)
      o.(AgentOptions.recognizer_timeout_ms) in
  output ← map_errM AgentError.Recognizer (Recognizer.classify request) ;
  mret (AgentOutput.Recognition output).

(** Any approval but [operator] is the automatic one. *)
Definition execution_authorization (approval : option string) (plan : ValidatedPlan.t)
    : result AgentError.t ExecutionAuthorization.t :=
  if bool_decide (approval = Some "operator"%string) then Ok (ExecutionAuthorization.by_operator plan)
  else map_err AgentError.Sdr (ExecutionAuthorization.automatic plan).

Definition execute_mode (o : AgentOptions.t) : App AgentOutput.t :=
  refuse_instruction o ;;
  address ← require_sdrd "execute" o ;
  bytes ← read_request o.(AgentOptions.request_path) MAX_FRAME_BYTES ;
  input ← decode execution_input_from_slice bytes ;
  lift (map_err AgentError.Policy (Policy.validate_request input.(ExecutionInput.request))) ;;
  plan ← lift (map_err AgentError.Policy
                 (Policy.validate_response input.(ExecutionInput.request) input.(ExecutionInput.response))) ;
  authorization ← lift (execution_authorization o.(AgentOptions.execution_approval) plan) ;
  let executor : SdrActionExecutor W := action_adapter address o.(AgentOptions.sdrd_timeout_ms) in
  observation ← map_errM AgentError.Sdr (Execution.execute plan authorization) ;
  mret (AgentOutput.Execution observation).

(** The live health in place of the one that was read. *)
Definition refresh_health (o : AgentOptions.t) (request : PlanRequest.t) : App PlanRequest.t :=
  match o.(AgentOptions.sdrd_address) with
  | None => mret request
  | Some address =>
      let sdr : SdrEngine W := sdrd_adapter address o.(AgentOptions.sdrd_timeout_ms) in
      snapshot ← map_errM AgentError.Sdr Sdr.observe ;
      let observation := request.(PlanRequest.observation) in
      let prior := observation.(ObservationSummary.health) in
      let health :=
        SdrSnapshot.planner_health snapshot prior.(HealthSummary.recognizer_available)
          prior.(HealthSummary.dropped_observations) in
      mret (PlanRequest.mk request.(PlanRequest.protocol_version) request.(PlanRequest.request_id)
              request.(PlanRequest.session_generation) request.(PlanRequest.instruction)
              request.(PlanRequest.state)
              (ObservationSummary.mk observation.(ObservationSummary.age_ms) health
                 observation.(ObservationSummary.candidates)
                 observation.(ObservationSummary.latest_sweep)
                 observation.(ObservationSummary.recognition))
              request.(PlanRequest.limits))
  end.

Definition plan_mode (o : AgentOptions.t) : App AgentOutput.t :=
  bytes ← read_request o.(AgentOptions.request_path) MAX_FRAME_BYTES ;
  request ← decode plan_request_from_slice bytes ;
  request ← refresh_health o (with_instruction o.(AgentOptions.instruction) request) ;
  let planner : Planner W := planner_adapter o.(AgentOptions.socket) o.(AgentOptions.timeout_ms) in
  plan ← map_errM AgentError.Controller (Controller.decide request) ;
  mret (AgentOutput.Plan plan).

Definition dispatch (o : AgentOptions.t) : App AgentOutput.t :=
  let mode := o.(AgentOptions.mode) in
  if String.eqb mode "run-once" then run_once_mode o
  else if String.eqb mode "sweep" then sweep_mode o
  else if String.eqb mode "cancel" then cancel_mode o
  else if String.eqb mode "observe" then observe_mode o
  else if String.eqb mode "recognize" then recognize_mode o
  else if String.eqb mode "execute" then execute_mode o
  else plan_mode o.

(** [run]: the line that is printed. *)
Definition run (args : list string) : App string :=
  o ← lift (parse_options args) ;
  output ← dispatch o ;
  lift (map_err AgentError.Serde (to_string output)).

(** [main]: what is on the standard output, and the exit code. *)
Definition main (args : list string) (w : W) : option string * Z * W :=
  match run args w with
  | (Ok line, w) => (Some line, 0, w)
  | (Err _, w) => (None, 1, w)
  end.
End Modes.

(** ** What the modes may do to the radio *)

(** The adapters with the recorder of [RunnerSafety] in front of the world; the
    recognizer, the input and the log file have no radio to touch. *)
Definition beside `{Json} {W A} (f : W -> A * W) (s : Traced.t W) : A * Traced.t W :=
  let (a, w) := f s.(Traced.inner) in (a, Traced.mk w s.(Traced.calls)).

#[export] Instance traced_outside `{Json} {W} `{!Outside W} : Outside (Traced.t W) := {|
  sdrd_adapter address timeout := Traced.engine (SdrEngine0 := sdrd_adapter address timeout);
  planner_adapter socket timeout := Traced.planner (Planner0 := planner_adapter socket timeout);
  action_adapter address timeout :=
    Traced.executor (SdrActionExecutor0 := action_adapter address timeout);
  sweep_adapter address timeout := Traced.backend (SweepBackend0 := sweep_adapter address timeout);
  recognizer_adapter socket root timeout request :=
    beside (@classify W (recognizer_adapter socket root timeout) request);
  audit_adapter path := Traced.sink (AuditSink0 := audit_adapter path);
  open_audit path := beside (open_audit path);
  stdin := beside stdin;
  open_file path := beside (open_file path);
  unix_ms s := unix_ms s.(Traced.inner);
  elapsed_ms s := elapsed_ms s.(Traced.inner);
|}.

Section Warrant.
Context `{Json} `{AgentCodec} {W : Type} `{!Outside W}.
#[local] Abbreviation T := (Traced.t W).

(** What the options and the input say about a call on the radio. *)
Inductive Warranted (o : AgentOptions.t) (s : T) : list Call -> Call -> Prop :=
| ByRunner bytes request approval pre c plan authorization :
    o.(AgentOptions.mode) = "run-once"%string ->
    (read_request o.(AgentOptions.request_path) MAX_FRAME_BYTES s).1 = Ok bytes ->
    plan_request_from_slice bytes = Ok request ->
    approval_mode (default "pending"%string o.(AgentOptions.execution_approval)) = Ok approval ->
    Justified (with_instruction o.(AgentOptions.instruction) request) approval pre plan authorization ->
    Performs o.(AgentOptions.survey_gain_db) o.(AgentOptions.sweep_point_timeout_ms) plan
      authorization c ->
    Warranted o s pre c
| BySweep bytes plan v :
    o.(AgentOptions.mode) = "sweep"%string ->
    (read_request o.(AgentOptions.request_path) MAX_FRAME_BYTES s).1 = Ok bytes ->
    sweep_plan_from_slice bytes = Ok plan -> validate_plan plan = Ok v ->
    Warranted o s [] (CSweep v)
| ByCancel generation :
    o.(AgentOptions.mode) = "cancel"%string ->
    o.(AgentOptions.session_generation) = Some generation ->
    Warranted o s [] (CCancel generation)
| ByExecution bytes input plan :
    o.(AgentOptions.mode) = "execute"%string ->
    (read_request o.(AgentOptions.request_path) MAX_FRAME_BYTES s).1 = Ok bytes ->
    execution_input_from_slice bytes = Ok input ->
    Policy.validate_request input.(ExecutionInput.request) = Ok tt ->
    Policy.validate_response input.(ExecutionInput.request) input.(ExecutionInput.response) = Ok plan ->
    (plan.(ValidatedPlan.approval_required) = true ->
     o.(AgentOptions.execution_approval) = Some "operator"%string) ->
    Warranted o s []
      (CExecute plan
         (ExecutionAuthorization.mk plan.(ValidatedPlan.request_id)
            plan.(ValidatedPlan.session_generation)
            (bool_decide (o.(AgentOptions.execution_approval) = Some "operator"%string)))).

(** A computation that makes at most one call on the radio, one with a warrant. *)
Definition Warrants {E A} (P : list Call -> Call -> Prop) (m : Prelude.M T E A) (s : T) : Prop :=
  forall r s', m s = (r, s') ->
  exists tail, Forall Harmless tail
  /\ (Calls s s' tail
      \/ exists pre c, Calls s s' (pre ++ c :: tail) /\ Forall Harmless pre
                       /\ is_hardware c = true /\ P pre c).

(** One step of the program that leaves the recorded calls alone. *)
Definition Unseen {E A} (m : Prelude.M T E A) : Prop :=
  forall s r s', m s = (r, s') -> s'.(Traced.calls) = s.(Traced.calls).

Lemma unseen_lift {E A} (r : result E A) : Unseen (lift r).
Proof. now intros s r' s' [= _ <-]. Qed.

Lemma unseen_beside {E A} (f : W -> result E A * W) : Unseen (beside f).
Proof. intros s r s'. unfold beside. destruct (f _). now intros [= _ <-]. Qed.

Lemma unseen_map_err {E F A} (f : E -> F) (m : Prelude.M T E A) : Unseen m -> Unseen (map_errM f m).
Proof. intros Hm s r s'. unfold map_errM. destruct (m s) eqn:Em. intros [= _ <-]. eapply Hm, Em. Qed.

Lemma unseen_bind {E A B} (m : Prelude.M T E A) (k : A -> Prelude.M T E B) :
  Unseen m -> (forall a, Unseen (k a)) -> Unseen (m ≫= k).
Proof.
  intros Hm Hk s r s'. rewrite bind_run. destruct (m s) as [[a|e] s1] eqn:Em.
  - intros Hrun. rewrite (Hk _ _ _ _ Hrun). eapply Hm, Em.
  - intros [= _ <-]. eapply Hm, Em.
Qed.

Lemma unseen_read path max_bytes : Unseen (read_request path max_bytes).
Proof.
  unfold read_request. apply unseen_bind; [apply unseen_map_err|intros; apply unseen_lift].
  destruct (String.eqb path "-"); apply unseen_beside.
Qed.

(** Past an unseen step the calls are still those from the start. *)
Lemma warrants_after {E A B} P (m : Prelude.M T E A) (k : A -> Prelude.M T E B) s :
  Unseen m -> (forall a s1, m s = (Ok a, s1) -> Warrants P (k a) s1) -> Warrants P (m ≫= k) s.
Proof.
  intros Hm Hk r s'. rewrite bind_run. destruct (m s) as [[a|e] s1] eqn:Em.
  - intros Hrun. destruct (Hk _ _ eq_refl _ _ Hrun) as (tail&Hf&Hc). unfold Calls in *.
    rewrite (Hm _ _ _ Em) in Hc. eauto.
  - intros [= _ <-]. exists []. split; [constructor|]. left. unfold Calls.
    now rewrite (Hm _ _ _ Em), app_nil_r.
Qed.

Lemma warrants_lift_bind {E A B} P (r : result E A) (k : A -> Prelude.M T E B) s :
  (forall a, r = Ok a -> Warrants P (k a) s) -> Warrants P (lift r ≫= k) s.
Proof.
  intros Hk. apply warrants_after; [apply unseen_lift|]. intros a s1 [= -> <-]. now apply Hk.
Qed.

Lemma warrants_quiet {E A} P (m : Prelude.M T E A) s : Quiet m -> Warrants P m s.
Proof. intros Hm r s' Hrun. destruct (Hm _ _ _ Hrun) as (tail&?&?). eauto. Qed.

Lemma warrants_first {E A} P (m : Prelude.M T E A) s : OneCall (P []) m -> Warrants P m s.
Proof.
  intros Hm r s' Hrun. destruct (Hm _ _ _ Hrun) as (tail&Hf&[Hc|(c&Hp&Hh&Hc)]); [eauto|].
  exists tail. split; [exact Hf|]. right. exists [], c. auto.
Qed.

Lemma warrants_then {E A B} P (m : Prelude.M T E A) (f : A -> B) s :
  Warrants P m s -> Warrants P (a ← m ; mret (f a)) s.
Proof.
  intros Hm r s'. rewrite bind_run. destruct (m s) as [[a|e] s1] eqn:Em;
    intros [= _ <-]; eapply Hm, Em.
Qed.

Lemma warrants_map_err {E F A} P (f : E -> F) (m : Prelude.M T E A) s :
  Warrants P m s -> Warrants P (map_errM f m) s.
Proof.
  intros Hm r s'. unfold map_errM. destruct (m s) eqn:Em. intros [= _ <-]. eapply Hm, Em.
Qed.

Lemma quiet_unseen {E A} (m : Prelude.M T E A) : Unseen m -> Quiet m.
Proof.
  intros Hm s r s' Hrun. exists []. split; [|constructor]. unfold Calls.
  now rewrite (Hm _ _ _ Hrun), app_nil_r.
Qed.

Lemma quiet_map_err {E F A} (f : E -> F) (m : Prelude.M T E A) : Quiet m -> Quiet (map_errM f m).
Proof. intros Hm s r s'. unfold map_errM. destruct (m s) eqn:Em. intros [= _ <-]. eapply Hm, Em. Qed.

Lemma warrants_refused {B} P o (k : Prelude.M T AgentError.t B) s :
  Warrants P k s -> Warrants P (refuse_instruction o ;; k) s.
Proof.
  intros Hk. unfold refuse_instruction. destruct (is_none _); [exact Hk|].
  apply warrants_lift_bind. discriminate.
Qed.

Lemma warrants_input {A B} P (from_slice : list Z -> result string A) path max_bytes
    (k : A -> Prelude.M T AgentError.t B) s :
  (forall bytes a s1, (read_request path max_bytes s).1 = Ok bytes -> from_slice bytes = Ok a ->
     Warrants P (k a) s1) ->
  Warrants P (bytes ← read_request path max_bytes ; a ← decode from_slice bytes ; k a) s.
Proof.
  intros Hk. apply warrants_after; [apply unseen_read|]. intros bytes s1 Hread.
  apply warrants_lift_bind. intros a Ha%map_err_Ok. eapply Hk; [|exact Ha]. now rewrite Hread.
Qed.

(** *** Mode by mode *)
Lemma sweep_mode_warrants o s :
  o.(AgentOptions.mode) = "sweep"%string -> Warrants (Warranted o s) (sweep_mode o) s.
Proof.
  intros Hmode. unfold sweep_mode. apply warrants_refused, warrants_lift_bind. intros address _.
  apply warrants_input. intros bytes plan s1 Hread Hplan.
  apply warrants_then, warrants_map_err, warrants_first.
  eapply (one_call_sweep (W := W) elapsed_ms). eauto using BySweep.
Qed.

Lemma cancel_mode_warrants o s :
  o.(AgentOptions.mode) = "cancel"%string -> Warrants (Warranted o s) (cancel_mode o) s.
Proof.
  intros Hmode. unfold cancel_mode. apply warrants_lift_bind. intros address _.
  apply warrants_lift_bind. intros generation Hg%ok_or_Ok.
  apply warrants_then, warrants_map_err, warrants_first, one_call_record; [|reflexivity].
  now apply ByCancel.
Qed.

Lemma execution_authorization_Ok approval plan authorization :
  execution_authorization approval plan = Ok authorization ->
  authorization
  = ExecutionAuthorization.mk plan.(ValidatedPlan.request_id) plan.(ValidatedPlan.session_generation)
      (bool_decide (approval = Some "operator"%string))
  /\ (plan.(ValidatedPlan.approval_required) = true -> approval = Some "operator"%string).
Proof.
  unfold execution_authorization, ExecutionAuthorization.automatic, ExecutionAuthorization.by_operator.
  case_bool_decide; [now intros [= <-]|].
  rewrite map_err_Ok, reject_seq. intros [Ha [= <-]]. split; [reflexivity|congruence].
Qed.

Lemma execute_mode_warrants o s :
  o.(AgentOptions.mode) = "execute"%string -> Warrants (Warranted o s) (execute_mode o) s.
Proof.
  intros Hmode. unfold execute_mode. apply warrants_refused, warrants_lift_bind. intros address _.
  apply warrants_input. intros bytes input s1 Hread Hinput.
  apply warrants_lift_bind. intros [] Hrequest%map_err_Ok.
  apply warrants_lift_bind. intros plan Hplan%map_err_Ok.
  apply warrants_lift_bind. intros authorization [-> Happroval]%execution_authorization_Ok.
  apply warrants_then, warrants_map_err, warrants_first, one_call_record; [|reflexivity].
  eapply ByExecution; eassumption.
Qed.

Lemma run_once_mode_warrants o s :
  o.(AgentOptions.mode) = "run-once"%string -> Warrants (Warranted o s) (run_once_mode o) s.
Proof.
  intros Hmode. unfold run_once_mode. apply warrants_lift_bind. intros address _.
  apply warrants_input. intros bytes request s1 Hread Hrequest.
  apply warrants_lift_bind. intros approval Happroval.
  apply warrants_after; [apply unseen_map_err, unseen_beside|]. intros u s2 _.
  apply warrants_then, warrants_map_err. intros r s' Hrun.
  eapply (run_once_calls (W := W)) in Hrun as (tail&Hf&[Hc|(pre&c&plan&authorization&Hc&Hj&Hp&Hh)]);
    [eauto|].
  exists tail. split; [exact Hf|]. right. exists pre, c. split; [exact Hc|]. split; [|split; [exact Hh|]].
  - destruct Hj as [(live&response&t1&t2&t3&t4&->&_) _ _]. repeat constructor.
  - eapply ByRunner; eassumption.
Qed.

Lemma observe_mode_quiet o : Quiet (observe_mode (W := T) o).
Proof.
  unfold observe_mode. apply quiet_bind; [apply quiet_lift|intros address].
  apply quiet_bind; [|intros; apply quiet_lift]. apply quiet_map_err. now apply quiet_record.
Qed.

Lemma recognize_mode_warrants o s P : Warrants P (recognize_mode (W := T) o) s.
Proof.
  unfold recognize_mode. apply warrants_refused, warrants_input. intros bytes request s1 _ _.
  apply warrants_then, warrants_map_err, warrants_quiet, quiet_unseen, unseen_beside.
Qed.

Lemma plan_mode_warrants o s P : Warrants P (plan_mode (W := T) o) s.
Proof.
  unfold plan_mode. apply warrants_input. intros bytes request s1 _ _.
  apply warrants_quiet, quiet_bind.
  - unfold refresh_health. destruct o.(AgentOptions.sdrd_address); [|apply quiet_lift].
    apply quiet_bind; [apply quiet_map_err; now apply quiet_record|intros; apply quiet_lift].
  - intros request'. apply quiet_bind; [|intros; apply quiet_lift]. apply quiet_map_err.
    intros s2 r s'. unfold Controller.decide. destruct (map_err _ _); [|intros [= _ <-]; exists []; auto using calls_refl].
    destruct (Planner.plan _ _) as [rp s3] eqn:Hp. eapply quiet_record in Hp; [|reflexivity].
    destruct rp; intros [= _ <-]; exact Hp.
Qed.

Lemma dispatch_warrants o s : Warrants (Warranted o s) (dispatch o) s.
Proof.
  unfold dispatch.
  destruct (String.eqb_spec o.(AgentOptions.mode) "run-once"); [now apply run_once_mode_warrants|].
  destruct (String.eqb_spec o.(AgentOptions.mode) "sweep"); [now apply sweep_mode_warrants|].
  destruct (String.eqb_spec o.(AgentOptions.mode) "cancel"); [now apply cancel_mode_warrants|].
  destruct (String.eqb _ "observe"); [apply warrants_quiet, observe_mode_quiet|].
  destruct (String.eqb _ "recognize"); [apply recognize_mode_warrants|].
  destruct (String.eqb_spec o.(AgentOptions.mode) "execute"); [now apply execute_mode_warrants|].
  apply plan_mode_warrants.
Qed.
End Warrant.

(** C3: Whatever the command line, the input, the planner and the radio answer, a run of the agent makes
    at most one call that can change the radio, and that call has a warrant: in the mode
    run-once the audited chain of a validated and authorized plan, in the mode execute the plan
    the policy validated out of the input, with the operator's approval where the plan requires
    one, in the mode sweep the validated plan of the input, in the mode cancel the session that
    was named.  In the other modes there is no warrant, hence no such call. *)
Theorem agent_calls_are_warranted `{Json} `{AgentCodec} {W} `{!Outside W} args (w : W) r s' c :
  run args (Traced.mk w []) = (r, s') -> c ∈ s'.(Traced.calls) -> is_hardware c = true ->
  exists o pre tail,
    parse_options args = Ok o
    /\ s'.(Traced.calls) = pre ++ c :: tail
    /\ Forall Harmless pre /\ Forall Harmless tail
    /\ Warranted o (Traced.mk w []) pre c.
Proof.
  unfold run. rewrite lift_bind_run. destruct (parse_options args) as [o|e].
  2: { intros [= _ <-] Hin. inversion Hin. }
  rewrite bind_run. destruct (dispatch o _) as [output s1] eqn:Hd. intros Hrun Hin Hh.
  assert (s' = s1) as -> by now destruct output; injection Hrun.
  apply dispatch_warrants in Hd as (tail&Hf&[Hc|(pre&c'&Hc&Hpre&Hh'&Hw)]); unfold Calls in Hc;
    cbn [Traced.calls app] in Hc; rewrite Hc in Hin.
  - rewrite list.Forall_forall in Hf. specialize (Hf _ Hin). unfold Harmless in Hf. congruence.
  - exists o, pre, tail. rewrite list.Forall_forall in Hpre, Hf.
    assert (c = c') as ->.
    { apply elem_of_app in Hin as [Hin|[->|Hin]%elem_of_cons]; [|reflexivity|].
      - specialize (Hpre _ Hin). unfold Harmless in Hpre. congruence.
      - specialize (Hf _ Hin). unfold Harmless in Hf. congruence. }
    rewrite !list.Forall_forall. auto.
Qed.

(** ** A command line that executes a capture *)
Module AgentSamples.
#[local] Existing Instances SdrSamples.json RunnerSamples.observer RunnerSamples.planner RunnerSamples.executor RunnerSamples.backend RunnerSamples.sink.
(** Half a MiB of samples, which needs an operator. *)
Definition input : ExecutionInput.t :=
  ExecutionInput.mk
    (PlanRequest.mk 1 7 3 "find the access point" ControllerState.Idle
       PolicySamples.request.(PlanRequest.observation) PolicySamples.large_capture_limits)
    (PolicySamples.response (ProposedAction.CaptureBoundedIq "sweep-1-1" 2437000000 30720000 10000000 131072)).

#[export] Instance codec : AgentCodec := {|
  plan_request_from_slice _ := Ok PolicySamples.request;
  sweep_plan_from_slice _ := Err "unused"%string;
  recognition_request_from_slice _ := Err "unused"%string;
  execution_input_from_slice bytes := if null bytes then Err "empty"%string else Ok input;
  to_string _ := Ok "{}"%string;
|}.

#[export] Instance outside : @Outside SdrSamples.json unit := {|
  sdrd_adapter _ _ := RunnerSamples.observer;
  planner_adapter _ _ := RunnerSamples.planner;
  action_adapter _ _ := RunnerSamples.executor;
  sweep_adapter _ _ := RunnerSamples.backend;
  recognizer_adapter _ _ _ := fun _ w => (Err (RecognizerError.new "unused" ""), w);
  audit_adapter _ := RunnerSamples.sink;
  open_audit _ w := (Ok tt, w);
  stdin w := (Ok (incoming (bytes "{}") None), w);
  open_file _ w := (Err "No such file or directory"%string, w);
  unix_ms _ := Ok 1700000000000;
  elapsed_ms _ := 200;
|}.

Definition execute (approval : string) : list string :=
  ["--mode"; "execute"; "--sdrd"; "127.0.0.1:43110"; "--approval"; approval].
Definition start : @Traced.t SdrSamples.json unit := Traced.mk tt [].
Definition executed (approval : string) := run (execute approval) start.
End AgentSamples.
#[local] Existing Instances SdrSamples.json AgentSamples.codec AgentSamples.outside.

(** Only the operator's approval lets the large capture through; an approval
    that is none of the three words counts as the automatic one. *)
Example approvals_of_a_large_capture :
  (AgentSamples.executed "automatic").1
  = Err (AgentError.Sdr (SdrError.new "approval_required"
           "the validated plan requires explicit operator approval"))
  /\ (AgentSamples.executed "operatr").1 = (AgentSamples.executed "automatic").1
  /\ length (AgentSamples.executed "operatr").2.(Traced.calls) = 0%nat
  /\ length (AgentSamples.executed "operator").2.(Traced.calls) = 1%nat.
Proof. vm_compute. auto. Qed.

Lemma agent_calls_are_warranted_witness :
  exists c o, (AgentSamples.executed "operator").2.(Traced.calls) = [c]
  /\ Warranted o AgentSamples.start [] c.
Proof.
  destruct (AgentSamples.executed "operator").2.(Traced.calls) as [|c l] eqn:Hc;
    [vm_compute in Hc; discriminate|].
  destruct l; [|vm_compute in Hc; discriminate].
  assert (Hh : is_hardware c = true) by (vm_compute in Hc; injection Hc as <-; reflexivity).
  destruct (agent_calls_are_warranted (AgentSamples.execute "operator") tt
              (AgentSamples.executed "operator").1 (AgentSamples.executed "operator").2 c
              (surjective_pairing _)) as (o&pre&tail&_&Hcalls&_&_&Hw).
  - rewrite Hc. now left.
  - exact Hh.
  - exists c, o. split; [reflexivity|]. rewrite Hc in Hcalls.
    destruct pre as [|c' pre]; [now injection Hcalls as <-|].
    injection Hcalls as _ Hnil. destruct pre; discriminate.
Defined.
