(* ===== verification/RunnerSurvey.v ===== *)
(** * From an approved plan to the sweep that runs

    The policy ([Policy]) and the sweep engine ([SweepPlan]) validate the same
    survey with different guards.  These theorems relate them: an approved
    survey or inspection runs with the point count, the duration and the byte
    budget the policy computed, when the settings agree; and where they do not. *)
From S2P Require Import Prelude Text F32 Protocol Policy Framing Planner Sdr Execution SweepPlan.
From S2P Require Import SweepGrid SweepRun Runner.

(** ** The ids of the sweeps *)
Lemma safe_request : SafeId "request-".
Proof. apply safe_id_spec. reflexivity. Qed.

Lemma safe_inspect : SafeId "inspect-".
Proof. apply safe_id_spec. reflexivity. Qed.

(** ** The plans that follow from an approval *)
Section Approved.
Context `{Json} (gain timeout : Z).
Context (request : PlanRequest.t) (response : PlanResponse.t) (plan : ValidatedPlan.t).
Context (Hwf : PlanRequest.wf request) (Hresponse : PlanResponse.wf response).
Context (Hrequest : validate_request request = Ok tt).
Context (Hplan : validate_response request response = Ok plan).

Lemma approved_action :
  ActionOk request plan.(ValidatedPlan.action) plan.(ValidatedPlan.approval_required)
  /\ ProposedAction.wf plan.(ValidatedPlan.action)
  /\ is_u64 plan.(ValidatedPlan.request_id) /\ is_u64 plan.(ValidatedPlan.session_generation)
  /\ LimitsOk request.(PlanRequest.limits).
Proof.
  apply validate_request_spec in Hrequest as Hok; [|exact Hwf].
  apply validate_response_Ok in Hplan as (_&_&_&_&_&_&_&Ha&Hv&->&->&_).
  destruct Hresponse as (_&_&_&Hw). rewrite Ha in Hw.
  apply validate_action_spec in Hv; [|assumption..].
  destruct Hwf as (_&?&?&_). split; [exact Hv|]. split; [exact Hw|]. split; [assumption|].
  split; [assumption|]. apply Hok.
Qed.

(** The settings under which the engine accepts what the policy approves. *)
Definition Compatible (dwell : Z) : Prop :=
  plan.(ValidatedPlan.session_generation) <> 0 /\ 0 <= gain <= 60 /\ 1 <= timeout <= 250
  /\ dwell <= 1000.

Lemma plan_wf_of id frequencies rate bandwidth dwell :
  is_u64 plan.(ValidatedPlan.session_generation) -> SweepFrequencies.wf frequencies ->
  is_u64 rate -> is_u64 bandwidth -> is_u64 dwell -> 1 <= timeout <= 250 ->
  SweepPlan.wf (Runner.sweep_plan gain timeout id plan frequencies rate bandwidth dwell).
Proof.
  intros. unfold SweepPlan.wf. cbn. unfold is_u, u32_max in *. split_and!; auto; lia.
Qed.

Lemma survey_accepted start stop step rate bandwidth dwell :
  plan.(ValidatedPlan.action) = ProposedAction.SurveyBand start stop step rate bandwidth dwell ->
  Compatible dwell ->
  exists n, covers (stop - start) step n /\ n <= 768
  /\ n * (dwell + 250) <= 300000
  /\ n * 16384 <= request.(PlanRequest.limits).(SafetyLimits.max_iq_bytes)
  /\ validate_plan (Runner.survey_plan gain timeout plan start stop step rate bandwidth dwell)
     = Ok (validated_of (Runner.survey_plan gain timeout plan start stop step rate bandwidth dwell)
             (survey_centers start stop step n)).
Proof.
  intros Ha (Hgen&Hgain&Htimeout&Hdwell).
  destruct approved_action as (Hok&Hw&Hid&Hsg&Hlim). rewrite Ha in Hok, Hw.
  inversion Hok as [| |? ? ? ? ? ? n Hst Hon Hre Hb1 Hb2 Hspan Hstep Hradio Hcov Hdw Hn Hn768 Hdur Hbytes| | |];
    subst. destruct Hlim. unfold in_band in *. destruct Hradio as (?&?&?).
  destruct Hw as (?&?&?&?&?&?).
  destruct (survey_centers_spec start stop step n ltac:(lia) ltac:(lia) Hn)
    as (Hlen&Hn2&Hwin&Hin).
  exists n. split; [exact Hn|]. split; [exact Hn768|]. split; [exact Hdur|].
  split; [exact Hbytes|]. apply validate_plan_spec.
  - apply plan_wf_of; auto. cbn. auto.
  - exists (survey_centers start stop step n). split; [|split; [|reflexivity]].
    + cbn [Runner.survey_plan Runner.sweep_plan SweepPlan.frequencies].
      rewrite (expand_centers_grid start stop step n) by (try assumption; unfold u64_max; lia).
      rewrite (proj2 (Z.leb_le n 769)) by lia. reflexivity.
    + constructor; cbn [Runner.survey_plan Runner.sweep_plan SweepPlan.sweep_id
        SweepPlan.session_generation SweepPlan.sample_rate_hz SweepPlan.rf_bandwidth_hz
        SweepPlan.gain_db SweepPlan.settle_ms SweepPlan.frame_samples SweepPlan.aggregate_frames
        SweepPlan.point_timeout_ms SweepPlan.detection_threshold_db]; try lia.
      * apply printed_id_safe; [exact safe_request|vm_compute; congruence|exact Hid].
      * eapply windows_ascending, Hwin.
      * revert Hin. apply Forall_impl. lia.
      * intros g [= <-]. exact Hgain.
      * revert Hwin. apply Forall_impl. lia.
      * vm_compute. auto.
      * rewrite Hlen. transitivity (n * (dwell + 250)); [|exact Hdur].
        apply Z.mul_le_mono_nonneg_l; lia.
Qed.

Lemma inspection_accepted id center rate bandwidth dwell :
  plan.(ValidatedPlan.action) = ProposedAction.InspectCandidate id center rate bandwidth dwell ->
  Compatible dwell ->
  validate_plan (Runner.inspection_plan gain timeout plan center rate bandwidth dwell)
  = Ok (validated_of (Runner.inspection_plan gain timeout plan center rate bandwidth dwell)
          [center]).
Proof.
  intros Ha (Hgen&Hgain&Htimeout&Hdwell).
  destruct approved_action as (Hok&Hw&Hid&Hsg&Hlim). rewrite Ha in Hok, Hw.
  inversion Hok as [| | |? c ? ? ? ? Hst Hon Hre Hcur Hband Hradio Hnear Hdw Hdw2 Hbytes| |]; subst.
  destruct Hlim. unfold in_band in *. destruct Hradio as (?&?&?). destruct Hw as (?&?&?&?).
  apply validate_plan_spec.
  - apply plan_wf_of; auto. cbn. auto.
  - exists [center]. split; [reflexivity|split; [|reflexivity]].
    constructor; cbn [Runner.inspection_plan Runner.sweep_plan SweepPlan.sweep_id
        SweepPlan.session_generation SweepPlan.sample_rate_hz SweepPlan.rf_bandwidth_hz
        SweepPlan.gain_db SweepPlan.settle_ms SweepPlan.frame_samples SweepPlan.aggregate_frames
        SweepPlan.point_timeout_ms SweepPlan.detection_threshold_db]; try lia.
    + apply printed_id_safe; [exact safe_inspect|vm_compute; congruence|exact Hid].
    + change (length_z [center]) with 1. lia.
    + repeat constructor.
    + repeat constructor; lia.
    + intros g [= <-]. exact Hgain.
    + constructor.
    + vm_compute. auto.
    + change (length_z [center]) with 1. lia.
Qed.
End Approved.

(** ** Properties *)

(** C4: what the policy approves is what runs.  For a survey the policy approved, with a session, a
    gain of 0 to 60 dB, a point timeout of at most the 250 ms the policy reckons with and a dwell
    of at most one second, the sweep engine accepts the plan the runner builds; the sweep has
    exactly the number of points the policy counted, all between the survey's edges, takes at most
    the 300 seconds, and the IQ bytes it requests stay within the action's byte limit. *)
Theorem approved_survey_runs `{Json} gain timeout request response plan
    start stop step rate bandwidth dwell :
  PlanRequest.wf request -> PlanResponse.wf response ->
  validate_request request = Ok tt -> validate_response request response = Ok plan ->
  plan.(ValidatedPlan.action) = ProposedAction.SurveyBand start stop step rate bandwidth dwell ->
  Compatible gain timeout plan dwell ->
  exists n v,
    validate_plan (Runner.survey_plan gain timeout plan start stop step rate bandwidth dwell) = Ok v
    /\ covers (stop - start) step n
    /\ length_z v.(ValidatedSweepPlan.centers_hz) = n
    /\ Forall (fun c => start <= c <= stop) v.(ValidatedSweepPlan.centers_hz)
    /\ v.(ValidatedSweepPlan.estimated_duration_ms) <= 300000
    /\ n * (4 * block_samples v) <= request.(PlanRequest.limits).(SafetyLimits.max_iq_bytes).
Proof.
  intros Hwf Hresponse Hrequest Hplan Ha Hc.
  destruct (survey_accepted gain timeout request response plan Hwf Hresponse Hrequest Hplan
              start stop step rate bandwidth dwell Ha Hc) as (n&Hn&Hn768&Hdur&Hbytes&Hv).
  destruct (approved_action request response plan Hwf Hresponse Hrequest Hplan) as (Hok&_).
  rewrite Ha in Hok.
  inversion Hok as [| |? ? ? ? ? ? n' Hst Hon Hre Hb1 Hb2 Hspan Hstep _ _ _ _ _ _ _| | |]; subst.
  destruct (survey_centers_spec start stop step n ltac:(lia) ltac:(lia) Hn) as (Hlen&Hn2&_&Hin).
  destruct Hc as (_&_&Htimeout&_).
  exists n. eexists. split; [exact Hv|]. split; [exact Hn|].
  cbn [validated_of ValidatedSweepPlan.centers_hz]. split; [exact Hlen|]. split; [exact Hin|].
  change (length_z (survey_centers start stop step n) * (dwell + timeout) <= 300000
          /\ n * 16384 <= request.(PlanRequest.limits).(SafetyLimits.max_iq_bytes)).
  rewrite Hlen.
  split; [transitivity (n * (dwell + 250)); [apply Z.mul_le_mono_nonneg_l; lia|exact Hdur]|].
  exact Hbytes.
Qed.

(** An approved inspection runs as a sweep of the single approved center, under the same
    settings. *)
Theorem approved_inspection_runs `{Json} gain timeout request response plan
    id center rate bandwidth dwell :
  PlanRequest.wf request -> PlanResponse.wf response ->
  validate_request request = Ok tt -> validate_response request response = Ok plan ->
  plan.(ValidatedPlan.action) = ProposedAction.InspectCandidate id center rate bandwidth dwell ->
  Compatible gain timeout plan dwell ->
  exists v,
    validate_plan (Runner.inspection_plan gain timeout plan center rate bandwidth dwell) = Ok v
    /\ v.(ValidatedSweepPlan.centers_hz) = [center]
    /\ 4 * block_samples v <= request.(PlanRequest.limits).(SafetyLimits.max_iq_bytes).
Proof.
  intros Hwf Hresponse Hrequest Hplan Ha Hc. eexists.
  split; [eapply inspection_accepted; eassumption|]. split; [reflexivity|].
  destruct (approved_action request response plan Hwf Hresponse Hrequest Hplan) as (Hok&_).
  rewrite Ha in Hok. now inversion Hok.
Qed.

(** ** Where the two validations differ *)
Module SurveySamples.
(** Limits with a five-second dwell, as the production configuration has. *)
Definition limits : SafetyLimits.t :=
  SafetyLimits.mk 70000000 6000000000 1000000000 20000000 5000 65536 16777216 262144 60000.
Definition request (generation : Z) : PlanRequest.t :=
  PlanRequest.mk 1 7 generation "watch the band" ControllerState.Idle
    PolicySamples.request.(PlanRequest.observation) limits.
Definition survey (dwell : Z) : ProposedAction.t :=
  ProposedAction.SurveyBand 2400000000 2500000000 16000000 30720000 20000000 dwell.
Definition response (generation : Z) (a : ProposedAction.t) : PlanResponse.t :=
  PlanResponse.mk 1 7 generation PlanStatus.Ok (Some a) None (PlannerMeta.mk "local" "rules").
Definition plan (generation dwell : Z) : ValidatedPlan.t :=
  ValidatedPlan.mk 7 generation false (survey dwell) (PlannerMeta.mk "local" "rules").
Definition sweep (generation dwell : Z) : SweepPlan.t :=
  Runner.survey_plan 20 250 (plan generation dwell) 2400000000 2500000000 16000000 30720000
    20000000 dwell.
End SurveySamples.

(** The conditions of the previous theorems are needed: the policy approves a survey with a
    dwell of two seconds, and one in session 0, and the sweep engine refuses both. *)
Theorem policy_and_sweep_disagree `{Json} :
  (validate_request (SurveySamples.request 3) = Ok tt
   /\ validate_response (SurveySamples.request 3)
        (SurveySamples.response 3 (SurveySamples.survey 2000)) = Ok (SurveySamples.plan 3 2000)
   /\ validate_plan (SurveySamples.sweep 3 2000)
      = Err (SweepError.new "summary_profile"
               "settle, frame, aggregate, timeout, or threshold is outside limits"))
  /\ (validate_request (SurveySamples.request 0) = Ok tt
      /\ validate_response (SurveySamples.request 0)
           (SurveySamples.response 0 (SurveySamples.survey 20)) = Ok (SurveySamples.plan 0 20)
      /\ validate_plan (SurveySamples.sweep 0 20)
         = Err (SweepError.new "session_generation" "session generation must be non-zero")).
Proof. split_and!; vm_compute; reflexivity. Qed.

Lemma sample_wf generation dwell :
  is_u64 generation -> is_u64 dwell ->
  PlanRequest.wf (SurveySamples.request generation)
  /\ PlanResponse.wf (SurveySamples.response generation (SurveySamples.survey dwell)).
Proof.
  intros Hg Hd. destruct PolicySamples.request_wf as (_&_&_&Ho&_).
  unfold PlanRequest.wf, PlanResponse.wf. cbn -[u64_max u16_max ObservationSummary.wf].
  split_and!; auto; unfold SafetyLimits.wf, is_u, u64_max, u16_max in *; cbn; lia.
Qed.

Lemma approved_survey_runs_witness :
  exists v, @validate_plan SdrSamples.json (SurveySamples.sweep 3 20) = Ok v
  /\ length_z v.(ValidatedSweepPlan.centers_hz) = 8.
Proof.
  destruct (sample_wf 3 20 ltac:(unfold is_u, u64_max; lia) ltac:(unfold is_u, u64_max; lia))
    as [Hreq Hresp].
  destruct (@approved_survey_runs SdrSamples.json 20 250 (SurveySamples.request 3)
    (SurveySamples.response 3 (SurveySamples.survey 20)) (SurveySamples.plan 3 20)
    2400000000 2500000000 16000000 30720000 20000000 20 Hreq Hresp) as (n&v&Hv&Hn&Hlen&_).
  - vm_compute. reflexivity.
  - vm_compute. reflexivity.
  - reflexivity.
  - unfold Compatible. cbn. lia.
  - exists v. split; [exact Hv|]. unfold covers in Hn. lia.
Defined.

Lemma approved_inspection_runs_witness :
  let inspection := ProposedAction.InspectCandidate "sweep-1-1" 2437000000 30720000 10000000 20 in
  let plan := ValidatedPlan.mk 7 3 false inspection (PlannerMeta.mk "local" "rules") in
  exists v,
    @validate_plan SdrSamples.json
      (Runner.inspection_plan 20 250 plan 2437000000 30720000 10000000 20) = Ok v
    /\ v.(ValidatedSweepPlan.centers_hz) = [2437000000].
Proof.
  intros inspection plan.
  destruct (sample_wf 3 20 ltac:(unfold is_u, u64_max; lia) ltac:(unfold is_u, u64_max; lia))
    as [Hreq _].
  destruct (@approved_inspection_runs SdrSamples.json 20 250 (SurveySamples.request 3)
    (SurveySamples.response 3 inspection) plan "sweep-1-1" 2437000000 30720000 10000000 20 Hreq)
    as (v&Hv&Hc&_).
  - unfold PlanResponse.wf, is_u, u64_max, u16_max. cbn. unfold is_u, u64_max. lia.
  - vm_compute. reflexivity.
  - vm_compute. reflexivity.
  - reflexivity.
  - unfold Compatible. cbn. lia.
  - eauto.
Defined.
