(* ===== verification/Aggregation.v ===== *)
(** * The spectrum aggregator of the p201pro tools

    [raspberry-pi/p201pro-rust/src/aggregation.rs]: IQ samples enter a ring
    buffer; every [hop_samples] samples the ring is unrolled, windowed and
    transformed, the powers of [frames_per_snapshot] transforms are averaged,
    and the average becomes one [SpectrumSnapshot].

    rustfft, num_complex and the platform's [cos], [log10] and [powf] are not in
    the repository: they are the class [SpectrumMath].  [None] is a panic.  The
    second half proves that the ring, the counters and the buffering across calls
    compute overlapping windows of the sample stream. *)
From S2P Require Import Prelude F32.

(** ** What is imported *)
Class SpectrumMath := {
  Complex : Type;
  complex_new : float -> float -> Complex;
  complex_default : Complex;
  complex_scale : Complex -> float -> Complex;
  norm_sqr : Complex -> float;
  (** [plan_fft_forward(len)] and [process_with_scratch]; the scratch space is
      overwritten by every call. *)
  fft_process : list Complex -> list Complex;
  fft_process_length : forall l, length (fft_process l) = length l;
  cosf : float -> float;
  log10f : float -> float;
  powf : float -> float -> float;
}.

Definition ADC_FULL_SCALE : float := f32_of_Z 2048.
(** The binary32 nearest to 1.0e-20 ([min_power_nearest]). *)
Definition MIN_POWER : float := f32_lit 12379400 90.
(** [std::f32::consts::PI]. *)
Definition PI : float := f32_lit 13176795 22.

(** [v[i]] with an index in range; [aggregator_wf] below keeps them so. *)
Definition get {A} (d : A) (l : list A) (i : Z) : A := default d (l !! Z.to_nat i).

(** [usize] multiplication, which wraps in a release build. *)
Definition mul64 (a b : Z) : Z := (a * b) mod 2 ^ 64.

(** [usize::is_power_of_two]. *)
Definition usize_is_power_of_two (n : Z) : bool := (0 <? n) && (Z.land n (n - 1) =? 0).

(** ** Configuration *)
Module SpectrumConfig.
Record t : Type := mk {
  center_freq_hz : Z;
  sample_rate_hz : Z;
  fft_size : Z;
  overlap_percent : Z;
  frames_per_snapshot : Z;
  coarse_bins : Z;
  threshold_above_noise_db : float;
  merge_gap_bins : Z;
  dc_exclusion_bins : Z;
}.

Definition validate (self : t) : result string unit :=
  reject_if (self.(sample_rate_hz) <=? 0) "sample rate must be positive" ;;
  reject_if ((self.(fft_size) <? 64) || negb (usize_is_power_of_two self.(fft_size)))
    "FFT size must be a power of two and at least 64" ;;
  reject_if (75 <? self.(overlap_percent)) "overlap must be between 0 and 75 percent" ;;
  reject_if (self.(frames_per_snapshot) =? 0) "frames per snapshot must be positive" ;;
  reject_if ((self.(coarse_bins) =? 0) || (self.(fft_size) <? self.(coarse_bins)))
    "coarse bins must be between 1 and FFT size" ;;
  reject_if (negb (is_finite self.(threshold_above_noise_db))
             || f_le self.(threshold_above_noise_db) (f32_of_Z 0))
    "threshold above noise must be a positive finite value" ;;
  reject_if (self.(fft_size)
             <=? saturating_add (saturating_mul self.(dc_exclusion_bins) 2) 1)
    "DC exclusion removes every FFT bin" ;;
  Ok tt.

Definition hop_samples (self : t) : Z :=
  Z.max (mul64 self.(fft_size) (sub64 100 self.(overlap_percent)) / 100) 1.

Definition with_center (self : t) (center : Z) : t :=
  mk center self.(sample_rate_hz) self.(fft_size) self.(overlap_percent)
    self.(frames_per_snapshot) self.(coarse_bins) self.(threshold_above_noise_db)
    self.(merge_gap_bins) self.(dc_exclusion_bins).

(** The widths of the fields. *)
Definition wf (self : t) : Prop :=
  is_u64 self.(fft_size) /\ is_u64 self.(overlap_percent) /\ is_u64 self.(frames_per_snapshot)
  /\ is_u64 self.(coarse_bins) /\ is_u64 self.(merge_gap_bins) /\ is_u64 self.(dc_exclusion_bins).
End SpectrumConfig.

Module CandidateBand.
Record t : Type := mk {
  start_hz : Z;
  stop_hz : Z;
  peak_hz : Z;
  peak_dbfs : float;
  power_dbfs : float;
  bins : Z;
  contains_dc : bool;
}.
End CandidateBand.

Module SpectrumSnapshot.
Record t : Type := mk {
  schema_version : Z;
  sequence : Z;
  backend : string;
  center_freq_hz : Z;
  sample_rate_hz : Z;
  fft_size : Z;
  hop_samples : Z;
  frames_averaged : Z;
  input_samples_seen : Z;
  noise_floor_dbfs : float;
  band_power_dbfs : float;
  coarse_psd_dbfs : list float;
  candidates : list CandidateBand.t;
}.
End SpectrumSnapshot.

Section Spectrum.
Context `{SpectrumMath}.

(** ** Helpers on power spectra *)

(** [iter().sum::<f32>()]; the starting zero has no effect on a sum of powers. *)
Definition f32_sum (l : list float) : float := foldl f32_add (f32_of_Z 0) l.

Definition hann_window (size : Z) : list float :=
  map (fun index =>
         f32_sub (f32_lit 1 1)
           (f32_mul (f32_lit 1 1)
              (cosf (f32_div (f32_mul (f32_mul (f32_of_Z 2) PI) (f32_of_Z index))
                       (f32_of_Z (size - 1))))))
    (seqZ 0 size).

Definition power_to_dbfs (power : float) : float :=
  f32_mul (f32_of_Z 10) (log10f (f_max power MIN_POWER)).

(** [None]: the index into the empty vector panics. *)
Definition median_noise_power (power : list float) (dc_exclusion_bins : Z) : option float :=
  let center := length_z power / 2 in
  let dc_start := saturating_sub center dc_exclusion_bins in
  let dc_stop := Z.min (add64 center dc_exclusion_bins) (length_z power - 1) in
  let bins :=
    sort_floats
      (omap (fun '(index, value) =>
               if in_range dc_start dc_stop (Z.of_nat index) || negb (is_finite value) then None
               else Some (f_max value MIN_POWER))
         (imap pair power)) in
  bins !! (length bins / 2)%nat.

Definition coarse_psd (power : list float) (coarse_bins : Z) : list float :=
  map (fun coarse_bin =>
         let start := mul64 coarse_bin (length_z power) / coarse_bins in
         let stop := Z.max (mul64 (coarse_bin + 1) (length_z power) / coarse_bins) (start + 1) in
         let mean :=
           f32_div
             (f32_sum (take (Z.to_nat (stop - start)) (drop (Z.to_nat start) power)))
             (f32_of_Z (stop - start)) in
         power_to_dbfs mean)
    (seqZ 0 coarse_bins).

(** [f64::round() as i64]: halves away from zero, saturating, 0 for NaN. *)
Definition round_to_i64 (x : float) : Z :=
  let clamp n := Z.max (- 2 ^ 63) (Z.min n (2 ^ 63 - 1)) in
  match x with
  | S754_zero _ | S754_nan => 0
  | S754_infinity true => - 2 ^ 63
  | S754_infinity false => 2 ^ 63 - 1
  | S754_finite s m e =>
      let magnitude :=
        if 0 <=? e then Z.pos m * 2 ^ e else (Z.pos m + 2 ^ (- e - 1)) / 2 ^ (- e) in
      clamp (if s then - magnitude else magnitude)
  end.

Definition bin_edge_hz (shifted_bin : float) (config : SpectrumConfig.t) : Z :=
  let offset_bins :=
    f64_sub shifted_bin
      (f64_div (f64_of_Z config.(SpectrumConfig.fft_size)) (f64_of_Z 2)) in
  round_to_i64
    (f64_add (f64_of_Z config.(SpectrumConfig.center_freq_hz))
       (f64_div (f64_mul offset_bins (f64_of_Z config.(SpectrumConfig.sample_rate_hz)))
          (f64_of_Z config.(SpectrumConfig.fft_size)))).

(** The loop that joins active bins whose gap is at most [merge_gap_bins]. *)
Fixpoint join_bins (active : list nat) (start previous : nat) (merge_gap_bins : Z)
    (ranges : list (nat * nat)) : list (nat * nat) :=
  match active with
  | [] => ranges ++ [(start, previous)]
  | index :: active =>
      if merge_gap_bins <? Z.of_nat (index - previous - 1) then
        join_bins active index index merge_gap_bins (ranges ++ [(start, previous)])
      else join_bins active start index merge_gap_bins ranges
  end.

Definition bin_ranges (power : list float) (threshold_power : float) (merge_gap_bins : Z)
    : list (nat * nat) :=
  match omap (fun '(index, value) => if f_ge value threshold_power then Some index else None)
          (imap pair power) with
  | [] => []
  | first :: rest => join_bins rest first first merge_gap_bins []
  end.

(** [max_by] over [enumerate()]: the later of two equal values wins. *)
Definition peak_of (values : list float) : option (nat * float) :=
  match imap pair values with
  | [] => None
  | first :: rest =>
      Some (foldl (fun best candidate =>
                     match float_cmp best.2 candidate.2 with Gt => best | _ => candidate end)
              first rest)
  end.

Definition half : float := f64_div (f64_of_Z 1) (f64_of_Z 2).

(** [None]: the [expect] on an empty range. *)
Definition band_of (power : list float) (config : SpectrumConfig.t) (range : nat * nat)
    : option CandidateBand.t :=
  let '(start, stop) := range in
  let values := take (stop + 1 - start) (drop start power) in
  '(offset, peak_power) ← peak_of values ;
  let peak_bin := (start + offset)%nat in
  Some {| CandidateBand.start_hz :=
            bin_edge_hz (f64_sub (f64_of_Z (Z.of_nat start)) half) config;
          CandidateBand.stop_hz :=
            bin_edge_hz (f64_add (f64_of_Z (Z.of_nat stop)) half) config;
          CandidateBand.peak_hz := bin_edge_hz (f64_of_Z (Z.of_nat peak_bin)) config;
          CandidateBand.peak_dbfs := power_to_dbfs peak_power;
          CandidateBand.power_dbfs := power_to_dbfs (f32_sum values);
          CandidateBand.bins := Z.of_nat (stop - start + 1);
          CandidateBand.contains_dc :=
            in_range (Z.of_nat start) (Z.of_nat stop) (length_z power / 2) |}.

Definition candidate_bands (power : list float) (threshold_power : float) (merge_gap_bins : Z)
    (config : SpectrumConfig.t) : option (list CandidateBand.t) :=
  mapM (band_of power config) (bin_ranges power threshold_power merge_gap_bins).
End Spectrum.

(** ** The aggregator *)
Module SpectrumAggregator.
Section Aggregator.
Context `{SpectrumMath}.

Record t : Type := mk {
  config : SpectrumConfig.t;
  window : list float;
  normalization : float;
  ring : list Complex;
  write_index : Z;
  filled : Z;
  samples_since_frame : Z;
  fft_input : list Complex;
  accumulated_power : list float;
  accumulated_frames : Z;
  sequence : Z;
  input_samples_seen : Z;
}.

Definition normalization_of (config : SpectrumConfig.t) : float :=
  let window := hann_window config.(SpectrumConfig.fft_size) in
  let window_energy := f32_sum (map (fun weight => f32_mul weight weight) window) in
  f32_div (f32_of_Z 1)
    (f32_mul (f32_mul (f32_mul (f32_of_Z config.(SpectrumConfig.fft_size)) window_energy)
                ADC_FULL_SCALE) ADC_FULL_SCALE).

Definition new (config : SpectrumConfig.t) : result string t :=
  SpectrumConfig.validate config ;;
  let fft_size := Z.to_nat config.(SpectrumConfig.fft_size) in
  Ok {| config := config;
        window := hann_window config.(SpectrumConfig.fft_size);
        normalization := normalization_of config;
        ring := replicate fft_size complex_default;
        write_index := 0;
        filled := 0;
        samples_since_frame := 0;
        fft_input := replicate fft_size complex_default;
        accumulated_power := replicate fft_size (f32_of_Z 0);
        accumulated_frames := 0;
        sequence := 0;
        input_samples_seen := 0 |}.

(** [v.fill(value)]. *)
Definition fill {A} (l : list A) (value : A) : list A := replicate (length l) value.

Definition reset_for_center (self : t) (center_freq_hz : Z) : t :=
  {| config := SpectrumConfig.with_center self.(config) center_freq_hz;
     window := self.(window);
     normalization := self.(normalization);
     ring := fill self.(ring) complex_default;
     write_index := 0;
     filled := 0;
     samples_since_frame := 0;
     fft_input := fill self.(fft_input) complex_default;
     accumulated_power := fill self.(accumulated_power) (f32_of_Z 0);
     accumulated_frames := 0;
     sequence := 0;
     input_samples_seen := 0 |}.

(** [build_snapshot], as a function of the four things it reads. *)
Definition snapshot_of (config : SpectrumConfig.t) (accumulated_power : list float)
    (sequence input_samples_seen : Z) : option SpectrumSnapshot.t :=
  noise_power ← median_noise_power accumulated_power config.(SpectrumConfig.dc_exclusion_bins) ;
  let threshold_power :=
    f32_mul noise_power
      (powf (f32_of_Z 10)
         (f32_div config.(SpectrumConfig.threshold_above_noise_db) (f32_of_Z 10))) in
  candidates ←
    candidate_bands accumulated_power threshold_power
      config.(SpectrumConfig.merge_gap_bins) config ;
  let band_power := f32_sum accumulated_power in
  Some {| SpectrumSnapshot.schema_version := 1;
          SpectrumSnapshot.sequence := sequence;
          SpectrumSnapshot.backend := "cpu_rustfft";
          SpectrumSnapshot.center_freq_hz := config.(SpectrumConfig.center_freq_hz);
          SpectrumSnapshot.sample_rate_hz := config.(SpectrumConfig.sample_rate_hz);
          SpectrumSnapshot.fft_size := config.(SpectrumConfig.fft_size);
          SpectrumSnapshot.hop_samples := SpectrumConfig.hop_samples config;
          SpectrumSnapshot.frames_averaged := config.(SpectrumConfig.frames_per_snapshot);
          SpectrumSnapshot.input_samples_seen := input_samples_seen;
          SpectrumSnapshot.noise_floor_dbfs := power_to_dbfs noise_power;
          SpectrumSnapshot.band_power_dbfs := power_to_dbfs band_power;
          SpectrumSnapshot.coarse_psd_dbfs :=
            coarse_psd accumulated_power config.(SpectrumConfig.coarse_bins);
          SpectrumSnapshot.candidates := candidates |}.

Definition build_snapshot (self : t) : option SpectrumSnapshot.t :=
  snapshot_of self.(config) self.(accumulated_power) self.(sequence) self.(input_samples_seen).

(** The gathering loop: [ring] from the oldest sample on, times the window. *)
Definition gather (self : t) : list Complex :=
  let fft_size := self.(config).(SpectrumConfig.fft_size) in
  map (fun index =>
         let sample := get complex_default self.(ring)
                         ((self.(write_index) + index) mod fft_size) in
         complex_scale sample (get (f32_of_Z 0) self.(window) index))
    (seqZ 0 fft_size).

(** The accumulating loop, which also moves frequency zero to the middle. *)
Definition accumulate (fft_size : Z) (normalization : float) (spectrum : list Complex)
    (accumulated_power : list float) : list float :=
  let half := fft_size / 2 in
  foldl (fun power '(unshifted_bin, value) =>
           let shifted_bin := (Z.of_nat unshifted_bin + half) mod fft_size in
           alter (fun p => f32_add p (f32_mul (norm_sqr value) normalization))
             (Z.to_nat shifted_bin) power)
    accumulated_power (imap pair spectrum).

Definition process_frame (self : t) : option (option SpectrumSnapshot.t * t) :=
  let fft_input := fft_process (gather self) in
  let accumulated_power :=
    accumulate self.(config).(SpectrumConfig.fft_size) self.(normalization) fft_input
      self.(accumulated_power) in
  let accumulated_frames := self.(accumulated_frames) + 1 in
  let with_power power frames sequence :=
    mk self.(config) self.(window) self.(normalization) self.(ring) self.(write_index)
      self.(filled) self.(samples_since_frame) fft_input power frames sequence
      self.(input_samples_seen) in
  if accumulated_frames <? self.(config).(SpectrumConfig.frames_per_snapshot) then
    Some (None, with_power accumulated_power accumulated_frames self.(sequence))
  else
    let scale := f32_div (f32_of_Z 1) (f32_of_Z accumulated_frames) in
    let mean_power := map (fun power => f32_mul power scale) accumulated_power in
    snapshot ← build_snapshot (with_power mean_power accumulated_frames self.(sequence)) ;
    Some (Some snapshot,
          with_power (fill mean_power (f32_of_Z 0)) 0 (add64 self.(sequence) 1)).

(** The body of the loop of [push_iq]. *)
Definition push_sample (self : t) (sample : Z * Z) : option (option SpectrumSnapshot.t * t) :=
  let '(i, q) := sample in
  let fft_size := self.(config).(SpectrumConfig.fft_size) in
  let stored filled samples_since_frame :=
    mk self.(config) self.(window) self.(normalization)
      (<[Z.to_nat self.(write_index) := complex_new (f32_of_Z i) (f32_of_Z q)]> self.(ring))
      ((self.(write_index) + 1) mod fft_size)
      filled samples_since_frame
      self.(fft_input) self.(accumulated_power) self.(accumulated_frames) self.(sequence)
      (add64 self.(input_samples_seen) 1) in
  if self.(filled) <? fft_size then
    let self' := stored (self.(filled) + 1) self.(samples_since_frame) in
    if self'.(filled) =? fft_size then process_frame self' else Some (None, self')
  else
    let samples_since_frame := self.(samples_since_frame) + 1 in
    if SpectrumConfig.hop_samples self.(config) <=? samples_since_frame then
      process_frame (stored self.(filled) 0)
    else Some (None, stored self.(filled) samples_since_frame).

Fixpoint push_iq (self : t) (samples : list (Z * Z)) : option (list SpectrumSnapshot.t * t) :=
  match samples with
  | [] => Some ([], self)
  | sample :: samples =>
      '(snapshot, self) ← push_sample self sample ;
      '(snapshots, self) ← push_iq self samples ;
      Some (option_list snapshot ++ snapshots, self)
  end.
End Aggregator.
End SpectrumAggregator.

(** ** The reference: windows of a stream *)
Section Reference.
Context `{SpectrumMath}.
Context (config : SpectrumConfig.t).

Abbreviation N := (SpectrumConfig.fft_size config).
Abbreviation hop := (SpectrumConfig.hop_samples config).
Abbreviation F := (SpectrumConfig.frames_per_snapshot config).

(** Frames and snapshots complete after [n] samples. *)
Definition frames_after (n : Z) : Z := if n <? N then 0 else (n - N) / hop + 1.
Definition snapshots_after (n : Z) : Z := frames_after n / F.

Definition iq_of (sample : Z * Z) : Complex :=
  complex_new (f32_of_Z sample.1) (f32_of_Z sample.2).

(** Frame [k]: the [N] samples from [k * hop] on, times the Hann window. *)
Definition frame (samples : list (Z * Z)) (k : Z) : list Complex :=
  zip_with complex_scale
    (take (Z.to_nat N) (drop (Z.to_nat (k * hop)) (map iq_of samples)))
    (hann_window N).

(** Frequency zero in the middle. *)
Definition fft_shift {A} (l : list A) : list A :=
  drop (Z.to_nat (N / 2)) l ++ take (Z.to_nat (N / 2)) l.

Definition add_frame (samples : list (Z * Z)) (power : list float) (k : Z) : list float :=
  zip_with (fun p value =>
              f32_add p (f32_mul (norm_sqr value) (SpectrumAggregator.normalization_of config)))
    power (fft_shift (fft_process (frame samples k))).

(** The powers of the [count] frames from [first] on. *)
Definition frames_power (samples : list (Z * Z)) (first count : Z) : list float :=
  foldl (add_frame samples) (replicate (Z.to_nat N) (f32_of_Z 0)) (seqZ first count).

(** Snapshot [j]: the mean of frames [j * F], ..., [(j + 1) * F - 1]. *)
Definition snapshot (samples : list (Z * Z)) (j : Z) : option SpectrumSnapshot.t :=
  SpectrumAggregator.snapshot_of config
    (map (fun power => f32_mul power (f32_div (f32_of_Z 1) (f32_of_Z F)))
       (frames_power samples (j * F) F))
    j (N + ((j + 1) * F - 1) * hop).

Definition snapshots (samples : list (Z * Z)) : option (list SpectrumSnapshot.t) :=
  mapM (snapshot samples) (seqZ 0 (snapshots_after (length_z samples))).
End Reference.

(** Several calls of [push_iq]. *)
Fixpoint push_calls `{SpectrumMath} (self : SpectrumAggregator.t) (calls : list (list (Z * Z)))
    : option (list SpectrumSnapshot.t * SpectrumAggregator.t) :=
  match calls with
  | [] => Some ([], self)
  | samples :: calls =>
      '(first, self) ← SpectrumAggregator.push_iq self samples ;
      '(rest, self) ← push_calls self calls ;
      Some (first ++ rest, self)
  end.

(** The aggregators a program can hold. *)
Inductive Reached `{SpectrumMath} : SpectrumAggregator.t -> Prop :=
| reached_new config self :
    SpectrumConfig.wf config -> SpectrumAggregator.new config = Ok self -> Reached self
| reached_reset self center :
    Reached self -> Reached (SpectrumAggregator.reset_for_center self center)
| reached_push self samples out self' :
    Reached self -> SpectrumAggregator.push_iq self samples = Some (out, self') -> Reached self'.

(** ** Ring buffers *)

(** The ring from its oldest sample on. *)
Definition unroll {A} (l : list A) (w : Z) : list A := drop (Z.to_nat w) l ++ take (Z.to_nat w) l.

Lemma length_unroll {A} (l : list A) w : length (unroll l w) = length l.
Proof. unfold unroll. rewrite length_app, length_drop, length_take. lia. Qed.

Lemma unroll_lookup {A} (l : list A) w i :
  0 <= w < length_z l -> 0 <= i < length_z l ->
  unroll l w !! Z.to_nat i = l !! Z.to_nat ((w + i) mod length_z l).
Proof.
  unfold length_z, unroll. intros Hw Hi. rewrite lookup_app.
  destruct (Z.lt_ge_cases (w + i) (Z.of_nat (length l))) as [Hlt|Hge].
  - rewrite Z.mod_small by lia. rewrite lookup_drop.
    replace (Z.to_nat w + Z.to_nat i)%nat with (Z.to_nat (w + i)) by lia.
    destruct (lookup_lt_is_Some_2 l (Z.to_nat (w + i)) ltac:(lia)) as [x Hx].
    now rewrite Hx.
  - rewrite <- (Z.mod_unique_pos (w + i) (Z.of_nat (length l)) 1 (w + i - Z.of_nat (length l)))
      by lia.
    rewrite lookup_ge_None_2 by (rewrite length_drop; lia).
    rewrite length_drop, lookup_take_lt by lia. f_equal. lia.
Qed.

(** Writing at [w] and moving on drops the oldest sample and appends the new. *)
Lemma unroll_insert {A} (l : list A) w x :
  0 <= w < length_z l ->
  unroll (<[Z.to_nat w := x]> l) ((w + 1) mod length_z l) = drop 1 (unroll l w) ++ [x].
Proof.
  unfold length_z. intros Hw.
  destruct (lookup_lt_is_Some_2 l (Z.to_nat w) ltac:(lia)) as [y Hy].
  apply list_elem_of_split_length in Hy as (a&b&->&Ha).
  assert (w = Z.of_nat (length a)) as -> by lia. clear Ha Hw.
  unfold unroll. rewrite Nat2Z.id, drop_app_length, take_app_length.
  rewrite insert_app_r_alt, Nat.sub_diag by lia. cbn [insert list_insert drop app].
  rewrite length_app. cbn [length]. destruct b as [|z b]; cbn [length].
  - rewrite <- (Z.mod_unique_pos (Z.of_nat (length a) + 1) (Z.of_nat (length a + 1)) 1 0) by lia.
    cbn. now rewrite app_nil_r.
  - rewrite Z.mod_small by lia.
    replace (Z.to_nat (Z.of_nat (length a) + 1)) with (length a + 1)%nat by lia.
    rewrite drop_app_add, take_app_add. cbn. now rewrite <- app_assoc.
Qed.

(** ** The accumulating loop *)

Lemma foldl_alter_run {A B} (f : B -> A -> A) (g : nat -> nat) (spectrum : list B) :
  forall k p q r, length q = length spectrum -> (forall i, i < length spectrum -> g (k + i) = length p + i)%nat ->
  foldl (fun power '(u, v) => alter (f v) (g u) power) (p ++ q ++ r)
    (imap (fun i v => ((k + i)%nat, v)) spectrum)
  = p ++ zip_with (fun a v => f v a) q spectrum ++ r.
Proof.
  induction spectrum as [|v spectrum IH]; intros k p [|a q] r Hl Hg; cbn in Hl |- *;
    try discriminate; [reflexivity|].
  cbn [length] in Hg. rewrite (Hg 0%nat), Nat.add_0_r by lia.
  rewrite alter_app_r_alt by lia. rewrite Nat.sub_diag. cbn [app alter list_alter].
  replace (p ++ f v a :: q ++ r) with ((p ++ [f v a]) ++ q ++ r) by now rewrite <- app_assoc.
  erewrite imap_ext by (intros i x _; cbn; rewrite Nat.add_succ_r; reflexivity).
  etransitivity; [apply (IH (S k) (p ++ [f v a]) q r); [lia|]|now rewrite <- app_assoc].
  intros i Hi. rewrite length_app. specialize (Hg (S i) ltac:(lia)).
  rewrite Nat.add_succ_r in Hg. cbn in *. lia.
Qed.

Lemma zip_with_split {A B C} (f : A -> B -> C) l l1 l2 :
  zip_with f l (l1 ++ l2)
  = zip_with f (take (length l1) l) l1 ++ zip_with f (drop (length l1) l) l2.
Proof. apply zip_with_app_r. Qed.

Lemma length_fft_shift {A} config (l : list A) : length (fft_shift config l) = length l.
Proof. unfold fft_shift. rewrite length_app, length_drop, length_take. lia. Qed.

Section Accumulate.
Context `{SpectrumMath} (c : SpectrumConfig.t) (h : Z).
Hypothesis Heven : c.(SpectrumConfig.fft_size) = 2 * h.
Hypothesis Hpos : 0 < h.

(** The loop adds the shifted spectrum. *)
Lemma accumulate_shift normalization spectrum power :
  length_z spectrum = c.(SpectrumConfig.fft_size) ->
  length_z power = c.(SpectrumConfig.fft_size) ->
  SpectrumAggregator.accumulate c.(SpectrumConfig.fft_size) normalization spectrum power
  = zip_with (fun p value => f32_add p (f32_mul (norm_sqr value) normalization))
      power (fft_shift c spectrum).
Proof.
  unfold length_z, SpectrumAggregator.accumulate, fft_shift. rewrite Heven. intros Hs Hp.
  replace (2 * h / 2) with h by (rewrite Z.mul_comm, Z.div_mul; lia).
  set (f := fun value p => f32_add p (f32_mul (norm_sqr value) normalization)).
  set (g := fun u : nat => Z.to_nat ((Z.of_nat u + h) mod (2 * h))).
  set (m := Z.to_nat h).
  rewrite <- (take_drop m spectrum) at 1. rewrite imap_app, foldl_app.
  rewrite <- (take_drop m power) at 1.
  assert (Ht : length (take m spectrum) = m) by (rewrite length_take; lia).
  assert (Hlow : forall i, (i < m)%nat -> g (0 + i)%nat = (m + i)%nat).
  { intros i Hi. unfold g. rewrite Z.mod_small by lia. lia. }
  assert (Hhigh : forall i, (i < m)%nat -> g (m + i)%nat = i).
  { intros i Hi. unfold g.
    rewrite <- (Z.mod_unique_pos (Z.of_nat (m + i) + h) (2 * h) 1 (Z.of_nat i)) by lia. lia. }
  assert (length (take m power) = m /\ length (drop m power) = m
                /\ length (drop m spectrum) = m) as (Hp1&Hp2&Hs2)
    by (rewrite length_take, !length_drop; lia).
  etransitivity.
  - refine (f_equal (fun acc => foldl _ acc _) _).
    pose proof (foldl_alter_run f g (take m spectrum) 0 (take m power) (drop m power) []) as H1.
    rewrite !app_nil_r in H1. apply H1; [congruence|].
    intros i Hi. rewrite Hp1. apply Hlow. lia.
  - rewrite zip_with_split, Hs2, (imap_ext _ (fun i v => ((m + i)%nat, v)))
      by (intros i x _; cbn; now rewrite Ht).
    apply (foldl_alter_run f g (drop m spectrum) m [] (take m power)); [congruence|].
    intros i Hi. apply Hhigh. now rewrite Hs2 in Hi.
Qed.
End Accumulate.

(** ** Valid configurations *)

Record ConfigOk (c : SpectrumConfig.t) : Prop := {
  co_rate : 0 < c.(SpectrumConfig.sample_rate_hz);
  co_size : exists h, c.(SpectrumConfig.fft_size) = 2 * h /\ 32 <= h;
  co_overlap : c.(SpectrumConfig.overlap_percent) <= 75;
  co_frames : 0 < c.(SpectrumConfig.frames_per_snapshot);
  co_coarse : 0 < c.(SpectrumConfig.coarse_bins) <= c.(SpectrumConfig.fft_size);
}.

Lemma power_of_two_even n : usize_is_power_of_two n = true -> 2 <= n -> n mod 2 = 0.
Proof.
  unfold usize_is_power_of_two. intros [_ Hl%Z.eqb_eq]%andb_true_iff Hn.
  rewrite <- Z.bit0_mod. destruct (Z.testbit n 0) eqn:E; [|reflexivity].
  exfalso. rewrite Z.bit0_odd in E. apply Z.odd_spec in E as [k ->].
  replace (2 * k + 1 - 1) with (2 * k) in Hl by lia.
  pose proof (f_equal (fun x => Z.div2 x) Hl) as Hd. cbn beta in Hd.
  rewrite !Z.div2_spec, Z.shiftr_land, <- !Z.div2_spec in Hd.
  replace (Z.div2 (2 * k + 1)) with k in Hd
    by (rewrite Z.div2_div; lia_div).
  replace (Z.div2 (2 * k)) with k in Hd
    by (rewrite Z.div2_div; lia_div).
  rewrite Z.land_diag in Hd. cbn in Hd. lia.
Qed.

Lemma validate_config_ok c :
  SpectrumConfig.wf c -> SpectrumConfig.validate c = Ok tt -> ConfigOk c.
Proof.
  unfold SpectrumConfig.wf, is_u. intros (?&?&?&?&?&?). unfold SpectrumConfig.validate. guards.
  intros (?&[Hs Hp]&?&?&[]&_). split; try lia.
  apply power_of_two_even in Hp; [|lia]. exists (c.(SpectrumConfig.fft_size) / 2). lia_div.
Qed.

Lemma hop_pos c : 1 <= SpectrumConfig.hop_samples c.
Proof. unfold SpectrumConfig.hop_samples. lia. Qed.

(** ** The state after a stream *)
Section Stream.
Context `{SpectrumMath} (c : SpectrumConfig.t).
Hypothesis Hc : ConfigOk c.

Abbreviation N := (SpectrumConfig.fft_size c).
Abbreviation hop := (SpectrumConfig.hop_samples c).
Abbreviation F := (SpectrumConfig.frames_per_snapshot c).

(** What never changes while samples are pushed. *)
Record Shape (s : SpectrumAggregator.t) : Prop := {
  sh_config : s.(SpectrumAggregator.config) = c;
  sh_window : s.(SpectrumAggregator.window) = hann_window N;
  sh_norm : s.(SpectrumAggregator.normalization) = SpectrumAggregator.normalization_of c;
  sh_ring : length_z s.(SpectrumAggregator.ring) = N;
  sh_input : length_z s.(SpectrumAggregator.fft_input) = N;
  sh_power : length_z s.(SpectrumAggregator.accumulated_power) = N;
}.

(** [s] holds the end of the stream [xs] and has taken [f] frames from it. *)
Record Stream (xs : list (Z * Z)) (f : Z) (s : SpectrumAggregator.t) : Prop := {
  st_shape : Shape s;
  st_index : s.(SpectrumAggregator.write_index) = length_z xs mod N;
  st_ring : unroll s.(SpectrumAggregator.ring) s.(SpectrumAggregator.write_index)
            = drop (length xs) (replicate (Z.to_nat N) complex_default ++ map iq_of xs);
  st_frames : s.(SpectrumAggregator.accumulated_frames) = f mod F;
  st_power : s.(SpectrumAggregator.accumulated_power)
             = frames_power c xs (f / F * F) (f mod F);
  st_sequence : s.(SpectrumAggregator.sequence) = f / F;
  st_seen : s.(SpectrumAggregator.input_samples_seen) = length_z xs;
}.

(** The position of the frame counter within a hop. *)
Definition Position (n : Z) (s : SpectrumAggregator.t) : Prop :=
  s.(SpectrumAggregator.filled) = Z.min n N
  /\ s.(SpectrumAggregator.samples_since_frame) = (if n <? N then 0 else (n - N) mod hop).

Lemma size_pos : 64 <= N.
Proof. destruct (co_size c Hc) as (h&->&?). lia. Qed.

Lemma length_hann : length (hann_window N) = Z.to_nat N.
Proof. unfold hann_window. rewrite length_map, length_seqZ. reflexivity. Qed.

Lemma length_frame xs k :
  (k * hop + N <= length_z xs) -> 0 <= k -> length_z (frame c xs k) = N.
Proof.
  intros Hk H0. pose proof size_pos. pose proof (hop_pos c). unfold length_z in *.
  unfold frame. rewrite length_zip_with, length_hann, length_take, length_drop, length_map. nia.
Qed.

Lemma length_add_frame xs power k :
  (k * hop + N <= length_z xs) -> 0 <= k -> length_z power = N ->
  length_z (add_frame c xs power k) = N.
Proof.
  intros Hk H0 Hp. pose proof (length_frame xs k Hk H0) as Hl. unfold length_z in *.
  unfold add_frame. rewrite length_zip_with, length_fft_shift, fft_process_length. lia.
Qed.

(** Frames within the stream do not see what is appended to it. *)
Lemma frame_app xs ys k :
  (k * hop + N <= length_z xs) -> 0 <= k -> frame c (xs ++ ys) k = frame c xs k.
Proof.
  intros Hk H0. pose proof size_pos. pose proof (hop_pos c). unfold length_z in *. unfold frame.
  rewrite map_app, drop_app_le, take_app_le; [reflexivity|..];
    rewrite ?length_drop, length_map; nia.
Qed.

Lemma frames_power_app xs ys first count :
  0 <= first -> ((first + count - 1) * hop + N <= length_z xs \/ count <= 0) ->
  frames_power c (xs ++ ys) first count = frames_power c xs first count.
Proof.
  intros H0 Hk. pose proof (hop_pos c). unfold frames_power.
  assert (Hin : forall k, k ∈ seqZ first count -> frame c (xs ++ ys) k = frame c xs k).
  { intros k [? ?]%elem_of_seqZ. apply frame_app; nia. }
  revert Hin. generalize (seqZ first count). generalize (replicate (Z.to_nat N) (f32_of_Z 0)).
  intros p l. revert p. induction l as [|k l IH]; intros p Hin; cbn; [reflexivity|].
  unfold add_frame at 2 4. rewrite Hin by left. apply IH. intros k' Hk'. apply Hin. now right.
Qed.

(** Counting frames, one sample at a time. *)
Lemma frames_after_step n :
  0 <= n ->
  frames_after c (n + 1)
  = if (N <=? n + 1) && ((n + 1 - N) mod hop =? 0) then frames_after c n + 1
    else frames_after c n.
Proof.
  intros Hn. pose proof (hop_pos c). pose proof size_pos. unfold frames_after.
  destruct (Z.leb_spec N (n + 1)), (Z.ltb_spec (n + 1) N), (Z.ltb_spec n N); cbn [andb]; try lia.
  - replace (n + 1 - N) with 0 by lia. rewrite Z.mod_0_l, Z.div_0_l by lia. reflexivity.
  - replace (n + 1 - N) with ((n - N) + 1) by lia.
    destruct (Z.eqb_spec ((n - N + 1) mod hop) 0) as [E|E].
    + apply Z.mod_divide in E as [q Hq]; [|lia].
      assert (Hd : (n - N) / hop = q - 1) by (symmetry; apply Z.div_unique_pos with (hop - 1); lia).
      rewrite Hd, Hq, Z.div_mul by lia. lia.
    + pose proof (Z.div_mod (n - N + 1) hop ltac:(lia)) as Hd.
      pose proof (Z.mod_pos_bound (n - N + 1) hop ltac:(lia)).
      rewrite (Z.div_unique_pos (n - N) hop ((n - N + 1) / hop) ((n - N + 1) mod hop - 1)); lia.
Qed.

(** Frame [frames_after n] starts where the samples up to [n] end. *)
Lemma frames_after_start n :
  N <= n -> (n - N) mod hop = 0 -> (frames_after c n - 1) * hop = n - N.
Proof.
  intros Hn Hm. pose proof (hop_pos c). unfold frames_after.
  destruct (Z.ltb_spec n N); [lia|]. pose proof (Z.div_mod (n - N) hop). lia.
Qed.

Lemma frames_after_nonneg n : 0 <= frames_after c n.
Proof.
  pose proof (hop_pos c). unfold frames_after. destruct (Z.ltb_spec n N); [lia|].
  pose proof (Z.div_pos (n - N) hop). lia.
Qed.

Lemma index_bounds xs f s :
  Stream xs f s -> 0 <= s.(SpectrumAggregator.write_index) < N.
Proof. intros Hs. pose proof size_pos. rewrite (st_index xs f s Hs). apply Z.mod_pos_bound. lia. Qed.

Lemma gather_frame xs f s :
  Stream xs f s -> N <= length_z xs -> f * hop = length_z xs - N -> 0 <= f ->
  SpectrumAggregator.gather s = frame c xs f.
Proof.
  intros Hs Hn Hf H0. pose proof (index_bounds xs f s Hs) as Hb.
  destruct Hs as [[Hcf Hw _ Hr _ _] _ Hu _ _ _ _]. pose proof size_pos.
  unfold SpectrumAggregator.gather, frame. rewrite Hcf, Hw, Hf. unfold length_z in Hn.
  rewrite drop_app_ge in Hu by (rewrite length_replicate; lia). rewrite length_replicate in Hu.
  replace (Z.to_nat (length_z xs - N)) with (length xs - Z.to_nat N)%nat by (unfold length_z; lia).
  assert (Hl : length (unroll (SpectrumAggregator.ring s) (SpectrumAggregator.write_index s))
               = Z.to_nat N) by (rewrite length_unroll; unfold length_z in Hr; lia).
  rewrite <- Hu, take_ge by lia.
  apply list_eq. intros i. rewrite list_lookup_fmap, lookup_zip_with.
  destruct (decide (i < Z.to_nat N)%nat) as [Hlt|Hge].
  - rewrite lookup_seqZ_lt by lia. cbn. unfold get. rewrite <- Hr at 1.
    rewrite Z.add_0_l, <- unroll_lookup, Nat2Z.id by lia.
    destruct (lookup_lt_is_Some_2 _ i (eq_ind_r (fun m => (i < m)%nat) Hlt Hl)) as [x ->].
    destruct (lookup_lt_is_Some_2 (hann_window N) i) as [y ->]; [rewrite length_hann; lia|].
    reflexivity.
  - rewrite lookup_seqZ_ge, (lookup_ge_None_2 (unroll _ _)) by lia. reflexivity.
Qed.

(** Taking frame [f]. *)
Lemma frames_power_snoc xs first count :
  0 <= count -> frames_power c xs first (count + 1)
  = add_frame c xs (frames_power c xs first count) (first + count).
Proof.
  intros Hcount. unfold frames_power. rewrite seqZ_app by lia. rewrite foldl_app. reflexivity.
Qed.

Lemma add_frame_process xs f s :
  Stream xs f s -> N <= length_z xs -> f * hop = length_z xs - N -> 0 <= f ->
  SpectrumAggregator.accumulate s.(SpectrumAggregator.config).(SpectrumConfig.fft_size)
    s.(SpectrumAggregator.normalization) (fft_process (SpectrumAggregator.gather s))
    s.(SpectrumAggregator.accumulated_power)
  = frames_power c xs (f / F * F) (f mod F + 1).
Proof.
  intros Hs Hn Hf H0. rewrite (gather_frame xs f s Hs Hn Hf H0).
  destruct Hs as [[Hcf _ Hnorm _ _ Hp] _ _ _ Hpow _ _].
  pose proof (co_frames c Hc). pose proof (Z.mod_pos_bound f F ltac:(lia)).
  rewrite frames_power_snoc by lia. rewrite Hcf, Hnorm. unfold add_frame.
  replace (f / F * F + f mod F) with f by (pose proof (Z.div_mod f F); lia).
  rewrite <- Hpow. destruct (co_size c Hc) as (h&Hh&?).
  apply accumulate_shift with (h := h); [exact Hh|lia| |exact Hp].
  unfold length_z. rewrite fft_process_length. apply length_frame; lia.
Qed.

Lemma div_mod_succ f : 0 <= f ->
  (f mod F + 1 < F -> (f + 1) / F = f / F /\ (f + 1) mod F = f mod F + 1)
  /\ (F <= f mod F + 1 -> (f + 1) / F = f / F + 1 /\ (f + 1) mod F = 0 /\ f mod F + 1 = F).
Proof.
  intros H0. pose proof (co_frames c Hc) as HF. pose proof (Z.mod_pos_bound f F ltac:(lia)).
  pose proof (Z.div_mod f F ltac:(lia)) as Hd. split; intros Hlt.
  - split; [symmetry; apply Z.div_unique_pos with (f mod F + 1)
           |symmetry; apply Z.mod_unique_pos with (f / F)]; lia.
  - split; [symmetry; apply Z.div_unique_pos with 0
           |split; [symmetry; apply Z.mod_unique_pos with (f / F + 1)|]]; lia.
Qed.

Lemma frames_after_le n : 0 <= n -> frames_after c n <= n.
Proof.
  intros Hn. pose proof (hop_pos c). pose proof size_pos. unfold frames_after.
  destruct (Z.ltb_spec n N); [lia|]. pose proof (Z.div_le_upper_bound (n - N) hop (n - N)). nia.
Qed.

Lemma process_frame_stream xs f s :
  Stream xs f s -> N <= length_z xs -> f * hop = length_z xs - N -> 0 <= f ->
  length_z xs <= u64_max ->
  exists s',
    Stream xs (f + 1) s'
    /\ s'.(SpectrumAggregator.filled) = s.(SpectrumAggregator.filled)
    /\ s'.(SpectrumAggregator.samples_since_frame) = s.(SpectrumAggregator.samples_since_frame)
    /\ SpectrumAggregator.process_frame s
       = if (f + 1) mod F =? 0
         then snapshot ← snapshot c xs (f / F) ; Some (Some snapshot, s')
         else Some (None, s').
Proof.
  intros Hs Hn Hf H0 Hmax. pose proof (add_frame_process xs f s Hs Hn Hf H0) as Hadd.
  pose proof (co_frames c Hc) as HF. pose proof (Z.mod_pos_bound f F ltac:(lia)) as Hm.
  assert (Hgl : length_z (fft_process (SpectrumAggregator.gather s)) = N).
  { unfold length_z. rewrite fft_process_length, (gather_frame xs f s Hs Hn Hf H0).
    apply length_frame; lia. }
  assert (Hpl : length_z (frames_power c xs (f / F * F) (f mod F + 1)) = N).
  { pose proof (Z.div_mod f F ltac:(lia)).
    rewrite frames_power_snoc by lia. apply length_add_frame; [lia|lia|].
    rewrite <- (st_power xs f s Hs). apply (sh_power s), (st_shape xs f s Hs). }
  destruct Hs as [[Hcf Hw Hnorm Hr Hin Hp] Hi Hu Hfr Hpow Hseq Hseen].
  unfold SpectrumAggregator.process_frame. rewrite Hadd, Hcf, Hfr.
  destruct (div_mod_succ f H0) as [Hlow Hhigh].
  destruct (Z.ltb_spec (f mod F + 1) F) as [Hlt|Hge].
  - destruct (Hlow Hlt) as [Hd Hmod]. rewrite Hmod.
    rewrite (proj2 (Z.eqb_neq _ _)) by lia. eexists. split; [|now split_and!; [..|reflexivity]].
    split; [split; first [reflexivity|assumption]|..]; cbn; congruence.
  - destruct (Hhigh Hge) as (Hd&Hmod&HeF). rewrite Hmod, Z.eqb_refl, HeF.
    eexists (SpectrumAggregator.mk c _ _ _ _ _ _ _ _ _ _ _). split; [|split_and!].
    4: { unfold SpectrumAggregator.build_snapshot, snapshot. cbn.
         rewrite Hseq, Hseen. replace (N + ((f / F + 1) * F - 1) * hop) with (length_z xs).
         - destruct (SpectrumAggregator.snapshot_of _ _ _ _); reflexivity.
         - rewrite <- Hseen. pose proof (Z.div_mod f F ltac:(lia)) as Hdm.
           replace ((f / F + 1) * F - 1) with f by lia. lia. }
    all: cbn; try reflexivity. rewrite HeF in Hpl.
    assert (Hz : SpectrumAggregator.fill
                   (map (fun power => f32_mul power (f32_div (f32_of_Z 1) (f32_of_Z F)))
                      (frames_power c xs (f / F * F) F)) (f32_of_Z 0)
                 = replicate (Z.to_nat N) (f32_of_Z 0)).
    { unfold SpectrumAggregator.fill. rewrite length_map, <- Hpl. unfold length_z.
      now rewrite Nat2Z.id. }
    pose proof size_pos. pose proof (hop_pos c).
    pose proof (Z.div_le_upper_bound f F f ltac:(lia) ltac:(nia)).
    split; [split; first [reflexivity|assumption|idtac]|..]; cbn; try congruence.
    + unfold length_z. etransitivity; [exact (f_equal (fun l => Z.of_nat (length l)) Hz)|].
      rewrite length_replicate. lia.
    + rewrite Hmod. exact Hz.
    + rewrite Hd. unfold add64. rewrite Z.mod_small; [reflexivity|].
      pose proof (Z.div_pos f F). unfold u64_max in Hmax. nia.
Qed.

(** Storing one sample. *)
Lemma stream_store xs f s x filled samples_since_frame :
  Stream xs f s -> length_z xs + 1 <= u64_max ->
  (f = 0 \/ (f - 1) * hop + N <= length_z xs) -> 0 <= f ->
  Stream (xs ++ [x]) f
    (SpectrumAggregator.mk c s.(SpectrumAggregator.window)
       s.(SpectrumAggregator.normalization)
       (<[Z.to_nat s.(SpectrumAggregator.write_index) := iq_of x]> s.(SpectrumAggregator.ring))
       ((s.(SpectrumAggregator.write_index) + 1) mod N) filled samples_since_frame
       s.(SpectrumAggregator.fft_input) s.(SpectrumAggregator.accumulated_power)
       s.(SpectrumAggregator.accumulated_frames) s.(SpectrumAggregator.sequence)
       (add64 s.(SpectrumAggregator.input_samples_seen) 1)).
Proof.
  intros Hs Hmax Hf H0. pose proof (index_bounds xs f s Hs) as Hb. pose proof size_pos.
  destruct Hs as [[Hcf Hw Hnorm Hr Hin Hp] Hi Hu Hfr Hpow Hseq Hseen].
  assert (Hl : length_z (xs ++ [x]) = length_z xs + 1)
    by (unfold length_z; rewrite length_app; cbn; lia).
  split; [split|..]; cbn; try assumption; [reflexivity|..].
  - rewrite <- Hr. unfold length_z. now rewrite length_insert.
  - rewrite Hi, Hl. apply Z.add_mod_idemp_l. lia.
  - rewrite <- Hr at 1. rewrite unroll_insert by lia. rewrite Hu, drop_drop, length_app, map_app.
    cbn [length map]. rewrite (app_assoc (replicate _ _)).
    rewrite (drop_app_le _ [iq_of x]) by
      (rewrite length_app, length_replicate, length_map; lia).
    reflexivity.
  - rewrite Hpow. pose proof (co_frames c Hc). pose proof (Z.div_mod f F).
    pose proof (Z.mod_pos_bound f F). pose proof (Z.div_pos f F). symmetry.
    apply frames_power_app; [lia|].
    destruct Hf as [->|Hf]; [right; rewrite Z.mod_0_l by lia; lia|left].
    replace (f / F * F + f mod F - 1) with (f - 1) by lia. exact Hf.
  - rewrite Hseen, Hl. unfold add64. apply Z.mod_small. unfold length_z, u64_max in *. lia.
Qed.

(** The frames taken so far lie within the stream. *)
Lemma frames_after_fit n :
  frames_after c n = 0 \/ (frames_after c n - 1) * hop + N <= n.
Proof.
  pose proof (hop_pos c). unfold frames_after. destruct (Z.ltb_spec n N); [now left|right].
  pose proof (Z.div_mod (n - N) hop ltac:(lia)). pose proof (Z.mod_pos_bound (n - N) hop).
  replace ((n - N) / hop + 1 - 1) with ((n - N) / hop) by lia. lia.
Qed.

Lemma snapshots_after_step n :
  0 <= n ->
  snapshots_after c (n + 1)
  = if (N <=? n + 1) && ((n + 1 - N) mod hop =? 0) && ((frames_after c n + 1) mod F =? 0)
    then snapshots_after c n + 1 else snapshots_after c n.
Proof.
  intros Hn. unfold snapshots_after. rewrite frames_after_step by exact Hn.
  destruct (_ && _); cbn [andb]; [|reflexivity].
  destruct (div_mod_succ (frames_after c n) (frames_after_nonneg n)) as [Hlow Hhigh].
  destruct (Z.lt_ge_cases (frames_after c n mod F + 1) F) as [Hlt|Hge].
  - destruct (Hlow Hlt) as [-> ->].
    pose proof (Z.mod_pos_bound (frames_after c n) F). pose proof (co_frames c Hc).
    rewrite (proj2 (Z.eqb_neq _ _)) by lia. reflexivity.
  - destruct (Hhigh Hge) as (->&->&_). reflexivity.
Qed.

(** The frame counter says when a hop is complete. *)
Lemma position_step n s :
  Position n s -> 0 <= n ->
  if s.(SpectrumAggregator.filled) <? N
  then s.(SpectrumAggregator.filled) = n /\ n + 1 <= N
       /\ s.(SpectrumAggregator.samples_since_frame) = 0
  else s.(SpectrumAggregator.filled) = N /\ N <= n
       /\ (hop <=? s.(SpectrumAggregator.samples_since_frame) + 1)
          = ((n + 1 - N) mod hop =? 0)
       /\ ((n + 1 - N) mod hop <> 0 ->
           (n + 1 - N) mod hop = s.(SpectrumAggregator.samples_since_frame) + 1).
Proof.
  intros [Hf Hp] Hn. pose proof (hop_pos c). pose proof size_pos. rewrite Hf, Hp.
  destruct (Z.ltb_spec (Z.min n N) N), (Z.ltb_spec n N);
    [split_and!; lia|exfalso; lia|exfalso; lia|].
  split_and!; try lia; replace (n + 1 - N) with (n - N + 1) by lia;
    pose proof (Z.mod_pos_bound (n - N) hop); pose proof (Z.div_mod (n - N) hop).
  - destruct (Z.leb_spec hop ((n - N) mod hop + 1)); symmetry.
    + apply Z.eqb_eq. symmetry. apply Z.mod_unique_pos with ((n - N) / hop + 1); lia.
    + apply Z.eqb_neq. rewrite <- (Z.mod_unique_pos _ hop ((n - N) / hop) ((n - N) mod hop + 1)); lia.
  - intros Hne. destruct (Z.lt_ge_cases ((n - N) mod hop + 1) hop).
    + symmetry. apply Z.mod_unique_pos with ((n - N) / hop); lia.
    + exfalso. apply Hne. symmetry. apply Z.mod_unique_pos with ((n - N) / hop + 1); lia.
Qed.

(** Snapshot [j] as soon as its last frame is complete. *)
Lemma snapshot_app xs ys j :
  0 <= j < snapshots_after c (length_z xs) -> snapshot c (xs ++ ys) j = snapshot c xs j.
Proof.
  intros Hj. unfold snapshot. rewrite frames_power_app; [reflexivity|..].
  - pose proof (co_frames c Hc). nia.
  - left. pose proof (frames_after_fit (length_z xs)) as Hfit. pose proof (hop_pos c).
    pose proof (co_frames c Hc). unfold snapshots_after in Hj.
    pose proof (Z.div_mod (frames_after c (length_z xs)) F ltac:(lia)).
    pose proof (Z.mod_pos_bound (frames_after c (length_z xs)) F ltac:(lia)).
    assert (j * F + F <= frames_after c (length_z xs)) by nia.
    destruct Hfit as [Hz|Hfit]; [nia|]. nia.
Qed.

(** What one more sample does, given what it did to the frames. *)
Definition Pushed (xs : list (Z * Z)) (outcome : option (option SpectrumSnapshot.t
    * SpectrumAggregator.t)) : Prop :=
  let n := length_z xs - 1 in
  exists s',
    Stream xs (frames_after c (n + 1)) s' /\ Position (n + 1) s'
    /\ outcome
       = if snapshots_after c (n + 1) =? snapshots_after c n then Some (None, s')
         else snapshot ← snapshot c xs (snapshots_after c n) ; Some (Some snapshot, s').

Lemma pushed_frame xs st :
  let n := length_z xs - 1 in
  0 <= n -> n + 1 <= u64_max -> N <= n + 1 -> (n + 1 - N) mod hop = 0 ->
  Stream xs (frames_after c n) st ->
  st.(SpectrumAggregator.filled) = N -> st.(SpectrumAggregator.samples_since_frame) = 0 ->
  Pushed xs (SpectrumAggregator.process_frame st).
Proof.
  intros n Hn Hmax HN Hmod Hst Hfl Hss. unfold Pushed. fold n.
  pose proof (snapshots_after_step n Hn) as Hsn. pose proof (frames_after_step n Hn) as Hfn.
  rewrite (proj2 (Z.leb_le _ _) HN), (proj2 (Z.eqb_eq _ _) Hmod) in Hsn, Hfn.
  cbn [andb] in Hsn, Hfn. pose proof (frames_after_start (n + 1) HN Hmod) as Hstart.
  assert (Hl : length_z xs = n + 1) by (unfold n; lia).
  destruct (process_frame_stream xs (frames_after c n) st Hst) as (s'&Hs'&Hf'&Hss'&He);
    [lia|rewrite Hl, <- Hstart, Hfn; f_equal; lia|apply frames_after_nonneg|lia|].
  exists s'. rewrite Hfn. split; [exact Hs'|]. split.
  - split; [rewrite Hf', Hfl; lia|]. rewrite Hss', Hss.
    destruct (Z.ltb_spec (n + 1) N); [reflexivity|now rewrite Hmod].
  - rewrite He, Hsn. fold (snapshots_after c n).
    destruct (_ =? 0); [rewrite (proj2 (Z.eqb_neq _ _)) by lia; reflexivity|].
    now rewrite Z.eqb_refl.
Qed.

Lemma pushed_quiet xs st :
  let n := length_z xs - 1 in
  0 <= n -> n + 1 < N \/ (n + 1 - N) mod hop <> 0 ->
  Stream xs (frames_after c n) st -> Position (n + 1) st -> Pushed xs (Some (None, st)).
Proof.
  intros n Hn Hno Hst Hpst. exists st. fold n.
  pose proof (snapshots_after_step n Hn) as Hsn. pose proof (frames_after_step n Hn) as Hfn.
  replace ((N <=? n + 1) && ((n + 1 - N) mod hop =? 0)) with false in Hsn, Hfn
    by (symmetry; apply andb_false_iff; rewrite Z.leb_gt, Z.eqb_neq; tauto).
  cbn [andb] in Hsn, Hfn. rewrite Hfn, Hsn, Z.eqb_refl. auto.
Qed.

(** One sample: a frame at the end of every hop, a snapshot every [F] frames. *)
Lemma push_sample_stream xs s x :
  Stream xs (frames_after c (length_z xs)) s -> Position (length_z xs) s ->
  length_z xs + 1 <= u64_max -> Pushed (xs ++ [x]) (SpectrumAggregator.push_sample s x).
Proof.
  intros Hs Hp Hmax. pose proof (length_z_nonneg xs) as Hn.
  assert (Hl : length_z (xs ++ [x]) - 1 = length_z xs)
    by (unfold length_z; rewrite length_app; cbn; lia).
  pose proof (position_step _ s Hp Hn) as Hpos. pose proof (hop_pos c). pose proof size_pos.
  assert (Hstore : forall fl ssf, _) by (intros fl ssf; exact
    (stream_store xs _ s x fl ssf Hs Hmax (frames_after_fit _) (frames_after_nonneg _))).
  destruct x as [i q]. unfold SpectrumAggregator.push_sample.
  rewrite (sh_config s (st_shape _ _ _ Hs)). destruct (_ <? N) eqn:Efill.
  - destruct Hpos as (Hf&Hle&Hss). cbn [SpectrumAggregator.filled].
    destruct (Z.eqb_spec (SpectrumAggregator.filled s + 1) N) as [E|E].
    + apply pushed_frame; rewrite ?Hl; cbn; try lia; [|apply (Hstore _ _)].
      replace (length_z xs + 1 - N) with 0 by lia. apply Z.mod_0_l. lia.
    + apply pushed_quiet; rewrite ?Hl; [lia|lia|apply (Hstore _ _)|]. split; cbn; [lia|].
      rewrite (proj2 (Z.ltb_lt _ _)) by lia. exact Hss.
  - destruct Hpos as (Hf&Hle&Hhop&Hss). rewrite Hhop.
    destruct (Z.eqb_spec ((length_z xs + 1 - N) mod hop) 0) as [E|E].
    + apply pushed_frame; rewrite ?Hl; cbn; try lia. apply (Hstore _ _).
    + apply pushed_quiet; rewrite ?Hl; [lia|now right|apply (Hstore _ _)|]. split; cbn; [lia|].
      rewrite (proj2 (Z.ltb_ge _ _)) by lia. symmetry. now apply Hss.
Qed.

Lemma snapshots_after_mono a b : a <= b -> snapshots_after c a <= snapshots_after c b.
Proof.
  intros Hab. pose proof (hop_pos c). pose proof (co_frames c Hc). unfold snapshots_after.
  apply Z.div_le_mono; [lia|]. unfold frames_after.
  destruct (Z.ltb_spec a N), (Z.ltb_spec b N); try lia.
  - pose proof (Z.div_pos (b - N) hop). lia.
  - pose proof (Z.div_le_mono (a - N) (b - N) hop). lia.
Qed.

(** Any number of samples. *)
Lemma push_iq_stream ys : forall xs s,
  Stream xs (frames_after c (length_z xs)) s -> Position (length_z xs) s ->
  length_z (xs ++ ys) <= u64_max ->
  exists s',
    Stream (xs ++ ys) (frames_after c (length_z (xs ++ ys))) s'
    /\ Position (length_z (xs ++ ys)) s'
    /\ SpectrumAggregator.push_iq s ys
       = out ← mapM (snapshot c (xs ++ ys))
                 (seqZ (snapshots_after c (length_z xs))
                    (snapshots_after c (length_z (xs ++ ys)) - snapshots_after c (length_z xs))) ;
         Some (out, s').
Proof.
  induction ys as [|y ys IH]; intros xs s Hs Hp Hmax.
  - exists s. rewrite app_nil_r. split; [exact Hs|]. split; [exact Hp|].
    now rewrite Z.sub_diag.
  - assert (Hl : length_z (xs ++ [y]) - 1 = length_z xs)
      by (unfold length_z; rewrite length_app; cbn; lia).
    destruct (push_sample_stream xs s y Hs Hp) as (s1&Hs1&Hp1&He1).
    { unfold length_z in *. rewrite length_app in Hmax. cbn in Hmax. lia. }
    rewrite Hl in *. replace (length_z xs + 1) with (length_z (xs ++ [y])) in * by lia.
    destruct (IH (xs ++ [y]) s1 Hs1 Hp1) as (s'&Hs'&Hp'&He'); rewrite <- app_assoc in *; [exact Hmax|].
    cbn [app] in *. exists s'. split; [exact Hs'|]. split; [exact Hp'|].
    cbn [SpectrumAggregator.push_iq]. rewrite He1. clear He1.
    set (a := snapshots_after c (length_z xs)) in *.
    set (b := snapshots_after c (length_z (xs ++ [y]))) in *.
    set (t := snapshots_after c (length_z (xs ++ y :: ys))) in *.
    destruct (Z.eqb_spec b a) as [E|E].
    { rewrite E in He'. cbn. rewrite He'. now destruct (mapM _ _). }
    assert (Hb : b = a + 1).
    { pose proof (snapshots_after_step (length_z xs) (length_z_nonneg xs)) as Hstep.
      replace (length_z xs + 1) with (length_z (xs ++ [y])) in Hstep by lia. fold a b in Hstep.
      destruct (_ && _); [exact Hstep|congruence]. }
    assert (Ht : b <= t).
    { apply snapshots_after_mono. unfold length_z. rewrite !length_app. cbn. lia. }
    assert (H0 : 0 <= a).
    { pose proof (co_frames c Hc). apply Z.div_pos; [apply frames_after_nonneg|lia]. }
    rewrite (seqZ_cons a) by lia. replace (Z.succ a) with b by lia.
    replace (Z.pred (t - a)) with (t - b) by lia. cbn [mapM].
    replace (snapshot c (xs ++ y :: ys) a) with (snapshot c (xs ++ [y]) a).
    2: { rewrite <- (snapshot_app (xs ++ [y]) ys) by (fold b; lia). now rewrite <- app_assoc. }
    destruct (snapshot c (xs ++ [y]) a); [|reflexivity]. cbn. rewrite He'.
    now destruct (mapM _ _).
Qed.

(** ** The states a program reaches *)

Lemma stream_start s :
  Shape s ->
  s.(SpectrumAggregator.write_index) = 0 -> s.(SpectrumAggregator.filled) = 0 ->
  s.(SpectrumAggregator.samples_since_frame) = 0 ->
  s.(SpectrumAggregator.accumulated_frames) = 0 -> s.(SpectrumAggregator.sequence) = 0 ->
  s.(SpectrumAggregator.input_samples_seen) = 0 ->
  s.(SpectrumAggregator.ring) = replicate (Z.to_nat N) complex_default ->
  s.(SpectrumAggregator.accumulated_power) = replicate (Z.to_nat N) (f32_of_Z 0) ->
  Stream [] (frames_after c 0) s /\ Position 0 s.
Proof.
  intros Hs Hw Hf Hss Haf Hsq Hse Hr Hp. pose proof size_pos. pose proof (co_frames c Hc).
  assert (Hz : frames_after c 0 = 0)
    by (unfold frames_after; now rewrite (proj2 (Z.ltb_lt _ _)) by lia).
  rewrite Hz. split; [split|split]; try assumption.
  - rewrite Hw, Hr. unfold unroll. change (Z.to_nat 0) with 0%nat.
    rewrite !drop_0, take_0. cbn [map]. now rewrite !app_nil_r.
  - rewrite Hf. lia.
  - rewrite Hss. now rewrite (proj2 (Z.ltb_lt _ _)) by lia.
Qed.

Lemma length_accumulate size norm spectrum power :
  length (SpectrumAggregator.accumulate size norm spectrum power) = length power.
Proof.
  unfold SpectrumAggregator.accumulate. generalize (imap pair spectrum). intros l. revert power.
  induction l as [|[u v] l IH]; intros power; cbn; [reflexivity|].
  etransitivity; [apply IH|]. apply length_alter.
Qed.

Lemma process_frame_shape s o s' :
  Shape s -> SpectrumAggregator.process_frame s = Some (o, s') -> Shape s'.
Proof.
  intros [Hcf Hw Hnorm Hr Hin Hp]. unfold SpectrumAggregator.process_frame.
  assert (Hg : length_z (fft_process (SpectrumAggregator.gather s)) = N).
  { unfold length_z. rewrite fft_process_length. unfold SpectrumAggregator.gather.
    rewrite length_map, length_seqZ, Hcf. pose proof size_pos. lia. }
  destruct (_ <? _); [|destruct (SpectrumAggregator.build_snapshot _); [|discriminate]];
    cbn; intros [= <- <-]; split; cbn; try assumption; unfold length_z, SpectrumAggregator.fill;
    rewrite ?length_replicate, ?length_map, length_accumulate; exact Hp.
Qed.

Lemma push_sample_shape s x o s' :
  Shape s -> SpectrumAggregator.push_sample s x = Some (o, s') -> Shape s'.
Proof.
  intros [Hcf Hw Hnorm Hr Hin Hp]. destruct x as [i q]. unfold SpectrumAggregator.push_sample.
  assert (Hi : forall x, length_z (<[Z.to_nat s.(SpectrumAggregator.write_index) := x]>
                 s.(SpectrumAggregator.ring)) = N)
    by (intros x; unfold length_z; now rewrite length_insert).
  repeat destruct (_ <? _); repeat destruct (_ =? _); repeat destruct (_ <=? _);
    (intros H'; apply process_frame_shape in H'; [exact H'|]) || intros [= <- <-];
    split; cbn; auto.
Qed.

Lemma push_iq_shape xs : forall s out s',
  Shape s -> SpectrumAggregator.push_iq s xs = Some (out, s') -> Shape s'.
Proof.
  induction xs as [|x xs IH]; intros s out s' Hs; cbn; [now intros [= <- <-]|].
  destruct (SpectrumAggregator.push_sample s x) as [[o s1]|] eqn:E; [|discriminate]. cbn.
  destruct (SpectrumAggregator.push_iq s1 xs) as [[out' s2]|] eqn:E'; [|discriminate]. cbn.
  intros [= <- <-]. eapply IH; [|exact E']. eapply push_sample_shape; eauto.
Qed.
End Stream.

Section Theorems.
Context `{SpectrumMath}.

Lemma push_iq_app xs ys s :
  SpectrumAggregator.push_iq s (xs ++ ys)
  = '(first, s1) ← SpectrumAggregator.push_iq s xs ;
    '(rest, s2) ← SpectrumAggregator.push_iq s1 ys ;
    Some (first ++ rest, s2).
Proof.
  revert s. induction xs as [|x xs IH]; intros s; cbn.
  - now destruct (SpectrumAggregator.push_iq s ys) as [[]|].
  - destruct (SpectrumAggregator.push_sample s x) as [[o s1]|]; [|reflexivity]. cbn.
    rewrite IH. destruct (SpectrumAggregator.push_iq s1 xs) as [[o1 s2]|]; [|reflexivity]. cbn.
    destruct (SpectrumAggregator.push_iq s2 ys) as [[o2 s3]|]; [|reflexivity]. cbn.
    now rewrite app_assoc.
Qed.

Lemma push_calls_concat calls s :
  push_calls s calls = SpectrumAggregator.push_iq s (concat calls).
Proof.
  revert s. induction calls as [|xs calls IH]; intros s; cbn; [reflexivity|].
  rewrite push_iq_app. destruct (SpectrumAggregator.push_iq s xs) as [[o1 s1]|]; [|reflexivity].
  cbn. now rewrite IH.
Qed.

Lemma reset_ok s center :
  let c := s.(SpectrumAggregator.config) in
  let c' := SpectrumConfig.with_center c center in
  ConfigOk c -> Shape c s ->
  ConfigOk c' /\ Shape c' (SpectrumAggregator.reset_for_center s center)
  /\ Stream c' [] (frames_after c' 0) (SpectrumAggregator.reset_for_center s center)
  /\ Position c' 0 (SpectrumAggregator.reset_for_center s center).
Proof.
  intros c c' Hc Hs. assert (Hc' : ConfigOk c') by (destruct Hc; split; assumption).
  destruct Hs as [_ Hw Hnorm Hr Hin Hp].
  assert (Hs' : Shape c' (SpectrumAggregator.reset_for_center s center)).
  { split; cbn; try assumption; try reflexivity; unfold length_z, SpectrumAggregator.fill;
      rewrite length_replicate; assumption. }
  split; [exact Hc'|]. split; [exact Hs'|].
  apply (stream_start c' Hc'); try reflexivity; [exact Hs'|..]; cbn;
    unfold SpectrumAggregator.fill, length_z in *; f_equal; fold c in Hr, Hp; lia.
Qed.

Lemma new_ok c s :
  SpectrumConfig.wf c -> SpectrumAggregator.new c = Ok s ->
  ConfigOk c /\ s.(SpectrumAggregator.config) = c /\ Shape c s
  /\ Stream c [] (frames_after c 0) s /\ Position c 0 s.
Proof.
  intros Hwf. unfold SpectrumAggregator.new. rewrite unit_seq. intros [Hv [= <-]].
  pose proof (validate_config_ok c Hwf Hv) as Hc. pose proof (size_pos c Hc).
  split; [exact Hc|]. split; [reflexivity|].
  assert (Hs : Shape c (SpectrumAggregator.mk c (hann_window c.(SpectrumConfig.fft_size))
    (SpectrumAggregator.normalization_of c)
    (replicate (Z.to_nat c.(SpectrumConfig.fft_size)) complex_default) 0 0 0
    (replicate (Z.to_nat c.(SpectrumConfig.fft_size)) complex_default)
    (replicate (Z.to_nat c.(SpectrumConfig.fft_size)) (f32_of_Z 0)) 0 0 0)).
  { split; cbn; try reflexivity; unfold length_z; rewrite length_replicate; lia. }
  split; [exact Hs|]. now apply (stream_start c Hc).
Qed.

Lemma reached_ok s :
  Reached s -> ConfigOk s.(SpectrumAggregator.config) /\ Shape s.(SpectrumAggregator.config) s.
Proof.
  induction 1 as [c s Hwf Hnew|s center _ [Hc Hs]|s xs out s' _ [Hc Hs] Hp].
  - destruct (new_ok c s Hwf Hnew) as (Hc&->&Hs&_). auto.
  - destruct (reset_ok s center Hc Hs) as (Hc'&Hs'&_). auto.
  - pose proof (push_iq_shape _ Hc xs s out s' Hs Hp) as Hs'.
    now rewrite (sh_config _ s' Hs').
Qed.

(** An aggregator at the start of a stream: newly made, or reset. *)
Inductive Fresh : SpectrumConfig.t -> SpectrumAggregator.t -> Prop :=
| fresh_new c s : SpectrumConfig.wf c -> SpectrumAggregator.new c = Ok s -> Fresh c s
| fresh_reset s center :
    Reached s ->
    Fresh (SpectrumConfig.with_center s.(SpectrumAggregator.config) center)
      (SpectrumAggregator.reset_for_center s center).

(** What the clients of the aggregator use. *)
Lemma fresh_push c s calls :
  Fresh c s -> length_z (concat calls) <= u64_max ->
  exists s', push_calls s calls = (out ← snapshots c (concat calls) ; Some (out, s')).
Proof.
  intros Hf Hmax.
  assert (ConfigOk c /\ Stream c [] (frames_after c 0) s /\ Position c 0 s) as (Hc&Hs&Hp).
  { destruct Hf as [c s Hwf Hnew|s center Hr].
    - destruct (new_ok c s Hwf Hnew) as (?&_&_&?&?). auto.
    - destruct (reached_ok s Hr) as [Hc Hs]. destruct (reset_ok s center Hc Hs) as (?&_&?&?). auto. }
  destruct (push_iq_stream c Hc (concat calls) [] s Hs Hp Hmax) as (s'&_&_&He).
  exists s'. rewrite push_calls_concat, He. cbn [app]. unfold snapshots.
  change (length_z (@nil (Z * Z))) with 0.
  replace (snapshots_after c 0) with 0; [now rewrite Z.sub_0_r|].
  pose proof (size_pos c Hc). unfold snapshots_after, frames_after.
  now rewrite (proj2 (Z.ltb_lt _ _)) by lia.
Qed.

Lemma push_calls_reached calls s out s' :
  Reached s -> push_calls s calls = Some (out, s') ->
  Reached s' /\ s'.(SpectrumAggregator.config) = s.(SpectrumAggregator.config).
Proof.
  intros Hr. rewrite push_calls_concat. intros Hp. destruct (reached_ok s Hr) as [Hc Hs].
  split; [eapply reached_push; eauto|]. apply sh_config. eapply push_iq_shape; eauto.
Qed.

Lemma snapshots_center c samples out point :
  snapshots c samples = Some out -> point ∈ out ->
  point.(SpectrumSnapshot.center_freq_hz) = c.(SpectrumConfig.center_freq_hz).
Proof.
  intros Hs Hin. apply mapM_Some_1 in Hs.
  destruct (proj1 (list_elem_of_lookup _ _) Hin) as [i Hi].
  destruct (Forall2_lookup_r _ _ _ _ _ Hs Hi) as (j&_&Hj). unfold snapshot in Hj.
  unfold SpectrumAggregator.snapshot_of in Hj.
  destruct (median_noise_power _ _); [|discriminate]. cbn in Hj.
  destruct (candidate_bands _ _ _ _); [|discriminate]. cbn in Hj. now injection Hj as <-.
Qed.

Lemma length_snapshots c samples out :
  snapshots c samples = Some out ->
  length out = Z.to_nat (snapshots_after c (length_z samples)).
Proof. intros Hs. apply length_mapM in Hs. now rewrite <- Hs, length_seqZ. Qed.

(** C30: however a stream is split into calls, a fresh or reset aggregator returns the snapshots
    of the overlapping windows of the stream: frame [k] is the [fft_size] samples from [k * hop]
    on under the Hann window, snapshot [j] the mean power of frames [j * F] to [(j + 1) * F - 1],
    and there are as many as fit; the ring buffer, its unrolling and the counters across calls
    change nothing, and nothing of what was pushed before a reset shows. *)
Theorem push_iq_is_windowed c s calls :
  Fresh c s -> length_z (concat calls) <= u64_max ->
  fst <$> push_calls s calls = snapshots c (concat calls).
Proof.
  intros Hf Hmax. destruct (fresh_push c s calls Hf Hmax) as [s' ->].
  now destruct (snapshots c (concat calls)).
Qed.
End Theorems.

(** [MIN_POWER] is within half a unit in the last place of 1.0e-20. *)
Example min_power_nearest :
  2 * Z.abs (12379400 * 10 ^ 20 - 2 ^ 90) <= 10 ^ 20 /\ 2 ^ 23 <= 12379400 < 2 ^ 24
  /\ MIN_POWER = S754_finite false 12379400 (-90).
Proof. vm_compute. intuition congruence. Qed.

Module AggregationSamples.
(** Pairs for complex numbers; the transform and the functions are any. *)
#[export] Instance math : SpectrumMath := {
  Complex := float * float;
  complex_new := pair;
  complex_default := (f32_of_Z 0, f32_of_Z 0);
  complex_scale z k := (f32_mul z.1 k, f32_mul z.2 k);
  norm_sqr z := f32_add (f32_mul z.1 z.1) (f32_mul z.2 z.2);
  fft_process := reverse;
  fft_process_length := length_reverse;
  cosf x := f32_sub (f32_of_Z 1) x;
  log10f x := x;
  powf _ y := y;
}.
Definition config : SpectrumConfig.t :=
  SpectrumConfig.mk 100000000 1024000 64 50 2 8 (f32_of_Z 10) 1 1.
Definition calls : list (list (Z * Z)) :=
  [map (fun i => (i, - i)) (seqZ 0 50); map (fun i => (7 * i mod 11, i)) (seqZ 0 46)].
End AggregationSamples.
#[local] Existing Instance AggregationSamples.math.

Lemma push_iq_is_windowed_witness :
  exists s,
    SpectrumAggregator.new AggregationSamples.config = Ok s
    /\ fst <$> push_calls s AggregationSamples.calls
       = snapshots AggregationSamples.config (concat AggregationSamples.calls)
    /\ option_map (map SpectrumSnapshot.input_samples_seen)
         (snapshots AggregationSamples.config (concat AggregationSamples.calls)) = Some [96].
Proof.
  destruct (proj1 (is_Ok_spec (SpectrumAggregator.new AggregationSamples.config))
              ltac:(vm_compute; reflexivity)) as [s Hnew].
  exists s. split; [exact Hnew|]. split; [|vm_compute; reflexivity].
  apply (push_iq_is_windowed AggregationSamples.config s AggregationSamples.calls).
  - apply fresh_new; [vm_compute; intuition congruence|exact Hnew].
  - vm_compute. congruence.
Defined.
