(* ===== verification/FftBench.v ===== *)
(** * The FFT benchmark of the p201pro tools

    [p201pro-rust/src/bin/fft_bench.rs]: for six sizes a transform is timed and the
    percentiles of its stages are printed.  rustfft, num_complex and the cosine are
    the class [SpectrumMath]; the monotonic clock answers how many nanoseconds the
    [k]-th measurement took.  A printed line is the record of its numbers. *)
From S2P Require Import Prelude F32 Aggregation.

Definition FFT_SIZES : list Z := [1024; 2048; 4096; 8192; 16384; 32768].
Definition POINTS_PER_CASE : Z := 16777216.

(** ** Numbers *)

(** [sort_unstable] on [u64]s: the order of equal numbers cannot be seen. *)
Fixpoint insert_number (x : Z) (l : list Z) : list Z :=
  match l with
  | [] => [x]
  | y :: rest => if x <=? y then x :: l else y :: insert_number x rest
  end.
Definition sort_numbers (l : list Z) : list Z := foldr insert_number [] l.

(** [None] is a panic: the subtraction wraps on an empty list and the index is out
    of range. *)
Definition percentile (values : list Z) (percentile : Z) : option Z :=
  let sorted := sort_numbers values in
  let index := saturating_sub (div_ceil (mul64 (length_z sorted) percentile) 100) 1 in
  sorted !! Z.to_nat (Z.min index (sub64 (length_z sorted) 1)).

Definition ns_to_us (ns : Z) : float := f64_div (f64_of_Z ns) (f64_of_Z 1000).
Definition sustainable_msps (hop frame_time_ns : Z) : float :=
  f64_div (f64_mul (f64_of_Z hop) (f64_of_Z 1000)) (f64_of_Z frame_time_ns).

(** [n * 2] samples of twelve bits. *)
Definition synthetic_iq (n : Z) : list Z :=
  map (fun index => Z.land (index * 17 + index / 7) 4095 - 2048) (seqZ 0 (n * 2)).

(** [rotate_left(2)] of at least two elements. *)
Definition rotate_left {A} (l : list A) : list A := drop 2 l ++ take 2 l.

Section Bench.
Context `{SpectrumMath}.

(** The same window as the aggregator's. *)
Definition hann_window (n : Z) : list float := Aggregation.hann_window n.

(** [chunks_exact(2)] with the window, into the places of [output] there are. *)
Fixpoint prepare (samples : list Z) (window : list float) (output : list Complex) : list Complex :=
  match samples, window, output with
  | i :: q :: samples, weight :: window, _ :: output =>
      complex_new (f32_mul (f32_of_Z i) weight) (f32_mul (f32_of_Z q) weight)
        :: prepare samples window output
  | _, _, _ => output
  end.

Definition reduce_power (spectrum : list Complex) : float * float :=
  fold_left (fun '(sum, peak) value =>
               let power := norm_sqr value in (f32_add sum power, f_max peak power))
    spectrum (f32_of_Z 0, f32_of_Z 0).

(** One transform of the samples, and the samples for the next. *)
Definition transform (window : list float) (samples : list Z) (spectrum : list Complex) : list Complex :=
  fft_process (prepare samples window spectrum).

Fixpoint warm_up (warmup : nat) (window : list float) (samples : list Z) (spectrum : list Complex)
    : list Z * list Complex :=
  match warmup with
  | O => (samples, spectrum)
  | S warmup => warm_up warmup window (rotate_left samples) (transform window samples spectrum)
  end.
End Bench.

(** The times of the stages, the newest first. *)
Module Timings.
Record t := mk { prep_ns : list Z; fft_ns : list Z; reduce_ns : list Z; total_ns : list Z }.
End Timings.

(** What is printed about one size; times in microseconds. *)
Module Line.
Record t := mk {
  n : Z;
  iterations : Z;
  prep_p50_us : float;
  fft_p50_us : float;
  reduce_p50_us : float;
  total_p50_us : float;
  total_p95_us : float;
  total_p99_us : float;
  msps_no_overlap : float;
  msps_50pct_overlap : float;
  msps_75pct_overlap : float;
  checksum : float;
}.
End Line.

Section Case.
Context `{SpectrumMath}.
(** The answer of the [k]-th [elapsed().as_nanos() as u64]. *)
Context (elapsed : nat -> Z).

(** Iteration [i] takes the measurements [4 * i] to [4 * i + 3]. *)
Definition measure (i : nat) (t : Timings.t) : Timings.t :=
  Timings.mk (elapsed (4 * i)%nat :: t.(Timings.prep_ns)) (elapsed (4 * i + 1)%nat :: t.(Timings.fft_ns))
    (elapsed (4 * i + 2)%nat :: t.(Timings.reduce_ns)) (elapsed (4 * i + 3)%nat :: t.(Timings.total_ns)).

Fixpoint iterate (rounds i : nat) (window : list float) (samples : list Z) (spectrum : list Complex)
    (t : Timings.t) (checksum : float) : Timings.t * float :=
  match rounds with
  | O => (t, checksum)
  | S rounds =>
      let spectrum := transform window samples spectrum in
      let (sum, peak) := reduce_power spectrum in
      let weight := f64_add (f64_of_Z (Z.land (Z.of_nat i) 1)) (f64_of_Z 1) in
      iterate rounds (S i) window (rotate_left samples) spectrum (measure i t)
        (f64_add checksum (f64_mul (f64_of_f32 (f32_add sum peak)) weight))
  end.

Definition iterations_of (n : Z) : Z := Z.max (POINTS_PER_CASE / n) 256.
Definition warmup_of (n : Z) : Z := Z.min (Z.max (iterations_of n / 16) 16) 256.

Definition run_case (n : Z) : option Line.t :=
  let window := hann_window n in
  let (samples, spectrum) :=
    warm_up (Z.to_nat (warmup_of n)) window (synthetic_iq n) (replicate (Z.to_nat n) complex_default) in
  let (t, checksum) :=
    iterate (Z.to_nat (iterations_of n)) 0 window samples spectrum (Timings.mk [] [] [] []) (f64_of_Z 0) in
  total_p50 ← percentile t.(Timings.total_ns) 50 ;
  prep_p50 ← percentile t.(Timings.prep_ns) 50 ;
  fft_p50 ← percentile t.(Timings.fft_ns) 50 ;
  reduce_p50 ← percentile t.(Timings.reduce_ns) 50 ;
  total_p95 ← percentile t.(Timings.total_ns) 95 ;
  total_p99 ← percentile t.(Timings.total_ns) 99 ;
  Some (Line.mk n (iterations_of n) (ns_to_us prep_p50) (ns_to_us fft_p50) (ns_to_us reduce_p50)
          (ns_to_us total_p50) (ns_to_us total_p95) (ns_to_us total_p99)
          (sustainable_msps n total_p50) (sustainable_msps (n / 2) total_p50)
          (sustainable_msps (n / 4) total_p50) checksum).
End Case.

(** The clock goes on from one size to the next. *)
Definition main `{SpectrumMath} (elapsed : Z -> nat -> Z) : list (option Line.t) :=
  map (fun n => run_case (elapsed n) n) FFT_SIZES.

(** ** Sorting *)
Lemma insert_number_perm x l : Permutation (insert_number x l) (x :: l).
Proof.
  induction l as [|y l IH]; cbn; [reflexivity|]. destruct (x <=? y); [reflexivity|].
  rewrite IH. apply perm_swap.
Qed.
Lemma sort_numbers_perm l : Permutation (sort_numbers l) l.
Proof. induction l as [|x l IH]; cbn; [reflexivity|]. now rewrite insert_number_perm, IH. Qed.
Lemma insert_number_sorted x l : Sorted Z.le l -> Sorted Z.le (insert_number x l).
Proof.
  induction 1 as [|y l Hl IH Hy]; cbn; [repeat constructor|].
  destruct (Z.leb_spec x y); [repeat constructor; auto|]. constructor; [exact IH|].
  destruct l as [|z l]; cbn; [constructor; lia|]. inversion Hy; subst.
  destruct (x <=? z); constructor; lia.
Qed.
Lemma sort_numbers_sorted l : StronglySorted Z.le (sort_numbers l).
Proof.
  apply Sorted_StronglySorted; [intros a b c; lia|].
  induction l as [|x l IH]; cbn; [constructor|]. now apply insert_number_sorted.
Qed.

(** ** Percentiles *)
Definition count (p : Z -> bool) (l : list Z) : Z := length_z (List.filter p l).

Lemma count_perm p l l' : Permutation l l' -> count p l = count p l'.
Proof.
  unfold count, length_z. induction 1 as [|x l l' H IH|x y l|l1 l2 l3 H1 IH1 H2 IH2]; cbn [List.filter];
    [reflexivity| | |congruence].
  - destruct (p x); cbn [length]; lia.
  - destruct (p x), (p y); reflexivity.
Qed.
Lemma count_app p l l' : count p (l ++ l') = count p l + count p l'.
Proof. unfold count, length_z. rewrite List.filter_app, length_app. lia. Qed.
Lemma count_all p l : Forall (fun x => p x = true) l -> count p l = length_z l.
Proof.
  unfold count, length_z. induction 1 as [|x l Hx Hl IH]; [reflexivity|]. cbn [List.filter].
  rewrite Hx. cbn [length]. lia.
Qed.
Lemma count_none p l : Forall (fun x => p x = false) l -> count p l = 0.
Proof. unfold count, length_z. induction 1 as [|x l Hx Hl IH]; [reflexivity|]. cbn [List.filter]. now rewrite Hx. Qed.
Lemma count_bounds p l : 0 <= count p l <= length_z l.
Proof. unfold count, length_z. pose proof (List.filter_length_le p l). lia. Qed.

(** In front of a place of a sorted list nothing is greater, behind it nothing less. *)
Lemma sorted_split l i v :
  StronglySorted Z.le l -> l !! i = Some v ->
  Forall (fun x => x <= v) (take i l) /\ Forall (fun x => v <= x) (drop i l).
Proof.
  intros Hs. revert i. induction Hs as [|x l Hl IH Hx]; intros [|i]; cbn; try discriminate.
  - intros [= <-]. split; [constructor|]. now constructor.
  - intros Hi. destruct (IH i Hi) as [H1 H2]. split; [|exact H2]. constructor; [|exact H1].
    rewrite list.Forall_forall in Hx. eapply Hx, list_elem_of_lookup_2, Hi.
Qed.

Lemma sorted_rank l i v :
  StronglySorted Z.le l -> l !! i = Some v ->
  Z.of_nat i + 1 <= count (fun x => x <=? v) l /\ count (fun x => x <? v) l <= Z.of_nat i.
Proof.
  intros Hs Hi. destruct (sorted_split _ _ _ Hs Hi) as [Hle Hge]. pose proof (lookup_lt_Some _ _ _ Hi).
  assert (Hsplit : forall p, count p l = count p (take i l) + count p (drop i l))
    by (intros p; now rewrite <- count_app, take_drop).
  rewrite !Hsplit. split.
  - rewrite count_all by (eapply list.Forall_impl; [exact Hle|]; intros x Hx; now apply Z.leb_le).
    rewrite (drop_S _ _ _ Hi). change (v :: drop (S i) l) with ([v] ++ drop (S i) l). rewrite (count_app _ [v]).
    pose proof (count_bounds (fun x => x <=? v) (drop (S i) l)).
    assert (count (fun x => x <=? v) [v] = 1) as -> by (unfold count; cbn; now rewrite Z.leb_refl).
    unfold length_z. rewrite length_take. lia.
  - rewrite (count_none _ (drop i l)) by (eapply list.Forall_impl; [exact Hge|]; intros x Hx; now apply Z.ltb_ge).
    pose proof (count_bounds (fun x => x <? v) (take i l)) as Hb. unfold length_z in Hb.
    rewrite length_take in Hb. lia.
Qed.

(** [percentile] is the nearest rank: one of the values, of which at least [p] percent are not
    greater, and the least such one, since less than [p] percent are below it. *)
Theorem percentile_is_nearest_rank values p :
  values <> [] -> length_z values * 100 <= u64_max -> 1 <= p <= 100 ->
  exists v, percentile values p = Some v /\ v ∈ values
  /\ p * length_z values <= 100 * count (fun x => x <=? v) values
  /\ 100 * count (fun x => x <? v) values < p * length_z values.
Proof.
  intros Hne Hlen Hp. pose proof (sort_numbers_perm values) as Hperm.
  assert (Hn : length (sort_numbers values) = length values) by (apply Permutation_length, Hperm).
  assert (Hpos : 0 < length_z values) by (destruct values; [congruence|unfold length_z; cbn; lia]).
  unfold percentile, length_z in *. rewrite Hn. set (n := Z.of_nat (length values)) in *.
  rewrite sub64_small by (unfold u64_max in *; lia). unfold mul64.
  rewrite Z.mod_small by (unfold u64_max in *; nia). rewrite div_ceil_add by lia.
  pose proof (Z.div_mod (n * p + (100 - 1)) 100 ltac:(lia)) as Hd.
  pose proof (Z.mod_pos_bound (n * p + (100 - 1)) 100 ltac:(lia)) as Hm.
  set (q := (n * p + (100 - 1)) / 100) in *. assert (Hq : 1 <= q <= n) by nia.
  replace (Z.min (saturating_sub q 1) (n - 1)) with (q - 1) by (unfold saturating_sub; lia).
  destruct (lookup_lt_is_Some_2 (sort_numbers values) (Z.to_nat (q - 1))) as [v Hv]; [lia|].
  exists v. split; [exact Hv|].
  destruct (sorted_rank _ _ _ (sort_numbers_sorted values) Hv) as [Hle Hlt].
  rewrite !(count_perm _ _ _ Hperm) in *. split; [|lia].
  rewrite <- Hperm. eapply list_elem_of_lookup_2, Hv.
Qed.

(** ** Every case is reported *)
Section Reported.
Context `{SpectrumMath}.
Context (elapsed : nat -> Z).

Lemma iterate_length rounds : forall i window samples spectrum t checksum,
  let r := (iterate elapsed rounds i window samples spectrum t checksum).1 in
  length r.(Timings.prep_ns) = (rounds + length t.(Timings.prep_ns))%nat
  /\ length r.(Timings.fft_ns) = (rounds + length t.(Timings.fft_ns))%nat
  /\ length r.(Timings.reduce_ns) = (rounds + length t.(Timings.reduce_ns))%nat
  /\ length r.(Timings.total_ns) = (rounds + length t.(Timings.total_ns))%nat.
Proof.
  induction rounds as [|rounds IH]; intros i window samples spectrum t checksum; [easy|].
  cbn [iterate]. destruct (reduce_power _) as [sum peak].
  match goal with |- context [iterate _ _ ?i ?w ?s ?sp ?t ?c] => specialize (IH i w s sp t c) end.
  cbn in IH |- *. lia.
Qed.

(** Timings of every stage of a size, and a line about it: nothing panics. *)
Lemma percentile_defined values p :
  (256 <= length values)%nat -> length_z values * 100 <= u64_max -> 1 <= p <= 100 ->
  exists v, percentile values p = Some v.
Proof.
  intros Hlen Hmax Hp. destruct (percentile_is_nearest_rank values p) as (v&Hv&_); eauto.
  intros ->. cbn in Hlen. lia.
Qed.
Theorem every_size_is_reported n : n ∈ FFT_SIZES -> exists line, run_case elapsed n = Some line /\ line.(Line.n) = n.
Proof.
  intros Hn. assert (Hrounds : 256 <= iterations_of n <= 16384).
  { unfold FFT_SIZES in Hn. rewrite !elem_of_cons, elem_of_nil in Hn.
    destruct_or! Hn; subst; vm_compute; split; discriminate. }
  unfold run_case. destruct (warm_up _ _ _ _) as [samples spectrum].
  pose proof (iterate_length (Z.to_nat (iterations_of n)) 0 (hann_window n) samples spectrum
                (Timings.mk [] [] [] []) (f64_of_Z 0)) as Hl.
  destruct (iterate _ _ _ _ _ _ _ _) as [t checksum]. cbn in Hl. destruct Hl as (Hl1&Hl2&Hl3&Hl4).
  assert (Hd : forall values p, length values = (Z.to_nat (iterations_of n) + 0)%nat -> 1 <= p <= 100 ->
    exists v, percentile values p = Some v).
  { intros values p Hv Hp. apply percentile_defined; unfold length_z, u64_max; lia. }
  destruct (Hd _ 50 Hl4) as [? ->]; [lia|]. destruct (Hd _ 50 Hl1) as [? ->]; [lia|].
  destruct (Hd _ 50 Hl2) as [? ->]; [lia|]. destruct (Hd _ 50 Hl3) as [? ->]; [lia|].
  destruct (Hd _ 95 Hl4) as [? ->]; [lia|]. destruct (Hd _ 99 Hl4) as [? ->]; [lia|].
  eexists. split; reflexivity.
Qed.
End Reported.

(** The tests of the file. *)
Example percentile_uses_nearest_rank :
  percentile [4; 1; 3; 2] 50 = Some 2 /\ percentile [4; 1; 3; 2] 95 = Some 4.
Proof. split; reflexivity. Qed.

Lemma percentile_is_nearest_rank_witness :
  exists v, percentile [4; 1; 3; 2] 50 = Some v /\ v ∈ [4; 1; 3; 2].
Proof.
  destruct (percentile_is_nearest_rank [4; 1; 3; 2] 50) as (v&Hv&Hin&_); try discriminate; try (vm_compute; intuition discriminate).
  exists v. now split.
Defined.
