(* ===== verification/SoftwareSweep.v ===== *)
(** * The software sweep of the p201pro tools

    [raspberry-pi/p201pro-rust/src/software_sweep.rs]: a sweep driven from the
    Raspberry Pi through libiio.  The plan is validated against byte and time
    caps, the radio's profile is saved, every center is tuned, measured with the
    aggregator of [Aggregation] and checked, and the profile is restored and
    read back whatever happened.

    libiio and the radio are the class [Iio]: the channels of the context are
    fixed, every reply is a function of the operations performed so far.  Error
    texts are kept without the values the code formats into some of them. *)
From S2P Require Import Prelude F32 Aggregation.

Definition PHY_DEVICE : string := "ad9361-phy".
Definition RX_DEVICE : string := "cf-ad9361-lpc".
Definition RX_I_CHANNEL : string := "voltage0".
Definition RX_Q_CHANNEL : string := "voltage1".
Definition RX_LO_CHANNEL : string := "altvoltage0".
Definition MAX_SWEEP_BYTES : Z := 64 * 1024 * 1024.
Definition MAX_SWEEP_DURATION_MS : Z := 60 * 1000.
Definition LO_TOLERANCE_HZ : Z := 10.

(** ** Signed and unsigned 64-bit helpers *)
Definition i64_max : Z := 9223372036854775807.
Definition clamp_i64 (n : Z) : Z := Z.max (- i64_max - 1) (Z.min n i64_max).
(** [n as i64] for a [u64] or [usize]. *)
Definition as_i64 (n : Z) : Z := if n <=? i64_max then n else n - 2 ^ 64.

(** A stable sort, as [sort_by] and [sort_by_key]. *)
Fixpoint insert_stable {A} (cmp : A -> A -> comparison) (x : A) (l : list A) : list A :=
  match l with
  | [] => [x]
  | y :: l' => match cmp x y with Gt => y :: insert_stable cmp x l' | _ => x :: l end
  end.
Definition sort_stable {A} (cmp : A -> A -> comparison) (l : list A) : list A :=
  foldr (insert_stable cmp) [] l.

(** ** Data *)
Module SoftwareSweepEstimate.
Record t : Type := mk {
  points : Z;
  refills_per_point : Z;
  maximum_network_bytes : Z;
  estimated_duration_ms : Z;
}.
End SoftwareSweepEstimate.

Module PhyChannelProfile.
Record t : Type := mk { id : string; sample_rate_hz : Z; rf_bandwidth_hz : Z }.
#[global] Instance eq_dec : EqDecision t.
Proof. solve_decision. Defined.
End PhyChannelProfile.

Module ScanChannelProfile.
Record t : Type := mk { id : string; enabled : bool }.
#[global] Instance eq_dec : EqDecision t.
Proof. solve_decision. Defined.
End ScanChannelProfile.

Module RadioProfile.
Record t : Type := mk {
  center_freq_hz : Z;
  phy_channels : list PhyChannelProfile.t;
  scan_channels : list ScanChannelProfile.t;
}.
End RadioProfile.

Module SoftwareSweepReport.
Record t : Type := mk {
  schema_version : Z;
  backend : string;
  estimate : SoftwareSweepEstimate.t;
  elapsed_ms : Z;
  initial_profile : RadioProfile.t;
  restored_profile : RadioProfile.t;
  restored : bool;
  points : list SpectrumSnapshot.t;
  candidates : list CandidateBand.t;
}.
End SoftwareSweepReport.

(** ** The plan *)
Module SoftwareSweepPlan.
Record t : Type := mk {
  centers_hz : list Z;
  continuous_step_hz : option Z;
  sample_rate_hz : Z;
  rf_bandwidth_hz : Z;
  buffer_samples : Z;
  settle_ms : Z;
  fft_size : Z;
  overlap_percent : Z;
  frames_per_point : Z;
  coarse_bins : Z;
  threshold_db : float;
  merge_gap_bins : Z;
  max_points : Z;
}.

(** The checks before the estimate. *)
Definition check (self : t) : result string unit :=
  reject_if (null self.(centers_hz) || (self.(max_points) <? length_z self.(centers_hz)))
    "sweep point count is empty or exceeds max-points" ;;
  reject_if ((self.(max_points) =? 0) || (256 <? self.(max_points)))
    "max-points must be between 1 and 256" ;;
  reject_if (existsb (fun center => negb (in_range 70000000 6000000000 center)) self.(centers_hz))
    "every sweep center must be between 70 MHz and 6 GHz" ;;
  reject_if (negb (in_range 2083333 30720000 self.(sample_rate_hz))
             || negb (in_range 200000 56000000 self.(rf_bandwidth_hz))
             || (self.(sample_rate_hz) <? self.(rf_bandwidth_hz)))
    "invalid sweep sample rate or RF bandwidth" ;;
  reject_if (negb (in_range 1024 1048576 self.(buffer_samples)))
    "buffer-samples must be between 1024 and 1048576" ;;
  reject_if (5000 <? self.(settle_ms)) "settle-ms must be at most 5000" ;;
  reject_if ((self.(fft_size) <? 64) || negb (usize_is_power_of_two self.(fft_size)))
    "fft-size must be a power of two >= 64" ;;
  reject_if ((75 <? self.(overlap_percent)) || (self.(frames_per_point) =? 0)
             || (256 <? self.(frames_per_point)))
    "invalid overlap or frames-per-point" ;;
  reject_if ((self.(coarse_bins) =? 0) || (self.(fft_size) <? self.(coarse_bins)))
    "coarse-bins must be between 1 and FFT size" ;;
  reject_if (negb (is_finite self.(threshold_db)) || f_le self.(threshold_db) (f32_of_Z 0))
    "threshold-db must be positive and finite" ;;
  match self.(continuous_step_hz) with
  | Some step_hz =>
      reject_if ((step_hz <=? 0)
                 || (clamp_i64 (self.(rf_bandwidth_hz) * 4) <? clamp_i64 (step_hz * 5)))
        "continuous step must be positive and no larger than 80% of RF bandwidth"
  | None => Ok tt
  end.

Definition validate (self : t) : result string SoftwareSweepEstimate.t :=
  check self ;;
  let hop := Z.max (mul64 self.(fft_size) (sub64 100 self.(overlap_percent)) / 100) 1 in
  let required_samples :=
    saturating_add self.(fft_size)
      (saturating_mul (saturating_sub self.(frames_per_point) 1) hop) in
  let refills_per_point := Z.max (div_ceil required_samples self.(buffer_samples)) 1 in
  let points := length_z self.(centers_hz) in
  maximum_network_bytes ←
    ok_or "sweep byte estimate overflow"
      (value ← checked_mul points refills_per_point ;
       value ← checked_mul value self.(buffer_samples) ;
       checked_mul value 4) ;
  reject_if (MAX_SWEEP_BYTES <? maximum_network_bytes)
    "sweep exceeds the 64 MiB network-data cap" ;;
  let capture_ms :=
    div_ceil (saturating_mul (maximum_network_bytes / 4) 1000) self.(sample_rate_hz) in
  let estimated_duration_ms :=
    saturating_add capture_ms (saturating_mul points self.(settle_ms)) in
  reject_if (MAX_SWEEP_DURATION_MS <? estimated_duration_ms)
    "estimated sweep duration exceeds 60 seconds" ;;
  Ok {| SoftwareSweepEstimate.points := points;
        SoftwareSweepEstimate.refills_per_point := refills_per_point;
        SoftwareSweepEstimate.maximum_network_bytes := maximum_network_bytes;
        SoftwareSweepEstimate.estimated_duration_ms := estimated_duration_ms |}.

(** The configuration of the aggregator for this plan. *)
Definition spectrum_config (plan : t) (center : Z) : SpectrumConfig.t :=
  {| SpectrumConfig.center_freq_hz := center;
     SpectrumConfig.sample_rate_hz := plan.(sample_rate_hz);
     SpectrumConfig.fft_size := plan.(fft_size);
     SpectrumConfig.overlap_percent := plan.(overlap_percent);
     SpectrumConfig.frames_per_snapshot := plan.(frames_per_point);
     SpectrumConfig.coarse_bins := plan.(coarse_bins);
     SpectrumConfig.threshold_above_noise_db := plan.(threshold_db);
     SpectrumConfig.merge_gap_bins := plan.(merge_gap_bins);
     SpectrumConfig.dc_exclusion_bins := 1 |}.

(** The widths of the fields. *)
Definition wf (self : t) : Prop :=
  is_u64 self.(buffer_samples) /\ is_u64 self.(settle_ms) /\ is_u64 self.(fft_size)
  /\ is_u64 self.(overlap_percent) /\ is_u64 self.(frames_per_point)
  /\ is_u64 self.(coarse_bins) /\ is_u64 self.(merge_gap_bins) /\ is_u64 self.(max_points)
  /\ is_u64 (length_z self.(centers_hz)).
End SoftwareSweepPlan.

(** ** libiio *)

(** What the sweep does to the radio, in order.  A channel is its position in
    its device. *)
Inductive Op : Type :=
| WriteInt (device : string) (channel : nat) (attribute : string) (value : Z)
| ReadInt (device : string) (channel : nat) (attribute : string)
| Enable (device : string) (channel : nat)
| Disable (device : string) (channel : nat)
| IsEnabled (device : string) (channel : nat)
| SampleSize (device : string)
| CreateBuffer (device : string) (samples : Z)
| Refill
| ChannelData (i q : nat)
| DropBuffer
| Sleep (ms : Z).

Definition Log : Type := list Op.

Module IioChannel.
Record t : Type := mk { id : option string; is_input : bool; is_scan_element : bool }.
End IioChannel.

Class Iio := {
  has_device : string -> bool;
  channels : string -> list IioChannel.t;
  find_input_channel : string -> string -> option nat;
  find_output_channel : string -> string -> option nat;
  (** Replies; the log ends with the operation they answer. *)
  write_reply : Log -> result string unit;
  read_reply : Log -> result string Z;
  enabled_reply : Log -> bool;
  sample_size_reply : Log -> result string Z;
  create_buffer_reply : Log -> result string unit;
  refill_reply : Log -> result string Z;
  (** The two channel iterators, zipped. *)
  channel_data : Log -> list (Z * Z);
  (** Milliseconds between two moments. *)
  elapsed : Log -> Log -> Z;
}.

(** An error of the code, or a panic, which no caller catches. *)
Inductive Failure : Type :=
| Failed (message : string)
| Panicked.

Section Sweep.
Context `{Iio} `{SpectrumMath}.

Definition perform (op : Op) : M Log Failure unit := modify (fun log => log ++ [op]).
Definition fail {A} (message : string) : M Log Failure A := lift (Err (Failed message)).
Definition require_some {A} (message : string) (o : option A) : M Log Failure A :=
  lift (ok_or (Failed message) o).
Definition require (condition : bool) (message : string) : M Log Failure unit :=
  lift (ensure condition (Failed message)).

(** One operation and its reply. *)
Definition call {A} (op : Op) (reply : Log -> result string A) : M Log Failure A := fun log =>
  let log := log ++ [op] in (map_err Failed (reply log), log).

Definition attr_write_int device channel attribute value : M Log Failure unit :=
  call (WriteInt device channel attribute value) write_reply.
Definition attr_read_int device channel attribute : M Log Failure Z :=
  call (ReadInt device channel attribute) read_reply.

Definition find_device (name : string) : M Log Failure unit :=
  require (has_device name) ("missing " +:+ name).
Definition find_input (device name message : string) : M Log Failure nat :=
  require_some message (find_input_channel device name).
Definition find_lo : M Log Failure nat :=
  require_some "missing RX LO channel" (find_output_channel PHY_DEVICE RX_LO_CHANNEL).

(** The positions of the input scan elements of the receiver, with their channels. *)
Definition scan_elements : list (nat * IioChannel.t) :=
  filter (fun '(_, channel) =>
            Is_true (channel.(IioChannel.is_input) && channel.(IioChannel.is_scan_element)))
    (imap pair (channels RX_DEVICE)).

Definition read_phy_channel (id : string) : M Log Failure PhyChannelProfile.t :=
  channel ← find_input PHY_DEVICE id ("missing PHY channel " +:+ id) ;
  sample_rate_hz ← attr_read_int PHY_DEVICE channel "sampling_frequency" ;
  rf_bandwidth_hz ← attr_read_int PHY_DEVICE channel "rf_bandwidth" ;
  mret (PhyChannelProfile.mk id sample_rate_hz rf_bandwidth_hz).

Definition read_scan_channel (element : nat * IioChannel.t) : M Log Failure ScanChannelProfile.t :=
  let '(position, channel) := element in
  enabled ← call (IsEnabled RX_DEVICE position) (fun log => Ok (enabled_reply log)) ;
  mret (ScanChannelProfile.mk (default "" channel.(IioChannel.id)) enabled).

Definition read_profile : M Log Failure RadioProfile.t :=
  find_device PHY_DEVICE ;;
  lo ← find_lo ;
  phy_channels ← mapM read_phy_channel [RX_I_CHANNEL; RX_Q_CHANNEL] ;
  find_device RX_DEVICE ;;
  scan_channels ← mapM read_scan_channel scan_elements ;
  center_freq_hz ← attr_read_int PHY_DEVICE lo "frequency" ;
  mret {| RadioProfile.center_freq_hz := center_freq_hz;
          RadioProfile.phy_channels := phy_channels;
          RadioProfile.scan_channels :=
            sort_stable (fun left right =>
                           String.compare left.(ScanChannelProfile.id)
                             right.(ScanChannelProfile.id)) scan_channels |}.

Definition restore_phy_channel (saved : PhyChannelProfile.t) : M Log Failure unit :=
  channel ← find_input PHY_DEVICE saved.(PhyChannelProfile.id)
              ("missing PHY channel " +:+ saved.(PhyChannelProfile.id)) ;
  attr_write_int PHY_DEVICE channel "sampling_frequency"
    saved.(PhyChannelProfile.sample_rate_hz) ;;
  attr_write_int PHY_DEVICE channel "rf_bandwidth" saved.(PhyChannelProfile.rf_bandwidth_hz).

Definition restore_scan_channel (saved : ScanChannelProfile.t) : M Log Failure unit :=
  channel ← find_input RX_DEVICE saved.(ScanChannelProfile.id)
              ("missing scan channel " +:+ saved.(ScanChannelProfile.id)) ;
  perform (if saved.(ScanChannelProfile.enabled) then Enable RX_DEVICE channel
           else Disable RX_DEVICE channel).

Fixpoint for_each {A} (body : A -> M Log Failure unit) (l : list A) : M Log Failure unit :=
  match l with
  | [] => mret tt
  | x :: l => body x ;; for_each body l
  end.

Definition restore_profile (profile : RadioProfile.t) : M Log Failure unit :=
  find_device PHY_DEVICE ;;
  for_each restore_phy_channel profile.(RadioProfile.phy_channels) ;;
  lo ← find_lo ;
  attr_write_int PHY_DEVICE lo "frequency" profile.(RadioProfile.center_freq_hz) ;;
  find_device RX_DEVICE ;;
  for_each restore_scan_channel profile.(RadioProfile.scan_channels).

Definition verify_restoration (expected observed : RadioProfile.t) : M Log Failure unit :=
  require
    (negb
       (negb (bool_decide (expected.(RadioProfile.phy_channels)
                           = observed.(RadioProfile.phy_channels)))
        || negb (bool_decide (expected.(RadioProfile.scan_channels)
                              = observed.(RadioProfile.scan_channels)))
        || (LO_TOLERANCE_HZ
            <? abs_diff expected.(RadioProfile.center_freq_hz)
                 observed.(RadioProfile.center_freq_hz))))
    "radio restoration mismatch".

(** ** Merging the candidates of the points *)
Definition merge_into (previous candidate : CandidateBand.t) : CandidateBand.t :=
  let louder := f_gt candidate.(CandidateBand.peak_dbfs) previous.(CandidateBand.peak_dbfs) in
  {| CandidateBand.start_hz :=
       Z.min previous.(CandidateBand.start_hz) candidate.(CandidateBand.start_hz);
     CandidateBand.stop_hz :=
       Z.max previous.(CandidateBand.stop_hz) candidate.(CandidateBand.stop_hz);
     CandidateBand.peak_hz :=
       if louder then candidate.(CandidateBand.peak_hz) else previous.(CandidateBand.peak_hz);
     CandidateBand.peak_dbfs :=
       if louder then candidate.(CandidateBand.peak_dbfs) else previous.(CandidateBand.peak_dbfs);
     CandidateBand.power_dbfs :=
       f_max previous.(CandidateBand.power_dbfs) candidate.(CandidateBand.power_dbfs);
     CandidateBand.bins :=
       Z.max previous.(CandidateBand.bins) candidate.(CandidateBand.bins);
     CandidateBand.contains_dc :=
       previous.(CandidateBand.contains_dc) || candidate.(CandidateBand.contains_dc) |}.

(** The loop; [merged] is reversed, its head is [merged.last_mut()]. *)
Fixpoint merge_loop (merge_gap_hz : Z) (candidates merged : list CandidateBand.t)
    : list CandidateBand.t :=
  match candidates with
  | [] => rev merged
  | candidate :: candidates =>
      match merged with
      | previous :: earlier =>
          if candidate.(CandidateBand.start_hz)
             <=? clamp_i64 (previous.(CandidateBand.stop_hz) + merge_gap_hz)
          then merge_loop merge_gap_hz candidates (merge_into previous candidate :: earlier)
          else merge_loop merge_gap_hz candidates (candidate :: merged)
      | [] => merge_loop merge_gap_hz candidates [candidate]
      end
  end.

Definition merge_gap_hz (plan : SoftwareSweepPlan.t) : Z :=
  let bin_hz :=
    Z.max (Z.quot plan.(SoftwareSweepPlan.sample_rate_hz)
             (as_i64 plan.(SoftwareSweepPlan.fft_size))) 1 in
  clamp_i64 (bin_hz * as_i64 plan.(SoftwareSweepPlan.merge_gap_bins)).

Definition merge_candidates (points : list SpectrumSnapshot.t) (plan : SoftwareSweepPlan.t)
    : list CandidateBand.t :=
  let candidates :=
    sort_stable (fun left right =>
                   left.(CandidateBand.start_hz) ?= right.(CandidateBand.start_hz))
      (concat (map SpectrumSnapshot.candidates points)) in
  merge_loop (merge_gap_hz plan) candidates [].

(** ** The sweep itself *)

Definition disable_all : M Log Failure unit :=
  for_each (fun '(position, _) => perform (Disable RX_DEVICE position)) scan_elements.

Definition write_rates (plan : SoftwareSweepPlan.t) : M Log Failure unit :=
  for_each (fun channel_name =>
              channel ← find_input PHY_DEVICE channel_name
                          ("missing PHY channel " +:+ channel_name) ;
              attr_write_int PHY_DEVICE channel "sampling_frequency"
                plan.(SoftwareSweepPlan.sample_rate_hz) ;;
              attr_write_int PHY_DEVICE channel "rf_bandwidth"
                plan.(SoftwareSweepPlan.rf_bandwidth_hz))
    [RX_I_CHANNEL; RX_Q_CHANNEL].

(** One [refill] and the [push_iq] of its samples. *)
Definition refill (plan : SoftwareSweepPlan.t) (i_channel q_channel : nat)
    (aggregator : SpectrumAggregator.t)
    : M Log Failure (list SpectrumSnapshot.t * SpectrumAggregator.t) :=
  bytes ← call Refill refill_reply ;
  require (bytes =? saturating_mul plan.(SoftwareSweepPlan.buffer_samples) 4)
    "short IIO refill" ;;
  samples ← call (ChannelData i_channel q_channel) (fun log => Ok (channel_data log)) ;
  lift (ok_or Panicked (SpectrumAggregator.push_iq aggregator samples)).

(** The loop over [0..refills_per_point]. *)
Fixpoint refills (plan : SoftwareSweepPlan.t) (i_channel q_channel : nat) (count : nat)
    (aggregator : SpectrumAggregator.t) (completed : list SpectrumSnapshot.t)
    : M Log Failure (list SpectrumSnapshot.t * SpectrumAggregator.t) :=
  match count with
  | O => mret (completed, aggregator)
  | S count =>
      '(snapshots, aggregator) ← refill plan i_channel q_channel aggregator ;
      refills plan i_channel q_channel count aggregator (completed ++ snapshots)
  end.

(** The body of the loop over the centers. *)
Definition measure_center (plan : SoftwareSweepPlan.t) (estimate : SoftwareSweepEstimate.t)
    (lo i_channel q_channel : nat) (aggregator : SpectrumAggregator.t) (center_hz : Z)
    : M Log Failure (SpectrumSnapshot.t * SpectrumAggregator.t) :=
  attr_write_int PHY_DEVICE lo "frequency" center_hz ;;
  observed_center ← attr_read_int PHY_DEVICE lo "frequency" ;
  require (negb (LO_TOLERANCE_HZ <? abs_diff observed_center center_hz))
    "LO readback mismatch" ;;
  perform (Sleep plan.(SoftwareSweepPlan.settle_ms)) ;;
  '(completed, aggregator) ←
    refills plan i_channel q_channel
      (Z.to_nat estimate.(SoftwareSweepEstimate.refills_per_point))
      (SpectrumAggregator.reset_for_center aggregator observed_center) [] ;
  snapshot ← require_some "FFT aggregation did not complete one sweep point" (list.last completed) ;
  mret (snapshot, aggregator).

Fixpoint measure_centers (plan : SoftwareSweepPlan.t) (estimate : SoftwareSweepEstimate.t)
    (lo i_channel q_channel : nat) (centers : list Z) (aggregator : SpectrumAggregator.t)
    : M Log Failure (list SpectrumSnapshot.t) :=
  match centers with
  | [] => mret []
  | center_hz :: centers =>
      '(snapshot, aggregator) ←
        measure_center plan estimate lo i_channel q_channel aggregator center_hz ;
      points ← measure_centers plan estimate lo i_channel q_channel centers aggregator ;
      mret (snapshot :: points)
  end.

(** Run [m] while the buffer exists; it is dropped on every way out. *)
Definition with_buffer {A} (m : M Log Failure A) : M Log Failure A :=
  outcome ← attempt m ;
  perform DropBuffer ;;
  lift outcome.

Definition run_inner (plan : SoftwareSweepPlan.t) (estimate : SoftwareSweepEstimate.t)
    : M Log Failure (list SpectrumSnapshot.t * list CandidateBand.t) :=
  find_device PHY_DEVICE ;;
  write_rates plan ;;
  find_device RX_DEVICE ;;
  disable_all ;;
  i_channel ← find_input RX_DEVICE RX_I_CHANNEL "missing RX I channel" ;
  q_channel ← find_input RX_DEVICE RX_Q_CHANNEL "missing RX Q channel" ;
  perform (Enable RX_DEVICE i_channel) ;;
  perform (Enable RX_DEVICE q_channel) ;;
  sample_size ← call (SampleSize RX_DEVICE) sample_size_reply ;
  require (sample_size =? 4) "software sweep requires 4-byte complex-int16 samples" ;;
  call (CreateBuffer RX_DEVICE plan.(SoftwareSweepPlan.buffer_samples)) create_buffer_reply ;;
  with_buffer
    (first_center ← lift (ok_or Panicked (head plan.(SoftwareSweepPlan.centers_hz))) ;
     aggregator ←
       lift (map_err Failed
               (SpectrumAggregator.new (SoftwareSweepPlan.spectrum_config plan first_center))) ;
     lo ← find_lo ;
     points ←
       measure_centers plan estimate lo i_channel q_channel
         plan.(SoftwareSweepPlan.centers_hz) aggregator ;
     mret (points, merge_candidates points plan)).

(** [match (execution, restoration, restored_profile)]. *)
Definition conclude (estimate : SoftwareSweepEstimate.t) (elapsed_ms : Z)
    (initial_profile : RadioProfile.t)
    (execution : result Failure (list SpectrumSnapshot.t * list CandidateBand.t))
    (restoration : result Failure unit) (restored_profile : result Failure RadioProfile.t)
    : M Log Failure SoftwareSweepReport.t :=
  match execution, restoration, restored_profile with
  | Ok (points, candidates), Ok _, Ok restored_profile =>
      verify_restoration initial_profile restored_profile ;;
      mret {| SoftwareSweepReport.schema_version := 1;
              SoftwareSweepReport.backend := "pi_rustfft_iio";
              SoftwareSweepReport.estimate := estimate;
              SoftwareSweepReport.elapsed_ms := elapsed_ms;
              SoftwareSweepReport.initial_profile := initial_profile;
              SoftwareSweepReport.restored_profile := restored_profile;
              SoftwareSweepReport.restored := true;
              SoftwareSweepReport.points := points;
              SoftwareSweepReport.candidates := candidates |}
  | Err execution, Ok _, Ok restored_profile =>
      verify_restoration initial_profile restored_profile ;;
      lift (Err execution)
  | _, Err _, _ => fail "radio restoration failed after sweep"
  | _, Ok _, Err _ => fail "radio restoration readback failed"
  end.

Definition run (plan : SoftwareSweepPlan.t) : M Log Failure SoftwareSweepReport.t :=
  estimate ← lift (map_err Failed (SoftwareSweepPlan.validate plan)) ;
  initial_profile ← read_profile ;
  started ← gets id ;
  execution ← attempt (run_inner plan estimate) ;
  match execution with
  | Err Panicked => lift (Err Panicked)
  | _ =>
      restoration ← attempt (restore_profile initial_profile) ;
      restored_profile ← attempt read_profile ;
      now ← gets id ;
      conclude estimate (elapsed started now) initial_profile execution restoration
        restored_profile
  end.
End Sweep.

(** ** Which plans are accepted *)
Section Validation.
Import SoftwareSweepPlan.

(** The conditions on the fields, in unbounded arithmetic. *)
Record PlanOk (p : t) : Prop := {
  po_points : (0 < length p.(centers_hz))%nat /\ length_z p.(centers_hz) <= p.(max_points) <= 256;
  po_centers : Forall (fun center => 70000000 <= center <= 6000000000) p.(centers_hz);
  po_rate : 2083333 <= p.(sample_rate_hz) <= 30720000;
  po_bandwidth : 200000 <= p.(rf_bandwidth_hz) <= p.(sample_rate_hz);
  po_buffer : 1024 <= p.(buffer_samples) <= 1048576;
  po_settle : p.(settle_ms) <= 5000;
  po_fft : 64 <= p.(fft_size) /\ usize_is_power_of_two p.(fft_size) = true;
  po_overlap : p.(overlap_percent) <= 75;
  po_frames : 1 <= p.(frames_per_point) <= 256;
  po_coarse : 1 <= p.(coarse_bins) <= p.(fft_size);
  po_threshold : is_finite p.(threshold_db) = true /\ f_lt (f32_of_Z 0) p.(threshold_db) = true;
  po_step : forall step, p.(continuous_step_hz) = Some step ->
    0 < step /\ 5 * step <= 4 * p.(rf_bandwidth_hz);
}.

(** The distance of two frames and the samples that [frames_per_point] frames span. *)
Definition hop_of (p : t) : Z := Z.max (p.(fft_size) * (100 - p.(overlap_percent)) / 100) 1.
Definition span_of (p : t) : Z := p.(fft_size) + (p.(frames_per_point) - 1) * hop_of p.

(** [q] is [a / b] rounded up. *)
Definition Ceiling (a b q : Z) : Prop := (q - 1) * b < a <= q * b.

(** The estimate and its caps. *)
Record EstimateOk (p : t) (e : SoftwareSweepEstimate.t) : Prop := {
  eo_points : e.(SoftwareSweepEstimate.points) = length_z p.(centers_hz);
  eo_refills : Ceiling (span_of p) p.(buffer_samples) e.(SoftwareSweepEstimate.refills_per_point);
  eo_bytes : e.(SoftwareSweepEstimate.maximum_network_bytes)
             = length_z p.(centers_hz) * e.(SoftwareSweepEstimate.refills_per_point)
               * p.(buffer_samples) * 4;
  eo_cap : e.(SoftwareSweepEstimate.maximum_network_bytes) <= 64 * 1024 * 1024;
  eo_duration : exists capture_ms,
    Ceiling (e.(SoftwareSweepEstimate.maximum_network_bytes) / 4 * 1000) p.(sample_rate_hz)
      capture_ms
    /\ e.(SoftwareSweepEstimate.estimated_duration_ms)
       = capture_ms + length_z p.(centers_hz) * p.(settle_ms);
  eo_time : e.(SoftwareSweepEstimate.estimated_duration_ms) <= 60000;
}.

Lemma div_ceil_spec a b : 0 < b -> Ceiling a b (div_ceil a b).
Proof.
  intros Hb. unfold Ceiling, div_ceil. pose proof (Z.div_mod a b ltac:(lia)).
  pose proof (Z.mod_pos_bound a b Hb). destruct (Z.eqb_spec (a mod b) 0); nia.
Qed.

Lemma ceiling_unique a b q q' : 0 < b -> Ceiling a b q -> Ceiling a b q' -> q = q'.
Proof. unfold Ceiling. nia. Qed.

Lemma ceiling_bounds a b q : 0 < b -> 0 < a -> Ceiling a b q -> 1 <= q <= a.
Proof. unfold Ceiling. intros Hb Ha [H1 H2]. split; nia. Qed.

Lemma ceiling_bounds' a b q : 0 < b -> 0 <= a -> Ceiling a b q -> 0 <= q <= a.
Proof. unfold Ceiling. intros Hb Ha [H1 H2]. split; nia. Qed.

Lemma mul_bounds a b A B : 0 <= a <= A -> 0 <= b <= B -> 0 <= a * b <= A * B.
Proof. nia. Qed.

Lemma existsb_negb {A} (f : A -> bool) l :
  existsb (fun x => negb (f x)) l = false <-> Forall (fun x => f x = true) l.
Proof.
  induction l as [|x l IH]; cbn; [split; [constructor|reflexivity]|].
  rewrite orb_false_iff, negb_false_iff, list.Forall_cons, IH. reflexivity.
Qed.

Lemma f_le_zero x : is_finite x = true -> f_le x (f32_of_Z 0) = false <-> f_lt (f32_of_Z 0) x = true.
Proof. destruct x as [[]|[]| |[] m e]; cbn; split; congruence. Qed.

Lemma step_spec step bandwidth :
  bandwidth <= 56000000 ->
  (step <=? 0) || (clamp_i64 (bandwidth * 4) <? clamp_i64 (step * 5)) = false
  <-> 0 < step /\ 5 * step <= 4 * bandwidth.
Proof. intros Hb. guards. unfold clamp_i64, i64_max. lia. Qed.

Lemma check_spec p : wf p -> check p = Ok tt <-> PlanOk p.
Proof.
  intros (Hb&Hs&Hf&Ho&Hfr&Hc&Hg&Hm&Hl). unfold is_u in *. unfold check.
  guards. rewrite existsb_negb.
  setoid_rewrite in_range_spec. split.
  - intros ((Hne&Hle)&(Hm0&Hm1)&Hcs&((Hr&Hbw)&Hrb)&Hbuf&Hset&Hfft&((Hov&Hf0)&Hf1)&(Hc0&Hc1)&(Hfin&Hthr)&Hstep).
    split; try lia; try assumption.
    + destruct (centers_hz p); [congruence|cbn]. lia.
    + split; [exact Hfin|]. now apply f_le_zero.
    + intros step E. rewrite E, reject_if_Ok in Hstep. now apply step_spec in Hstep; [|lia].
  - intros [[Hp1 Hp2] Hcs Hr Hbw Hbuf Hset Hfft Hov Hfrm Hco [Hfin Hthr] Hstep].
    unfold length_z in *. split_and!; try (intros; lia); try assumption; try tauto.
    + intros E. rewrite E in Hp1. cbn in Hp1. lia.
    + now apply f_le_zero.
    + destruct (continuous_step_hz p) as [step|]; [|reflexivity].
      rewrite reject_if_Ok. apply step_spec; [lia|]. now apply Hstep.
Qed.

(** Under the byte cap nothing overflows. *)
Lemma estimate_exact p : PlanOk p -> wf p -> p.(fft_size) <= 2 ^ 24 ->
  let required := saturating_add p.(fft_size)
      (saturating_mul (saturating_sub p.(frames_per_point) 1)
         (Z.max (mul64 p.(fft_size) (sub64 100 p.(overlap_percent)) / 100) 1)) in
  required = span_of p /\ p.(fft_size) <= span_of p <= 2 ^ 32.
Proof.
  intros Hp (_&_&_&Ho&_) Hf. pose proof (po_fft p Hp) as [Hf0 _]. pose proof (po_frames p Hp).
  pose proof (po_overlap p Hp). unfold is_u in Ho.
  rewrite sub64_small by (unfold u64_max; lia). unfold mul64. rewrite Z.mod_small by nia.
  fold (hop_of p). assert (1 <= hop_of p <= 2 ^ 24).
  { unfold hop_of.
    pose proof (Z.div_le_upper_bound (p.(fft_size) * (100 - p.(overlap_percent))) 100 (2 ^ 24)). nia. }
  assert (0 <= (p.(frames_per_point) - 1) * hop_of p <= 2 ^ 32 - 2 ^ 24) as Hm.
  { pose proof (Z.mul_le_mono_nonneg (p.(frames_per_point) - 1) 255 (hop_of p) (2 ^ 24)).
    pose proof (Z.mul_nonneg_nonneg (p.(frames_per_point) - 1) (hop_of p)). lia. }
  unfold span_of, saturating_sub, saturating_add, saturating_mul, u64_max. cbv zeta.
  rewrite (Z.max_l (_ - 1)) by lia. lia.
Qed.

Lemma required_at_least (f x b : Z) :
  64 <= f <= u64_max -> 0 <= x -> 0 < b -> f <= Z.max (div_ceil (saturating_add f x) b) 1 * b.
Proof.
  intros Hf Hx Hb. pose proof (div_ceil_spec (saturating_add f x) b Hb) as [_ Hc].
  assert (f <= saturating_add f x) by (unfold saturating_add; lia).
  pose proof (Z.mul_le_mono_nonneg_r (div_ceil (saturating_add f x) b)
                (Z.max (div_ceil (saturating_add f x) b) 1) b). lia.
Qed.

(** The estimate is the exact one. *)
Lemma validate_exact p e : wf p -> PlanOk p -> p.(fft_size) <= 2 ^ 24 ->
  validate p = Ok e <-> EstimateOk p e.
Proof.
  intros Hwf Hp Hf. destruct (estimate_exact p Hp Hwf Hf) as [Hreq Hspan]. cbv zeta in Hreq.
  pose proof (po_buffer p Hp) as Hb. pose proof (po_rate p Hp) as Hr. pose proof (po_points p Hp) as Hn.
  pose proof (po_settle p Hp) as Hset. pose proof (po_fft p Hp) as [Hfft _].
  unfold validate. rewrite unit_seq.
  rewrite (check_spec p Hwf), Hreq. destruct Hwf as (_&Hs0&_). unfold is_u in Hs0.
  set (r := Z.max (div_ceil (span_of p) (buffer_samples p)) 1).
  assert (Hceil : Ceiling (span_of p) (buffer_samples p) r).
  { pose proof (div_ceil_spec (span_of p) (buffer_samples p) ltac:(lia)) as Hd.
    unfold r. rewrite Z.max_l; [exact Hd|]. apply ceiling_bounds in Hd; lia. }
  assert (Hr1 : 1 <= r <= 2 ^ 32) by (apply ceiling_bounds in Hceil; lia).
  set (n := length_z (centers_hz p)) in *.
  assert (Hn0 : 0 <= n <= 256) by (unfold n in *; pose proof (length_z_nonneg (centers_hz p)); lia).
  pose proof (mul_bounds n r 256 (2 ^ 32) Hn0 ltac:(lia)) as Hnr.
  pose proof (mul_bounds (n * r) (buffer_samples p) _ (2 ^ 20) Hnr ltac:(lia)) as Hnrb.
  assert (H1 : checked_mul n r = Some (n * r)) by (apply checked_mul_Some; unfold u64_max; lia).
  assert (H2 : checked_mul (n * r) (buffer_samples p) = Some (n * r * buffer_samples p))
    by (apply checked_mul_Some; unfold u64_max; lia).
  assert (H3 : checked_mul (n * r * buffer_samples p) 4 = Some (n * r * buffer_samples p * 4))
    by (apply checked_mul_Some; unfold u64_max; lia).
  rewrite H1. cbn [mbind option_bind]. rewrite H2. cbn [mbind option_bind]. rewrite H3.
  cbn [ok_or mbind result_bind]. set (bytes := n * r * buffer_samples p * 4).
  assert (Hdiv : bytes / 4 = n * r * buffer_samples p) by (apply Z.div_mul; lia).
  assert (Hcapture : bytes <= 64 * 1024 * 1024 ->
    Ceiling (bytes / 4 * 1000) (sample_rate_hz p)
      (div_ceil (saturating_mul (bytes / 4) 1000) (sample_rate_hz p))
    /\ saturating_add (div_ceil (saturating_mul (bytes / 4) 1000) (sample_rate_hz p))
         (saturating_mul n (settle_ms p))
       = div_ceil (saturating_mul (bytes / 4) 1000) (sample_rate_hz p) + n * settle_ms p).
  { intros Hcap. rewrite Hdiv. unfold saturating_mul at 1 2 4. rewrite !Z.min_l by (unfold u64_max; lia).
    pose proof (div_ceil_spec (n * r * buffer_samples p * 1000) (sample_rate_hz p) ltac:(lia)) as Hd.
    split; [exact Hd|]. pose proof (mul_bounds n (settle_ms p) _ 5000 Hn0 ltac:(lia)).
    pose proof (ceiling_bounds' (n * r * buffer_samples p * 1000) (sample_rate_hz p) _
                  ltac:(lia) ltac:(lia) Hd).
    unfold saturating_add, saturating_mul, u64_max. lia. }
  rewrite !reject_seq, !Z.ltb_ge. unfold MAX_SWEEP_BYTES, MAX_SWEEP_DURATION_MS. split.
  - intros (_&Hcap&Hdur&[= <-]). destruct (Hcapture Hcap) as [Hc Hs].
    split; cbn; [reflexivity|exact Hceil|reflexivity|exact Hcap| |exact Hdur].
    eexists. split; [exact Hc|exact Hs].
  - intros [E1 E2 E3 E4 (capture&E5&E6) E7].
    assert (Er : SoftwareSweepEstimate.refills_per_point e = r)
      by (eapply ceiling_unique; [|exact E2|exact Hceil]; lia).
    rewrite Er in E3. change (SoftwareSweepEstimate.maximum_network_bytes e = bytes) in E3.
    rewrite E3 in E4, E5. destruct (Hcapture ltac:(lia)) as [Hc Hs].
    assert (capture = div_ceil (saturating_mul (bytes / 4) 1000) (sample_rate_hz p)) as ->
      by (eapply ceiling_unique; [|exact E5|exact Hc]; lia).
    fold n in E1, E6. rewrite <- Hs in E6. split; [exact Hp|]. split; [lia|]. rewrite <- E6. split; [lia|].
    destruct e; cbn in *; congruence.
Qed.

(** An accepted plan, on either side, has a transform that fits the byte cap. *)
Lemma cap_bounds_fft p e : PlanOk p -> EstimateOk p e -> p.(fft_size) <= 2 ^ 24.
Proof.
  intros Hp [_ Hr Hb Hc _ _]. rewrite Hb in Hc. pose proof (po_points p Hp) as [Hn _].
  pose proof (po_buffer p Hp). pose proof (po_frames p Hp).
  assert (1 <= hop_of p) by (unfold hop_of; lia).
  assert (Hf : p.(fft_size) <= span_of p) by (unfold span_of; nia).
  destruct Hr as [_ Hr]. set (r := SoftwareSweepEstimate.refills_per_point e) in *.
  assert (1 <= length_z (centers_hz p)) by (unfold length_z; lia).
  pose proof (po_fft p Hp) as [? _].
  assert (r * buffer_samples p <= length_z (centers_hz p) * (r * buffer_samples p)) by nia. lia.
Qed.

Lemma validate_bounds_fft p e : wf p -> PlanOk p -> validate p = Ok e -> p.(fft_size) <= 2 ^ 24.
Proof.
  intros Hwf Hp. unfold validate. rewrite unit_seq. intros [_ Hv].
  apply bind_Ok in Hv as (bytes&Hb&Hv). apply ok_or_Ok in Hb. rewrite reject_seq in Hv.
  destruct Hv as [Hcap _]. apply Z.ltb_ge in Hcap. unfold MAX_SWEEP_BYTES in Hcap.
  destruct Hwf as (_&_&Hf&_&Hfr&_). unfold is_u in *. pose proof (po_points p Hp) as [Hn _].
  pose proof (po_buffer p Hp). pose proof (po_fft p Hp) as [Hf0 _].
  pose proof (required_at_least p.(fft_size) (saturating_mul (saturating_sub p.(frames_per_point) 1)
    (Z.max (mul64 p.(fft_size) (sub64 100 p.(overlap_percent)) / 100) 1)) p.(buffer_samples)
    ltac:(lia)) as Hr.
  set (r := Z.max (div_ceil _ _) 1) in *.
  assert (Hx : p.(fft_size) <= r * p.(buffer_samples)).
  { apply Hr; [|lia]. unfold saturating_mul, saturating_sub, u64_max. nia. }
  assert (1 <= length_z (centers_hz p)) by (unfold length_z; lia).
  cbn in Hb. destruct (checked_mul (length_z (centers_hz p)) r) as [v1|] eqn:E1; [|discriminate].
  cbn in Hb. destruct (checked_mul v1 (buffer_samples p)) as [v2|] eqn:E2; [|discriminate].
  cbn in Hb. apply checked_mul_Some in E1 as [_ ->], E2 as [_ ->], Hb as [_ ->].
  assert (r * buffer_samples p <= length_z (centers_hz p) * (r * buffer_samples p)) by nia. lia.
Qed.

Lemma plan_decided p e :
  wf p -> validate p = Ok e <-> PlanOk p /\ EstimateOk p e.
Proof.
  intros Hwf. split.
  - intros Hv. assert (Hp : PlanOk p).
    { apply check_spec; [exact Hwf|]. unfold validate in Hv. rewrite unit_seq in Hv. apply Hv. }
    split; [exact Hp|].
    now apply (validate_exact p e Hwf Hp (validate_bounds_fft p e Hwf Hp Hv)).
  - intros [Hp He]. now apply (validate_exact p e Hwf Hp (cap_bounds_fft p e Hp He)).
Qed.
(** A plan is accepted, with this estimate, exactly when its fields are in range, the samples
    its refills transfer at all centers fit 64 MiB and the capture and settle times fit a minute;
    the number of refills is the least that spans [frames_per_point] overlapping transforms.  All
    of it in unbounded arithmetic: no product of the code overflows into acceptance. *)
Theorem software_plan_decides p e :
  wf p -> validate p = Ok e <-> PlanOk p /\ EstimateOk p e.
Proof. exact (plan_decided p e). Qed.
End Validation.

(** ** What a computation does to the radio *)
Section Traces.
Context `{Iio} `{SpectrumMath}.

(** [m] appends operations that satisfy [Q], whatever the radio answers. *)
Definition Within {A} (Q : Op -> Prop) (m : M Log Failure A) : Prop :=
  forall log r log', m log = (r, log') -> exists ops, log' = log ++ ops /\ Forall Q ops.

(** [m] performs a prefix of [script], and all of it if it succeeds. *)
Definition Plays {A} (script : Log) (m : M Log Failure A) : Prop :=
  forall log r log', m log = (r, log') ->
    exists ops rest, log' = log ++ ops /\ script = ops ++ rest
    /\ ((exists a, r = Ok a) -> rest = []).

Lemma within_lift {A} Q (r : result Failure A) : Within Q (lift r).
Proof. intros log r' log' [= <- <-]. exists []. now rewrite app_nil_r. Qed.

Lemma within_bind {A B} Q (m : M Log Failure A) (f : A -> M Log Failure B) :
  Within Q m -> (forall a, Within Q (f a)) -> Within Q (m ≫= f).
Proof.
  intros Hm Hf log r log' He. rewrite bind_run in He. destruct (m log) as [[a|e] log1] eqn:E.
  - destruct (Hm _ _ _ E) as (o1&->&H1). destruct (Hf a _ _ _ He) as (o2&->&H2).
    exists (o1 ++ o2). rewrite app_assoc. split; [reflexivity|]. now apply Forall_app.
  - injection He as <- <-. destruct (Hm _ _ _ E) as (o1&->&H1). eauto.
Qed.

Lemma within_call {A} (Q : Op -> Prop) op (reply : Log -> result string A) :
  Q op -> Within Q (call op reply).
Proof. intros Hq log r log' [= <- <-]. exists [op]. auto. Qed.

Lemma within_perform (Q : Op -> Prop) op : Q op -> Within Q (perform op).
Proof. intros Hq log r log' [= <- <-]. exists [op]. auto. Qed.

Lemma within_attempt {A} Q (m : M Log Failure A) :
  Within Q m -> Within Q (attempt (F := Failure) m).
Proof.
  intros Hm log r log'. unfold attempt. destruct (m log) as [r1 l1] eqn:E.
  intros [= <- <-]. exact (Hm _ _ _ E).
Qed.

Lemma within_for_each {A} Q (body : A -> M Log Failure unit) l :
  (forall x, x ∈ l -> Within Q (body x)) -> Within Q (for_each body l).
Proof.
  induction l as [|x l IH]; intros Hb; cbn; [apply within_lift|].
  apply within_bind; [apply Hb; left|]. intros _. apply IH. intros y Hy. apply Hb. now right.
Qed.

Lemma within_mapM {A B} Q (f : A -> M Log Failure B) l :
  (forall x, x ∈ l -> Within Q (f x)) -> Within Q (mapM f l).
Proof.
  induction l as [|x l IH]; intros Hb; cbn; [apply within_lift|].
  apply within_bind; [apply Hb; left|]. intros b. apply within_bind; [|intros; apply within_lift].
  apply IH. intros y Hy. apply Hb. now right.
Qed.

Lemma script_lift {A} (r : result Failure A) : Plays [] (lift r).
Proof. intros log r' log' [= <- <-]. exists [], []. now rewrite app_nil_r. Qed.

(** A computation that fails at once plays every script. *)
Lemma script_fail {A} script e : Plays (A := A) script (lift (Err e)).
Proof.
  intros log r' log' [= <- <-]. exists [], script. rewrite app_nil_r.
  split; [reflexivity|]. split; [reflexivity|]. now intros [a [=]].
Qed.

Lemma script_call {A} op (reply : Log -> result string A) : Plays [op] (call op reply).
Proof. intros log r log' [= <- <-]. exists [op], []. auto. Qed.

Lemma script_perform op : Plays [op] (perform op).
Proof. intros log r log' [= <- <-]. exists [op], []. auto. Qed.

Lemma script_bind {A B} s1 s2 (m : M Log Failure A) (f : A -> M Log Failure B) :
  Plays s1 m -> (forall a, Plays s2 (f a)) -> Plays (s1 ++ s2) (m ≫= f).
Proof.
  intros Hm Hf log r log' He. rewrite bind_run in He.
  destruct (m log) as [[a|e] log1] eqn:E; destruct (Hm _ _ _ E) as (o1&r1&->&->&H1).
  - rewrite (H1 (ex_intro _ a eq_refl)), app_nil_r.
    destruct (Hf a _ _ _ He) as (o2&r2&->&->&H2).
    exists (o1 ++ o2), r2. rewrite !app_assoc. auto.
  - injection He as <- <-. exists o1, (r1 ++ s2). rewrite app_assoc.
    split; [reflexivity|]. split; [reflexivity|]. now intros [a [=]].
Qed.

Lemma script_for_each {A} (script : A -> Log) (body : A -> M Log Failure unit) l :
  (forall x, Plays (script x) (body x)) -> Plays (concat (map script l)) (for_each body l).
Proof.
  intros Hb. induction l as [|x l IH]; cbn; [apply script_lift|].
  apply script_bind; [apply Hb|]. intros _. exact IH.
Qed.

(** ** Restoring *)

(** The writes that put a profile back; a channel the context lacks has none. *)
Definition phy_script (saved : PhyChannelProfile.t) : Log :=
  match find_input_channel PHY_DEVICE saved.(PhyChannelProfile.id) with
  | Some channel =>
      [WriteInt PHY_DEVICE channel "sampling_frequency" saved.(PhyChannelProfile.sample_rate_hz);
       WriteInt PHY_DEVICE channel "rf_bandwidth" saved.(PhyChannelProfile.rf_bandwidth_hz)]
  | None => []
  end.
Definition scan_script (saved : ScanChannelProfile.t) : Log :=
  match find_input_channel RX_DEVICE saved.(ScanChannelProfile.id) with
  | Some channel =>
      [if saved.(ScanChannelProfile.enabled) then Enable RX_DEVICE channel
       else Disable RX_DEVICE channel]
  | None => []
  end.
Definition lo_script (center_hz : Z) : Log :=
  match find_output_channel PHY_DEVICE RX_LO_CHANNEL with
  | Some lo => [WriteInt PHY_DEVICE lo "frequency" center_hz]
  | None => []
  end.
Definition restore_script (profile : RadioProfile.t) : Log :=
  concat (map phy_script profile.(RadioProfile.phy_channels))
  ++ lo_script profile.(RadioProfile.center_freq_hz)
  ++ concat (map scan_script profile.(RadioProfile.scan_channels)).

Lemma script_require {A} script (condition : bool) message (m : M Log Failure A) :
  Plays script m -> Plays script (require condition message ;; m).
Proof. intros Hm. change script with ([] ++ script). apply script_bind; [apply script_lift|auto]. Qed.

Lemma script_require_some {A B} message (o : option A) (script : A -> Log)
    (f : A -> M Log Failure B) :
  (forall a, Plays (script a) (f a)) ->
  Plays (match o with Some a => script a | None => [] end) (require_some message o ≫= f).
Proof.
  intros Hf. destruct o as [a|]; cbn; [|apply script_lift].
  intros log r log' He. apply (Hf a log r log'). exact He.
Qed.

Lemma restore_profile_plays profile : Plays (restore_script profile) (restore_profile profile).
Proof.
  unfold restore_profile, restore_script. apply script_require. apply script_bind.
  - apply script_for_each. intros saved. apply script_require_some. intros channel.
    apply (script_bind [_] [_]); [apply script_call|intros _; apply script_call].
  - intros _. unfold lo_script, find_lo.
    destruct (find_output_channel PHY_DEVICE RX_LO_CHANNEL) as [lo|].
    + intros log r log' He. refine (script_bind [_] _ _ _ (script_call _ _) _ log r log' He).
      intros _. apply script_require. apply script_for_each. intros saved.
      apply script_require_some. intros channel. apply script_perform.
    + intros log r log' He. exact (script_fail _ _ log r log' He).
Qed.

(** ** Reading *)

Definition IsQuery (op : Op) : Prop :=
  match op with ReadInt _ _ _ | IsEnabled _ _ => True | _ => False end.

Lemma read_profile_queries : Within IsQuery read_profile.
Proof.
  unfold read_profile. apply within_bind; [apply within_lift|intros _].
  apply within_bind; [apply within_lift|intros lo].
  apply within_bind.
  { apply within_mapM. intros name _. apply within_bind; [apply within_lift|intros channel].
    apply within_bind; [now apply within_call|intros rate].
    apply within_bind; [now apply within_call|intros; apply within_lift]. }
  intros phy. apply within_bind; [apply within_lift|intros _].
  apply within_bind.
  { apply within_mapM. intros [position channel] _.
    apply within_bind; [now apply within_call|intros; apply within_lift]. }
  intros scans. apply within_bind; [now apply within_call|intros; apply within_lift].
Qed.

(** ** Sweeping *)

(** What the sweep may do between saving and restoring: write the plan's rates
    and its centers, select channels of the receiver, read back and stream. *)
Definition SweepOp (plan : SoftwareSweepPlan.t) (op : Op) : Prop :=
  match op with
  | WriteInt device _ attribute value =>
      device = PHY_DEVICE
      /\ (attribute = "sampling_frequency" /\ value = plan.(SoftwareSweepPlan.sample_rate_hz)
          \/ attribute = "rf_bandwidth" /\ value = plan.(SoftwareSweepPlan.rf_bandwidth_hz)
          \/ attribute = "frequency" /\ value ∈ plan.(SoftwareSweepPlan.centers_hz))
  | Enable device _ | Disable device _ => device = RX_DEVICE
  | _ => True
  end.

Lemma refills_within plan i q count : forall aggregator completed,
  Within (SweepOp plan) (refills plan i q count aggregator completed).
Proof.
  induction count as [|count IH]; intros aggregator completed; cbn; [apply within_lift|].
  apply within_bind; [|intros [snapshots aggregator']; apply IH].
  apply within_bind; [now apply within_call|intros bytes].
  apply within_bind; [apply within_lift|intros _].
  apply within_bind; [now apply within_call|intros samples; apply within_lift].
Qed.

Lemma measure_center_within plan estimate lo i q aggregator center :
  center ∈ plan.(SoftwareSweepPlan.centers_hz) ->
  Within (SweepOp plan) (measure_center plan estimate lo i q aggregator center).
Proof.
  intros Hin. unfold measure_center.
  apply within_bind; [apply within_call; cbn; tauto|intros _].
  apply within_bind; [now apply within_call|intros observed].
  apply within_bind; [apply within_lift|intros _].
  apply within_bind; [now apply within_perform|intros _].
  apply within_bind; [apply refills_within|intros [completed aggregator']].
  apply within_bind; [apply within_lift|intros; apply within_lift].
Qed.

Lemma measure_centers_within plan estimate lo i q centers : forall aggregator,
  (forall center, center ∈ centers -> center ∈ plan.(SoftwareSweepPlan.centers_hz)) ->
  Within (SweepOp plan) (measure_centers plan estimate lo i q centers aggregator).
Proof.
  induction centers as [|center centers IH]; intros aggregator Hin; cbn; [apply within_lift|].
  apply within_bind; [apply measure_center_within, Hin; left|intros [snapshot aggregator']].
  apply within_bind; [apply IH; intros c Hc; apply Hin; now right|intros; apply within_lift].
Qed.

Lemma run_inner_within plan estimate : Within (SweepOp plan) (run_inner plan estimate).
Proof.
  unfold run_inner. apply within_bind; [apply within_lift|intros _].
  apply within_bind.
  { apply within_for_each. intros name _. apply within_bind; [apply within_lift|intros channel].
    apply within_bind; [apply within_call; cbn; tauto|intros _]. apply within_call. cbn. tauto. }
  intros _. apply within_bind; [apply within_lift|intros _].
  apply within_bind.
  { apply within_for_each. intros [position channel] _. now apply within_perform. }
  intros _. apply within_bind; [apply within_lift|intros i].
  apply within_bind; [apply within_lift|intros q].
  apply within_bind; [now apply within_perform|intros _].
  apply within_bind; [now apply within_perform|intros _].
  apply within_bind; [now apply within_call|intros size].
  apply within_bind; [apply within_lift|intros _].
  apply within_bind; [now apply within_call|intros _].
  apply within_bind; [|intros outcome; apply within_bind;
    [now apply within_perform|intros _; apply within_lift]].
  apply within_attempt. apply within_bind; [apply within_lift|intros first].
  apply within_bind; [apply within_lift|intros aggregator].
  apply within_bind; [apply within_lift|intros lo].
  apply within_bind; [now apply measure_centers_within|intros; apply within_lift].
Qed.

(** ** The whole run *)

Definition Restored (expected observed : RadioProfile.t) : Prop :=
  observed.(RadioProfile.phy_channels) = expected.(RadioProfile.phy_channels)
  /\ observed.(RadioProfile.scan_channels) = expected.(RadioProfile.scan_channels)
  /\ Z.abs (expected.(RadioProfile.center_freq_hz) - observed.(RadioProfile.center_freq_hz)) <= 10.

Lemma verify_restoration_spec expected observed log :
  (verify_restoration expected observed log = (Ok tt, log) /\ Restored expected observed)
  \/ verify_restoration expected observed log = (Err (Failed "radio restoration mismatch"), log).
Proof.
  unfold verify_restoration, require, lift, ensure, Restored, abs_diff, LO_TOLERANCE_HZ.
  destruct (bool_decide_reflect (expected.(RadioProfile.phy_channels)
                                 = observed.(RadioProfile.phy_channels))); cbn; [|now right].
  destruct (bool_decide_reflect (expected.(RadioProfile.scan_channels)
                                 = observed.(RadioProfile.scan_channels))); cbn; [|now right].
  destruct (Z.ltb_spec 10 (Z.abs (expected.(RadioProfile.center_freq_hz)
    - observed.(RadioProfile.center_freq_hz)))); cbn; [now right|left]. auto.
Qed.

(** What the three ways of failing to restore report. *)
Definition RestorationFailure (r : result Failure SoftwareSweepReport.t) : Prop :=
  r = Err (Failed "radio restoration failed after sweep")
  \/ r = Err (Failed "radio restoration readback failed")
  \/ r = Err (Failed "radio restoration mismatch").
End Traces.

(** ** Theorems on the run *)
Section Run.
Context `{Iio} `{SpectrumMath}.

Lemma conclude_spec estimate ms profile execution restoration readback log r log' :
  conclude estimate ms profile execution restoration readback log = (r, log') ->
  log' = log
  /\ (RestorationFailure r
      \/ exists u restored, restoration = Ok u /\ readback = Ok restored
         /\ Restored profile restored
         /\ forall report, r = Ok report ->
            report.(SoftwareSweepReport.initial_profile) = profile
            /\ report.(SoftwareSweepReport.restored_profile) = restored).
Proof.
  unfold conclude, RestorationFailure.
  destruct restoration as [u|]; [|destruct execution as [[]|]; intros [= <- <-]; auto].
  destruct readback as [restored|]; [|destruct execution as [[]|]; intros [= <- <-]; auto].
  destruct execution as [[points candidates]|e]; rewrite bind_run;
    destruct (verify_restoration_spec profile restored log) as [[-> Hr]| ->];
    intros [= <- <-]; split; auto; right; exists u, restored; split_and!; auto;
    intros report [= <-]; auto.
Qed.

(** C29: a run either stops after queries only (the plan was refused or the profile could not be
    read), or saves a profile, performs nothing but the plan's own writes, and then plays the
    writes that put the profile back; unless the run reports one of the three restoration
    failures, all of them were performed and a profile equal to the saved one, up to 10 Hz of
    the LO, was read back, whether the sweep itself succeeded or failed.  Only a panic of the
    aggregator leaves the radio as the sweep left it. *)
Theorem sweep_restores_radio plan log r log' :
  run plan log = (r, log') ->
  (exists before e, log' = log ++ before /\ Forall IsQuery before /\ r = Err e)
  \/ exists profile before inner after,
      log' = log ++ before ++ inner ++ after
      /\ read_profile log = (Ok profile, log ++ before)
      /\ Forall IsQuery before /\ Forall (SweepOp plan) inner
      /\ (r = Err Panicked /\ after = []
          \/ exists restoring readback rest,
              after = restoring ++ readback /\ restore_script profile = restoring ++ rest
              /\ Forall IsQuery readback
              /\ (RestorationFailure r
                  \/ rest = [] /\ exists restored,
                       read_profile (log ++ before ++ inner ++ restoring) = (Ok restored, log')
                       /\ Restored profile restored
                       /\ forall report, r = Ok report ->
                          report.(SoftwareSweepReport.initial_profile) = profile
                          /\ report.(SoftwareSweepReport.restored_profile) = restored)).
Proof.
  unfold run. rewrite lift_bind_run.
  destruct (SoftwareSweepPlan.validate plan) as [estimate|e]; cbn [map_err].
  2: { intros [= <- <-]. left. exists [], (Failed e). now rewrite app_nil_r. }
  rewrite bind_run. destruct (read_profile log) as [[profile|e] log1] eqn:Eread;
    destruct (read_profile_queries _ _ _ Eread) as (before&->&Hbefore).
  2: { intros [= <- <-]. left. eauto. }
  intros He. right. exists profile, before. rewrite bind_run in He. cbn [gets] in He.
  rewrite bind_run in He. unfold attempt at 1 in He.
  destruct (run_inner plan estimate (log ++ before)) as [execution log2] eqn:Einner.
  destruct (run_inner_within plan estimate _ _ _ Einner) as (inner&->&Hinner).
  exists inner.
  assert (Hcase : execution = Err Panicked
    \/ (restoration ← attempt (restore_profile profile) ;
        restored_profile ← attempt read_profile ;
        now ← gets id ;
        conclude estimate (elapsed (log ++ before) now) profile execution restoration
          restored_profile) ((log ++ before) ++ inner) = (r, log')).
  { destruct execution as [?|[|]]; [right|right|left]; [exact He|exact He|reflexivity]. }
  destruct Hcase as [->|Hrun].
  { injection He as <- <-. exists []. rewrite !app_nil_r, <- app_assoc. auto 10. }
  clear He. rewrite bind_run in Hrun. unfold attempt at 1 in Hrun.
  destruct (restore_profile profile ((log ++ before) ++ inner)) as [restoration log3] eqn:Erest.
  destruct (restore_profile_plays profile _ _ _ Erest) as (restoring&rest&->&Hscript&Hall).
  rewrite bind_run in Hrun. unfold attempt at 1 in Hrun.
  destruct (read_profile (((log ++ before) ++ inner) ++ restoring)) as [readback log4] eqn:Eback.
  destruct (read_profile_queries _ _ _ Eback) as (queries&->&Hqueries).
  rewrite bind_run in Hrun. cbn [gets] in Hrun. exists (restoring ++ queries).
  destruct (conclude_spec _ _ _ _ _ _ _ _ _ Hrun) as [-> Hout].
  split; [now rewrite !app_assoc|]. split; [reflexivity|]. split; [exact Hbefore|].
  split; [exact Hinner|]. right. exists restoring, queries, rest.
  split; [reflexivity|]. split; [exact Hscript|]. split; [exact Hqueries|].
  destruct Hout as [Hf|([]&restored&->&->&Hr&Hrep)]; [now left|right].
  split; [apply Hall; eauto|]. exists restored. rewrite !app_assoc. auto.
Qed.

(** ** What a successful sweep measured *)

(** What the buffers held whenever both channels were read, among the operations
    [ops] that follow [log]. *)
Fixpoint samples_read (log ops : Log) : list (Z * Z) :=
  match ops with
  | [] => []
  | op :: ops =>
      (match op with ChannelData _ _ => channel_data (log ++ [op]) | _ => [] end)
      ++ samples_read (log ++ [op]) ops
  end.

(** The operations at one center: it is written to the LO and read back, the radio
    settles, and each refill is read from the channels [i] and [q], in this order. *)
Definition tuning (plan : SoftwareSweepPlan.t) (lo : nat) (center : Z) : Log :=
  [WriteInt PHY_DEVICE lo "frequency" center; ReadInt PHY_DEVICE lo "frequency";
   Sleep plan.(SoftwareSweepPlan.settle_ms)].
Fixpoint reading (i q count : nat) : Log :=
  match count with O => [] | S count => Refill :: ChannelData i q :: reading i q count end.

(** [point] was measured at [center], by the operations that follow [before]: it is
    tuned to what the LO read back, within 10 Hz of [center], and is the last snapshot
    of the samples that these refills delivered, in their order; no other samples
    were used. *)
Definition PointFor (plan : SoftwareSweepPlan.t) (lo i q count : nat) (before : Log) (center : Z)
    (point : SpectrumSnapshot.t) : Prop :=
  let tuned := point.(SpectrumSnapshot.center_freq_hz) in
  let samples := samples_read (before ++ tuning plan lo center) (reading i q count) in
  read_reply (before ++ take 2 (tuning plan lo center)) = Ok tuned
  /\ Z.abs (tuned - center) <= 10
  /\ length_z samples = Z.of_nat count * plan.(SoftwareSweepPlan.buffer_samples)
  /\ exists out, snapshots (SoftwareSweepPlan.spectrum_config plan tuned) samples = Some out
                 /\ list.last out = Some point.

(** The points of the centers, one center after the other. *)
Definition center_script (plan : SoftwareSweepPlan.t) (lo i q count : nat) (center : Z) : Log :=
  tuning plan lo center ++ reading i q count.
Fixpoint PointsFor (plan : SoftwareSweepPlan.t) (lo i q count : nat) (before : Log)
    (centers : list Z) (points : list SpectrumSnapshot.t) : Prop :=
  match centers, points with
  | [], [] => True
  | center :: centers, point :: points =>
      PointFor plan lo i q count before center point
      /\ PointsFor plan lo i q count (before ++ center_script plan lo i q count center) centers points
  | _, _ => False
  end.

Lemma attempt_Ok {S E F A} (m : M S E A) s (r : result E A) s' :
  attempt (F := F) m s = (Ok r, s') <-> m s = (r, s').
Proof. unfold attempt. destruct (m s). split; congruence. Qed.

Lemma conclude_Ok estimate ms profile execution restoration readback log report log' :
  conclude estimate ms profile execution restoration readback log = (Ok report, log') ->
  exists points candidates, execution = Ok (points, candidates)
    /\ report.(SoftwareSweepReport.estimate) = estimate
    /\ report.(SoftwareSweepReport.points) = points
    /\ report.(SoftwareSweepReport.candidates) = candidates.
Proof.
  unfold conclude. destruct execution as [[points candidates]|e], restoration, readback;
    try discriminate; rewrite bindM_Ok; intros ([]&?&_&[= <- _]).
  exists points, candidates. auto.
Qed.

Section Samples.
Context (plan : SoftwareSweepPlan.t) (estimate : SoftwareSweepEstimate.t).
(** A buffer of [buffer_samples] samples iterates over that many. *)
Hypothesis Hdata : forall log, length_z (channel_data log) = plan.(SoftwareSweepPlan.buffer_samples).

Lemma refills_push i q count : forall aggregator completed log out aggregator' log',
  refills plan i q count aggregator completed log = (Ok (out, aggregator'), log') ->
  log' = log ++ reading i q count
  /\ length_z (samples_read log (reading i q count))
     = Z.of_nat count * plan.(SoftwareSweepPlan.buffer_samples)
  /\ exists calls pushed,
      concat calls = samples_read log (reading i q count)
      /\ push_calls aggregator calls = Some (pushed, aggregator') /\ out = completed ++ pushed.
Proof.
  induction count as [|count IH]; intros aggregator completed log out aggregator' log';
    cbn [refills reading samples_read].
  - intros [= <- <- <-]. rewrite app_nil_r. split; [reflexivity|]. split; [reflexivity|].
    exists [], []. rewrite app_nil_r. auto.
  - rewrite bindM_Ok. intros ([snapshots a1]&log1&Hr&Hrest). unfold refill in Hr.
    apply bindM_Ok in Hr as (bytes&l1&Hbytes&Hr). injection Hbytes as _ <-.
    apply bindM_Ok in Hr as ([]&l2&Hreq&Hr). injection Hreq as _ <-.
    apply bindM_Ok in Hr as (samples&l3&Hs&Hr). injection Hs as <- <-.
    injection Hr as Hr <-. apply ok_or_Ok in Hr.
    destruct (IH _ _ _ _ _ _ Hrest) as (->&Hl&calls&pushed&Hc&Hp&->).
    split; [now rewrite <- !app_assoc|]. split.
    + pose proof (Hdata ((log ++ [Refill]) ++ [ChannelData i q])) as Hone. unfold length_z in *.
      cbn [app]. rewrite length_app. lia.
    + exists (channel_data ((log ++ [Refill]) ++ [ChannelData i q]) :: calls), (snapshots ++ pushed).
      cbn [concat push_calls app]. rewrite Hc, Hr. cbn. rewrite Hp. split_and!; [reflexivity..|apply eq_sym, app_assoc].
Qed.

Lemma enough_samples :
  SoftwareSweepPlan.wf plan -> SoftwareSweepPlan.validate plan = Ok estimate ->
  let total := estimate.(SoftwareSweepEstimate.refills_per_point)
               * plan.(SoftwareSweepPlan.buffer_samples) in
  1 <= estimate.(SoftwareSweepEstimate.refills_per_point) /\ total <= u64_max
  /\ forall center, 1 <= snapshots_after (SoftwareSweepPlan.spectrum_config plan center) total.
Proof.
  intros Hwf Hv total. apply (plan_decided plan estimate Hwf) in Hv as [Hp He].
  pose proof (po_buffer plan Hp) as Hb. pose proof (po_fft plan Hp) as [Hf _].
  pose proof (po_frames plan Hp) as Hfr. pose proof (cap_bounds_fft plan estimate Hp He) as Hmax.
  destruct (estimate_exact plan Hp Hwf Hmax) as [_ Hspan].
  pose proof (eo_refills plan estimate He) as Hc.
  pose proof (ceiling_bounds (span_of plan) (SoftwareSweepPlan.buffer_samples plan) _
                ltac:(lia) ltac:(lia) Hc) as Hr.
  split; [lia|]. destruct Hc as [_ Hc]. fold total in Hc. split.
  { pose proof (mul_bounds (SoftwareSweepEstimate.refills_per_point estimate)
      (SoftwareSweepPlan.buffer_samples plan) (2 ^ 32) (2 ^ 20) ltac:(lia) ltac:(lia)).
    unfold u64_max. lia. }
  intros center. unfold snapshots_after, frames_after. cbn [SpectrumConfig.fft_size
    SpectrumConfig.frames_per_snapshot SoftwareSweepPlan.spectrum_config].
  assert (Hhop : SpectrumConfig.hop_samples (SoftwareSweepPlan.spectrum_config plan center)
                 = hop_of plan).
  { unfold SpectrumConfig.hop_samples, hop_of. cbn. destruct Hwf as (_&_&_&Ho&_).
    pose proof (po_overlap plan Hp). unfold is_u in Ho.
    rewrite sub64_small by (unfold u64_max; lia). unfold mul64. rewrite Z.mod_small; [reflexivity|].
    pose proof (mul_bounds (SoftwareSweepPlan.fft_size plan)
      (100 - SoftwareSweepPlan.overlap_percent plan) (2 ^ 24) 100 ltac:(lia) ltac:(lia)). lia. }
  rewrite Hhop. unfold span_of in Hspan, Hc. assert (1 <= hop_of plan) by (unfold hop_of; lia).
  rewrite (proj2 (Z.ltb_ge _ _)) by lia. apply Z.div_le_lower_bound; [lia|].
  pose proof (Z.div_le_lower_bound (total - SoftwareSweepPlan.fft_size plan) (hop_of plan)
    (SoftwareSweepPlan.frames_per_point plan - 1) ltac:(lia) ltac:(nia)). lia.
Qed.

(** An aggregator of this sweep, tuned to [center]. *)
Definition Tuned (center : Z) (aggregator : SpectrumAggregator.t) : Prop :=
  Reached aggregator
  /\ aggregator.(SpectrumAggregator.config) = SoftwareSweepPlan.spectrum_config plan center.

Lemma tuned_reset center aggregator center' :
  Tuned center aggregator ->
  Fresh (SoftwareSweepPlan.spectrum_config plan center')
    (SpectrumAggregator.reset_for_center aggregator center')
  /\ Tuned center' (SpectrumAggregator.reset_for_center aggregator center').
Proof.
  intros [Hr Hc]. pose proof (fresh_reset aggregator center' Hr) as Hf. rewrite Hc in Hf.
  split; [exact Hf|]. split; [now apply reached_reset|]. cbn. now rewrite Hc.
Qed.

(** What the refills of one center give. *)
Lemma refills_complete center i q aggregator log out aggregator' log' :
  let count := Z.to_nat estimate.(SoftwareSweepEstimate.refills_per_point) in
  let samples := samples_read log (reading i q count) in
  SoftwareSweepPlan.wf plan -> SoftwareSweepPlan.validate plan = Ok estimate ->
  Fresh (SoftwareSweepPlan.spectrum_config plan center) aggregator ->
  refills plan i q count aggregator [] log = (Ok (out, aggregator'), log') ->
  log' = log ++ reading i q count
  /\ length_z samples = Z.of_nat count * plan.(SoftwareSweepPlan.buffer_samples)
  /\ snapshots (SoftwareSweepPlan.spectrum_config plan center) samples = Some out
  /\ (exists point, list.last out = Some point)
  /\ exists calls, push_calls aggregator calls = Some (out, aggregator').
Proof.
  intros count samples Hwf Hv Hf Hr. destruct (enough_samples Hwf Hv) as (H1&Hmax&Henough).
  apply refills_push in Hr as (->&Hl&calls&pushed&Hc&Hp&->). fold samples in Hl, Hc.
  assert (Htotal : Z.of_nat count * plan.(SoftwareSweepPlan.buffer_samples)
                   = estimate.(SoftwareSweepEstimate.refills_per_point)
                     * plan.(SoftwareSweepPlan.buffer_samples)) by (subst count; lia).
  destruct (fresh_push _ _ calls Hf) as [s' Hs]; [rewrite Hc; lia|].
  pose proof Hp as Hp'. rewrite Hs in Hp'. rewrite Hc in Hp'.
  destruct (snapshots _ samples) as [snaps|] eqn:E; [|discriminate].
  injection Hp' as -> _. cbn [app]. pose proof (length_snapshots _ _ _ E) as Hlen.
  rewrite Hl, Htotal in Hlen. specialize (Henough center).
  destruct (last_is_Some pushed) as [_ [point Hpoint]]; [intros ->; cbn in Hlen; lia|].
  split_and!; eauto.
Qed.

#[local] Abbreviation refill_count := (Z.to_nat estimate.(SoftwareSweepEstimate.refills_per_point)).

Lemma measure_center_point center0 lo i q aggregator center log point aggregator' log' :
  SoftwareSweepPlan.wf plan -> SoftwareSweepPlan.validate plan = Ok estimate ->
  Tuned center0 aggregator ->
  measure_center plan estimate lo i q aggregator center log = (Ok (point, aggregator'), log') ->
  PointFor plan lo i q refill_count log center point
  /\ log' = log ++ center_script plan lo i q refill_count center
  /\ exists center', Tuned center' aggregator'.
Proof.
  intros Hwf Hv Ht. unfold measure_center. rewrite bindM_Ok. intros ([]&l1&Hwrite&Hm).
  injection Hwrite as _ <-. apply bindM_Ok in Hm as (tuned&l2&Hread&Hm).
  injection Hread as Hread <-. apply map_err_Ok in Hread. rewrite <- app_assoc in Hread.
  apply bindM_Ok in Hm as ([]&l3&Htol&Hm).
  injection Htol as Htol <-. apply ensure_Ok, negb_true_iff, Z.ltb_ge in Htol.
  unfold LO_TOLERANCE_HZ, abs_diff in Htol.
  apply bindM_Ok in Hm as ([]&l4&Hsleep&Hm). injection Hsleep as <-.
  apply bindM_Ok in Hm as ([out a1]&l5&Hr&Hm).
  apply bindM_Ok in Hm as (snapshot&l6&Hlast&Hm). injection Hm as <- <- <-.
  injection Hlast as Hlast <-. apply ok_or_Ok in Hlast.
  rewrite <- !app_assoc in Hr. change ([_] ++ [_] ++ [_]) with (tuning plan lo center) in Hr.
  destruct (tuned_reset center0 aggregator tuned Ht) as [Hf [Hre Hc]].
  destruct (refills_complete tuned i q _ _ _ _ _ Hwf Hv Hf Hr) as (->&Hl&Hs&_&calls&Hpush).
  assert (Hcenter : snapshot.(SpectrumSnapshot.center_freq_hz) = tuned).
  { refine (snapshots_center _ _ _ _ Hs _). apply last_Some in Hlast as [init ->].
    apply elem_of_app. right. left. }
  split; [|split].
  - unfold PointFor. rewrite Hcenter.
    split_and!; [exact Hread|exact Htol|exact Hl|]. exists out. split; [exact Hs|exact Hlast].
  - unfold center_script. now rewrite app_assoc.
  - exists tuned. destruct (push_calls_reached _ _ _ _ Hre Hpush) as [H1 H2].
    split; [exact H1|]. now rewrite H2.
Qed.

Lemma measure_centers_points lo i q centers : forall center0 aggregator log points log',
  SoftwareSweepPlan.wf plan -> SoftwareSweepPlan.validate plan = Ok estimate ->
  Tuned center0 aggregator ->
  measure_centers plan estimate lo i q centers aggregator log = (Ok points, log') ->
  PointsFor plan lo i q refill_count log centers points
  /\ log' = log ++ concat (map (center_script plan lo i q refill_count) centers).
Proof.
  induction centers as [|center centers IH]; intros center0 aggregator log points log' Hwf Hv Ht;
    cbn [measure_centers].
  - intros [= <- <-]. cbn. now rewrite app_nil_r.
  - rewrite bindM_Ok. intros ([point a1]&l1&Hm&Hrest).
    apply bindM_Ok in Hrest as (rest&l2&Hrest&Hret). injection Hret as <- <-.
    destruct (measure_center_point _ _ _ _ _ _ _ _ _ _ Hwf Hv Ht Hm) as (Hp&->&c'&Ht').
    destruct (IH _ _ _ _ _ Hwf Hv Ht' Hrest) as [Hps ->].
    cbn [PointsFor map concat]. rewrite app_assoc. auto.
Qed.

Lemma spectrum_config_wf center :
  SoftwareSweepPlan.wf plan -> SpectrumConfig.wf (SoftwareSweepPlan.spectrum_config plan center).
Proof.
  intros (_&_&?&?&?&?&?&_). unfold SpectrumConfig.wf; cbn. split_and!; try assumption.
  all: unfold is_u, u64_max; lia.
Qed.

(** The last operations before the loop: both channels are enabled, and the buffer is created. *)
Definition buffer_script (i q : nat) : Log :=
  [Enable RX_DEVICE i; Enable RX_DEVICE q; SampleSize RX_DEVICE;
   CreateBuffer RX_DEVICE plan.(SoftwareSweepPlan.buffer_samples)].

(** The points of a sweep whose log is [log'], with the operations [before] and [after]
    around the loop over the centers. *)
Definition Swept (log log' : Log) (points : list SpectrumSnapshot.t) : Prop :=
  exists lo i q before after,
    find_output_channel PHY_DEVICE RX_LO_CHANNEL = Some lo
    /\ find_input_channel RX_DEVICE RX_I_CHANNEL = Some i
    /\ find_input_channel RX_DEVICE RX_Q_CHANNEL = Some q
    /\ let start := log ++ before ++ buffer_script i q in
       log' = start ++ concat (map (center_script plan lo i q refill_count)
                                 plan.(SoftwareSweepPlan.centers_hz)) ++ DropBuffer :: after
       /\ PointsFor plan lo i q refill_count start plan.(SoftwareSweepPlan.centers_hz) points.

Lemma write_rates_log log r log' : write_rates plan log = (r, log') -> exists ops, log' = log ++ ops.
Proof.
  intros Hm. apply (within_for_each (fun _ => True)) in Hm as (ops&->&_); [eauto|].
  intros name _. apply within_bind; [apply within_lift|intros channel].
  apply within_bind; [now apply within_call|intros _]. now apply within_call.
Qed.
Lemma disable_all_log log r log' : disable_all log = (r, log') -> exists ops, log' = log ++ ops.
Proof.
  intros Hm. apply (within_for_each (fun _ => True)) in Hm as (ops&->&_); [eauto|].
  intros [position channel] _. now apply within_perform.
Qed.

Lemma run_inner_points log points candidates log' :
  SoftwareSweepPlan.wf plan -> SoftwareSweepPlan.validate plan = Ok estimate ->
  run_inner plan estimate log = (Ok (points, candidates), log') ->
  Swept log log' points /\ candidates = merge_candidates points plan.
Proof.
  intros Hwf Hv. unfold run_inner. rewrite bindM_Ok. intros ([]&?&[= _ <-]&Hm).
  apply bindM_Ok in Hm as ([]&?&(rates&->)%write_rates_log&Hm).
  apply bindM_Ok in Hm as ([]&?&[= _ <-]&Hm).
  apply bindM_Ok in Hm as ([]&?&(disabled&->)%disable_all_log&Hm).
  apply bindM_Ok in Hm as (i&?&Hi&Hm). injection Hi as Hi <-. apply ok_or_Ok in Hi.
  apply bindM_Ok in Hm as (q&?&Hq&Hm). injection Hq as Hq <-. apply ok_or_Ok in Hq.
  apply bindM_Ok in Hm as ([]&?&[= <-]&Hm). apply bindM_Ok in Hm as ([]&?&[= <-]&Hm).
  apply bindM_Ok in Hm as (size&?&Hsize&Hm). injection Hsize as _ <-.
  apply bindM_Ok in Hm as ([]&?&[= _ <-]&Hm).
  apply bindM_Ok in Hm as ([]&?&Hbuffer&Hm). injection Hbuffer as _ <-. unfold with_buffer in Hm.
  apply bindM_Ok in Hm as (outcome&l1&Hatt&Hm). apply bindM_Ok in Hm as ([]&?&[= <-]&Hm).
  injection Hm as -> <-. pose proof (proj1 (attempt_Ok _ _ _ _) Hatt) as E.
  apply bindM_Ok in E as (first&?&[= _ <-]&E). apply bindM_Ok in E as (aggregator&?&Hnew&E).
  injection Hnew as Hnew <-. apply map_err_Ok in Hnew.
  apply bindM_Ok in E as (lo&?&Hlo&E). injection Hlo as Hlo <-. apply ok_or_Ok in Hlo.
  apply bindM_Ok in E as (ps&?&Hps&E). injection E as -> <- <-. split; [|reflexivity].
  rewrite <- !app_assoc in Hps. cbn [app] in Hps.
  eapply (measure_centers_points _ _ _ _ first) in Hps as [Hpoints ->];
    [|exact Hwf|exact Hv|split].
  - exists lo, i, q, (rates ++ disabled), []. unfold buffer_script.
    split; [exact Hlo|]. split; [exact Hi|]. split; [exact Hq|]. rewrite <- !app_assoc.
    split; [reflexivity|exact Hpoints].
  - eapply reached_new; [now apply spectrum_config_wf|exact Hnew].
  - unfold SpectrumAggregator.new in Hnew. apply unit_seq in Hnew as [_ [= <-]]. reflexivity.
Qed.

(** What happens before and after the sweep itself does not matter to its points. *)
Lemma swept_inside log before log1 log' ops points :
  log1 = log ++ before -> Swept log1 log' points -> Swept log (log' ++ ops) points.
Proof.
  intros -> (lo&i&q&before'&after&Hlo&Hi&Hq&->&Hpoints).
  exists lo, i, q, (before ++ before'), (after ++ ops). rewrite <- !app_assoc in *.
  do 3 (split; [assumption|]). cbn zeta. rewrite <- !app_assoc. split; [reflexivity|exact Hpoints].
Qed.
End Samples.

(** the refills the estimate allots are always enough: once they all succeeded, a fresh or
    reset aggregator has completed at least one snapshot, so the sweep never fails with "FFT
    aggregation did not complete one sweep point"; the snapshots are those of the samples. *)
Theorem refills_suffice plan estimate center i q aggregator log out aggregator' log' :
  (forall log, length_z (channel_data log) = plan.(SoftwareSweepPlan.buffer_samples)) ->
  SoftwareSweepPlan.wf plan -> SoftwareSweepPlan.validate plan = Ok estimate ->
  Fresh (SoftwareSweepPlan.spectrum_config plan center) aggregator ->
  refills plan i q (Z.to_nat estimate.(SoftwareSweepEstimate.refills_per_point)) aggregator [] log
  = (Ok (out, aggregator'), log') ->
  exists samples point,
    length_z samples = estimate.(SoftwareSweepEstimate.refills_per_point)
                       * plan.(SoftwareSweepPlan.buffer_samples)
    /\ snapshots (SoftwareSweepPlan.spectrum_config plan center) samples = Some out
    /\ list.last out = Some point.
Proof.
  intros Hdata Hwf Hv Hf Hr.
  destruct (refills_complete plan estimate Hdata center i q _ _ _ _ _ Hwf Hv Hf Hr)
    as (_&Hl&Hs&[point Hp]&_). destruct (enough_samples plan estimate Hwf Hv) as (H1&_&_).
  eexists _, point. split_and!; [rewrite Hl; lia|exact Hs|exact Hp].
Qed.

(** C31: a sweep that succeeds measured every center of the plan, in order, from the
    samples the radio delivered at that center: with both channels enabled and the buffer
    created, its log is, for one center after the other, the write of the center to the LO, its
    readback, the settling time and the refills of the estimate, each read from the I and the
    Q channel in this order, and then the end of the buffer. Point [k] is tuned to what the LO
    read back at center [k], within 10 Hz of it, and is the last snapshot of the samples
    that exactly these refills delivered, all of them and in their order, nothing left over from another center; the candidates
    are the merged ones of these points. It is assumed that a full buffer iterates over as
    many samples as it was created with. *)
Theorem sweep_measures_every_center plan log report log' :
  (forall log, length_z (channel_data log) = plan.(SoftwareSweepPlan.buffer_samples)) ->
  SoftwareSweepPlan.wf plan ->
  run plan log = (Ok report, log') ->
  let estimate := report.(SoftwareSweepReport.estimate) in
  SoftwareSweepPlan.validate plan = Ok estimate
  /\ Swept plan estimate log log' report.(SoftwareSweepReport.points)
  /\ report.(SoftwareSweepReport.candidates)
     = merge_candidates report.(SoftwareSweepReport.points) plan.
Proof.
  intros Hdata Hwf Hrun. unfold run in Hrun. apply lift_bind_Ok in Hrun as (estimate&Hv&Hrun).
  apply map_err_Ok in Hv. apply bindM_Ok in Hrun as (profile&l1&Hread&Hrun).
  destruct (read_profile_queries _ _ _ Hread) as (before&->&_).
  apply bindM_Ok in Hrun as (started&l2&[= _ <-]&Hrun).
  apply bindM_Ok in Hrun as (execution&l3&Hin&Hrun).
  pose proof (proj1 (attempt_Ok _ _ _ _) Hin) as E.
  assert (Hok : exists ops points candidates, log' = l3 ++ ops /\ execution = Ok (points, candidates)
    /\ report.(SoftwareSweepReport.estimate) = estimate
    /\ report.(SoftwareSweepReport.points) = points
    /\ report.(SoftwareSweepReport.candidates) = candidates).
  { destruct execution as [?|[m|]]; [| |discriminate Hrun];
      apply bindM_Ok in Hrun as (restoration&?&Hrestore&Hrun); apply bindM_Ok in Hrun as (readback&?&Hback&Hrun);
      apply bindM_Ok in Hrun as (now&?&[= _ <-]&Hrun);
      pose proof (proj1 (attempt_Ok _ _ _ _) Hrestore) as Hplays;
      apply restore_profile_plays in Hplays as (restoring&_&->&_);
      pose proof (proj1 (attempt_Ok _ _ _ _) Hback) as Hqueries;
      apply read_profile_queries in Hqueries as (queries&->&_);
      apply conclude_spec in Hrun as Hlog; destruct Hlog as [-> _];
      apply conclude_Ok in Hrun as (points&candidates&Hexecution&Hreport);
      exists (restoring ++ queries), points, candidates; rewrite app_assoc; auto. }
  destruct Hok as (ops&points&candidates&->&->&He&Hpt&Hca). cbv zeta. rewrite He, Hpt, Hca.
  split; [exact Hv|].
  destruct (run_inner_points plan estimate Hdata _ _ _ _ Hwf Hv E) as [Hswept Hmerged].
  split; [exact (swept_inside _ _ _ _ _ _ _ _ eq_refl Hswept)|exact Hmerged].
Qed.
End Run.

(** ** A simulated radio *)
Module SoftwareSweepSamples.
Definition plan : SoftwareSweepPlan.t :=
  {| SoftwareSweepPlan.centers_hz := [2440000000; 2441000000];
     SoftwareSweepPlan.continuous_step_hz := Some 1000000;
     SoftwareSweepPlan.sample_rate_hz := 2100000;
     SoftwareSweepPlan.rf_bandwidth_hz := 2000000;
     SoftwareSweepPlan.buffer_samples := 1024;
     SoftwareSweepPlan.settle_ms := 5;
     SoftwareSweepPlan.fft_size := 64;
     SoftwareSweepPlan.overlap_percent := 0;
     SoftwareSweepPlan.frames_per_point := 16;
     SoftwareSweepPlan.coarse_bins := 4;
     SoftwareSweepPlan.threshold_db := f32_of_Z 12;
     SoftwareSweepPlan.merge_gap_bins := 1;
     SoftwareSweepPlan.max_points := 4 |}.
Definition estimate : SoftwareSweepEstimate.t := SoftwareSweepEstimate.mk 2 1 8192 11.

(** The value an attribute was last given. *)
Definition written (log : Log) (device : string) (channel : nat) (attribute : string) : Z :=
  foldl (fun value op =>
           match op with
           | WriteInt d c a v =>
               if bool_decide ((d, c, a) = (device, channel, attribute)) then v else value
           | _ => value
           end) 3000000 log.
Definition switched (log : Log) (channel : nat) : bool :=
  foldl (fun state op =>
           match op with
           | Enable _ c => if Nat.eqb c channel then true else state
           | Disable _ c => if Nat.eqb c channel then false else state
           | _ => state
           end) false log.
Definition samples : list (Z * Z) := map (fun i => (i mod 7, i mod 5)) (seqZ 0 1024).

Definition position (name : string) : option nat :=
  if bool_decide (name = "voltage0") then Some 0%nat
  else if bool_decide (name = "voltage1") then Some 1%nat
  else if bool_decide (name = "altvoltage0") then Some 2%nat else None.

Definition radio : Iio := {|
  has_device := fun _ => true;
  channels := fun _ =>
    [IioChannel.mk (Some "voltage0") true true; IioChannel.mk (Some "voltage1") true true];
  find_input_channel := fun _ => position;
  find_output_channel := fun _ => position;
  write_reply := fun _ => Ok tt;
  read_reply := fun log =>
    match list.last log with
    | Some (ReadInt device channel attribute) => Ok (written log device channel attribute)
    | _ => Err "unexpected"
    end;
  enabled_reply := fun log =>
    match list.last log with Some (IsEnabled _ channel) => switched log channel | _ => false end;
  sample_size_reply := fun _ => Ok 4;
  create_buffer_reply := fun _ => Ok tt;
  refill_reply := fun _ => Ok 4096;
  channel_data := fun _ => samples;
  elapsed := fun _ _ => 17;
|}.

Lemma software_plan_wf : SoftwareSweepPlan.wf plan.
Proof. vm_compute. intuition congruence. Qed.
Lemma data_length (log : Log) : length_z (@channel_data radio log) = 1024.
Proof. reflexivity. Qed.
End SoftwareSweepSamples.
#[local] Existing Instance SoftwareSweepSamples.radio.
#[local] Existing Instance AggregationSamples.math.

Lemma software_plan_decides_witness :
  PlanOk SoftwareSweepSamples.plan
  /\ EstimateOk SoftwareSweepSamples.plan SoftwareSweepSamples.estimate.
Proof.
  apply (software_plan_decides SoftwareSweepSamples.plan SoftwareSweepSamples.estimate
           SoftwareSweepSamples.software_plan_wf). vm_compute. reflexivity.
Defined.

Lemma sweep_restores_radio_witness :
  is_Ok (run SoftwareSweepSamples.plan []).1 = true
  /\ exists profile restored log, read_profile [] = (Ok profile, log)
     /\ Restored profile restored.
Proof.
  assert (Hok : is_Ok (run SoftwareSweepSamples.plan []).1 = true) by (vm_compute; reflexivity).
  split; [exact Hok|].
  destruct (sweep_restores_radio SoftwareSweepSamples.plan [] _ _
              (surjective_pairing (run SoftwareSweepSamples.plan [])))
    as [(b&e&_&_&Hr)|(profile&before&inner&after&_&Hread&_&_&Hcase)].
  { rewrite Hr in Hok. discriminate Hok. }
  destruct Hcase as [[Hr _]|(restoring&readback&rest&_&_&_&Hres)].
  { rewrite Hr in Hok. discriminate Hok. }
  destruct Hres as [[Hr|[Hr|Hr]]|(_&restored&_&Hrestored&_)];
    [rewrite Hr in Hok; discriminate Hok..|].
  exists profile, restored. eauto.
Defined.

Lemma sweep_measures_every_center_witness :
  exists report,
    (run SoftwareSweepSamples.plan []).1 = Ok report
    /\ Swept SoftwareSweepSamples.plan SoftwareSweepSamples.estimate [] (run SoftwareSweepSamples.plan []).2
         report.(SoftwareSweepReport.points)
    /\ length report.(SoftwareSweepReport.points) = 2%nat.
Proof.
  assert (Hok : is_Ok (run SoftwareSweepSamples.plan []).1 = true) by (vm_compute; reflexivity).
  apply is_Ok_spec in Hok as [report Hr]. exists report. split; [exact Hr|].
  destruct (sweep_measures_every_center SoftwareSweepSamples.plan [] report
              (run SoftwareSweepSamples.plan []).2 SoftwareSweepSamples.data_length
              SoftwareSweepSamples.software_plan_wf) as (Hv&Hp&_).
  { rewrite <- Hr. apply surjective_pairing. }
  assert (He : SoftwareSweepPlan.validate SoftwareSweepSamples.plan
               = Ok SoftwareSweepSamples.estimate) by (vm_compute; reflexivity).
  rewrite He in Hv. injection Hv as Hv. rewrite <- Hv in Hp. split; [exact Hp|].
  destruct Hp as (lo&i&q&before&after&_&_&_&_&Hpoints). revert Hpoints.
  destruct (SoftwareSweepReport.points report) as [|p1 [|p2 [|p3 points]]]; cbn; tauto.
Defined.

Lemma refills_suffice_witness :
  exists aggregator out,
    SpectrumAggregator.new (SoftwareSweepPlan.spectrum_config SoftwareSweepSamples.plan 2440000000)
    = Ok aggregator
    /\ (refills SoftwareSweepSamples.plan 0 1 1 aggregator [] []).1 = Ok out
    /\ exists point, list.last out.1 = Some point.
Proof.
  destruct (proj1 (is_Ok_spec (SpectrumAggregator.new
    (SoftwareSweepPlan.spectrum_config SoftwareSweepSamples.plan 2440000000)))
    ltac:(vm_compute; reflexivity)) as [aggregator Hnew].
  assert (Hok : match SpectrumAggregator.new
                  (SoftwareSweepPlan.spectrum_config SoftwareSweepSamples.plan 2440000000) with
                | Ok a => is_Ok (refills SoftwareSweepSamples.plan 0 1 1 a [] []).1
                | Err _ => false end = true) by (vm_compute; reflexivity).
  rewrite Hnew in Hok. apply is_Ok_spec in Hok as [[out aggregator'] Hr].
  exists aggregator, (out, aggregator'). split; [exact Hnew|]. split; [exact Hr|].
  destruct (refills_suffice SoftwareSweepSamples.plan SoftwareSweepSamples.estimate 2440000000
              0 1 aggregator [] out aggregator' (refills SoftwareSweepSamples.plan 0 1 1 aggregator [] []).2
              SoftwareSweepSamples.data_length SoftwareSweepSamples.software_plan_wf
              ltac:(vm_compute; reflexivity)) as (samples&point&_&_&Hp).
  - apply fresh_new; [vm_compute; intuition congruence|exact Hnew].
  - change (Z.to_nat _) with 1%nat. rewrite <- Hr. apply surjective_pairing.
  - exists point. exact Hp.
Defined.
