(* ===== verification/RadioConfig.v ===== *)
(** * The command line of the p201pro test program

    [raspberry-pi/p201pro-rust/src/main.rs], lines 22 to 282: the configuration,
    the options that change it, the checks on it, and the sweep plan it stands
    for.  As in [SoftwareSweep] error texts are kept without the values the code
    formats into some of them. *)
From S2P Require Import Prelude Text F32 Protocol Session Numbers Aggregation SoftwareSweep.

(** ** The configuration *)
Module Command.
Inductive t := Probe | Capture | Sweep.
#[global] Instance t_eq_dec : EqDecision t.
Proof. solve_decision. Defined.
End Command.

Module Analysis.
Inductive t := Aggregate | Full | None.
#[global] Instance t_eq_dec : EqDecision t.
Proof. solve_decision. Defined.
End Analysis.

Module Config.
Record t : Type := mk {
  command : Command.t;
  uri : string;
  center_freq_hz : Z;
  sample_rate_hz : Z;
  rf_bandwidth_hz : Z;
  buffer_samples : Z;
  seconds : Z;
  analysis : Analysis.t;
  fft_size : Z;
  overlap_percent : Z;
  report_hz : Z;
  coarse_bins : Z;
  threshold_db : float;
  merge_gap_bins : Z;
  sweep_centers_hz : list Z;
  sweep_start_hz : option Z;
  sweep_stop_hz : option Z;
  sweep_step_hz : option Z;
  settle_ms : Z;
  frames_per_point : Z;
  max_points : Z;
}.

(** [Config::default]. *)
Definition default : t :=
  {| command := Command.Probe;
     uri := "ip:192.168.1.10";
     center_freq_hz := 2452000000;
     sample_rate_hz := 2100000;
     rf_bandwidth_hz := 2000000;
     buffer_samples := 65536;
     seconds := 3;
     analysis := Analysis.Full;
     fft_size := 2048;
     overlap_percent := 50;
     report_hz := 10;
     coarse_bins := 96;
     threshold_db := f32_of_Z 12;
     merge_gap_bins := 1;
     sweep_centers_hz := [];
     sweep_start_hz := None;
     sweep_stop_hz := None;
     sweep_step_hz := None;
     settle_ms := 5;
     frames_per_point := 8;
     max_points := 64 |}.

Definition eta (c : t) : t :=
  mk c.(command) c.(uri) c.(center_freq_hz) c.(sample_rate_hz) c.(rf_bandwidth_hz)
    c.(buffer_samples) c.(seconds) c.(analysis) c.(fft_size) c.(overlap_percent)
    c.(report_hz) c.(coarse_bins) c.(threshold_db) c.(merge_gap_bins) c.(sweep_centers_hz)
    c.(sweep_start_hz) c.(sweep_stop_hz) c.(sweep_step_hz) c.(settle_ms)
    c.(frames_per_point) c.(max_points).
Ltac assign field := assign_field eta field.
Definition with_command : Command.t -> t -> t := ltac:(assign command).
Definition with_uri : string -> t -> t := ltac:(assign uri).
Definition with_center_freq_hz : Z -> t -> t := ltac:(assign center_freq_hz).
Definition with_sample_rate_hz : Z -> t -> t := ltac:(assign sample_rate_hz).
Definition with_rf_bandwidth_hz : Z -> t -> t := ltac:(assign rf_bandwidth_hz).
Definition with_buffer_samples : Z -> t -> t := ltac:(assign buffer_samples).
Definition with_seconds : Z -> t -> t := ltac:(assign seconds).
Definition with_analysis : Analysis.t -> t -> t := ltac:(assign analysis).
Definition with_fft_size : Z -> t -> t := ltac:(assign fft_size).
Definition with_overlap_percent : Z -> t -> t := ltac:(assign overlap_percent).
Definition with_report_hz : Z -> t -> t := ltac:(assign report_hz).
Definition with_coarse_bins : Z -> t -> t := ltac:(assign coarse_bins).
Definition with_threshold_db : float -> t -> t := ltac:(assign threshold_db).
Definition with_merge_gap_bins : Z -> t -> t := ltac:(assign merge_gap_bins).
Definition with_sweep_centers_hz : list Z -> t -> t := ltac:(assign sweep_centers_hz).
Definition with_sweep_start_hz : option Z -> t -> t := ltac:(assign sweep_start_hz).
Definition with_sweep_stop_hz : option Z -> t -> t := ltac:(assign sweep_stop_hz).
Definition with_sweep_step_hz : option Z -> t -> t := ltac:(assign sweep_step_hz).
Definition with_settle_ms : Z -> t -> t := ltac:(assign settle_ms).
Definition with_frames_per_point : Z -> t -> t := ltac:(assign frames_per_point).
Definition with_max_points : Z -> t -> t := ltac:(assign max_points).

(** [parse_value]. *)
Definition parse_value {A} (parse : string -> option A) (flag value : string) : result string A :=
  ok_or ("invalid value for " +:+ flag) (parse value).

(** [split] at a comma. *)
Fixpoint split_commas (bs part : list Z) : list (list Z) :=
  match bs with
  | [] => [List.rev part]
  | b :: bs => if b =? 44 then List.rev part :: split_commas bs [] else split_commas bs (b :: part)
  end.
Definition parse_centers (value : string) : result string (list Z) :=
  reject_if (is_empty (trim value)) "--centers must not be empty" ;;
  mapM (fun center => parse_value parse_i64 "--centers" (trim (of_bytes center)))
    (split_commas (bytes value) []).

Definition parse_analysis (value : string) : result string Analysis.t :=
  if String.eqb value "aggregate" then Ok Analysis.Aggregate
  else if String.eqb value "full" then Ok Analysis.Full
  else if String.eqb value "none" then Ok Analysis.None
  else Err "--analysis must be aggregate, full, or none"%string.

(** The [match] on the flag. *)
Definition set_option (flag value : string) (c : t) : result string t :=
  let i64 := parse_value parse_i64 flag value in
  let u64 := parse_value parse_u64 flag value in
  let usize := parse_value parse_usize flag value in
  if String.eqb flag "--uri" then Ok (with_uri value c)
  else if String.eqb flag "--center-freq" then n ← i64 ; Ok (with_center_freq_hz n c)
  else if String.eqb flag "--sample-rate" then n ← i64 ; Ok (with_sample_rate_hz n c)
  else if String.eqb flag "--rf-bandwidth" then n ← i64 ; Ok (with_rf_bandwidth_hz n c)
  else if String.eqb flag "--buffer-samples" then n ← usize ; Ok (with_buffer_samples n c)
  else if String.eqb flag "--seconds" then n ← u64 ; Ok (with_seconds n c)
  else if String.eqb flag "--analysis" then a ← parse_analysis value ; Ok (with_analysis a c)
  else if String.eqb flag "--fft-size" then n ← usize ; Ok (with_fft_size n c)
  else if String.eqb flag "--overlap-percent" then n ← usize ; Ok (with_overlap_percent n c)
  else if String.eqb flag "--report-hz" then n ← usize ; Ok (with_report_hz n c)
  else if String.eqb flag "--coarse-bins" then n ← usize ; Ok (with_coarse_bins n c)
  else if String.eqb flag "--threshold-db" then
    x ← parse_value parse_f32 flag value ; Ok (with_threshold_db x c)
  else if String.eqb flag "--merge-gap-bins" then n ← usize ; Ok (with_merge_gap_bins n c)
  else if String.eqb flag "--centers" then l ← parse_centers value ; Ok (with_sweep_centers_hz l c)
  else if String.eqb flag "--start-freq" then n ← i64 ; Ok (with_sweep_start_hz (Some n) c)
  else if String.eqb flag "--stop-freq" then n ← i64 ; Ok (with_sweep_stop_hz (Some n) c)
  else if String.eqb flag "--step-freq" then n ← i64 ; Ok (with_sweep_step_hz (Some n) c)
  else if String.eqb flag "--settle-ms" then n ← u64 ; Ok (with_settle_ms n c)
  else if String.eqb flag "--frames-per-point" then n ← usize ; Ok (with_frames_per_point n c)
  else if String.eqb flag "--max-points" then n ← usize ; Ok (with_max_points n c)
  else Err "unknown option"%string.

Fixpoint parse_options (args : list string) (c : t) : result string t :=
  match args with
  | [] => Ok c
  | [flag] => Err ("missing value for " +:+ flag)
  | flag :: value :: args => c ← set_option flag value c ; parse_options args c
  end.

(** ** The sweep plan *)

(** The loop over the range; [centers] is reversed.  It ends after at most
    [max_points] steps, so that the fuel never runs out. *)
Fixpoint range_centers (fuel : nat) (stop step max_points center : Z) (centers : list Z)
    : result string (list Z) :=
  if center <=? stop then
    match fuel with
    | O => Err "sweep range exceeds max-points"%string
    | S fuel =>
        if length_z centers =? max_points then Err "sweep range exceeds max-points"%string
        else
          next ← ok_or "sweep frequency overflow"%string
                   (if i64_max <? center + step then None else Some (center + step)) ;
          range_centers fuel stop step max_points next (center :: centers)
    end
  else Ok (List.rev centers).

(** [self.sweep_start_hz], [sweep_stop_hz] and [sweep_step_hz] as centers. *)
Definition centers_of_range (self : t) : result string (list Z * Z) :=
  start ← ok_or "sweep requires --centers or --start-freq"%string self.(sweep_start_hz) ;
  stop ← ok_or "sweep range requires --stop-freq"%string self.(sweep_stop_hz) ;
  step ← ok_or "sweep range requires --step-freq"%string self.(sweep_step_hz) ;
  reject_if ((stop <? start) || (step <=? 0)) "sweep range requires start <= stop and step > 0"%string ;;
  centers ← range_centers (S (Z.to_nat self.(max_points))) stop step self.(max_points) start [] ;
  Ok (centers, step).

Definition has_range (self : t) : bool :=
  negb (is_none self.(sweep_start_hz)) || negb (is_none self.(sweep_stop_hz))
  || negb (is_none self.(sweep_step_hz)).

Definition software_sweep_plan (self : t) : result string SoftwareSweepPlan.t :=
  reject_if (negb (null self.(sweep_centers_hz)) && has_range self)
    "use either --centers or start/stop/step, not both"%string ;;
  '(centers_hz, continuous_step_hz) ←
    (if null self.(sweep_centers_hz) then
       '(centers, step) ← centers_of_range self ; Ok (centers, Some step)
     else Ok (self.(sweep_centers_hz), None)) ;
  Ok {| SoftwareSweepPlan.centers_hz := centers_hz;
        SoftwareSweepPlan.continuous_step_hz := continuous_step_hz;
        SoftwareSweepPlan.sample_rate_hz := self.(sample_rate_hz);
        SoftwareSweepPlan.rf_bandwidth_hz := self.(rf_bandwidth_hz);
        SoftwareSweepPlan.buffer_samples := self.(buffer_samples);
        SoftwareSweepPlan.settle_ms := self.(settle_ms);
        SoftwareSweepPlan.fft_size := self.(fft_size);
        SoftwareSweepPlan.overlap_percent := self.(overlap_percent);
        SoftwareSweepPlan.frames_per_point := self.(frames_per_point);
        SoftwareSweepPlan.coarse_bins := self.(coarse_bins);
        SoftwareSweepPlan.threshold_db := self.(threshold_db);
        SoftwareSweepPlan.merge_gap_bins := self.(merge_gap_bins);
        SoftwareSweepPlan.max_points := self.(max_points) |}.

(** ** The checks *)
Definition check_radio (self : t) : result string unit :=
  reject_if (negb (starts_with "ip:" self.(uri))) "--uri must use the ip: libiio backend"%string ;;
  reject_if (negb (in_range 70000000 6000000000 self.(center_freq_hz)))
    "--center-freq must be between 70 MHz and 6 GHz"%string ;;
  reject_if (negb (in_range 2083333 30720000 self.(sample_rate_hz)))
    "--sample-rate must be between 2.083333 and 30.72 MS/s"%string ;;
  reject_if (negb (in_range 200000 56000000 self.(rf_bandwidth_hz)))
    "--rf-bandwidth must be between 0.2 and 56 MHz"%string ;;
  reject_if (self.(sample_rate_hz) <? self.(rf_bandwidth_hz))
    "--sample-rate must be >= --rf-bandwidth"%string ;;
  reject_if (negb (in_range 1024 1048576 self.(buffer_samples)))
    "--buffer-samples must be between 1024 and 1048576"%string ;;
  reject_if (negb (in_range 1 60 self.(seconds))) "--seconds must be between 1 and 60"%string.

Definition check_aggregate (self : t) : result string unit :=
  reject_if ((self.(fft_size) <? 64) || negb (usize_is_power_of_two self.(fft_size)))
    "--fft-size must be a power of two >= 64"%string ;;
  reject_if (75 <? self.(overlap_percent)) "--overlap-percent must be between 0 and 75"%string ;;
  reject_if (negb (in_range 1 100 self.(report_hz))) "--report-hz must be between 1 and 100"%string ;;
  reject_if ((self.(coarse_bins) =? 0) || (self.(fft_size) <? self.(coarse_bins)))
    "--coarse-bins must be between 1 and FFT size"%string ;;
  reject_if (negb (is_finite self.(threshold_db)) || f_le self.(threshold_db) (f32_of_Z 0))
    "--threshold-db must be a positive finite value"%string.

Definition validate (self : t) : result string unit :=
  check_radio self ;;
  (if bool_decide (self.(analysis) = Analysis.Aggregate) then check_aggregate self else Ok tt) ;;
  if bool_decide (self.(command) = Command.Sweep) then
    plan ← software_sweep_plan self ; SoftwareSweepPlan.validate plan ;; Ok tt
  else Ok tt.

Definition parse_command (command : string) : result string Command.t :=
  if String.eqb command "probe" then Ok Command.Probe
  else if String.eqb command "capture" then Ok Command.Capture
  else if String.eqb command "sweep" then Ok Command.Sweep
  else if existsb (String.eqb command) ["-h"; "--help"; "help"]%string then Err "Usage"%string
  else Err "unknown command"%string.

(** [Config::parse]. *)
Definition parse (args : list string) : result string t :=
  match args with
  | [] => Err "Usage"%string
  | command :: args =>
      command ← parse_command command ;
      cfg ← parse_options args (with_command command default) ;
      validate cfg ;;
      Ok cfg
  end.
End Config.

(** ** The widths of the fields *)
Definition is_i64 (n : Z) : Prop := i64_min <= n <= i64_max.

Module ConfigWf.
Import Config.
Record wf (c : t) : Prop := {
  wf_center : is_i64 c.(center_freq_hz);
  wf_rate : is_i64 c.(sample_rate_hz);
  wf_bandwidth : is_i64 c.(rf_bandwidth_hz);
  wf_buffer : is_u64 c.(buffer_samples);
  wf_seconds : is_u64 c.(seconds);
  wf_fft : is_u64 c.(fft_size);
  wf_overlap : is_u64 c.(overlap_percent);
  wf_report : is_u64 c.(report_hz);
  wf_coarse : is_u64 c.(coarse_bins);
  wf_gap : is_u64 c.(merge_gap_bins);
  wf_centers : Forall is_i64 c.(sweep_centers_hz);
  wf_start : forall n, c.(sweep_start_hz) = Some n -> is_i64 n;
  wf_stop : forall n, c.(sweep_stop_hz) = Some n -> is_i64 n;
  wf_step : forall n, c.(sweep_step_hz) = Some n -> is_i64 n;
  wf_settle : is_u64 c.(settle_ms);
  wf_frames : is_u64 c.(frames_per_point);
  wf_points : is_u64 c.(max_points);
}.

Lemma default_wf command : wf (with_command command default).
Proof.
  constructor; cbn; unfold is_i64, is_u, i64_min, i64_max, u64_max; try lia; try constructor; discriminate.
Qed.

Lemma i64_wf flag value n : parse_value parse_i64 flag value = Ok n -> is_i64 n.
Proof. intros H%ok_or_Ok. exact (parse_integer_range _ _ _ _ H). Qed.

Lemma usize_wf flag value n : parse_value parse_usize flag value = Ok n -> is_u64 n.
Proof. intros H%ok_or_Ok. exact (parse_integer_range _ _ _ _ H). Qed.

Lemma u64_wf flag value n : parse_value parse_u64 flag value = Ok n -> is_u64 n.
Proof. intros H%ok_or_Ok. exact (parse_u64_range _ _ H). Qed.

Lemma parse_centers_wf value l : parse_centers value = Ok l -> Forall is_i64 l.
Proof.
  unfold parse_centers. rewrite reject_seq. intros [_ H]. revert l H.
  generalize (split_commas (bytes value) []). intros parts. induction parts as [|p parts IH]; intros l H.
  - injection H as <-. constructor.
  - cbn [mapM] in H. apply bind_Ok in H as (n&Hn&H). apply bind_Ok in H as (l'&Hl&[= <-]).
    constructor; [eapply i64_wf, Hn|now apply IH].
Qed.

Lemma set_option_wf flag value c c' : wf c -> set_option flag value c = Ok c' -> wf c'.
Proof.
  intros [? ? ? ? ? ? ? ? ? ? ? ? ? ? ? ? ?]. unfold set_option.
  repeat (destruct (String.eqb flag _); [first [intros [= <-]; constructor; assumption
    | rewrite bind_Ok; intros (n&Hn&[= <-]);
      first [apply i64_wf in Hn | apply usize_wf in Hn | apply u64_wf in Hn | apply parse_centers_wf in Hn | idtac];
      constructor; cbn; try assumption; now intros ? [= <-]]|]).
  discriminate.
Qed.

Lemma parse_options_wf args : forall c c', wf c -> parse_options args c = Ok c' -> wf c'.
Proof.
  remember (length args) as n eqn:Hn. revert args Hn.
  induction (lt_wf n) as [n _ IH]. intros args -> c c' Hwf.
  destruct args as [|flag [|value args]]; cbn [parse_options]; [now intros [= <-]|discriminate|].
  rewrite bind_Ok. intros (c1&H1&H).
  eapply (IH (length args)); [cbn; lia|reflexivity|eapply set_option_wf; eauto|exact H].
Qed.

Lemma parse_wf args cfg : parse args = Ok cfg -> wf cfg /\ validate cfg = Ok tt.
Proof.
  unfold parse. destruct args as [|command args]; [discriminate|].
  rewrite !bind_Ok. intros (c&_&H). apply bind_Ok in H as (c1&Hc&H).
  rewrite unit_seq in H. destruct H as [Hv [= <-]]. split; [|exact Hv].
  eapply parse_options_wf; [apply default_wf|exact Hc].
Qed.
End ConfigWf.

(** ** The range of a sweep *)
Definition grid (start step : Z) (n : nat) : list Z :=
  map (fun k => start + Z.of_nat k * step) (seq 0 n).

Lemma grid_cons start step n : grid start step (S n) = start :: grid (start + step) step n.
Proof.
  unfold grid. cbn [seq map]. f_equal; [lia|]. rewrite <- seq_shift, map_map.
  apply map_ext. intros k. lia.
Qed.

Lemma range_length start step n : length (grid start step n) = n.
Proof. unfold grid. now rewrite length_map, length_seq. Qed.

Lemma grid_elem start step n c :
  c ∈ grid start step n <-> exists k, (k < n)%nat /\ c = start + Z.of_nat k * step.
Proof.
  unfold grid. rewrite list_elem_of_In, in_map_iff. split.
  - intros (k&<-&Hk%in_seq). exists k. split; [lia|reflexivity].
  - intros (k&Hk&->). exists k. split; [reflexivity|]. apply in_seq. lia.
Qed.

(** [n] points reach exactly as far as [stop]. *)
Definition Reaches (start stop step : Z) (n : nat) : Prop :=
  (forall k, (k < n)%nat -> start + Z.of_nat k * step <= stop) /\ stop < start + Z.of_nat n * step.

Lemma reaches_cons start stop step n :
  start <= stop -> Reaches (start + step) stop step n -> Reaches start stop step (S n).
Proof.
  intros Hs [H1 H2]. split; [|lia]. intros [|k] Hk; [lia|]. specialize (H1 k ltac:(lia)). lia.
Qed.

Lemma range_centers_Ok fuel stop step points : forall center centers l,
  Config.range_centers fuel stop step points center centers = Ok l ->
  exists n, l = List.rev centers ++ grid center step n /\ Reaches center stop step n.
Proof.
  induction fuel as [|fuel IH]; intros center centers l; cbn [Config.range_centers];
    destruct (Z.leb_spec center stop); try discriminate.
  - intros [= <-]. exists O. split; [now rewrite app_nil_r|]. split; [lia|]. cbn. lia.
  - destruct (_ =? _); [discriminate|]. destruct (i64_max <? _); [discriminate|].
    intros (n&->&Hn)%IH. exists (S n). split; [|now apply reaches_cons].
    cbn [List.rev]. now rewrite grid_cons, <- app_assoc.
  - intros [= <-]. exists O. split; [now rewrite app_nil_r|]. split; [lia|]. cbn. lia.
Qed.

(** With points to spare and no overflow in front of the end, the loop returns. *)
Lemma range_centers_runs n : forall fuel stop step points center centers,
  Reaches center stop step n -> center + Z.of_nat n * step <= i64_max -> 0 < step ->
  length_z centers + Z.of_nat n <= points -> (n <= fuel)%nat ->
  Config.range_centers fuel stop step points center centers
  = Ok (List.rev centers ++ grid center step n).
Proof.
  induction n as [|n IH]; intros fuel stop step points center centers [Hin Hout] Hmax Hstep Hlen Hfuel.
  - destruct fuel; cbn [Config.range_centers]; rewrite (proj2 (Z.leb_gt center stop)) by lia;
      unfold grid; cbn; now rewrite app_nil_r.
  - destruct fuel as [|fuel]; [lia|]. cbn [Config.range_centers].
    pose proof (Hin O ltac:(lia)) as H0. rewrite (proj2 (Z.leb_le center stop)) by lia.
    rewrite (proj2 (Z.eqb_neq (length_z centers) points)) by lia.
    rewrite (proj2 (Z.ltb_ge i64_max (center + step))) by nia. cbn [ok_or mbind result_bind].
    rewrite IH; [|split|lia|lia| |lia].
    + rewrite grid_cons. cbn [List.rev]. now rewrite <- app_assoc.
    + intros k Hk. specialize (Hin (S k) ltac:(lia)). lia.
    + lia.
    + unfold length_z in *. cbn [length]. lia.
Qed.

(** How a frequency lies among the points. *)
Lemma grid_covers start step n f :
  0 < step -> start <= f <= start + (Z.of_nat n - 1) * step ->
  exists c, c ∈ grid start step n /\ 2 * Z.abs (f - c) <= step.
Proof.
  intros Hstep Hf. set (k := (f - start) / step).
  pose proof (Z.div_mod (f - start) step ltac:(lia)) as Hdiv. fold k in Hdiv.
  pose proof (Z.mod_pos_bound (f - start) step Hstep) as Hmod.
  assert (0 <= k) by (apply Z.div_pos; lia).
  assert (k <= Z.of_nat n - 1) by nia.
  destruct (Z.le_gt_cases (2 * ((f - start) mod step)) step).
  - exists (start + k * step). split; [|lia]. apply grid_elem. exists (Z.to_nat k). split; [lia|].
    rewrite Z2Nat.id by lia. reflexivity.
  - exists (start + (k + 1) * step). split; [|lia]. apply grid_elem. exists (Z.to_nat (k + 1)).
    split; [nia|]. rewrite Z2Nat.id by lia. reflexivity.
Qed.

(** ** Accepted sweeps *)
Section Accepted.
Import Config.

(** A sweep over a range: its points, and that no gap is left between them. *)
Record RangePlanned (cfg : t) (plan : SoftwareSweepPlan.t) (start stop step : Z) (n : nat) : Prop := {
  rp_start : cfg.(sweep_start_hz) = Some start;
  rp_stop : cfg.(sweep_stop_hz) = Some stop;
  rp_step : cfg.(sweep_step_hz) = Some step;
  rp_centers : plan.(SoftwareSweepPlan.centers_hz) = grid start step n;
  rp_points : (0 < n)%nat /\ Z.of_nat n <= cfg.(max_points);
  rp_reach : Reaches start stop step n;
  rp_covered : forall f, start <= f <= start + (Z.of_nat n - 1) * step ->
    exists c, c ∈ plan.(SoftwareSweepPlan.centers_hz) /\ 5 * Z.abs (f - c) <= 2 * cfg.(rf_bandwidth_hz);
}.

Lemma software_sweep_plan_Ok cfg plan :
  software_sweep_plan cfg = Ok plan ->
  (cfg.(sweep_centers_hz) <> [] /\ has_range cfg = false
   /\ plan.(SoftwareSweepPlan.centers_hz) = cfg.(sweep_centers_hz)
   /\ plan.(SoftwareSweepPlan.continuous_step_hz) = None
   \/ cfg.(sweep_centers_hz) = [] /\ exists start stop step n,
      cfg.(sweep_start_hz) = Some start /\ cfg.(sweep_stop_hz) = Some stop
      /\ cfg.(sweep_step_hz) = Some step /\ start <= stop /\ 0 < step
      /\ plan.(SoftwareSweepPlan.centers_hz) = grid start step n /\ Reaches start stop step n
      /\ plan.(SoftwareSweepPlan.continuous_step_hz) = Some step)
  /\ plan.(SoftwareSweepPlan.rf_bandwidth_hz) = cfg.(rf_bandwidth_hz)
  /\ plan.(SoftwareSweepPlan.max_points) = cfg.(max_points).
Proof.
  unfold software_sweep_plan. rewrite reject_seq. intros [Hboth H].
  apply bind_Ok in H as ([centers step]&Hc&[= <-]). cbn. split; [|auto].
  destruct (null cfg.(sweep_centers_hz)) eqn:Hnull.
  - apply null_spec in Hnull. apply bind_Ok in Hc as ([centers' step']&Hc&[= <- <-]). right.
    split; [exact Hnull|]. unfold centers_of_range in Hc.
    apply bind_Ok in Hc as (start&Hstart%ok_or_Ok&Hc).
    apply bind_Ok in Hc as (stop&Hstop%ok_or_Ok&Hc).
    apply bind_Ok in Hc as (st&Hst%ok_or_Ok&Hc). rewrite reject_seq in Hc.
    destruct Hc as [Hr Hc]. guards_in Hr. apply bind_Ok in Hc as (l&Hl&[= <- <-]).
    apply range_centers_Ok in Hl as (n&->&Hn). exists start, stop, st, n. split_and!; auto; lia.
  - left. injection Hc as <- <-. apply null_false in Hnull. split; [exact Hnull|].
    cbn [negb andb] in Hboth. auto.
Qed.

(** Conversely every range of few enough points is planned; the last sum is the
    one the loop computes past the end. *)
Theorem range_is_planned cfg start stop step n :
  cfg.(sweep_centers_hz) = [] -> cfg.(sweep_start_hz) = Some start ->
  cfg.(sweep_stop_hz) = Some stop -> cfg.(sweep_step_hz) = Some step ->
  start <= stop -> 0 < step -> Reaches start stop step n -> Z.of_nat n <= cfg.(max_points) ->
  start + Z.of_nat n * step <= i64_max ->
  exists plan, software_sweep_plan cfg = Ok plan
  /\ plan.(SoftwareSweepPlan.centers_hz) = grid start step n.
Proof.
  intros Hc Hstart Hstop Hstep Hle Hpos Hn Hpoints Hmax.
  unfold software_sweep_plan, centers_of_range. rewrite Hc, Hstart, Hstop, Hstep.
  cbn [null negb andb reject_if mbind result_bind ok_or].
  rewrite (proj2 (Z.ltb_ge stop start)), (proj2 (Z.leb_gt step 0)) by lia.
  cbn [orb reject_if mbind result_bind].
  rewrite (range_centers_runs n (S (Z.to_nat (max_points cfg)))) by (try assumption; cbn; lia).
  eexists. split; reflexivity.
Qed.

Lemma checked_plan_wf cfg plan :
  ConfigWf.wf cfg -> software_sweep_plan cfg = Ok plan ->
  SoftwareSweepPlan.check plan = Ok tt -> SoftwareSweepPlan.wf plan.
Proof.
  intros [] Hplan Hcheck. unfold SoftwareSweepPlan.check in Hcheck. rewrite reject_seq in Hcheck.
  destruct Hcheck as [Hlen _]. guards_in Hlen. destruct Hlen as [_ Hlen].
  unfold software_sweep_plan in Hplan. rewrite reject_seq in Hplan. destruct Hplan as [_ H].
  apply bind_Ok in H as ([centers step]&_&[= <-]). unfold SoftwareSweepPlan.wf. cbn in *.
  split_and!; try assumption. pose proof (length_z_nonneg centers).
  unfold is_u in *. lia.
Qed.

Lemma validated_checked plan e :
  SoftwareSweepPlan.validate plan = Ok e -> SoftwareSweepPlan.check plan = Ok tt.
Proof. unfold SoftwareSweepPlan.validate. rewrite unit_seq. now intros [H _]. Qed.
End Accepted.

(** C32: A command line that is accepted for a sweep stands for exactly one plan, one the sweep accepts
    too (so that [software_sweep] does not fail on it before the radio is touched), of at most
    256 points.  With --centers the points are those; with a range they are start, start + step, ...
    as far as stop, and every frequency from the first to the last of them is within two fifths of
    the RF bandwidth of one: the pass bands leave no gap. *)
Theorem accepted_sweep_covers_range args cfg :
  Config.parse args = Ok cfg -> cfg.(Config.command) = Command.Sweep ->
  exists plan estimate,
    Config.software_sweep_plan cfg = Ok plan
    /\ SoftwareSweepPlan.validate plan = Ok estimate
    /\ PlanOk plan /\ EstimateOk plan estimate
    /\ (cfg.(Config.sweep_centers_hz) <> [] /\ Config.has_range cfg = false
        /\ plan.(SoftwareSweepPlan.centers_hz) = cfg.(Config.sweep_centers_hz)
        \/ cfg.(Config.sweep_centers_hz) = []
           /\ exists start stop step n, RangePlanned cfg plan start stop step n).
Proof.
  intros Hparse Hsweep. apply ConfigWf.parse_wf in Hparse as [Hwf Hv].
  unfold Config.validate in Hv. rewrite !unit_seq, (bool_decide_eq_true_2 _ Hsweep) in Hv.
  destruct Hv as (_&_&Hv). apply bind_Ok in Hv as (plan&Hplan&Hv). apply bind_Ok in Hv as (e&He&_).
  exists plan, e. split; [exact Hplan|]. split; [exact He|].
  pose proof (proj1 (software_plan_decides plan e
    (checked_plan_wf _ _ Hwf Hplan (validated_checked _ _ He))) He) as [Hok Hest].
  split; [exact Hok|]. split; [exact Hest|].
  apply software_sweep_plan_Ok in Hplan as [[(Hc&Hr&Hp&_)|(Hc&start&stop&step&n&H1&H2&H3&Hle&Hpos&Hp&Hn&Hs)] [Hbw Hmax]];
    [left; auto|right]. split; [exact Hc|]. exists start, stop, step, n.
  destruct (po_step _ Hok step Hs) as [_ Hstep]. destruct (po_points _ Hok) as [_ Hpoints].
  assert (Hn0 : (0 < n)%nat) by (destruct n; [destruct Hn; lia|lia]).
  constructor; try assumption.
  - split; [exact Hn0|]. rewrite Hp in Hpoints. unfold length_z in Hpoints. rewrite range_length in Hpoints. lia.
  - intros f Hf. rewrite Hp. destruct (grid_covers start step n f Hpos Hf) as (c&Hin&Hdist).
    exists c. split; [exact Hin|]. lia.
Qed.

(** *** A command line *)
Definition sample_sweep : list string :=
  ["sweep"; "--start-freq"; "2400000000"; "--stop-freq"; "2410000000"; "--step-freq"; "1600000";
   "--threshold-db"; "9.5"]%string.
Definition sample_config : Config.t :=
  match Config.parse sample_sweep with Ok cfg => cfg | Err _ => Config.default end.

Lemma accepted_sweep_covers_range_witness :
  Config.parse sample_sweep = Ok sample_config
  /\ exists plan estimate,
     Config.software_sweep_plan sample_config = Ok plan
     /\ SoftwareSweepPlan.validate plan = Ok estimate
     /\ length plan.(SoftwareSweepPlan.centers_hz) = 7%nat.
Proof.
  assert (Hp : Config.parse sample_sweep = Ok sample_config) by (vm_compute; reflexivity).
  split; [exact Hp|].
  destruct (accepted_sweep_covers_range sample_sweep sample_config Hp ltac:(reflexivity))
    as (plan&estimate&Hplan&He&_).
  exists plan, estimate. split; [exact Hplan|]. split; [exact He|].
  vm_compute in Hplan. injection Hplan as <-. reflexivity.
Defined.

(** The stop itself may lie outside: here 1.5 MHz past the last center, of
    which the pass band ends after 1 MHz. *)
Example stop_is_not_covered :
  match Config.software_sweep_plan (Config.with_sweep_stop_hz (Some 2411100000) sample_config) with
  | Ok plan => forallb (fun c => 1000000 <? Z.abs (2411100000 - c)) plan.(SoftwareSweepPlan.centers_hz)
  | Err _ => false
  end = true.
Proof. vm_compute. reflexivity. Qed.

(** *** The configurations the program's own tests parse *)
Example parses_capture_overrides :
  match Config.parse
          ["capture"; "--seconds"; "5"; "--sample-rate"; "5000000"; "--rf-bandwidth"; "4000000";
           "--buffer-samples"; "16384"; "--analysis"; "none"]%string with
  | Ok cfg =>
      cfg.(Config.command) = Command.Capture /\ cfg.(Config.seconds) = 5
      /\ cfg.(Config.sample_rate_hz) = 5000000 /\ cfg.(Config.rf_bandwidth_hz) = 4000000
      /\ cfg.(Config.buffer_samples) = 16384 /\ cfg.(Config.analysis) = Analysis.None
  | Err _ => False
  end.
Proof. vm_compute. auto 6. Qed.

Example rejects_bandwidth_above_sample_rate :
  Config.parse ["capture"; "--sample-rate"; "2100000"; "--rf-bandwidth"; "3000000"]%string
  = Err "--sample-rate must be >= --rf-bandwidth"%string.
Proof. vm_compute. reflexivity. Qed.

(** Far points are refused one by one, not by their number alone. *)
Example refused_ranges :
  map (fun stop => is_Ok (Config.software_sweep_plan (Config.with_sweep_stop_hz (Some stop) sample_config)))
    [2399999999; 2400000000; 2502399999; 2502400000]
  = [false; true; true; false].
Proof. vm_compute. reflexivity. Qed.
