(* ===== verification/RadioTest.v ===== *)
(** * The p201pro test program

    [raspberry-pi/p201pro-rust/src/main.rs], from line 284 on: [run], the check
    of the devices, [configure_phy], [capture] with its statistics, and the
    software sweep.  libiio is the class [Iio] of [SoftwareSweep] and what the
    context adds to it.  Of what is printed the lines that carry results are
    kept, as values: the spectra, the statistics, the sweep's estimate and
    report; the lines that repeat the configuration or list the context (all of
    [probe]) are left out. *)
From S2P Require Import Prelude F32 Aggregation SoftwareSweep RadioConfig.

(** [iio::DataFormat]. *)
Module DataFormat.
Record t : Type := mk { is_signed : bool; length : Z; bits : Z; shift : Z }.
End DataFormat.

(** The calls that are no operation on the radio. *)
Class RadioContext := {
  from_uri : string -> result string unit;
  set_timeout : result string unit;
  data_format : string -> nat -> DataFormat.t;
}.

(** ** The statistics *)
Module CaptureStats.
Record t : Type := mk {
  buffers : Z;
  bytes : Z;
  samples : Z;
  sum_i : Z;
  sum_q : Z;
  sum_power : float;
  min_i : Z;
  max_i : Z;
  min_q : Z;
  max_q : Z;
  clipped : Z;
  max_refill_ms : Z;
}.

Definition default : t :=
  {| buffers := 0; bytes := 0; samples := 0; sum_i := 0; sum_q := 0; sum_power := f64_of_Z 0;
     min_i := 32767; max_i := -32768; min_q := 32767; max_q := -32768; clipped := 0;
     max_refill_ms := 0 |}.

Definition observe_refill (bytes elapsed : Z) (self : t) : t :=
  {| buffers := self.(buffers) + 1;
     bytes := self.(CaptureStats.bytes) + bytes;
     samples := self.(samples);
     sum_i := self.(sum_i);
     sum_q := self.(sum_q);
     sum_power := self.(sum_power);
     min_i := self.(min_i);
     max_i := self.(max_i);
     min_q := self.(min_q);
     max_q := self.(max_q);
     clipped := self.(clipped);
     max_refill_ms := Z.max self.(max_refill_ms) elapsed |}.

(** The codes at either end of the 12-bit converter. *)
Definition is_clipped (i q : Z) : bool :=
  (i =? -2048) || (i =? 2047) || (q =? -2048) || (q =? 2047).
Definition power_of (i q : Z) : float :=
  f64_add (f64_mul (f64_of_Z i) (f64_of_Z i)) (f64_mul (f64_of_Z q) (f64_of_Z q)).

(** The body of the loop of [observe_iq]. *)
Definition observe_sample (self : t) (sample : Z * Z) : t :=
  let '(i, q) := sample in
  {| buffers := self.(buffers);
     bytes := self.(bytes);
     samples := self.(samples) + 1;
     sum_i := self.(sum_i) + i;
     sum_q := self.(sum_q) + q;
     sum_power := f64_add self.(sum_power) (power_of i q);
     min_i := Z.min self.(min_i) i;
     max_i := Z.max self.(max_i) i;
     min_q := Z.min self.(min_q) q;
     max_q := Z.max self.(max_q) q;
     clipped := if is_clipped i q then self.(clipped) + 1 else self.(clipped);
     max_refill_ms := self.(max_refill_ms) |}.
Definition observe_iq (samples : list (Z * Z)) (self : t) : t := fold_left observe_sample samples self.

Definition observe_sample_count (samples : Z) (self : t) : t :=
  {| buffers := self.(buffers);
     bytes := self.(bytes);
     samples := self.(CaptureStats.samples) + samples;
     sum_i := self.(sum_i);
     sum_q := self.(sum_q);
     sum_power := self.(sum_power);
     min_i := self.(min_i);
     max_i := self.(max_i);
     min_q := self.(min_q);
     max_q := self.(max_q);
     clipped := self.(clipped);
     max_refill_ms := self.(max_refill_ms) |}.
End CaptureStats.

(** ** The program *)

(** What is printed. *)
Inductive Line :=
| SpectrumJson (snapshot : SpectrumSnapshot.t)
| Statistics (stats : CaptureStats.t) (elapsed_ms requested_rate_hz actual_rate_hz : Z)
    (analysis : Analysis.t)
| AggregateSnapshots (count : Z)
| SweepEstimateJson (estimate : SoftwareSweepEstimate.t)
| SweepJson (report : SoftwareSweepReport.t)
| Finished (command : Command.t).

Record Run := running { log : Log; printed : list Line }.

(** The variables of the loop of [capture]. *)
Module Capture.
Record t `{SpectrumMath} : Type := mk {
  stats : CaptureStats.t;
  aggregator : option SpectrumAggregator.t;
  snapshots : Z;
}.
Arguments mk {_}.
End Capture.

Section Program.
Context `{Iio} `{SpectrumMath} `{RadioContext}.

#[local] Abbreviation App := (M Run Failure).

Definition radio {A} (m : M Log Failure A) : App A := fun s =>
  let (r, log) := m s.(log) in (r, running log s.(printed)).
Definition print (line : Line) : App unit := modify (fun s => running s.(log) (s.(printed) ++ [line])).
Definition now : App Log := gets log.

Definition device (name : string) : M Log Failure unit :=
  require (has_device name) ("missing IIO device " +:+ name).
Definition rx_channel (name : string) : M Log Failure nat :=
  require_some ("missing RX channel " +:+ name) (find_input_channel RX_DEVICE name).

(** *** [validate_device_layout] *)
Definition validate_channel (name : string) : M Log Failure unit :=
  position ← rx_channel name ;
  require (match channels RX_DEVICE !! position with
           | Some channel => channel.(IioChannel.is_scan_element)
           | None => false
           end) "RX channel is not a scan element" ;;
  let format := data_format RX_DEVICE position in
  require (negb (negb format.(DataFormat.is_signed) || negb (format.(DataFormat.length) =? 16)
                 || negb (format.(DataFormat.bits) =? 12) || negb (format.(DataFormat.shift) =? 0)))
    "unsupported RX format".
Definition validate_device_layout : M Log Failure unit :=
  device PHY_DEVICE ;; device RX_DEVICE ;;
  for_each validate_channel [RX_I_CHANNEL; RX_Q_CHANNEL].

(** *** [configure_phy] *)

(** The loop over the channels; [actual] is the rate they report. *)
Fixpoint configure_channels (cfg : Config.t) (names : list string) (actual : Z) : M Log Failure Z :=
  match names with
  | [] => mret actual
  | name :: names =>
      channel ← require_some ("missing PHY input channel " +:+ name) (find_input_channel PHY_DEVICE name) ;
      attr_write_int PHY_DEVICE channel "sampling_frequency" cfg.(Config.sample_rate_hz) ;;
      attr_write_int PHY_DEVICE channel "rf_bandwidth" cfg.(Config.rf_bandwidth_hz) ;;
      rate ← attr_read_int PHY_DEVICE channel "sampling_frequency" ;
      attr_read_int PHY_DEVICE channel "rf_bandwidth" ;;
      if actual =? 0 then configure_channels cfg names rate
      else
        require (actual =? rate) "PHY I/Q channels reported different sample rates" ;;
        configure_channels cfg names actual
  end.
Definition configure_phy (cfg : Config.t) : M Log Failure Z :=
  device PHY_DEVICE ;;
  lo ← require_some ("missing RX LO channel " +:+ RX_LO_CHANNEL)
         (find_output_channel PHY_DEVICE RX_LO_CHANNEL) ;
  attr_write_int PHY_DEVICE lo "frequency" cfg.(Config.center_freq_hz) ;;
  configure_channels cfg [RX_I_CHANNEL; RX_Q_CHANNEL] 0.

(** *** [capture] *)

(** The distance of two frames and the frames of a snapshot; the rate is cast
    to [usize]. *)
Definition hop_samples (cfg : Config.t) : Z :=
  Z.max (mul64 cfg.(Config.fft_size) (sub64 100 cfg.(Config.overlap_percent)) / 100) 1.
Definition frames_per_snapshot (cfg : Config.t) (actual_rate : Z) : Z :=
  div_ceil (actual_rate mod 2 ^ 64) (saturating_mul (hop_samples cfg) cfg.(Config.report_hz)).
Definition aggregate_config (cfg : Config.t) (actual_rate : Z) : SpectrumConfig.t :=
  {| SpectrumConfig.center_freq_hz := cfg.(Config.center_freq_hz);
     SpectrumConfig.sample_rate_hz := actual_rate;
     SpectrumConfig.fft_size := cfg.(Config.fft_size);
     SpectrumConfig.overlap_percent := cfg.(Config.overlap_percent);
     SpectrumConfig.frames_per_snapshot := frames_per_snapshot cfg actual_rate;
     SpectrumConfig.coarse_bins := cfg.(Config.coarse_bins);
     SpectrumConfig.threshold_above_noise_db := cfg.(Config.threshold_db);
     SpectrumConfig.merge_gap_bins := cfg.(Config.merge_gap_bins);
     SpectrumConfig.dc_exclusion_bins := 1 |}.
Definition new_aggregator (cfg : Config.t) (actual_rate : Z)
    : result string (option SpectrumAggregator.t) :=
  match cfg.(Config.analysis) with
  | Analysis.Aggregate =>
      aggregator ← SpectrumAggregator.new (aggregate_config cfg actual_rate) ; Ok (Some aggregator)
  | Analysis.Full | Analysis.None => Ok None
  end.

(** Both channels of the buffer, zipped. *)
Definition read_samples (i_channel q_channel : nat) : App (list (Z * Z)) :=
  radio (call (ChannelData i_channel q_channel) (fun log => Ok (channel_data log))).

Fixpoint print_all (snapshots : list SpectrumSnapshot.t) : App unit :=
  match snapshots with
  | [] => mret tt
  | snapshot :: snapshots => print (SpectrumJson snapshot) ;; print_all snapshots
  end.

(** The body of the loop, after the look at the clock at [before]. *)
Definition capture_step (cfg : Config.t) (i_channel q_channel : nat) (sample_size : Z)
    (before : Log) (c : Capture.t) : App Capture.t :=
  bytes ← radio (call Refill refill_reply) ;
  after ← now ;
  let stats := CaptureStats.observe_refill bytes (elapsed before after) c.(Capture.stats) in
  match cfg.(Config.analysis) with
  | Analysis.Aggregate =>
      let stats := CaptureStats.observe_sample_count (bytes / sample_size) stats in
      aggregator ← lift (ok_or Panicked c.(Capture.aggregator)) ;
      samples ← read_samples i_channel q_channel ;
      '(snapshots, aggregator) ←
        lift (ok_or Panicked (SpectrumAggregator.push_iq aggregator samples)) ;
      print_all snapshots ;;
      mret (Capture.mk stats (Some aggregator) (c.(Capture.snapshots) + length_z snapshots))
  | Analysis.Full =>
      samples ← read_samples i_channel q_channel ;
      mret (Capture.mk (CaptureStats.observe_iq samples stats) c.(Capture.aggregator)
              c.(Capture.snapshots))
  | Analysis.None =>
      mret (Capture.mk (CaptureStats.observe_sample_count (bytes / sample_size) stats)
              c.(Capture.aggregator) c.(Capture.snapshots))
  end.

(** [while started.elapsed() < deadline]; [None] when the fuel runs out. *)
Fixpoint capture_loop (fuel : nat) (cfg : Config.t) (i_channel q_channel : nat) (sample_size : Z)
    (started : Log) (c : Capture.t) : App (option Capture.t) :=
  match fuel with
  | O => mret None
  | S fuel =>
      before ← now ;
      if elapsed started before <? cfg.(Config.seconds) * 1000 then
        c ← capture_step cfg i_channel q_channel sample_size before c ;
        capture_loop fuel cfg i_channel q_channel sample_size started c
      else mret (Some c)
  end.

(** What follows the loop. *)
Definition report (cfg : Config.t) (actual_rate : Z) (started : Log) (c : Capture.t) : App unit :=
  ended ← now ;
  print (Statistics c.(Capture.stats) (elapsed started ended) cfg.(Config.sample_rate_hz) actual_rate
           cfg.(Config.analysis)) ;;
  (if bool_decide (cfg.(Config.analysis) = Analysis.Aggregate)
   then print (AggregateSnapshots c.(Capture.snapshots)) else mret tt) ;;
  (if c.(Capture.stats).(CaptureStats.samples) =? 0
   then lift (Err (Failed "capture returned zero samples")) else mret tt) ;;
  print (Finished Command.Capture).

(** Everything in front of the buffer: the channels and the size of a sample. *)
Definition prepare_rx : M Log Failure (nat * nat * Z) :=
  device RX_DEVICE ;;
  disable_all ;;
  i_channel ← rx_channel RX_I_CHANNEL ;
  q_channel ← rx_channel RX_Q_CHANNEL ;
  perform (Enable RX_DEVICE i_channel) ;;
  perform (Enable RX_DEVICE q_channel) ;;
  sample_size ← call (SampleSize RX_DEVICE) sample_size_reply ;
  require (sample_size =? 4) "expected 4-byte IQ samples" ;;
  mret (i_channel, q_channel, sample_size).

(** The buffer is dropped on every way out. *)
Definition while_buffered {A} (m : App A) : App A :=
  outcome ← attempt m ; radio (perform DropBuffer) ;; lift outcome.

(** [capture]; [false] when the fuel of the loop runs out. *)
Definition capture (fuel : nat) (cfg : Config.t) : App bool :=
  actual_rate ← radio (configure_phy cfg) ;
  '(i_channel, q_channel, sample_size) ← radio prepare_rx ;
  aggregator ← lift (map_err Failed (new_aggregator cfg actual_rate)) ;
  radio (call (CreateBuffer RX_DEVICE cfg.(Config.buffer_samples)) create_buffer_reply) ;;
  while_buffered
    (started ← now ;
     outcome ← capture_loop fuel cfg i_channel q_channel sample_size started
                 (Capture.mk CaptureStats.default aggregator 0) ;
     match outcome with
     | Some c => report cfg actual_rate started c ;; mret true
     | None => mret false
     end).

(** Thirty buffers of 1024 samples take a millisecond at the highest rate. *)
Definition capture_fuel (cfg : Config.t) : nat := S (Z.to_nat (30 * (cfg.(Config.seconds) * 1000))).

(** *** [software_sweep] and [run] *)
Definition software_sweep (cfg : Config.t) : App unit :=
  plan ← lift (map_err Failed (Config.software_sweep_plan cfg)) ;
  estimate ← lift (map_err Failed (SoftwareSweepPlan.validate plan)) ;
  print (SweepEstimateJson estimate) ;;
  report ← radio (SoftwareSweep.run plan) ;
  print (SweepJson report) ;;
  print (Finished Command.Sweep).

Definition run (args : list string) : App bool :=
  cfg ← lift (map_err Failed (Config.parse args)) ;
  lift (map_err Failed (from_uri cfg.(Config.uri))) ;;
  lift (map_err Failed set_timeout) ;;
  radio validate_device_layout ;;
  match cfg.(Config.command) with
  | Command.Probe => print (Finished Command.Probe) ;; mret true
  | Command.Capture => capture (capture_fuel cfg) cfg
  | Command.Sweep => software_sweep cfg ;; mret true
  end.
End Program.

(** ** What a capture does to the radio *)

(** The writes of a configuration, within the limits of [Config::validate]. *)
Definition CaptureOp (cfg : Config.t) (op : Op) : Prop :=
  match op with
  | WriteInt device _ attribute value =>
      device = PHY_DEVICE
      /\ (attribute = "frequency" /\ value = cfg.(Config.center_freq_hz)
          \/ attribute = "sampling_frequency" /\ value = cfg.(Config.sample_rate_hz)
          \/ attribute = "rf_bandwidth" /\ value = cfg.(Config.rf_bandwidth_hz))
  | Enable device _ | Disable device _ => device = RX_DEVICE
  | CreateBuffer device samples => device = RX_DEVICE /\ samples = cfg.(Config.buffer_samples)
  | _ => True
  end.

Definition reads_nothing (op : Op) : Prop := match op with ChannelData _ _ => False | _ => True end.

(** The limits a configuration keeps that was accepted. *)
Record ConfigOk (cfg : Config.t) : Prop := {
  co_center : 70000000 <= cfg.(Config.center_freq_hz) <= 6000000000;
  co_rate : 2083333 <= cfg.(Config.sample_rate_hz) <= 30720000;
  co_bandwidth : 200000 <= cfg.(Config.rf_bandwidth_hz) <= cfg.(Config.sample_rate_hz);
  co_buffer : 1024 <= cfg.(Config.buffer_samples) <= 1048576;
  co_seconds : 1 <= cfg.(Config.seconds) <= 60;
}.

Lemma parsed_config_ok args cfg : Config.parse args = Ok cfg -> ConfigOk cfg.
Proof.
  intros [_ Hv]%ConfigWf.parse_wf. unfold Config.validate in Hv. rewrite unit_seq in Hv.
  destruct Hv as [Hv _]. unfold Config.check_radio in Hv. guards_in Hv.
  constructor; lia.
Qed.

Section Effects.
Context `{Iio} `{SpectrumMath} `{RadioContext}.
#[local] Abbreviation App := (M Run Failure).

(** [Within] for the whole program. *)
Definition Stays {A} (Q : Op -> Prop) (m : App A) : Prop :=
  forall s r s', m s = (r, s') -> exists ops, s'.(log) = s.(log) ++ ops /\ Forall Q ops.

Lemma stays_radio {A} Q (m : M Log Failure A) : Within Q m -> Stays Q (radio m).
Proof.
  intros Hm s r s'. unfold radio. destruct (m s.(log)) as [r1 l1] eqn:Em. intros [= _ <-].
  exact (Hm _ _ _ Em).
Qed.

Lemma stays_lift {A} Q (r : result Failure A) : Stays Q (lift r).
Proof. intros s r' s' [= _ <-]. exists []. now rewrite app_nil_r. Qed.

Lemma stays_print Q line : Stays Q (print line).
Proof. intros s r' s' [= _ <-]. exists []. now rewrite app_nil_r. Qed.

Lemma stays_now Q : Stays Q now.
Proof. intros s r' s' [= _ <-]. exists []. now rewrite app_nil_r. Qed.

Lemma stays_bind {A B} Q (m : App A) (f : A -> App B) :
  Stays Q m -> (forall a, Stays Q (f a)) -> Stays Q (m ≫= f).
Proof.
  intros Hm Hf s r s' He. rewrite bind_run in He. destruct (m s) as [[a|e] s1] eqn:E.
  - destruct (Hm _ _ _ E) as (o1&Hl1&Hq1). destruct (Hf a _ _ _ He) as (o2&Hl2&Hq2).
    exists (o1 ++ o2). rewrite Hl2, Hl1, app_assoc. split; [reflexivity|]. now apply Forall_app.
  - injection He as <- <-. exact (Hm _ _ _ E).
Qed.

Lemma stays_attempt {A} Q (m : App A) : Stays Q m -> Stays Q (attempt (F := Failure) m).
Proof.
  intros Hm s r s'. unfold attempt. destruct (m s) eqn:E. intros [= _ <-]. exact (Hm _ _ _ E).
Qed.

Lemma stays_print_all Q snapshots : Stays Q (print_all snapshots).
Proof.
  induction snapshots as [|snapshot snapshots IH]; cbn; [apply stays_lift|].
  apply stays_bind; [apply stays_print|auto].
Qed.

(** In front of the loop no samples are read. *)
Section Setup.
Context (cfg : Config.t) (Q : Op -> Prop).
Context (HQ : forall op, CaptureOp cfg op -> reads_nothing op -> Q op).

Lemma setup_call {A} op (reply : Log -> result string A) :
  CaptureOp cfg op -> reads_nothing op -> Within Q (call op reply).
Proof. intros. now apply within_call, HQ. Qed.

Lemma configure_channels_within names : forall actual, Within Q (configure_channels cfg names actual).
Proof.
  induction names as [|name names IH]; intros actual; cbn; [apply within_lift|].
  apply within_bind; [apply within_lift|intros channel].
  do 2 (apply within_bind; [apply setup_call; cbn; tauto|intros _]).
  apply within_bind; [now apply setup_call|intros rate].
  apply within_bind; [now apply setup_call|intros _].
  destruct (actual =? 0); [apply IH|]. apply within_bind; [apply within_lift|auto].
Qed.

Lemma configure_phy_within : Within Q (configure_phy cfg).
Proof.
  unfold configure_phy. apply within_bind; [apply within_lift|intros _].
  apply within_bind; [apply within_lift|intros lo].
  apply within_bind; [apply setup_call; cbn; tauto|intros _]. apply configure_channels_within.
Qed.

Lemma prepare_rx_within : Within Q prepare_rx.
Proof.
  unfold prepare_rx, disable_all. apply within_bind; [apply within_lift|intros _].
  apply within_bind; [apply within_for_each; intros [p c] _; now apply within_perform, HQ|intros _].
  do 2 (apply within_bind; [apply within_lift|intros ?]).
  do 2 (apply within_bind; [now apply within_perform, HQ|intros _]).
  apply within_bind; [now apply setup_call|intros size].
  apply within_bind; [apply within_lift|intros _; apply within_lift].
Qed.
End Setup.

Lemma capture_step_stays cfg i q size before c :
  Stays (CaptureOp cfg) (capture_step cfg i q size before c).
Proof.
  unfold capture_step, read_samples.
  apply stays_bind; [now apply stays_radio, within_call|intros bytes].
  apply stays_bind; [apply stays_now|intros after].
  destruct cfg.(Config.analysis); [|apply stays_bind; [now apply stays_radio, within_call|intros; apply stays_lift]|apply stays_lift].
  apply stays_bind; [apply stays_lift|intros aggregator].
  apply stays_bind; [now apply stays_radio, within_call|intros samples].
  apply stays_bind; [apply stays_lift|intros [snapshots aggregator']].
  apply stays_bind; [apply stays_print_all|intros; apply stays_lift].
Qed.

Lemma capture_loop_stays fuel cfg i q size started : forall c,
  Stays (CaptureOp cfg) (capture_loop fuel cfg i q size started c).
Proof.
  induction fuel as [|fuel IH]; intros c; cbn; [apply stays_lift|].
  apply stays_bind; [apply stays_now|intros before].
  destruct (_ <? _); [|apply stays_lift]. apply stays_bind; [apply capture_step_stays|auto].
Qed.

Lemma capture_stays fuel cfg : Stays (CaptureOp cfg) (capture fuel cfg).
Proof.
  unfold capture, while_buffered, report.
  apply stays_bind; [apply stays_radio; now apply configure_phy_within|intros rate].
  apply stays_bind; [apply stays_radio; now apply (prepare_rx_within cfg)|intros [[i q] size]].
  apply stays_bind; [apply stays_lift|intros aggregator].
  apply stays_bind; [apply stays_radio, within_call; cbn; tauto|intros _].
  apply stays_bind; [apply stays_attempt|intros outcome; apply stays_bind;
    [now apply stays_radio, within_perform|intros _; apply stays_lift]].
  apply stays_bind; [apply stays_now|intros started].
  apply stays_bind; [apply capture_loop_stays|intros [c|]; [|apply stays_lift]].
  apply stays_bind; [|intros _; apply stays_lift].
  apply stays_bind; [apply stays_now|intros ended].
  apply stays_bind; [apply stays_print|intros _].
  apply stays_bind; [case_bool_decide; [apply stays_print|apply stays_lift]|intros _].
  apply stays_bind; [destruct (_ =? 0); apply stays_lift|intros _; apply stays_print].
Qed.

Lemma layout_log s r s' : radio validate_device_layout s = (r, s') -> s'.(log) = s.(log).
Proof.
  intros Hl. assert (Hq : Stays (fun _ => False) (radio validate_device_layout)).
  { apply stays_radio. unfold validate_device_layout.
    do 2 (apply within_bind; [apply within_lift|intros _]). apply within_for_each. intros name _.
    unfold validate_channel. do 2 (apply within_bind; [apply within_lift|intros ?]). apply within_lift. }
  apply Hq in Hl as (ops&->&Hf). destruct ops as [|op ops]; [apply app_nil_r|].
  inversion Hf; contradiction.
Qed.

(** The sweep does to the radio what [SoftwareSweep.run] does. *)
Lemma software_sweep_log cfg s r s' :
  software_sweep cfg s = (r, s') ->
  s'.(log) = s.(log)
  \/ exists plan, Config.software_sweep_plan cfg = Ok plan
     /\ s'.(log) = (SoftwareSweep.run plan s.(log)).2.
Proof.
  unfold software_sweep. rewrite lift_bind_run.
  destruct (Config.software_sweep_plan cfg) as [plan|e]; cbn [map_err]; [|intros [= _ <-]; now left].
  rewrite lift_bind_run. destruct (SoftwareSweepPlan.validate plan); cbn [map_err]; [|intros [= _ <-]; now left].
  intros Hrun. right. exists plan. split; [reflexivity|]. revert Hrun.
  unfold radio. rewrite bind_run. cbn [print modify log]. rewrite bind_run. cbn [log].
  destruct (SoftwareSweep.run plan s.(log)) as [[report|e] l]; now intros [= _ <-].
Qed.
End Effects.

(** C33: Whatever the command line and whatever the radio answers, a capture writes to the radio only
    the frequency, the rate and the bandwidth of its configuration, to the PHY, and these lie in
    the ranges of the transceiver; it selects channels of the receiver only, and asks for buffers
    of at most 1048576 samples.  A sweep does exactly what the software sweep does for the plan of
    the configuration; a probe, and a run that fails early, does nothing to the radio at all. *)
Theorem captures_stay_in_limits `{Iio} `{SpectrumMath} `{RadioContext} args s r s' :
  run args s = (r, s') ->
  s'.(log) = s.(log)
  \/ exists cfg, Config.parse args = Ok cfg /\ ConfigOk cfg
     /\ match cfg.(Config.command) with
        | Command.Probe => False
        | Command.Capture => exists ops, s'.(log) = s.(log) ++ ops /\ Forall (CaptureOp cfg) ops
        | Command.Sweep =>
            exists plan, Config.software_sweep_plan cfg = Ok plan
            /\ s'.(log) = (SoftwareSweep.run plan s.(log)).2
        end.
Proof.
  unfold run. rewrite lift_bind_run.
  destruct (Config.parse args) as [cfg|e] eqn:Hparse; cbn [map_err]; [|intros [= _ <-]; now left].
  rewrite !lift_bind_run. destruct (from_uri _); cbn [map_err]; [|intros [= _ <-]; now left].
  destruct set_timeout; cbn [map_err]; [|intros [= _ <-]; now left].
  rewrite bind_run. destruct (radio validate_device_layout s) as [rl s1] eqn:Hl.
  pose proof (layout_log _ _ _ Hl) as Hlog.
  destruct rl as [u|e]; [|intros [= _ <-]; now left].
  destruct cfg.(Config.command) eqn:Hcommand.
  - cbn. intros [= _ <-]. now left.
  - intros Hrun. apply capture_stays in Hrun as (ops&Hops&Hf). right. exists cfg.
    rewrite Hcommand, <- Hlog. split; [reflexivity|]. split; [now apply (parsed_config_ok args)|]. eauto.
  - rewrite bind_run. destruct (software_sweep cfg s1) as [rs s2] eqn:Hs. intros Hrun.
    assert (s' = s2) as -> by (destruct rs; now injection Hrun).
    apply software_sweep_log in Hs. rewrite Hlog in Hs. destruct Hs as [Hs|Hs]; [now left|right].
    exists cfg. rewrite Hcommand. split; [reflexivity|]. split; [now apply (parsed_config_ok args)|exact Hs].
Qed.

(** ** A capture ends *)
Definition is_refill (op : Op) : bool := match op with Refill => true | _ => false end.
Definition refill_count (ops : Log) : Z := length_z (List.filter is_refill ops).

Lemma refill_count_app a b : refill_count (a ++ b) = refill_count a + refill_count b.
Proof. unfold refill_count, length_z. rewrite List.filter_app, length_app. lia. Qed.

Lemma refill_count_nonneg ops : 0 <= refill_count ops.
Proof. apply length_z_nonneg. Qed.

Section Ends.
Context `{Iio} `{SpectrumMath} `{RadioContext}.

(** A refill waits for its samples: no radio takes less than a millisecond for
    thirty buffers of 1024 samples at 30.72 MS/s. *)
Definition RefillsTakeTime : Prop :=
  forall started ops, refill_count ops <= 30 * elapsed started (started ++ ops).

Lemma capture_step_refills cfg i q size before c s c' s' :
  capture_step cfg i q size before c s = (Ok c', s') ->
  exists ops, s'.(log) = s.(log) ++ Refill :: ops.
Proof.
  unfold capture_step. intros (bytes&s1&Hr&Hrun)%bindM_Ok.
  match type of Hrun with ?k s1 = _ => assert (Hk : Stays (fun _ => True) k) end.
  { apply stays_bind; [apply stays_now|intros after].
    destruct cfg.(Config.analysis);
      [|apply stays_bind; [now apply stays_radio, within_call|intros; apply stays_lift]|apply stays_lift].
    apply stays_bind; [apply stays_lift|intros aggregator].
    apply stays_bind; [now apply stays_radio, within_call|intros samples].
    apply stays_bind; [apply stays_lift|intros [snapshots aggregator']].
    apply stays_bind; [apply stays_print_all|intros; apply stays_lift]. }
  apply Hk in Hrun as (ops&Hops&_). exists ops. rewrite Hops.
  unfold radio, call in Hr. destruct (map_err _ _) in Hr; [|discriminate].
  injection Hr as _ <-. cbn. now rewrite <- app_assoc.
Qed.

Lemma capture_loop_ends (Htime : RefillsTakeTime) cfg i q size started fuel : forall c s ops,
  s.(log) = started ++ ops -> (0 < fuel)%nat ->
  30 * (cfg.(Config.seconds) * 1000) < Z.of_nat fuel + refill_count ops ->
  (capture_loop fuel cfg i q size started c s).1 <> Ok None.
Proof.
  induction fuel as [|fuel IH]; intros c s ops Hlog Hfuel Hcount; [lia|].
  cbn [capture_loop]. rewrite bind_run. cbn [now gets]. rewrite Hlog.
  destruct (Z.ltb_spec (elapsed started (started ++ ops)) (cfg.(Config.seconds) * 1000)) as [Hlt|Hge];
    [|discriminate].
  pose proof (Htime started ops) as Ht. rewrite bind_run.
  destruct (capture_step _ _ _ _ _ _ _) as [[c'|e] s1] eqn:Hstep; [|discriminate].
  apply capture_step_refills in Hstep as (more&Hmore).
  apply (IH c' s1 (ops ++ Refill :: more)).
  - now rewrite Hmore, Hlog, app_assoc.
  - lia.
  - change (Refill :: more) with ([Refill] ++ more). rewrite !refill_count_app.
    pose proof (refill_count_nonneg more). change (refill_count [Refill]) with 1. lia.
Qed.

Lemma capture_ends_ok (Htime : RefillsTakeTime) cfg s :
  0 <= cfg.(Config.seconds) -> (capture (capture_fuel cfg) cfg s).1 <> Ok false.
Proof.
  intros Hseconds. unfold capture. rewrite bind_run.
  destruct (radio (configure_phy cfg) s) as [[rate|e] s1]; [|discriminate]. rewrite bind_run.
  destruct (radio prepare_rx s1) as [[[[i q] size]|e] s2]; [|discriminate]. rewrite lift_bind_run.
  destruct (map_err _ _) as [aggregator|e]; [|discriminate]. rewrite bind_run.
  destruct (radio _ s2) as [[u|e] s3]; [|discriminate].
  unfold while_buffered. rewrite bind_run. unfold attempt. rewrite bind_run. cbn [now gets].
  rewrite bind_run.
  pose proof (capture_loop_ends Htime cfg i q size s3.(log) (capture_fuel cfg)
                (Capture.mk CaptureStats.default aggregator 0) s3 []) as Hends.
  destruct (capture_loop _ _ _ _ _ _ _ _) as [[[c|]|e] s4]; cbn [fst] in Hends.
  - rewrite bind_run. destruct (report _ _ _ _ _) as [[u'|e] s5]; discriminate.
  - exfalso. apply Hends; [now rewrite app_nil_r|unfold capture_fuel; lia| |reflexivity].
    unfold capture_fuel. change (refill_count []) with 0. lia.
  - discriminate.
Qed.
End Ends.

(** A capture ends: under a clock by which thirty refills take a millisecond or more, the bound
    of the loop is never what stops it, whatever the radio answers and for every command line;
    the run returns a result or an error of its own. *)
Theorem capture_ends `{Iio} `{SpectrumMath} `{RadioContext} args s :
  RefillsTakeTime -> (run args s).1 <> Ok false.
Proof.
  intros Htime. unfold run. rewrite lift_bind_run.
  destruct (Config.parse args) as [cfg|e] eqn:Hparse; cbn [map_err]; [|discriminate].
  rewrite lift_bind_run. destruct (map_err _ _); [|discriminate].
  rewrite lift_bind_run. destruct (map_err _ _); [|discriminate].
  rewrite bind_run. destruct (radio validate_device_layout s) as [[u'|e] s1]; [|discriminate].
  destruct cfg.(Config.command).
  - discriminate.
  - apply capture_ends_ok; [exact Htime|]. apply parsed_config_ok, co_seconds in Hparse. lia.
  - rewrite bind_run. destruct (software_sweep cfg s1) as [[u''|e] s2]; discriminate.
Qed.

(** ** What the statistics describe *)

(** The least and the greatest code of a channel, from the neutral value on. *)
Definition Least (neutral : Z) (l : list Z) (m : Z) : Prop :=
  m <= neutral /\ (forall x, x ∈ l -> m <= x) /\ (m = neutral \/ m ∈ l).
Definition Greatest (neutral : Z) (l : list Z) (m : Z) : Prop :=
  neutral <= m /\ (forall x, x ∈ l -> x <= m) /\ (m = neutral \/ m ∈ l).

Lemma least_snoc neutral l m x : Least neutral l m -> Least neutral (l ++ [x]) (Z.min m x).
Proof.
  intros (Hn&Hall&Hin). split; [lia|]. split.
  - intros y [Hy| ->%list_elem_of_singleton]%elem_of_app; [specialize (Hall _ Hy)|]; lia.
  - destruct (Z.min_spec m x) as [[_ ->]|[_ ->]].
    + destruct Hin as [Hin|Hin]; [now left|right]. apply elem_of_app. now left.
    + right. apply elem_of_app. right. now apply list_elem_of_singleton.
Qed.

Lemma greatest_snoc neutral l m x : Greatest neutral l m -> Greatest neutral (l ++ [x]) (Z.max m x).
Proof.
  intros (Hn&Hall&Hin). split; [lia|]. split.
  - intros y [Hy| ->%list_elem_of_singleton]%elem_of_app; [specialize (Hall _ Hy)|]; lia.
  - destruct (Z.max_spec m x) as [[_ ->]|[_ ->]].
    + right. apply elem_of_app. right. now apply list_elem_of_singleton.
    + destruct Hin as [Hin|Hin]; [now left|right]. apply elem_of_app. now left.
Qed.

Definition sum (l : list Z) : Z := foldr Z.add 0 l.
Lemma sum_snoc l x : sum (l ++ [x]) = sum l + x.
Proof. unfold sum. induction l as [|y l IH]; cbn in *; lia. Qed.

(** The codes at the ends of a 12-bit converter. *)
Definition AtTheEnd (code : Z) : Prop := code = - 2 ^ 11 \/ code = 2 ^ 11 - 1.
#[export] Instance at_the_end_dec code : Decision (AtTheEnd code).
Proof. unfold AtTheEnd. apply _. Defined.

Lemma is_clipped_spec i q :
  CaptureStats.is_clipped i q = bool_decide (AtTheEnd i \/ AtTheEnd q).
Proof.
  unfold CaptureStats.is_clipped, AtTheEnd. apply eq_true_iff_eq.
  rewrite bool_decide_eq_true, !orb_true_iff, !Z.eqb_eq. lia.
Qed.

(** The statistics of the samples [l]. *)
Record Describes (l : list (Z * Z)) (stats : CaptureStats.t) : Prop := {
  de_samples : stats.(CaptureStats.samples) = length_z l;
  de_sum_i : stats.(CaptureStats.sum_i) = sum (map fst l);
  de_sum_q : stats.(CaptureStats.sum_q) = sum (map snd l);
  de_power : stats.(CaptureStats.sum_power)
             = fold_left f64_add (map (fun s => CaptureStats.power_of s.1 s.2) l) (f64_of_Z 0);
  de_min_i : Least 32767 (map fst l) stats.(CaptureStats.min_i);
  de_max_i : Greatest (-32768) (map fst l) stats.(CaptureStats.max_i);
  de_min_q : Least 32767 (map snd l) stats.(CaptureStats.min_q);
  de_max_q : Greatest (-32768) (map snd l) stats.(CaptureStats.max_q);
  de_clipped : stats.(CaptureStats.clipped)
               = length_z (List.filter (fun s => bool_decide (AtTheEnd s.1 \/ AtTheEnd s.2)) l);
}.

Lemma describes_nothing : Describes [] CaptureStats.default.
Proof.
  constructor; try reflexivity; split; cbn; try lia; split; auto; intros x Hx; inversion Hx.
Qed.

Lemma describes_sample l stats s :
  Describes l stats -> Describes (l ++ [s]) (CaptureStats.observe_sample stats s).
Proof.
  intros [H1 H2 H3 H4 H5 H6 H7 H8 H9]. destruct s as [i q].
  constructor; cbn; rewrite ?map_app; cbn [map fst snd];
    rewrite ?sum_snoc, ?H2, ?H3; auto using least_snoc, greatest_snoc.
  - rewrite H1. unfold length_z. rewrite length_app. cbn. lia.
  - rewrite fold_left_app. cbn [fold_left]. now rewrite H4.
  - rewrite List.filter_app. cbn [List.filter fst snd]. unfold length_z in *. rewrite length_app, Nat2Z.inj_add, <- H9.
    rewrite is_clipped_spec. destruct (bool_decide _); cbn; lia.
Qed.

Lemma describes_iq more : forall l stats,
  Describes l stats -> Describes (l ++ more) (CaptureStats.observe_iq more stats).
Proof.
  unfold CaptureStats.observe_iq. induction more as [|s more IH]; intros l stats Hd; cbn [fold_left].
  - now rewrite app_nil_r.
  - replace (l ++ s :: more) with ((l ++ [s]) ++ more) by now rewrite <- app_assoc.
    apply IH, describes_sample, Hd.
Qed.

Lemma describes_refill l stats bytes elapsed :
  Describes l stats -> Describes l (CaptureStats.observe_refill bytes elapsed stats).
Proof. intros []. now constructor. Qed.

Section Reads.
Context `{Iio} `{SpectrumMath} `{RadioContext}.

Lemma samples_read_app ops1 : forall log ops2,
  samples_read log (ops1 ++ ops2) = samples_read log ops1 ++ samples_read (log ++ ops1) ops2.
Proof.
  induction ops1 as [|op ops1 IH]; intros log ops2; cbn.
  - now rewrite app_nil_r.
  - now rewrite IH, <- !app_assoc.
Qed.

Lemma samples_read_nothing ops : forall log, Forall reads_nothing ops -> samples_read log ops = [].
Proof.
  induction ops as [|op ops IH]; intros log Hf; [reflexivity|].
  apply Forall_cons_1 in Hf as [Hop Hf]. cbn. rewrite IH by exact Hf. now destruct op.
Qed.

Lemma full_step cfg i q size before c s c' s' l :
  cfg.(Config.analysis) = Analysis.Full ->
  capture_step cfg i q size before c s = (Ok c', s') -> Describes l c.(Capture.stats) ->
  exists ops, s'.(log) = s.(log) ++ ops /\ s'.(printed) = s.(printed)
  /\ Describes (l ++ samples_read s.(log) ops) c'.(Capture.stats).
Proof.
  intros Hfull. unfold capture_step. rewrite Hfull. unfold read_samples, radio, call.
  rewrite bind_run. destruct (map_err _ _) as [bytes|e]; [|discriminate].
  rewrite bind_run. cbn. intros [= <- <-] Hd. cbn. exists [Refill; ChannelData i q].
  rewrite <- app_assoc. split; [reflexivity|]. split; [reflexivity|].
  cbn. rewrite app_nil_r, <- app_assoc. now apply describes_iq, describes_refill.
Qed.

Lemma full_loop cfg i q size started fuel : forall c s c' s' l,
  cfg.(Config.analysis) = Analysis.Full ->
  capture_loop fuel cfg i q size started c s = (Ok (Some c'), s') -> Describes l c.(Capture.stats) ->
  exists ops, s'.(log) = s.(log) ++ ops /\ s'.(printed) = s.(printed)
  /\ Describes (l ++ samples_read s.(log) ops) c'.(Capture.stats).
Proof.
  induction fuel as [|fuel IH]; intros c s c' s' l Hfull Hrun Hd; [discriminate|].
  cbn [capture_loop] in Hrun. rewrite bind_run in Hrun. cbn [now gets] in Hrun.
  destruct (_ <? _).
  - apply bindM_Ok in Hrun as (c1&s1&Hstep&Hrun).
    destruct (full_step _ _ _ _ _ _ _ _ _ _ Hfull Hstep Hd) as (ops1&Hops1&Hp1&Hd1).
    destruct (IH _ _ _ _ _ Hfull Hrun Hd1) as (ops2&Hops2&Hp2&Hd2).
    exists (ops1 ++ ops2). rewrite Hops2, Hops1, app_assoc, Hp2, Hp1. split; [reflexivity|].
    split; [reflexivity|].
    rewrite samples_read_app, app_assoc. now rewrite Hops1 in Hd2.
  - injection Hrun as <- <-. exists []. rewrite app_nil_r. split; [reflexivity|].
    split; [reflexivity|]. cbn. now rewrite app_nil_r.
Qed.

Lemma radio_Ok {A} (Q : Op -> Prop) (m : M Log Failure A) s a s' :
  Within Q m -> radio m s = (Ok a, s') ->
  exists ops, s'.(log) = s.(log) ++ ops /\ s'.(printed) = s.(printed) /\ Forall Q ops.
Proof.
  intros Hm. unfold radio. destruct (m s.(log)) as [r l] eqn:Em. intros [= -> <-].
  destruct (Hm _ _ _ Em) as (ops&->&Hf). exists ops. auto.
Qed.

Lemma report_Ok cfg rate started c s u s' :
  cfg.(Config.analysis) = Analysis.Full -> report cfg rate started c s = (Ok u, s') ->
  s'.(log) = s.(log) /\ c.(Capture.stats).(CaptureStats.samples) <> 0
  /\ exists elapsed, s'.(printed)
     = s.(printed) ++ [Statistics c.(Capture.stats) elapsed cfg.(Config.sample_rate_hz) rate Analysis.Full;
                       Finished Command.Capture].
Proof.
  intros Hfull. unfold report. rewrite Hfull. rewrite bind_run. cbn -[Z.eqb].
  destruct (Z.eqb_spec (CaptureStats.samples (Capture.stats c)) 0); cbn; [discriminate|].
  intros [= _ <-]. cbn. rewrite <- app_assoc. eauto.
Qed.

(** What a full capture that succeeds has read and printed. *)
Definition Described (cfg : Config.t) (s s' : Run) : Prop :=
  exists ops stats elapsed rate,
    s'.(log) = s.(log) ++ ops
    /\ s'.(printed) = s.(printed) ++ [Statistics stats elapsed cfg.(Config.sample_rate_hz) rate Analysis.Full;
                                      Finished Command.Capture]
    /\ Describes (samples_read s.(log) ops) stats /\ samples_read s.(log) ops <> [].

Lemma full_capture cfg fuel s s' :
  cfg.(Config.analysis) = Analysis.Full -> capture fuel cfg s = (Ok true, s') -> Described cfg s s'.
Proof.
  intros Hfull. unfold capture. intros (rate&s1&Hm1&Hrun)%bindM_Ok.
  apply (radio_Ok reads_nothing) in Hm1 as (o1&Hl1&Hp1&Hf1); [|now apply configure_phy_within].
  apply bindM_Ok in Hrun as ([[i q] size]&s2&Hm2&Hrun).
  apply (radio_Ok reads_nothing) in Hm2 as (o2&Hl2&Hp2&Hf2); [|now apply (prepare_rx_within cfg)].
  rewrite lift_bind_run in Hrun. destruct (map_err _ _) as [aggregator|e]; [|discriminate].
  apply bindM_Ok in Hrun as (u&s3&Hm3&Hrun).
  apply (radio_Ok reads_nothing) in Hm3 as (o3&Hl3&Hp3&Hf3); [|now apply within_call].
  unfold while_buffered in Hrun. rewrite bind_run in Hrun. unfold attempt in Hrun.
  rewrite bind_run in Hrun. cbn [now gets] in Hrun. rewrite bind_run in Hrun.
  destruct (capture_loop _ _ _ _ _ _ _ _) as [[[c|]|e] s4] eqn:Hloop; [|discriminate|discriminate].
  rewrite bind_run in Hrun. destruct (report _ _ _ _ _) as [[u'|e] s5] eqn:Hreport; [|discriminate].
  apply (full_loop _ _ _ _ _ _ _ _ _ _ [] Hfull) in Hloop as (o4&Hl4&Hp4&Hd); [|apply describes_nothing].
  apply report_Ok in Hreport as (Hl5&Hne&elapsed&Hp5); [|exact Hfull].
  injection Hrun as <-. cbn [log printed app] in *.
  assert (Hn : Forall reads_nothing (o1 ++ o2 ++ o3)) by (rewrite !Forall_app; auto).
  assert (Hl : s3.(log) = s.(log) ++ o1 ++ o2 ++ o3) by (rewrite Hl3, Hl2, Hl1, <- !app_assoc; reflexivity).
  exists ((o1 ++ o2 ++ o3) ++ o4 ++ [DropBuffer]), c.(Capture.stats), elapsed, rate.
  assert (Hread : samples_read s.(log) ((o1 ++ o2 ++ o3) ++ o4 ++ [DropBuffer]) = samples_read s3.(log) o4).
  { rewrite (samples_read_app (o1 ++ o2 ++ o3)), (samples_read_nothing (o1 ++ o2 ++ o3)), <- Hl by exact Hn.
    rewrite samples_read_app. apply app_nil_r. }
  rewrite Hread.
  split; [|split; [now rewrite Hp5, Hp4, Hp3, Hp2, Hp1|split; [exact Hd|]]].
  - rewrite Hl5, Hl4, Hl, <- !app_assoc. reflexivity.
  - intros Hnil. apply Hne. rewrite (de_samples _ _ Hd), Hnil. reflexivity.
Qed.
End Reads.

(** C34: A capture with the full analysis that succeeds prints the statistics of exactly the samples the
    radio delivered: over all the buffers it read, one after the other, their number (not
    zero), the sums, the power as the code rounds it, the least and the greatest code of both
    channels and the number of samples at either end of the converter. *)
Theorem full_capture_describes_samples `{Iio} `{SpectrumMath} `{RadioContext} args cfg s s' :
  Config.parse args = Ok cfg -> cfg.(Config.command) = Command.Capture ->
  cfg.(Config.analysis) = Analysis.Full -> run args s = (Ok true, s') -> Described cfg s s'.
Proof.
  intros Hparse Hcommand Hfull. unfold run. rewrite Hparse. cbn [map_err]. rewrite lift_bind_run.
  rewrite lift_bind_run. destruct (map_err _ _); [|discriminate].
  rewrite lift_bind_run. destruct (map_err _ _); [|discriminate].
  rewrite bind_run. destruct (radio validate_device_layout s) as [[u|e] s1] eqn:Hl; [|discriminate].
  rewrite Hcommand. intros Hrun. apply full_capture in Hrun; [|exact Hfull].
  assert (Hs : s1 = s).
  { pose proof (layout_log _ _ _ Hl) as Hlog. unfold radio in Hl.
    destruct (validate_device_layout _). injection Hl as _ <-. cbn in Hlog. destruct s. cbn in *. congruence. }
  now rewrite <- Hs.
Qed.


(** ** A capture *)
Module RadioTestSamples.
(** A refill takes a tenth of a second and brings two samples. *)
#[export] Instance iio : Iio := {|
  has_device := fun _ => true;
  channels := @channels SoftwareSweepSamples.radio;
  find_input_channel := fun _ => SoftwareSweepSamples.position;
  find_output_channel := fun _ => SoftwareSweepSamples.position;
  write_reply := fun _ => Ok tt;
  read_reply := @read_reply SoftwareSweepSamples.radio;
  enabled_reply := fun _ => true;
  sample_size_reply := fun _ => Ok 4;
  create_buffer_reply := fun _ => Ok tt;
  refill_reply := fun _ => Ok 8;
  channel_data := fun log => [(refill_count log, -2048); (3, - refill_count log)];
  elapsed := fun started now => 100 * refill_count (drop (length started) now);
|}.
#[export] Instance context : RadioContext := {|
  from_uri := fun _ => Ok tt;
  set_timeout := Ok tt;
  data_format := fun _ _ => DataFormat.mk true 16 12 0;
|}.
Definition args : list string := ["capture"; "--seconds"; "1"; "--center-freq"; "433920000"]%string.
Definition start : Run := running [] [].
Definition config : Config.t :=
  match Config.parse args with Ok cfg => cfg | Err _ => Config.default end.
Definition finish : Run := (@run iio AggregationSamples.math context args start).2.
End RadioTestSamples.
#[local] Existing Instances RadioTestSamples.iio RadioTestSamples.context AggregationSamples.math.

(** Ten buffers of two samples; each holds one at the end of the converter. *)
Example a_capture :
  (run RadioTestSamples.args RadioTestSamples.start).1 = Ok true
  /\ match RadioTestSamples.finish.(printed) with
     | Statistics stats elapsed 2100000 2100000 Analysis.Full :: _ =>
         elapsed = 1000 /\ stats.(CaptureStats.buffers) = 10
         /\ stats.(CaptureStats.samples) = 20 /\ stats.(CaptureStats.clipped) = 10
         /\ stats.(CaptureStats.sum_i) = 55 + 30 /\ stats.(CaptureStats.min_i) = 1
         /\ stats.(CaptureStats.max_i) = 10 /\ stats.(CaptureStats.max_refill_ms) = 100
     | _ => False
     end.
Proof. vm_compute. intuition congruence. Qed.

Lemma sample_parse : Config.parse RadioTestSamples.args = Ok RadioTestSamples.config.
Proof. vm_compute. reflexivity. Qed.

Lemma captures_stay_in_limits_witness :
  Forall (CaptureOp RadioTestSamples.config) RadioTestSamples.finish.(log).
Proof.
  destruct (captures_stay_in_limits RadioTestSamples.args RadioTestSamples.start
              (run RadioTestSamples.args RadioTestSamples.start).1 RadioTestSamples.finish
              (surjective_pairing _)) as [Hl|(cfg&Hcfg&_&Hlog)].
  - vm_compute in Hl. discriminate.
  - rewrite sample_parse in Hcfg. injection Hcfg as <-. destruct Hlog as (ops&Hl&Hf).
    rewrite Hl. exact Hf.
Defined.

Lemma sample_refills_take_time : RefillsTakeTime.
Proof.
  intros started ops. cbn -[refill_count Z.mul]. rewrite drop_app_length.
  pose proof (refill_count_nonneg ops). lia.
Qed.

Lemma capture_ends_witness : (run RadioTestSamples.args RadioTestSamples.start).1 <> Ok false.
Proof. exact (capture_ends RadioTestSamples.args RadioTestSamples.start sample_refills_take_time). Defined.

Lemma full_capture_describes_samples_witness :
  Described RadioTestSamples.config RadioTestSamples.start RadioTestSamples.finish.
Proof.
  apply (full_capture_describes_samples RadioTestSamples.args); [exact sample_parse|reflexivity|reflexivity|].
  vm_compute. reflexivity.
Defined.

(** What the program's own test computes. *)
Example computes_iq_statistics :
  let stats := CaptureStats.observe_iq [(1, 4); (-2, 5); (3, -6); (-2048, 0)] CaptureStats.default in
  stats.(CaptureStats.samples) = 4 /\ stats.(CaptureStats.sum_i) = -2046
  /\ stats.(CaptureStats.sum_q) = 3 /\ stats.(CaptureStats.min_i) = -2048
  /\ stats.(CaptureStats.max_i) = 3 /\ stats.(CaptureStats.clipped) = 1.
Proof. vm_compute. auto 6. Qed.
